(* ===== verification/_CoqProject ===== *)
-Q . S2P
Prelude.v
Bitfield.v
HptConsts.v
Hpt.v
HptLemmas.v
HptProps.v
Mem.v
LibcString.v
Hpto.v
Hptw.v
Walk.v
HptwProofs.v
HptwInsert.v
Ept.v
EptCtx.v
EptMap.v
EptBuild.v
EptMtrr.v
EptProps.v
HptwAccess.v
CString.v
Strtoul.v
Cmdline.v
Stdio.v
StdioProps.v
Spinlock.v
Paging.v
Io.v
Smp.v
Screen.v
Devices.v
Timer.v
Desc.v
VmxCtls.v
VmcsFields.v
Vmcs.v
VmcsProps.v
Print.v
Vcpu.v
Asm.v
Mouse.v
Vmx.v
VmxProps.v
Launch.v
User.v
UserProps.v
PalSem.v
Nmi.v
NmiMachine.v
NmiSim.v
NmiSpec.v
NmiProps.v
Guest.v
GuestMachine.v
GuestRules.v
GuestTests.v
GuestEpt.v
GuestBitmap.v
GuestMsr.v
GuestProps.v
Idt.v
IdtProps.v
Kernel.v
KernelProps.v
ShvProps.v
Schedule.v
Boot.v
BootProps.v
