(* ===== verification/Prelude.v ===== *)
(** * SHV, the Small HyperVisor: a model of its sources and what holds of it

    SHV is a small hypervisor for 32-bit (with and without PAE) and 64-bit Intel processors.  It starts on every
    processor, sets up page tables, descriptor tables, timers and the console, enters VMX operation and runs a guest in
    the same program; guest and hypervisor then test the features of VMX against each other: MSR areas, EPT, VPID, VMXOFF,
    MSR bitmaps, user mode and, in a program of its own, non-maskable interrupts.  This development models the C files under
    src/src with the headers under src/include, and one routine of the assembly code, [shv_disable_enable_paging] of [shv-asm.S].

    ** Conventions

    - An integer of the program is a [Z]; [u8], [u16], [u32] and [u64] are the conversions to the C types and [wrap w] is
      the conversion to w bits.  [subarch] is the variant of the build: [I386], [I386_PAE] or [AMD64]; [ptr_bits a] is the
      width of [long], [size_t] and pointers.
    - A computation that can stop returns [res]: [Err Halt] is a failed [ASSERT] or [HALT], [Err Undef] something C leaves
      undefined (or the program never does), [Err NoFuel] a loop that has not ended when its fuel is used up.
    - Memory ([mem], file Mem) is a finite map from addresses to bytes, little endian.  Code that talks to devices or to the
      processor is in the monad [IO] (file Io): memory and the trace of the accesses that leave the program, latest first.
      What a device or the processor answers is a function of the trace, a member of the classes [Io.Device] and
      [Vmcs.Cpu]; nothing is assumed of it but what a theorem says.
    - Addresses the linker chooses are records of parameters ([ept_syms], [vmx_syms], [desc_syms], [user_syms], [nmi_syms]).
    - Locks and barriers, where several processors meet, are step functions: a processor makes one access to shared memory at
      a time, and an execution is any interleaving of such steps.

    ** Parts

    - Prelude: the integers and [res]; Bitfield ([bitfield.h]); LibcString ([libc_string.c]); CString, Strtoul
      ([strtoul.c]); Cmdline ([cmdline.c]); Stdio and StdioProps ([libc_stdio.c]: [kvprintf], [vsnprintf]); Print (a checker
      of formats that shows a call of [printf] never faults).
    - Page tables: HptConsts, Hpt, HptLemmas, HptProps ([hpt.c], [hpt_consts.h]: entries of the five kinds of page tables),
      Hpto ([hpto.c]: entries with their kind and level), Hptw, Walk, HptwProofs, HptwInsert, HptwAccess ([hptw.c]: walking,
      inserting with allocation, access checks, copying), Paging ([paging.c]: the tables of the hypervisor), Ept, EptCtx,
      EptMap, EptBuild, EptMtrr, EptProps ([shv-ept.c]: memory types from the MTRRs and the EPT of the guest).
    - Devices: Io ([cpu.h]), Spinlock ([spinlock.c]), Smp ([smp.c]: ACPI tables and starting processors; [get_vcpu] of
      [idt.c]), Screen ([debug*.c], [shv-console.c]), Devices ([shv-pic.c], [shv-keyboard.c], [shv-mouse.c]), Mouse (a PS/2 controller
      on which the driver of the mouse gets through), Timer ([shv-timer.c] and the timer interrupt of [shv-nmi.c]), Desc ([gdt.c], [idt.c]).
    - VMX: VmxCtls ([_vmx_ctls*.h]), VmcsFields ([_vmx_vmcs_fields.h]), Vmcs and VmcsProps ([shv-vmcs.c], [_vmx.h]), Vcpu ([xmhf.h],
      [cpu.h]), Asm ([shv-asm.S]: turning paging off and on), Vmx, VmxProps and Launch ([shv-vmx.c]: filling in the VMCS, handling VM exits, and [shv_vmx_main] as a whole), User, UserProps, PalSem
      ([shv-user.c]: user mode and the semaphore that limits it).
    - The guest ([shv-guest.c]): Guest has its tests on both sides, the code of the guest and the handlers of the exits it causes,
      and its main loop, over the class [Guest.Guest], what the processor does with VM exits and VM entries, with the accesses of
      the guest to MSRs, and with memory through the EPT; GuestMachine is an instance written after the Intel manual; GuestRules has rules for
      total correctness on it, GuestTests, GuestEpt, GuestBitmap and GuestMsr run the tests, GuestProps the main loop.
    - Coming up: Kernel ([kernel.c], [smp_init] and [shv_main]), KernelProps and ShvProps; Schedule and Boot, BootProps (what all processors do together
      in [kernel_main_smp], [construct_idt] and [shv_main]); Idt, IdtProps ([handle_idt] of [idt.c], which every interrupt and exception goes through).
    - The program of non-maskable interrupts ([shv-nmi.c]): Nmi has its thirty experiments, handlers and main program over the
      class [Nmi.Machine], what processor 1 does with interrupts, VM exits and VM entries; NmiMachine is an instance written
      after the Intel manual; NmiSim relates a run to one with a processor 0 that sends its interrupts at once; NmiSpec runs
      every experiment there from every state the guest can rest in; NmiProps has the results for the program.

    A part requires the parts it calls.  [printf] is used everywhere through Print; the page table code is used by Ept, Paging and
    User through the operations of Hptw with their [hptw_ctx]; the handlers of VM exits are called by [Vmx.vmexit_handler] through
    the parameter [call_handler], as the program calls them through [vmexit_handler_override].

    ** What the theorems show

    - Page tables: an insertion refines an update of the abstract map (HptwInsert, EptProps), walks give back what was inserted,
      the EPT of the first and of every later call of [shv_build_ept] maps the guest as intended and the tables of different
      processors do not overlap, so building one leaves the others alone; the hypervisor's own tables are the identity; user tables give user access below the limit;
      checked accesses permit exactly what every level of the walk permits, and the copies move the bytes they should.
    - VMX: the fields [shv_vmx_vmcs_init] writes and their values, and that they agree with each other; dumping and loading the
      VMCS; what [vmexit_handler] does for CPUID; where it stops.
    - Text: numbers, formats and options parse and print as C says, within bounds; every line of the terminal ends up where it
      should and nothing else changes.
    - Concurrency: mutual exclusion of the spin lock, at most three programs in user mode, and progress of the semaphore;
      no processor gets ahead of the others while they come up, and under every fair schedule all come up.
    - The guest: on a processor that does what the manual says any number of rounds of its tests passes, and they change nothing
      but what they should.
    - Coming up: which root pointer and which processors the search of the ACPI tables finds; what [kernel_main] leaves (options,
      page tables, tables of processors) and the commands it sends; where [shv_main] ends
      on each processor, what it sends to the timers, what it writes to CR0 and whether interrupts are on then, and that those that are to run a guest enter VMX operation and launch it with the VMCS as specified; every interrupt
      of a device is acknowledged once, but for the single shot of a timer when interrupts are off; an exception continues where the exception table says, or nowhere.
    - Non-maskable interrupts: on a processor that does what the manual says no experiment fails, for every timer period and in
      every order, and the program reaches its end.

    ** Fuel and bounds

    Loops without a structural measure take fuel.  A theorem about such a loop either holds for all fuel, or says how much is
    enough: the length of the string for the string functions, 64 digits for [ksprintn], the length of the table for the ACPI
    loops, the number of polls after which a device (the serial port, the PS/2 controller, a LAPIC) answers, the period times ten for a sleep of the NMI program, 4100 accesses
    for the semaphore.  The page table walks recurse on the level.

    ** Not modelled

    - The other assembly files ([boot.S], [smp-asm.S], [idt-asm.S], [shv-vmx-asm.S], [shv-guest-asm.S], [shv-user-asm.S]), the switches
      between 64-bit and 32-bit code in [shv-asm.S], and inline assembly beyond the instruction it executes: what they do is stated
      where a definition stands for it (entering the guest, the stack of an interrupt), and they have no definition of their own.
    - The hypercalls of TrustVisor, which another hypervisor answers: a parameter.  The tests of VMXOFF and of user mode in the guest have
      definitions but are outside the theorem on the main loop of the guest: they leave VMX operation and the program in ways the
      machine of GuestMachine has no rules for.
    - The locking of lines in [printf] is in the step functions of Spinlock; elsewhere a call of [printf] is one step, and its
      output is events of the trace ([EPut]), which Screen takes to the screen and the serial port.
    - The variables of [shv-global.c] are parts of the states and parameters of the definitions that use them; headers that only
      have constants no C file uses ([_processor.h], [_msr.h], [_acpi.h] in part) have no definitions.
    - Time: interrupts arrive between steps where a definition says so; the timer interrupts of processor 0 in Nmi happen while
      processor 1 sleeps.  Caches and the weak ordering of memory are not modelled.
    - The tools under src/tools and the build files. *)
From Stdlib Require Export ZArith Lia.
From stdpp Require Export base tactics numbers option list gmap.
#[global] Open Scope Z_scope.

(** ** Outcomes of C code

    [Halt] is a failed [ASSERT] / [EU_VERIFY] or a call of [HALT] (all of them
    end in [cpu_halt], which never returns); [Undef] is behaviour the C
    standard leaves undefined (a shift by a negative or too large count, an
    access outside an array, a read of an uninitialised object, a division by
    zero); [NoFuel] is a loop that was still running when the fuel of the model
    ran out. *)
Inductive fault := Halt | Undef | NoFuel.

Inductive res (A : Type) : Type :=
| Ok (a : A)
| Err (e : fault).
Arguments Ok {A} _.
Arguments Err {A} _.

#[global] Instance fault_eq_dec : EqDecision fault.
Proof. solve_decision. Defined.

#[global] Instance res_ret : MRet res := fun _ a => Ok a.
#[global] Instance res_bind : MBind res := fun _ _ f m =>
  match m with Ok a => f a | Err e => Err e end.
#[global] Instance res_fmap : FMap res := fun _ _ f m =>
  match m with Ok a => Ok (f a) | Err e => Err e end.

(** [ASSERT(b)] of include/xmhf.h, and [assert] of include/bitfield.h, which
    is the same macro. *)
Definition ASSERT (b : bool) : res unit := if b then Ok tt else Err Halt.

Definition is_ok {A} (r : res A) : bool :=
  match r with Ok _ => true | Err _ => false end.

Section res_lemmas.
Context {A B : Type}.

Lemma bind_Ok_inv (m : res A) (f : A -> res B) b :
  m ≫= f = Ok b -> exists a, m = Ok a /\ f a = Ok b.
Proof. destruct m as [a|e]; simpl; [eauto|done]. Qed.

Lemma bind_assoc {C} (m : res A) (f : A -> res B) (g : B -> res C) :
  (m ≫= f) ≫= g = m ≫= (fun a => f a ≫= g).
Proof. by destruct m. Qed.

Lemma ASSERT_bind_inv b (k : unit -> res A) a :
  ASSERT b ≫= k = Ok a -> b = true /\ k tt = Ok a.
Proof. destruct b; simpl; [done|done]. Qed.

Lemma ASSERT_true (k : unit -> res A) b : b = true -> ASSERT b ≫= k = k tt.
Proof. intros ->. done. Qed.

Lemma ASSERT_false (k : unit -> res A) b : b = false -> ASSERT b ≫= k = Err Halt.
Proof. intros ->. done. Qed.
End res_lemmas.

(** Split a hypothesis [m ≫= f = Ok b] into its steps. *)
Ltac inv_bind H :=
  repeat match type of H with
  | ASSERT _ ≫= _ = Ok _ =>
      let E := fresh "Hassert" in apply ASSERT_bind_inv in H as [E H]
  | _ ≫= _ = Ok _ =>
      let a := fresh "r" in let E := fresh "Hstep" in
      apply bind_Ok_inv in H as (a & E & H); simpl in H
  end.

(** ** Machine integers *)

(** Value of an unsigned [w]-bit integer after wrap-around. *)
Definition wrap (w z : Z) : Z := z mod 2 ^ w.
(** Value of a signed [w]-bit two's complement integer with the bits of [z]. *)
Definition swrap (w z : Z) : Z :=
  let u := wrap w z in if u <? 2 ^ (w - 1) then u else u - 2 ^ w.
Definition is_u (w z : Z) : Prop := 0 <= z < 2 ^ w.
Definition u8 (z : Z) : Z := wrap 8 z.
Definition u16 (z : Z) : Z := wrap 16 z.
Definition u32 (z : Z) : Z := wrap 32 z.
Definition u64 (z : Z) : Z := wrap 64 z.

(** [x << n] and [x >> n] on an unsigned [w]-bit type: undefined unless
    [0 <= n < w]. *)
Definition shl (w x n : Z) : res Z :=
  if (0 <=? n) && (n <? w) then Ok (wrap w (Z.shiftl x n)) else Err Undef.
Definition shr (w x n : Z) : res Z :=
  if (0 <=? n) && (n <? w) then Ok (Z.shiftr x n) else Err Undef.
(** [~x] on an unsigned [w]-bit type. *)
Definition bnot (w x : Z) : Z := wrap w (Z.lnot x).

(** Truth value of an integer used as a condition. *)
Definition truth (z : Z) : bool := negb (z =? 0).
Definition b2z (b : bool) : Z := if b then 1 else 0.

(** The three configurations the build supports ([configure.ac]). *)
Inductive subarch := I386 | I386_PAE | AMD64.
#[global] Instance subarch_eq_dec : EqDecision subarch.
Proof. solve_decision. Defined.
(** Width of [uintptr_t], [size_t] and [unsigned long]. *)
Definition ptr_bits (a : subarch) : Z := match a with AMD64 => 64 | _ => 32 end.

#[global] Arguments Z.testbit : simpl never.
#[global] Arguments Z.shiftl : simpl never.
#[global] Arguments Z.shiftr : simpl never.
#[global] Arguments Z.land : simpl never.
#[global] Arguments Z.lor : simpl never.
#[global] Arguments Z.pow : simpl never.
#[global] Arguments Z.modulo : simpl never.
#[global] Arguments Z.div : simpl never.
#[global] Arguments wrap : simpl never.
#[global] Arguments u8 : simpl never.
#[global] Arguments u16 : simpl never.
#[global] Arguments u32 : simpl never.
#[global] Arguments u64 : simpl never.

(** ** Bits of integers *)

Create Rewrite HintDb zbits.

Lemma is_u_wrap w z : 0 <= w -> is_u w (wrap w z).
Proof. intros. unfold is_u, wrap. apply Z.mod_pos_bound, Z.pow_pos_nonneg; lia. Qed.

Lemma wrap_small w z : is_u w z -> wrap w z = z.
Proof. intros. by apply Z.mod_small. Qed.

Lemma wrap_wrap w w' x : 0 <= w <= w' -> wrap w (wrap w' x) = wrap w x.
Proof.
  intros. unfold wrap. apply Z.mod_mod_divide.
  exists (2 ^ (w' - w)). rewrite <- Z.pow_add_r by lia. f_equal. lia.
Qed.

Lemma wrap_testbit w z i :
  0 <= w -> 0 <= i -> Z.testbit (wrap w z) i = (i <? w) && Z.testbit z i.
Proof.
  intros. unfold wrap. destruct (Z.ltb_spec i w); simpl.
  - by rewrite Z.mod_pow2_bits_low by lia.
  - by rewrite Z.mod_pow2_bits_high by lia.
Qed.

Lemma is_u_testbit_high w z i : is_u w z -> 0 <= w <= i -> Z.testbit z i = false.
Proof.
  intros [? ?] ?. rewrite <- (Z.mod_small z (2 ^ w)) by lia.
  apply Z.mod_pow2_bits_high; lia.
Qed.

Lemma is_u_of_testbit w z :
  0 <= w -> 0 <= z -> (forall i, w <= i -> Z.testbit z i = false) -> is_u w z.
Proof.
  intros Hw Hz Hb. split; [done|].
  assert (z = z mod 2 ^ w) as ->; [|apply Z.mod_pos_bound, Z.pow_pos_nonneg; lia].
  apply Z.bits_inj'. intros i Hi. destruct (Z.ltb_spec i w).
  - by rewrite Z.mod_pow2_bits_low by lia.
  - rewrite Z.mod_pow2_bits_high by lia. apply Hb; lia.
Qed.

Lemma is_u_le w w' z : 0 <= w <= w' -> is_u w z -> is_u w' z.
Proof.
  intros ? [? ?]. split; [done|].
  apply Z.lt_le_trans with (2 ^ w); [done|]. apply Z.pow_le_mono_r; lia.
Qed.

Lemma is_u_ext w x y :
  0 <= w -> is_u w x -> is_u w y ->
  (forall i, 0 <= i < w -> Z.testbit x i = Z.testbit y i) -> x = y.
Proof.
  intros Hw Hx Hy H. apply Z.bits_inj'. intros i Hi.
  destruct (Z.ltb_spec i w); [apply H; lia|].
  by rewrite !(is_u_testbit_high w) by (done || lia).
Qed.

Lemma bnot_testbit w x i :
  0 <= w -> 0 <= i -> Z.testbit (bnot w x) i = (i <? w) && negb (Z.testbit x i).
Proof.
  intros. unfold bnot. rewrite wrap_testbit by lia. by rewrite Z.lnot_spec by lia.
Qed.

Lemma shiftl_testbit x n i :
  0 <= i -> Z.testbit (Z.shiftl x n) i = (n <=? i) && Z.testbit x (i - n).
Proof.
  intros. rewrite Z.shiftl_spec by lia.
  destruct (Z.leb_spec n i); simpl; [done|]. apply Z.testbit_neg_r; lia.
Qed.

Lemma pow2_testbit n i : 0 <= n -> Z.testbit (2 ^ n) i = (i =? n).
Proof.
  intros. destruct (Z.eqb_spec i n) as [->|].
  - by apply Z.pow2_bits_true.
  - apply Z.pow2_bits_false; lia.
Qed.

Lemma b2z_testbit b i : 0 <= i -> Z.testbit (b2z b) i = b && (i =? 0).
Proof.
  intros. destruct b; simpl; [|apply Z.bits_0].
  change 1 with (2 ^ 0). rewrite pow2_testbit by lia. done.
Qed.

Lemma ones_testbit n i :
  0 <= n -> 0 <= i -> Z.testbit (Z.ones n) i = (i <? n).
Proof.
  intros. destruct (Z.ltb_spec i n).
  - apply Z.ones_spec_low; lia.
  - apply Z.ones_spec_high; lia.
Qed.

#[export] Hint Rewrite Z.land_spec Z.lor_spec Z.lxor_spec Z.bits_0 : zbits.
#[export] Hint Rewrite wrap_testbit bnot_testbit shiftl_testbit Z.shiftr_spec
  ones_testbit pow2_testbit b2z_testbit using lia : zbits.

(** Decide the integer comparisons of a goal about single bits: rewrite with
    the bit lemmas, then case on every comparison and discard the impossible
    cases by [lia]. *)
Ltac bcase :=
  repeat match goal with
  | |- context [?a <=? ?b] => destruct (Z.leb_spec a b); try (exfalso; lia)
  | |- context [?a <? ?b] => destruct (Z.ltb_spec a b); try (exfalso; lia)
  | |- context [?a =? ?b] => destruct (Z.eqb_spec a b); try (exfalso; lia)
  end.

Ltac bsimpl :=
  rewrite ?andb_true_r, ?andb_false_r, ?orb_false_r, ?orb_true_r,
    ?andb_true_l, ?andb_false_l, ?orb_false_l, ?orb_true_l; simpl.

(** Comparisons between closed integers. *)
Ltac zconst := vm_compute; repeat (apply conj); congruence.

Ltac bits := repeat (progress (autorewrite with zbits; bcase; bsimpl)).
