(* ===== verification/Bitfield.v ===== *)
(** [include/bitfield.h]: extracting and inserting bit ranges of 32- and 64-bit
    unsigned integers.

    Every function is translated with the shifts of the source, so a call with
    an impossible range is [Err Undef] and a value that does not fit is
    [Err Halt].  The lemmas describe the results bit by bit: [get64] and [ins64]
    are the total functions the partial ones agree with on valid ranges. *)
From S2P Require Import Prelude.

Definition ZERO_HI64 (x bits : Z) : res Z := y ← shl 64 x bits; shr 64 y bits.
Definition ZERO_LO64 (x bits : Z) : res Z := y ← shr 64 x bits; shl 64 y bits.
Definition ZERO_HI32 (x bits : Z) : res Z := y ← shl 32 x bits; shr 32 y bits.
Definition ZERO_LO32 (x bits : Z) : res Z := y ← shr 32 x bits; shl 32 y bits.

Definition MASKRANGE64 (hi lo : Z) : res Z :=
  x ← ZERO_HI64 0xffffffffffffffff (64 - hi - 1); ZERO_LO64 x lo.
Definition MASKRANGE32 (hi lo : Z) : res Z :=
  x ← ZERO_HI32 0xffffffff (32 - hi - 1); ZERO_LO32 x lo.

Definition MASKBIT64 (bit : Z) : res Z := shl 64 1 bit.
(** [1ul << bit]: [unsigned long], then truncated to 32 bits on return. *)
Definition MASKBIT32 (a : subarch) (bit : Z) : res Z :=
  x ← shl (ptr_bits a) 1 bit; Ok (u32 x).

Definition BR64_GET_HL (x64 hi lo : Z) : res Z :=
  x ← ZERO_HI64 x64 (63 - hi); shr 64 x lo.

(** The 32-bit variants call [ZERO_HI64], as the source does. *)
Definition BR32_GET_HL (x32 hi lo : Z) : res Z :=
  x ← ZERO_HI64 x32 (31 - hi); shr 64 x lo.

Definition BR64_SET_HL (x64 hi lo val : Z) : res Z :=
  v ← ZERO_HI64 val (63 - (hi - lo));
  ASSERT (v =? val) ;;
  m ← MASKRANGE64 hi lo;
  s ← shl 64 val lo;
  Ok (Z.lor (Z.land x64 (bnot 64 m)) s).

Definition BR32_SET_HL (x32 hi lo val : Z) : res Z :=
  v ← ZERO_HI64 val (31 - (hi - lo));
  ASSERT (v =? val) ;;
  m ← MASKRANGE32 hi lo;
  s ← shl 32 val lo;
  Ok (Z.lor (Z.land x32 (bnot 32 m)) s).

Definition BR64_GET_BIT (x64 pos : Z) : res Z :=
  m ← MASKRANGE64 pos pos; x ← shr 64 (Z.land x64 m) pos; Ok (u32 x).

Definition BR64_SET_BIT (x64 pos : Z) (val : bool) : res Z :=
  let bit := if val then 1 else 0 in
  m ← shl 64 1 pos; b ← shl 64 bit pos;
  Ok (Z.lor (Z.land x64 (bnot 64 m)) b).

Definition BR32_GET_BIT (x32 pos : Z) : res Z :=
  m ← MASKRANGE32 pos pos; shr 32 (Z.land x32 m) pos.

(** [bit] is a [u32]; [0x1ul] is an [unsigned long]. *)
Definition BR32_SET_BIT (a : subarch) (x32 pos : Z) (val : bool) : res Z :=
  let bit := if val then 1 else 0 in
  m ← shl (ptr_bits a) 1 pos; b ← shl 32 bit pos;
  Ok (u32 (Z.lor (Z.land x32 (bnot (ptr_bits a) m)) b)).

Definition BR64_COPY_BITS_HL (dst src src_hi src_lo offset : Z) : res Z :=
  v ← BR64_GET_HL src src_hi src_lo;
  BR64_SET_HL dst (src_hi + offset) (src_lo + offset) v.

(** [BR32_GET_HL] returns a [u64], which is truncated when it is passed on. *)
Definition BR32_COPY_BITS_HL (dst src src_hi src_lo offset : Z) : res Z :=
  v ← BR32_GET_HL src src_hi src_lo;
  BR32_SET_HL dst (src_hi + offset) (src_lo + offset) (u32 v).

#[global] Arguments BR64_GET_HL : simpl never.
#[global] Arguments BR64_SET_HL : simpl never.
#[global] Arguments BR64_GET_BIT : simpl never.
#[global] Arguments BR64_SET_BIT : simpl never.
#[global] Arguments BR64_COPY_BITS_HL : simpl never.
#[global] Arguments MASKBIT64 : simpl never.
#[global] Arguments MASKRANGE64 : simpl never.

(** ** The total functions they agree with *)

Definition get64 (x hi lo : Z) : Z := Z.land (Z.shiftr x lo) (Z.ones (hi - lo + 1)).

Definition ins64 (dst src hi lo off : Z) : Z :=
  Z.lor (Z.land dst (bnot 64 (wrap 64 (Z.shiftl (Z.ones (hi - lo + 1)) (lo + off)))))
        (wrap 64 (Z.shiftl (get64 src hi lo) (lo + off))).

Definition set64 (x pos : Z) (b : bool) : Z :=
  Z.lor (Z.land x (bnot 64 (2 ^ pos))) (Z.shiftl (b2z b) pos).

Lemma get64_testbit x hi lo i :
  0 <= lo <= hi -> 0 <= i ->
  Z.testbit (get64 x hi lo) i = (i <=? hi - lo) && Z.testbit x (i + lo).
Proof. intros. unfold get64. bits; done. Qed.

Lemma ins64_testbit dst src hi lo off i :
  0 <= lo <= hi -> 0 <= lo + off -> hi + off <= 63 -> 0 <= i < 64 ->
  Z.testbit (ins64 dst src hi lo off) i =
  if (lo + off <=? i) && (i <=? hi + off) then Z.testbit src (i - off)
  else Z.testbit dst i.
Proof.
  intros. unfold ins64, get64. bits; rewrite ?andb_false_r, ?orb_false_r; try done.
  f_equal; lia.
Qed.

Lemma is_u_lor w x y : 0 <= w -> is_u w x -> is_u w y -> is_u w (Z.lor x y).
Proof.
  intros Hw Hx Hy. apply is_u_of_testbit; [done| |].
  - apply Z.lor_nonneg. unfold is_u in *. lia.
  - intros i Hi. rewrite Z.lor_spec.
    by rewrite (is_u_testbit_high w x), (is_u_testbit_high w y) by (done || lia).
Qed.

Lemma is_u_land_r w x y : 0 <= w -> is_u w y -> is_u w (Z.land x y).
Proof.
  intros Hw Hy. apply is_u_of_testbit; [done| |].
  - apply Z.land_nonneg. unfold is_u in *. lia.
  - intros i Hi. rewrite Z.land_spec.
    rewrite (is_u_testbit_high w y) by (done || lia). apply andb_false_r.
Qed.

Lemma ins64_range dst src hi lo off : is_u 64 (ins64 dst src hi lo off).
Proof.
  apply is_u_lor; [lia| |by apply is_u_wrap].
  apply is_u_land_r; [lia|]. by apply is_u_wrap.
Qed.

Lemma set64_testbit x pos b i :
  0 <= pos < 64 -> 0 <= i < 64 ->
  Z.testbit (set64 x pos b) i = if i =? pos then b else Z.testbit x i.
Proof. intros. unfold set64. bits; try done. Qed.

Lemma set64_range x pos b : 0 <= pos < 64 -> is_u 64 (set64 x pos b).
Proof.
  intros. apply is_u_lor; [lia| |].
  - apply is_u_land_r; [lia|]. by apply is_u_wrap.
  - apply is_u_of_testbit; [lia| |].
    + apply Z.shiftl_nonneg. by destruct b.
    + intros i Hi. bits; done.
Qed.

#[export] Hint Rewrite get64_testbit ins64_testbit set64_testbit using lia : zbits.

(** ** Agreement on valid ranges *)

Lemma shl_ok w x n : 0 <= n < w -> shl w x n = Ok (wrap w (Z.shiftl x n)).
Proof. intros. unfold shl. by replace ((0 <=? n) && (n <? w)) with true by lia. Qed.

Lemma shr_ok w x n : 0 <= n < w -> shr w x n = Ok (Z.shiftr x n).
Proof. intros. unfold shr. by replace ((0 <=? n) && (n <? w)) with true by lia. Qed.

Lemma ZERO_HI64_ok x n :
  0 <= n < 64 -> ZERO_HI64 x n = Ok (Z.shiftr (wrap 64 (Z.shiftl x n)) n).
Proof. intros. unfold ZERO_HI64. rewrite shl_ok by lia; simpl. by apply shr_ok. Qed.

Lemma ZERO_HI64_land x n :
  0 <= n < 64 -> ZERO_HI64 x n = Ok (Z.land x (Z.ones (64 - n))).
Proof.
  intros. rewrite ZERO_HI64_ok by lia. f_equal.
  apply Z.bits_inj'. intros i Hi. bits; try done. f_equal; lia.
Qed.

Lemma MASKRANGE64_ok hi lo :
  0 <= lo <= hi -> hi <= 63 ->
  MASKRANGE64 hi lo = Ok (wrap 64 (Z.shiftl (Z.ones (hi - lo + 1)) lo)).
Proof.
  intros. unfold MASKRANGE64. rewrite ZERO_HI64_land by lia; simpl.
  unfold ZERO_LO64. rewrite shr_ok by lia; simpl. rewrite shl_ok by lia. f_equal.
  change 18446744073709551615 with (Z.ones 64).
  apply Z.bits_inj'. intros i Hi. bits; try done.
Qed.

Lemma BR64_GET_HL_ok x hi lo :
  0 <= lo <= hi -> hi <= 63 -> BR64_GET_HL x hi lo = Ok (get64 x hi lo).
Proof.
  intros. unfold BR64_GET_HL. rewrite ZERO_HI64_land by lia; simpl.
  rewrite shr_ok by lia. f_equal.
  apply Z.bits_inj'. intros i Hi. bits; try done.
Qed.

Lemma BR64_SET_HL_ok x hi lo v :
  0 <= lo <= hi -> hi <= 63 -> is_u (hi - lo + 1) v ->
  BR64_SET_HL x hi lo v = Ok (ins64 x v (hi - lo) 0 lo).
Proof.
  intros ?? Hv. unfold BR64_SET_HL. rewrite ZERO_HI64_land by lia; simpl.
  assert (Z.land v (Z.ones (64 - (63 - (hi - lo)))) = v) as ->.
  { rewrite Z.land_ones by lia. apply Z.mod_small.
    destruct Hv as [? Hv]. split; [done|]. by replace (64 - _) with (hi - lo + 1) by lia. }
  rewrite Z.eqb_refl; simpl. rewrite MASKRANGE64_ok by lia; simpl.
  rewrite shl_ok by lia; simpl. f_equal. unfold ins64.
  replace (hi - lo - 0 + 1) with (hi - lo + 1) by lia. rewrite Z.add_0_l.
  do 3 f_equal. apply Z.bits_inj'. intros i Hi. bits; try done.
  - by rewrite Z.add_0_r.
  - by rewrite (is_u_testbit_high (hi - lo + 1)) by (done || lia).
Qed.

Lemma BR64_SET_HL_overflow x hi lo v :
  0 <= lo <= hi -> hi <= 63 -> 0 <= v -> ~ is_u (hi - lo + 1) v ->
  BR64_SET_HL x hi lo v = Err Halt.
Proof.
  intros ?? Hv Hn. unfold BR64_SET_HL. rewrite ZERO_HI64_land by lia; simpl.
  rewrite ASSERT_false; [done|]. apply Z.eqb_neq. intros He. apply Hn.
  rewrite Z.land_ones in He by lia. rewrite <- He.
  replace (64 - (63 - (hi - lo))) with (hi - lo + 1) by lia.
  apply is_u_wrap; lia.
Qed.

Lemma get64_range x hi lo : 0 <= lo <= hi -> is_u (hi - lo + 1) (get64 x hi lo).
Proof.
  intros. unfold get64. rewrite Z.land_ones by lia. apply is_u_wrap; lia.
Qed.

Lemma BR64_COPY_BITS_HL_ok dst src hi lo off :
  0 <= lo <= hi -> hi <= 63 -> 0 <= lo + off -> hi + off <= 63 ->
  BR64_COPY_BITS_HL dst src hi lo off = Ok (ins64 dst src hi lo off).
Proof.
  intros. unfold BR64_COPY_BITS_HL. rewrite BR64_GET_HL_ok by lia; simpl.
  pose proof (get64_range src hi lo).
  rewrite BR64_SET_HL_ok; [|lia|lia|].
  - f_equal. apply (is_u_ext 64); [lia|apply ins64_range..|].
    intros i Hi. bits; try done. f_equal; lia.
  - replace (hi + off - (lo + off) + 1) with (hi - lo + 1) by lia. auto with lia.
Qed.

Lemma BR64_SET_BIT_ok x pos b :
  0 <= pos <= 63 -> BR64_SET_BIT x pos b = Ok (set64 x pos b).
Proof.
  intros. unfold BR64_SET_BIT. rewrite !shl_ok by lia; simpl. f_equal. unfold set64.
  f_equal; [do 2 f_equal|].
  - rewrite wrap_small; [by rewrite Z.shiftl_1_l|].
    rewrite Z.shiftl_1_l. split; [lia|]. apply Z.pow_lt_mono_r; lia.
  - destruct b; simpl; [|by rewrite Z.shiftl_0_l].
    rewrite Z.shiftl_1_l. apply wrap_small. split; [lia|]. apply Z.pow_lt_mono_r; lia.
Qed.

Lemma BR64_GET_BIT_ok x pos :
  0 <= pos <= 63 -> BR64_GET_BIT x pos = Ok (b2z (Z.testbit x pos)).
Proof.
  intros. unfold BR64_GET_BIT. rewrite MASKRANGE64_ok by lia; simpl.
  rewrite shr_ok by lia; simpl. f_equal. unfold u32.
  apply Z.bits_inj'. intros i Hi. bits; try done.
  subst. done.
Qed.

Lemma BR64_COPY_BITS_HL_negative dst src hi lo off :
  0 <= lo <= hi -> hi <= 63 -> 0 <= hi + off <= 63 -> lo + off < 0 ->
  BR64_COPY_BITS_HL dst src hi lo off = Err Undef.
Proof.
  intros. unfold BR64_COPY_BITS_HL. rewrite BR64_GET_HL_ok by lia; simpl.
  pose proof (get64_range src hi lo ltac:(lia)) as [Hr1 Hr2].
  unfold BR64_SET_HL. rewrite ZERO_HI64_land by lia; simpl.
  rewrite Z.land_ones by lia. rewrite Z.mod_small.
  2: { split; [done|]. by replace (64 - _) with (hi - lo + 1) by lia. }
  rewrite Z.eqb_refl; simpl. unfold MASKRANGE64. rewrite ZERO_HI64_land by lia; simpl.
  unfold ZERO_LO64, shr. by rewrite (proj2 (Z.leb_gt 0 (lo + off))) by lia.
Qed.

(** ** Properties *)

(** [BR64_COPY_BITS_HL] replaces exactly the destination range by the
    source bits, and every bit outside the range keeps its value. *)
Lemma BR64_COPY_BITS_HL_bits dst src hi lo off :
  0 <= lo <= hi -> hi <= 63 -> 0 <= lo + off -> hi + off <= 63 ->
  exists v, BR64_COPY_BITS_HL dst src hi lo off = Ok v /\ is_u 64 v /\
    forall i, 0 <= i < 64 ->
      Z.testbit v i = if (lo + off <=? i) && (i <=? hi + off)
                      then Z.testbit src (i - off) else Z.testbit dst i.
Proof.
  intros. exists (ins64 dst src hi lo off).
  split; [by apply BR64_COPY_BITS_HL_ok|]. split; [apply ins64_range|].
  intros i Hi. by apply ins64_testbit.
Qed.
