(* ===== verification/HptConsts.v ===== *)
(** [include/hpt_consts.h] and the constants of [include/hpt.h]: the position of
    every field of a page map entry, of CR3 and of the EPT pointer, under the
    names of the header ([HPT_<type>_<field>_L<levels>_[MP]_<HI|LO|BIT>], where
    [P] is an entry that maps a page and [M] one that maps another page map). *)
From S2P Require Import Prelude.

Definition HPT_NORM_ADDR_L2_M_HI : Z := 31.
Definition HPT_NORM_ADDR_L2_M_LO : Z := 12.
Definition HPT_NORM_ADDR3122_L2_P_HI : Z := 31.
Definition HPT_NORM_ADDR3122_L2_P_LO : Z := 22.
Definition HPT_NORM_MBZ21_L2_P_BIT : Z := 21.
Definition HPT_NORM_ADDR3932_L2_P_HI : Z := 20.
Definition HPT_NORM_ADDR3932_L2_P_LO : Z := 13.
Definition HPT_NORM_PAT_L2_P_BIT : Z := 12.
Definition HPT_NORM_ADDR_L1_P_HI : Z := 31.
Definition HPT_NORM_ADDR_L1_P_LO : Z := 12.
Definition HPT_NORM_AVL11_L21_MP_HI : Z := 11.
Definition HPT_NORM_AVL11_L21_MP_LO : Z := 9.
Definition HPT_NORM_G_L21_P_BIT : Z := 8.
Definition HPT_NORM_IGN8_L2_M_BIT : Z := 8.
Definition HPT_NORM_PS_L2_MP_BIT : Z := 7.
Definition HPT_NORM_PAT_L1_P_BIT : Z := 7.
Definition HPT_NORM_D_L21_P_BIT : Z := 6.
Definition HPT_NORM_IGN6_L2_M_BIT : Z := 6.
Definition HPT_NORM_A_L21_MP_BIT : Z := 5.
Definition HPT_NORM_PCD_L21_MP_BIT : Z := 4.
Definition HPT_NORM_PWT_L21_MP_BIT : Z := 3.
Definition HPT_NORM_US_L21_MP_BIT : Z := 2.
Definition HPT_NORM_RW_L21_MP_BIT : Z := 1.
Definition HPT_NORM_P_L21_MP_BIT : Z := 0.
Definition HPT_PAE_MBZ63_L3_MP_BIT : Z := 63.
Definition HPT_PAE_NX_L21_MP_BIT : Z := 63.
Definition HPT_PAE_MBZ62_L321_MP_HI : Z := 62.
Definition HPT_PAE_MBZ62_L321_MP_LO : Z := 52.
Definition HPT_PAE_ADDR_L321_M_HI : Z := 51.
Definition HPT_PAE_ADDR_L321_M_LO : Z := 12.
Definition HPT_PAE_ADDR_L2_P_HI : Z := 51.
Definition HPT_PAE_ADDR_L2_P_LO : Z := 13.
Definition HPT_PAE_PAT_L2_P_BIT : Z := 12.
Definition HPT_PAE_ADDR_L1_P_HI : Z := 51.
Definition HPT_PAE_ADDR_L1_P_LO : Z := 12.
Definition HPT_PAE_AVL11_L321_MP_HI : Z := 11.
Definition HPT_PAE_AVL11_L321_MP_LO : Z := 9.
Definition HPT_PAE_MBZ8_L3_MP_HI : Z := 8.
Definition HPT_PAE_MBZ8_L3_MP_LO : Z := 5.
Definition HPT_PAE_G_L21_P_BIT : Z := 8.
Definition HPT_PAE_IGN8_L2_M_BIT : Z := 8.
Definition HPT_PAE_PS_L2_MP_BIT : Z := 7.
Definition HPT_PAE_PAT_L1_P_BIT : Z := 7.
Definition HPT_PAE_D_L21_P_BIT : Z := 6.
Definition HPT_PAE_IGN6_L2_M_BIT : Z := 6.
Definition HPT_PAE_A_L21_P_BIT : Z := 5.
Definition HPT_PAE_PCD_L321_MP_BIT : Z := 4.
Definition HPT_PAE_PWT_L321_MP_BIT : Z := 3.
Definition HPT_PAE_MBZ2_L3_M_HI : Z := 2.
Definition HPT_PAE_MBZ2_L3_M_LO : Z := 1.
Definition HPT_PAE_US_L21_MP_BIT : Z := 2.
Definition HPT_PAE_RW_L21_MP_BIT : Z := 1.
Definition HPT_PAE_P_L321_MP_BIT : Z := 0.
Definition HPT_LONG_NX_L4321_MP_BIT : Z := 63.
Definition HPT_LONG_AVL62_L4321_MP_HI : Z := 62.
Definition HPT_LONG_AVL52_L4321_MP_LO : Z := 52.
Definition HPT_LONG_ADDR_L4321_M_HI : Z := 51.
Definition HPT_LONG_ADDR_L4321_M_LO : Z := 12.
Definition HPT_LONG_ADDR_L32_P_HI : Z := 51.
Definition HPT_LONG_ADDR_L32_P_LO : Z := 13.
Definition HPT_LONG_ADDR_L1_P_HI : Z := 51.
Definition HPT_LONG_ADDR_L1_P_LO : Z := 12.
Definition HPT_LONG_PAT_L32_P_BIT : Z := 12.
Definition HPT_LONG_AVL11_L4321_MP_HI : Z := 11.
Definition HPT_LONG_AVL11_L4321_MP_LO : Z := 9.
Definition HPT_LONG_MBZ8_L4_MP_BIT : Z := 8.
Definition HPT_LONG_MBZ7_L4_MP_BIT : Z := 7.
Definition HPT_LONG_G_L21_P_BIT : Z := 8.
Definition HPT_LONG_PS_L32_MP_BIT : Z := 7.
Definition HPT_LONG_PAT_L1_P_BIT : Z := 7.
Definition HPT_LONG_IGN6_L4_M_BIT : Z := 6.
Definition HPT_LONG_D_L321_P_BIT : Z := 6.
Definition HPT_LONG_A_L4321_MP_BIT : Z := 5.
Definition HPT_LONG_PCD_L4321_MP_BIT : Z := 4.
Definition HPT_LONG_PWT_L4321_MP_BIT : Z := 3.
Definition HPT_LONG_US_L4321_MP_BIT : Z := 2.
Definition HPT_LONG_RW_L4321_MP_BIT : Z := 1.
Definition HPT_LONG_P_L4321_MP_BIT : Z := 0.
Definition HPT_EPT_MAXPHYADDR : Z := 52.
Definition HPT_EPT_AVL63_L4321_MP_HI : Z := 63.
Definition HPT_EPT_AVL52_L4321_MP_LO : Z := 52.
Definition HPT_EPT_ADDR_L4321_MP_HI : Z := HPT_EPT_MAXPHYADDR-1.
Definition HPT_EPT_ADDR_L4321_MP_LO : Z := 12.
Definition HPT_EPT_AVL11_L4321_MP_HI : Z := 11.
Definition HPT_EPT_AVL11_L4321_MP_LO : Z := 8.
Definition HPT_EPT_MBZ7_L4_M_BIT : Z := 7.
Definition HPT_EPT_PS_L32_MP_BIT : Z := 7.
Definition HPT_EPT_AVL7_L1_P_BIT : Z := 7.
Definition HPT_EPT_IPAT_L321_P_BIT : Z := 6.
Definition HPT_EPT_MBZ6_L432_M_HI : Z := 6.
Definition HPT_EPT_MBZ6_L432_M_LO : Z := 3.
Definition HPT_EPT_MT_L321_P_HI : Z := 5.
Definition HPT_EPT_MT_L321_P_LO : Z := 3.
Definition HPT_EPT_X_L4321_MP_BIT : Z := 2.
Definition HPT_EPT_W_L4321_MP_BIT : Z := 1.
Definition HPT_EPT_R_L4321_MP_BIT : Z := 0.
Definition HPT_EPT_PROT_L4321_MP_HI : Z := 2.
Definition HPT_EPT_PROT_L4321_MP_LO : Z := 0.
Definition HPT_CR3_PML4_LONG_HI : Z := 51.
Definition HPT_CR3_PML4_LONG_LO : Z := 12.
Definition HPT_CR3_PML2_LONG_MBZ11_HI : Z := 11.
Definition HPT_CR3_PML2_LONG_MBZ11_LO : Z := 5.
Definition HPT_CR3_PML3_PAE_HI : Z := 31.
Definition HPT_CR3_PML3_PAE_LO : Z := 5.
Definition HPT_CR3_PML2_NORM_HI : Z := 31.
Definition HPT_CR3_PML2_NORM_LO : Z := 12.
Definition HPT_CR3_MBZ11_NORM_HI : Z := 11.
Definition HPT_CR3_MBZ11_NORM_LO : Z := 5.
Definition HPT_CR3_PCD_BIT : Z := 4.
Definition HPT_CR3_PWT_BIT : Z := 3.
Definition HPT_CR3_MBZ2_HI : Z := 2.
Definition HPT_CR3_MBZ2_LO : Z := 0.
Definition HPT_EPTP_MBZ63_H : Z := 63.
Definition HPT_EPTP_MBZ63_L : Z := HPT_EPT_MAXPHYADDR.
Definition HPT_EPTP_PML4_HI : Z := HPT_EPT_MAXPHYADDR-1.
Definition HPT_EPTP_PML4_LO : Z := 12.
Definition HPT_EPTP_MBZ11_HI : Z := 11.
Definition HPT_EPTP_MBZ11_LO : Z := 6.
Definition HPT_EPTP_PWLM1_HI : Z := 5.
Definition HPT_EPTP_PWLM1_LO : Z := 3.
Definition HPT_EPTP_PSMT_HI : Z := 2.
Definition HPT_EPTP_PSMT_LO : Z := 0.
Definition HPT_CR4_PAE_BIT : Z := 5.
Definition HPT_CR4_PSE_BIT : Z := 4.

(** Protection flags and sizes of [include/hpt.h]. *)
Definition HPT_MAX_LEVEL : Z := 4.
Definition HPT_LVL_PT1 : Z := 1.
Definition HPT_LVL_PD2 : Z := 2.
Definition HPT_LVL_PDP3 : Z := 3.
Definition HPT_LVL_PDPT3 : Z := 3.
Definition HPT_LVL_PML4 : Z := 4.
Definition HPT_PM_SIZE : Z := 4096.
Definition HPT_PROT_READ_BIT : Z := 0.
Definition HPT_PROT_WRITE_BIT : Z := 1.
Definition HPT_PROT_EXEC_BIT : Z := 2.
Definition HPT_PROT_READ_MASK : Z := Z.shiftl 1 HPT_PROT_READ_BIT.
Definition HPT_PROT_WRITE_MASK : Z := Z.shiftl 1 HPT_PROT_WRITE_BIT.
Definition HPT_PROT_EXEC_MASK : Z := Z.shiftl 1 HPT_PROT_EXEC_BIT.
Definition HPT_PROTS_RWX : Z := Z.lor (Z.lor HPT_PROT_READ_MASK HPT_PROT_WRITE_MASK) HPT_PROT_EXEC_MASK.
Definition HPT_PROTS_RW : Z := Z.lor HPT_PROT_READ_MASK HPT_PROT_WRITE_MASK.
Definition HPT_PROTS_RX : Z := Z.lor HPT_PROT_READ_MASK HPT_PROT_EXEC_MASK.
Definition HPT_PROTS_R : Z := HPT_PROT_READ_MASK.
Definition HPT_PROTS_WX : Z := Z.lor HPT_PROT_WRITE_MASK HPT_PROT_EXEC_MASK.
Definition HPT_PROTS_W : Z := HPT_PROT_WRITE_MASK.
Definition HPT_PROTS_X : Z := HPT_PROT_EXEC_MASK.
Definition HPT_PROTS_NONE : Z := 0.
