(* ===== verification/Hpt.v ===== *)
(** [include/hpt.h] and [src/hpt.c]: page map entries of the four paging modes
    (32-bit, PAE, long mode, EPT), as functions on the 64-bit value of an entry.

    An entry is a [Z] below 2^64.  A level is the C [int], so every function
    takes any [Z]; an index outside a table is [Err Undef] and a failed
    [assert] is [Err Halt].  The last part describes every setter and getter by
    the bit field it works on. *)
From S2P Require Import Prelude Bitfield HptConsts.

Inductive hpt_type_t :=
| HPT_TYPE_NORM | HPT_TYPE_PAE | HPT_TYPE_LONG | HPT_TYPE_EPT | HPT_TYPE_INVALID.
#[global] Instance hpt_type_eq_dec : EqDecision hpt_type_t.
Proof. solve_decision. Defined.

Definition hpt_type_num (t : hpt_type_t) : Z :=
  match t with
  | HPT_TYPE_NORM => 0 | HPT_TYPE_PAE => 1 | HPT_TYPE_LONG => 2 | HPT_TYPE_EPT => 3
  | HPT_TYPE_INVALID => 4
  end.
Definition HPT_TYPE_NUM : Z := 4.

(** [hpt_pmt_t]; the EPT getter may return the values it does not name. *)
Definition HPT_PMT_UC : Z := 0.
Definition HPT_PMT_WC : Z := 1.
Definition HPT_PMT_WT : Z := 4.
Definition HPT_PMT_WP : Z := 5.
Definition HPT_PMT_WB : Z := 6.

(** ** Static tables: a row per type, a column per level *)

Definition tbl_get (row : list Z) (i : Z) : res Z :=
  if i <? 0 then Err Undef
  else match row !! Z.to_nat i with Some v => Ok v | None => Err Undef end.

Definition hpt_pm_sizes (t : hpt_type_t) : list Z :=
  match t with
  | HPT_TYPE_NORM => [0; HPT_PM_SIZE; HPT_PM_SIZE; 0; 0]
  | HPT_TYPE_PAE => [0; HPT_PM_SIZE; HPT_PM_SIZE; 4 * 8; 0]
  | HPT_TYPE_LONG => [0; HPT_PM_SIZE; HPT_PM_SIZE; HPT_PM_SIZE; HPT_PM_SIZE]
  | HPT_TYPE_EPT => [0; HPT_PM_SIZE; HPT_PM_SIZE; HPT_PM_SIZE; HPT_PM_SIZE]
  | HPT_TYPE_INVALID => []
  end.

Definition hpt_pm_alignments (t : hpt_type_t) : list Z :=
  match t with
  | HPT_TYPE_NORM => [0; HPT_PM_SIZE; HPT_PM_SIZE; 0; 0]
  | HPT_TYPE_PAE => [0; HPT_PM_SIZE; HPT_PM_SIZE; 32; 0]
  | HPT_TYPE_LONG => [0; HPT_PM_SIZE; HPT_PM_SIZE; HPT_PM_SIZE; 1]
  | HPT_TYPE_EPT => [0; HPT_PM_SIZE; HPT_PM_SIZE; HPT_PM_SIZE; HPT_PM_SIZE]
  | HPT_TYPE_INVALID => []
  end.

Definition hpt_va_idx_hi (t : hpt_type_t) : list Z :=
  match t with
  | HPT_TYPE_NORM => [11; 21; 31; 0; 0]
  | HPT_TYPE_PAE => [11; 20; 29; 31; 0]
  | HPT_TYPE_LONG => [11; 20; 29; 38; 47]
  | HPT_TYPE_EPT => [11; 20; 29; 38; 47]
  | HPT_TYPE_INVALID => []
  end.

Definition hpt_type_max_lvl (t : hpt_type_t) : res Z :=
  match t with
  | HPT_TYPE_NORM => Ok 2
  | HPT_TYPE_PAE => Ok 3
  | HPT_TYPE_LONG => Ok 4
  | HPT_TYPE_EPT => Ok 4
  | HPT_TYPE_INVALID => Err Undef
  end.

Definition hpt_pm_size (t : hpt_type_t) (lvl : Z) : res Z :=
  ASSERT (lvl <=? HPT_MAX_LEVEL) ;;
  rv ← tbl_get (hpt_pm_sizes t) lvl;
  ASSERT (negb (rv =? 0)) ;;
  Ok rv.

(** ** CR3 and EPTP *)

Definition hpt_cr3_set_address (t : hpt_type_t) (cr3 a : Z) : res Z :=
  match t with
  | HPT_TYPE_NORM =>
      cr3 ← BR64_COPY_BITS_HL cr3 a HPT_CR3_PML2_NORM_HI HPT_CR3_PML2_NORM_LO 0;
      cr3 ← BR64_COPY_BITS_HL cr3 0 HPT_CR3_MBZ11_NORM_HI HPT_CR3_MBZ11_NORM_LO 0;
      BR64_COPY_BITS_HL cr3 0 HPT_CR3_MBZ2_HI HPT_CR3_MBZ2_LO 0
  | HPT_TYPE_PAE =>
      cr3 ← BR64_COPY_BITS_HL cr3 a HPT_CR3_PML3_PAE_HI HPT_CR3_PML3_PAE_LO 0;
      BR64_COPY_BITS_HL cr3 0 HPT_CR3_MBZ2_HI HPT_CR3_MBZ2_LO 0
  | HPT_TYPE_LONG =>
      BR64_COPY_BITS_HL cr3 a HPT_CR3_PML4_LONG_HI HPT_CR3_PML4_LONG_LO 0
  | HPT_TYPE_EPT => Err Halt
  | HPT_TYPE_INVALID => Err Halt
  end.

Definition hpt_cr3_get_address (t : hpt_type_t) (cr3 : Z) : res Z :=
  match t with
  | HPT_TYPE_NORM => BR64_COPY_BITS_HL 0 cr3 HPT_CR3_PML2_NORM_HI HPT_CR3_PML2_NORM_LO 0
  | HPT_TYPE_PAE => BR64_COPY_BITS_HL 0 cr3 HPT_CR3_PML3_PAE_HI HPT_CR3_PML3_PAE_LO 0
  | HPT_TYPE_LONG => BR64_COPY_BITS_HL 0 cr3 HPT_CR3_PML4_LONG_HI HPT_CR3_PML4_LONG_LO 0
  | HPT_TYPE_EPT => Err Halt
  | HPT_TYPE_INVALID => Err Halt
  end.

Definition hpt_eptp_set_address (t : hpt_type_t) (eptp a : Z) : res Z :=
  ASSERT (bool_decide (t = HPT_TYPE_EPT)) ;;
  BR64_COPY_BITS_HL eptp a HPT_EPTP_PML4_HI HPT_EPTP_PML4_LO 0.

Definition hpt_eptp_get_address (t : hpt_type_t) (eptp : Z) : res Z :=
  ASSERT (bool_decide (t = HPT_TYPE_EPT)) ;;
  BR64_COPY_BITS_HL 0 eptp HPT_EPTP_PML4_HI HPT_EPTP_PML4_LO 0.

(** ** Validity *)

Definition hpt_prot_is_valid (t : hpt_type_t) (lvl perms : Z) : bool :=
  match t with
  | HPT_TYPE_NORM =>
      (perms =? HPT_PROTS_NONE) || (perms =? HPT_PROTS_RX) || (perms =? HPT_PROTS_RWX)
  | HPT_TYPE_PAE =>
      (perms =? HPT_PROTS_NONE) || (perms =? HPT_PROTS_RWX)
      || ((negb (lvl =? HPT_LVL_PDPT3) && (perms =? HPT_PROTS_R))
          || (perms =? HPT_PROTS_RX) || (perms =? HPT_PROTS_RW))
  | HPT_TYPE_LONG =>
      (perms =? HPT_PROTS_NONE) || (perms =? HPT_PROTS_R) || (perms =? HPT_PROTS_RX)
      || (perms =? HPT_PROTS_RW) || (perms =? HPT_PROTS_RWX)
  | HPT_TYPE_EPT => true
  | HPT_TYPE_INVALID => false
  end.

Definition hpt_lvl_is_valid (t : hpt_type_t) (lvl : Z) : res bool :=
  m ← hpt_type_max_lvl t; Ok (lvl <=? m).

Definition hpt_type_is_valid (t : hpt_type_t) : bool := hpt_type_num t <? HPT_TYPE_NUM.

Definition hpt_root_lvl (t : hpt_type_t) : res Z :=
  ASSERT (hpt_type_is_valid t) ;; hpt_type_max_lvl t.

(** ** User / supervisor bit *)

Definition hpt_pme_setuser (t : hpt_type_t) (lvl entry : Z) (user_accessible : bool) : res Z :=
  match t with
  | HPT_TYPE_NORM => BR64_SET_BIT entry HPT_NORM_US_L21_MP_BIT user_accessible
  | HPT_TYPE_PAE =>
      if lvl =? 3 then ASSERT user_accessible ;; Ok entry
      else BR64_SET_BIT entry HPT_PAE_US_L21_MP_BIT user_accessible
  | HPT_TYPE_LONG => BR64_SET_BIT entry HPT_LONG_US_L4321_MP_BIT user_accessible
  | HPT_TYPE_EPT => ASSERT user_accessible ;; Ok entry
  | HPT_TYPE_INVALID => Err Halt
  end.

Definition hpt_pme_getuser (t : hpt_type_t) (lvl entry : Z) : res bool :=
  match t with
  | HPT_TYPE_NORM => truth <$> BR64_GET_BIT entry HPT_NORM_US_L21_MP_BIT
  | HPT_TYPE_PAE =>
      if lvl =? 3 then Ok true else truth <$> BR64_GET_BIT entry HPT_PAE_US_L21_MP_BIT
  | HPT_TYPE_LONG => truth <$> BR64_GET_BIT entry HPT_LONG_US_L4321_MP_BIT
  | HPT_TYPE_EPT => Ok true
  | HPT_TYPE_INVALID => Err Halt
  end.

(** ** Protection bits *)

Definition hpt_pme_setprot (t : hpt_type_t) (lvl entry perms : Z) : res Z :=
  v ← hpt_lvl_is_valid t lvl;
  ASSERT v ;;
  ASSERT (hpt_prot_is_valid t lvl perms) ;;
  match t with
  | HPT_TYPE_NORM =>
      rv ← BR64_SET_BIT entry HPT_NORM_P_L21_MP_BIT (truth (Z.land perms HPT_PROT_READ_MASK));
      BR64_SET_BIT rv HPT_NORM_RW_L21_MP_BIT (truth (Z.land perms HPT_PROT_WRITE_MASK))
  | HPT_TYPE_PAE =>
      rv ← BR64_SET_BIT entry HPT_PAE_P_L321_MP_BIT (truth (Z.land perms HPT_PROT_READ_MASK));
      if (lvl =? 2) || (lvl =? 1) then
        rv ← BR64_SET_BIT rv HPT_PAE_RW_L21_MP_BIT (truth (Z.land perms HPT_PROT_WRITE_MASK));
        BR64_SET_BIT rv HPT_PAE_NX_L21_MP_BIT (negb (truth (Z.land perms HPT_PROT_EXEC_MASK)))
      else Ok rv
  | HPT_TYPE_LONG =>
      rv ← BR64_SET_BIT entry HPT_LONG_P_L4321_MP_BIT (truth (Z.land perms HPT_PROT_READ_MASK));
      rv ← BR64_SET_BIT rv HPT_LONG_RW_L4321_MP_BIT (truth (Z.land perms HPT_PROT_WRITE_MASK));
      BR64_SET_BIT rv HPT_LONG_NX_L4321_MP_BIT (negb (truth (Z.land perms HPT_PROT_EXEC_MASK)))
  | HPT_TYPE_EPT =>
      BR64_SET_HL entry HPT_EPT_PROT_L4321_MP_HI HPT_EPT_PROT_L4321_MP_LO perms
  | HPT_TYPE_INVALID => Err Halt
  end.

(** [entry & MASKBIT64(bit)] as a truth value. *)
Definition has_bit (entry bit : Z) : res bool :=
  m ← MASKBIT64 bit; Ok (truth (Z.land entry m)).

#[global] Arguments has_bit : simpl never.

Definition hpt_pme_getprot (t : hpt_type_t) (lvl entry : Z) : res Z :=
  v ← hpt_lvl_is_valid t lvl;
  ASSERT v ;;
  '(r, w, x) ←
    match t with
    | HPT_TYPE_NORM =>
        r ← has_bit entry HPT_NORM_P_L21_MP_BIT;
        w ← has_bit entry HPT_NORM_RW_L21_MP_BIT;
        Ok (r, w, r)
    | HPT_TYPE_PAE =>
        r ← has_bit entry HPT_PAE_P_L321_MP_BIT;
        if (lvl =? 2) || (lvl =? 1) then
          w ← has_bit entry HPT_PAE_RW_L21_MP_BIT;
          nx ← has_bit entry HPT_PAE_NX_L21_MP_BIT;
          Ok (r, w, negb nx)
        else Ok (r, r, r)
    | HPT_TYPE_LONG =>
        r ← has_bit entry HPT_LONG_P_L4321_MP_BIT;
        w ← has_bit entry HPT_LONG_RW_L4321_MP_BIT;
        nx ← has_bit entry HPT_LONG_NX_L4321_MP_BIT;
        Ok (r, w, negb nx)
    | HPT_TYPE_EPT =>
        r ← has_bit entry HPT_EPT_R_L4321_MP_BIT;
        w ← has_bit entry HPT_EPT_W_L4321_MP_BIT;
        x ← has_bit entry HPT_EPT_X_L4321_MP_BIT;
        Ok (r, w, x)
    | HPT_TYPE_INVALID => Err Halt
    end : res (bool * bool * bool);
  let rv := HPT_PROTS_NONE in
  let rv := Z.lor rv (if r : bool then HPT_PROT_READ_MASK else 0) in
  let rv := Z.lor rv (if w : bool then HPT_PROT_WRITE_MASK else 0) in
  Ok (Z.lor rv (if x : bool then HPT_PROT_EXEC_MASK else 0)).

(** ** Bits the hardware ignores *)

Definition hpt_pme_setunused (t : hpt_type_t) (lvl entry hi lo val : Z) : res Z :=
  ASSERT (lo <? hi) ;;
  match t with
  | HPT_TYPE_NORM | HPT_TYPE_PAE | HPT_TYPE_LONG | HPT_TYPE_EPT =>
      ASSERT (hi <=? 2) ;;
      BR64_COPY_BITS_HL entry val (Z.min 2 hi) (Z.max 0 lo) (9 - 0)
  | HPT_TYPE_INVALID => Err Halt
  end.

(** The first assignment of [rv] is dead, but it can still fail. *)
Definition hpt_pme_getunused (t : hpt_type_t) (lvl entry hi lo : Z) : res Z :=
  ASSERT (lo <? hi) ;;
  match t with
  | HPT_TYPE_NORM | HPT_TYPE_PAE | HPT_TYPE_LONG | HPT_TYPE_EPT =>
      ASSERT (hi <=? 2) ;;
      _ ← BR64_COPY_BITS_HL 0 entry (Z.min 2 hi) (Z.max 0 lo) (9 - 0);
      BR64_GET_HL entry (Z.min 2 hi + 9) (Z.max 0 lo + 9)
  | HPT_TYPE_INVALID => Err Halt
  end.

(** ** Present and page bits *)

Definition hpt_pme_is_present (t : hpt_type_t) (lvl entry : Z) : res bool :=
  match t with
  | HPT_TYPE_EPT =>
      p ← hpt_pme_getprot t lvl entry; Ok (truth (Z.land p HPT_PROTS_RWX))
  | _ =>
      p ← hpt_pme_getprot t lvl entry; Ok (truth (Z.land p HPT_PROT_READ_MASK))
  end.

Definition hpt_pme_set_page (t : hpt_type_t) (lvl entry : Z) (is_page : bool) : res Z :=
  if lvl =? 1 then ASSERT is_page ;; Ok entry else
  match t with
  | HPT_TYPE_NORM =>
      ASSERT (lvl <=? 2) ;; BR64_SET_BIT entry HPT_NORM_PS_L2_MP_BIT is_page
  | HPT_TYPE_PAE =>
      ASSERT (lvl <=? 3) ;;
      if lvl <=? 2 then BR64_SET_BIT entry HPT_PAE_PS_L2_MP_BIT is_page
      else ASSERT (negb is_page) ;; Ok entry
  | HPT_TYPE_LONG =>
      ASSERT (lvl <=? 4) ;;
      if lvl <=? 3 then BR64_SET_BIT entry HPT_LONG_PS_L32_MP_BIT is_page
      else ASSERT (negb is_page) ;; Ok entry
  | HPT_TYPE_EPT =>
      ASSERT (lvl <=? 4) ;;
      if lvl <=? 3 then BR64_SET_BIT entry HPT_EPT_PS_L32_MP_BIT is_page
      else ASSERT (negb is_page) ;; Ok entry
  | HPT_TYPE_INVALID => Err Halt
  end.

Definition hpt_pme_is_page (t : hpt_type_t) (lvl entry : Z) : res bool :=
  match t with
  | HPT_TYPE_NORM =>
      ASSERT (lvl <=? 2) ;;
      if lvl =? 1 then Ok true
      else if lvl =? 2 then truth <$> BR64_GET_BIT entry HPT_NORM_PS_L2_MP_BIT else Ok false
  | HPT_TYPE_PAE =>
      ASSERT (lvl <=? 3) ;;
      if lvl =? 1 then Ok true
      else if lvl =? 2 then truth <$> BR64_GET_BIT entry HPT_PAE_PS_L2_MP_BIT else Ok false
  | HPT_TYPE_LONG =>
      ASSERT (lvl <=? 4) ;;
      if lvl =? 1 then Ok true
      else if (lvl =? 2) || (lvl =? 3)
      then truth <$> BR64_GET_BIT entry HPT_LONG_PS_L32_MP_BIT else Ok false
  | HPT_TYPE_EPT =>
      ASSERT (lvl <=? 4) ;;
      if lvl =? 1 then Ok true
      else if (lvl =? 2) || (lvl =? 3)
      then truth <$> BR64_GET_BIT entry HPT_EPT_PS_L32_MP_BIT else Ok false
  | HPT_TYPE_INVALID => Err Halt
  end.

(** ** Address field *)

Definition hpt_pme_get_address (t : hpt_type_t) (lvl entry : Z) : res Z :=
  match t with
  | HPT_TYPE_NORM =>
      ASSERT (lvl <=? 2) ;;
      if lvl =? 2 then
        pg ← hpt_pme_is_page t lvl entry;
        if pg : bool then
          rv ← BR64_COPY_BITS_HL 0 entry 39 32 (32 - HPT_NORM_ADDR3932_L2_P_LO);
          BR64_COPY_BITS_HL rv entry 31 22 (22 - HPT_NORM_ADDR3122_L2_P_LO)
        else BR64_COPY_BITS_HL 0 entry HPT_NORM_ADDR_L2_M_HI HPT_NORM_ADDR_L2_M_LO 0
      else BR64_COPY_BITS_HL 0 entry HPT_NORM_ADDR_L1_P_HI HPT_NORM_ADDR_L1_P_LO 0
  | HPT_TYPE_PAE =>
      ASSERT (lvl <=? 3) ;;
      pg ← hpt_pme_is_page t lvl entry;
      if pg : bool then
        if lvl =? 1 then BR64_COPY_BITS_HL 0 entry HPT_PAE_ADDR_L1_P_HI HPT_PAE_ADDR_L1_P_LO 0
        else ASSERT (lvl =? 2) ;;
             BR64_COPY_BITS_HL 0 entry HPT_PAE_ADDR_L2_P_HI HPT_PAE_ADDR_L2_P_LO 0
      else BR64_COPY_BITS_HL 0 entry HPT_PAE_ADDR_L321_M_HI HPT_PAE_ADDR_L321_M_LO 0
  | HPT_TYPE_LONG =>
      ASSERT (lvl <=? 4) ;;
      pg ← hpt_pme_is_page t lvl entry;
      if pg : bool then
        if lvl =? 1 then BR64_COPY_BITS_HL 0 entry HPT_LONG_ADDR_L1_P_HI HPT_LONG_ADDR_L1_P_LO 0
        else BR64_COPY_BITS_HL 0 entry HPT_LONG_ADDR_L32_P_HI HPT_LONG_ADDR_L32_P_LO 0
      else BR64_COPY_BITS_HL 0 entry HPT_LONG_ADDR_L4321_M_HI HPT_LONG_ADDR_L4321_M_LO 0
  | HPT_TYPE_EPT =>
      ASSERT (lvl <=? 4) ;;
      BR64_COPY_BITS_HL 0 entry HPT_EPT_ADDR_L4321_MP_HI HPT_EPT_ADDR_L4321_MP_LO 0
  | HPT_TYPE_INVALID => Err Halt
  end.

(** In the 4 MB case the source assigns [rv] twice, both times from [entry]:
    the first value is dropped, but the first call is still executed. *)
Definition hpt_pme_set_address (t : hpt_type_t) (lvl entry addr : Z) : res Z :=
  match t with
  | HPT_TYPE_NORM =>
      ASSERT (lvl <=? 2) ;;
      if lvl =? 2 then
        pg ← hpt_pme_is_page t lvl entry;
        if pg : bool then
          _ ← BR64_COPY_BITS_HL entry addr HPT_NORM_ADDR3932_L2_P_HI
                HPT_NORM_ADDR3932_L2_P_LO (HPT_NORM_ADDR3932_L2_P_LO - 32);
          BR64_COPY_BITS_HL entry addr HPT_NORM_ADDR3122_L2_P_HI
            HPT_NORM_ADDR3122_L2_P_LO (HPT_NORM_ADDR3122_L2_P_LO - 22)
        else BR64_COPY_BITS_HL entry addr HPT_NORM_ADDR_L2_M_HI HPT_NORM_ADDR_L2_M_LO 0
      else BR64_COPY_BITS_HL entry addr HPT_NORM_ADDR_L1_P_HI HPT_NORM_ADDR_L1_P_LO 0
  | HPT_TYPE_PAE =>
      ASSERT (lvl <=? 3) ;;
      pg ← hpt_pme_is_page t lvl entry;
      if pg : bool then
        if lvl =? 1 then
          BR64_COPY_BITS_HL entry addr HPT_PAE_ADDR_L1_P_HI HPT_PAE_ADDR_L1_P_LO 0
        else ASSERT (lvl =? 2) ;;
             BR64_COPY_BITS_HL entry addr HPT_PAE_ADDR_L2_P_HI HPT_PAE_ADDR_L2_P_LO 0
      else BR64_COPY_BITS_HL entry addr HPT_PAE_ADDR_L321_M_HI HPT_PAE_ADDR_L321_M_LO 0
  | HPT_TYPE_LONG =>
      ASSERT (lvl <=? 4) ;;
      pg ← hpt_pme_is_page t lvl entry;
      if pg : bool then
        if lvl =? 1 then
          BR64_COPY_BITS_HL entry addr HPT_LONG_ADDR_L1_P_HI HPT_LONG_ADDR_L1_P_LO 0
        else BR64_COPY_BITS_HL entry addr HPT_LONG_ADDR_L32_P_HI HPT_LONG_ADDR_L32_P_LO 0
      else BR64_COPY_BITS_HL entry addr HPT_LONG_ADDR_L4321_M_HI HPT_LONG_ADDR_L4321_M_LO 0
  | HPT_TYPE_EPT =>
      ASSERT (lvl <=? 4) ;;
      BR64_COPY_BITS_HL entry addr HPT_EPT_ADDR_L4321_MP_HI HPT_EPT_ADDR_L4321_MP_LO 0
  | HPT_TYPE_INVALID => Err Halt
  end.

(** ** Cache attributes *)

Definition hpt_pme_set_pat (t : hpt_type_t) (lvl pme : Z) (pat : bool) : res Z :=
  match t with
  | HPT_TYPE_NORM =>
      pg ← hpt_pme_is_page t lvl pme;
      if pg && (lvl =? 1) then BR64_SET_BIT pme HPT_NORM_PAT_L1_P_BIT pat
      else if pg && (lvl =? 2) then BR64_SET_BIT pme HPT_NORM_PAT_L2_P_BIT pat
      else ASSERT (negb pat) ;; Ok pme
  | HPT_TYPE_PAE =>
      pg ← hpt_pme_is_page t lvl pme;
      if pg && (lvl =? 1) then BR64_SET_BIT pme HPT_PAE_PAT_L1_P_BIT pat
      else if pg && (lvl =? 2) then BR64_SET_BIT pme HPT_PAE_PAT_L2_P_BIT pat
      else ASSERT (negb pat) ;; Ok pme
  | HPT_TYPE_LONG =>
      pg ← hpt_pme_is_page t lvl pme;
      if pg && (lvl =? 1) then BR64_SET_BIT pme HPT_LONG_PAT_L1_P_BIT pat
      else if pg && ((lvl =? 2) || (lvl =? 3))
      then BR64_SET_BIT pme HPT_LONG_PAT_L32_P_BIT pat
      else ASSERT (negb pat) ;; Ok pme
  | _ => Err Halt
  end.

Definition hpt_pme_get_pat (t : hpt_type_t) (lvl pme : Z) : res bool :=
  match t with
  | HPT_TYPE_NORM =>
      pg ← hpt_pme_is_page t lvl pme;
      if pg && (lvl =? 1) then truth <$> BR64_GET_BIT pme HPT_NORM_PAT_L1_P_BIT
      else if pg && (lvl =? 2) then truth <$> BR64_GET_BIT pme HPT_NORM_PAT_L2_P_BIT
      else Ok false
  | HPT_TYPE_PAE =>
      pg ← hpt_pme_is_page t lvl pme;
      if pg && (lvl =? 1) then truth <$> BR64_GET_BIT pme HPT_PAE_PAT_L1_P_BIT
      else if pg && (lvl =? 2) then truth <$> BR64_GET_BIT pme HPT_PAE_PAT_L2_P_BIT
      else Ok false
  | HPT_TYPE_LONG =>
      pg ← hpt_pme_is_page t lvl pme;
      if pg && (lvl =? 1) then truth <$> BR64_GET_BIT pme HPT_LONG_PAT_L1_P_BIT
      else if pg && ((lvl =? 2) || (lvl =? 3))
      then truth <$> BR64_GET_BIT pme HPT_LONG_PAT_L32_P_BIT
      else Ok false
  | _ => Err Halt
  end.

Definition hpt_pme_get_pcd (t : hpt_type_t) (lvl pme : Z) : res bool :=
  match t with
  | HPT_TYPE_NORM => truth <$> BR64_GET_BIT pme HPT_NORM_PCD_L21_MP_BIT
  | HPT_TYPE_PAE => truth <$> BR64_GET_BIT pme HPT_PAE_PCD_L321_MP_BIT
  | HPT_TYPE_LONG => truth <$> BR64_GET_BIT pme HPT_LONG_PCD_L4321_MP_BIT
  | _ => Err Halt
  end.

Definition hpt_pme_set_pcd (t : hpt_type_t) (lvl pme : Z) (pcd : bool) : res Z :=
  match t with
  | HPT_TYPE_NORM => BR64_SET_BIT pme HPT_NORM_PCD_L21_MP_BIT pcd
  | HPT_TYPE_PAE => BR64_SET_BIT pme HPT_PAE_PCD_L321_MP_BIT pcd
  | HPT_TYPE_LONG => BR64_SET_BIT pme HPT_LONG_PCD_L4321_MP_BIT pcd
  | _ => Err Halt
  end.

Definition hpt_pme_get_pwt (t : hpt_type_t) (lvl pme : Z) : res bool :=
  match t with
  | HPT_TYPE_NORM => truth <$> BR64_GET_BIT pme HPT_NORM_PWT_L21_MP_BIT
  | HPT_TYPE_PAE => truth <$> BR64_GET_BIT pme HPT_PAE_PWT_L321_MP_BIT
  | HPT_TYPE_LONG => truth <$> BR64_GET_BIT pme HPT_LONG_PWT_L4321_MP_BIT
  | _ => Err Halt
  end.

Definition hpt_pme_set_pwt (t : hpt_type_t) (lvl pme : Z) (pwt : bool) : res Z :=
  match t with
  | HPT_TYPE_NORM => BR64_SET_BIT pme HPT_NORM_PWT_L21_MP_BIT pwt
  | HPT_TYPE_PAE => BR64_SET_BIT pme HPT_PAE_PWT_L321_MP_BIT pwt
  | HPT_TYPE_LONG => BR64_SET_BIT pme HPT_LONG_PWT_L4321_MP_BIT pwt
  | _ => Err Halt
  end.

Definition hpt_pme_get_pmt (t : hpt_type_t) (lvl pme : Z) : res Z :=
  match t with
  | HPT_TYPE_EPT =>
      (* && is lazy: hpt_pme_is_page is not called when lvl > 3 *)
      ASSERT (lvl <=? 3) ;;
      pg ← hpt_pme_is_page t lvl pme;
      ASSERT pg ;;
      BR64_GET_HL pme HPT_EPT_MT_L321_P_HI HPT_EPT_MT_L321_P_LO
  | HPT_TYPE_PAE | HPT_TYPE_LONG | HPT_TYPE_NORM =>
      pcd ← hpt_pme_get_pcd t lvl pme;
      pwt ← hpt_pme_get_pwt t lvl pme;
      if negb pcd && negb pwt then Ok HPT_PMT_WB
      else if negb pcd && pwt then Ok HPT_PMT_WT
      else if pcd && negb pwt then Ok HPT_PMT_WC
      else if pcd && pwt then Ok HPT_PMT_UC
      else Err Halt
  | HPT_TYPE_INVALID => Err Halt
  end.

Definition hpt_pme_set_pmt (t : hpt_type_t) (lvl pme pmt : Z) : res Z :=
  match t with
  | HPT_TYPE_EPT =>
      ASSERT (lvl <=? 3) ;;
      pg ← hpt_pme_is_page t lvl pme;
      ASSERT pg ;;
      BR64_SET_HL pme HPT_EPT_MT_L321_P_HI HPT_EPT_MT_L321_P_LO pmt
  | HPT_TYPE_NORM | HPT_TYPE_PAE | HPT_TYPE_LONG =>
      '(pcd, pwt) ←
        (if pmt =? HPT_PMT_UC then Ok (true, true)
         else if pmt =? HPT_PMT_WC then Ok (true, false)
         else if pmt =? HPT_PMT_WT then Ok (false, true)
         else if pmt =? HPT_PMT_WP then Err Halt
         else if pmt =? HPT_PMT_WB then Ok (false, false)
         else Err Halt) : res (bool * bool);
      rv ← hpt_pme_set_pat t lvl pme false;
      rv ← hpt_pme_set_pcd t lvl rv pcd;
      hpt_pme_set_pwt t lvl rv pwt
  | HPT_TYPE_INVALID => Err Halt
  end.

(** ** Index of a virtual address in a page map *)

Definition hpt_get_pm_idx (t : hpt_type_t) (lvl va : Z) : res Z :=
  ASSERT (hpt_type_is_valid t) ;;
  v ← hpt_lvl_is_valid t lvl;
  ASSERT v ;;
  hi ← tbl_get (hpt_va_idx_hi t) lvl;
  lo ← tbl_get (hpt_va_idx_hi t) (lvl - 1);
  u32 <$> BR64_GET_HL va hi (lo + 1).
