(* ===== verification/HptLemmas.v ===== *)
(** What the accessors of [src/hpt.c] compute, field by field: for every paging
    type and level, the bit range of each field, the total function each
    accessor agrees with, and the round-trip and independence theorems. *)
From S2P Require Import Prelude Bitfield HptConsts Hpt.

(** ** Shape of the four paging modes *)

Definition max_lvl (t : hpt_type_t) : Z :=
  match t with
  | HPT_TYPE_NORM => 2 | HPT_TYPE_PAE => 3 | HPT_TYPE_LONG | HPT_TYPE_EPT => 4
  | HPT_TYPE_INVALID => 0
  end.

Definition lvl_ok (t : hpt_type_t) (lvl : Z) : Prop := 1 <= lvl <= max_lvl t.

(** Levels whose entries have a page-size bit. *)
Definition has_ps (t : hpt_type_t) (lvl : Z) : bool :=
  match t with
  | HPT_TYPE_NORM | HPT_TYPE_PAE => lvl =? 2
  | HPT_TYPE_LONG | HPT_TYPE_EPT => (lvl =? 2) || (lvl =? 3)
  | HPT_TYPE_INVALID => false
  end.

Definition pme_page (t : hpt_type_t) (lvl e : Z) : bool :=
  (lvl =? 1) || (has_ps t lvl && Z.testbit e 7).

(** Bounds of the address field. *)
Definition addr_hi (t : hpt_type_t) : Z :=
  match t with HPT_TYPE_NORM => 31 | _ => 51 end.
Definition addr_lo (t : hpt_type_t) (lvl : Z) (pg : bool) : Z :=
  match t with
  | HPT_TYPE_NORM => if pg && negb (lvl =? 1) then 22 else 12
  | HPT_TYPE_PAE | HPT_TYPE_LONG => if pg && negb (lvl =? 1) then 13 else 12
  | _ => 12
  end.
(** 32-bit paging, 4 MB page: the case [hpt_pme_set_address] gets wrong. *)
Definition is_4mb (t : hpt_type_t) (lvl e : Z) : bool :=
  match t with HPT_TYPE_NORM => (lvl =? 2) && pme_page t lvl e | _ => false end.

Definition pme_addr (t : hpt_type_t) (lvl e : Z) : Z :=
  ins64 0 e (addr_hi t) (addr_lo t lvl (pme_page t lvl e)) 0.

(** Read, write and execute permission of an entry. *)
Definition nx_lvl (t : hpt_type_t) (lvl : Z) : bool :=
  match t with
  | HPT_TYPE_PAE => (lvl =? 2) || (lvl =? 1) | HPT_TYPE_LONG => true | _ => false
  end.
Definition pme_r (e : Z) : bool := Z.testbit e 0.
Definition pme_w (t : hpt_type_t) (lvl e : Z) : bool :=
  match t with
  | HPT_TYPE_PAE => if nx_lvl t lvl then Z.testbit e 1 else pme_r e
  | _ => Z.testbit e 1
  end.
Definition pme_x (t : hpt_type_t) (lvl e : Z) : bool :=
  match t with
  | HPT_TYPE_EPT => Z.testbit e 2
  | _ => if nx_lvl t lvl then negb (Z.testbit e 63) else pme_r e
  end.
Definition prot_of (r w x : bool) : Z := b2z r + 2 * b2z w + 4 * b2z x.
Definition pme_prot (t : hpt_type_t) (lvl e : Z) : Z :=
  prot_of (pme_r e) (pme_w t lvl e) (pme_x t lvl e).

Definition pme_user (t : hpt_type_t) (lvl e : Z) : bool :=
  match t with
  | HPT_TYPE_EPT => true
  | HPT_TYPE_PAE => if lvl =? 3 then true else Z.testbit e 2
  | _ => Z.testbit e 2
  end.

Definition pme_present (t : hpt_type_t) (e : Z) : bool :=
  match t with
  | HPT_TYPE_EPT => Z.testbit e 0 || Z.testbit e 1 || Z.testbit e 2
  | _ => Z.testbit e 0
  end.

(** Case on the type, then on the few levels it has. *)
Ltac lvl_cases t lvl H :=
  unfold lvl_ok in H; destruct t; cbn [max_lvl] in H;
  (let C := fresh in
   assert (lvl = 1 \/ lvl = 2 \/ lvl = 3 \/ lvl = 4) as C by lia;
   destruct C as [->|[->|[->| ->]]]; try (exfalso; lia); clear H).

(** ** The accessors agree with the total functions *)

Lemma truth_b2z b : truth (b2z b) = b.
Proof. by destruct b. Qed.

Lemma has_bit_ok e b : 0 <= b <= 63 -> has_bit e b = Ok (Z.testbit e b).
Proof.
  intros. unfold has_bit, MASKBIT64. rewrite shl_ok by lia; cbn. f_equal.
  rewrite Z.shiftl_1_l.
  rewrite (wrap_small 64) by (split; [lia|apply Z.pow_lt_mono_r; lia]).
  assert (Z.land e (2 ^ b) = Z.shiftl (b2z (Z.testbit e b)) b) as ->.
  { apply Z.bits_inj'. intros i Hi. bits; by subst. }
  destruct (Z.testbit e b); cbn; [|by rewrite Z.shiftl_0_l].
  rewrite Z.shiftl_1_l. unfold truth.
  pose proof (Z.pow_pos_nonneg 2 b). destruct (Z.eqb_spec (2 ^ b) 0); [lia|done].
Qed.

Lemma hpt_lvl_is_valid_ok t lvl : lvl_ok t lvl -> hpt_lvl_is_valid t lvl = Ok true.
Proof. intros H. by lvl_cases t lvl H. Qed.

Lemma hpt_pme_is_page_ok t lvl e :
  lvl_ok t lvl -> hpt_pme_is_page t lvl e = Ok (pme_page t lvl e).
Proof.
  intros H. unfold pme_page. lvl_cases t lvl H; cbn; try done;
    rewrite ?BR64_GET_BIT_ok by zconst; cbn; by rewrite ?truth_b2z.
Qed.

Lemma hpt_pme_getprot_ok t lvl e :
  lvl_ok t lvl -> hpt_pme_getprot t lvl e = Ok (pme_prot t lvl e).
Proof.
  intros H. unfold hpt_pme_getprot, pme_prot. rewrite hpt_lvl_is_valid_ok by done; cbn.
  lvl_cases t lvl H; cbn; rewrite !has_bit_ok by zconst; cbn;
    unfold pme_r, HPT_NORM_P_L21_MP_BIT, HPT_NORM_RW_L21_MP_BIT, HPT_PAE_P_L321_MP_BIT,
      HPT_PAE_RW_L21_MP_BIT, HPT_PAE_NX_L21_MP_BIT, HPT_LONG_P_L4321_MP_BIT,
      HPT_LONG_RW_L4321_MP_BIT, HPT_LONG_NX_L4321_MP_BIT, HPT_EPT_R_L4321_MP_BIT,
      HPT_EPT_W_L4321_MP_BIT, HPT_EPT_X_L4321_MP_BIT;
    repeat match goal with |- context [Z.testbit e ?i] => destruct (Z.testbit e i) end; done.
Qed.

Lemma hpt_pme_is_present_ok t lvl e :
  lvl_ok t lvl -> hpt_pme_is_present t lvl e = Ok (pme_present t e).
Proof.
  intros H. unfold hpt_pme_is_present. rewrite hpt_pme_getprot_ok by done.
  unfold pme_prot, pme_present, pme_w, pme_x, pme_r, nx_lvl.
  destruct t; cbn; try done;
  repeat match goal with
    | |- context [Z.testbit e ?i] => destruct (Z.testbit e i)
    | |- context [lvl =? ?i] => destruct (lvl =? i)
    end; done.
Qed.

Lemma hpt_pme_getuser_ok t lvl e :
  lvl_ok t lvl -> hpt_pme_getuser t lvl e = Ok (pme_user t lvl e).
Proof.
  intros H. lvl_cases t lvl H; cbn; try done;
    rewrite ?BR64_GET_BIT_ok by zconst; cbn; by rewrite ?truth_b2z.
Qed.

Lemma addr_lo_bounds t lvl pg : 12 <= addr_lo t lvl pg <= 22.
Proof. unfold addr_lo. destruct t; try destruct (_ && _); lia. Qed.

(** A 32-bit entry of a 4 MB page: the source copies bits 39-32 of the entry,
    which are zero, to bits 58-51 of the address. *)
Lemma get_address_4mb e :
  is_u 32 e -> Z.testbit e 7 = true ->
  hpt_pme_get_address HPT_TYPE_NORM 2 e = Ok (ins64 0 e 31 22 0).
Proof.
  intros He H7. unfold hpt_pme_get_address. rewrite hpt_pme_is_page_ok by done. cbn.
  rewrite H7. cbn. rewrite !BR64_COPY_BITS_HL_ok by zconst. cbn.
  rewrite BR64_COPY_BITS_HL_ok by zconst. f_equal.
  apply (is_u_ext 64); [lia|apply ins64_range..|]. intros i Hi.
  change (32 - HPT_NORM_ADDR3932_L2_P_LO) with 19.
  change (22 - HPT_NORM_ADDR3122_L2_P_LO) with 0. bits; try done.
  apply (is_u_testbit_high 32); [done|lia].
Qed.

Lemma hpt_pme_get_address_ok t lvl e :
  lvl_ok t lvl -> (t = HPT_TYPE_NORM -> is_u 32 e) ->
  hpt_pme_get_address t lvl e = Ok (pme_addr t lvl e).
Proof.
  intros H Hn.
  destruct (is_4mb t lvl e) eqn:E4; unfold is_4mb in E4.
  { destruct t; try done. apply andb_prop in E4 as [->%Z.eqb_eq E7].
    unfold pme_page in E7. cbn in E7. rewrite get_address_4mb by auto.
    unfold pme_addr, pme_page. cbn. by rewrite E7. }
  unfold hpt_pme_get_address, pme_addr.
  rewrite !hpt_pme_is_page_ok by done. unfold pme_page in *.
  lvl_cases t lvl H; cbn in *; rewrite ?E4; cbn;
    try (destruct (Z.testbit e 7); cbn in *; try done);
    apply BR64_COPY_BITS_HL_ok; zconst.
Qed.

Lemma hpt_pme_set_address_ok t lvl e a :
  lvl_ok t lvl -> is_4mb t lvl e = false ->
  hpt_pme_set_address t lvl e a =
  Ok (ins64 e a (addr_hi t) (addr_lo t lvl (pme_page t lvl e)) 0).
Proof.
  intros H Hn. unfold hpt_pme_set_address, is_4mb, pme_page in *.
  rewrite !hpt_pme_is_page_ok by done. unfold pme_page.
  lvl_cases t lvl H; cbn in *; rewrite ?Hn; cbn;
    try (destruct (Z.testbit e 7); cbn in *);
    apply BR64_COPY_BITS_HL_ok; zconst.
Qed.

(** ** The view of an entry and its updates *)

(** Memory type: bits 5-3 for EPT, PCD and PWT otherwise. *)
Definition pme_mt (t : hpt_type_t) (e : Z) : Z :=
  match t with
  | HPT_TYPE_EPT => get64 e 5 3
  | _ => match Z.testbit e 4, Z.testbit e 3 with
         | false, false => HPT_PMT_WB | false, true => HPT_PMT_WT
         | true, false => HPT_PMT_WC | true, true => HPT_PMT_UC
         end
  end.

Record pme_view := PmeView {
  v_page : bool; v_addr : Z; v_prot : Z; v_user : bool; v_mt : Z }.

Definition view (t : hpt_type_t) (lvl e : Z) : pme_view :=
  PmeView (pme_page t lvl e) (pme_addr t lvl e) (pme_prot t lvl e) (pme_user t lvl e)
          (pme_mt t e).

(** Bits each setter may change. *)
Definition prot_fp (t : hpt_type_t) (i : Z) : Prop :=
  match t with HPT_TYPE_EPT => i < 3 | HPT_TYPE_NORM => i < 2 | _ => i < 2 \/ i = 63 end.
Definition user_fp (t : hpt_type_t) (i : Z) : Prop :=
  match t with HPT_TYPE_EPT => False | _ => i = 2 end.
Definition addr_fp (t : hpt_type_t) (lvl : Z) (pg : bool) (i : Z) : Prop :=
  addr_lo t lvl pg <= i <= addr_hi t.
Definition mt_fp (t : hpt_type_t) (lvl : Z) (pg : bool) (i : Z) : Prop :=
  match t with
  | HPT_TYPE_EPT => 3 <= i <= 5
  | _ => i = 3 \/ i = 4 \/ (pg = true /\ lvl = 1 /\ i = 7) \/ (pg = true /\ 1 < lvl /\ i = 12)
  end.

(** [v] is [e] outside the bits of [fp]. *)
Definition same_outside (fp : Z -> Prop) (e v : Z) : Prop :=
  is_u 64 v /\ forall i, 0 <= i < 64 -> ~ fp i -> Z.testbit v i = Z.testbit e i.

Lemma pme_page_same t lvl e v fp :
  same_outside fp e v -> (lvl <> 1 -> ~ fp 7) -> pme_page t lvl v = pme_page t lvl e.
Proof.
  intros [_ Hs] Hf. unfold pme_page. destruct (Z.eqb_spec lvl 1); [done|]. cbn.
  destruct (has_ps t lvl); cbn; [|done]. apply Hs; [lia|auto].
Qed.

Lemma pme_addr_same t lvl e v fp :
  same_outside fp e v -> (lvl <> 1 -> ~ fp 7) ->
  (forall i, addr_fp t lvl (pme_page t lvl e) i -> ~ fp i) ->
  pme_addr t lvl v = pme_addr t lvl e.
Proof.
  intros Hs H7 Hf. unfold pme_addr. rewrite (pme_page_same t lvl e v fp) by done.
  pose proof (addr_lo_bounds t lvl (pme_page t lvl e)).
  unfold addr_fp in Hf. destruct Hs as [_ Hs].
  assert (31 <= addr_hi t <= 51) by (destruct t; cbn; lia).
  apply (is_u_ext 64); [lia|apply ins64_range..|]. intros i Hi.
  rewrite !ins64_testbit by lia. bits; try done.
  apply Hs; [lia|]. apply Hf; lia.
Qed.

Lemma pme_prot_same t lvl e v fp :
  same_outside fp e v -> (forall i, 0 <= i < 64 -> prot_fp t i -> ~ fp i) ->
  pme_prot t lvl v = pme_prot t lvl e.
Proof.
  intros [_ Hs] Hf. unfold pme_prot, pme_w, pme_x, pme_r, prot_fp in *.
  destruct t; cbn [nx_lvl] in *; try destruct (_ || _);
    rewrite ?(Hs 0), ?(Hs 1), ?(Hs 2), ?(Hs 63) by (lia || (apply Hf; lia)); done.
Qed.

Lemma pme_user_same t lvl e v fp :
  same_outside fp e v -> (forall i, 0 <= i < 64 -> user_fp t i -> ~ fp i) ->
  pme_user t lvl v = pme_user t lvl e.
Proof.
  intros [_ Hs] Hf. unfold pme_user, user_fp in *.
  destruct t; try done; try destruct (lvl =? 3); try done;
    (apply Hs; [lia|apply Hf; lia]).
Qed.

Lemma pme_mt_same t e v fp :
  same_outside fp e v -> (forall i, 3 <= i <= 5 -> (t <> HPT_TYPE_EPT -> i < 5) -> ~ fp i) ->
  pme_mt t v = pme_mt t e.
Proof.
  intros [_ Hs] Hf. unfold pme_mt.
  destruct t; try (rewrite !(Hs 3), !(Hs 4) by (lia || (apply Hf; lia)); done).
  apply Z.bits_inj'. intros i Hi. rewrite !get64_testbit by lia. bits; try done.
  apply Hs; [lia|apply Hf; [lia|done]].
Qed.

(** ** What each setter does *)

Lemma same_outside_refl fp e : is_u 64 e -> same_outside fp e e.
Proof. by split. Qed.

Lemma same_outside_trans fp e v w :
  same_outside fp e v -> same_outside fp v w -> same_outside fp e w.
Proof.
  intros [_ H1] [Hw H2]. split; [done|]. intros i Hi Hf. by rewrite H2, H1.
Qed.

Lemma same_outside_set64 (fp : Z -> Prop) e v pos b :
  0 <= pos < 64 -> fp pos -> same_outside fp e v -> same_outside fp e (set64 v pos b).
Proof.
  intros Hp Hf [_ Hv]. split; [by apply set64_range|]. intros i Hi Hn.
  rewrite set64_testbit by lia. bits; [by subst|by apply Hv].
Qed.

Lemma same_outside_ins64 (fp : Z -> Prop) e v a hi lo off :
  0 <= lo <= hi -> 0 <= lo + off -> hi + off <= 63 ->
  (forall i, lo + off <= i <= hi + off -> fp i) ->
  same_outside fp e v -> same_outside fp e (ins64 v a hi lo off).
Proof.
  intros ??? Hf [_ Hv]. split; [by apply ins64_range|]. intros i Hi Hn.
  rewrite ins64_testbit by lia. bits; [|by apply Hv..]. exfalso. apply Hn, Hf. lia.
Qed.

(** Permissions an entry can express: PAE level-3 entries have only the
    present bit. *)
Definition prot_read (t : hpt_type_t) (lvl p : Z) : Z :=
  match t with
  | HPT_TYPE_PAE => if lvl =? 3 then (if Z.testbit p 0 then HPT_PROTS_RWX else 0) else p
  | _ => p
  end.

Ltac fold_bits :=
  repeat match goal with
  | |- context [Z.testbit (set64 _ _ _) _] => rewrite set64_testbit by zconst
  | |- context [Z.testbit (ins64 _ _ _ _ _) _] => rewrite ins64_testbit by zconst
  end; cbn -[Z.testbit].

(** Membership of a constant bit position in a footprint. *)
Ltac fp_const := vm_compute; intuition congruence.

Lemma hpt_pme_setprot_spec t lvl e p :
  lvl_ok t lvl -> is_u 64 e -> is_u 3 p -> hpt_prot_is_valid t lvl p = true ->
  exists v, hpt_pme_setprot t lvl e p = Ok v /\ same_outside (prot_fp t) e v /\
    pme_prot t lvl v = prot_read t lvl p.
Proof.
  intros H He Hp Hv. unfold hpt_pme_setprot. rewrite hpt_lvl_is_valid_ok by done. cbn.
  rewrite Hv. cbn.
  assert (p = 0 \/ p = 1 \/ p = 2 \/ p = 3 \/ p = 4 \/ p = 5 \/ p = 6 \/ p = 7) as Hc
    by (unfold is_u in Hp; lia).
  unfold pme_prot, pme_w, pme_x, pme_r, prot_read.
  lvl_cases t lvl H; cbn -[Z.testbit truth] in *;
  repeat (rewrite BR64_SET_BIT_ok by zconst; cbn -[Z.testbit truth]);
  rewrite ?BR64_SET_HL_ok by (done || zconst);
  (eexists; split; [reflexivity|]; split;
   [repeat (apply same_outside_set64; [zconst|fp_const|]); try by apply same_outside_refl |]).
  all: try (apply same_outside_ins64; [zconst..| |by apply same_outside_refl];
            intros i; change (HPT_EPT_PROT_L4321_MP_HI - HPT_EPT_PROT_L4321_MP_LO) with 2;
            change HPT_EPT_PROT_L4321_MP_LO with 0; cbn; lia).
  all: fold_bits; destruct Hc as [->|[->|[->|[->|[->|[->|[->| ->]]]]]]];
       first [reflexivity | discriminate Hv].
Qed.

Lemma hpt_pme_setuser_spec t lvl e u :
  lvl_ok t lvl -> is_u 64 e -> (pme_user t lvl 0 = true -> u = true) ->
  exists v, hpt_pme_setuser t lvl e u = Ok v /\ same_outside (user_fp t) e v /\
    pme_user t lvl v = u.
Proof.
  intros H He Hu. unfold hpt_pme_setuser, pme_user in *.
  lvl_cases t lvl H; cbn -[Z.testbit] in *;
    try (rewrite (Hu eq_refl); exists e; split; [done|split; [by apply same_outside_refl|done]]).
  all: rewrite BR64_SET_BIT_ok by zconst; eexists; split; [reflexivity|]; split;
    [apply same_outside_set64; [zconst|fp_const|by apply same_outside_refl]|fold_bits; done].
Qed.

Lemma hpt_pme_set_page_spec t lvl e pg :
  lvl_ok t lvl -> is_u 64 e -> (lvl = 1 -> pg = true) -> (has_ps t lvl = false -> 1 < lvl -> pg = false) ->
  exists v, hpt_pme_set_page t lvl e pg = Ok v /\
    same_outside (fun i => has_ps t lvl = true /\ i = 7) e v /\ pme_page t lvl v = pg.
Proof.
  intros H He H1 H2. unfold hpt_pme_set_page, pme_page.
  lvl_cases t lvl H; cbn -[Z.testbit] in *;
    try (rewrite (H1 eq_refl); exists e; split; [done|split; [by apply same_outside_refl|done]]);
    try (rewrite (H2 eq_refl) by lia; exists e; split; [done|split; [by apply same_outside_refl|done]]).
  all: rewrite BR64_SET_BIT_ok by zconst; eexists; split; [reflexivity|]; split;
    [apply same_outside_set64; [zconst|split; reflexivity|by apply same_outside_refl]
    |fold_bits; done].
Qed.

Lemma hpt_pme_set_address_spec t lvl e a :
  lvl_ok t lvl -> is_u 64 e -> is_4mb t lvl e = false ->
  exists v, hpt_pme_set_address t lvl e a = Ok v /\
    same_outside (addr_fp t lvl (pme_page t lvl e)) e v /\
    pme_addr t lvl v = ins64 0 a (addr_hi t) (addr_lo t lvl (pme_page t lvl e)) 0.
Proof.
  intros H He H4. rewrite hpt_pme_set_address_ok by done.
  pose proof (addr_lo_bounds t lvl (pme_page t lvl e)).
  assert (31 <= addr_hi t <= 51) by (destruct t; cbn; lia).
  eexists. split; [reflexivity|].
  assert (same_outside (addr_fp t lvl (pme_page t lvl e)) e
    (ins64 e a (addr_hi t) (addr_lo t lvl (pme_page t lvl e)) 0)) as Hs.
  { apply same_outside_ins64; [lia..| |by apply same_outside_refl].
    unfold addr_fp. intros; lia. }
  split; [done|]. unfold pme_addr.
  rewrite (pme_page_same t lvl e _ _ Hs) by (unfold addr_fp; lia).
  apply (is_u_ext 64); [lia|apply ins64_range..|]. intros i Hi.
  bits; try done; f_equal; lia.
Qed.

(** Memory types [hpt_pme_set_pmt] accepts. *)
Definition pmt_ok (t : hpt_type_t) (pmt : Z) : Prop :=
  match t with
  | HPT_TYPE_EPT => is_u 3 pmt
  | _ => pmt = HPT_PMT_UC \/ pmt = HPT_PMT_WC \/ pmt = HPT_PMT_WT \/ pmt = HPT_PMT_WB
  end.

Lemma hpt_pme_set_pat_spec t lvl e :
  lvl_ok t lvl -> is_u 64 e -> t <> HPT_TYPE_EPT ->
  exists v, hpt_pme_set_pat t lvl e false = Ok v /\
    same_outside (mt_fp t lvl (pme_page t lvl e)) e v.
Proof.
  intros H He Ht. unfold hpt_pme_set_pat. rewrite hpt_pme_is_page_ok by done.
  unfold pme_page. lvl_cases t lvl H; cbn -[Z.testbit] in *; try done;
    try destruct (Z.testbit e 7); cbn -[Z.testbit];
    rewrite ?BR64_SET_BIT_ok by zconst;
    (eexists; split; [reflexivity|]);
    first [by apply same_outside_refl
          | apply same_outside_set64; [zconst|fp_const|by apply same_outside_refl]].
Qed.

Lemma hpt_pme_set_pmt_spec t lvl e pmt :
  lvl_ok t lvl -> is_u 64 e -> pmt_ok t pmt ->
  (t = HPT_TYPE_EPT -> lvl <= 3 /\ pme_page t lvl e = true) ->
  exists v, hpt_pme_set_pmt t lvl e pmt = Ok v /\
    same_outside (mt_fp t lvl (pme_page t lvl e)) e v /\ pme_mt t v = pmt.
Proof.
  intros H He Hp Hpg. unfold hpt_pme_set_pmt.
  destruct (decide (t = HPT_TYPE_EPT)) as [->|Ht].
  - destruct (Hpg eq_refl) as [Hl Hpt]. rewrite (proj2 (Z.leb_le lvl 3)) by lia.
    rewrite hpt_pme_is_page_ok by done. rewrite Hpt. cbn.
    rewrite BR64_SET_HL_ok by (zconst || done).
    eexists. split; [reflexivity|].
    change (HPT_EPT_MT_L321_P_HI - HPT_EPT_MT_L321_P_LO) with 2.
    change HPT_EPT_MT_L321_P_LO with 3. split.
    + apply same_outside_ins64; [lia..| |by apply same_outside_refl]. cbn. lia.
    + apply Z.bits_inj'. intros i Hi. cbn.
      bits; try done.
      * f_equal; lia.
      * symmetry. apply (is_u_testbit_high 3); [done|lia].
  - assert (t <> HPT_TYPE_INVALID) by (intros ->; unfold lvl_ok in H; cbn in H; lia).
    destruct (hpt_pme_set_pat_spec t lvl e) as (v & Hv & Hs); [done..|].
    assert (forall v pcd pwt, exists w,
      (rv ← hpt_pme_set_pcd t lvl v pcd; hpt_pme_set_pwt t lvl rv pwt) = Ok w /\
      w = set64 (set64 v 4 pcd) 3 pwt) as Hset.
    { intros v' pcd pwt. destruct t; try done; cbn;
        rewrite BR64_SET_BIT_ok by zconst; cbn; rewrite BR64_SET_BIT_ok by zconst; eauto. }
    assert (forall pcd pwt, exists w,
      (rv ← hpt_pme_set_pat t lvl e false;
       rv ← hpt_pme_set_pcd t lvl rv pcd; hpt_pme_set_pwt t lvl rv pwt) = Ok w /\
      same_outside (mt_fp t lvl (pme_page t lvl e)) e w /\
      Z.testbit w 4 = pcd /\ Z.testbit w 3 = pwt) as Hall.
    { intros pcd pwt. rewrite Hv. cbn. destruct (Hset v pcd pwt) as (w & Hw & ->).
      rewrite Hw. eexists; split; [reflexivity|]. split; [|fold_bits; done].
      do 2 (apply same_outside_set64; [zconst|destruct t; try done; fp_const|]). done. }
    destruct t; try done; unfold pmt_ok in Hp;
      destruct Hp as [->|[->|[->| ->]]]; cbn -[hpt_pme_set_pat hpt_pme_set_pcd hpt_pme_set_pwt];
      first [destruct (Hall true true) as (w & -> & Hw & E4 & E3)
            |destruct (Hall true false) as (w & -> & Hw & E4 & E3)
            |destruct (Hall false true) as (w & -> & Hw & E4 & E3)
            |destruct (Hall false false) as (w & -> & Hw & E4 & E3)];
      exists w; (split; [done|split; [done|]]); cbn; rewrite E4, E3; done.
Qed.

(** ** Each setter updates one component of the view *)

Lemma view_setprot t lvl e p :
  lvl_ok t lvl -> is_u 64 e -> is_u 3 p -> hpt_prot_is_valid t lvl p = true ->
  exists v, hpt_pme_setprot t lvl e p = Ok v /\ same_outside (prot_fp t) e v /\
    view t lvl v = PmeView (pme_page t lvl e) (pme_addr t lvl e) (prot_read t lvl p)
                     (pme_user t lvl e) (pme_mt t e).
Proof.
  intros H He Hp Hv. destruct (hpt_pme_setprot_spec t lvl e p) as (v & E & Hs & Hr); [done..|].
  exists v. do 2 (split; [done|]). unfold view. f_equal; [..|done| |].
  - apply (pme_page_same _ _ _ _ _ Hs). intros _. destruct t; cbn; lia.
  - apply (pme_addr_same _ _ _ _ _ Hs).
    + intros _. destruct t; cbn; lia.
    + intros i. pose proof (addr_lo_bounds t lvl (pme_page t lvl e)). unfold addr_fp.
      assert (addr_hi t <= 51) by (destruct t; cbn; lia). destruct t; cbn in *; lia.
  - apply (pme_user_same _ _ _ _ _ Hs). intros i ?. destruct t; cbn; lia.
  - apply (pme_mt_same _ _ _ _ Hs). intros i ??. destruct t; cbn; lia.
Qed.

Lemma view_setuser t lvl e u :
  lvl_ok t lvl -> is_u 64 e -> (pme_user t lvl 0 = true -> u = true) ->
  exists v, hpt_pme_setuser t lvl e u = Ok v /\ same_outside (user_fp t) e v /\
    view t lvl v = PmeView (pme_page t lvl e) (pme_addr t lvl e) (pme_prot t lvl e) u (pme_mt t e).
Proof.
  intros H He Hu. destruct (hpt_pme_setuser_spec t lvl e u) as (v & E & Hs & Hr); [done..|].
  exists v. do 2 (split; [done|]). unfold view. f_equal; [..|done|].
  - apply (pme_page_same _ _ _ _ _ Hs). intros _. destruct t; cbn; lia.
  - apply (pme_addr_same _ _ _ _ _ Hs).
    + intros _. destruct t; cbn; lia.
    + intros i. pose proof (addr_lo_bounds t lvl (pme_page t lvl e)). unfold addr_fp.
      destruct t; cbn in *; lia.
  - apply (pme_prot_same _ _ _ _ _ Hs). intros i ?. destruct t; cbn; lia.
  - apply (pme_mt_same _ _ _ _ Hs). intros i ??. destruct t; cbn; lia.
Qed.

Lemma view_set_address t lvl e a :
  lvl_ok t lvl -> is_u 64 e -> is_4mb t lvl e = false ->
  exists v, hpt_pme_set_address t lvl e a = Ok v /\
    same_outside (addr_fp t lvl (pme_page t lvl e)) e v /\
    view t lvl v = PmeView (pme_page t lvl e)
                     (ins64 0 a (addr_hi t) (addr_lo t lvl (pme_page t lvl e)) 0)
                     (pme_prot t lvl e) (pme_user t lvl e) (pme_mt t e).
Proof.
  intros H He H4. destruct (hpt_pme_set_address_spec t lvl e a) as (v & E & Hs & Hr); [done..|].
  exists v. do 2 (split; [done|]).
  pose proof (addr_lo_bounds t lvl (pme_page t lvl e)).
  assert (addr_hi t <= 51) by (destruct t; cbn; lia).
  unfold view. f_equal; [|done|..].
  - apply (pme_page_same _ _ _ _ _ Hs). intros _. unfold addr_fp. lia.
  - apply (pme_prot_same _ _ _ _ _ Hs). intros i ?. unfold addr_fp. destruct t; cbn in *; lia.
  - apply (pme_user_same _ _ _ _ _ Hs). intros i ?. unfold addr_fp. destruct t; cbn in *; lia.
  - apply (pme_mt_same _ _ _ _ Hs). intros i ??. unfold addr_fp. lia.
Qed.

Lemma view_set_pmt t lvl e pmt :
  lvl_ok t lvl -> is_u 64 e -> pmt_ok t pmt ->
  (t = HPT_TYPE_EPT -> lvl <= 3 /\ pme_page t lvl e = true) ->
  exists v, hpt_pme_set_pmt t lvl e pmt = Ok v /\
    same_outside (mt_fp t lvl (pme_page t lvl e)) e v /\
    view t lvl v = PmeView (pme_page t lvl e) (pme_addr t lvl e) (pme_prot t lvl e)
                     (pme_user t lvl e) pmt.
Proof.
  intros H He Hp Hpg. destruct (hpt_pme_set_pmt_spec t lvl e pmt) as (v & E & Hs & Hr); [done..|].
  exists v. do 2 (split; [done|]).
  unfold lvl_ok in H. unfold view. f_equal; [..|done].
  - apply (pme_page_same _ _ _ _ _ Hs). intros ?. destruct t; cbn; lia.
  - apply (pme_addr_same _ _ _ _ _ Hs).
    + intros ?. destruct t; cbn; lia.
    + intros i. unfold addr_fp, addr_lo.
      destruct t; cbn in *; destruct (pme_page _ lvl e); cbn;
        destruct (Z.eqb_spec lvl 1); cbn; lia.
  - apply (pme_prot_same _ _ _ _ _ Hs). intros i ?. destruct t; cbn; lia.
  - apply (pme_user_same _ _ _ _ _ Hs). intros i ?. destruct t; cbn; lia.
Qed.

(** ** Index of an address *)

(** High bit of the index at a level, and of the page offset at level 0. *)
Definition va_hi (t : hpt_type_t) (lvl : Z) : Z :=
  match hpt_va_idx_hi t !! Z.to_nat lvl with Some v => v | None => 0 end.
(** Size of an entry in a page map. *)
Definition pme_bytes (t : hpt_type_t) : Z := match t with HPT_TYPE_NORM => 4 | _ => 8 end.
Definition pm_idx (t : hpt_type_t) (lvl va : Z) : Z := get64 va (va_hi t lvl) (va_hi t (lvl - 1) + 1).

Lemma va_hi_step t lvl :
  lvl_ok t lvl -> 11 <= va_hi t (lvl - 1) < va_hi t lvl /\ va_hi t lvl <= 47 /\
                  va_hi t lvl <= va_hi t (lvl - 1) + 10.
Proof. intros H. lvl_cases t lvl H; vm_compute; intuition congruence. Qed.

Lemma hpt_get_pm_idx_ok t lvl va : lvl_ok t lvl -> hpt_get_pm_idx t lvl va = Ok (pm_idx t lvl va).
Proof.
  intros H. unfold hpt_get_pm_idx.
  assert (hpt_type_is_valid t = true) as -> by (unfold lvl_ok in H; destruct t; cbn in *; lia || done).
  rewrite hpt_lvl_is_valid_ok by done. cbn.
  pose proof (va_hi_step t lvl H) as Hst. unfold tbl_get.
  pose proof H as H'. unfold lvl_ok in H'.
  rewrite (proj2 (Z.ltb_ge lvl 0)), (proj2 (Z.ltb_ge (lvl - 1) 0)) by lia.
  assert (forall l, 0 <= l <= max_lvl t -> hpt_va_idx_hi t !! Z.to_nat l = Some (va_hi t l)) as Hrow.
  { intros l Hl. unfold va_hi.
    assert (l = 0 \/ l = 1 \/ l = 2 \/ l = 3 \/ l = 4) as C by (destruct t; cbn in *; lia).
    destruct t; destruct C as [->|[->|[->|[->| ->]]]]; cbn in *; try done; lia. }
  rewrite !Hrow by lia. cbn. rewrite BR64_GET_HL_ok by lia. cbn.
  f_equal. apply wrap_small. apply (is_u_le (va_hi t lvl - (va_hi t (lvl - 1) + 1) + 1)); [lia|].
  apply get64_range. lia.
Qed.

Lemma pm_idx_bound t lvl va sz :
  lvl_ok t lvl -> hpt_pm_size t lvl = Ok sz ->
  0 <= pm_idx t lvl va /\ (pm_idx t lvl va + 1) * pme_bytes t <= sz.
Proof.
  intros H Hsz. pose proof (va_hi_step t lvl H).
  pose proof (get64_range va (va_hi t lvl) (va_hi t (lvl - 1) + 1)) as Hr.
  fold (pm_idx t lvl va) in Hr. unfold is_u in Hr.
  assert (2 ^ (va_hi t lvl - (va_hi t (lvl - 1) + 1) + 1) * pme_bytes t <= sz).
  2: { assert (0 < pme_bytes t) by (destruct t; cbn; lia). nia. }
  clear Hr. lvl_cases t lvl H; vm_compute in Hsz; injection Hsz as <-; vm_compute; congruence.
Qed.

(** The addresses that agree on everything above the region of an entry. *)
Definition region (t : hpt_type_t) (lvl va : Z) : Z := Z.shiftr va (va_hi t (lvl - 1) + 1).

Lemma region_step t lvl va va' :
  lvl_ok t lvl -> 0 <= va -> 0 <= va' ->
  region t lvl va = region t lvl va' <->
  region t (lvl + 1) va = region t (lvl + 1) va' /\ pm_idx t lvl va = pm_idx t lvl va'.
Proof.
  intros H Hva Hva'. pose proof (va_hi_step t lvl H) as Hst.
  unfold region, pm_idx. replace (lvl + 1 - 1) with lvl by lia.
  set (lo := va_hi t (lvl - 1) + 1) in *. set (hi := va_hi t lvl) in *.
  assert (lo <= hi) by lia. split.
  - intros E. unfold get64. rewrite E. split; [|done].
    replace (hi + 1) with (lo + (hi + 1 - lo)) by lia.
    rewrite <- !Z.shiftr_shiftr by lia. by rewrite E.
  - intros [E1 E2]. apply Z.bits_inj'. intros i Hi. rewrite !Z.shiftr_spec by lia.
    destruct (Z.leb_spec (i + lo) hi).
    + apply (f_equal (fun z => Z.testbit z i)) in E2.
      rewrite !get64_testbit in E2 by lia.
      by replace (i <=? hi - lo) with true in E2 by lia.
    + apply (f_equal (fun z => Z.testbit z (i + lo - (hi + 1)))) in E1.
      rewrite !Z.shiftr_spec in E1 by lia.
      by replace (i + lo - (hi + 1) + (hi + 1)) with (i + lo) in E1 by lia.
Qed.
