(* ===== verification/HptProps.v ===== *)
(** Properties of the accessors of [src/hpt.c], stated with those accessors:
    round trips, independence of the fields, indices and CR3 / EPTP. *)
From S2P Require Import Prelude Bitfield HptConsts Hpt HptLemmas.

(** ** Helpers *)

Lemma hpt_pme_get_pmt_ok t lvl e :
  lvl_ok t lvl -> (t = HPT_TYPE_EPT -> lvl <= 3 /\ pme_page t lvl e = true) ->
  hpt_pme_get_pmt t lvl e = Ok (pme_mt t e).
Proof.
  intros H Hp. unfold hpt_pme_get_pmt, pme_mt. unfold lvl_ok in H.
  destruct t; try (cbn in H; lia);
    try (unfold hpt_pme_get_pcd, hpt_pme_get_pwt; rewrite !BR64_GET_BIT_ok by zconst;
         cbn -[truth b2z Z.testbit]; rewrite !truth_b2z;
         change HPT_NORM_PCD_L21_MP_BIT with 4; change HPT_NORM_PWT_L21_MP_BIT with 3;
         change HPT_PAE_PCD_L321_MP_BIT with 4; change HPT_PAE_PWT_L321_MP_BIT with 3;
         change HPT_LONG_PCD_L4321_MP_BIT with 4; change HPT_LONG_PWT_L4321_MP_BIT with 3;
         by destruct (Z.testbit e 4), (Z.testbit e 3)).
  destruct (Hp eq_refl) as [Hl Hpg]. rewrite (proj2 (Z.leb_le lvl 3)) by lia.
  rewrite hpt_pme_is_page_ok by done. rewrite Hpg. cbn -[get64 Z.testbit].
  by rewrite BR64_GET_HL_ok by zconst.
Qed.

Lemma same_outside_u32 (fp : Z -> Prop) e v :
  same_outside fp e v -> (forall i, fp i -> i < 32 \/ 64 <= i) -> is_u 32 e -> is_u 32 v.
Proof.
  intros [Hv Hs] Hf He. apply is_u_of_testbit; [lia|apply Hv|]. intros i Hi.
  destruct (decide (i < 64)); [|apply (is_u_testbit_high 64); [done|lia]].
  rewrite Hs; [apply (is_u_testbit_high 32); [done|lia]|lia|]. intros Hc. apply Hf in Hc. lia.
Qed.

(** What the getters of the source return for an entry. *)
Record getters (t : hpt_type_t) (lvl e : Z) (v : pme_view) : Prop := {
  g_page : hpt_pme_is_page t lvl e = Ok (v_page v);
  g_addr : hpt_pme_get_address t lvl e = Ok (v_addr v);
  g_prot : hpt_pme_getprot t lvl e = Ok (v_prot v);
  g_user : hpt_pme_getuser t lvl e = Ok (v_user v);
  g_mt : (t = HPT_TYPE_EPT -> lvl <= 3 /\ v_page v = true) -> hpt_pme_get_pmt t lvl e = Ok (v_mt v) }.

Lemma getters_view t lvl e :
  lvl_ok t lvl -> (t = HPT_TYPE_NORM -> is_u 32 e) -> getters t lvl e (view t lvl e).
Proof.
  intros H Hn. constructor; cbn.
  - by apply hpt_pme_is_page_ok.
  - by apply hpt_pme_get_address_ok.
  - by apply hpt_pme_getprot_ok.
  - by apply hpt_pme_getuser_ok.
  - by apply hpt_pme_get_pmt_ok.
Qed.

Lemma getters_unique t lvl e v :
  lvl_ok t lvl -> getters t lvl e v ->
  hpt_pme_is_page t lvl e = Ok (v_page v) /\ v_prot v = pme_prot t lvl e /\ v_user v = pme_user t lvl e.
Proof.
  intros H [H1 _ H3 H4 _]. rewrite hpt_pme_getprot_ok in H3 by done.
  rewrite hpt_pme_getuser_ok in H4 by done. by simplify_eq.
Qed.

(** ** Round trips *)

(** C34: writing the address field of an entry of any paging type and level (except
    a 4 MB page of 32-bit paging) succeeds, reading it back gives the address
    rounded down to the field, which is the address itself when it is aligned and
    small enough, and every other getter returns what it returned before. *)
Theorem hpt_pme_set_address_get t lvl e a :
  lvl_ok t lvl -> is_u 64 e -> (t = HPT_TYPE_NORM -> is_u 32 e) -> is_4mb t lvl e = false ->
  exists v, hpt_pme_set_address t lvl e a = Ok v /\
    getters t lvl v (PmeView (pme_page t lvl e)
      (ins64 0 a (addr_hi t) (addr_lo t lvl (pme_page t lvl e)) 0)
      (pme_prot t lvl e) (pme_user t lvl e) (pme_mt t e)) /\
    getters t lvl e (view t lvl e) /\
    (0 <= a < 2 ^ (addr_hi t + 1) -> a mod 2 ^ addr_lo t lvl (pme_page t lvl e) = 0 ->
     hpt_pme_get_address t lvl v = Ok a).
Proof.
  intros H He Hn H4. destruct (view_set_address t lvl e a) as (v & E & Hs & V); [done..|].
  exists v. split; [done|].
  assert (t = HPT_TYPE_NORM -> is_u 32 v) as Hn'.
  { intros ->. apply (same_outside_u32 _ e v Hs); [|by apply Hn]. unfold addr_fp. cbn. lia. }
  pose proof (getters_view t lvl v H Hn') as G. rewrite V in G. split; [done|].
  split; [by apply getters_view|]. intros Ha Hal. rewrite (g_addr _ _ _ _ G). cbn. f_equal.
  pose proof (addr_lo_bounds t lvl (pme_page t lvl e)).
  assert (31 <= addr_hi t <= 51) by (destruct t; cbn; lia).
  set (lo := addr_lo t lvl (pme_page t lvl e)) in *.
  apply (is_u_ext 64); [lia|apply ins64_range| |].
  { apply (is_u_le (addr_hi t + 1)); [lia|done]. }
  intros i Hi. bits.
  - by rewrite Z.sub_0_r.
  - symmetry. apply (is_u_testbit_high (addr_hi t + 1)); [done|lia].
  - symmetry. assert (Z.testbit (a mod 2 ^ lo) i = false) as E' by (rewrite Hal; apply Z.bits_0).
    by rewrite Z.mod_pow2_bits_low in E' by lia.
Qed.

(** For a valid permission, [hpt_pme_setprot] succeeds, [hpt_pme_getprot] then
    returns that permission (for a level-3 PAE entry, which has only the present
    bit: none or all), and page bit, address, user bit and memory type are
    untouched. *)
Theorem hpt_pme_setprot_get t lvl e p :
  lvl_ok t lvl -> is_u 64 e -> (t = HPT_TYPE_NORM -> is_u 32 e) ->
  is_u 3 p -> hpt_prot_is_valid t lvl p = true ->
  exists v, hpt_pme_setprot t lvl e p = Ok v /\
    hpt_pme_getprot t lvl v = Ok (prot_read t lvl p) /\
    hpt_pme_is_page t lvl v = hpt_pme_is_page t lvl e /\
    hpt_pme_get_address t lvl v = hpt_pme_get_address t lvl e /\
    hpt_pme_getuser t lvl v = hpt_pme_getuser t lvl e /\
    ((t = HPT_TYPE_EPT -> lvl <= 3 /\ pme_page t lvl e = true) ->
     hpt_pme_get_pmt t lvl v = hpt_pme_get_pmt t lvl e).
Proof.
  intros H He Hn Hp Hv. destruct (view_setprot t lvl e p) as (v & E & Hs & V); [done..|].
  exists v. split; [done|]. unfold view in V. injection V as V1 V2 V3 V4 V5.
  rewrite hpt_pme_getprot_ok, !hpt_pme_is_page_ok, !hpt_pme_getuser_ok by done.
  rewrite V1, V3, V4. do 2 (split; [done|]).
  split.
  { rewrite !hpt_pme_get_address_ok; [by rewrite V2|done..|done|]. intros ->.
    apply (same_outside_u32 _ e v Hs); [cbn; lia|by apply Hn]. }
  split; [done|]. intros Hg. rewrite (hpt_pme_get_pmt_ok t lvl v) by (done || by rewrite V1).
  rewrite (hpt_pme_get_pmt_ok t lvl e) by done. by rewrite V5.
Qed.

(** [hpt_pme_set_pmt] then [hpt_pme_get_pmt] returns the memory type that was
    set (any 3-bit type for an EPT page, the four types the PCD and PWT bits can
    express otherwise), and page bit, permissions and user bit are untouched. *)
Theorem hpt_pme_set_pmt_get t lvl e pmt :
  lvl_ok t lvl -> is_u 64 e -> pmt_ok t pmt ->
  (t = HPT_TYPE_EPT -> lvl <= 3 /\ pme_page t lvl e = true) ->
  exists v, hpt_pme_set_pmt t lvl e pmt = Ok v /\ hpt_pme_get_pmt t lvl v = Ok pmt /\
    hpt_pme_is_page t lvl v = hpt_pme_is_page t lvl e /\
    hpt_pme_getprot t lvl v = hpt_pme_getprot t lvl e /\
    hpt_pme_getuser t lvl v = hpt_pme_getuser t lvl e.
Proof.
  intros H He Hp Hpg. destruct (view_set_pmt t lvl e pmt) as (v & E & Hs & V); [done..|].
  exists v. split; [done|]. unfold view in V. injection V as V1 V2 V3 V4 V5.
  rewrite hpt_pme_get_pmt_ok by (done || by rewrite V1).
  rewrite !hpt_pme_is_page_ok, !hpt_pme_getprot_ok, !hpt_pme_getuser_ok by done.
  by rewrite V1, V3, V4, V5.
Qed.

(** C35: in 32-bit paging, [hpt_pme_set_address] on an entry of a 4 MB page is
    undefined for every address: the first of its two bit copies shifts by a
    negative amount.  [hpt_pme_get_address] ignores bits 20-13 of such an entry,
    which hold bits 39-32 of the address. *)
Theorem hpt_pme_4mb_address e a :
  is_u 32 e -> Z.testbit e 7 = true ->
  hpt_pme_set_address HPT_TYPE_NORM 2 e a = Err Undef /\
  hpt_pme_get_address HPT_TYPE_NORM 2 e = Ok (ins64 0 e 31 22 0).
Proof.
  intros He H7. split; [|by apply get_address_4mb].
  unfold hpt_pme_set_address. rewrite hpt_pme_is_page_ok by done. unfold pme_page. cbn.
  rewrite H7. cbn. unfold HPT_NORM_ADDR3932_L2_P_HI, HPT_NORM_ADDR3932_L2_P_LO.
  by rewrite (BR64_COPY_BITS_HL_negative e a 20 13) by lia.
Qed.

(** ** Indices *)

(** The index of an address in a page map lies inside that page map, for every
    type, level and address. *)
Theorem hpt_get_pm_idx_in_table t lvl va :
  lvl_ok t lvl ->
  exists i sz, hpt_get_pm_idx t lvl va = Ok i /\ hpt_pm_size t lvl = Ok sz /\
    0 <= i /\ (i + 1) * pme_bytes t <= sz.
Proof.
  intros H. exists (pm_idx t lvl va). rewrite hpt_get_pm_idx_ok by done.
  assert (exists sz, hpt_pm_size t lvl = Ok sz) as [sz Hsz].
  { pose proof H as H'. lvl_cases t lvl H; by eexists. }
  exists sz. split; [done|]. split; [done|]. by apply pm_idx_bound.
Qed.

Lemma region_all t va va' :
  0 <= va -> 0 <= va' ->
  forall n lvl, max_lvl t + 1 = lvl + Z.of_nat n -> 1 <= lvl ->
  region t (max_lvl t + 1) va = region t (max_lvl t + 1) va' ->
  (forall l, lvl <= l <= max_lvl t -> pm_idx t l va = pm_idx t l va') ->
  region t lvl va = region t lvl va'.
Proof.
  intros H0 H0'. induction n as [|n IH]; intros lvl Hn Hl Htop Hidx.
  - by replace lvl with (max_lvl t + 1) by lia.
  - apply region_step; [unfold lvl_ok; lia|done|done|]. split; [|apply Hidx; lia].
    apply IH; [lia|lia|done|]. intros l Hl'. apply Hidx. lia.
Qed.

(** Two addresses that have the same index at every level, the same offset in
    their page and the same bits above those a walk uses are equal: the indices
    and the offset decompose an address without loss. *)
Theorem hpt_get_pm_idx_injective t va va' :
  t <> HPT_TYPE_INVALID -> 0 <= va -> 0 <= va' ->
  (forall lvl, lvl_ok t lvl -> hpt_get_pm_idx t lvl va = hpt_get_pm_idx t lvl va') ->
  va mod 2 ^ 12 = va' mod 2 ^ 12 ->
  Z.shiftr va (va_hi t (max_lvl t) + 1) = Z.shiftr va' (va_hi t (max_lvl t) + 1) ->
  va = va'.
Proof.
  intros Ht H0 H0' Hidx Hoff Htop.
  assert (region t 1 va = region t 1 va') as Hr.
  { apply (region_all t va va' H0 H0' (Z.to_nat (max_lvl t)) 1); [destruct t; done|lia| |].
    - unfold region. by replace (max_lvl t + 1 - 1) with (max_lvl t) by lia.
    - intros l Hl. specialize (Hidx l Hl). rewrite !hpt_get_pm_idx_ok in Hidx by done.
      by simplify_eq. }
  assert (va_hi t (1 - 1) + 1 = 12) as E12 by (by destruct t).
  unfold region in Hr. rewrite E12 in Hr. rewrite !Z.shiftr_div_pow2 in Hr by lia.
  rewrite (Z.div_mod va (2 ^ 12)), (Z.div_mod va' (2 ^ 12)) by lia. by rewrite Hr, Hoff.
Qed.

(** ** CR3 and EPTP *)

Definition root_lo (t : hpt_type_t) : Z := match t with HPT_TYPE_PAE => 5 | _ => 12 end.
Definition root_hi (t : hpt_type_t) : Z :=
  match t with HPT_TYPE_LONG | HPT_TYPE_EPT => 51 | _ => 31 end.

(** An address written to CR3 and read back is that address, rounded down to
    the alignment of the root page map and cut to the width of the field. *)
Theorem hpt_cr3_address_roundtrip t cr3 a :
  t = HPT_TYPE_NORM \/ t = HPT_TYPE_PAE \/ t = HPT_TYPE_LONG ->
  exists v, hpt_cr3_set_address t cr3 a = Ok v /\
    hpt_cr3_get_address t v = Ok (ins64 0 a (root_hi t) (root_lo t) 0).
Proof.
  intros Ht. destruct Ht as [->|[->| ->]]; unfold hpt_cr3_set_address, hpt_cr3_get_address;
    repeat (rewrite BR64_COPY_BITS_HL_ok by zconst; cbn [mbind res_bind]);
    (eexists; split; [reflexivity|]); rewrite BR64_COPY_BITS_HL_ok by zconst; f_equal;
    cbn [root_hi root_lo];
    (apply (is_u_ext 64); [lia|apply ins64_range..|]); intros i Hi;
    rewrite ?ins64_testbit by (vm_compute; repeat (apply conj); congruence);
    unfold HPT_CR3_PML2_NORM_HI, HPT_CR3_PML2_NORM_LO, HPT_CR3_MBZ11_NORM_HI,
      HPT_CR3_MBZ11_NORM_LO, HPT_CR3_MBZ2_HI, HPT_CR3_MBZ2_LO, HPT_CR3_PML3_PAE_HI,
      HPT_CR3_PML3_PAE_LO, HPT_CR3_PML4_LONG_HI, HPT_CR3_PML4_LONG_LO;
    bits; try done; f_equal; lia.
Qed.

(** ** The properties at concrete entries *)

Lemma hpt_pme_set_address_get_witness :
  exists v, hpt_pme_set_address HPT_TYPE_LONG 1 0x8000000000001025 0x12345000 = Ok v /\
    hpt_pme_get_address HPT_TYPE_LONG 1 v = Ok 0x12345000.
Proof.
  destruct (hpt_pme_set_address_get HPT_TYPE_LONG 1 0x8000000000001025 0x12345000)
    as (v & E & _ & _ & H).
  - split; vm_compute; discriminate.
  - split; vm_compute; congruence.
  - discriminate.
  - reflexivity.
  - exists v. split; [exact E|]. apply H; [split; vm_compute; congruence|reflexivity].
Defined.

Lemma hpt_pme_setprot_get_witness :
  exists v, hpt_pme_setprot HPT_TYPE_PAE 1 0x8000000000001025 HPT_PROTS_RX = Ok v /\
    hpt_pme_getprot HPT_TYPE_PAE 1 v = Ok HPT_PROTS_RX.
Proof.
  destruct (hpt_pme_setprot_get HPT_TYPE_PAE 1 0x8000000000001025 HPT_PROTS_RX)
    as (v & E & Hg & _).
  - split; vm_compute; discriminate.
  - split; vm_compute; congruence.
  - discriminate.
  - split; vm_compute; congruence.
  - reflexivity.
  - exists v. split; [exact E|exact Hg].
Defined.

Lemma hpt_pme_set_pmt_get_witness :
  exists v, hpt_pme_set_pmt HPT_TYPE_EPT 2 0x200087 HPT_PMT_WB = Ok v /\
    hpt_pme_get_pmt HPT_TYPE_EPT 2 v = Ok HPT_PMT_WB.
Proof.
  destruct (hpt_pme_set_pmt_get HPT_TYPE_EPT 2 0x200087 HPT_PMT_WB) as (v & E & Hg & _).
  - split; vm_compute; discriminate.
  - split; vm_compute; congruence.
  - split; vm_compute; congruence.
  - intros _. split; [lia|reflexivity].
  - exists v. split; [exact E|exact Hg].
Defined.

Lemma hpt_pme_4mb_address_witness :
  is_u 32 0x400087 /\ hpt_pme_set_address HPT_TYPE_NORM 2 0x400087 0x800000 = Err Undef.
Proof.
  assert (is_u 32 0x400087) as H by (split; vm_compute; congruence).
  split; [exact H|]. apply (hpt_pme_4mb_address 0x400087 0x800000 H). reflexivity.
Defined.

Lemma hpt_get_pm_idx_in_table_witness :
  lvl_ok HPT_TYPE_PAE 3 /\
  exists i sz, hpt_get_pm_idx HPT_TYPE_PAE 3 0xffffffff = Ok i /\ hpt_pm_size HPT_TYPE_PAE 3 = Ok sz /\
    0 <= i /\ (i + 1) * 8 <= sz.
Proof.
  assert (lvl_ok HPT_TYPE_PAE 3) as H by (split; vm_compute; congruence).
  split; [exact H|]. exact (hpt_get_pm_idx_in_table HPT_TYPE_PAE 3 0xffffffff H).
Defined.

Lemma hpt_get_pm_idx_injective_witness : 0x12345678 = 0x12345000 + 0x678.
Proof.
  apply (hpt_get_pm_idx_injective HPT_TYPE_NORM).
  - discriminate.
  - lia.
  - lia.
  - intros lvl [H1 H2]. cbn in H2. assert (lvl = 1 \/ lvl = 2) as [->| ->] by lia; reflexivity.
  - reflexivity.
  - reflexivity.
Defined.

Lemma hpt_cr3_address_roundtrip_witness :
  exists v, hpt_cr3_set_address HPT_TYPE_PAE 0 0x7fe0 = Ok v /\
    hpt_cr3_get_address HPT_TYPE_PAE v = Ok (ins64 0 0x7fe0 31 5 0).
Proof. apply (hpt_cr3_address_roundtrip HPT_TYPE_PAE 0 0x7fe0). right. left. reflexivity. Defined.
