(* ===== verification/Mem.v ===== *)
(** Byte-addressed memory, and what a load returns after a store.

    The hypervisor runs with its own linear map, so an address is an integer
    and every address can be read.  Bytes that were never written are zero, as
    the objects of the [.bss] section are. *)
From S2P Require Import Prelude.

Abbreviation mem := (gmap Z Z).

Definition rd8 (m : mem) (a : Z) : Z := u8 (default 0 (m !! a)).
Definition wr8 (m : mem) (a b : Z) : mem := <[a := u8 b]> m.

(** Little-endian load and store of [n] bytes. *)
Fixpoint ld (n : nat) (m : mem) (a : Z) : Z :=
  match n with
  | O => 0
  | S n => rd8 m a + 2 ^ 8 * ld n m (a + 1)
  end.
Fixpoint st (n : nat) (m : mem) (a v : Z) : mem :=
  match n with
  | O => m
  | S n => st n (wr8 m a v) (a + 1) (v / 2 ^ 8)
  end.

Definition ld8 := ld 1.
Definition ld16 := ld 2.
Definition ld32 := ld 4.
Definition ld64 := ld 8.
Definition st8 := st 1.
Definition st16 := st 2.
Definition st32 := st 4.
Definition st64 := st 8.

(** [m] and [m'] hold the same bytes at the addresses of [P]. *)
Definition agree (P : Z -> Prop) (m m' : mem) : Prop := forall a, P a -> rd8 m' a = rd8 m a.
Definition in_range (a n : Z) (b : Z) : Prop := a <= b < a + n.

Lemma rd8_range m a : is_u 8 (rd8 m a).
Proof. by apply is_u_wrap. Qed.

Lemma rd8_empty a : rd8 ∅ a = 0.
Proof. done. Qed.

Lemma rd8_wr8 m a b x : rd8 (wr8 m a x) b = if b =? a then u8 x else rd8 m b.
Proof.
  unfold rd8, wr8. destruct (Z.eqb_spec b a) as [->|].
  - rewrite lookup_insert_eq. cbn. apply wrap_small. by apply is_u_wrap.
  - by rewrite lookup_insert_ne by done.
Qed.

Lemma ld_range n m a : is_u (8 * Z.of_nat n) (ld n m a).
Proof.
  revert a. induction n as [|n IH]; intros a; [done|]. cbn [ld].
  specialize (IH (a + 1)). pose proof (rd8_range m a). unfold is_u in *.
  replace (8 * Z.of_nat (S n)) with (8 + 8 * Z.of_nat n) by lia.
  rewrite Z.pow_add_r by lia. nia.
Qed.

Lemma ld_ext n m m' a :
  (forall b, in_range a (Z.of_nat n) b -> rd8 m' b = rd8 m b) -> ld n m' a = ld n m a.
Proof.
  unfold in_range. revert a. induction n as [|n IH]; intros a H; [done|]. cbn [ld].
  rewrite H by lia. rewrite IH; [done|]. intros b Hb. apply H. lia.
Qed.

Lemma rd8_st n m a v b :
  rd8 (st n m a v) b =
  if (a <=? b) && (b <? a + Z.of_nat n) then u8 (v / 2 ^ (8 * (b - a))) else rd8 m b.
Proof.
  revert m a v. induction n as [|n IH]; intros m a v.
  - cbn. bcase; done.
  - cbn [st]. rewrite IH, rd8_wr8. bcase; cbn; try done.
    + rewrite Zdiv.Zdiv_Zdiv by (apply Z.pow_nonneg; lia).
      rewrite <- Z.pow_add_r by lia. do 2 f_equal. f_equal. lia.
    + assert (b = a) by lia. subst. rewrite Z.sub_diag. by rewrite Z.div_1_r.
Qed.

Lemma rd8_st_other n m a v b :
  ~ in_range a (Z.of_nat n) b -> rd8 (st n m a v) b = rd8 m b.
Proof. unfold in_range. intros H. rewrite rd8_st. bcase; done. Qed.

Lemma ld_st_gen n m a v :
  ld n (st n m a v) a = wrap (8 * Z.of_nat n) v.
Proof.
  assert (forall k o, ld k (st n m a v) (a + o) = wrap (8 * Z.of_nat k) (v / 2 ^ (8 * o)) \/
                      ~ (0 <= o /\ o + Z.of_nat k <= Z.of_nat n)) as H.
  { induction k as [|k IH]; intros o.
    - left. cbn [ld]. unfold wrap. cbn. by rewrite Z.mod_1_r.
    - destruct (decide (0 <= o /\ o + Z.of_nat (S k) <= Z.of_nat n)) as [Ho|]; [left|by right].
      cbn [ld]. destruct (IH (o + 1)) as [E|]; [|lia].
      replace (a + (o + 1)) with (a + o + 1) in E by lia. rewrite E.
      rewrite rd8_st. replace (a + o - a) with o by lia. bcase; cbn; try lia.
      unfold u8, wrap. replace (8 * (o + 1)) with (8 * o + 8) by lia.
      rewrite Z.pow_add_r by lia. rewrite <- Zdiv.Zdiv_Zdiv by (apply Z.pow_nonneg; lia).
      replace (8 * Z.of_nat (S k)) with (8 + 8 * Z.of_nat k) by lia.
      rewrite Z.pow_add_r by lia. rewrite Z.rem_mul_r by (apply Z.pow_nonzero || apply Z.pow_pos_nonneg; lia).
      done. }
  destruct (H n 0) as [E|]; [|lia].
  rewrite Z.add_0_r in E. by rewrite E, Z.div_1_r.
Qed.

Lemma ld_st_other n k m a v b :
  b + Z.of_nat k <= a \/ a + Z.of_nat n <= b -> ld k (st n m a v) b = ld k m b.
Proof. intros H. apply ld_ext. unfold in_range. intros c Hc. apply rd8_st_other. unfold in_range. lia. Qed.

(** ** Agreement of memories *)

Lemma agree_refl P m : agree P m m.
Proof. done. Qed.

Lemma agree_trans P m1 m2 m3 : agree P m1 m2 -> agree P m2 m3 -> agree P m1 m3.
Proof. intros H1 H2 a Ha. rewrite H2 by done. by apply H1. Qed.

Lemma agree_weaken (P Q : Z -> Prop) m m' : (forall a, Q a -> P a) -> agree P m m' -> agree Q m m'.
Proof. intros H H1 a Ha. by apply H1, H. Qed.

Lemma agree_st (P : Z -> Prop) n m a v :
  (forall b, in_range a (Z.of_nat n) b -> ~ P b) -> agree P m (st n m a v).
Proof. intros H b Hb. apply rd8_st_other. intros Hr. by apply (H b). Qed.

Lemma ld_agree P n m m' a :
  agree P m m' -> (forall b, in_range a (Z.of_nat n) b -> P b) -> ld n m' a = ld n m a.
Proof. intros H Hp. apply ld_ext. intros b Hb. by apply H, Hp. Qed.

#[export] Hint Resolve agree_refl : core.

Lemma ld_zero n m a :
  (forall b, in_range a (Z.of_nat n) b -> rd8 m b = 0) -> ld n m a = 0.
Proof.
  unfold in_range. revert a. induction n as [|n IH]; intros a H; [done|]. cbn [ld].
  rewrite H by lia. rewrite IH; [done|]. intros b Hb. apply H; lia.
Qed.
