(* ===== verification/LibcString.v ===== *)
(** [src/libc_string.c]: the memory and string functions, as functions on the
    byte memory, and what each of them computes.

    A loop that counts a length down is a recursion on that length; [strlen],
    whose loop only stops at a zero byte, takes fuel. *)
From S2P Require Import Prelude Mem.

(** ** Definitions *)

(** [while (length--) *dst++ = *src++;] *)
Fixpoint copy_fwd (k : nat) (dst src : Z) (m : mem) : mem :=
  match k with
  | O => m
  | S k => copy_fwd k (dst + 1) (src + 1) (wr8 m dst (rd8 m src))
  end.

(** [while (length--) *--dst = *--src;] *)
Fixpoint copy_bwd (k : nat) (dst src : Z) (m : mem) : mem :=
  match k with
  | O => m
  | S k => copy_bwd k (dst - 1) (src - 1) (wr8 m (dst - 1) (rd8 m (src - 1)))
  end.

Definition memmove (dst src length : Z) (m : mem) : Z * mem :=
  if (src <? dst) && (dst <? src + length)
  then (dst, copy_bwd (Z.to_nat length) (dst + length) (src + length) m)
  else (dst, copy_fwd (Z.to_nat length) dst src m).

(** [k] is what is left of [count]; the result is [sc]. *)
Fixpoint strnlen_loop (k : nat) (sc : Z) (m : mem) : Z :=
  match k with
  | O => sc
  | S k => if negb (rd8 m sc =? 0) then strnlen_loop k (sc + 1) m else sc
  end.
Definition strnlen (s count : Z) (m : mem) : Z := strnlen_loop (Z.to_nat count) s m - s.

(** [k] is [n - i]. *)
Fixpoint memcpy_loop (k : nat) (to from i : Z) (m : mem) : mem :=
  match k with
  | O => m
  | S k => memcpy_loop k to from (i + 1) (wr8 m (to + i) (rd8 m (from + i)))
  end.
Definition memcpy (to from n : Z) (m : mem) : Z * mem :=
  (to, memcpy_loop (Z.to_nat n) to from 0 m).

Fixpoint memset_loop (k : nat) (st c : Z) (m : mem) : mem :=
  match k with
  | O => m
  | S k => memset_loop k (st + 1) c (wr8 m st (u8 c))
  end.
Definition memset (str c len : Z) (m : mem) : Z * mem :=
  (str, memset_loop (Z.to_nat len) str c m).

(** The [do]-[while] body; [k] is [n - 1] when it is entered. *)
Fixpoint memcmp_loop (k : nat) (p1 p2 : Z) (m : mem) : Z :=
  if negb (rd8 m p1 =? rd8 m p2) then rd8 m p1 - rd8 m p2
  else match k with O => 0 | S k => memcmp_loop k (p1 + 1) (p2 + 1) m end.
Definition memcmp (s1 s2 n : Z) (m : mem) : Z :=
  if negb (n =? 0) then memcmp_loop (Z.to_nat (n - 1)) s1 s2 m else 0.

Fixpoint strlen_loop (fuel : nat) (s : Z) (m : mem) : res Z :=
  match fuel with
  | O => Err NoFuel
  | S fuel => if truth (rd8 m s) then strlen_loop fuel (s + 1) m else Ok s
  end.
Definition strlen (fuel : nat) (str : Z) (m : mem) : res Z :=
  s ← strlen_loop fuel str m; Ok (s - str).

(** ** What the loops compute *)

Lemma rd8_u8 m a : u8 (rd8 m a) = rd8 m a.
Proof. apply wrap_small, rd8_range. Qed.

Lemma u8_idem z : u8 (u8 z) = u8 z.
Proof. apply wrap_small. by apply is_u_wrap. Qed.

(** Forward copies are right unless the destination starts inside the source. *)
Lemma rd8_copy_fwd k dst src m b :
  dst <= src \/ src + Z.of_nat k <= dst ->
  rd8 (copy_fwd k dst src m) b =
  if (dst <=? b) && (b <? dst + Z.of_nat k) then rd8 m (src + (b - dst)) else rd8 m b.
Proof.
  revert dst src m. induction k as [|k IH]; intros dst src m H.
  - cbn. bcase; done.
  - cbn [copy_fwd]. rewrite IH by lia. rewrite !rd8_wr8, rd8_u8.
    bcase; cbn; try done; try lia; subst; f_equal; lia.
Qed.

Lemma rd8_copy_bwd k dst src m b :
  src <= dst ->
  rd8 (copy_bwd k dst src m) b =
  if (dst - Z.of_nat k <=? b) && (b <? dst) then rd8 m (src - (dst - b)) else rd8 m b.
Proof.
  revert dst src m. induction k as [|k IH]; intros dst src m H.
  - cbn. bcase; done.
  - cbn [copy_bwd]. rewrite IH by lia. rewrite !rd8_wr8, rd8_u8.
    bcase; cbn; try done; try lia; subst; f_equal; lia.
Qed.

Lemma memcpy_loop_fwd k to from i m :
  memcpy_loop k to from i m = copy_fwd k (to + i) (from + i) m.
Proof.
  revert i m. induction k as [|k IH]; intros i m; cbn; [done|].
  rewrite IH. by rewrite !Z.add_assoc.
Qed.

Lemma rd8_memcpy to from n m b :
  0 <= n -> to <= from \/ from + n <= to ->
  rd8 (memcpy to from n m).2 b =
  if (to <=? b) && (b <? to + n) then rd8 m (from + (b - to)) else rd8 m b.
Proof.
  intros. cbn. rewrite memcpy_loop_fwd, !Z.add_0_r, rd8_copy_fwd by lia.
  by rewrite Z2Nat.id by lia.
Qed.

Lemma rd8_memset str c len m b :
  0 <= len ->
  rd8 (memset str c len m).2 b =
  if (str <=? b) && (b <? str + len) then u8 c else rd8 m b.
Proof.
  intros Hl. cbn. replace len with (Z.of_nat (Z.to_nat len)) at 2 by lia.
  generalize (Z.to_nat len) as k. intros k. revert str m.
  induction k as [|k IH]; intros str m; cbn [memset_loop].
  - cbn. bcase; done.
  - rewrite IH, rd8_wr8, u8_idem. bcase; cbn; try done; lia.
Qed.

(** ** Properties *)

Lemma rd8_memmove dst src length m b :
  0 <= length ->
  rd8 (memmove dst src length m).2 b =
  if (dst <=? b) && (b <? dst + length) then rd8 m (src + (b - dst)) else rd8 m b.
Proof.
  intros Hl. unfold memmove. destruct ((src <? dst) && (dst <? src + length)) eqn:E; cbn.
  - rewrite rd8_copy_bwd by (revert E; bcase; done || lia). rewrite Z2Nat.id by lia.
    bcase; cbn; try done; f_equal; lia.
  - rewrite rd8_copy_fwd by (revert E; bcase; done || lia). by rewrite Z2Nat.id by lia.
Qed.

(** C37: [memmove] copies the [length] bytes that were at [src] before the call to
    [dst], changes nothing else and returns [dst], however the two ranges
    overlap. *)
Theorem memmove_copies dst src length m :
  0 <= length ->
  (memmove dst src length m).1 = dst /\
  forall b, rd8 (memmove dst src length m).2 b =
    if (dst <=? b) && (b <? dst + length) then rd8 m (src + (b - dst)) else rd8 m b.
Proof.
  intros Hl. split; [|intros b; by apply rd8_memmove]. unfold memmove. by destruct (_ && _).
Qed.

Lemma memcmp_loop_spec k p1 p2 m :
  (memcmp_loop k p1 p2 m = 0 <->
   forall i, 0 <= i <= Z.of_nat k -> rd8 m (p1 + i) = rd8 m (p2 + i)) /\
  (memcmp_loop k p1 p2 m <> 0 ->
   exists i, 0 <= i <= Z.of_nat k /\
     (forall j, 0 <= j < i -> rd8 m (p1 + j) = rd8 m (p2 + j)) /\
     memcmp_loop k p1 p2 m = rd8 m (p1 + i) - rd8 m (p2 + i)).
Proof.
  revert p1 p2. induction k as [|k IH]; intros p1 p2; cbn [memcmp_loop];
    destruct (Z.eqb_spec (rd8 m p1) (rd8 m p2)) as [E|E]; cbn [negb].
  - split; [|done]. split; [|done]. intros _ i Hi.
    by replace i with 0 by lia; rewrite !Z.add_0_r.
  - split; [split; [lia|]|].
    + intros H. specialize (H 0). rewrite !Z.add_0_r in H. lia.
    + intros _. exists 0. rewrite !Z.add_0_r. repeat split; lia.
  - specialize (IH (p1 + 1) (p2 + 1)) as [IH1 IH2]. split.
    + rewrite IH1. split; intros H i Hi.
      * destruct (decide (i = 0)) as [->|]; [by rewrite !Z.add_0_r|].
        specialize (H (i - 1)). replace (p1 + 1 + (i - 1)) with (p1 + i) in H by lia.
        replace (p2 + 1 + (i - 1)) with (p2 + i) in H by lia. apply H; lia.
      * specialize (H (i + 1)). replace (p1 + 1 + i) with (p1 + (i + 1)) by lia.
        replace (p2 + 1 + i) with (p2 + (i + 1)) by lia. apply H; lia.
    + intros H. destruct (IH2 H) as (i & Hi & Hj & E2). exists (i + 1). split; [lia|]. split.
      * intros j Hj'. destruct (decide (j = 0)) as [->|]; [by rewrite !Z.add_0_r|].
        specialize (Hj (j - 1)). replace (p1 + 1 + (j - 1)) with (p1 + j) in Hj by lia.
        replace (p2 + 1 + (j - 1)) with (p2 + j) in Hj by lia. apply Hj; lia.
      * rewrite E2. by rewrite <- !Z.add_assoc, !(Z.add_comm 1).
  - split; [split; [lia|]|].
    + intros H. specialize (H 0). rewrite !Z.add_0_r in H. lia.
    + intros _. exists 0. rewrite !Z.add_0_r. repeat split; lia.
Qed.

(** [memcmp] returns zero exactly when the two ranges hold the same bytes, and
    otherwise the difference of the first two bytes that differ. *)
Theorem memcmp_first_difference s1 s2 n m :
  0 <= n ->
  (memcmp s1 s2 n m = 0 <-> forall i, 0 <= i < n -> rd8 m (s1 + i) = rd8 m (s2 + i)) /\
  (memcmp s1 s2 n m <> 0 ->
   exists i, 0 <= i < n /\ (forall j, 0 <= j < i -> rd8 m (s1 + j) = rd8 m (s2 + j)) /\
     memcmp s1 s2 n m = rd8 m (s1 + i) - rd8 m (s2 + i)).
Proof.
  intros Hn. unfold memcmp. destruct (Z.eqb_spec n 0) as [->|]; cbn [negb].
  - split; [|done]. split; [intros _ i ?; lia|done].
  - destruct (memcmp_loop_spec (Z.to_nat (n - 1)) s1 s2 m) as [H1 H2].
    rewrite Z2Nat.id in H1, H2 by lia. split.
    + rewrite H1. split; intros H i Hi; apply H; lia.
    + intros H. destruct (H2 H) as (i & Hi & Hj). exists i. split; [lia|done].
Qed.

(** The length of a C string: [s] is followed by [l] nonzero bytes and a zero. *)
Definition str_at (m : mem) (s l : Z) : Prop :=
  0 <= l /\ (forall i, 0 <= i < l -> rd8 m (s + i) <> 0) /\ rd8 m (s + l) = 0.

Lemma strlen_loop_ok m k fuel s :
  str_at m s (Z.of_nat k) -> (k < fuel)%nat -> strlen_loop fuel s m = Ok (s + Z.of_nat k).
Proof.
  revert fuel s. induction k as [|k IH]; intros fuel s (_ & Hn & Hz) Hf;
    (destruct fuel as [|fuel]; [lia|]); cbn [strlen_loop]; unfold truth.
  - rewrite Z.add_0_r in Hz. rewrite Hz. cbn. f_equal. lia.
  - specialize (Hn 0) as H0. rewrite Z.add_0_r in H0.
    destruct (Z.eqb_spec (rd8 m s) 0); [lia|]. cbn [negb]. rewrite IH; [f_equal; lia| |lia].
    split; [lia|]. split.
    + intros i Hi. replace (s + 1 + i) with (s + (i + 1)) by lia. apply Hn; lia.
    + rewrite <- Hz. f_equal. lia.
Qed.

(** [strlen] terminates on a C string and returns its length. *)
Theorem strlen_terminates m s l fuel :
  str_at m s l -> (Z.to_nat l < fuel)%nat -> strlen fuel s m = Ok l.
Proof.
  intros H Hf. pose proof (proj1 H). unfold strlen.
  rewrite (strlen_loop_ok m (Z.to_nat l)) by (rewrite ?Z2Nat.id; done || lia). cbn.
  f_equal. lia.
Qed.

Lemma strnlen_loop_spec k s m :
  exists j, strnlen_loop k s m = s + j /\ 0 <= j <= Z.of_nat k /\
    (forall i, 0 <= i < j -> rd8 m (s + i) <> 0) /\ (j < Z.of_nat k -> rd8 m (s + j) = 0).
Proof.
  revert s. induction k as [|k IH]; intros s; cbn [strnlen_loop].
  - exists 0. repeat split; lia.
  - destruct (Z.eqb_spec (rd8 m s) 0) as [E|E]; cbn [negb].
    + exists 0. rewrite Z.add_0_r. repeat split; lia.
    + destruct (IH (s + 1)) as (j & -> & Hj & Hn & Hz). exists (j + 1). repeat split; try lia.
      * intros i Hi. destruct (decide (i = 0)) as [->|]; [by rewrite Z.add_0_r|].
        specialize (Hn (i - 1)). replace (s + 1 + (i - 1)) with (s + i) in Hn by lia.
        apply Hn; lia.
      * intros Hl. rewrite <- Hz by lia. f_equal; lia.
Qed.

(** [strnlen] is the length of the string, or [count] when no zero byte occurs
    among the first [count]. *)
Theorem strnlen_min s count m :
  0 <= count ->
  0 <= strnlen s count m <= count /\
  (forall i, 0 <= i < strnlen s count m -> rd8 m (s + i) <> 0) /\
  (strnlen s count m < count -> rd8 m (s + strnlen s count m) = 0).
Proof.
  intros Hc. unfold strnlen.
  destruct (strnlen_loop_spec (Z.to_nat count) s m) as (j & -> & Hj & Hn & Hz).
  rewrite Z2Nat.id in Hj, Hz by lia. replace (s + j - s) with j by lia. done.
Qed.

(** ** The properties at concrete memories *)

(** "abcdef" at 100. *)
Definition demo_mem : mem := st 6 ∅ 100 (97 + 2^8*98 + 2^16*99 + 2^24*100 + 2^32*101 + 2^40*102).

Lemma memmove_copies_witness :
  0 <= 4 /\ (memmove 102 100 4 demo_mem).1 = 102 /\ rd8 (memmove 102 100 4 demo_mem).2 105 = 100.
Proof.
  split; [lia|]. destruct (memmove_copies 102 100 4 demo_mem) as [H1 H2]; [lia|].
  split; [exact H1|]. rewrite H2. vm_compute. reflexivity.
Defined.

Lemma memcmp_first_difference_witness :
  0 <= 3 /\ (memcmp 100 103 3 demo_mem = 0 <->
             forall i, 0 <= i < 3 -> rd8 demo_mem (100 + i) = rd8 demo_mem (103 + i)) /\
  memcmp 100 103 3 demo_mem = -3.
Proof.
  split; [lia|]. split; [apply (memcmp_first_difference 100 103 3 demo_mem); lia|].
  vm_compute. reflexivity.
Defined.

Lemma strlen_terminates_witness : str_at demo_mem 100 6 /\ strlen 7 100 demo_mem = Ok 6.
Proof.
  assert (str_at demo_mem 100 6) as H.
  { split; [lia|]. split; [|vm_compute; reflexivity]. intros i Hi.
    assert (i = 0 \/ i = 1 \/ i = 2 \/ i = 3 \/ i = 4 \/ i = 5) as C by lia.
    destruct C as [->|[->|[->|[->|[->| ->]]]]]; vm_compute; discriminate. }
  split; [exact H|]. apply strlen_terminates; [exact H|vm_compute; repeat constructor].
Defined.

Lemma strnlen_min_witness : 0 <= 9 /\ strnlen 100 9 demo_mem = 6 /\
  0 <= strnlen 100 9 demo_mem <= 9.
Proof.
  split; [lia|]. split; [vm_compute; reflexivity|]. apply (strnlen_min 100 9 demo_mem); lia.
Defined.
