(* ===== verification/Hpto.v ===== *)
(** The end of [src/hpt.c] and [src/hpto.c]: entries inside a page map that is
    in memory, and the entry objects [hpt_pmeo_t] and page map objects
    [hpt_pmo_t] the page walker works with. *)
From S2P Require Import Prelude Bitfield HptConsts Hpt HptLemmas Mem.

(** [hpt_pmo_t] and [hpt_pmeo_t] of include/hpt.h. *)
Record hpt_pmo_t := HptPmo { pmo_pm : Z; pmo_t : hpt_type_t; pmo_lvl : Z }.
Record hpt_pmeo_t := HptPmeo { pmeo_pme : Z; pmeo_t : hpt_type_t; pmeo_lvl : Z }.

(** ** Entries in memory *)

(** The index is an [int]; the result of [hpt_get_pm_idx] fits in it. *)
Definition hpt_pm_get_pme_by_idx (t : hpt_type_t) (lvl pm idx : Z) (m : mem) : res Z :=
  match t with
  | HPT_TYPE_EPT | HPT_TYPE_PAE | HPT_TYPE_LONG => Ok (ld64 m (pm + 8 * idx))
  | HPT_TYPE_NORM => Ok (ld32 m (pm + 4 * idx))
  | HPT_TYPE_INVALID => Err Halt
  end.

Definition hpt_pm_set_pme_by_idx (t : hpt_type_t) (lvl pm idx pme : Z) (m : mem) : res mem :=
  match t with
  | HPT_TYPE_EPT | HPT_TYPE_PAE | HPT_TYPE_LONG => Ok (st64 m (pm + 8 * idx) pme)
  | HPT_TYPE_NORM => Ok (st32 m (pm + 4 * idx) (u32 pme))
  | HPT_TYPE_INVALID => Err Halt
  end.

Definition hpt_pm_get_pme_by_va (t : hpt_type_t) (lvl pm va : Z) (m : mem) : res Z :=
  idx ← hpt_get_pm_idx t lvl va; hpt_pm_get_pme_by_idx t lvl pm (swrap 32 idx) m.

Definition hpt_pm_set_pme_by_va (t : hpt_type_t) (lvl pm va pme : Z) (m : mem) : res mem :=
  idx ← hpt_get_pm_idx t lvl va; hpt_pm_set_pme_by_idx t lvl pm (swrap 32 idx) pme m.

(** ** Entry objects *)

Definition with_pme (o : hpt_pmeo_t) (e : Z) : hpt_pmeo_t := HptPmeo e (pmeo_t o) (pmeo_lvl o).

Definition hpt_pmeo_get_address (o : hpt_pmeo_t) : res Z :=
  hpt_pme_get_address (pmeo_t o) (pmeo_lvl o) (pmeo_pme o).
Definition hpt_pmeo_set_address (o : hpt_pmeo_t) (addr : Z) : res hpt_pmeo_t :=
  with_pme o <$> hpt_pme_set_address (pmeo_t o) (pmeo_lvl o) (pmeo_pme o) addr.
Definition hpt_pmeo_is_present (o : hpt_pmeo_t) : res bool :=
  hpt_pme_is_present (pmeo_t o) (pmeo_lvl o) (pmeo_pme o).
Definition hpt_pmeo_set_page (o : hpt_pmeo_t) (is_page : bool) : res hpt_pmeo_t :=
  with_pme o <$> hpt_pme_set_page (pmeo_t o) (pmeo_lvl o) (pmeo_pme o) is_page.
Definition hpt_pmeo_is_page (o : hpt_pmeo_t) : res bool :=
  hpt_pme_is_page (pmeo_t o) (pmeo_lvl o) (pmeo_pme o).
Definition hpt_pmeo_setprot (o : hpt_pmeo_t) (perms : Z) : res hpt_pmeo_t :=
  with_pme o <$> hpt_pme_setprot (pmeo_t o) (pmeo_lvl o) (pmeo_pme o) perms.
Definition hpt_pmeo_getprot (o : hpt_pmeo_t) : res Z :=
  hpt_pme_getprot (pmeo_t o) (pmeo_lvl o) (pmeo_pme o).
Definition hpt_pmeo_getcache (o : hpt_pmeo_t) : res Z :=
  hpt_pme_get_pmt (pmeo_t o) (pmeo_lvl o) (pmeo_pme o).
Definition hpt_pmeo_setcache (o : hpt_pmeo_t) (pmt : Z) : res hpt_pmeo_t :=
  with_pme o <$> hpt_pme_set_pmt (pmeo_t o) (pmeo_lvl o) (pmeo_pme o) pmt.
Definition hpt_pmeo_getuser (o : hpt_pmeo_t) : res bool :=
  hpt_pme_getuser (pmeo_t o) (pmeo_lvl o) (pmeo_pme o).
Definition hpt_pmeo_setuser (o : hpt_pmeo_t) (user : bool) : res hpt_pmeo_t :=
  with_pme o <$> hpt_pme_setuser (pmeo_t o) (pmeo_lvl o) (pmeo_pme o) user.

Definition hpt_pm_get_pmeo_by_va (pmo : hpt_pmo_t) (va : Z) (m : mem) : res hpt_pmeo_t :=
  e ← hpt_pm_get_pme_by_va (pmo_t pmo) (pmo_lvl pmo) (pmo_pm pmo) va m;
  Ok (HptPmeo e (pmo_t pmo) (pmo_lvl pmo)).
Definition hpt_pmo_set_pme_by_va (pmo : hpt_pmo_t) (pmeo : hpt_pmeo_t) (va : Z) (m : mem) : res mem :=
  hpt_pm_set_pme_by_va (pmo_t pmo) (pmo_lvl pmo) (pmo_pm pmo) va (pmeo_pme pmeo) m.

(** The row of [hpt_va_idx_hi] at [lvl - 1]. *)
Definition pmeo_offset_hi (o : hpt_pmeo_t) : res Z :=
  tbl_get (hpt_va_idx_hi (pmeo_t o)) (pmeo_lvl o - 1).

Definition hpt_pmeo_va_to_pa (o : hpt_pmeo_t) (va : Z) : res Z :=
  pg ← hpt_pme_is_page (pmeo_t o) (pmeo_lvl o) (pmeo_pme o);
  ASSERT pg ;;
  base ← hpt_pmeo_get_address o;
  offset_hi ← pmeo_offset_hi o;
  mask ← MASKRANGE64 offset_hi 0;
  Ok (u64 (base + Z.land va mask)).

Definition hpt_pmeo_page_size_log_2 (o : hpt_pmeo_t) : res Z :=
  offset_hi ← pmeo_offset_hi o; Ok (offset_hi + 1).

(** [1 << n] is computed in [int]. *)
Definition shl_int1 (n : Z) : res Z :=
  if (0 <=? n) && (n <? 31) then Ok (Z.shiftl 1 n) else Err Undef.

Definition hpt_pmeo_page_size (o : hpt_pmeo_t) : res Z :=
  n ← hpt_pmeo_page_size_log_2 o; shl_int1 n.

Definition hpt_remaining_on_page (a : subarch) (o : hpt_pmeo_t) (va : Z) : res Z :=
  n ← hpt_pmeo_page_size_log_2 o;
  page_size ← shl_int1 n;
  mask ← MASKRANGE64 (n - 1) 0;
  let offset_on_page := wrap (ptr_bits a) (Z.land va mask) in
  Ok (wrap (ptr_bits a) (page_size - offset_on_page)).

(** ** Entries in memory: total forms *)

(** Address of the entry for [va] in the table at [pm]. *)
Definition entry_addr (t : hpt_type_t) (lvl pm va : Z) : Z := pm + pme_bytes t * pm_idx t lvl va.
Definition pme_nbytes (t : hpt_type_t) : nat := match t with HPT_TYPE_NORM => 4 | _ => 8 end.
Definition ld_pme (t : hpt_type_t) (lvl pm va : Z) (m : mem) : Z :=
  ld (pme_nbytes t) m (entry_addr t lvl pm va).
Definition st_pme (t : hpt_type_t) (lvl pm va e : Z) (m : mem) : mem :=
  st (pme_nbytes t) m (entry_addr t lvl pm va) e.

Lemma pme_nbytes_bytes t : Z.of_nat (pme_nbytes t) = pme_bytes t.
Proof. by destruct t. Qed.

Lemma pm_idx_lt t lvl va : lvl_ok t lvl -> 0 <= pm_idx t lvl va < 1024.
Proof.
  intros H. pose proof (va_hi_step t lvl H).
  pose proof (get64_range va (va_hi t lvl) (va_hi t (lvl - 1) + 1)) as Hr.
  fold (pm_idx t lvl va) in Hr. destruct Hr as [? Hr]; [lia|]. split; [done|].
  eapply Z.lt_le_trans; [exact Hr|]. change 1024 with (2 ^ 10). apply Z.pow_le_mono_r; lia.
Qed.

Lemma swrap32_small z : 0 <= z < 2 ^ 31 -> swrap 32 z = z.
Proof.
  intros H. unfold swrap. rewrite wrap_small by (unfold is_u; lia).
  by rewrite (proj2 (Z.ltb_lt z (2 ^ (32 - 1)))) by lia.
Qed.

Lemma st_u32 m a e : st 4 m a (u32 e) = st 4 m a e.
Proof.
  assert (forall n k m a e, (n <= k)%nat -> st n m a (wrap (8 * Z.of_nat k) e) = st n m a e) as H.
  { clear. induction n as [|n IH]; intros k m a e Hk; cbn [st]; [done|].
    destruct k as [|k]; [lia|].
    assert (wrap (8 * Z.of_nat (S k)) e / 2 ^ 8 = wrap (8 * Z.of_nat k) (e / 2 ^ 8)) as ->.
    { unfold wrap. replace (8 * Z.of_nat (S k)) with (8 + 8 * Z.of_nat k) by lia.
      rewrite Z.pow_add_r by lia.
      rewrite Z.rem_mul_r by (apply Z.pow_nonzero || apply Z.pow_pos_nonneg; lia).
      rewrite (Z.mul_comm (2 ^ 8)), Z.div_add by lia.
      by rewrite Z.div_small by (apply Z.mod_pos_bound; lia). }
    rewrite IH by lia. f_equal. unfold wr8. f_equal. unfold u8, wrap.
    replace (8 * Z.of_nat (S k)) with (8 + 8 * Z.of_nat k) by lia.
    rewrite Z.pow_add_r by lia.
    rewrite Z.rem_mul_r by (apply Z.pow_nonzero || apply Z.pow_pos_nonneg; lia).
    rewrite (Z.mul_comm (2 ^ 8)), Z.mod_add by lia. by rewrite Z.mod_mod by lia. }
  by apply (H 4%nat 4%nat).
Qed.

Lemma hpt_pm_get_pmeo_by_va_ok t lvl pm va m :
  lvl_ok t lvl ->
  hpt_pm_get_pmeo_by_va (HptPmo pm t lvl) va m = Ok (HptPmeo (ld_pme t lvl pm va m) t lvl).
Proof.
  intros H. pose proof (pm_idx_lt t lvl va H).
  unfold hpt_pm_get_pmeo_by_va, hpt_pm_get_pme_by_va. cbn [pmo_t pmo_lvl pmo_pm].
  rewrite hpt_get_pm_idx_ok by done. cbn.
  rewrite swrap32_small by lia. unfold lvl_ok in H. destruct t; cbn; try done. cbn in H; lia.
Qed.

Lemma hpt_pmo_set_pme_by_va_ok t lvl pm va o m :
  lvl_ok t lvl ->
  hpt_pmo_set_pme_by_va (HptPmo pm t lvl) o va m = Ok (st_pme t lvl pm va (pmeo_pme o) m).
Proof.
  intros H. pose proof (pm_idx_lt t lvl va H).
  unfold hpt_pmo_set_pme_by_va, hpt_pm_set_pme_by_va. cbn [pmo_t pmo_lvl pmo_pm].
  rewrite hpt_get_pm_idx_ok by done. cbn.
  rewrite swrap32_small by lia. unfold lvl_ok in H.
  destruct t; try done; cbn -[st]; [unfold st32; by rewrite st_u32|cbn in H; lia].
Qed.

(** What an entry means once it was stored: 32-bit entries lose their upper
    half, which no accessor looks at. *)
Definition pme_trunc (t : hpt_type_t) (e : Z) : Z := wrap (8 * pme_bytes t) e.

Lemma ld_st_pme t lvl pm va e m : ld_pme t lvl pm va (st_pme t lvl pm va e m) = pme_trunc t e.
Proof. unfold ld_pme, st_pme, pme_trunc. by rewrite ld_st_gen, pme_nbytes_bytes. Qed.

Lemma ld_pme_range t lvl pm va m : is_u (8 * pme_bytes t) (ld_pme t lvl pm va m).
Proof. unfold ld_pme. rewrite <- pme_nbytes_bytes. apply ld_range. Qed.

Lemma ld_pme_u64 t lvl pm va m : is_u 64 (ld_pme t lvl pm va m).
Proof. apply (is_u_le (8 * pme_bytes t)); [destruct t; cbn; lia|apply ld_pme_range]. Qed.

Lemma ld_pme_norm t lvl pm va m : t = HPT_TYPE_NORM -> is_u 32 (ld_pme t lvl pm va m).
Proof. intros ->. apply (ld_pme_range HPT_TYPE_NORM). Qed.

#[export] Hint Resolve ld_pme_u64 ld_pme_norm : core.

Lemma pme_trunc_same t e :
  is_u 64 e -> same_outside (fun i => t = HPT_TYPE_NORM /\ 32 <= i) e (pme_trunc t e).
Proof.
  intros He. unfold pme_trunc. split.
  - apply (is_u_le (8 * pme_bytes t)); [destruct t; cbn; lia|].
    apply is_u_wrap. destruct t; cbn; lia.
  - intros i Hi Hn. rewrite wrap_testbit by (destruct t; cbn; lia).
    destruct t; cbn [pme_bytes]; bcase; try done. exfalso. apply Hn. split; [done|lia].
Qed.

Lemma view_trunc t lvl e :
  lvl_ok t lvl -> is_u 64 e -> view t lvl (pme_trunc t e) = view t lvl e.
Proof.
  intros H He. pose proof (pme_trunc_same t e He) as Hs. unfold view. f_equal.
  - apply (pme_page_same _ _ _ _ _ Hs). lia.
  - apply (pme_addr_same _ _ _ _ _ Hs); [lia|]. unfold addr_fp. intros i Hi [-> ?].
    cbn in Hi. lia.
  - destruct (decide (t = HPT_TYPE_NORM)) as [->|Hn].
    + unfold pme_prot, pme_w, pme_x, pme_r. cbn. destruct Hs as [_ Hs].
      rewrite !(Hs 0), !(Hs 1) by lia. done.
    + apply (pme_prot_same _ _ _ _ _ Hs). intros i ? _ [-> _]. done.
  - apply (pme_user_same _ _ _ _ _ Hs). intros i Hi Hf [-> ?]. cbn in Hf. lia.
  - apply (pme_mt_same _ _ _ _ Hs). intros i Hi ? [-> ?]. lia.
Qed.

Lemma present_trunc t e : is_u 64 e -> pme_present t (pme_trunc t e) = pme_present t e.
Proof.
  intros He. destruct (pme_trunc_same t e He) as [_ Hs]. unfold pme_present.
  destruct t; rewrite ?(Hs 0), ?(Hs 1), ?(Hs 2) by lia; done.
Qed.
