(* ===== verification/Hptw.v ===== *)
(** [src/hptw.c]: the page table walker.

    A context holds the three callbacks of [hptw_ctx_t] as functions: [gzp] may
    change memory, a null pointer is [0], and [pa2ptr] returns the pointer with
    the value it stores in [*avail_sz].  A function that returns 0 or 1 after
    [EU_CHK] returns that integer; out-parameters are results.  The log lines
    of the [EU_] macros are not modelled. *)
From S2P Require Import Prelude Bitfield HptConsts Hpt HptLemmas Mem LibcString Hpto.

(** [hptw_cpl_t] *)
Definition HPTW_CPL0 : Z := 0.
Definition HPTW_CPL3 : Z := 3.

Record hptw_ctx_t := HptwCtx {
  ctx_gzp : Z -> Z -> mem -> res (Z * mem);            (* alignment, size *)
  ctx_pa2ptr : Z -> Z -> Z -> Z -> res (Z * Z);        (* pa, size, access, cpl *)
  ctx_ptr2pa : Z -> res Z;
  ctx_root_pa : Z;
  ctx_t : hpt_type_t }.

(** ** Walking *)

(** [None] when the C function returns 1 (and leaves [*pmo] unset). *)
Definition hptw_get_root (ctx : hptw_ctx_t) : res (option hpt_pmo_t) :=
  lvl ← hpt_type_max_lvl (ctx_t ctx);
  pm_sz ← hpt_pm_size (ctx_t ctx) lvl;
  '(pm, avail) ← ctx_pa2ptr ctx (ctx_root_pa ctx) pm_sz HPT_PROTS_RW HPTW_CPL0;
  if pm =? 0 then Ok None
  else if negb (avail =? pm_sz) then Ok None
  else Ok (Some (HptPmo pm (ctx_t ctx) lvl)).

Definition hptw_next_lvl (ctx : hptw_ctx_t) (pmo : hpt_pmo_t) (va : Z) (m : mem)
  : res (bool * hpt_pmo_t) :=
  pmeo ← hpt_pm_get_pmeo_by_va pmo va m;
  ASSERT (truth (pmo_pm pmo)) ;;
  present ← hpt_pmeo_is_present pmeo;
  stop ← (if negb present then Ok true else hpt_pmeo_is_page pmeo);
  if stop : bool then Ok (false, pmo)
  else
    pm_sz ← hpt_pm_size (pmo_t pmo) (pmo_lvl pmo - 1);
    a ← hpt_pmeo_get_address pmeo;
    '(pm, avail) ← ctx_pa2ptr ctx a pm_sz HPT_PROTS_R HPTW_CPL0;
    if pm =? 0 then Ok (false, HptPmo 0 HPT_TYPE_INVALID 0)
    else ASSERT (avail =? pm_sz) ;;
         Ok (true, HptPmo pm (pmo_t pmo) (pmo_lvl pmo - 1)).

(** [while (pmo->lvl > end_lvl && hptw_next_lvl(ctx, pmo, va)) ;] *)
Fixpoint get_pmo_loop (fuel : nat) (ctx : hptw_ctx_t) (end_lvl va : Z) (pmo : hpt_pmo_t) (m : mem)
  : res hpt_pmo_t :=
  match fuel with
  | O => Err NoFuel
  | S fuel =>
      if end_lvl <? pmo_lvl pmo then
        '(walked, pmo) ← hptw_next_lvl ctx pmo va m;
        if walked : bool then get_pmo_loop fuel ctx end_lvl va pmo m else Ok pmo
      else Ok pmo
  end.

(** A walk takes at most one step per level. *)
Definition walk_fuel (pmo : hpt_pmo_t) : nat := S (Z.to_nat (pmo_lvl pmo)).

Definition hptw_get_pmo (ctx : hptw_ctx_t) (end_lvl va : Z) (m : mem) : res hpt_pmo_t :=
  root ← hptw_get_root ctx;
  match root with
  | None => Err Halt (* EU_VERIFYN(err) *)
  | Some pmo => get_pmo_loop (walk_fuel pmo) ctx end_lvl va pmo m
  end.

Definition hptw_get_pmeo (ctx : hptw_ctx_t) (end_lvl va : Z) (m : mem) : res hpt_pmeo_t :=
  pmo ← hptw_get_pmo ctx end_lvl va m; hpt_pm_get_pmeo_by_va pmo va m.

Definition hptw_insert_pmeo (ctx : hptw_ctx_t) (pmeo : hpt_pmeo_t) (va : Z) (m : mem)
  : res (Z * mem) :=
  pmo ← hptw_get_pmo ctx (pmeo_lvl pmeo) va m;
  if pmo_pm pmo =? 0 then Ok (1, m)
  else if negb (pmo_lvl pmo =? pmeo_lvl pmeo) then Ok (1, m)
  else m ← hpt_pmo_set_pme_by_va pmo pmeo va m; Ok (0, m).

(** ** Walking with allocation *)

(** The body of [if (!hpt_pmeo_is_present(&pmeo))]: [false] when [gzp] returned
    a null pointer. *)
Definition alloc_table (ctx : hptw_ctx_t) (pmo : hpt_pmo_t) (pmeo : hpt_pmeo_t) (va : Z) (m : mem)
  : res (bool * mem) :=
  sz ← hpt_pm_size (pmo_t pmo) (pmo_lvl pmo - 1);
  '(pm, m) ← ctx_gzp ctx HPT_PM_SIZE sz m;
  if pm =? 0 then Ok (false, m)
  else
    pa ← ctx_ptr2pa ctx pm;
    pmeo ← hpt_pmeo_set_address pmeo pa;
    pmeo ← hpt_pmeo_setprot pmeo HPT_PROTS_RWX;
    pmeo ← hpt_pmeo_setuser pmeo true;
    m ← hpt_pmo_set_pme_by_va pmo pmeo va m;
    Ok (true, m).

Fixpoint get_pmo_alloc_loop (fuel : nat) (ctx : hptw_ctx_t) (end_lvl va : Z) (pmo : hpt_pmo_t)
    (m : mem) : res (Z * hpt_pmo_t * mem) :=
  match fuel with
  | O => Err NoFuel
  | S fuel =>
      if end_lvl <? pmo_lvl pmo then
        pmeo ← hpt_pm_get_pmeo_by_va pmo va m;
        pg ← hpt_pmeo_is_page pmeo;
        if pg : bool then Ok (1, pmo, m)
        else
          present ← hpt_pmeo_is_present pmeo;
          '(done, m) ← (if negb present then alloc_table ctx pmo pmeo va m else Ok (true, m));
          if negb done then Ok (1, pmo, m)
          else
            '(walked, pmo) ← hptw_next_lvl ctx pmo va m;
            ASSERT walked ;;
            get_pmo_alloc_loop fuel ctx end_lvl va pmo m
      else Ok (0, pmo, m)
  end.

(** The page map object is [None] when even the root was not found. *)
Definition hptw_get_pmo_alloc (ctx : hptw_ctx_t) (end_lvl va : Z) (m : mem)
  : res (Z * option hpt_pmo_t * mem) :=
  root ← hptw_get_root ctx;
  match root with
  | None => Ok (1, None, m)
  | Some pmo =>
      '(err, pmo, m) ← get_pmo_alloc_loop (walk_fuel pmo) ctx end_lvl va pmo m;
      Ok (err, Some pmo, m)
  end.

Definition hptw_insert_pmeo_alloc (ctx : hptw_ctx_t) (pmeo : hpt_pmeo_t) (va : Z) (m : mem)
  : res (Z * mem) :=
  '(err, pmo, m) ← hptw_get_pmo_alloc ctx (pmeo_lvl pmeo) va m;
  if negb (err =? 0) then Ok (1, m)
  else match pmo with
  | None => Err Undef (* *pmo is set whenever the call returns 0 *)
  | Some pmo =>
      if pmo_pm pmo =? 0 then Ok (1, m)
      else if negb (pmo_lvl pmo =? pmeo_lvl pmeo) then Ok (1, m)
      else m ← hpt_pmo_set_pme_by_va pmo pmeo va m; Ok (0, m)
  end.

(** ** Protections and translation *)

(** The [do]-[while] loop of [hptw_get_effective_prots]. *)
Fixpoint effective_loop (fuel : nat) (ctx : hptw_ctx_t) (va : Z) (prots : Z) (user : bool)
    (pmo : hpt_pmo_t) (m : mem) : res (Z * bool * hpt_pmo_t) :=
  match fuel with
  | O => Err NoFuel
  | S fuel =>
      pmeo ← hpt_pm_get_pmeo_by_va pmo va m;
      p ← hpt_pmeo_getprot pmeo;
      user ← (if user : bool then hpt_pmeo_getuser pmeo else Ok false);
      '(walked, pmo) ← hptw_next_lvl ctx pmo va m;
      if walked : bool then effective_loop fuel ctx va (Z.land prots p) user pmo m
      else Ok (Z.land prots p, user, pmo)
  end.

(** The second component is the value stored through [user_accessible], if it is
    stored. *)
Definition hptw_get_effective_prots (ctx : hptw_ctx_t) (va : Z) (m : mem) : res (Z * option bool) :=
  root ← hptw_get_root ctx;
  match root with
  | None => Ok (HPT_PROTS_NONE, None)
  | Some pmo =>
      '(prots, user, pmo) ← effective_loop (walk_fuel pmo) ctx va HPT_PROTS_RWX true pmo m;
      if bool_decide (pmo_t pmo = HPT_TYPE_INVALID) then Ok (HPT_PROTS_NONE, None)
      else Ok (prots, Some user)
  end.

Definition hptw_set_prot (ctx : hptw_ctx_t) (va prot : Z) (m : mem) : res mem :=
  pmo ← hptw_get_pmo ctx 1 va m;
  ASSERT (truth (pmo_pm pmo)) ;;
  ASSERT (pmo_lvl pmo =? 1) ;;
  pmeo ← hpt_pm_get_pmeo_by_va pmo va m;
  pmeo ← hpt_pmeo_setprot pmeo prot;
  hpt_pmo_set_pme_by_va pmo pmeo va m.

Definition hptw_va_to_pa (ctx : hptw_ctx_t) (va : Z) (m : mem) : res Z :=
  pmeo ← hptw_get_pmeo ctx 1 va m; hpt_pmeo_va_to_pa pmeo va.

Definition hptw_gpa_to_spa (a : subarch) (ctx : hptw_ctx_t) (gpa : Z) (m : mem) : res Z :=
  wrap (ptr_bits a) <$> hptw_va_to_pa ctx gpa m.

Definition hptw_access_va (a : subarch) (ctx : hptw_ctx_t) (va requested_sz : Z) (m : mem)
  : res (Z * Z) :=
  pmeo ← hptw_get_pmeo ctx 1 va m;
  pa ← hpt_pmeo_va_to_pa pmeo va;
  rem ← hpt_remaining_on_page a pmeo pa;
  ctx_pa2ptr ctx pa (Z.min requested_sz rem) HPT_PROTS_R HPTW_CPL0.

(** ** Checked accesses *)

(** The [do]-[while] loop; [None] is the jump to [out]. *)
Fixpoint checked_loop (fuel : nat) (ctx : hptw_ctx_t) (access_type cpl va : Z) (pmo : hpt_pmo_t)
    (m : mem) : res (option (hpt_pmeo_t * hpt_pmo_t)) :=
  match fuel with
  | O => Err NoFuel
  | S fuel =>
      pmeo ← hpt_pm_get_pmeo_by_va pmo va m;
      p ← hpt_pmeo_getprot pmeo;
      allowed ← (if Z.land access_type p =? access_type
                 then if cpl =? HPTW_CPL0 then Ok true else hpt_pmeo_getuser pmeo
                 else Ok false);
      if negb allowed then Ok None
      else
        '(walked, pmo) ← hptw_next_lvl ctx pmo va m;
        if walked : bool then checked_loop fuel ctx access_type cpl va pmo m
        else Ok (Some (pmeo, pmo))
  end.

(** [None] when the C function returns 1. *)
Definition hptw_checked_get_pmeo (ctx : hptw_ctx_t) (access_type cpl va : Z) (m : mem)
  : res (option hpt_pmeo_t) :=
  root ← hptw_get_root ctx;
  match root with
  | None => Ok None
  | Some pmo =>
      r ← checked_loop (walk_fuel pmo) ctx access_type cpl va pmo m;
      match r with
      | None => Ok None
      | Some (pmeo, pmo) =>
          if bool_decide (pmo_t pmo = HPT_TYPE_INVALID) then Ok None
          else
            present ← hpt_pmeo_is_present pmeo;
            if negb present then Ok None
            else pg ← hpt_pmeo_is_page pmeo; ASSERT pg ;; Ok (Some pmeo)
      end
  end.

(** The pointer returned and the value of [*avail_sz]. *)
Definition hptw_checked_access_va (a : subarch) (ctx : hptw_ctx_t)
    (access_type cpl va requested_sz : Z) (m : mem) : res (Z * Z) :=
  r ← hptw_checked_get_pmeo ctx access_type cpl va m;
  match r with
  | None => Ok (0, 0)
  | Some pmeo =>
      pa ← hpt_pmeo_va_to_pa pmeo va;
      rem ← hpt_remaining_on_page a pmeo pa;
      ctx_pa2ptr ctx pa (Z.min requested_sz rem) access_type cpl
  end.

(** ** Copies

    [size_t] has the width of a pointer; the virtual address is 64 bits wide on
    every configuration. *)

Fixpoint copy_from_loop (fuel : nat) (a : subarch) (ctx : hptw_ctx_t)
    (cpl dst src_va_base len copied : Z) (m : mem) : res (Z * mem) :=
  match fuel with
  | O => Err NoFuel
  | S fuel =>
      if copied <? len then
        '(src, to_copy) ← hptw_checked_access_va a ctx HPT_PROTS_R cpl
                            (u64 (src_va_base + copied)) (len - copied) m;
        if src =? 0 then Ok (1, m)
        else copy_from_loop fuel a ctx cpl dst src_va_base len
               (wrap (ptr_bits a) (copied + to_copy)) (memcpy (dst + copied) src to_copy m).2
      else Ok (0, m)
  end.
Definition hptw_checked_copy_from_va (a : subarch) (ctx : hptw_ctx_t)
    (cpl dst src_va_base len : Z) (m : mem) : res (Z * mem) :=
  copy_from_loop (S (Z.to_nat len)) a ctx cpl dst src_va_base len 0 m.

Fixpoint copy_to_loop (fuel : nat) (a : subarch) (ctx : hptw_ctx_t)
    (cpl dst_va_base src len copied : Z) (m : mem) : res (Z * mem) :=
  match fuel with
  | O => Err NoFuel
  | S fuel =>
      if copied <? len then
        '(dst, to_copy) ← hptw_checked_access_va a ctx HPT_PROTS_W cpl
                            (u64 (dst_va_base + copied)) (len - copied) m;
        if dst =? 0 then Ok (1, m)
        else copy_to_loop fuel a ctx cpl dst_va_base src len
               (wrap (ptr_bits a) (copied + to_copy)) (memcpy dst (src + copied) to_copy m).2
      else Ok (0, m)
  end.
Definition hptw_checked_copy_to_va (a : subarch) (ctx : hptw_ctx_t)
    (cpl dst_va_base src len : Z) (m : mem) : res (Z * mem) :=
  copy_to_loop (S (Z.to_nat len)) a ctx cpl dst_va_base src len 0 m.

Fixpoint copy_va_loop (fuel : nat) (a : subarch) (dst_ctx : hptw_ctx_t) (dst_cpl dst_va_base : Z)
    (src_ctx : hptw_ctx_t) (src_cpl src_va_base len copied : Z) (m : mem) : res (Z * mem) :=
  match fuel with
  | O => Err NoFuel
  | S fuel =>
      if copied <? len then
        '(dst, to_copy) ← hptw_checked_access_va a dst_ctx HPT_PROTS_W dst_cpl
                            (u64 (dst_va_base + copied)) (len - copied) m;
        if dst =? 0 then Ok (1, m)
        else
          '(src, to_copy) ← hptw_checked_access_va a src_ctx HPT_PROTS_R src_cpl
                              (u64 (src_va_base + copied)) to_copy m;
          if src =? 0 then Ok (1, m)
          else copy_va_loop fuel a dst_ctx dst_cpl dst_va_base src_ctx src_cpl src_va_base len
                 (wrap (ptr_bits a) (copied + to_copy)) (memcpy dst src to_copy m).2
      else Ok (0, m)
  end.
Definition hptw_checked_copy_va_to_va (a : subarch) (dst_ctx : hptw_ctx_t)
    (dst_cpl dst_va_base : Z) (src_ctx : hptw_ctx_t) (src_cpl src_va_base len : Z) (m : mem)
  : res (Z * mem) :=
  copy_va_loop (S (Z.to_nat len)) a dst_ctx dst_cpl dst_va_base src_ctx src_cpl src_va_base len 0 m.

Fixpoint memset_va_loop (fuel : nat) (a : subarch) (ctx : hptw_ctx_t)
    (cpl dst_va_base c len set : Z) (m : mem) : res (Z * mem) :=
  match fuel with
  | O => Err NoFuel
  | S fuel =>
      if set <? len then
        '(dst, to_set) ← hptw_checked_access_va a ctx HPT_PROTS_W cpl
                           (u64 (dst_va_base + set)) (len - set) m;
        if dst =? 0 then Ok (1, m)
        else memset_va_loop fuel a ctx cpl dst_va_base c len
               (wrap (ptr_bits a) (set + to_set)) (memset dst c to_set m).2
      else Ok (0, m)
  end.
Definition hptw_checked_memset_va (a : subarch) (ctx : hptw_ctx_t)
    (cpl dst_va_base c len : Z) (m : mem) : res (Z * mem) :=
  memset_va_loop (S (Z.to_nat len)) a ctx cpl dst_va_base c len 0 m.
