(* ===== verification/Walk.v ===== *)
(** A reference walk through the page maps in memory, the tree of tables it
    goes through, and what storing one entry changes. *)
From S2P Require Import Prelude Bitfield HptConsts Hpt HptLemmas Mem Hpto.

(** ** Prefixes of addresses *)

(** The bits of an address a walk looks at. *)
Definition va_norm (t : hpt_type_t) (va : Z) : Z := wrap (va_hi t (max_lvl t) + 1) va.

(** [pfx t lvl va] determines the table of level [lvl] that [va] goes through;
    [pfx t (lvl - 1) va] the entry in it. *)
Definition pfx (t : hpt_type_t) (lvl va : Z) : Z := region t (lvl + 1) (va_norm t va).
Definition same_region (t : hpt_type_t) (lvl va va' : Z) : Prop :=
  pfx t (lvl - 1) va' = pfx t (lvl - 1) va.

#[global] Instance same_region_dec t lvl va va' : Decision (same_region t lvl va va').
Proof. unfold same_region. apply _. Defined.

Lemma va_hi_mono t lvl : lvl_ok t lvl -> va_hi t lvl <= va_hi t (max_lvl t).
Proof. intros H. lvl_cases t lvl H; vm_compute; congruence. Qed.

Lemma va_norm_nonneg t va : 0 <= va_norm t va.
Proof. unfold va_norm. destruct t; apply is_u_wrap; vm_compute; congruence. Qed.

Lemma pm_idx_norm t lvl va : lvl_ok t lvl -> pm_idx t lvl (va_norm t va) = pm_idx t lvl va.
Proof.
  intros H. pose proof (va_hi_step t lvl H). pose proof (va_hi_mono t lvl H).
  unfold pm_idx, va_norm. apply Z.bits_inj'. intros i Hi.
  rewrite !get64_testbit by lia. bits; done.
Qed.

Lemma pfx_step t lvl va va' :
  lvl_ok t lvl ->
  pfx t (lvl - 1) va = pfx t (lvl - 1) va' <->
  pfx t lvl va = pfx t lvl va' /\ pm_idx t lvl va = pm_idx t lvl va'.
Proof.
  intros H. unfold pfx. replace (lvl - 1 + 1) with lvl by lia.
  rewrite region_step by (done || apply va_norm_nonneg). by rewrite !pm_idx_norm.
Qed.

Lemma pfx_max t va : t <> HPT_TYPE_INVALID -> pfx t (max_lvl t) va = 0.
Proof.
  intros Ht. unfold pfx, region. replace (max_lvl t + 1 - 1) with (max_lvl t) by lia.
  apply Z.bits_inj'. intros i Hi. rewrite Z.shiftr_spec, Z.bits_0 by lia. unfold va_norm.
  assert (11 <= va_hi t (max_lvl t)) by (destruct t; vm_compute; congruence).
  rewrite wrap_testbit by lia. bcase. done.
Qed.

Lemma pfx_up t lvl k va va' :
  1 <= lvl -> lvl <= k -> k <= max_lvl t ->
  pfx t (lvl - 1) va = pfx t (lvl - 1) va' -> pfx t (k - 1) va = pfx t (k - 1) va'.
Proof.
  intros H1 H2. pattern k. apply Z.le_ind with (n := lvl); [|done|..|done].
  - intros ? ? ->. done.
  - intros l Hl IH Hk E. replace (Z.succ l - 1) with l by lia.
    apply (pfx_step t l); [unfold lvl_ok; lia|]. apply IH; [lia|done].
Qed.

(** ** The reference walk *)

Definition descends (t : hpt_type_t) (lvl e : Z) : bool :=
  pme_present t e && negb (pme_page t lvl e).

Lemma descends_lvl t lvl e : descends t lvl e = true -> lvl <> 1.
Proof. unfold descends, pme_page. intros H ->. cbn in H. by rewrite andb_false_r in H. Qed.

(** Where the walk of [va] stops that starts at level [n] in table [pm]: level,
    table and entry. *)
Fixpoint walk_nat (n : nat) (t : hpt_type_t) (pm va : Z) (m : mem) : Z * Z * Z :=
  let lvl := Z.of_nat n in
  let e := ld_pme t lvl pm va m in
  match n with
  | O => (0, pm, 0)
  | S n => if descends t lvl e then walk_nat n t (pme_addr t lvl e) va m else (lvl, pm, e)
  end.
Definition walk (t : hpt_type_t) (lvl pm va : Z) (m : mem) : Z * Z * Z :=
  walk_nat (Z.to_nat lvl) t pm va m.

(** The leaf a virtual address is mapped by: level and entry, if present. *)
Definition leaf_of (t : hpt_type_t) (w : Z * Z * Z) : option (Z * Z) :=
  let '(lvl, _, e) := w in if pme_present t e then Some (lvl, e) else None.
Definition mapping (t : hpt_type_t) (root va : Z) (m : mem) : option (Z * Z) :=
  leaf_of t (walk t (max_lvl t) root va m).

Lemma walk_unfold t lvl pm va m :
  1 <= lvl ->
  walk t lvl pm va m =
  let e := ld_pme t lvl pm va m in
  if descends t lvl e then walk t (lvl - 1) (pme_addr t lvl e) va m else (lvl, pm, e).
Proof.
  intros H. unfold walk. destruct (Z.to_nat lvl) as [|n] eqn:E; [lia|].
  cbn [walk_nat]. replace (Z.of_nat (S n)) with lvl by lia.
  replace (Z.to_nat (lvl - 1)) with n by lia. done.
Qed.

(** Induction on a level. *)
Lemma lvl_ind (P : Z -> Prop) :
  P 1 -> (forall l, 1 < l -> P (l - 1) -> P l) -> forall l, 1 <= l -> P l.
Proof.
  intros H1 HS l Hl. pattern l. apply Z.le_ind with (n := 1); [|done| |done].
  - intros ? ? ->. done.
  - intros k Hk IH. apply HS; [lia|]. by replace (Z.succ k - 1) with k by lia.
Qed.

(** ** Paths *)

(** The walk of [va] from table [q] of level [k] reaches table [p] of level [l]. *)
Inductive path (t : hpt_type_t) (m : mem) (va k q : Z) : Z -> Z -> Prop :=
| path_nil : path t m va k q k q
| path_snoc l p :
    path t m va k q l p -> descends t l (ld_pme t l p va m) = true ->
    path t m va k q (l - 1) (pme_addr t l (ld_pme t l p va m)).

Lemma path_le t m va k q l p : path t m va k q l p -> l <= k.
Proof. induction 1; lia. Qed.

Lemma path_walk t m va k q l p :
  path t m va k q l p -> 1 <= l -> walk t k q va m = walk t l p va m.
Proof.
  induction 1 as [|l p Hp IH Hd]; intros Hl; [done|].
  rewrite IH by lia. rewrite (walk_unfold t l) by lia. cbn. by rewrite Hd.
Qed.

(** The walk is the end of a path that cannot be extended. *)
Lemma walk_path t m va k q l p e :
  1 <= k -> walk t k q va m = (l, p, e) ->
  1 <= l <= k /\ path t m va k q l p /\ e = ld_pme t l p va m /\ descends t l e = false.
Proof.
  intros Hk.
  assert (forall l0, 1 <= l0 -> forall q0, path t m va k q l0 q0 -> walk t l0 q0 va m = (l, p, e) ->
    1 <= l <= l0 /\ path t m va k q l p /\ e = ld_pme t l p va m /\ descends t l e = false) as H.
  { refine (lvl_ind _ _ _).
    - intros q0 Hp E. rewrite walk_unfold in E by lia. cbn in E.
      destruct (descends t 1 _) eqn:Hd; [by apply descends_lvl in Hd|].
      simplify_eq. repeat split; try done; lia.
    - intros l0 Hl IH q0 Hp E. rewrite walk_unfold in E by lia. cbn in E.
      destruct (descends t l0 _) eqn:Hd.
      + destruct (IH _ (path_snoc _ _ _ _ _ _ _ Hp Hd) E) as (? & ?). split; [lia|done].
      + simplify_eq. repeat split; try done; lia. }
  intros E. apply (H k Hk q); [constructor|done].
Qed.

(** ** The tree of tables *)

(** Size of a table; a child table is always one page. *)
Definition tbl_size (t : hpt_type_t) (lvl : Z) : Z :=
  match t with HPT_TYPE_PAE => if lvl =? 3 then 32 else 4096 | _ => 4096 end.

Lemma hpt_pm_size_ok t lvl : lvl_ok t lvl -> hpt_pm_size t lvl = Ok (tbl_size t lvl).
Proof. intros H. by lvl_cases t lvl H. Qed.

Lemma tbl_size_child t lvl : lvl_ok t lvl -> 1 < lvl -> tbl_size t (lvl - 1) = 4096.
Proof. intros H ?. lvl_cases t lvl H; done || lia. Qed.

Abbreviation tables := (gmap (Z * Z) Z).

(** Bytes of the tables. *)
Definition tbl_bytes (t : hpt_type_t) (T : tables) (a : Z) : Prop :=
  exists k p, T !! k = Some p /\ in_range p (tbl_size t k.1) a.

(** [T] lists the tables by level and prefix: it contains the root and is closed
    under following entries, each of its tables is acceptable to the context, and
    they do not overlap.  It may list tables that are no longer in the tree. *)
Record tree (t : hpt_type_t) (ok : Z -> Z -> Prop) (root : Z) (m : mem) (T : tables) : Prop := {
  tree_root : T !! (max_lvl t, 0) = Some root;
  tree_child lvl va p :
    T !! (lvl, pfx t lvl va) = Some p ->
    descends t lvl (ld_pme t lvl p va m) = true ->
    T !! (lvl - 1, pfx t (lvl - 1) va) = Some (pme_addr t lvl (ld_pme t lvl p va m));
  tree_ok lvl x p : T !! (lvl, x) = Some p -> lvl_ok t lvl /\ ok lvl p;
  tree_disj k1 p1 k2 p2 :
    T !! k1 = Some p1 -> T !! k2 = Some p2 -> k1 <> k2 ->
    p1 + tbl_size t k1.1 <= p2 \/ p2 + tbl_size t k2.1 <= p1 }.

Section tree.
Context {t : hpt_type_t} {ok : Z -> Z -> Prop} {root : Z}.

Lemma path_tree m T va k q l p :
  tree t ok root m T -> T !! (k, pfx t k va) = Some q ->
  path t m va k q l p -> T !! (l, pfx t l va) = Some p.
Proof.
  intros Ht Hk. induction 1 as [|l p Hp IH Hd]; [done|].
  by apply (tree_child _ _ _ _ _ Ht).
Qed.

(** The bytes of an entry lie in its table. *)
Lemma entry_in_table lvl p va :
  lvl_ok t lvl ->
  p <= entry_addr t lvl p va /\ entry_addr t lvl p va + pme_bytes t <= p + tbl_size t lvl.
Proof.
  intros H. destruct (pm_idx_bound t lvl va (tbl_size t lvl)) as [H1 H2];
    [done|by apply hpt_pm_size_ok|].
  unfold entry_addr. assert (0 < pme_bytes t) by (destruct t; cbn; lia). nia.
Qed.

(** Two entries that are not the same one do not overlap. *)
Lemma entries_disjoint m T l1 va1 p1 l2 va2 p2 :
  tree t ok root m T ->
  T !! (l1, pfx t l1 va1) = Some p1 -> T !! (l2, pfx t l2 va2) = Some p2 ->
  l1 <> l2 \/ pfx t (l1 - 1) va1 <> pfx t (l1 - 1) va2 ->
  entry_addr t l1 p1 va1 + pme_bytes t <= entry_addr t l2 p2 va2 \/
  entry_addr t l2 p2 va2 + pme_bytes t <= entry_addr t l1 p1 va1.
Proof.
  intros Ht H1 H2 Hne.
  destruct (tree_ok _ _ _ _ _ Ht _ _ _ H1) as [Hl1 _].
  destruct (tree_ok _ _ _ _ _ Ht _ _ _ H2) as [Hl2 _].
  pose proof (entry_in_table l1 p1 va1 Hl1). pose proof (entry_in_table l2 p2 va2 Hl2).
  destruct (decide ((l1, pfx t l1 va1) = (l2, pfx t l2 va2))) as [E|E].
  - injection E as <- Ex. rewrite <- Ex, H1 in H2. injection H2 as <-.
    destruct Hne as [|Hne]; [done|]. rewrite pfx_step in Hne by done.
    unfold entry_addr. assert (0 < pme_bytes t) by (destruct t; cbn; lia).
    assert (pm_idx t l1 va1 <> pm_idx t l1 va2) by tauto. nia.
  - destruct (tree_disj _ _ _ _ _ Ht _ _ _ _ H1 H2 E); cbn in *; lia.
Qed.

(** Storing an entry leaves every other entry alone. *)
Lemma ld_st_pme_other m T l1 va1 p1 l2 va2 p2 e :
  tree t ok root m T ->
  T !! (l1, pfx t l1 va1) = Some p1 -> T !! (l2, pfx t l2 va2) = Some p2 ->
  l1 <> l2 \/ pfx t (l1 - 1) va1 <> pfx t (l1 - 1) va2 ->
  ld_pme t l2 p2 va2 (st_pme t l1 p1 va1 e m) = ld_pme t l2 p2 va2 m.
Proof.
  intros Ht H1 H2 Hne. unfold ld_pme, st_pme. apply ld_st_other.
  rewrite !pme_nbytes_bytes. pose proof (entries_disjoint m T _ _ _ _ _ _ Ht H1 H2 Hne). lia.
Qed.

(** ** One store *)

Context (m : mem) (T : tables) (lvl va p e : Z).
Hypothesis Ht : tree t ok root m T.
Hypothesis Hp : T !! (lvl, pfx t lvl va) = Some p.
Let m' := st_pme t lvl p va e m.

Lemma store_ld_same va' :
  pfx t (lvl - 1) va = pfx t (lvl - 1) va' -> ld_pme t lvl p va' m' = pme_trunc t e.
Proof.
  intros E. destruct (tree_ok _ _ _ _ _ Ht _ _ _ Hp) as [Hl _].
  apply pfx_step in E as [_ E]; [|done].
  assert (ld_pme t lvl p va' m' = ld_pme t lvl p va m') as ->
    by (unfold ld_pme, entry_addr; by rewrite E).
  apply ld_st_pme.
Qed.

(** A path that ends at or above the stored entry's table is still there. *)
Lemma store_path va' k q l p0 :
  T !! (k, pfx t k va') = Some q -> lvl <= l ->
  path t m va' k q l p0 -> path t m' va' k q l p0.
Proof.
  intros Hk Hl. induction 1 as [|l p0 Hpath IH Hd]; [constructor|].
  pose proof (path_tree _ _ _ _ _ _ _ Ht Hk Hpath) as HT.
  assert (ld_pme t l p0 va' m' = ld_pme t l p0 va' m) as E
    by (apply (ld_st_pme_other m T); try done; left; lia).
  rewrite <- E. constructor; [apply IH; lia|by rewrite E].
Qed.

(** Walks that do not read the stored entry are unchanged. *)
Lemma store_walk_other k va' q :
  T !! (k, pfx t k va') = Some q -> pfx t (lvl - 1) va <> pfx t (lvl - 1) va' ->
  walk t k q va' m' = walk t k q va' m.
Proof.
  intros Hk Hne. destruct (tree_ok _ _ _ _ _ Ht _ _ _ Hk) as [[Hk1 _] _].
  assert (forall l q, T !! (l, pfx t l va') = Some q -> ld_pme t l q va' m' = ld_pme t l q va' m)
    as Hld.
  { intros l q0 Hq. apply (ld_st_pme_other m T); try done.
    destruct (decide (lvl = l)); subst; auto. }
  revert q Hk. pattern k. apply lvl_ind; [| |lia].
  - intros q Hk. rewrite !walk_unfold by lia. cbn. rewrite Hld by done.
    destruct (descends t 1 _) eqn:Hd; [by apply descends_lvl in Hd|done].
  - intros l Hl IH q Hk. rewrite !(walk_unfold t l) by lia. cbn. rewrite Hld by done.
    destruct (descends t l _) eqn:Hd; [|done].
    apply IH. by apply (tree_child _ _ _ _ _ Ht).
Qed.

(** The tree after storing an entry whose target, if it has one, is listed. *)
Lemma store_tree :
  (descends t lvl (pme_trunc t e) = true ->
   T !! (lvl - 1, pfx t (lvl - 1) va) = Some (pme_addr t lvl (pme_trunc t e))) ->
  tree t ok root m' T.
Proof.
  intros He. pose proof Ht as [H1 H2 H3 H4]. constructor; try done.
  intros l va' q Hq.
  destruct (decide (lvl = l /\ pfx t (lvl - 1) va = pfx t (lvl - 1) va')) as [[<- E]|Hne].
  - pose proof (H3 _ _ _ Hq) as [Hl _]. pose proof E as E'.
    apply pfx_step in E' as [E' _]; [|done]. rewrite <- E', Hp in Hq. injection Hq as <-.
    rewrite (store_ld_same va' E). intros Hd. rewrite <- E. by apply He.
  - unfold m'. rewrite (ld_st_pme_other m T) by (done || (destruct (decide (lvl = l)); subst; tauto)).
    by apply H2.
Qed.
End tree.
