(* ===== verification/HptwProofs.v ===== *)
(** The page table walker against the reference walk: what the callbacks of a
    context have to provide (as classes), the invariant of a tree of page maps,
    and what walking, allocating and inserting do to it. *)
From S2P Require Import Prelude Bitfield HptConsts Hpt HptLemmas Mem Hpto Hptw.
From S2P Require Import Walk.

(** ** What a context provides *)

(** [ok lvl p]: a table of level [lvl] at [p] can be reached through [pa2ptr],
    at the same address. *)
Class WalkCtx (ctx : hptw_ctx_t) (ok : Z -> Z -> Prop) : Prop := {
  wc_type : ctx_t ctx <> HPT_TYPE_INVALID;
  wc_pa2ptr lvl p prot :
    ok lvl p ->
    ctx_pa2ptr ctx p (tbl_size (ctx_t ctx) lvl) prot HPTW_CPL0 = Ok (p, tbl_size (ctx_t ctx) lvl);
  wc_nonnull lvl p : ok lvl p -> p <> 0 }.

(** [free m l]: the allocator's state in [m] lets it hand out the pages [l], in
    this order; [meta] are the bytes of that state. *)
Class AllocCtx (ctx : hptw_ctx_t) (ok : Z -> Z -> Prop)
    (free : mem -> list Z -> Prop) (meta : Z -> Prop) : Prop := {
  ac_some m p l :
    free m (p :: l) ->
    exists m', ctx_gzp ctx 4096 4096 m = Ok (p, m') /\ free m' l /\
               agree (fun a => ~ meta a) m m';
  ac_none m : free m [] -> ctx_gzp ctx 4096 4096 m = Ok (0, m);
  ac_frame m m' l : agree meta m m' -> free m l -> free m' l;
  ac_nodup m l : free m l -> NoDup l;
  ac_aligned m l p : free m l -> p ∈ l -> p mod 4096 = 0;
  ac_range m l p : free m l -> p ∈ l -> 0 < p < 2 ^ (addr_hi (ctx_t ctx) + 1);
  ac_meta m l p a : free m l -> p ∈ l -> in_range p 4096 a -> ~ meta a;
  ac_ptr2pa m l p : free m l -> p ∈ l -> ctx_ptr2pa ctx p = Ok p;
  ac_ok m l p lvl : free m l -> p ∈ l -> 1 <= lvl < max_lvl (ctx_t ctx) -> ok lvl p }.

(** ** Entries that point to a table *)

Lemma addr_hi_bounds t : 31 <= addr_hi t <= 51.
Proof. destruct t; cbn; lia. Qed.

Lemma ins64_addr p hi :
  0 <= p < 2 ^ (hi + 1) -> 31 <= hi <= 51 -> p mod 4096 = 0 -> ins64 0 p hi 12 0 = p.
Proof.
  intros Hp Hhi Hal. apply (is_u_ext 64); [lia|apply ins64_range| |].
  { apply (is_u_le (hi + 1)); [lia|done]. }
  intros i Hi. rewrite ins64_testbit by lia.
  bits.
  - by rewrite Z.sub_0_r.
  - symmetry. apply (is_u_testbit_high (hi + 1)); [done|lia].
  - symmetry. change 4096 with (2 ^ 12) in Hal.
    assert (Z.testbit (p mod 2 ^ 12) i = false) as E by (rewrite Hal; apply Z.bits_0).
    by rewrite Z.mod_pow2_bits_low in E by lia.
Qed.

Lemma present_of_prot t lvl e : pme_prot t lvl e = HPT_PROTS_RWX -> pme_present t e = true.
Proof.
  unfold pme_prot, prot_of, pme_present, pme_r. change HPT_PROTS_RWX with 7.
  destruct (Z.testbit e 0); cbn; [by destruct t|].
  destruct (pme_w t lvl e), (pme_x t lvl e); cbn; discriminate.
Qed.

Lemma descends_0 t lvl : descends t lvl 0 = false.
Proof. unfold descends, pme_present. by destruct t; rewrite !Z.bits_0. Qed.

(** The entry [alloc_table] writes. *)
Lemma table_entry t lvl e pa :
  lvl_ok t lvl -> 1 < lvl -> is_u 64 e -> pme_page t lvl e = false ->
  0 <= pa < 2 ^ (addr_hi t + 1) -> pa mod 4096 = 0 ->
  exists e', (o ← hpt_pmeo_set_address (HptPmeo e t lvl) pa;
              o ← hpt_pmeo_setprot o HPT_PROTS_RWX; hpt_pmeo_setuser o true)
             = Ok (HptPmeo e' t lvl) /\ is_u 64 e' /\
    view t lvl e' = PmeView false pa HPT_PROTS_RWX true (pme_mt t e).
Proof.
  intros H Hl He Hpg Hpa Hal.
  destruct (view_set_address t lvl e pa) as (e1 & E1 & [He1 _] & V1); [done..| |].
  { unfold is_4mb. rewrite Hpg. by destruct t; rewrite ?andb_false_r. }
  destruct (view_setprot t lvl e1 HPT_PROTS_RWX) as (e2 & E2 & [He2 _] & V2); [done..|by destruct t|].
  destruct (view_setuser t lvl e2 true) as (e3 & E3 & [He3 _] & V3); [done..|].
  exists e3. unfold hpt_pmeo_set_address, hpt_pmeo_setprot, hpt_pmeo_setuser, with_pme.
  cbn. rewrite E1. cbn. rewrite E2. cbn. rewrite E3. cbn. split; [done|]. split; [done|].
  rewrite V3. unfold view in V1, V2. injection V1 as P1 A1 R1 U1 M1.
  injection V2 as P2 A2 R2 U2 M2.
  rewrite P2, A2, R2, M2, P1, A1, M1, Hpg.
  assert (addr_lo t lvl false = 12) as -> by (by destruct t).
  rewrite ins64_addr by (done || apply addr_hi_bounds).
  f_equal. unfold prot_read. destruct t; try done. by destruct (lvl =? 3).
Qed.

Lemma table_entry_descends t lvl e pa mt :
  lvl_ok t lvl -> is_u 64 e ->
  view t lvl e = PmeView false pa HPT_PROTS_RWX true mt ->
  descends t lvl (pme_trunc t e) = true /\ pme_addr t lvl (pme_trunc t e) = pa.
Proof.
  intros H He V. rewrite <- view_trunc in V by done. injection V as P A R _ _.
  split; [|done]. unfold descends. by rewrite P, (present_of_prot t lvl).
Qed.

(** ** Steps of the walk *)

Section walk.
Context {ctx : hptw_ctx_t} {ok : Z -> Z -> Prop} `{!WalkCtx ctx ok}.
Abbreviation t := (ctx_t ctx).
Abbreviation root := (ctx_root_pa ctx).
Abbreviation max := (max_lvl t).

Lemma max_ok : lvl_ok t max.
Proof. pose proof wc_type. unfold lvl_ok. by destruct t. Qed.

Lemma hptw_get_root_ok m T :
  tree t ok root m T -> hptw_get_root ctx = Ok (Some (HptPmo root t max)).
Proof.
  intros Ht. pose proof max_ok as Hm.
  destruct (tree_ok _ _ _ _ _ Ht _ _ _ (tree_root _ _ _ _ _ Ht)) as [_ Hok].
  unfold hptw_get_root.
  assert (hpt_type_max_lvl t = Ok max) as ->
    by (pose proof wc_type; by destruct t).
  cbn. rewrite hpt_pm_size_ok by done. cbn. rewrite wc_pa2ptr by done. cbn.
  pose proof (wc_nonnull _ _ Hok). destruct (Z.eqb_spec root 0); [done|].
  by rewrite Z.eqb_refl.
Qed.

(** One step of the walk, where it is defined. *)
Lemma hptw_next_lvl_ok lvl p va m :
  lvl_ok t lvl -> p <> 0 ->
  (descends t lvl (ld_pme t lvl p va m) = true ->
   ok (lvl - 1) (pme_addr t lvl (ld_pme t lvl p va m))) ->
  hptw_next_lvl ctx (HptPmo p t lvl) va m =
  Ok (if descends t lvl (ld_pme t lvl p va m)
      then (true, HptPmo (pme_addr t lvl (ld_pme t lvl p va m)) t (lvl - 1))
      else (false, HptPmo p t lvl)).
Proof.
  intros H Hp Hch. unfold hptw_next_lvl. rewrite hpt_pm_get_pmeo_by_va_ok by done. cbn.
  unfold truth at 1. destruct (Z.eqb_spec p 0); [done|]. cbn.
  unfold hpt_pmeo_is_present, hpt_pmeo_is_page, hpt_pmeo_get_address. cbn.
  rewrite hpt_pme_is_present_ok by done. cbn.
  unfold descends in *. destruct (pme_present t _) eqn:Epr; cbn; [|done].
  rewrite hpt_pme_is_page_ok by done. cbn.
  destruct (pme_page t lvl _) eqn:Epg; cbn; [done|].
  assert (1 < lvl).
  { destruct (decide (lvl = 1)) as [->|]; [done|]. unfold lvl_ok in H. lia. }
  rewrite hpt_pm_size_ok by (unfold lvl_ok in *; lia). cbn.
  rewrite hpt_pme_get_address_ok by auto. cbn.
  specialize (Hch eq_refl). rewrite wc_pa2ptr by done. cbn.
  pose proof (wc_nonnull _ _ Hch).
  destruct (Z.eqb_spec (pme_addr t lvl (ld_pme t lvl p va m)) 0); [done|].
  by rewrite Z.eqb_refl.
Qed.

Lemma next_lvl_tree m T lvl p va :
  tree t ok root m T -> T !! (lvl, pfx t lvl va) = Some p ->
  hptw_next_lvl ctx (HptPmo p t lvl) va m =
  Ok (if descends t lvl (ld_pme t lvl p va m)
      then (true, HptPmo (pme_addr t lvl (ld_pme t lvl p va m)) t (lvl - 1))
      else (false, HptPmo p t lvl)).
Proof.
  intros Ht Hp. destruct (tree_ok _ _ _ _ _ Ht _ _ _ Hp) as [Hl Hok].
  apply hptw_next_lvl_ok; [done|by apply (wc_nonnull lvl)|].
  intros Hd. apply (tree_child _ _ _ _ _ Ht) in Hd; [|done].
  by apply (tree_ok _ _ _ _ _ Ht) in Hd as [_ ?].
Qed.

Lemma root_table m T va : tree t ok root m T -> T !! (max, pfx t max va) = Some root.
Proof. intros Ht. rewrite pfx_max by apply wc_type. apply (tree_root _ _ _ _ _ Ht). Qed.

(** [hptw_get_pmo] down to level 1 is the reference walk. *)
Lemma get_pmo_loop_walk m T va :
  tree t ok root m T ->
  forall lvl, 1 <= lvl -> forall p fuel, T !! (lvl, pfx t lvl va) = Some p ->
  (Z.to_nat lvl <= fuel)%nat ->
  get_pmo_loop fuel ctx 1 va (HptPmo p t lvl) m =
  let '(l, q, _) := walk t lvl p va m in Ok (HptPmo q t l).
Proof.
  intros Ht. refine (lvl_ind _ _ _).
  - intros p fuel Hp Hf. destruct fuel as [|fuel]; [lia|]. cbn.
    rewrite walk_unfold by lia. cbn.
    destruct (descends t 1 _) eqn:Hd; [by apply descends_lvl in Hd|done].
  - intros l Hl IH p fuel Hp Hf. destruct fuel as [|fuel]; [lia|].
    cbn [get_pmo_loop pmo_lvl]. rewrite (proj2 (Z.ltb_lt 1 l)) by lia.
    rewrite (next_lvl_tree m T) by done. rewrite walk_unfold by lia. cbn.
    destruct (descends t l _) eqn:Hd; [|done].
    apply IH; [by apply (tree_child _ _ _ _ _ Ht)|lia].
Qed.

Lemma hptw_get_pmo_walk m T va :
  tree t ok root m T ->
  hptw_get_pmo ctx 1 va m = let '(l, q, _) := walk t max root va m in Ok (HptPmo q t l).
Proof.
  intros Ht. unfold hptw_get_pmo. rewrite (hptw_get_root_ok m T) by done.
  cbn [mbind res_bind]. pose proof max_ok as Hm. unfold lvl_ok in Hm.
  apply (get_pmo_loop_walk m T); [done|lia|by apply (root_table m)|].
  unfold walk_fuel. cbn [pmo_lvl]. lia.
Qed.

(** The end of the walk is an entry of a table of the tree. *)
Lemma walk_end m T va l q e :
  tree t ok root m T -> walk t max root va m = (l, q, e) ->
  lvl_ok t l /\ T !! (l, pfx t l va) = Some q /\ e = ld_pme t l q va m /\
  descends t l e = false /\ is_u 64 e /\ path t m va max root l q.
Proof.
  intros Ht E. pose proof max_ok as Hm. unfold lvl_ok in Hm.
  apply walk_path in E as (Hl & Hpath & -> & Hd); [|lia].
  pose proof (path_tree _ _ _ _ _ _ _ Ht (root_table m T va Ht) Hpath).
  split; [unfold lvl_ok; lia|]. by repeat split; try apply ld_pme_u64.
Qed.

Lemma hptw_get_pmeo_walk m T va :
  tree t ok root m T ->
  hptw_get_pmeo ctx 1 va m = let '(l, _, e) := walk t max root va m in Ok (HptPmeo e t l).
Proof.
  intros Ht. unfold hptw_get_pmeo. rewrite (hptw_get_pmo_walk m T) by done.
  destruct (walk t max root va m) as [[l q] e] eqn:E. cbn.
  apply (walk_end m T) in E as (Hl & _ & -> & _); [|done].
  by rewrite hpt_pm_get_pmeo_by_va_ok.
Qed.
End walk.
