(* ===== verification/HptwInsert.v ===== *)
(** Inserting entries: the invariant of a page-map tree with its allocator, what
    allocating a table does to the mappings, and the functional specification of
    [hptw_get_pmo_alloc] and [hptw_insert_pmeo_alloc]. *)
From S2P Require Import Prelude Bitfield HptConsts Hpt HptLemmas Mem Hpto Hptw.
From S2P Require Import Walk HptwProofs.

(** Level of the entry a walk ends at. *)
Definition depth (w : Z * Z * Z) : Z := w.1.1.

Section insert.
Context {ctx : hptw_ctx_t} {ok : Z -> Z -> Prop} `{HW : !WalkCtx ctx ok}.
Context {free : mem -> list Z -> Prop} {meta : Z -> Prop} `{HA : !AllocCtx ctx ok free meta}.
Abbreviation t := (ctx_t ctx).
Abbreviation root := (ctx_root_pa ctx).
Abbreviation max := (max_lvl t).
Abbreviation rwalk va m := (walk t max root va m).

(** The tables of the tree, the free pages (all zero) and the allocator's bytes
  are apart from each other. *)
Record inv (m : mem) (T : tables) (l : list Z) : Prop := {
  inv_tree : tree t ok root m T;
  inv_free : free m l;
  inv_zero p a : p ∈ l -> in_range p 4096 a -> rd8 m a = 0;
  inv_sep k q p : T !! k = Some q -> p ∈ l -> q + tbl_size t k.1 <= p \/ p + 4096 <= q;
  inv_meta a : tbl_bytes t T a -> ~ meta a }.

(** *** Memories that agree on the tables *)

Lemma agree_ld T m m' l va q :
  tree t ok root m T -> agree (tbl_bytes t T) m m' ->
  T !! (l, pfx t l va) = Some q -> ld_pme t l q va m' = ld_pme t l q va m.
Proof.
  intros Ht Ha Hq. destruct (tree_ok _ _ _ _ _ Ht _ _ _ Hq) as [Hl _].
  apply (ld_agree _ _ _ _ _ Ha). intros b Hb. rewrite pme_nbytes_bytes in Hb.
  exists (l, pfx t l va), q. split; [done|].
  pose proof (entry_in_table l q va Hl). unfold in_range in *. cbn. lia.
Qed.

Lemma agree_tree T m m' :
  tree t ok root m T -> agree (tbl_bytes t T) m m' -> tree t ok root m' T.
Proof.
  intros Ht Ha. pose proof Ht as [H1 H2 H3 H4]. constructor; try done.
  intros l va q Hq. rewrite (agree_ld T m m') by done. by apply H2.
Qed.

Lemma agree_path T m m' va k q l p :
  tree t ok root m T -> agree (tbl_bytes t T) m m' -> T !! (k, pfx t k va) = Some q ->
  path t m va k q l p -> path t m' va k q l p.
Proof.
  intros Ht Ha Hk. induction 1 as [|l p Hpath IH Hd]; [constructor|].
  pose proof (path_tree _ _ _ _ _ _ _ Ht Hk Hpath) as HT.
  rewrite <- (agree_ld T m m') in Hd |- * by done. by constructor.
Qed.

Lemma agree_walk T m m' va :
  tree t ok root m T -> agree (tbl_bytes t T) m m' -> rwalk va m' = rwalk va m.
Proof.
  intros Ht Ha. pose proof max_ok as Hm. unfold lvl_ok in Hm.
  destruct (rwalk va m) as [[l q] e] eqn:E.
  apply (walk_end m T) in E as (Hl & Hq & -> & Hd & _ & Hpath); [|done]. unfold lvl_ok in Hl.
  rewrite (path_walk _ _ _ _ _ l q) by
    (lia || apply (agree_path T m m'); try done; by apply (root_table m)).
  rewrite walk_unfold by lia. cbn. by rewrite (agree_ld T m m'), Hd.
Qed.

(** *** Paths and prefixes *)

Lemma path_same_pfx m T va va' k q l p :
  tree t ok root m T -> T !! (k, pfx t k va) = Some q ->
  path t m va k q l p -> pfx t l va = pfx t l va' -> path t m va' k q l p.
Proof.
  intros Ht Hk. induction 1 as [|l p Hpath IH Hd]; intros E; [constructor|].
  pose proof (path_tree _ _ _ _ _ _ _ Ht Hk Hpath) as HT.
  destruct (tree_ok _ _ _ _ _ Ht _ _ _ HT) as [Hl _].
  apply pfx_step in E as [E Ei]; [|done].
  assert (ld_pme t l p va m = ld_pme t l p va' m) as Eld
    by (unfold ld_pme, entry_addr; by rewrite Ei).
  rewrite Eld in *. constructor; auto.
Qed.

Lemma depth_ok m T va : tree t ok root m T -> lvl_ok t (depth (rwalk va m)).
Proof.
  intros Ht. destruct (rwalk va m) as [[l q] e] eqn:E.
  by apply (walk_end m T) in E as (Hl & _).
Qed.

(** Reaching a table of level [l] bounds the depth of every address below it. *)
Lemma path_depth m T va va' l p :
  tree t ok root m T -> path t m va max root l p -> pfx t l va' = pfx t l va ->
  depth (rwalk va' m) <= l.
Proof.
  intros Ht Hp E. pose proof (path_tree _ _ _ _ _ _ _ Ht (root_table m T va Ht) Hp) as HT.
  destruct (tree_ok _ _ _ _ _ Ht _ _ _ HT) as [Hl _]. unfold lvl_ok in Hl.
  assert (path t m va' max root l p) as Hp'
    by (apply (path_same_pfx m T va); try done; by apply (root_table m)).
  rewrite (path_walk _ _ _ _ _ _ _ Hp') by lia.
  destruct (walk t l p va' m) as [[l' q] e] eqn:Ew.
  apply walk_path in Ew as [? _]; cbn; lia.
Qed.

Lemma path_mid m va k q l p :
  path t m va k q l p -> forall i, l <= i <= k -> exists r, path t m va k q i r.
Proof.
  intros Hp. induction Hp as [|l p Hp IH Hd]; intros i Hi.
  - exists q. replace i with k by lia. constructor.
  - destruct (decide (i = l - 1)) as [->|]; [eexists; by apply path_snoc|]. apply IH. lia.
Qed.

(** *** Adding a table *)

Section add_table.
Context (m : mem) (T : tables) (l : list Z) (lvl va p n e' : Z).
Hypothesis Hi : inv m T (n :: l).
Hypothesis Hl : 1 < lvl.
Hypothesis Hpath : path t m va max root lvl p.
Hypothesis Hnp : pme_present t (ld_pme t lvl p va m) = false.
Hypothesis Hd' : descends t lvl (pme_trunc t e') = true.
Hypothesis Ha' : pme_addr t lvl (pme_trunc t e') = n.
Let m' := st_pme t lvl p va e' m.
Let T' : tables := <[(lvl - 1, pfx t (lvl - 1) va) := n]> T.

Local Lemma add_p : T !! (lvl, pfx t lvl va) = Some p.
Proof. pose proof (inv_tree _ _ _ Hi) as Ht. exact (path_tree _ _ _ _ _ _ _ Ht (root_table m T va Ht) Hpath). Qed.

Local Lemma add_lvl : lvl_ok t lvl.
Proof. pose proof (inv_tree _ _ _ Hi) as Ht. by destruct (tree_ok _ _ _ _ _ Ht _ _ _ add_p). Qed.

(** The new table is a page apart from the listed tables, and is zero. *)
Local Lemma add_apart k q : T !! k = Some q -> q + tbl_size t k.1 <= n \/ n + 4096 <= q.
Proof. intros Hq. apply (inv_sep _ _ _ Hi k q n Hq). by left. Qed.

Local Lemma add_zero l0 va0 : lvl_ok t l0 -> tbl_size t l0 = 4096 -> ld_pme t l0 n va0 m' = 0.
Proof.
  intros H0 Hs. pose proof (entry_in_table l0 n va0 H0) as Hin. rewrite Hs in Hin.
  pose proof (entry_in_table lvl p va add_lvl) as Hin'.
  pose proof (add_apart _ _ add_p) as Hap. cbn in Hap.
  unfold ld_pme. apply ld_zero. rewrite pme_nbytes_bytes. unfold in_range. intros b Hb.
  unfold m', st_pme. rewrite rd8_st_other.
  - apply (inv_zero _ _ _ Hi n); [by left|unfold in_range; lia].
  - unfold in_range. rewrite pme_nbytes_bytes. lia.
Qed.

Local Lemma add_child_ok : lvl_ok t (lvl - 1) /\ tbl_size t (lvl - 1) = 4096 /\ ok (lvl - 1) n.
Proof.
  pose proof add_lvl as H. split; [unfold lvl_ok in *; lia|].
  split; [by apply tbl_size_child|].
  apply (ac_ok m (n :: l)); [apply (inv_free _ _ _ Hi)|by left|unfold lvl_ok in H; lia].
Qed.

Lemma add_tree : tree t ok root m' T'.
Proof.
    pose proof (inv_tree _ _ _ Hi) as Ht. pose proof Ht as [H1 H2 H3 H4].
    destruct add_child_ok as (Hcl & Hcs & Hcok). pose proof add_lvl as Hlvl.
    constructor.
    - unfold T'. rewrite lookup_insert_ne; [done|]. unfold lvl_ok in Hlvl. intros [=]. lia.
    - intros l0 va0 q Hq Hd. unfold T' in *.
  destruct (decide ((lvl - 1, pfx t (lvl - 1) va) = (l0, pfx t l0 va0))) as [E|E].
  + rewrite <- E, lookup_insert_eq in Hq. injection Hq as <-. injection E as <- _.
    rewrite add_zero, descends_0 in Hd by done. done.
  + rewrite lookup_insert_ne in Hq by done.
    destruct (decide (lvl = l0 /\ pfx t (lvl - 1) va = pfx t (lvl - 1) va0)) as [[<- E']|Hne].
    * pose proof E' as Eq'. apply pfx_step in Eq' as [Eq' _]; [|done].
      rewrite <- Eq', add_p in Hq. injection Hq as <-.
      unfold m'. rewrite (store_ld_same m T) by (done || apply add_p).
      rewrite <- E', lookup_insert_eq. by rewrite Ha'.
    * unfold m' in *. rewrite (ld_st_pme_other m T) in Hd |- * by
        (done || apply add_p || (destruct (decide (lvl = l0)); subst; tauto)).
      rewrite lookup_insert_ne; [by apply H2|].
      intros [=]. apply Hne. assert (lvl = l0) as <- by lia. done.
    - intros l0 x q. unfold T'. destruct (decide ((lvl - 1, pfx t (lvl - 1) va) = (l0, x))) as [E|E].
  + rewrite <- E, lookup_insert_eq. injection E as <- <-. intros [= <-]. done.
  + rewrite lookup_insert_ne by done. apply H3.
    - intros k1 p1 k2 p2. unfold T'.
  destruct (decide ((lvl - 1, pfx t (lvl - 1) va) = k1)) as [<-|E1];
  destruct (decide ((lvl - 1, pfx t (lvl - 1) va) = k2)) as [<-|E2];
    rewrite ?lookup_insert_eq, ?lookup_insert_ne by done.
  + intros _ _ ?. done.
  + intros [= <-] Hp2 _. apply add_apart in Hp2. cbn [fst]. lia.
  + intros Hp1 [= <-] _. apply add_apart in Hp1. cbn [fst]. lia.
  + apply H4.
Qed.

Lemma add_path : path t m' va max root (lvl - 1) n.
Proof.
  pose proof (inv_tree _ _ _ Hi) as Ht.
  rewrite <- Ha'. unfold m'. rewrite <- (store_ld_same m T lvl va p e' Ht add_p va) by done.
  apply path_snoc; [|by rewrite (store_ld_same m T) by (done || apply add_p)].
  apply (store_path m T lvl va p e' Ht add_p va max root); [by apply (root_table m)|lia|done].
Qed.

(** Addresses of the region now end in the empty table, the others end where
they did. *)
Lemma add_walk va' :
  if decide (same_region t lvl va va')
  then rwalk va' m = (lvl, p, ld_pme t lvl p va m) /\ rwalk va' m' = (lvl - 1, n, 0)
  else rwalk va' m' = rwalk va' m.
Proof.
    pose proof (inv_tree _ _ _ Hi) as Ht. unfold same_region.
    destruct add_child_ok as (Hcl & Hcs & Hcok).
    destruct (decide _) as [E|E].
    - pose proof (eq_sym E) as E'. apply pfx_step in E' as [E' Ei]; [|apply add_lvl].
  split.
  + rewrite (path_walk _ _ _ _ _ lvl p) by
      (lia || apply (path_same_pfx m T va); try done; by apply (root_table m)).
    rewrite walk_unfold by lia. cbn.
    assert (ld_pme t lvl p va' m = ld_pme t lvl p va m) as ->
      by (unfold ld_pme, entry_addr; by rewrite Ei).
    unfold descends. by rewrite Hnp.
  + rewrite (path_walk _ _ _ _ _ (lvl - 1) n).
    * rewrite walk_unfold by lia. cbn. rewrite add_zero by done. by rewrite descends_0.
    * apply (path_same_pfx m' T' va); [apply add_tree| |apply add_path|done].
      apply (root_table m'), add_tree.
    * lia.
    - apply (store_walk_other m T lvl va p e' Ht add_p); [by apply (root_table m)|].
  intros E'. by apply E.
Qed.

(** Outside the pages of the allocator's list, no mapping changes. *)
Lemma add_mapping va' : mapping t root va' m' = mapping t root va' m.
Proof.
  pose proof (add_walk va') as H. unfold mapping.
  destruct (decide (same_region t lvl va va')) as [E|E]; [|by rewrite H].
  destruct H as [-> ->]. cbn. rewrite Hnp. unfold pme_present. by destruct t.
Qed.

Lemma add_depth va' : depth (rwalk va' m') <= depth (rwalk va' m).
Proof.
  pose proof (add_walk va') as H.
  destruct (decide (same_region t lvl va va')) as [E|E]; [|rewrite H; lia].
  destruct H as [-> ->]. cbn. lia.
Qed.

Lemma add_meta a : tbl_bytes t T' a -> ~ meta a.
Proof.
    intros (k & q & Hq & Ha). unfold T' in Hq.
    destruct (decide ((lvl - 1, pfx t (lvl - 1) va) = k)) as [<-|E1].
    - rewrite lookup_insert_eq in Hq. injection Hq as <-. cbn [fst] in Ha.
  destruct add_child_ok as (_ & Hs & _). rewrite Hs in Ha.
  apply (ac_meta m (n :: l) n); [apply (inv_free _ _ _ Hi)|by left|done].
    - rewrite lookup_insert_ne in Hq by done. apply (inv_meta _ _ _ Hi). by exists k, q.
Qed.

(** [m''] is [m'] up to what the allocator wrote to its own state. *)
Lemma add_inv m'' : agree (fun a => ~ meta a) m' m'' -> free m'' l -> inv m'' T' l.
Proof.
    intros Hag Hf. pose proof (inv_free _ _ _ Hi) as Hf0.
    pose proof (entry_in_table lvl p va add_lvl) as Hin'.
    pose proof (ac_nodup _ _ Hf0) as Hnd. apply NoDup_cons in Hnd as [Hnin _].
    constructor; [|done|..|apply add_meta].
    - apply (agree_tree T' m'); [apply add_tree|].
  by apply (agree_weaken (fun a => ~ meta a)); [apply add_meta|].
    - intros p0 a Hp0 Ha. rewrite Hag by (apply (ac_meta m (n :: l) p0); [done|by right|done]).
  unfold m', st_pme. rewrite rd8_st_other.
  + apply (inv_zero _ _ _ Hi p0); [by right|done].
  + destruct (inv_sep _ _ _ Hi _ _ p0 add_p) as [Hs|Hs]; [by right|..];
      unfold in_range in *; rewrite pme_nbytes_bytes; cbn in Hs; lia.
    - intros k q p0. unfold T'.
  destruct (decide ((lvl - 1, pfx t (lvl - 1) va) = k)) as [<-|E1].
  + rewrite lookup_insert_eq. intros [= <-] Hp0. cbn [fst].
    destruct add_child_ok as (_ & -> & _).
    pose proof (ac_aligned _ _ n Hf0 ltac:(by left)).
    pose proof (ac_aligned _ _ p0 Hf0 ltac:(by right)).
    assert (n <> p0) by (intros ->; done).
    pose proof (Z.div_mod n 4096). pose proof (Z.div_mod p0 4096). lia.
  + rewrite lookup_insert_ne by done. intros Hq Hp0.
    apply (inv_sep _ _ _ Hi _ _ _ Hq). by right.
Qed.
End add_table.

(** *** The loop of [hptw_get_pmo_alloc] *)

(** The walk ends at the same entry, or at an empty one. *)
Definition leaf_kept (w w' : Z * Z * Z) : Prop := (w'.1.1 = w.1.1 /\ w'.2 = w.2) \/ w'.2 = 0.

Lemma leaf_kept_trans w1 w2 w3 : leaf_kept w1 w2 -> leaf_kept w2 w3 -> leaf_kept w1 w3.
Proof. unfold leaf_kept. intuition congruence. Qed.

(** Bytes a tree and its allocator own. *)
Definition owned (T : tables) (l : list Z) (a : Z) : Prop :=
  tbl_bytes t T a \/ (exists p, p ∈ l /\ in_range p 4096 a) \/ meta a.

(** What a step or the whole loop does to a state: the allocator gave away the
  first pages of [l], no mapping changed, no walk got longer, and nothing was
  written outside the tables, the free pages and the allocator's state. *)
Record grows (m : mem) (T : tables) (l : list Z) (m' : mem) (T' : tables) (l' : list Z) : Prop := {
  grow_mapping va : mapping t root va m' = mapping t root va m;
  grow_depth va : depth (rwalk va m') <= depth (rwalk va m);
  grow_leaf va : leaf_kept (rwalk va m) (rwalk va m');
  grow_suffix : l' `suffix_of` l;
  grow_owned a : owned T' l' a -> owned T l a;
  grow_frame : agree (fun a => ~ owned T l a) m m' }.

Lemma grows_refl m T l : grows m T l m T l.
Proof. constructor; try done. by left. Qed.

Lemma grows_trans m1 T1 l1 m2 T2 l2 m3 T3 l3 :
  grows m1 T1 l1 m2 T2 l2 -> grows m2 T2 l2 m3 T3 l3 -> grows m1 T1 l1 m3 T3 l3.
Proof.
  intros [H1 H2 HL H3 H4 H5] [H1' H2' HL' H3' H4' H5']. constructor.
  - intros va. by rewrite H1', H1.
  - intros va. specialize (H2 va). specialize (H2' va). lia.
  - intros va. by apply (leaf_kept_trans _ (rwalk va m2)).
  - by trans l2.
  - auto.
  - intros a Ha. rewrite H5' by auto. by apply H5.
Qed.

Lemma alloc_table_empty m T lvl va p e :
  inv m T [] -> lvl_ok t lvl -> 1 < lvl ->
  alloc_table ctx (HptPmo p t lvl) (HptPmeo e t lvl) va m = Ok (false, m).
Proof.
  intros Hi Hl H1. unfold alloc_table. cbn.
  rewrite hpt_pm_size_ok by (unfold lvl_ok in *; lia). cbn.
  rewrite tbl_size_child by done. change HPT_PM_SIZE with 4096.
  by rewrite ac_none by apply (inv_free _ _ _ Hi).
Qed.

Lemma alloc_table_ok m T n l lvl va p :
  inv m T (n :: l) -> 1 < lvl -> path t m va max root lvl p ->
  pme_present t (ld_pme t lvl p va m) = false ->
  pme_page t lvl (ld_pme t lvl p va m) = false ->
  exists m' T',
    alloc_table ctx (HptPmo p t lvl) (HptPmeo (ld_pme t lvl p va m) t lvl) va m = Ok (true, m') /\
    inv m' T' l /\ path t m' va max root (lvl - 1) n /\
    rwalk va m' = (lvl - 1, n, 0) /\ descends t lvl (ld_pme t lvl p va m') = true /\
    pme_addr t lvl (ld_pme t lvl p va m') = n /\ grows m T (n :: l) m' T' l.
Proof.
  intros Hi Hl Hpath Hnp Hpg. pose proof (inv_tree _ _ _ Hi) as Ht.
  pose proof (inv_free _ _ _ Hi) as Hf.
  pose proof (path_tree _ _ _ _ _ _ _ Ht (root_table m T va Ht) Hpath) as Hp.
  destruct (tree_ok _ _ _ _ _ Ht _ _ _ Hp) as [Hlvl _].
  destruct (ac_some _ _ _ Hf) as (m1 & Eg & Hf1 & Hag).
  destruct (table_entry t lvl (ld_pme t lvl p va m) n) as (e' & Ee & He' & V);
    [done..|apply ld_pme_u64|done| |by apply (ac_aligned _ _ _ Hf); left|].
  { pose proof (ac_range _ _ n Hf ltac:(by left)). lia. }
  destruct (table_entry_descends _ _ _ _ _ Hlvl He' V) as [Hd Ha].
  set (ma := st_pme t lvl p va e' m). set (mb := st_pme t lvl p va e' m1).
  pose proof (entry_in_table lvl p va Hlvl) as Hin.
  assert (forall a, in_range (entry_addr t lvl p va) (pme_bytes t) a -> ~ meta a) as Hent.
  { intros a Hr. apply (inv_meta _ _ _ Hi). exists (lvl, pfx t lvl va), p. split; [done|].
    unfold in_range in *. cbn. lia. }
  assert (agree (fun a => ~ meta a) ma mb) as Hagb.
  { intros a Hnm. unfold ma, mb, st_pme. rewrite !rd8_st. case_match; [done|]. by apply Hag. }
  set (T' := <[(lvl - 1, pfx t (lvl - 1) va) := n]> T).
  assert (tree t ok root ma T') as Hta by (eapply add_tree; eassumption).
  assert (agree (tbl_bytes t T') ma mb) as Hagt.
  { apply (agree_weaken (fun a => ~ meta a)); [|done].
    eapply add_meta; eassumption. }
  exists mb, T'. split; [|split; [|split; [|split; [|split; [|split]]]]].
  - unfold alloc_table. cbn. rewrite hpt_pm_size_ok by (unfold lvl_ok in *; lia). cbn.
    rewrite tbl_size_child by done. change HPT_PM_SIZE with 4096. rewrite Eg. cbn.
    pose proof (ac_range _ _ n Hf ltac:(by left)). destruct (Z.eqb_spec n 0); [lia|].
    rewrite (ac_ptr2pa m (n :: l)) by (done || by left). cbn.
    revert Ee. unfold mbind, res_bind.
    destruct (hpt_pmeo_set_address _ _); [|done]. destruct (hpt_pmeo_setprot _ _); [|done].
    intros ->. by rewrite hpt_pmo_set_pme_by_va_ok.
  - eapply add_inv; try eassumption.
    apply (ac_frame m1); [|done]. intros a Hm. unfold mb, st_pme. apply rd8_st_other.
    rewrite pme_nbytes_bytes. intros Hr. by apply (Hent a).
  - apply (agree_path T' ma); [done..|by apply (root_table ma)|].
    eapply add_path; eassumption.
  - rewrite (agree_walk T' ma) by done.
    assert (H := add_walk m T l lvl va p n e'). specialize (H ltac:(done) ltac:(done) ltac:(done) ltac:(done) ltac:(done) ltac:(done) va).
    rewrite decide_True in H by done. apply H.
  - unfold mb. by rewrite ld_st_pme.
  - unfold mb. by rewrite ld_st_pme.
  - constructor.
    + intros va'. unfold mapping. rewrite (agree_walk T' ma) by done.
      eapply add_mapping; eassumption.
    + intros va'. rewrite (agree_walk T' ma) by done. eapply add_depth; eassumption.
    + intros va'. rewrite (agree_walk T' ma mb) by done.
      assert (H := add_walk m T l lvl va p n e'). specialize (H ltac:(done) ltac:(done) ltac:(done) ltac:(done) ltac:(done) ltac:(done) va').
      fold ma in H. destruct (decide (same_region t lvl va va')); [|rewrite H; by left].
      destruct H as [_ ->]; by right.
    + by exists [n].
    + intros a [(k & q & Hq & Ha')|[(q & Hq & Ha')|Hm]]; [|right; left; exists q; by split; [right|]|by right; right].
      unfold T' in Hq. destruct (decide ((lvl - 1, pfx t (lvl - 1) va) = k)) as [<-|E1].
      * rewrite lookup_insert_eq in Hq. injection Hq as <-. right. left. exists n.
        split; [by left|]. cbn in Ha'. by rewrite tbl_size_child in Ha'.
      * rewrite lookup_insert_ne in Hq by done. left. by exists k, q.
    + intros a Hno. unfold mb, st_pme. rewrite rd8_st_other.
      * apply Hag. intros Hm. apply Hno. by right; right.
      * rewrite pme_nbytes_bytes. intros Hr. apply Hno. left.
        exists (lvl, pfx t lvl va), p. split; [done|]. unfold in_range in *. cbn. lia.
Qed.

(** Levels that have no table yet. *)
Definition missing (m : mem) (va end_lvl : Z) : Z := Z.max 0 (depth (rwalk va m) - end_lvl).

(** Why a walk with allocation can fail: a large page is in the way, or the
  allocator has fewer pages than there are missing tables. *)
Definition blocked (m : mem) (va end_lvl : Z) (l : list Z) : Prop :=
  end_lvl < depth (rwalk va m) /\
  (pme_page t (depth (rwalk va m)) (rwalk va m).2 = true \/
   Z.of_nat (length l) < depth (rwalk va m) - end_lvl).

Lemma get_pmo_alloc_loop_ok end_lvl va :
  1 <= end_lvl -> forall k lvl m T l p fuel,
  lvl = end_lvl + Z.of_nat k -> inv m T l -> path t m va max root lvl p -> (k < fuel)%nat ->
  exists rc m' T' l' pmo,
    get_pmo_alloc_loop fuel ctx end_lvl va (HptPmo p t lvl) m = Ok (rc, pmo, m') /\
    inv m' T' l' /\ grows m T l m' T' l' /\
    ((rc = 0 /\ exists p', pmo = HptPmo p' t end_lvl /\ path t m' va max root end_lvl p' /\
        Z.of_nat (length l) = Z.of_nat (length l') + missing m va end_lvl) \/
     (rc = 1 /\ blocked m va end_lvl l)).
Proof.
  intros He. induction k as [|k IH]; intros lvl m T l p fuel Hk Hi Hpath Hf;
    (destruct fuel as [|fuel]; [lia|]); cbn [get_pmo_alloc_loop pmo_lvl];
    pose proof (inv_tree _ _ _ Hi) as Ht.
  { rewrite (proj2 (Z.ltb_ge end_lvl lvl)) by lia. exists 0, m, T, l, (HptPmo p t lvl).
    split; [done|]. split; [done|]. split; [apply grows_refl|]. left. split; [done|].
    exists p. replace lvl with end_lvl in * by lia. repeat split; [done|]. unfold missing.
    assert (depth (rwalk va m) <= end_lvl) by (by apply (path_depth m T va va _ p)). lia. }
  rewrite (proj2 (Z.ltb_lt end_lvl lvl)) by lia.
  pose proof (path_tree _ _ _ _ _ _ _ Ht (root_table m T va Ht) Hpath) as Hp.
  destruct (tree_ok _ _ _ _ _ Ht _ _ _ Hp) as [Hlvl _].
  rewrite hpt_pm_get_pmeo_by_va_ok by done. cbn -[get_pmo_alloc_loop].
  unfold hpt_pmeo_is_page. cbn -[get_pmo_alloc_loop]. rewrite hpt_pme_is_page_ok by done.
  cbn -[get_pmo_alloc_loop].
  assert (forall e, e = ld_pme t lvl p va m -> descends t lvl e = false -> rwalk va m = (lvl, p, e))
    as Hstop.
  { intros e -> Hd. rewrite (path_walk _ _ _ _ _ lvl p) by (done || lia).
    rewrite walk_unfold by lia. cbn. by rewrite Hd. }
  destruct (pme_page t lvl (ld_pme t lvl p va m)) eqn:Epg.
  { exists 1, m, T, l, (HptPmo p t lvl). split; [done|]. split; [done|].
    split; [apply grows_refl|]. right. split; [done|]. unfold blocked.
    rewrite (Hstop _ eq_refl) by (unfold descends; by rewrite Epg, andb_false_r).
    cbn. split; [lia|by left]. }
  unfold hpt_pmeo_is_present. cbn -[get_pmo_alloc_loop].
  rewrite hpt_pme_is_present_ok by done. cbn -[get_pmo_alloc_loop].
  destruct (pme_present t (ld_pme t lvl p va m)) eqn:Epr; cbn -[get_pmo_alloc_loop].
  - assert (descends t lvl (ld_pme t lvl p va m) = true) as Hd
      by (unfold descends; by rewrite Epr, Epg).
    rewrite (next_lvl_tree m T) by done. rewrite Hd. cbn -[get_pmo_alloc_loop].
    destruct (IH (lvl - 1) m T l (pme_addr t lvl (ld_pme t lvl p va m)) fuel)
      as (rc & m' & T' & l' & pmo & E & H); [lia|done|by apply path_snoc|lia|].
    rewrite E. by exists rc, m', T', l', pmo.
  - assert (depth (rwalk va m) = lvl) as Hdep
      by (rewrite (Hstop _ eq_refl) by (unfold descends; by rewrite Epr); done).
    destruct l as [|n l].
    { rewrite (alloc_table_empty m T) by (done || lia). cbn.
      exists 1, m, T, [], (HptPmo p t lvl). split; [done|]. split; [done|].
      split; [apply grows_refl|]. right. split; [done|]. unfold blocked. rewrite Hdep. cbn.
      split; [lia|right; lia]. }
    destruct (alloc_table_ok m T n l lvl va p) as (m1 & T1 & -> & Hi1 & Hp1 & Hw1 & Hd1 & Ha1 & Hg1);
      [done|lia|done..|]. cbn -[get_pmo_alloc_loop].
    pose proof (inv_tree _ _ _ Hi1) as Ht1.
    rewrite (hptw_next_lvl_ok lvl p va m1).
    2: done.
    2: { destruct (tree_ok _ _ _ _ _ Ht _ _ _ Hp) as [_ Hok]. by apply (wc_nonnull lvl). }
    2: { intros _. rewrite Ha1.
         pose proof (path_tree _ _ _ _ _ _ _ Ht1 (root_table m1 T1 va Ht1) Hp1) as HT1.
         by apply (tree_ok _ _ _ _ _ Ht1) in HT1 as [_ ?]. }
    rewrite Hd1. cbn -[get_pmo_alloc_loop]. rewrite Ha1.
    destruct (IH (lvl - 1) m1 T1 l n fuel)
      as (rc & m' & T' & l' & pmo & E & Hi' & Hg' & Hc); [lia|done|done|lia|].
    rewrite E. exists rc, m', T', l', pmo. split; [done|]. split; [done|].
    split; [by apply (grows_trans m T (n :: l) m1 T1 l)|].
    destruct Hc as [(-> & p' & -> & Hpath' & Hlen)|(-> & Hb1 & Hb2)].
    + left. split; [done|]. exists p'. split; [done|]. split; [done|].
      unfold missing in *. rewrite Hw1 in Hlen. cbn in Hlen |- *. rewrite Hdep. lia.
    + right. split; [done|]. unfold blocked. rewrite Hdep. split; [lia|]. right.
      rewrite Hw1 in Hb1, Hb2. cbn in *. destruct Hb2 as [Hb2|Hb2]; [|lia].
      unfold pme_page in Hb2. rewrite Z.bits_0, andb_false_r in Hb2.
      destruct (Z.eqb_spec (lvl - 1) 1); [lia|done].
Qed.

(** Writes outside the owned bytes change nothing. *)
Lemma owned_agree_tables T l m m' : agree (owned T l) m m' -> agree (tbl_bytes t T) m m'.
Proof. apply agree_weaken. intros a Ha. by left. Qed.

Lemma inv_agree m m' T l : inv m T l -> agree (owned T l) m m' -> inv m' T l.
Proof.
  intros [H1 H2 H3 H4 H5] Ha. constructor; try done.
  - apply (agree_tree T m); [done|by apply (owned_agree_tables T l)].
  - apply (ac_frame m); [|done]. apply (agree_weaken (owned T l)); [|done]. intros a Hm.
    by right; right.
  - intros p a Hp Hr. rewrite Ha; [by apply (H3 p)|]. right. left. by exists p.
Qed.

Lemma inv_agree_walk m m' T l va :
  inv m T l -> agree (owned T l) m m' -> rwalk va m' = rwalk va m.
Proof.
  intros Hi Ha. apply (agree_walk T); [apply (inv_tree _ _ _ Hi)|by apply (owned_agree_tables T l)].
Qed.

(** *** [hptw_insert_pmeo_alloc] *)

Lemma get_pmo_alloc_ok m T l end_lvl va :
  inv m T l -> lvl_ok t end_lvl ->
  exists rc m' T' l' pmo,
    hptw_get_pmo_alloc ctx end_lvl va m = Ok (rc, Some pmo, m') /\
    inv m' T' l' /\ grows m T l m' T' l' /\
    ((rc = 0 /\ exists p', pmo = HptPmo p' t end_lvl /\ path t m' va max root end_lvl p' /\
        Z.of_nat (length l) = Z.of_nat (length l') + missing m va end_lvl) \/
     (rc = 1 /\ blocked m va end_lvl l)).
Proof.
  intros Hi He. unfold lvl_ok in He. unfold hptw_get_pmo_alloc.
  rewrite (hptw_get_root_ok m T) by apply (inv_tree _ _ _ Hi). cbn [mbind res_bind].
  destruct (get_pmo_alloc_loop_ok end_lvl va ltac:(lia) (Z.to_nat (max - end_lvl)) max m T l root
              (walk_fuel (HptPmo root t max))) as (rc & m' & T' & l' & pmo & E & H);
    [lia|done|constructor|unfold walk_fuel; cbn; lia|].
  rewrite E. by exists rc, m', T', l', pmo.
Qed.

(** What [hptw_insert_pmeo_alloc] does to the mappings and to the allocator when
  it succeeds. *)
Record inserted (m : mem) (T : tables) (l : list Z) (lvl va e : Z)
    (m' : mem) (T' : tables) (l' : list Z) : Prop := {
  ins_mapping va' :
    mapping t root va' m' =
    if decide (same_region t lvl va va')
    then if pme_present t e then Some (lvl, pme_trunc t e) else None
    else mapping t root va' m;
  ins_used : Z.of_nat (length l) = Z.of_nat (length l') + missing m va lvl;
  ins_depth va' : ~ same_region t lvl va va' -> depth (rwalk va' m') <= depth (rwalk va' m);
  ins_reached k va' :
    lvl <= k <= max -> pfx t k va' = pfx t k va -> depth (rwalk va' m') <= k;
  ins_leaf va' : ~ same_region t lvl va va' -> leaf_kept (rwalk va' m) (rwalk va' m');
  ins_owned a : owned T' l' a -> owned T l a;
  ins_frame : agree (fun a => ~ owned T l a) m m' }.

Lemma insert_store m T l lvl va p e :
  inv m T l -> path t m va max root lvl p -> is_u 64 e -> descends t lvl e = false ->
  inv (st_pme t lvl p va e m) T l /\ inserted m T l lvl va e (st_pme t lvl p va e m) T l.
Proof.
  intros Hi Hpath He Hd. pose proof (inv_tree _ _ _ Hi) as Ht.
  pose proof (path_tree _ _ _ _ _ _ _ Ht (root_table m T va Ht) Hpath) as Hp.
  destruct (tree_ok _ _ _ _ _ Ht _ _ _ Hp) as [Hlvl _].
  pose proof (entry_in_table lvl p va Hlvl) as Hin.
  set (m' := st_pme t lvl p va e m).
  assert (descends t lvl (pme_trunc t e) = false) as Hdt.
  { unfold descends in *. rewrite present_trunc by done.
    pose proof (view_trunc t lvl e Hlvl He) as V. injection V as -> _ _ _ _. done. }
  assert (tree t ok root m' T) as Ht'
    by (apply store_tree; try done; by rewrite Hdt).
  assert (forall a, in_range (entry_addr t lvl p va) (pme_bytes t) a -> tbl_bytes t T a) as Hent.
  { intros a Hr. exists (lvl, pfx t lvl va), p. split; [done|].
    unfold in_range in *. cbn. lia. }
  assert (path t m' va max root lvl p) as Hpath'.
  { apply (store_path m T lvl va p e Ht Hp va max root); [by apply (root_table m)|lia|done]. }
  split.
  - pose proof Hi as [_ Hf Hz Hsep Hm]. constructor; try done.
    + apply (ac_frame m); [|done]. apply agree_st. rewrite pme_nbytes_bytes.
      intros b Hb Hmb. by apply (Hm b); [apply Hent|].
    + intros p0 a Hp0 Ha. unfold m', st_pme. rewrite rd8_st_other; [by apply (Hz p0)|].
      rewrite pme_nbytes_bytes. destruct (Hsep _ _ p0 Hp Hp0) as [H|H]; cbn in H;
        unfold in_range in *; lia.
  - constructor; try done.
    + intros va'. unfold same_region. destruct (decide _) as [E|E].
      * pose proof (eq_sym E) as E'. apply pfx_step in E' as [E' _]; [|done].
        unfold mapping. rewrite (path_walk _ _ _ _ _ lvl p) by
          (unfold lvl_ok in Hlvl; lia ||
           apply (path_same_pfx m' T va); try done; by apply (root_table m')).
        rewrite walk_unfold by (unfold lvl_ok in Hlvl; lia). cbn. unfold m'.
        rewrite (store_ld_same m T) by done. rewrite Hdt. cbn.
        by rewrite present_trunc.
      * unfold mapping. f_equal.
        apply (store_walk_other m T lvl va p e Ht Hp); [by apply (root_table m)|auto].
    + unfold missing.
      assert (depth (rwalk va m) <= lvl) by (by apply (path_depth m T va va _ p)). lia.
    + intros va' Hne. assert (rwalk va' m' = rwalk va' m) as ->; [|lia].
      apply (store_walk_other m T lvl va p e Ht Hp); [by apply (root_table m)|].
      intros E. by apply Hne.
    + intros k va' Hk E. destruct (path_mid _ _ _ _ _ _ Hpath' k) as [q Hq]; [lia|].
      by apply (path_depth m' T va va' _ q).
    + intros va' Hne. left. assert (rwalk va' m' = rwalk va' m) as ->; [|done].
      apply (store_walk_other m T lvl va p e Ht Hp); [by apply (root_table m)|].
      intros E. by apply Hne.
    + intros a Hno. unfold m', st_pme. apply rd8_st_other. rewrite pme_nbytes_bytes.
      intros Hr. apply Hno. left. by apply Hent.
Qed.

Lemma insert_pmeo_alloc_ok m T l o va :
  inv m T l -> pmeo_t o = t -> lvl_ok t (pmeo_lvl o) -> is_u 64 (pmeo_pme o) ->
  descends t (pmeo_lvl o) (pmeo_pme o) = false ->
  exists rc m' T' l', hptw_insert_pmeo_alloc ctx o va m = Ok (rc, m') /\ inv m' T' l' /\
    ((rc = 0 /\ inserted m T l (pmeo_lvl o) va (pmeo_pme o) m' T' l') \/
     (rc = 1 /\ blocked m va (pmeo_lvl o) l /\ grows m T l m' T' l')).
Proof.
  intros Hi Hot Hlvl He Hd. unfold hptw_insert_pmeo_alloc.
  destruct (get_pmo_alloc_ok m T l (pmeo_lvl o) va Hi Hlvl)
    as (rc & m1 & T1 & l1 & pmo & E & Hi1 & Hg & [(-> & p & -> & Hpath & Hlen)|(-> & Hb)]);
    rewrite E; cbn.
  2: { exists 1, m1, T1, l1. split; [done|]. split; [done|]. by right. }
  pose proof (inv_tree _ _ _ Hi1) as Ht1.
  pose proof (path_tree _ _ _ _ _ _ _ Ht1 (root_table m1 T1 va Ht1) Hpath) as Hp.
  destruct (tree_ok _ _ _ _ _ Ht1 _ _ _ Hp) as [_ Hok].
  pose proof (wc_nonnull _ _ Hok). destruct (Z.eqb_spec p 0); [done|].
  rewrite Z.eqb_refl. cbn. rewrite hpt_pmo_set_pme_by_va_ok by done. cbn.
  destruct (insert_store m1 T1 l1 (pmeo_lvl o) va p (pmeo_pme o)) as [Hi2 Hins]; [done..|].
  eexists _, _, T1, l1. split; [done|]. split; [done|]. left. split; [done|].
  destruct Hins as [I1 I2 I3 I4 IL I5 I6]. destruct Hg as [G1 G2 GL G3 G4 G5]. constructor.
  - intros va'. rewrite I1. case_decide; [done|]. apply G1.
  - unfold missing in *.
    assert (depth (rwalk va m1) <= pmeo_lvl o) by (by apply (path_depth m1 T1 va va _ p)). lia.
  - intros va' Hne. specialize (I3 va' Hne). specialize (G2 va'). lia.
  - done.
  - intros va' Hne. apply (leaf_kept_trans _ (rwalk va' m1)); auto.
  - auto.
  - intros a Ha. rewrite I6 by auto. by apply G5.
Qed.
End insert.
#[global] Arguments inv ctx ok free meta m T l : clear implicits.
