(* ===== verification/Ept.v ===== *)
(** [src/shv-ept.c]: memory types from the MTRRs, and the EPT of a virtual CPU.

    The addresses of the static arrays are chosen by the linker, so they are a
    record of parameters; the arrays themselves are in memory.  [cpuid],
    [rdmsr64] and [invept] are the processor.  The log lines are not modelled. *)
From S2P Require Import Prelude Bitfield HptConsts Hpt HptLemmas Mem LibcString Hpto.
From S2P Require Import Hptw.

(** ** Constants *)

Definition MTRR_TYPE_UC : Z := 0.
Definition MTRR_TYPE_WC : Z := 1.
Definition MTRR_TYPE_WT : Z := 4.
Definition MTRR_TYPE_WP : Z := 5.
Definition MTRR_TYPE_WB : Z := 6.
Definition MTRR_TYPE_RESV : Z := 7.
Definition NUM_FIXED_MTRRS : Z := 11.
Definition MAX_VARIABLE_MTRR_PAIRS : Z := 10.
Definition IA32_MTRRCAP : Z := 0xfe.
Definition IA32_MTRR_DEF_TYPE : Z := 0x2ff.
Definition IA32_MTRR_PHYSBASE0 : Z := 0x200.
Definition IA32_MTRR_PHYSMASK0 : Z := 0x201.
Definition EPT_POOL_SIZE : Z := 128.
Definition SHV_EPT_COUNT : Z := 2.
Definition MAX_VCPU_ENTRIES : Z := 10.
Definition PAGE_SIZE_4K : Z := 0x1000.
Definition PA_PAGE_SIZE_2M : Z := 0x200000.
Definition VMX_INVEPT_SINGLECONTEXT : Z := 1.
Definition SHV_USE_LARGE_PAGE : Z := 0x100.

(** [(x & ~(size - 1)) == x] *)
Definition PA_PAGE_ALIGNED_2M (x : Z) : bool :=
  Z.land x (bnot 64 (PA_PAGE_SIZE_2M - 1)) =? x.

(** ** State *)

(** The fields of [VCPU] this file uses. *)
Record ept_vcpu := EptVcpu {
  v_idx : Z;
  vmx_ept_defaulttype : Z;
  vmx_ept_fixmtrr_support : bool;
  vmx_ept_mtrr_enable : bool;
  vmx_ept_fixmtrr_enable : bool;
  vmx_ept_paddrmask : Z;
  mtrr_def_type : Z;
  fix_mtrrs : list Z;
  var_count : Z;
  var_mtrrs : list (Z * Z) }.      (* base, mask *)

(** [struct _fixed_mtrr_prop_t]: MSR, start, step, end. *)
Record fixed_mtrr_prop_t := FixedMtrr { fm_msr : Z; fm_start : Z; fm_step : Z; fm_end : Z }.

Definition fixed_mtrr_prop : list fixed_mtrr_prop_t :=
  [ FixedMtrr 0x250 0x00000000 0x00010000 0x00080000;
    FixedMtrr 0x258 0x00080000 0x00004000 0x000A0000;
    FixedMtrr 0x259 0x000A0000 0x00004000 0x000C0000;
    FixedMtrr 0x268 0x000C0000 0x00001000 0x000C8000;
    FixedMtrr 0x269 0x000C8000 0x00001000 0x000D0000;
    FixedMtrr 0x26a 0x000D0000 0x00001000 0x000D8000;
    FixedMtrr 0x26b 0x000D8000 0x00001000 0x000E0000;
    FixedMtrr 0x26c 0x000E0000 0x00001000 0x000E8000;
    FixedMtrr 0x26d 0x000E8000 0x00001000 0x000F0000;
    FixedMtrr 0x26e 0x000F0000 0x00001000 0x000F8000;
    FixedMtrr 0x26f 0x000F8000 0x00001000 0x00100000 ].

(** Where the linker put the objects of this file. *)
Record ept_syms := EptSyms {
  s_ept_low : Z; s_ept_high : Z;
  s_ept_valid : Z; s_ept_root : Z; s_ept_pool : Z; s_ept_alloc : Z;
  s_ept_target : Z; s_large_pages : Z }.

(** Addresses of the elements of the static arrays. *)
Definition ept_valid_at (s : ept_syms) (idx n : Z) : Z :=
  s_ept_valid s + (idx * SHV_EPT_COUNT + n).
Definition ept_root_at (s : ept_syms) (idx n : Z) : Z :=
  s_ept_root s + (idx * SHV_EPT_COUNT + n) * PAGE_SIZE_4K.
Definition ept_pool_at (s : ept_syms) (idx n : Z) : Z :=
  s_ept_pool s + (idx * SHV_EPT_COUNT + n) * EPT_POOL_SIZE * PAGE_SIZE_4K.
Definition ept_alloc_at (s : ept_syms) (idx n : Z) : Z :=
  s_ept_alloc s + (idx * SHV_EPT_COUNT + n) * EPT_POOL_SIZE.
Definition ept_target_at (s : ept_syms) (k : Z) : Z := s_ept_target s + k * PAGE_SIZE_4K.
Definition large_pages_at (s : ept_syms) (k : Z) : Z := s_large_pages s + k * PA_PAGE_SIZE_2M.

(** ** Callbacks of the page table walker *)

Section callbacks.
Context (a : subarch).

Definition hva2spa (hva : Z) : Z := u64 (wrap (ptr_bits a) hva).
Definition spa2hva (spa : Z) : Z := wrap (ptr_bits a) spa.

(** The [for] loop; [k] is [EPT_POOL_SIZE - i]. *)
Fixpoint gzp_loop (k : nat) (i pool alloc : Z) (m : mem) : Z * mem :=
  match k with
  | O => (0, m)
  | S k =>
      if negb (truth (ld8 m (alloc + i)))
      then (pool + i * PAGE_SIZE_4K, st8 m (alloc + i) 1)
      else gzp_loop k (i + 1) pool alloc m
  end.

Definition shv_ept_gzp (pool alloc alignment sz : Z) (m : mem) : res (Z * mem) :=
  ASSERT (alignment =? PAGE_SIZE_4K) ;;
  ASSERT (sz =? PAGE_SIZE_4K) ;;
  Ok (gzp_loop (Z.to_nat EPT_POOL_SIZE) 0 pool alloc m).

Definition shv_ept_ptr2pa (ptr : Z) : res Z := Ok (hva2spa ptr).

Definition shv_ept_pa2ptr (spa sz access_type cpl : Z) : res (Z * Z) := Ok (spa2hva spa, sz).

(** [shv_ept_ctx_t] as [shv_build_ept] fills it in. *)
Definition shv_ept_ctx (root_pa page_pool page_alloc : Z) : hptw_ctx_t :=
  HptwCtx (shv_ept_gzp page_pool page_alloc) shv_ept_pa2ptr shv_ept_ptr2pa root_pa HPT_TYPE_EPT.
End callbacks.

(** ** Memory types *)

(** The loop over the fixed range registers, from index [i]. *)
Fixpoint fixed_loop (props : list fixed_mtrr_prop_t) (i : nat) (vcpu : ept_vcpu) (pagebaseaddr : Z)
  : res Z :=
  match props with
  | [] => Err Halt (* "Unknown fixed MTRR" *)
  | prop :: props =>
      if pagebaseaddr <? fm_end prop then
        (* u64 subtraction and division, stored in a u32 *)
        let index := u32 (u64 (fm_start prop - pagebaseaddr) / fm_step prop) in
        match fix_mtrrs vcpu !! i with
        | None => Err Undef
        | Some msrval => u8 <$> shr 64 msrval (u32 (index * 8))
        end
      else fixed_loop props (S i) vcpu pagebaseaddr
  end.

(** One turn of the loop over the variable range registers. *)
Definition var_step (pagebaseaddr prev_type base mask : Z) : res Z :=
  let cur_type := Z.land base 0xff in
  if negb (truth (Z.land mask (Z.shiftl 1 11))) then Ok prev_type
  else
    let base := Z.land base (bnot 64 0xfff) in
    let mask := Z.land mask (bnot 64 0xfff) in
    if negb (Z.land pagebaseaddr mask =? Z.land base mask) then Ok prev_type
    else if (prev_type =? MTRR_TYPE_RESV) || (prev_type =? cur_type) then Ok cur_type
    else if (prev_type =? MTRR_TYPE_UC) || (cur_type =? MTRR_TYPE_UC) then Ok MTRR_TYPE_UC
    else if (prev_type =? MTRR_TYPE_WB) && (cur_type =? MTRR_TYPE_WT) then Ok MTRR_TYPE_WT
    else if (prev_type =? MTRR_TYPE_WT) && (cur_type =? MTRR_TYPE_WB) then Ok MTRR_TYPE_WT
    else Err Halt.

(** [k] is [var_count - i]. *)
Fixpoint var_loop (k : nat) (i : nat) (vcpu : ept_vcpu) (pagebaseaddr prev_type : Z) : res Z :=
  match k with
  | O => Ok prev_type
  | S k =>
      match var_mtrrs vcpu !! i with
      | None => Err Undef
      | Some (base, mask) =>
          prev_type ← var_step pagebaseaddr prev_type base mask;
          var_loop k (S i) vcpu pagebaseaddr prev_type
      end
  end.

Definition ept_get_mem_type (vcpu : ept_vcpu) (pagebaseaddr : Z) : res Z :=
  if negb (vmx_ept_mtrr_enable vcpu) then Ok MTRR_TYPE_UC
  else if (pagebaseaddr <? 0x100000) && vmx_ept_fixmtrr_enable vcpu
  then fixed_loop fixed_mtrr_prop 0 vcpu pagebaseaddr
  else
    prev_type ← var_loop (Z.to_nat (var_count vcpu)) 0 vcpu pagebaseaddr MTRR_TYPE_RESV;
    let prev_type := if prev_type =? MTRR_TYPE_RESV then vmx_ept_defaulttype vcpu else prev_type in
    Ok (u8 prev_type).

(** ** Mapping *)

(** The loop of [ept_map_continuous_addr]; the entry object is the caller's. *)
Fixpoint ept_map_loop (fuel : nat) (vcpu : ept_vcpu) (ctx : hptw_ctx_t) (paddr high : Z)
    (pmeo : hpt_pmeo_t) (m : mem) : res (hpt_pmeo_t * mem) :=
  match fuel with
  | O => Err NoFuel
  | S fuel =>
      if paddr <? high then
        mt ← ept_get_mem_type vcpu paddr;
        pmeo ← hpt_pmeo_setcache pmeo mt;
        pmeo ← hpt_pmeo_set_address pmeo paddr;
        '(rc, m) ← hptw_insert_pmeo_alloc ctx pmeo paddr m;
        ASSERT (rc =? 0) ;;
        ept_map_loop fuel vcpu ctx (u64 (paddr + PAGE_SIZE_4K)) high pmeo m
      else Ok (pmeo, m)
  end.
Definition ept_map_continuous_addr (vcpu : ept_vcpu) (ctx : hptw_ctx_t) (pmeo : hpt_pmeo_t)
    (low high : Z) (m : mem) : res (hpt_pmeo_t * mem) :=
  ept_map_loop (S (Z.to_nat ((high - low + PAGE_SIZE_4K - 1) / PAGE_SIZE_4K)))
    vcpu ctx low high pmeo m.

(** ** [shv_ept_init] *)

Section init.
Context (cpuid_eax : Z -> Z) (rdmsr64 : Z -> Z).

(** [for (i = 0; i < NUM_FIXED_MTRRS; i++)] reading the MSR of each range. *)
Definition read_fixed (old : list Z) : list Z :=
  foldl (fun l ip => <[ip.1 := u64 (rdmsr64 (fm_msr ip.2))]> l) old
    (imap (fun i p => (i, p)) fixed_mtrr_prop).
(** [for (i = 0; i < var_count; i++)]; [k] is [var_count - i]. *)
Fixpoint read_var (k : nat) (i : Z) (l : list (Z * Z)) : list (Z * Z) :=
  match k with
  | O => l
  | S k =>
      let baseval := u64 (rdmsr64 (u32 (IA32_MTRR_PHYSBASE0 + 2 * i))) in
      let maskval := u64 (rdmsr64 (u32 (IA32_MTRR_PHYSMASK0 + 2 * i))) in
      read_var k (i + 1) (<[Z.to_nat i := (baseval, maskval)]> l)
  end.

Definition shv_ept_init (vcpu : ept_vcpu) : res ept_vcpu :=
  let eax := u32 (cpuid_eax 0x80000000) in
  ASSERT (0x80000008 <=? eax) ;;
  let eax := Z.land (u32 (cpuid_eax 0x80000008)) 0xff in
  ASSERT ((32 <=? eax) && (eax <? 64)) ;;
  bit ← shl 64 1 eax;
  let paddrmask := u64 (bit - 0x1000) in
  let cap := u64 (rdmsr64 IA32_MTRRCAP) in
  let count := u8 cap in
  let support := truth (Z.land cap (Z.shiftl 1 8)) in
  ASSERT (count <=? MAX_VARIABLE_MTRR_PAIRS) ;;
  let def := u64 (rdmsr64 IA32_MTRR_DEF_TYPE) in
  let enable := truth (Z.land def 0x800) in
  let fixenable := truth (Z.land def 0x400) in
  ASSERT (support || negb fixenable) ;;
  let fixed := if support then read_fixed (fix_mtrrs vcpu) else fix_mtrrs vcpu in
  let vars := read_var (Z.to_nat count) 0 (var_mtrrs vcpu) in
  Ok (EptVcpu (v_idx vcpu) (Z.land def 0xff) support enable fixenable paddrmask def fixed
        count vars).
End init.

(** ** [shv_build_ept] *)

Section build.
Context (a : subarch) (s : ept_syms) (invept : Z -> Z -> bool) (g_shv_opt : Z).

(** The identity mapping, when the EPT is built for the first time. *)
Definition build_identity (vcpu : ept_vcpu) (ctx : hptw_ctx_t) (pmeo : hpt_pmeo_t) (m : mem)
  : res (hpt_pmeo_t * mem) :=
  '(pmeo, m) ← ept_map_continuous_addr vcpu ctx pmeo (s_ept_low s) (s_ept_high s) m;
  '(pmeo, m) ← ept_map_continuous_addr vcpu ctx pmeo 0xfee00000 0xfee01000 m;
  '(pmeo, m) ← ept_map_continuous_addr vcpu ctx pmeo 0x000b8000 0x000b9000 m;
  ept_map_continuous_addr vcpu ctx pmeo 0x00000000 0x00100000 m.

(** "Map 0x12340000 to ept_target" *)
Definition build_target (ept_num : Z) (ctx : hptw_ctx_t) (pmeo : hpt_pmeo_t) (m : mem)
  : res (hpt_pmeo_t * mem) :=
  let m := (memset (ept_target_at s ept_num) ept_num 16 m).2 in
  pmeo ← (if truth ept_num then
            pmeo ← hpt_pmeo_setcache pmeo HPT_PMT_WB;
            hpt_pmeo_set_address pmeo (hva2spa a (ept_target_at s ept_num))
          else Ok (with_pme pmeo 0));
  '(rc, m) ← hptw_insert_pmeo_alloc ctx pmeo 0x12340000 m;
  ASSERT (rc =? 0) ;;
  Ok (pmeo, m).

(** "Swap large_pages using 2M pages" *)
Definition build_large (ctx : hptw_ctx_t) (m : mem) : res mem :=
  let addr0 := hva2spa a (large_pages_at s 0) in
  let addr1 := hva2spa a (large_pages_at s 1) in
  ASSERT (PA_PAGE_ALIGNED_2M addr0) ;;
  ASSERT (PA_PAGE_ALIGNED_2M addr1) ;;
  pmeo ← hpt_pmeo_set_page (HptPmeo 0 HPT_TYPE_EPT 2) true;
  pmeo ← hpt_pmeo_setuser pmeo true;
  pmeo ← hpt_pmeo_setprot pmeo HPT_PROTS_RWX;
  pmeo ← hpt_pmeo_setcache pmeo HPT_PMT_WB;
  pmeo ← hpt_pmeo_set_address pmeo addr0;
  '(rc, m) ← hptw_insert_pmeo_alloc ctx pmeo addr1 m;
  ASSERT (rc =? 0) ;;
  pmeo ← hpt_pmeo_set_address pmeo addr1;
  '(rc, m) ← hptw_insert_pmeo_alloc ctx pmeo addr0 m;
  ASSERT (rc =? 0) ;;
  let m := (memset (large_pages_at s 0) 65 16 m).2 in
  Ok (memset (large_pages_at s 1) 66 16 m).2.

(** Undefined for an index outside one of the static arrays. *)
Definition build_ctx (idx ept_num : Z) : res hptw_ctx_t :=
  let n := Z.shiftr ept_num 4 in
  if (0 <=? idx) && (idx <? MAX_VCPU_ENTRIES) && (0 <=? n) && (n <? SHV_EPT_COUNT) then
    Ok (shv_ept_ctx a (hva2spa a (ept_root_at s idx n)) (ept_pool_at s idx n)
          (ept_alloc_at s idx n))
  else Err Undef.

Definition shv_build_ept (vcpu : ept_vcpu) (ept_num : Z) (m : mem) : res (Z * mem) :=
  ctx ← build_ctx (v_idx vcpu) ept_num;
  let valid := ept_valid_at s (v_idx vcpu) (Z.shiftr ept_num 4) in
  pmeo ← hpt_pmeo_setuser (HptPmeo 0 HPT_TYPE_EPT 1) true;
  pmeo ← hpt_pmeo_setprot pmeo HPT_PROTS_RWX;
  '(pmeo, m) ←
    (if negb (truth (ld8 m valid)) then build_identity vcpu ctx pmeo (st8 m valid 1)
     else ASSERT (invept VMX_INVEPT_SINGLECONTEXT (Z.lor (ctx_root_pa ctx) 0x1e)) ;;
          Ok (pmeo, m));
  '(pmeo, m) ← build_target ept_num ctx pmeo m;
  m ← (if truth (Z.land g_shv_opt SHV_USE_LARGE_PAGE) then build_large ctx m else Ok m);
  Ok (ctx_root_pa ctx, m).
End build.
