(* ===== verification/EptCtx.v ===== *)
(** The context [shv_build_ept] hands to the page table walker satisfies the
    interface the walker's theorems need, whenever the linker put the page pool
    and the allocation bytes at sensible addresses. *)
From S2P Require Import Prelude Bitfield HptConsts Hpt HptLemmas Mem LibcString Hpto.
From S2P Require Import Hptw Walk HptwProofs HptwInsert Ept.

Lemma list_filter_iff_in {A} (P1 P2 : A -> Prop) `{!forall x, Decision (P1 x), !forall x, Decision (P2 x)}
    (l : list A) :
  (forall x, x ∈ l -> P1 x <-> P2 x) -> filter P1 l = filter P2 l.
Proof.
  induction l as [|x l IH]; intros Hiff; [done|]. rewrite !filter_cons.
  rewrite IH by (intros y Hy; apply Hiff; by right).
  specialize (Hiff x ltac:(by left)). repeat case_decide; tauto || done.
Qed.

(** Addresses the walker can use on this configuration. *)
Definition ept_ok (a : subarch) (lvl p : Z) : Prop := 0 < p < 2 ^ ptr_bits a.

(** What is needed of the page pool and the allocation bytes. *)
Record pool_ok (a : subarch) (pool alloc : Z) : Prop := {
  pool_pos : 0 < pool;
  pool_aligned : pool mod 4096 = 0;
  pool_end : pool + EPT_POOL_SIZE * 4096 <= 2 ^ Z.min 48 (ptr_bits a);
  pool_alloc : alloc + EPT_POOL_SIZE <= pool \/ pool + EPT_POOL_SIZE * 4096 <= alloc }.

(** The free pages: those whose allocation byte is zero, in index order. *)
Definition ept_free (pool alloc : Z) (m : mem) (l : list Z) : Prop :=
  l = (fun j => pool + j * PAGE_SIZE_4K) <$> filter (fun j => rd8 m (alloc + j) = 0) (seqZ 0 EPT_POOL_SIZE).
Definition ept_meta (alloc : Z) : Z -> Prop := in_range alloc EPT_POOL_SIZE.

Section ctx.
Context (a : subarch) (root pool alloc : Z).
Abbreviation ctx := (shv_ept_ctx a root pool alloc).

Lemma ptr_bits_range : 32 <= ptr_bits a <= 64.
Proof. destruct a; cbn; lia. Qed.

#[export] Instance shv_ept_walk_ctx : WalkCtx ctx (ept_ok a).
Proof.
  constructor.
  - done.
  - intros lvl p prot [Hp1 Hp2]. cbn. unfold shv_ept_pa2ptr, spa2hva.
    by rewrite wrap_small by (unfold is_u; lia).
  - intros lvl p [? _]. lia.
Qed.

(** The loop finds the first zero byte. *)
Lemma gzp_loop_spec k i m :
  gzp_loop k i pool alloc m =
  match filter (fun j => rd8 m (alloc + j) = 0) (seqZ i (Z.of_nat k)) with
  | [] => (0, m)
  | j :: _ => (pool + j * PAGE_SIZE_4K, st8 m (alloc + j) 1)
  end.
Proof.
  revert i. induction k as [|k IH]; intros i; [done|].
  cbn [gzp_loop]. rewrite seqZ_cons by lia.
  replace (Z.succ i) with (i + 1) by lia. replace (Z.pred (Z.of_nat (S k))) with (Z.of_nat k) by lia.
  unfold ld8, truth. cbn [ld]. rewrite Z.mul_0_r, Z.add_0_r, filter_cons.
  destruct (Z.eqb_spec (rd8 m (alloc + i)) 0) as [E|E]; cbn [negb].
  - by rewrite decide_True.
  - rewrite decide_False by done. apply IH.
Qed.

Hypothesis Hpool : pool_ok a pool alloc.

Lemma free_elem m l p :
  ept_free pool alloc m l -> p ∈ l ->
  exists j, 0 <= j < EPT_POOL_SIZE /\ p = pool + j * 4096 /\ rd8 m (alloc + j) = 0.
Proof.
  intros -> (j & -> & Hj)%list_elem_of_fmap. apply list_elem_of_filter in Hj as [Hz Hj].
  apply elem_of_seqZ in Hj. exists j. split; [lia|done].
Qed.

Lemma pool_page_range j :
  0 <= j < EPT_POOL_SIZE ->
  0 < pool + j * 4096 /\ pool + j * 4096 + 4096 <= 2 ^ 48 /\ pool + j * 4096 < 2 ^ ptr_bits a.
Proof.
  intros Hj. destruct Hpool as [H1 H2 H3 H4]. unfold EPT_POOL_SIZE in *.
  assert (2 ^ Z.min 48 (ptr_bits a) <= 2 ^ 48) by (apply Z.pow_le_mono_r; lia).
  assert (2 ^ Z.min 48 (ptr_bits a) <= 2 ^ ptr_bits a) by (apply Z.pow_le_mono_r; lia).
  lia.
Qed.

#[export] Instance shv_ept_alloc_ctx :
  AllocCtx ctx (ept_ok a) (ept_free pool alloc) (ept_meta alloc).
Proof.
  constructor.
  - intros m p l Hf. exists (st8 m (alloc + (p - pool) / 4096) 1).
    unfold ept_free in *.
    destruct (filter _ _) as [|j js] eqn:E; [done|]. cbn in Hf. injection Hf as -> ->.
    assert (j ∈ filter (fun j => rd8 m (alloc + j) = 0) (seqZ 0 EPT_POOL_SIZE)) as Hj
      by (rewrite E; by left).
    apply list_elem_of_filter in Hj as [Hz Hj]. apply elem_of_seqZ in Hj.
    replace ((pool + j * PAGE_SIZE_4K - pool) / 4096) with j.
    2: { unfold PAGE_SIZE_4K. replace (pool + j * 4096 - pool) with (j * 4096) by lia.
         by rewrite Z.div_mul by lia. }
    split; [|split].
    + cbn. unfold shv_ept_gzp. cbn -[gzp_loop]. rewrite gzp_loop_spec. change (Z.of_nat _) with EPT_POOL_SIZE.
      by rewrite E.
    + f_equal.
      assert (forall x, rd8 (st8 m (alloc + j) 1) (alloc + x) = 0 <->
                        rd8 m (alloc + x) = 0 /\ x <> j) as Hrd.
      { intros x. unfold st8. cbn [st]. rewrite rd8_wr8. bcase.
        - assert (x = j) as -> by lia. split; [done|by intros []].
        - assert (x <> j) by (intros ->; lia). tauto. }
      revert E. pose proof (NoDup_seqZ 0 EPT_POOL_SIZE) as Hnd. revert Hnd.
      generalize (seqZ 0 EPT_POOL_SIZE) as s. clear -Hrd.
      intros s Hnd E.
      assert (filter (fun x => rd8 (st8 m (alloc + j) 1) (alloc + x) = 0) s =
              filter (fun x => x <> j) (filter (fun x => rd8 m (alloc + x) = 0) s)) as ->.
      { rewrite list_filter_filter. apply list_filter_iff. intros x. rewrite Hrd. tauto. }
      rewrite E. rewrite filter_cons, decide_False by tauto.
      assert (NoDup (j :: js)) as Hjs by (rewrite <- E; by apply NoDup_filter).
      apply NoDup_cons in Hjs as [Hnin _]. symmetry. clear -Hnin.
      induction js as [|x js IH]; [done|]. rewrite filter_cons, decide_True.
      * f_equal. apply IH. intros H. apply Hnin. by right.
      * intros ->. apply Hnin. by left.
    + apply agree_st. intros b Hb Hnm. apply Hnm. unfold ept_meta, in_range in *. lia.
  - intros m Hf. unfold ept_free in Hf. symmetry in Hf. apply fmap_nil_inv in Hf.
    cbn. unfold shv_ept_gzp. cbn -[gzp_loop]. rewrite gzp_loop_spec.
    change (Z.of_nat _) with EPT_POOL_SIZE. by rewrite Hf.
  - intros m m' l Ha ->. unfold ept_free. f_equal. apply list_filter_iff_in.
    intros j Hj. apply elem_of_seqZ in Hj. rewrite Ha; [done|].
    unfold ept_meta, in_range. lia.
  - intros m l ->. apply NoDup_fmap_2; [intros x y; unfold PAGE_SIZE_4K; lia|].
    apply NoDup_filter, NoDup_seqZ.
  - intros m l p Hf Hp. destruct (free_elem m l p Hf Hp) as (j & Hj & -> & _).
    destruct Hpool as [_ H2 _ _]. by rewrite Z.mod_add by lia.
  - intros m l p Hf Hp. destruct (free_elem m l p Hf Hp) as (j & Hj & -> & _).
    pose proof (pool_page_range j Hj). cbn [ctx_t shv_ept_ctx addr_hi].
    change (2 ^ (51 + 1)) with (2 ^ 52). lia.
  - intros m l p b Hf Hp Hb Hm. destruct (free_elem m l p Hf Hp) as (j & Hj & -> & _).
    destruct Hpool as [_ _ _ H4]. unfold ept_meta, in_range, EPT_POOL_SIZE in *. lia.
  - intros m l p Hf Hp. destruct (free_elem m l p Hf Hp) as (j & Hj & -> & _).
    pose proof (pool_page_range j Hj). pose proof ptr_bits_range. cbn.
    unfold shv_ept_ptr2pa, hva2spa, u64.
    rewrite (wrap_small (ptr_bits a)) by (unfold is_u; lia).
    rewrite wrap_small; [done|]. unfold is_u. lia.
  - intros m l p lvl Hf Hp _. destruct (free_elem m l p Hf Hp) as (j & Hj & -> & _).
    pose proof (pool_page_range j Hj). unfold ept_ok. lia.
Qed.
End ctx.
