(* ===== verification/EptMap.v ===== *)
(** [ept_map_continuous_addr] builds an identity map of its range, and the parts
    of [shv_build_ept] composed from it. *)
From S2P Require Import Prelude Bitfield HptConsts Hpt HptLemmas Mem LibcString Hpto.
From S2P Require Import Hptw Walk HptwProofs HptwInsert Ept EptCtx.

Abbreviation EPT := HPT_TYPE_EPT.

(** The leaf of [va], field by field: level, page address and memory type;
    permissions are always read, write, execute. *)
Definition maps_as (root va : Z) (m : mem) (x : option (Z * Z * Z)) : Prop :=
  match x with
  | None => mapping EPT root va m = None
  | Some (lvl, pa, mt) =>
      exists e, mapping EPT root va m = Some (lvl, e) /\
                view EPT lvl e = PmeView true pa HPT_PROTS_RWX true mt
  end.

Definition page_of (va : Z) : Z := va - va mod 4096.
Definition mt_of (vcpu : ept_vcpu) (p : Z) : Z :=
  match ept_get_mem_type vcpu p with Ok mt => mt | Err _ => 0 end.

(** The memory type of every page of a range is defined and fits in an entry. *)
Definition types_ok (vcpu : ept_vcpu) (low high : Z) : Prop :=
  forall p, low <= p < high -> p mod 4096 = 0 -> exists mt, ept_get_mem_type vcpu p = Ok mt /\ is_u 3 mt.

(** ** The entry object that is inserted over and over *)

Record leaf_obj (lvl : Z) (o : hpt_pmeo_t) (pa mt : Z) : Prop := {
  leaf_t : pmeo_t o = EPT;
  leaf_lvl : pmeo_lvl o = lvl;
  leaf_u64 : is_u 64 (pmeo_pme o);
  leaf_view : view EPT lvl (pmeo_pme o) = PmeView true pa HPT_PROTS_RWX true mt }.

Lemma leaf_setcache lvl o pa mt0 mt :
  1 <= lvl <= 3 -> leaf_obj lvl o pa mt0 -> is_u 3 mt ->
  exists o', hpt_pmeo_setcache o mt = Ok o' /\ leaf_obj lvl o' pa mt.
Proof.
  intros Hl [H1 H2 H3 H4] Hmt. unfold hpt_pmeo_setcache. rewrite H1, H2.
  pose proof H4 as V. unfold view in V. injection V as Vp Va Vr _.
  destruct (view_set_pmt EPT lvl (pmeo_pme o) mt) as (v & -> & [Hv _] & W);
    [unfold lvl_ok; cbn; lia|done|done|intros _; split; [lia|done]|].
  eexists. split; [reflexivity|]. constructor; try done. cbn. rewrite W.
  by rewrite Vp, Va, Vr.
Qed.

Lemma leaf_set_address lvl o pa mt p :
  1 <= lvl <= 3 -> leaf_obj lvl o pa mt -> 0 <= p < 2 ^ 52 -> p mod 4096 = 0 ->
  exists o', hpt_pmeo_set_address o p = Ok o' /\ leaf_obj lvl o' p mt.
Proof.
  intros Hl [H1 H2 H3 H4] Hp Hal. unfold hpt_pmeo_set_address. rewrite H1, H2.
  pose proof H4 as V. unfold view in V. injection V as Vp Va Vr Vm.
  destruct (view_set_address EPT lvl (pmeo_pme o) p) as (v & -> & [Hv _] & W);
    [unfold lvl_ok; cbn; lia|done|done|].
  eexists. split; [reflexivity|]. constructor; try done. cbn. rewrite W.
  rewrite Vp, Vr. unfold pme_mt. cbn in Vm. rewrite Vm. f_equal.
  by apply (ins64_addr p 51).
Qed.

Lemma leaf_not_table lvl o pa mt : leaf_obj lvl o pa mt -> descends EPT lvl (pmeo_pme o) = false.
Proof.
  intros [H1 H2 H3 H4]. unfold view in H4. injection H4 as Hp _ _ _. unfold descends. by rewrite Hp, andb_false_r.
Qed.

Lemma leaf_present lvl o pa mt : leaf_obj lvl o pa mt -> pme_present EPT (pmeo_pme o) = true.
Proof.
  intros [H1 H2 H3 H4]. unfold view in H4. injection H4 as _ _ Hr _. by apply (present_of_prot EPT lvl).
Qed.

(** ** Addresses *)

Lemma va_norm_small va : 0 <= va < 2 ^ 48 -> va_norm EPT va = va.
Proof. intros. apply wrap_small. done. Qed.

Lemma pfx_ept lvl va :
  0 <= va < 2 ^ 48 -> 0 <= lvl <= 4 -> pfx EPT lvl va = va / 2 ^ (12 + 9 * lvl).
Proof.
  intros Hva Hl. unfold pfx, region. rewrite va_norm_small by done.
  rewrite Z.shiftr_div_pow2.
  2: { assert (lvl = 0 \/ lvl = 1 \/ lvl = 2 \/ lvl = 3 \/ lvl = 4) as C by lia.
       destruct C as [->|[->|[->|[->| ->]]]]; vm_compute; congruence. }
  f_equal. assert (lvl = 0 \/ lvl = 1 \/ lvl = 2 \/ lvl = 3 \/ lvl = 4) as C by lia.
  by destruct C as [->|[->|[->|[->| ->]]]].
Qed.

Lemma same_page va va' :
  0 <= va < 2 ^ 48 -> 0 <= va' < 2 ^ 48 -> same_region EPT 1 va va' <-> va' / 4096 = va / 4096.
Proof. intros. unfold same_region. by rewrite !pfx_ept. Qed.

Lemma same_2m va va' :
  0 <= va < 2 ^ 48 -> 0 <= va' < 2 ^ 48 ->
  same_region EPT 2 va va' <-> va' / 2 ^ 21 = va / 2 ^ 21.
Proof. intros. unfold same_region. by rewrite !pfx_ept. Qed.

Section map.
Context (a : subarch) (root pool alloc : Z) (vcpu : ept_vcpu).
Hypothesis Hpool : pool_ok a pool alloc.
Abbreviation ctx := (shv_ept_ctx a root pool alloc).
Abbreviation ept_inv := (inv ctx (ept_ok a) (ept_free pool alloc) (ept_meta alloc)).
Abbreviation ewalk va m := (walk EPT 4 root va m).
Abbreviation owned := (owned (ctx := ctx) (meta := ept_meta alloc)).
#[local] Existing Instance shv_ept_walk_ctx.
#[local] Instance map_alloc_ctx : AllocCtx ctx (ept_ok a) (ept_free pool alloc) (ept_meta alloc)
  := shv_ept_alloc_ctx a root pool alloc Hpool.

(** No entry above level [k] is a large page. *)
Definition no_page_above (k : Z) (m : mem) : Prop :=
  forall va, pme_page EPT (depth (ewalk va m)) (ewalk va m).2 = true -> depth (ewalk va m) <= k.

(** A state of the EPT under construction. *)
Record ept_state (k : Z) (m : mem) (T : tables) (l : list Z) : Prop := {
  es_inv : ept_inv m T l;
  es_pages : no_page_above k m }.

(** What remains true from one state to a later one. *)
Record ept_step (m : mem) (T : tables) (l : list Z) (m' : mem) (T' : tables) (l' : list Z) : Prop := {
  step_owned b : owned T' l' b -> owned T l b;
  step_frame : agree (fun b => ~ owned T l b) m m' }.

Lemma ept_step_refl m T l : ept_step m T l m T l.
Proof. by constructor. Qed.

Lemma ept_step_trans m1 T1 l1 m2 T2 l2 m3 T3 l3 :
  ept_step m1 T1 l1 m2 T2 l2 -> ept_step m2 T2 l2 m3 T3 l3 -> ept_step m1 T1 l1 m3 T3 l3.
Proof.
  intros [H1 H2] [H3 H4]. constructor; [auto|]. intros b Hb. rewrite H4 by auto. by apply H2.
Qed.

Lemma depth_ept m T l va : ept_inv m T l -> 1 <= depth (ewalk va m) <= 4.
Proof. intros Hi. apply (depth_ok m T va (inv_tree _ _ _ Hi)). Qed.

Lemma zero_not_page k : 1 < k -> pme_page EPT k 0 = false.
Proof. intros H. unfold pme_page. rewrite Z.bits_0, andb_false_r. by destruct (Z.eqb_spec k 1); [lia|]. Qed.

(** Inserting a leaf into a state in which nothing blocks it. *)
Lemma insert_ok k m T l o va :
  ept_state k m T l -> pmeo_t o = EPT -> 1 <= pmeo_lvl o <= 3 -> is_u 64 (pmeo_pme o) ->
  descends EPT (pmeo_lvl o) (pmeo_pme o) = false ->
  k <= pmeo_lvl o \/ depth (ewalk va m) <= pmeo_lvl o ->
  missing (ctx := ctx) m va (pmeo_lvl o) <= Z.of_nat (length l) ->
  exists m' T' l', hptw_insert_pmeo_alloc ctx o va m = Ok (0, m') /\
    ept_state (Z.max k (pmeo_lvl o)) m' T' l' /\
    inserted (ctx := ctx) (meta := ept_meta alloc) m T l (pmeo_lvl o) va (pmeo_pme o) m' T' l'.
Proof.
  intros [Hi Hn] Hot Hl He Hd Hk Hb.
  destruct (insert_pmeo_alloc_ok (ctx := ctx) m T l o va)
    as (rc & m' & T' & l' & E & Hi' & [[-> Hins]|(-> & [Hb1 Hb2] & _)]);
    [done|done|unfold lvl_ok; cbn; lia|done|done| |].
  - exists m', T', l'. split; [done|]. split; [|done]. constructor; [done|].
    intros va' Hp. pose proof (depth_ept m' T' l' va' Hi').
    destruct (decide (same_region EPT (pmeo_lvl o) va va')) as [Hs|Hs].
    + assert (pfx EPT (pmeo_lvl o) va' = pfx EPT (pmeo_lvl o) va) as Hs'.
      { assert (lvl_ok EPT (pmeo_lvl o)) as Hlo by (unfold lvl_ok; cbn; lia).
        by destruct (proj1 (pfx_step EPT (pmeo_lvl o) va' va Hlo) Hs). }
      pose proof (ins_reached _ _ _ _ _ _ _ _ _ Hins (pmeo_lvl o) va' ltac:(cbn; lia) Hs').
      cbn in *. lia.
    + destruct (ins_leaf _ _ _ _ _ _ _ _ _ Hins va' Hs) as [[E1 E2]|E0].
      * unfold depth in *. cbn in *. rewrite E1, E2 in Hp. rewrite E1.
        specialize (Hn va' Hp). unfold depth in Hn. lia.
      * cbn in *. rewrite E0 in Hp. destruct (decide (depth (ewalk va' m') = 1)); [lia|].
        rewrite zero_not_page in Hp by (unfold depth in *; lia). done.
  - exfalso. unfold missing in Hb. cbn in *. destruct Hb2 as [Hp|]; [|lia].
    apply Hn in Hp. lia.
Qed.

Lemma inserted_step m T l lvl va e m' T' l' :
  inserted (ctx := ctx) (meta := ept_meta alloc) m T l lvl va e m' T' l' -> ept_step m T l m' T' l'.
Proof. intros H. constructor; [apply (ins_owned _ _ _ _ _ _ _ _ _ H)|apply (ins_frame _ _ _ _ _ _ _ _ _ H)]. Qed.

(** *** The identity map of a range *)

(** Number of tables the range may still need. *)
Definition map_cost (m : mem) (low high : Z) : Z :=
  if low <? high
  then missing (ctx := ctx) m low 1 + 3 * ((high - 1) / 2 ^ 21 - low / 2 ^ 21) else 0.

Lemma ept_map_loop_ok high n :
  forall low m T l o pa0 mt0 fuel,
  0 <= low -> low mod 4096 = 0 -> high = low + 4096 * Z.of_nat n -> high <= 2 ^ 48 ->
  types_ok vcpu low high -> ept_state 1 m T l -> leaf_obj 1 o pa0 mt0 ->
  map_cost m low high <= Z.of_nat (length l) -> (n < fuel)%nat ->
  exists o' pa' mt' m' T' l', ept_map_loop fuel vcpu ctx low high o m = Ok (o', m') /\
    leaf_obj 1 o' pa' mt' /\ ept_state 1 m' T' l' /\ ept_step m T l m' T' l' /\
    Z.of_nat (length l) <= Z.of_nat (length l') + map_cost m low high /\
    (forall va, depth (ewalk va m') <= depth (ewalk va m)) /\
    forall va, 0 <= va < 2 ^ 48 ->
      if decide (low <= va < high)
      then maps_as root va m' (Some (1, page_of va, mt_of vcpu (page_of va)))
      else mapping EPT root va m' = mapping EPT root va m.
Proof.
  induction n as [|n IH]; intros low m T l o pa0 mt0 fuel H0 Hal Hh H48 Hty Hs Ho Hcost Hf;
    (destruct fuel as [|fuel]; [lia|]); cbn [ept_map_loop].
  { rewrite (proj2 (Z.ltb_ge low high)) by lia. exists o, pa0, mt0, m, T, l.
    split; [done|]. split; [done|]. split; [done|]. split; [apply ept_step_refl|].
    unfold map_cost. rewrite (proj2 (Z.ltb_ge low high)) by lia. split; [lia|]. split; [lia|].
    intros va Hva. rewrite decide_False by lia. done. }
  rewrite (proj2 (Z.ltb_lt low high)) by lia.
  destruct (Hty low ltac:(lia) Hal) as (mt & Emt & Hmt). rewrite Emt. cbn [mbind res_bind].
  destruct (leaf_setcache 1 o pa0 mt0 mt) as (o1 & -> & Ho1); [lia|done..|].
  cbn [mbind res_bind].
  destruct (leaf_set_address 1 o1 pa0 mt low) as (o2 & -> & Ho2); [lia|done|lia|done|].
  cbn [mbind res_bind].
  unfold map_cost in Hcost. rewrite (proj2 (Z.ltb_lt low high)) in Hcost by lia.
  assert (0 <= (high - 1) / 2 ^ 21 - low / 2 ^ 21)
    by (pose proof (Z.div_le_mono low (high - 1) (2 ^ 21)); lia).
  destruct (insert_ok 1 m T l o2 low) as (m1 & T1 & l1 & -> & Hs1 & Hins);
    rewrite ?(leaf_lvl _ _ _ _ Ho2); try (lia || done).
  { apply (leaf_t _ _ _ _ Ho2). }
  { apply (leaf_u64 _ _ _ _ Ho2). }
  { apply (leaf_not_table _ _ _ _ Ho2). }
  rewrite (leaf_lvl _ _ _ _ Ho2) in Hs1, Hins. cbn [mbind res_bind].
  change (Z.max 1 1) with 1 in Hs1. cbn -[ept_map_loop].
  assert (u64 (low + PAGE_SIZE_4K) = low + 4096) as ->
    by (apply wrap_small; unfold PAGE_SIZE_4K, is_u; lia).
  assert (forall va, depth (ewalk va m1) <= depth (ewalk va m)) as Hdep.
  { intros va. destruct (decide (same_region EPT 1 low va)) as [E|E].
    - assert (pfx EPT 1 va = pfx EPT 1 low) as E'.
      { assert (lvl_ok EPT 1) as Hlo by (unfold lvl_ok; cbn; lia).
        by destruct (proj1 (pfx_step EPT 1 va low Hlo) E). }
      pose proof (ins_reached _ _ _ _ _ _ _ _ _ Hins 1 va ltac:(cbn; lia) E').
      pose proof (depth_ept m T l va (es_inv _ _ _ _ Hs)). cbn in *. lia.
    - by apply (ins_depth _ _ _ _ _ _ _ _ _ Hins). }
  pose proof (ins_used _ _ _ _ _ _ _ _ _ Hins) as Hused.
(* what the rest may use *)
  assert (map_cost m1 (low + 4096) high <= 3 * ((high - 1) / 2 ^ 21 - low / 2 ^ 21)) as Hcost1.
  { unfold map_cost. destruct (Z.ltb_spec (low + 4096) high); [|lia].
    destruct (decide ((low + 4096) / 2 ^ 21 = low / 2 ^ 21)) as [E|E].
    - rewrite E.
      assert (pfx EPT 1 (low + 4096) = pfx EPT 1 low) as E'
        by (rewrite !pfx_ept by lia; done).
      pose proof (ins_reached _ _ _ _ _ _ _ _ _ Hins 1 (low + 4096) ltac:(cbn; lia) E').
      unfold missing. cbn in *. lia.
    - assert ((low + 4096) / 2 ^ 21 = low / 2 ^ 21 + 1) as ->.
      { pose proof (Z.div_le_mono low (low + 4096) (2 ^ 21)).
        pose proof (Z.div_le_mono (low + 4096) (low + 2 ^ 21) (2 ^ 21)).
        replace (low + 2 ^ 21) with (low + 1 * 2 ^ 21) in * by lia.
        rewrite Z.div_add in * by lia. lia. }
      pose proof (depth_ept m1 T1 l1 (low + 4096) (es_inv _ _ _ _ Hs1)).
      unfold missing. cbn in *. lia. }
  destruct (IH (low + 4096) m1 T1 l1 o2 low mt fuel)
    as (o' & pa' & mt' & m' & T' & l' & E & Ho' & Hs' & Hst' & Hlen & Hdep' & Hmap);
    [lia|by rewrite Z.add_mod, Hal by lia|lia|done| |done..|lia|lia|].
  { intros p Hp. apply Hty. lia. }
  exists o', pa', mt', m', T', l'. split; [done|]. split; [done|]. split; [done|].
  split; [apply (ept_step_trans m T l m1 T1 l1); [by eapply inserted_step|done]|].
  split; [unfold map_cost at 1; rewrite (proj2 (Z.ltb_lt low high)) by lia; lia|].
  split; [intros va; specialize (Hdep va); specialize (Hdep' va); lia|].
  intros va Hva. specialize (Hmap va Hva).
  assert (low <= va < low + 4096 <-> same_region EPT 1 low va) as Hpage.
  { rewrite same_page by lia. pose proof (Z.div_mod low 4096). pose proof (Z.div_mod va 4096).
    pose proof (Z.mod_pos_bound va 4096). lia. }
  destruct (decide (low + 4096 <= va < high)); [rewrite decide_True by lia; done|].
  pose proof (ins_mapping _ _ _ _ _ _ _ _ _ Hins va) as Hm1.
  destruct (decide (low <= va < high)) as [Hin|Hin].
  - unfold maps_as. rewrite Hmap. cbn [ctx_t ctx_root_pa shv_ept_ctx] in Hm1. rewrite decide_True in Hm1 by (apply Hpage; lia).
    rewrite (leaf_present _ _ _ _ Ho2) in Hm1. eexists. split; [exact Hm1|].
    rewrite view_trunc; [|unfold lvl_ok; cbn; lia|apply (leaf_u64 _ _ _ _ Ho2)].
    rewrite (leaf_view _ _ _ _ Ho2).
    assert (page_of va = low) as ->.
    { unfold page_of. pose proof (Z.div_mod low 4096). pose proof (Z.div_mod va 4096).
      assert (va / 4096 = low / 4096) by (apply same_page; [lia..|]; apply Hpage; lia). lia. }
    unfold mt_of. by rewrite Emt.
  - rewrite Hmap. cbn [ctx_t ctx_root_pa shv_ept_ctx] in Hm1. rewrite Hm1. rewrite decide_False; [done|].
    rewrite <- Hpage. lia.
Qed.
End map.
