(* ===== verification/EptBuild.v ===== *)
(** [shv_build_ept]: the first call builds the EPT, every later call only
    changes what the source says it changes. *)
From S2P Require Import Prelude Bitfield HptConsts Hpt HptLemmas Mem LibcString Hpto.
From S2P Require Import Hptw Walk HptwProofs HptwInsert Ept EptCtx EptMap.

(** ** Layout assumptions *)

Section build.
Context (a : subarch) (s : ept_syms) (invept : Z -> Z -> bool) (g_shv_opt : Z).
Context (vcpu : ept_vcpu) (ept_num : Z).
Abbreviation idx := (v_idx vcpu).
Abbreviation grp := (Z.shiftr ept_num 4).
Abbreviation root := (ept_root_at s idx grp).
Abbreviation pool := (ept_pool_at s idx grp).
Abbreviation alloc := (ept_alloc_at s idx grp).
Abbreviation valid := (ept_valid_at s idx grp).
Abbreviation target := (ept_target_at s ept_num).
Abbreviation large0 := (large_pages_at s 0).
Abbreviation large1 := (large_pages_at s 1).
Definition use_large : bool := truth (Z.land g_shv_opt SHV_USE_LARGE_PAGE).

(** The bytes of this EPT: root page, page pool, allocation bytes. *)
Definition arena (b : Z) : Prop :=
  in_range root 4096 b \/ in_range pool (EPT_POOL_SIZE * 4096) b \/ in_range alloc EPT_POOL_SIZE b.

Record ept_layout : Prop := {
  lay_idx : 0 <= idx < MAX_VCPU_ENTRIES;
  lay_num : 0 <= ept_num < 16 * SHV_EPT_COUNT;
  lay_pool : pool_ok a pool alloc;
  lay_root : 0 < root < 2 ^ ptr_bits a;
  lay_root_pool : root + 4096 <= pool \/ pool + EPT_POOL_SIZE * 4096 <= root;
  lay_root_alloc : root + 4096 <= alloc \/ alloc + EPT_POOL_SIZE <= root;
  lay_valid : ~ arena valid;
  lay_target_arena b : in_range target 16 b -> ~ arena b;
  lay_target : 0 < target < 2 ^ Z.min 48 (ptr_bits a);
  lay_target_al : target mod 4096 = 0;
  lay_large_arena b : in_range large0 16 b \/ in_range large1 16 b -> ~ arena b;
  lay_large0 : 0 < large0 < 2 ^ Z.min 48 (ptr_bits a);
  lay_large1 : 0 < large1 < 2 ^ Z.min 48 (ptr_bits a);
  lay_large_al : large0 mod 2 ^ 21 = 0;
  lay_large_target : large0 / 2 ^ 21 <> 0x12340000 / 2 ^ 21 /\ large1 / 2 ^ 21 <> 0x12340000 / 2 ^ 21;
  lay_low : 0 <= s_ept_low s /\ s_ept_low s mod 4096 = 0;
  lay_high : s_ept_low s <= s_ept_high s <= 2 ^ 48 /\ s_ept_high s mod 4096 = 0;
(* the pool has a table for every 2 MB of the image, and for the rest *)
  lay_cost : 3 * ((s_ept_high s - 1) / 2 ^ 21 - s_ept_low s / 2 ^ 21) + 20 <= EPT_POOL_SIZE }.

Hypothesis Hlay : ept_layout.
Abbreviation ctx := (shv_ept_ctx a root pool alloc).
Abbreviation ept_inv := (inv ctx (ept_ok a) (ept_free pool alloc) (ept_meta alloc)).
Abbreviation ewalk va m := (walk EPT 4 root va m).
Abbreviation owned := (owned (ctx := ctx) (meta := ept_meta alloc)).
Abbreviation state := (ept_state a root pool alloc).
#[local] Existing Instance shv_ept_walk_ctx.
#[local] Instance build_alloc_ctx : AllocCtx ctx (ept_ok a) (ept_free pool alloc) (ept_meta alloc)
  := shv_ept_alloc_ctx a root pool alloc (lay_pool Hlay).

Lemma hva2spa_small x : 0 <= x < 2 ^ ptr_bits a -> hva2spa a x = x.
Proof.
  intros H. pose proof (ptr_bits_range a). unfold hva2spa, u64.
  rewrite (wrap_small (ptr_bits a)) by done. apply wrap_small.
  by apply (is_u_le (ptr_bits a)); [lia|].
Qed.

Lemma min48_le x : x < 2 ^ Z.min 48 (ptr_bits a) -> x < 2 ^ 48 /\ x < 2 ^ ptr_bits a.
Proof.
  intros H. pose proof (ptr_bits_range a).
  assert (2 ^ Z.min 48 (ptr_bits a) <= 2 ^ 48) by (apply Z.pow_le_mono_r; lia).
  assert (2 ^ Z.min 48 (ptr_bits a) <= 2 ^ ptr_bits a) by (apply Z.pow_le_mono_r; lia). lia.
Qed.

Lemma grp_range : 0 <= grp < SHV_EPT_COUNT.
Proof.
  pose proof (lay_num Hlay). unfold SHV_EPT_COUNT in *. rewrite Z.shiftr_div_pow2 by lia.
  split; [apply Z.div_pos; lia|apply Z.div_lt_upper_bound; lia].
Qed.

Lemma build_ctx_ok : build_ctx a s idx ept_num = Ok ctx.
Proof.
  unfold build_ctx. pose proof grp_range. pose proof (lay_idx Hlay).
  rewrite (proj2 (Z.leb_le 0 idx)), (proj2 (Z.ltb_lt idx _)), (proj2 (Z.leb_le 0 grp)),
    (proj2 (Z.ltb_lt grp _)) by lia.
  cbn. by rewrite hva2spa_small by (pose proof (lay_root Hlay); lia).
Qed.

(** *** The state before anything is mapped *)

Definition all_pages : list Z := (fun j => pool + j * PAGE_SIZE_4K) <$> seqZ 0 EPT_POOL_SIZE.
Definition no_tables : tables := {[ (4, 0) := root ]}.

Lemma all_pages_elem p : p ∈ all_pages -> pool <= p /\ p + 4096 <= pool + EPT_POOL_SIZE * 4096.
Proof.
  intros (j & -> & Hj)%list_elem_of_fmap. apply elem_of_seqZ in Hj.
  unfold EPT_POOL_SIZE, PAGE_SIZE_4K in *. lia.
Qed.

Lemma owned_init b : owned no_tables all_pages b -> arena b.
Proof.
  intros [(k & p & Hp & Hb)|[(p & Hp & Hb)|Hm]].
  - unfold no_tables in Hp. apply lookup_singleton_Some in Hp as [<- <-]. by left.
  - apply all_pages_elem in Hp. right. left. unfold in_range in *. lia.
  - by right; right.
Qed.

Lemma walk_init m va :
  (forall b, arena b -> rd8 m b = 0) -> ewalk va m = (4, root, 0).
Proof.
  intros Hz. rewrite walk_unfold by lia. cbv zeta.
  assert (ld_pme EPT 4 root va m = 0) as ->.
  { unfold ld_pme. apply ld_zero. intros b Hb. rewrite pme_nbytes_bytes in Hb. apply Hz. left.
    pose proof (entry_in_table (t := EPT) 4 root va ltac:(unfold lvl_ok; cbn; lia)) as Hin.
    change (tbl_size EPT 4) with 4096 in Hin. unfold in_range in *. lia. }
  by rewrite descends_0.
Qed.

Lemma state_init m : (forall b, arena b -> rd8 m b = 0) -> state 1 m no_tables all_pages.
Proof.
  intros Hz. constructor.
  - constructor.
    + constructor.
      * apply lookup_singleton_eq.
      * intros lvl va p Hp. unfold no_tables in Hp. apply lookup_singleton_Some in Hp as [E <-].
        injection E as <- _. pose proof (walk_init m va Hz) as Hw. rewrite walk_unfold in Hw by lia.
        intros Hd. cbn [ctx_t shv_ept_ctx] in Hd. cbv zeta in Hw. rewrite Hd in Hw.
        apply walk_path in Hw as (? & _); lia.
      * intros lvl x p Hp. unfold no_tables in Hp. apply lookup_singleton_Some in Hp as [E <-].
        injection E as <- _. split; [unfold lvl_ok; cbn; lia|]. apply (lay_root Hlay).
      * intros k1 p1 k2 p2 H1 H2 Hne. unfold no_tables in *.
        apply lookup_singleton_Some in H1 as [<- _]. apply lookup_singleton_Some in H2 as [<- _]. done.
    + unfold ept_free, all_pages. f_equal.
      assert (forall l : list Z, (forall j, j ∈ l -> rd8 m (alloc + j) = 0) ->
        l = filter (fun j => rd8 m (alloc + j) = 0) l) as Hall.
      { induction l as [|j l IH]; intros Hj; [done|].
        rewrite filter_cons, decide_True by (apply Hj; by left). f_equal. apply IH.
        intros. apply Hj. by right. }
      apply Hall. intros j Hj. apply elem_of_seqZ in Hj. apply Hz. right. right.
      unfold in_range. lia.
    + intros p b Hp Hb. apply all_pages_elem in Hp. apply Hz. right. left. unfold in_range in *. lia.
    + intros k q p Hq Hp. unfold no_tables in Hq. apply lookup_singleton_Some in Hq as [<- <-].
      apply all_pages_elem in Hp. pose proof (lay_root_pool Hlay). cbn. lia.
    + intros b (k & q & Hq & Hb) Hm. unfold no_tables in Hq.
      apply lookup_singleton_Some in Hq as [<- <-]. cbn in Hb.
      pose proof (lay_root_alloc Hlay). unfold ept_meta, in_range in *. lia.
  - intros va. rewrite walk_init by done. unfold depth. cbn [fst snd].
    by rewrite zero_not_page by lia.
Qed.

(** Writes outside the arena keep a state. *)
Lemma state_agree k m m' T l :
  state k m T l -> (forall b, owned T l b -> arena b) -> agree arena m m' ->
  state k m' T l /\ forall va, ewalk va m' = ewalk va m.
Proof.
  intros [Hi Hn] Ho Ha.
  assert (agree (owned T l) m m') as Hag by (by apply (agree_weaken arena)).
  assert (forall va, ewalk va m' = ewalk va m) as Hw
    by (intros va; by apply (inv_agree_walk (ctx := ctx) (meta := ept_meta alloc) (free := ept_free pool alloc) m m' T l va)).
  split; [|done]. constructor.
  - by apply (inv_agree m).
  - intros va. rewrite Hw. apply Hn.
Qed.

(** *** The fixed page at 0x12340000 *)

(** The bytes a call writes outside the arena. *)
Definition touched (b : Z) : Prop :=
  b = valid \/ in_range target 16 b \/
  (use_large = true /\ (in_range large0 16 b \/ in_range large1 16 b)).

Lemma agree_memset str c len m : 0 <= len ->
  agree (fun b => ~ in_range str len b) m (memset str c len m).2.
Proof.
  intros Hl b Hb. rewrite rd8_memset by done. unfold in_range in Hb.
  destruct (Z.leb_spec str b), (Z.ltb_spec b (str + len)); done || lia.
Qed.

(** An insertion, seen from outside the arena. *)
Lemma inserted_frame m T l lvl va e m' T' l' :
  inserted (ctx := ctx) (meta := ept_meta alloc) m T l lvl va e m' T' l' ->
  (forall b, owned T l b -> arena b) ->
  (forall b, owned T' l' b -> arena b) /\ agree (fun b => ~ arena b) m m'.
Proof.
  intros Hins Ho. split.
  - intros b Hb. apply Ho. by apply (ins_owned _ _ _ _ _ _ _ _ _ Hins).
  - apply (agree_weaken (fun b => ~ owned T l b)); [auto|].
    apply (ins_frame _ _ _ _ _ _ _ _ _ Hins).
Qed.

(** The leaf [shv_build_ept] puts at 0x12340000. *)
Definition target_leaf : option (Z * Z * Z) :=
  if ept_num =? 0 then None else Some (1, target, HPT_PMT_WB).

Lemma maps_inserted m T l lvl va o pa mt m' T' l' va' :
  inserted (ctx := ctx) (meta := ept_meta alloc) m T l lvl va (pmeo_pme o) m' T' l' ->
  1 <= lvl <= 3 -> leaf_obj lvl o pa mt -> same_region EPT lvl va va' ->
  maps_as root va' m' (Some (lvl, pa, mt)).
Proof.
  intros Hins Hl Ho Hs. pose proof (ins_mapping _ _ _ _ _ _ _ _ _ Hins va') as Hm.
  cbn [ctx_t ctx_root_pa shv_ept_ctx] in Hm. rewrite decide_True in Hm by done.
  rewrite (leaf_present _ _ _ _ Ho) in Hm. eexists. split; [exact Hm|].
  rewrite view_trunc; [apply (leaf_view _ _ _ _ Ho)|unfold lvl_ok; cbn; lia|].
  apply (leaf_u64 _ _ _ _ Ho).
Qed.

Lemma build_target_ok k m T l o pa mt :
  state k m T l -> (forall b, owned T l b -> arena b) -> leaf_obj 1 o pa mt ->
  k <= 1 \/ depth (ewalk 0x12340000 m) <= 1 ->
  missing (ctx := ctx) m 0x12340000 1 <= Z.of_nat (length l) ->
  exists o' m' T' l', build_target a s ept_num ctx o m = Ok (o', m') /\
    state (Z.max k 1) m' T' l' /\ (forall b, owned T' l' b -> arena b) /\
    agree (fun b => ~ arena b) (memset target ept_num 16 m).2 m' /\
    Z.of_nat (length l) = Z.of_nat (length l') + missing (ctx := ctx) m 0x12340000 1 /\
    depth (ewalk 0x12340000 m') <= 1 /\
    (forall va, depth (ewalk va m') <= depth (ewalk va m)) /\
    forall va, 0 <= va < 2 ^ 48 ->
      if decide (va / 4096 = 0x12340) then maps_as root va m' target_leaf
      else mapping EPT root va m' = mapping EPT root va m.
Proof.
  intros Hs Ho Hleaf Hk Hmiss. unfold build_target.
  set (m0 := (memset target ept_num 16 m).2).
  assert (agree arena m m0) as Ha0.
  { apply (agree_weaken (fun b => ~ in_range target 16 b)); [|by apply agree_memset].
    intros b Hb Hr. by apply (lay_target_arena Hlay b). }
  destruct (state_agree k m m0 T l Hs Ho Ha0) as [Hs0 Hw0].
  assert (exists o', (if truth ept_num then
            pmeo ← hpt_pmeo_setcache o HPT_PMT_WB; hpt_pmeo_set_address pmeo (hva2spa a target)
          else Ok (with_pme o 0)) = Ok o' /\ pmeo_t o' = EPT /\ pmeo_lvl o' = 1 /\
          is_u 64 (pmeo_pme o') /\ descends EPT 1 (pmeo_pme o') = false /\
          (if truth ept_num then leaf_obj 1 o' target HPT_PMT_WB else pmeo_pme o' = 0))
    as (o' & -> & Ht & Hl & Hu & Hd & Hshape).
  { unfold truth. destruct (Z.eqb_spec ept_num 0) as [E|E]; cbn [negb].
    - exists (with_pme o 0). cbn. split; [done|]. split; [apply (leaf_t _ _ _ _ Hleaf)|].
      split; [apply (leaf_lvl _ _ _ _ Hleaf)|]. split; [done|]. split; [|done]. apply descends_0.
    - destruct (leaf_setcache 1 o pa mt HPT_PMT_WB) as (o1 & -> & Ho1); [lia|done|done|].
      cbn [mbind res_bind]. pose proof (lay_target Hlay) as Htg.
      rewrite hva2spa_small by (pose proof (min48_le target); lia).
      destruct (leaf_set_address 1 o1 pa HPT_PMT_WB target) as (o2 & -> & Ho2); [lia|done| | |].
      + pose proof (min48_le target). assert (2 ^ 48 < 2 ^ 52) by done. lia.
      + apply (lay_target_al Hlay).
      + exists o2. split; [done|]. pose proof Ho2 as [L1 L2 L3 L4].
        do 3 (split; [done|]). split; [by apply (leaf_not_table _ _ _ _ Ho2)|done]. }
  cbn [mbind res_bind].
  destruct (insert_ok a root pool alloc (lay_pool Hlay) k m0 T l o' 0x12340000)
    as (m' & T' & l' & -> & Hs' & Hins); rewrite ?Hl; try done; try lia.
  { rewrite Hw0. lia. }
  { unfold missing in *. cbn in *. by rewrite Hw0. }
  rewrite Hl in Hs', Hins. cbn [mbind res_bind].
  destruct (inserted_frame _ _ _ _ _ _ _ _ _ Hins Ho) as [Ho' Hfr].
  exists o', m', T', l'. split; [done|]. split; [done|]. split; [done|]. split; [exact Hfr|].
  split. { pose proof (ins_used _ _ _ _ _ _ _ _ _ Hins) as Hu'. unfold missing in *. cbn in *.
           by rewrite Hw0 in Hu'. }
  assert (forall va, pfx EPT 1 va = pfx EPT 1 0x12340000 -> depth (ewalk va m') <= 1) as Hreach.
  { intros va E. apply (ins_reached _ _ _ _ _ _ _ _ _ Hins 1 va); [cbn; lia|done]. }
  split; [by apply Hreach|].
  assert (forall va, same_region EPT 1 0x12340000 va -> pfx EPT 1 va = pfx EPT 1 0x12340000) as Hpfx.
  { intros va E. assert (lvl_ok EPT 1) as Hlo by (unfold lvl_ok; cbn; lia).
    by destruct (proj1 (pfx_step EPT 1 va 0x12340000 Hlo) E). }
  split.
  { intros va. destruct (decide (same_region EPT 1 0x12340000 va)) as [E|E].
    - specialize (Hreach va (Hpfx va E)).
      pose proof (depth_ept a root pool alloc m T l va (es_inv _ _ _ _ _ _ _ _ Hs)). lia.
    - rewrite <- (Hw0 va). by apply (ins_depth _ _ _ _ _ _ _ _ _ Hins). }
  intros va Hva.
  assert (same_region EPT 1 0x12340000 va <-> va / 4096 = 0x12340) as Hsr by (by apply same_page).
  destruct (decide (va / 4096 = 0x12340)) as [E|E].
  - unfold target_leaf. unfold truth in Hshape.
    destruct (Z.eqb_spec ept_num 0) as [E0|E0]; cbn [negb] in Hshape.
    + pose proof (ins_mapping _ _ _ _ _ _ _ _ _ Hins va) as Hm.
      cbn [ctx_t ctx_root_pa shv_ept_ctx] in Hm. rewrite decide_True in Hm by (by apply Hsr).
      by rewrite Hshape in Hm.
    + apply (maps_inserted m0 T l 1 0x12340000 o' target HPT_PMT_WB m' T' l'); try done.
      by apply Hsr.
  - pose proof (ins_mapping _ _ _ _ _ _ _ _ _ Hins va) as Hm.
    cbn [ctx_t ctx_root_pa shv_ept_ctx] in Hm. rewrite decide_False in Hm by (by rewrite Hsr).
    rewrite Hm. unfold mapping. cbn [max_lvl]. by rewrite Hw0.
Qed.

(** *** The swapped large pages *)

Lemma large1_eq : large1 = large0 + 2 ^ 21.
Proof. unfold large_pages_at, PA_PAGE_SIZE_2M. lia. Qed.

Lemma aligned_2m x : 0 <= x < 2 ^ 48 -> x mod 2 ^ 21 = 0 -> PA_PAGE_ALIGNED_2M x = true.
Proof.
  intros Hx Hm. unfold PA_PAGE_ALIGNED_2M. apply Z.eqb_eq. apply Z.bits_inj'. intros i Hi.
  change (PA_PAGE_SIZE_2M - 1) with (Z.ones 21). bits; try done.
  - assert (Z.testbit (x mod 2 ^ 21) i = false) as E by (rewrite Hm; apply Z.bits_0).
    by rewrite Z.mod_pow2_bits_low in E by lia.
  - symmetry. apply (is_u_testbit_high 48); [done|lia].
Qed.

Lemma large_facts :
  (0 <= large0 < 2 ^ 48 /\ large0 < 2 ^ ptr_bits a /\ large0 mod 2 ^ 21 = 0 /\ large0 mod 4096 = 0) /\
  (0 <= large1 < 2 ^ 48 /\ large1 < 2 ^ ptr_bits a /\ large1 mod 2 ^ 21 = 0 /\ large1 mod 4096 = 0) /\
  large1 / 2 ^ 21 <> large0 / 2 ^ 21.
Proof.
  pose proof (lay_large0 Hlay) as H0. pose proof (lay_large1 Hlay) as H1.
  pose proof (lay_large_al Hlay) as Hal.
  destruct (min48_le large0) as [? ?]; [lia|]. destruct (min48_le large1) as [? ?]; [lia|].
  assert (forall x, x mod 2 ^ 21 = 0 -> x mod 4096 = 0) as Hmod.
  { intros x Hx. apply Z.mod_divide; [lia|]. apply Z.mod_divide in Hx as [q ->]; [|lia].
    exists (q * 2 ^ 9). lia. }
  assert (large1 mod 2 ^ 21 = 0) as Hal1.
  { rewrite large1_eq. replace (large0 + 2 ^ 21) with (large0 + 1 * 2 ^ 21) by lia.
    by rewrite Z.mod_add by lia. }
  split; [repeat split; auto; lia|]. split; [repeat split; auto; lia|].
  rewrite large1_eq. replace (large0 + 2 ^ 21) with (large0 + 1 * 2 ^ 21) by lia.
  rewrite Z.div_add by lia. lia.
Qed.

Lemma insert_large k m T l o va pa :
  state k m T l -> (forall b, owned T l b -> arena b) -> leaf_obj 2 o pa HPT_PMT_WB ->
  k <= 2 -> 0 <= va < 2 ^ 48 -> missing (ctx := ctx) m va 2 <= Z.of_nat (length l) ->
  exists m' T' l', hptw_insert_pmeo_alloc ctx o va m = Ok (0, m') /\
    state 2 m' T' l' /\ (forall b, owned T' l' b -> arena b) /\
    agree (fun b => ~ arena b) m m' /\
    Z.of_nat (length l) = Z.of_nat (length l') + missing (ctx := ctx) m va 2 /\
    depth (ewalk va m') <= 2 /\
    (forall va', 0 <= va' < 2 ^ 48 ->
      if decide (va' / 2 ^ 21 = va / 2 ^ 21) then maps_as root va' m' (Some (2, pa, HPT_PMT_WB))
      else mapping EPT root va' m' = mapping EPT root va' m /\
           depth (ewalk va' m') <= depth (ewalk va' m)).
Proof.
  intros Hs Ho Hleaf Hk Hva Hmiss.
  destruct (insert_ok a root pool alloc (lay_pool Hlay) k m T l o va) as (m' & T' & l' & E & Hs' & Hins);
    rewrite ?(leaf_lvl _ _ _ _ Hleaf); try (done || lia).
  { apply (leaf_t _ _ _ _ Hleaf). }
  { apply (leaf_u64 _ _ _ _ Hleaf). }
  { by apply (leaf_not_table _ _ _ _ Hleaf). }
  rewrite (leaf_lvl _ _ _ _ Hleaf) in *. replace (Z.max k 2) with 2 in Hs' by lia.
  destruct (inserted_frame _ _ _ _ _ _ _ _ _ Hins Ho) as [Ho' Hfr].
  exists m', T', l'. split; [done|]. split; [done|]. split; [done|]. split; [done|].
  split; [apply (ins_used _ _ _ _ _ _ _ _ _ Hins)|].
  split. { apply (ins_reached _ _ _ _ _ _ _ _ _ Hins 2 va); [cbn; lia|done]. }
  intros va' Hva'. assert (same_region EPT 2 va va' <-> va' / 2 ^ 21 = va / 2 ^ 21) as Hsr
    by (by apply same_2m).
  destruct (decide (va' / 2 ^ 21 = va / 2 ^ 21)) as [Er|Er].
  - apply (maps_inserted m T l 2 va o pa HPT_PMT_WB m' T' l'); try done. by apply Hsr.
  - split.
    + pose proof (ins_mapping _ _ _ _ _ _ _ _ _ Hins va') as Hm.
      cbn [ctx_t ctx_root_pa shv_ept_ctx] in Hm. by rewrite decide_False in Hm by (by rewrite Hsr).
    + apply (ins_depth _ _ _ _ _ _ _ _ _ Hins). by rewrite Hsr.
Qed.

(** What is written to the large pages themselves. *)
Definition large_stamp (m : mem) : mem := (memset large1 66 16 (memset large0 65 16 m).2).2.

Lemma agree_memset_both P str c len m m' : 0 <= len -> agree P m m' -> agree P (memset str c len m).2 (memset str c len m').2.
Proof. intros Hl H b Hb. rewrite !rd8_memset by done. by rewrite H. Qed.

Lemma build_large_ok k m T l :
  state k m T l -> (forall b, owned T l b -> arena b) -> k <= 2 ->
  missing (ctx := ctx) m large1 2 + missing (ctx := ctx) m large0 2 <= Z.of_nat (length l) ->
  exists m' T' l', build_large a s ctx m = Ok m' /\
    state 2 m' T' l' /\ (forall b, owned T' l' b -> arena b) /\
    agree (fun b => ~ arena b) (large_stamp m) m' /\
    depth (ewalk large0 m') <= 2 /\ depth (ewalk large1 m') <= 2 /\
    (forall va, 0 <= va < 2 ^ 48 ->
      if decide (va / 2 ^ 21 = large1 / 2 ^ 21) then maps_as root va m' (Some (2, large0, HPT_PMT_WB))
      else if decide (va / 2 ^ 21 = large0 / 2 ^ 21)
      then maps_as root va m' (Some (2, large1, HPT_PMT_WB))
      else mapping EPT root va m' = mapping EPT root va m /\
           depth (ewalk va m') <= depth (ewalk va m)).
Proof.
  intros Hs Ho Hk Hmiss. destruct large_facts as ((R0 & P0 & A0 & B0) & (R1 & P1 & A1 & B1) & Hne).
  unfold build_large. rewrite !hva2spa_small by lia. rewrite !aligned_2m by done.
  cbn [ASSERT mbind res_bind].
  assert (leaf_obj 2 (HptPmeo 183 EPT 2) 0 HPT_PMT_WB) as Hl0 by (constructor; done).
  change (hpt_pmeo_set_page (HptPmeo 0 EPT 2) true) with (Ok (HptPmeo 128 EPT 2)).
  cbn [mbind res_bind].
  change (hpt_pmeo_setuser (HptPmeo 128 EPT 2) true) with (Ok (HptPmeo 128 EPT 2)).
  cbn [mbind res_bind].
  assert (hpt_pmeo_setprot (HptPmeo 128 EPT 2) HPT_PROTS_RWX = Ok (HptPmeo 135 EPT 2)) as -> by done.
  cbn [mbind res_bind].
  assert (hpt_pmeo_setcache (HptPmeo 135 EPT 2) HPT_PMT_WB = Ok (HptPmeo 183 EPT 2)) as -> by done.
  cbn [mbind res_bind].
  destruct (leaf_set_address 2 _ 0 HPT_PMT_WB large0 ltac:(lia) Hl0) as (o1 & -> & Ho1); [lia|done|].
  cbn [mbind res_bind].
  assert (0 <= missing (ctx := ctx) m large0 2) by (unfold missing; lia).
  destruct (insert_large k m T l o1 large1 large0)
    as (m1 & T1 & l1 & -> & Hs1 & Hw1 & Hf1 & Hc1 & Hd1 & Hm1); [done..|lia|].
  cbn [mbind res_bind ASSERT Z.eqb].
  destruct (leaf_set_address 2 o1 large0 HPT_PMT_WB large1) as (o2 & -> & Ho2); [lia|done|lia|done|].
  cbn [mbind res_bind].
  pose proof (Hm1 large0 R0) as Hm10. rewrite decide_False in Hm10 by (intros ?; by apply Hne).
  destruct (insert_large 2 m1 T1 l1 o2 large0 large1)
    as (m2 & T2 & l2 & -> & Hs2 & Hw2 & Hf2 & _ & Hd2 & Hm2); [done..| |].
  { unfold missing in *. destruct Hm10 as [_ Hm10]. cbn in *. lia. }
  cbn [mbind res_bind ASSERT Z.eqb].
  set (m3 := (memset large0 65 16 m2).2). set (m4 := (memset large1 66 16 m3).2).
  assert (agree (fun b => ~ (in_range large0 16 b \/ in_range large1 16 b)) m2 m4) as Ha4.
  { apply (agree_trans _ m2 m3); (eapply agree_weaken; [|by apply agree_memset]);
      intros b Hb Hr; apply Hb; auto. }
  assert (agree arena m2 m4) as Haa.
  { eapply agree_weaken; [|exact Ha4]. intros b Hb Hr. by apply (lay_large_arena Hlay b). }
  destruct (state_agree 2 m2 m4 T2 l2 Hs2 Hw2 Haa) as [Hs4 Hwk].
  exists m4, T2, l2. split; [done|]. split; [done|]. split; [done|]. split.
  { unfold large_stamp. do 2 (apply agree_memset_both; [done|]). by apply (agree_trans _ m m1). }
  rewrite !Hwk. split; [done|]. split.
  { pose proof (Hm2 large1 R1) as H1'. rewrite decide_False in H1' by done.
    destruct H1' as [_ H1']. lia. }
  assert (forall va, mapping EPT root va m4 = mapping EPT root va m2) as Hmm
    by (intros va; unfold mapping; cbn [max_lvl]; by rewrite Hwk).
  intros va Hva. specialize (Hm1 va Hva). specialize (Hm2 va Hva).
  destruct (decide (va / 2 ^ 21 = large1 / 2 ^ 21)) as [E1|E1].
  - rewrite decide_False in Hm2 by congruence. unfold maps_as in *. rewrite Hmm.
    destruct Hm2 as [-> _]. done.
  - destruct (decide (va / 2 ^ 21 = large0 / 2 ^ 21)) as [E0|E0].
    + unfold maps_as in *. by rewrite Hmm.
    + rewrite Hmm, Hwk. destruct Hm1 as [Hm1 Hd1']. destruct Hm2 as [Hm2 Hd2'].
      split; [congruence|lia].
Qed.

(** *** The whole call *)

(** What every call (re)writes, whatever was mapped before. *)
Definition ept_override (va : Z) : option (option (Z * Z * Z)) :=
  if use_large && (va / 2 ^ 21 =? large1 / 2 ^ 21) then Some (Some (2, large0, HPT_PMT_WB))
  else if use_large && (va / 2 ^ 21 =? large0 / 2 ^ 21) then Some (Some (2, large1, HPT_PMT_WB))
  else if va / 4096 =? 0x12340 then Some target_leaf else None.

(** What the first call maps besides: an identity map. *)
Definition id_leaf (va : Z) : option (Z * Z * Z) :=
  if ((s_ept_low s <=? va) && (va <? s_ept_high s)) || ((0xfee00000 <=? va) && (va <? 0xfee01000))
     || (va <? 0x100000)
  then Some (1, page_of va, mt_of vcpu (page_of va)) else None.

(** An EPT some call has built. *)
Definition ept_built (m : mem) : Prop :=
  exists k T l, k <= 2 /\ state k m T l /\ (forall b, owned T l b -> arena b) /\
    depth (ewalk 0x12340000 m) <= 1 /\
    (use_large = true -> depth (ewalk large0 m) <= 2 /\ depth (ewalk large1 m) <= 2).

Definition build_rest (o : hpt_pmeo_t) (m : mem) : res (Z * mem) :=
  '(pmeo, m) ← build_target a s ept_num ctx o m;
  m ← (if use_large then build_large a s ctx m else Ok m);
  Ok (root, m).

(** What a call writes outside the arena besides the flag. *)
Definition stamp (m : mem) : mem :=
  let m := (memset target ept_num 16 m).2 in if use_large then large_stamp m else m.
Lemma stamp_frame m m' : agree (fun b => ~ arena b) (stamp m) m' -> agree (fun b => ~ arena b /\ ~ touched b) m m'.
Proof using Type.
  clear invept.
  intros H b [Hb1 Hb2]. rewrite H by done. unfold touched in Hb2. unfold stamp, large_stamp.
  destruct use_large; [rewrite !agree_memset by (lia || tauto)|rewrite agree_memset by (lia || tauto)]; done.
Qed.

Lemma first_frame m m' : agree (fun b => ~ arena b) (stamp (st8 m valid 1)) m' -> agree (fun b => ~ arena b /\ ~ touched b) m m'.
Proof using Type.
  clear invept.
  intros H b Hb. rewrite (stamp_frame _ _ H b Hb). unfold st8. rewrite rd8_st_other; [done|].
  intros Hr. apply Hb. left. unfold in_range in Hr. lia.
Qed.

Lemma build_rest_ok k m T l o pa mt :
  k <= 2 -> state k m T l -> (forall b, owned T l b -> arena b) -> leaf_obj 1 o pa mt ->
  k <= 1 \/ depth (ewalk 0x12340000 m) <= 1 ->
  missing (ctx := ctx) m 0x12340000 1 +
    (if use_large then missing (ctx := ctx) m large1 2 + missing (ctx := ctx) m large0 2 else 0)
    <= Z.of_nat (length l) ->
  exists m', build_rest o m = Ok (root, m') /\ ept_built m' /\
    agree (fun b => ~ arena b) (stamp m) m' /\
    forall va, 0 <= va < 2 ^ 48 ->
      match ept_override va with
      | Some x => maps_as root va m' x
      | None => mapping EPT root va m' = mapping EPT root va m
      end.
Proof.
  intros Hk Hs Ho Hleaf Hk1 Hmiss.
  assert (0 <= missing (ctx := ctx) m 0x12340000 1 /\ 0 <= missing (ctx := ctx) m large0 2 /\
          0 <= missing (ctx := ctx) m large1 2) by (unfold missing; lia).
  destruct (build_target_ok k m T l o pa mt Hs Ho Hleaf Hk1)
    as (o1 & m1 & T1 & l1 & E & Hs1 & Ho1 & Hf1 & Hc1 & Ht1 & Hd1 & Hm1).
  { destruct use_large; lia. }
  unfold build_rest. rewrite E. cbn [mbind res_bind]. unfold ept_override.
  assert (forall va, 0 <= va < 2 ^ 48 ->
    match (if va / 4096 =? 0x12340 then Some target_leaf else None) with
    | Some x => maps_as root va m1 x
    | None => mapping EPT root va m1 = mapping EPT root va m end) as Hm1'.
  { intros va Hva. specialize (Hm1 va Hva).
    destruct (Z.eqb_spec (va / 4096) 0x12340); [by rewrite decide_True in Hm1|].
    by rewrite decide_False in Hm1. }
  destruct use_large eqn:Hl; cbn [andb].
  2: { exists m1. split; [done|]. split; [|split; [|done]].
       - exists (Z.max k 1), T1, l1. split; [lia|]. split_and!; try done; congruence.
       - unfold stamp. by rewrite Hl. }
  destruct (build_large_ok (Z.max k 1) m1 T1 l1)
    as (m2 & T2 & l2 & -> & Hs2 & Ho2 & Hf2 & Hd0 & Hd1' & Hm2); [done|done|lia| |].
  { pose proof (Hd1 large0). pose proof (Hd1 large1). unfold missing in *. cbn in *. lia. }
  cbn [mbind res_bind]. exists m2. split; [done|].
  pose proof (lay_large_target Hlay) as [Ht0' Ht1']. split; [|split].
  - exists 2, T2, l2. split; [lia|]. split_and!; try done.
    pose proof (Hm2 0x12340000 ltac:(lia)) as H12. rewrite !decide_False in H12 by congruence.
    destruct H12 as [_ H12]. lia.
  - unfold stamp. rewrite Hl. eapply agree_trans; [|exact Hf2]. unfold large_stamp. by do 2 (apply agree_memset_both; [done|]).
  - intros va Hva. specialize (Hm2 va Hva). specialize (Hm1' va Hva).
    destruct (Z.eqb_spec (va / 2 ^ 21) (large1 / 2 ^ 21)); [by rewrite decide_True in Hm2|].
    rewrite decide_False in Hm2 by done.
    destruct (Z.eqb_spec (va / 2 ^ 21) (large0 / 2 ^ 21)); [by rewrite decide_True in Hm2|].
    rewrite decide_False in Hm2 by done. destruct Hm2 as [Hm2 _].
    destruct (va / 4096 =? 0x12340); [|congruence].
    unfold maps_as in *. by rewrite Hm2.
Qed.

Lemma first_pmeo :
  hpt_pmeo_setuser (HptPmeo 0 EPT 1) true = Ok (HptPmeo 0 EPT 1) /\
  hpt_pmeo_setprot (HptPmeo 0 EPT 1) HPT_PROTS_RWX = Ok (HptPmeo 7 EPT 1) /\
  leaf_obj 1 (HptPmeo 7 EPT 1) 0 0.
Proof. split; [done|]. split; [done|]. by constructor. Qed.

Lemma shv_build_ept_unfold m :
  shv_build_ept a s invept g_shv_opt vcpu ept_num m =
  ('(pmeo, m) ←
    (if negb (truth (ld8 m valid)) then build_identity s vcpu ctx (HptPmeo 7 EPT 1) (st8 m valid 1)
     else ASSERT (invept VMX_INVEPT_SINGLECONTEXT (Z.lor root 0x1e)) ;; Ok (HptPmeo 7 EPT 1, m));
   build_rest pmeo m).
Proof.
  unfold shv_build_ept. rewrite build_ctx_ok. cbn [mbind res_bind].
  destruct first_pmeo as (-> & E & _). cbn [mbind res_bind]. rewrite E. done.
Qed.

(** Later calls. *)
Lemma build_again m :
  ept_built m -> ld8 m valid <> 0 -> invept VMX_INVEPT_SINGLECONTEXT (Z.lor root 0x1e) = true ->
  exists m', shv_build_ept a s invept g_shv_opt vcpu ept_num m = Ok (root, m') /\ ept_built m' /\
    agree (fun b => ~ arena b) (stamp m) m' /\
    forall va, 0 <= va < 2 ^ 48 ->
      match ept_override va with
      | Some x => maps_as root va m' x
      | None => mapping EPT root va m' = mapping EPT root va m
      end.
Proof.
  intros (k & T & l & Hk & Hs & Ho & Ht & Hl) Hv Hi. rewrite shv_build_ept_unfold.
  unfold truth. destruct (Z.eqb_spec (ld8 m valid) 0); [done|]. rewrite Hi.
  cbn [negb ASSERT mbind res_bind].
  apply (build_rest_ok k m T l _ 0 0); [done..|apply first_pmeo|by right|].
  unfold missing. cbn. destruct use_large; [|lia]. destruct Hl; [done|lia].
Qed.

(** *** The first call *)

(** The addresses of [I] are mapped to themselves, nothing else is mapped. *)
Definition id_mapped (I : Z -> bool) (m : mem) : Prop :=
  forall va, 0 <= va < 2 ^ 48 ->
    maps_as root va m (if I va then Some (1, page_of va, mt_of vcpu (page_of va)) else None).

Lemma map_range_ok (I : Z -> bool) low high m T l o pa mt :
  0 <= low <= high -> low mod 4096 = 0 -> high mod 4096 = 0 -> high <= 2 ^ 48 ->
  types_ok vcpu low high -> state 1 m T l -> (forall b, owned T l b -> arena b) ->
  leaf_obj 1 o pa mt -> id_mapped I m ->
  3 + 3 * ((high - 1) / 2 ^ 21 - low / 2 ^ 21) <= Z.of_nat (length l) ->
  (high - 1) / 2 ^ 21 - low / 2 ^ 21 >= -1 ->
  exists o' pa' mt' m' T' l',
    ept_map_continuous_addr vcpu ctx o low high m = Ok (o', m') /\ leaf_obj 1 o' pa' mt' /\
    state 1 m' T' l' /\ (forall b, owned T' l' b -> arena b) /\ agree (fun b => ~ arena b) m m' /\
    Z.of_nat (length l) <= Z.of_nat (length l') + (3 + 3 * ((high - 1) / 2 ^ 21 - low / 2 ^ 21)) /\
    id_mapped (fun va => I va || ((low <=? va) && (va <? high))) m'.
Proof.
  intros Hlh Hal Hah H48 Hty Hs Ho Hleaf Hid Hcost Hneg.
  assert (high = low + 4096 * Z.of_nat (Z.to_nat ((high - low) / 4096))) as Hn.
  { rewrite Z2Nat.id by (apply Z.div_pos; lia).
    pose proof (Z.div_mod high 4096). pose proof (Z.div_mod low 4096).
    replace (high - low) with ((high / 4096 - low / 4096) * 4096) by lia.
    rewrite Z.div_mul by lia. lia. }
  pose proof (depth_ept a root pool alloc m T l low (es_inv _ _ _ _ _ _ _ _ Hs)) as Hdep.
  assert (map_cost a root pool alloc m low high <= 3 + 3 * ((high - 1) / 2 ^ 21 - low / 2 ^ 21)).
  { unfold map_cost, missing. cbn. destruct (low <? high); lia. }
  destruct (ept_map_loop_ok a root pool alloc vcpu (lay_pool Hlay) high
              (Z.to_nat ((high - low) / 4096)) low m T l o pa mt
              (S (Z.to_nat ((high - low + PAGE_SIZE_4K - 1) / PAGE_SIZE_4K))))
    as (o' & pa' & mt' & m' & T' & l' & E & Ho' & Hs' & [Hw Hf] & Hlen & _ & Hmap); try done; try lia.
  { assert ((high - low) / 4096 <= (high - low + PAGE_SIZE_4K - 1) / PAGE_SIZE_4K)
      by (unfold PAGE_SIZE_4K; apply Z.div_le_mono; lia).
    assert (0 <= (high - low) / 4096) by (apply Z.div_pos; lia). lia. }
  exists o', pa', mt', m', T', l'. split; [done|]. split; [done|]. split; [done|].
  split; [auto|]. split; [eapply agree_weaken; [|exact Hf]; intros b Hb Hb'; by apply Hb, Ho|]. split; [lia|].
  intros va Hva. specialize (Hmap va Hva). specialize (Hid va Hva).
  destruct (decide (low <= va < high)) as [Hin|Hin].
  - rewrite (proj2 (Z.leb_le low va)), (proj2 (Z.ltb_lt va high)) by lia.
    by rewrite orb_true_r.
  - assert ((low <=? va) && (va <? high) = false) as ->
      by (apply andb_false_iff; rewrite Z.leb_gt, Z.ltb_ge; lia).
    rewrite orb_false_r. unfold maps_as in *. by rewrite Hmap.
Qed.

Lemma build_identity_ok m :
  (forall b, arena b -> rd8 m b = 0) ->
  types_ok vcpu (s_ept_low s) (s_ept_high s) -> types_ok vcpu 0xfee00000 0xfee01000 ->
  types_ok vcpu 0 0x100000 ->
  exists o pa mt m' T l, build_identity s vcpu ctx (HptPmeo 7 EPT 1) m = Ok (o, m') /\
    leaf_obj 1 o pa mt /\ state 1 m' T l /\ (forall b, owned T l b -> arena b) /\
    agree (fun b => ~ arena b) m m' /\ 7 <= Z.of_nat (length l) /\
    forall va, 0 <= va < 2 ^ 48 -> maps_as root va m' (id_leaf va).
Proof.
  intros Hz Ht1 Ht2 Ht4. pose proof (state_init m Hz) as Hs0.
  assert (id_mapped (fun _ => false) m) as Hid0.
  { intros va Hva. unfold maps_as, mapping. cbn [max_lvl]. rewrite walk_init by done. done. }
  assert (Z.of_nat (length all_pages) = 128) as Hlen0 by done.
  pose proof (lay_low Hlay) as [Hlow Hlowal]. pose proof (lay_high Hlay) as [Hhigh Hhighal].
  pose proof (lay_cost Hlay) as Hcost. unfold EPT_POOL_SIZE in Hcost.
  assert (-1 <= (s_ept_high s - 1) / 2 ^ 21 - s_ept_low s / 2 ^ 21) as Hneg.
  { assert ((s_ept_low s - 1) / 2 ^ 21 <= (s_ept_high s - 1) / 2 ^ 21) by (apply Z.div_le_mono; lia).
    assert ((s_ept_low s - 2 ^ 21) / 2 ^ 21 <= (s_ept_low s - 1) / 2 ^ 21) by (apply Z.div_le_mono; lia).
    replace (s_ept_low s - 2 ^ 21) with (s_ept_low s + (-1) * 2 ^ 21) in * by lia.
    rewrite Z.div_add in * by lia. lia. }
  unfold build_identity.
  destruct (map_range_ok (fun _ => false) (s_ept_low s) (s_ept_high s) m no_tables all_pages
              (HptPmeo 7 EPT 1) 0 0)
    as (o1 & pa1 & mt1 & m1 & T1 & l1 & -> & Ho1 & Hs1 & Hw1 & Hf1 & Hl1 & Hid1);
    try done; try lia; [apply owned_init|].
  cbn [mbind res_bind].
  destruct (map_range_ok _ 0xfee00000 0xfee01000 m1 T1 l1 o1 pa1 mt1
              ltac:(lia) ltac:(done) ltac:(done) ltac:(done) Ht2 Hs1 Hw1 Ho1 Hid1)
    as (o2 & pa2 & mt2 & m2 & T2 & l2 & -> & Ho2 & Hs2 & Hw2 & Hf2 & Hl2 & Hid2);
    [change (3 + 3 * ((0xfee01000 - 1) / 2 ^ 21 - 0xfee00000 / 2 ^ 21)) with 3; lia|done|].
  change (3 + 3 * ((0xfee01000 - 1) / 2 ^ 21 - 0xfee00000 / 2 ^ 21)) with 3 in Hl2.
  cbn [mbind res_bind].
  assert (types_ok vcpu 0xb8000 0xb9000) as Ht3 by (intros p Hp; apply Ht4; lia).
  destruct (map_range_ok _ 0xb8000 0xb9000 m2 T2 l2 o2 pa2 mt2
              ltac:(lia) ltac:(done) ltac:(done) ltac:(done) Ht3 Hs2 Hw2 Ho2 Hid2)
    as (o3 & pa3 & mt3 & m3 & T3 & l3 & -> & Ho3 & Hs3 & Hw3 & Hf3 & Hl3 & Hid3);
    [change (3 + 3 * ((0xb9000 - 1) / 2 ^ 21 - 0xb8000 / 2 ^ 21)) with 3; lia|done|].
  change (3 + 3 * ((0xb9000 - 1) / 2 ^ 21 - 0xb8000 / 2 ^ 21)) with 3 in Hl3.
  cbn [mbind res_bind].
  destruct (map_range_ok _ 0 0x100000 m3 T3 l3 o3 pa3 mt3
              ltac:(lia) ltac:(done) ltac:(done) ltac:(done) Ht4 Hs3 Hw3 Ho3 Hid3)
    as (o4 & pa4 & mt4 & m4 & T4 & l4 & -> & Ho4 & Hs4 & Hw4 & Hf4 & Hl4 & Hid4);
    [change (3 + 3 * ((0x100000 - 1) / 2 ^ 21 - 0 / 2 ^ 21)) with 3; lia|done|].
  change (3 + 3 * ((0x100000 - 1) / 2 ^ 21 - 0 / 2 ^ 21)) with 3 in Hl4.
  exists o4, pa4, mt4, m4, T4, l4. do 4 (split; [done|]). split; [|split; [lia|]].
  - intros b Hb. by rewrite Hf4, Hf3, Hf2, Hf1.
  - intros va Hva. specialize (Hid4 va Hva). unfold id_leaf. revert Hid4. cbv beta.
    rewrite (proj2 (Z.leb_le 0 va)) by lia.
    destruct ((s_ept_low s <=? va) && (va <? s_ept_high s)); [done|].
    destruct ((0xfee00000 <=? va) && (va <? 0xfee01000)); [done|]. cbn [orb andb].
    destruct (Z.ltb_spec va 0x100000); [by rewrite orb_true_r|].
    assert ((0xb8000 <=? va) && (va <? 0xb9000) = false) as ->; [|done].
    apply andb_false_iff. rewrite Z.ltb_ge. lia.
Qed.

Lemma build_first m :
  (forall b, arena b -> rd8 m b = 0) -> ld8 m valid = 0 ->
  types_ok vcpu (s_ept_low s) (s_ept_high s) -> types_ok vcpu 0xfee00000 0xfee01000 ->
  types_ok vcpu 0 0x100000 ->
  exists m', shv_build_ept a s invept g_shv_opt vcpu ept_num m = Ok (root, m') /\ ept_built m' /\
    agree (fun b => ~ arena b) (stamp (st8 m valid 1)) m' /\
    forall va, 0 <= va < 2 ^ 48 ->
      maps_as root va m' (match ept_override va with Some x => x | None => id_leaf va end).
Proof.
  intros Hz Hv Ht1 Ht2 Ht4. rewrite shv_build_ept_unfold. rewrite Hv. cbn [truth negb Z.eqb].
  set (m0 := st8 m valid 1).
  assert (agree (fun b => ~ (b = valid)) m m0) as Hf0.
  { apply agree_st. unfold in_range. intros b Hb. lia. }
  destruct (build_identity_ok m0) as (o & pa & mt & m1 & T & l & E & Hleaf & Hs & Ho & Hf & Hl & Hid);
    [|done..|].
  { intros b Hb. rewrite Hf0; [by apply Hz|]. intros ->. by apply (lay_valid Hlay). }
  unfold truth. cbn [negb Z.eqb]. rewrite E. cbn [mbind res_bind].
  assert (forall va k, 1 <= k -> missing (ctx := ctx) m1 va k <= 4 - k \/ 4 <= k) as Hmiss.
  { intros va k Hk. pose proof (depth_ept a root pool alloc m1 T l va (es_inv _ _ _ _ _ _ _ _ Hs)).
    unfold missing. cbn in *. lia. }
  destruct (build_rest_ok 1 m1 T l o pa mt) as (m' & E' & Hb & Hf' & Hm); try done; [by left| |].
  { pose proof (Hmiss 0x12340000 1). pose proof (Hmiss large0 2). pose proof (Hmiss large1 2).
    destruct use_large; lia. }
  exists m'. split; [done|]. split; [done|]. split.
  - eapply agree_trans; [|exact Hf']. unfold stamp, large_stamp. destruct use_large; by repeat (apply agree_memset_both; [done|]).
  - intros va Hva. specialize (Hm va Hva). specialize (Hid va Hva).
    destruct (ept_override va); [done|]. unfold maps_as in *. by rewrite Hm.
Qed.
End build.
