(* ===== verification/EptMtrr.v ===== *)
(** Memory types of [src/shv-ept.c]: what [ept_get_mem_type] returns for the
    fixed and for the variable range registers, and the state [shv_ept_init]
    leaves for it. *)
From S2P Require Import Prelude Ept.

(** ** Variable ranges *)

(** A variable range register pair covers the page at [p]. *)
Definition var_covers (p : Z) (r : Z * Z) : bool :=
  truth (Z.land r.2 (Z.shiftl 1 11)) &&
  (Z.land p (Z.land r.2 (bnot 64 0xfff)) =?
   Z.land (Z.land r.1 (bnot 64 0xfff)) (Z.land r.2 (bnot 64 0xfff))).

(** The types of the ranges that cover [p]. *)
Definition covering_types (vcpu : ept_vcpu) (p : Z) : list Z :=
  (fun r => Z.land r.1 0xff) <$> filter (fun r => var_covers p r = true) (take (Z.to_nat (var_count vcpu)) (var_mtrrs vcpu)).

(** The type the manual gives to overlapping ranges, for the combinations it
    defines. *)
Definition combined_type (ts : list Z) (default : Z) : Z :=
  if bool_decide (ts = []) then default
  else if bool_decide (MTRR_TYPE_UC ∈ ts) then MTRR_TYPE_UC
  else if bool_decide (MTRR_TYPE_WT ∈ ts) then MTRR_TYPE_WT else MTRR_TYPE_WB.

Definition combine1 (prev cur : Z) : res Z :=
  if (prev =? MTRR_TYPE_RESV) || (prev =? cur) then Ok cur
  else if (prev =? MTRR_TYPE_UC) || (cur =? MTRR_TYPE_UC) then Ok MTRR_TYPE_UC
  else if (prev =? MTRR_TYPE_WB) && (cur =? MTRR_TYPE_WT) then Ok MTRR_TYPE_WT
  else if (prev =? MTRR_TYPE_WT) && (cur =? MTRR_TYPE_WB) then Ok MTRR_TYPE_WT
  else Err Halt.

Lemma var_step_covers p prev base mask :
  var_step p prev base mask =
  if var_covers p (base, mask) then combine1 prev (Z.land base 0xff) else Ok prev.
Proof.
  unfold var_step, var_covers, combine1. cbn [fst snd].
  destruct (truth _); cbn [negb andb]; [|done]. by destruct (_ =? _).
Qed.

(** The loop folds [combine1] over the covering types. *)
Fixpoint combine_all (ts : list Z) (prev : Z) : res Z :=
  match ts with
  | [] => Ok prev
  | t :: ts => prev ← combine1 prev t; combine_all ts prev
  end.

Lemma var_loop_types vcpu p k i prev :
  (i + k <= length (var_mtrrs vcpu))%nat ->
  var_loop k i vcpu p prev =
  combine_all ((fun r => Z.land r.1 0xff) <$>
    filter (fun r => var_covers p r = true) (take k (drop i (var_mtrrs vcpu)))) prev.
Proof.
  revert i prev. induction k as [|k IH]; intros i prev Hlen; [done|]. cbn [var_loop].
  destruct (var_mtrrs vcpu !! i) as [[base mask]|] eqn:E.
  2: { apply lookup_ge_None in E. lia. }
  rewrite (drop_S _ _ _ E). cbn [take]. rewrite var_step_covers, filter_cons.
  destruct (var_covers p (base, mask)) eqn:Ec.
  - rewrite decide_True by done. cbn [fmap list_fmap combine_all fst].
    destruct (combine1 _ _); [|done]. cbn [mbind res_bind]. apply IH. lia.
  - rewrite decide_False by congruence. cbn [mbind res_bind]. apply IH. lia.
Qed.

Definition plain_type (t : Z) : Prop := t = MTRR_TYPE_UC \/ t = MTRR_TYPE_WT \/ t = MTRR_TYPE_WB.

Lemma combine_plain ts prev :
  Forall plain_type ts -> plain_type prev ->
  combine_all ts prev = Ok (combined_type (prev :: ts) 0).
Proof.
  revert prev. induction ts as [|t ts IH]; intros prev Hts Hp.
  - unfold combined_type. destruct Hp as [->|[->| ->]]; done.
  - apply Forall_cons in Hts as [Ht Hts]. cbn [combine_all].
    assert (forall q, plain_type q -> combine1 prev t = Ok q ->
      (forall x, plain_type x -> (MTRR_TYPE_UC = x -> x ∈ q :: ts <-> x ∈ prev :: t :: ts)) ->
      (MTRR_TYPE_UC ∉ prev :: t :: ts -> MTRR_TYPE_WT ∈ q :: ts <-> MTRR_TYPE_WT ∈ prev :: t :: ts) ->
      (prev ← combine1 prev t; combine_all ts prev) = Ok (combined_type (prev :: t :: ts) 0)) as Hstep.
    { intros q Hq E HU HT. rewrite E. cbn [mbind res_bind]. rewrite IH by done. f_equal.
      unfold combined_type. rewrite !(bool_decide_eq_false_2 (_ = [])) by done.
      specialize (HU MTRR_TYPE_UC ltac:(by left) eq_refl).
      rewrite (bool_decide_ext _ _ HU). case_bool_decide as Hu; [done|].
      by rewrite (bool_decide_ext _ _ (HT Hu)). }
    destruct Hp as [->|[->| ->]], Ht as [->|[->| ->]];
      (eapply Hstep; [|reflexivity|..]; [by (left + (right; left) + (right; right))|..]);
      intros; rewrite ?elem_of_cons in *; unfold MTRR_TYPE_UC, MTRR_TYPE_WT, MTRR_TYPE_WB in *;
      intuition congruence.
Qed.

Lemma combine_all_plain ts :
  Forall plain_type ts -> ts <> [] -> combine_all ts MTRR_TYPE_RESV = Ok (combined_type ts 0).
Proof.
  intros Hts Hne. destruct ts as [|t ts]; [done|]. apply Forall_cons in Hts as [Ht Hts].
  cbn [combine_all]. change (combine1 MTRR_TYPE_RESV t) with (Ok t). cbn [mbind res_bind].
  by apply combine_plain.
Qed.

Lemma combined_type_range ts : is_u 8 (combined_type ts 0).
Proof. unfold combined_type. repeat case_bool_decide; done. Qed.

(** For a page no fixed range applies to, [ept_get_mem_type] gives the default
    type when no variable range covers the page, and otherwise, for the types whose
    overlap the manual defines (UC, WT, WB), UC if some covering range is UC, else
    WT if some is WT, else WB; whatever the order of the registers. *)
Theorem ept_get_mem_type_variable vcpu p :
  vmx_ept_mtrr_enable vcpu = true ->
  0x100000 <= p \/ vmx_ept_fixmtrr_enable vcpu = false ->
  (Z.to_nat (var_count vcpu) <= length (var_mtrrs vcpu))%nat ->
  is_u 8 (vmx_ept_defaulttype vcpu) ->
  Forall plain_type (covering_types vcpu p) ->
  ept_get_mem_type vcpu p =
  Ok (combined_type (covering_types vcpu p) (vmx_ept_defaulttype vcpu)).
Proof.
  intros He Hf Hlen Hd Hts. unfold ept_get_mem_type. rewrite He. cbn [negb].
  assert ((p <? 0x100000) && vmx_ept_fixmtrr_enable vcpu = false) as ->.
  { destruct Hf as [Hf| ->]; [|by rewrite andb_false_r]. by rewrite (proj2 (Z.ltb_ge p _)). }
  rewrite var_loop_types by lia. rewrite drop_0.
  change (combine_all _ MTRR_TYPE_RESV) with (combine_all (covering_types vcpu p) MTRR_TYPE_RESV).
  destruct (decide (covering_types vcpu p = [])) as [E|E].
  - rewrite E. cbn. by rewrite (wrap_small 8).
  - rewrite combine_all_plain by done. cbn [mbind res_bind].
    assert (combined_type (covering_types vcpu p) (vmx_ept_defaulttype vcpu) =
            combined_type (covering_types vcpu p) 0) as ->
      by (unfold combined_type; by rewrite !(bool_decide_eq_false_2 (_ = [])) by done).
    assert ((combined_type (covering_types vcpu p) 0 =? MTRR_TYPE_RESV) = false) as ->
      by (unfold combined_type; by repeat case_bool_decide).
    f_equal. apply wrap_small, combined_type_range.
Qed.

(** ** Fixed ranges *)

(** The subtraction is the wrong way round: for every page after the first of a
    range it wraps around, and the shift count that follows is too large. *)
Lemma fixed_index_wraps start sh p msr :
  sh = 12 \/ sh = 14 \/ sh = 16 ->
  start < p < start + 8 * 2 ^ sh ->
  shr 64 msr (u32 (u32 (u64 (start - p) / 2 ^ sh) * 8)) = Err Undef.
Proof.
  intros Hsh Hp. set (q := u64 (start - p) / 2 ^ sh).
  assert (exists k, 1 <= k <= 8 /\ q = 2 ^ (64 - sh) - k) as (k & Hk & ->).
  { exists (2 ^ (64 - sh) - q). split; [|lia]. unfold q.
    assert (u64 (start - p) = 2 ^ 64 - (p - start)) as ->.
    { unfold u64, wrap. symmetry. apply (Z.mod_unique_pos _ _ (-1)); [|lia].
      destruct Hsh as [->|[->| ->]]; lia. }
    set (d := p - start). assert (0 < d < 8 * 2 ^ sh) by (unfold d; lia).
    pose proof (Z.div_mod (2 ^ 64 - d) (2 ^ sh)) as Hdm.
    pose proof (Z.mod_pos_bound (2 ^ 64 - d) (2 ^ sh)) as Hmb.
    set (r := (2 ^ 64 - d) mod 2 ^ sh) in *. set (v := (2 ^ 64 - d) / 2 ^ sh) in *.
    destruct Hsh as [->|[->| ->]]; lia. }
  assert (u32 (2 ^ (64 - sh) - k) = 2 ^ 32 - k) as ->.
  { unfold u32, wrap. symmetry. apply (Z.mod_unique_pos _ _ (2 ^ (32 - sh) - 1)); [lia|].
    destruct Hsh as [->|[->| ->]]; lia. }
  assert (u32 ((2 ^ 32 - k) * 8) = 2 ^ 32 - 8 * k) as ->.
  { unfold u32, wrap. symmetry. apply (Z.mod_unique_pos _ _ 7); lia. }
  unfold shr. rewrite (proj2 (Z.ltb_ge _ 64)) by lia. by rewrite andb_false_r.
Qed.

Lemma fixed_loop_at vcpu p props i :
  Forall (fun q => exists sh, (sh = 12 \/ sh = 14 \/ sh = 16) /\ fm_step q = 2 ^ sh /\
                              fm_end q = fm_start q + 8 * 2 ^ sh) props ->
  (i + length props <= length (fix_mtrrs vcpu))%nat ->
  (forall j q q', props !! j = Some q -> props !! S j = Some q' -> fm_start q' = fm_end q) ->
  (forall q, head props = Some q -> fm_start q <= p) -> (exists q, last props = Some q /\ p < fm_end q) ->
  exists j q msr, props !! j = Some q /\ fix_mtrrs vcpu !! (i + j)%nat = Some msr /\
    fm_start q <= p < fm_end q /\
    fixed_loop props i vcpu p = if p =? fm_start q then Ok (u8 msr) else Err Undef.
Proof.
  revert i. induction props as [|q props IH]; intros i Hsh Hlen Hadj Hlow [ql [Hlast Hhi]]; [done|].
  apply Forall_cons in Hsh as [(sh & Hsh1 & Hstep & Hend) Hsh]. cbn [fixed_loop length] in *.
  specialize (Hlow q eq_refl). destruct (Z.ltb_spec p (fm_end q)).
  - destruct (fix_mtrrs vcpu !! i) as [msr|] eqn:E; [|apply lookup_ge_None in E; lia].
    exists 0%nat, q, msr. rewrite Nat.add_0_r. do 3 (split; [done|]).
    destruct (Z.eqb_spec p (fm_start q)) as [->|Hne].
    + rewrite Z.sub_diag, Hstep.
      assert (u64 0 / 2 ^ sh = 0) as -> by (destruct Hsh1 as [->|[->| ->]]; done).
      cbn. unfold shr. cbn. by rewrite Z.shiftr_0_r.
    + rewrite Hstep, fixed_index_wraps by (done || lia). done.
  - destruct props as [|q' props]; [cbn in Hlast; simplify_eq; lia|].
    destruct (IH (S i)) as (j & r & msr & H1 & H2 & H3 & H4); [done|lia| | | |].
    + intros j r r' Hr Hr'. apply (Hadj (S j)); done.
    + intros r [= <-]. rewrite (Hadj 0%nat q q') by done. lia.
    + exists ql. split; [done|lia].
    + exists (S j), r, msr. by replace (i + S j)%nat with (S i + j)%nat by lia.
Qed.

(** With the fixed range registers enabled, the type of a page below 1 MB is
    the first byte of its range's register when the page starts the range; for
    every other page the shift count is out of range, because the source subtracts
    the page address from the start of the range. *)
Theorem ept_get_mem_type_fixed vcpu p :
  vmx_ept_mtrr_enable vcpu = true -> vmx_ept_fixmtrr_enable vcpu = true ->
  length (fix_mtrrs vcpu) = 11%nat -> 0 <= p < 0x100000 ->
  exists j q msr, fixed_mtrr_prop !! j = Some q /\ fix_mtrrs vcpu !! j = Some msr /\
    fm_start q <= p < fm_end q /\
    ept_get_mem_type vcpu p = if p =? fm_start q then Ok (u8 msr) else Err Undef.
Proof.
  intros He Hf Hlen Hp. unfold ept_get_mem_type. rewrite He, Hf. cbn [negb].
  rewrite (proj2 (Z.ltb_lt p _)) by lia. cbn [andb].
  apply (fixed_loop_at vcpu p fixed_mtrr_prop 0); [| | | |].
  - repeat (apply Forall_cons; split;
      [first [by exists 16; split; [auto|] | by exists 14; split; [auto|] | by exists 12; split; [auto|]]|]).
    by apply Forall_nil.
  - rewrite Hlen. cbn. lia.
  - intros j q q' H1 H2. do 11 (destruct j as [|j]; [cbn in *; by simplify_eq|]). done.
  - intros q [= <-]. cbn. lia.
  - eexists. split; [reflexivity|]. cbn. lia.
Qed.

(** ** [shv_ept_init] *)

(** What [ept_get_mem_type] needs of the state. *)
Record mtrr_wf (vcpu : ept_vcpu) : Prop := {
  wf_count : 0 <= var_count vcpu <= MAX_VARIABLE_MTRR_PAIRS;
  wf_vars : length (var_mtrrs vcpu) = 10%nat;
  wf_fixed : length (fix_mtrrs vcpu) = 11%nat;
  wf_default : is_u 8 (vmx_ept_defaulttype vcpu);
  wf_support : vmx_ept_fixmtrr_enable vcpu = true -> vmx_ept_fixmtrr_support vcpu = true }.

Section init.
Context (cpuid_eax rdmsr64 : Z -> Z).

Lemma read_var_length k i l : length (read_var rdmsr64 k i l) = length l.
Proof. revert i l. induction k as [|k IH]; intros i l; cbn; [done|]. by rewrite IH, length_insert. Qed.

Lemma read_var_lookup k i l j :
  0 <= i -> (Z.to_nat i + k <= length l)%nat ->
  read_var rdmsr64 k i l !! j =
  if bool_decide (Z.to_nat i <= j < Z.to_nat i + k)%nat
  then Some (u64 (rdmsr64 (u32 (IA32_MTRR_PHYSBASE0 + 2 * Z.of_nat j))),
             u64 (rdmsr64 (u32 (IA32_MTRR_PHYSMASK0 + 2 * Z.of_nat j))))
  else l !! j.
Proof.
  revert i l. induction k as [|k IH]; intros i l Hi Hl; cbn [read_var].
  - rewrite bool_decide_eq_false_2 by lia. done.
  - rewrite IH by (rewrite ?length_insert; lia).
    destruct (decide (j = Z.to_nat i)) as [->|Hne].
    + rewrite bool_decide_eq_false_2, bool_decide_eq_true_2 by lia.
      rewrite list_lookup_insert_eq by lia. by rewrite Z2Nat.id by lia.
    + rewrite list_lookup_insert_ne by done. repeat case_bool_decide; done || lia.
Qed.

Lemma read_fixed_length l : length (read_fixed rdmsr64 l) = length l.
Proof.
  unfold read_fixed. generalize (imap (fun i p => (i, p)) fixed_mtrr_prop) as ps. intros ps.
  revert l. induction ps as [|[i p] ps IH]; intros l; cbn; [done|]. by rewrite IH, length_insert.
Qed.

(** C36: [shv_ept_init] halts or leaves a state in which every index the memory
  type computation uses is in range; the physical address mask has exactly the
  bits from 12 to MAXPHYADDR - 1; and the variable range registers are those
  the processor reports. *)
Theorem shv_ept_init_wf vcpu :
  length (var_mtrrs vcpu) = 10%nat -> length (fix_mtrrs vcpu) = 11%nat ->
  match shv_ept_init cpuid_eax rdmsr64 vcpu with
  | Ok v => mtrr_wf v /\
      (exists w, 32 <= w < 64 /\ w = Z.land (u32 (cpuid_eax 0x80000008)) 0xff /\
         forall i, 0 <= i -> Z.testbit (vmx_ept_paddrmask v) i = (12 <=? i) && (i <? w)) /\
      (forall j, (j < Z.to_nat (var_count v))%nat ->
         var_mtrrs v !! j = Some (u64 (rdmsr64 (u32 (IA32_MTRR_PHYSBASE0 + 2 * Z.of_nat j))),
                                  u64 (rdmsr64 (u32 (IA32_MTRR_PHYSMASK0 + 2 * Z.of_nat j)))))
  | Err e => e = Halt
  end.
Proof.
  intros Hv Hf. unfold shv_ept_init.
  destruct (0x80000008 <=? u32 (cpuid_eax 0x80000000)); [|done]. cbn [ASSERT mbind res_bind].
  set (w := Z.land (u32 (cpuid_eax 2147483656)) 255).
  destruct (Z.leb_spec 32 w), (Z.ltb_spec w 64); try done. cbn [andb ASSERT mbind res_bind].
  assert (shl 64 1 w = Ok (2 ^ w)) as ->.
  { unfold shl. rewrite (proj2 (Z.leb_le 0 w)), (proj2 (Z.ltb_lt w 64)) by lia. cbn [andb].
    rewrite Z.shiftl_1_l. rewrite wrap_small; [done|]. split; [lia|]. apply Z.pow_lt_mono_r; lia. }
  cbn [mbind res_bind]. set (count := u8 _).
  assert (0 <= count) by (apply is_u_wrap; lia).
  destruct (Z.leb_spec count MAX_VARIABLE_MTRR_PAIRS) as [Hc|Hc]; [|done].
  cbn [ASSERT mbind res_bind]. destruct (truth (Z.land _ (Z.shiftl 1 8)) || _) eqn:Es; [|done].
  cbn [ASSERT mbind res_bind]. unfold MAX_VARIABLE_MTRR_PAIRS in Hc. split; [|split].
  - constructor; cbn; try (unfold MAX_VARIABLE_MTRR_PAIRS; lia).
    + by rewrite read_var_length.
    + case_match; [|done]. transitivity (length (fix_mtrrs vcpu)); [apply read_fixed_length|done].
    + change 255 with (Z.ones 8). rewrite Z.land_ones by lia. apply Z.mod_pos_bound. lia.
    + intros E. rewrite E in Es. by rewrite orb_false_r in Es.
  - exists w. split; [lia|]. split; [done|]. cbn. intros i Hi.
    assert (2 ^ 12 <= 2 ^ w) by (apply Z.pow_le_mono_r; lia).
    assert (2 ^ w < 2 ^ 64) by (apply Z.pow_lt_mono_r; lia).
    unfold u64. rewrite wrap_small by (unfold is_u; lia).
    assert (2 ^ w - 4096 = Z.shiftl (Z.ones (w - 12)) 12) as ->.
    { rewrite Z.shiftl_mul_pow2, Z.ones_equiv by lia.
      replace (2 ^ w) with (2 ^ (w - 12) * 2 ^ 12) by (rewrite <- Z.pow_add_r by lia; f_equal; lia).
      lia. }
    bits; done.
  - cbn. intros j Hj. rewrite read_var_lookup by lia.
    by rewrite bool_decide_eq_true_2 by lia.
Qed.
End init.

(** ** The properties at concrete registers *)

(** All memory write-back, the local APIC page uncached; fixed ranges enabled. *)
Definition demo_mtrrs : ept_vcpu :=
  EptVcpu 0 MTRR_TYPE_WB true true true 0xffffff000 0xc06 (0x0606060606060606 :: replicate 10 0)
    2 ((0x6, 0x800) :: (0xfee00000, 0xffffff800) :: replicate 8 (0, 0)).

Lemma ept_get_mem_type_variable_witness :
  ept_get_mem_type demo_mtrrs 0xfee00000 = Ok MTRR_TYPE_UC.
Proof.
  rewrite (ept_get_mem_type_variable demo_mtrrs 0xfee00000).
  - vm_compute. reflexivity.
  - reflexivity.
  - left. lia.
  - vm_compute. lia.
  - split; vm_compute; congruence.
  - vm_compute. apply Forall_cons. split; [right; right; reflexivity|].
    apply Forall_cons. split; [left; reflexivity|apply Forall_nil; exact I].
Defined.

Lemma ept_get_mem_type_fixed_witness :
  ept_get_mem_type demo_mtrrs 0 = Ok 6 /\ ept_get_mem_type demo_mtrrs 0x1000 = Err Undef.
Proof.
  split.
  - destruct (ept_get_mem_type_fixed demo_mtrrs 0) as (j & q & msr & Hq & Hm & Hr & E).
    + reflexivity.
    + reflexivity.
    + reflexivity.
    + lia.
    + reflexivity.
  - destruct (ept_get_mem_type_fixed demo_mtrrs 0x1000) as (j & q & msr & Hq & Hm & Hr & E).
    + reflexivity.
    + reflexivity.
    + reflexivity.
    + lia.
    + rewrite E. destruct (Z.eqb_spec 0x1000 (fm_start q)) as [Es|_]; [|reflexivity].
      do 11 (destruct j as [|j]; [cbn in Hq; injection Hq as <-; cbn in Es; discriminate Es|]).
      discriminate Hq.
Defined.

(** MAXPHYADDR 36, one variable range, fixed ranges supported and enabled. *)
Definition demo_msr (i : Z) : Z :=
  if i =? IA32_MTRRCAP then 0x101 else if i =? IA32_MTRR_DEF_TYPE then 0xc06 else 0.

Lemma shv_ept_init_wf_witness :
  length (var_mtrrs demo_mtrrs) = 10%nat /\
  match shv_ept_init (fun l => if l =? 0x80000000 then 0x80000008 else 36) demo_msr demo_mtrrs with
  | Ok v => mtrr_wf v
  | Err _ => False
  end.
Proof.
  split; [reflexivity|].
  pose proof (shv_ept_init_wf (fun l => if l =? 0x80000000 then 0x80000008 else 36) demo_msr demo_mtrrs
    eq_refl eq_refl) as H.
  destruct (shv_ept_init _ demo_msr demo_mtrrs) as [v|e] eqn:E; [apply H|].
  vm_compute in E. discriminate E.
Defined.
