(* ===== verification/EptProps.v ===== *)
(** Properties of the page table walker and of the EPT construction, with a
    concrete layout that satisfies their assumptions. *)
From S2P Require Import Prelude Bitfield HptConsts Hpt HptLemmas Mem LibcString Hpto.
From S2P Require Import Hptw Walk HptwProofs HptwInsert Ept EptCtx EptMap EptBuild.
From S2P Require Import EptMtrr.

(** ** Inserting an entry refines an update of the mapping *)

(** C9: [hptw_insert_pmeo_alloc], run on any context that satisfies the interface
    and any well-formed tree, returns 0 or 1 and never fails otherwise.  When it
    returns 0, exactly the addresses of the entry's region have changed: they are
    mapped by the new entry (or by nothing, when it is not present).  When it
    returns 1, no address is mapped differently, and a large page is in the way or
    the allocator has fewer pages than tables are missing.  The tree is well-formed
    again, and no byte outside the tables, the free pages and the allocator's state
    was written. *)
Theorem hptw_insert_pmeo_alloc_refines ctx ok free meta m T l o va :
  WalkCtx ctx ok -> AllocCtx ctx ok free meta -> inv ctx ok free meta m T l ->
  pmeo_t o = ctx_t ctx -> lvl_ok (ctx_t ctx) (pmeo_lvl o) -> is_u 64 (pmeo_pme o) ->
  descends (ctx_t ctx) (pmeo_lvl o) (pmeo_pme o) = false ->
  exists rc m' T' l', hptw_insert_pmeo_alloc ctx o va m = Ok (rc, m') /\
    inv ctx ok free meta m' T' l' /\
    agree (fun a => ~ owned (ctx := ctx) (meta := meta) T l a) m m' /\
    ((rc = 0 /\ forall va', mapping (ctx_t ctx) (ctx_root_pa ctx) va' m' =
        if decide (same_region (ctx_t ctx) (pmeo_lvl o) va va')
        then if pme_present (ctx_t ctx) (pmeo_pme o)
             then Some (pmeo_lvl o, pme_trunc (ctx_t ctx) (pmeo_pme o)) else None
        else mapping (ctx_t ctx) (ctx_root_pa ctx) va' m) \/
     (rc = 1 /\ blocked (ctx := ctx) m va (pmeo_lvl o) l /\
      forall va', mapping (ctx_t ctx) (ctx_root_pa ctx) va' m' =
                  mapping (ctx_t ctx) (ctx_root_pa ctx) va' m)).
Proof.
  intros HW HA Hi Ht Hl He Hd.
  destruct (insert_pmeo_alloc_ok (ctx := ctx) m T l o va)
    as (rc & m' & T' & l' & E & Hi' & [[-> H]|(-> & Hb & H)]); [done..| |];
    exists rc || (eexists _); exists m', T', l'; (split; [done|]); (split; [done|]); split.
  - apply (ins_frame _ _ _ _ _ _ _ _ _ H).
  - left. split; [done|]. apply (ins_mapping _ _ _ _ _ _ _ _ _ H).
  - apply (grow_frame _ _ _ _ _ _ H).
  - right. split; [done|]. split; [done|]. apply (grow_mapping _ _ _ _ _ _ H).
Qed.

(** ** Translation *)

Lemma land_mask_low va hi : 0 <= hi <= 63 -> Z.land va (wrap 64 (Z.shiftl (Z.ones (hi - 0 + 1)) 0)) = va mod 2 ^ (hi + 1).
Proof.
  intros H. rewrite Z.shiftl_0_r, wrap_small.
  - replace (hi - 0 + 1) with (hi + 1) by lia. apply Z.land_ones. lia.
  - rewrite Z.ones_equiv. unfold is_u.
    assert (0 < 2 ^ (hi - 0 + 1) <= 2 ^ 64) by (split; [apply Z.pow_pos_nonneg; lia|apply Z.pow_le_mono_r; lia]).
    lia.
Qed.

Lemma pme_addr_range t lvl e : is_u (addr_hi t + 1) (pme_addr t lvl e).
Proof.
  pose proof (addr_hi_bounds t). pose proof (addr_lo_bounds t lvl (pme_page t lvl e)).
  apply is_u_of_testbit; [lia|apply ins64_range|]. intros i Hi. unfold pme_addr.
  destruct (decide (i < 64)); [|apply (is_u_testbit_high 64); [apply ins64_range|lia]].
  bits; done.
Qed.

Lemma va_hi_row t l : 0 <= l <= max_lvl t -> t <> HPT_TYPE_INVALID -> tbl_get (hpt_va_idx_hi t) l = Ok (va_hi t l).
Proof.
  intros H Ht. assert (l = 0 \/ l = 1 \/ l = 2 \/ l = 3 \/ l = 4) as C by (destruct t; cbn in *; lia).
  destruct t; try done; destruct C as [->|[->|[->|[->| ->]]]]; cbn in *; try done; lia.
Qed.

Lemma va_to_pa_ok t lvl e va :
  lvl_ok t lvl -> (t = HPT_TYPE_NORM -> is_u 32 e) ->
  hpt_pmeo_va_to_pa (HptPmeo e t lvl) va =
  if pme_page t lvl e then Ok (pme_addr t lvl e + va mod 2 ^ (va_hi t (lvl - 1) + 1)) else Err Halt.
Proof.
  intros H Hn. unfold hpt_pmeo_va_to_pa, hpt_pmeo_get_address, pmeo_offset_hi. cbn [pmeo_t pmeo_lvl pmeo_pme].
  rewrite hpt_pme_is_page_ok by done. destruct (pme_page t lvl e); [|done].
  cbn [ASSERT mbind res_bind]. rewrite hpt_pme_get_address_ok by done. cbn [mbind res_bind].
  pose proof (va_hi_step t lvl H). unfold lvl_ok in H.
  rewrite va_hi_row by (lia || intros ->; cbn in H; lia). cbn [mbind res_bind].
  rewrite MASKRANGE64_ok by lia. cbn [mbind res_bind]. f_equal.
  rewrite land_mask_low by lia. apply wrap_small.
  pose proof (pme_addr_range t lvl e) as [Ha1 Ha2]. pose proof (addr_hi_bounds t).
  assert (2 ^ (addr_hi t + 1) <= 2 ^ 52) by (apply Z.pow_le_mono_r; lia).
  assert (0 < 2 ^ (va_hi t (lvl - 1) + 1) <= 2 ^ 48)
    by (split; [apply Z.pow_pos_nonneg; lia|apply Z.pow_le_mono_r; lia]).
  pose proof (Z.mod_pos_bound va (2 ^ (va_hi t (lvl - 1) + 1))). unfold is_u. lia.
Qed.

(** C27: [hptw_va_to_pa] walks to the entry the reference walk ends at; if that entry
    maps a page, the result is the page's address plus the offset of the address in
    a page of that level, and otherwise the walk stopped at an entry that maps
    nothing and the assertion in [hpt_pmeo_va_to_pa] halts.  The present bit of a
    level-1 entry is not consulted. *)
Theorem hptw_va_to_pa_walk ctx ok m T va :
  WalkCtx ctx ok -> tree (ctx_t ctx) ok (ctx_root_pa ctx) m T ->
  hptw_va_to_pa ctx va m =
  let '(lvl, _, e) := walk (ctx_t ctx) (max_lvl (ctx_t ctx)) (ctx_root_pa ctx) va m in
  if pme_page (ctx_t ctx) lvl e
  then Ok (pme_addr (ctx_t ctx) lvl e + va mod 2 ^ (va_hi (ctx_t ctx) (lvl - 1) + 1))
  else Err Halt.
Proof.
  intros HW Ht. unfold hptw_va_to_pa. rewrite (hptw_get_pmeo_walk m T) by done.
  destruct (walk _ _ _ va m) as [[lvl q] e] eqn:E.
  apply (walk_end m T) in E as (Hl & _ & -> & _); [|done]. cbn [mbind res_bind].
  apply va_to_pa_ok; [done|]. by apply ld_pme_norm.
Qed.

(** ** A concrete layout *)

Definition demo_syms : ept_syms :=
  EptSyms 0x200000 0x400000 0x500000 0x600000 0x1000000 0x700000 0x800000 0x2000000.
Definition demo_vcpu : ept_vcpu :=
  EptVcpu 0 0 false false false 0xfffffffff000 0 (replicate 11 0) 0 (replicate 10 (0, 0)).

Lemma demo_layout num : 0 <= num < 32 -> ept_layout AMD64 demo_syms demo_vcpu num.
Proof.
  intros Hn. assert (0 <= Z.shiftr num 4 < 2).
  { rewrite Z.shiftr_div_pow2 by lia. split; [apply Z.div_pos; lia|apply Z.div_lt_upper_bound; lia]. }
  constructor; unfold arena, in_range, ept_root_at, ept_pool_at, ept_alloc_at, ept_valid_at,
    ept_target_at, large_pages_at, MAX_VCPU_ENTRIES, SHV_EPT_COUNT, EPT_POOL_SIZE, PAGE_SIZE_4K,
    PA_PAGE_SIZE_2M in *; cbn [demo_syms demo_vcpu v_idx s_ept_low s_ept_high s_ept_valid s_ept_root
      s_ept_pool s_ept_alloc s_ept_target s_large_pages ptr_bits];
    try lia; try done; try (change (Z.min 48 64) with 48; lia).
  - constructor; unfold EPT_POOL_SIZE; cbn [ptr_bits]; try lia.
    + replace (0x1000000 + _) with (0 + (0x1000 + (0 * 2 + Z.shiftr num 4) * 128) * 4096) by lia.
      by rewrite Z.mod_add by lia.
    + change (Z.min 48 64) with 48. lia.
  - by rewrite Z.mod_add by lia.
Qed.

Lemma demo_types low high : types_ok demo_vcpu low high.
Proof. intros p _ _. exists 0. done. Qed.

Lemma demo_state : ept_state AMD64 0x600000 0x1000000 0x700000 1 ∅ (no_tables demo_syms demo_vcpu 1)
                     (all_pages demo_syms demo_vcpu 1).
Proof. apply (state_init AMD64 demo_syms demo_vcpu 1 (demo_layout 1 ltac:(lia)) ∅). done. Qed.

(** A page mapped with read, write and execute permission, to be inserted. *)
Definition demo_pmeo : hpt_pmeo_t := HptPmeo 0x5007 HPT_TYPE_EPT 1.

Lemma hptw_insert_pmeo_alloc_refines_witness :
  exists rc m', hptw_insert_pmeo_alloc (shv_ept_ctx AMD64 0x600000 0x1000000 0x700000) demo_pmeo 0x7123 ∅
    = Ok (rc, m') /\ rc = 0.
Proof.
  destruct (hptw_insert_pmeo_alloc_refines (shv_ept_ctx AMD64 0x600000 0x1000000 0x700000)
    (ept_ok AMD64) (ept_free 0x1000000 0x700000) (ept_meta 0x700000) ∅
    (no_tables demo_syms demo_vcpu 1) (all_pages demo_syms demo_vcpu 1) demo_pmeo 0x7123)
    as (rc & m' & T' & l' & E & _).
  - apply shv_ept_walk_ctx.
  - apply shv_ept_alloc_ctx. exact (lay_pool AMD64 demo_syms demo_vcpu 1 (demo_layout 1 ltac:(lia))).
  - exact (es_inv _ _ _ _ _ _ _ _ demo_state).
  - reflexivity.
  - split; vm_compute; discriminate.
  - split; vm_compute; congruence.
  - reflexivity.
  - exists rc, m'. split; [exact E|].
    apply (f_equal (fun r => match r with Ok (x, _) => x | Err _ => 1 end)) in E.
    vm_compute in E. symmetry. exact E.
Defined.

Lemma hptw_va_to_pa_walk_witness :
  tree HPT_TYPE_EPT (ept_ok AMD64) 0x600000 ∅ (no_tables demo_syms demo_vcpu 1) /\
  hptw_va_to_pa (shv_ept_ctx AMD64 0x600000 0x1000000 0x700000) 0x7123 ∅ = Err Halt.
Proof.
  assert (tree HPT_TYPE_EPT (ept_ok AMD64) 0x600000 ∅ (no_tables demo_syms demo_vcpu 1)) as Ht
    by exact (inv_tree _ _ _ (es_inv _ _ _ _ _ _ _ _ demo_state)).
  split; [exact Ht|].
  rewrite (hptw_va_to_pa_walk (shv_ept_ctx AMD64 0x600000 0x1000000 0x700000) (ept_ok AMD64) ∅
    (no_tables demo_syms demo_vcpu 1) 0x7123); [reflexivity|apply shv_ept_walk_ctx|exact Ht].
Defined.

(** ** The EPT of a virtual CPU *)

(** C1: the first [shv_build_ept] for a virtual CPU returns the root, and the EPT it
    leaves maps exactly: the image, the local APIC page and the first megabyte to
    themselves with the type of the MTRRs; 0x12340000 to the page of [ept_target]
    selected by [ept_num] (to nothing for 0); and, when large pages are used, the
    two 2 MB pages to each other.  The page pool is never exhausted. *)
Theorem shv_build_ept_first a s invept g_shv_opt vcpu ept_num m :
  ept_layout a s vcpu ept_num ->
  (forall b, arena s vcpu ept_num b -> rd8 m b = 0) ->
  ld8 m (ept_valid_at s (v_idx vcpu) (Z.shiftr ept_num 4)) = 0 ->
  types_ok vcpu (s_ept_low s) (s_ept_high s) -> types_ok vcpu 0xfee00000 0xfee01000 ->
  types_ok vcpu 0 0x100000 ->
  exists m', shv_build_ept a s invept g_shv_opt vcpu ept_num m
             = Ok (ept_root_at s (v_idx vcpu) (Z.shiftr ept_num 4), m') /\
    ept_built a s g_shv_opt vcpu ept_num m' /\
    forall va, 0 <= va < 2 ^ 48 ->
      maps_as (ept_root_at s (v_idx vcpu) (Z.shiftr ept_num 4)) va m'
        (match ept_override s g_shv_opt ept_num va with Some x => x | None => id_leaf s vcpu va end).
Proof.
  intros Hlay Hz Hv H1 H2 H3.
  destruct (build_first a s invept g_shv_opt vcpu ept_num Hlay m) as (m' & E & Hb & _ & Hm); [done..|].
  by exists m'.
Qed.

(** C20: every later [shv_build_ept] for the same virtual CPU changes only the page at
    0x12340000 (and, when large pages are used, the two large pages): every other
    address keeps its mapping, and the EPT can be rebuilt again. *)
Theorem shv_build_ept_again a s invept g_shv_opt vcpu ept_num m :
  ept_layout a s vcpu ept_num -> ept_built a s g_shv_opt vcpu ept_num m ->
  ld8 m (ept_valid_at s (v_idx vcpu) (Z.shiftr ept_num 4)) <> 0 ->
  invept VMX_INVEPT_SINGLECONTEXT (Z.lor (ept_root_at s (v_idx vcpu) (Z.shiftr ept_num 4)) 0x1e) = true ->
  exists m', shv_build_ept a s invept g_shv_opt vcpu ept_num m
             = Ok (ept_root_at s (v_idx vcpu) (Z.shiftr ept_num 4), m') /\
    ept_built a s g_shv_opt vcpu ept_num m' /\
    forall va, 0 <= va < 2 ^ 48 ->
      match ept_override s g_shv_opt ept_num va with
      | Some x => maps_as (ept_root_at s (v_idx vcpu) (Z.shiftr ept_num 4)) va m' x
      | None => mapping HPT_TYPE_EPT (ept_root_at s (v_idx vcpu) (Z.shiftr ept_num 4)) va m' =
                mapping HPT_TYPE_EPT (ept_root_at s (v_idx vcpu) (Z.shiftr ept_num 4)) va m
      end.
Proof.
  intros Hlay Hb Hv Hi.
  destruct (build_again a s invept g_shv_opt vcpu ept_num Hlay m) as (m' & E & Hb' & _ & Hm); [done..|].
  by exists m'.
Qed.

(** The arrays of [src/shv-ept.c] do not overlap. *)
Record arrays_apart (s : ept_syms) : Prop := {
  ap_root_pool : s_ept_root s + 20 * 4096 <= s_ept_pool s \/ s_ept_pool s + 20 * 128 * 4096 <= s_ept_root s;
  ap_root_alloc : s_ept_root s + 20 * 4096 <= s_ept_alloc s \/ s_ept_alloc s + 20 * 128 <= s_ept_root s;
  ap_pool_alloc : s_ept_pool s + 20 * 128 * 4096 <= s_ept_alloc s \/ s_ept_alloc s + 20 * 128 <= s_ept_pool s }.

Lemma arenas_disjoint s v1 n1 v2 n2 b :
  arrays_apart s -> 0 <= v_idx v1 < 10 -> 0 <= v_idx v2 < 10 ->
  0 <= Z.shiftr n1 4 < 2 -> 0 <= Z.shiftr n2 4 < 2 ->
  (v_idx v1, Z.shiftr n1 4) <> (v_idx v2, Z.shiftr n2 4) ->
  arena s v1 n1 b -> arena s v2 n2 b -> False.
Proof.
  intros [H1 H2 H3] Hv1 Hv2 Hg1 Hg2 Hne. set (g1 := Z.shiftr n1 4) in *. set (g2 := Z.shiftr n2 4) in *.
  assert (v_idx v1 * 2 + g1 <> v_idx v2 * 2 + g2) as Hne'.
  { intros E. apply Hne. f_equal; lia. }
  unfold arena, in_range, ept_root_at, ept_pool_at, ept_alloc_at, SHV_EPT_COUNT, EPT_POOL_SIZE, PAGE_SIZE_4K.
  fold g1 g2. set (x1 := v_idx v1 * 2 + g1) in *. set (x2 := v_idx v2 * 2 + g2) in *.
  assert (0 <= x1 < 20) by (unfold x1; lia). assert (0 <= x2 < 20) by (unfold x2; lia).
  clearbody x1 x2. clear Hv1 Hv2 Hg1 Hg2 Hne. lia.
Qed.

Lemma built_agree a s g_shv_opt vcpu ept_num m m' :
  ept_layout a s vcpu ept_num -> agree (arena s vcpu ept_num) m m' ->
  ept_built a s g_shv_opt vcpu ept_num m -> ept_built a s g_shv_opt vcpu ept_num m'.
Proof.
  intros Hlay Ha (k & T & l & Hk & Hs & Ho & Ht & Hl).
  destruct (state_agree a s vcpu ept_num Hlay k m m' T l Hs Ho Ha) as [Hs' Hw].
  exists k, T, l. rewrite !Hw. done.
Qed.

(** Where [shv_build_ept] may run: for the first time, with nothing in the tables of the CPU yet; or again, on the tables an
    earlier run has left, with an [INVEPT] that succeeds. *)
Definition first_time (s : ept_syms) (v : ept_vcpu) (n : Z) (m : mem) : Prop :=
  ld8 m (ept_valid_at s (v_idx v) (Z.shiftr n 4)) = 0 /\ (forall b, arena s v n b -> rd8 m b = 0) /\
  types_ok v (s_ept_low s) (s_ept_high s) /\ types_ok v 0xfee00000 0xfee01000 /\ types_ok v 0 0x100000.
Definition once_more (a : subarch) (s : ept_syms) (invept : Z -> Z -> bool) (g_shv_opt : Z) (v : ept_vcpu) (n : Z) (m : mem) : Prop :=
  ld8 m (ept_valid_at s (v_idx v) (Z.shiftr n 4)) <> 0 /\ ept_built a s g_shv_opt v n m /\
  invept VMX_INVEPT_SINGLECONTEXT (Z.lor (ept_root_at s (v_idx v) (Z.shiftr n 4)) 0x1e) = true.

(** What a run writes, the first or a later one. *)
Lemma build_frame a s invept g_shv_opt v n m : ept_layout a s v n ->
  first_time s v n m \/ once_more a s invept g_shv_opt v n m ->
  exists m', shv_build_ept a s invept g_shv_opt v n m = Ok (ept_root_at s (v_idx v) (Z.shiftr n 4), m') /\
    ept_built a s g_shv_opt v n m' /\ agree (fun b => ~ arena s v n b /\ ~ touched s g_shv_opt v n b) m m'.
Proof.
  intros L [(Hv & Hz & T1 & T2 & T3)|(Hv & Hb & Hi)].
  - destruct (build_first a s invept g_shv_opt v n L m) as (m' & E & Hb & Hf & _); [done..|]. apply first_frame in Hf. by exists m'.
  - destruct (build_again a s invept g_shv_opt v n L m) as (m' & E & Hb' & Hf & _); [done..|]. apply stamp_frame in Hf. by exists m'.
Qed.

(** C10: building the EPT of one virtual CPU, for the first time or again, does not change what the EPT of another
    virtual CPU (or of the other group of the same CPU) maps, at any address; and the other EPT can be rebuilt as before. *)
Theorem shv_build_ept_isolated a s invept g_shv_opt v1 n1 v2 n2 m :
  ept_layout a s v1 n1 -> ept_layout a s v2 n2 -> arrays_apart s ->
  (v_idx v1, Z.shiftr n1 4) <> (v_idx v2, Z.shiftr n2 4) ->
  (forall b, touched s g_shv_opt v1 n1 b -> ~ arena s v2 n2 b) ->
  first_time s v1 n1 m \/ once_more a s invept g_shv_opt v1 n1 m ->
  ept_built a s g_shv_opt v2 n2 m ->
  exists m', shv_build_ept a s invept g_shv_opt v1 n1 m = Ok (ept_root_at s (v_idx v1) (Z.shiftr n1 4), m') /\
    ept_built a s g_shv_opt v2 n2 m' /\
    forall va, mapping HPT_TYPE_EPT (ept_root_at s (v_idx v2) (Z.shiftr n2 4)) va m' =
               mapping HPT_TYPE_EPT (ept_root_at s (v_idx v2) (Z.shiftr n2 4)) va m.
Proof.
  intros L1 L2 Hap Hne Ht Hrun Hb2. destruct (build_frame a s invept g_shv_opt v1 n1 m L1 Hrun) as (m' & E & _ & Hf).
  assert (agree (arena s v2 n2) m m') as Ha.
  { eapply agree_weaken; [|exact Hf]. intros b Hb. split; [|intros Htb; by apply (Ht b)].
    intros Hb1. apply (arenas_disjoint s v1 n1 v2 n2 b); try done.
    - apply (lay_idx _ _ _ _ L1).
    - apply (lay_idx _ _ _ _ L2).
    - apply (grp_range _ _ _ _ L1).
    - apply (grp_range _ _ _ _ L2). }
  exists m'. split; [done|]. split; [by apply (built_agree _ _ _ _ _ m)|]. intros va. destruct Hb2 as (k & T & l & _ & Hs & Ho & _).
  destruct (state_agree a s v2 n2 L2 k m m' T l Hs Ho Ha) as [_ Hw]. unfold mapping. cbn [max_lvl]. by rewrite Hw.
Qed.

(** ** The properties at the concrete layout *)

Lemma shv_build_ept_first_witness :
  exists m', shv_build_ept AMD64 demo_syms (fun _ _ => true) 0x100 demo_vcpu 1 ∅ = Ok (0x600000, m') /\
    maps_as 0x600000 0x12340123 m' (Some (1, 0x801000, HPT_PMT_WB)) /\
    maps_as 0x600000 0x212345 m' (Some (1, 0x212000, 0)) /\
    maps_as 0x600000 0x2000000 m' (Some (2, 0x2200000, HPT_PMT_WB)) /\
    maps_as 0x600000 0x500000 m' None.
Proof.
  destruct (shv_build_ept_first AMD64 demo_syms (fun _ _ => true) 0x100 demo_vcpu 1 ∅)
    as (m' & E & _ & Hm).
  - apply demo_layout. lia.
  - reflexivity.
  - reflexivity.
  - apply demo_types.
  - apply demo_types.
  - apply demo_types.
  - exists m'. split; [exact E|].
    split; [exact (Hm 0x12340123 ltac:(lia))|]. split; [exact (Hm 0x212345 ltac:(lia))|].
    split; [exact (Hm 0x2000000 ltac:(lia))|exact (Hm 0x500000 ltac:(lia))].
Defined.

(** A memory in which the EPT of the demonstration CPU is built and marked so. *)
Lemma demo_built :
  exists m, ept_built AMD64 demo_syms 0 demo_vcpu 1 m /\ ld8 m 0x500000 <> 0 /\
    agree (fun b => ~ arena demo_syms demo_vcpu 1 b /\ ~ touched demo_syms 0 demo_vcpu 1 b) ∅ m.
Proof.
  pose proof (demo_layout 1 ltac:(lia)) as Hlay.
  destruct (build_first AMD64 demo_syms (fun _ _ => true) 0 demo_vcpu 1 Hlay ∅)
    as (m & _ & Hb & Hf & _); try done; try apply demo_types.
  apply first_frame in Hf.
  exists (st8 m 0x500000 1). split; [|split].
  - apply (built_agree _ _ _ _ _ m); [done| |done]. apply agree_st. intros b Hr Har.
    apply (lay_valid _ _ _ _ Hlay). unfold in_range in Hr.
    assert (b = 0x500000) as -> by lia. exact Har.
  - unfold ld8, st8. by rewrite ld_st_gen.
  - intros b [Hb1 Hb2]. unfold st8. rewrite rd8_st_other; [by apply Hf|].
    intros Hr. apply Hb2. left. unfold in_range in Hr. assert (b = 0x500000) as -> by lia. reflexivity.
Qed.

Lemma shv_build_ept_again_witness :
  exists m m', shv_build_ept AMD64 demo_syms (fun _ _ => true) 0 demo_vcpu 1 m = Ok (0x600000, m') /\
    maps_as 0x600000 0x12340123 m' (Some (1, 0x801000, HPT_PMT_WB)) /\
    mapping HPT_TYPE_EPT 0x600000 0x212345 m' = mapping HPT_TYPE_EPT 0x600000 0x212345 m.
Proof.
  destruct demo_built as (m & Hb & Hv & _).
  destruct (shv_build_ept_again AMD64 demo_syms (fun _ _ => true) 0 demo_vcpu 1 m)
    as (m' & E & _ & Hm).
  - apply demo_layout. lia.
  - exact Hb.
  - exact Hv.
  - reflexivity.
  - exists m, m'. split; [exact E|].
    split; [exact (Hm 0x12340123 ltac:(lia))|exact (Hm 0x212345 ltac:(lia))].
Defined.

(** A second CPU. *)
Definition demo_vcpu1 : ept_vcpu :=
  EptVcpu 1 0 false false false 0xfffffffff000 0 (replicate 11 0) 0 (replicate 10 (0, 0)).

Lemma demo_layout1 : ept_layout AMD64 demo_syms demo_vcpu1 0.
Proof.
  constructor; unfold arena, in_range, ept_root_at, ept_pool_at, ept_alloc_at, ept_valid_at,
    ept_target_at, large_pages_at, MAX_VCPU_ENTRIES, SHV_EPT_COUNT, EPT_POOL_SIZE, PAGE_SIZE_4K,
    PA_PAGE_SIZE_2M in *; cbn [demo_syms demo_vcpu1 v_idx s_ept_low s_ept_high s_ept_valid s_ept_root
      s_ept_pool s_ept_alloc s_ept_target s_large_pages ptr_bits];
    change (Z.shiftr 0 4) with 0; try lia; try done; try (change (Z.min 48 64) with 48; lia).
  constructor; unfold EPT_POOL_SIZE; cbn [ptr_bits]; try lia; try done.
Qed.

(** Arithmetic on the concrete addresses. *)
Ltac demo_addr :=
  unfold touched, arena, in_range, ept_root_at, ept_pool_at, ept_alloc_at, ept_valid_at,
    ept_target_at, SHV_EPT_COUNT, EPT_POOL_SIZE, PAGE_SIZE_4K in *;
  cbn [demo_syms demo_vcpu demo_vcpu1 v_idx s_ept_low s_ept_high s_ept_valid s_ept_root
      s_ept_pool s_ept_alloc s_ept_target s_large_pages] in *;
  change (Z.shiftr 0 4) with 0 in *; change (Z.shiftr 1 4) with 0 in *; lia.

Lemma shv_build_ept_isolated_witness :
  exists m m' m'', shv_build_ept AMD64 demo_syms (fun _ _ => true) 0 demo_vcpu1 0 m = Ok (ept_root_at demo_syms 1 0, m') /\
    (forall va, mapping HPT_TYPE_EPT 0x600000 va m' = mapping HPT_TYPE_EPT 0x600000 va m) /\
    shv_build_ept AMD64 demo_syms (fun _ _ => true) 0 demo_vcpu1 0 (st8 m' (ept_valid_at demo_syms 1 0) 1) = Ok (ept_root_at demo_syms 1 0, m'') /\
    forall va, mapping HPT_TYPE_EPT 0x600000 va m'' = mapping HPT_TYPE_EPT 0x600000 va (st8 m' (ept_valid_at demo_syms 1 0) 1).
Proof.
  destruct demo_built as (m & Hb & _ & Hf).
  assert (arrays_apart demo_syms) as Hap by (constructor; cbn; lia).
  assert (forall b, touched demo_syms 0 demo_vcpu1 0 b -> ~ arena demo_syms demo_vcpu 1 b) as Hto.
  { intros b [->|[Hr|[Hl _]]]; [| |discriminate Hl]; demo_addr. }
  assert (first_time demo_syms demo_vcpu1 0 m) as H1.
  { split; [|split; [|split_and!; apply demo_types]].
    - unfold ld8. rewrite (ld_agree _ 1 _ _ _ Hf); [reflexivity|]. intros b Hr. unfold in_range in Hr. split; [demo_addr|].
      intros [?|[?|[Hl _]]]; [..|discriminate Hl]; demo_addr.
    - intros b Hb1. rewrite Hf; [reflexivity|]. split.
      + intros Hb2. apply (arenas_disjoint demo_syms demo_vcpu1 0 demo_vcpu 1 b Hap); try done; cbn; lia.
      + intros [->|[Hr|[Hl _]]]; [| |discriminate Hl]; demo_addr. }
  destruct (shv_build_ept_isolated AMD64 demo_syms (fun _ _ => true) 0 demo_vcpu1 0 demo_vcpu 1 m demo_layout1 (demo_layout 1 ltac:(lia)) Hap
    ltac:(discriminate) Hto (or_introl H1) Hb) as (m' & E & Hb' & Hm).
  destruct (build_frame AMD64 demo_syms (fun _ _ => true) 0 demo_vcpu1 0 m demo_layout1 (or_introl H1)) as (x & Ex & Hx & _).
  rewrite E in Ex. injection Ex as <-. set (m1 := st8 m' (ept_valid_at demo_syms 1 0) 1).
  assert (agree (fun b => b <> ept_valid_at demo_syms 1 0) m' m1) as A1 by (apply agree_st; unfold in_range; lia).
  assert (once_more AMD64 demo_syms (fun _ _ => true) 0 demo_vcpu1 0 m1) as H2.
  { split; [|split; [|done]].
    - unfold m1, ld8, st8. by rewrite ld_st_gen.
    - apply (built_agree _ _ _ _ _ m'); [exact demo_layout1| |exact Hx]. eapply agree_weaken; [|exact A1]. intros b Hba ->. demo_addr. }
  destruct (shv_build_ept_isolated AMD64 demo_syms (fun _ _ => true) 0 demo_vcpu1 0 demo_vcpu 1 m1 demo_layout1 (demo_layout 1 ltac:(lia)) Hap
    ltac:(discriminate) Hto (or_intror H2)) as (m'' & E' & _ & Hm').
  { apply (built_agree _ _ _ _ _ m'); [exact (demo_layout 1 ltac:(lia))| |exact Hb']. eapply agree_weaken; [|exact A1]. intros b Hba ->. demo_addr. }
  exists m, m', m''. split; [exact E|]. split; [exact Hm|]. split; [exact E'|exact Hm'].
Defined.
