(* ===== verification/HptwAccess.v ===== *)
(** The checked accesses of [src/hptw.c]: who may access an address, and what the
    copies through a page table move. *)
From S2P Require Import Prelude Bitfield HptConsts Hpt HptLemmas Mem LibcString Hpto.
From S2P Require Import Hptw Walk HptwProofs HptwInsert Ept EptCtx EptBuild EptProps.

(** ** The reference: permission and address of an access *)

(** An entry allows an access of type [access] at privilege level [cpl]. *)
Definition grants (t : hpt_type_t) (access cpl lvl e : Z) : bool :=
  (Z.land access (pme_prot t lvl e) =? access) && ((cpl =? HPTW_CPL0) || pme_user t lvl e).

(** Every entry from table [pm] of level [n] down to the end of the walk does. *)
Fixpoint permits_nat (n : nat) (t : hpt_type_t) (access cpl pm va : Z) (m : mem) : bool :=
  match n with
  | O => true
  | S n' =>
      let e := ld_pme t (Z.of_nat n) pm va m in
      grants t access cpl (Z.of_nat n) e &&
      (if descends t (Z.of_nat n) e then permits_nat n' t access cpl (pme_addr t (Z.of_nat n) e) va m else true)
  end.
Definition permits (t : hpt_type_t) (access cpl root va : Z) (m : mem) : bool :=
  permits_nat (Z.to_nat (max_lvl t)) t access cpl root va m.

(** The number of address bits below an entry of level [lvl], and the address [va] has in its page. *)
Definition page_bits (t : hpt_type_t) (lvl : Z) : Z := va_hi t (lvl - 1) + 1.
Definition paddr (t : hpt_type_t) (leaf : Z * Z) (va : Z) : Z :=
  pme_addr t leaf.1 leaf.2 + va mod 2 ^ page_bits t leaf.1.

(** The physical address of a permitted access. *)
Definition translate (t : hpt_type_t) (access cpl root va : Z) (m : mem) : option Z :=
  if permits t access cpl root va m then (fun l => paddr t l va) <$> mapping t root va m else None.

(** The pages are aligned to their size, as the processor requires. *)
Definition aligned_leaves (t : hpt_type_t) (root : Z) (m : mem) : Prop :=
  forall va lvl e, mapping t root va m = Some (lvl, e) -> pme_addr t lvl e mod 2 ^ page_bits t lvl = 0.

(** A context whose pointers are the physical addresses, where they fit. *)
Class LinearCtx (a : subarch) (ctx : hptw_ctx_t) : Prop := {
  lc_pa2ptr pa n prot cpl : is_u (ptr_bits a) pa -> ctx_pa2ptr ctx pa n prot cpl = Ok (pa, n) }.

Lemma page_bits_bounds t lvl : lvl_ok t lvl -> 12 <= page_bits t lvl <= 39.
Proof. unfold page_bits. intros H. lvl_cases t lvl H; vm_compute; split; congruence. Qed.

Lemma page_bits_page t lvl e : lvl_ok t lvl -> pme_page t lvl e = true -> 12 <= page_bits t lvl <= 30.
Proof. unfold page_bits, pme_page. intros H. lvl_cases t lvl H; cbn; try done; intros _; vm_compute; split; congruence. Qed.

Section access.
Context {ctx : hptw_ctx_t} {ok : Z -> Z -> Prop} `{!WalkCtx ctx ok}.
Abbreviation t := (ctx_t ctx).
Abbreviation root := (ctx_root_pa ctx).
Abbreviation max := (max_lvl t).

(** ** The check *)

Lemma checked_loop_ok m T access cpl va :
  tree t ok root m T ->
  forall lvl, 1 <= lvl -> forall p fuel, T !! (lvl, pfx t lvl va) = Some p -> (Z.to_nat lvl <= fuel)%nat ->
  checked_loop fuel ctx access cpl va (HptPmo p t lvl) m =
  Ok (if permits_nat (Z.to_nat lvl) t access cpl p va m
      then let '(l, q, e) := walk t lvl p va m in Some (HptPmeo e t l, HptPmo q t l) else None).
Proof.
  intros Ht lvl Hl. pattern lvl. revert lvl Hl.
  assert (forall lvl, 1 <= lvl ->
    (forall p fuel, T !! (lvl - 1, pfx t (lvl - 1) va) = Some p -> 1 < lvl -> (Z.to_nat (lvl - 1) <= fuel)%nat ->
      checked_loop fuel ctx access cpl va (HptPmo p t (lvl - 1)) m =
      Ok (if permits_nat (Z.to_nat (lvl - 1)) t access cpl p va m
          then let '(l, q, e) := walk t (lvl - 1) p va m in Some (HptPmeo e t l, HptPmo q t l) else None)) ->
    forall p fuel, T !! (lvl, pfx t lvl va) = Some p -> (Z.to_nat lvl <= fuel)%nat ->
      checked_loop fuel ctx access cpl va (HptPmo p t lvl) m =
      Ok (if permits_nat (Z.to_nat lvl) t access cpl p va m
          then let '(l, q, e) := walk t lvl p va m in Some (HptPmeo e t l, HptPmo q t l) else None)) as step.
  { intros lvl Hl IH p fuel Hp Hf. destruct (tree_ok _ _ _ _ _ Ht _ _ _ Hp) as [Hlvl _].
    destruct fuel as [|fuel]; [lia|]. cbn [checked_loop].
    rewrite hpt_pm_get_pmeo_by_va_ok by done. cbn [mbind res_bind].
    unfold hpt_pmeo_getprot at 1. cbn [pmeo_t pmeo_lvl pmeo_pme].
    rewrite hpt_pme_getprot_ok by done. cbn [mbind res_bind].
    unfold hpt_pmeo_getuser at 1. cbn [pmeo_t pmeo_lvl pmeo_pme]. rewrite hpt_pme_getuser_ok by done.
    rewrite walk_unfold by lia. cbn zeta.
    assert (exists n, Z.to_nat lvl = S n /\ Z.of_nat (S n) = lvl /\ n = Z.to_nat (lvl - 1)) as (n & En & El & En1)
      by (exists (Z.to_nat (lvl - 1)); lia).
    rewrite En. cbn [permits_nat]. rewrite El. set (e := ld_pme t lvl p va m). unfold grants.
    destruct (Z.land access (pme_prot t lvl e) =? access); cbn [andb]; [|done].
    assert ((if cpl =? HPTW_CPL0 then Ok true else Ok (pme_user t lvl e))
            = Ok ((cpl =? HPTW_CPL0) || pme_user t lvl e)) as -> by (by destruct (cpl =? HPTW_CPL0)).
    cbn [mbind res_bind]. destruct (_ || _); cbn [andb negb]; [|done].
    rewrite (next_lvl_tree m T) by done. cbn [mbind res_bind]. fold e.
    destruct (descends t lvl e) eqn:Hd; [|done].
    assert (1 < lvl) by (pose proof (descends_lvl _ _ _ Hd); lia).
    rewrite En1. apply IH; [by apply (tree_child _ _ _ _ _ Ht)|done|lia]. }
  refine (lvl_ind _ _ _).
  - apply step; [lia|]. intros; lia.
  - intros l Hl IH. apply step; [lia|]. intros; by apply IH.
Qed.

(** The entry returned is the leaf that maps the address. *)
Lemma hptw_checked_get_pmeo_ok m T access cpl va :
  tree t ok root m T ->
  hptw_checked_get_pmeo ctx access cpl va m =
  Ok (if permits t access cpl root va m
      then (fun l => HptPmeo l.2 t l.1) <$> mapping t root va m else None).
Proof.
  intros Ht. unfold hptw_checked_get_pmeo. rewrite (hptw_get_root_ok m T) by done. cbn [mbind res_bind].
  pose proof max_ok as Hm. unfold lvl_ok in Hm.
  rewrite (checked_loop_ok m T) by (done || lia || (by apply (root_table m)) || (unfold walk_fuel; cbn [pmo_lvl]; lia)).
  cbn [mbind res_bind]. unfold permits, mapping. destruct (permits_nat _ _ _ _ _ _ _); [|done].
  destruct (walk t max root va m) as [[l q] e] eqn:E. cbn [pmo_t leaf_of].
  apply (walk_end m T) in E as (Hl & _ & -> & Hd & _); [|done].
  rewrite bool_decide_false by apply wc_type.
  unfold hpt_pmeo_is_present, hpt_pmeo_is_page. cbn [pmeo_t pmeo_lvl pmeo_pme].
  rewrite hpt_pme_is_present_ok by done. cbn [mbind res_bind].
  unfold descends in Hd. destruct (pme_present t _) eqn:Hp; cbn [negb]; [|done].
  rewrite hpt_pme_is_page_ok by done. cbn [andb] in Hd. apply negb_false_iff in Hd. by rewrite Hd.
Qed.

(** ** Neighbours in a page *)

(** The facts about the leaf of an address. *)
Lemma mapping_leaf m T va lvl e :
  tree t ok root m T -> mapping t root va m = Some (lvl, e) ->
  lvl_ok t lvl /\ pme_page t lvl e = true /\ is_u 64 e /\ (t = HPT_TYPE_NORM -> is_u 32 e).
Proof.
  intros Ht. unfold mapping. destruct (walk t max root va m) as [[l q] e'] eqn:E. cbn [leaf_of].
  apply (walk_end m T) in E as (Hl & _ & -> & Hd & He & _); [|done].
  destruct (pme_present t _) eqn:Hp; [|done]. intros [= <- <-]. split; [done|].
  unfold descends in Hd. rewrite Hp in Hd. apply negb_false_iff in Hd.
  split; [done|]. split; [done|]. by apply ld_pme_norm.
Qed.

(** Addresses of the same page have the same walk. *)
Lemma same_region_walk m T va va' l q e :
  tree t ok root m T -> walk t max root va m = (l, q, e) -> same_region t l va va' ->
  walk t max root va' m = (l, q, e).
Proof.
  intros Ht E Hs. apply (walk_end m T) in E as (Hl & Hq & He & Hd & _ & Hpath); [|done].
  unfold same_region in Hs. pose proof Hl as Hl'. unfold lvl_ok in Hl'.
  destruct (proj1 (pfx_step t l va' va Hl) Hs) as [Hp Hi].
  assert (path t m va' max root l q) as Hpath'
    by (apply (path_same_pfx (ok := ok) m T va); [done|by apply (root_table (ok := ok) m)|done|by rewrite Hp]).
  rewrite (path_walk _ _ _ _ _ _ _ Hpath') by lia. rewrite walk_unfold by lia. cbn zeta.
  assert (ld_pme t l q va' m = e) as -> by (rewrite He; unfold ld_pme, entry_addr; by rewrite Hi).
  by rewrite Hd.
Qed.

Lemma same_region_permits m T access cpl va va' l q e :
  tree t ok root m T -> walk t max root va m = (l, q, e) -> same_region t l va va' ->
  permits t access cpl root va' m = permits t access cpl root va m.
Proof.
  intros Ht E Hs. pose proof (walk_end m T va l q e Ht E) as (Hl & _ & _ & _ & _ & _).
  pose proof max_ok as Hm. unfold lvl_ok in Hm, Hl. unfold permits.
  assert (forall k, 1 <= k -> k <= max -> forall p, T !! (k, pfx t k va) = Some p -> walk t k p va m = (l, q, e) -> l <= k ->
    permits_nat (Z.to_nat k) t access cpl p va' m = permits_nat (Z.to_nat k) t access cpl p va m) as H.
  { refine (lvl_ind _ _ _).
    - intros _ p Hp Ew Hlk. change (Z.to_nat 1) with 1%nat. cbn [permits_nat]. change (Z.of_nat 1) with 1.
      assert (pm_idx t 1 va' = pm_idx t 1 va) as Ei.
      { apply (pfx_step t 1); [unfold lvl_ok; lia|]. apply (pfx_up t l 1); [lia..|done]. }
      unfold ld_pme, entry_addr. rewrite Ei. by destruct (descends _ _ _).
    - intros k Hk IH Hkm p Hp Ew Hlk.
      assert (exists n, Z.to_nat k = S n /\ Z.of_nat (S n) = k /\ n = Z.to_nat (k - 1)) as (n & En & El & En1)
        by (exists (Z.to_nat (k - 1)); lia).
      rewrite En. cbn [permits_nat]. rewrite El.
      assert (pm_idx t k va' = pm_idx t k va) as Ei.
      { apply (pfx_step t k); [unfold lvl_ok; lia|]. apply (pfx_up t l k); [lia..|done]. }
      assert (ld_pme t k p va' m = ld_pme t k p va m) as -> by (unfold ld_pme, entry_addr; by rewrite Ei).
      rewrite walk_unfold in Ew by lia. cbn zeta in Ew.
      destruct (descends t k (ld_pme t k p va m)) eqn:Hd; [|done]. f_equal. rewrite En1.
      apply IH; [lia|by apply (tree_child _ _ _ _ _ Ht)|done|].
      apply walk_path in Ew as [? _]; lia. }
  apply H; [lia|lia|by apply (root_table m)|done|lia].
Qed.

Lemma same_region_near lvl va i :
  lvl_ok t lvl -> 0 <= i -> va mod 2 ^ page_bits t lvl + i < 2 ^ page_bits t lvl -> same_region t lvl va (va + i).
Proof.
  intros H Hi Hn. pose proof (page_bits_bounds t lvl H) as Hb. pose proof (va_hi_mono t lvl H). pose proof (va_hi_step t lvl H).
  unfold same_region, pfx, region. replace (lvl - 1 + 1) with lvl by lia. fold (page_bits t lvl).
  set (k := page_bits t lvl) in *.
  assert (Z.shiftr (va + i) k = Z.shiftr va k) as E.
  { rewrite !Z.shiftr_div_pow2 by lia. pose proof (Z.pow_pos_nonneg 2 k).
    pose proof (Z.div_mod va (2 ^ k) ltac:(lia)). pose proof (Z.mod_pos_bound va (2 ^ k)).
    symmetry. apply (Z.div_unique_pos _ _ _ (va mod 2 ^ k + i)); lia. }
  apply Z.bits_inj'. intros j Hj. rewrite !Z.shiftr_spec by done. unfold va_norm.
  assert (k <= va_hi t max + 1) by (unfold k, page_bits; lia).
  rewrite !wrap_testbit by lia. apply (f_equal (fun z => Z.testbit z j)) in E.
  rewrite !Z.shiftr_spec in E by done. by rewrite E.
Qed.

Lemma translate_near m T access cpl va pa :
  tree t ok root m T -> aligned_leaves t root m -> translate t access cpl root va m = Some pa ->
  exists lvl e, let k := page_bits t lvl in
    mapping t root va m = Some (lvl, e) /\ lvl_ok t lvl /\ 12 <= k <= 30 /\
    hptw_checked_get_pmeo ctx access cpl va m = Ok (Some (HptPmeo e t lvl)) /\
    hpt_pmeo_va_to_pa (HptPmeo e t lvl) va = Ok pa /\
    forall i, 0 <= i < 2 ^ k - pa mod 2 ^ k -> translate t access cpl root (va + i) m = Some (pa + i).
Proof.
  intros Ht Ha Htr. unfold translate in Htr. destruct (permits t access cpl root va m) eqn:Hper; [|done].
  destruct (mapping t root va m) as [[lvl e]|] eqn:Emap; [|done]. injection Htr as Epa.
  unfold paddr in Epa. cbn [fst snd] in Epa.
  destruct (mapping_leaf m T va lvl e Ht Emap) as (Hl & Hpg & He & Hn).
  pose proof (page_bits_page t lvl e Hl Hpg) as Hk. set (k := page_bits t lvl) in *.
  pose proof (Z.pow_pos_nonneg 2 k ltac:(lia) ltac:(lia)) as Hpow. pose proof (Z.mod_pos_bound va (2 ^ k) Hpow) as Hmod.
  assert (pa mod 2 ^ k = va mod 2 ^ k) as Emod.
  { pose proof (Ha _ _ _ Emap) as Hal. fold k in Hal. rewrite <- Epa, Z.add_mod, Hal by lia.
    rewrite Z.add_0_l, !Z.mod_mod by lia. done. }
  exists lvl, e. cbn zeta. fold k. split; [done|]. split; [done|]. split; [done|]. split.
  { rewrite (hptw_checked_get_pmeo_ok m T), Hper, Emap by done. done. }
  split.
  { rewrite va_to_pa_ok by done. rewrite Hpg. by rewrite <- Epa. }
  intros i Hi. rewrite Emod in Hi. pose proof (same_region_near lvl va i Hl ltac:(lia) ltac:(fold k; lia)) as Hs.
  unfold mapping in Emap. destruct (walk t max root va m) as [[l q] e'] eqn:E. cbn [leaf_of] in Emap.
  destruct (pme_present t e') eqn:Hpr; [|done]. injection Emap as -> ->.
  unfold translate. rewrite (same_region_permits m T access cpl va (va + i) lvl q e Ht E Hs), Hper.
  unfold mapping. rewrite (same_region_walk m T va (va + i) lvl q e Ht E Hs). cbn [leaf_of]. rewrite Hpr.
  cbn [fmap option_fmap option_map]. unfold paddr. cbn [fst snd]. fold k. f_equal.
  rewrite <- Epa. rewrite <- (Z.mod_unique_pos (va + i) (2 ^ k) (va / 2 ^ k) (va mod 2 ^ k + i)); [lia|lia|].
  pose proof (Z.div_mod va (2 ^ k)). lia.
Qed.

(** ** Accessing one page *)

Lemma hptw_checked_access_va_ok a m T access cpl va n :
  LinearCtx a ctx -> tree t ok root m T -> aligned_leaves t root m -> 0 < n ->
  match translate t access cpl root va m with
  | Some pa =>
      is_u (ptr_bits a) pa ->
      exists k, 0 < k <= n /\ hptw_checked_access_va a ctx access cpl va n m = Ok (pa, k) /\
        forall i, 0 <= i < k -> translate t access cpl root (va + i) m = Some (pa + i)
  | None => hptw_checked_access_va a ctx access cpl va n m = Ok (0, 0)
  end.
Proof.
  intros HL Ht Ha Hn. destruct (translate t access cpl root va m) as [pa|] eqn:Htr.
  - intros Hpa. destruct (translate_near m T access cpl va pa Ht Ha Htr)
      as (lvl & e & Emap & Hl & Hk & Eget & Eva & Hnear). set (k := page_bits t lvl) in *.
    pose proof (Z.pow_pos_nonneg 2 k ltac:(lia) ltac:(lia)) as Hpow. pose proof (Z.mod_pos_bound pa (2 ^ k) Hpow).
    exists (Z.min n (2 ^ k - pa mod 2 ^ k)). split; [lia|]. split; [|intros i Hi; apply Hnear; lia].
    unfold hptw_checked_access_va. rewrite Eget. cbn [mbind res_bind].
    rewrite Eva. cbn [mbind res_bind].
    assert (hpt_remaining_on_page a (HptPmeo e t lvl) pa = Ok (2 ^ k - pa mod 2 ^ k)) as ->;
      [|cbn [mbind res_bind]; by apply lc_pa2ptr].
    unfold hpt_remaining_on_page, hpt_pmeo_page_size_log_2, pmeo_offset_hi. cbn [pmeo_t pmeo_lvl].
    unfold lvl_ok in Hl. rewrite va_hi_row by (lia || apply wc_type). cbn [mbind res_bind].
    change (va_hi t (lvl - 1) + 1) with k. unfold shl_int1.
    rewrite (proj2 (Z.leb_le 0 k)), (proj2 (Z.ltb_lt k 31)) by lia. cbn [andb mbind res_bind].
    rewrite MASKRANGE64_ok by lia. cbn [mbind res_bind]. rewrite land_mask_low by lia.
    replace (k - 1 + 1) with k by lia. rewrite Z.shiftl_1_l.
    assert (2 ^ k <= 2 ^ 30) by (apply Z.pow_le_mono_r; lia).
    assert (2 ^ 30 < 2 ^ ptr_bits a) by (by destruct a).
    rewrite (wrap_small _ (pa mod 2 ^ k)) by (unfold is_u; lia). by rewrite wrap_small by (unfold is_u; lia).
  - unfold hptw_checked_access_va. rewrite (hptw_checked_get_pmeo_ok m T) by done. cbn [mbind res_bind].
    unfold translate in Htr. destruct (permits _ _ _ _ _ _); [|done].
    by destruct (mapping t root va m).
Qed.

(** ** What a store outside the tables leaves alone *)

Lemma permits_agree m m' T access cpl va :
  tree t ok root m T -> agree (tbl_bytes t T) m m' ->
  permits t access cpl root va m' = permits t access cpl root va m.
Proof.
  intros Ht Ha. pose proof max_ok as Hm. unfold lvl_ok in Hm. unfold permits.
  assert (forall k, 1 <= k -> forall p, T !! (k, pfx t k va) = Some p ->
    permits_nat (Z.to_nat k) t access cpl p va m' = permits_nat (Z.to_nat k) t access cpl p va m) as H;
    [|apply H; [lia|by apply (root_table m)]].
  refine (lvl_ind _ _ _).
  - intros p Hp. change (Z.to_nat 1) with 1%nat. cbn [permits_nat]. change (Z.of_nat 1) with 1.
    rewrite (agree_ld T m m') by done. by destruct (descends _ _ _).
  - intros k Hk IH p Hp.
    assert (exists n, Z.to_nat k = S n /\ Z.of_nat (S n) = k /\ n = Z.to_nat (k - 1)) as (n & En & El & En1)
      by (exists (Z.to_nat (k - 1)); lia).
    rewrite En. cbn [permits_nat]. rewrite El, (agree_ld T m m') by done.
    destruct (descends t k (ld_pme t k p va m)) eqn:Hd; [|done]. f_equal. rewrite En1.
    apply IH. by apply (tree_child _ _ _ _ _ Ht).
Qed.

Lemma mapping_agree m m' T va :
  tree t ok root m T -> agree (tbl_bytes t T) m m' -> mapping t root va m' = mapping t root va m.
Proof. intros Ht Ha. unfold mapping. by rewrite (agree_walk T m m'). Qed.

Lemma translate_agree m m' T access cpl va :
  tree t ok root m T -> agree (tbl_bytes t T) m m' ->
  translate t access cpl root va m' = translate t access cpl root va m.
Proof. intros Ht Ha. unfold translate. by rewrite (permits_agree m m' T), (mapping_agree m m' T). Qed.

Lemma aligned_agree m m' T :
  tree t ok root m T -> agree (tbl_bytes t T) m m' -> aligned_leaves t root m -> aligned_leaves t root m'.
Proof. intros Ht Ha H va lvl e. rewrite (mapping_agree m m' T) by done. apply H. Qed.

(** ** Copying out of an address space *)

(** [n] bytes of the address space at [base], as they are in [m], are at [dst] in [m'], and nothing else changed. *)
Record copied_from (cpl dst base n : Z) (m m' : mem) : Prop := {
  cf_bytes i : 0 <= i < n -> exists pa, translate t HPT_PROTS_R cpl root (base + i) m = Some pa /\ rd8 m' (dst + i) = rd8 m pa;
  cf_frame : agree (fun b => ~ in_range dst n b) m m' }.

(** The destination is apart from the tables and from what is copied, and the pointers of the source are not null. *)
Record copy_apart (a : subarch) (cpl dst base len : Z) (m : mem) (T : tables) : Prop := {
  ca_tables b : in_range dst len b -> ~ tbl_bytes t T b;
  ca_source i pa : 0 <= i < len -> translate t HPT_PROTS_R cpl root (base + i) m = Some pa ->
    0 < pa < 2 ^ ptr_bits a /\ ~ in_range dst len pa }.

Lemma copy_from_step cpl dst base len c k pa m mc :
  copied_from cpl dst base c m mc -> 0 <= c -> 0 < k -> c + k <= len ->
  (forall i, 0 <= i < k -> translate t HPT_PROTS_R cpl root (base + c + i) m = Some (pa + i) /\ ~ in_range dst len (pa + i)) ->
  copied_from cpl dst base (c + k) m (memcpy (dst + c) pa k mc).2.
Proof.
  intros [Hb Hf] Hc Hk Hck Hs.
  assert (dst + c <= pa \/ pa + k <= dst + c) as Hd.
  { destruct (decide (dst + c <= pa)); [by left|right].
    destruct (decide (pa + k <= dst + c)); [done|exfalso].
    destruct (Hs (dst + c - pa)) as [_ Hn]; [lia|]. apply Hn. unfold in_range. lia. }
  constructor.
  - intros i Hi. rewrite rd8_memcpy by lia. destruct (decide (i < c)).
    + destruct (Hb i) as (q & Hq & E); [lia|]. exists q. split; [done|]. bcase; cbn; try done; lia.
    + exists (pa + (i - c)). destruct (Hs (i - c)) as [Hq Hn]; [lia|]. split.
      { rewrite <- Hq. f_equal. lia. }
      assert (rd8 mc (pa + (i - c)) = rd8 m (pa + (i - c))) as <-
        by (apply Hf; unfold in_range in *; lia).
      bcase; cbn; try lia. f_equal. lia.
  - intros b Hbr. unfold in_range in Hbr. rewrite rd8_memcpy by lia. bcase; cbn; try lia; apply Hf; unfold in_range; lia.
Qed.

Lemma copy_from_loop_ok a m T cpl dst base len :
  LinearCtx a ctx -> tree t ok root m T -> aligned_leaves t root m -> copy_apart a cpl dst base len m T ->
  len < 2 ^ ptr_bits a -> 0 <= base -> base + len <= 2 ^ 64 ->
  forall fuel c mc, 0 <= c <= len -> len - c < Z.of_nat fuel -> copied_from cpl dst base c m mc ->
  exists rc n m', copy_from_loop fuel a ctx cpl dst base len c mc = Ok (rc, m') /\
    c <= n <= len /\ copied_from cpl dst base n m m' /\
    ((rc = 0 /\ n = len) \/ (rc = 1 /\ n < len /\ translate t HPT_PROTS_R cpl root (base + n) m = None)).
Proof.
  intros HL Ht Hal [Htbl Hsrc] Hlen Hb0 Hb1 fuel. induction fuel as [|fuel IH]; intros c mc Hc Hfuel Hcp; [lia|].
  cbn [copy_from_loop]. destruct (Z.ltb_spec c len) as [Hlt|Hge].
  2: { exists 0, c, mc. split; [done|]. split; [lia|]. split; [done|]. left. split; [done|lia]. }
  assert (agree (tbl_bytes t T) m mc) as Hag.
  { eapply agree_weaken; [|apply (cf_frame _ _ _ _ _ _ Hcp)]. intros b Hb Hr.
    apply (Htbl b); [unfold in_range in *; lia|done]. }
  assert (u64 (base + c) = base + c) as -> by (apply wrap_small; unfold is_u; lia).
  pose proof (hptw_checked_access_va_ok a mc T HPT_PROTS_R cpl (base + c) (len - c) HL
    (agree_tree T m mc Ht Hag) (aligned_agree m mc T Ht Hag Hal) ltac:(lia)) as Hacc.
  rewrite (translate_agree m mc T) in Hacc by done.
  destruct (translate t HPT_PROTS_R cpl root (base + c) m) as [pa|] eqn:Htr.
  - destruct (Hsrc c pa) as [Hpa _]; [lia|done|].
    destruct Hacc as (k & Hk & -> & Hnear); [unfold is_u; lia|]. cbn [mbind res_bind].
    destruct (Z.eqb_spec pa 0); [lia|].
    assert (wrap (ptr_bits a) (c + k) = c + k) as -> by (apply wrap_small; unfold is_u; lia).
    destruct (IH (c + k) (memcpy (dst + c) pa k mc).2) as (rc & n' & m' & E & Hn & H); [lia|lia| |].
    + apply (copy_from_step _ _ _ len); [done|lia..|]. intros i Hi.
      pose proof (Hnear i Hi) as Hni. rewrite (translate_agree m mc T) in Hni by done. split; [done|].
      apply (Hsrc (c + i)); [lia|]. by rewrite Z.add_assoc.
    + exists rc, n', m'. split; [done|]. split; [lia|done].
  - rewrite Hacc. cbn [mbind res_bind Z.eqb]. exists 1, c, mc. split; [done|]. split; [lia|]. split; [done|]. right. done.
Qed.

(** ** Copying into an address space *)

(** [n] bytes of [src] were stored through the address space at [base], and nothing else changed. *)
Record copied_to (cpl base src n : Z) (m m' : mem) : Prop := {
  ct_bytes i : 0 <= i < n -> exists pa, translate t HPT_PROTS_W cpl root (base + i) m = Some pa /\ rd8 m' pa = rd8 m (src + i);
  ct_frame b : (forall i, 0 <= i < n -> translate t HPT_PROTS_W cpl root (base + i) m <> Some b) -> rd8 m' b = rd8 m b }.

(** What may be stored to is apart from the tables and the source, no two addresses are the same byte, and the
    pointers are not null. *)
Record store_apart (a : subarch) (cpl base src len : Z) (m : mem) (T : tables) : Prop := {
  sa_target i pa : 0 <= i < len -> translate t HPT_PROTS_W cpl root (base + i) m = Some pa ->
    0 < pa < 2 ^ ptr_bits a /\ ~ in_range src len pa /\ ~ tbl_bytes t T pa;
  sa_alias i j pa : 0 <= i < len -> 0 <= j < len -> translate t HPT_PROTS_W cpl root (base + i) m = Some pa ->
    translate t HPT_PROTS_W cpl root (base + j) m = Some pa -> i = j }.

Lemma copy_to_step a cpl base src len c k pa m mc T :
  store_apart a cpl base src len m T -> copied_to cpl base src c m mc -> 0 <= c -> 0 < k -> c + k <= len ->
  (forall i, 0 <= i < k -> translate t HPT_PROTS_W cpl root (base + (c + i)) m = Some (pa + i)) ->
  copied_to cpl base src (c + k) m (memcpy pa (src + c) k mc).2.
Proof.
  intros [Htgt Hal] [Hb Hf] Hc Hk Hck Hs.
  assert (pa <= src + c \/ src + c + k <= pa) as Hd.
  { destruct (decide (pa <= src + c)); [by left|right]. destruct (decide (src + c + k <= pa)); [done|exfalso].
    destruct (Htgt c pa) as (_ & Hn & _); [lia| |].
    - specialize (Hs 0 ltac:(lia)). by rewrite !Z.add_0_r in Hs.
    - apply Hn. unfold in_range. lia. }
  assert (forall j, 0 <= j < k -> rd8 mc (src + c + j) = rd8 m (src + c + j)) as Hsrc.
  { intros j Hj. apply Hf. intros i Hi E. destruct (Htgt i _ ltac:(lia) E) as (_ & Hn & _).
    apply Hn. unfold in_range. lia. }
  constructor.
  - intros i Hi. destruct (decide (i < c)).
    + destruct (Hb i) as (q & Hq & E); [lia|]. exists q. split; [done|]. rewrite rd8_memcpy by lia.
      destruct ((pa <=? q) && (q <? pa + k)) eqn:Er; [|done]. exfalso.
      assert (0 <= q - pa < k) as Hr by (revert Er; bcase; done || lia).
      specialize (Hs (q - pa) Hr). replace (pa + (q - pa)) with q in Hs by lia.
      specialize (Hal i (c + (q - pa)) q ltac:(lia) ltac:(lia) Hq Hs). lia.
    + exists (pa + (i - c)). split; [rewrite <- Hs by lia; f_equal; lia|]. rewrite rd8_memcpy by lia.
      replace (src + i) with (src + c + (i - c)) by lia. rewrite <- Hsrc by lia. bcase; cbn; try lia. f_equal. lia.
  - intros b Hn. rewrite rd8_memcpy by lia. destruct ((pa <=? b) && (b <? pa + k)) eqn:Er.
    + exfalso. assert (0 <= b - pa < k) as Hr by (revert Er; bcase; done || lia).
      apply (Hn (c + (b - pa)) ltac:(lia)). rewrite Hs by done. f_equal. lia.
    + apply Hf. intros i Hi. apply Hn. lia.
Qed.

Lemma copy_to_loop_ok a m T cpl base src len :
  LinearCtx a ctx -> tree t ok root m T -> aligned_leaves t root m -> store_apart a cpl base src len m T ->
  len < 2 ^ ptr_bits a -> 0 <= base -> base + len <= 2 ^ 64 ->
  forall fuel c mc, 0 <= c <= len -> len - c < Z.of_nat fuel -> copied_to cpl base src c m mc ->
  exists rc n m', copy_to_loop fuel a ctx cpl base src len c mc = Ok (rc, m') /\
    c <= n <= len /\ copied_to cpl base src n m m' /\
    ((rc = 0 /\ n = len) \/ (rc = 1 /\ n < len /\ translate t HPT_PROTS_W cpl root (base + n) m = None)).
Proof.
  intros HL Ht Hal Hsa Hlen Hb0 Hb1 fuel. induction fuel as [|fuel IH]; intros c mc Hc Hfuel Hcp; [lia|].
  cbn [copy_to_loop]. destruct (Z.ltb_spec c len) as [Hlt|Hge].
  2: { exists 0, c, mc. split; [done|]. split; [lia|]. split; [done|]. left. split; [done|lia]. }
  assert (agree (tbl_bytes t T) m mc) as Hag.
  { intros b Hb. apply (ct_frame _ _ _ _ _ _ Hcp). intros i Hi E.
    by destruct (sa_target _ _ _ _ _ _ _ Hsa i b ltac:(lia) E) as (_ & _ & Hn). }
  assert (u64 (base + c) = base + c) as -> by (apply wrap_small; unfold is_u; lia).
  pose proof (hptw_checked_access_va_ok a mc T HPT_PROTS_W cpl (base + c) (len - c) HL
    (agree_tree T m mc Ht Hag) (aligned_agree m mc T Ht Hag Hal) ltac:(lia)) as Hacc.
  rewrite (translate_agree m mc T) in Hacc by done.
  destruct (translate t HPT_PROTS_W cpl root (base + c) m) as [pa|] eqn:Htr.
  - destruct (sa_target _ _ _ _ _ _ _ Hsa c pa) as [Hpa _]; [lia|done|].
    destruct Hacc as (k & Hk & -> & Hnear); [unfold is_u; lia|]. cbn [mbind res_bind].
    destruct (Z.eqb_spec pa 0); [lia|].
    assert (wrap (ptr_bits a) (c + k) = c + k) as -> by (apply wrap_small; unfold is_u; lia).
    destruct (IH (c + k) (memcpy pa (src + c) k mc).2) as (rc & n' & m' & E & Hn & H); [lia|lia| |].
    + apply (copy_to_step a _ _ _ len _ _ _ _ _ T); [done|done|lia..|]. intros i Hi.
      pose proof (Hnear i Hi) as Hni. rewrite (translate_agree m mc T) in Hni by done. by rewrite Z.add_assoc.
    + exists rc, n', m'. split; [done|]. split; [lia|done].
  - rewrite Hacc. cbn [mbind res_bind Z.eqb]. exists 1, c, mc. split; [done|]. split; [lia|]. split; [done|]. by right.
Qed.
End access.

(** ** Properties *)

(** C11: [hptw_checked_get_pmeo] succeeds exactly when every entry from the root to the leaf grants the access type,
    and user access unless the privilege level is 0, and the address is mapped; it returns that leaf.  It never
    halts, and it never reads outside the tables of the tree. *)
Theorem hptw_checked_get_pmeo_permits ctx ok m T access cpl va :
  WalkCtx ctx ok -> tree (ctx_t ctx) ok (ctx_root_pa ctx) m T ->
  exists r, hptw_checked_get_pmeo ctx access cpl va m = Ok r /\
    (forall o, r = Some o <->
      permits (ctx_t ctx) access cpl (ctx_root_pa ctx) va m = true /\ pmeo_t o = ctx_t ctx /\
      mapping (ctx_t ctx) (ctx_root_pa ctx) va m = Some (pmeo_lvl o, pmeo_pme o)) /\
    (forall m', agree (tbl_bytes (ctx_t ctx) T) m m' -> hptw_checked_get_pmeo ctx access cpl va m' = Ok r).
Proof.
  intros HW Ht. eexists. split; [by apply (hptw_checked_get_pmeo_ok m T)|]. split.
  - intros [e ty lvl]. destruct (permits _ _ _ _ _ _); [|by split; [|intros [? _]]].
    destruct (mapping _ _ _ _) as [[l e0]|]; cbn; [|by split; [|intros (_ & _ & ?)]].
    split; [by intros [= <- <- <-]|]. by intros (_ & -> & [= -> ->]).
  - intros m' Ha. rewrite (hptw_checked_get_pmeo_ok m' T) by (by apply (agree_tree T m m')).
    by rewrite (permits_agree m m' T), (mapping_agree m m' T).
Qed.

(** C24: [hptw_checked_copy_from_va] returns after copying [n] bytes of the address space, each one found by its own
    permitted translation, to the buffer, and changes nothing else.  It returns 0 when all bytes were copied, and 1
    when the next byte may not be read. *)
Theorem hptw_checked_copy_from_va_copies a ctx ok m T cpl dst base len :
  WalkCtx ctx ok -> LinearCtx a ctx -> tree (ctx_t ctx) ok (ctx_root_pa ctx) m T ->
  aligned_leaves (ctx_t ctx) (ctx_root_pa ctx) m -> copy_apart (ctx := ctx) a cpl dst base len m T ->
  0 <= len < 2 ^ ptr_bits a -> 0 <= base -> base + len <= 2 ^ 64 ->
  exists rc n m', hptw_checked_copy_from_va a ctx cpl dst base len m = Ok (rc, m') /\
    0 <= n <= len /\ copied_from (ctx := ctx) cpl dst base n m m' /\
    ((rc = 0 /\ n = len) \/
     (rc = 1 /\ n < len /\ translate (ctx_t ctx) HPT_PROTS_R cpl (ctx_root_pa ctx) (base + n) m = None)).
Proof.
  intros HW HL Ht Hal Hap Hlen Hb0 Hb1. unfold hptw_checked_copy_from_va.
  apply (copy_from_loop_ok a m T); try done; try lia. constructor; [lia|done].
Qed.

(** C14: [hptw_checked_copy_to_va] returns after storing [n] bytes of the buffer, each one through its own permitted
    translation, and changes no byte that the address space may not write.  It returns 0 when all bytes were
    stored, and 1 when the next byte may not be written. *)
Theorem hptw_checked_copy_to_va_stores a ctx ok m T cpl base src len :
  WalkCtx ctx ok -> LinearCtx a ctx -> tree (ctx_t ctx) ok (ctx_root_pa ctx) m T ->
  aligned_leaves (ctx_t ctx) (ctx_root_pa ctx) m -> store_apart (ctx := ctx) a cpl base src len m T ->
  0 <= len < 2 ^ ptr_bits a -> 0 <= base -> base + len <= 2 ^ 64 ->
  exists rc n m', hptw_checked_copy_to_va a ctx cpl base src len m = Ok (rc, m') /\
    0 <= n <= len /\ copied_to (ctx := ctx) cpl base src n m m' /\
    ((rc = 0 /\ n = len) \/
     (rc = 1 /\ n < len /\ translate (ctx_t ctx) HPT_PROTS_W cpl (ctx_root_pa ctx) (base + n) m = None)).
Proof.
  intros HW HL Ht Hal Hap Hlen Hb0 Hb1. unfold hptw_checked_copy_to_va.
  apply (copy_to_loop_ok a m T); try done; try lia. constructor; [lia|done].
Qed.

(** ** A concrete address space: two user pages of 4 MB, the second read-only *)

Definition demo_pt_ctx : hptw_ctx_t :=
  HptwCtx (fun _ _ m => Ok (0, m)) (fun pa n _ _ => Ok (pa, n)) (fun p => Ok p) 0x1000 HPT_TYPE_NORM.
Definition demo_pt_ok (lvl p : Z) : Prop := p = 0x1000.
Definition demo_pt : mem := st 4 (st 4 (st 4 ∅ 0x7ffffe 0x44434241) 0x1000 0x00400087) 0x1004 0x00800085.
Definition demo_pt_tables : tables := {[ (2, 0) := 0x1000 ]}.

#[global] Instance demo_pt_walk : WalkCtx demo_pt_ctx demo_pt_ok.
Proof. by constructor; [done|intros ? ? ? ->|intros ? ? ->]. Qed.
#[global] Instance demo_pt_linear : LinearCtx I386 demo_pt_ctx.
Proof. by constructor. Qed.

Lemma demo_pt_entry va :
  ld_pme HPT_TYPE_NORM 2 0x1000 va demo_pt =
  if pm_idx HPT_TYPE_NORM 2 va =? 0 then 0x00400087 else if pm_idx HPT_TYPE_NORM 2 va =? 1 then 0x00800085 else 0.
Proof.
  pose proof (pm_idx_lt HPT_TYPE_NORM 2 va ltac:(unfold lvl_ok; cbn; lia)) as Hi.
  unfold ld_pme, entry_addr, demo_pt. cbn [pme_nbytes pme_bytes].
  set (i := pm_idx HPT_TYPE_NORM 2 va) in *.
  destruct (Z.eqb_spec i 0) as [->|]; [vm_compute; reflexivity|].
  destruct (Z.eqb_spec i 1) as [->|]; [vm_compute; reflexivity|].
  rewrite !ld_st_other by lia. by apply ld_zero.
Qed.

Lemma demo_pt_tree : tree HPT_TYPE_NORM demo_pt_ok 0x1000 demo_pt demo_pt_tables.
Proof.
  unfold demo_pt_tables. constructor.
  - reflexivity.
  - intros lvl va p [[= <- _] <-]%lookup_singleton_Some. rewrite demo_pt_entry.
    destruct (_ =? 0); [done|]. by destruct (_ =? 1).
  - intros lvl x p [[= <- _] <-]%lookup_singleton_Some. by split; [unfold lvl_ok; cbn; lia|].
  - intros k1 p1 k2 p2 [<- _]%lookup_singleton_Some [<- _]%lookup_singleton_Some ?. done.
Qed.

Lemma demo_pt_aligned : aligned_leaves HPT_TYPE_NORM 0x1000 demo_pt.
Proof.
  intros va lvl e. unfold mapping. change (max_lvl HPT_TYPE_NORM) with 2. rewrite walk_unfold by lia. cbn zeta.
  rewrite demo_pt_entry. destruct (_ =? 0); [by intros [= <- <-]|]. destruct (_ =? 1); [by intros [= <- <-]|done].
Qed.

Ltac demo_byte i Hi :=
  let H := fresh in assert (i = 0 \/ i = 1 \/ i = 2 \/ i = 3) as H by lia; clear Hi; destruct H as [->|[->|[->| ->]]].

Lemma demo_pt_read i : 0 <= i < 4 -> translate HPT_TYPE_NORM HPT_PROTS_R HPTW_CPL3 0x1000 (0x3ffffe + i) demo_pt = Some (0x7ffffe + i).
Proof. intros Hi. demo_byte i Hi; vm_compute; reflexivity. Qed.
Lemma demo_pt_write i : 0 <= i < 4 ->
  translate HPT_TYPE_NORM HPT_PROTS_W HPTW_CPL3 0x1000 (0x3ffffe + i) demo_pt = if i <? 2 then Some (0x7ffffe + i) else None.
Proof. intros Hi. demo_byte i Hi; vm_compute; reflexivity. Qed.

Lemma hptw_checked_get_pmeo_permits_witness :
  exists r, hptw_checked_get_pmeo demo_pt_ctx HPT_PROTS_W HPTW_CPL3 0x3fffff demo_pt = Ok (Some r) /\ pmeo_pme r = 0x00400087.
Proof.
  destruct (hptw_checked_get_pmeo_permits demo_pt_ctx demo_pt_ok demo_pt demo_pt_tables HPT_PROTS_W HPTW_CPL3 0x3fffff
    demo_pt_walk demo_pt_tree) as (r & E & H & _).
  exists (HptPmeo 0x00400087 HPT_TYPE_NORM 2). split; [|reflexivity]. rewrite E. f_equal. apply H. split; [by vm_compute|]. split; [done|]. by vm_compute.
Defined.

Lemma hptw_checked_copy_from_va_copies_witness :
  exists m', hptw_checked_copy_from_va I386 demo_pt_ctx HPTW_CPL3 0x500 0x3ffffe 4 demo_pt = Ok (0, m') /\
    ld32 m' 0x500 = 0x44434241.
Proof.
  destruct (hptw_checked_copy_from_va_copies I386 demo_pt_ctx demo_pt_ok demo_pt demo_pt_tables HPTW_CPL3 0x500 0x3ffffe 4
    demo_pt_walk demo_pt_linear demo_pt_tree demo_pt_aligned) as (rc & n & m' & E & _).
  - constructor.
    + intros b Hb (k & p & Hk & Hr). unfold demo_pt_tables in Hk. apply lookup_singleton_Some in Hk as [<- <-]. unfold in_range in *. cbn in Hr. lia.
    + intros i pa Hi. cbn [ctx_t ctx_root_pa demo_pt_ctx]. rewrite demo_pt_read by done. intros [= <-].
      change (2 ^ ptr_bits I386) with 4294967296. unfold in_range. lia.
  - done.
  - done.
  - done.
  - exists m'. apply (f_equal (fun r => match r with Ok (rc, m) => (rc, ld32 m 0x500) | Err _ => (2, 0) end)) in E as E'.
    vm_compute in E'. injection E' as <- El. split; [exact E|]. symmetry. exact El.
Defined.

Lemma hptw_checked_copy_to_va_stores_witness :
  exists m', hptw_checked_copy_to_va I386 demo_pt_ctx HPTW_CPL3 0x3ffffe 0x500 4 demo_pt = Ok (1, m') /\
    ld32 m' 0x7ffffe = 0x44430000.
Proof.
  destruct (hptw_checked_copy_to_va_stores I386 demo_pt_ctx demo_pt_ok demo_pt demo_pt_tables HPTW_CPL3 0x3ffffe 0x500 4
    demo_pt_walk demo_pt_linear demo_pt_tree demo_pt_aligned) as (rc & n & m' & E & _).
  - constructor.
    + intros i pa Hi. cbn [ctx_t ctx_root_pa demo_pt_ctx]. rewrite demo_pt_write by done. destruct (Z.ltb_spec i 2); [|done].
      intros [= <-]. change (2 ^ ptr_bits I386) with 4294967296. unfold in_range. split; [lia|]. split; [lia|].
      intros (k & p & Hk & Hr). unfold demo_pt_tables in Hk. apply lookup_singleton_Some in Hk as [<- <-].
      unfold in_range in Hr. cbn in Hr. lia.
    + intros i j pa Hi Hj. cbn [ctx_t ctx_root_pa demo_pt_ctx]. rewrite !demo_pt_write by done.
      destruct (i <? 2), (j <? 2); try done. intros E1 E2. injection E1. injection E2. lia.
  - done.
  - done.
  - done.
  - exists m'. apply (f_equal (fun r => match r with Ok (rc, m) => (rc, ld32 m 0x7ffffe) | Err _ => (2, 0) end)) in E as E'.
    vm_compute in E'. injection E' as <- El. split; [exact E|]. symmetry. exact El.
Defined.
