(* ===== verification/CString.v ===== *)
(** C strings as lists of bytes: a pointer into a string is an index, the byte
    at the end is the terminating zero, and a read beyond it is undefined. *)
From S2P Require Import Prelude.

Abbreviation cstr := (list Z).

Definition slen (s : cstr) : Z := Z.of_nat (length s).

Definition at_ (s : cstr) (i : Z) : res Z :=
  if i <? 0 then Err Undef
  else match s !! Z.to_nat i with
  | Some c => Ok c
  | None => if i =? slen s then Ok 0 else Err Undef
  end.

(** A string that can be in memory: bytes that are not zero. *)
Definition str_wf (s : cstr) : Prop := Forall (fun c => 0 < c < 256) s.

Lemma at_in s i c : 0 <= i -> s !! Z.to_nat i = Some c -> at_ s i = Ok c.
Proof. intros Hi E. unfold at_. rewrite (proj2 (Z.ltb_ge i 0)) by lia. by rewrite E. Qed.

Lemma at_end s : at_ s (slen s) = Ok 0.
Proof.
  unfold at_, slen. rewrite (proj2 (Z.ltb_ge _ 0)) by lia.
  rewrite lookup_ge_None_2 by lia. by rewrite Z.eqb_refl.
Qed.

(** The byte at an index, zero at the end. *)
Definition byte_at (s : cstr) (i : Z) : Z := default 0 (s !! Z.to_nat i).

Lemma at_ok s i : 0 <= i <= slen s -> at_ s i = Ok (byte_at s i).
Proof.
  intros Hi. unfold byte_at. destruct (s !! Z.to_nat i) as [c|] eqn:E.
  - cbn. apply at_in; [lia|done].
  - apply lookup_ge_None in E. unfold slen in Hi.
    replace i with (slen s) by (unfold slen; lia). apply at_end.
Qed.

Lemma byte_at_range s i : str_wf s -> 0 <= byte_at s i < 256.
Proof.
  intros Hs. unfold byte_at. destruct (s !! Z.to_nat i) as [c|] eqn:E; [|cbn; lia].
  pose proof (Forall_lookup_1 _ _ _ _ Hs E). cbn in *. lia.
Qed.

(** Only the terminator is zero. *)
Lemma byte_at_nonzero s i : str_wf s -> 0 <= i <= slen s -> byte_at s i <> 0 -> i < slen s.
Proof.
  intros Hs Hi Hn. destruct (decide (i = slen s)) as [->|]; [|lia]. exfalso. apply Hn.
  unfold byte_at, slen. by rewrite lookup_ge_None_2 by lia.
Qed.

(** Character classes, as the macros of [src/strtoul.c] and [src/cmdline.c]. *)
Definition isspace (c : Z) : bool := (c =? 32) || ((9 <=? c) && (c <=? 13)).
Definition isupper (c : Z) : bool := (65 <=? c) && (c <=? 90).
Definition islower (c : Z) : bool := (97 <=? c) && (c <=? 122).
Definition isalpha (c : Z) : bool := isupper c || islower c.
Definition isdigit (c : Z) : bool := (48 <=? c) && (c <=? 57).

Lemma isspace_nonzero c : isspace c = true -> c <> 0.
Proof. intros H ->. done. Qed.

(** What is left of the string from an index on. *)
Definition rest (s : cstr) (i : Z) : cstr := drop (Z.to_nat i) s.

Lemma rest_cases s i : str_wf s -> 0 <= i <= slen s ->
  (i = slen s /\ byte_at s i = 0 /\ rest s i = []) \/
  (i < slen s /\ 0 < byte_at s i < 256 /\ rest s i = byte_at s i :: rest s (i + 1)).
Proof.
  intros Hs Hi. unfold byte_at, rest, slen in *. destruct (s !! Z.to_nat i) as [c|] eqn:E.
  - right. pose proof (lookup_lt_Some _ _ _ E). pose proof (Forall_lookup_1 _ _ _ _ Hs E).
    split; [lia|split; [done|]]. replace (Z.to_nat (i + 1)) with (S (Z.to_nat i)) by lia. by apply drop_S.
  - left. apply lookup_ge_None in E. split; [lia|split; [done|]]. by apply drop_ge.
Qed.

Lemma rest_length s i : 0 <= i <= slen s -> Z.of_nat (length (rest s i)) = slen s - i.
Proof. unfold rest, slen. rewrite length_drop. lia. Qed.

(** A suffix of the string is the rest at its own index. *)
Lemma rest_suffix s i l : 0 <= i <= slen s -> l `suffix_of` rest s i ->
  let j := slen s - Z.of_nat (length l) in i <= j <= slen s /\ rest s j = l.
Proof.
  intros Hi [k E] j. pose proof (rest_length s i Hi) as Hl. rewrite E, length_app in Hl.
  split; [unfold j; lia|]. unfold rest, slen in *. subst j.
  assert (drop (length k) (drop (Z.to_nat i) s) = l) as El by (rewrite E; apply drop_app_length).
  rewrite <- El at 2. rewrite drop_drop. f_equal. lia.
Qed.
