(* ===== verification/Strtoul.v ===== *)
(** [src/strtoul.c]: [tb_strtoull], against a specification of numeric strings. *)
From S2P Require Import Prelude CString.

Definition ULONGLONG_MAX : Z := 0xFFFFFFFFFFFFFFFF.

(** [do { c = *s++; } while (_isspace(c));]: the character and the pointer after it. *)
Fixpoint skip_space (fuel : nat) (str : cstr) (s : Z) : res (Z * Z) :=
  match fuel with
  | O => Err NoFuel
  | S fuel =>
      c ← at_ str s;
      if isspace c then skip_space fuel str (s + 1) else Ok (c, s + 1)
  end.

(** Value of a character as a digit, in an [unsigned char]. *)
Definition digit_of (c : Z) : option Z :=
  if isdigit c then Some (u8 (c - 48))
  else if isalpha c then Some (u8 (c - (if isupper c then 65 - 10 else 97 - 10)))
  else None.

(** The [for] loop: the accumulator, [any] and the pointer when it is left. *)
Fixpoint acc_loop (fuel : nat) (str : cstr) (base cutoff cutlim acc any c s : Z) : res (Z * Z * Z) :=
  match fuel with
  | O => Err NoFuel
  | S fuel =>
      match digit_of c with
      | None => Ok (acc, any, s)
      | Some d =>
          if base <=? d then Ok (acc, any, s)
          else
            let '(acc, any) :=
              (if (any <? 0) || (cutoff <? acc) || ((acc =? cutoff) && (cutlim <? d))
               then (acc, -1) else (u64 (u64 (acc * u64 base) + d), 1)) in
            c ← at_ str s; acc_loop fuel str base cutoff cutlim acc any c (s + 1)
      end
  end.

(** The value returned and the value stored through [endptr].  [nptr] is an index
    into the string, so it is not null. *)
Definition tb_strtoull (a : subarch) (str : cstr) (nptr base : Z) : res (Z * Z) :=
  let fuel := S (length str) in
  '(c, s) ← skip_space fuel str nptr;
  '(neg, c, s) ←
    (if c =? 45 then c ← at_ str s; Ok (true, c, s + 1)
     else if c =? 43 then c ← at_ str s; Ok (false, c, s + 1)
     else Ok (false, c, s)) : res (bool * Z * Z);
  '(c, s, base) ←
    (if ((base =? 0) || (base =? 16)) && (c =? 48) then
       x ← at_ str s;
       if (x =? 120) || (x =? 88) then c ← at_ str (s + 1); Ok (c, s + 2, 16) else Ok (c, s, base)
     else Ok (c, s, base)) : res (Z * Z * Z);
  let base := if base =? 0 then (if c =? 48 then 8 else 10) else base in
  let cutoff := ULONGLONG_MAX / u64 base in
  let cutlim := swrap 32 (ULONGLONG_MAX mod u64 base) in
  '(acc, any, s) ← acc_loop fuel str base cutoff cutlim 0 0 c s;
  if any <? 0 then Err Halt
  else
    let acc := if neg : bool then u64 (- acc) else acc in
    Ok (wrap (ptr_bits a) acc, if negb (any =? 0) then s - 1 else nptr).

(** ** Specification: the value of a run of digits *)

Definition valid_digit (base c : Z) : bool :=
  match digit_of c with Some d => d <? base | None => false end.

(** The digits at [i]. *)
Fixpoint digits_at (n : nat) (str : cstr) (base i : Z) : list Z :=
  match n with
  | O => []
  | S n => if valid_digit base (byte_at str i)
           then default 0 (digit_of (byte_at str i)) :: digits_at n str base (i + 1) else []
  end.
Definition value_of (base : Z) (ds : list Z) (acc : Z) : Z := foldl (fun a d => a * base + d) acc ds.

Lemma digit_of_range c d : digit_of c = Some d -> 0 <= d < 256 /\ c <> 0.
Proof.
  intros E. split; [|intros ->; vm_compute in E; done].
  unfold digit_of in E. repeat case_match; simplify_eq; apply (is_u_wrap 8); lia.
Qed.

Lemma valid_digit_nonzero base c : valid_digit base c = true -> c <> 0.
Proof.
  unfold valid_digit. destruct (digit_of c) as [d|] eqn:E; [|done].
  intros _. apply (digit_of_range c d E).
Qed.

Lemma value_of_ge base ds acc : 1 <= base -> 0 <= acc -> Forall (fun d => 0 <= d) ds -> acc <= value_of base ds acc.
Proof.
  intros Hb. revert acc. induction ds as [|d ds IH]; intros acc Ha Hds; [done|].
  apply Forall_cons in Hds as [Hd Hds]. cbn. etransitivity; [|apply IH; [nia|done]]. nia.
Qed.

Lemma digits_at_pos n str base i : Forall (fun d => 0 <= d < base) (digits_at n str base i).
Proof.
  revert i. induction n as [|n IH]; intros i; cbn [digits_at]; [constructor|].
  unfold valid_digit. destruct (digit_of (byte_at str i)) as [d|] eqn:E; [|constructor].
  destruct (Z.ltb_spec d base); [|constructor]. constructor; [|apply IH].
  apply digit_of_range in E. cbn. lia.
Qed.

(** The cutoff test is exact. *)
Lemma cutoff_test base acc d :
  2 <= base <= 36 -> 0 <= acc -> 0 <= d < base ->
  (ULONGLONG_MAX / base <? acc) || ((acc =? ULONGLONG_MAX / base) && (ULONGLONG_MAX mod base <? d)) =
  (2 ^ 64 <=? acc * base + d).
Proof.
  intros Hb Ha Hd. unfold ULONGLONG_MAX. set (M := 0xFFFFFFFFFFFFFFFF).
  pose proof (Z.div_mod M base ltac:(lia)) as Hdm. pose proof (Z.mod_pos_bound M base ltac:(lia)) as Hmb.
  replace (2 ^ 64) with (M + 1) by (unfold M; lia).
  set (q := M / base) in *. set (r := M mod base) in *. clearbody q r. clearbody M.
  bcase; cbn; try done; nia.
Qed.

Lemma digits_at_S n str base i :
  digits_at (S n) str base i =
  if valid_digit base (byte_at str i)
  then default 0 (digit_of (byte_at str i)) :: digits_at n str base (i + 1) else [].
Proof. done. Qed.

(** A round of the loop, when it goes on and when it is left. *)
Lemma acc_loop_stop fuel str base q r acc any c s :
  valid_digit base c = false -> acc_loop (S fuel) str base q r acc any c s = Ok (acc, any, s).
Proof.
  unfold valid_digit. cbn [acc_loop]. destruct (digit_of c) as [d|]; [|done].
  intros H. by rewrite (proj2 (Z.leb_le base d)) by lia.
Qed.

Definition over (base acc any d : Z) : bool := (any <? 0) || (2 ^ 64 <=? acc * base + d).

Lemma acc_loop_go fuel str base acc any c s d :
  2 <= base <= 36 -> 0 <= acc -> digit_of c = Some d -> d < base -> 0 <= s <= slen str ->
  acc_loop (S fuel) str base (ULONGLONG_MAX / base) (ULONGLONG_MAX mod base) acc any c s =
  acc_loop fuel str base (ULONGLONG_MAX / base) (ULONGLONG_MAX mod base)
    (if over base acc any d then acc else acc * base + d) (if over base acc any d then -1 else 1)
    (byte_at str s) (s + 1).
Proof.
  intros Hb Ha E Hd Hs. pose proof (proj1 (digit_of_range _ _ E)) as Hd0.
  cbn [acc_loop]. rewrite E, (proj2 (Z.leb_gt base d)) by lia.
  rewrite <- orb_assoc, (cutoff_test base acc d) by lia. fold (over base acc any d).
  rewrite (at_ok str s) by done. destruct (over base acc any d) eqn:Eo; cbn [mbind res_bind]; [done|].
  unfold over in Eo. apply orb_false_iff in Eo as [_ Eo]. apply Z.leb_gt in Eo.
  unfold u64. rewrite (wrap_small 64 base) by (unfold is_u; lia).
  rewrite (wrap_small 64 (acc * base)) by (unfold is_u; nia).
  by rewrite (wrap_small 64 (acc * base + d)) by (unfold is_u; nia).
Qed.

(** What the loop computes: the value of the digits when it fits, else [any] is negative. *)
Definition acc_post (base : Z) (ds : list Z) (acc any acc' any' : Z) : Prop :=
  if bool_decide (any = -1 \/ 2 ^ 64 <= value_of base ds acc)
  then ds <> [] -> any' = -1
  else acc' = value_of base ds acc /\ any' = if bool_decide (ds = []) then any else 1.

Lemma acc_post_cons base ds acc any d acc' any' :
  2 <= base -> 0 <= acc < 2 ^ 64 -> 0 <= d -> Forall (fun x => 0 <= x < base) ds ->
  any = -1 \/ any = 0 \/ any = 1 ->
  (ds = [] -> any' = (if over base acc any d then -1 else 1) /\
              acc' = (if over base acc any d then acc else acc * base + d)) ->
  acc_post base ds (if over base acc any d then acc else acc * base + d)
    (if over base acc any d then -1 else 1) acc' any' ->
  acc_post base (d :: ds) acc any acc' any'.
Proof.
  intros Hb Ha Hd Hds Hany Hnil. unfold acc_post.
  change (value_of base (d :: ds) acc) with (value_of base ds (acc * base + d)).
  assert (acc * base + d <= value_of base ds (acc * base + d)) as Hmono.
  { apply value_of_ge; [lia|nia|]. eapply Forall_impl; [done|]. cbn. lia. }
  rewrite (bool_decide_eq_false_2 (d :: ds = [])) by done.
  destruct (over base acc any d) eqn:Eo; unfold over in Eo.
  - rewrite !bool_decide_eq_true_2 by lia. intros Hp _.
    destruct (decide (ds = [])) as [Eds|Eds]; [by destruct (Hnil Eds)|auto].
  - apply orb_false_iff in Eo as [Ea Eo].
    destruct (bool_decide_reflect (any = -1 \/ 2 ^ 64 <= value_of base ds (acc * base + d))) as [Hv|Hv].
    + rewrite bool_decide_eq_true_2 by lia. intros Hp _.
      destruct (decide (ds = [])) as [->|Eds]; [cbn in Hv; lia|auto].
    + rewrite bool_decide_eq_false_2 by lia. intros [-> ->]. split; [done|]. by destruct (bool_decide _).
Qed.

Lemma acc_loop_spec str base n :
  str_wf str -> 2 <= base <= 36 ->
  forall i acc any fuel, 0 <= i <= slen str -> slen str - i = Z.of_nat n -> (n < fuel)%nat ->
  0 <= acc < 2 ^ 64 -> any = -1 \/ any = 0 \/ any = 1 ->
  exists acc' any' ds, ds = digits_at (S n) str base i /\
    acc_loop fuel str base (ULONGLONG_MAX / base) (ULONGLONG_MAX mod base) acc any
      (byte_at str i) (i + 1) = Ok (acc', any', i + 1 + Z.of_nat (length ds)) /\
    i + Z.of_nat (length ds) <= slen str /\
    valid_digit base (byte_at str (i + Z.of_nat (length ds))) = false /\
    (ds = [] -> any' = any /\ acc' = acc) /\ acc_post base ds acc any acc' any'.
Proof.
  intros Hs Hb. induction n as [|n IH]; intros i acc any fuel Hi Hn Hf Ha Hany;
    (destruct fuel as [|fuel]; [lia|]); rewrite digits_at_S;
    (destruct (valid_digit base (byte_at str i)) eqn:Ev; [
       pose proof (byte_at_nonzero str i Hs Hi (valid_digit_nonzero _ _ Ev)) |
       exists acc, any, []; change (Z.of_nat (length [])) with 0; rewrite !Z.add_0_r; rewrite acc_loop_stop by done; split_and!; try done; [lia|];
       unfold acc_post; case_bool_decide; [done|]; split; [done|]; by rewrite bool_decide_eq_true_2 ]).
  { lia. }
  unfold valid_digit in Ev. destruct (digit_of (byte_at str i)) as [d|] eqn:Ed; [|done]. cbn [default].
  pose proof (proj1 (digit_of_range _ _ Ed)) as Hd0. rewrite (acc_loop_go _ _ _ _ _ _ _ d) by (done || lia).
  destruct (IH (i + 1) (if over base acc any d then acc else acc * base + d)
              (if over base acc any d then -1 else 1) fuel) as (acc' & any' & ds & -> & E & Hend & Hstop & Hnil & Hpost);
    [lia..| |destruct (over base acc any d); auto|].
  { destruct (over base acc any d) eqn:Eo; [done|]. unfold over in Eo. apply orb_false_iff in Eo. nia. }
  set (ds := digits_at (S n) str base (i + 1)) in *.
  exists acc', any', (d :: ds). cbn [length].
  replace (i + 1 + Z.of_nat (S (length ds))) with (i + 1 + 1 + Z.of_nat (length ds)) by lia.
  replace (i + Z.of_nat (S (length ds))) with (i + 1 + Z.of_nat (length ds)) by lia.
  split_and!; try done; try lia.
  apply acc_post_cons; try done; try lia. apply digits_at_pos.
Qed.

(** ** The grammar the function accepts, on the rest of the string *)

Fixpoint drop_spaces (l : list Z) : list Z :=
  match l with c :: l' => if isspace c then drop_spaces l' else l | [] => [] end.
Definition sign_of (l : list Z) : bool * list Z :=
  match l with c :: l' => if c =? 45 then (true, l') else (false, if c =? 43 then l' else l) | [] => (false, []) end.
Definition is_hex_prefix (l : list Z) : option (list Z) :=
  match l with c :: x :: l' => if (c =? 48) && ((x =? 120) || (x =? 88)) then Some l' else None | _ => None end.
Definition radix_of (base : Z) (l : list Z) : Z * list Z :=
  match (if (base =? 0) || (base =? 16) then is_hex_prefix l else None) with
  | Some l' => (16, l')
  | None => (if base =? 0 then match l with c :: _ => if c =? 48 then 8 else 10 | [] => 10 end else base, l)
  end.
Fixpoint digits (base : Z) (l : list Z) : list Z :=
  match l with
  | c :: l => if valid_digit base c then default 0 (digit_of c) :: digits base l else []
  | [] => []
  end.

(** Sign, radix, digits and the text where the digits start. *)
Definition numeral (base : Z) (l : list Z) : bool * Z * list Z * list Z :=
  let '(neg, l) := sign_of (drop_spaces l) in
  let '(base, l) := radix_of base l in (neg, base, digits base l, l).

Lemma drop_spaces_suffix l : drop_spaces l `suffix_of` l.
Proof.
  induction l as [|c l IH]; cbn; [done|]. destruct (isspace c); [|done]. by apply suffix_cons_r.
Qed.
Lemma sign_of_suffix l : (sign_of l).2 `suffix_of` l.
Proof. destruct l as [|c l]; cbn; [done|]. repeat case_match; cbn; try done; by apply suffix_cons_r. Qed.

Lemma skip_space_spec str i fuel :
  str_wf str -> 0 <= i <= slen str -> (Z.to_nat (slen str - i) < fuel)%nat ->
  let j := slen str - Z.of_nat (length (drop_spaces (rest str i))) in
  skip_space fuel str i = Ok (byte_at str j, j + 1).
Proof.
  intros Hs. revert i. induction fuel as [|fuel IH]; intros i Hi Hf; [lia|].
  cbn [skip_space]. rewrite at_ok by done. cbn [mbind res_bind].
  destruct (rest_cases str i Hs Hi) as [(-> & -> & ->)|(Hlt & Hb & E)].
  - cbn. rewrite Z.sub_0_r. unfold byte_at, slen. by rewrite lookup_ge_None_2 by lia.
  - rewrite E. cbn [drop_spaces]. destruct (isspace (byte_at str i)) eqn:Es.
    + rewrite (IH (i + 1)) by lia. done.
    + rewrite <- E, rest_length by done. by replace (slen str - (slen str - i)) with i by lia.
Qed.

Lemma digits_at_rest str base i n :
  str_wf str -> 0 <= i <= slen str -> slen str - i = Z.of_nat n ->
  digits_at (S n) str base i = digits base (rest str i).
Proof.
  intros Hs. revert i. induction n as [|n IH]; intros i Hi Hn; rewrite digits_at_S;
    (destruct (rest_cases str i Hs Hi) as [(Ei & Ez & ->)|(Hlt & Hb & ->)]; [by rewrite Ez|]); [lia|].
  cbn [digits]. by rewrite (IH (i + 1)) by lia.
Qed.

Lemma rest_head str i : str_wf str -> 0 <= i <= slen str -> byte_at str i = default 0 (head (rest str i)).
Proof. intros Hs Hi. by destruct (rest_cases str i Hs Hi) as [(_ & -> & ->)|(_ & _ & ->)]. Qed.

(** The sign and the radix prefix, as the code reads them from the position of a character. *)
Lemma sign_step str i :
  str_wf str -> 0 <= i <= slen str ->
  let j := slen str - Z.of_nat (length (sign_of (rest str i)).2) in
  (if byte_at str i =? 45 then c ← at_ str (i + 1); Ok (true, c, i + 1 + 1)
   else if byte_at str i =? 43 then c ← at_ str (i + 1); Ok (false, c, i + 1 + 1)
   else Ok (false, byte_at str i, i + 1)) = Ok ((sign_of (rest str i)).1, byte_at str j, j + 1).
Proof.
  intros Hs Hi j. destruct (rest_cases str i Hs Hi) as [(Ei & Ez & Er)|(Hlt & Hb & Er)].
  - unfold j. rewrite Er. cbn. rewrite Z.sub_0_r, <- Ei, Ez. done.
  - pose proof (rest_length str (i + 1) ltac:(lia)) as Hl. unfold j. rewrite Er. cbn [sign_of].
    rewrite at_ok by lia. destruct (byte_at str i =? 45); [|destruct (byte_at str i =? 43)]; cbn [fst snd mbind res_bind].
    1, 2: rewrite Hl; by replace (slen str - (slen str - (i + 1))) with (i + 1) by lia.
    rewrite <- Er, rest_length by done. by replace (slen str - (slen str - i)) with i by lia.
Qed.

Lemma radix_step str i base :
  str_wf str -> 0 <= i <= slen str ->
  let '(b, l) := radix_of base (rest str i) in
  let j := slen str - Z.of_nat (length l) in
  l `suffix_of` rest str i /\
  exists base0,
    (if ((base =? 0) || (base =? 16)) && (byte_at str i =? 48) then
       x ← at_ str (i + 1);
       if (x =? 120) || (x =? 88) then c ← at_ str (i + 1 + 1); Ok (c, i + 1 + 2, 16) else Ok (byte_at str i, i + 1, base)
     else Ok (byte_at str i, i + 1, base)) = Ok (byte_at str j, j + 1, base0) /\
    (if base0 =? 0 then (if byte_at str j =? 48 then 8 else 10) else base0) = b.
Proof.
  intros Hs Hi. unfold radix_of.
  pose proof (rest_length str i Hi) as Hl. pose proof (rest_head str i Hs Hi) as Hh.
  set (p := (base =? 0) || (base =? 16)).
  destruct (if p then is_hex_prefix (rest str i) else None) as [l|] eqn:Eh.
  - destruct p; [|done]. unfold is_hex_prefix in Eh. destruct (rest str i) as [|c [|x l']] eqn:Er; [done..|].
    destruct ((c =? 48) && ((x =? 120) || (x =? 88))) eqn:Ec; [|done]. injection Eh as ->.
    apply andb_true_iff in Ec as [Ec Ex]. cbn in Hh. rewrite <- Hh in Ec. split; [by do 2 apply suffix_cons_r|].
    destruct (rest_suffix str i (x :: l) Hi) as [Hj1 Er1]; [rewrite Er; by apply suffix_cons_r|].
    cbn [length] in *. replace (slen str - Z.of_nat (S (length l))) with (i + 1) in * by lia.
    exists 16. rewrite Ec, (at_ok str (i + 1)) by lia. cbn [andb mbind res_bind].
    rewrite (rest_head str (i + 1)), Er1 by (done || lia). change (default 0 (head (x :: l))) with x. rewrite Ex, (at_ok str (i + 1 + 1)) by lia.
    cbn [mbind res_bind]. replace (slen str - Z.of_nat (length l)) with (i + 1 + 1) by lia.
    split; [do 2 f_equal; f_equal; lia|done].
  - split; [done|]. exists base. rewrite Hl. replace (slen str - (slen str - i)) with i by lia. split.
    + destruct p; [|done]. unfold is_hex_prefix in Eh. destruct (Z.eqb_spec (byte_at str i) 48) as [E48|]; [|done].
      destruct (rest_cases str i Hs Hi) as [(_ & E0 & _)|(Hlt & _ & Er)]; [lia|].
      rewrite (at_ok str (i + 1)) by lia. cbn [andb mbind res_bind].
      destruct (rest_cases str (i + 1) Hs ltac:(lia)) as [(_ & -> & _)|(_ & _ & Er1)]; [done|].
      rewrite Er, Er1, E48 in Eh. destruct (_ || _); [done|]. by rewrite E48.
    + rewrite Hh. destruct (base =? 0); [|done]. by destruct (rest str i).
Qed.

Lemma radix_of_range base l : base = 0 \/ 2 <= base <= 36 -> 2 <= (radix_of base l).1 <= 36.
Proof. intros H. unfold radix_of. repeat case_match; cbn in *; lia. Qed.

Lemma u64_small_int base : 2 <= base <= 36 ->
  u64 base = base /\ swrap 32 (ULONGLONG_MAX mod base) = ULONGLONG_MAX mod base.
Proof.
  intros Hb. split; [apply wrap_small; unfold is_u; lia|].
  pose proof (Z.mod_pos_bound ULONGLONG_MAX base ltac:(lia)). unfold swrap.
  rewrite (wrap_small 32) by (unfold is_u; lia). by rewrite (proj2 (Z.ltb_lt _ _)) by lia.
Qed.

Lemma tb_strtoull_spec a str nptr base :
  str_wf str -> 0 <= nptr <= slen str -> base = 0 \/ 2 <= base <= 36 ->
  let '(neg, radix, ds, l) := numeral base (rest str nptr) in
  tb_strtoull a str nptr base =
    let v := value_of radix ds 0 in
    if 2 ^ 64 <=? v then Err Halt
    else Ok (wrap (ptr_bits a) (if neg then - v else v),
             if bool_decide (ds = []) then nptr
             else slen str - Z.of_nat (length l) + Z.of_nat (length ds)).
Proof.
  intros Hs Hn Hbase. unfold tb_strtoull, numeral. cbv zeta.
  rewrite (skip_space_spec str nptr) by (done || unfold slen in *; lia). cbn [mbind res_bind].
  destruct (rest_suffix str nptr (drop_spaces (rest str nptr)) Hn (drop_spaces_suffix _)) as [Hi Ei].
  cbv zeta in Hi, Ei. set (i := slen str - Z.of_nat (length (drop_spaces (rest str nptr)))) in *.
  rewrite <- Ei. pose proof (sign_step str i Hs ltac:(lia)) as E. cbv zeta in E. rewrite E. clear E. cbn [mbind res_bind].
  destruct (sign_of (rest str i)) as [neg l1] eqn:Esg.
  destruct (rest_suffix str i l1 ltac:(lia)) as [Hj Ej].
  { pose proof (sign_of_suffix (rest str i)) as H. by rewrite Esg in H. }
  cbn [fst snd]. set (j := slen str - Z.of_nat (length l1)) in *.
  pose proof (radix_step str j base Hs ltac:(lia)) as E. pose proof (radix_of_range base l1 Hbase) as Hr.
  rewrite Ej in E. destruct (radix_of base l1) as [radix l] eqn:Er. cbn [fst] in Hr.
  destruct E as (Hsuf & base0 & -> & Eb). cbn [mbind res_bind]. rewrite Eb. clear base0 Eb.
  destruct (rest_suffix str j l ltac:(lia)) as [Hk Ek]; [by rewrite Ej|].
  cbv zeta in *. set (k := slen str - Z.of_nat (length l)) in *.
  destruct (u64_small_int radix Hr) as [-> ->].
  destruct (acc_loop_spec str radix (length l) Hs Hr k 0 0 (S (length str)))
    as (acc & any & ds & Eds & E & _ & _ & Hnil & Hpost); [lia|unfold k; lia|unfold k, slen in *; lia|lia|auto|].
  rewrite E. cbn [mbind res_bind]. clear E. rewrite digits_at_rest, Ek in Eds by (done || unfold k; lia). subst ds.
  unfold acc_post in Hpost.
  destruct (Z.leb_spec (2 ^ 64) (value_of radix (digits radix l) 0)) as [Hbig|Hsmall].
  - rewrite bool_decide_eq_true_2 in Hpost by auto. rewrite Hpost; [done|]. intros Z0. rewrite Z0 in Hbig. cbn in Hbig. lia.
  - rewrite bool_decide_eq_false_2 in Hpost by lia. destruct Hpost as [-> ->].
    set (v := value_of _ _ 0) in *.
    assert (wrap (ptr_bits a) (if neg then u64 (- v) else v) = wrap (ptr_bits a) (if neg then - v else v)) as Ew.
    { destruct neg; [|done]. apply wrap_wrap. destruct a; cbn; lia. }
    destruct (bool_decide (digits radix l = [])) eqn:Ed; cbn [negb Z.eqb Z.ltb Z.compare].
    + by rewrite Ew.
    + rewrite Ew. do 2 f_equal. lia.
Qed.

(** C38: [tb_strtoull] reads the numeral at [nptr]: leading white space, an
    optional sign, the [0x] prefix in radix 0 or 16, the [0] prefix in radix 0, and
    the longest run of digits of the radix.  A value below 2^64 is returned, negated
    for a minus sign and truncated to [unsigned long]; the end pointer is after the
    last digit, or [nptr] when there is none.  A larger value halts.  No byte after
    the terminator is read and the loops end. *)
Theorem tb_strtoull_numeral a str nptr base :
  str_wf str -> 0 <= nptr <= slen str -> base = 0 \/ 2 <= base <= 36 ->
  let '(neg, radix, ds, l) := numeral base (rest str nptr) in
  tb_strtoull a str nptr base =
    let v := value_of radix ds 0 in
    if 2 ^ 64 <=? v then Err Halt
    else Ok (wrap (ptr_bits a) (if neg then - v else v),
             if bool_decide (ds = []) then nptr
             else slen str - Z.of_nat (length l) + Z.of_nat (length ds)).
Proof. apply tb_strtoull_spec. Qed.

Lemma tb_strtoull_numeral_witness :
  tb_strtoull I386 [32; 45; 48; 120; 49; 102; 32; 55] 0 0 = Ok (2 ^ 32 - 31, 6).
Proof.
  refine (eq_trans (tb_strtoull_numeral I386 [32; 45; 48; 120; 49; 102; 32; 55] 0 0 _ _ _) _).
  - repeat constructor.
  - vm_compute. split; discriminate.
  - by left.
  - by vm_compute.
Defined.
