(* ===== verification/Cmdline.v ===== *)
(** [src/cmdline.c]: the options of the boot command line. *)
From Stdlib Require Import Ascii String.
From S2P Require Import Prelude.
From S2P Require Import CString.
From S2P Require Import Strtoul.

(** The option globals of [src/cmdline.c]. *)
Record opts := mkOpts { g_shv_opt : Z; g_nmi_opt : Z; g_nmi_exp : Z; g_timer_ms : Z }.

(** Initial values: the first three come from the build configuration. *)
Definition initial_opts (SHV_OPT NMI_OPT NMI_EXP : Z) : opts := mkOpts SHV_OPT NMI_OPT NMI_EXP 50.

(** What [cmdline_vars[i].ptr] points at. *)
Inductive opt_var := Shv_opt | Nmi_opt | Nmi_exp | Timer_ms.
#[global] Instance opt_var_eq_dec : EqDecision opt_var.
Proof. solve_decision. Defined.

Definition get_var (v : opt_var) (g : opts) : Z :=
  match v with
  | Shv_opt => g_shv_opt g | Nmi_opt => g_nmi_opt g | Nmi_exp => g_nmi_exp g | Timer_ms => g_timer_ms g
  end.
Definition set_var (v : opt_var) (x : Z) (g : opts) : opts :=
  match v with
  | Shv_opt => mkOpts x (g_nmi_opt g) (g_nmi_exp g) (g_timer_ms g)
  | Nmi_opt => mkOpts (g_shv_opt g) x (g_nmi_exp g) (g_timer_ms g)
  | Nmi_exp => mkOpts (g_shv_opt g) (g_nmi_opt g) x (g_timer_ms g)
  | Timer_ms => mkOpts (g_shv_opt g) (g_nmi_opt g) (g_nmi_exp g) x
  end.

(** The bytes of a string literal. *)
Definition lit (s : string) : cstr := map (fun c => Z.of_nat (nat_of_ascii c)) (list_ascii_of_string s).

Definition cmdline_vars : list (opt_var * cstr) :=
  [ (Shv_opt, lit "shv_opt="); (Nmi_opt, lit "nmi_opt=");
    (Nmi_exp, lit "nmi_exp="); (Timer_ms, lit "timer_ms=") ].

(** [strlen(str + i)]. *)
Fixpoint strlen_at (fuel : nat) (str : cstr) (i : Z) : res Z :=
  match fuel with
  | O => Err NoFuel
  | S fuel => c ← at_ str i; if truth c then n ← strlen_at fuel str (i + 1); Ok (n + 1) else Ok 0
  end.
(** [memcmp(str + i, prefix, len) == 0]. *)
Fixpoint same_bytes (prefix : cstr) (str : cstr) (i : Z) : res bool :=
  match prefix with
  | [] => Ok true
  | p :: prefix => c ← at_ str i; if c =? p then same_bytes prefix str (i + 1) else Ok false
  end.

Fixpoint match_vars (a : subarch) (vars : list (opt_var * cstr)) (str : cstr) (begin_word : Z) (g : opts) : res opts :=
  match vars with
  | [] => Ok g
  | (ptr, prefix) :: vars =>
      let len := slen prefix in
      n ← strlen_at (S (List.length str)) str begin_word;
      eq ← (if len <=? n then same_bytes prefix str begin_word else Ok false);
      g ← (if eq : bool then
             '(v, end_val) ← tb_strtoull a str (begin_word + len) 0; Ok (set_var ptr v g)
           else Ok g);
      match_vars a vars str begin_word g
  end.
Definition match_var (a : subarch) (str : cstr) (begin_word end_word : Z) (g : opts) : res opts :=
  match_vars a cmdline_vars str begin_word g.

(** The inner loop over the characters of a word. *)
Fixpoint word_end (fuel : nat) (str : cstr) (end_word : Z) : res Z :=
  match fuel with
  | O => Err NoFuel
  | S fuel =>
      c ← at_ str end_word;
      if negb (c =? 0) && negb (isspace c) then word_end fuel str (end_word + 1) else Ok end_word
  end.
(** The inner loop over the white space after a word. *)
Fixpoint word_begin (fuel : nat) (str : cstr) (begin_word : Z) : res Z :=
  match fuel with
  | O => Err NoFuel
  | S fuel => c ← at_ str begin_word; if isspace c then word_begin fuel str (begin_word + 1) else Ok begin_word
  end.

Fixpoint parse_loop (a : subarch) (fuel : nat) (str : cstr) (begin_word : Z) (g : opts) : res opts :=
  match fuel with
  | O => Err NoFuel
  | S fuel =>
      c ← at_ str begin_word;
      if truth c then
        end_word ← word_end (S (List.length str)) str begin_word;
        g ← match_var a str begin_word end_word g;
        begin_word ← word_begin (S (List.length str)) str end_word;
        parse_loop a fuel str begin_word g
      else Ok g
  end.
Definition parse_cmdline (a : subarch) (cmdline : cstr) (g : opts) : res opts :=
  parse_loop a (S (List.length cmdline)) cmdline 0 g.

(** ** Specification on the text *)

(** The texts from the start of each word on. *)
Fixpoint words (start : bool) (l : list Z) : list (list Z) :=
  match l with
  | [] => []
  | c :: l' => if isspace c then words true l' else (if start then [l] else []) ++ words false l'
  end.
Fixpoint drop_word (l : list Z) : list Z :=
  match l with c :: l' => if isspace c then l else drop_word l' | [] => [] end.

(** The value of the numeral at the front of a text; a numeral that needs more than 64 bits halts. *)
Definition numeral_value (a : subarch) (l : list Z) : res Z :=
  let '(neg, radix, ds, _) := numeral 0 l in
  let v := value_of radix ds 0 in
  if 2 ^ 64 <=? v then Err Halt else Ok (wrap (ptr_bits a) (if neg then - v else v)).

Definition option_value (prefix l : list Z) : option (list Z) :=
  if bool_decide (prefix `prefix_of` l) then Some (drop (List.length prefix) l) else None.

Definition apply_var (a : subarch) (l : list Z) (g : opts) (vp : opt_var * cstr) : res opts :=
  match option_value vp.2 l with
  | Some t => v ← numeral_value a t; Ok (set_var vp.1 v g)
  | None => Ok g
  end.
Fixpoint foldm {A B} (f : B -> A -> res B) (l : list A) (b : B) : res B :=
  match l with [] => Ok b | x :: l => b ← f b x; foldm f l b end.
Definition apply_word (a : subarch) (g : opts) (l : list Z) : res opts := foldm (apply_var a l) cmdline_vars g.

(** ** Lemmas *)

Lemma strlen_at_ok str i fuel :
  str_wf str -> 0 <= i <= slen str -> (Z.to_nat (slen str - i) < fuel)%nat -> strlen_at fuel str i = Ok (slen str - i).
Proof.
  intros Hs. revert i. induction fuel as [|fuel IH]; intros i Hi Hf; [lia|].
  cbn [strlen_at]. rewrite at_ok by done. cbn [mbind res_bind]. unfold truth.
  destruct (rest_cases str i Hs Hi) as [(-> & -> & _)|(Hlt & Hb & _)].
  - cbn. f_equal. lia.
  - rewrite (proj2 (Z.eqb_neq _ 0)) by lia. cbn [negb]. rewrite IH by lia. cbn [mbind res_bind]. f_equal. lia.
Qed.

Lemma same_bytes_ok prefix str i :
  str_wf str -> 0 <= i -> i + slen prefix <= slen str ->
  same_bytes prefix str i = Ok (bool_decide (prefix `prefix_of` rest str i)).
Proof.
  intros Hs. revert i. induction prefix as [|p prefix IH]; intros i Hi Hl; cbn [same_bytes].
  - by rewrite bool_decide_eq_true_2 by apply prefix_nil.
  - unfold slen in Hl. cbn [length] in Hl. rewrite at_ok by (unfold slen; lia). cbn [mbind res_bind].
    destruct (rest_cases str i Hs) as [(Ei & _)|(_ & _ & ->)]; [unfold slen; lia|unfold slen in Ei; lia|].
    destruct (Z.eqb_spec (byte_at str i) p) as [->|Hne].
    + rewrite IH by (unfold slen; lia). f_equal. apply bool_decide_ext. split.
      * apply prefix_cons.
      * apply prefix_cons_inv_2.
    + rewrite bool_decide_eq_false_2; [done|]. intros H. apply prefix_cons_inv_1 in H. done.
Qed.

Lemma option_value_short prefix l : (List.length l < List.length prefix)%nat -> option_value prefix l = None.
Proof.
  intros Hl. unfold option_value. rewrite bool_decide_eq_false_2; [done|].
  intros H%prefix_length. lia.
Qed.

Lemma option_value_suffix prefix l t :
  option_value prefix l = Some t -> t `suffix_of` l /\ (List.length l = List.length prefix + List.length t)%nat.
Proof.
  unfold option_value. case_bool_decide as H; [|done]. destruct H as [k ->].
  rewrite drop_app_length. intros [= <-]. rewrite length_app. split; [by exists prefix|lia].
Qed.

Lemma tb_strtoull_value a str i :
  str_wf str -> 0 <= i <= slen str ->
  ('(v, e) ← tb_strtoull a str i 0; Ok v) = numeral_value a (rest str i).
Proof.
  intros Hs Hi. pose proof (tb_strtoull_spec a str i 0 Hs Hi (or_introl eq_refl)) as H.
  unfold numeral_value. destruct (numeral 0 (rest str i)) as [[[neg radix] ds] l].
  rewrite H. cbv zeta. by destruct (_ <=? _).
Qed.

Lemma match_vars_ok a vars str i g :
  str_wf str -> 0 <= i <= slen str ->
  match_vars a vars str i g = foldm (apply_var a (rest str i)) vars g.
Proof.
  intros Hs Hi. revert g. induction vars as [|[v p] vars IH]; intros g; cbn [match_vars foldm]; [done|].
  rewrite strlen_at_ok by (done || unfold slen in *; lia). cbn [mbind res_bind].
  assert (apply_var a (rest str i) g (v, p) = match option_value p (rest str i) with
    | Some t => x ← numeral_value a t; Ok (set_var v x g) | None => Ok g end) as -> by done.
  pose proof (rest_length str i Hi) as Hl.
  destruct (Z.leb_spec (slen p) (slen str - i)) as [Hle|Hgt].
  - rewrite same_bytes_ok by (done || lia). cbn [mbind res_bind]. unfold option_value at 1.
    case_bool_decide as Hp; cbn [mbind res_bind]; [|by rewrite IH].
    assert (drop (List.length p) (rest str i) = rest str (i + slen p)) as ->.
    { unfold rest, slen. rewrite drop_drop. f_equal. lia. }
    rewrite <- (tb_strtoull_value a) by (done || unfold slen in *; lia).
    destruct (tb_strtoull _ _ _ _) as [[x e]|]; cbn [mbind res_bind]; [|done]. by rewrite IH.
  - rewrite option_value_short by (unfold slen in *; lia). cbn [mbind res_bind]. by rewrite IH.
Qed.

(** The index of a suffix of the string. *)
Definition idx (str l : cstr) : Z := slen str - Z.of_nat (List.length l).

Lemma word_end_ok str i fuel :
  str_wf str -> 0 <= i <= slen str -> (Z.to_nat (slen str - i) < fuel)%nat ->
  word_end fuel str i = Ok (idx str (drop_word (rest str i))).
Proof.
  intros Hs. revert i. induction fuel as [|fuel IH]; intros i Hi Hf; [lia|].
  cbn [word_end]. rewrite at_ok by done. cbn [mbind res_bind]. unfold idx.
  destruct (rest_cases str i Hs Hi) as [(-> & -> & ->)|(Hlt & Hb & E)].
  - cbn. f_equal. lia.
  - rewrite E. cbn [drop_word]. rewrite (proj2 (Z.eqb_neq _ 0)) by lia. cbn [negb andb].
    destruct (isspace (byte_at str i)); cbn [negb].
    + rewrite <- E, rest_length by done. f_equal. lia.
    + by rewrite (IH (i + 1)) by lia.
Qed.

Lemma word_begin_ok str i fuel :
  str_wf str -> 0 <= i <= slen str -> (Z.to_nat (slen str - i) < fuel)%nat ->
  word_begin fuel str i = Ok (idx str (drop_spaces (rest str i))).
Proof.
  intros Hs. revert i. induction fuel as [|fuel IH]; intros i Hi Hf; [lia|].
  cbn [word_begin]. rewrite at_ok by done. cbn [mbind res_bind]. unfold idx.
  destruct (rest_cases str i Hs Hi) as [(-> & -> & ->)|(Hlt & Hb & E)].
  - cbn. f_equal. lia.
  - rewrite E. cbn [drop_spaces]. destruct (isspace (byte_at str i)).
    + by rewrite (IH (i + 1)) by lia.
    + rewrite <- E, rest_length by done. f_equal. lia.
Qed.

Lemma drop_word_suffix l : drop_word l `suffix_of` l.
Proof. induction l as [|c l IH]; cbn; [done|]. destruct (isspace c); [done|]. by apply suffix_cons_r. Qed.

Lemma words_drop_word l : words false l = words true (drop_word l).
Proof. induction l as [|c l IH]; cbn; [done|]. destruct (isspace c) eqn:E; cbn; [by rewrite E|done]. Qed.
Lemma words_drop_spaces l : words true l = words true (drop_spaces l).
Proof. induction l as [|c l IH]; cbn; [done|]. destruct (isspace c) eqn:E; cbn; [done|by rewrite E]. Qed.

(** A text that starts with white space is no option. *)
Lemma apply_word_space a g c l : isspace c = true -> apply_word a g (c :: l) = Ok g.
Proof.
  intros Hc.
  assert (forall x p, isspace x = false -> option_value (x :: p) (c :: l) = None) as Hn.
  { intros x p Hx. unfold option_value. rewrite bool_decide_eq_false_2; [done|].
    intros H%prefix_cons_inv_1. congruence. }
  unfold apply_word, cmdline_vars. cbn [foldm]. unfold apply_var, lit. cbn [fst snd map list_ascii_of_string].
  rewrite !Hn by done. done.
Qed.

(** Every round of the loop consumes text. *)
Lemma next_word_shorter c l : (List.length (drop_spaces (drop_word (c :: l))) <= List.length l)%nat.
Proof.
  cbn [drop_word]. destruct (isspace c) eqn:E.
  - cbn [drop_spaces]. rewrite E. apply suffix_length, drop_spaces_suffix.
  - etransitivity; [apply suffix_length, drop_spaces_suffix|]. apply suffix_length, drop_word_suffix.
Qed.

(** The words of a text are the first one, unless it starts with white space, and those of the next round. *)
Lemma foldm_words a c l g :
  foldm (apply_word a) (words true (c :: l)) g =
  g ← apply_word a g (c :: l); foldm (apply_word a) (words true (drop_spaces (drop_word (c :: l)))) g.
Proof.
  rewrite <- words_drop_spaces, <- words_drop_word. cbn [words]. destruct (isspace c) eqn:E; [|done].
  rewrite apply_word_space by done. done.
Qed.

Lemma parse_loop_ok a str fuel i g :
  str_wf str -> 0 <= i <= slen str -> (Z.to_nat (slen str - i) < fuel)%nat ->
  parse_loop a fuel str i g = foldm (apply_word a) (words true (rest str i)) g.
Proof.
  intros Hs. revert i g. induction fuel as [|fuel IH]; intros i g Hi Hf; [lia|].
  cbn [parse_loop]. rewrite at_ok by done. cbn [mbind res_bind]. unfold truth.
  destruct (rest_cases str i Hs Hi) as [(-> & -> & ->)|(Hlt & Hb & E)]; [done|].
  rewrite (proj2 (Z.eqb_neq _ 0)) by lia. cbn [negb].
  rewrite word_end_ok by (done || unfold slen in *; lia). cbn [mbind res_bind].
  unfold match_var. rewrite match_vars_ok by done. fold (apply_word a g (rest str i)).
  destruct (rest_suffix str i (drop_word (rest str i)) Hi (drop_word_suffix _)) as [Hj Ej].
  cbv zeta in Hj, Ej. fold (idx str (drop_word (rest str i))) in Hj, Ej.
  set (j := idx str (drop_word (rest str i))) in *.
  rewrite (word_begin_ok str j) by (done || unfold slen in *; lia).
  destruct (rest_suffix str j (drop_spaces (rest str j)) ltac:(lia) (drop_spaces_suffix _)) as [Hk Ek].
  cbv zeta in Hk, Ek. fold (idx str (drop_spaces (rest str j))) in Hk, Ek.
  set (k := idx str (drop_spaces (rest str j))) in *.
  assert (i < k) as Hik.
  { pose proof (next_word_shorter (byte_at str i) (rest str (i + 1))) as Hl. rewrite <- E, <- Ej in Hl.
    pose proof (rest_length str (i + 1) ltac:(lia)). unfold k, idx. lia. }
  rewrite E at 2. rewrite foldm_words, <- E.
  destruct (apply_word a g (rest str i)) as [g'|]; cbn [mbind res_bind]; [|done].
  rewrite IH by lia. by rewrite Ek, Ej.
Qed.

(** C39: [parse_cmdline] terminates on every command line, reads no byte after its
    end, and processes its words from left to right: a word with the prefix of a
    variable sets that variable to the numeral after the prefix, any other word changes
    nothing; the only failure is the halt on a numeral of more than 64 bits. *)
Theorem parse_cmdline_words a str g :
  str_wf str -> parse_cmdline a str g = foldm (apply_word a) (words true str) g.
Proof.
  intros Hs. unfold parse_cmdline. rewrite parse_loop_ok by (done || unfold slen; lia). done.
Qed.

Lemma parse_cmdline_words_witness :
  parse_cmdline AMD64 (lit "/shv.bin timer_ms=30  nmi_exp=0x1f timer_ms=010") (initial_opts 1 2 3) = Ok (mkOpts 1 2 31 8).
Proof.
  rewrite parse_cmdline_words; [by vm_compute|]. vm_compute. repeat constructor.
Defined.

(** ** Variables without an option keep their value *)

Lemma apply_var_other a l g vp g' v :
  apply_var a l g vp = Ok g' -> (vp.1 = v -> option_value vp.2 l = None) -> get_var v g' = get_var v g.
Proof.
  unfold apply_var. destruct vp as [w p]. cbn [fst snd]. destruct (option_value p l) as [t|] eqn:E; [|by intros [= ->]].
  intros H Hne. inv_bind H. injection H as <-. assert (w <> v) by (intros ->; by discriminate Hne).
  by destruct w, v.
Qed.

Lemma foldm_keep {A B C} (f : B -> A -> res B) (obs : B -> C) l b b' :
  (forall x b b', x ∈ l -> f b x = Ok b' -> obs b' = obs b) -> foldm f l b = Ok b' -> obs b' = obs b.
Proof.
  revert b. induction l as [|x l IH]; intros b Hf H; cbn in H; [by injection H as ->|].
  apply bind_Ok_inv in H as (b1 & H1 & H). rewrite (IH b1); [|intros; eapply Hf; [by right|done]|done].
  eapply Hf; [by left|done].
Qed.

(** A variable keeps its value when no word of the command line starts with its
    prefix, whatever the other options are. *)
Theorem parse_cmdline_keeps a str g g' v :
  str_wf str -> parse_cmdline a str g = Ok g' ->
  (forall p l, (v, p) ∈ cmdline_vars -> l ∈ words true str -> ~ p `prefix_of` l) ->
  get_var v g' = get_var v g.
Proof.
  intros Hs H Hno. unfold parse_cmdline in H. rewrite parse_loop_ok in H by (done || unfold slen; lia).
  revert H. apply (foldm_keep _ (get_var v)). intros l b b' Hl. apply (foldm_keep _ (get_var v)).
  intros [w p] c c' Hin Happ. apply (apply_var_other _ _ _ _ _ v Happ). cbn [fst snd]. intros ->.
  unfold option_value. rewrite bool_decide_eq_false_2; [done|]. by apply Hno.
Qed.

Lemma parse_cmdline_keeps_witness :
  exists g', parse_cmdline I386 (lit "shv_opt=7 x_timer_ms=1") (initial_opts 1 2 3) = Ok g' /\ get_var Timer_ms g' = 50.
Proof.
  eexists. split; [by vm_compute|].
  refine (eq_trans (parse_cmdline_keeps I386 (lit "shv_opt=7 x_timer_ms=1") (initial_opts 1 2 3) _ Timer_ms _ _ _) _).
  - vm_compute. repeat constructor.
  - by vm_compute.
  - intros p l Hp Hl. assert (p = lit "timer_ms=") as ->.
    { repeat (apply elem_of_cons in Hp as [Hp|Hp]; [by simplify_eq|]). by apply elem_of_nil in Hp. }
    vm_compute in Hl. repeat (apply elem_of_cons in Hl as [->|Hl]; [by intros H; apply prefix_cons_inv_1 in H|]).
    by apply elem_of_nil in Hl.
  - done.
Defined.
