(* ===== verification/Stdio.v ===== *)
(** [src/libc_stdio.c]: number conversion, the format interpreter [kvprintf] and the
    functions that print into a buffer.

    [PCHAR] calls the output function once per character, in order; the model
    collects those calls, and the stores of [%n], in a list of events, and the callers
    of [kvprintf] run their output function over it.  A variable argument is a number with the width it was passed
    with, a string, a byte array or a pointer; reading one with another type or width
    is undefined, and so is overflow of an [int]. *)
From Stdlib Require Import Ascii String.
From S2P Require Import Prelude.
From S2P Require Import Mem.
From S2P Require Import CString.
From S2P Require Import Cmdline.

Definition hex2ascii_data : cstr := lit "0123456789abcdefghijklmnopqrstuvwxyz".
(** [hex2ascii(hex)]: the array has the terminator as its last element. *)
Definition hex2ascii (hex : Z) : res Z := at_ hex2ascii_data hex.
Definition imax (a b : Z) : Z := if b <? a then a else b.
Definition toupper (c : Z) : Z := c - 0x20 * b2z ((97 <=? c) && (c <=? 122)).
Definition MAXNBUF : Z := 8 * 8 + 1.

Definition INT_MAX : Z := 2 ^ 31 - 1.
Definition INT_MIN : Z := - 2 ^ 31.
(** The result of an [int] operation: overflow is undefined. *)
Definition int_ (z : Z) : res Z := if (INT_MIN <=? z) && (z <=? INT_MAX) then Ok z else Err Undef.
(** A byte read through [char *]: [char] is signed. *)
Definition schar (c : Z) : Z := swrap 8 c.

(** The do loop of [ksprintn]: [p] is [nbuf] read downwards from the pointer [p], so its last element is
    [nbuf[0]]; writing past the end of [nbuf] is undefined. *)
Fixpoint ksprintn_loop (fuel : nat) (num base : Z) (upper : bool) (p : list Z) : res (list Z) :=
  match fuel with
  | O => Err NoFuel
  | S fuel =>
      if base =? 0 then Err Undef
      else
        c ← hex2ascii (num mod base);
        if MAXNBUF <=? slen p then Err Undef
        else
          let p := (if upper then toupper c else c) :: p in
          let num := num / base in
          if truth num then ksprintn_loop fuel num base upper p else Ok p
  end.
(** The buffer from [p] downwards and the length; [base] is converted to [uintmax_t] by the division. *)
Definition ksprintn (num base : Z) (upper : bool) : res (list Z * Z) :=
  p ← ksprintn_loop 65 num (u64 base) upper [0]; Ok (p, slen p - 1).

(** A loop that prints from [q] downwards until the zero byte. *)
Fixpoint until_zero (q : list Z) : list Z :=
  match q with [] => [] | c :: q => if c =? 0 then [] else schar c :: until_zero q end.

Inductive varg :=
| VNum (width bits : Z)
| VStr (s : option cstr)
| VBuf (bytes : list Z)
| VPtr (p : Z).

(** What [kvprintf] does to the outside: a call of the output function, or the store of [%n]. *)
Inductive event := Put (c : Z) | Store (p width value : Z).
(** What was done so far, [retval] and the arguments left. *)
Record kst := mkKst { k_ev : list event; retval : Z; k_ap : list varg }.

(** [PCHAR] for each of [cs]. *)
Definition PCHARS (cs : list Z) (st : kst) : res kst :=
  if retval st + slen cs <=? INT_MAX
  then Ok (mkKst (k_ev st ++ map Put cs) (retval st + slen cs) (k_ap st)) else Err Undef.
Definition PCHAR (c : Z) : kst -> res kst := PCHARS [c].

Definition va_arg (st : kst) : res (varg * kst) :=
  match k_ap st with [] => Err Undef | x :: ap => Ok (x, mkKst (k_ev st) (retval st) ap) end.
Definition va_num (w : Z) (st : kst) : res (Z * kst) :=
  '(x, st) ← va_arg st;
  match x with VNum w' z => if w =? w' then Ok (wrap w z, st) else Err Undef | _ => Err Undef end.
Definition va_int (w : Z) (st : kst) : res (Z * kst) := '(z, st) ← va_num w st; Ok (swrap w z, st).
Definition va_str (st : kst) : res (option cstr * kst) :=
  '(x, st) ← va_arg st; match x with VStr s => Ok (s, st) | _ => Err Undef end.
Definition va_ptr (st : kst) : res (Z * kst) :=
  '(x, st) ← va_arg st; match x with VPtr p => Ok (p, st) | _ => Err Undef end.
Definition va_buf (st : kst) : res (list Z * kst) :=
  '(x, st) ← va_arg st; match x with VBuf b => Ok (b, st) | _ => Err Undef end.

(** The locals a conversion starts from. *)
Record flags := mkFlags {
  f_padc : Z; f_width : Z; f_qflag : bool; f_lflag : bool; f_ladjust : bool; f_sharpflag : bool; f_sign : bool;
  f_dot : bool; f_dwidth : Z; f_upper : bool; f_cflag : bool; f_hflag : bool; f_jflag : bool; f_tflag : bool;
  f_zflag : bool }.
Definition no_flags : flags :=
  mkFlags 32 0 false false false false false false 0 false false false false false false.

Definition set_dot f := mkFlags (f_padc f) (f_width f) (f_qflag f) (f_lflag f) (f_ladjust f) (f_sharpflag f) (f_sign f) true (f_dwidth f) (f_upper f) (f_cflag f) (f_hflag f) (f_jflag f) (f_tflag f) (f_zflag f).
Definition set_sharpflag b f := mkFlags (f_padc f) (f_width f) (f_qflag f) (f_lflag f) (f_ladjust f) b (f_sign f) (f_dot f) (f_dwidth f) (f_upper f) (f_cflag f) (f_hflag f) (f_jflag f) (f_tflag f) (f_zflag f).
Definition set_sign b f := mkFlags (f_padc f) (f_width f) (f_qflag f) (f_lflag f) (f_ladjust f) (f_sharpflag f) b (f_dot f) (f_dwidth f) (f_upper f) (f_cflag f) (f_hflag f) (f_jflag f) (f_tflag f) (f_zflag f).
Definition set_ladjust b f := mkFlags (f_padc f) (f_width f) (f_qflag f) (f_lflag f) b (f_sharpflag f) (f_sign f) (f_dot f) (f_dwidth f) (f_upper f) (f_cflag f) (f_hflag f) (f_jflag f) (f_tflag f) (f_zflag f).
Definition set_padc c f := mkFlags c (f_width f) (f_qflag f) (f_lflag f) (f_ladjust f) (f_sharpflag f) (f_sign f) (f_dot f) (f_dwidth f) (f_upper f) (f_cflag f) (f_hflag f) (f_jflag f) (f_tflag f) (f_zflag f).
Definition set_width w f := mkFlags (f_padc f) w (f_qflag f) (f_lflag f) (f_ladjust f) (f_sharpflag f) (f_sign f) (f_dot f) (f_dwidth f) (f_upper f) (f_cflag f) (f_hflag f) (f_jflag f) (f_tflag f) (f_zflag f).
Definition set_dwidth w f := mkFlags (f_padc f) (f_width f) (f_qflag f) (f_lflag f) (f_ladjust f) (f_sharpflag f) (f_sign f) (f_dot f) w (f_upper f) (f_cflag f) (f_hflag f) (f_jflag f) (f_tflag f) (f_zflag f).
Definition set_upper f := mkFlags (f_padc f) (f_width f) (f_qflag f) (f_lflag f) (f_ladjust f) (f_sharpflag f) (f_sign f) (f_dot f) (f_dwidth f) true (f_cflag f) (f_hflag f) (f_jflag f) (f_tflag f) (f_zflag f).
Definition set_hc h c f := mkFlags (f_padc f) (f_width f) (f_qflag f) (f_lflag f) (f_ladjust f) (f_sharpflag f) (f_sign f) (f_dot f) (f_dwidth f) (f_upper f) c h (f_jflag f) (f_tflag f) (f_zflag f).
Definition set_lq l q f := mkFlags (f_padc f) (f_width f) q l (f_ladjust f) (f_sharpflag f) (f_sign f) (f_dot f) (f_dwidth f) (f_upper f) (f_cflag f) (f_hflag f) (f_jflag f) (f_tflag f) (f_zflag f).
Definition set_jflag f := mkFlags (f_padc f) (f_width f) (f_qflag f) (f_lflag f) (f_ladjust f) (f_sharpflag f) (f_sign f) (f_dot f) (f_dwidth f) (f_upper f) (f_cflag f) (f_hflag f) true (f_tflag f) (f_zflag f).
Definition set_tflag f := mkFlags (f_padc f) (f_width f) (f_qflag f) (f_lflag f) (f_ladjust f) (f_sharpflag f) (f_sign f) (f_dot f) (f_dwidth f) (f_upper f) (f_cflag f) (f_hflag f) (f_jflag f) true (f_zflag f).
Definition set_zflag f := mkFlags (f_padc f) (f_width f) (f_qflag f) (f_lflag f) (f_ladjust f) (f_sharpflag f) (f_sign f) (f_dot f) (f_dwidth f) (f_upper f) (f_cflag f) (f_hflag f) (f_jflag f) (f_tflag f) true.

(** [while (w-- > 0) PCHAR(c);] *)
Definition pad (c w : Z) (st : kst) : res kst :=
  if w =? INT_MIN then Err Undef else PCHARS (replicate (Z.to_nat w) c) st.

(** Label [number]: [num] is a [uintmax_t]. *)
Definition print_number (f : flags) (base num : Z) (st : kst) : res kst :=
  let neg := f_sign f && (swrap 64 num <? 0) in
  num ← (if neg then if swrap 64 num =? - 2 ^ 63 then Err Undef else Ok (u64 (- swrap 64 num)) else Ok num);
  '(p, n) ← ksprintn num base (f_upper f);
  let sharp := f_sharpflag f && negb (num =? 0) in
  let tmp := (if sharp then (if base =? 8 then 1 else if base =? 16 then 2 else 0) else 0) + b2z neg in
  let padzero := negb (f_ladjust f) && (f_padc f =? 48) in
  dwidth ← (if padzero then int_ (f_width f - tmp) else Ok (f_dwidth f));
  t ← int_ (tmp + imax dwidth n);
  width ← int_ (f_width f - t);
  dwidth ← int_ (dwidth - n);
  st ← (if negb (f_ladjust f) then pad 32 width st else Ok st);
  st ← (if neg then PCHAR 45 st else Ok st);
  st ← (if sharp then
          if base =? 8 then PCHAR 48 st
          else if base =? 16 then st ← PCHAR 48 st; PCHAR 120 st else Ok st
        else Ok st);
  st ← pad 48 dwidth st;
  st ← PCHARS (until_zero p) st;
  if f_ladjust f then pad 32 width st else Ok st.

(** Labels [handle_nosign] and [handle_sign]. *)
Definition handle_nosign (a : subarch) (f : flags) (base : Z) (st : kst) : res kst :=
  let w := ptr_bits a in
  '(num, st) ←
    (if f_jflag f then va_num 64 st
     else if f_qflag f then va_num 64 st
     else if f_tflag f then '(z, st) ← va_int w st; Ok (u64 z, st)
     else if f_lflag f then va_num w st
     else if f_zflag f then va_num w st
     else if f_hflag f then '(z, st) ← va_int 32 st; Ok (u16 z, st)
     else if f_cflag f then '(z, st) ← va_int 32 st; Ok (u8 z, st)
     else va_num 32 st);
  print_number (set_sign false f) base num st.
Definition handle_sign (a : subarch) (f : flags) (base : Z) (st : kst) : res kst :=
  let w := ptr_bits a in
  '(num, st) ←
    (if f_jflag f then va_int 64 st
     else if f_qflag f then va_int 64 st
     else if f_tflag f then va_int w st
     else if f_lflag f then va_int w st
     else if f_zflag f then va_int w st
     else if f_hflag f then '(z, st) ← va_int 32 st; Ok (swrap 16 z, st)
     else if f_cflag f then '(z, st) ← va_int 32 st; Ok (swrap 8 z, st)
     else va_int 32 st);
  print_number f base (u64 num) st.

(** [%b]: the inner loops over a name, and the loop over the bits; [p] is what is left of the string. *)
Fixpoint name_of (p : cstr) : list Z * cstr :=
  match p with
  | c :: p' => if 32 <? schar c then let '(name, p') := name_of p' in (schar c :: name, p') else ([], p)
  | [] => ([], [])
  end.
Fixpoint bits_loop (fuel : nat) (num : Z) (p : cstr) (tmp : bool) (st : kst) : res (bool * kst) :=
  match fuel with
  | O => Err NoFuel
  | S fuel =>
      match p with
      | [] => Ok (tmp, st)
      | n :: p =>
          let n := schar n - 1 in
          if (0 <=? n) && (n <? 31) then
            let '(name, p) := name_of p in
            if truth (Z.land num (Z.shiftl 1 n)) then
              st ← PCHAR (if tmp then 44 else 60) st;
              st ← PCHARS name st;
              bits_loop fuel num p true st
            else bits_loop fuel num p tmp st
          else Err Undef
      end
  end.
Definition conv_b (st : kst) : res kst :=
  '(num, st) ← va_num 32 st;
  '(p, st) ← va_str st;
  match p with
  | None => Err Undef
  | Some p =>
      '(q, _) ← ksprintn num (schar (byte_at p 0)) false;
      st ← PCHARS (until_zero q) st;
      if num =? 0 then Ok st
      else
        '(tmp, st) ← bits_loop (S (List.length p)) num (tail p) false st;
        if tmp : bool then PCHAR 62 st else Ok st
  end.

(** [%D]: [width] bytes of [up], the string [p] between two of them. *)
Fixpoint dump_loop (width : nat) (up : list Z) (p : cstr) (st : kst) : res kst :=
  match width with
  | O => Ok st
  | S width =>
      match up with
      | [] => Err Undef
      | b :: up =>
          c ← hex2ascii (Z.shiftr b 4);
          st ← PCHAR c st;
          c ← hex2ascii (Z.land b 0x0f);
          st ← PCHAR c st;
          st ← (match width with O => Ok st | _ => PCHARS (map schar p) st end);
          dump_loop width up p st
      end
  end.
Definition conv_D (f : flags) (st : kst) : res kst :=
  '(up, st) ← va_buf st;
  '(p, st) ← va_str st;
  let width := if f_width f =? 0 then 16 else f_width f in
  match p with
  | None => if width =? 1 then dump_loop 1 up [] st else Err Undef
  | Some p => dump_loop (Z.to_nat width) up p st
  end.

(** [%n]: the width of the object the pointer is for. *)
Definition conv_n (a : subarch) (f : flags) (st : kst) : res kst :=
  '(p, st) ← va_ptr st;
  let w := if f_jflag f then 64 else if f_qflag f then 64 else if f_lflag f then ptr_bits a
    else if f_zflag f then ptr_bits a else if f_hflag f then 16 else if f_cflag f then 8 else 32 in
  Ok (mkKst (k_ev st ++ [Store p w (wrap w (retval st))]) (retval st) (k_ap st)).

(** [%s]: the loop that counts at most [dwidth] characters. *)
Fixpoint prec_len (p : cstr) (dwidth n : Z) : Z :=
  match p with c :: p => if n <? dwidth then prec_len p dwidth (n + 1) else n | [] => n end.
Definition conv_s (f : flags) (st : kst) : res kst :=
  '(p, st) ← va_str st;
  let p := match p with Some p => p | None => lit "(null)" end in
  n ← int_ (if f_dot f then prec_len p (f_dwidth f) 0 else slen p);
  width ← int_ (f_width f - n);
  let fill := if 0 <? width then replicate (Z.to_nat width) (schar (f_padc f)) else [] in
  st ← (if f_ladjust f then Ok st else PCHARS fill st);
  st ← PCHARS (map schar (take (Z.to_nat n) p)) st;
  if f_ladjust f then PCHARS fill st else Ok st.

(** The digits of a width: the value and the position of the first other character. *)
Fixpoint width_loop (fuel : nat) (str : cstr) (fmt n ch : Z) : res (Z * Z) :=
  match fuel with
  | O => Err NoFuel
  | S fuel =>
      n ← int_ (n * 10);
      n ← int_ (n + ch);
      n ← int_ (n - 48);
      c ← at_ str fmt;
      let ch := schar c in
      if (ch <? 48) || (57 <? ch) then Ok (n, fmt) else width_loop fuel str (fmt + 1) n ch
  end.

(** The bytes from [percent] up to [fmt]. *)
Fixpoint text (n : nat) (str : cstr) (percent : Z) : res (list Z) :=
  match n with
  | O => Ok []
  | S n => c ← at_ str percent; l ← text n str (percent + 1); Ok (schar c :: l)
  end.

(** From label [reswitch] to the end of the switch: the position in the format, [stop] and the state. *)
Fixpoint reswitch (fuel : nat) (a : subarch) (radix : Z) (str : cstr) (percent fmt : Z) (f : flags) (st : kst)
    : res (Z * bool * kst) :=
  match fuel with
  | O => Err NoFuel
  | S fuel =>
      ch ← at_ str fmt;
      let fmt := fmt + 1 in
      let again f st := reswitch fuel a radix str percent fmt f st in
      let break (r : res kst) := st ← r; Ok (fmt, false, st) in
      let digits :=
        '(n, fmt) ← width_loop (S (List.length str)) str fmt 0 ch;
        reswitch fuel a radix str percent fmt (if f_dot f then set_dwidth n f else set_width n f) st in
      if ch =? 46 then again (set_dot f) st
      else if ch =? 35 then again (set_sharpflag true f) st
      else if ch =? 43 then again (set_sign true f) st
      else if ch =? 45 then again (set_ladjust true f) st
      else if ch =? 37 then break (PCHAR ch st)
      else if ch =? 42 then
        if negb (f_dot f) then
          '(width, st) ← va_int 32 st;
          if width <? 0 then
            width ← int_ (- width); again (set_width width (set_ladjust (negb (f_ladjust f)) f)) st
          else again (set_width width f) st
        else '(dwidth, st) ← va_int 32 st; again (set_dwidth dwidth f) st
      else if ch =? 48 then if negb (f_dot f) then again (set_padc 48 f) st else digits
      else if (49 <=? ch) && (ch <=? 57) then digits
      else if ch =? 98 then break (conv_b st)
      else if ch =? 99 then break ('(c, st) ← va_int 32 st; PCHAR c st)
      else if ch =? 68 then break (conv_D f st)
      else if (ch =? 100) || (ch =? 105) then break (handle_sign a (set_sign true f) 10 st)
      else if ch =? 104 then again (if f_hflag f then set_hc false true f else set_hc true (f_cflag f) f) st
      else if ch =? 106 then again (set_jflag f) st
      else if ch =? 108 then again (if f_lflag f then set_lq false true f else set_lq true (f_qflag f) f) st
      else if ch =? 110 then break (conv_n a f st)
      else if ch =? 111 then break (handle_nosign a f 8 st)
      else if ch =? 112 then
        break ('(num, st) ← va_ptr st;
               print_number (set_sign false (set_sharpflag (f_width f =? 0) f)) 16 (wrap (ptr_bits a) num) st)
      else if ch =? 113 then again (set_lq (f_lflag f) true f) st
      else if ch =? 114 then break (if f_sign f then handle_sign a f radix st else handle_nosign a f radix st)
      else if ch =? 115 then break (conv_s f st)
      else if ch =? 116 then again (set_tflag f) st
      else if ch =? 117 then break (handle_nosign a f 10 st)
      else if ch =? 88 then break (handle_nosign a (set_upper f) 16 st)
      else if ch =? 120 then break (handle_nosign a f 16 st)
      else if ch =? 121 then break (handle_sign a (set_sign true f) 16 st)
      else if ch =? 122 then again (set_zflag f) st
      else
        l ← text (Z.to_nat (fmt - percent)) str percent;
        st ← PCHARS l st;
        Ok (fmt, true, st)
  end.

(** The outer loop, one character of text or one conversion a round. *)
Fixpoint kv_loop (fuel : nat) (a : subarch) (radix : Z) (str : cstr) (fmt : Z) (stop : bool) (st : kst) : res kst :=
  match fuel with
  | O => Err NoFuel
  | S fuel =>
      ch ← at_ str fmt;
      let fmt := fmt + 1 in
      if negb (ch =? 37) || stop then
        if ch =? 0 then Ok st
        else st ← PCHAR ch st; kv_loop fuel a radix str fmt stop st
      else
        '(fmt, stop', st) ← reswitch (S (S (List.length str))) a radix str (fmt - 1) fmt no_flags st;
        kv_loop fuel a radix str fmt (stop || stop') st
  end.

(** The calls of the output function and the stores, the value returned and the arguments left. *)
Definition kvprintf (a : subarch) (fmt : option cstr) (radix : Z) (ap : list varg) : res kst :=
  let fmt := match fmt with Some s => s | None => lit "(fmt null)" ++ [10] end in
  let radix := if (radix <? 2) || (36 <? radix) then 10 else radix in
  kv_loop (S (S (List.length fmt))) a radix fmt 0 false (mkKst [] 0 ap).

(** The characters put. *)
Definition puts_of (ev : list event) : list Z := omap (fun e => match e with Put c => Some c | Store _ _ _ => None end) ev.
Definition k_out (st : kst) : list Z := puts_of (k_ev st).

(** The effect of the events with an output function that changes a state [S] next to the memory. *)
Definition run_event {S} (func : Z -> S * mem -> S * mem) (s : S * mem) (e : event) : S * mem :=
  match e with Put c => func c s | Store p w v => (s.1, st (Z.to_nat (w / 8)) (s.2) p v) end.

(** [kvprintf] with [func == NULL]: the state is the pointer [d]. *)
Definition put_d (c : Z) (s : Z * mem) : Z * mem := (s.1 + 1, wr8 (s.2) (s.1) (u8 c)).
Definition vsprintf (a : subarch) (buf : Z) (cfmt : option cstr) (ap : list varg) (m : mem) : res (Z * mem) :=
  k ← kvprintf a cfmt 10 ap;
  let '(_, m) := foldl (run_event put_d) (buf, m) (k_ev k) in
  Ok (retval k, wr8 m (buf + retval k) 0).
Definition sprintf := vsprintf.

Record snprintf_arg := mkInfo { str : Z; remain : Z }.
Definition snprintf_func (ch : Z) (s : snprintf_arg * mem) : snprintf_arg * mem :=
  let '(info, m) := s in
  if 2 <=? remain info then (mkInfo (str info + 1) (remain info - 1), wr8 m (str info) (u8 ch)) else s.
Definition vsnrprintf (a : subarch) (buf size radix : Z) (format : option cstr) (ap : list varg) (m : mem) : res (Z * mem) :=
  k ← kvprintf a format radix ap;
  let '(info, m) := foldl (run_event snprintf_func) (mkInfo buf size, m) (k_ev k) in
  Ok (retval k, if 1 <=? remain info then wr8 m (str info) 0 else m).
Definition vsnprintf (a : subarch) (buf size : Z) (format : option cstr) (ap : list varg) (m : mem) : res (Z * mem) :=
  k ← kvprintf a format 10 ap;
  let '(info, m) := foldl (run_event snprintf_func) (mkInfo buf size, m) (k_ev k) in
  Ok (retval k, if 1 <=? remain info then wr8 m (str info) 0 else m).
Definition snprintf := vsnprintf.
