(* ===== verification/StdioProps.v ===== *)
(** Properties of [src/libc_stdio.c]. *)
From Stdlib Require Import Ascii String.
From S2P Require Import Prelude.
From S2P Require Import Mem.
From S2P Require Import CString.
From S2P Require Import Strtoul.
From S2P Require Import Cmdline.
From S2P Require Import Stdio.

(** ** Number conversion *)

(** The character of a digit. *)
Definition dig (upper : bool) (d : Z) : Z :=
  let c := byte_at hex2ascii_data d in if upper then toupper c else c.

(** The characters of the digits are what [tb_strtoull] reads as these digits. *)
Lemma dig_facts upper d : 0 <= d < 36 ->
  hex2ascii d = Ok (byte_at hex2ascii_data d) /\ digit_of (dig upper d) = Some d /\
  0 < dig upper d < 128 /\ schar (dig upper d) = dig upper d.
Proof.
  intros Hd. assert (d ∈ seqZ 0 36) as Hin by (apply elem_of_seqZ; lia).
  assert (Forall (fun d => forall upper, hex2ascii d = Ok (byte_at hex2ascii_data d) /\ digit_of (dig upper d) = Some d /\
    0 < dig upper d < 128 /\ schar (dig upper d) = dig upper d) (seqZ 0 36)) as Hall.
  { let l := eval vm_compute in (seqZ 0 36) in change (seqZ 0 36) with l.
    repeat (apply Forall_cons; split; [intros []; vm_compute; by repeat split|]). constructor. }
  by apply (proj1 (Forall_forall _ _) Hall d Hin).
Qed.

(** No leading zero, except the numeral of zero. *)
Definition canonical (ds : list Z) : Prop := ds = [0] \/ exists d ds', ds = d :: ds' /\ d <> 0.

Lemma value_of_app base ds ds' acc : value_of base (ds ++ ds') acc = value_of base ds' (value_of base ds acc).
Proof. apply foldl_app. Qed.

Lemma ksprintn_loop_ok upper base num k fuel p :
  2 <= base <= 36 -> 0 <= num < base ^ Z.of_nat (S k) -> slen p + Z.of_nat (S k) <= MAXNBUF -> (k < fuel)%nat ->
  exists ds, ksprintn_loop fuel num base upper p = Ok (map (dig upper) ds ++ p) /\
    value_of base ds 0 = num /\ Forall (fun d => 0 <= d < base) ds /\ canonical ds /\ (List.length ds <= S k)%nat.
Proof.
  intros Hb. revert num fuel p. induction k as [|k IH]; intros num fuel p Hnum Hp Hf; (destruct fuel as [|fuel]; [lia|]);
    cbn [ksprintn_loop]; rewrite (proj2 (Z.eqb_neq base 0)) by lia;
    pose proof (Z.mod_pos_bound num base ltac:(lia)) as Hm; pose proof (Z.div_mod num base ltac:(lia)) as Hdm;
    destruct (dig_facts upper (num mod base) ltac:(lia)) as (-> & _); cbn [mbind res_bind];
    rewrite (proj2 (Z.leb_gt MAXNBUF _)) by lia; fold (dig upper (num mod base)); unfold truth;
    (destruct (Z.eqb_spec (num / base) 0) as [E0|E0]; cbn [negb]; [
       exists [num mod base]; split_and!; [done|cbn; lia|apply Forall_singleton; lia| |cbn; lia];
       destruct (decide (num mod base = 0)) as [->|]; [by left|right; eauto] |]).
  - exfalso. apply E0. apply Z.div_small. change (Z.of_nat 1) with 1 in Hnum. rewrite Z.pow_1_r in Hnum. lia.
  - assert (0 <= num / base < base ^ Z.of_nat (S k)) as Hq.
    { split; [apply Z.div_pos; lia|]. apply Z.div_lt_upper_bound; [lia|].
      rewrite <- Z.pow_succ_r by lia. replace (Z.succ (Z.of_nat (S k))) with (Z.of_nat (S (S k))) by lia. lia. }
    destruct (IH (num / base) fuel (dig upper (num mod base) :: p)) as (ds & -> & Hv & Hds & Hc & Hlen);
      [done|unfold slen in *; cbn [List.length]; lia|lia|].
    exists (ds ++ [num mod base]). rewrite map_app, <- app_assoc, value_of_app, Hv, length_app. split_and!.
    + done.
    + cbn. lia.
    + apply Forall_app. split; [done|apply Forall_singleton; lia].
    + destruct Hc as [->|(d & ds' & -> & Hd)]; [by cbn in Hv|right; by eexists d, _].
    + cbn. lia.
Qed.

Lemma ksprintn_ok upper base num :
  2 <= base <= 36 -> 0 <= num < 2 ^ 64 ->
  exists ds, ksprintn num base upper = Ok (map (dig upper) ds ++ [0], slen ds) /\
    value_of base ds 0 = num /\ Forall (fun d => 0 <= d < base) ds /\ canonical ds /\ (List.length ds <= 64)%nat.
Proof.
  intros Hb Hn. unfold ksprintn. unfold u64. rewrite (wrap_small 64 base) by (unfold is_u; lia).
  destruct (ksprintn_loop_ok upper base num 63 65 [0]) as (ds & -> & Hds); [done| |done|lia|].
  { split; [lia|]. apply Z.lt_le_trans with (2 ^ 64); [lia|]. apply (Z.pow_le_mono_l 2 base (Z.of_nat 64)). lia. }
  exists ds. split; [|done]. cbn [mbind res_bind]. unfold slen. rewrite length_app, length_map.
  do 2 f_equal. cbn. lia.
Qed.

Lemma until_zero_digs upper base ds :
  base <= 36 -> Forall (fun d => 0 <= d < base) ds -> until_zero (map (dig upper) ds ++ [0]) = map (dig upper) ds.
Proof.
  intros Hb. induction 1 as [|d ds Hd _ IH]; [done|]. cbn [map app until_zero].
  destruct (dig_facts upper d ltac:(lia)) as (_ & _ & H & E). rewrite (proj2 (Z.eqb_neq _ 0)) by lia. by rewrite E, IH.
Qed.

(** ** The events keep [retval] *)

Definition good (st : kst) : Prop := retval st = slen (k_out st).

Lemma puts_of_app l l' : puts_of (l ++ l') = puts_of l ++ puts_of l'.
Proof. apply omap_app. Qed.
Lemma puts_of_put l : puts_of (map Put l) = l.
Proof. induction l as [|c l IH]; [done|]. change (puts_of (map Put (c :: l))) with (c :: puts_of (map Put l)). by rewrite IH. Qed.

(** A step of the interpreter does not run out of fuel and keeps [good]; the same for a step
    that also returns a value, and for a computation that does not touch the state. *)
Definition sane (st : kst) (r : res kst) : Prop :=
  match r with Ok st' => good st -> good st' | Err e => e <> NoFuel end.
Definition sane_v {X} (st : kst) (r : res (X * kst)) : Prop :=
  match r with Ok (_, st') => good st -> good st' | Err e => e <> NoFuel end.
Definition fuelled {X} (r : res X) : Prop := r <> Err NoFuel.

Lemma sane_bind st (r : res kst) f : sane st r -> (forall st1, sane st1 (f st1)) -> sane st (r ≫= f).
Proof.
  intros Hr Hf. destruct r as [st1|e]; cbn [mbind res_bind]; [|done]. specialize (Hf st1).
  unfold sane in *. destruct (f st1); auto.
Qed.
Lemma sane_v_bind {X} st (r : res (X * kst)) f : sane_v st r -> (forall x st1, sane st1 (f (x, st1))) -> sane st (r ≫= f).
Proof.
  intros Hr Hf. destruct r as [[x st1]|e]; cbn [mbind res_bind]; [|done]. specialize (Hf x st1).
  unfold sane, sane_v in *. destruct (f (x, st1)); auto.
Qed.
Lemma sane_v_bind_v {X Y} st (r : res (X * kst)) (f : X * kst -> res (Y * kst)) :
  sane_v st r -> (forall x st1, sane_v st1 (f (x, st1))) -> sane_v st (r ≫= f).
Proof.
  intros Hr Hf. destruct r as [[x st1]|e]; cbn [mbind res_bind]; [|done]. specialize (Hf x st1).
  unfold sane_v in *. destruct (f (x, st1)) as [[y st2]|]; auto.
Qed.
Lemma sane_bind_v {Y} st (r : res kst) (f : kst -> res (Y * kst)) :
  sane st r -> (forall st1, sane_v st1 (f st1)) -> sane_v st (r ≫= f).
Proof.
  intros Hr Hf. destruct r as [st1|e]; cbn [mbind res_bind]; [|done]. specialize (Hf st1).
  unfold sane, sane_v in *. destruct (f st1) as [[y st2]|]; auto.
Qed.
Lemma fuelled_bind {X} st (r : res X) f : fuelled r -> (forall x, sane st (f x)) -> sane st (r ≫= f).
Proof. intros Hr Hf. destruct r; cbn [mbind res_bind]; [done|]. intros ->. done. Qed.
Lemma fuelled_bind_v {X Y} st (r : res X) (f : X -> res (Y * kst)) :
  fuelled r -> (forall x, sane_v st (f x)) -> sane_v st (r ≫= f).
Proof. intros Hr Hf. destruct r; cbn [mbind res_bind]; [done|]. intros ->. done. Qed.
Lemma fuelled_bind_f {X Y} (r : res X) (f : X -> res Y) : fuelled r -> (forall x, fuelled (f x)) -> fuelled (r ≫= f).
Proof. unfold fuelled. intros Hr Hf. destruct r; cbn [mbind res_bind]; congruence || auto. Qed.

Lemma PCHARS_sane cs st : sane st (PCHARS cs st).
Proof.
  unfold PCHARS, sane, good, k_out. destruct (_ <=? _); [|done]. cbn. rewrite puts_of_app, puts_of_put.
  unfold slen in *. rewrite length_app. lia.
Qed.
Lemma va_arg_sane st : sane_v st (va_arg st).
Proof. unfold va_arg, sane_v, good, k_out. destruct (k_ap st); cbn; auto. Qed.
Lemma int_fuelled z : fuelled (int_ z).
Proof. unfold int_. by case_match. Qed.
Lemma at_fuelled s i : fuelled (at_ s i).
Proof. unfold at_. by repeat case_match. Qed.
Lemma Ok_sane st : sane st (Ok st).
Proof. by cbn. Qed.
Lemma Ok_sane_v {X} st (x : X) : sane_v st (Ok (x, st)).
Proof. by cbn. Qed.
Lemma Undef_sane st : sane st (Err Undef).
Proof. done. Qed.
Lemma Undef_sane_v {X} st : sane_v (X := X) st (Err Undef).
Proof. done. Qed.
Lemma Ok_fuelled {X} (x : X) : fuelled (Ok x).
Proof. done. Qed.
Lemma Undef_fuelled {X} : fuelled (X := X) (Err Undef).
Proof. done. Qed.
Create HintDb sane.
#[export] Hint Resolve Ok_fuelled Undef_fuelled : sane.
#[export] Hint Resolve PCHARS_sane va_arg_sane int_fuelled at_fuelled Ok_sane Ok_sane_v Undef_sane Undef_sane_v : sane.

(** Follow the structure of a step down to the primitives. *)
Ltac sane :=
  repeat (cbv zeta; first
    [ solve [auto with sane]
    | apply sane_v_bind; [|intros ? ?]
    | apply sane_v_bind_v; [|intros ? ?]
    | apply sane_bind; [|intros ?]
    | apply sane_bind_v; [|intros ?]
    | apply fuelled_bind; [|intros ?]
    | apply fuelled_bind_v; [|intros ?]
    | apply fuelled_bind_f; [|intros ?]
    | case_match ]).

Lemma PCHAR_sane c st : sane st (PCHAR c st).
Proof. unfold PCHAR. sane. Qed.
Lemma pad_sane c w st : sane st (pad c w st).
Proof. unfold pad. sane. Qed.
Lemma va_num_sane w st : sane_v st (va_num w st).
Proof. unfold va_num. sane. Qed.
#[export] Hint Resolve PCHAR_sane pad_sane va_num_sane : sane.
Lemma va_int_sane w st : sane_v st (va_int w st).
Proof. unfold va_int. sane. Qed.
Lemma va_str_sane st : sane_v st (va_str st).
Proof. unfold va_str. sane. Qed.
Lemma va_ptr_sane st : sane_v st (va_ptr st).
Proof. unfold va_ptr. sane. Qed.
Lemma va_buf_sane st : sane_v st (va_buf st).
Proof. unfold va_buf. sane. Qed.
#[export] Hint Resolve va_int_sane va_str_sane va_ptr_sane va_buf_sane : sane.

(** The conversion buffer bounds the loop for every base, also those that are no radix. *)
Lemma ksprintn_loop_fuelled fuel num base upper p :
  MAXNBUF - slen p < Z.of_nat fuel -> slen p <= MAXNBUF -> fuelled (ksprintn_loop fuel num base upper p).
Proof.
  revert num p. induction fuel as [|fuel IH]; intros num p Hf Hp; cbn [ksprintn_loop]; [lia|].
  destruct (base =? 0); [done|]. apply fuelled_bind_f; [apply at_fuelled|intros c].
  destruct (Z.leb_spec MAXNBUF (slen p)); [done|]. cbv zeta. destruct (truth _); [|done].
  apply IH; unfold slen in *; cbn [List.length]; lia.
Qed.
Lemma ksprintn_fuelled num base upper : fuelled (ksprintn num base upper).
Proof. unfold ksprintn. apply fuelled_bind_f; [by apply ksprintn_loop_fuelled|done]. Qed.
#[export] Hint Resolve ksprintn_fuelled : sane.

Lemma print_number_sane f base num st : sane st (print_number f base num st).
Proof. unfold print_number. sane. Qed.
#[export] Hint Resolve print_number_sane : sane.
Lemma handle_nosign_sane a f base st : sane st (handle_nosign a f base st).
Proof. unfold handle_nosign. sane. Qed.
Lemma handle_sign_sane a f base st : sane st (handle_sign a f base st).
Proof. unfold handle_sign. sane. Qed.

Lemma name_of_length p : (List.length (name_of p).2 <= List.length p)%nat.
Proof. induction p as [|c p IH]; cbn; [lia|]. destruct (32 <? schar c); [|done]. destruct (name_of p). cbn in *. lia. Qed.
Lemma bits_loop_sane fuel num p tmp st : (List.length p < fuel)%nat -> sane_v st (bits_loop fuel num p tmp st).
Proof.
  revert p tmp st. induction fuel as [|fuel IH]; intros p tmp st Hf; cbn [bits_loop]; [lia|].
  destruct p as [|n p]; [sane|]. cbv zeta. destruct (_ && _); [|done].
  pose proof (name_of_length p) as Hl. destruct (name_of p) as [name p']. cbn [List.length snd] in *.
  assert (List.length p' < fuel)%nat by lia. sane.
Qed.
Lemma conv_b_sane st : sane st (conv_b st).
Proof.
  unfold conv_b. sane. apply bits_loop_sane. destruct l; cbn; lia.
Qed.
Lemma dump_loop_sane width up p st : sane st (dump_loop width up p st).
Proof.
  revert up st. induction width as [|width IH]; intros up st; cbn [dump_loop]; [sane|].
  destruct up; [done|]. unfold hex2ascii. sane.
Qed.
Lemma conv_D_sane f st : sane st (conv_D f st).
Proof. unfold conv_D. sane; apply dump_loop_sane. Qed.
Lemma conv_n_sane a f st : sane st (conv_n a f st).
Proof.
  unfold conv_n. apply sane_v_bind; [auto with sane|intros p st1]. unfold sane, good, k_out. cbn [k_ev retval].
  rewrite puts_of_app. cbn. by rewrite app_nil_r.
Qed.
Lemma conv_s_sane f st : sane st (conv_s f st).
Proof. unfold conv_s. sane. Qed.
#[export] Hint Resolve handle_nosign_sane handle_sign_sane conv_b_sane conv_D_sane conv_n_sane conv_s_sane : sane.

(** What is known of a computation that also moves the format pointer on. *)
Definition moves {X} (fmt : Z) (pos : X -> Z) (r : res X) : Prop :=
  match r with Ok x => fmt <= pos x | Err e => e <> NoFuel end.

Lemma at_bound str i c : at_ str i = Ok c -> 0 <= i <= slen str.
Proof.
  unfold at_, slen. destruct (Z.ltb_spec i 0); [done|]. destruct (str !! Z.to_nat i) eqn:E.
  - apply lookup_lt_Some in E. lia.
  - destruct (Z.eqb_spec i (Z.of_nat (List.length str))); [lia|done].
Qed.

Lemma width_loop_moves fuel str fmt n ch :
  slen str + 1 - fmt < Z.of_nat fuel -> moves fmt snd (width_loop fuel str fmt n ch) \/ fmt > slen str + 1.
Proof.
  revert fmt n ch. induction fuel as [|fuel IH]; intros fmt n ch Hf; [right; lia|]. left. cbn [width_loop].
  unfold int_. do 3 (destruct (_ && _); [|done]; cbn [mbind res_bind]).
  destruct (at_ str fmt) as [c|e] eqn:Ea; cbn [mbind res_bind].
  - apply at_bound in Ea. cbv zeta. destruct (_ || _); cbn; [lia|].
    destruct (IH (fmt + 1) (n * 10 + ch - 48) (schar c)) as [H|H]; [lia| |lia].
    unfold moves in *. destruct (width_loop _ _ _ _ _) as [[n' fmt']|]; cbn in *; [lia|done].
  - unfold at_ in Ea. repeat case_match; simplify_eq; done.
Qed.

Lemma text_fuelled n str i : fuelled (text n str i).
Proof. revert i. induction n as [|n IH]; intros i; cbn [text]; sane. Qed.
#[export] Hint Resolve text_fuelled : sane.

(** The rounds of the interpreter: the state stays good and the format pointer moves. *)
Definition sane_r (fmt : Z) (st : kst) (r : res (Z * bool * kst)) : Prop :=
  match r with Ok (fmt', _, st') => fmt < fmt' /\ (good st -> good st') | Err e => e <> NoFuel end.

Lemma sane_r_break fmt fmt' b st (r : res kst) : fmt < fmt' -> sane st r -> sane_r fmt st (st ← r; Ok (fmt', b, st)).
Proof. intros Hf Hr. destruct r; cbn in *; auto. Qed.
Lemma sane_r_weaken fmt fmt' st st' r : fmt <= fmt' -> (good st -> good st') -> sane_r fmt' st' r -> sane_r fmt st r.
Proof. unfold sane_r. destruct r as [[[i s] k]|]; [|done]. intros ?? [? ?]. split; [lia|auto]. Qed.
Lemma sane_r_bind_v {X} fmt st (r : res (X * kst)) f :
  sane_v st r -> (forall x st1, sane_r fmt st1 (f (x, st1))) -> sane_r fmt st (r ≫= f).
Proof.
  intros Hr Hf. destruct r as [[x st1]|e]; cbn [mbind res_bind]; [|done].
  by eapply sane_r_weaken; [|apply Hr|apply Hf].
Qed.
Lemma sane_r_fuelled {X} fmt st (r : res X) f : fuelled r -> (forall x, sane_r fmt st (f x)) -> sane_r fmt st (r ≫= f).
Proof. intros Hr Hf. destruct r; cbn [mbind res_bind]; [done|]. intros ->. done. Qed.

Lemma reswitch_sane fuel a radix str percent fmt f st :
  0 <= fmt -> slen str + 1 - fmt < Z.of_nat fuel -> (0 < fuel)%nat -> sane_r fmt st (reswitch fuel a radix str percent fmt f st).
Proof.
  revert fmt f st. induction fuel as [|fuel IH]; intros fmt f st Hp Hf Hpos; [lia|]. cbn [reswitch].
  destruct (at_ str fmt) as [ch|e] eqn:Ea; cbn [mbind res_bind].
  2: { unfold at_ in Ea. repeat case_match; simplify_eq; done. }
  apply at_bound in Ea. cbv zeta.
  assert (forall fmt' f st, fmt < fmt' -> sane_r fmt st (reswitch fuel a radix str percent fmt' f st)) as Hagain.
  { intros fmt' f' st' Hf'. eapply sane_r_weaken; [| |apply (IH fmt')]; [lia|auto|lia|lia|lia]. }
  assert (forall r, sane st r -> sane_r fmt st (st ← r; Ok (fmt + 1, false, st))) as Hbreak.
  { intros r. apply sane_r_break. lia. }
  assert (sane_r fmt st ('(n, fmt0) ← width_loop (S (List.length str)) str (fmt + 1) 0 ch;
    reswitch fuel a radix str percent fmt0 (if f_dot f then set_dwidth n f else set_width n f) st)) as Hdigits.
  { destruct (width_loop_moves (S (List.length str)) str (fmt + 1) 0 ch) as [H|H]; [unfold slen in *; lia| |lia].
    destruct (width_loop _ _ _ _ _) as [[n fmt']|]; cbn [mbind res_bind moves snd] in *; [|done]. apply Hagain. lia. }
  repeat match goal with
  | |- sane_r _ _ (if _ then _ else _) => case_match
  | |- sane_r _ _ (reswitch _ _ _ _ _ _ _ _) => apply Hagain; lia
  | |- sane_r _ _ (width_loop _ _ _ _ _ ≫= _) => exact Hdigits
  | |- sane_r _ _ (_ ≫= (fun st => Ok (fmt + 1, false, st))) => apply Hbreak; sane
  | |- sane_r _ _ (va_int _ _ ≫= _) => apply sane_r_bind_v; [apply va_int_sane|intros ? ?]
  | |- sane_r _ _ (int_ _ ≫= _) => apply sane_r_fuelled; [apply int_fuelled|intros ?]
  | |- sane_r _ _ (text _ _ _ ≫= _) => apply sane_r_fuelled; [apply text_fuelled|intros ?]
  end.
  all: apply sane_r_break; [lia|]; sane.
Qed.

Lemma kv_loop_sane fuel a radix str fmt stop st :
  0 <= fmt -> slen str + 1 - fmt < Z.of_nat fuel -> (0 < fuel)%nat -> sane st (kv_loop fuel a radix str fmt stop st).
Proof.
  revert fmt stop st. induction fuel as [|fuel IH]; intros fmt stop st Hp Hf Hpos; [lia|]. cbn [kv_loop].
  destruct (at_ str fmt) as [ch|e] eqn:Ea; cbn [mbind res_bind].
  2: { unfold at_ in Ea. repeat case_match; simplify_eq; done. }
  apply at_bound in Ea. cbv zeta. destruct (_ || stop).
  - destruct (ch =? 0); [sane|]. apply sane_bind; [auto with sane|intros st1]. apply IH; lia.
  - pose proof (reswitch_sane (S (S (List.length str))) a radix str (fmt + 1 - 1) (fmt + 1) no_flags st) as H.
    destruct (reswitch _ _ _ _ _ _ _ _) as [[[fmt' stop'] st1]|e]; cbn [mbind res_bind]; [|apply H; unfold slen in *; lia].
    destruct H as [Hmv Hg]; [unfold slen in *; lia..|]. pose proof (IH fmt' (stop || stop') st1 ltac:(lia) ltac:(lia) ltac:(lia)) as H2.
    unfold sane in *. destruct (kv_loop _ _ _ _ _ _ _); auto.
Qed.

Lemma kvprintf_sane a fmt radix ap :
  match kvprintf a fmt radix ap with Ok k => retval k = slen (k_out k) | Err e => e <> NoFuel end.
Proof.
  unfold kvprintf. cbv zeta. set (s := match fmt with Some s => s | None => _ end).
  set (r := if (_ : bool) then 10 else radix).
  pose proof (kv_loop_sane (S (S (List.length s))) a r s 0 false (mkKst [] 0 ap) ltac:(lia)) as H.
  destruct (kv_loop _ _ _ _ _ _ _); apply H; unfold slen; lia || done.
Qed.

(** ** Printing into a buffer *)

Fixpoint put_bytes (m : mem) (b : Z) (l : list Z) : mem :=
  match l with [] => m | c :: l => put_bytes (wr8 m b (u8 c)) (b + 1) l end.

Lemma rd8_put_bytes l m b x :
  rd8 (put_bytes m b l) x =
  if (b <=? x) && (x <? b + slen l) then u8 (default 0 (l !! Z.to_nat (x - b))) else rd8 m x.
Proof.
  revert m b. induction l as [|c l IH]; intros m b; cbn [put_bytes].
  - replace (b + slen []) with b by (unfold slen; cbn; lia). bcase; done.
  - rewrite IH, rd8_wr8. unfold slen. cbn [List.length].
    destruct (Z.eqb_spec x b) as [->|Hne].
    + rewrite (proj2 (Z.leb_gt (b + 1) b)) by lia. rewrite (proj2 (Z.leb_le b b)), (proj2 (Z.ltb_lt b _)) by lia.
      rewrite Z.sub_diag. rewrite (proj2 (Z.ltb_lt b (b + Z.of_nat (S (List.length l))))) by lia.
      cbn. apply (wrap_wrap 8 8). lia.
    + bcase; try done. cbn [andb]. replace (Z.to_nat (x - b)) with (S (Z.to_nat (x - (b + 1)))) by lia. done.
Qed.

Definition only_puts (ev : list event) : Prop := ev = map Put (puts_of ev).

Lemma run_puts_snprintf cs b r m : 0 <= r ->
  let n := Z.min (slen cs) (Z.max 0 (r - 1)) in
  foldl (run_event snprintf_func) (mkInfo b r, m) (map Put cs) =
  (mkInfo (b + n) (r - n), put_bytes m b (take (Z.to_nat n) cs)).
Proof.
  revert b r m. induction cs as [|c cs IH]; intros b r m Hr n; subst n; cbn [map foldl].
  - replace (Z.min (slen []) _) with 0 by (unfold slen; cbn; lia). by rewrite Z.add_0_r, Z.sub_0_r.
  - change (run_event snprintf_func (mkInfo b r, m) (Put c)) with (snprintf_func c (mkInfo b r, m)).
    unfold snprintf_func. cbn [remain str]. assert (slen (c :: cs) = slen cs + 1) as El by (unfold slen; cbn; lia).
    destruct (Z.leb_spec 2 r).
    + rewrite IH by lia. set (k := Z.min (slen cs) (Z.max 0 (r - 1 - 1))).
      replace (Z.min (slen (c :: cs)) (Z.max 0 (r - 1))) with (k + 1) by (unfold k, slen in *; lia).
      assert (0 <= k) by (unfold k, slen; lia).
      replace (Z.to_nat (k + 1)) with (S (Z.to_nat k)) by lia. cbn [take put_bytes].
      f_equal. f_equal; lia.
    + rewrite IH by lia. replace (Z.min (slen cs) (Z.max 0 (r - 1))) with 0 by (unfold slen in *; lia).
      replace (Z.min (slen (c :: cs)) (Z.max 0 (r - 1))) with 0 by (unfold slen in *; lia). done.
Qed.

Lemma run_puts_d cs b m :
  foldl (run_event put_d) (b, m) (map Put cs) = (b + slen cs, put_bytes m b cs).
Proof.
  revert b m. induction cs as [|c cs IH]; intros b m; cbn [map foldl]; [by rewrite Z.add_0_r|].
  change (run_event put_d (b, m) (Put c)) with (put_d c (b, m)). unfold put_d. cbn [fst snd]. rewrite IH.
  unfold slen. cbn [List.length put_bytes]. f_equal. lia.
Qed.

(** C30: [vsnprintf] stays inside its buffer: it returns the length of the whole output,
    stores its first [size - 1] characters and a terminating zero, and changes no byte
    outside the [size] bytes of the buffer; with [size] zero it stores nothing. *)
Theorem vsnprintf_bounded a buf size fmt ap m k :
  0 <= size -> kvprintf a fmt 10 ap = Ok k -> only_puts (k_ev k) ->
  let n := Z.min (slen (k_out k)) (Z.max 0 (size - 1)) in
  exists m', vsnprintf a buf size fmt ap m = Ok (slen (k_out k), m') /\
    (forall i, 0 <= i < n -> rd8 m' (buf + i) = u8 (byte_at (k_out k) i)) /\
    (1 <= size -> rd8 m' (buf + n) = 0) /\
    (forall x, ~ (buf <= x < buf + size) -> rd8 m' x = rd8 m x).
Proof.
  intros Hsz Hk Hp n. pose proof (kvprintf_sane a fmt 10 ap) as Hr. rewrite Hk in Hr.
  unfold vsnprintf. rewrite Hk. cbn [mbind res_bind]. rewrite Hp, run_puts_snprintf by done. fold (k_out k). fold n.
  cbn [remain str]. rewrite Hr. eexists. split; [done|].
  assert (0 <= n /\ n <= slen (k_out k) /\ n <= Z.max 0 (size - 1)) as Hn by (unfold n, slen; lia).
  assert (slen (take (Z.to_nat n) (k_out k)) = n) as Hl by (unfold slen in *; rewrite length_take; lia).
  split_and!.
  - intros i Hi. rewrite (proj2 (Z.leb_le 1 (size - n))) by lia. rewrite rd8_wr8, (proj2 (Z.eqb_neq _ _)) by lia.
    rewrite rd8_put_bytes, Hl, (proj2 (Z.leb_le _ _)), (proj2 (Z.ltb_lt _ _)) by lia. cbn [andb].
    replace (buf + i - buf) with i by lia. unfold byte_at. by rewrite lookup_take_lt by lia.
  - intros H1. rewrite (proj2 (Z.leb_le 1 (size - n))) by lia. by rewrite rd8_wr8, Z.eqb_refl.
  - intros x Hx. destruct (Z.leb_spec 1 (size - n)).
    + rewrite rd8_wr8, (proj2 (Z.eqb_neq _ _)) by lia. rewrite rd8_put_bytes, Hl. bcase; cbn; done || lia.
    + rewrite rd8_put_bytes, Hl. bcase; cbn; done || lia.
Qed.

(** [vsprintf] stores the whole output and a terminating zero, returns its length,
    and changes nothing else. *)
Theorem vsprintf_stores a buf fmt ap m k :
  kvprintf a fmt 10 ap = Ok k -> only_puts (k_ev k) ->
  exists m', vsprintf a buf fmt ap m = Ok (slen (k_out k), m') /\
    (forall i, 0 <= i < slen (k_out k) -> rd8 m' (buf + i) = u8 (byte_at (k_out k) i)) /\
    rd8 m' (buf + slen (k_out k)) = 0 /\
    (forall x, ~ (buf <= x <= buf + slen (k_out k)) -> rd8 m' x = rd8 m x).
Proof.
  intros Hk Hp. pose proof (kvprintf_sane a fmt 10 ap) as Hr. rewrite Hk in Hr.
  unfold vsprintf. rewrite Hk. cbn [mbind res_bind]. rewrite Hp, run_puts_d. fold (k_out k). rewrite Hr.
  eexists. split; [done|]. split_and!.
  - intros i Hi. rewrite rd8_wr8, (proj2 (Z.eqb_neq _ _)) by lia.
    rewrite rd8_put_bytes, (proj2 (Z.leb_le _ _)), (proj2 (Z.ltb_lt _ _)) by lia. cbn [andb].
    by replace (buf + i - buf) with i by lia.
  - by rewrite rd8_wr8, Z.eqb_refl.
  - intros x Hx. assert (0 <= slen (k_out k)) by (unfold slen; lia).
    rewrite rd8_wr8, (proj2 (Z.eqb_neq _ _)) by lia. rewrite rd8_put_bytes. bcase; cbn; done || lia.
Qed.

(** ** The layout of a number *)

Definition push (cs : list Z) (st : kst) : kst := mkKst (k_ev st ++ map Put cs) (retval st + slen cs) (k_ap st).

Lemma PCHARS_ok cs st : retval st + slen cs <= INT_MAX -> PCHARS cs st = Ok (push cs st).
Proof. intros H. unfold PCHARS. by rewrite (proj2 (Z.leb_le _ _)) by done. Qed.
Lemma slen_app (l l' : cstr) : slen (l ++ l') = slen l + slen l'.
Proof. unfold slen. rewrite length_app. lia. Qed.
Lemma slen_nonneg (l : cstr) : 0 <= slen l.
Proof. unfold slen. lia. Qed.
Lemma push_push cs cs' st : push cs' (push cs st) = push (cs ++ cs') st.
Proof. unfold push. cbn. rewrite slen_app, map_app, app_assoc. f_equal. lia. Qed.
Lemma push_nil st : push [] st = st.
Proof. unfold push. cbn. rewrite app_nil_r, Z.add_0_r. by destruct st. Qed.
Lemma int_ok z : INT_MIN <= z <= INT_MAX -> int_ z = Ok z.
Proof. intros H. unfold int_. by rewrite (proj2 (Z.leb_le _ _)), (proj2 (Z.leb_le _ _)) by lia. Qed.

(** Sign and radix prefix, zeros, digits, and blanks up to the width. *)
Definition prefix_of (f : flags) (base : Z) (neg zero : bool) : list Z :=
  (if neg then [45] else []) ++
  (if f_sharpflag f && negb zero then if base =? 8 then [48] else if base =? 16 then [48; 120] else [] else []).
Definition zeros_of (f : flags) (pre digs : list Z) : list Z :=
  replicate (Z.to_nat ((if negb (f_ladjust f) && (f_padc f =? 48) then f_width f - slen pre else f_dwidth f) - slen digs)) 48.
Definition layout (f : flags) (base : Z) (neg zero : bool) (digs : list Z) : list Z :=
  let pre := prefix_of f base neg zero in
  let body := pre ++ zeros_of f pre digs ++ digs in
  let fill := replicate (Z.to_nat (f_width f - slen body)) 32 in
  if f_ladjust f then body ++ fill else fill ++ body.

(** The number a conversion prints: its sign and its magnitude. *)
Definition negative (f : flags) (num : Z) : bool := f_sign f && (swrap 64 num <? 0).
Definition magnitude (f : flags) (num : Z) : Z := if negative f num then - swrap 64 num else num.

Lemma swrap_range z : - 2 ^ 63 <= swrap 64 z < 2 ^ 63.
Proof.
  pose proof (is_u_wrap 64 z ltac:(lia)) as [? ?]. unfold swrap. change (2 ^ (64 - 1)) with (2 ^ 63).
  destruct (Z.ltb_spec (wrap 64 z) (2 ^ 63)); lia.
Qed.

Lemma magnitude_ok f num : 0 <= num < 2 ^ 64 -> magnitude f num <> 2 ^ 63 \/ negative f num = false ->
  (if negative f num then if swrap 64 num =? - 2 ^ 63 then Err Undef else Ok (u64 (- swrap 64 num)) else Ok num)
  = Ok (magnitude f num) /\ 0 <= magnitude f num < 2 ^ 64.
Proof.
  intros Hnum Hmin. unfold magnitude in *. destruct (negative f num) eqn:En; [|done].
  unfold negative in En. apply andb_true_iff in En as [_ En]. apply Z.ltb_lt in En.
  destruct Hmin as [Hmin|]; [|done]. pose proof (swrap_range num) as Hr.
  destruct (Z.eqb_spec (swrap 64 num) (- 2 ^ 63)); [lia|]. split; [|lia]. f_equal. apply wrap_small. unfold is_u. lia.
Qed.

Lemma prefix_length f base neg zero :
  (if f_sharpflag f && negb zero then (if base =? 8 then 1 else if base =? 16 then 2 else 0) else 0) + b2z neg =
  slen (prefix_of f base neg zero) /\ slen (prefix_of f base neg zero) <= 3.
Proof.
  unfold prefix_of, slen. destruct neg, (f_sharpflag f && negb zero), (base =? 8), (base =? 16); cbn; lia.
Qed.

Lemma prefix_puts f base neg zero st :
  retval st + slen (prefix_of f base neg zero) <= INT_MAX ->
  (st ← (if neg then PCHAR 45 st else Ok st);
   if f_sharpflag f && negb zero then
     if base =? 8 then PCHAR 48 st
     else if base =? 16 then st ← PCHAR 48 st; PCHAR 120 st else Ok st
   else Ok st) = Ok (push (prefix_of f base neg zero) st).
Proof.
  unfold prefix_of, PCHAR. intros H. destruct neg, (f_sharpflag f && negb zero), (base =? 8), (base =? 16);
    cbn [mbind res_bind]; repeat (rewrite PCHARS_ok by (cbn in *; unfold slen in *; cbn in *; lia); cbn [mbind res_bind]);
    rewrite ?push_push, ?push_nil; done.
Qed.

Lemma pad_ok c w st : w <> INT_MIN -> retval st + Z.max 0 w <= INT_MAX -> pad c w st = Ok (push (replicate (Z.to_nat w) c) st).
Proof.
  intros Hw Hr. unfold pad. rewrite (proj2 (Z.eqb_neq _ _)) by done. apply PCHARS_ok.
  unfold slen. rewrite length_replicate. lia.
Qed.

Lemma print_number_split f base num st digs :
  0 <= num < 2 ^ 64 -> magnitude f num <> 2 ^ 63 \/ negative f num = false ->
  0 <= f_width f < 2 ^ 30 -> 0 <= f_dwidth f < 2 ^ 30 -> slen digs <= 64 ->
  ksprintn (magnitude f num) base (f_upper f) = Ok (digs ++ [0], slen digs) -> until_zero (digs ++ [0]) = digs ->
  let out := layout f base (negative f num) (magnitude f num =? 0) digs in
  0 <= retval st -> retval st + slen out <= INT_MAX -> print_number f base num st = Ok (push out st).
Proof.
  intros Hnum Hmin Hw Hdw Hlen Hk Hz out Hret Hout. unfold print_number. fold (negative f num).
  rewrite (proj1 (magnitude_ok f num Hnum Hmin)). cbn [mbind res_bind]. rewrite Hk. cbn [mbind res_bind]. rewrite Hz.
  set (neg := negative f num) in *. set (zero := magnitude f num =? 0) in *.
  destruct (prefix_length f base neg zero) as [-> Hpre]. set (pre := prefix_of f base neg zero) in *.
  pose proof (slen_nonneg digs) as Hd0. pose proof (slen_nonneg pre) as Hp0.
  set (dw := if negb (f_ladjust f) && (f_padc f =? 48) then f_width f - slen pre else f_dwidth f).
  assert ((if negb (f_ladjust f) && (f_padc f =? 48) then int_ (f_width f - slen pre) else Ok (f_dwidth f)) = Ok dw) as ->.
  { unfold dw. destruct (_ && _); [|done]. apply int_ok. unfold INT_MIN, INT_MAX. lia. }
  assert (- 3 <= dw < 2 ^ 30) as Hdwr by (unfold dw; destruct (_ && _); lia).
  cbn [mbind res_bind]. assert (imax dw (slen digs) = Z.max dw (slen digs)) as -> by (unfold imax; bcase; lia).
  do 3 (rewrite int_ok by (unfold INT_MIN, INT_MAX; lia); cbn [mbind res_bind]).
  set (zs := replicate (Z.to_nat (dw - slen digs)) 48).
  assert (zeros_of f pre digs = zs) as Ezs by done.
  assert (slen zs = Z.max 0 (dw - slen digs)) as Hzs by (unfold zs, slen; rewrite length_replicate; lia).
  set (w := f_width f - (slen pre + Z.max dw (slen digs))).
  assert (w = f_width f - slen (pre ++ zs ++ digs)) as Ew by (unfold w; rewrite !slen_app; lia).
  assert (slen out = Z.max 0 w + (slen pre + slen zs + slen digs)) as Hso.
  { unfold out, layout. fold pre. rewrite Ezs, <- Ew.
    assert (slen (replicate (Z.to_nat w) 32) = Z.max 0 w) by (unfold slen; rewrite length_replicate; lia).
    destruct (f_ladjust f); rewrite !slen_app; lia. }
  assert (w <> INT_MIN) as Hwm by (unfold w, INT_MIN; lia).
  set (st1 := if f_ladjust f then st else push (replicate (Z.to_nat w) 32) st).
  assert ((if negb (f_ladjust f) then pad 32 w st else Ok st) = Ok st1 /\
          0 <= retval st1 /\ retval st1 + slen pre + slen zs + slen digs <= INT_MAX) as (-> & Hr1 & Hr2).
  { unfold st1. destruct (f_ladjust f); cbn [negb]; [split; [done|lia]|]. rewrite pad_ok by (done || lia).
    split; [done|]. cbn [push retval]. unfold slen at 1 2. rewrite length_replicate. lia. }
  cbn [mbind res_bind]. pose proof (prefix_puts f base neg zero st1 ltac:(fold pre; lia)) as Hpp.
  destruct (if neg then PCHAR 45 st1 else Ok st1) as [st2|]; cbn [mbind res_bind] in *; [|done].
  rewrite Hpp. cbn [mbind res_bind]. fold pre.
  rewrite pad_ok by (cbn [push retval]; unfold INT_MIN in *; lia). fold zs. cbn [mbind res_bind].
  rewrite PCHARS_ok by (cbn [push retval]; lia). cbn [mbind res_bind]. rewrite !push_push.
  unfold out, layout. fold pre. rewrite Ezs, <- Ew. unfold st1. destruct (f_ladjust f).
  - rewrite pad_ok by (cbn [push retval]; rewrite ?slen_app; done || lia). rewrite push_push. by rewrite <- !app_assoc.
  - rewrite push_push. by rewrite <- ?app_assoc.
Qed.

Lemma layout_length f base neg zero digs :
  0 <= f_width f -> 0 <= f_dwidth f -> slen (layout f base neg zero digs) <= 3 + slen digs + Z.max (f_width f) (f_dwidth f).
Proof.
  intros Hw Hd. unfold layout, zeros_of. pose proof (proj2 (prefix_length f base neg zero)) as Hp.
  set (pre := prefix_of _ _ _ _) in *. pose proof (slen_nonneg pre). pose proof (slen_nonneg digs).
  assert (forall n c, slen (replicate n c) = Z.of_nat n) as Hrep by (intros; unfold slen; by rewrite length_replicate).
  destruct (f_ladjust f), (f_padc f =? 48); cbn [negb andb]; rewrite ?slen_app, ?Hrep, ?slen_app, ?Hrep; lia.
Qed.

Lemma print_number_run f base num st :
  2 <= base <= 36 -> 0 <= num < 2 ^ 64 -> magnitude f num <> 2 ^ 63 \/ negative f num = false ->
  0 <= f_width f < 2 ^ 30 -> 0 <= f_dwidth f < 2 ^ 30 -> 0 <= retval st < 2 ^ 30 - 200 ->
  exists ds, value_of base ds 0 = magnitude f num /\ canonical ds /\ Forall (fun d => 0 <= d < base) ds /\ slen ds <= 64 /\
    print_number f base num st =
    Ok (push (layout f base (negative f num) (magnitude f num =? 0) (map (dig (f_upper f)) ds)) st).
Proof.
  intros Hb Hnum Hmin Hw Hdw Hr. destruct (magnitude_ok f num Hnum Hmin) as [_ Hmag].
  destruct (ksprintn_ok (f_upper f) base (magnitude f num) Hb Hmag) as (ds & Ek & Hv & Hds & Hc & Hlen).
  exists ds. assert (slen (map (dig (f_upper f)) ds) = slen ds) as El by (unfold slen; by rewrite length_map).
  assert (slen ds <= 64) as Hl by (unfold slen; lia). split_and!; [done..|]. apply print_number_split; [done..| | | | |].
  - by rewrite El.
  - by rewrite El.
  - apply (until_zero_digs _ base); [lia|done].
  - lia.
  - pose proof (layout_length f base (negative f num) (magnitude f num =? 0) (map (dig (f_upper f)) ds)). unfold INT_MAX. lia.
Qed.

(** A converted number is laid out as its flags say: blanks up to the width, sign,
    radix prefix, zeros and the digits of its magnitude in the base, without leading zero;
    the width is a minimum, the digits are never cut. *)
Theorem print_number_layout f base num st :
  2 <= base <= 36 -> 0 <= num < 2 ^ 64 -> magnitude f num <> 2 ^ 63 \/ negative f num = false ->
  0 <= f_width f < 2 ^ 30 -> 0 <= f_dwidth f < 2 ^ 30 -> 0 <= retval st < 2 ^ 30 - 200 ->
  exists ds, value_of base ds 0 = magnitude f num /\ canonical ds /\ Forall (fun d => 0 <= d < base) ds /\
    print_number f base num st =
    Ok (push (layout f base (negative f num) (magnitude f num =? 0) (map (dig (f_upper f)) ds)) st).
Proof.
  intros Hb Hnum Hmin Hw Hdw Hr. destruct (print_number_run f base num st) as (ds & Hv & Hc & Hds & _ & E); [done..|].
  by exists ds.
Qed.

(** ** Printing and parsing numbers *)

Lemma digits_digs upper base ds l :
  base <= 36 -> Forall (fun d => 0 <= d < base) ds -> (forall c l', l = c :: l' -> valid_digit base c = false) ->
  digits base (map (dig upper) ds ++ l) = ds.
Proof.
  intros Hb Hds Hl. induction Hds as [|d ds Hd _ IH]; cbn [map app digits].
  - destruct l as [|c l']; [done|]. cbn. by rewrite (Hl c l').
  - destruct (dig_facts upper d ltac:(lia)) as (_ & E & _). unfold valid_digit. rewrite E.
    rewrite (proj2 (Z.ltb_lt d base)) by lia. cbn. by rewrite IH.
Qed.

Lemma digs_wf upper base ds : base <= 36 -> Forall (fun d => 0 <= d < base) ds -> str_wf (map (dig upper) ds).
Proof.
  intros Hb Hds. unfold str_wf. apply Forall_map. eapply Forall_impl; [exact Hds|]. cbn. intros d Hd.
  destruct (dig_facts upper d ltac:(lia)) as (_ & _ & ? & _). lia.
Qed.

(** A digit character is neither white space nor a sign. *)
Lemma dig_plain upper d : 0 <= d < 36 -> isspace (dig upper d) = false /\ (dig upper d =? 45) = false /\
  (dig upper d =? 43) = false /\ ((dig upper d =? 48) = (d =? 0)).
Proof.
  intros Hd. destruct (dig_facts upper d Hd) as (_ & E & Hr & _).
  assert (forall c, digit_of c = None -> dig upper d <> c) as Hne by (intros c Hc Ec; rewrite Ec in E; congruence).
  split_and!.
  - unfold isspace. rewrite (proj2 (Z.eqb_neq _ 32)) by (apply Hne; done). cbn [orb].
    destruct ((9 <=? dig upper d) && (dig upper d <=? 13)) eqn:Ec; [|done]. exfalso.
    assert (dig upper d = 9 \/ dig upper d = 10 \/ dig upper d = 11 \/ dig upper d = 12 \/ dig upper d = 13) as Hc by lia.
    repeat destruct Hc as [Hc|Hc]; rewrite Hc in E; done.
  - apply Z.eqb_neq. by apply Hne.
  - apply Z.eqb_neq. by apply Hne.
  - destruct (Z.eqb_spec d 0) as [->|Hz]; [by destruct upper|]. apply Z.eqb_neq. intros Ec. rewrite Ec in E.
    vm_compute in E. congruence.
Qed.

Lemma numeral_digs upper base ds :
  2 <= base <= 36 -> Forall (fun d => 0 <= d < base) ds -> canonical ds ->
  numeral base (map (dig upper) ds) = (false, base, ds, map (dig upper) ds).
Proof.
  intros Hb Hds Hc. unfold numeral. assert (exists d ds', ds = d :: ds' /\ (d = 0 -> ds' = [])) as (d & ds' & -> & H0).
  { destruct Hc as [->|(d & ds' & -> & ?)]; eauto. by eexists d, ds'. }
  pose proof (proj1 (proj1 (Forall_cons _ _ _) Hds)) as Hd. destruct (dig_plain upper d ltac:(lia)) as (Es & E1 & E2 & E3).
  cbn [map drop_spaces]. rewrite Es. cbn [sign_of]. rewrite E1, E2. unfold radix_of.
  assert (is_hex_prefix (dig upper d :: map (dig upper) ds') = None) as ->.
  { unfold is_hex_prefix. destruct ds' as [|x ds'']; [done|]. cbn [map]. rewrite E3.
    destruct (Z.eqb_spec d 0) as [Ed|]; [by specialize (H0 Ed)|done]. }
  rewrite Tauto.if_same, (proj2 (Z.eqb_neq base 0)) by lia.
  pose proof (digits_digs upper base (d :: ds') [] ltac:(lia) Hds ltac:(done)) as Hdig.
  rewrite app_nil_r in Hdig. cbn [map] in Hdig. by rewrite Hdig.
Qed.

(** Reading back a printed number gives the number: for every base from 2 to 36, in
    lower or upper case, [tb_strtoull] in the same base applied to the digits of
    [ksprintn] returns the number (truncated to [unsigned long]) and consumes them all. *)
Theorem ksprintn_strtoull a upper base num :
  2 <= base <= 36 -> 0 <= num < 2 ^ 64 ->
  exists p n, ksprintn num base upper = Ok (p, n) /\ n = slen (until_zero p) /\ n <= 64 /\
    tb_strtoull a (until_zero p) 0 base = Ok (wrap (ptr_bits a) num, n).
Proof.
  intros Hb Hn. destruct (ksprintn_ok upper base num Hb Hn) as (ds & Ek & Hv & Hds & Hc & Hlen).
  eexists _, _. split; [exact Ek|]. rewrite (until_zero_digs _ base) by (done || lia).
  assert (slen (map (dig upper) ds) = slen ds) as El by (unfold slen; by rewrite length_map).
  split; [done|]. split; [unfold slen; lia|].
  pose proof (tb_strtoull_spec a (map (dig upper) ds) 0 base) as H.
  change (rest (map (dig upper) ds) 0) with (map (dig upper) ds) in H. rewrite numeral_digs in H by done.
  rewrite H; [|by apply (digs_wf _ base); [lia|]|rewrite El; unfold slen; lia|by right].
  cbv zeta. rewrite Hv, (proj2 (Z.leb_gt _ _)) by lia. rewrite bool_decide_eq_false_2.
  - fold (slen (map (dig upper) ds)). rewrite Z.sub_diag. done.
  - intros ->. destruct Hc as [|(? & ? & ? & _)]; done.
Qed.

Lemma ksprintn_strtoull_witness :
  exists p n, ksprintn 0xDEADBEEF 16 true = Ok (p, n) /\ n = slen (until_zero p) /\ n <= 64 /\
    tb_strtoull I386 (until_zero p) 0 16 = Ok (wrap (ptr_bits I386) 0xDEADBEEF, n).
Proof. apply (ksprintn_strtoull I386 true 16 0xDEADBEEF); lia. Defined.

(** ** Formats *)

Lemma kv_loop_S fuel a radix str fmt stop st :
  kv_loop (S fuel) a radix str fmt stop st =
  ch ← at_ str fmt;
  if negb (ch =? 37) || stop then
    if ch =? 0 then Ok st else st ← PCHAR ch st; kv_loop fuel a radix str (fmt + 1) stop st
  else
    '(fmt, stop', st) ← reswitch (S (S (List.length str))) a radix str (fmt + 1 - 1) (fmt + 1) no_flags st;
    kv_loop fuel a radix str fmt (stop || stop') st.
Proof. done. Qed.

(** Text without a conversion is copied. *)
Lemma kv_loop_text s l fuel a radix i st :
  str_wf s -> 0 <= i -> rest s i = l ++ rest s (i + slen l) -> i + slen l <= slen s -> Forall (fun c => c <> 37) l ->
  retval st + slen l <= INT_MAX ->
  kv_loop (List.length l + fuel) a radix s i false st = kv_loop fuel a radix s (i + slen l) false (push l st).
Proof.
  intros Hs. revert i st. induction l as [|c l IH]; intros i st Hi Hr Hl Hp Hret.
  - change (slen []) with 0. by rewrite Z.add_0_r, push_nil.
  - assert (slen (c :: l) = slen l + 1) as El by (unfold slen; cbn; lia). pose proof (slen_nonneg l) as Hl0.
    apply Forall_cons in Hp as [Hc Hp]. cbn [List.length Nat.add kv_loop].
    rewrite at_ok by lia. cbn [mbind res_bind]. cbv zeta.
    destruct (rest_cases s i Hs ltac:(lia)) as [(Ei & _)|(_ & Hb & Er)]; [lia|].
    rewrite Er in Hr. cbn [app] in Hr. injection Hr as Ec Hr.
    rewrite Ec, (proj2 (Z.eqb_neq c 37)), (proj2 (Z.eqb_neq c 0)) by lia. cbn [negb orb].
    unfold PCHAR. rewrite PCHARS_ok by (unfold slen at 1; cbn; lia). cbn [mbind res_bind].
    rewrite (IH (i + 1)); try done; try lia.
    + rewrite push_push. by replace (i + 1 + slen l) with (i + slen (c :: l)) by lia.
    + by replace (i + 1 + slen l) with (i + slen (c :: l)) by lia.
    + cbn [push retval]. unfold slen at 1. cbn. lia.
Qed.

Lemma rest_app l l' : rest (l ++ l') (slen l) = l'.
Proof. unfold rest, slen. rewrite Nat2Z.id. apply drop_app_length. Qed.

(** A format ending in a single percent sign after plain text makes [kvprintf] read the
    format beyond its terminating zero: the terminator is taken as an unknown conversion
    character and printed, and the scan goes on behind it. *)
Theorem kvprintf_trailing_percent a s radix ap :
  str_wf s -> Forall (fun c => c <> 37) s -> slen s < 2 ^ 30 ->
  kvprintf a (Some (s ++ [37])) radix ap = Err Undef.
Proof.
  intros Hs Hp Hl. unfold kvprintf. cbv zeta. set (r := if (_ : bool) then 10 else radix). set (s' := s ++ [37]).
  assert (str_wf s') as Hs' by (apply Forall_app; split; [done|by apply Forall_singleton]).
  assert (slen s' = slen s + 1) as Hl' by (unfold s'; rewrite slen_app; done). pose proof (slen_nonneg s) as Hs0.
  replace (S (S (List.length s'))) with (List.length s + 3)%nat by (unfold s'; rewrite length_app; cbn; lia).
  pose proof (rest_app s [37]) as Hr. fold s' in Hr.
  rewrite (kv_loop_text s' s 3 a r 0); [|done|lia| |lia|done|cbn; unfold INT_MAX; lia].
  2: { change (0 + slen s) with (slen s). by rewrite Hr. }
  change (0 + slen s) with (slen s). rewrite kv_loop_S. set (st := push s _).
  assert (byte_at s' (slen s) = 37) as E37 by (rewrite rest_head, Hr by (done || lia); done).
  rewrite at_ok, E37 by lia. cbn [mbind res_bind Z.eqb Pos.eqb negb orb]. cbv zeta.
  replace (S (S (List.length s'))) with (S (List.length s + 2))%nat by (unfold s'; rewrite length_app; cbn; lia).
  cbn [reswitch]. assert (at_ s' (slen s + 1) = Ok 0) as E0 by (rewrite <- Hl'; apply at_end).
  rewrite E0. cbn [mbind res_bind Z.eqb Z.leb Z.compare Pos.compare Pos.compare_cont andb orb]. cbv zeta.
  replace (slen s + 1 - 1) with (slen s) by lia. replace (Z.to_nat (slen s + 1 + 1 - slen s)) with 2%nat by lia.
  cbn [text]. rewrite (at_ok s' (slen s)), E37 by lia. cbn [mbind res_bind]. rewrite E0. cbn [mbind res_bind].
  assert (retval st = slen s) as Est by done.
  rewrite PCHARS_ok by (rewrite Est; change (slen [schar 37; schar 0]) with 2; unfold INT_MAX; lia).
  cbn [mbind res_bind]. rewrite kv_loop_S.
  assert (at_ s' (slen s + 1 + 1) = Err Undef) as ->; [|done].
  unfold at_. rewrite (proj2 (Z.ltb_ge _ 0)) by lia. rewrite lookup_ge_None_2 by (unfold slen in *; lia).
  by rewrite (proj2 (Z.eqb_neq _ _)) by lia.
Qed.

(** Text without a percent sign is printed unchanged. *)
Theorem kvprintf_plain a s radix ap :
  str_wf s -> Forall (fun c => c <> 37) s -> slen s < 2 ^ 30 ->
  kvprintf a (Some s) radix ap = Ok (mkKst (map Put s) (slen s) ap).
Proof.
  intros Hs Hp Hl. unfold kvprintf. cbv zeta. set (r := if (_ : bool) then 10 else radix).
  replace (S (S (List.length s))) with (List.length s + 2)%nat by lia.
  rewrite (kv_loop_text s s 2 a r 0); try done; try (cbn; unfold INT_MAX; lia).
  - change (0 + slen s) with (slen s). rewrite kv_loop_S, at_end. done.
  - change (0 + slen s) with (slen s). pose proof (rest_app s []) as H. rewrite app_nil_r in H. by rewrite H, app_nil_r.
Qed.

(** ** Witnesses *)

Definition hello : cstr := lit "x = %d, %5s|%#x".
Definition hello_args : list varg := [VNum 32 (-7); VStr (Some (lit "ab")); VNum 32 255].
Definition hello_out : cstr := lit "x = -7,    ab|0xff".

Lemma vsnprintf_bounded_witness :
  exists m', vsnprintf I386 4096 8 (Some hello) hello_args ∅ = Ok (18, m') /\ rd8 m' 4102 = 44 /\ rd8 m' 4103 = 0.
Proof.
  destruct (vsnprintf_bounded I386 4096 8 (Some hello) hello_args ∅ (mkKst (map Put hello_out) 18 []))
    as (m' & E & Hb & Hz & _); [lia|by vm_compute|by vm_compute|].
  exists m'. split; [exact E|]. split; [exact (Hb 6 ltac:(split; by vm_compute))|exact (Hz ltac:(lia))].
Defined.

Lemma vsprintf_stores_witness :
  exists m', vsprintf AMD64 4096 (Some hello) hello_args ∅ = Ok (18, m') /\ rd8 m' (4096 + 18) = 0.
Proof.
  destruct (vsprintf_stores AMD64 4096 (Some hello) hello_args ∅ (mkKst (map Put hello_out) 18 []))
    as (m' & E & _ & Hz & _); [by vm_compute|by vm_compute|].
  exists m'. by split.
Defined.

Lemma print_number_layout_witness :
  exists ds, value_of 16 ds 0 = 255 /\ canonical ds /\ Forall (fun d => 0 <= d < 16) ds /\
    print_number (set_sharpflag true (set_width 8 (set_padc 48 no_flags))) 16 255 (mkKst [] 0 []) =
    Ok (push (layout (set_sharpflag true (set_width 8 (set_padc 48 no_flags))) 16 false false (map (dig false) ds)) (mkKst [] 0 [])).
Proof.
  apply (print_number_layout (set_sharpflag true (set_width 8 (set_padc 48 no_flags))) 16 255 (mkKst [] 0 [])); cbn; lia.
Defined.

Lemma kvprintf_trailing_percent_witness : kvprintf AMD64 (Some (lit "100%")) 10 [] = Err Undef.
Proof. apply (kvprintf_trailing_percent AMD64 (lit "100") 10 []); [by repeat constructor|by repeat constructor|done]. Defined.

Lemma kvprintf_plain_witness : exists k, kvprintf AMD64 (Some (lit "SHV")) 10 [] = Ok k /\ k_out k = lit "SHV".
Proof.
  eexists. split; [apply kvprintf_plain; [by repeat constructor|by repeat constructor|done]|by vm_compute].
Defined.

(** [kvprintf] terminates on every format and argument list, ends with a result or a
    fault, and its return value is the number of characters it printed. *)
Theorem kvprintf_counts a fmt radix ap :
  match kvprintf a fmt radix ap with Ok k => retval k = slen (k_out k) | Err e => e <> NoFuel end.
Proof. apply kvprintf_sane. Qed.
