(* ===== verification/Spinlock.v ===== *)
(** [src/spinlock.c]: the spin lock, as an interleaving of the memory accesses of the
    CPUs that use it.  Every access of [spin_lock] and [spin_unlock] to the lock is one
    step: the plain read of the test, and the locked exchange, which is atomic. *)
From S2P Require Import Prelude.

(** Where a CPU is: outside, about to evaluate [*lock == 0], about to exchange, holding
    the lock, or about to exchange in [spin_unlock]. *)
Inductive spc := Outside | Test | Swap | Holding | Release.
#[global] Instance spc_eq_dec : EqDecision spc.
Proof. solve_decision. Defined.

(** [lock xchg]: the old value and the new memory. *)
Definition xchg (val mem : Z) : Z * Z := (mem, val).

(** One access of [spin_lock] to the lock: the next position and the lock. *)
Definition spin_lock_step (pc : spc) (lock : Z) : option (spc * Z) :=
  match pc with
  | Test => Some (if lock =? 0 then Swap else Test, lock)
  | Swap => let '(val, lock) := xchg 1 lock in Some (if val =? 0 then Holding else Test, lock)
  | _ => None
  end.
(** The access of [spin_unlock]. *)
Definition spin_unlock_step (pc : spc) (lock : Z) : option (spc * Z) :=
  match pc with
  | Release => let '(_, lock) := xchg 0 lock in Some (Outside, lock)
  | _ => None
  end.

(** A system of CPUs, each calling [spin_lock] when outside and [spin_unlock] when it holds the lock. *)
Record lstate := mkL { l_lock : Z; l_pc : list spc }.

Inductive lstep : lstate -> lstate -> Prop :=
| step_call s i : l_pc s !! i = Some Outside -> lstep s (mkL (l_lock s) (<[i := Test]> (l_pc s)))
| step_leave s i : l_pc s !! i = Some Holding -> lstep s (mkL (l_lock s) (<[i := Release]> (l_pc s)))
| step_lock s i pc pc' k : l_pc s !! i = Some pc -> spin_lock_step pc (l_lock s) = Some (pc', k) ->
    lstep s (mkL k (<[i := pc']> (l_pc s)))
| step_unlock s i pc pc' k : l_pc s !! i = Some pc -> spin_unlock_step pc (l_lock s) = Some (pc', k) ->
    lstep s (mkL k (<[i := pc']> (l_pc s))).

Definition linit (n : nat) : lstate := mkL 0 (replicate n Outside).

(** Between a successful exchange and the exchange of [spin_unlock]. *)
Definition inside (pc : spc) : Prop := pc = Holding \/ pc = Release.
#[global] Instance inside_dec pc : Decision (inside pc).
Proof. unfold inside. apply _. Defined.

Definition linv (s : lstate) : Prop :=
  (l_lock s = 0 /\ forall i pc, l_pc s !! i = Some pc -> ~ inside pc) \/
  (l_lock s = 1 /\ exists h, (exists pc, l_pc s !! h = Some pc /\ inside pc) /\
     forall i pc, l_pc s !! i = Some pc -> inside pc -> i = h).

Lemma linv_init n : linv (linit n).
Proof.
  left. split; [done|]. intros i pc H. apply lookup_replicate in H as [-> _]. intros [|]; done.
Qed.

(** Moving a CPU between positions on the same side of the lock. *)
Lemma linv_move s i pc pc' :
  l_pc s !! i = Some pc -> (inside pc <-> inside pc') -> linv s -> linv (mkL (l_lock s) (<[i := pc']> (l_pc s))).
Proof.
  intros Hi Hio Hinv. pose proof (lookup_lt_Some _ _ _ Hi) as Hlt.
  assert (forall j q, <[i := pc']> (l_pc s) !! j = Some q -> inside q ->
    exists q', l_pc s !! j = Some q' /\ inside q') as Hback.
  { intros j q Hj Hq. destruct (decide (i = j)) as [<-|Hne].
    - rewrite list_lookup_insert_eq in Hj by done. simplify_eq. exists pc. split; [done|]. by apply Hio.
    - rewrite list_lookup_insert_ne in Hj by done. by exists q. }
  destruct Hinv as [[Hl Hn]|(Hl & h & (q & Hh & Hq) & Hu)]; [left|right]; (split; [done|]).
  - intros j q Hj Hq. destruct (Hback j q Hj Hq) as (q' & Hj' & Hq'). by eapply Hn.
  - exists h. split.
    + destruct (decide (i = h)) as [<-|Hne]; cbn [l_pc].
      * exists pc'. rewrite list_lookup_insert_eq by done. split; [done|]. simplify_eq. by apply Hio.
      * exists q. by rewrite list_lookup_insert_ne by done.
    + intros j p Hj Hp. destruct (Hback j p Hj Hp) as (q' & Hj' & Hq'). by eapply Hu.
Qed.

Lemma linv_step s s' : lstep s s' -> linv s -> linv s'.
Proof.
  assert (~ inside Outside /\ ~ inside Test /\ ~ inside Swap /\ inside Holding /\ inside Release) as (HO & HT & HS & HH & HR).
  { unfold inside. repeat split; try tauto; intros [|]; done. }
  intros Hstep Hinv. destruct Hstep as [s i Hi|s i Hi|s i pc pc' k Hi Hk|s i pc pc' k Hi Hk].
  - by apply (linv_move s i Outside).
  - by apply (linv_move s i Holding).
  - destruct pc; cbn in Hk; simplify_eq.
    + destruct (Z.eqb_spec (l_lock s) 0); by apply (linv_move s i Test).
    + pose proof (lookup_lt_Some _ _ _ Hi) as Hlt. destruct (Z.eqb_spec (l_lock s) 0) as [E|E].
      * destruct Hinv as [[_ Hn]|(? & _)]; [|lia]. right. split; [done|]. exists i. cbn [l_pc]. split.
        -- exists Holding. by rewrite list_lookup_insert_eq.
        -- intros j q Hj Hq. destruct (decide (i = j)) as [|Hne]; [done|].
           rewrite list_lookup_insert_ne in Hj by done. by destruct (Hn j q Hj).
      * destruct (Hinv) as [[? _]|(El & _)]; [lia|]. rewrite <- El. by apply (linv_move s i Swap).
  - destruct pc; cbn in Hk; simplify_eq. pose proof (lookup_lt_Some _ _ _ Hi) as Hlt.
    destruct Hinv as [[_ Hn]|(_ & h & _ & Hu)]; [by destruct (Hn i Release Hi)|].
    left. split; [done|]. cbn [l_pc]. intros j q Hj Hq. destruct (decide (i = j)) as [<-|Hne].
    + rewrite list_lookup_insert_eq in Hj by done. by simplify_eq.
    + rewrite list_lookup_insert_ne in Hj by done. apply Hne.
      rewrite (Hu i Release Hi HR). by rewrite (Hu j q Hj Hq).
Qed.

Lemma linv_reach n s : rtc lstep (linit n) s -> linv s.
Proof.
  intros H. pose proof (linv_init n) as Hi. revert Hi. generalize (linit n) as s0, H.
  intros s0 H0. induction H0 as [|x y z Hxy _ IH]; [done|]. intros Hx. by eapply IH, linv_step.
Qed.

(** C22: The spin lock excludes: in every state that any interleaving of any number of
    CPUs reaches, at most one CPU is between its [spin_lock] and the exchange of its
    [spin_unlock], and the lock is 1 exactly then. *)
Theorem spin_lock_excludes n s i j pi pj :
  rtc lstep (linit n) s -> l_pc s !! i = Some pi -> l_pc s !! j = Some pj -> inside pi ->
  l_lock s = 1 /\ (inside pj -> i = j).
Proof.
  intros Hr Hi Hj Hpi. destruct (linv_reach n s Hr) as [[_ Hn]|(Hl & h & _ & Hu)]; [by destruct (Hn i pi Hi)|].
  split; [done|]. intros Hpj. rewrite (Hu i pi Hi Hpi). by rewrite (Hu j pj Hj Hpj).
Qed.

(** No deadlock: when no CPU holds the lock, a CPU at the test of [spin_lock] acquires it with its
    next two accesses. *)
Theorem spin_lock_available n s i :
  rtc lstep (linit n) s -> (forall j pc, l_pc s !! j = Some pc -> ~ inside pc) -> l_pc s !! i = Some Test ->
  exists s1 s2, lstep s s1 /\ lstep s1 s2 /\ l_lock s2 = 1 /\ l_pc s2 !! i = Some Holding.
Proof.
  intros Hr Hn Hi. destruct (linv_reach n s Hr) as [[Hl _]|(_ & h & (q & Hh & Hq) & _)]; [|by destruct (Hn h q Hh)].
  pose proof (lookup_lt_Some _ _ _ Hi) as Hlt.
  exists (mkL (l_lock s) (<[i := Swap]> (l_pc s))), (mkL 1 (<[i := Holding]> (<[i := Swap]> (l_pc s)))). split_and!.
  - apply (step_lock s i Test); [done|]. cbn. by rewrite Hl.
  - apply (step_lock (mkL (l_lock s) (<[i := Swap]> (l_pc s))) i Swap).
    + cbn. by rewrite list_lookup_insert_eq.
    + cbn. by rewrite Hl.
  - done.
  - cbn. by rewrite list_lookup_insert_eq by (by rewrite length_insert).
Qed.

(** A run of two CPUs in which the second finds the lock taken. *)
Lemma demo_run : rtc lstep (linit 2) (mkL 1 [Holding; Test]).
Proof.
  eapply rtc_l; [apply (step_call _ 0); reflexivity|]. eapply rtc_l; [apply (step_call _ 1); reflexivity|].
  eapply rtc_l; [apply (step_lock _ 0 Test Swap 0); reflexivity|]. eapply rtc_l; [apply (step_lock _ 1 Test Swap 0); reflexivity|].
  eapply rtc_l; [apply (step_lock _ 0 Swap Holding 1); reflexivity|]. eapply rtc_l; [apply (step_lock _ 1 Swap Test 1); reflexivity|].
  apply rtc_refl.
Qed.

Lemma spin_lock_excludes_witness : 1 = 1 /\ (inside Test -> 0%nat = 1%nat).
Proof. apply (spin_lock_excludes 2 (mkL 1 [Holding; Test]) 0 1 Holding Test demo_run); [done|done|by left]. Defined.

Lemma spin_lock_available_witness :
  exists s1 s2, lstep (mkL 0 [Outside; Test]) s1 /\ lstep s1 s2 /\ l_lock s2 = 1 /\ l_pc s2 !! 1%nat = Some Holding.
Proof.
  apply (spin_lock_available 2 (mkL 0 [Outside; Test]) 1).
  - eapply rtc_l; [apply (step_call _ 1); reflexivity|]. apply rtc_refl.
  - intros [|[|j]] pc H; cbn in H; simplify_eq; intros [|]; done.
  - done.
Defined.
