(* ===== verification/Paging.v ===== *)
(** [src/paging.c]: the page tables of the hypervisor itself, and the proof that they map
    every address to itself. *)
From S2P Require Import Prelude.
From S2P Require Import Bitfield.
From S2P Require Import HptConsts.
From S2P Require Import Hpt.
From S2P Require Import HptLemmas.
From S2P Require Import Mem.
From S2P Require Import Hpto.
From S2P Require Import Walk.

(** ** Constants of [include/_paging.h]; [max] is [MAX_PHYS_ADDR] *)

Definition PA_PAGE_ALIGN_UP (shift x : Z) : Z :=
  Z.land (u64 (x + 2 ^ shift - 1)) (bnot 64 (2 ^ shift - 1)).
Definition ADDR_4GB : Z := 0x100000000.
Definition P4L_NPDPT (max : Z) : Z := Z.shiftr (PA_PAGE_ALIGN_UP 39 max) 39.
Definition P4L_NPDT (max : Z) : Z := Z.shiftr (PA_PAGE_ALIGN_UP 30 max) 30.
Definition P4L_NPT (max : Z) : Z := Z.shiftr (PA_PAGE_ALIGN_UP 21 max) 21.
Definition PAE_NPDPTE : Z := 4.
Definition PAE_NEPT : Z := 4096 / 8.
Definition PAE_NPDT : Z := Z.shiftr (PA_PAGE_ALIGN_UP 30 ADDR_4GB) 30.
Definition P32_NEPT : Z := 4096 / 4.
Definition P32_NPDT : Z := 1.
Definition PT_PAGE_SIZE_4K : Z := 2 ^ 12.
Definition PT_PAGE_SIZE_2M : Z := 2 ^ 21.
Definition PT_PAGE_SIZE_4M : Z := 2 ^ 22.

(** ** Code *)

(** Addresses of the arrays. *)
Record pt_syms := mkPtSyms { shv_pml4t : Z; shv_pdpt : Z; shv_pdt : Z }.

(** A loop over [n] entries of [w] bytes of a table: the first [lim] are checked, the others set;
    the address in the entry grows by [step]. *)
Fixpoint table_loop (n w : nat) (tbl lim chk set step i paddr : Z) (m : mem) : res mem :=
  match n with
  | O => Ok m
  | S n =>
      m ← (if i <? lim
           then ASSERT (Z.lor 0x60 (ld w m (tbl + Z.of_nat w * i)) =? Z.lor chk paddr) ≫= fun _ => Ok m
           else Ok (st w m (tbl + Z.of_nat w * i) (Z.lor set paddr)));
      table_loop n w tbl lim chk set step (i + 1) (u64 (paddr + step)) m
  end.

(** [amd64_max] is the configured [AMD64_MAX_ADDR]. *)
Definition shv_page_table_init (a : subarch) (amd64_max : Z) (s : pt_syms) (m : mem) : res (Z * mem) :=
  match a with
  | AMD64 =>
      m ← table_loop (Z.to_nat (P4L_NPDPT amd64_max)) 8 (shv_pml4t s) 1 0x63 0x3 PT_PAGE_SIZE_4K 0 (shv_pdpt s) m;
      m ← table_loop (Z.to_nat (P4L_NPDT amd64_max)) 8 (shv_pdpt s) 4 0x63 0x3 PT_PAGE_SIZE_4K 0 (shv_pdt s) m;
      m ← table_loop (Z.to_nat (P4L_NPT amd64_max)) 8 (shv_pdt s) 2048 0xe3 0x83 PT_PAGE_SIZE_2M 0 0 m;
      Ok (shv_pml4t s, m)
  | I386_PAE =>
      m ← table_loop (Z.to_nat PAE_NPDPTE) 8 (shv_pdpt s) 0 0 0x1 PT_PAGE_SIZE_4K 0 (shv_pdt s) m;
      m ← table_loop (Z.to_nat (PAE_NPDT * PAE_NEPT)) 8 (shv_pdt s) 0 0 0x83 PT_PAGE_SIZE_2M 0 0 m;
      Ok (shv_pdpt s, m)
  | I386 =>
      m ← table_loop (Z.to_nat (P32_NPDT * P32_NEPT)) 4 (shv_pdt s) 0 0 0x83 PT_PAGE_SIZE_4M 0 0 m;
      Ok (shv_pdt s, m)
  end.

(** ** Entries up to the accessed and dirty bits *)

Definition same_ad (e e' : Z) : Prop := Z.lor 0x60 e = Z.lor 0x60 e'.

Lemma same_ad_testbit e e' i : same_ad e e' -> 0 <= i -> i <> 5 -> i <> 6 -> Z.testbit e i = Z.testbit e' i.
Proof.
  intros H Hi H5 H6. apply (f_equal (fun z => Z.testbit z i)) in H. rewrite !Z.lor_spec in H.
  assert (Z.testbit 0x60 i = false) as E; [|by rewrite E in H].
  change 0x60 with (Z.lor (2 ^ 5) (2 ^ 6)). rewrite Z.lor_spec, !pow2_testbit by lia. bcase; done.
Qed.

(** ** What the loop leaves in memory *)

(** The entries of a table, up to the accessed and dirty bits. *)
Definition filled (w : nat) (tbl n : Z) (f : Z -> Z) (m : mem) : Prop :=
  forall i, 0 <= i < n -> same_ad (ld w m (tbl + Z.of_nat w * i)) (f i).

(** The entries the boot code must have set up, so that the assertions hold. *)
Definition boot_ok (w : nat) (tbl lim chk : Z) (f : Z -> Z) (m : mem) : Prop :=
  forall i, 0 <= i < lim -> Z.lor 0x60 (ld w m (tbl + Z.of_nat w * i)) = Z.lor chk (f i).

Lemma filled_st w tbl j f m e :
  (0 < w)%nat -> 0 <= j -> is_u (8 * Z.of_nat w) e -> e = f j -> filled w tbl j f m ->
  filled w tbl (j + 1) f (st w m (tbl + Z.of_nat w * j) e).
Proof.
  intros Hw Hj He -> Hf i Hi. destruct (decide (i = j)) as [->|Hne].
  - rewrite ld_st_gen, wrap_small by done. done.
  - rewrite ld_st_other by nia. apply Hf. lia.
Qed.

Lemma boot_ok_st w tbl lim chk f m j e :
  (0 < w)%nat -> lim <= j -> boot_ok w tbl lim chk f m -> boot_ok w tbl lim chk f (st w m (tbl + Z.of_nat w * j) e).
Proof. intros Hw Hj Hb i Hi. rewrite ld_st_other by nia. by apply Hb. Qed.

Lemma table_loop_ok n w tbl lim chk set step paddr0 m :
  (0 < w)%nat -> 0 <= lim -> chk = Z.lor 0x60 set \/ lim = 0 -> 0 <= paddr0 -> 0 <= step ->
  paddr0 + Z.of_nat n * step < 2 ^ 64 ->
  (forall i, 0 <= i < Z.of_nat n -> is_u (8 * Z.of_nat w) (Z.lor set (paddr0 + step * i))) ->
  boot_ok w tbl (Z.min lim (Z.of_nat n)) chk (fun i => paddr0 + step * i) m ->
  exists m', table_loop n w tbl lim chk set step 0 paddr0 m = Ok m' /\
    filled w tbl (Z.of_nat n) (fun i => Z.lor set (paddr0 + step * i)) m' /\
    agree (fun a => ~ in_range tbl (Z.of_nat w * Z.of_nat n) a) m m'.
Proof.
  intros Hw Hlim Hchk Hp0 Hstep Hov Hfit Hboot. set (f := fun i => Z.lor set (paddr0 + step * i)).
  assert (forall k j m1, Z.of_nat k + j = Z.of_nat n -> 0 <= j ->
    boot_ok w tbl (Z.min lim (Z.of_nat n)) chk (fun i => paddr0 + step * i) m1 -> filled w tbl j f m1 ->
    exists m', table_loop k w tbl lim chk set step j (paddr0 + step * j) m1 = Ok m' /\
      filled w tbl (Z.of_nat n) f m' /\ agree (fun a => ~ in_range tbl (Z.of_nat w * Z.of_nat n) a) m1 m') as H.
  { induction k as [|k IH]; intros j m1 Hk Hj Hb Hf.
    - exists m1. replace j with (Z.of_nat n) in Hf by lia. by split_and!.
    - cbn [table_loop].
      assert (u64 (paddr0 + step * j + step) = paddr0 + step * (j + 1)) as ->.
      { replace (paddr0 + step * j + step) with (paddr0 + step * (j + 1)) by lia. apply wrap_small. unfold is_u.
        split; [nia|]. apply Z.le_lt_trans with (paddr0 + Z.of_nat n * step); [nia|done]. }
      destruct (Z.ltb_spec j lim) as [Hjl|Hjl].
      + rewrite (Hb j) by lia. rewrite Z.eqb_refl. cbn [ASSERT mbind res_bind]. apply IH; [lia|lia|done|].
        intros i Hi. destruct (decide (i = j)) as [->|]; [|apply Hf; lia].
        unfold same_ad, f. rewrite (Hb j) by lia. destruct Hchk as [->| ->]; [|lia]. by rewrite Z.lor_assoc.
      + cbn [mbind res_bind]. set (m2 := st w m1 _ _).
        destruct (IH (j + 1) m2) as (m' & E & Hf' & Ha); [lia|lia|by apply boot_ok_st; [|lia|]| |].
        { apply filled_st; try done. apply Hfit. lia. }
        exists m'. split_and!; [done..|]. eapply agree_trans; [|done]. apply agree_st. unfold in_range. nia. }
  destruct (H n 0 m) as (m' & E & Hf & Ha); [lia|lia|done|intros i Hi; lia|].
  exists m'. rewrite Z.mul_0_r, Z.add_0_r in E. done.
Qed.

(** ** The walk through contiguous tables *)

(** Address bits below an entry of level [lvl]. *)
Definition sh (t : hpt_type_t) (lvl : Z) : Z := va_hi t (lvl - 1) + 1.

Lemma pm_idx_div t lvl va :
  lvl_ok t lvl -> 0 <= va -> pm_idx t lvl va = (va / 2 ^ sh t lvl) mod 2 ^ (sh t (lvl + 1) - sh t lvl).
Proof.
  intros Hl Hv. pose proof (va_hi_step t lvl Hl). unfold pm_idx, sh. replace (lvl + 1 - 1) with lvl by lia.
  apply Z.bits_inj'. intros i Hi. rewrite get64_testbit by lia.
  change ((va / 2 ^ (va_hi t (lvl - 1) + 1)) mod 2 ^ (va_hi t lvl + 1 - (va_hi t (lvl - 1) + 1)))
    with (wrap (va_hi t lvl + 1 - (va_hi t (lvl - 1) + 1)) (va / 2 ^ (va_hi t (lvl - 1) + 1))).
  rewrite wrap_testbit by lia. rewrite <- Z.shiftr_div_pow2, Z.shiftr_spec by lia. bcase; try done; bsimpl; done.
Qed.
Lemma entry_flat t lvl b va :
  lvl_ok t lvl -> 0 <= va ->
  entry_addr t lvl (b + pme_bytes t * 2 ^ (sh t (lvl + 1) - sh t lvl) * (va / 2 ^ sh t (lvl + 1))) va =
  b + pme_bytes t * (va / 2 ^ sh t lvl).
Proof.
  intros Hl Hv. pose proof (va_hi_step t lvl Hl) as Hs. unfold entry_addr. rewrite pm_idx_div by done.
  assert (0 <= sh t lvl <= sh t (lvl + 1)) as Hsh by (unfold sh; replace (lvl + 1 - 1) with lvl by lia; lia).
  set (d := sh t (lvl + 1) - sh t lvl).
  replace (2 ^ sh t (lvl + 1)) with (2 ^ sh t lvl * 2 ^ d) by (rewrite <- Z.pow_add_r by lia; f_equal; lia).
  rewrite <- Z.div_div by (apply Z.pow_nonzero || apply Z.pow_pos_nonneg; lia).
  pose proof (Z.div_mod (va / 2 ^ sh t lvl) (2 ^ d) ltac:(apply Z.pow_nonzero; lia)). nia.
Qed.

(** The fields of an entry made of flags and an address. *)
Lemma entry_fields t lvl e flags p :
  t = HPT_TYPE_NORM \/ t = HPT_TYPE_PAE \/ t = HPT_TYPE_LONG ->
  same_ad e (Z.lor flags p) -> is_u 8 flags -> 0 <= p < 2 ^ (addr_hi t + 1) ->
  p mod 2 ^ addr_lo t lvl ((lvl =? 1) || (has_ps t lvl && Z.testbit flags 7)) = 0 ->
  (forall i, 0 <= i < 8 -> i <> 5 -> i <> 6 -> Z.testbit e i = Z.testbit flags i) /\
  pme_present t e = Z.testbit flags 0 /\
  pme_page t lvl e = (lvl =? 1) || (has_ps t lvl && Z.testbit flags 7) /\
  pme_addr t lvl e = p.
Proof.
  intros Ht Had Hfl Hp Hal. set (pg := (lvl =? 1) || (has_ps t lvl && Z.testbit flags 7)) in *.
  assert (12 <= addr_lo t lvl pg <= addr_hi t /\ addr_hi t <= 51) as Hlo
    by (destruct Ht as [->|[->| ->]]; cbn; destruct (pg && _); lia).
  assert (forall i, 0 <= i < addr_lo t lvl pg -> Z.testbit p i = false) as Hlow.
  { intros i Hi. rewrite <- (Z.mod_pow2_bits_low p (addr_lo t lvl pg)) by lia. by rewrite Hal, Z.bits_0. }
  assert (forall i, 0 <= i < 8 -> i <> 5 -> i <> 6 -> Z.testbit e i = Z.testbit flags i) as Hbits.
  { intros i Hi H5 H6. rewrite (same_ad_testbit e (Z.lor flags p)) by (done || lia).
    rewrite Z.lor_spec, Hlow by lia. by rewrite orb_false_r. }
  assert (pme_page t lvl e = pg) as Hpg by (unfold pme_page; by rewrite Hbits by lia).
  split; [done|]. split; [|split; [done|]].
  - unfold pme_present. destruct Ht as [->|[->| ->]]; by rewrite Hbits by lia.
  - unfold pme_addr. rewrite Hpg.
    assert (is_u (addr_hi t + 1) p) as Hpu by done.
    apply (is_u_ext 64); [lia|apply ins64_range|apply (is_u_le (addr_hi t + 1)); [lia|done]|].
    intros i Hi. rewrite ins64_testbit by lia. rewrite Z.add_0_r, Z.sub_0_r, Z.bits_0.
    destruct (Z.leb_spec (addr_lo t lvl pg) i); cbn [andb].
    + destruct (Z.leb_spec i (addr_hi t + 0)).
      * rewrite (same_ad_testbit e (Z.lor flags p)) by (done || lia). rewrite Z.lor_spec.
        by rewrite (is_u_testbit_high 8 flags) by (done || lia).
      * symmetry. apply (is_u_testbit_high (addr_hi t + 1)); [done|lia].
    + symmetry. apply Hlow. lia.
Qed.

(** A table that points at the contiguous tables [b'] of the level below. *)
Definition points (t : hpt_type_t) (lvl b n flags b' : Z) (m : mem) : Prop :=
  filled (pme_nbytes t) b n (fun i => Z.lor flags (b' + 4096 * i)) m /\
  b' mod 4096 = 0 /\ 0 <= b' /\ b' + 4096 * n <= 2 ^ (addr_hi t + 1) /\
  is_u 8 flags /\ Z.testbit flags 0 = true /\ Z.testbit flags 7 = false.
(** A table of pages that map every address to itself. *)
Definition identity (t : hpt_type_t) (lvl b n flags : Z) (m : mem) : Prop :=
  filled (pme_nbytes t) b n (fun i => Z.lor flags (2 ^ sh t lvl * i)) m /\
  2 ^ sh t lvl * n <= 2 ^ (addr_hi t + 1) /\
  is_u 8 flags /\ Z.testbit flags 0 = true /\ (lvl = 1 \/ has_ps t lvl = true /\ Z.testbit flags 7 = true).

(** The table of level [lvl] on the way to [va], among contiguous tables at [b]. *)
Definition tbl_of (t : hpt_type_t) (lvl b va : Z) : Z :=
  b + pme_bytes t * 2 ^ (sh t (lvl + 1) - sh t lvl) * (va / 2 ^ sh t (lvl + 1)).

Lemma tbl_of_child t lvl b va : lvl_ok t lvl -> 1 < lvl -> tbl_of t (lvl - 1) b va = b + 4096 * (va / 2 ^ sh t lvl).
Proof.
  intros Hl H1. unfold tbl_of. replace (lvl - 1 + 1) with lvl by lia. f_equal. f_equal.
  lvl_cases t lvl Hl; try lia; by vm_compute.
Qed.

Lemma tbl_of_root t b va : 0 <= va < 2 ^ sh t (max_lvl t + 1) -> tbl_of t (max_lvl t) b va = b.
Proof. intros Hv. unfold tbl_of. rewrite Z.div_small by done. lia. Qed.

Lemma ld_flat t lvl b n f va m :
  lvl_ok t lvl -> 0 <= va -> va / 2 ^ sh t lvl < n -> filled (pme_nbytes t) b n f m ->
  same_ad (ld_pme t lvl (tbl_of t lvl b va) va m) (f (va / 2 ^ sh t lvl)).
Proof.
  intros Hl Hv Hn Hf. unfold ld_pme, tbl_of. rewrite entry_flat by done. rewrite <- pme_nbytes_bytes. apply Hf.
  split; [apply Z.div_pos; [done|apply Z.pow_pos_nonneg; [lia|]]|done].
  pose proof (va_hi_step t lvl Hl). unfold sh. lia.
Qed.

(** The entry a walk finds in such a table. *)
Lemma entry_points t lvl b n flags b' va m :
  t = HPT_TYPE_NORM \/ t = HPT_TYPE_PAE \/ t = HPT_TYPE_LONG -> lvl_ok t lvl -> 1 < lvl ->
  0 <= va -> va / 2 ^ sh t lvl < n -> points t lvl b n flags b' m ->
  let e := ld_pme t lvl (tbl_of t lvl b va) va m in
  descends t lvl e = true /\ pme_addr t lvl e = tbl_of t (lvl - 1) b' va /\
  (forall i, 0 <= i < 8 -> i <> 5 -> i <> 6 -> Z.testbit e i = Z.testbit flags i).
Proof.
  intros Ht Hl H1 Hv Hn (Hf & Hal & Hb & Hbn & Hfl & H0 & H7).
  pose proof (ld_flat t lvl b n _ va m Hl Hv Hn Hf) as Had. cbn beta in Had.
  assert (0 <= va / 2 ^ sh t lvl) as Hq.
  { apply Z.div_pos; [done|]. apply Z.pow_pos_nonneg; [lia|]. pose proof (va_hi_step t lvl Hl). unfold sh. lia. }
  destruct (entry_fields t lvl _ flags (b' + 4096 * (va / 2 ^ sh t lvl)) Ht Had Hfl) as (Hbits & Hpres & Hpg & Haddr).
  - nia.
  - rewrite H7, (proj2 (Z.eqb_neq lvl 1)), andb_false_r by lia. cbn [orb].
    replace (addr_lo t lvl false) with 12 by (destruct Ht as [->|[->| ->]]; done).
    change (2 ^ 12) with 4096. rewrite Z.mul_comm, Z.mod_add by lia. done.
  - rewrite H7, (proj2 (Z.eqb_neq lvl 1)), andb_false_r in Hpg by lia.
    cbv zeta. split_and!; [|by rewrite Haddr, <- tbl_of_child by done|done].
    unfold descends. by rewrite Hpres, Hpg, H0.
Qed.

Lemma walk_points t lvl b n flags b' va m :
  t = HPT_TYPE_NORM \/ t = HPT_TYPE_PAE \/ t = HPT_TYPE_LONG -> lvl_ok t lvl -> 1 < lvl ->
  0 <= va -> va / 2 ^ sh t lvl < n -> points t lvl b n flags b' m ->
  walk t lvl (tbl_of t lvl b va) va m = walk t (lvl - 1) (tbl_of t (lvl - 1) b' va) va m.
Proof.
  intros Ht Hl H1 Hv Hn Hp. destruct (entry_points t lvl b n flags b' va m Ht Hl H1 Hv Hn Hp) as (Hd & Ha & _).
  rewrite walk_unfold by lia. cbv zeta. by rewrite Hd, Ha.
Qed.

Lemma walk_identity t lvl b n flags va m :
  t = HPT_TYPE_NORM \/ t = HPT_TYPE_PAE \/ t = HPT_TYPE_LONG -> lvl_ok t lvl ->
  0 <= va -> va / 2 ^ sh t lvl < n -> identity t lvl b n flags m ->
  exists e, leaf_of t (walk t lvl (tbl_of t lvl b va) va m) = Some (lvl, e) /\
    pme_addr t lvl e = va - va mod 2 ^ sh t lvl /\
    (forall i, 0 <= i < 8 -> i <> 5 -> i <> 6 -> Z.testbit e i = Z.testbit flags i).
Proof.
  intros Ht Hl Hv Hn (Hf & Hmax & Hfl & H0 & H7).
  pose proof (ld_flat t lvl b n _ va m Hl Hv Hn Hf) as Had. cbn beta in Had.
  pose proof (va_hi_step t lvl Hl) as Hs.
  assert (0 < 2 ^ sh t lvl) as Hpow by (apply Z.pow_pos_nonneg; [lia|unfold sh; lia]).
  assert (0 <= va / 2 ^ sh t lvl) as Hq by (apply Z.div_pos; lia).
  assert ((lvl =? 1) || (has_ps t lvl && Z.testbit flags 7) = true) as Epg.
  { destruct H7 as [->|[-> ->]]; [done|apply orb_true_r]. }
  destruct (entry_fields t lvl _ flags (2 ^ sh t lvl * (va / 2 ^ sh t lvl)) Ht Had Hfl) as (Hb & Hpres & Hpg & Haddr).
  - nia.
  - rewrite Epg. assert (12 <= addr_lo t lvl true <= sh t lvl) as Hlo.
    { destruct Ht as [->|[->| ->]]; lvl_cases HPT_TYPE_NORM lvl Hl || lvl_cases HPT_TYPE_PAE lvl Hl || lvl_cases HPT_TYPE_LONG lvl Hl;
        vm_compute; intuition congruence. }
    replace (sh t lvl) with (addr_lo t lvl true + (sh t lvl - addr_lo t lvl true)) at 1 by lia.
    rewrite Z.pow_add_r, <- Z.mul_assoc, Z.mul_comm, Z.mod_mul by (lia || apply Z.pow_nonzero; lia). done.
  - rewrite walk_unfold by (unfold lvl_ok in Hl; lia). cbv zeta. unfold descends. rewrite Hpg, Epg, andb_false_r.
    eexists. cbn [leaf_of]. rewrite Hpres, H0. split_and!; [done| |done].
    rewrite Haddr. pose proof (Z.div_mod va (2 ^ sh t lvl) ltac:(lia)). lia.
Qed.

(** ** The page tables of each configuration *)

Definition page_type (a : subarch) : hpt_type_t :=
  match a with AMD64 => HPT_TYPE_LONG | I386_PAE => HPT_TYPE_PAE | I386 => HPT_TYPE_NORM end.
(** The end of the identity mapping. *)
Definition map_limit (a : subarch) (amd64_max : Z) : Z :=
  match a with AMD64 => 2 ^ 21 * P4L_NPT amd64_max | _ => 2 ^ 32 end.

Definition disjoint_from (a n b k : Z) : Prop := a + n <= b \/ b + k <= a.

(** Where the linker may put the arrays. *)
Definition pt_layout (a : subarch) (amd64_max : Z) (s : pt_syms) : Prop :=
  match a with
  | AMD64 =>
      ADDR_4GB <= amd64_max <= 2 ^ 48 /\ 0 <= shv_pml4t s /\
      (0 <= shv_pdpt s /\ shv_pdpt s mod 4096 = 0 /\ shv_pdpt s + 4096 * P4L_NPDPT amd64_max <= 2 ^ 47) /\
      (0 <= shv_pdt s /\ shv_pdt s mod 4096 = 0 /\ shv_pdt s + 4096 * P4L_NPDT amd64_max <= 2 ^ 47) /\
      disjoint_from (shv_pml4t s) 4096 (shv_pdpt s) (4096 * P4L_NPDPT amd64_max) /\
      disjoint_from (shv_pml4t s) 4096 (shv_pdt s) (4096 * P4L_NPDT amd64_max) /\
      disjoint_from (shv_pdpt s) (4096 * P4L_NPDPT amd64_max) (shv_pdt s) (4096 * P4L_NPDT amd64_max)
  | I386_PAE =>
      (0 <= shv_pdt s /\ shv_pdt s mod 4096 = 0 /\ shv_pdt s + 16384 <= 2 ^ 32) /\
      disjoint_from (shv_pdpt s) 32 (shv_pdt s) 16384
  | I386 => True
  end.

(** What [boot.S] has set up in the first gigabytes of the 64-bit tables. *)
Definition booted (a : subarch) (s : pt_syms) (m : mem) : Prop :=
  match a with
  | AMD64 =>
      boot_ok 8 (shv_pml4t s) 1 0x63 (fun i => shv_pdpt s + 4096 * i) m /\
      boot_ok 8 (shv_pdpt s) 4 0x63 (fun i => shv_pdt s + 4096 * i) m /\
      boot_ok 8 (shv_pdt s) 2048 0xe3 (fun i => 2 ^ 21 * i) m
  | _ => True
  end.

Lemma pages_ceil s x : 0 <= s < 63 -> 0 <= x <= 2 ^ 62 ->
  Z.shiftr (PA_PAGE_ALIGN_UP s x) s = (x + 2 ^ s - 1) / 2 ^ s.
Proof.
  intros Hs Hx. unfold PA_PAGE_ALIGN_UP. assert (2 ^ s <= 2 ^ 62) as Hp by (apply Z.pow_le_mono_r; lia).
  assert (0 < 2 ^ s) as Hp0 by (apply Z.pow_pos_nonneg; lia).
  set (y := x + 2 ^ s - 1). assert (is_u 64 y) as Hy by (unfold is_u, y; lia).
  unfold u64. rewrite wrap_small by done. rewrite <- Z.shiftr_div_pow2 by lia.
  replace (2 ^ s - 1) with (Z.ones s) by (rewrite Z.ones_equiv; lia).
  apply Z.bits_inj'. intros i Hi. rewrite !Z.shiftr_spec, Z.land_spec, bnot_testbit, ones_testbit by lia.
  destruct (Z.ltb_spec (i + s) 64); [|by rewrite (is_u_testbit_high 64 y) by (done || lia)].
  rewrite (proj2 (Z.ltb_ge (i + s) s)) by lia. cbn. apply andb_true_r.
Qed.

Lemma ceil_bounds s x n : 0 < 2 ^ s -> n = (x + 2 ^ s - 1) / 2 ^ s -> 2 ^ s * n - 2 ^ s < x <= 2 ^ s * n.
Proof.
  intros Hp ->. pose proof (Z.div_mod (x + 2 ^ s - 1) (2 ^ s) ltac:(lia)).
  pose proof (Z.mod_pos_bound (x + 2 ^ s - 1) (2 ^ s) ltac:(lia)). lia.
Qed.

Lemma P4L_bounds x : ADDR_4GB <= x <= 2 ^ 48 ->
  (2 ^ 39 * P4L_NPDPT x - 2 ^ 39 < x <= 2 ^ 39 * P4L_NPDPT x) /\
  (2 ^ 30 * P4L_NPDT x - 2 ^ 30 < x <= 2 ^ 30 * P4L_NPDT x) /\
  (2 ^ 21 * P4L_NPT x - 2 ^ 21 < x <= 2 ^ 21 * P4L_NPT x).
Proof.
  intros H. unfold ADDR_4GB in H. split_and!; (apply ceil_bounds; [done|]; apply pages_ceil; lia).
Qed.

Lemma boot_ok_agree w tbl lim chk f m m' (P : Z -> Prop) :
  agree P m m' -> (forall a, in_range tbl (Z.of_nat w * lim) a -> P a) -> boot_ok w tbl lim chk f m -> boot_ok w tbl lim chk f m'.
Proof.
  intros Ha Hp Hb i Hi. rewrite (ld_agree P w m m') by (done || (intros; apply Hp; unfold in_range in *; nia)). by apply Hb.
Qed.
Lemma filled_agree w tbl n f m m' (P : Z -> Prop) :
  agree P m m' -> (forall a, in_range tbl (Z.of_nat w * n) a -> P a) -> filled w tbl n f m -> filled w tbl n f m'.
Proof.
  intros Ha Hp Hb i Hi. rewrite (ld_agree P w m m') by (done || (intros; apply Hp; unfold in_range in *; nia)). by apply Hb.
Qed.

(** An entry made of small flags and an address below 2^52 fits. *)
Lemma entry_fits w flags p : 52 <= 8 * Z.of_nat w -> is_u 8 flags -> 0 <= p < 2 ^ 52 -> is_u (8 * Z.of_nat w) (Z.lor flags p).
Proof.
  intros Hw [Hf0 Hf] [Hp0 Hp]. apply (is_u_le 52); [lia|].
  apply is_u_of_testbit; [lia|by apply Z.lor_nonneg|]. intros i Hi.
  rewrite Z.lor_spec, (is_u_testbit_high 8 flags), (is_u_testbit_high 52 p) by (unfold is_u; lia). done.
Qed.

(** Every address below the limit is mapped to itself by a page that only the supervisor can write. *)
Definition maps_identity (t : hpt_type_t) (root limit : Z) (m : mem) : Prop :=
  forall va, 0 <= va < limit -> exists lvl e,
    mapping t root va m = Some (lvl, e) /\ pme_addr t lvl e = va - va mod 2 ^ sh t lvl /\
    Z.testbit e 1 = true /\ Z.testbit e 2 = false.

(** The entries [shv_page_table_init] goes through. *)
Definition pt_bytes (a : subarch) (amd64_max : Z) (s : pt_syms) (b : Z) : Prop :=
  match a with
  | AMD64 => in_range (shv_pml4t s) (8 * P4L_NPDPT amd64_max) b \/ in_range (shv_pdpt s) (8 * P4L_NPDT amd64_max) b \/
             in_range (shv_pdt s) (8 * P4L_NPT amd64_max) b
  | I386_PAE => in_range (shv_pdpt s) (8 * PAE_NPDPTE) b \/ in_range (shv_pdt s) (8 * (PAE_NPDT * PAE_NEPT)) b
  | I386 => in_range (shv_pdt s) (4 * (P32_NPDT * P32_NEPT)) b
  end.
(** It succeeds, changes only those, and what it leaves maps every address to itself as long as they stay. *)
Definition init_identity (a : subarch) (amd64_max : Z) (s : pt_syms) (t : hpt_type_t) (root limit : Z) (m : mem) : Prop :=
  exists m', shv_page_table_init a amd64_max s m = Ok (root, m') /\
    agree (fun b => ~ pt_bytes a amd64_max s b) m m' /\
    forall mx, agree (pt_bytes a amd64_max s) m' mx -> maps_identity t root limit mx.

Lemma identity_leaf t lvl b n flags root limit m :
  t = HPT_TYPE_NORM \/ t = HPT_TYPE_PAE \/ t = HPT_TYPE_LONG -> lvl_ok t lvl ->
  identity t lvl b n flags m -> Z.testbit flags 1 = true -> Z.testbit flags 2 = false ->
  (forall va, 0 <= va < limit -> va / 2 ^ sh t lvl < n /\
     walk t (max_lvl t) root va m = walk t lvl (tbl_of t lvl b va) va m) ->
  maps_identity t root limit m.
Proof.
  intros Ht Hl Hid H1 H2 Hw va Hva. destruct (Hw va Hva) as [Hn Ew].
  destruct (walk_identity t lvl b n flags va m Ht Hl ltac:(lia) Hn Hid) as (e & Hleaf & Haddr & Hb).
  exists lvl, e. unfold mapping. rewrite Ew, Hleaf, !Hb by lia. done.
Qed.

Lemma init_norm amd64_max s m :
  init_identity I386 amd64_max s HPT_TYPE_NORM (shv_pdt s) (2 ^ 32) m.
Proof.
  unfold init_identity, shv_page_table_init, pt_bytes. assert (P32_NPDT * P32_NEPT = 1024) as En by done.
  generalize dependent (P32_NPDT * P32_NEPT). intros n En.
  destruct (table_loop_ok (Z.to_nat n) 4 (shv_pdt s) 0 0 0x83 PT_PAGE_SIZE_4M 0 m) as (m' & -> & Hf & Ha);
    [lia|lia|by right|lia|done|unfold PT_PAGE_SIZE_4M; lia| |intros i Hi; lia|].
  { intros i Hi. rewrite Z2Nat.id in Hi by lia. unfold PT_PAGE_SIZE_4M.
    apply is_u_of_testbit; [lia|apply Z.lor_nonneg; lia|]. intros j Hj.
    rewrite Z.lor_spec, (is_u_testbit_high 8 0x83), (is_u_testbit_high 32 (0 + 2 ^ 22 * i)) by (unfold is_u; lia). done. }
  rewrite Z2Nat.id in * by lia. eexists. split; [done|]. split; [exact Ha|]. intros mx Hx.
  assert (filled 4 (shv_pdt s) n (fun i => Z.lor 0x83 (0 + PT_PAGE_SIZE_4M * i)) mx) as Hfx by (eapply filled_agree; [exact Hx|done|exact Hf]).
  clear Hf Ha Hx. subst n.
  apply (identity_leaf _ 2 (shv_pdt s) 1024 0x83); [by left|unfold lvl_ok; cbn; lia| |done|done|].
  - split_and!; try done. by right.
  - intros va Hva. change (2 ^ sh HPT_TYPE_NORM 2) with (2 ^ 22). split; [apply Z.div_lt_upper_bound; lia|].
    rewrite (tbl_of_root HPT_TYPE_NORM) by done. done.
Qed.

Lemma init_pae amd64_max s m :
  pt_layout I386_PAE amd64_max s ->
  init_identity I386_PAE amd64_max s HPT_TYPE_PAE (shv_pdpt s) (2 ^ 32) m.
Proof.
  intros ((Hp0 & Hal & Hp1) & Hdisj). unfold init_identity, shv_page_table_init, pt_bytes.
  assert (PAE_NPDPTE = 4) as E1 by done. assert (PAE_NPDT * PAE_NEPT = 2048) as E2 by done.
  generalize dependent (PAE_NPDT * PAE_NEPT). intros n2 E2. generalize dependent PAE_NPDPTE. intros n1 E1.
  destruct (table_loop_ok (Z.to_nat n1) 8 (shv_pdpt s) 0 0 1 PT_PAGE_SIZE_4K (shv_pdt s) m) as (m1 & -> & Hf1 & Ha1);
    [lia|lia|by right|lia|unfold PT_PAGE_SIZE_4K; lia| | |intros i Hi; lia|].
  { rewrite Z2Nat.id by lia. unfold PT_PAGE_SIZE_4K. lia. }
  { intros i Hi. rewrite Z2Nat.id in Hi by lia. unfold PT_PAGE_SIZE_4K. apply entry_fits; [lia|done|lia]. }
  cbn [mbind res_bind].
  destruct (table_loop_ok (Z.to_nat n2) 8 (shv_pdt s) 0 0 0x83 PT_PAGE_SIZE_2M 0 m1) as (m2 & -> & Hf2 & Ha2);
    [lia|lia|by right|lia|unfold PT_PAGE_SIZE_2M; lia|unfold PT_PAGE_SIZE_2M; lia| |intros i Hi; lia|].
  { intros i Hi. rewrite Z2Nat.id in Hi by lia. unfold PT_PAGE_SIZE_2M.
    apply entry_fits; [lia|done|lia]. }
  rewrite Z2Nat.id in * by lia. eexists. split; [done|]. split.
  { eapply agree_trans; (eapply agree_weaken; [|done]); cbn; tauto. }
  intros mx Hx.
  assert (filled 8 (shv_pdpt s) n1 (fun i => Z.lor 1 (shv_pdt s + PT_PAGE_SIZE_4K * i)) mx) as Hf1'.
  { eapply filled_agree; [exact Hx|by left|]. eapply filled_agree; [exact Ha2| |exact Hf1]. unfold in_range, disjoint_from in *. cbn. lia. }
  assert (filled 8 (shv_pdt s) n2 (fun i => Z.lor 0x83 (0 + PT_PAGE_SIZE_2M * i)) mx) as Hf2' by (eapply filled_agree; [exact Hx|by right|exact Hf2]).
  clear Hf1 Hf2 Ha1 Ha2 Hx. subst n1 n2.
  apply (identity_leaf _ 2 (shv_pdt s) 2048 0x83); [by right; left|unfold lvl_ok; cbn; lia| |done|done|].
  - split_and!; try done. by right.
  - intros va Hva. change (2 ^ sh HPT_TYPE_PAE 2) with (2 ^ 21). split; [apply Z.div_lt_upper_bound; lia|].
    rewrite <- (tbl_of_root HPT_TYPE_PAE (shv_pdpt s) va) at 1 by done.
    change (max_lvl HPT_TYPE_PAE) with 3.
    apply (walk_points HPT_TYPE_PAE 3 (shv_pdpt s) 4 1); [by right; left|unfold lvl_ok; cbn; lia|lia|lia| |].
    + change (2 ^ sh HPT_TYPE_PAE 3) with (2 ^ 30). apply Z.div_lt_upper_bound; lia.
    + split_and!; try done. change (2 ^ (addr_hi HPT_TYPE_PAE + 1)) with (2 ^ 52). lia.
Qed.

Lemma init_long amd64_max s m :
  pt_layout AMD64 amd64_max s -> booted AMD64 s m ->
  init_identity AMD64 amd64_max s HPT_TYPE_LONG (shv_pml4t s) (map_limit AMD64 amd64_max) m.
Proof.
  intros (Hmax & H4 & (H30 & H3al & H3) & (H20 & H2al & H2) & D43 & D42 & D32) (B4 & B3 & B2).
  destruct (P4L_bounds amd64_max Hmax) as (N3 & N2 & N1). unfold ADDR_4GB in Hmax. unfold map_limit.
  unfold init_identity, shv_page_table_init, pt_bytes. unfold disjoint_from in *.
  set (n3 := P4L_NPDPT amd64_max) in *. set (n2 := P4L_NPDT amd64_max) in *. set (n1 := P4L_NPT amd64_max) in *.
  assert (1 <= n3 <= 512 /\ 4 <= n2 <= 512 * n3 /\ 2048 <= n1 <= 512 * n2) as Hn by lia.
  unfold PT_PAGE_SIZE_4K, PT_PAGE_SIZE_2M.
  destruct (table_loop_ok (Z.to_nat n3) 8 (shv_pml4t s) 1 0x63 0x3 (2 ^ 12) (shv_pdpt s) m) as (m1 & -> & F4 & A4);
    [lia|lia|by left|lia|lia|lia|intros; apply entry_fits; [lia|done|lia]|by replace (Z.min 1 _) with 1 by lia|].
  cbn [mbind res_bind]. rewrite Z2Nat.id in * by lia.
  destruct (table_loop_ok (Z.to_nat n2) 8 (shv_pdpt s) 4 0x63 0x3 (2 ^ 12) (shv_pdt s) m1) as (m2 & -> & F3 & A3);
    [lia|lia|by left|lia|lia|lia|intros; apply entry_fits; [lia|done|lia]| |].
  { replace (Z.min 4 _) with 4 by lia. eapply boot_ok_agree; [exact A4| |exact B3]. unfold in_range. lia. }
  cbn [mbind res_bind]. rewrite Z2Nat.id in * by lia.
  destruct (table_loop_ok (Z.to_nat n1) 8 (shv_pdt s) 2048 0xe3 0x83 (2 ^ 21) 0 m2) as (m3 & -> & F2 & A2);
    [lia|lia|by left|lia|lia|lia|intros; apply entry_fits; [lia|done|lia]| |].
  { replace (Z.min 2048 _) with 2048 by lia. eapply boot_ok_agree; [exact A3|unfold in_range; lia|].
    eapply boot_ok_agree; [exact A4|unfold in_range; lia|exact B2]. }
  cbn [mbind res_bind]. rewrite Z2Nat.id in * by lia. eexists. split; [done|]. split.
  { eapply agree_trans; [eapply agree_trans|]; (eapply agree_weaken; [|done]); cbn; tauto. }
  intros mx Hx.
  assert (points HPT_TYPE_LONG 4 (shv_pml4t s) n3 0x3 (shv_pdpt s) mx) as P4.
  { split_and!; try done; [|change (2 ^ (addr_hi HPT_TYPE_LONG + 1)) with (2 ^ 52); lia]. eapply filled_agree; [exact Hx|by left|].
    eapply filled_agree; [exact A2|unfold in_range; cbn; lia|]. eapply filled_agree; [exact A3|unfold in_range; cbn; lia|exact F4]. }
  assert (points HPT_TYPE_LONG 3 (shv_pdpt s) n2 0x3 (shv_pdt s) mx) as P3.
  { split_and!; try done; [|change (2 ^ (addr_hi HPT_TYPE_LONG + 1)) with (2 ^ 52); lia]. eapply filled_agree; [exact Hx|by right; left|].
    eapply filled_agree; [exact A2|unfold in_range; cbn; lia|exact F3]. }
  assert (filled 8 (shv_pdt s) n1 (fun i => Z.lor 0x83 (0 + 2 ^ 21 * i)) mx) as F2x by (eapply filled_agree; [exact Hx|by right; right|exact F2]).
  clear F2 F3 F4 A2 A3 A4 Hx.
  apply (identity_leaf _ 2 (shv_pdt s) n1 0x83); [by right; right|unfold lvl_ok; cbn; lia| |done|done|].
  - split_and!; try done; [|by right]. change (2 ^ (addr_hi HPT_TYPE_LONG + 1)) with (2 ^ 52).
    change (2 ^ sh HPT_TYPE_LONG 2) with (2 ^ 21). lia.
  - intros va Hva. change (2 ^ sh HPT_TYPE_LONG 2) with (2 ^ 21). split; [apply Z.div_lt_upper_bound; lia|].
    rewrite <- (tbl_of_root HPT_TYPE_LONG (shv_pml4t s) va) at 1 by (change (2 ^ sh HPT_TYPE_LONG (max_lvl HPT_TYPE_LONG + 1)) with (2 ^ 48); lia).
    change (max_lvl HPT_TYPE_LONG) with 4.
    rewrite (walk_points HPT_TYPE_LONG 4 (shv_pml4t s) n3 0x3 (shv_pdpt s));
      [|by right; right|unfold lvl_ok; cbn; lia|lia|lia| |done].
    2: { change (2 ^ sh HPT_TYPE_LONG 4) with (2 ^ 39). apply Z.div_lt_upper_bound; lia. }
    apply (walk_points HPT_TYPE_LONG 3 (shv_pdpt s) n2 0x3); [by right; right|unfold lvl_ok; cbn; lia|lia|lia| |done].
    change (2 ^ sh HPT_TYPE_LONG 3) with (2 ^ 30). apply Z.div_lt_upper_bound; lia.
Qed.

Lemma shv_page_table_init_ok a amd64_max s m : pt_layout a amd64_max s -> booted a s m ->
  exists root, init_identity a amd64_max s (page_type a) root (map_limit a amd64_max) m.
Proof.
  intros Hl Hb. destruct a; eexists; [apply init_norm|by apply init_pae|by apply init_long].
Qed.

(** C19: [shv_page_table_init] succeeds when the boot code has set up the first four
    gigabytes as it must, and the tables it leaves map every address below the limit
    of the configuration to itself, writable and not accessible to user mode: four
    gigabytes for 32-bit and PAE paging, the configured maximum for 64-bit paging. *)
Theorem shv_page_table_identity a amd64_max s m :
  pt_layout a amd64_max s -> booted a s m ->
  exists root m', shv_page_table_init a amd64_max s m = Ok (root, m') /\
    maps_identity (page_type a) root (map_limit a amd64_max) m'.
Proof.
  intros Hl Hb. destruct (shv_page_table_init_ok a amd64_max s m Hl Hb) as (root & m' & E & _ & H). exists root, m'. split; [done|by apply H].
Qed.

(** ** Witness: 64-bit paging with the memory the boot code leaves *)

Definition boot_check (w : nat) (tbl lim chk : Z) (f : Z -> Z) (m : mem) : bool :=
  forallb (fun i => Z.lor 0x60 (ld w m (tbl + Z.of_nat w * i)) =? Z.lor chk (f i)) (seqZ 0 lim).

Lemma boot_check_ok w tbl lim chk f m : boot_check w tbl lim chk f m = true -> boot_ok w tbl lim chk f m.
Proof.
  intros H i Hi. unfold boot_check in H. rewrite forallb_forall in H. apply Z.eqb_eq, H.
  apply list_elem_of_In, elem_of_seqZ. lia.
Qed.

Definition demo_syms : pt_syms := mkPtSyms 0x1000 0x2000 0x3000.
Definition demo_boot : mem :=
  match (m ← table_loop 1 8 0x1000 0 0 0x3 4096 0 0x2000 ∅; m ← table_loop 4 8 0x2000 0 0 0x23 4096 0 0x3000 m;
         table_loop 2048 8 0x3000 0 0 0x83 (2 ^ 21) 0 0 m) with
  | Ok m => m | Err _ => ∅ end.

Lemma shv_page_table_identity_witness :
  exists root m', shv_page_table_init AMD64 (2 ^ 33) demo_syms demo_boot = Ok (root, m') /\
    maps_identity HPT_TYPE_LONG root (2 ^ 33) m'.
Proof.
  apply (shv_page_table_identity AMD64 (2 ^ 33) demo_syms demo_boot).
  - vm_compute. intuition congruence.
  - split_and!; apply boot_check_ok; by vm_compute.
Defined.
