(* ===== verification/Io.v ===== *)
(** Code that talks to devices: a state monad over memory and a trace of the accesses
    that leave the CPU.  What a device answers is a parameter, a function of the trace. *)
From S2P Require Import Prelude.
From S2P Require Import Mem.
From S2P Require Import CString.
From S2P Require Import Stdio.

(** The VMX instructions that are not accesses to the current VMCS, and the system registers. *)
Inductive vmxop := Vmxon | Vmxoff | Vmclear | Vmptrld | Vmptrst | Invvpid | Invept | Vmlaunch | Vmresume.
#[global] Instance vmxop_eq_dec : EqDecision vmxop.
Proof. solve_decision. Defined.
Inductive sysreg := RCR0 | RCR3 | RCR4 | RCS | RDS | RES | RFS | RGS | RSS | RTR.
#[global] Instance sysreg_eq_dec : EqDecision sysreg.
Proof. solve_decision. Defined.

(** Port input and output, 32-bit memory-mapped input and output, model-specific registers (a read or write
    that faults has no value, resp. the flag [false]), a character given to [emhfc_putchar], the console lock,
    the interrupt flag and [hlt], the VMCS, the other VMX instructions with whether they succeed, [cpuid] and the system
    registers, and a VM exit with the linear address of the access that caused it, if one did. *)
Inductive ioev :=
| EIn (port value : Z) | EOut (port value : Z)
| ERead (addr value : Z) | EWrite (addr value : Z)
| ERdmsr (msr value : Z) | ERdmsrFault (msr : Z) | EWrmsr (msr value : Z) (ok : bool)
| EPut (c : Z) | ELock | EUnlock | EStiHltCli | ECli | ESti | EHlt
| EVmread (encoding : Z) (value : option Z) | EVmwrite (encoding value : Z) (ok : bool)
| EVmx (op : vmxop) (args : list Z) (ok : bool)
| ECpuid (eax ecx : Z) (result : Z * Z * Z * Z)
| EGetReg (r : sysreg) (value : Z) | ESetReg (r : sysreg) (value : Z)
| EExit (reason addr : Z).
#[global] Instance ioev_eq_dec : EqDecision ioev.
Proof. solve_decision. Defined.

(** Memory and the trace, latest event first. *)
Record world := mkW { w_mem : mem; w_tr : list ioev }.

(** The answers of the machine. *)
Class Device := {
  dev_in : list ioev -> Z -> Z;
  dev_read : list ioev -> Z -> Z;
  dev_rdmsr : list ioev -> Z -> Z
}.

Definition IO (A : Type) : Type := world -> res (A * world).
#[global] Instance IO_ret : MRet IO := fun _ a w => Ok (a, w).
#[global] Instance IO_bind : MBind IO := fun _ _ f m w =>
  match m w with Ok (a, w) => f a w | Err e => Err e end.

Definition lift {A} (r : res A) : IO A := fun w => match r with Ok a => Ok (a, w) | Err e => Err e end.
Definition ASSERT_io (b : bool) : IO unit := lift (ASSERT b).
Definition emit (e : ioev) : IO unit := fun w => Ok (tt, mkW (w_mem w) (e :: w_tr w)).
Definition outb (port val : Z) : IO unit := emit (EOut port (u8 val)).

Section device.
Context {D : Device}.

Definition inb (port : Z) : IO Z := fun w =>
  let v := u8 (dev_in (w_tr w) port) in Ok (v, mkW (w_mem w) (EIn port v :: w_tr w)).
Definition read32 (addr : Z) : IO Z := fun w =>
  let v := u32 (dev_read (w_tr w) addr) in Ok (v, mkW (w_mem w) (ERead addr v :: w_tr w)).
Definition rdmsr64 (msr : Z) : IO Z := fun w =>
  let v := u64 (dev_rdmsr (w_tr w) msr) in Ok (v, mkW (w_mem w) (ERdmsr msr v :: w_tr w)).

(** A loop that reads a port until the value passes. *)
Fixpoint wait_in (fuel : nat) (port : Z) (ok : Z -> bool) : IO unit :=
  match fuel with
  | O => lift (Err NoFuel)
  | S fuel => v ← inb port; if ok v then mret tt else wait_in fuel port ok
  end.
(** The same for a memory-mapped register. *)
Fixpoint wait_read (fuel : nat) (addr : Z) (ok : Z -> bool) : IO unit :=
  match fuel with
  | O => lift (Err NoFuel)
  | S fuel => v ← read32 addr; if ok v then mret tt else wait_read fuel addr ok
  end.
End device.
Definition write32 (addr val : Z) : IO unit := emit (EWrite addr (u32 val)).

(** [printf], [puts] and [vprintf] of [src/libc_stdio.c]: the output function is
    [emhfc_putchar], and the line lock is held around the output. *)
Definition put_io (e : Stdio.event) : IO unit := fun w =>
  match e with
  | Put c => Ok (tt, mkW (w_mem w) (EPut (u8 c) :: w_tr w))
  | Store p n v => Ok (tt, mkW (st (Z.to_nat (n / 8)) (w_mem w) p v) (w_tr w))
  end.
Fixpoint puts_io (l : list Stdio.event) : IO unit :=
  match l with [] => mret tt | e :: l => put_io e ≫= fun _ => puts_io l end.
Definition vprintf (a : subarch) (fmt : cstr) (ap : list varg) : IO Z :=
  emit ELock ≫= fun _ =>
  k ← lift (kvprintf a (Some fmt) 10 ap);
  puts_io (k_ev k) ≫= fun _ =>
  emit EUnlock ≫= fun _ =>
  mret (retval k).
Definition printf := vprintf.
Definition puts (a : subarch) (s : cstr) : IO Z := printf a [37; 115; 10] [VStr (Some s)].

(** ** Lemmas *)

Lemma IO_bind_Ok {A B} (m : IO A) (f : A -> IO B) w r :
  (m ≫= f) w = Ok r -> exists a w1, m w = Ok (a, w1) /\ f a w1 = Ok r.
Proof. unfold mbind, IO_bind. destruct (m w) as [[a w1]|]; [eauto|done]. Qed.

Lemma bind_run {A B} (m : IO A) (f : A -> IO B) w a w1 : m w = Ok (a, w1) -> (m ≫= f) w = f a w1.
Proof. intros E. unfold mbind, IO_bind. by rewrite E. Qed.

(** Total correctness: the computation ends without an error, in a result and a world of which [Q] holds. *)
Definition wp {A} (m : IO A) (Q : A -> world -> Prop) (w : world) : Prop :=
  match m w with Ok (x, w') => Q x w' | Err _ => False end.

Lemma wp_ret {A} (x : A) Q w : Q x w -> wp (mret x) Q w.
Proof. done. Qed.
Lemma wp_bind {A B} (m : IO A) (f : A -> IO B) Q w : wp m (fun x w' => wp (f x) Q w') w -> wp (m ≫= f) Q w.
Proof. unfold wp, mbind, IO_bind. by destruct (m w) as [[x w']|]. Qed.
Lemma wp_mono {A} (m : IO A) (Q R : A -> world -> Prop) w : (forall x w', Q x w' -> R x w') -> wp m Q w -> wp m R w.
Proof. unfold wp. intros H. destruct (m w) as [[x w']|]; [apply H|done]. Qed.
Lemma wp_use {A} (m : IO A) (Q R : A -> world -> Prop) w : wp m Q w -> (forall x w', Q x w' -> R x w') -> wp m R w.
Proof. intros H HR. by apply (wp_mono _ Q). Qed.
Lemma wp_assert b (Q : unit -> world -> Prop) w : b = true -> Q tt w -> wp (ASSERT_io b) Q w.
Proof. by intros ->. Qed.
Lemma wp_intro {A} (m : IO A) Q w x w' : m w = Ok (x, w') -> Q x w' -> wp m Q w.
Proof. unfold wp. by intros ->. Qed.
Lemma wp_elim {A} (m : IO A) (Q : A -> world -> Prop) w : wp m Q w -> exists x w', m w = Ok (x, w') /\ Q x w'.
Proof. unfold wp. destruct (m w) as [[x w']|]; [eauto|done]. Qed.

Section device_lemmas.
Context {D : Device}.

(** When a wait returns, the port was read some times with values that do not pass and then with one that does. *)
Lemma wait_in_trace fuel port ok w r :
  wait_in fuel port ok w = Ok r ->
  exists vs v, ok v = true /\ Forall (fun x => ok x = false) vs /\
    r = (tt, mkW (w_mem w) (EIn port v :: map (EIn port) vs ++ w_tr w)).
Proof.
  revert w. induction fuel as [|fuel IH]; intros w H; [done|]. cbn [wait_in] in H.
  apply IO_bind_Ok in H as (v & w1 & E & H). unfold inb in E. injection E as <- <-.
  set (v := u8 (dev_in (w_tr w) port)) in *. destruct (ok v) eqn:Ev.
  - exists [], v. injection H as <-. done.
  - destruct (IH _ H) as (vs & x & Hx & Hvs & ->). exists (vs ++ [v]), x. split; [done|]. split.
    + apply Forall_app. by split; [|apply Forall_singleton].
    + cbn. rewrite map_app, <- app_assoc. done.
Qed.

(** A wait returns when the device passes at some poll before the fuel is used up. *)
Lemma wait_in_ready fuel port ok w :
  (exists k, (k < fuel)%nat /\ forall tr, length tr = (length (w_tr w) + k)%nat -> ok (u8 (dev_in tr port)) = true) ->
  exists r, wait_in fuel port ok w = Ok r.
Proof.
  revert w. induction fuel as [|fuel IH]; intros w (k & Hk & Hready); [lia|]. cbn [wait_in].
  erewrite bind_run by done. destruct (ok _) eqn:Ev; [eauto|].
  apply IH. destruct k as [|k].
  - rewrite Hready in Ev by lia. done.
  - exists k. split; [lia|]. intros tr Htr. apply Hready. cbn in Htr. lia.
Qed.
End device_lemmas.
