(* ===== verification/Smp.v ===== *)
(** [src/smp.c] and [get_vcpu] of [src/idt.c]: the processors ACPI lists, the table that
    maps a LAPIC id to its virtual CPU, and the start of the other processors. *)
From S2P Require Import Prelude.
From S2P Require Import Mem.
From S2P Require Import LibcString.
From S2P Require Import Cmdline.
From S2P Require Import Io.

(** ** Data *)

Definition ACPI_RSDP_SIGNATURE : Z := 0x2052545020445352.
Definition ACPI_MADT_SIGNATURE : Z := 0x43495041.
Definition MAX_PCPU_ENTRIES : Z := 10.
Definition SIZEOF_ACPI_RSDT : Z := 36.
Definition SIZEOF_ACPI_MADT : Z := 44.

(** Fields of the packed ACPI structures at an address. *)
Definition rsdp_signature (m : mem) (p : Z) : Z := ld64 m p.
Definition rsdp_rsdtaddress (m : mem) (p : Z) : Z := ld32 m (p + 16).
Definition rsdt_length (m : mem) (p : Z) : Z := ld32 m (p + 4).
Definition madt_signature (m : mem) (p : Z) : Z := ld32 m p.
Definition madt_length (m : mem) (p : Z) : Z := ld32 m (p + 4).
Definition madt_lapicaddress (m : mem) (p : Z) : Z := ld32 m (p + 36).
Definition apic_type (m : mem) (p : Z) : Z := rd8 m p.
Definition apic_length (m : mem) (p : Z) : Z := rd8 m (p + 1).
Definition apic_lapicid (m : mem) (p : Z) : Z := rd8 m (p + 3).
Definition apic_flags (m : mem) (p : Z) : Z := ld32 m (p + 4).

Record PCPU := mkPcpu { lapic_id : Z; lapic_ver : Z; lapic_base : Z; pcpu_isbsp : Z }.
Record MIDTAB := mkMid { cpu_lapic_id : Z; vcpu_vaddr_ptr : Z }.
(** The fields of [VCPU] that [smp_init] sets. *)
Record VCPU := mkVcpu { sp : Z; id : Z; vidx : Z; isbsp : bool }.

(** ** Finding the tables *)

Fixpoint checksum_loop (size : nat) (p : Z) (checksum : Z) (m : mem) : Z :=
  match size with
  | O => checksum
  | S size => checksum_loop size (p + 1) (swrap 8 (checksum + swrap 8 (rd8 m p))) m
  end.
Definition _ACPIGetRSDPComputeChecksum (spaddr : Z) (size : nat) (m : mem) : Z :=
  u32 (checksum_loop size spaddr 0 m).

(** The two search loops: [n] candidates, 16 bytes apart. *)
Fixpoint search_rsdp (n : nat) (rsdp : Z) (m : mem) : res (option Z) :=
  match n with
  | O => Ok None
  | S n =>
      if rsdp_signature m rsdp =? ACPI_RSDP_SIGNATURE then
        ASSERT (rsdp =? u32 rsdp) ≫= fun _ =>
        if _ACPIGetRSDPComputeChecksum rsdp 20 m =? 0 then Ok (Some rsdp) else search_rsdp n (rsdp + 16) m
      else search_rsdp n (rsdp + 16) m
  end.
(** [for (i = lo; i < hi; i += 16)] makes this many rounds. *)
Definition rounds (lo hi : Z) : nat := Z.to_nat ((hi - lo + 15) / 16).
Definition ACPIGetRSDP (m : mem) : res (option Z) :=
  let ebdaseg := ld16 m 0x40E in
  let ebdaphys := u32 (ebdaseg * 16) in
  r ← search_rsdp (rounds 0 (1024 - 8)) ebdaphys m;
  match r with
  | Some rsdp => Ok (Some rsdp)
  | None => search_rsdp (rounds 0xE0000 (0xFFFFF - 8)) 0xE0000 m
  end.

(** The loop over the entries of the RSDT: [n] entries left, the first at [list]. *)
Fixpoint find_madt (n : nat) (list : Z) (m : mem) : option Z :=
  match n with
  | O => None
  | S n =>
      let madt := ld32 m list in
      if madt_signature m madt =? ACPI_MADT_SIGNATURE then Some madt else find_madt n (list + 4) m
  end.

(** The [do] loop over the records of the MADT; [pcpus] are the entries of the array filled so far. *)
Fixpoint madt_loop (fuel : nat) (madt recordlength offset : Z) (pcpus : list PCPU) (m : mem) : res (list PCPU) :=
  match fuel with
  | O => Err NoFuel
  | S fuel =>
      let apicrecord := madt + SIZEOF_ACPI_MADT + offset in
      pcpus ←
        (if (apic_type m apicrecord =? 0) && truth (Z.land (apic_flags m apicrecord) 1) then
           ASSERT (Z.of_nat (length pcpus) <? MAX_PCPU_ENTRIES) ≫= fun _ =>
           Ok (pcpus ++ [mkPcpu (apic_lapicid m apicrecord) 0 (madt_lapicaddress m madt)
                           (if Z.of_nat (length pcpus) =? 0 then 1 else 0)])
         else Ok pcpus);
      let offset := u32 (offset + apic_length m apicrecord) in
      if offset <? recordlength then madt_loop fuel madt recordlength offset pcpus m else Ok pcpus
  end.

(** The array filled, of [num_pcpus] entries.  [uefi_rsdp] is [None] for a null pointer; a failed search halts. *)
Definition smp_getinfo (a : subarch) (fuel : nat) (uefi_rsdp : option Z) (m : mem) : res (list PCPU) :=
  rsdp ← (match uefi_rsdp with
          | None => ACPIGetRSDP m
          | Some rsdp => ASSERT (_ACPIGetRSDPComputeChecksum rsdp 20 m =? 0) ≫= fun _ => Ok (Some rsdp)
          end);
  match rsdp with
  | None => Err Halt
  | Some rsdp =>
      let rsdt := rsdp_rsdtaddress m rsdp in
      let n_rsdt_entries := u32 (wrap (ptr_bits a) (rsdt_length m rsdt - SIZEOF_ACPI_RSDT) / 4) in
      match find_madt (Z.to_nat n_rsdt_entries) (rsdt + SIZEOF_ACPI_RSDT) m with
      | None => Err Halt
      | Some madt =>
          let madtrecordlength := u32 (madt_length m madt - SIZEOF_ACPI_MADT) in
          pcpus ← madt_loop fuel madt madtrecordlength 0 [] m;
          match pcpus with [] => Err Halt | _ => Ok pcpus end
      end
  end.

(** ** The CPU tables *)

(** Addresses and sizes of [g_vcpus] and [g_cpu_stack]. *)
Record smp_syms := mkSmpSyms { g_vcpus_at : Z; SIZEOF_VCPU : Z; g_cpu_stack_at : Z }.
Definition SHV_STACK_SIZE : Z := 65536.

(** The body of the loop of [smp_init], for entry [i]. *)
Definition mid_entry (s : smp_syms) (i : Z) (c : PCPU) : MIDTAB * VCPU :=
  (mkMid (lapic_id c) (g_vcpus_at s + SIZEOF_VCPU s * i),
   mkVcpu (g_cpu_stack_at s + SHV_STACK_SIZE * (i + 1)) (lapic_id c) i (truth (pcpu_isbsp c))).
Fixpoint mid_loop (s : smp_syms) (i : Z) (cpus : list PCPU) : list (MIDTAB * VCPU) :=
  match cpus with [] => [] | c :: cpus => mid_entry s i c :: mid_loop s (i + 1) cpus end.

(** [g_midtable] and [g_vcpus] after the first part of [smp_init]. *)
Definition smp_tables (a : subarch) (fuel : nat) (s : smp_syms) (m : mem) : res (list (MIDTAB * VCPU)) :=
  cpus ← smp_getinfo a fuel None m; Ok (mid_loop s 0 cpus).

(** The search of [get_vcpu] in [g_midtable]. *)
Fixpoint midtable_find (lapic : Z) (mid : list MIDTAB) : res Z :=
  match mid with
  | [] => Err Halt
  | e :: mid => if cpu_lapic_id e =? lapic then Ok (vcpu_vaddr_ptr e) else midtable_find lapic mid
  end.

Section device.
Context {D : Device}.

Definition MSR_APIC_BASE : Z := 0x1B.
Definition IA32_X2APIC_APICID : Z := 0x802.
Definition SHV_NMI_ENABLE : Z := 1.

Definition get_vcpu (a : subarch) (g : opts) (mid : list MIDTAB) : IO Z :=
  msr_val ← (if truth (Z.land (g_nmi_opt g) SHV_NMI_ENABLE) then mret 0xfee00000 else rdmsr64 MSR_APIC_BASE);
  lapic_id ←
    (if truth (Z.land msr_val (2 ^ 10)) then v ← rdmsr64 IA32_X2APIC_APICID; mret (u32 v)
     else v ← read32 (wrap (ptr_bits a) (Z.land msr_val (bnot (ptr_bits a) 0xFFF)) + 0x20); mret (Z.shiftr v 24));
  lift (midtable_find lapic_id mid).

(** ** Starting the other processors *)

Definition udelay (fuel : nat) (usecs : Z) : IO unit :=
  val ← inb 0x61;
  let val := Z.land val 0x0d in
  let val := Z.lor val 0x01 in
  outb 0x61 val ≫= fun _ =>
  outb 0x43 0xB0 ≫= fun _ =>
  let latchregval := u32 (u64 (1193182 * usecs) / 1000000) in
  ASSERT_io (latchregval <? 2 ^ 16) ≫= fun _ =>
  outb 0x42 (u8 latchregval) ≫= fun _ =>
  outb 0x42 (u8 (Z.shiftr latchregval 8)) ≫= fun _ =>
  wait_in fuel 0x61 (fun v => truth (Z.land v 0x20)) ≫= fun _ =>
  val ← inb 0x61;
  outb 0x61 (Z.land val 0x0c).

(** The body of the loop that sends an interprocessor interrupt and waits. *)
Definition send_ipi (fuel : nat) (icr cmd usecs : Z) : IO unit :=
  write32 icr cmd ≫= fun _ =>
  udelay fuel usecs ≫= fun _ =>
  wait_read fuel icr (fun v => negb (truth (Z.land v 0x1000))).

(** [bootstrap] and [bootstrap_end] are the addresses of the startup code. *)
Definition wakeupAPs (a : subarch) (fuel : nat) (bootstrap bootstrap_end : Z) : IO unit :=
  apic_base ← rdmsr64 MSR_APIC_BASE;
  ASSERT_io (apic_base <? 0x100000000) ≫= fun _ =>
  let icr := wrap (ptr_bits a) (Z.lor (Z.land apic_base (bnot 64 0xFFF)) 0x300) in
  (fun w => Ok (tt, mkW (memcpy 0x10000 bootstrap (bootstrap_end - bootstrap) (w_mem w)).2 (w_tr w))) ≫= fun _ =>
  send_ipi fuel icr 0x000c4500 10000 ≫= fun _ =>
  send_ipi fuel icr 0x000c4610 200 ≫= fun _ =>
  send_ipi fuel icr 0x000c4610 200.
End device.

(** ** The records of a MADT *)

Record arec := mkRec { ar_type : Z; ar_len : Z; ar_id : Z; ar_flags : Z }.
Definition rec_at (m : mem) (p : Z) (r : arec) : Prop :=
  apic_type m p = ar_type r /\ apic_length m p = ar_len r /\ apic_lapicid m p = ar_id r /\ apic_flags m p = ar_flags r.
Fixpoint recs_at (m : mem) (p : Z) (rs : list arec) : Prop :=
  match rs with [] => True | r :: rs => rec_at m p r /\ recs_at m (p + ar_len r) rs end.
Definition total (rs : list arec) : Z := foldr (fun r n => ar_len r + n) 0 rs.

(** A processor that can be used. *)
Definition enabled (r : arec) : bool := (ar_type r =? 0) && truth (Z.land (ar_flags r) 1).
(** The entries for processors, the first of them with number [k]. *)
Fixpoint cpus_of (base k : Z) (rs : list arec) : list PCPU :=
  match rs with
  | [] => []
  | r :: rs => mkPcpu (ar_id r) 0 base (if k =? 0 then 1 else 0) :: cpus_of base (k + 1) rs
  end.
Definition processors (rs : list arec) : list arec := List.filter enabled rs.

Lemma total_pos rs : Forall (fun r => 0 < ar_len r) rs -> rs <> [] -> 0 < total rs.
Proof.
  induction 1 as [|r rs Hr Hrs IH]; [done|]. intros _. cbn. destruct rs; [cbn; lia|].
  assert (0 < total (a :: rs)) by (by apply IH). unfold total in *. lia.
Qed.

Lemma madt_loop_ok m madt fuel off acc rs :
  recs_at m (madt + SIZEOF_ACPI_MADT + off) rs -> rs <> [] -> Forall (fun r => 0 < ar_len r) rs ->
  0 <= off -> off + total rs < 2 ^ 32 -> (length rs <= fuel)%nat ->
  madt_loop fuel madt (off + total rs) off acc m =
  if Z.of_nat (length acc) + Z.of_nat (length (processors rs)) <=? Z.max (Z.of_nat (length acc)) MAX_PCPU_ENTRIES
  then Ok (acc ++ cpus_of (madt_lapicaddress m madt) (Z.of_nat (length acc)) (processors rs)) else Err Halt.
Proof.
  revert off acc rs. induction fuel as [|fuel IH]; intros off acc rs Hrs Hne Hpos Hoff Hlt Hfuel;
    (destruct rs as [|r rs]; [done|]); [cbn in Hfuel; lia|].
  destruct Hrs as [(Et & El & Ei & Ef) Hrs]. apply Forall_cons in Hpos as [Hr Hpos]. cbn [madt_loop].
  set (p := madt + SIZEOF_ACPI_MADT + off) in *. rewrite Et, Ef, El, Ei. fold (enabled r).
  change (total (r :: rs)) with (ar_len r + total rs) in *.
  assert (0 <= total rs) as Ht by (destruct rs; [done|]; pose proof (total_pos (a :: rs) Hpos ltac:(done)); lia).
  assert (u32 (off + ar_len r) = off + ar_len r) as -> by (apply wrap_small; unfold is_u; lia).
  assert (forall acc', (let offset := off + ar_len r in
     if offset <? off + (ar_len r + total rs) then madt_loop fuel madt (off + (ar_len r + total rs)) offset acc' m else Ok acc') =
     if Z.of_nat (length acc') + Z.of_nat (length (processors rs)) <=? Z.max (Z.of_nat (length acc')) MAX_PCPU_ENTRIES
     then Ok (acc' ++ cpus_of (madt_lapicaddress m madt) (Z.of_nat (length acc')) (processors rs)) else Err Halt) as Hrec.
  { intros acc'. cbv zeta. destruct (decide (rs = [])) as [->|Hrne].
    - cbn. rewrite (proj2 (Z.ltb_ge _ _)), (proj2 (Z.leb_le _ _)) by lia. by rewrite app_nil_r.
    - pose proof (total_pos rs Hpos Hrne). rewrite (proj2 (Z.ltb_lt _ _)) by lia.
      replace (off + (ar_len r + total rs)) with (off + ar_len r + total rs) by lia.
      apply IH; try done; try lia; [|cbn in Hfuel; lia].
      by replace (madt + SIZEOF_ACPI_MADT + (off + ar_len r)) with (p + ar_len r) by (unfold p; lia). }
  unfold processors. cbn [List.filter]. destruct (enabled r) eqn:Een; cbn [mbind res_bind].
  - destruct (Z.ltb_spec (Z.of_nat (length acc)) MAX_PCPU_ENTRIES); cbn [ASSERT mbind res_bind].
    + rewrite Hrec. rewrite length_app. cbn [length]. unfold processors.
      replace (Z.of_nat (length acc + 1)) with (Z.of_nat (length acc) + 1) by lia.
      replace (Z.of_nat (length acc) + 1 + Z.of_nat (length (List.filter enabled rs)))
        with (Z.of_nat (length acc) + Z.of_nat (S (length (List.filter enabled rs)))) by lia.
      replace (Z.max (Z.of_nat (length acc) + 1) MAX_PCPU_ENTRIES) with (Z.max (Z.of_nat (length acc)) MAX_PCPU_ENTRIES) by lia.
      destruct (_ <=? _); [|done]. f_equal. cbn [cpus_of]. rewrite <- app_assoc. done.
    + rewrite (proj2 (Z.leb_gt _ _)); [done|]. cbn [length]. lia.
  - rewrite Hrec. done.
Qed.

(** A MADT record of length zero that is no usable processor makes the scan loop forever: no number of
    rounds is enough. *)
Theorem madt_zero_length_hangs m madt recordlength off acc r fuel :
  rec_at m (madt + SIZEOF_ACPI_MADT + off) r -> ar_len r = 0 -> enabled r = false -> 0 <= off < recordlength ->
  off < 2 ^ 32 -> madt_loop fuel madt recordlength off acc m = Err NoFuel.
Proof.
  intros (Et & El & Ei & Ef) Hz Hen Hoff Hlt. induction fuel as [|fuel IH]; [done|]. cbn [madt_loop].
  rewrite Et, Ef, El. fold (enabled r). rewrite Hen, Hz, Z.add_0_r. cbn [mbind res_bind].
  unfold u32. rewrite wrap_small by (unfold is_u; lia). by rewrite (proj2 (Z.ltb_lt _ _)) by lia.
Qed.

(** ** The root pointer *)

(** The sum of [n] bytes. *)
Fixpoint byte_sum (n : nat) (p : Z) (m : mem) : Z :=
  match n with O => 0 | S n => rd8 m p + byte_sum n (p + 1) m end.

Lemma swrap8_mod z : (swrap 8 z) mod 256 = z mod 256 /\ -128 <= swrap 8 z < 128.
Proof.
  unfold swrap, wrap. change (2 ^ 8) with 256. change (2 ^ (8 - 1)) with 128. pose proof (Z.mod_pos_bound z 256 ltac:(lia)) as Hb.
  destruct (Z.ltb_spec (z mod 256) 128).
  - split; [apply Z.mod_mod; lia|lia].
  - split; [|lia]. replace (z mod 256 - 256) with (z mod 256 + (-1) * 256) by lia.
    rewrite Z.mod_add by lia. apply Z.mod_mod. lia.
Qed.

Lemma checksum_loop_ok n p c m :
  -128 <= c < 128 ->
  (checksum_loop n p c m) mod 256 = (c + byte_sum n p m) mod 256 /\ -128 <= checksum_loop n p c m < 128.
Proof.
  revert p c. induction n as [|n IH]; intros p c Hc; cbn [checksum_loop byte_sum]; [by rewrite Z.add_0_r|].
  destruct (swrap8_mod (rd8 m p)) as [E1 _]. destruct (swrap8_mod (c + swrap 8 (rd8 m p))) as [E2 H2].
  destruct (IH (p + 1) _ H2) as [E3 H3]. split; [|done]. rewrite E3.
  rewrite <- Z.add_mod_idemp_l, E2, Z.add_mod_idemp_l, Z.add_assoc by lia.
  rewrite <- (Z.add_mod_idemp_l (c + swrap 8 (rd8 m p))), <- (Z.add_mod_idemp_r c), E1, Z.add_mod_idemp_r by lia.
  by rewrite Z.add_mod_idemp_l by lia.
Qed.

Lemma checksum_zero p m : (_ACPIGetRSDPComputeChecksum p 20 m =? 0) = (byte_sum 20 p m mod 256 =? 0).
Proof.
  unfold _ACPIGetRSDPComputeChecksum. destruct (checksum_loop_ok 20 p 0 m ltac:(lia)) as [E H]. rewrite Z.add_0_l in E.
  rewrite <- E. set (c := checksum_loop 20 p 0 m) in *. unfold u32, wrap. apply eq_bool_prop_intro, eq_bool_prop_elim.
  destruct (Z.eqb_spec (c mod 256) 0) as [E0|E0].
  - assert (c = 0) as ->; [|done]. destruct (Z.le_gt_cases 0 c); [by rewrite Z.mod_small in E0 by lia|].
    rewrite <- (Z.mod_add c 1 256), Z.mod_small in E0 by lia. lia.
  - apply Z.eqb_neq. intros E1. apply E0. apply Z.mod_divide in E1; [|lia]. apply Z.mod_divide; [lia|].
    destruct E1 as [k Hk]. exists (k * 2 ^ 24). lia.
Qed.

(** A root pointer: the signature and bytes that sum to zero. *)
Definition rsdp_valid (m : mem) (p : Z) : Prop := rsdp_signature m p = ACPI_RSDP_SIGNATURE /\ byte_sum 20 p m mod 256 = 0.
#[global] Instance rsdp_valid_dec m p : Decision (rsdp_valid m p).
Proof. unfold rsdp_valid. apply _. Defined.

(** The places the code searches, in its order: the first kilobyte of the EBDA, then the BIOS area. *)
Definition places_from (n : nat) (p : Z) : list Z := map (fun k => p + 16 * Z.of_nat k) (seq 0 n).
Definition rsdp_places (m : mem) : list Z := (places_from 64 (ld16 m 0x40E * 16) ++ places_from (Z.to_nat 0x2000) 0xE0000)%list.
Definition first_rsdp (m : mem) : option Z := List.find (fun p => bool_decide (rsdp_valid m p)) (rsdp_places m).

Lemma places_from_S n p : places_from (S n) p = p :: places_from n (p + 16).
Proof.
  unfold places_from. cbn [seq map]. f_equal; [lia|]. rewrite <- seq_shift, map_map. apply map_ext. intros k. lia.
Qed.
Lemma search_rsdp_find m n p : 0 <= p -> p + 16 * Z.of_nat n <= 2 ^ 32 ->
  search_rsdp n p m = Ok (List.find (fun p => bool_decide (rsdp_valid m p)) (places_from n p)).
Proof.
  revert p. induction n as [|n IH]; intros p Hp Hn; [done|]. rewrite places_from_S. cbn [search_rsdp List.find].
  assert ((p =? u32 p) = true) as -> by (apply Z.eqb_eq; unfold u32; rewrite wrap_small; [done|unfold is_u; lia]).
  rewrite checksum_zero, IH by lia. cbn [ASSERT mbind res_bind]. unfold rsdp_valid at 2.
  destruct (Z.eqb_spec (rsdp_signature m p) ACPI_RSDP_SIGNATURE) as [E1|E1];
    [|by rewrite bool_decide_eq_false_2 by (intros [? _]; done)].
  destruct (Z.eqb_spec (byte_sum 20 p m mod 256) 0) as [E2|E2];
    [by rewrite bool_decide_eq_true_2|by rewrite bool_decide_eq_false_2 by (intros [_ ?]; done)].
Qed.
Lemma find_app {A} (f : A -> bool) l l' : List.find f (l ++ l') = match List.find f l with Some x => Some x | None => List.find f l' end.
Proof. induction l as [|x l IH]; [done|]. cbn. by destruct (f x). Qed.
Lemma find_first {A} (P : A -> Prop) `{!forall x, Decision (P x)} l :
  match List.find (fun x => bool_decide (P x)) l with
  | Some x => exists before after, l = (before ++ x :: after)%list /\ P x /\ Forall (fun y => ~ P y) before
  | None => Forall (fun y => ~ P y) l
  end.
Proof.
  induction l as [|x l IH]; [constructor|]. cbn [List.find]. case_bool_decide as Hx.
  - exists [], l. by split_and!.
  - destruct (List.find _ l) as [y|]; [|by constructor]. destruct IH as (before & after & -> & Hy & Hf). exists (x :: before), after.
    split_and!; [done..|by constructor].
Qed.
Lemma ACPIGetRSDP_find m : ACPIGetRSDP m = Ok (first_rsdp m).
Proof.
  unfold ACPIGetRSDP, first_rsdp, rsdp_places. assert (0 <= ld16 m 0x40E < 65536) as He by apply (ld_range 2 m 0x40E).
  unfold u32. rewrite wrap_small by (unfold is_u; lia).
  change (rounds 0 (1024 - 8)) with 64%nat. assert (rounds 0xE0000 (0xFFFFF - 8) = Z.to_nat 0x2000) as -> by done.
  rewrite !search_rsdp_find by lia. rewrite find_app. cbn [mbind res_bind]. by destruct (List.find _ (places_from 64 _)).
Qed.

(** C40: [ACPIGetRSDP] always returns, with the first of the places it searches that holds a root pointer: the signature
    matches, the first 20 bytes sum to zero, and no place before it -- in the EBDA from its start, then in the BIOS area from
    its start -- holds one; and with null if none of the places does. *)
Theorem ACPIGetRSDP_first m :
  match ACPIGetRSDP m with
  | Ok (Some p) => exists before after, rsdp_places m = (before ++ p :: after)%list /\ rsdp_valid m p /\ Forall (fun q => ~ rsdp_valid m q) before
  | Ok None => Forall (fun q => ~ rsdp_valid m q) (rsdp_places m)
  | Err _ => False
  end.
Proof. rewrite ACPIGetRSDP_find. apply (find_first (rsdp_valid m)). Qed.

(** ** From the tables to the processors *)

(** The entries of the RSDT at an address, the MADT among them, and the records of a MADT. *)
Definition rsdt_entries (m : mem) (rsdt : Z) (es : list Z) : Prop :=
  rsdt_length m rsdt = SIZEOF_ACPI_RSDT + 4 * Z.of_nat (length es) /\
  forall i e, es !! i = Some e -> ld32 m (rsdt + SIZEOF_ACPI_RSDT + 4 * Z.of_nat i) = e.
Definition first_madt (m : mem) (es : list Z) : option Z := List.find (fun e => madt_signature m e =? ACPI_MADT_SIGNATURE) es.
Record madt_records (m : mem) (madt : Z) (rs : list arec) : Prop := {
  mr_recs : recs_at m (madt + SIZEOF_ACPI_MADT) rs;
  mr_some : rs <> [];
  mr_pos : Forall (fun r => 0 < ar_len r) rs;
  mr_length : madt_length m madt = SIZEOF_ACPI_MADT + total rs }.
(** The root pointer: the one UEFI gives, if its sum is right, or the first that is found. *)
Definition root_pointer (uefi_rsdp : option Z) (m : mem) : option Z :=
  match uefi_rsdp with None => first_rsdp m | Some p => if byte_sum 20 p m mod 256 =? 0 then Some p else None end.

Lemma find_madt_ok m es list : (forall i e, es !! i = Some e -> ld32 m (list + 4 * Z.of_nat i) = e) ->
  find_madt (length es) list m = first_madt m es.
Proof.
  revert list. induction es as [|e es IH]; intros list He; [done|]. cbn [find_madt length]. unfold first_madt. cbn [List.find].
  pose proof (He 0%nat e eq_refl) as E. replace (list + 4 * Z.of_nat 0) with list in E by lia. cbv zeta. rewrite E. destruct (_ =? _); [done|].
  apply IH. intros i x Hx. rewrite <- (He (S i) x Hx). f_equal. lia.
Qed.
Lemma smp_getinfo_rsdt a fuel uefi m rsdp es : root_pointer uefi m = Some rsdp -> rsdt_entries m (rsdp_rsdtaddress m rsdp) es ->
  smp_getinfo a fuel uefi m =
  match first_madt m es with
  | None => Err Halt
  | Some madt => pcpus ← madt_loop fuel madt (u32 (madt_length m madt - SIZEOF_ACPI_MADT)) 0 [] m; match pcpus with [] => Err Halt | _ => Ok pcpus end
  end.
Proof.
  intros Hr [Hl He]. set (rsdt := rsdp_rsdtaddress m rsdp) in *. assert (is_u 32 (rsdt_length m rsdt)) as Hu by apply (ld_range 4 m (rsdt + 4)).
  assert (Z.to_nat (u32 (wrap (ptr_bits a) (rsdt_length m rsdt - SIZEOF_ACPI_RSDT) / 4)) = length es) as Hn.
  { rewrite Hl in Hu |- *. unfold SIZEOF_ACPI_RSDT, is_u in *. rewrite Z.add_simpl_l.
    rewrite (wrap_small (ptr_bits a)) by (apply (is_u_le 32); [destruct a; cbn; lia|unfold is_u; lia]).
    replace (4 * Z.of_nat (length es)) with (Z.of_nat (length es) * 4) by lia. rewrite Z.div_mul by lia.
    unfold u32. rewrite wrap_small by (unfold is_u; lia). lia. }
  assert (smp_getinfo a fuel uefi m = match find_madt (length es) (rsdt + SIZEOF_ACPI_RSDT) m with
      | None => Err Halt
      | Some madt => pcpus ← madt_loop fuel madt (u32 (madt_length m madt - SIZEOF_ACPI_MADT)) 0 [] m; match pcpus with [] => Err Halt | _ => Ok pcpus end
      end) as ->.
  { unfold smp_getinfo. unfold root_pointer in Hr. destruct uefi as [p|].
    - rewrite checksum_zero. destruct (_ =? 0); [|done]. injection Hr as ->. cbn [ASSERT mbind res_bind]. fold rsdt. cbv zeta. by rewrite Hn.
    - rewrite ACPIGetRSDP_find, Hr. cbn [mbind res_bind]. fold rsdt. cbv zeta. by rewrite Hn. }
  by rewrite (find_madt_ok m es).
Qed.
Lemma smp_getinfo_madt a fuel uefi m rsdp es madt rs : root_pointer uefi m = Some rsdp -> rsdt_entries m (rsdp_rsdtaddress m rsdp) es ->
  first_madt m es = Some madt -> madt_records m madt rs -> (length rs <= fuel)%nat ->
  smp_getinfo a fuel uefi m =
  if (1 <=? length (processors rs))%nat && (length (processors rs) <=? Z.to_nat MAX_PCPU_ENTRIES)%nat
  then Ok (cpus_of (madt_lapicaddress m madt) 0 (processors rs)) else Err Halt.
Proof.
  intros Hr He Hm [Hrs Hne Hpos Hlen] Hf. rewrite (smp_getinfo_rsdt a fuel uefi m rsdp es Hr He), Hm.
  assert (is_u 32 (madt_length m madt)) as Hu by apply (ld_range 4 m (madt + 4)). pose proof (total_pos rs Hpos Hne) as Ht. rewrite Hlen in *.
  replace (SIZEOF_ACPI_MADT + total rs - SIZEOF_ACPI_MADT) with (0 + total rs) by lia. unfold SIZEOF_ACPI_MADT, is_u in Hu.
  unfold u32. rewrite wrap_small by (unfold is_u; lia). rewrite madt_loop_ok; try done; try lia; [|by rewrite Z.add_0_r].
  cbn [length app]. set (ps := processors rs). rewrite Z.add_0_l. unfold MAX_PCPU_ENTRIES.
  destruct (Z.leb_spec (Z.of_nat (length ps)) (Z.max (Z.of_nat 0) 10)) as [Hle|Hgt].
  - rewrite (proj2 (Nat.leb_le (length ps) _)) by lia. destruct ps as [|r ps]; [done|]. reflexivity.
  - rewrite (proj2 (Nat.leb_gt (length ps) _)) by lia. by rewrite andb_false_r.
Qed.

(** C31: [smp_getinfo] finds exactly the usable processors ACPI lists.  The root pointer is the one UEFI gives, if its first 20 bytes
    sum to zero, or the first that is found in memory; the MADT is the first entry of its RSDT with the signature of one; and the
    result has one entry per record of the MADT that is an enabled local APIC, in order, with its id and the address of the table,
    the first marked as boot processor.  It halts if there is no root pointer, no MADT, no usable processor, or more than
    [MAX_PCPU_ENTRIES].  The scan ends after one round per record. *)
Theorem smp_getinfo_processors a fuel uefi m :
  match root_pointer uefi m with
  | None => smp_getinfo a fuel uefi m = Err Halt
  | Some rsdp => forall es, rsdt_entries m (rsdp_rsdtaddress m rsdp) es ->
      match first_madt m es with
      | None => smp_getinfo a fuel uefi m = Err Halt
      | Some madt => forall rs, madt_records m madt rs -> (length rs <= fuel)%nat ->
          smp_getinfo a fuel uefi m =
          if (1 <=? length (processors rs))%nat && (length (processors rs) <=? Z.to_nat MAX_PCPU_ENTRIES)%nat
          then Ok (cpus_of (madt_lapicaddress m madt) 0 (processors rs)) else Err Halt
      end
  end.
Proof.
  destruct (root_pointer uefi m) as [rsdp|] eqn:Hr.
  - intros es He. destruct (first_madt m es) as [madt|] eqn:Hm.
    + intros rs Hrs Hf. by eapply smp_getinfo_madt.
    + by rewrite (smp_getinfo_rsdt a fuel uefi m rsdp es Hr He), Hm.
  - unfold smp_getinfo. unfold root_pointer in Hr. destruct uefi as [p|].
    + rewrite checksum_zero. by destruct (_ =? 0).
    + by rewrite ACPIGetRSDP_find, Hr.
Qed.

(** The tables of a machine whose firmware the program searches for itself, and the bytes they take. *)
Record acpi_tables (m : mem) (rsdp madt : Z) (es : list Z) (rs : list arec) : Prop := {
  at_root : first_rsdp m = Some rsdp;
  at_entries : rsdt_entries m (rsdp_rsdtaddress m rsdp) es;
  at_madt : first_madt m es = Some madt;
  at_records : madt_records m madt rs }.
Definition acpi_bytes (m : mem) (rsdp madt : Z) (es : list Z) (b : Z) : Prop :=
  in_range 0x40E 2 b \/ (exists p, p ∈ rsdp_places m /\ in_range p 20 b) \/
  in_range (rsdp_rsdtaddress m rsdp) (SIZEOF_ACPI_RSDT + 4 * Z.of_nat (length es)) b \/
  (exists e, e ∈ es /\ in_range e 4 b) \/ in_range madt (madt_length m madt + 8) b.

Lemma find_ext_in {A} (f f' : A -> bool) l : (forall x, x ∈ l -> f' x = f x) -> List.find f' l = List.find f l.
Proof.
  induction l as [|x l IH]; intros H; [done|]. cbn. rewrite H by apply elem_of_cons, or_introl, eq_refl.
  destruct (f x); [done|]. apply IH. intros y Hy. apply H. by right.
Qed.
Lemma byte_sum_agree P n p m m' : agree P m m' -> (forall b, in_range p (Z.of_nat n) b -> P b) -> byte_sum n p m' = byte_sum n p m.
Proof.
  intros Ha. revert p. induction n as [|n IH]; intros p HP; [done|]. cbn [byte_sum]. rewrite (Ha p) by (apply HP; unfold in_range; lia).
  f_equal. apply IH. intros b Hb. apply HP. unfold in_range in *. lia.
Qed.
Lemma rsdp_valid_agree P m m' p : agree P m m' -> (forall b, in_range p 20 b -> P b) -> rsdp_valid m' p <-> rsdp_valid m p.
Proof.
  intros Ha HP. unfold rsdp_valid. assert (rsdp_signature m' p = rsdp_signature m p) as ->.
  { apply (ld_agree _ 8 _ _ _ Ha). intros b Hb. apply HP. unfold in_range in *. lia. }
  by rewrite (byte_sum_agree _ 20 p m m' Ha).
Qed.
Lemma recs_agree P m m' p rs : agree P m m' -> (forall b, in_range p (total rs + 8) b -> P b) -> Forall (fun r => 0 < ar_len r) rs ->
  recs_at m p rs -> recs_at m' p rs.
Proof.
  intros Ha. revert p. induction rs as [|r rs IH]; intros p HP Hpos H; [done|]. apply Forall_cons in Hpos as [Hr Hpos]. destruct H as [(E1 & E2 & E3 & E4) H].
  assert (0 <= total rs) as Ht by (destruct rs as [|x rs]; [done|]; pose proof (total_pos (x :: rs) Hpos ltac:(done)); lia).
  change (total (r :: rs)) with (ar_len r + total rs) in HP. split; [|apply IH; [|done..]; intros b Hb; apply HP; unfold in_range in *; lia].
  unfold rec_at, apic_type, apic_length, apic_lapicid, apic_flags, ld32 in *. rewrite !(Ha p), !(Ha (p + 1)), !(Ha (p + 3)) by (apply HP; unfold in_range; lia).
  split_and!; [done..|]. rewrite (ld_agree _ 4 _ _ _ Ha) by (intros b Hb; apply HP; unfold in_range in *; cbn in *; lia). done.
Qed.
Lemma acpi_agree m m' rsdp madt es rs : agree (acpi_bytes m rsdp madt es) m m' -> acpi_tables m rsdp madt es rs -> acpi_tables m' rsdp madt es rs.
Proof.
  intros Ha [H1 [H2 H2'] H3 [R1 R2 R3 R4]]. assert (rsdp_places m' = rsdp_places m) as Ep.
  { unfold rsdp_places, ld16. rewrite (ld_agree _ 2 _ _ _ Ha); [done|]. intros b Hb. by left. }
  assert (rsdp ∈ rsdp_places m) as Hin.
  { unfold first_rsdp in H1. apply find_some in H1 as [H _]. by apply list_elem_of_In. }
  assert (forall k p n, p ∈ rsdp_places m -> (k + Z.of_nat n <= 20)%Z -> 0 <= k -> ld n m' (p + k) = ld n m (p + k)) as Hpl.
  { intros k p n Hp Hk H0. apply (ld_agree _ n _ _ _ Ha). intros b Hb. right; left. exists p. split; [exact Hp|]. unfold in_range in *. lia. }
  assert (rsdp_rsdtaddress m' rsdp = rsdp_rsdtaddress m rsdp) as Er by (by apply Hpl).
  assert (forall k n, 0 <= k -> k + Z.of_nat n <= SIZEOF_ACPI_RSDT + 4 * Z.of_nat (length es) ->
    ld n m' (rsdp_rsdtaddress m rsdp + k) = ld n m (rsdp_rsdtaddress m rsdp + k)) as Hrs.
  { intros k n H0 Hk. apply (ld_agree _ n _ _ _ Ha). intros b Hb. do 2 right; left. unfold in_range in *. lia. }
  assert (madt ∈ es) as Hme by (apply find_some in H3 as [H _]; by apply list_elem_of_In).
  pose proof (total_pos rs R3 R2) as Ht. unfold SIZEOF_ACPI_MADT, SIZEOF_ACPI_RSDT in *.
  assert (forall b, in_range madt (madt_length m madt + 8) b -> acpi_bytes m rsdp madt es b) as Hmb by (intros b Hb; by do 4 right).
  constructor; [| |..|constructor].
  - unfold first_rsdp in *. rewrite Ep, <- H1. apply find_ext_in. intros p Hp. apply bool_decide_ext, (rsdp_valid_agree _ _ _ _ Ha).
    intros b Hb. right; left. exists p. exact (conj Hp Hb).
  - rewrite Er. split.
    + unfold rsdt_length, ld32 in *. rewrite Hrs by (unfold SIZEOF_ACPI_RSDT; lia). exact H2.
    + intros i e Hi. rewrite <- (H2' i e Hi). pose proof (lookup_lt_Some _ _ _ Hi) as Hlt. unfold ld32, SIZEOF_ACPI_RSDT. rewrite <- Z.add_assoc. apply Hrs; lia.
  - unfold first_madt in *. rewrite <- H3. apply find_ext_in. intros e Hin'. f_equal. apply (ld_agree _ 4 _ _ _ Ha). intros b Hb. do 3 right; left. exists e. exact (conj Hin' Hb).
  - eapply recs_agree; [exact Ha| |done|done]. intros b Hb. apply Hmb. rewrite R4. unfold in_range, SIZEOF_ACPI_MADT in *. lia.
  - done.
  - done.
  - transitivity (madt_length m madt); [|exact R4]. apply (ld_agree _ 4 _ _ _ Ha). intros b Hb. apply Hmb. rewrite R4. unfold in_range in *. cbn in Hb. lia.
Qed.

(** ** Looking up the own virtual CPU *)

Lemma midtable_find_ok s k cpus i c :
  NoDup (map lapic_id cpus) -> cpus !! i = Some c ->
  midtable_find (lapic_id c) (map fst (mid_loop s k cpus)) = Ok (g_vcpus_at s + SIZEOF_VCPU s * (k + Z.of_nat i)).
Proof.
  revert k i. induction cpus as [|c0 cpus IH]; intros k i Hnd Hi; [done|].
  cbn [mid_loop map mid_entry fst midtable_find cpu_lapic_id vcpu_vaddr_ptr].
  apply NoDup_cons in Hnd as [Hni Hnd]. destruct i as [|i]; cbn in Hi.
  - injection Hi as <-. rewrite Z.eqb_refl. by rewrite Z.add_0_r.
  - rewrite (proj2 (Z.eqb_neq _ _)).
    + rewrite (IH (k + 1) i) by done. do 3 f_equal. lia.
    + intros E. apply Hni. rewrite E. apply list_elem_of_fmap. exists c. split; [done|]. by eapply list_elem_of_lookup_2.
Qed.

(** What the LAPIC of a machine reports, in xAPIC or x2APIC mode. *)
Definition reports {D : Device} (a : subarch) (lapic : Z) : Prop :=
  forall tr tr', let base := u64 (dev_rdmsr tr MSR_APIC_BASE) in
    if truth (Z.land base (2 ^ 10)) then u32 (u64 (dev_rdmsr tr' IA32_X2APIC_APICID)) = lapic
    else Z.shiftr (u32 (dev_read tr' (wrap (ptr_bits a) (Z.land base (bnot (ptr_bits a) 0xFFF)) + 0x20))) 24 = lapic.

(** Each processor finds its own virtual CPU: with the table [smp_init] builds for
    processors with distinct LAPIC ids, [get_vcpu] on the machine of processor [i] returns
    the address of [g_vcpus[i]], and that entry has the id and the index of the processor. *)
Theorem get_vcpu_own {D : Device} a g s cpus i c w :
  NoDup (map lapic_id cpus) -> cpus !! i = Some c -> reports a (lapic_id c) ->
  truth (Z.land (g_nmi_opt g) SHV_NMI_ENABLE) = false ->
  (exists tr, get_vcpu a g (map fst (mid_loop s 0 cpus)) w = Ok (g_vcpus_at s + SIZEOF_VCPU s * Z.of_nat i, mkW (w_mem w) tr)) /\
  exists v, map snd (mid_loop s 0 cpus) !! i = Some v /\ id v = lapic_id c /\ vidx v = Z.of_nat i.
Proof.
  intros Hnd Hi Hrep Hopt. pose proof (midtable_find_ok s 0 cpus i c Hnd Hi) as Hfind. rewrite Z.add_0_l in Hfind. split.
  - unfold get_vcpu. rewrite Hopt. erewrite bind_run by done.
    set (base := u64 (dev_rdmsr (w_tr w) MSR_APIC_BASE)). specialize (Hrep (w_tr w)). cbv zeta in Hrep. fold base in Hrep.
    destruct (truth (Z.land base (2 ^ 10))); (eexists; erewrite bind_run by done; rewrite Hrep, Hfind; done).
  - clear -Hi. assert (forall k, exists v, map snd (mid_loop s k cpus) !! i = Some v /\ id v = lapic_id c /\ vidx v = k + Z.of_nat i) as H.
    { revert i Hi. induction cpus as [|c0 cpus IH]; intros i Hi k; [done|]. destruct i as [|i]; cbn in Hi.
      - injection Hi as ->. eexists. cbn. split; [done|]. split; [done|]. cbn. lia.
      - destruct (IH i Hi (k + 1)) as (v & E & E1 & E2). exists v. split; [done|]. split; [done|lia]. }
    apply (H 0).
Qed.

(** ** Witnesses *)

(** The pointer to the EBDA; the root pointer with its sum; an RSDT whose second entry is the MADT; and a MADT with a disabled
    processor, an I/O APIC and two processors. *)
Definition demo_recs : list arec := [mkRec 0 8 7 0; mkRec 1 12 0 0x1FEC0; mkRec 0 8 4 1; mkRec 0 8 2 1].
Definition put_rec (r : arec) (pm : Z * mem) : Z * mem :=
  let '(p, m) := pm in
  (p + ar_len r, st 4 (wr8 (wr8 (wr8 m p (ar_type r)) (p + 1) (ar_len r)) (p + 3) (ar_id r)) (p + 4) (ar_flags r)).
Definition demo_tables : mem :=
  let m := st 2 ∅ 0x40E 0x900 in
  let m := st 1 (st 4 (st 8 m 0x9000 ACPI_RSDP_SIGNATURE) 0x9010 0x9100) 0x900F 0x50 in
  let m := st 4 (st 4 (st 4 m 0x9104 44) 0x9124 0x9300) 0x9128 0x9200 in
  let m := st 4 (st 4 (st 4 m 0x9200 ACPI_MADT_SIGNATURE) 0x9204 80) 0x9224 0xFEE00000 in
  (foldl (fun pm r => put_rec r pm) (0x9200 + 44, m) demo_recs).2.
Lemma demo_acpi : acpi_tables demo_tables 0x9000 0x9200 [0x9300; 0x9200] demo_recs.
Proof.
  constructor; [by vm_compute|split; [by vm_compute|]|by vm_compute|].
  - intros i e Hi. destruct i as [|[|i]]; [injection Hi as <-; by vm_compute..|done].
  - constructor; [by vm_compute|done|by repeat constructor|by vm_compute].
Qed.

Lemma smp_getinfo_processors_witness :
  smp_getinfo AMD64 4 None demo_tables = Ok [mkPcpu 4 0 0xFEE00000 1; mkPcpu 2 0 0xFEE00000 0] /\
  smp_getinfo AMD64 4 None ∅ = Err Halt.
Proof.
  destruct demo_acpi as [H1 H2 H3 H4]. split.
  - pose proof (smp_getinfo_processors AMD64 4 None demo_tables) as T. unfold root_pointer in T. rewrite H1 in T. specialize (T _ H2). rewrite H3 in T.
    rewrite (T _ H4) by (cbn; lia). vm_compute. reflexivity.
  - pose proof (smp_getinfo_processors AMD64 4 None ∅) as T. unfold root_pointer in T.
    assert (first_rsdp ∅ = None) as E by (vm_compute; reflexivity). rewrite E in T. exact T.
Defined.

Definition zero_madt : mem := st 4 ∅ 0x1004 60.
Lemma madt_zero_length_hangs_witness : madt_loop 1000 0x1000 16 0 [] zero_madt = Err NoFuel.
Proof. apply (madt_zero_length_hangs zero_madt 0x1000 16 0 [] (mkRec 0 0 0 0) 1000); [by vm_compute|done|done|lia|lia]. Defined.

Definition demo_device : Device :=
  {| dev_in := fun _ _ => 0; dev_read := fun _ _ => 0x02000000; dev_rdmsr := fun _ _ => 0xFEE00000 |}.

Lemma get_vcpu_own_witness :
  exists tr, @get_vcpu demo_device AMD64 (initial_opts 0 0 0)
    (map fst (mid_loop (mkSmpSyms 0x100000 512 0x200000) 0 [mkPcpu 4 0 0 1; mkPcpu 2 0 0 0])) (mkW ∅ []) =
    Ok (0x100000 + 512 * 1, mkW ∅ tr).
Proof.
  refine (proj1 (@get_vcpu_own demo_device AMD64 (initial_opts 0 0 0) (mkSmpSyms 0x100000 512 0x200000)
    [mkPcpu 4 0 0 1; mkPcpu 2 0 0 0] 1 (mkPcpu 2 0 0 0) (mkW ∅ []) _ _ _ _)).
  - cbn. apply NoDup_cons. split; [by intros H%list_elem_of_singleton|]. apply NoDup_singleton.
  - done.
  - intros tr tr'. by vm_compute.
  - done.
Defined.
