(* ===== verification/Screen.v ===== *)
(** [src/debug-vga.c] and [src/shv-console.c]: the two users of the text screen, the
    scrolling debug terminal and the windows of the virtual CPUs. *)
From S2P Require Import Prelude.
From S2P Require Import Mem.
From S2P Require Import LibcString.
From S2P Require Import CString.
From S2P Require Import Stdio.
From S2P Require Import Io.

(** ** The debug terminal *)

Definition COLS : Z := 80.
Definition ROWS : Z := 25.
Definition ATTR : Z := 7.
Definition vidmem : Z := 0xB8000.

(** The cursor, [vid_x] and [vid_y], both [unsigned int]. *)
Record cursor := mkCursor { vid_x : Z; vid_y : Z }.

Definition vgamem_newln (v : cursor) (m : mem) : cursor * mem :=
  let vid_y := u32 (vid_y v + 1) in
  if ROWS <=? vid_y then
    let m := (memmove vidmem (vidmem + 2 * COLS) ((ROWS - 1) * 2 * COLS) m).2 in
    (mkCursor 0 (ROWS - 1), (memset (vidmem + (ROWS - 1) * 2 * COLS) 0 (2 * COLS) m).2)
  else (mkCursor 0 vid_y, m).

Definition dbg_x86_vgamem_putc (c : Z) (v : cursor) (m : mem) : cursor * mem :=
  if c =? 10 then vgamem_newln v m
  else
    let i := u32 (u32 (vid_x v + u32 (vid_y v * COLS)) * 2) in
    let m := wr8 m (vidmem + i) (u8 (Z.land c 0xFF)) in
    let m := wr8 m (vidmem + u32 (i + 1)) ATTR in
    let x := u32 (vid_x v + 1) in
    if COLS <=? x then vgamem_newln (mkCursor x (vid_y v)) m else (mkCursor x (vid_y v), m).

Fixpoint dbg_x86_vgamem_putstr (str : cstr) (v : cursor) (m : mem) : cursor * mem :=
  match str with
  | [] => (v, m)
  | c :: str => let '(v, m) := dbg_x86_vgamem_putc (schar c) v m in dbg_x86_vgamem_putstr str v m
  end.

Definition dbg_x86_vgamem_init (m : mem) : cursor * mem :=
  (mkCursor 0 0, (memset vidmem 0 (COLS * ROWS * 2) m).2).

(** ** An abstract terminal: the cursor, and a character and an attribute per cell *)

Record term := mkTerm { t_x : Z; t_y : Z; t_cell : Z -> Z -> Z * Z }.

Definition term_newln (t : term) : term :=
  if ROWS <=? t_y t + 1
  then mkTerm 0 (ROWS - 1) (fun r c => if r =? ROWS - 1 then (0, 0) else t_cell t (r + 1) c)
  else mkTerm 0 (t_y t + 1) (t_cell t).
Definition term_putc (ch : Z) (t : term) : term :=
  if ch =? 10 then term_newln t
  else
    let t := mkTerm (t_x t + 1) (t_y t)
      (fun r c => if (r =? t_y t) && (c =? t_x t) then (u8 ch, ATTR) else t_cell t r c) in
    if COLS <=? t_x t then term_newln t else t.

(** The memory shows a terminal. *)
Definition cell_at (m : mem) (r c : Z) : Z * Z := (rd8 m (vidmem + 2 * (c + COLS * r)), rd8 m (vidmem + 2 * (c + COLS * r) + 1)).
Definition shows (t : term) (v : cursor) (m : mem) : Prop :=
  vid_x v = t_x t /\ vid_y v = t_y t /\ 0 <= t_x t < COLS /\ 0 <= t_y t < ROWS /\
  forall r c, 0 <= r < ROWS -> 0 <= c < COLS -> cell_at m r c = t_cell t r c.
(** Everything that is not the screen. *)
Definition off_screen (a : Z) : Prop := ~ in_range vidmem (2 * COLS * ROWS) a.

Lemma vgamem_newln_ok t v m :
  vid_y v = t_y t -> 0 <= t_y t < ROWS ->
  (forall r c, 0 <= r < ROWS -> 0 <= c < COLS -> cell_at m r c = t_cell t r c) ->
  let '(v', m') := vgamem_newln v m in shows (term_newln t) v' m' /\ agree off_screen m m'.
Proof.
  intros Ey Hy Hc. unfold vgamem_newln, term_newln, ROWS, COLS in *. rewrite Ey.
  assert (u32 (t_y t + 1) = t_y t + 1) as -> by (apply wrap_small; unfold is_u; lia).
  destruct (Z.leb_spec 25 (t_y t + 1)) as [Hge|Hlt].
  2: { split; [|done]. unfold shows, ROWS, COLS. cbn [vid_x vid_y t_x t_y t_cell]. split_and!; done || lia. }
  cbv zeta. set (m1 := (memmove _ _ _ m).2).
  assert (forall b, rd8 (memset (vidmem + (25 - 1) * 2 * 80) 0 (2 * 80) m1).2 b =
    if (vidmem + 3840 <=? b) && (b <? vidmem + 4000) then 0
    else if (vidmem <=? b) && (b <? vidmem + 3840) then rd8 m (b + 160) else rd8 m b) as Hrd.
  { intros b. rewrite rd8_memset by lia. unfold m1. rewrite rd8_memmove by lia.
    replace (vidmem + (25 - 1) * 2 * 80) with (vidmem + 3840) by lia.
    replace (vidmem + 3840 + 2 * 80) with (vidmem + 4000) by lia. change ((25 - 1) * 2 * 80) with 3840.
    replace (vidmem + 2 * 80 + (b - vidmem)) with (b + 160) by lia. done. }
  split.
  - unfold shows, ROWS, COLS. cbn [vid_x vid_y t_x t_y t_cell]. split_and!; try lia.
    intros r c Hr Hcc. unfold cell_at, COLS. rewrite !Hrd.
    destruct (Z.eqb_spec r (25 - 1)) as [->|Hne].
    + bcase; done.
    + rewrite <- Hc by lia. unfold cell_at, COLS. bcase; cbn [andb]. f_equal; f_equal; lia.
  - intros a Ha. unfold off_screen, in_range, COLS, ROWS in Ha. rewrite Hrd. bcase; cbn; done || lia.
Qed.

Lemma dbg_putc_ok ch t v m :
  shows t v m -> let '(v', m') := dbg_x86_vgamem_putc ch v m in shows (term_putc ch t) v' m' /\ agree off_screen m m'.
Proof.
  intros (Ex & Ey & Hx & Hy & Hc). unfold dbg_x86_vgamem_putc, term_putc. destruct (ch =? 10); [by apply vgamem_newln_ok|].
  unfold ROWS, COLS in Hx, Hy. rewrite Ex, Ey. cbv zeta.
  assert (u32 (u32 (t_x t + u32 (t_y t * COLS)) * 2) = 2 * (t_x t + COLS * t_y t)) as ->.
  { unfold u32, COLS. rewrite (wrap_small 32 (t_y t * 80)) by (unfold is_u; lia).
    rewrite (wrap_small 32 (t_x t + t_y t * 80)) by (unfold is_u; lia). rewrite wrap_small by (unfold is_u; lia). lia. }
  assert (u32 (2 * (t_x t + COLS * t_y t) + 1) = 2 * (t_x t + COLS * t_y t) + 1) as ->
    by (apply wrap_small; unfold is_u, COLS; lia).
  assert (u32 (t_x t + 1) = t_x t + 1) as -> by (apply wrap_small; unfold is_u; lia).
  assert (u8 (Z.land ch 0xFF) = u8 ch) as -> by (apply Z.bits_inj'; intros i Hi; change 0xFF with (Z.ones 8); unfold u8; bits; done).
  set (m1 := wr8 (wr8 m _ _) _ _).
  assert (forall r c, 0 <= r < ROWS -> 0 <= c < COLS ->
    cell_at m1 r c = if (r =? t_y t) && (c =? t_x t) then (u8 ch, ATTR) else t_cell t r c) as Hc1.
  { intros r c Hr Hcc. rewrite <- Hc by done. unfold cell_at, m1, COLS, ROWS in *. rewrite !rd8_wr8, !u8_idem.
    destruct (Z.eqb_spec r (t_y t)) as [->|]; [destruct (Z.eqb_spec c (t_x t)) as [->|]|]; cbn [andb];
      repeat match goal with |- context [?a =? ?b] => destruct (Z.eqb_spec a b); try (exfalso; lia) end; done. }
  assert (agree off_screen m m1) as Ha.
  { intros a Ha. unfold m1, off_screen, in_range, COLS, ROWS in *. rewrite !rd8_wr8.
    rewrite !(proj2 (Z.eqb_neq _ _)) by lia. done. }
  cbn [t_x]. destruct (Z.leb_spec COLS (t_x t + 1)) as [Hge|Hlt].
  - pose proof (vgamem_newln_ok (mkTerm (t_x t + 1) (t_y t)
      (fun r c => if (r =? t_y t) && (c =? t_x t) then (u8 ch, ATTR) else t_cell t r c)) (mkCursor (t_x t + 1) (t_y t)) m1
      eq_refl Hy Hc1) as H.
    destruct (vgamem_newln _ m1) as [v' m']. destruct H as [Hs Ha']. split; [done|]. by eapply agree_trans.
  - split; [|done]. unfold COLS in Hlt. unfold shows, ROWS, COLS. cbn [vid_x vid_y t_x t_y t_cell].
    split_and!; try lia. intros r c Hr Hcc. by apply Hc1.
Qed.

(** C29: The debug terminal refines the abstract terminal: printing a string writes its characters at
    the cursor, wraps and scrolls as the terminal does, keeps the cursor on the
    screen, and changes no byte outside the screen. *)
Theorem vgamem_putstr_refines str t v m :
  shows t v m ->
  let '(v', m') := dbg_x86_vgamem_putstr str v m in
  shows (foldl (fun t c => term_putc (schar c) t) t str) v' m' /\ agree off_screen m m'.
Proof.
  revert t v m. induction str as [|c str IH]; intros t v m Hs; cbn [dbg_x86_vgamem_putstr foldl]; [done|].
  pose proof (dbg_putc_ok (schar c) t v m Hs) as H. destruct (dbg_x86_vgamem_putc (schar c) v m) as [v1 m1].
  destruct H as [Hs1 Ha1]. specialize (IH _ v1 m1 Hs1). destruct (dbg_x86_vgamem_putstr str v1 m1) as [v2 m2].
  destruct IH as [Hs2 Ha2]. split; [done|]. by eapply agree_trans.
Qed.

Lemma vgamem_init_ok m : let '(v, m') := dbg_x86_vgamem_init m in shows (mkTerm 0 0 (fun _ _ => (0, 0))) v m'.
Proof.
  unfold dbg_x86_vgamem_init, shows, COLS, ROWS. cbn [vid_x vid_y t_x t_y t_cell]. split_and!; try lia.
  intros r c Hr Hc. unfold cell_at, COLS. rewrite !rd8_memset by lia.
  bcase; done.
Qed.

Lemma vgamem_putstr_refines_witness :
  let '(v', m') := dbg_x86_vgamem_putstr [83; 10; 33] (mkCursor 0 0) ∅ in
  shows (foldl (fun t c => term_putc (schar c) t) (mkTerm 0 0 (fun _ _ => (0, 0))) [83; 10; 33]) v' m' /\
  agree off_screen ∅ m'.
Proof.
  apply (vgamem_putstr_refines [83; 10; 33] (mkTerm 0 0 (fun _ _ => (0, 0))) (mkCursor 0 0) ∅).
  unfold shows, COLS, ROWS. cbn [vid_x vid_y t_x t_y t_cell]. split_and!; try lia. intros r c Hr Hc. done.
Defined.

(** ** The windows of the virtual CPUs *)

Definition CRTC_IDX_REG : Z := 0x3d4.
Definition CRTC_DATA_REG : Z := 0x3d5.
Definition CRTC_CURSOR_LSB_IDX : Z := 15.
Definition CRTC_CURSOR_MSB_IDX : Z := 14.
Definition CONSOLE_MEM_BASE : Z := 0xB8000.
Definition CONSOLE_WIDTH : Z := 80.
Definition CONSOLE_HEIGHT : Z := 25.
Definition CONSOLE_MAX_CPU : Z := 8.

Definition console_cursor_clear : IO unit :=
  outb CRTC_IDX_REG CRTC_CURSOR_LSB_IDX ≫= fun _ =>
  outb CRTC_DATA_REG 0 ≫= fun _ =>
  outb CRTC_IDX_REG CRTC_CURSOR_MSB_IDX ≫= fun _ =>
  outb CRTC_DATA_REG 0.

Record console_vc_t := mkVc { left : Z; top : Z; width : Z; height : Z; color : Z }.

(** The call for the whole screen, with a null window, and the one for a window. *)
Definition console_get_mmio_null (x y : Z) : res Z :=
  ASSERT ((0 <=? x) && (x <? CONSOLE_WIDTH)) ≫= fun _ =>
  ASSERT ((0 <=? y) && (y <? CONSOLE_HEIGHT)) ≫= fun _ =>
  Ok (CONSOLE_MEM_BASE + 2 * (x + CONSOLE_WIDTH * y)).
Definition console_get_mmio (vc : option console_vc_t) (x y : Z) : res Z :=
  match vc with
  | None => console_get_mmio_null x y
  | Some vc =>
      ASSERT ((0 <=? x) && (x <? width vc)) ≫= fun _ =>
      ASSERT ((0 <=? y) && (y <? height vc)) ≫= fun _ =>
      console_get_mmio_null (x + left vc) (y + top vc)
  end.

(** The two loops of [console_clear]; [n] counts what is left. *)
Fixpoint clear_column (n : nat) (vc : console_vc_t) (i j : Z) (m : mem) : res mem :=
  match n with
  | O => Ok m
  | S n => p ← console_get_mmio (Some vc) i j; clear_column n vc i (j + 1) (wr8 (wr8 m p 32) (p + 1) (color vc))
  end.
Fixpoint clear_columns (n : nat) (vc : console_vc_t) (i : Z) (m : mem) : res mem :=
  match n with
  | O => Ok m
  | S n => m ← clear_column (Z.to_nat (height vc)) vc i 0 m; clear_columns n vc (i + 1) m
  end.
Definition console_clear (vc : console_vc_t) (m : mem) : res mem := clear_columns (Z.to_nat (width vc)) vc 0 m.

Definition console_get_char (vc : console_vc_t) (x y : Z) (m : mem) : res Z :=
  p ← console_get_mmio (Some vc) x y; Ok (schar (rd8 m p)).
Definition console_put_char (vc : console_vc_t) (x y c : Z) (m : mem) : res mem :=
  p ← console_get_mmio (Some vc) x y; Ok (wr8 m p (u8 c)).

Definition console_get_vc (num : Z) (guest : bool) : res console_vc_t :=
  ASSERT ((0 <=? num) && (num <? CONSOLE_MAX_CPU)) ≫= fun _ =>
  Ok (mkVc (CONSOLE_WIDTH / 2 * b2z guest) (CONSOLE_HEIGHT / CONSOLE_MAX_CPU * num) (CONSOLE_WIDTH / 2)
        (CONSOLE_HEIGHT / CONSOLE_MAX_CPU) (schar ((1 + num * 2 + b2z guest) mod 7 + 9))).

(** The window of a CPU, and the address of a position in it. *)
Definition window (num : Z) (guest : bool) : console_vc_t :=
  mkVc (40 * b2z guest) (3 * num) 40 3 ((1 + num * 2 + b2z guest) mod 7 + 9).
Definition cell_of (num : Z) (guest : bool) (x y : Z) : Z :=
  CONSOLE_MEM_BASE + 2 * (x + 40 * b2z guest + 80 * (y + 3 * num)).

Lemma console_get_vc_ok num guest : 0 <= num < 8 -> console_get_vc num guest = Ok (window num guest).
Proof.
  intros Hn. unfold console_get_vc, CONSOLE_MAX_CPU. rewrite (proj2 (Z.leb_le 0 num)), (proj2 (Z.ltb_lt num 8)) by lia.
  cbn [andb ASSERT mbind res_bind]. unfold window. change (CONSOLE_WIDTH / 2) with 40. change (CONSOLE_HEIGHT / 8) with 3.
  pose proof (Z.mod_pos_bound (1 + num * 2 + b2z guest) 7 ltac:(lia)). do 2 f_equal. unfold schar, swrap.
  rewrite wrap_small by (unfold is_u; lia). change (2 ^ (8 - 1)) with 128. by rewrite (proj2 (Z.ltb_lt _ _)) by lia.
Qed.

Lemma console_get_mmio_ok num guest x y : 0 <= num < 8 -> 0 <= x < 40 -> 0 <= y < 3 ->
  console_get_mmio (Some (window num guest)) x y = Ok (cell_of num guest x y).
Proof.
  intros Hn Hx Hy. unfold console_get_mmio, console_get_mmio_null, CONSOLE_WIDTH, CONSOLE_HEIGHT. cbn [window width height left top].
  rewrite !(proj2 (Z.leb_le 0 _)) by (destruct guest; cbn; lia).
  rewrite (proj2 (Z.ltb_lt x 40)), (proj2 (Z.ltb_lt y 3)), (proj2 (Z.ltb_lt _ 80)), (proj2 (Z.ltb_lt _ 25)) by (destruct guest; cbn; lia).
  cbn [andb ASSERT mbind res_bind]. unfold cell_of. done.
Qed.

(** The windows tile the screen without overlap: every position of the window of one of
    the eight CPUs, host or guest side, has a cell, inside the screen, and no two positions of the same
    or of different windows share it. *)
Theorem console_windows_disjoint num guest x y num' guest' x' y' :
  0 <= num < 8 -> 0 <= x < 40 -> 0 <= y < 3 -> 0 <= num' < 8 -> 0 <= x' < 40 -> 0 <= y' < 3 ->
  exists vc vc' p p', console_get_vc num guest = Ok vc /\ console_get_vc num' guest' = Ok vc' /\
    console_get_mmio (Some vc) x y = Ok p /\ console_get_mmio (Some vc') x' y' = Ok p' /\
    CONSOLE_MEM_BASE <= p /\ p + 2 <= CONSOLE_MEM_BASE + 2 * CONSOLE_WIDTH * CONSOLE_HEIGHT /\
    ((num, guest, x, y) <> (num', guest', x', y') -> p + 2 <= p' \/ p' + 2 <= p).
Proof.
  intros Hn Hx Hy Hn' Hx' Hy'. exists (window num guest), (window num' guest'), (cell_of num guest x y), (cell_of num' guest' x' y').
  rewrite !console_get_vc_ok, !console_get_mmio_ok by done. split_and!; try done.
  - unfold cell_of. destruct guest; cbn; lia.
  - unfold cell_of, CONSOLE_WIDTH, CONSOLE_HEIGHT. destruct guest; cbn; lia.
  - intros Hne. unfold cell_of. assert (num = num' -> guest = guest' -> x = x' -> y = y' -> False) by (intros -> -> -> ->; done).
    destruct guest, guest'; cbn [b2z];
      (destruct (Z.eq_dec (y + 3 * num) (y' + 3 * num')) as [E|E]; [|lia]);
      (destruct (Z.eq_dec x x') as [->|]; [|lia]); assert (num = num') by lia; assert (y = y') by lia; tauto || lia.
Qed.

Lemma console_windows_disjoint_witness :
  exists vc vc' p p', console_get_vc 3 true = Ok vc /\ console_get_vc 4 true = Ok vc' /\
    console_get_mmio (Some vc) 39 2 = Ok p /\ console_get_mmio (Some vc') 0 0 = Ok p' /\
    CONSOLE_MEM_BASE <= p /\ p + 2 <= CONSOLE_MEM_BASE + 2 * CONSOLE_WIDTH * CONSOLE_HEIGHT /\
    ((3, true, 39, 2) <> (4, true, 0, 0) -> p + 2 <= p' \/ p' + 2 <= p).
Proof. apply (console_windows_disjoint 3 true 39 2 4 true 0 0); lia. Defined.

(** ** Clearing a window *)

Lemma clear_column_ok n num guest i j m :
  0 <= num < 8 -> 0 <= i < 40 -> 0 <= j -> j + Z.of_nat n = 3 ->
  exists m', clear_column n (window num guest) i j m = Ok m' /\
    (forall y k, j <= y < 3 -> k = 0 \/ k = 1 ->
       rd8 m' (cell_of num guest i y + k) = if k =? 0 then 32 else u8 (color (window num guest))) /\
    (forall a, (forall y k, 0 <= y < 3 -> k = 0 \/ k = 1 -> a <> cell_of num guest i y + k) -> rd8 m' a = rd8 m a) /\
    (forall y k, 0 <= y < j -> k = 0 \/ k = 1 -> rd8 m' (cell_of num guest i y + k) = rd8 m (cell_of num guest i y + k)).
Proof.
  intros Hnum Hi. revert j m. induction n as [|n IH]; intros j m Hj Hn; cbn [clear_column].
  - exists m. split_and!; try done. lia.
  - rewrite console_get_mmio_ok by lia. cbn [mbind res_bind].
    destruct (IH (j + 1) (wr8 (wr8 m (cell_of num guest i j) 32) (cell_of num guest i j + 1) (color (window num guest))))
      as (m' & -> & H1 & H2 & H3); [lia|lia|]. exists m'. split; [done|]. split_and!.
    + intros y k Hy Hk. destruct (decide (y = j)) as [->|]; [|apply H1; lia]. rewrite H3 by lia. rewrite !rd8_wr8.
      destruct Hk as [->| ->]; cbn; bcase; done.
    + intros a Ha. rewrite H2 by done. rewrite !rd8_wr8.
      pose proof (Ha j 0 ltac:(lia) ltac:(by left)). pose proof (Ha j 1 ltac:(lia) ltac:(by right)). bcase; done.
    + intros y k Hy Hk. rewrite H3 by lia. rewrite !rd8_wr8. unfold cell_of. bcase; done.
Qed.

Lemma clear_columns_ok n num guest i m :
  0 <= num < 8 -> 0 <= i -> i + Z.of_nat n = 40 ->
  exists m', clear_columns n (window num guest) i m = Ok m' /\
    (forall x y k, i <= x < 40 -> 0 <= y < 3 -> k = 0 \/ k = 1 ->
       rd8 m' (cell_of num guest x y + k) = if k =? 0 then 32 else u8 (color (window num guest))) /\
    (forall a, (forall x y k, i <= x < 40 -> 0 <= y < 3 -> k = 0 \/ k = 1 -> a <> cell_of num guest x y + k) -> rd8 m' a = rd8 m a).
Proof.
  intros Hnum. revert i m. induction n as [|n IH]; intros i m Hi Hn; cbn [clear_columns].
  - exists m. split_and!; try done. lia.
  - change (Z.to_nat (height (window num guest))) with 3%nat.
    destruct (clear_column_ok 3 num guest i 0 m Hnum ltac:(lia) ltac:(lia) ltac:(lia)) as (m1 & -> & H1 & H2 & _). cbn [mbind res_bind].
    destruct (IH (i + 1) m1) as (m' & -> & H3 & H4); [lia|lia|]. exists m'. split; [done|]. split.
    + intros x y k Hx Hy Hk. destruct (decide (x = i)) as [->|]; [|apply H3; lia]. rewrite H4.
      * by apply H1.
      * intros x' y' k' Hx' Hy' Hk'. unfold cell_of. lia.
    + intros a Ha. rewrite H4 by (intros; apply Ha; lia). apply H2. intros y k Hy Hk. apply Ha; lia.
Qed.

(** [console_clear] of the window of a CPU fills it with blanks in the color of the
    window, never halts, and changes no byte outside of it, in particular no other window. *)
Theorem console_clear_window num guest m :
  0 <= num < 8 ->
  exists vc m', console_get_vc num guest = Ok vc /\ console_clear vc m = Ok m' /\
    (forall x y, 0 <= x < 40 -> 0 <= y < 3 ->
       rd8 m' (cell_of num guest x y) = 32 /\ rd8 m' (cell_of num guest x y + 1) = color vc) /\
    (forall a, (forall x y, 0 <= x < 40 -> 0 <= y < 3 -> a <> cell_of num guest x y /\ a <> cell_of num guest x y + 1) -> rd8 m' a = rd8 m a).
Proof.
  intros Hn. exists (window num guest). destruct (clear_columns_ok 40 num guest 0 m Hn ltac:(lia) ltac:(lia)) as (m' & E & H1 & H2).
  exists m'. split; [by apply console_get_vc_ok|]. split; [done|]. split.
  - intros x y Hx Hy. pose proof (H1 x y 0 Hx Hy ltac:(by left)) as E0. rewrite Z.add_0_r in E0. split; [done|].
    rewrite (H1 x y 1) by (done || by right). cbn [Z.eqb]. apply wrap_small. unfold is_u, window. cbn [color].
    pose proof (Z.mod_pos_bound (1 + num * 2 + b2z guest) 7 ltac:(lia)). lia.
  - intros a Ha. apply H2. intros x y k Hx Hy [->| ->]; destruct (Ha x y Hx Hy); lia.
Qed.

Lemma console_clear_window_witness :
  exists vc m', console_get_vc 7 true = Ok vc /\ console_clear vc ∅ = Ok m' /\ rd8 m' (cell_of 7 true 39 2) = 32.
Proof.
  destruct (console_clear_window 7 true ∅) as (vc & m' & E & Ec & H & _); [lia|]. exists vc, m'.
  split; [exact E|split; [exact Ec|]]. exact (proj1 (H 39 2 ltac:(lia) ltac:(lia))).
Defined.

(** ** The console output of [src/debug.c] *)

Section debug.
Context {D : Device}.
(** The build options. *)
Context (DEBUG_SERIAL DEBUG_VGA : bool).

Definition UART_PORT : Z := 0x3f8.
Definition dbg_x86_uart_putc_bare (fuel : nat) (ch : Z) : IO unit :=
  wait_in fuel (UART_PORT + 5) (fun v => truth (Z.land v 0x20)) ≫= fun _ => outb UART_PORT (u8 ch).
Definition dbg_x86_uart_putc := dbg_x86_uart_putc_bare.
Fixpoint dbg_x86_uart_putstr (fuel : nat) (s : cstr) : IO unit :=
  match s with [] => mret tt | c :: s => dbg_x86_uart_putc fuel (schar c) ≫= fun _ => dbg_x86_uart_putstr fuel s end.
Definition dbg_x86_uart_init : IO unit :=
  outb (UART_PORT + 1) 0x00 ≫= fun _ =>
  outb (UART_PORT + 3) 0x80 ≫= fun _ =>
  outb (UART_PORT + 0) 0x01 ≫= fun _ =>
  outb (UART_PORT + 1) 0x00 ≫= fun _ =>
  outb (UART_PORT + 3) 0x03 ≫= fun _ =>
  outb (UART_PORT + 4) 0x03.

(** A step on the terminal inside the monad. *)
Definition on_vga (f : cursor -> mem -> cursor * mem) (v : cursor) : IO cursor := fun w =>
  let '(v, m) := f v (w_mem w) in Ok (v, mkW m (w_tr w)).

Definition emhfc_debug_init (v : cursor) : IO cursor :=
  (if DEBUG_SERIAL then dbg_x86_uart_init else mret tt) ≫= fun _ =>
  (if DEBUG_VGA then on_vga (fun _ m => dbg_x86_vgamem_init m) v else mret v).
Definition emhfc_putchar (fuel : nat) (c : Z) (v : cursor) : IO cursor :=
  let ch := schar c in
  (if DEBUG_SERIAL then dbg_x86_uart_putc fuel ch else mret tt) ≫= fun _ =>
  (if DEBUG_VGA then on_vga (dbg_x86_vgamem_putc ch) v else mret v).

(** The bytes written to the data port of the UART, oldest first. *)
Definition uart_out (tr : list ioev) : list Z :=
  omap (fun e => match e with EOut p v => if p =? UART_PORT then Some v else None | _ => None end) (rev tr).

(** Every byte written to the data port comes right after a read of the status port that says it may. *)
Fixpoint uart_paced (tr : list ioev) : Prop :=
  match tr with
  | EOut p _ :: (EIn q v :: _) as tr' => (p = UART_PORT -> q = UART_PORT + 5 /\ truth (Z.land v 0x20) = true) /\ uart_paced tr'
  | EOut p _ :: tr' => p <> UART_PORT /\ uart_paced tr'
  | _ :: tr' => uart_paced tr'
  | [] => True
  end.
End debug.

Section uart.
Context {D : Device}.

(** The transmitter becomes empty within [fuel] reads of the status port. *)
Definition uart_ready (fuel : nat) : Prop :=
  forall n, exists k, (k < fuel)%nat /\ forall tr, length tr = (n + k)%nat -> truth (Z.land (u8 (dev_in tr (UART_PORT + 5))) 0x20) = true.

Lemma uart_putc_ok fuel c w :
  uart_ready fuel -> uart_paced (w_tr w) ->
  exists w', dbg_x86_uart_putc fuel c w = Ok (tt, w') /\ w_mem w' = w_mem w /\
    uart_paced (w_tr w') /\ uart_out (w_tr w') = uart_out (w_tr w) ++ [u8 c].
Proof.
  intros Hr Hp. unfold dbg_x86_uart_putc, dbg_x86_uart_putc_bare.
  destruct (wait_in_ready fuel (UART_PORT + 5) (fun v => truth (Z.land v 0x20)) w (Hr (length (w_tr w)))) as [r E].
  destruct (wait_in_trace _ _ _ _ _ E) as (vs & v & Hv & Hvs & ->).
  erewrite bind_run by exact E. eexists. split; [done|]. split; [done|]. cbn [w_tr]. unfold u8. rewrite !(wrap_wrap 8 8) by lia.
  assert (uart_paced (map (EIn (UART_PORT + 5)) vs ++ w_tr w)) as Hp' by (clear -Hp; induction vs; done).
  split; [cbn; done|]. unfold uart_out. cbn [rev]. rewrite !omap_app. cbn. rewrite rev_app_distr, omap_app, app_nil_r.
  rewrite <- !app_assoc. f_equal. rewrite omap_app || idtac.
  assert (forall l, omap (fun e => match e with EOut p x => if p =? UART_PORT then Some x else None | _ => None end)
    (rev (map (EIn (UART_PORT + 5)) l)) = []) as ->; [|done].
  intros l. rewrite <- map_rev. induction (rev l) as [|x l' IH]; [done|]. cbn. apply IH.
Qed.

(** The serial console transmits a string faithfully: when the transmitter keeps becoming
    empty within the polls allowed, [dbg_x86_uart_putstr] returns, the bytes written to the
    data port are those of the string in order, and each was written right after a read of
    the status port that showed the transmitter empty. *)
Theorem uart_putstr_transmits fuel s w :
  uart_ready fuel -> uart_paced (w_tr w) -> str_wf s ->
  exists w', dbg_x86_uart_putstr fuel s w = Ok (tt, w') /\ w_mem w' = w_mem w /\
    uart_paced (w_tr w') /\ uart_out (w_tr w') = uart_out (w_tr w) ++ s.
Proof.
  intros Hr. revert w. induction s as [|c s IH]; intros w Hp Hs; cbn [dbg_x86_uart_putstr].
  - exists w. rewrite app_nil_r. done.
  - apply Forall_cons in Hs as [Hc Hs].
    destruct (uart_putc_ok fuel (schar c) w Hr Hp) as (w1 & E1 & Em1 & Hp1 & Ho1).
    destruct (IH w1 Hp1 Hs) as (w2 & E2 & Em2 & Hp2 & Ho2). exists w2.
    erewrite bind_run by exact E1. split; [done|]. split; [congruence|]. split; [done|].
    rewrite Ho2, Ho1, <- app_assoc. cbn. do 2 f_equal. unfold schar, swrap, u8.
    rewrite (wrap_small 8 c) by (unfold is_u; lia). destruct (c <? 2 ^ (8 - 1)).
    + apply wrap_small. unfold is_u. lia.
    + unfold wrap. change (2 ^ 8) with 256. replace (c - 256) with (c + (-1) * 256) by lia. rewrite Z.mod_add by lia. apply Z.mod_small. lia.
Qed.
End uart.

Definition ready_device : Device := {| dev_in := fun _ _ => 0x60; dev_read := fun _ _ => 0; dev_rdmsr := fun _ _ => 0 |}.
Lemma uart_putstr_transmits_witness :
  exists w', @dbg_x86_uart_putstr ready_device 1 [79; 75] (mkW ∅ []) = Ok (tt, w') /\ uart_out (w_tr w') = [79; 75].
Proof.
  destruct (@uart_putstr_transmits ready_device 1 [79; 75] (mkW ∅ [])) as (w' & E & _ & _ & Ho).
  - intros n. exists 0%nat. split; [lia|]. intros tr _. by vm_compute.
  - done.
  - by repeat constructor.
  - exists w'. split; [exact E|exact Ho].
Defined.
