(* ===== verification/Devices.v ===== *)
(** [src/shv-pic.c], [src/shv-keyboard.c] and [src/shv-mouse.c]: the interrupt controllers
    and the PS/2 devices. *)
From Stdlib Require Import String.
From S2P Require Import Prelude.
From S2P Require Import Mem.
From S2P Require Import CString.
From S2P Require Import Cmdline.
From S2P Require Import Stdio.
From S2P Require Import Io.

(** The fields of [VCPU] the device code uses. *)
Record dcpu := mkDcpu {
  c_id : Z; c_idx : Z; c_isbsp : bool; c_pit_time : Z; c_lapic_time : Z;
  c_pit_x : Z * Z; c_lapic_x : Z * Z }.

(** The global counters of interrupts to drop. *)
Record drops := mkDrops { drop_keyboard_interrupts : Z; drop_mouse_interrupts : Z }.

(** ** The 8259 interrupt controllers *)

Definition MASTER_ICW : Z := 0x20.
Definition MASTER_OCW : Z := 0x21.
Definition SLAVE_ICW : Z := 0xA0.
Definition SLAVE_OCW : Z := 0xA1.
Definition PICM_ICW1 : Z := Z.lor 0x10 0x01.
Definition PICM_ICW3 : Z := 0x04.
Definition PICM_ICW4 : Z := 0x01.
Definition PICS_ICW1 : Z := Z.lor 0x10 0x01.
Definition PICS_ICW3 : Z := 0x02.
Definition PICS_ICW4 : Z := 0x01.
Definition X86_PIC_MASTER_IRQ_BASE : Z := 0x20.
Definition X86_PIC_SLAVE_IRQ_BASE : Z := 0x28.
Definition NON_SPEC_EOI : Z := 0x20.
Definition OCW_TEMPLATE : Z := 0x08.
Definition READ_NEXT_RD : Z := 0x02.
Definition READ_IS_ONRD : Z := 0x01.
Definition INT_CTL_PORT : Z := MASTER_ICW.
Definition INT_ACK_CURRENT : Z := NON_SPEC_EOI.

Definition pic_init : IO unit :=
  outb MASTER_ICW PICM_ICW1 ≫= fun _ =>
  outb MASTER_OCW X86_PIC_MASTER_IRQ_BASE ≫= fun _ =>
  outb MASTER_OCW PICM_ICW3 ≫= fun _ =>
  outb MASTER_OCW PICM_ICW4 ≫= fun _ =>
  outb SLAVE_ICW PICS_ICW1 ≫= fun _ =>
  outb SLAVE_OCW X86_PIC_SLAVE_IRQ_BASE ≫= fun _ =>
  outb SLAVE_OCW PICS_ICW3 ≫= fun _ =>
  outb SLAVE_OCW PICS_ICW4 ≫= fun _ =>
  outb MASTER_ICW NON_SPEC_EOI ≫= fun _ =>
  outb SLAVE_ICW NON_SPEC_EOI ≫= fun _ =>
  outb SLAVE_OCW 0 ≫= fun _ =>
  outb MASTER_OCW 0.

Section device.
Context {D : Device}.

(** [irq] is an [unsigned char]; the value is an [int]. *)
Definition pic_spurious (irq : Z) : IO Z :=
  let cmd := Z.lor (Z.lor READ_IS_ONRD OCW_TEMPLATE) READ_NEXT_RD in
  if irq <=? 7 then
    outb MASTER_ICW cmd ≫= fun _ =>
    v ← inb MASTER_ICW; mret (b2z (Z.land v (Z.shiftl 1 irq) =? 0))
  else if irq <=? 15 then
    outb SLAVE_ICW cmd ≫= fun _ =>
    v ← inb SLAVE_ICW; mret (b2z (Z.land v (Z.shiftl 1 (irq - 8)) =? 0))
  else mret (-1).

(** ** The keyboard *)

Definition KEYBOARD_PORT : Z := 0x60.

Definition handle_keyboard_interrupt (a : subarch) (g : opts) (vcpu : dcpu) (vector : Z) (guest : bool) (d : drops) : IO drops :=
  (if negb (truth (Z.land (g_nmi_opt g) 1)) then ASSERT_io (c_isbsp vcpu) else mret tt) ≫= fun _ =>
  ASSERT_io (vector =? 0x21) ≫= fun _ =>
  d ← (if truth (drop_keyboard_interrupts d) then
         printf a (lit "Dropped a keyborad interrupt" ++ [10]) [] ≫= fun _ =>
         mret (mkDrops (u32 (drop_keyboard_interrupts d - 1)) (drop_mouse_interrupts d))
       else
         scancode ← inb KEYBOARD_PORT;
         printf a (lit "CPU(0x%02x): key press: 0x%hh02x, guest=%d" ++ [10])
           [VNum 32 (c_id vcpu); VNum 32 scancode; VNum 32 (b2z guest)] ≫= fun _ => mret d);
  outb INT_CTL_PORT INT_ACK_CURRENT ≫= fun _ => mret d.

(** ** The PS/2 controller and the mouse *)

Definition PS2_DATA_PORT : Z := 0x60.
Definition PS2_CTRL_PORT : Z := 0x64.

Definition ps2_recv_stat : IO Z := inb PS2_CTRL_PORT.
(** Waits until the controller can take a byte, or has one. *)
Definition ps2_wait_write (fuel : nat) : IO unit := wait_in fuel PS2_CTRL_PORT (fun s => negb (truth (Z.land s 2))).
Definition ps2_wait_read (fuel : nat) : IO unit := wait_in fuel PS2_CTRL_PORT (fun s => truth (Z.land s 1)).
Definition ps2_send_ctrl (fuel : nat) (ctrl : Z) : IO unit := ps2_wait_write fuel ≫= fun _ => outb PS2_CTRL_PORT ctrl.
Definition ps2_recv_data (fuel : nat) : IO Z := ps2_wait_read fuel ≫= fun _ => inb PS2_DATA_PORT.
Definition ps2_send_data (fuel : nat) (data : Z) : IO unit := ps2_wait_write fuel ≫= fun _ => outb PS2_DATA_PORT data.
Definition ps2_read_conf (fuel : nat) : IO Z := ps2_send_ctrl fuel 0x20 ≫= fun _ => ps2_recv_data fuel.
Definition ps2_write_conf (fuel : nat) (data : Z) : IO unit := ps2_send_ctrl fuel 0x60 ≫= fun _ => ps2_send_data fuel data.

(** The loop that empties the output buffer. *)
Fixpoint ps2_flush (fuel polls : nat) : IO unit :=
  match fuel with
  | O => lift (Err NoFuel)
  | S fuel =>
      s ← ps2_recv_stat;
      if truth (Z.land s 1) then ps2_recv_data polls ≫= fun _ => ps2_flush fuel polls else mret tt
  end.

(** [interrupted] is what interrupts do to the counters while the answer to the last command is awaited. *)
Definition mouse_init (a : subarch) (fuel : nat) (interrupted : drops -> drops) (vcpu : dcpu) (d : drops) : IO drops :=
  ASSERT_io (c_isbsp vcpu) ≫= fun _ =>
  printf a (lit "Initializing mouse" ++ [10]) [] ≫= fun _ =>
  ps2_send_ctrl fuel 0xad ≫= fun _ =>
  ps2_send_ctrl fuel 0xa7 ≫= fun _ =>
  ps2_flush fuel fuel ≫= fun _ =>
  conf ← ps2_read_conf fuel;
  ASSERT_io (truth (Z.land conf 0x20)) ≫= fun _ =>
  ps2_write_conf fuel (u8 (Z.land conf (Z.lnot 0x43))) ≫= fun _ =>
  ps2_send_ctrl fuel 0xaa ≫= fun _ =>
  v ← ps2_recv_data fuel; ASSERT_io (v =? 0x55) ≫= fun _ =>
  ps2_send_ctrl fuel 0xa8 ≫= fun _ =>
  v ← ps2_read_conf fuel; ASSERT_io (negb (truth (Z.land v (2 ^ 5)))) ≫= fun _ =>
  ps2_send_ctrl fuel 0xa7 ≫= fun _ =>
  v ← ps2_read_conf fuel; ASSERT_io (truth (Z.land v (2 ^ 5))) ≫= fun _ =>
  ps2_send_ctrl fuel 0xab ≫= fun _ =>
  v ← ps2_recv_data fuel; ASSERT_io (v =? 0x00) ≫= fun _ =>
  ps2_send_ctrl fuel 0xa9 ≫= fun _ =>
  v ← ps2_recv_data fuel; ASSERT_io (v =? 0x00) ≫= fun _ =>
  ps2_send_ctrl fuel 0xae ≫= fun _ =>
  ps2_send_ctrl fuel 0xa8 ≫= fun _ =>
  conf ← ps2_read_conf fuel;
  ASSERT_io (negb (truth (Z.land conf 0x30))) ≫= fun _ =>
  ps2_write_conf fuel (Z.lor conf 0x03) ≫= fun _ =>
  let d := mkDrops (drop_keyboard_interrupts d) 1 in
  ps2_send_ctrl fuel 0xd4 ≫= fun _ =>
  ps2_send_data fuel 0xf4 ≫= fun _ =>
  v ← ps2_recv_data fuel; ASSERT_io (v =? 0xfa) ≫= fun _ =>
  let d := interrupted d in
  ASSERT_io (drop_mouse_interrupts d =? 0) ≫= fun _ =>
  printf a (lit "Initialized mouse" ++ [10]) [] ≫= fun _ => mret d.

Definition handle_mouse_interrupt (a : subarch) (vcpu : dcpu) (vector : Z) (guest : bool) (d : drops) : IO drops :=
  ASSERT_io (c_isbsp vcpu) ≫= fun _ =>
  ASSERT_io (vector =? 0x2c) ≫= fun _ =>
  d ← (if truth (drop_mouse_interrupts d) then
         printf a (lit "Dropped a mouse interrupt" ++ [10]) [] ≫= fun _ =>
         mret (mkDrops (drop_keyboard_interrupts d) (u32 (drop_mouse_interrupts d - 1)))
       else
         scancode ← inb PS2_DATA_PORT;
         printf a (lit "CPU(0x%02x): mouse: 0x%hh02x, guest=%d" ++ [10])
           [VNum 32 (c_id vcpu); VNum 32 scancode; VNum 32 (b2z guest)] ≫= fun _ => mret d);
  outb SLAVE_ICW INT_ACK_CURRENT ≫= fun _ =>
  outb INT_CTL_PORT INT_ACK_CURRENT ≫= fun _ => mret d.
End device.

(** ** The protocol of the PS/2 controller *)

(** A byte may be written only right after a status read with the input buffer empty, and
    the data port read only right after one with the output buffer full. *)
Definition ps2_ok (e : ioev) (before : list ioev) : Prop :=
  match e with
  | EOut p _ => p = PS2_DATA_PORT \/ p = PS2_CTRL_PORT ->
      exists s tr, before = EIn PS2_CTRL_PORT s :: tr /\ truth (Z.land s 2) = false
  | EIn p _ => p = PS2_DATA_PORT ->
      exists s tr, before = EIn PS2_CTRL_PORT s :: tr /\ truth (Z.land s 1) = true
  | _ => True
  end.
Fixpoint ps2_paced (tr : list ioev) : Prop :=
  match tr with e :: tr => ps2_ok e tr /\ ps2_paced tr | [] => True end.

(** A computation keeps the protocol. *)
Definition keeps {A} (m : IO A) : Prop :=
  forall w r, m w = Ok r -> ps2_paced (w_tr w) -> ps2_paced (w_tr r.2).

Section protocol.
Context {D : Device}.

Lemma keeps_bind {A B} (m : IO A) (f : A -> IO B) : keeps m -> (forall a, keeps (f a)) -> keeps (m ≫= f).
Proof. intros Hm Hf w r H Hp. apply IO_bind_Ok in H as (a & w1 & E & H). by eapply Hf, (Hm w (a, w1)). Qed.
Lemma keeps_ret {A} (x : A) : keeps (mret x).
Proof. by intros w r [= <-]. Qed.
Lemma keeps_lift {A} (r : res A) : keeps (lift r).
Proof. intros w x H. unfold lift in H. destruct r; [|done]. by injection H as <-. Qed.
Lemma keeps_quiet (e : ioev) : (forall tr, ps2_ok e tr) -> keeps (emit e).
Proof. intros He w r [= <-] Hp. by split. Qed.
Lemma keeps_stat : keeps ps2_recv_stat.
Proof. intros w r [= <-] Hp. by split. Qed.

Lemma keeps_printf a fmt ap : keeps (printf a fmt ap).
Proof.
  unfold printf, vprintf. apply keeps_bind; [by apply keeps_quiet|intros _].
  apply keeps_bind; [apply keeps_lift|intros k]. apply keeps_bind; [|intros _; apply keeps_bind; [by apply keeps_quiet|intros; apply keeps_ret]].
  induction (k_ev k) as [|e l IH]; [apply keeps_ret|]. cbn [puts_io]. apply keeps_bind; [|done].
  intros w r H Hp. destruct e; injection H as <-; [by split|done].
Qed.

Lemma keeps_wait fuel ok : keeps (wait_in fuel PS2_CTRL_PORT ok).
Proof.
  induction fuel as [|fuel IH]; [by intros w r H|]. cbn [wait_in].
  apply keeps_bind; [apply keeps_stat|]. intros v. destruct (ok v); [apply keeps_ret|done].
Qed.

(** What the last event is after a wait. *)
Lemma wait_last fuel ok w r :
  wait_in fuel PS2_CTRL_PORT ok w = Ok r -> exists s tr, w_tr r.2 = EIn PS2_CTRL_PORT s :: tr /\ ok s = true.
Proof. intros H. apply wait_in_trace in H as (vs & v & Hv & _ & ->). cbn. eauto. Qed.

Lemma keeps_send fuel p v : keeps (ps2_wait_write fuel ≫= fun _ => outb p v).
Proof.
  intros w r H Hp. apply IO_bind_Ok in H as (x & w1 & E & H). pose proof (keeps_wait _ _ _ _ E Hp) as Hp1.
  destruct (wait_last _ _ _ _ E) as (s & tr & Et & Hs). cbn in Et, Hp1. injection H as <-. cbn. split; [|done].
  intros _. exists s, tr. split; [done|]. by apply negb_true_iff.
Qed.
Lemma keeps_recv fuel : keeps (ps2_recv_data fuel).
Proof.
  intros w r H Hp. apply IO_bind_Ok in H as (x & w1 & E & H). pose proof (keeps_wait _ _ _ _ E Hp) as Hp1.
  destruct (wait_last _ _ _ _ E) as (s & tr & Et & Hs). cbn in Et, Hp1. injection H as <-. cbn. split; [|done].
  intros _. by exists s, tr.
Qed.
Lemma keeps_send_ctrl fuel v : keeps (ps2_send_ctrl fuel v).
Proof. apply keeps_send. Qed.
Lemma keeps_send_data fuel v : keeps (ps2_send_data fuel v).
Proof. apply keeps_send. Qed.
Lemma keeps_read_conf fuel : keeps (ps2_read_conf fuel).
Proof. apply keeps_bind; [apply keeps_send|intros; apply keeps_recv]. Qed.
Lemma keeps_write_conf fuel v : keeps (ps2_write_conf fuel v).
Proof. apply keeps_bind; [apply keeps_send|intros; apply keeps_send]. Qed.
Lemma keeps_flush fuel polls : keeps (ps2_flush fuel polls).
Proof.
  induction fuel as [|fuel IH]; [by intros w r H|]. cbn [ps2_flush].
  apply keeps_bind; [apply keeps_stat|]. intros s. destruct (truth _); [|apply keeps_ret].
  apply keeps_bind; [apply keeps_recv|done].
Qed.
Lemma keeps_assert b : keeps (ASSERT_io b).
Proof. apply keeps_lift. Qed.

Create HintDb keeps.
Hint Resolve keeps_ret keeps_printf keeps_send_ctrl keeps_send_data keeps_recv keeps_read_conf keeps_write_conf keeps_flush keeps_assert : keeps.

(** The mouse driver follows the controller protocol: whatever the devices answer, if
    [mouse_init] returns, it has written every command and data byte right after a status
    read that showed the input buffer empty and read every data byte right after one that
    showed the output buffer full. *)
Theorem mouse_init_protocol a fuel interrupted vcpu d w d' w' :
  mouse_init a fuel interrupted vcpu d w = Ok (d', w') -> ps2_paced (w_tr w) -> ps2_paced (w_tr w').
Proof.
  assert (keeps (mouse_init a fuel interrupted vcpu d)) as H; [|intros E; apply (H w (d', w') E)].
  unfold mouse_init. repeat (apply keeps_bind; [solve [auto with keeps]|intros ?]); cbv zeta;
  repeat (apply keeps_bind; [solve [auto with keeps]|intros ?]); auto with keeps.
Qed.
End protocol.

(** ** Witness: a controller that behaves *)

(** The second port is disabled by command 0xa7 and enabled by 0xa8; bit 5 of the configuration byte shows it. *)
Fixpoint demo_port2 (tr : list ioev) : Z :=
  match tr with
  | EOut p c :: tr => if (p =? 0x64) && (c =? 0xa8) then 0 else if (p =? 0x64) && (c =? 0xa7) then 0x20 else demo_port2 tr
  | _ :: tr => demo_port2 tr
  | [] => 0
  end.
(** The answer to the last byte written, until it is read. *)
Fixpoint demo_answer (tr : list ioev) : option Z :=
  match tr with
  | EIn p _ :: tr => if p =? 0x60 then None else demo_answer tr
  | EOut p c :: tr =>
      if p =? 0x64 then
        if c =? 0x20 then Some (demo_port2 tr) else if c =? 0xaa then Some 0x55
        else if (c =? 0xab) || (c =? 0xa9) then Some 0 else None
      else if (p =? 0x60) && (c =? 0xf4) then Some 0xfa else None
  | _ :: tr => demo_answer tr
  | [] => None
  end.
Definition demo_ps2 : Device :=
  {| dev_in := fun tr p =>
       if p =? 0x64 then match demo_answer tr with Some _ => 1 | None => 0 end else default 0 (demo_answer tr);
     dev_read := fun _ _ => 0; dev_rdmsr := fun _ _ => 0 |}.
Definition demo_bsp : dcpu := mkDcpu 0 0 true 0 0 (0, 0) (0, 0).

Lemma mouse_init_protocol_witness :
  match @mouse_init demo_ps2 AMD64 2 (fun d => mkDrops (drop_keyboard_interrupts d) 0) demo_bsp (mkDrops 0 0) (mkW ∅ []) with
  | Ok (_, w) => ps2_paced (w_tr w) /\ length (w_tr w) <> 0%nat
  | Err _ => False
  end.
Proof.
  destruct (@mouse_init demo_ps2 AMD64 2 _ demo_bsp (mkDrops 0 0) (mkW ∅ [])) as [[d w]|e] eqn:E.
  - split; [by apply (@mouse_init_protocol demo_ps2 _ _ _ _ _ _ _ _ E)|].
    vm_compute in E. injection E as _ <-. done.
  - vm_compute in E. discriminate.
Defined.
