(* ===== verification/Timer.v ===== *)
(** [src/shv-timer.c]: programming the timers, the timer interrupt and the clock of day. *)
From Stdlib Require Import String.
From S2P Require Import Prelude.
From S2P Require Import Mem.
From S2P Require Import CString.
From S2P Require Import Cmdline.
From S2P Require Import Stdio.
From S2P Require Import Io.
From S2P Require Import Screen.
From S2P Require Import Devices.

Definition RTC_SECS : Z := 0.
Definition RTC_MINS : Z := 2.
Definition RTC_HOURS : Z := 4.
Definition RTC_PORT_OUT : Z := 0x70.
Definition RTC_PORT_IN : Z := 0x71.
Definition TIMER_RATE : Z := 1193182.
Definition TIMER_PERIOD_IO_PORT : Z := 0x40.
Definition TIMER_MODE_IO_PORT : Z := 0x43.
Definition TIMER_SQUARE_WAVE : Z := 0x36.
Definition TIMER_ONE_SHOT : Z := 0x30.
Definition LAPIC_PERIOD (g : opts) : Z := u64 (g_timer_ms g * 1000000).

Definition LAPIC_DEFAULT_BASE : Z := 0xfee00000.
Definition LAPIC_EOI : Z := 0x0B0.
Definition LAPIC_SVR : Z := 0x0F0.
Definition LAPIC_LVT_TIMER : Z := 0x320.
Definition LAPIC_TIMER_INIT : Z := 0x380.
Definition LAPIC_TIMER_CUR : Z := 0x390.
Definition LAPIC_TIMER_DIV : Z := 0x3E0.
Definition LAPIC_ENABLE : Z := 0x100.
Definition SHV_NO_INTERRUPT : Z := 0x200.
Definition SHV_NO_VGA_ART : Z := 0x2000.
Definition NMI_ENABLE : Z := 1.

Definition opt (g x : Z) : bool := truth (Z.land g x).
Definition write_lapic (reg val : Z) : IO unit := write32 (LAPIC_DEFAULT_BASE + reg) val.

(** A computation on memory inside the monad. *)
Definition on_mem (f : mem -> res mem) : IO unit := fun w =>
  match f (w_mem w) with Ok m => Ok (tt, mkW m (w_tr w)) | Err e => Err e end.

(** State of the interrupt handlers: [shot_arrived], and the variables of [src/shv-nmi.c] the timer uses. *)
Record tglob := mkTglob { shot_arrived : bool; l2_ready : Z; l2_init_apic_id : Z; interrupt_period : Z; nmi_quiet : bool; nmi_count : Z }.

Section device.
Context {D : Device}.

Definition read_lapic (reg : Z) : IO Z := read32 (LAPIC_DEFAULT_BASE + reg).

(** ** The clock of day *)

Definition getrtcfield (field : Z) : IO Z :=
  outb RTC_PORT_OUT field ≫= fun _ =>
  bcd ← inb RTC_PORT_IN;
  mret (Z.land bcd 0xF + Z.shiftr bcd 4 * 10).

(** The inner and the outer loop of [rtc_get_sec_of_day]. *)
Fixpoint rtc_inner (fuel : nat) (m : Z) : IO (Z * Z) :=
  match fuel with
  | O => lift (Err NoFuel)
  | S fuel =>
      s ← getrtcfield RTC_SECS;
      m_new ← getrtcfield RTC_MINS;
      if negb (m =? m_new) then rtc_inner fuel m_new else mret (m, s)
  end.
Fixpoint rtc_outer (fuel fuel2 : nat) (h : Z) : IO (Z * Z * Z) :=
  match fuel with
  | O => lift (Err NoFuel)
  | S fuel =>
      m ← getrtcfield RTC_MINS;
      '(m, s) ← rtc_inner fuel2 m;
      h_new ← getrtcfield RTC_HOURS;
      if negb (h =? h_new) then rtc_outer fuel fuel2 h_new else mret (h, m, s)
  end.
Definition rtc_get_sec_of_day (fuel : nat) : IO Z :=
  h ← getrtcfield RTC_HOURS;
  '(h, m, s) ← rtc_outer fuel fuel h;
  mret (h * 3600 + m * 60 + s).

(** ** Programming the timers *)

Definition timer_init (g : opts) (vcpu : dcpu) : IO unit :=
  (if c_isbsp vcpu then
     let ncycles := u64 (TIMER_RATE * g_timer_ms g) / 1000 in
     ASSERT_io (ncycles =? u16 ncycles) ≫= fun _ =>
     if opt (g_shv_opt g) SHV_NO_INTERRUPT then
       outb TIMER_MODE_IO_PORT TIMER_ONE_SHOT ≫= fun _ =>
       outb TIMER_PERIOD_IO_PORT 1 ≫= fun _ =>
       outb TIMER_PERIOD_IO_PORT 0 ≫= fun _ =>
       emit EStiHltCli
     else
       outb TIMER_MODE_IO_PORT TIMER_SQUARE_WAVE ≫= fun _ =>
       outb TIMER_PERIOD_IO_PORT (u8 ncycles) ≫= fun _ =>
       outb TIMER_PERIOD_IO_PORT (u8 (Z.shiftr ncycles 8))
   else mret tt) ≫= fun _ =>
  (if negb (c_isbsp vcpu) then v ← read_lapic LAPIC_SVR; write_lapic LAPIC_SVR (Z.lor v LAPIC_ENABLE) else mret tt) ≫= fun _ =>
  if negb (opt (g_shv_opt g) SHV_NO_INTERRUPT) && negb (opt (g_nmi_opt g) NMI_ENABLE) then
    write_lapic LAPIC_TIMER_DIV 0x0000000b ≫= fun _ =>
    write_lapic LAPIC_TIMER_INIT (LAPIC_PERIOD g) ≫= fun _ =>
    write_lapic LAPIC_LVT_TIMER 0x00020022
  else mret tt.

(** ** The timer interrupt *)

(** The new [*x]; [Z.rem] is the remainder of C. *)
Definition update_screen (vcpu : dcpu) (x y : Z) (guest : bool) : IO Z :=
  vc ← lift (console_get_vc (c_idx vcpu) guest);
  let x := Z.rem (x + width vc) (width vc) in
  on_mem (console_put_char vc x y (48 + c_idx vcpu)) ≫= fun _ =>
  on_mem (console_put_char vc (Z.rem (x + Z.quot (width vc) 2) (width vc)) y 32) ≫= fun _ =>
  mret (Z.rem (x + 1) (width vc)).

Definition calibrate_timer (a : subarch) (g : opts) (fuel : nat) (vcpu : dcpu) : IO Z :=
  l_quo ← read_lapic LAPIC_TIMER_CUR;
  let p_t := c_pit_time vcpu in
  let l_t := c_lapic_time vcpu in
  let l_tot := u64 (u64 (l_t * LAPIC_PERIOD g) + l_quo) in
  if p_t =? 0 then lift (Err Undef)
  else
    sod ← rtc_get_sec_of_day fuel;
    printf a (lit "%lld" ++ [9] ++ lit "%lld" ++ [9] ++ lit "%lld" ++ [9] ++ lit "%lld" ++ [9] ++ lit "%lld" ++ [9] ++ lit "%lld" ++ [9] ++ lit "%d" ++ [10])
      [VNum 64 p_t; VNum 64 l_t; VNum 64 l_quo; VNum 64 l_tot; VNum 64 (u64 (l_tot - LAPIC_PERIOD g) / p_t);
       VNum 64 (l_tot / p_t); VNum 32 sod].

(** The entry of [int x[2]] for the host or the guest. *)
Definition pick (guest : bool) (p : Z * Z) : Z := if guest then p.2 else p.1.
Definition put (guest : bool) (p : Z * Z) (x : Z) : Z * Z := if guest then (p.1, x) else (x, p.2).

(** [src/shv-nmi.c]. *)
Definition shv_nmi_handle_timer_interrupt (a : subarch) (vcpu : dcpu) (vector : Z) (guest : bool) (t : tglob) : IO tglob :=
  ASSERT_io (c_isbsp vcpu) ≫= fun _ =>
  ASSERT_io (vector =? 0x20) ≫= fun _ =>
  ASSERT_io (negb guest) ≫= fun _ =>
  t ← (if truth (l2_ready t) then
         ASSERT_io (negb (l2_init_apic_id t =? 0)) ≫= fun _ =>
         write32 0xfee00310 (l2_init_apic_id t) ≫= fun _ =>
         let period := u32 (interrupt_period t * 2) in
         if period =? 0 then lift (Err Undef)
         else
           (if nmi_count t mod period =? 0 then
              (if negb (nmi_quiet t) then printf a (lit "      Inject NMI" ++ [10]) [] ≫= fun _ => mret tt else mret tt) ≫= fun _ =>
              write32 0xfee00300 0x00004400
            else if nmi_count t mod period =? interrupt_period t then
              (if negb (nmi_quiet t) then printf a (lit "      Inject interrupt" ++ [10]) [] ≫= fun _ => mret tt else mret tt) ≫= fun _ =>
              write32 0xfee00300 0x00004054
            else mret tt) ≫= fun _ =>
           mret (mkTglob (shot_arrived t) (l2_ready t) (l2_init_apic_id t) (interrupt_period t) (nmi_quiet t) (u32 (nmi_count t + 1)))
       else mret t);
  outb INT_CTL_PORT INT_ACK_CURRENT ≫= fun _ => mret t.

Definition handle_timer_interrupt (a : subarch) (g : opts) (vcpu : dcpu) (vector : Z) (guest : bool) (t : tglob) : IO (dcpu * tglob) :=
  if opt (g_shv_opt g) SHV_NO_INTERRUPT then
    ASSERT_io (c_isbsp vcpu) ≫= fun _ =>
    ASSERT_io (negb (shot_arrived t)) ≫= fun _ =>
    mret (vcpu, mkTglob true (l2_ready t) (l2_init_apic_id t) (interrupt_period t) (nmi_quiet t) (nmi_count t))
  else if opt (g_nmi_opt g) NMI_ENABLE then
    t ← shv_nmi_handle_timer_interrupt a vcpu vector guest t; mret (vcpu, t)
  else if vector =? 0x20 then
    x ← (if negb (opt (g_shv_opt g) SHV_NO_VGA_ART) then update_screen vcpu (pick guest (c_pit_x vcpu)) 0 guest
         else mret (pick guest (c_pit_x vcpu)));
    outb INT_CTL_PORT INT_ACK_CURRENT ≫= fun _ =>
    mret (mkDcpu (c_id vcpu) (c_idx vcpu) (c_isbsp vcpu) (u64 (c_pit_time vcpu + 1)) (c_lapic_time vcpu)
            (put guest (c_pit_x vcpu) x) (c_lapic_x vcpu), t)
  else if vector =? 0x22 then
    x ← (if negb (opt (g_shv_opt g) SHV_NO_VGA_ART) then update_screen vcpu (pick guest (c_lapic_x vcpu)) 1 guest
         else mret (pick guest (c_lapic_x vcpu)));
    write_lapic LAPIC_EOI 0 ≫= fun _ =>
    mret (mkDcpu (c_id vcpu) (c_idx vcpu) (c_isbsp vcpu) (c_pit_time vcpu) (u64 (c_lapic_time vcpu + 1))
            (c_pit_x vcpu) (put guest (c_lapic_x vcpu) x), t)
  else lift (Err Halt).
End device.

(** ** Properties *)

Section properties.
Context {D : Device}.

(** The two bytes given to the counter of the 8254. *)
Definition pit_count (lo hi : Z) : Z := lo + 256 * hi.

(** The period of the timer: the boot processor programs the counter with the number of
    cycles of [g_timer_ms] milliseconds, low byte first, in square wave mode, and exactly the
    periods up to 54 ms are accepted; a longer one halts instead of being truncated to 16 bits. *)
Theorem timer_init_period g vcpu w :
  c_isbsp vcpu = true -> opt (g_shv_opt g) SHV_NO_INTERRUPT = false -> opt (g_nmi_opt g) NMI_ENABLE = true ->
  0 <= g_timer_ms g < 2 ^ 43 ->
  if g_timer_ms g <=? 54
  then exists lo hi, timer_init g vcpu w =
         Ok (tt, mkW (w_mem w) (EOut TIMER_PERIOD_IO_PORT hi :: EOut TIMER_PERIOD_IO_PORT lo ::
                                EOut TIMER_MODE_IO_PORT TIMER_SQUARE_WAVE :: w_tr w)) /\
       pit_count lo hi = TIMER_RATE * g_timer_ms g / 1000 /\ 0 <= lo < 256 /\ 0 <= hi < 256
  else timer_init g vcpu w = Err Halt.
Proof.
  intros Hb Hi Hn Hms. unfold timer_init. rewrite Hb, Hi, Hn. cbn [negb andb].
  unfold u64. rewrite (wrap_small 64 (TIMER_RATE * g_timer_ms g)) by (unfold is_u, TIMER_RATE; lia).
  set (n := TIMER_RATE * g_timer_ms g / 1000).
  assert (0 <= n) as Hn0 by (unfold n, TIMER_RATE; apply Z.div_pos; lia).
  destruct (Z.leb_spec (g_timer_ms g) 54) as [Hle|Hgt].
  - assert (n < 2 ^ 16) as Hn16 by (unfold n, TIMER_RATE; apply Z.div_lt_upper_bound; lia).
    unfold u16. rewrite (wrap_small 16 n) by (unfold is_u; lia). rewrite Z.eqb_refl.
    exists (u8 (u8 n)), (u8 (u8 (Z.shiftr n 8))). split; [done|].
    unfold u8. rewrite !(wrap_wrap 8 8) by lia. rewrite Z.shiftr_div_pow2 by lia. unfold wrap, pit_count. change (2 ^ 8) with 256.
    pose proof (Z.div_mod n 256 ltac:(lia)). pose proof (Z.mod_pos_bound n 256 ltac:(lia)).
    assert (0 <= n / 256 < 256) by (split; [apply Z.div_pos; lia|apply Z.div_lt_upper_bound; lia]).
    rewrite (Z.mod_small (n / 256) 256) by lia. lia.
  - assert (2 ^ 16 <= n) as Hn16 by (unfold n, TIMER_RATE; apply Z.div_le_lower_bound; lia).
    rewrite (proj2 (Z.eqb_neq n (u16 n))); [done|]. pose proof (is_u_wrap 16 n ltac:(lia)) as [_ H]. unfold u16. lia.
Qed.

(** The row of the window of a CPU a timer draws in. *)
Definition in_row (num : Z) (guest : bool) (y a : Z) : Prop := exists x, 0 <= x < 40 /\ a = cell_of num guest x y.

Lemma update_screen_ok vcpu x y guest w :
  0 <= c_idx vcpu < 8 -> 0 <= x < 40 -> 0 <= y < 3 ->
  exists m', update_screen vcpu x y guest w = Ok ((x + 1) mod 40, mkW m' (w_tr w)) /\
    (forall a, ~ in_row (c_idx vcpu) guest y a -> rd8 m' a = rd8 (w_mem w) a) /\
    rd8 m' (cell_of (c_idx vcpu) guest x y) = 48 + c_idx vcpu /\ rd8 m' (cell_of (c_idx vcpu) guest ((x + 20) mod 40) y) = 32.
Proof.
  intros Hi Hx Hy. unfold update_screen. unfold lift at 1. rewrite console_get_vc_ok by done.
  erewrite bind_run by done. cbn [window width]. cbv zeta.
  assert (Z.rem (x + 40) 40 = x) as ->.
  { rewrite Z.rem_mod_nonneg by lia. replace (x + 40) with (x + 1 * 40) by lia. rewrite Z.mod_add by lia. by apply Z.mod_small. }
  change (Z.quot 40 2) with 20. rewrite !Z.rem_mod_nonneg by lia. set (x2 := (x + 20) mod 40).
  assert (0 <= x2 < 40) as H2 by (apply Z.mod_pos_bound; lia).
  assert (x <> x2) as Hne by (unfold x2; Z.div_mod_to_equations; lia).
  unfold console_put_char. rewrite !console_get_mmio_ok by lia.
  eexists. split; [reflexivity|]. cbn [w_mem]. split; [|split].
  - intros a Ha. rewrite !rd8_wr8. assert (forall x, 0 <= x < 40 -> a <> cell_of (c_idx vcpu) guest x y) as Hn.
    { intros z Hz ->. apply Ha. by exists z. }
    pose proof (Hn x Hx). pose proof (Hn x2 H2). bcase; done.
  - rewrite !rd8_wr8. rewrite (proj2 (Z.eqb_neq _ _)), Z.eqb_refl by (unfold cell_of; lia).
    unfold u8. rewrite (wrap_wrap 8 8) by lia. apply wrap_small. unfold is_u. lia.
  - rewrite rd8_wr8, Z.eqb_refl. done.
Qed.

(** The fields a timer interrupt of vector 0x20 or 0x22 works on. *)
Definition tick_x (vector : Z) (guest : bool) (v : dcpu) : Z := pick guest (if vector =? 0x20 then c_pit_x v else c_lapic_x v).
Definition tick_time (vector : Z) (v : dcpu) : Z := if vector =? 0x20 then c_pit_time v else c_lapic_time v.
Definition tick_ack (vector : Z) : ioev := if vector =? 0x20 then EOut 0x20 0x20 else EWrite 0xfee000b0 0.

End properties.

Lemma timer_init_period_witness :
  exists lo hi, @timer_init demo_ps2 (mkOpts 0 1 0 50) demo_bsp (mkW ∅ []) =
    Ok (tt, mkW ∅ [EOut TIMER_PERIOD_IO_PORT hi; EOut TIMER_PERIOD_IO_PORT lo; EOut TIMER_MODE_IO_PORT TIMER_SQUARE_WAVE]) /\
    pit_count lo hi = 59659.
Proof.
  destruct (@timer_init_period demo_ps2 (mkOpts 0 1 0 50) demo_bsp (mkW ∅ [])) as (lo & hi & E & Hc & _); [done..|cbn; lia|].
  exists lo, hi. split; [exact E|exact Hc].
Defined.

