(* ===== verification/Desc.v ===== *)
(** [src/gdt.c] and the table of [src/idt.c]: the descriptor tables, against decoders that
    read a descriptor the way the processor does. *)
From S2P Require Import Prelude.
From S2P Require Import Mem.

Definition GDT_NELEMS : Z := 10.
Definition IDT_NELEMS : Z := 256.
Definition __CS32 : Z := 0x08.
Definition __CS64 : Z := 0x18.
Definition __CS (a : subarch) : Z := match a with AMD64 => __CS64 | _ => __CS32 end.
Definition __TRSEL : Z := 0x20.
Definition is_amd64 (a : subarch) : bool := match a with AMD64 => true | _ => false end.
Definition st8_at (m : mem) (p v : Z) : mem := st 1 m p v.

(** Addresses of [g_gdt], [g_tss], [g_idt_host] and [g_idt_guest]. *)
Record desc_syms := mkDescSyms { g_gdt : Z; g_tss : Z; g_idt_host : Z; g_idt_guest : Z }.

(** ** The global descriptor table *)

(** [g_gdt[idx][i]]. *)
Definition gdt_at (s : desc_syms) (idx i : Z) : Z := g_gdt s + 8 * (GDT_NELEMS * idx + i).

(** The first block: the constant descriptors. *)
Definition gdt_entries (a : subarch) : list Z :=
  [ 0x0000000000000000; 0x00cf9a000000ffff; 0x00cf92000000ffff; 0x00af9a000000ffff; 0; 0;
    (if is_amd64 a then 0x00affa000000ffff else 0x00cffa000000ffff); 0x00cff2000000ffff; 0; 0 ].
Fixpoint st_entries (l : list Z) (p : Z) (m : mem) : mem :=
  match l with [] => m | e :: l => st_entries l (p + 8) (st64 m p e) end.

(** The fields of the TSS descriptor at [t], in the order of the code. *)
Definition set_tss_entry (a : subarch) (t tss_addr : Z) (m : mem) : mem :=
  let m := st8_at m (t + 5) 0x89 in
  let m := st8_at m (t + 6) 0x00 in
  let m := st16 m (t + 2) (u16 (Z.land tss_addr 0x0000FFFF)) in
  let m := st8_at m (t + 4) (u8 (Z.shiftr (Z.land tss_addr 0x00FF0000) 16)) in
  let m := st8_at m (t + 7) (u8 (Z.shiftr (Z.land tss_addr 0xFF000000) 24)) in
  let m := if is_amd64 a
    then st32 (st32 m (t + 8) (u32 (Z.shiftr (Z.land tss_addr 0xFFFFFFFF00000000) 32))) (t + 12) 0 else m in
  st16 m t 0x67.

(** [g_tss[idx]] is a page. *)
Definition tss_at (s : desc_syms) (idx : Z) : Z := g_tss s + 4096 * idx.

(** The memory, and the operands of [lgdt] (limit and base) and [ltr]. *)
Definition init_gdt (a : subarch) (s : desc_syms) (idx : Z) (m : mem) : mem * (Z * Z) * Z :=
  let m := st_entries (gdt_entries a) (gdt_at s idx 0) m in
  let m := set_tss_entry a (gdt_at s idx 4) (tss_at s idx) m in
  (m, (GDT_NELEMS * 8 - 1, gdt_at s idx 0), __TRSEL).

(** ** The interrupt descriptor table *)

Definition gate_bytes (a : subarch) : Z := if is_amd64 a then 16 else 8.

Definition construct_idt_entry (a : subarch) (vector stub entry : Z) (m : mem) : mem :=
  let m := st16 m entry (u16 stub) in
  let m := st16 m (entry + 6) (u16 (Z.shiftr stub 16)) in
  let m := if is_amd64 a then st32 (st32 m (entry + 8) (u32 (Z.shiftr stub 32))) (entry + 12) 0 else m in
  let m := st16 m (entry + 2) (__CS a) in
  let m := st8_at m (entry + 4) 0x0 in
  let m := st8_at m (entry + 5) 0x8E in
  if vector =? 0x23 then st8_at m (entry + 5) (Z.lor (ld8 m (entry + 5)) 0x60) else m.

(** One of the loops of [construct_idt]; [stubs] is the table of entry points. *)
Fixpoint idt_loop (n : nat) (a : subarch) (stubs : Z -> Z) (table i : Z) (m : mem) : mem :=
  match n with
  | O => m
  | S n => idt_loop n a stubs table (i + 1) (construct_idt_entry a (u8 i) (stubs i) (table + gate_bytes a * i) m)
  end.

(** [initialized] is the static flag; the lock around it makes the test and the assignment one step. *)
Definition construct_idt (a : subarch) (s : desc_syms) (stubs_host stubs_guest : Z -> Z) (initialized : bool) (m : mem) : bool * mem :=
  if initialized then (true, m)
  else
    let m := idt_loop (Z.to_nat IDT_NELEMS) a stubs_host (g_idt_host s) 0 m in
    (true, idt_loop (Z.to_nat IDT_NELEMS) a stubs_guest (g_idt_guest s) 0 m).

(** The operand of [lidt]; [cpuid_1_ecx] is what [cpuid] reports. *)
Definition init_idt (a : subarch) (s : desc_syms) (stubs_host stubs_guest : Z -> Z) (cpuid_1_ecx : Z) (initialized : bool) (m : mem)
    : res (bool * mem * (Z * Z)) :=
  let '(initialized, m) := construct_idt a s stubs_host stubs_guest initialized m in
  ASSERT (truth (Z.land cpuid_1_ecx (2 ^ 5))) ≫= fun _ =>
  Ok (initialized, m, (IDT_NELEMS * (ptr_bits a / 8) * 2 - 1, g_idt_host s)).

(** The search of [handle_idt] in the exception table, a list of vector, address and continuation. *)
Fixpoint xcph_lookup (table : list (Z * Z * Z)) (vector exception_ip : Z) : option Z :=
  match table with
  | [] => None
  | (v, ip, cont) :: table => if (v =? vector) && (ip =? exception_ip) then Some cont else xcph_lookup table vector exception_ip
  end.

(** ** How the processor reads a descriptor *)

(** Base, limit and type byte of a system segment descriptor. *)
Definition tss_base (a : subarch) (m : mem) (p : Z) : Z :=
  ld16 m (p + 2) + 2 ^ 16 * rd8 m (p + 4) + 2 ^ 24 * rd8 m (p + 7) + (if is_amd64 a then 2 ^ 32 * ld32 m (p + 8) else 0).
Definition tss_limit (m : mem) (p : Z) : Z := ld16 m p + 2 ^ 16 * Z.land (rd8 m (p + 6)) 15.
Definition tss_type (m : mem) (p : Z) : Z := rd8 m (p + 5).

(** Entry point, selector, stack table index, privilege level, type, and present bit of a gate. *)
Definition gate_offset (a : subarch) (m : mem) (p : Z) : Z :=
  ld16 m p + 2 ^ 16 * ld16 m (p + 6) + (if is_amd64 a then 2 ^ 32 * ld32 m (p + 8) else 0).
Definition gate_selector (m : mem) (p : Z) : Z := ld16 m (p + 2).
Definition gate_ist (m : mem) (p : Z) : Z := Z.land (rd8 m (p + 4)) 7.
Definition gate_dpl (m : mem) (p : Z) : Z := Z.land (Z.shiftr (rd8 m (p + 5)) 5) 3.
Definition gate_type (m : mem) (p : Z) : Z := Z.land (rd8 m (p + 5)) 31.
Definition gate_present (m : mem) (p : Z) : bool := Z.testbit (rd8 m (p + 5)) 7.

(** ** Lemmas *)

Lemma ld_st_same n m a v : ld n (st n m a v) a = wrap (8 * Z.of_nat n) v.
Proof. apply ld_st_gen. Qed.

(** Read a field through the stores of the others. *)
Ltac fields := repeat first
  [ rewrite ld_st_same
  | rewrite ld_st_other by lia ].

Lemma rd8_ld m p : rd8 m p = ld 1 m p.
Proof. cbn. lia. Qed.

Lemma bytes_32 x : 0 <= x -> wrap 16 x + 2 ^ 16 * wrap 16 (x / 2 ^ 16) = wrap 32 x.
Proof. intros. unfold wrap. change (2 ^ 32) with (2 ^ 16 * 2 ^ 16). by rewrite Z.rem_mul_r by lia. Qed.

Lemma bytes_64 x : is_u 64 x -> wrap 32 x + 2 ^ 32 * wrap 32 (x / 2 ^ 32) = x.
Proof.
  intros Hx. unfold wrap. rewrite <- Z.rem_mul_r by lia. apply Z.mod_small. exact Hx.
Qed.

(** What one gate looks like after [construct_idt_entry], and that nothing else changes. *)
Definition gate_ok (a : subarch) (vector stub : Z) (m : mem) (p : Z) : Prop :=
  gate_offset a m p = stub /\ gate_selector m p = __CS a /\ gate_ist m p = 0 /\ gate_present m p = true /\
  gate_type m p = 14 /\ gate_dpl m p = if vector =? 0x23 then 3 else 0.

Lemma construct_idt_entry_ok a vector stub p m :
  is_u (ptr_bits a) stub ->
  gate_ok a vector stub (construct_idt_entry a vector stub p m) p /\
  agree (fun b => ~ in_range p (gate_bytes a) b) m (construct_idt_entry a vector stub p m).
Proof.
  intros Hs. assert (0 <= stub) as H0 by apply Hs. unfold construct_idt_entry, st8_at, gate_bytes.
  set (m1 := st16 (st16 m p (u16 stub)) (p + 6) (u16 (Z.shiftr stub 16))).
  set (m2 := if is_amd64 a then st32 (st32 m1 (p + 8) (u32 (Z.shiftr stub 32))) (p + 12) 0 else m1).
  set (m3 := st 1 (st 1 (st16 m2 (p + 2) (__CS a)) (p + 4) 0) (p + 5) 142).
  assert (forall b, ~ in_range p (if is_amd64 a then 16 else 8) b -> rd8 m3 b = rd8 m b) as Ho.
  { intros b Hb. unfold in_range in Hb. unfold m3, m2, m1, st16, st32. rewrite !rd8_st_other by (unfold in_range; destruct a; cbn in Hb; lia).
    destruct a; cbn [is_amd64] in *; rewrite !rd8_st_other by (unfold in_range; lia); done. }
  assert (ld8 m3 (p + 5) = 142) as E5 by (unfold m3, ld8; by fields).
  assert (gate_offset a m3 p = stub) as Eo.
  { unfold gate_offset, m3, m2, m1, ld16, ld32, st16, st32.
    destruct a; cbn [is_amd64]; fields; rewrite ?Z.add_0_r; unfold u16, u32; rewrite !Z.shiftr_div_pow2 by lia;
      change (8 * Z.of_nat 2) with 16; change (8 * Z.of_nat 4) with 32; rewrite ?(wrap_wrap 16 16), ?(wrap_wrap 32 32) by lia;
      rewrite bytes_32 by done; [by apply wrap_small..|]. by apply bytes_64. }
  assert (forall v, gate_offset a (st 1 m3 (p + 5) v) p = gate_offset a m3 p) as Eo'.
  { intros v. unfold gate_offset, ld16, ld32. destruct a; cbn [is_amd64]; by rewrite !ld_st_other by lia. }
  assert (forall v, gate_selector (st 1 m3 (p + 5) v) p = __CS a /\ gate_ist (st 1 m3 (p + 5) v) p = 0 /\ rd8 (st 1 m3 (p + 5) v) (p + 5) = u8 v) as Ef.
  { intros v. unfold gate_selector, gate_ist, ld16. rewrite !rd8_ld. unfold m3. fields.
    split_and!; [by destruct a|done|done]. }
  destruct (Z.eqb_spec vector 35) as [Ev|Ev]; rewrite ?E5.
  - destruct (Ef (Z.lor 142 96)) as (F1 & F2 & F3). split.
    + unfold gate_ok, gate_present, gate_type, gate_dpl. rewrite Eo', F1, F2, F3, Eo. by rewrite Ev.
    + intros b Hb. rewrite rd8_st_other; [by apply Ho|]. unfold in_range in *. destruct a; cbn in Hb; lia.
  - split; [|by intros b Hb; apply Ho].
    unfold gate_ok, gate_present, gate_type, gate_dpl. rewrite !rd8_ld. unfold ld8 in E5. rewrite E5, Eo.
    rewrite (proj2 (Z.eqb_neq vector 35)) by done.
    unfold gate_selector, gate_ist, ld16. rewrite !rd8_ld. unfold m3. fields.
    by destruct a.
Qed.

Lemma gate_ok_agree a v stub m m' p (P : Z -> Prop) :
  agree P m m' -> (forall b, in_range p (gate_bytes a) b -> P b) -> gate_ok a v stub m p -> gate_ok a v stub m' p.
Proof.
  intros Ha Hp (H1 & H2 & H3 & H4 & H5 & H6).
  assert (forall k o, 0 <= o -> o + Z.of_nat k <= gate_bytes a -> ld k m' (p + o) = ld k m (p + o)) as Hld.
  { intros k o Ho Hk. apply (ld_agree P); [done|]. intros b Hb. apply Hp. unfold in_range in *. lia. }
  assert (forall o, 0 <= o < 8 -> rd8 m' (p + o) = rd8 m (p + o)) as Hrd.
  { intros o Ho. apply Ha, Hp. unfold in_range, gate_bytes. destruct a; cbn; lia. }
  assert (8 <= gate_bytes a) as H8 by (destruct a; cbn; lia).
  assert (ld 2 m' p = ld 2 m p) as Hld0 by (rewrite <- (Z.add_0_r p); apply Hld; lia).
  unfold gate_ok, gate_offset, gate_selector, gate_ist, gate_present, gate_type, gate_dpl, ld16, ld32 in *.
  rewrite !Hrd, Hld0, !(Hld 2%nat) by lia. rewrite H2, H3, H4, H5, H6. split_and!; try done.
  rewrite <- H1. destruct a; cbn [is_amd64]; [done|done|]. by rewrite (Hld 4%nat) by (cbn; lia).
Qed.

Lemma idt_loop_ok n a stubs table i m :
  (forall v, 0 <= v < IDT_NELEMS -> is_u (ptr_bits a) (stubs v)) -> 0 <= i -> i + Z.of_nat n = IDT_NELEMS ->
  let m' := idt_loop n a stubs table i m in
  (forall v, i <= v < IDT_NELEMS -> gate_ok a v (stubs v) m' (table + gate_bytes a * v)) /\
  agree (fun b => ~ in_range (table + gate_bytes a * i) (gate_bytes a * (IDT_NELEMS - i)) b) m m'.
Proof.
  intros Hs. assert (0 < gate_bytes a) as Hg by (destruct a; cbn; lia).
  revert i m. induction n as [|n IH]; intros i m Hi Hn; cbn [idt_loop]; unfold IDT_NELEMS in *; [split; [lia|done]|].
  destruct (construct_idt_entry_ok a (u8 i) (stubs i) (table + gate_bytes a * i) m (Hs i ltac:(lia))) as [Hok Ha].
  set (m1 := construct_idt_entry a (u8 i) (stubs i) (table + gate_bytes a * i) m) in *.
  assert (u8 i = i) as Ei by (apply wrap_small; unfold is_u; lia). rewrite Ei in Hok.
  destruct (IH (i + 1) m1) as [Hrest Ha1]; [lia|lia|]. cbv zeta. split.
  - intros v Hv. destruct (decide (v = i)) as [->|]; [|apply Hrest; lia].
    eapply gate_ok_agree; [exact Ha1| |exact Hok]. unfold in_range. intros b Hb. nia.
  - eapply agree_trans; [eapply agree_weaken; [|exact Ha]|eapply agree_weaken; [|exact Ha1]]; unfold in_range; intros b Hb Hc; apply Hb; nia.
Qed.

(** The interrupt tables are built once and as the processor must find them: after the
    first [construct_idt] every vector of the host and of the guest table has a present
    interrupt gate to its stub in the code segment of the kernel, with privilege level 3 for
    the system call vector 0x23 alone; later calls change nothing. *)
Theorem construct_idt_gates a s stubs_host stubs_guest m :
  (forall v, 0 <= v < IDT_NELEMS -> is_u (ptr_bits a) (stubs_host v)) ->
  (forall v, 0 <= v < IDT_NELEMS -> is_u (ptr_bits a) (stubs_guest v)) ->
  g_idt_host s + gate_bytes a * IDT_NELEMS <= g_idt_guest s \/ g_idt_guest s + gate_bytes a * IDT_NELEMS <= g_idt_host s ->
  exists m', construct_idt a s stubs_host stubs_guest false m = (true, m') /\
    (forall v, 0 <= v < IDT_NELEMS ->
       gate_ok a v (stubs_host v) m' (g_idt_host s + gate_bytes a * v) /\
       gate_ok a v (stubs_guest v) m' (g_idt_guest s + gate_bytes a * v)) /\
    construct_idt a s stubs_host stubs_guest true m' = (true, m').
Proof.
  intros Hh Hg Hd. assert (0 < gate_bytes a) as Hgb by (destruct a; cbn; lia). unfold construct_idt.
  destruct (idt_loop_ok (Z.to_nat IDT_NELEMS) a stubs_host (g_idt_host s) 0 m Hh ltac:(lia) ltac:(done)) as [H1 _].
  set (m1 := idt_loop (Z.to_nat IDT_NELEMS) a stubs_host (g_idt_host s) 0 m) in *.
  destruct (idt_loop_ok (Z.to_nat IDT_NELEMS) a stubs_guest (g_idt_guest s) 0 m1 Hg ltac:(lia) ltac:(done)) as [H2 A2].
  eexists. split; [done|]. split; [|done]. intros v Hv. split; [|by apply H2].
  eapply gate_ok_agree; [exact A2| |by apply H1]. unfold in_range, IDT_NELEMS in *. intros b Hb. nia.
Qed.

(** ** The global descriptor table *)

Lemma st_entries_ok l p m :
  (forall i e, l !! i = Some e -> is_u 64 e) ->
  (forall i e, l !! i = Some e -> ld64 (st_entries l p m) (p + 8 * Z.of_nat i) = e) /\
  agree (fun b => ~ in_range p (8 * Z.of_nat (length l)) b) m (st_entries l p m).
Proof.
  revert p m. induction l as [|e l IH]; intros p m Hl; cbn [st_entries]; [done|].
  destruct (IH (p + 8) (st64 m p e)) as [H1 H2]; [intros i x Hx; by apply (Hl (S i))|]. split.
  - intros [|i] x Hx; cbn in Hx.
    + injection Hx as <-. rewrite Z.add_0_r. unfold ld64. rewrite (ld_agree _ 8 (st64 m p e) _ p H2).
      * unfold st64. rewrite ld_st_same. by apply wrap_small, (Hl 0%nat).
      * unfold in_range. lia.
    + replace (p + 8 * Z.of_nat (S i)) with (p + 8 + 8 * Z.of_nat i) by lia. by apply H1.
  - eapply agree_trans; [apply (agree_st _ 8)|eapply agree_weaken; [|exact H2]]; unfold in_range; cbn [length]; intros b; lia.
Qed.

Lemma land_shift x lo n : 0 <= lo -> 0 <= n -> Z.shiftr (Z.land x (Z.shiftl (Z.ones n) lo)) lo = wrap n (x / 2 ^ lo).
Proof.
  intros. apply Z.bits_inj'. intros i Hi. rewrite Z.shiftr_spec, Z.land_spec, wrap_testbit by lia.
  rewrite <- Z.shiftr_div_pow2, Z.shiftr_spec, shiftl_testbit, ones_testbit by lia. bcase; bsimpl; try done; lia.
Qed.

Lemma bytes_4 x : wrap 16 x + 2 ^ 16 * wrap 8 (x / 2 ^ 16) + 2 ^ 24 * wrap 8 (x / 2 ^ 24) = wrap 32 x.
Proof.
  unfold wrap. change (2 ^ 32) with (2 ^ 16 * 2 ^ 16). rewrite Z.rem_mul_r by lia.
  replace ((x / 2 ^ 16) mod 2 ^ 16) with ((x / 2 ^ 16) mod (2 ^ 8 * 2 ^ 8)) by done. rewrite (Z.rem_mul_r (x / 2 ^ 16)) by lia.
  rewrite Zdiv.Zdiv_Zdiv by lia. change (2 ^ 16 * 2 ^ 8) with (2 ^ 24). lia.
Qed.

(** The descriptor table of a CPU: after [init_gdt] the TSS descriptor holds the address
    of the TSS of that CPU, its limit and the type of an available TSS, the other
    descriptors are the constants of the kernel, the operand of [lgdt] covers exactly the
    table of the CPU, and nothing else changes. *)
Theorem init_gdt_tss a s idx m :
  is_u (ptr_bits a) (tss_at s idx) ->
  exists m', init_gdt a s idx m = (m', (8 * GDT_NELEMS - 1, gdt_at s idx 0), __TRSEL) /\
    tss_base a m' (gdt_at s idx (__TRSEL / 8)) = tss_at s idx /\ tss_limit m' (gdt_at s idx (__TRSEL / 8)) = 0x67 /\
    tss_type m' (gdt_at s idx (__TRSEL / 8)) = 0x89 /\
    (forall i e, gdt_entries a !! i = Some e -> i <> 4%nat -> i <> 5%nat -> ld64 m' (gdt_at s idx (Z.of_nat i)) = e) /\
    agree (fun b => ~ in_range (gdt_at s idx 0) (8 * GDT_NELEMS) b) m m'.
Proof.
  intros Hu. unfold init_gdt. eexists. split; [reflexivity|].
  destruct (st_entries_ok (gdt_entries a) (gdt_at s idx 0) m) as [He Ho].
  { intros i e Hi. repeat (destruct i as [|i]; [injection Hi as <-; destruct a; done|]). done. }
  set (m1 := st_entries (gdt_entries a) (gdt_at s idx 0) m) in *. change (__TRSEL / 8) with 4.
  set (t := gdt_at s idx 4). set (x := tss_at s idx) in *.
  set (m2 := set_tss_entry a t x m1).
  assert (agree (fun b => ~ in_range t (if is_amd64 a then 16 else 8) b) m1 m2) as Ha.
  { intros b Hb. unfold in_range in Hb. unfold m2, set_tss_entry, st8_at, st16, st32.
    destruct a; cbn [is_amd64] in *; rewrite !rd8_st_other by (unfold in_range; lia); done. }
  split_and!.
  - unfold tss_base, m2, set_tss_entry, st8_at, ld16, ld32, st16, st32. rewrite !rd8_ld.
    change 0x0000FFFF with (Z.shiftl (Z.ones 16) 0). change 0x00FF0000 with (Z.shiftl (Z.ones 8) 16).
    change 0xFF000000 with (Z.shiftl (Z.ones 8) 24). change 0xFFFFFFFF00000000 with (Z.shiftl (Z.ones 32) 32).
    replace (Z.land x (Z.shiftl (Z.ones 16) 0)) with (wrap 16 x) by (rewrite Z.shiftl_0_r; symmetry; apply Z.bits_inj'; intros i Hi; bits; done).
    rewrite !land_shift by lia.
    destruct a; cbn [is_amd64]; fields; unfold u8, u16, u32; change (8 * Z.of_nat 2) with 16; change (8 * Z.of_nat 1) with 8;
      change (8 * Z.of_nat 4) with 32; rewrite !(wrap_wrap 16 16), !(wrap_wrap 8 8), ?(wrap_wrap 32 32) by lia;
      rewrite bytes_4, ?Z.add_0_r; [by apply wrap_small..|]. by apply bytes_64.
  - unfold tss_limit, m2, set_tss_entry, st8_at, ld16, st16, st32. rewrite !rd8_ld. destruct a; cbn [is_amd64]; fields; done.
  - unfold tss_type, m2, set_tss_entry, st8_at, st16, st32. rewrite !rd8_ld. destruct a; cbn [is_amd64]; fields; done.
  - intros i e Hi H4 H5. unfold gdt_at. replace (g_gdt s + 8 * (GDT_NELEMS * idx + Z.of_nat i)) with (gdt_at s idx 0 + 8 * Z.of_nat i) by (unfold gdt_at; lia).
    rewrite <- (He i e Hi). unfold ld64. apply (ld_agree _ 8 m1 m2 _ Ha). unfold in_range, t, gdt_at. intros b Hb. destruct a; cbn; lia.
  - intros b Hb. unfold in_range, gdt_at, GDT_NELEMS in *. rewrite Ha, Ho; [done| |].
    + unfold in_range, gdt_at, GDT_NELEMS. change (Z.of_nat (length (gdt_entries a))) with 10. lia.
    + unfold in_range, t, gdt_at, GDT_NELEMS. destruct a; cbn; lia.
Qed.

(** ** Witnesses *)

Definition demo_desc : desc_syms := mkDescSyms 0x1000 0x2000 0x10000 0x12000.

Lemma construct_idt_gates_witness :
  exists m', construct_idt AMD64 demo_desc (fun v => 0x123456789000 + 16 * v) (fun v => 0x200000 + 16 * v) false ∅ = (true, m') /\
    gate_offset AMD64 m' (0x10000 + 16 * 0x23) = 0x123456789230 /\ gate_dpl m' (0x10000 + 16 * 0x23) = 3.
Proof.
  destruct (construct_idt_gates AMD64 demo_desc (fun v => 0x123456789000 + 16 * v) (fun v => 0x200000 + 16 * v) ∅) as (m' & E & H & _).
  - unfold IDT_NELEMS, is_u, ptr_bits. lia.
  - unfold IDT_NELEMS, is_u, ptr_bits. lia.
  - vm_compute. by left.
  - exists m'. split; [exact E|]. destruct (H 0x23 ltac:(unfold IDT_NELEMS; lia)) as [(Ho & _ & _ & _ & _ & Hd) _].
    split; [exact Ho|exact Hd].
Defined.

Lemma init_gdt_tss_witness :
  exists m', init_gdt AMD64 demo_desc 3 ∅ = (m', (79, 0x1000 + 240), 0x20) /\
    tss_base AMD64 m' (0x1000 + 240 + 32) = 0x2000 + 3 * 4096.
Proof.
  destruct (init_gdt_tss AMD64 demo_desc 3 ∅) as (m' & E & Hb & _); [by vm_compute|].
  exists m'. split; [exact E|exact Hb].
Defined.
