(* ===== verification/VmxCtls.v ===== *)
(** [src/include/_vmx_ctls.h] and [src/include/_vmx_ctls_fields.h]: the capabilities of the processor's VMX
    controls.  [DECLARE_CTLS] makes three functions for each control; here a control is a bit of one of the five
    words, and the functions take the control. *)
From S2P Require Import Prelude.
From S2P Require Import HptLemmas.

(** [vmx_ctls_t] *)
Record vmx_ctls_t := mkCtls {
  pinbased_ctls : Z; procbased_ctls : Z; procbased_ctls2 : Z; exit_ctls : Z; entry_ctls : Z }.

(** The fields, and a control: the field and the bit. *)
Inductive ctls_word := Pinbased | Procbased | Procbased2 | Exit | Entry.
#[global] Instance ctls_word_eq_dec : EqDecision ctls_word.
Proof. solve_decision. Defined.
Record vmx_ctl := Ctl { ctl_word : ctls_word; ctl_bit : Z }.
#[global] Instance vmx_ctl_eq_dec : EqDecision vmx_ctl.
Proof. solve_decision. Defined.

Definition get_word (w : ctls_word) (c : vmx_ctls_t) : Z :=
  match w with
  | Pinbased => pinbased_ctls c | Procbased => procbased_ctls c | Procbased2 => procbased_ctls2 c
  | Exit => exit_ctls c | Entry => entry_ctls c
  end.
Definition set_word (w : ctls_word) (z : Z) (c : vmx_ctls_t) : vmx_ctls_t :=
  match w with
  | Pinbased => mkCtls z (procbased_ctls c) (procbased_ctls2 c) (exit_ctls c) (entry_ctls c)
  | Procbased => mkCtls (pinbased_ctls c) z (procbased_ctls2 c) (exit_ctls c) (entry_ctls c)
  | Procbased2 => mkCtls (pinbased_ctls c) (procbased_ctls c) z (exit_ctls c) (entry_ctls c)
  | Exit => mkCtls (pinbased_ctls c) (procbased_ctls c) (procbased_ctls2 c) z (entry_ctls c)
  | Entry => mkCtls (pinbased_ctls c) (procbased_ctls c) (procbased_ctls2 c) (exit_ctls c) z
  end.

(** [1U << VMX_...] *)
Definition ctl_mask (d : vmx_ctl) : Z := u32 (Z.shiftl 1 (ctl_bit d)).
Definition _vmx_hasctl (d : vmx_ctl) (ctls : vmx_ctls_t) : bool := truth (Z.land (get_word (ctl_word d) ctls) (ctl_mask d)).
Definition _vmx_setctl (d : vmx_ctl) (ctls : vmx_ctls_t) : vmx_ctls_t :=
  set_word (ctl_word d) (Z.lor (get_word (ctl_word d) ctls) (ctl_mask d)) ctls.
Definition _vmx_clearctl (d : vmx_ctl) (ctls : vmx_ctls_t) : vmx_ctls_t :=
  set_word (ctl_word d) (Z.land (get_word (ctl_word d) ctls) (bnot 32 (ctl_mask d))) ctls.

(** ** The controls *)

Definition external_interrupt_exiting : vmx_ctl := Ctl Pinbased 0.
Definition nmi_exiting : vmx_ctl := Ctl Pinbased 3.
Definition virtual_nmis : vmx_ctl := Ctl Pinbased 5.
Definition activate_vmx_preemption_timer : vmx_ctl := Ctl Pinbased 6.
Definition process_posted_interrupts : vmx_ctl := Ctl Pinbased 7.
Definition interrupt_window_exiting : vmx_ctl := Ctl Procbased 2.
Definition use_tsc_offsetting : vmx_ctl := Ctl Procbased 3.
Definition hlt_exiting : vmx_ctl := Ctl Procbased 7.
Definition invlpg_exiting : vmx_ctl := Ctl Procbased 9.
Definition mwait_exiting : vmx_ctl := Ctl Procbased 10.
Definition rdpmc_exiting : vmx_ctl := Ctl Procbased 11.
Definition rdtsc_exiting : vmx_ctl := Ctl Procbased 12.
Definition cr3_load_exiting : vmx_ctl := Ctl Procbased 15.
Definition cr3_store_exiting : vmx_ctl := Ctl Procbased 16.
Definition activate_tertiary_controls : vmx_ctl := Ctl Procbased 17.
Definition cr8_load_exiting : vmx_ctl := Ctl Procbased 19.
Definition cr8_store_exiting : vmx_ctl := Ctl Procbased 20.
Definition use_tpr_shadow : vmx_ctl := Ctl Procbased 21.
Definition nmi_window_exiting : vmx_ctl := Ctl Procbased 22.
Definition mov_dr_exiting : vmx_ctl := Ctl Procbased 23.
Definition unconditional_io_exiting : vmx_ctl := Ctl Procbased 24.
Definition use_io_bitmaps : vmx_ctl := Ctl Procbased 25.
Definition monitor_trap_flag : vmx_ctl := Ctl Procbased 27.
Definition use_msr_bitmaps : vmx_ctl := Ctl Procbased 28.
Definition monitor_exiting : vmx_ctl := Ctl Procbased 29.
Definition pause_exiting : vmx_ctl := Ctl Procbased 30.
Definition activate_secondary_controls : vmx_ctl := Ctl Procbased 31.
Definition virtualize_apic_access : vmx_ctl := Ctl Procbased2 0.
Definition enable_ept : vmx_ctl := Ctl Procbased2 1.
Definition descriptor_table_exiting : vmx_ctl := Ctl Procbased2 2.
Definition enable_rdtscp : vmx_ctl := Ctl Procbased2 3.
Definition virtualize_x2apic_mode : vmx_ctl := Ctl Procbased2 4.
Definition enable_vpid : vmx_ctl := Ctl Procbased2 5.
Definition wbinvd_exiting : vmx_ctl := Ctl Procbased2 6.
Definition unrestricted_guest : vmx_ctl := Ctl Procbased2 7.
Definition apic_register_virtualization : vmx_ctl := Ctl Procbased2 8.
Definition virtual_interrupt_delivery : vmx_ctl := Ctl Procbased2 9.
Definition pause_loop_exiting : vmx_ctl := Ctl Procbased2 10.
Definition rdrand_exiting : vmx_ctl := Ctl Procbased2 11.
Definition enable_invpcid : vmx_ctl := Ctl Procbased2 12.
Definition enable_vm_functions : vmx_ctl := Ctl Procbased2 13.
Definition vmcs_shadowing : vmx_ctl := Ctl Procbased2 14.
Definition enable_encls_exiting : vmx_ctl := Ctl Procbased2 15.
Definition rdseed_exiting : vmx_ctl := Ctl Procbased2 16.
Definition enable_pml : vmx_ctl := Ctl Procbased2 17.
Definition ept_violation_ve : vmx_ctl := Ctl Procbased2 18.
Definition conceal_vmx_from_pt : vmx_ctl := Ctl Procbased2 19.
Definition enable_xsaves_xrstors : vmx_ctl := Ctl Procbased2 20.
Definition mode_based_execute_control_for_ept : vmx_ctl := Ctl Procbased2 22.
Definition sub_page_write_permissions_for_ept : vmx_ctl := Ctl Procbased2 23.
Definition intel_pt_uses_guest_physical_addresses : vmx_ctl := Ctl Procbased2 24.
Definition use_tsc_scaling : vmx_ctl := Ctl Procbased2 25.
Definition enable_user_wait_and_pause : vmx_ctl := Ctl Procbased2 26.
Definition enable_enclv_exiting : vmx_ctl := Ctl Procbased2 28.
Definition vmexit_save_debug_controls : vmx_ctl := Ctl Exit 2.
Definition vmexit_host_address_space_size : vmx_ctl := Ctl Exit 9.
Definition vmexit_load_ia32_perf_global_ctrl : vmx_ctl := Ctl Exit 12.
Definition vmexit_acknowledge_interrupt_on_exit : vmx_ctl := Ctl Exit 15.
Definition vmexit_save_ia32_pat : vmx_ctl := Ctl Exit 18.
Definition vmexit_load_ia32_pat : vmx_ctl := Ctl Exit 19.
Definition vmexit_save_ia32_efer : vmx_ctl := Ctl Exit 20.
Definition vmexit_load_ia32_efer : vmx_ctl := Ctl Exit 21.
Definition vmexit_save_vmx_preemption_timer_value : vmx_ctl := Ctl Exit 22.
Definition vmexit_clear_ia32_bndcfgs : vmx_ctl := Ctl Exit 23.
Definition vmexit_conceal_vmx_from_pt : vmx_ctl := Ctl Exit 24.
Definition vmexit_clear_ia32_rtit_ctl : vmx_ctl := Ctl Exit 25.
Definition vmexit_load_cet_state : vmx_ctl := Ctl Exit 28.
Definition vmexit_load_pkrs : vmx_ctl := Ctl Exit 29.
Definition vmentry_load_debug_controls : vmx_ctl := Ctl Entry 2.
Definition vmentry_ia_32e_mode_guest : vmx_ctl := Ctl Entry 9.
Definition vmentry_entry_to_smm : vmx_ctl := Ctl Entry 10.
Definition vmentry_deactivate_dual_monitor_treatment : vmx_ctl := Ctl Entry 11.
Definition vmentry_load_ia32_perf_global_ctrl : vmx_ctl := Ctl Entry 13.
Definition vmentry_load_ia32_pat : vmx_ctl := Ctl Entry 14.
Definition vmentry_load_ia32_efer : vmx_ctl := Ctl Entry 15.
Definition vmentry_load_ia32_bndcfgs : vmx_ctl := Ctl Entry 16.
Definition vmentry_conceal_vmx_from_pt : vmx_ctl := Ctl Entry 17.
Definition vmentry_load_ia32_rtit_ctl : vmx_ctl := Ctl Entry 18.
Definition vmentry_load_cet_state : vmx_ctl := Ctl Entry 20.
Definition vmentry_load_pkrs : vmx_ctl := Ctl Entry 22.

(** All of them, in the order of the file. *)
Definition all_ctls : list vmx_ctl :=
  [ external_interrupt_exiting; nmi_exiting; virtual_nmis; activate_vmx_preemption_timer; 
    process_posted_interrupts; interrupt_window_exiting; use_tsc_offsetting; hlt_exiting; invlpg_exiting; 
    mwait_exiting; rdpmc_exiting; rdtsc_exiting; cr3_load_exiting; cr3_store_exiting; 
    activate_tertiary_controls; cr8_load_exiting; cr8_store_exiting; use_tpr_shadow; nmi_window_exiting; 
    mov_dr_exiting; unconditional_io_exiting; use_io_bitmaps; monitor_trap_flag; use_msr_bitmaps; 
    monitor_exiting; pause_exiting; activate_secondary_controls; virtualize_apic_access; enable_ept; 
    descriptor_table_exiting; enable_rdtscp; virtualize_x2apic_mode; enable_vpid; wbinvd_exiting; 
    unrestricted_guest; apic_register_virtualization; virtual_interrupt_delivery; pause_loop_exiting; 
    rdrand_exiting; enable_invpcid; enable_vm_functions; vmcs_shadowing; enable_encls_exiting; rdseed_exiting; 
    enable_pml; ept_violation_ve; conceal_vmx_from_pt; enable_xsaves_xrstors; 
    mode_based_execute_control_for_ept; sub_page_write_permissions_for_ept; 
    intel_pt_uses_guest_physical_addresses; use_tsc_scaling; enable_user_wait_and_pause; enable_enclv_exiting; 
    vmexit_save_debug_controls; vmexit_host_address_space_size; vmexit_load_ia32_perf_global_ctrl; 
    vmexit_acknowledge_interrupt_on_exit; vmexit_save_ia32_pat; vmexit_load_ia32_pat; vmexit_save_ia32_efer; 
    vmexit_load_ia32_efer; vmexit_save_vmx_preemption_timer_value; vmexit_clear_ia32_bndcfgs; 
    vmexit_conceal_vmx_from_pt; vmexit_clear_ia32_rtit_ctl; vmexit_load_cet_state; vmexit_load_pkrs; 
    vmentry_load_debug_controls; vmentry_ia_32e_mode_guest; vmentry_entry_to_smm; 
    vmentry_deactivate_dual_monitor_treatment; vmentry_load_ia32_perf_global_ctrl; vmentry_load_ia32_pat; 
    vmentry_load_ia32_efer; vmentry_load_ia32_bndcfgs; vmentry_conceal_vmx_from_pt; 
    vmentry_load_ia32_rtit_ctl; vmentry_load_cet_state; vmentry_load_pkrs ].

(** ** Properties *)

Lemma all_ctls_wf : NoDup all_ctls /\ Forall (fun d => 0 <= ctl_bit d < 32) all_ctls.
Proof. split; [apply (bool_decide_unpack _); vm_compute; exact I|]. apply (bool_decide_unpack _). vm_compute. exact I. Qed.

Lemma ctl_mask_testbit d i : 0 <= ctl_bit d < 32 -> 0 <= i -> Z.testbit (ctl_mask d) i = (i =? ctl_bit d).
Proof.
  intros Hd Hi. unfold ctl_mask, u32. rewrite Z.shiftl_1_l. rewrite wrap_testbit by lia.
  rewrite Z.pow2_bits_eqb by lia. bits; done || lia.
Qed.

(** Bit [b] of a word through the mask of a control. *)
Lemma truth_land_mask z d : 0 <= ctl_bit d < 32 -> truth (Z.land z (ctl_mask d)) = Z.testbit z (ctl_bit d).
Proof.
  intros Hd. unfold truth.
  assert (Z.land z (ctl_mask d) = Z.shiftl (b2z (Z.testbit z (ctl_bit d))) (ctl_bit d)) as ->.
  { apply Z.bits_inj'. intros i Hi. rewrite Z.land_spec, ctl_mask_testbit by done. bits; subst; by rewrite ?andb_true_r, ?andb_false_r. }
  destruct (Z.testbit z (ctl_bit d)); cbn [b2z Z.b2z]; [|by rewrite Z.shiftl_0_l].
  rewrite Z.shiftl_1_l. pose proof (Z.pow_pos_nonneg 2 (ctl_bit d)). destruct (Z.eqb_spec (2 ^ ctl_bit d) 0); [lia|done].
Qed.

Lemma hasctl_testbit d c : 0 <= ctl_bit d < 32 -> _vmx_hasctl d c = Z.testbit (get_word (ctl_word d) c) (ctl_bit d).
Proof. apply truth_land_mask. Qed.

Lemma get_set_word w w' z c : get_word w (set_word w' z c) = if decide (w = w') then z else get_word w c.
Proof. by destruct w, w'. Qed.

(** The functions of a control act on that control alone: after [_vmx_setctl] it is there, after
    [_vmx_clearctl] it is not, and every other declared control of the table is as before. *)
Theorem vmx_ctls_independent d e c :
  d ∈ all_ctls -> e ∈ all_ctls ->
  _vmx_hasctl d (_vmx_setctl e c) = (if decide (d = e) then true else _vmx_hasctl d c) /\
  _vmx_hasctl d (_vmx_clearctl e c) = (if decide (d = e) then false else _vmx_hasctl d c).
Proof.
  destruct all_ctls_wf as [_ Hb]. rewrite Forall_forall in Hb. intros Hd%Hb He%Hb.
  rewrite !hasctl_testbit by done. unfold _vmx_setctl, _vmx_clearctl. rewrite !get_set_word.
  destruct (decide (d = e)) as [->|Hne].
  - rewrite !decide_True by done. rewrite Z.lor_spec, Z.land_spec, bnot_testbit, ctl_mask_testbit by lia.
    rewrite Z.eqb_refl. split; [by rewrite orb_true_r|]. by rewrite !andb_false_r.
  - destruct (decide (ctl_word d = ctl_word e)) as [Ew|]; [|done].
    assert (ctl_bit d <> ctl_bit e) by (intros Eb; apply Hne; destruct d, e; cbn in *; congruence).
    rewrite Z.lor_spec, Z.land_spec, bnot_testbit, ctl_mask_testbit, Ew by lia. bcase. cbn. by rewrite orb_false_r, andb_true_r.
Qed.

Lemma vmx_ctls_independent_witness :
  _vmx_hasctl enable_ept (_vmx_setctl enable_vpid (mkCtls 0 0 2 0 0)) = true.
Proof. destruct (vmx_ctls_independent enable_ept enable_vpid (mkCtls 0 0 2 0 0)) as [H _]; [set_solver..|]. rewrite H. reflexivity. Defined.
