(* ===== verification/VmcsFields.v ===== *)
(** [src/include/_vmx_vmcs_fields.h]: the table of the fields of a VMCS.  [exist] is a condition on the
    capabilities; [qemu] is [VMCS12_FIELDS_QEMU]. *)
From Stdlib Require Import String.
From S2P Require Import Prelude.
From S2P Require Import VmxCtls.

Inductive fsize := F16 | F64 | F32 | FNW.
#[global] Instance fsize_eq_dec : EqDecision fsize.
Proof. solve_decision. Defined.
(** [DECLARE_FIELD_size_writability(encoding, name, exist)] *)
Record vmcs_field := Fld {
  f_size : fsize; f_ro : bool; f_enc : Z; f_name : string; f_exist : bool -> vmx_ctls_t -> bool }.

Definition always (qemu : bool) (c : vmx_ctls_t) : bool := true.
Definition never (qemu : bool) (c : vmx_ctls_t) : bool := false.
Definition not_qemu (qemu : bool) (c : vmx_ctls_t) : bool := negb qemu.
Definition when (d : vmx_ctl) (qemu : bool) (c : vmx_ctls_t) : bool := _vmx_hasctl d c.
Definition either (d e : vmx_ctl) (qemu : bool) (c : vmx_ctls_t) : bool := _vmx_hasctl d c || _vmx_hasctl e c.

(** 16-Bit Control Fields *)
Definition fields_16_bit_control : list vmcs_field := [
  Fld F16 false 0x0000 "control_vpid" (when enable_vpid);
  Fld F16 false 0x0002 "control_post_interrupt_notification_vec" (when process_posted_interrupts);
  Fld F16 false 0x0004 "control_eptp_index" (when ept_violation_ve) ].

(** 16-Bit Guest-State Fields *)
Definition fields_16_bit_guest_state : list vmcs_field := [
  Fld F16 false 0x0800 "guest_ES_selector" always;
  Fld F16 false 0x0802 "guest_CS_selector" always;
  Fld F16 false 0x0804 "guest_SS_selector" always;
  Fld F16 false 0x0806 "guest_DS_selector" always;
  Fld F16 false 0x0808 "guest_FS_selector" always;
  Fld F16 false 0x080A "guest_GS_selector" always;
  Fld F16 false 0x080C "guest_LDTR_selector" always;
  Fld F16 false 0x080E "guest_TR_selector" always;
  Fld F16 false 0x0810 "guest_interrupt_status" (when virtual_interrupt_delivery);
  Fld F16 false 0x0812 "guest_PML_index" (when enable_pml) ].

(** 16-Bit Host-State Fields *)
Definition fields_16_bit_host_state : list vmcs_field := [
  Fld F16 false 0x0C00 "host_ES_selector" always;
  Fld F16 false 0x0C02 "host_CS_selector" always;
  Fld F16 false 0x0C04 "host_SS_selector" always;
  Fld F16 false 0x0C06 "host_DS_selector" always;
  Fld F16 false 0x0C08 "host_FS_selector" always;
  Fld F16 false 0x0C0A "host_GS_selector" always;
  Fld F16 false 0x0C0C "host_TR_selector" always ].

(** 64-Bit Control Fields *)
Definition fields_64_bit_control : list vmcs_field := [
  Fld F64 false 0x2000 "control_IO_BitmapA_address" (when use_io_bitmaps);
  Fld F64 false 0x2002 "control_IO_BitmapB_address" (when use_io_bitmaps);
  Fld F64 false 0x2004 "control_MSR_Bitmaps_address" (when use_msr_bitmaps);
  Fld F64 false 0x2006 "control_VM_exit_MSR_store_address" always;
  Fld F64 false 0x2008 "control_VM_exit_MSR_load_address" always;
  Fld F64 false 0x200A "control_VM_entry_MSR_load_address" always;
  Fld F64 false 0x200C "control_Executive_VMCS_pointer" not_qemu;
  Fld F64 false 0x200E "control_PML_address" (when enable_pml);
  Fld F64 false 0x2010 "control_TSC_offset" always;
  Fld F64 false 0x2012 "control_virtual_APIC_address" (when use_tpr_shadow);
  Fld F64 false 0x2014 "control_APIC_access_address" (when virtualize_apic_access);
  Fld F64 false 0x2016 "control_posted_interrupt_desc_address" (when process_posted_interrupts);
  Fld F64 false 0x2018 "control_VM_function_controls" (when enable_vm_functions);
  Fld F64 false 0x201A "control_EPT_pointer" (when enable_ept);
  Fld F64 false 0x201C "control_EOI_exit_bitmap_0" (when virtual_interrupt_delivery);
  Fld F64 false 0x201E "control_EOI_exit_bitmap_1" (when virtual_interrupt_delivery);
  Fld F64 false 0x2020 "control_EOI_exit_bitmap_2" (when virtual_interrupt_delivery);
  Fld F64 false 0x2022 "control_EOI_exit_bitmap_3" (when virtual_interrupt_delivery);
  Fld F64 false 0x2024 "control_EPTP_list_address" never;
  Fld F64 false 0x2026 "control_VMREAD_bitmap_address" (when vmcs_shadowing);
  Fld F64 false 0x2028 "control_VMWRITE_bitmap_address" (when vmcs_shadowing);
  Fld F64 false 0x202A "control_virt_exception_info_address" (when ept_violation_ve);
  Fld F64 false 0x202C "control_XSS_exiting_bitmap" (when enable_xsaves_xrstors);
  Fld F64 false 0x202E "control_ENCLS_exiting_bitmap" (when enable_encls_exiting);
  Fld F64 false 0x2030 "control_subpage_permission_table_pointer" (when sub_page_write_permissions_for_ept);
  Fld F64 false 0x2032 "control_TSC_multiplier" (when use_tsc_scaling);
  Fld F64 false 0x2034 "control_tertiary_proc_based_VMexec_ctls" (when activate_tertiary_controls);
  Fld F64 false 0x2036 "control_ENCLV_exiting_bitmap" (when enable_enclv_exiting) ].

(** 64-Bit Read-Only Data Field *)
Definition fields_64_bit_read_only : list vmcs_field := [
  Fld F64 true 0x2400 "guest_paddr" (when enable_ept) ].

(** 64-Bit Guest-State Fields *)
Definition fields_64_bit_guest_state : list vmcs_field := [
  Fld F64 false 0x2800 "guest_VMCS_link_pointer" always;
  Fld F64 false 0x2802 "guest_IA32_DEBUGCTL" always;
  Fld F64 false 0x2804 "guest_IA32_PAT" (either vmexit_save_ia32_pat vmentry_load_ia32_pat);
  Fld F64 false 0x2806 "guest_IA32_EFER" (either vmexit_save_ia32_efer vmentry_load_ia32_efer);
  Fld F64 false 0x2808 "guest_IA32_PERF_GLOBAL_CTRL" (when vmentry_load_ia32_perf_global_ctrl);
  Fld F64 false 0x280A "guest_PDPTE0" (when enable_ept);
  Fld F64 false 0x280C "guest_PDPTE1" (when enable_ept);
  Fld F64 false 0x280E "guest_PDPTE2" (when enable_ept);
  Fld F64 false 0x2810 "guest_PDPTE3" (when enable_ept);
  Fld F64 false 0x2812 "guest_IA32_BNDCFGS" (either vmexit_clear_ia32_bndcfgs vmentry_load_ia32_bndcfgs);
  Fld F64 false 0x2814 "guest_IA32_RTIT_CTL" (either vmexit_clear_ia32_rtit_ctl vmentry_load_ia32_rtit_ctl);
  Fld F64 false 0x2818 "guest_IA32_PKRS" (when vmentry_load_pkrs) ].

(** 64-Bit Host-State Fields *)
Definition fields_64_bit_host_state : list vmcs_field := [
  Fld F64 false 0x2C00 "host_IA32_PAT" (when vmexit_load_ia32_pat);
  Fld F64 false 0x2C02 "host_IA32_EFER" (when vmexit_load_ia32_efer);
  Fld F64 false 0x2C04 "host_IA32_PERF_GLOBAL_CTRL" (when vmexit_load_ia32_perf_global_ctrl);
  Fld F64 false 0x2C06 "host_IA32_PKRS" (when vmexit_load_pkrs) ].

(** 32-Bit Control Fields *)
Definition fields_32_bit_control : list vmcs_field := [
  Fld F32 false 0x4000 "control_VMX_pin_based" always;
  Fld F32 false 0x4002 "control_VMX_cpu_based" always;
  Fld F32 false 0x4004 "control_exception_bitmap" always;
  Fld F32 false 0x4006 "control_pagefault_errorcode_mask" always;
  Fld F32 false 0x4008 "control_pagefault_errorcode_match" always;
  Fld F32 false 0x400A "control_CR3_target_count" always;
  Fld F32 false 0x400C "control_VM_exit_controls" always;
  Fld F32 false 0x400E "control_VM_exit_MSR_store_count" always;
  Fld F32 false 0x4010 "control_VM_exit_MSR_load_count" always;
  Fld F32 false 0x4012 "control_VM_entry_controls" always;
  Fld F32 false 0x4014 "control_VM_entry_MSR_load_count" always;
  Fld F32 false 0x4016 "control_VM_entry_interruption_information" always;
  Fld F32 false 0x4018 "control_VM_entry_exception_errorcode" always;
  Fld F32 false 0x401A "control_VM_entry_instruction_length" always;
  Fld F32 false 0x401C "control_Task_PRivilege_Threshold" (when use_tpr_shadow);
  Fld F32 false 0x401E "control_VMX_seccpu_based" (when activate_secondary_controls);
  Fld F32 false 0x4020 "control_PLE_gap" (when pause_loop_exiting);
  Fld F32 false 0x4022 "control_PLE_window" (when pause_loop_exiting) ].

(** 32-Bit Read-Only Data Fields *)
Definition fields_32_bit_read_only : list vmcs_field := [
  Fld F32 true 0x4400 "info_vminstr_error" always;
  Fld F32 true 0x4402 "info_vmexit_reason" always;
  Fld F32 true 0x4404 "info_vmexit_interrupt_information" always;
  Fld F32 true 0x4406 "info_vmexit_interrupt_error_code" always;
  Fld F32 true 0x4408 "info_IDT_vectoring_information" always;
  Fld F32 true 0x440A "info_IDT_vectoring_error_code" always;
  Fld F32 true 0x440C "info_vmexit_instruction_length" always;
  Fld F32 true 0x440E "info_vmx_instruction_information" always ].

(** 32-Bit Guest-State Fields *)
Definition fields_32_bit_guest_state : list vmcs_field := [
  Fld F32 false 0x4800 "guest_ES_limit" always;
  Fld F32 false 0x4802 "guest_CS_limit" always;
  Fld F32 false 0x4804 "guest_SS_limit" always;
  Fld F32 false 0x4806 "guest_DS_limit" always;
  Fld F32 false 0x4808 "guest_FS_limit" always;
  Fld F32 false 0x480A "guest_GS_limit" always;
  Fld F32 false 0x480C "guest_LDTR_limit" always;
  Fld F32 false 0x480E "guest_TR_limit" always;
  Fld F32 false 0x4810 "guest_GDTR_limit" always;
  Fld F32 false 0x4812 "guest_IDTR_limit" always;
  Fld F32 false 0x4814 "guest_ES_access_rights" always;
  Fld F32 false 0x4816 "guest_CS_access_rights" always;
  Fld F32 false 0x4818 "guest_SS_access_rights" always;
  Fld F32 false 0x481A "guest_DS_access_rights" always;
  Fld F32 false 0x481C "guest_FS_access_rights" always;
  Fld F32 false 0x481E "guest_GS_access_rights" always;
  Fld F32 false 0x4820 "guest_LDTR_access_rights" always;
  Fld F32 false 0x4822 "guest_TR_access_rights" always;
  Fld F32 false 0x4824 "guest_interruptibility" always;
  Fld F32 false 0x4826 "guest_activity_state" always;
  Fld F32 false 0x4828 "guest_SMBASE" not_qemu;
  Fld F32 false 0x482A "guest_SYSENTER_CS" always;
  Fld F32 false 0x482E "guest_VMX_preemption_timer_value" (when activate_vmx_preemption_timer) ].

(** 32-Bit Host-State Field *)
Definition fields_32_bit_host_state : list vmcs_field := [
  Fld F32 false 0x4C00 "host_SYSENTER_CS" always ].

(** Natural-Width Control Fields *)
Definition fields_natural_width_control : list vmcs_field := [
  Fld FNW false 0x6000 "control_CR0_mask" always;
  Fld FNW false 0x6002 "control_CR4_mask" always;
  Fld FNW false 0x6004 "control_CR0_shadow" always;
  Fld FNW false 0x6006 "control_CR4_shadow" always;
  Fld FNW false 0x6008 "control_CR3_target0" not_qemu;
  Fld FNW false 0x600A "control_CR3_target1" not_qemu;
  Fld FNW false 0x600C "control_CR3_target2" not_qemu;
  Fld FNW false 0x600E "control_CR3_target3" not_qemu ].

(** Natural-Width Read-Only Data Fields *)
Definition fields_natural_width_read_only : list vmcs_field := [
  Fld FNW true 0x6400 "info_exit_qualification" always;
  Fld FNW true 0x6402 "info_IO_RCX" not_qemu;
  Fld FNW true 0x6404 "info_IO_RSI" not_qemu;
  Fld FNW true 0x6406 "info_IO_RDI" not_qemu;
  Fld FNW true 0x6408 "info_IO_RIP" not_qemu;
  Fld FNW true 0x640A "info_guest_linear_address" always ].

(** Natural-Width Guest-State Fields *)
Definition fields_natural_width_guest_state : list vmcs_field := [
  Fld FNW false 0x6800 "guest_CR0" always;
  Fld FNW false 0x6802 "guest_CR3" always;
  Fld FNW false 0x6804 "guest_CR4" always;
  Fld FNW false 0x6806 "guest_ES_base" always;
  Fld FNW false 0x6808 "guest_CS_base" always;
  Fld FNW false 0x680A "guest_SS_base" always;
  Fld FNW false 0x680C "guest_DS_base" always;
  Fld FNW false 0x680E "guest_FS_base" always;
  Fld FNW false 0x6810 "guest_GS_base" always;
  Fld FNW false 0x6812 "guest_LDTR_base" always;
  Fld FNW false 0x6814 "guest_TR_base" always;
  Fld FNW false 0x6816 "guest_GDTR_base" always;
  Fld FNW false 0x6818 "guest_IDTR_base" always;
  Fld FNW false 0x681A "guest_DR7" always;
  Fld FNW false 0x681C "guest_RSP" always;
  Fld FNW false 0x681E "guest_RIP" always;
  Fld FNW false 0x6820 "guest_RFLAGS" always;
  Fld FNW false 0x6822 "guest_pending_debug_x" always;
  Fld FNW false 0x6824 "guest_SYSENTER_ESP" always;
  Fld FNW false 0x6826 "guest_SYSENTER_EIP" always;
  Fld FNW false 0x6828 "guest_IA32_S_CET" (when vmentry_load_cet_state);
  Fld FNW false 0x682A "guest_SSP" (when vmentry_load_cet_state);
  Fld FNW false 0x682C "guest_IA32_INTERRUPT_SSP_TABLE_ADDR" (when vmentry_load_cet_state) ].

(** Natural-Width Host-State Fields *)
Definition fields_natural_width_host_state : list vmcs_field := [
  Fld FNW false 0x6C00 "host_CR0" always;
  Fld FNW false 0x6C02 "host_CR3" always;
  Fld FNW false 0x6C04 "host_CR4" always;
  Fld FNW false 0x6C06 "host_FS_base" always;
  Fld FNW false 0x6C08 "host_GS_base" always;
  Fld FNW false 0x6C0A "host_TR_base" always;
  Fld FNW false 0x6C0C "host_GDTR_base" always;
  Fld FNW false 0x6C0E "host_IDTR_base" always;
  Fld FNW false 0x6C10 "host_SYSENTER_ESP" always;
  Fld FNW false 0x6C12 "host_SYSENTER_EIP" always;
  Fld FNW false 0x6C14 "host_RSP" always;
  Fld FNW false 0x6C16 "host_RIP" always;
  Fld FNW false 0x6C18 "host_IA32_S_CET" (when vmexit_load_cet_state);
  Fld FNW false 0x6C1A "host_SSP" (when vmexit_load_cet_state);
  Fld FNW false 0x6C1C "host_IA32_INTERRUPT_SSP_TABLE_ADDR" (when vmexit_load_cet_state) ].

(** The fields in the order of the file. *)
Definition vmcs_fields : list vmcs_field :=
  fields_16_bit_control ++ fields_16_bit_guest_state ++ fields_16_bit_host_state ++ fields_64_bit_control ++ fields_64_bit_read_only ++ fields_64_bit_guest_state ++ fields_64_bit_host_state ++ fields_32_bit_control ++ fields_32_bit_read_only ++ fields_32_bit_guest_state ++ fields_32_bit_host_state ++ fields_natural_width_control ++ fields_natural_width_read_only ++ fields_natural_width_guest_state ++ fields_natural_width_host_state.
