(* ===== verification/Vmcs.v ===== *)
(** [src/shv-vmcs.c] and the access functions of [src/include/_vmx.h]: reading, writing, dumping and
    loading the current VMCS.  What the processor answers is a parameter, a function of the trace. *)
From Stdlib Require Import String.
From S2P Require Import Prelude.
From S2P Require Import HptLemmas.
From S2P Require Import Mem.
From S2P Require Import CString.
From S2P Require Import Cmdline.
From S2P Require Import Stdio.
From S2P Require Import Io.
From S2P Require Import VmxCtls.
From S2P Require Import VmcsFields.

(** The answers of the processor: [None] and [false] when the instruction fails; [cpu_vmptr] is what [VMPTRST] stores. *)
Class Cpu := {
  cpu_vmread : list ioev -> Z -> option Z;
  cpu_vmwrite : list ioev -> Z -> Z -> bool;
  cpu_vmx : list ioev -> vmxop -> list Z -> bool;
  cpu_vmptr : list ioev -> Z;
  cpu_cpuid : list ioev -> Z -> Z -> Z * Z * Z * Z;
  cpu_rdmsr_faults : list ioev -> Z -> bool;
  cpu_wrmsr_faults : list ioev -> Z -> Z -> bool;
  cpu_reg : list ioev -> sysreg -> Z
}.

(** [struct _vmx_vmcsfields]: the members by name. *)
Abbreviation vmcs_t := (gmap string Z).

Section vmcs.
Context (a : subarch) {C : Cpu}.

(** ** The instructions *)

Definition __vmx_vmwrite (encoding value : Z) : IO bool := fun w =>
  let v := wrap (ptr_bits a) value in
  let ok := cpu_vmwrite (w_tr w) encoding v in Ok (ok, mkW (w_mem w) (EVmwrite encoding v ok :: w_tr w)).
Definition __vmx_vmread (encoding : Z) : IO (option Z) := fun w =>
  let v := wrap (ptr_bits a) <$> cpu_vmread (w_tr w) encoding in
  Ok (v, mkW (w_mem w) (EVmread encoding v :: w_tr w)).

(** ** Typed accesses *)

Definition __vmx_vmwrite16 (encoding value : Z) : IO unit :=
  ASSERT_io (Z.shiftr encoding 12 =? 0) ≫= fun _ => ok ← __vmx_vmwrite encoding (u16 value); ASSERT_io ok.
Definition __vmx_vmwrite64 (encoding value : Z) : IO unit :=
  ASSERT_io (Z.shiftr encoding 12 =? 2) ≫= fun _ =>
  ASSERT_io (Z.land encoding 1 =? 0) ≫= fun _ =>
  match a with
  | AMD64 => ok ← __vmx_vmwrite encoding (u64 value); ASSERT_io ok
  | _ => ok ← __vmx_vmwrite encoding (u64 value); ASSERT_io ok ≫= fun _ =>
         ok ← __vmx_vmwrite (encoding + 1) (Z.shiftr (u64 value) 32); ASSERT_io ok
  end.
Definition __vmx_vmwrite32 (encoding value : Z) : IO unit :=
  ASSERT_io (Z.shiftr encoding 12 =? 4) ≫= fun _ => ok ← __vmx_vmwrite encoding (u32 value); ASSERT_io ok.
Definition __vmx_vmwriteNW (encoding value : Z) : IO unit :=
  ASSERT_io (Z.shiftr encoding 12 =? 6) ≫= fun _ =>
  ok ← __vmx_vmwrite encoding (wrap (ptr_bits a) value); ASSERT_io ok.

(** A read that may fail: [None] when the function returns [false]. *)
Definition read_safe (class : Z) (cast : Z -> Z) (encoding : Z) : IO (option Z) :=
  ASSERT_io (Z.shiftr encoding 12 =? class) ≫= fun _ =>
  v ← __vmx_vmread encoding;
  match v with
  | None => mret None
  | Some v => ASSERT_io (v =? cast v) ≫= fun _ => mret (Some v)
  end.
Definition __vmx_vmread16_safe : Z -> IO (option Z) := read_safe 0 u16.
Definition __vmx_vmread32_safe : Z -> IO (option Z) := read_safe 4 u32.
Definition __vmx_vmreadNW_safe : Z -> IO (option Z) := read_safe 6 (wrap (ptr_bits a)).
Definition __vmx_vmread64_safe (encoding : Z) : IO (option Z) :=
  match a with
  | AMD64 => ASSERT_io (Z.shiftr encoding 12 =? 2) ≫= fun _ => __vmx_vmread encoding
  | _ =>
      ASSERT_io (Z.shiftr encoding 12 =? 2) ≫= fun _ =>
      ASSERT_io (Z.land encoding 1 =? 0) ≫= fun _ =>
      low ← __vmx_vmread encoding;
      match low with
      | None => mret None
      | Some low =>
          high ← __vmx_vmread (encoding + 1);
          match high with
          | None => lift (Err Halt)
          | Some high => mret (Some (low + Z.shiftl high 32))
          end
      end
  end.
(** [ASSERT] on the result of a safe read. *)
Definition never_fails (r : Z -> IO (option Z)) (encoding : Z) : IO Z :=
  v ← r encoding; match v with Some v => mret v | None => lift (Err Halt) end.
Definition __vmx_vmread16 : Z -> IO Z := never_fails __vmx_vmread16_safe.
Definition __vmx_vmread64 : Z -> IO Z := never_fails __vmx_vmread64_safe.
Definition __vmx_vmread32 : Z -> IO Z := never_fails __vmx_vmread32_safe.
Definition __vmx_vmreadNW : Z -> IO Z := never_fails __vmx_vmreadNW_safe.

(** ** All fields *)

(** The functions the [DECLARE_FIELD] macros select. *)
Definition vmread_safe_of (z : fsize) : Z -> IO (option Z) :=
  match z with F16 => __vmx_vmread16_safe | F64 => __vmx_vmread64_safe | F32 => __vmx_vmread32_safe | FNW => __vmx_vmreadNW_safe end.
Definition vmread_of (z : fsize) : Z -> IO Z :=
  match z with F16 => __vmx_vmread16 | F64 => __vmx_vmread64 | F32 => __vmx_vmread32 | FNW => __vmx_vmreadNW end.
Definition vmwrite_of (z : fsize) : Z -> Z -> IO unit :=
  match z with F16 => __vmx_vmwrite16 | F64 => __vmx_vmwrite64 | F32 => __vmx_vmwrite32 | FNW => __vmx_vmwriteNW end.
Definition conversion (z : fsize) : string :=
  match z with F16 => "%04hx" | F64 => "%016llx" | F32 => "%08x" | FNW => "%08lx" end.
(** The variable argument a value of the field is passed as: the small types are promoted to [int]. *)
Definition value_arg (z : fsize) (v : Z) : varg :=
  match z with F16 | F32 => VNum 32 v | F64 => VNum 64 v | FNW => VNum (ptr_bits a) v end.

(** [vmcs_print_all]: every field of the table is read and printed, and is there exactly when [exist] says so. *)
Fixpoint print_fields (l : list vmcs_field) (qemu : bool) (caps : vmx_ctls_t) (id : Z) : IO unit :=
  match l with
  | [] => mret tt
  | f :: l =>
      value ← vmread_safe_of (f_size f) (f_enc f);
      match value with
      | Some value =>
          printf a (lit ("CPU(0x%02x): vmread(0x%04x) = " ++ conversion (f_size f)) ++ [10])
            [VNum 32 id; VNum 32 (f_enc f); value_arg (f_size f) value] ≫= fun _ =>
          ASSERT_io (f_exist f qemu caps)
      | None =>
          printf a (lit "CPU(0x%02x): vmread(0x%04x) = unavailable" ++ [10])
            [VNum 32 id; VNum 32 (f_enc f)] ≫= fun _ =>
          ASSERT_io (negb (f_exist f qemu caps))
      end ≫= fun _ =>
      print_fields l qemu caps id
  end.
Definition vmcs_print_all (qemu : bool) (caps : vmx_ctls_t) (id : Z) : IO unit := print_fields vmcs_fields qemu caps id.

(** [vmcs_dump]: the fields that exist are read into the structure. *)
Fixpoint dump_fields (l : list vmcs_field) (qemu : bool) (caps : vmx_ctls_t) (id : Z) (verbose : bool) (s : vmcs_t) : IO vmcs_t :=
  match l with
  | [] => mret s
  | f :: l =>
      s ← (if f_exist f qemu caps then
             value ← vmread_of (f_size f) (f_enc f);
             (if verbose then
                printf a (lit ("CPU(0x%02x): vcpu->vmcs." ++ f_name f ++ " = " ++ conversion (f_size f)) ++ [10])
                  [VNum 32 id; value_arg (f_size f) value] ≫= fun _ => mret tt
              else mret tt) ≫= fun _ =>
             mret (<[f_name f := value]> s)
           else mret s);
      dump_fields l qemu caps id verbose s
  end.
Definition vmcs_dump (qemu : bool) (caps : vmx_ctls_t) (id : Z) (verbose : bool) (s : vmcs_t) : IO vmcs_t :=
  dump_fields vmcs_fields qemu caps id verbose s.

(** [vmcs_load]: the fields that exist are written from the structure, whose members are all there. *)
Fixpoint load_fields (l : list vmcs_field) (qemu : bool) (caps : vmx_ctls_t) (s : vmcs_t) : IO unit :=
  match l with
  | [] => mret tt
  | f :: l =>
      (if f_exist f qemu caps then vmwrite_of (f_size f) (f_enc f) (default 0 (s !! f_name f)) else mret tt) ≫= fun _ =>
      load_fields l qemu caps s
  end.
Definition vmcs_load (qemu : bool) (caps : vmx_ctls_t) (s : vmcs_t) : IO unit := load_fields vmcs_fields qemu caps s.
End vmcs.
