(* ===== verification/VmcsProps.v ===== *)
(** What the accessors of a VMCS do on a processor that keeps the fields: the shape of the table, reading what
    was written, and saving and restoring all fields. *)
From Stdlib Require Import String.
From S2P Require Import Prelude.
From S2P Require Import Io.
From S2P Require Import VmxCtls.
From S2P Require Import VmcsFields.
From S2P Require Import Vmcs.

(** ** The table *)

Definition class_of (z : fsize) : Z := match z with F16 => 0 | F64 => 2 | F32 => 4 | FNW => 6 end.
(** The encoding names the width (bits 14-13) and the type (bits 11-10; 1 is read-only data) of the field and is even. *)
Definition field_wf (f : vmcs_field) : bool :=
  (0 <=? f_enc f) && (f_enc f <? 2 ^ 15) && (Z.shiftr (f_enc f) 12 =? class_of (f_size f)) &&
  (Z.land (f_enc f) 1 =? 0) && Bool.eqb (f_ro f) (Z.land (Z.shiftr (f_enc f) 10) 3 =? 1).

Lemma fields_wf : Forall (fun f => field_wf f = true) vmcs_fields.
Proof. apply (bool_decide_unpack _). vm_compute. exact I. Qed.
Lemma fields_enc_nodup : NoDup (map f_enc vmcs_fields).
Proof. apply (bool_decide_unpack _). vm_compute. exact I. Qed.
Lemma fields_name_nodup : NoDup (map f_name vmcs_fields).
Proof. apply (bool_decide_unpack _). vm_compute. exact I. Qed.

(** ** A processor that keeps the fields *)

(** Bits of the value an access to an encoding moves. *)
Definition enc_bits (a : subarch) (enc : Z) : Z :=
  let class := Z.shiftr enc 12 in
  if class =? 0 then 16
  else if class =? 2 then (if Z.land enc 1 =? 0 then ptr_bits a else 32)
  else if class =? 4 then 32 else ptr_bits a.

(** Events that are not VMX instructions or VM exits, and VMREAD. *)
Definition quiet (e : ioev) : bool := match e with EVmwrite _ _ _ | EVmx _ _ _ | EExit _ _ => false | _ => true end.

(** The VMREAD and VMWRITE instructions: a supported field has a value, which a successful write replaces; a write
    leaves the other fields, and the low half of a 64-bit field when it goes to the high half. *)
Class VmcsCpu (a : subarch) (C : Cpu) (supported writable : Z -> bool) (val : list ioev -> Z -> Z) : Prop := {
  vc_read tr enc : supported enc = true -> cpu_vmread tr enc = Some (val tr enc);
  vc_range tr enc : is_u (enc_bits a enc) (val tr enc);
  vc_write tr enc v : writable enc = true -> cpu_vmwrite tr enc v = true;
  vc_fail tr enc v : writable enc = false -> cpu_vmwrite tr enc v = false;
  vc_val_quiet tr enc e : quiet e = true -> val (e :: tr) enc = val tr enc;
  vc_val_write tr enc v : val (EVmwrite enc v true :: tr) enc = wrap (enc_bits a enc) v;
  vc_val_other tr enc e v : (enc + 1 = e /\ Z.land enc 1 = 0) \/ Z.shiftr enc 1 <> Z.shiftr e 1 ->
    val (EVmwrite e v true :: tr) enc = val tr enc }.

(** The two cases of the architecture. *)
Definition is64 (a : subarch) : bool := match a with AMD64 => true | _ => false end.
Lemma vmread64_cases a {C : Cpu} enc :
  __vmx_vmread64_safe a enc =
  if is64 a then ASSERT_io (Z.shiftr enc 12 =? 2) ≫= fun _ => __vmx_vmread a enc
  else
    ASSERT_io (Z.shiftr enc 12 =? 2) ≫= fun _ =>
    ASSERT_io (Z.land enc 1 =? 0) ≫= fun _ =>
    low ← __vmx_vmread a enc;
    match low with
    | None => mret None
    | Some low =>
        high ← __vmx_vmread a (enc + 1);
        match high with None => lift (Err Halt) | Some high => mret (Some (low + Z.shiftl high 32)) end
    end.
Proof. by destruct a. Qed.
Lemma vmwrite64_cases a {C : Cpu} enc v :
  __vmx_vmwrite64 a enc v =
  (ASSERT_io (Z.shiftr enc 12 =? 2) ≫= fun _ => ASSERT_io (Z.land enc 1 =? 0) ≫= fun _ =>
   ok ← __vmx_vmwrite a enc (u64 v);
   if is64 a then ASSERT_io ok
   else ASSERT_io ok ≫= fun _ => ok ← __vmx_vmwrite a (enc + 1) (Z.shiftr (u64 v) 32); ASSERT_io ok).
Proof. by destruct a. Qed.
Lemma ptr_bits_is64 a : ptr_bits a = if is64 a then 64 else 32.
Proof. by destruct a. Qed.

Lemma enc_bits_le {a} enc : 0 <= enc_bits a enc <= ptr_bits a.
Proof. unfold enc_bits. repeat match goal with |- context [?x =? ?y] => destruct (x =? y) end; destruct a; cbn; lia. Qed.

Section vmcs.
Context {a : subarch} {C : Cpu} {supported writable : Z -> bool} {val : list ioev -> Z -> Z}.
Context `{HC : !VmcsCpu a C supported writable val}.

(** The encodings a field is accessed by, and its value. *)
Definition split (f : vmcs_field) : bool := match f_size f with F64 => negb (is64 a) | _ => false end.
Definition accessible (p : Z -> bool) (f : vmcs_field) : Prop := p (f_enc f) = true /\ (split f = true -> p (f_enc f + 1) = true).
Definition field_val (tr : list ioev) (f : vmcs_field) : Z :=
  if split f then val tr (f_enc f) + Z.shiftl (val tr (f_enc f + 1)) 32 else val tr (f_enc f).
Definition field_bits (f : vmcs_field) : Z :=
  match f_size f with F16 => 16 | F64 => 64 | F32 => 32 | FNW => ptr_bits a end.

Definition same_vmcs (w w' : world) : Prop := w_mem w' = w_mem w /\ forall enc, val (w_tr w') enc = val (w_tr w) enc.

Lemma same_vmcs_refl w : same_vmcs w w.
Proof. done. Qed.
Lemma same_vmcs_trans w1 w2 w3 : same_vmcs w1 w2 -> same_vmcs w2 w3 -> same_vmcs w1 w3.
Proof. intros [E1 H1] [E2 H2]. split; [congruence|]. intros enc. by rewrite H2, H1. Qed.
Lemma same_field_val w w' f : same_vmcs w w' -> field_val (w_tr w') f = field_val (w_tr w) f.
Proof. intros [_ H]. unfold field_val. by rewrite !H. Qed.

Lemma wf_facts f : field_wf f = true ->
  0 <= f_enc f < 2 ^ 15 /\ Z.shiftr (f_enc f) 12 = class_of (f_size f) /\ Z.land (f_enc f) 1 = 0.
Proof.
  unfold field_wf. rewrite !andb_true_iff. intros ((((?%Z.leb_le & ?%Z.ltb_lt) & ?%Z.eqb_eq) & ?%Z.eqb_eq) & _). done.
Qed.

(** The next encoding, of the high half, is odd and of the same class. *)
Lemma even_succ e : Z.land e 1 = 0 -> Z.land (e + 1) 1 = 1 /\ Z.shiftr (e + 1) 1 = Z.shiftr e 1.
Proof.
  intros H. change 1 with (Z.ones 1) in H at 1. rewrite Z.land_ones in H by lia.
  change (Z.land (e + 1) 1) with (Z.land (e + 1) (Z.ones 1)). rewrite Z.land_ones by lia.
  rewrite !Z.shiftr_div_pow2 by lia. change (2 ^ 1) with 2 in *. Z.div_mod_to_equations. lia.
Qed.
Lemma even_succ_class e : 0 <= e -> Z.land e 1 = 0 -> Z.shiftr (e + 1) 12 = Z.shiftr e 12.
Proof.
  intros H He. replace 12 with (1 + 11) by lia. rewrite <- !Z.shiftr_shiftr by lia.
  by rewrite (proj2 (even_succ e He)).
Qed.

Lemma vmread_run enc w : supported enc = true ->
  exists w', __vmx_vmread a enc w = Ok (Some (wrap (ptr_bits a) (val (w_tr w) enc)), w') /\ same_vmcs w w'.
Proof.
  intros Hs. unfold __vmx_vmread. rewrite vc_read by done. eexists. split; [done|]. split; [done|]. intros e. cbn. by apply (vc_val_quiet (w_tr w) e).
Qed.

Lemma wrap_val tr enc : wrap (ptr_bits a) (val tr enc) = val tr enc.
Proof.
  apply wrap_small, (is_u_le (enc_bits a enc)); [apply enc_bits_le|apply vc_range].
Qed.

Lemma assert_run b w : b = true -> ASSERT_io b w = Ok (tt, w).
Proof. by intros ->. Qed.

(** Reading a field. *)
Lemma read_safe_run class cast enc w :
  Z.shiftr enc 12 = class -> supported enc = true -> cast (val (w_tr w) enc) = val (w_tr w) enc ->
  exists w', read_safe a class cast enc w = Ok (Some (val (w_tr w) enc), w') /\ same_vmcs w w'.
Proof.
  intros Hc Hs Hcast. unfold read_safe. rewrite (bind_run _ _ _ _ _ (assert_run _ w (proj2 (Z.eqb_eq _ _) Hc))).
  destruct (vmread_run enc w Hs) as (w' & E & Hw). rewrite (bind_run _ _ _ _ _ E), wrap_val.
  rewrite (bind_run _ _ _ _ _ (assert_run _ w' (proj2 (Z.eqb_eq _ _) (eq_sym Hcast)))). eexists. by split.
Qed.

Lemma vmread_safe_ok f w : field_wf f = true -> accessible supported f ->
  exists w', vmread_safe_of a (f_size f) (f_enc f) w = Ok (Some (field_val (w_tr w) f), w') /\ same_vmcs w w'.
Proof.
  intros Hwf%wf_facts [Hs Hs1]. destruct Hwf as (Hr & Hc & He). pose proof (vc_range (w_tr w) (f_enc f)) as Hu.
  unfold enc_bits in Hu. rewrite Hc in Hu. unfold field_val, split in *.
  destruct (f_size f); cbn [vmread_safe_of class_of] in *.
  - apply read_safe_run; [done|done|by apply wrap_small].
  - rewrite vmread64_cases. destruct (is64 a); cbn [negb] in *;
      rewrite (bind_run _ _ _ _ _ (assert_run _ w (proj2 (Z.eqb_eq _ _) Hc))).
    + destruct (vmread_run (f_enc f) w Hs) as (w' & E & Hw). exists w'. by rewrite E, wrap_val.
    + rewrite (bind_run _ _ _ _ _ (assert_run _ w (proj2 (Z.eqb_eq _ _) He))).
      destruct (vmread_run (f_enc f) w Hs) as (w1 & E1 & Hw1). rewrite (bind_run _ _ _ _ _ E1).
      destruct (vmread_run (f_enc f + 1) w1 (Hs1 eq_refl)) as (w2 & E2 & Hw2). rewrite (bind_run _ _ _ _ _ E2).
      exists w2. rewrite !wrap_val, (proj2 Hw1). split; [done|]. by apply (same_vmcs_trans w w1 w2).
  - apply read_safe_run; [done|done|by apply wrap_small].
  - apply read_safe_run; [done|done|by apply wrap_small].
Qed.

Lemma vmread_ok f w : field_wf f = true -> accessible supported f ->
  exists w', vmread_of a (f_size f) (f_enc f) w = Ok (field_val (w_tr w) f, w') /\ same_vmcs w w'.
Proof.
  intros Hwf Hs. destruct (vmread_safe_ok f w Hwf Hs) as (w' & E & Hw). exists w'. split; [|done].
  destruct (f_size f); cbn [vmread_of vmread_safe_of] in *; unfold __vmx_vmread16, __vmx_vmread64, __vmx_vmread32, __vmx_vmreadNW, never_fails;
    by rewrite (bind_run _ _ _ _ _ E).
Qed.

(** Writing a field. *)
Lemma vmwrite_run enc v w : writable enc = true ->
  __vmx_vmwrite a enc v w = Ok (true, mkW (w_mem w) (EVmwrite enc (wrap (ptr_bits a) v) true :: w_tr w)).
Proof. intros Hw. unfold __vmx_vmwrite. by rewrite vc_write. Qed.

Lemma halves x : is_u 64 x -> wrap 32 x + Z.shiftl (wrap 32 (Z.shiftr x 32)) 32 = x.
Proof.
  intros Hx. unfold wrap, is_u in *. rewrite Z.shiftl_mul_pow2, Z.shiftr_div_pow2 by lia.
  assert (x / 2 ^ 32 < 2 ^ 32) by (apply Z.div_lt_upper_bound; lia).
  rewrite (Z.mod_small (x / 2 ^ 32)) by (split; [apply Z.div_pos; lia|done]).
  pose proof (Z.div_mod x (2 ^ 32) ltac:(lia)). lia.
Qed.

Lemma even_half e : Z.land e 1 = 0 -> e = 2 * Z.shiftr e 1.
Proof.
  intros H. change 1 with (Z.ones 1) in H. rewrite Z.land_ones in H by lia. rewrite Z.shiftr_div_pow2 by lia.
  change (2 ^ 1) with 2 in *. Z.div_mod_to_equations. lia.
Qed.

Lemma enc_bits_field f : field_wf f = true ->
  enc_bits a (f_enc f) = (if split f then 32 else field_bits f) /\
  (split f = true -> enc_bits a (f_enc f + 1) = 32).
Proof.
  intros (Hr & Hc & He)%wf_facts. destruct (even_succ _ He) as [He1 _]. pose proof (even_succ_class (f_enc f) ltac:(lia) He) as Hc1.
  unfold enc_bits, split, field_bits. rewrite Hc1, Hc, He, He1.
  destruct (f_size f); cbn -[ptr_bits]; try done. rewrite ptr_bits_is64. by destruct (is64 a).
Qed.

(** What a write of the field did. *)
Record field_written (f : vmcs_field) (v : Z) (w w' : world) : Prop := {
  fw_mem : w_mem w' = w_mem w;
  fw_value : field_val (w_tr w') f = wrap (field_bits f) v;
  fw_other g : field_wf g = true -> f_enc g <> f_enc f -> field_val (w_tr w') g = field_val (w_tr w) g }.

Lemma other_half f g : field_wf f = true -> field_wf g = true -> f_enc g <> f_enc f ->
  Z.shiftr (f_enc g) 1 <> Z.shiftr (f_enc f) 1.
Proof.
  intros (_ & _ & Hf)%wf_facts (_ & _ & Hg)%wf_facts Hne E. apply Hne.
  rewrite (even_half _ Hf), (even_half _ Hg). by rewrite E.
Qed.

Lemma other_val f g tr v e : field_wf f = true -> field_wf g = true -> f_enc g <> f_enc f ->
  e = f_enc f \/ e = f_enc f + 1 -> field_val (EVmwrite e v true :: tr) g = field_val tr g.
Proof.
  intros Hf Hg Hne He. pose proof (other_half f g Hf Hg Hne) as Hh.
  apply wf_facts in Hf as (_ & _ & Hf), Hg as (_ & _ & Hg).
  assert (Z.shiftr e 1 = Z.shiftr (f_enc f) 1) as Ee by (destruct He as [-> | ->]; [done|apply even_succ, Hf]).
  unfold field_val. destruct (even_succ _ Hg) as [_ Eg].
  assert (forall e', Z.shiftr e' 1 = Z.shiftr (f_enc g) 1 -> val (EVmwrite e v true :: tr) e' = val tr e') as H
    by (intros e' E'; apply vc_val_other; right; congruence).
  rewrite !H; [done|done..].
Qed.

Lemma wrap_ptr f v : split f = false -> field_wf f = true -> wrap (field_bits f) (wrap (ptr_bits a) v) = wrap (field_bits f) v.
Proof.
  intros Hs Hwf. destruct (enc_bits_field f Hwf) as [E _]. rewrite Hs in E. pose proof (enc_bits_le (a := a) (f_enc f)) as Hle.
  rewrite E in Hle. by apply wrap_wrap.
Qed.

Lemma single_write f v w : field_wf f = true -> split f = false -> writable (f_enc f) = true ->
  field_written f v w (mkW (w_mem w) (EVmwrite (f_enc f) (wrap (ptr_bits a) v) true :: w_tr w)).
Proof.
  intros Hwf Hs Hw. constructor; cbn; [done| |intros g Hg Hne; apply (other_val f g); auto].
  unfold field_val. rewrite Hs, vc_val_write. destruct (enc_bits_field f Hwf) as [-> _]. rewrite Hs.
  by apply wrap_ptr.
Qed.

Lemma single_write_run f v w : field_wf f = true -> split f = false -> writable (f_enc f) = true ->
  (ASSERT_io (Z.shiftr (f_enc f) 12 =? class_of (f_size f)) ≫= fun _ => ok ← __vmx_vmwrite a (f_enc f) v; ASSERT_io ok) w =
  Ok (tt, mkW (w_mem w) (EVmwrite (f_enc f) (wrap (ptr_bits a) v) true :: w_tr w)).
Proof.
  intros (_ & Hc & _)%wf_facts _ Hw. rewrite (bind_run _ _ _ _ _ (assert_run _ w (proj2 (Z.eqb_eq _ _) Hc))).
  by rewrite (bind_run _ _ _ _ _ (vmwrite_run _ v w Hw)).
Qed.

Lemma wrapped_write f u v w : wrap (field_bits f) u = wrap (field_bits f) v -> forall w', field_written f u w w' -> field_written f v w w'.
Proof. intros E w' [Hm Hv Ho]. constructor; [done|by rewrite Hv|done]. Qed.

Lemma vmwrite_ok f v w : field_wf f = true -> accessible writable f ->
  exists w', vmwrite_of a (f_size f) (f_enc f) v w = Ok (tt, w') /\ field_written f v w w'.
Proof.
  intros Hwf [Hw Hw1]. destruct (split f) eqn:Hs.
  - assert (f_size f = F64 /\ is64 a = false) as [Ez E64]
      by (unfold split in Hs; destruct (f_size f); try done; by destruct (is64 a)).
    pose proof (wf_facts f Hwf) as (Hr & Hc & He). rewrite Ez in *. cbn [vmwrite_of class_of] in *.
    rewrite vmwrite64_cases, E64, (bind_run _ _ _ _ _ (assert_run _ w (proj2 (Z.eqb_eq _ _) Hc))).
    rewrite (bind_run _ _ _ _ _ (assert_run _ w (proj2 (Z.eqb_eq _ _) He))), (bind_run _ _ _ _ _ (vmwrite_run _ _ w Hw)).
    rewrite (bind_run _ _ _ _ _ (assert_run _ _ eq_refl)), (bind_run _ _ _ _ _ (vmwrite_run _ _ _ (Hw1 eq_refl))).
    eexists. split; [done|]. destruct (enc_bits_field f Hwf) as [Eb Eb1]. rewrite Hs in Eb. specialize (Eb1 Hs).
    constructor; cbn; [done| |].
    + unfold field_val. rewrite Hs, vc_val_write, vc_val_other by (by left). rewrite vc_val_write, Eb, Eb1.
      rewrite ptr_bits_is64, E64, !wrap_wrap by lia. unfold field_bits. rewrite Ez. apply halves, is_u_wrap. lia.
    + intros g Hg Hne. rewrite !(other_val f g) by auto. done.
  - set (u := match f_size f with F16 => u16 v | F64 => u64 v | F32 => u32 v | FNW => wrap (ptr_bits a) v end).
    exists (mkW (w_mem w) (EVmwrite (f_enc f) (wrap (ptr_bits a) u) true :: w_tr w)). split.
    + rewrite <- (single_write_run f u w Hwf Hs Hw). unfold u, split in *.
      destruct (f_size f); cbn [vmwrite_of class_of]; try done.
      rewrite vmwrite64_cases. destruct (is64 a); [|done].
      pose proof (wf_facts f Hwf) as (_ & Hc & He). 
      unfold mbind at 1 4, IO_bind. destruct (ASSERT_io _ w) as [[[] w']|]; [|done].
      by rewrite (bind_run _ _ _ _ _ (assert_run _ w' (proj2 (Z.eqb_eq _ _) He))).
    + apply (wrapped_write f u v w); [|by apply single_write]. unfold u, field_bits.
      pose proof (ptr_bits_is64 a). destruct (f_size f); apply wrap_wrap; try lia. destruct (is64 a); lia.
Qed.

Lemma field_val_range tr f : field_wf f = true -> is_u (field_bits f) (field_val tr f).
Proof.
  intros Hwf. destruct (enc_bits_field f Hwf) as [E E1]. pose proof (vc_range tr (f_enc f)) as Hu. unfold field_val.
  rewrite E in Hu. destruct (split f) eqn:Hs; [|done].
  pose proof (vc_range tr (f_enc f + 1)) as Hv. rewrite (E1 eq_refl) in Hv.
  unfold field_bits, split, is_u in *. destruct (f_size f); try done.
  rewrite Z.shiftl_mul_pow2 by lia. change (2 ^ 64) with (2 ^ 32 * 2 ^ 32). lia.
Qed.

(** ** All fields *)
Section all.
Context (qemu : bool) (caps : vmx_ctls_t) (id : Z).
Lemma dump_fields_cons f l (s : vmcs_t) :
  dump_fields a (f :: l) qemu caps id false s =
  (if f_exist f qemu caps then value ← vmread_of a (f_size f) (f_enc f); mret (<[f_name f := value]> s) else mret s) ≫=
  dump_fields a l qemu caps id false.
Proof. done. Qed.

Lemma dump_field_ok f (s : vmcs_t) w : field_wf f = true -> (f_exist f qemu caps = true -> accessible supported f) ->
  exists s' w',
    (if f_exist f qemu caps then value ← vmread_of a (f_size f) (f_enc f); mret (<[f_name f := value]> s) else mret s) w = Ok (s' : vmcs_t, w') /\
    same_vmcs w w' /\ (f_exist f qemu caps = true -> s' !! f_name f = Some (field_val (w_tr w) f)) /\
    forall n, n <> f_name f -> s' !! n = s !! n.
Proof.
  intros Hf Ha. destruct (f_exist f qemu caps); [|by exists s, w].
  destruct (vmread_ok f w Hf (Ha eq_refl)) as (w' & E & Hw). exists (<[f_name f := field_val (w_tr w) f]> s), w'.
  rewrite (bind_run _ _ _ _ _ E). split; [done|]. split; [done|].
  split; [intros _; apply lookup_insert_eq|intros n Hne; by apply lookup_insert_ne].
Qed.

Lemma dump_fields_ok l s w :
  Forall (fun f => field_wf f = true) l -> NoDup (map f_name l) ->
  Forall (fun f => f_exist f qemu caps = true -> accessible supported f) l ->
  exists s' w', dump_fields a l qemu caps id false s w = Ok (s', w') /\ same_vmcs w w' /\
    Forall (fun f => f_exist f qemu caps = true -> s' !! f_name f = Some (field_val (w_tr w) f)) l /\
    forall n, n ∉ map f_name l -> s' !! n = s !! n.
Proof.
  revert s w. induction l as [|f l IH]; intros s w Hwf Hnd Ha; [by exists s, w|].
  inversion_clear Hwf as [|?? Hf Hwf']. inversion_clear Ha as [|?? Haf Ha']. inversion_clear Hnd as [|?? Hn Hnd'].
  destruct (dump_field_ok f s w Hf Haf) as (s1 & w1 & E & Hw & Hv & Ho).
  destruct (IH s1 w1 Hwf' Hnd' Ha') as (s2 & w2 & E2 & Hw2 & Hv2 & Ho2).
  exists s2, w2. split; [|split; [by apply (same_vmcs_trans w w1 w2)|split]].
  - by rewrite dump_fields_cons, (bind_run _ _ _ _ _ E).
  - constructor; [intros He; by rewrite Ho2, Hv|]. eapply Forall_impl; [exact Hv2|]. intros g Hg He.
    by rewrite (Hg He), (same_field_val w w1).
  - intros n (Hne & Hnl)%not_elem_of_cons. by rewrite Ho2, Ho.
Qed.

Lemma load_field_ok f (s : vmcs_t) w : field_wf f = true -> (f_exist f qemu caps = true -> accessible writable f) ->
  exists w',
    (if f_exist f qemu caps then vmwrite_of a (f_size f) (f_enc f) (default 0 (s !! f_name f)) else mret tt) w = Ok (tt, w') /\
    w_mem w' = w_mem w /\
    (f_exist f qemu caps = true -> field_val (w_tr w') f = wrap (field_bits f) (default 0 (s !! f_name f))) /\
    forall g, field_wf g = true -> f_enc g <> f_enc f -> field_val (w_tr w') g = field_val (w_tr w) g.
Proof.
  intros Hf Ha. destruct (f_exist f qemu caps); [|by exists w].
  destruct (vmwrite_ok f (default 0 (s !! f_name f)) w Hf (Ha eq_refl)) as (w' & E & [Hm Hv Ho]). exists w'. by split_and!.
Qed.

Lemma load_fields_ok l s w :
  Forall (fun f => field_wf f = true) l -> NoDup (map f_enc l) ->
  Forall (fun f => f_exist f qemu caps = true -> accessible writable f) l ->
  exists w', load_fields a l qemu caps s w = Ok (tt, w') /\ w_mem w' = w_mem w /\
    Forall (fun f => f_exist f qemu caps = true -> field_val (w_tr w') f = wrap (field_bits f) (default 0 (s !! f_name f))) l /\
    forall g, field_wf g = true -> f_enc g ∉ map f_enc l -> field_val (w_tr w') g = field_val (w_tr w) g.
Proof.
  revert w. induction l as [|f l IH]; intros w Hwf Hnd Ha; [by exists w|].
  inversion_clear Hwf as [|?? Hf Hwf']. inversion_clear Ha as [|?? Haf Ha']. inversion_clear Hnd as [|?? Hn Hnd'].
  cbn [load_fields].
  destruct (load_field_ok f s w Hf Haf) as (w1 & E & Hm & Hv & Ho).
  rewrite (bind_run _ _ _ _ _ E). destruct (IH w1 Hwf' Hnd' Ha') as (w2 & E2 & Hm2 & Hv2 & Ho2).
  exists w2. split; [done|]. split; [congruence|]. split.
  - constructor; [|done]. intros He. by rewrite Ho2, Hv.
  - intros g Hg (Hne & Hnl)%not_elem_of_cons. by rewrite Ho2, Ho.
Qed.

(** Saving the VMCS changes nothing in it. *)
Lemma vmcs_dump_ok (s : vmcs_t) w :
  Forall (fun f => f_exist f qemu caps = true -> accessible supported f) vmcs_fields ->
  exists s' w', vmcs_dump a qemu caps id false s w = Ok (s', w') /\ same_vmcs w w' /\
    Forall (fun f => f_exist f qemu caps = true -> s' !! f_name f = Some (field_val (w_tr w) f)) vmcs_fields.
Proof.
  intros Ha. destruct (dump_fields_ok vmcs_fields s w fields_wf fields_name_nodup Ha) as (s' & w' & E & Hw & Hv & _).
  by exists s', w'.
Qed.

(** Restoring gives every field that exists the value of its member. *)
Lemma vmcs_load_ok (s : vmcs_t) w :
  Forall (fun f => f_exist f qemu caps = true -> accessible writable f) vmcs_fields ->
  exists w', vmcs_load a qemu caps s w = Ok (tt, w') /\ w_mem w' = w_mem w /\
    Forall (fun f => f_exist f qemu caps = true -> field_val (w_tr w') f = wrap (field_bits f) (default 0 (s !! f_name f))) vmcs_fields.
Proof.
  intros Ha. destruct (load_fields_ok vmcs_fields s w fields_wf fields_enc_nodup Ha) as (w' & E & Hm & Hv & _).
  by exists w'.
Qed.
End all.
End vmcs.

(** C12: On a processor where the fields that exist can be read and written, saving the VMCS with [vmcs_dump] leaves it
    as it is, and loading the saved structure with [vmcs_load] at any later moment succeeds and gives every existing field
    the value it had, on the 32-bit build too, where a 64-bit field is two accesses. *)
Theorem vmcs_dump_load (a : subarch) (C : Cpu) supported writable val (HC : VmcsCpu a C supported writable val)
    (qemu : bool) (caps : vmx_ctls_t) id (s : vmcs_t) w :
  Forall (fun f => f_exist f qemu caps = true -> accessible (a := a) supported f /\ accessible (a := a) writable f) vmcs_fields ->
  exists s' w', vmcs_dump a qemu caps id false s w = Ok (s', w') /\
    (forall enc, val (w_tr w') enc = val (w_tr w) enc) /\
    forall w2, exists w3, vmcs_load a qemu caps s' w2 = Ok (tt, w3) /\
      Forall (fun f => f_exist f qemu caps = true ->
                       field_val (a := a) (val := val) (w_tr w3) f = field_val (a := a) (val := val) (w_tr w) f) vmcs_fields.
Proof.
  intros Ha. destruct (vmcs_dump_ok (HC := HC) qemu caps id s w) as (s' & w' & E & [_ Hw] & Hv).
  { eapply Forall_impl; [exact Ha|]. intros f Hf He. apply (Hf He). }
  exists s', w'. split; [done|]. split; [done|]. intros w2.
  destruct (vmcs_load_ok (HC := HC) qemu caps s' w2) as (w3 & E3 & _ & H3).
  { eapply Forall_impl; [exact Ha|]. intros f Hf He. apply (Hf He). }
  exists w3. split; [done|]. apply Forall_forall. intros f Hin He.
  rewrite (proj1 (Forall_forall _ _) H3 f Hin He), (proj1 (Forall_forall _ _) Hv f Hin He). cbn.
  apply wrap_small, field_val_range, (proj1 (Forall_forall _ _) fields_wf f Hin).
Qed.

(** ** Fields that cannot be written *)

Lemma vmwrite_of_result a {C : Cpu} z enc v w :
  (exists w', vmwrite_of a z enc v w = Ok (tt, w')) \/ vmwrite_of a z enc v w = Err Halt.
Proof.
  destruct z; cbn; [|rewrite vmwrite64_cases| |];
    unfold __vmx_vmwrite16, __vmx_vmwrite32, __vmx_vmwriteNW, __vmx_vmwrite, ASSERT_io, ASSERT, lift, mbind, IO_bind; cbn;
    repeat match goal with |- context [if ?b then _ else _] => destruct b; cbn end; eauto.
Qed.

Lemma vmwrite_of_refused a {C : Cpu} z enc v w : (forall tr u, cpu_vmwrite tr enc u = false) -> vmwrite_of a z enc v w = Err Halt.
Proof.
  intros H. destruct z; cbn; [|rewrite vmwrite64_cases| |];
    unfold __vmx_vmwrite16, __vmx_vmwrite32, __vmx_vmwriteNW, __vmx_vmwrite, ASSERT_io, ASSERT, lift, mbind, IO_bind; cbn;
    repeat match goal with |- context [if ?b then _ else _] => destruct b; cbn; rewrite ?H end; done.
Qed.

Lemma load_fields_refused a {C : Cpu} qemu caps (s : vmcs_t) l w :
  Exists (fun f => f_exist f qemu caps = true /\ forall tr u, cpu_vmwrite tr (f_enc f) u = false) l ->
  load_fields a l qemu caps s w = Err Halt.
Proof.
  intros H. revert w. induction H as [f l [He Hf]|f l _ IH]; intros w; cbn [load_fields]; unfold mbind, IO_bind.
  - by rewrite He, vmwrite_of_refused.
  - destruct (f_exist f qemu caps); [|apply IH].
    destruct (vmwrite_of_result a (f_size f) (f_enc f) (default 0 (s !! f_name f)) w) as [[w' ->] | ->]; [apply IH|done].
Qed.

(** [vmcs_load] also writes the fields the table declares read-only: on a processor whose [VMWRITE] refuses
    them it stops at an assertion, whatever structure it is given. *)
Theorem vmcs_load_read_only a (C : Cpu) qemu caps (s : vmcs_t) w :
  (forall f tr u, f ∈ vmcs_fields -> f_ro f = true -> cpu_vmwrite tr (f_enc f) u = false) ->
  vmcs_load a qemu caps s w = Err Halt.
Proof.
  intros H. apply load_fields_refused, Exists_exists. exists (Fld F32 true 0x4400 "info_vminstr_error" always).
  assert (Fld F32 true 0x4400 "info_vminstr_error" always ∈ vmcs_fields) as Hin by (apply (list_elem_of_lookup_2 _ 83); reflexivity).
  split; [done|]. split; [done|]. intros tr u. by apply (H _ tr u Hin).
Qed.

(** ** A processor without a restriction *)

(** A field has the value last written to it. *)
Fixpoint last_written (a : subarch) (tr : list ioev) (enc : Z) : Z :=
  match tr with
  | [] => 0
  | EVmwrite e v true :: tr => if e =? enc then wrap (enc_bits a enc) v else last_written a tr enc
  | _ :: tr => last_written a tr enc
  end.
Definition plain_cpu (a : subarch) (reg : sysreg -> Z) : Cpu := {|
  cpu_vmread tr enc := Some (last_written a tr enc);
  cpu_vmwrite _ _ _ := true;
  cpu_vmx _ _ _ := true;
  cpu_vmptr _ := 0;
  cpu_cpuid _ _ _ := (0, 0, 0, 0);
  cpu_rdmsr_faults _ _ := false;
  cpu_wrmsr_faults _ _ _ := false;
  cpu_reg _ := reg |}.

Lemma plain_vmcs_cpu a reg : VmcsCpu a (plain_cpu a reg) (fun _ => true) (fun _ => true) (last_written a).
Proof.
  constructor; try done.
  - intros tr enc. assert (0 <= enc_bits a enc) as Hb by (pose proof (enc_bits_le (a := a) enc); lia).
    induction tr as [|[] tr IH]; cbn; try done; try (by split; [|apply Z.pow_pos_nonneg]).
    destruct ok; [|done]. destruct (_ =? enc); [by apply is_u_wrap|done].
  - intros tr enc e Hq. by destruct e.
  - intros tr enc v. cbn. by rewrite Z.eqb_refl.
  - intros tr enc e v H. cbn. destruct (Z.eqb_spec e enc) as [-> |]; [|done]. exfalso. destruct H; [lia|done].
Qed.

Definition no_ctls : vmx_ctls_t := mkCtls 0 0 0 0 0.
Lemma vmcs_dump_load_witness :
  exists s' w', vmcs_dump I386_PAE (C := plain_cpu I386_PAE (fun _ => 0)) false no_ctls 0 false ∅ (mkW ∅ [EVmwrite 0x2000 5 true]) = Ok (s', w') /\
    (forall enc, last_written I386_PAE (w_tr w') enc = last_written I386_PAE [EVmwrite 0x2000 5 true] enc) /\
    forall w2, exists w3, vmcs_load I386_PAE (C := plain_cpu I386_PAE (fun _ => 0)) false no_ctls s' w2 = Ok (tt, w3) /\
      Forall (fun f => f_exist f false no_ctls = true ->
                       field_val (a := I386_PAE) (val := last_written I386_PAE) (w_tr w3) f =
                       field_val (a := I386_PAE) (val := last_written I386_PAE) [EVmwrite 0x2000 5 true] f) vmcs_fields.
Proof.
  apply (vmcs_dump_load I386_PAE (plain_cpu I386_PAE (fun _ => 0)) (fun _ => true) (fun _ => true) (last_written I386_PAE) (plain_vmcs_cpu _ _)
    false no_ctls 0 ∅ (mkW ∅ [EVmwrite 0x2000 5 true])).
  apply Forall_forall. intros f _ _. by split; split.
Defined.

Definition reading_cpu : Cpu := {|
  cpu_vmread _ _ := Some 0;
  cpu_vmwrite _ enc _ := negb (Z.land (Z.shiftr enc 10) 3 =? 1);
  cpu_vmx _ _ _ := true;
  cpu_vmptr _ := 0;
  cpu_cpuid _ _ _ := (0, 0, 0, 0);
  cpu_rdmsr_faults _ _ := false;
  cpu_wrmsr_faults _ _ _ := false;
  cpu_reg _ _ := 0 |}.
Lemma vmcs_load_read_only_witness : @vmcs_load AMD64 reading_cpu false no_ctls ∅ (mkW ∅ []) = Err Halt.
Proof.
  apply (vmcs_load_read_only AMD64 reading_cpu). intros f tr u Hin Hro. pose proof (proj1 (Forall_forall _ _) fields_wf f Hin) as Hf.
  unfold field_wf in Hf. rewrite !andb_true_iff in Hf. destruct Hf as (_ & Hf%eqb_prop). cbn. by rewrite <- Hf, Hro.
Defined.
