(* ===== verification/Print.v ===== *)
(** Which calls of [printf] are safe: a checker of a format against the types of its arguments, and the proof that
    a call it accepts prints and never faults. *)
From Stdlib Require Import String.
From S2P Require Import Prelude.
From S2P Require Import Mem.
From S2P Require Import CString.
From S2P Require Import Cmdline.
From S2P Require Import Stdio.
From S2P Require Import StdioProps.
From S2P Require Import Io.

(** The type of a variable argument: a number of some width, a number of 64 bits whose sign bit is clear, a string of a bounded
    length. *)
Inductive aty := ANum (width : Z) | APos | AStr (max : Z).
Definition has_ty (v : varg) (t : aty) : Prop :=
  match v, t with
  | VNum w _, ANum w' => w = w'
  | VNum w x, APos => w = 64 /\ 0 <= x < 2 ^ 63
  | VStr (Some s), AStr n => slen s <= n
  | _, _ => False
  end.

Section check.
Context (a : subarch).

(** The width of the argument of an unsigned conversion. *)
Definition nosign_width (f : flags) : Z := if f_qflag f then 64 else if f_lflag f then ptr_bits a else 32.
Definition take_num (w : Z) (pos : Z) (tys : list aty) : option (Z * list aty) :=
  match tys with ANum w' :: tys => if w' =? w then Some (pos, tys) else None | _ => None end.

(** A conversion: flags 0, l and h, a width, and d, u, x, X, c, s or %. *)
Fixpoint check_conv (fuel : nat) (str : cstr) (fmt : Z) (f : flags) (tys : list aty) : option (Z * list aty) :=
  match fuel with
  | O => None
  | S fuel =>
      match at_ str fmt with
      | Err _ => None
      | Ok ch =>
          if ch =? 48 then check_conv fuel str (fmt + 1) (set_padc 48 f) tys
          else if (49 <=? ch) && (ch <=? 57) then
            match width_loop (S (List.length str)) str (fmt + 1) 0 ch with
            | Ok (n, fmt) => if (0 <=? n) && (n <=? 1000) && (0 <=? fmt) && (fmt <=? slen str) then check_conv fuel str fmt (set_width n f) tys else None
            | Err _ => None
            end
          else if ch =? 108 then
            check_conv fuel str (fmt + 1) (if f_lflag f then set_lq false true f else set_lq true (f_qflag f) f) tys
          else if ch =? 104 then
            check_conv fuel str (fmt + 1) (if f_hflag f then set_hc false true f else set_hc true (f_cflag f) f) tys
          else if ch =? 37 then Some (fmt + 1, tys)
          else if ch =? 99 then take_num 32 (fmt + 1) tys
          else if ch =? 100 then
            if f_qflag f then match tys with APos :: tys => Some (fmt + 1, tys) | _ => None end
            else if f_lflag f then None else take_num 32 (fmt + 1) tys
          else if (ch =? 117) || (ch =? 120) || (ch =? 88) then take_num (nosign_width f) (fmt + 1) tys
          else if ch =? 115 then
            match tys with AStr n :: tys => if n <=? 1000 then Some (fmt + 1, tys) else None | _ => None end
          else None
      end
  end.

(** The format from a position on. *)
Fixpoint check_fmt (fuel : nat) (str : cstr) (fmt : Z) (tys : list aty) : bool :=
  match fuel with
  | O => false
  | S fuel =>
      match at_ str fmt with
      | Err _ => false
      | Ok ch =>
          if ch =? 37 then
            match check_conv (S (S (List.length str))) str (fmt + 1) no_flags tys with
            | Some (fmt', tys) => (fmt <? fmt') && check_fmt fuel str fmt' tys
            | None => false
            end
          else if ch =? 0 then true
          else check_fmt fuel str (fmt + 1) tys
      end
  end.
Definition check_printf (fmt : cstr) (tys : list aty) : bool :=
  (slen fmt <=? 60000) && check_fmt (S (S (List.length fmt))) fmt 0 tys.

(** ** The checker is right *)

Definition plain_flags (f : flags) : Prop :=
  0 <= f_width f <= 1000 /\ f_dwidth f = 0 /\ f_dot f = false /\ f_sign f = false /\ f_sharpflag f = false /\
  f_ladjust f = false /\ f_jflag f = false /\ f_tflag f = false /\ f_zflag f = false.
Definition shaped (ap : list varg) (tys : list aty) : Prop := Forall2 has_ty ap tys.

(** What a conversion does: it prints and takes the arguments it was checked with. *)
Definition printed (st : kst) (tys : list aty) (r : res kst) : Prop :=
  exists l ap, r = Ok (mkKst (k_ev st ++ map Put l) (retval st + slen l) ap) /\ slen l <= 4000 /\ shaped ap tys.

Lemma printed_push l st tys : slen l <= 4000 -> shaped (k_ap st) tys -> printed st tys (Ok (push l st)).
Proof. intros Hl Hs. by exists l, (k_ap st). Qed.

Lemma PCHARS_printed l st tys : slen l <= 4000 -> retval st < 2 ^ 30 -> shaped (k_ap st) tys -> printed st tys (PCHARS l st).
Proof. intros Hl Hr Hs. rewrite PCHARS_ok by (unfold INT_MAX; lia). by apply printed_push. Qed.

Lemma shaped_num ev rv ap w tys : shaped ap (ANum w :: tys) ->
  exists z ap', ap = VNum w z :: ap' /\ shaped ap' tys /\ va_num w (mkKst ev rv ap) = Ok (wrap w z, mkKst ev rv ap').
Proof.
  intros H. inversion H as [|v ? ap' ? Hv Hs]; subst. destruct v as [w' z| | |]; cbn in Hv; try done. subst w'.
  exists z, ap'. split; [done|]. split; [done|]. unfold va_num, va_arg. cbn. by rewrite Z.eqb_refl.
  destruct s; done.
Qed.

Lemma number_printed f base num ev rv ap tys :
  0 <= f_width f <= 1000 -> f_dwidth f = 0 -> 2 <= base <= 36 -> 0 <= num < 2 ^ 64 ->
  magnitude f num <> 2 ^ 63 \/ negative f num = false -> 0 <= rv < 2 ^ 30 - 200 -> shaped ap tys ->
  printed (mkKst ev rv ap) tys (print_number f base num (mkKst ev rv ap)).
Proof.
  intros Hw Hd Hb Hn Hm Hr Hs. destruct (print_number_run f base num (mkKst ev rv ap)) as (ds & _ & _ & _ & Hl & ->); try done; [lia|lia|].
  apply printed_push; [|done].
  pose proof (layout_length f base (negative f num) (magnitude f num =? 0) (map (dig (f_upper f)) ds)) as H.
  assert (slen (map (dig (f_upper f)) ds) = slen ds) as El by (unfold slen; by rewrite length_map). lia.
Qed.

Lemma nosign_printed f base ev rv ap tys pos tys' p0 :
  plain_flags f -> 2 <= base <= 36 -> 0 <= rv < 2 ^ 30 - 200 -> shaped ap tys ->
  take_num (nosign_width f) p0 tys = Some (pos, tys') ->
  pos = p0 /\ printed (mkKst ev rv ap) tys' (handle_nosign a f base (mkKst ev rv ap)).
Proof.
  intros (Hw & Hd & _ & _ & _ & _ & Hj & Ht & Hz) Hb Hr Hs Hc. destruct tys as [|[w| |] tys]; try done. cbn in Hc.
  destruct (Z.eqb_spec w (nosign_width f)) as [->|]; [|done]. injection Hc as <- <-. split; [done|].
  destruct (shaped_num ev rv ap _ _ Hs) as (z & ap' & _ & Hs' & E). unfold handle_nosign. rewrite Hj, Ht, Hz.
  assert (forall x, 0 <= x < 2 ^ 64 -> printed (mkKst ev rv ap) tys (print_number (set_sign false f) base x (mkKst ev rv ap'))) as Hp.
  { intros x Hx. destruct (number_printed (set_sign false f) base x ev rv ap' tys) as (l & ap'' & E' & Hl); try done; [by right|].
    exists l, ap''. by rewrite E'. }
  assert (forall n y, 0 <= n <= 64 -> 0 <= wrap n y < 2 ^ 64) as Hwr.
  { intros n y Hn. apply (is_u_le n 64); [lia|]. apply is_u_wrap; lia. }
  unfold nosign_width, va_int in *. destruct (f_qflag f); [rewrite E; cbn; apply Hp, Hwr; lia|].
  destruct (f_lflag f); [rewrite E; cbn; apply Hp, Hwr; destruct a; cbn; lia|].
  rewrite E. destruct (f_hflag f), (f_cflag f); cbn; apply Hp, Hwr; lia.
Qed.

Lemma swrap_small n y : 0 < n <= 63 -> - 2 ^ 63 < swrap n y < 2 ^ 63.
Proof.
  intros Hn. unfold swrap. pose proof (is_u_wrap n y ltac:(lia)) as Hu. unfold is_u in Hu.
  assert (2 ^ n = 2 * 2 ^ (n - 1)) by (rewrite <- Z.pow_succ_r by lia; f_equal; lia).
  assert (2 ^ n <= 2 ^ 63) by (apply Z.pow_le_mono_r; lia). cbv zeta. destruct (Z.ltb_spec (wrap n y) (2 ^ (n - 1))); lia.
Qed.

Lemma swrap_u64 x : - 2 ^ 63 < x < 2 ^ 63 -> swrap 64 (u64 x) = x.
Proof.
  intros Hx. unfold swrap, u64. rewrite wrap_wrap by lia. cbv zeta. unfold wrap. destruct (Z.le_gt_cases 0 x).
  - rewrite Z.mod_small by lia. by rewrite (proj2 (Z.ltb_lt _ _)) by lia.
  - replace (x mod 2 ^ 64) with (x + 2 ^ 64) by (rewrite <- (Z.mod_add x 1) by lia; symmetry; apply Z.mod_small; lia).
    rewrite (proj2 (Z.ltb_ge _ _)) by lia. lia.
Qed.

Lemma sign_printed f ev rv ap tys pos tys' p0 :
  plain_flags f -> f_qflag f || f_lflag f = false -> 0 <= rv < 2 ^ 30 - 200 -> shaped ap tys ->
  take_num 32 p0 tys = Some (pos, tys') ->
  pos = p0 /\ printed (mkKst ev rv ap) tys' (handle_sign a (set_sign true f) 10 (mkKst ev rv ap)).
Proof.
  intros (Hw & Hd & _ & _ & _ & _ & Hj & Ht & Hz) [Hq Hl]%orb_false_iff Hr Hs Hc. destruct tys as [|[w| |] tys]; try done. cbn in Hc.
  destruct (Z.eqb_spec w 32) as [->|]; [|done]. injection Hc as <- <-. split; [done|].
  destruct (shaped_num ev rv ap _ _ Hs) as (z & ap' & _ & Hs' & E). unfold handle_sign, set_sign. cbn. rewrite Hj, Ht, Hz, Hq, Hl.
  assert (forall n x, 0 < n <= 32 -> printed (mkKst ev rv ap) tys
      (print_number (set_sign true f) 10 (u64 (swrap n x)) (mkKst ev rv ap'))) as Hp.
  { intros n x Hn. pose proof (swrap_small n x ltac:(lia)) as Hsm.
    pose proof (swrap_u64 (swrap n x) Hsm) as Es.
    destruct (number_printed (set_sign true f) 10 (u64 (swrap n x)) ev rv ap' tys) as (l & ap'' & E' & Hl'); try done.
    - apply is_u_wrap; lia.
    - unfold magnitude, negative. cbn. rewrite Es. destruct (Z.ltb_spec (swrap n x) 0); [left; lia|by right].
    - exists l, ap''. by rewrite E'. }
  unfold va_int. rewrite E. destruct (f_hflag f), (f_cflag f); cbn; apply Hp; lia.
Qed.

Lemma long_printed f ev rv ap tys :
  plain_flags f -> f_qflag f = true -> 0 <= rv < 2 ^ 30 - 200 -> shaped ap (APos :: tys) ->
  printed (mkKst ev rv ap) tys (handle_sign a (set_sign true f) 10 (mkKst ev rv ap)).
Proof.
  intros (Hw & Hd & _ & _ & _ & _ & Hj & _) Hq Hr Hs. inversion Hs as [|v ? ap' ? Hv Hs']; subst.
  destruct v as [w' z|[s|]| |]; try done. destruct Hv as [-> Hz]. unfold handle_sign, va_int, va_num, va_arg.
  change (f_jflag (set_sign true f)) with (f_jflag f). change (f_qflag (set_sign true f)) with (f_qflag f).
  rewrite Hj, Hq. cbn [mbind res_bind k_ap k_ev retval]. change (64 =? 64) with true. cbv iota. cbn [mbind res_bind].
  assert (wrap 64 z = z) as Ew by (apply wrap_small; unfold is_u; lia).
  assert (swrap 64 z = z) as Es by (rewrite <- Ew at 1; apply swrap_u64; lia). rewrite Ew, Es. unfold u64. rewrite Ew.
  destruct (number_printed (set_sign true f) 10 z ev rv ap' tys) as (l & ap'' & E' & Hl'); try done; [lia| |by exists l, ap''; rewrite E'].
  right. unfold negative. rewrite Es. cbn. apply Z.ltb_ge. lia.
Qed.

Lemma str_printed f ev rv ap n tys :
  plain_flags f -> 0 <= rv < 2 ^ 30 - 5000 -> n <= 1000 -> shaped ap (AStr n :: tys) ->
  printed (mkKst ev rv ap) tys (conv_s f (mkKst ev rv ap)).
Proof.
  intros (Hw & _ & Hd & _ & _ & Hl & _) Hr Hn Hs. inversion Hs as [|v ? ap' ? Hv Hs']; subst.
  destruct v as [|[p|]| |]; try done. cbn in Hv. unfold conv_s, va_str, va_arg. cbn [k_ap mbind res_bind]. rewrite Hd, Hl.
  pose proof (slen_nonneg p) as Hp. rewrite int_ok by (unfold INT_MIN, INT_MAX; lia). cbn [mbind res_bind].
  rewrite int_ok by (unfold INT_MIN, INT_MAX; lia). cbn [mbind res_bind].
  set (fill := if 0 <? f_width f - slen p then _ else _). set (body := map schar _).
  assert (slen fill <= 1000) as Hfill.
  { unfold fill. destruct (Z.ltb_spec 0 (f_width f - slen p)); [|done]. unfold slen at 1. rewrite length_replicate. lia. }
  assert (slen body <= 1000) as Hbody by (unfold body; unfold slen in *; rewrite length_map, length_take; lia).
  pose proof (slen_nonneg fill). cbn [k_ev retval].
  rewrite PCHARS_ok by (cbn [retval]; unfold INT_MAX; lia). cbn [mbind res_bind].
  rewrite PCHARS_ok by (cbn [push retval]; unfold INT_MAX; lia). rewrite push_push.
  exists (fill ++ body), ap'. split; [done|]. split; [rewrite slen_app; lia|done].
Qed.

Lemma break_printed st tys (r : res kst) (pos : Z) : printed st tys r ->
  exists l ap, (st ← r; Ok (pos, false, st)) = Ok (pos, false, mkKst (k_ev st ++ map Put l) (retval st + slen l) ap) /\
    slen l <= 4000 /\ shaped ap tys.
Proof. intros (l & ap & -> & Hl & Hs). by exists l, ap. Qed.

Ltac eqb_case H := apply Z.eqb_eq in H as ->.

Lemma check_conv_ok fuel radix str percent fmt f tys pos tys' ev rv ap :
  check_conv fuel str fmt f tys = Some (pos, tys') -> plain_flags f -> shaped ap tys -> 0 <= rv < 2 ^ 30 - 5000 ->
  exists l ap', reswitch fuel a radix str percent fmt f (mkKst ev rv ap) = Ok (pos, false, mkKst (ev ++ map Put l) (rv + slen l) ap') /\
    slen l <= 4000 /\ shaped ap' tys'.
Proof.
  revert fmt f. induction fuel as [|fuel IH]; intros fmt f Hc Hf Hs Hr; [done|]. cbn [check_conv reswitch] in *.
  destruct (at_ str fmt) as [ch|]; [|done]. cbn [mbind res_bind]. cbv zeta.
  pose proof Hf as (Hw & Hdw & Hdot & Hrest).
  destruct (ch =? 48) eqn:E; [eqb_case E; cbn; rewrite Hdot; cbn; by apply IH|].
  destruct ((49 <=? ch) && (ch <=? 57)) eqn:Ed.
  { apply andb_true_iff in Ed as [?%Z.leb_le ?%Z.leb_le]. repeat rewrite (proj2 (Z.eqb_neq ch _)) by lia. rewrite Hdot.
    destruct (width_loop _ _ _ _ _) as [[n fmt']|]; [|done]. cbn [mbind res_bind] in *.
    destruct ((0 <=? n) && (n <=? 1000) && (0 <=? fmt') && (fmt' <=? slen str)) eqn:En; [|done].
    rewrite !andb_true_iff, !Z.leb_le in En. apply IH; [done| |done|done]. unfold plain_flags. cbn. intuition lia. }
  destruct (ch =? 108) eqn:El; [eqb_case El; cbn; destruct (f_lflag f); by apply IH|].
  destruct (ch =? 104) eqn:Eh; [eqb_case Eh; cbn; destruct (f_hflag f); by apply IH|].
  destruct (ch =? 37) eqn:Ep.
  { eqb_case Ep. cbn. injection Hc as <- <-. apply (break_printed (mkKst ev rv ap)), PCHARS_printed; [done|cbn; lia|done]. }
  destruct (ch =? 99) eqn:Ec.
  { eqb_case Ec. cbn -[va_int PCHAR]. destruct tys as [|[w| |] tys]; try done. cbn in Hc.
    destruct (Z.eqb_spec w 32) as [->|]; [|done]. injection Hc as <- <-. apply (break_printed (mkKst ev rv ap)).
    destruct (shaped_num ev rv ap _ _ Hs) as (z & ap' & _ & Hs' & Ez). unfold va_int. rewrite Ez. cbn [mbind res_bind].
    destruct (PCHARS_printed [swrap 32 (wrap 32 z)] (mkKst ev rv ap') tys) as (l & ap'' & E' & Hl); [done|cbn; lia|done|].
    exists l, ap''. exact (conj E' Hl). }
  destruct (ch =? 100) eqn:Edd.
  { eqb_case Edd. cbn -[handle_sign]. destruct (f_qflag f) eqn:Eq.
    { destruct tys as [|[| |] tys]; try done. injection Hc as <- <-. apply (break_printed (mkKst ev rv ap)), long_printed; done || lia. }
    destruct (f_lflag f) eqn:Eql; [done|].
    destruct (sign_printed f ev rv ap tys pos tys' (fmt + 1)) as [-> Hp]; [done|by rewrite Eq, Eql|lia|done|done|]. by apply (break_printed (mkKst ev rv ap)). }
  destruct ((ch =? 117) || (ch =? 120) || (ch =? 88)) eqn:Eu.
  { rewrite !orb_true_iff in Eu. destruct Eu as [[Eu|Eu]|Eu]; eqb_case Eu; cbn -[handle_nosign].
    - destruct (nosign_printed f 10 ev rv ap tys pos tys' (fmt + 1)) as [-> Hp]; try done; [lia|]. by apply (break_printed (mkKst ev rv ap)).
    - destruct (nosign_printed f 16 ev rv ap tys pos tys' (fmt + 1)) as [-> Hp]; try done; [lia|]. by apply (break_printed (mkKst ev rv ap)).
    - destruct (nosign_printed (set_upper f) 16 ev rv ap tys pos tys' (fmt + 1)) as [-> Hp]; try done; [lia|]. by apply (break_printed (mkKst ev rv ap)). }
  destruct (ch =? 115) eqn:Es; [|done]. eqb_case Es. cbn -[conv_s].
  destruct tys as [|[| |n] tys]; try done. destruct (Z.leb_spec n 1000); [|done]. injection Hc as <- <-.
  apply (break_printed (mkKst ev rv ap)), (str_printed f ev rv ap n); done.
Qed.

Lemma check_fmt_ok fuel radix str fmt tys ev rv ap :
  check_fmt fuel str fmt tys = true -> shaped ap tys -> 0 <= fmt -> slen str <= 60000 -> 0 <= rv <= 5000 * fmt ->
  exists l ap', kv_loop fuel a radix str fmt false (mkKst ev rv ap) = Ok (mkKst (ev ++ map Put l) (rv + slen l) ap').
Proof.
  revert fmt tys ev rv ap. induction fuel as [|fuel IH]; intros fmt tys ev rv ap Hc Hs Hf Hl Hr; [done|]. cbn [check_fmt kv_loop] in *.
  destruct (at_ str fmt) as [ch|] eqn:Ea; [|done]. apply at_bound in Ea. cbn [mbind res_bind]. cbv zeta.
  destruct (ch =? 37) eqn:Ep; cbn [negb orb].
  - replace (fmt + 1 - 1) with fmt by lia.
    destruct (check_conv _ _ _ _ _) as [[fmt' tys']|] eqn:Ec; [|done]. apply andb_true_iff in Hc as [Hlt%Z.ltb_lt Hc].
    destruct (check_conv_ok _ radix _ fmt _ _ _ _ _ ev rv ap Ec) as (l & ap' & -> & Hll & Hs'); [repeat split; done || cbn; lia|done|lia|].
    cbn [mbind res_bind orb]. pose proof (slen_nonneg l).
    destruct (IH fmt' tys' (ev ++ map Put l) (rv + slen l) ap') as (l' & ap'' & ->); [done|done|lia|done|lia|].
    exists (l ++ l'), ap''. by rewrite map_app, app_assoc, slen_app, Z.add_assoc.
  - destruct (ch =? 0); [exists [], ap; by rewrite app_nil_r, Z.add_0_r|].
    unfold PCHAR. rewrite PCHARS_ok by (cbn; unfold INT_MAX, slen; cbn; lia). cbn [mbind res_bind push].
    destruct (IH (fmt + 1) tys (ev ++ map Put [ch]) (rv + 1) ap) as (l' & ap'' & E); [done|done|lia|done|lia|].
    exists (ch :: l'), ap''. change (slen [ch]) with 1. unfold push. cbn [k_ev retval k_ap]. change (slen [ch]) with 1. rewrite E.
    rewrite <- app_assoc. do 2 f_equal. unfold slen. cbn. lia.
Qed.

Lemma check_printf_ok fmt tys ap :
  check_printf fmt tys = true -> shaped ap tys ->
  exists l ap', kvprintf a (Some fmt) 10 ap = Ok (mkKst (map Put l) (slen l) ap').
Proof.
  unfold check_printf. intros [Hl%Z.leb_le Hc]%andb_true_iff Hs.
  destruct (check_fmt_ok _ 10 fmt 0 tys [] 0 ap Hc Hs) as (l & ap' & E); [lia|done|lia|]. exists l, ap'. exact E.
Qed.

(** ** [printf] *)

Definition printing (e : ioev) : bool := match e with ELock | EUnlock | EPut _ => true | _ => false end.

Definition puts_of_text (l : list Z) : list ioev := reverse (map (fun c => EPut (u8 c)) l).

Lemma puts_io_put l w : puts_io (map Put l) w = Ok (tt, mkW (w_mem w) (puts_of_text l ++ w_tr w)).
Proof.
  unfold puts_of_text. revert w. induction l as [|c l IH]; intros w; [by destruct w|]. cbn [map puts_io].
  rewrite (bind_run _ _ w tt (mkW (w_mem w) (EPut (u8 c) :: w_tr w))) by done. rewrite IH, reverse_cons, <- app_assoc. done.
Qed.

Lemma printf_run fmt tys ap w : check_printf fmt tys = true -> shaped ap tys ->
  exists l, printf a fmt ap w = Ok (slen l, mkW (w_mem w) (EUnlock :: puts_of_text l ++ ELock :: w_tr w)).
Proof.
  intros Hc Hs. destruct (check_printf_ok fmt tys ap Hc Hs) as (l & ap' & E). exists l. unfold printf, vprintf.
  rewrite (bind_run _ _ w tt (mkW (w_mem w) (ELock :: w_tr w))) by done.
  rewrite (bind_run _ _ _ (mkKst (map Put l) (slen l) ap') (mkW (w_mem w) (ELock :: w_tr w))) by (unfold lift; by rewrite E).
  cbn [k_ev]. by rewrite (bind_run _ _ _ _ _ (puts_io_put _ _)).
Qed.

Lemma puts_of_text_printing l : Forall (fun e => printing e = true) (puts_of_text l).
Proof. apply Forall_reverse, Forall_forall. intros e (c & -> & _)%list_elem_of_fmap. done. Qed.

(** An accepted call prints and changes nothing else. *)
Lemma printf_ok fmt tys ap w (Q : Z -> world -> Prop) :
  check_printf fmt tys = true -> shaped ap tys ->
  (forall n tr, Forall (fun e => printing e = true) tr -> Q n (mkW (w_mem w) (tr ++ w_tr w))) ->
  wp (printf a fmt ap) Q w.
Proof.
  intros Hc Hs HQ. destruct (printf_run fmt tys ap w Hc Hs) as (l & E). apply (wp_intro _ _ _ _ _ E).
  change (EUnlock :: puts_of_text l ++ ELock :: w_tr w) with ((EUnlock :: puts_of_text l) ++ [ELock] ++ w_tr w).
  rewrite app_assoc. apply HQ, Forall_app. split; [constructor; [done|apply puts_of_text_printing]|by apply Forall_singleton].
Qed.
End check.

(** C32: A call of [printf] whose format the checker accepts for the types of its arguments never faults, whatever
    the values: it takes the line lock, puts as many characters as it returns, gives the lock back, and does nothing else. *)
Theorem printf_checked a fmt tys ap w : check_printf a fmt tys = true -> shaped ap tys ->
  exists l, printf a fmt ap w = Ok (slen l, mkW (w_mem w) (EUnlock :: puts_of_text l ++ ELock :: w_tr w)).
Proof. apply printf_run. Qed.

Lemma printf_checked_witness : exists l,
  printf AMD64 (lit "CPU(0x%02x): unknown vmexit %u" ++ [10]) [VNum 32 2; VNum 32 48] (mkW ∅ []) = Ok (slen l, mkW ∅ (EUnlock :: puts_of_text l ++ [ELock])).
Proof. apply (printf_checked AMD64 _ [ANum 32; ANum 32] _ (mkW ∅ [])); [by vm_compute|by repeat constructor]. Defined.
