(* ===== verification/Vcpu.v ===== *)
(** The [VCPU] structure and the instructions [src/include/cpu.h] wraps, the guest registers, and the addresses of
    the objects of [src/shv-vmx.c]. *)
From Stdlib Require Import String.
From S2P Require Import Prelude.
From S2P Require Import HptLemmas.
From S2P Require Import Mem.
From S2P Require Import Ept.
From S2P Require Import CString.
From S2P Require Import Cmdline.
From S2P Require Import Stdio.
From S2P Require Import Io.
From S2P Require Import Desc.
From S2P Require Import VmxCtls.
From S2P Require Import VmcsFields.
From S2P Require Import Vmcs.

(** The functions [vmexit_handler_override] is set to. *)
Inductive handler := HMsrLs | HEpt | HSwitchEpt | HVmxoff | HVpid | HWaitInt | HUser | HNestedUser | HMsrBitmap | HNmi.
#[global] Instance handler_eq_dec : EqDecision handler.
Proof. solve_decision. Defined.

(** [VCPU], with its address; the fields of the timers are in [Devices.dcpu]. *)
Record VCPU := mkVcpu {
  vcpu_addr : Z;
  vcpu_sp : Z;
  vcpu_id : Z;
  vcpu_idx : Z;
  vcpu_isbsp : bool;
  vcpu_vmx_msrs : list Z;
  vcpu_pinbased : Z;
  vcpu_procbased : Z;
  vcpu_exit : Z;
  vcpu_entry : Z;
  vcpu_caps : vmx_ctls_t;
  vcpu_ept : ept_vcpu;
  vcpu_vmcs : vmcs_t;
  vcpu_vmxon_region : Z;
  vcpu_my_vmcs : Z;
  vcpu_my_stack : Z;
  vcpu_msrstore : Z;
  vcpu_exit_msrload : Z;
  vcpu_entry_msrload : Z;
  vcpu_ept_exit_count : Z;
  vcpu_ept_num : Z;
  vcpu_override : option handler }.
Definition with_sp (x : Z) (v : VCPU) : VCPU :=
  mkVcpu (vcpu_addr v) x (vcpu_id v) (vcpu_idx v) (vcpu_isbsp v) (vcpu_vmx_msrs v) (vcpu_pinbased v) (vcpu_procbased v) (vcpu_exit v) (vcpu_entry v) (vcpu_caps v) (vcpu_ept v) (vcpu_vmcs v) (vcpu_vmxon_region v) (vcpu_my_vmcs v) (vcpu_my_stack v) (vcpu_msrstore v) (vcpu_exit_msrload v) (vcpu_entry_msrload v) (vcpu_ept_exit_count v) (vcpu_ept_num v) (vcpu_override v).
Definition with_vmx_msrs (x : list Z) (v : VCPU) : VCPU :=
  mkVcpu (vcpu_addr v) (vcpu_sp v) (vcpu_id v) (vcpu_idx v) (vcpu_isbsp v) x (vcpu_pinbased v) (vcpu_procbased v) (vcpu_exit v) (vcpu_entry v) (vcpu_caps v) (vcpu_ept v) (vcpu_vmcs v) (vcpu_vmxon_region v) (vcpu_my_vmcs v) (vcpu_my_stack v) (vcpu_msrstore v) (vcpu_exit_msrload v) (vcpu_entry_msrload v) (vcpu_ept_exit_count v) (vcpu_ept_num v) (vcpu_override v).
Definition with_caps (x : vmx_ctls_t) (v : VCPU) : VCPU :=
  mkVcpu (vcpu_addr v) (vcpu_sp v) (vcpu_id v) (vcpu_idx v) (vcpu_isbsp v) (vcpu_vmx_msrs v) (vcpu_pinbased v) (vcpu_procbased v) (vcpu_exit v) (vcpu_entry v) x (vcpu_ept v) (vcpu_vmcs v) (vcpu_vmxon_region v) (vcpu_my_vmcs v) (vcpu_my_stack v) (vcpu_msrstore v) (vcpu_exit_msrload v) (vcpu_entry_msrload v) (vcpu_ept_exit_count v) (vcpu_ept_num v) (vcpu_override v).
Definition with_ept (x : ept_vcpu) (v : VCPU) : VCPU :=
  mkVcpu (vcpu_addr v) (vcpu_sp v) (vcpu_id v) (vcpu_idx v) (vcpu_isbsp v) (vcpu_vmx_msrs v) (vcpu_pinbased v) (vcpu_procbased v) (vcpu_exit v) (vcpu_entry v) (vcpu_caps v) x (vcpu_vmcs v) (vcpu_vmxon_region v) (vcpu_my_vmcs v) (vcpu_my_stack v) (vcpu_msrstore v) (vcpu_exit_msrload v) (vcpu_entry_msrload v) (vcpu_ept_exit_count v) (vcpu_ept_num v) (vcpu_override v).
Definition with_vmcs (x : vmcs_t) (v : VCPU) : VCPU :=
  mkVcpu (vcpu_addr v) (vcpu_sp v) (vcpu_id v) (vcpu_idx v) (vcpu_isbsp v) (vcpu_vmx_msrs v) (vcpu_pinbased v) (vcpu_procbased v) (vcpu_exit v) (vcpu_entry v) (vcpu_caps v) (vcpu_ept v) x (vcpu_vmxon_region v) (vcpu_my_vmcs v) (vcpu_my_stack v) (vcpu_msrstore v) (vcpu_exit_msrload v) (vcpu_entry_msrload v) (vcpu_ept_exit_count v) (vcpu_ept_num v) (vcpu_override v).
Definition with_vmxon_region (x : Z) (v : VCPU) : VCPU :=
  mkVcpu (vcpu_addr v) (vcpu_sp v) (vcpu_id v) (vcpu_idx v) (vcpu_isbsp v) (vcpu_vmx_msrs v) (vcpu_pinbased v) (vcpu_procbased v) (vcpu_exit v) (vcpu_entry v) (vcpu_caps v) (vcpu_ept v) (vcpu_vmcs v) x (vcpu_my_vmcs v) (vcpu_my_stack v) (vcpu_msrstore v) (vcpu_exit_msrload v) (vcpu_entry_msrload v) (vcpu_ept_exit_count v) (vcpu_ept_num v) (vcpu_override v).
Definition with_my_vmcs (x : Z) (v : VCPU) : VCPU :=
  mkVcpu (vcpu_addr v) (vcpu_sp v) (vcpu_id v) (vcpu_idx v) (vcpu_isbsp v) (vcpu_vmx_msrs v) (vcpu_pinbased v) (vcpu_procbased v) (vcpu_exit v) (vcpu_entry v) (vcpu_caps v) (vcpu_ept v) (vcpu_vmcs v) (vcpu_vmxon_region v) x (vcpu_my_stack v) (vcpu_msrstore v) (vcpu_exit_msrload v) (vcpu_entry_msrload v) (vcpu_ept_exit_count v) (vcpu_ept_num v) (vcpu_override v).
Definition with_my_stack (x : Z) (v : VCPU) : VCPU :=
  mkVcpu (vcpu_addr v) (vcpu_sp v) (vcpu_id v) (vcpu_idx v) (vcpu_isbsp v) (vcpu_vmx_msrs v) (vcpu_pinbased v) (vcpu_procbased v) (vcpu_exit v) (vcpu_entry v) (vcpu_caps v) (vcpu_ept v) (vcpu_vmcs v) (vcpu_vmxon_region v) (vcpu_my_vmcs v) x (vcpu_msrstore v) (vcpu_exit_msrload v) (vcpu_entry_msrload v) (vcpu_ept_exit_count v) (vcpu_ept_num v) (vcpu_override v).
Definition with_ept_exit_count (x : Z) (v : VCPU) : VCPU :=
  mkVcpu (vcpu_addr v) (vcpu_sp v) (vcpu_id v) (vcpu_idx v) (vcpu_isbsp v) (vcpu_vmx_msrs v) (vcpu_pinbased v) (vcpu_procbased v) (vcpu_exit v) (vcpu_entry v) (vcpu_caps v) (vcpu_ept v) (vcpu_vmcs v) (vcpu_vmxon_region v) (vcpu_my_vmcs v) (vcpu_my_stack v) (vcpu_msrstore v) (vcpu_exit_msrload v) (vcpu_entry_msrload v) x (vcpu_ept_num v) (vcpu_override v).
Definition with_ept_num (x : Z) (v : VCPU) : VCPU :=
  mkVcpu (vcpu_addr v) (vcpu_sp v) (vcpu_id v) (vcpu_idx v) (vcpu_isbsp v) (vcpu_vmx_msrs v) (vcpu_pinbased v) (vcpu_procbased v) (vcpu_exit v) (vcpu_entry v) (vcpu_caps v) (vcpu_ept v) (vcpu_vmcs v) (vcpu_vmxon_region v) (vcpu_my_vmcs v) (vcpu_my_stack v) (vcpu_msrstore v) (vcpu_exit_msrload v) (vcpu_entry_msrload v) (vcpu_ept_exit_count v) x (vcpu_override v).
Definition with_override (x : option handler) (v : VCPU) : VCPU :=
  mkVcpu (vcpu_addr v) (vcpu_sp v) (vcpu_id v) (vcpu_idx v) (vcpu_isbsp v) (vcpu_vmx_msrs v) (vcpu_pinbased v) (vcpu_procbased v) (vcpu_exit v) (vcpu_entry v) (vcpu_caps v) (vcpu_ept v) (vcpu_vmcs v) (vcpu_vmxon_region v) (vcpu_my_vmcs v) (vcpu_my_stack v) (vcpu_msrstore v) (vcpu_exit_msrload v) (vcpu_entry_msrload v) (vcpu_ept_exit_count v) (vcpu_ept_num v) x.
Definition with_ctls (pin proc exit entry : Z) (v : VCPU) : VCPU :=
  mkVcpu (vcpu_addr v) (vcpu_sp v) (vcpu_id v) (vcpu_idx v) (vcpu_isbsp v) (vcpu_vmx_msrs v) pin proc exit entry (vcpu_caps v) (vcpu_ept v) (vcpu_vmcs v) (vcpu_vmxon_region v) (vcpu_my_vmcs v) (vcpu_my_stack v) (vcpu_msrstore v) (vcpu_exit_msrload v) (vcpu_entry_msrload v) (vcpu_ept_exit_count v) (vcpu_ept_num v) (vcpu_override v).
Definition with_msr_areas (store load eload : Z) (v : VCPU) : VCPU :=
  mkVcpu (vcpu_addr v) (vcpu_sp v) (vcpu_id v) (vcpu_idx v) (vcpu_isbsp v) (vcpu_vmx_msrs v) (vcpu_pinbased v) (vcpu_procbased v) (vcpu_exit v) (vcpu_entry v) (vcpu_caps v) (vcpu_ept v) (vcpu_vmcs v) (vcpu_vmxon_region v) (vcpu_my_vmcs v) (vcpu_my_stack v) store load eload (vcpu_ept_exit_count v) (vcpu_ept_num v) (vcpu_override v).


(** [struct regs]: the eight registers of [PUSHAD] and, on amd64, [r8] to [r15]. *)
Record regs := mkRegs { r_ax : Z; r_bx : Z; r_cx : Z; r_dx : Z; r_si : Z; r_di : Z; r_bp : Z; r_sp : Z; r_ext : list Z }.
(** The 32-bit members of the unions: reading takes the low half, writing leaves the high half. *)
Definition r_eax (r : regs) : Z := u32 (r_ax r).
Definition r_ebx (r : regs) : Z := u32 (r_bx r).
Definition r_ecx (r : regs) : Z := u32 (r_cx r).
Definition r_edx (r : regs) : Z := u32 (r_dx r).
Definition low_half (old new : Z) : Z := Z.lor (Z.shiftl (Z.shiftr old 32) 32) (u32 new).
Definition with_eax (x : Z) (r : regs) : regs :=
  mkRegs (low_half (r_ax r) x) (r_bx r) (r_cx r) (r_dx r) (r_si r) (r_di r) (r_bp r) (r_sp r) (r_ext r).
Definition with_ebx (x : Z) (r : regs) : regs :=
  mkRegs (r_ax r) (low_half (r_bx r) x) (r_cx r) (r_dx r) (r_si r) (r_di r) (r_bp r) (r_sp r) (r_ext r).
Definition with_ecx (x : Z) (r : regs) : regs :=
  mkRegs (r_ax r) (r_bx r) (low_half (r_cx r) x) (r_dx r) (r_si r) (r_di r) (r_bp r) (r_sp r) (r_ext r).
Definition with_edx (x : Z) (r : regs) : regs :=
  mkRegs (r_ax r) (r_bx r) (r_cx r) (low_half (r_dx r) x) (r_si r) (r_di r) (r_bp r) (r_sp r) (r_ext r).

(** [vmexit_info_t] *)
Record vmexit_info_t := mkInfo_ { vmexit_reason : Z; guest_rip : Z; inst_len : Z }.

(** How a handler ends: it returns, or enters the guest with [VMLAUNCH] or [VMRESUME] and does not return. *)
Inductive handler_result := Returned (v : VCPU) (r : regs) | Entered (launch : bool) (v : VCPU) (r : regs).

(** Constants of [_msr.h], [_processor.h], [_vmx.h], [xmhf.h] and [shv-opts.h]. *)
Definition IA32_VMX_BASIC_MSR : Z := 0x480.
Definition IA32_VMX_MSRCOUNT : Z := 17.
Definition INDEX_BASIC : nat := 0x0.
Definition INDEX_PINBASED_CTLS : nat := 0x1.
Definition INDEX_PROCBASED_CTLS : nat := 0x2.
Definition INDEX_EXIT_CTLS : nat := 0x3.
Definition INDEX_ENTRY_CTLS : nat := 0x4.
Definition INDEX_CR0_FIXED0 : nat := 0x6.
Definition INDEX_CR4_FIXED0 : nat := 0x8.
Definition INDEX_PROCBASED_CTLS2 : nat := 0xB.
Definition INDEX_TRUE_PINBASED_CTLS : nat := 0xD.
Definition INDEX_TRUE_PROCBASED_CTLS : nat := 0xE.
Definition INDEX_TRUE_EXIT_CTLS : nat := 0xF.
Definition INDEX_TRUE_ENTRY_CTLS : nat := 0x10.
Definition IA32_SYSENTER_CS_MSR : Z := 0x174.
Definition IA32_SYSENTER_ESP_MSR : Z := 0x175.
Definition IA32_SYSENTER_EIP_MSR : Z := 0x176.
Definition IA32_MSR_FS_BASE : Z := 0xC0000100.
Definition IA32_MSR_GS_BASE : Z := 0xC0000101.
Definition MSR_EFCR : Z := 0x3A.
Definition CR0_PE : Z := 0x00000001.
Definition CR0_ET : Z := 0x00000010.
Definition CR0_NE : Z := 0x00000020.
Definition CR0_NW : Z := 0x20000000.
Definition CR0_CD : Z := 0x40000000.
Definition CR0_PG : Z := 0x80000000.
Definition CR4_PSE : Z := 0x10.
Definition CR4_PAE : Z := 0x20.
Definition CR4_VMXE : Z := 0x2000.
Definition __DS : Z := 0x10.
Definition SHV_USE_MSR_LOAD : Z := 0x1.
Definition SHV_NO_EFLAGS_IF : Z := 0x2.
Definition SHV_USE_EPT : Z := 0x4.
Definition SHV_USE_SWITCH_EPT : Z := 0x8.
Definition SHV_USE_VPID : Z := 0x10.
Definition SHV_USE_UNRESTRICTED_GUEST : Z := 0x20.
Definition VMX_VMEXIT_CPUID : Z := 10.
Definition VMX_VMEXIT_VMCALL : Z := 18.
Definition VMX_VMEXIT_RDMSR : Z := 31.
Definition VMX_VMEXIT_WRMSR : Z := 32.
Definition VMX_VMEXIT_EPT_VIOLATION : Z := 48.

(** Where the linker put the objects and functions of [src/shv-vmx.c]. *)
Record vmx_syms := mkVmxSyms {
  s_vmxon_region : Z; s_vmcs : Z; s_guest_stack : Z;
  s_exit_store : Z; s_exit_load : Z; s_entry_load : Z;
  s_vmexit_asm : Z; s_guest_entry : Z }.
Definition MAX_GUESTS : Z := 4.
Definition MAX_MSR_LS : Z := 16.
Definition vmxon_region_at (s : vmx_syms) (idx : Z) : Z := s_vmxon_region s + idx * 4096.
Definition vmcs_at (s : vmx_syms) (idx k : Z) : Z := s_vmcs s + (idx * MAX_GUESTS + k) * 4096.
Definition guest_stack_at (s : vmx_syms) (idx k : Z) : Z := s_guest_stack s + (idx * MAX_GUESTS + k) * 4096.
Definition msr_area_at (base idx k : Z) : Z := base + (idx * MAX_GUESTS + k) * MAX_MSR_LS * 16.

(** [VMCS_name]: the encoding the table gives a member. *)
Fixpoint enc_in (l : list vmcs_field) (name : string) : Z :=
  match l with [] => -1 | f :: l => if String.eqb (f_name f) name then f_enc f else enc_in l name end.
Definition VMCS_ (name : string) : Z := enc_in vmcs_fields name.

Section instructions.
Context (a : subarch) {D : Device} {C : Cpu}.

Definition sysreg_bits (r : sysreg) : Z := match r with RCR0 | RCR3 | RCR4 => ptr_bits a | _ => 16 end.
Definition read_reg (r : sysreg) : IO Z := fun w =>
  let v := wrap (sysreg_bits r) (cpu_reg (w_tr w) r) in Ok (v, mkW (w_mem w) (EGetReg r v :: w_tr w)).
Definition write_reg (r : sysreg) (v : Z) : IO unit := emit (ESetReg r (wrap (sysreg_bits r) v)).

Definition cpuid_raw (eax ecx : Z) : IO (Z * Z * Z * Z) := fun w =>
  let '(ra, rb, rc, rd) := cpu_cpuid (w_tr w) (u32 eax) (u32 ecx) in
  let v := (u32 ra, u32 rb, u32 rc, u32 rd) in Ok (v, mkW (w_mem w) (ECpuid (u32 eax) (u32 ecx) v :: w_tr w)).
Definition cpuid (func : Z) : IO (Z * Z * Z * Z) := cpuid_raw func 0.

(** [rdmsr] and [wrmsr]; in the hypervisor a fault is fatal. *)
Definition rdmsr_ (msr : Z) : IO Z := fun w =>
  if cpu_rdmsr_faults (w_tr w) msr then Err Halt else rdmsr64 msr w.
Definition wrmsr64 (msr val : Z) : IO unit := fun w =>
  if cpu_wrmsr_faults (w_tr w) msr (u64 val) then Err Halt else emit (EWrmsr msr (u64 val) true) w.
(** The versions that report a fault. *)
Definition _rdmsr_safe (msr : Z) : IO (option Z) := fun w =>
  if cpu_rdmsr_faults (w_tr w) msr then Ok (None, mkW (w_mem w) (ERdmsrFault msr :: w_tr w))
  else (v ← rdmsr64 msr; mret (Some v)) w.
Definition _wrmsr_safe (msr val : Z) : IO bool := fun w =>
  let ok := negb (cpu_wrmsr_faults (w_tr w) msr (u64 val)) in
  Ok (ok, mkW (w_mem w) (EWrmsr msr (u64 val) ok :: w_tr w)).

(** A VMX instruction: whether it succeeds. *)
Definition vmx_op (op : vmxop) (args : list Z) : IO bool := fun w =>
  let ok := cpu_vmx (w_tr w) op args in Ok (ok, mkW (w_mem w) (EVmx op args ok :: w_tr w)).
Definition __vmx_vmxon (vmxonRegion : Z) : IO bool := vmx_op Vmxon [vmxonRegion].
Definition __vmx_vmxoff : IO bool := vmx_op Vmxoff [].
Definition __vmx_vmclear (vmcs : Z) : IO bool := vmx_op Vmclear [vmcs].
Definition __vmx_vmptrld (vmcs : Z) : IO bool := vmx_op Vmptrld [vmcs].
(** With the pointer it stores. *)
Definition __vmx_vmptrst : IO (bool * Z) := fun w =>
  let p := u64 (cpu_vmptr (w_tr w)) in (ok ← vmx_op Vmptrst []; mret (ok, p)) w.
Definition __vmx_invvpid (invalidation_type vpid linearaddress : Z) : IO bool :=
  vmx_op Invvpid [invalidation_type; u16 vpid; wrap (ptr_bits a) linearaddress].
Definition __vmx_invept (invalidation_type eptp : Z) : IO bool := vmx_op Invept [invalidation_type; u64 eptp].

(** Loads and stores of the hypervisor. *)
Definition load (n : nat) (p : Z) : IO Z := fun w => Ok (ld n (w_mem w) p, w).
Definition store (n : nat) (p v : Z) : IO unit := fun w => Ok (tt, mkW (st n (w_mem w) p v) (w_tr w)).
End instructions.
