(* ===== verification/Asm.v ===== *)
(** [shv_disable_enable_paging] of [src/shv-asm.S], which 64-bit builds call to turn paging off for a moment.  The far returns
    to 32-bit code and back are not modelled; the instructions in between are those of 32-bit code, so they move 32 bits of
    [%cr0], and what they print goes to the serial port itself. *)
From S2P Require Import Prelude.
From S2P Require Import Mem.
From S2P Require Import CString.
From S2P Require Import Io.
From S2P Require Import Print.
From S2P Require Import Vmcs.
From S2P Require Import Vcpu.

Section asm.
Context {D : Device} {C : Cpu}.

(** The data port and the line status port. *)
Definition SERIAL : Z := 0x3f8.
Definition SERIAL_STATUS : Z := 0x3f8 + 5.

(** Lines 55 to 71: each byte once the port is ready. *)
Fixpoint asm_print (fuel : nat) (text : cstr) : IO unit :=
  match text with
  | [] => mret tt
  | c :: text =>
      wait_in fuel SERIAL_STATUS (fun v => truth (Z.land v 0x20)) ≫= fun _ =>
      outb SERIAL c ≫= fun _ =>
      asm_print fuel text
  end.
Definition shv_disable_enable_paging (fuel : nat) (text : cstr) : IO unit :=
  emit ECli ≫= fun _ =>
  eax ← read_reg I386 RCR0;
  write_reg I386 RCR0 (Z.land eax 0x7fffffff) ≫= fun _ =>
  emit ELock ≫= fun _ =>
  asm_print fuel text ≫= fun _ =>
  emit EUnlock ≫= fun _ =>
  eax ← read_reg I386 RCR0;
  write_reg I386 RCR0 (Z.lor eax 0x80000000) ≫= fun _ =>
  emit ESti.
End asm.
