(* ===== verification/Mouse.v ===== *)
(** [mouse_init] of [src/shv-mouse.c] on a PS/2 controller: the bytes a controller answers with, by the commands it was given, and
    that the driver gets through against every controller that answers so. *)
From Stdlib Require Import String.
From S2P Require Import Prelude.
From S2P Require Import HptLemmas.
From S2P Require Import CString.
From S2P Require Import Stdio.
From S2P Require Import Mem.
From S2P Require Import Io.
From S2P Require Import Print.
From S2P Require Import Devices.
Local Open Scope string_scope.
Local Open Scope Z_scope.

(** ** What a computation may do besides its work: talk to ports and to registers of devices *)

(** Neither the interrupt flag nor a register nor VMX changes. *)
Definition calm_event (e : ioev) : bool :=
  match e with ESti | ECli | EStiHltCli | ESetReg _ _ | EVmx _ _ _ => false | _ => true end.
Definition calm (w w' : world) : Prop :=
  w_mem w' = w_mem w /\ exists tr, w_tr w' = (tr ++ w_tr w)%list /\ Forall (fun e => calm_event e = true) tr.

Lemma calm_refl w : calm w w.
Proof. split; [done|]. by exists []. Qed.
Lemma calm_trans w1 w2 w3 : calm w1 w2 -> calm w2 w3 -> calm w1 w3.
Proof.
  intros [E1 (t1 & T1 & H1)] [E2 (t2 & T2 & H2)]. split; [congruence|]. exists (t2 ++ t1)%list. split; [by rewrite T2, T1, app_assoc|].
  by apply Forall_app.
Qed.
Lemma calm_event_step w e : calm_event e = true -> calm w (mkW (w_mem w) (e :: w_tr w)).
Proof. intros H. split; [done|]. exists [e]. by split; [|constructor]. Qed.
Lemma calm_printing w tr : Forall (fun e => printing e = true) tr -> calm w (mkW (w_mem w) (tr ++ w_tr w)).
Proof. intros H. split; [done|]. exists tr. split; [done|]. eapply Forall_impl; [exact H|]. intros e He. by destruct e. Qed.
Lemma calm_wait_in {D : Device} fuel port ok w r : wait_in fuel port ok w = Ok r -> calm w r.2.
Proof.
  intros H. apply wait_in_trace in H as (vs & v & _ & _ & ->). split; [done|]. exists (EIn port v :: map (EIn port) vs). split; [done|].
  constructor; [done|]. by apply Forall_map, Forall_true.
Qed.

(** ** The controller *)

(** Whether the clocks of the two ports are off, the byte in the output buffer -- [Some None] is the configuration byte -- and the
    command that waits for a byte. *)
Record ps2 := mkPs2 { off0 : bool; off1 : bool; pending : option (option Z); awaits : Z }.
Definition ps2_command (c : Z) (st : ps2) : ps2 :=
  let next := if (c =? 0x60) || (c =? 0xd4) then c else 0 in
  let answer x := mkPs2 (off0 st) (off1 st) x next in
  if c =? 0xad then mkPs2 true (off1 st) (pending st) next
  else if c =? 0xae then mkPs2 false (off1 st) (pending st) next
  else if c =? 0xa7 then mkPs2 (off0 st) true (pending st) next
  else if c =? 0xa8 then mkPs2 (off0 st) false (pending st) next
  else if c =? 0x20 then answer (Some None)
  else if c =? 0xaa then answer (Some (Some 0x55))
  else if (c =? 0xab) || (c =? 0xa9) then answer (Some (Some 0))
  else answer (pending st).
(** A byte is the new configuration, or a command for the mouse, which acknowledges it. *)
Definition ps2_data (v : Z) (st : ps2) : ps2 :=
  if awaits st =? 0x60 then mkPs2 (Z.testbit v 4) (Z.testbit v 5) (pending st) 0
  else if awaits st =? 0xd4 then mkPs2 (off0 st) (off1 st) (Some (Some 0xfa)) 0
  else st.
Definition ps2_event (e : ioev) (st : ps2) : ps2 :=
  match e with
  | EOut p v => if p =? 0x64 then ps2_command v st else if p =? 0x60 then ps2_data v st else st
  | EIn p _ => if p =? 0x60 then mkPs2 (off0 st) (off1 st) None (awaits st) else st
  | _ => st
  end.
Definition ps2_state (tr : list ioev) : ps2 := foldr ps2_event (mkPs2 false false None 0) tr.

(** A controller and a mouse that answer within [fuel] polls, with nobody typing meanwhile. *)
Record ps2_controller {D : Device} (fuel : nat) : Prop := {
  pc_write w : is_ok (wait_in fuel PS2_CTRL_PORT (fun s => negb (truth (Z.land s 2))) w) = true;
  pc_read w x : pending (ps2_state (w_tr w)) = Some x -> is_ok (wait_in fuel PS2_CTRL_PORT (fun s => truth (Z.land s 1)) w) = true;
  pc_empty tr : pending (ps2_state tr) = None -> Z.testbit (dev_in tr PS2_CTRL_PORT) 0 = false;
  pc_byte tr v : pending (ps2_state tr) = Some (Some v) -> u8 (dev_in tr PS2_DATA_PORT) = v;
  pc_conf tr : pending (ps2_state tr) = Some None ->
    Z.testbit (dev_in tr PS2_DATA_PORT) 4 = off0 (ps2_state tr) /\ Z.testbit (dev_in tr PS2_DATA_PORT) 5 = off1 (ps2_state tr) }.

Lemma ps2_status tr l : Forall (fun e => exists v, e = EIn PS2_CTRL_PORT v) l -> ps2_state (l ++ tr) = ps2_state tr.
Proof. induction 1 as [|e l (v & ->) _ IH]; [done|]. exact IH. Qed.
Lemma ps2_printing tr l : Forall (fun e => printing e = true) l -> ps2_state (l ++ tr) = ps2_state tr.
Proof. induction 1 as [|e l He _ IH]; [done|]. cbn. fold (ps2_state (l ++ tr)). rewrite IH. by destruct e. Qed.
(** Other devices do not touch the controller. *)
Definition ps2_idle (e : ioev) : bool :=
  match e with EIn p _ | EOut p _ => negb ((p =? 0x60) || (p =? 0x64)) | _ => true end.
Lemma ps2_idle_state l tr : Forall (fun e => ps2_idle e = true) l -> ps2_state (l ++ tr) = ps2_state tr.
Proof.
  induction 1 as [|e l He _ IH]; [done|]. cbn. fold (ps2_state (l ++ tr)). rewrite IH.
  destruct e; cbn in *; try done; apply negb_true_iff, orb_false_iff in He as [-> E2]; rewrite ?E2; done.
Qed.
Lemma status_bit x n : 0 <= n < 8 -> truth (Z.land (u8 x) (2 ^ n)) = Z.testbit x n.
Proof.
  intros Hn. unfold truth. assert (Z.testbit (u8 x) n = Z.testbit x n) as E.
  { unfold u8. rewrite wrap_testbit by lia. by rewrite (proj2 (Z.ltb_lt n 8)) by lia. }
  rewrite <- E. set (y := u8 x). destruct (Z.testbit y n) eqn:Et.
  - apply negb_true_iff, Z.eqb_neq. intros H. apply (f_equal (fun z => Z.testbit z n)) in H.
    by rewrite Z.land_spec, Et, Z.pow2_bits_true, Z.bits_0 in H by lia.
  - apply negb_false_iff, Z.eqb_eq, Z.bits_inj'. intros i Hi. rewrite Z.land_spec, Z.bits_0.
    destruct (decide (i = n)) as [->|Hne]; [by rewrite Et|]. by rewrite (Z.pow2_bits_false n i), andb_false_r by done.
Qed.

Section mouse.
Context {a : subarch} {D : Device} {fuel : nat} (K : ps2_controller fuel).

(** From world [w0] a world is reached in which the controller is in state [st]. *)
Definition on_ps2 (w0 : world) (st : ps2) (w : world) : Prop := calm w0 w /\ ps2_state (w_tr w) = st.

Lemma on_wait w0 st w ok (Q : unit -> world -> Prop) : on_ps2 w0 st w -> is_ok (wait_in fuel PS2_CTRL_PORT ok w) = true ->
  (forall w', on_ps2 w0 st w' -> Q tt w') -> wp (wait_in fuel PS2_CTRL_PORT ok) Q w.
Proof.
  intros [Hc Hs] Hok HQ. destruct (wait_in fuel PS2_CTRL_PORT ok w) as [r|] eqn:E; [|done]. pose proof (calm_wait_in _ _ _ _ _ E) as Hc2.
  pose proof (wait_in_trace _ _ _ _ _ E) as (vs & v & _ & _ & ->). apply (wp_intro _ _ _ _ _ E), HQ. cbn [snd] in Hc2.
  split; [exact (calm_trans _ _ _ Hc Hc2)|]. cbn [w_tr]. change (EIn PS2_CTRL_PORT v :: map (EIn PS2_CTRL_PORT) vs ++ w_tr w)
    with ((EIn PS2_CTRL_PORT v :: map (EIn PS2_CTRL_PORT) vs) ++ w_tr w)%list. rewrite ps2_status; [done|].
  constructor; [by exists v|]. apply Forall_map, Forall_true. intros x. by exists x.
Qed.
Lemma on_send_ctrl c w0 st w (Q : unit -> world -> Prop) : on_ps2 w0 st w ->
  (forall w', on_ps2 w0 (ps2_command (u8 c) st) w' -> Q tt w') -> wp (ps2_send_ctrl fuel c) Q w.
Proof.
  intros H HQ. unfold ps2_send_ctrl, ps2_wait_write. apply wp_bind. eapply on_wait; [exact H|apply K|]. intros w1 [H1 H2].
  apply HQ. split; [eapply calm_trans; [exact H1|by apply calm_event_step]|]. cbn. fold (ps2_state (w_tr w1)). by rewrite H2.
Qed.
Lemma on_send_data v w0 st w (Q : unit -> world -> Prop) : on_ps2 w0 st w ->
  (forall w', on_ps2 w0 (ps2_data (u8 v) st) w' -> Q tt w') -> wp (ps2_send_data fuel v) Q w.
Proof.
  intros H HQ. unfold ps2_send_data, ps2_wait_write. apply wp_bind. eapply on_wait; [exact H|apply K|]. intros w1 [H1 H2].
  apply HQ. split; [eapply calm_trans; [exact H1|by apply calm_event_step]|]. cbn. fold (ps2_state (w_tr w1)). by rewrite H2.
Qed.
(** A byte comes: the one that is known, or a configuration that shows the ports. *)
Definition comes (x : option Z) (st : ps2) (v : Z) : Prop :=
  match x with
  | Some y => v = y
  | None => truth (Z.land v 0x20) = off1 st /\ is_u 8 v /\ Z.testbit v 4 = off0 st /\ Z.testbit v 5 = off1 st
  end.
Definition taken (st : ps2) : ps2 := mkPs2 (off0 st) (off1 st) None (awaits st).
Lemma on_recv_data x w0 st w (Q : Z -> world -> Prop) : on_ps2 w0 st w -> pending st = Some x ->
  (forall v w', on_ps2 w0 (taken st) w' -> comes x st v -> Q v w') -> wp (ps2_recv_data fuel) Q w.
Proof.
  intros H Hx HQ. unfold ps2_recv_data, ps2_wait_read. apply wp_bind. eapply on_wait; [exact H|eapply (pc_read _ K); rewrite (proj2 H); exact Hx|].
  intros w1 [H1 H2]. unfold inb, wp. apply HQ.
  - split; [eapply calm_trans; [exact H1|by apply calm_event_step]|]. cbn. fold (ps2_state (w_tr w1)). by rewrite H2.
  - rewrite <- H2 in Hx |- *. destruct x as [y|]; cbn [comes]; [by apply (pc_byte _ K)|]. destruct (pc_conf _ K _ Hx) as [E4 E5].
    change 0x20 with (2 ^ 5). rewrite status_bit by lia. split; [done|]. split; [apply is_u_wrap; lia|].
    unfold u8. rewrite !wrap_testbit by lia. by rewrite E4, E5.
Qed.
Lemma on_read_conf w0 st w (Q : Z -> world -> Prop) : on_ps2 w0 st w ->
  (forall v w', on_ps2 w0 (mkPs2 (off0 st) (off1 st) None 0) w' -> comes None st v -> Q v w') -> wp (ps2_read_conf fuel) Q w.
Proof.
  intros H HQ. unfold ps2_read_conf. apply wp_bind. eapply on_send_ctrl; [exact H|]. intros w1 H1.
  eapply on_recv_data; [exact H1|reflexivity|]. intros v w2 H2 Hv. by apply HQ.
Qed.
Lemma on_write_conf v w0 st w (Q : unit -> world -> Prop) : on_ps2 w0 st w -> is_u 8 v ->
  (forall w', on_ps2 w0 (mkPs2 (Z.testbit v 4) (Z.testbit v 5) (pending st) 0) w' -> Q tt w') -> wp (ps2_write_conf fuel v) Q w.
Proof.
  intros H Hv HQ. unfold ps2_write_conf. apply wp_bind. eapply on_send_ctrl; [exact H|]. intros w1 H1.
  eapply on_send_data; [exact H1|]. intros w2 H2. apply HQ. unfold u8 in H2. by rewrite wrap_small in H2.
Qed.
Lemma on_flush k w0 st w (Q : unit -> world -> Prop) : on_ps2 w0 st w -> pending st = None -> (0 < k)%nat ->
  (forall w', on_ps2 w0 st w' -> Q tt w') -> wp (ps2_flush k fuel) Q w.
Proof.
  intros [Hc Hs] Hp Hk HQ. destruct k as [|k]; [lia|]. cbn [ps2_flush]. apply wp_bind. unfold ps2_recv_stat, inb, wp at 1.
  change 1 with (2 ^ 0). rewrite status_bit, (pc_empty _ K) by (lia || by rewrite Hs). apply wp_ret, HQ.
  split; [eapply calm_trans; [exact Hc|by apply calm_event_step]|done].
Qed.
Lemma on_printf fmt w0 st w (Q : Z -> world -> Prop) : on_ps2 w0 st w -> check_printf a fmt [] = true ->
  (forall n w', on_ps2 w0 st w' -> Q n w') -> wp (printf a fmt []) Q w.
Proof.
  intros [Hc Hs] Hf HQ. eapply (printf_ok a _ []); [exact Hf|constructor|]. intros n tr Ht. apply HQ.
  split; [eapply calm_trans; [exact Hc|by apply calm_printing]|]. cbn [w_tr]. by rewrite ps2_printing.
Qed.
Lemma fuel_pos : (0 < fuel)%nat.
Proof. pose proof (pc_write _ K (mkW ∅ [])) as H. destruct fuel; [done|lia]. Qed.
End mouse.

(** The state of the controller, computed. *)
Ltac ps2_compute H := match type of H with on_ps2 _ ?st _ => let x := eval vm_compute in st in change st with x in H end.
Ltac ps2_step K :=
  lazymatch goal with
  | |- wp (_ ≫= _) _ _ => apply wp_bind
  | |- wp (mret _) _ _ => apply wp_ret
  | H : on_ps2 _ _ _ |- wp (ps2_send_ctrl _ _) _ _ => eapply (on_send_ctrl K); [exact H|clear H; intros ? H; ps2_compute H]
  | H : on_ps2 _ _ _ |- wp (ps2_send_data _ _) _ _ => eapply (on_send_data K); [exact H|clear H; intros ? H; ps2_compute H]
  | H : on_ps2 _ _ _ |- wp (ps2_recv_data _) _ _ => eapply (on_recv_data K); [exact H|reflexivity|clear H; intros ? ? H ->; ps2_compute H]
  | H : on_ps2 _ _ _ |- wp (ps2_read_conf _) _ _ =>
      eapply (on_read_conf K); [exact H|clear H; intros ? ? H (? & ? & ? & ?); ps2_compute H; cbn [off0 off1] in *]
  | H : on_ps2 _ _ _ |- wp (printf _ _ _) _ _ =>
      eapply on_printf; [exact H|match goal with |- check_printf ?b _ _ = true => by destruct b end|clear H; intros ? ? H]
  | H : truth (Z.land ?v 32) = _ |- wp (ASSERT_io _) _ _ => apply wp_assert; [change (2 ^ 5) with 32; by rewrite H|]
  | |- wp (ASSERT_io _) _ _ => apply wp_assert; [done|]
  end.

Lemma both_off v : is_u 8 v -> Z.testbit v 4 = false -> Z.testbit v 5 = false -> negb (truth (Z.land v 0x30)) = true.
Proof.
  intros Hv H4 H5. unfold truth. rewrite negb_involutive. apply Z.eqb_eq, Z.bits_inj'. intros i Hi. rewrite Z.land_spec, Z.bits_0.
  change 0x30 with (Z.lor (2 ^ 4) (2 ^ 5)). rewrite Z.lor_spec. destruct (decide (i = 4)) as [->|N4]; [by rewrite H4|].
  destruct (decide (i = 5)) as [->|N5]; [by rewrite H5|]. by rewrite (Z.pow2_bits_false 4 i), (Z.pow2_bits_false 5 i), andb_false_r by done.
Qed.
(** The two configurations the driver writes keep the bits of the ports. *)
Definition same_ports (v x : Z) : Prop := is_u 8 x /\ Z.testbit x 4 = Z.testbit v 4 /\ Z.testbit x 5 = Z.testbit v 5.
Lemma masked_conf v : is_u 8 v -> same_ports v (u8 (Z.land v (Z.lnot 0x43))).
Proof.
  intros Hv. split; [apply is_u_wrap; lia|]. unfold u8. rewrite !wrap_testbit, !Z.land_spec, !Z.lnot_spec by lia. cbn. by rewrite !andb_true_r.
Qed.
Lemma ored_conf v : is_u 8 v -> same_ports v (Z.lor v 0x03).
Proof.
  intros Hv. split.
  - apply is_u_of_testbit; [lia|apply Z.lor_nonneg; unfold is_u in Hv; lia|]. intros j Hj.
    by rewrite Z.lor_spec, (is_u_testbit_high 8 v), (is_u_testbit_high 8 3) by (unfold is_u; lia || done).
  - rewrite !Z.lor_spec. cbn. by rewrite !orb_false_r.
Qed.

(** The mouse is set up on the boot processor: nothing else happens than accesses to ports and output, and the interrupt of its
    answer has been taken. *)
Lemma mouse_init_ok {a D fuel} (K : ps2_controller (D := D) fuel) interrupted vcpu d w :
  c_isbsp vcpu = true -> pending (ps2_state (w_tr w)) = None ->
  drop_mouse_interrupts (interrupted (mkDrops (drop_keyboard_interrupts d) 1)) = 0 ->
  wp (mouse_init a fuel interrupted vcpu d) (fun d' w' => d' = interrupted (mkDrops (drop_keyboard_interrupts d) 1) /\ calm w w') w.
Proof.
  intros Hb Hp Hd. assert (on_ps2 w (ps2_state (w_tr w)) w) as H by (split; [apply calm_refl|done]).
  destruct (ps2_state (w_tr w)) as [o0 o1 pend aw]. cbn [pending] in Hp. subst pend. unfold mouse_init. rewrite Hb.
  do 8 ps2_step K. ps2_step K. eapply (on_flush K); [exact H|done|by apply (fuel_pos K)|]. clear H. intros w3 H.
  repeat ps2_step K. destruct (masked_conf v) as (M1 & M2 & M3); [done|]. eapply (on_write_conf K); [exact H|exact M1|].
  rewrite M2, M3, H2, H3. clear H. clear dependent v. intros w4 H. cbn [pending] in H.
  repeat (ps2_step K; try match goal with H0 : truth (Z.land ?v 32) = _, H1 : is_u 8 ?v |- wp (ps2_send_ctrl _ _) _ _ => clear dependent v end).
  apply wp_assert; [by apply both_off|]. ps2_step K. destruct (ored_conf v) as (M1 & M2 & M3); [done|]. eapply (on_write_conf K); [exact H|exact M1|].
  rewrite M2, M3, H2, H3. clear H. clear dependent v. intros w5 H. cbn [pending] in H. repeat ps2_step K.
  apply wp_assert; [by apply Z.eqb_eq|]. repeat ps2_step K. split; [done|apply H].
Qed.

(** A controller that is always ready. *)
Definition ready_ps2 (msr : Z -> Z) : Device := {|
  dev_in tr p :=
    let st := ps2_state tr in
    if p =? 0x64 then (match pending st with Some _ => 1 | None => 0 end)
    else if p =? 0x60 then (match pending st with Some (Some v) => v | Some None => (if off0 st then 16 else 0) + (if off1 st then 32 else 0) | None => 0 end)
    else 0xff;
  dev_read _ _ := 0; dev_rdmsr _ := msr |}.
Lemma ready_byte tr v : pending (ps2_state tr) = Some (Some v) -> u8 v = v.
Proof.
  assert (forall e st, (forall x, pending st = Some (Some x) -> u8 x = x) -> forall x, pending (ps2_event e st) = Some (Some x) -> u8 x = x) as Hstep.
  { intros e st H x. destruct e; cbn [ps2_event]; try by apply H.
    - destruct (port =? 96); [done|by apply H].
    - unfold ps2_command, ps2_data. repeat destruct (_ =? _); cbn; try (by apply H); try done; by intros [= <-]. }
  revert v. induction tr as [|e tr IH]; [done|]. exact (Hstep e _ IH).
Qed.
Lemma ready_ps2_controller msr fuel : (0 < fuel)%nat -> ps2_controller (D := ready_ps2 msr) fuel.
Proof.
  intros Hf. destruct fuel as [|fuel]; [lia|]. constructor; intros *; cbn [wait_in dev_in ready_ps2].
  - erewrite bind_run by done. cbn [dev_in ready_ps2 Z.eqb Pos.eqb PS2_CTRL_PORT]. by destruct (pending _).
  - intros Hx. erewrite bind_run by done. cbn [dev_in ready_ps2 Z.eqb Pos.eqb PS2_CTRL_PORT]. by rewrite Hx.
  - intros Hx. cbn. by rewrite Hx.
  - intros Hx. cbn. rewrite Hx. by eapply ready_byte.
  - intros Hx. cbn. rewrite Hx. by destruct (off0 _), (off1 _).
Qed.
