(* ===== verification/Vmx.v ===== *)
(** [src/shv-vmx.c]: enabling VMX, filling in the VMCS, and the handler of VM exits. *)
From Stdlib Require Import String.
From S2P Require Import Prelude.
From S2P Require Import HptLemmas.
From S2P Require Import Mem.
From S2P Require Import LibcString.
From S2P Require Import Ept.
From S2P Require Import CString.
From S2P Require Import Cmdline.
From S2P Require Import Stdio.
From S2P Require Import Io.
From S2P Require Import Smp.
From S2P Require Import Timer.
From S2P Require Import Desc.
From S2P Require Import VmxCtls.
From S2P Require Import VmcsFields.
From S2P Require Import Vmcs.
From S2P Require Import Vcpu.

Section vmx.
Context (a : subarch) {D : Device} {C : Cpu}.
Context (g : opts) (s : vmx_syms) (es : ept_syms) (ds : desc_syms).

Definition w16 (name : string) (v : Z) : IO unit := __vmx_vmwrite16 a (VMCS_ name) v.
Definition w32 (name : string) (v : Z) : IO unit := __vmx_vmwrite32 a (VMCS_ name) v.
Definition w64 (name : string) (v : Z) : IO unit := __vmx_vmwrite64 a (VMCS_ name) v.
Definition wNW (name : string) (v : Z) : IO unit := __vmx_vmwriteNW a (VMCS_ name) v.
(** [vcpu->vmx_msrs[i]] *)
Definition vmx_msr (v : VCPU) (i : nat) : Z := default 0 (vcpu_vmx_msrs v !! i).
Definition ulong (z : Z) : Z := wrap (ptr_bits a) z.
Definition sizeof_hva : Z := ptr_bits a / 8.
Definition opt_set (x : Z) : bool := opt (g_shv_opt g) x.
(** [x &= ~(1U << n)] and [x |= (1U << n)] *)
Definition set_bit (x n : Z) : Z := Z.lor x (Z.shiftl 1 n).
Definition clear_bit (x n : Z) : Z := Z.land x (bnot 32 (Z.shiftl 1 n)).

(** ** [shv_vmx_vmcs_init] *)

(** Lines 49 to 63: the host's control registers, selectors and bases, and where exits arrive. *)
Definition vmcs_init_host (v : VCPU) : IO unit :=
  x ← read_reg a RCR0; wNW "host_CR0" x ≫= fun _ =>
  x ← read_reg a RCR4; wNW "host_CR4" x ≫= fun _ =>
  x ← read_reg a RCR3; wNW "host_CR3" x ≫= fun _ =>
  x ← read_reg a RCS; w16 "host_CS_selector" x ≫= fun _ =>
  x ← read_reg a RDS; w16 "host_DS_selector" x ≫= fun _ =>
  x ← read_reg a RES; w16 "host_ES_selector" x ≫= fun _ =>
  x ← read_reg a RFS; w16 "host_FS_selector" x ≫= fun _ =>
  x ← read_reg a RGS; w16 "host_GS_selector" x ≫= fun _ =>
  x ← read_reg a RSS; w16 "host_SS_selector" x ≫= fun _ =>
  x ← read_reg a RTR; w16 "host_TR_selector" x ≫= fun _ =>
  wNW "host_GDTR_base" (gdt_at ds (vcpu_idx v) 0) ≫= fun _ =>
  wNW "host_IDTR_base" (g_idt_host ds) ≫= fun _ =>
  wNW "host_TR_base" (tss_at ds (vcpu_idx v)) ≫= fun _ =>
  wNW "host_RIP" (s_vmexit_asm s).

(** Lines 65 to 68: the address of the [VCPU] is pushed on the host stack. *)
Definition vmcs_init_stack (v : VCPU) : IO VCPU :=
  let v := with_sp (ulong (vcpu_sp v - sizeof_hva)) v in
  store (Z.to_nat sizeof_hva) (vcpu_sp v) (vcpu_addr v) ≫= fun _ =>
  wNW "host_RSP" (vcpu_sp v) ≫= fun _ => mret v.

(** Lines 70 to 74. *)
Definition vmcs_init_sysenter : IO unit :=
  x ← rdmsr64 IA32_SYSENTER_CS_MSR; w32 "host_SYSENTER_CS" x ≫= fun _ =>
  x ← rdmsr64 IA32_SYSENTER_ESP_MSR; wNW "host_SYSENTER_ESP" x ≫= fun _ =>
  x ← rdmsr64 IA32_SYSENTER_EIP_MSR; wNW "host_SYSENTER_EIP" x ≫= fun _ =>
  x ← rdmsr64 IA32_MSR_FS_BASE; wNW "host_FS_base" x ≫= fun _ =>
  x ← rdmsr64 IA32_MSR_GS_BASE; wNW "host_GS_base" x.

(** Lines 76 to 106: the controls start from the bits that must be set. *)
Definition proc_ctls (v : VCPU) : Z :=
  clear_bit (clear_bit (set_bit (u32 (vmx_msr v INDEX_PROCBASED_CTLS)) (ctl_bit activate_secondary_controls))
    (ctl_bit cr3_load_exiting)) (ctl_bit cr3_store_exiting).
Definition exit_ctls_ (v : VCPU) : Z :=
  let x := u32 (vmx_msr v INDEX_EXIT_CTLS) in match a with AMD64 => set_bit x (ctl_bit vmexit_host_address_space_size) | _ => x end.
Definition entry_ctls_ (v : VCPU) : Z :=
  let x := u32 (vmx_msr v INDEX_ENTRY_CTLS) in match a with AMD64 => set_bit x (ctl_bit vmentry_ia_32e_mode_guest) | _ => x end.
Definition vmcs_init_ctls (v : VCPU) : IO unit :=
  w32 "control_VMX_pin_based" (vmx_msr v INDEX_PINBASED_CTLS) ≫= fun _ =>
  w32 "control_VMX_cpu_based" (proc_ctls v) ≫= fun _ =>
  w32 "control_VM_exit_controls" (exit_ctls_ v) ≫= fun _ =>
  w32 "control_VM_entry_controls" (entry_ctls_ v) ≫= fun _ =>
  w32 "control_VMX_seccpu_based" (vmx_msr v INDEX_PROCBASED_CTLS2).

(** Lines 108 to 123: the MSR areas. *)
Definition vmcs_init_msrs (v : VCPU) : IO VCPU :=
  v ← (if opt_set SHV_USE_MSR_LOAD then
         let v := with_msr_areas (msr_area_at (s_exit_store s) (vcpu_idx v) 0) (msr_area_at (s_exit_load s) (vcpu_idx v) 0)
                    (msr_area_at (s_entry_load s) (vcpu_idx v) 0) v in
         w64 "control_VM_exit_MSR_store_address" (hva2spa a (vcpu_msrstore v)) ≫= fun _ =>
         w64 "control_VM_exit_MSR_load_address" (hva2spa a (vcpu_exit_msrload v)) ≫= fun _ =>
         w64 "control_VM_entry_MSR_load_address" (hva2spa a (vcpu_entry_msrload v)) ≫= fun _ =>
         printf a (lit "CPU(0x%02x): configured load/store MSR" ++ [10]) [VNum 32 (vcpu_id v)] ≫= fun _ => mret v
       else mret v);
  w32 "control_VM_exit_MSR_load_count" 0 ≫= fun _ =>
  w32 "control_VM_entry_MSR_load_count" 0 ≫= fun _ =>
  w32 "control_VM_exit_MSR_store_count" 0 ≫= fun _ => mret v.

(** [shv_ept_init] and [shv_build_ept] on the processor of the trace; their accesses to it are not recorded. *)
Definition ept_init (v : VCPU) : IO VCPU := fun w =>
  match shv_ept_init (fun leaf => (cpu_cpuid (w_tr w) leaf 0).1.1.1) (dev_rdmsr (w_tr w)) (vcpu_ept v) with
  | Ok e => Ok (with_ept e v, w)
  | Err e => Err e
  end.
Definition build_ept (v : VCPU) (ept_num : Z) : IO Z := fun w =>
  match shv_build_ept a es (fun t e => cpu_vmx (w_tr w) Invept [t; e]) (g_shv_opt g) (vcpu_ept v) ept_num (w_mem w) with
  | Ok (eptp, m) => Ok (eptp, mkW m (w_tr w))
  | Err e => Err e
  end.

(** Sets one of the secondary controls. *)
Definition add_seccpu (n : Z) : IO unit :=
  seccpu ← __vmx_vmread32 a (VMCS_ "control_VMX_seccpu_based");
  w32 "control_VMX_seccpu_based" (set_bit seccpu n).

(** Lines 135 to 144: with PAE paging the guest's page directory pointers are VMCS fields. *)
Definition load_pdptes : IO unit :=
  match a with
  | I386_PAE =>
      cr3 ← read_reg a RCR3;
      x ← load 8 cr3; w64 "guest_PDPTE0" x ≫= fun _ =>
      x ← load 8 (cr3 + 8); w64 "guest_PDPTE1" x ≫= fun _ =>
      x ← load 8 (cr3 + 16); w64 "guest_PDPTE2" x ≫= fun _ =>
      x ← load 8 (cr3 + 24); w64 "guest_PDPTE3" x
  | _ => mret tt
  end.

(** Lines 125 to 161. *)
Definition vmcs_init_ept (v : VCPU) : IO VCPU :=
  if opt_set SHV_USE_EPT then
    v ← ept_init v;
    eptp ← build_ept v 0;
    add_seccpu (ctl_bit enable_ept) ≫= fun _ =>
    w64 "control_EPT_pointer" (Z.lor eptp 0x1e) ≫= fun _ =>
    load_pdptes ≫= fun _ => mret v
  else mret v.
Definition vmcs_init_vpid : IO unit :=
  if opt_set SHV_USE_VPID then add_seccpu (ctl_bit enable_vpid) ≫= fun _ => w16 "control_vpid" 1 else mret tt.
Definition vmcs_init_unrestricted : IO unit :=
  if opt_set SHV_USE_UNRESTRICTED_GUEST then ASSERT_io (opt_set SHV_USE_EPT) ≫= fun _ => add_seccpu (ctl_bit unrestricted_guest) else mret tt.

(** Lines 163 to 208: exceptions, control registers, descriptor tables. *)
Definition guest_cr0 (v : VCPU) : Z := Z.lor (ulong (vmx_msr v INDEX_CR0_FIXED0)) CR0_ET.
Definition guest_cr4 (v : VCPU) : Z :=
  Z.lor (ulong (vmx_msr v INDEX_CR4_FIXED0)) (match a with I386 => CR4_PSE | _ => CR4_PAE end).
Definition vmcs_init_system (v : VCPU) : IO unit :=
  w32 "control_pagefault_errorcode_mask" 0 ≫= fun _ =>
  w32 "control_pagefault_errorcode_match" 0 ≫= fun _ =>
  w32 "control_exception_bitmap" 0 ≫= fun _ =>
  w32 "control_CR3_target_count" 0 ≫= fun _ =>
  wNW "guest_CR0" (guest_cr0 v) ≫= fun _ =>
  wNW "guest_CR4" (guest_cr4 v) ≫= fun _ =>
  x ← read_reg a RCR3; wNW "guest_CR3" x ≫= fun _ =>
  wNW "guest_IDTR_base" (g_idt_guest ds) ≫= fun _ =>
  w32 "guest_IDTR_limit" 0xffff ≫= fun _ =>
  wNW "guest_GDTR_base" (gdt_at ds (vcpu_idx v) 0) ≫= fun _ =>
  w32 "guest_GDTR_limit" 0xffff ≫= fun _ =>
  wNW "guest_LDTR_base" 0 ≫= fun _ =>
  w32 "guest_LDTR_limit" 0 ≫= fun _ =>
  w16 "guest_LDTR_selector" 0 ≫= fun _ =>
  w32 "guest_LDTR_access_rights" 0x10000 ≫= fun _ =>
  wNW "guest_TR_base" (tss_at ds (vcpu_idx v)) ≫= fun _ =>
  w32 "guest_TR_limit" 0x67 ≫= fun _ =>
  w16 "guest_TR_selector" __TRSEL ≫= fun _ =>
  w32 "guest_TR_access_rights" 0x8b ≫= fun _ =>
  wNW "guest_DR7" 0x400.

(** Lines 209 to 247: stack, entry point and segments. *)
Definition data_segment (r : string) : IO unit :=
  w16 ("guest_" ++ r ++ "_selector") __DS ≫= fun _ =>
  wNW ("guest_" ++ r ++ "_base") 0 ≫= fun _ =>
  w32 ("guest_" ++ r ++ "_limit") 0xffffffff ≫= fun _ =>
  w32 ("guest_" ++ r ++ "_access_rights") 0xc093.
Definition vmcs_init_entry (v : VCPU) : IO VCPU :=
  let v := with_my_stack (guest_stack_at s (vcpu_idx v) 0 + 4096) v in
  wNW "guest_RSP" (vcpu_my_stack v) ≫= fun _ =>
  w16 "guest_CS_selector" (__CS a) ≫= fun _ =>
  wNW "guest_CS_base" 0 ≫= fun _ =>
  wNW "guest_RIP" (s_guest_entry s) ≫= fun _ =>
  wNW "guest_RFLAGS" 2 ≫= fun _ =>
  w32 "guest_CS_limit" 0xffffffff ≫= fun _ =>
  w32 "guest_CS_access_rights" (match a with AMD64 => 0xa09b | _ => 0xc09b end) ≫= fun _ =>
  data_segment "DS" ≫= fun _ =>
  data_segment "ES" ≫= fun _ =>
  data_segment "FS" ≫= fun _ =>
  data_segment "GS" ≫= fun _ =>
  data_segment "SS" ≫= fun _ => mret v.

(** Lines 249 to 266: link pointer and the trapped bits of CR0 and CR4. *)
Definition cr0_mask (v : VCPU) : Z :=
  let x := ulong (vmx_msr v INDEX_CR0_FIXED0) in
  let x := Z.land x (bnot (ptr_bits a) CR0_PE) in
  let x := Z.land x (bnot (ptr_bits a) CR0_PG) in
  Z.lor (Z.lor x CR0_CD) CR0_NW.
Definition vmcs_init_masks (v : VCPU) : IO unit :=
  w64 "guest_VMCS_link_pointer" 0xFFFFFFFFFFFFFFFF ≫= fun _ =>
  wNW "control_CR0_mask" (cr0_mask v) ≫= fun _ =>
  wNW "control_CR0_shadow" CR0_ET ≫= fun _ =>
  wNW "control_CR4_mask" (vmx_msr v INDEX_CR4_FIXED0) ≫= fun _ =>
  wNW "control_CR0_shadow" 0.

Definition shv_vmx_vmcs_init (v : VCPU) : IO VCPU :=
  vmcs_init_host v ≫= fun _ =>
  v ← vmcs_init_stack v;
  vmcs_init_sysenter ≫= fun _ =>
  vmcs_init_ctls v ≫= fun _ =>
  v ← vmcs_init_msrs v;
  v ← vmcs_init_ept v;
  vmcs_init_vpid ≫= fun _ =>
  vmcs_init_unrestricted ≫= fun _ =>
  vmcs_init_system v ≫= fun _ =>
  v ← vmcs_init_entry v;
  vmcs_init_masks v ≫= fun _ => mret v.

(** ** [shv_vmx_main] *)

(** Lines 273 to 280. *)
Definition check_intel : IO unit :=
  '(_, ebx, ecx, edx) ← cpuid 0;
  ASSERT_io (ebx =? 0x756E6547) ≫= fun _ => ASSERT_io (ecx =? 0x6C65746E) ≫= fun _ => ASSERT_io (edx =? 0x49656E69).

(** The loop over the MSRs; [n] is [IA32_VMX_MSRCOUNT - i]. *)
Fixpoint read_msrs (n : nat) (i : Z) (l : list Z) : IO (list Z) :=
  match n with
  | O => mret l
  | S n => x ← rdmsr64 (IA32_VMX_BASIC_MSR + i); read_msrs n (i + 1) (<[Z.to_nat i := x]> l)
  end.
(** Lines 287 to 309: the controls the processor allows, from the TRUE registers when bit 55 says they are there. *)
Definition init_caps (v : VCPU) : VCPU :=
  let v := if truth (Z.land (vmx_msr v INDEX_BASIC) (Z.shiftl 1 55)) then
             with_ctls (vmx_msr v INDEX_TRUE_PINBASED_CTLS) (vmx_msr v INDEX_TRUE_PROCBASED_CTLS)
               (vmx_msr v INDEX_TRUE_EXIT_CTLS) (vmx_msr v INDEX_TRUE_ENTRY_CTLS) v
           else
             with_ctls (vmx_msr v INDEX_PINBASED_CTLS) (vmx_msr v INDEX_PROCBASED_CTLS)
               (vmx_msr v INDEX_EXIT_CTLS) (vmx_msr v INDEX_ENTRY_CTLS) v in
  with_caps (mkCtls (u32 (Z.shiftr (vcpu_pinbased v) 32)) (u32 (Z.shiftr (vcpu_procbased v) 32))
               (u32 (Z.shiftr (vmx_msr v INDEX_PROCBASED_CTLS2) 32)) (u32 (Z.shiftr (vcpu_exit v) 32))
               (u32 (Z.shiftr (vcpu_entry v) 32))) v.

(** [ASSERT] of a status. *)
Definition must (m : IO bool) : IO unit := ok ← m; ASSERT_io ok.

(** Lines 311 to 346: the processor enters VMX operation. *)
Definition enable_vmx (v : VCPU) : IO (VCPU * Z) :=
  '(_, _, ecx, _) ← cpuid 1;
  ASSERT_io (truth (Z.land ecx (Z.shiftl 1 5))) ≫= fun _ =>
  let revision := Z.land (u32 (vmx_msr v INDEX_BASIC)) 0x7fffffff in
  let v := with_vmxon_region (vmxon_region_at s (vcpu_idx v)) v in
  store 4 (vcpu_vmxon_region v) revision ≫= fun _ =>
  cr0 ← read_reg a RCR0;
  write_reg a RCR0 (Z.lor cr0 CR0_NE) ≫= fun _ =>
  cr4 ← read_reg a RCR4;
  ASSERT_io (Z.land cr4 CR4_VMXE =? 0) ≫= fun _ =>
  write_reg a RCR4 (Z.lor cr4 CR4_VMXE) ≫= fun _ =>
  efcr ← rdmsr64 MSR_EFCR;
  ASSERT_io (truth (Z.land efcr 1)) ≫= fun _ =>
  ASSERT_io (truth (Z.land efcr 4)) ≫= fun _ =>
  must (__vmx_vmxon (hva2spa a (vcpu_vmxon_region v))) ≫= fun _ =>
  mret (v, revision).

(** Lines 348 to 366; the condition [!"test_vmclear"] is false. *)
Definition load_vmcs (v : VCPU) (revision : Z) : IO VCPU :=
  let v := with_my_vmcs (vmcs_at s (vcpu_idx v) 0) v in
  must (__vmx_vmclear (hva2spa a (vcpu_my_vmcs v))) ≫= fun _ =>
  store 4 (vcpu_my_vmcs v) revision ≫= fun _ =>
  must (__vmx_vmptrld (hva2spa a (vcpu_my_vmcs v))) ≫= fun _ =>
  mret v.

(** The registers the guest starts with; what [vmlaunch_asm] loads. *)
Definition launch_regs (v : VCPU) : regs :=
  mkRegs 0 0 0 0 0 (vcpu_addr v) 0 0 (match a with AMD64 => replicate 8 0 | _ => [] end).
Definition shv_vmx_main (qemu : bool) (v : VCPU) : IO handler_result :=
  check_intel ≫= fun _ =>
  l ← read_msrs (Z.to_nat IA32_VMX_MSRCOUNT) 0 (vcpu_vmx_msrs v);
  let v := init_caps (with_vmx_msrs l v) in
  '(v, revision) ← enable_vmx v;
  v ← load_vmcs v revision;
  v ← shv_vmx_vmcs_init v;
  d ← vmcs_dump a qemu (vcpu_caps v) (vcpu_id v) false (vcpu_vmcs v);
  mret (Entered true (with_vmcs d v) (launch_regs v)).

(** ** [vmexit_handler] *)

(** The handlers [vmexit_handler_override] points at. *)
Context (call_handler : handler -> VCPU -> regs -> vmexit_info_t -> IO handler_result).

Definition print1 (text : cstr) (args : list varg) : IO unit := printf a (text ++ [10]) args ≫= fun _ => mret tt.

(** The [switch]: what the handler does when no override took the exit. *)
Definition default_exit (mid : list MIDTAB) (qemu : bool) (v : VCPU) (r : regs) (info : vmexit_info_t) : IO handler_result :=
  let next (r : regs) := wNW "guest_RIP" (guest_rip info + inst_len info) ≫= fun _ => mret (Entered false v r) in
  let dump := vmcs_dump a qemu (vcpu_caps v) (vcpu_id v) false (vcpu_vmcs v) in
  self ← get_vcpu a g mid;
  ASSERT_io (vcpu_addr v =? self) ≫= fun _ =>
  if vmexit_reason info =? VMX_VMEXIT_CPUID then
    let old_eax := r_eax r in
    '(eax, ebx, ecx, edx) ← cpuid_raw (r_eax r) (r_ecx r);
    let r := with_edx edx (with_ecx ecx (with_ebx ebx (with_eax eax r))) in
    next (if old_eax =? 1 then with_ecx (Z.land (r_ecx r) (bnot 32 (Z.shiftl 1 5))) r else r)
  else if vmexit_reason info =? VMX_VMEXIT_RDMSR then
    x ← rdmsr_ (r_ecx r);
    next (with_edx (Z.shiftr x 32) (with_eax x r))
  else if vmexit_reason info =? VMX_VMEXIT_EPT_VIOLATION then
    ASSERT_io (opt_set SHV_USE_EPT) ≫= fun _ =>
    q ← __vmx_vmreadNW a (VMCS_ "info_exit_qualification");
    paddr ← __vmx_vmread64 a (VMCS_ "guest_paddr");
    vaddr ← __vmx_vmreadNW a (VMCS_ "info_guest_linear_address");
    print1 (lit "CPU(0x%02x): ept: 0x%08lx") [VNum 32 (vcpu_id v); VNum (ptr_bits a) q] ≫= fun _ =>
    print1 (lit "CPU(0x%02x): paddr: 0x%016llx") [VNum 32 (vcpu_id v); VNum 64 paddr] ≫= fun _ =>
    print1 (lit "CPU(0x%02x): vaddr: 0x%08lx") [VNum 32 (vcpu_id v); VNum (ptr_bits a) vaddr] ≫= fun _ =>
    dump ≫= fun _ => lift (Err Halt)
  else
    (if vmexit_reason info =? VMX_VMEXIT_VMCALL then print1 (lit "CPU(0x%02x): unknown vmcall") [VNum 32 (vcpu_id v)]
     else mret tt) ≫= fun _ =>
    print1 (lit "CPU(0x%02x): unknown vmexit %u") [VNum 32 (vcpu_id v); VNum 32 (vmexit_reason info)] ≫= fun _ =>
    print1 (lit "CPU(0x%02x): rip = 0x%x") [VNum 32 (vcpu_id v); VNum (ptr_bits a) (guest_rip info)] ≫= fun _ =>
    dump ≫= fun _ => lift (Err Halt).

Definition vmexit_handler (mid : list MIDTAB) (qemu : bool) (rip : Z) (v : VCPU) (r : regs) : IO handler_result :=
  reason ← __vmx_vmread32 a (VMCS_ "info_vmexit_reason");
  len ← __vmx_vmread32 a (VMCS_ "info_vmexit_instruction_length");
  rip' ← __vmx_vmreadNW a (VMCS_ "guest_RIP");
  ASSERT_io (rip =? rip') ≫= fun _ =>
  let info := mkInfo_ reason rip len in
  match vcpu_override v with
  | Some h =>
      res ← call_handler h v r info;
      match res with
      | Returned v r => default_exit mid qemu v r info
      | Entered launch v r => mret (Entered launch v r)
      end
  | None => default_exit mid qemu v r info
  end.

(** [vmentry_error] stops in every case. *)
Definition vmentry_error (mid : list MIDTAB) (id : Z) (is_resume valid : Z) : IO unit :=
  _ ← get_vcpu a g mid;
  err ← __vmx_vmread32 a (VMCS_ "info_vminstr_error");
  print1 (lit "CPU(0x%02x): is_resume = %ld, valid = %ld, err = %ld")
    [VNum 32 id; VNum (ptr_bits a) is_resume; VNum (ptr_bits a) valid; VNum (ptr_bits a) err] ≫= fun _ =>
  ASSERT_io (truth is_resume && truth valid && false) ≫= fun _ => lift (Err Halt).
End vmx.
