(* ===== verification/VmxProps.v ===== *)
(** What [shv_vmx_vmcs_init] leaves in the VMCS, and what the exit handler does to the guest. *)
From Stdlib Require Import String.
From S2P Require Import Prelude.
From S2P Require Import Bitfield.
From S2P Require Import HptLemmas.
From S2P Require Import Mem.
From S2P Require Import Ept.
From S2P Require Import CString.
From S2P Require Import Cmdline.
From S2P Require Import Stdio.
From S2P Require Import Io.
From S2P Require Import Print.
From S2P Require Import Smp.
From S2P Require Import Timer.
From S2P Require Import Desc.
From S2P Require Import VmxCtls.
From S2P Require Import VmcsFields.
From S2P Require Import Vmcs.
From S2P Require Import VmcsProps.
From S2P Require Import Vcpu.
From S2P Require Import Vmx.
Local Open Scope string_scope.
Local Open Scope Z_scope.

(** ** Fields by name *)

Fixpoint find_field (l : list vmcs_field) (n : string) : option vmcs_field :=
  match l with [] => None | f :: l => if String.eqb (f_name f) n then Some f else find_field l n end.

Lemma find_field_ok l n f : find_field l n = Some f -> f ∈ l /\ f_name f = n /\ enc_in l n = f_enc f.
Proof.
  induction l as [|g l IH]; [done|]. cbn. destruct (String.eqb_spec (f_name g) n) as [E|E].
  - intros [= <-]. split; [by left|done].
  - intros (H & Hn & He)%IH. split; [by right|done].
Qed.

Lemma nodup_map_inj {A B} (h : A -> B) l x y : NoDup (map h l) -> x ∈ l -> y ∈ l -> h x = h y -> x = y.
Proof.
  intros Hnd. induction l as [|z l IH]; [set_solver|]. cbn in Hnd. apply NoDup_cons in Hnd as [Hz Hnd].
  intros [->|Hx]%elem_of_cons [->|Hy]%elem_of_cons E; [done| | |by apply IH].
  - destruct Hz. rewrite E. by apply list_elem_of_fmap_2.
  - destruct Hz. rewrite <- E. by apply list_elem_of_fmap_2.
Qed.

Lemma field_name_inj f h : f ∈ vmcs_fields -> h ∈ vmcs_fields -> f_name f = f_name h -> f = h.
Proof. apply nodup_map_inj, fields_name_nodup. Qed.
Lemma field_enc_inj f h : f ∈ vmcs_fields -> h ∈ vmcs_fields -> f_enc f = f_enc h -> f = h.
Proof. apply nodup_map_inj, fields_enc_nodup. Qed.
Lemma field_in_wf f : f ∈ vmcs_fields -> field_wf f = true.
Proof. apply (proj1 (Forall_forall _ _) fields_wf). Qed.

(** ** An image of a VMCS: values by name, the last one counts *)

Abbreviation image := (list (string * Z)).
Fixpoint get (l : image) (n : string) : option Z :=
  match l with
  | [] => None
  | (k, x) :: l => match get l n with Some y => Some y | None => if String.eqb k n then Some x else None end
  end.

Lemma get_snoc l k x n : get (l ++ [(k, x)]) n = if String.eqb k n then Some x else get l n.
Proof.
  induction l as [|[k' x'] l IH]; cbn; [by destruct (String.eqb k n)|]. rewrite IH. by destruct (String.eqb k n).
Qed.
Lemma get_app l l' n : get (l ++ l') n = match get l' n with Some x => Some x | None => get l n end.
Proof.
  induction l as [|[k x] l IH]; cbn; [by destruct (get l' n)|]. rewrite IH. by destruct (get l' n).
Qed.

(** The case of the architecture in [load_pdptes]. *)
Definition is_pae (a : subarch) : bool := match a with I386_PAE => true | _ => false end.
Lemma load_pdptes_cases a {C : Cpu} :
  load_pdptes a =
  if is_pae a then
    cr3 ← read_reg a RCR3;
    x ← load 8 cr3; w64 a "guest_PDPTE0" x ≫= fun _ =>
    x ← load 8 (cr3 + 8); w64 a "guest_PDPTE1" x ≫= fun _ =>
    x ← load 8 (cr3 + 16); w64 a "guest_PDPTE2" x ≫= fun _ =>
    x ← load 8 (cr3 + 24); w64 a "guest_PDPTE3" x
  else mret tt.
Proof. by destruct a. Qed.

Lemma by_arch {A} a (x y : A) : match a with AMD64 => x | _ => y end = if is64 a then x else y.
Proof. by destruct a. Qed.
Lemma cs_u16 a : u16 (__CS a) = __CS a.
Proof. by destruct a. Qed.

(** ** The steps of a trace that change the processor itself: writes to registers and VMX instructions *)

Definition is_step (e : ioev) : bool := match e with ESetReg _ _ | EVmx _ _ _ => true | _ => false end.
Definition steps (tr : list ioev) : list ioev := List.filter is_step tr.
(** Neither a step nor an access to the VMCS that changes it. *)
Definition still (e : ioev) : bool := quiet e && negb (is_step e).

(** Accesses to the VMCS are no steps. *)
Definition no_step {A} (m : IO A) : Prop := forall w x w', m w = Ok (x, w') -> steps (w_tr w') = steps (w_tr w).
Lemma no_step_ret {A} (x : A) : no_step (mret x).
Proof. by intros w y w' [= <- <-]. Qed.
Lemma no_step_fail {A} e : no_step (A := A) (lift (Err e)).
Proof. by intros w y w' E. Qed.
Lemma no_step_bind {A B} (m : IO A) (f : A -> IO B) : no_step m -> (forall x, no_step (f x)) -> no_step (m ≫= f).
Proof. intros Hm Hf w y w' (x & w1 & E1 & E2)%IO_bind_Ok. rewrite (Hf _ _ _ _ E2). exact (Hm _ _ _ E1). Qed.
Lemma no_step_assert b : no_step (ASSERT_io b).
Proof. destruct b; [apply no_step_ret|apply no_step_fail]. Qed.
Lemma no_step_read a {C : Cpu} enc : no_step (__vmx_vmread a enc).
Proof. by intros w y w' [= <- <-]. Qed.
Lemma no_step_write a {C : Cpu} enc v : no_step (__vmx_vmwrite a enc v).
Proof. by intros w y w' [= <- <-]. Qed.
Create HintDb steps.
#[export] Hint Resolve no_step_ret no_step_fail no_step_bind no_step_assert no_step_read no_step_write : steps.
Lemma no_step_read_safe a {C : Cpu} class cast enc : no_step (read_safe a class cast enc).
Proof. apply no_step_bind; [auto with steps|]. intros _. apply no_step_bind; [auto with steps|]. intros [v|]; auto with steps. Qed.
Lemma no_step_vmread_of a {C : Cpu} z enc : no_step (vmread_of a z enc).
Proof.
  assert (forall r, no_step (r enc) -> no_step (never_fails r enc)) as Hn.
  { intros r H. apply no_step_bind; [done|]. intros [v|]; auto with steps. }
  destruct z; apply Hn; try apply no_step_read_safe. rewrite vmread64_cases. destruct (is64 a); [auto with steps|].
  do 2 (apply no_step_bind; [auto with steps|]; intros _). apply no_step_bind; [auto with steps|]. intros [low|]; [|auto with steps].
  apply no_step_bind; [auto with steps|]. intros [high|]; auto with steps.
Qed.
Lemma no_step_vmwrite_of a {C : Cpu} z enc v : no_step (vmwrite_of a z enc v).
Proof.
  destruct z; cbn [vmwrite_of]; rewrite ?vmwrite64_cases; try destruct (is64 a); repeat (apply no_step_bind; [auto with steps|]; intros ?); auto with steps.
Qed.

Section vmx.
Context {a : subarch} {D : Device} {C : Cpu} {supported writable : Z -> bool} {val : list ioev -> Z -> Z}.
Context `{HC : !VmcsCpu a C supported writable val}.
Context (qemu : bool) (caps : vmx_ctls_t).
(** The fields the processor has can be read, and written unless they are read-only. *)
Context (Hacc : forall f, f ∈ vmcs_fields -> f_exist f qemu caps = true ->
  accessible (a := a) supported f /\ (f_ro f = false -> accessible (a := a) writable f)).
Abbreviation fval := (field_val (a := a) (val := val)).

(** In world [w] the VMCS is that of [w0] with the values of the image [l], the memory is [m], and no step was made since [w0]. *)
Record vmcs_is (w0 : world) (l : image) (m : mem) (w : world) : Prop := {
  is_mem : w_mem w = m;
  is_val f : f ∈ vmcs_fields -> fval (w_tr w) f = default (fval (w_tr w0) f) (get l (f_name f));
  is_steps : steps (w_tr w) = steps (w_tr w0) }.

Lemma vmcs_is_start w : vmcs_is w [] (w_mem w) w.
Proof. by constructor. Qed.

Lemma field_val_quiet tr e f : quiet e = true -> fval (e :: tr) f = fval tr f.
Proof. intros Hq. unfold field_val. by rewrite !vc_val_quiet. Qed.

Lemma vmcs_is_quiet w0 l m w e : vmcs_is w0 l m w -> still e = true -> vmcs_is w0 l m (mkW (w_mem w) (e :: w_tr w)).
Proof.
  intros [Hm Hv Hs] [Hq He]%andb_prop. constructor; [done| |].
  - intros f Hf. cbn [w_tr]. rewrite field_val_quiet by done. by apply Hv.
  - cbn [w_tr steps List.filter]. apply negb_true_iff in He. by rewrite He.
Qed.

Lemma vmcs_is_printing w0 l m w tr : vmcs_is w0 l m w -> Forall (fun e => printing e = true) tr -> vmcs_is w0 l m (mkW (w_mem w) (tr ++ w_tr w)).
Proof.
  intros H. induction 1 as [|e tr He _ IH]; [by destruct w|]. apply (vmcs_is_quiet _ _ _ _ e) in IH; [done|by destruct e].
Qed.

Lemma vmcs_is_mem w0 l m m' w : vmcs_is w0 l m w -> vmcs_is w0 l m' (mkW m' (w_tr w)).
Proof. intros [Hm Hv Hs]. by constructor. Qed.

(** A write changes the entry of its field. *)
Lemma wp_write z n f v w0 l m w (Q : unit -> world -> Prop) :
  find_field vmcs_fields n = Some f -> f_size f = z -> f_ro f = false -> f_exist f qemu caps = true ->
  vmcs_is w0 l m w -> (forall w', vmcs_is w0 (l ++ [(n, wrap (field_bits (a := a) f) v)]) m w' -> Q tt w') ->
  wp (vmwrite_of a z (VMCS_ n) v) Q w.
Proof.
  intros (Hin & <- & He)%find_field_ok <- Hro Hex [Hm Hv Hs] HQ. unfold VMCS_. rewrite He.
  destruct (vmwrite_ok (HC := HC) f v w (field_in_wf f Hin)) as (w' & E & [Hm' Hv' Ho]); [by apply Hacc|].
  apply (wp_intro _ _ _ _ _ E), HQ. constructor; [congruence| |by rewrite (no_step_vmwrite_of _ _ _ _ _ _ _ E)]. intros h Hh. rewrite get_snoc.
  destruct (String.eqb_spec (f_name f) (f_name h)) as [En|En].
  - apply field_name_inj in En as <-; done.
  - rewrite Ho; [by apply Hv|by apply field_in_wf|]. intros Ee. apply field_enc_inj in Ee as ->; done.
Qed.

Lemma wp_read z n f x w0 l m w (Q : Z -> world -> Prop) :
  find_field vmcs_fields n = Some f -> f_size f = z -> f_exist f qemu caps = true ->
  vmcs_is w0 l m w -> get l n = Some x -> (forall w', vmcs_is w0 l m w' -> Q x w') ->
  wp (vmread_of a z (VMCS_ n)) Q w.
Proof.
  intros (Hin & <- & He)%find_field_ok <- Hex [Hm Hv Hs] Hx HQ. unfold VMCS_. rewrite He.
  destruct (vmread_ok (HC := HC) f w (field_in_wf f Hin)) as (w' & E & [Hm' Hv']); [by apply Hacc|].
  apply (wp_intro _ _ _ _ _ E). rewrite Hv, Hx by done. apply HQ. constructor; [congruence| |by rewrite (no_step_vmread_of _ _ _ _ _ _ E)]. intros h Hh.
  rewrite <- Hv by done. unfold field_val. by rewrite !Hv'.
Qed.

Lemma wp_read_reg r w0 l m w (Q : Z -> world -> Prop) :
  vmcs_is w0 l m w -> (forall w', vmcs_is w0 l m w' -> Q (wrap (sysreg_bits a r) (cpu_reg (w_tr w) r)) w') -> wp (read_reg a r) Q w.
Proof. intros H HQ. apply HQ, (vmcs_is_quiet _ _ _ _ (EGetReg _ _)); done. Qed.

Lemma wp_rdmsr x w0 l m w (Q : Z -> world -> Prop) :
  vmcs_is w0 l m w -> (forall w', vmcs_is w0 l m w' -> Q (u64 (dev_rdmsr (w_tr w) x)) w') -> wp (rdmsr64 x) Q w.
Proof. intros H HQ. apply HQ, (vmcs_is_quiet _ _ _ _ (ERdmsr _ _)); done. Qed.

(** ** The blocks of [shv_vmx_vmcs_init] *)

Context (g : opts) (s : vmx_syms) (es : ept_syms) (ds : desc_syms) (reg : sysreg -> Z) (msr : Z -> Z).
(** The registers after the steps [ss]. *)
Context (ss : list ioev) (Hreg : forall tr r, steps tr = ss -> cpu_reg tr r = reg r) (Hmsr : forall tr x, dev_rdmsr tr x = msr x).
Abbreviation ul := (wrap (ptr_bits a)).

Lemma wp_w16 n f v w0 l m w (Q : unit -> world -> Prop) :
  vmcs_is w0 l m w -> find_field vmcs_fields n = Some f -> f_size f = F16 -> f_ro f = false -> f_exist f qemu caps = true ->
  (forall w', vmcs_is w0 (l ++ [(n, u16 v)]) m w' -> Q tt w') -> wp (w16 a n v) Q w.
Proof.
  intros H Hf Hz Hro He HQ. apply (wp_write F16 n f v w0 l m w Q Hf Hz Hro He H). unfold field_bits. rewrite Hz. exact HQ.
Qed.
Lemma wp_w32 n f v w0 l m w (Q : unit -> world -> Prop) :
  vmcs_is w0 l m w -> find_field vmcs_fields n = Some f -> f_size f = F32 -> f_ro f = false -> f_exist f qemu caps = true ->
  (forall w', vmcs_is w0 (l ++ [(n, u32 v)]) m w' -> Q tt w') -> wp (w32 a n v) Q w.
Proof.
  intros H Hf Hz Hro He HQ. apply (wp_write F32 n f v w0 l m w Q Hf Hz Hro He H). unfold field_bits. rewrite Hz. exact HQ.
Qed.
Lemma wp_w64 n f v w0 l m w (Q : unit -> world -> Prop) :
  vmcs_is w0 l m w -> find_field vmcs_fields n = Some f -> f_size f = F64 -> f_ro f = false -> f_exist f qemu caps = true ->
  (forall w', vmcs_is w0 (l ++ [(n, u64 v)]) m w' -> Q tt w') -> wp (w64 a n v) Q w.
Proof.
  intros H Hf Hz Hro He HQ. apply (wp_write F64 n f v w0 l m w Q Hf Hz Hro He H). unfold field_bits. rewrite Hz. exact HQ.
Qed.
Lemma wp_wNW n f v w0 l m w (Q : unit -> world -> Prop) :
  vmcs_is w0 l m w -> find_field vmcs_fields n = Some f -> f_size f = FNW -> f_ro f = false -> f_exist f qemu caps = true ->
  (forall w', vmcs_is w0 (l ++ [(n, ul v)]) m w' -> Q tt w') -> wp (wNW a n v) Q w.
Proof.
  intros H Hf Hz Hro He HQ. apply (wp_write FNW n f v w0 l m w Q Hf Hz Hro He H). unfold field_bits. rewrite Hz. exact HQ.
Qed.

(** The registers of the machine. *)
Definition creg (r : sysreg) : Z := wrap (sysreg_bits a r) (reg r).
Definition m64 (x : Z) : Z := u64 (msr x).

Lemma wp_creg r w0 l m w (Q : Z -> world -> Prop) : steps (w_tr w0) = ss ->
  vmcs_is w0 l m w -> (forall w', vmcs_is w0 l m w' -> Q (creg r) w') -> wp (read_reg a r) Q w.
Proof. intros Hs H HQ. eapply wp_read_reg; [exact H|]. rewrite Hreg by (by rewrite (is_steps _ _ _ _ H)). exact HQ. Qed.
Lemma wp_m64 x w0 l m w (Q : Z -> world -> Prop) :
  vmcs_is w0 l m w -> (forall w', vmcs_is w0 l m w' -> Q (m64 x) w') -> wp (rdmsr64 x) Q w.
Proof. intros H HQ. eapply wp_rdmsr; [exact H|]. rewrite Hmsr. exact HQ. Qed.
Lemma ul_creg r : match r with RCR0 | RCR3 | RCR4 => ul (creg r) = creg r | _ => u16 (creg r) = creg r end.
Proof. pose proof (enc_bits_le (a := a) 0). destruct r; apply wrap_wrap; cbn [sysreg_bits]; lia. Qed.

Ltac exists_ok := first [reflexivity | assumption].
(** One step of a block: a read of a register, or a write of a field. *)
Ltac vwrite L := eapply L; [eassumption|reflexivity|reflexivity|reflexivity|exists_ok|].
Ltac vstep :=
  lazymatch goal with
  | |- wp (w16 _ _ _) _ _ => vwrite wp_w16
  | |- wp (w32 _ _ _) _ _ => vwrite wp_w32
  | |- wp (w64 _ _ _) _ _ => vwrite wp_w64
  | |- wp (wNW _ _ _) _ _ => vwrite wp_wNW
  | |- wp (read_reg _ _) _ _ => eapply wp_creg; [eassumption|eassumption|]
  | |- wp (rdmsr64 _) _ _ => eapply wp_m64; [eassumption|]
  end;
  match goal with H : vmcs_is _ _ _ _ |- _ => clear H end; intros ? ?.
Ltac vsteps := repeat (lazymatch goal with |- wp (_ ≫= _) _ _ => apply wp_bind; vstep | |- wp _ _ _ => vstep end).


Lemma ul_idem x : ul (ul x) = ul x.
Proof. apply wrap_wrap. pose proof (enc_bits_le (a := a) 0). lia. Qed.

(** The values written, block by block. *)
Definition host_image (v : VCPU) : image :=
  [("host_CR0", creg RCR0); ("host_CR4", creg RCR4); ("host_CR3", creg RCR3);
   ("host_CS_selector", creg RCS); ("host_DS_selector", creg RDS); ("host_ES_selector", creg RES); ("host_FS_selector", creg RFS);
   ("host_GS_selector", creg RGS); ("host_SS_selector", creg RSS); ("host_TR_selector", creg RTR);
   ("host_GDTR_base", ul (gdt_at ds (vcpu_idx v) 0)); ("host_IDTR_base", ul (g_idt_host ds));
   ("host_TR_base", ul (tss_at ds (vcpu_idx v))); ("host_RIP", ul (s_vmexit_asm s))].
Definition stack_top (v : VCPU) : Z := ul (vcpu_sp v - sizeof_hva a).
Definition sysenter_image : image :=
  [("host_SYSENTER_CS", u32 (m64 IA32_SYSENTER_CS_MSR)); ("host_SYSENTER_ESP", ul (m64 IA32_SYSENTER_ESP_MSR));
   ("host_SYSENTER_EIP", ul (m64 IA32_SYSENTER_EIP_MSR)); ("host_FS_base", ul (m64 IA32_MSR_FS_BASE));
   ("host_GS_base", ul (m64 IA32_MSR_GS_BASE))].
Definition ctls_image (v : VCPU) : image :=
  [("control_VMX_pin_based", u32 (vmx_msr v INDEX_PINBASED_CTLS)); ("control_VMX_cpu_based", u32 (proc_ctls v));
   ("control_VM_exit_controls", u32 (exit_ctls_ a v)); ("control_VM_entry_controls", u32 (entry_ctls_ a v));
   ("control_VMX_seccpu_based", u32 (vmx_msr v INDEX_PROCBASED_CTLS2))].

Ltac vfinish := match goal with H : vmcs_is _ _ _ _ |- _ => rewrite <- ?app_assoc in H; cbn [app] in H; rewrite ?ul_idem, ?(ul_creg RCR0), ?(ul_creg RCR3), ?(ul_creg RCR4), ?(ul_creg RCS), ?(ul_creg RDS), ?(ul_creg RES), ?(ul_creg RFS), ?(ul_creg RGS), ?(ul_creg RSS), ?(ul_creg RTR) in H; exact H end.

Lemma init_host_ok v w0 l m w : steps (w_tr w0) = ss -> vmcs_is w0 l m w -> wp (vmcs_init_host a s ds v) (fun _ w' => vmcs_is w0 (l ++ host_image v) m w') w.
Proof. intros Hss H. unfold vmcs_init_host. vsteps.  vfinish. Qed.

Lemma init_stack_ok v w0 l m w : vmcs_is w0 l m w ->
  wp (vmcs_init_stack a v) (fun v' w' => v' = with_sp (stack_top v) v /\
    vmcs_is w0 (l ++ [("host_RSP", stack_top v)]) (st (Z.to_nat (sizeof_hva a)) m (stack_top v) (vcpu_addr v)) w') w.
Proof.
  intros [Hm Hv Hs]. unfold vmcs_init_stack. apply wp_bind. unfold store at 1. cbn. fold (stack_top v). rewrite Hm.
  apply wp_bind. eapply wp_wNW; [by apply (vmcs_is_mem w0 l m _ w)|reflexivity..|].
  intros w' H. apply wp_ret. split; [done|]. unfold stack_top, ulong in *. rewrite ul_idem in H. exact H.
Qed.

Lemma init_sysenter_ok w0 l m w : vmcs_is w0 l m w -> wp (vmcs_init_sysenter a) (fun _ w' => vmcs_is w0 (l ++ sysenter_image) m w') w.
Proof. intros H. unfold vmcs_init_sysenter. vsteps. vfinish. Qed.

(** The processor has secondary controls. *)
Context (Hsec : _vmx_hasctl activate_secondary_controls caps = true).

Lemma init_ctls_ok v w0 l m w : vmcs_is w0 l m w -> wp (vmcs_init_ctls a v) (fun _ w' => vmcs_is w0 (l ++ ctls_image v) m w') w.
Proof. intros H. unfold vmcs_init_ctls. vsteps. vfinish. Qed.

Definition with_areas (v : VCPU) : VCPU :=
  if opt_set g SHV_USE_MSR_LOAD then
    with_msr_areas (msr_area_at (s_exit_store s) (vcpu_idx v) 0) (msr_area_at (s_exit_load s) (vcpu_idx v) 0)
      (msr_area_at (s_entry_load s) (vcpu_idx v) 0) v
  else v.
Definition areas_image (v : VCPU) : image :=
  if opt_set g SHV_USE_MSR_LOAD then
    [("control_VM_exit_MSR_store_address", ul (msr_area_at (s_exit_store s) (vcpu_idx v) 0));
     ("control_VM_exit_MSR_load_address", ul (msr_area_at (s_exit_load s) (vcpu_idx v) 0));
     ("control_VM_entry_MSR_load_address", ul (msr_area_at (s_entry_load s) (vcpu_idx v) 0))]
  else [].
Definition counts_image : image :=
  [("control_VM_exit_MSR_load_count", 0); ("control_VM_entry_MSR_load_count", 0); ("control_VM_exit_MSR_store_count", 0)].

Lemma u64_hva x : u64 (hva2spa a x) = ul x.
Proof.
  unfold hva2spa. pose proof (ptr_bits_is64 a). assert (is_u 64 (ul x)) as H1.
  { apply (is_u_le (ptr_bits a)); [destruct (is64 a); lia|]. apply is_u_wrap. destruct (is64 a); lia. }
  unfold u64. by rewrite (wrap_small 64 (wrap 64 _)), (wrap_small 64) by (done || by apply is_u_wrap).
Qed.

Lemma init_msrs_ok v w0 l m w : vmcs_is w0 l m w ->
  wp (vmcs_init_msrs a g s v) (fun v' w' => v' = with_areas v /\ vmcs_is w0 (l ++ areas_image v ++ counts_image) m w') w.
Proof.
  intros H. unfold vmcs_init_msrs, with_areas, areas_image. apply wp_bind. destruct (opt_set g SHV_USE_MSR_LOAD).
  - cbv zeta. vsteps. apply wp_bind. eapply (printf_ok a _ [ANum 32]); [by vm_compute|by repeat constructor|]. intros n tr Htr.
    apply wp_ret. match goal with H : vmcs_is _ _ _ _ |- _ => apply (vmcs_is_printing _ _ _ _ tr) in H; [|done]; revert H end.
    rewrite !u64_hva. cbn [vcpu_msrstore vcpu_exit_msrload vcpu_entry_msrload with_msr_areas].
    set (w1 := mkW _ _). clearbody w1. intros H1. vsteps. apply wp_ret. split; [done|]. vfinish.
  - apply wp_ret. vsteps. apply wp_ret. split; [done|]. vfinish.
Qed.

(** A secondary control is added to those set before. *)
Lemma add_seccpu_ok n x w0 l m w : vmcs_is w0 l m w -> get l "control_VMX_seccpu_based" = Some x ->
  wp (add_seccpu a n) (fun _ w' => vmcs_is w0 (l ++ [("control_VMX_seccpu_based", u32 (set_bit x n))]) m w') w.
Proof.
  intros H Hx. unfold add_seccpu. apply wp_bind.
  eapply (wp_read F32); [reflexivity|reflexivity|exists_ok|exact H|exact Hx|]. clear w H. intros w H. vsteps. assumption.
Qed.

Definition seccpu0 (v : VCPU) : Z := u32 (vmx_msr v INDEX_PROCBASED_CTLS2).
Definition seccpu_ept (v : VCPU) : Z := if opt_set g SHV_USE_EPT then u32 (set_bit (seccpu0 v) (ctl_bit enable_ept)) else seccpu0 v.
Definition seccpu_vpid (v : VCPU) : Z :=
  if opt_set g SHV_USE_VPID then u32 (set_bit (seccpu_ept v) (ctl_bit enable_vpid)) else seccpu_ept v.
Definition seccpu_ug (v : VCPU) : Z :=
  if opt_set g SHV_USE_UNRESTRICTED_GUEST then u32 (set_bit (seccpu_vpid v) (ctl_bit unrestricted_guest)) else seccpu_vpid v.

Definition pdpte_image (m : mem) : image :=
  if is_pae a then
    [("guest_PDPTE0", ld 8 m (creg RCR3)); ("guest_PDPTE1", ld 8 m (creg RCR3 + 8));
     ("guest_PDPTE2", ld 8 m (creg RCR3 + 16)); ("guest_PDPTE3", ld 8 m (creg RCR3 + 24))]
  else [].
Definition ept_image (v : VCPU) (eptp : Z) (m : mem) : image :=
  if opt_set g SHV_USE_EPT then
    [("control_VMX_seccpu_based", seccpu_ept v); ("control_EPT_pointer", u64 (Z.lor eptp 0x1e))] ++ pdpte_image m
  else [].
Definition with_ept_of (v : VCPU) (e : ept_vcpu) : VCPU := if opt_set g SHV_USE_EPT then with_ept e v else v.
Definition ept_mem (m m' : mem) : mem := if opt_set g SHV_USE_EPT then m' else m.

Lemma u64_ld8 m p : u64 (ld 8 m p) = ld 8 m p.
Proof. apply wrap_small, ld_range. Qed.

Ltac load_step Hload := apply wp_bind, Hload; [eapply is_mem; eassumption|].
Lemma load_pdptes_ok w0 l m w : steps (w_tr w0) = ss -> _vmx_hasctl enable_ept caps = true -> vmcs_is w0 l m w ->
  wp (load_pdptes a) (fun _ w' => vmcs_is w0 (l ++ pdpte_image m) m w') w.
Proof.
  intros Hss He H. rewrite load_pdptes_cases. unfold pdpte_image. destruct (is_pae a); [|apply wp_ret; by rewrite app_nil_r].
  assert (forall p w1 (Q : Z -> world -> Prop), w_mem w1 = m -> Q (ld 8 m p) w1 -> wp (load 8 p) Q w1) as Hload.
  { intros p w1 Q <- HQ. exact HQ. }
  apply wp_bind; vstep.
  do 3 (load_step Hload; apply wp_bind; vstep). load_step Hload. vstep. rewrite !u64_ld8 in *. vfinish.
Qed.

Lemma init_ept_ok v e eptp m' w0 l m w : steps (w_tr w0) = ss -> vmcs_is w0 l m w -> get l "control_VMX_seccpu_based" = Some (seccpu0 v) ->
  (opt_set g SHV_USE_EPT = true -> _vmx_hasctl enable_ept caps = true /\
     forall tr, shv_ept_init (fun leaf => (cpu_cpuid tr leaf 0).1.1.1) (dev_rdmsr tr) (vcpu_ept v) = Ok e /\
                shv_build_ept a es (fun t x => cpu_vmx tr Invept [t; x]) (g_shv_opt g) e 0 m = Ok (eptp, m')) ->
  wp (vmcs_init_ept a g es v) (fun v' w' => v' = with_ept_of v e /\ vmcs_is w0 (l ++ ept_image v eptp m') (ept_mem m m') w') w.
Proof.
  unfold vmcs_init_ept, with_ept_of, ept_image, ept_mem, seccpu_ept. intros Hss H Hx He.
  destruct (opt_set g SHV_USE_EPT); [|apply wp_ret; by rewrite app_nil_r].
  destruct He as [Hc He]; [done|]. destruct (He (w_tr w)) as [Ei Eb].
  apply wp_bind. apply (wp_intro _ _ _ (with_ept e v) w); [unfold ept_init; by rewrite Ei|].
  apply wp_bind. apply (wp_intro _ _ _ eptp (mkW m' (w_tr w))).
  { unfold build_ept. cbn [vcpu_ept with_ept]. by rewrite (is_mem _ _ _ _ H), Eb. }
  apply wp_bind. eapply wp_use; [apply (add_seccpu_ok (ctl_bit enable_ept) (seccpu0 v) w0 l m' _ (vmcs_is_mem w0 l m m' w H) Hx)|].
  intros [] w1 H1. clear H. vsteps. apply wp_bind. eapply wp_use; [eapply load_pdptes_ok; [done|done|eassumption]|].
  cbv beta. match goal with H : vmcs_is _ _ _ _ |- _ => clear H end. intros [] w2 H2. apply wp_ret. split; [done|]. vfinish.
Qed.

Definition vpid_image (v : VCPU) : image :=
  if opt_set g SHV_USE_VPID then [("control_VMX_seccpu_based", seccpu_vpid v); ("control_vpid", 1)] else [].
Definition ug_image (v : VCPU) : image :=
  if opt_set g SHV_USE_UNRESTRICTED_GUEST then [("control_VMX_seccpu_based", seccpu_ug v)] else [].

Lemma init_vpid_ok v w0 l m w : vmcs_is w0 l m w -> get l "control_VMX_seccpu_based" = Some (seccpu_ept v) ->
  (opt_set g SHV_USE_VPID = true -> _vmx_hasctl enable_vpid caps = true) ->
  wp (vmcs_init_vpid a g) (fun _ w' => vmcs_is w0 (l ++ vpid_image v) m w') w.
Proof.
  unfold vmcs_init_vpid, vpid_image, seccpu_vpid. intros H Hx Hc.
  destruct (opt_set g SHV_USE_VPID); [|apply wp_ret; by rewrite app_nil_r]. specialize (Hc eq_refl).
  apply wp_bind. eapply wp_use; [by apply (add_seccpu_ok _ _ w0 l m w H Hx)|]. clear w H. intros [] w H. vsteps. vfinish.
Qed.

Lemma init_unrestricted_ok v w0 l m w : vmcs_is w0 l m w -> get l "control_VMX_seccpu_based" = Some (seccpu_vpid v) ->
  (opt_set g SHV_USE_UNRESTRICTED_GUEST = true -> opt_set g SHV_USE_EPT = true) ->
  wp (vmcs_init_unrestricted a g) (fun _ w' => vmcs_is w0 (l ++ ug_image v) m w') w.
Proof.
  unfold vmcs_init_unrestricted, ug_image, seccpu_ug. intros H Hx Hc.
  destruct (opt_set g SHV_USE_UNRESTRICTED_GUEST); [|apply wp_ret; by rewrite app_nil_r].
  apply wp_bind, wp_assert; [by apply Hc|]. by apply add_seccpu_ok.
Qed.

Definition system_image (v : VCPU) : image :=
  [("control_pagefault_errorcode_mask", 0); ("control_pagefault_errorcode_match", 0); ("control_exception_bitmap", 0);
   ("control_CR3_target_count", 0); ("guest_CR0", ul (guest_cr0 a v)); ("guest_CR4", ul (guest_cr4 a v)); ("guest_CR3", creg RCR3);
   ("guest_IDTR_base", ul (g_idt_guest ds)); ("guest_IDTR_limit", 0xffff);
   ("guest_GDTR_base", ul (gdt_at ds (vcpu_idx v) 0)); ("guest_GDTR_limit", 0xffff);
   ("guest_LDTR_base", 0); ("guest_LDTR_limit", 0); ("guest_LDTR_selector", 0); ("guest_LDTR_access_rights", 0x10000);
   ("guest_TR_base", ul (tss_at ds (vcpu_idx v))); ("guest_TR_limit", 0x67); ("guest_TR_selector", __TRSEL);
   ("guest_TR_access_rights", 0x8b); ("guest_DR7", 0x400)].

Lemma ul_small x : 0 <= x < 2 ^ 32 -> ul x = x.
Proof. intros H. apply wrap_small, (is_u_le 32); [pose proof (ptr_bits_is64 a); destruct (is64 a); lia|done]. Qed.

Lemma init_system_ok v w0 l m w : steps (w_tr w0) = ss -> vmcs_is w0 l m w -> wp (vmcs_init_system a ds v) (fun _ w' => vmcs_is w0 (l ++ system_image v) m w') w.
Proof. intros Hss H. unfold vmcs_init_system. vsteps. rewrite !(ul_small 0), !(ul_small 0x400) in * by lia. vfinish. Qed.

Definition segment_image (r : string) : image :=
  [("guest_" ++ r ++ "_selector", __DS); ("guest_" ++ r ++ "_base", 0); ("guest_" ++ r ++ "_limit", 0xffffffff);
   ("guest_" ++ r ++ "_access_rights", 0xc093)].
Definition cs_rights : Z := if is64 a then 0xa09b else 0xc09b.
Definition entry_image (v : VCPU) : image :=
  ([("guest_RSP", ul (guest_stack_at s (vcpu_idx v) 0 + 4096)); ("guest_CS_selector", __CS a); ("guest_CS_base", 0);
    ("guest_RIP", ul (s_guest_entry s)); ("guest_RFLAGS", 2); ("guest_CS_limit", 0xffffffff);
    ("guest_CS_access_rights", cs_rights)] ++
   segment_image "DS" ++ segment_image "ES" ++ segment_image "FS" ++ segment_image "GS" ++ segment_image "SS")%list.

Lemma data_segment_ok r w0 l m w : r = "DS" \/ r = "ES" \/ r = "FS" \/ r = "GS" \/ r = "SS" ->
  vmcs_is w0 l m w -> wp (data_segment a r) (fun _ w' => vmcs_is w0 (l ++ segment_image r) m w') w.
Proof.
  intros Hr H. unfold data_segment.
  destruct Hr as [->|[->|[->|[->| ->]]]]; cbn [String.append]; vsteps; rewrite !(ul_small 0) in * by lia; vfinish.
Qed.

Ltac next_segment := apply wp_bind; eapply wp_use; [apply data_segment_ok; [tauto|eassumption]|];
  match goal with H : vmcs_is _ _ _ _ |- _ => clear H end; intros [] ? ?.
Lemma init_entry_ok v w0 l m w : vmcs_is w0 l m w ->
  wp (vmcs_init_entry a s v) (fun v' w' => v' = with_my_stack (guest_stack_at s (vcpu_idx v) 0 + 4096) v /\ vmcs_is w0 (l ++ entry_image v) m w') w.
Proof.
  intros H. unfold vmcs_init_entry. cbv zeta. rewrite by_arch. fold cs_rights. vsteps.
  assert (u32 cs_rights = cs_rights) as Ec by (unfold cs_rights; by destruct (is64 a)).
  next_segment. next_segment. next_segment. next_segment. next_segment. apply wp_ret. split; [done|].
  rewrite Ec, cs_u16, !(ul_small 0), !(ul_small 2) in * by lia. unfold entry_image. cbn [vcpu_my_stack with_my_stack] in *.
  rewrite <- ?app_assoc in *. cbn [app] in *. assumption.
Qed.

Definition masks_image (v : VCPU) : image :=
  [("guest_VMCS_link_pointer", 2 ^ 64 - 1); ("control_CR0_mask", ul (cr0_mask a v)); ("control_CR0_shadow", CR0_ET);
   ("control_CR4_mask", ul (vmx_msr v INDEX_CR4_FIXED0)); ("control_CR0_shadow", 0)].
Lemma init_masks_ok v w0 l m w : vmcs_is w0 l m w -> wp (vmcs_init_masks a v) (fun _ w' => vmcs_is w0 (l ++ masks_image v) m w') w.
Proof.
  intros H. unfold vmcs_init_masks. vsteps. rewrite !(ul_small 0), !(ul_small CR0_ET) in * by (unfold CR0_ET; lia). vfinish.
Qed.

(** ** The whole function *)

Definition final_vcpu (v : VCPU) (e : ept_vcpu) : VCPU :=
  with_my_stack (guest_stack_at s (vcpu_idx v) 0 + 4096) (with_ept_of (with_areas (with_sp (stack_top v) v)) e).
Definition stack_mem (v : VCPU) (m : mem) : mem := st (Z.to_nat (sizeof_hva a)) m (stack_top v) (vcpu_addr v).
Definition vmcs_image (v : VCPU) (eptp : Z) (m : mem) : image :=
  (host_image v ++ [("host_RSP", stack_top v)] ++ sysenter_image ++ ctls_image v ++ areas_image v ++ counts_image ++
   ept_image v eptp m ++ vpid_image v ++ ug_image v ++ system_image v ++ entry_image v ++ masks_image v)%list.

(** The options ask for nothing the processor does not have, and the EPT can be built. *)
Definition options_ok (v : VCPU) (e : ept_vcpu) (eptp : Z) (m m' : mem) : Prop :=
  (opt_set g SHV_USE_EPT = true -> _vmx_hasctl enable_ept caps = true /\
     forall tr, shv_ept_init (fun leaf => (cpu_cpuid tr leaf 0).1.1.1) (dev_rdmsr tr) (vcpu_ept v) = Ok e /\
                shv_build_ept a es (fun t x => cpu_vmx tr Invept [t; x]) (g_shv_opt g) e 0 m = Ok (eptp, m')) /\
  (opt_set g SHV_USE_VPID = true -> _vmx_hasctl enable_vpid caps = true) /\
  (opt_set g SHV_USE_UNRESTRICTED_GUEST = true -> opt_set g SHV_USE_EPT = true).

(** The fields of the [VCPU] the images use. *)
Lemma with_areas_same v : vcpu_idx (with_areas v) = vcpu_idx v /\ vcpu_vmx_msrs (with_areas v) = vcpu_vmx_msrs v /\ vcpu_ept (with_areas v) = vcpu_ept v.
Proof. unfold with_areas. by destruct (opt_set g _). Qed.
Lemma with_ept_same v e : vcpu_idx (with_ept_of v e) = vcpu_idx v /\ vcpu_vmx_msrs (with_ept_of v e) = vcpu_vmx_msrs v.
Proof. unfold with_ept_of. by destruct (opt_set g _). Qed.

Lemma seccpu_in_image v l : get (l ++ ctls_image v ++ areas_image v ++ counts_image) "control_VMX_seccpu_based" = Some (seccpu0 v).
Proof. unfold areas_image. rewrite !get_app. by destruct (opt_set g SHV_USE_MSR_LOAD). Qed.
Lemma seccpu_in_ept v eptp m l : get l "control_VMX_seccpu_based" = Some (seccpu0 v) ->
  get (l ++ ept_image v eptp m) "control_VMX_seccpu_based" = Some (seccpu_ept v).
Proof.
  unfold ept_image, seccpu_ept, pdpte_image. rewrite get_app. intros ->. destruct (opt_set g SHV_USE_EPT); [|done].
  by destruct (is_pae a).
Qed.
Lemma seccpu_in_vpid v l : get l "control_VMX_seccpu_based" = Some (seccpu_ept v) ->
  get (l ++ vpid_image v) "control_VMX_seccpu_based" = Some (seccpu_vpid v).
Proof. unfold vpid_image, seccpu_vpid. rewrite get_app. intros ->. by destruct (opt_set g SHV_USE_VPID). Qed.

Lemma same_image v v' : vcpu_idx v' = vcpu_idx v -> vcpu_vmx_msrs v' = vcpu_vmx_msrs v ->
  (forall eptp m, ept_image v' eptp m = ept_image v eptp m) /\ vpid_image v' = vpid_image v /\ ug_image v' = ug_image v /\
  system_image v' = system_image v /\ entry_image v' = entry_image v /\ masks_image v' = masks_image v /\ ctls_image v' = ctls_image v /\
  areas_image v' = areas_image v.
Proof.
  intros Ei Em. assert (vmx_msr v' = vmx_msr v) as Ex by (unfold vmx_msr; by rewrite Em).
  unfold ept_image, vpid_image, ug_image, system_image, entry_image, masks_image, ctls_image, areas_image, seccpu_ug, seccpu_vpid, seccpu_ept, seccpu0,
    guest_cr0, guest_cr4, cr0_mask, proc_ctls, exit_ctls_, entry_ctls_. by rewrite Ei, Ex.
Qed.

Ltac next_block L := apply wp_bind; eapply wp_use; [apply L; eassumption|]; match goal with H : vmcs_is _ _ _ _ |- _ => clear H end.
Lemma vmcs_init_run v e eptp m' w : steps (w_tr w) = ss -> options_ok v e eptp (stack_mem v (w_mem w)) m' ->
  wp (shv_vmx_vmcs_init a g s es ds v)
    (fun v' w' => v' = final_vcpu v e /\ vmcs_is w (vmcs_image v eptp m') (ept_mem (stack_mem v (w_mem w)) m') w') w.
Proof.
  intros Hss (He & Hv & Hu). unfold shv_vmx_vmcs_init, final_vcpu. pose proof (vmcs_is_start w) as H.
  set (v1 := with_sp (stack_top v) v). set (v2 := with_areas v1). set (v3 := with_ept_of v2 e).
  destruct (with_areas_same v1) as (Ei2 & Em2 & Ee2). destruct (with_ept_same v2 e) as [Ei3 Em3]. fold v2 in Ei2, Em2, Ee2. fold v3 in Ei3, Em3.
  destruct (same_image v v1 eq_refl eq_refl) as (_ & _ & _ & _ & _ & _ & C1 & A1).
  destruct (same_image v v2 Ei2 Em2) as (E2 & _).
  destruct (same_image v v3 ltac:(by rewrite Ei3) ltac:(by rewrite Em3)) as (_ & V3 & U3 & S3 & N3 & _).
  destruct (same_image v (with_my_stack (guest_stack_at s (vcpu_idx v3) 0 + 4096) v3) ltac:(cbn; by rewrite Ei3) ltac:(cbn; by rewrite Em3)) as (_ & _ & _ & _ & _ & M4 & _).
  next_block init_host_ok. intros [] w1 H1.
  next_block init_stack_ok. intros v' w2 [-> H2]. fold v1. fold (stack_mem v (w_mem w)) in H2.
  next_block init_sysenter_ok. intros [] w3 H3.
  next_block init_ctls_ok. rewrite C1. intros [] w4 H4.
  next_block init_msrs_ok. rewrite A1. intros v' w5 [-> H5]. fold v2.
  rewrite <- (app_assoc _ (ctls_image v)) in H5.
  apply wp_bind. eapply wp_use; [apply (init_ept_ok v2 e eptp m' _ _ _ _ Hss H5)|].
  { rewrite seccpu_in_image. unfold seccpu0, vmx_msr. by rewrite Em2. }
  { rewrite Ee2. exact He. }
  rewrite E2. clear H5. intros v' w6 [-> H6]. fold v3.
  apply wp_bind. eapply wp_use; [apply (init_vpid_ok v _ _ _ _ H6); [apply seccpu_in_ept, seccpu_in_image|exact Hv]|].
  clear H6. intros [] w7 H7.
  apply wp_bind. eapply wp_use; [apply (init_unrestricted_ok v _ _ _ _ H7); [apply seccpu_in_vpid, seccpu_in_ept, seccpu_in_image|exact Hu]|].
  clear H7. intros [] w8 H8.
  next_block init_system_ok. rewrite S3. intros [] w9 H9.
  next_block init_entry_ok. rewrite N3. intros v' w10 [-> H10].
  next_block init_masks_ok. rewrite M4. intros [] w11 H11. apply wp_ret. rewrite Ei3, Ei2. split; [done|].
  unfold vmcs_image. rewrite <- !app_assoc in H11. exact H11.
Qed.
End vmx.

(** ** The machine *)

(** A processor whose registers depend only on the steps made, and whose MSRs stay, with secondary controls, on which the fields
    that exist can be accessed. *)
Record machine (a : subarch) (D : Device) (C : Cpu) (supported writable : Z -> bool) (val : list ioev -> Z -> Z)
    (qemu : bool) (caps : vmx_ctls_t) (reg : list ioev -> sysreg -> Z) (msr : Z -> Z) : Prop := {
  mc_vmcs : VmcsCpu a C supported writable val;
  mc_access f : f ∈ vmcs_fields -> f_exist f qemu caps = true ->
    accessible (a := a) supported f /\ (f_ro f = false -> accessible (a := a) writable f);
  mc_reg tr r : cpu_reg tr r = reg (steps tr) r;
  mc_msr tr x : dev_rdmsr tr x = msr x;
  mc_secondary : _vmx_hasctl activate_secondary_controls caps = true }.

Section machine.
Context {a : subarch} {D : Device} {C : Cpu} {supported writable : Z -> bool} {val : list ioev -> Z -> Z}.
Context {qemu : bool} {caps : vmx_ctls_t} {reg : list ioev -> sysreg -> Z} {msr : Z -> Z}.
Context (M : machine a D C supported writable val qemu caps reg msr).
Context (g : opts) (s : vmx_syms) (es : ept_syms) (ds : desc_syms).

(** The value of a field by its name. *)
Definition field_named (tr : list ioev) (n : string) : Z :=
  match find_field vmcs_fields n with Some f => field_val (a := a) (val := val) tr f | None => 0 end.

Lemma vmcs_init_machine v e eptp m' w :
  options_ok caps g es (a := a) v e eptp (stack_mem (a := a) v (w_mem w)) m' ->
  exists w', shv_vmx_vmcs_init a g s es ds v w = Ok (final_vcpu g s (a := a) v e, w') /\
    vmcs_is (a := a) (val := val) w (vmcs_image g s ds (reg (steps (w_tr w))) msr (a := a) v eptp m') (ept_mem g (stack_mem (a := a) v (w_mem w)) m') w'.
Proof.
  intros Ho. destruct M as [HC Hacc Hreg Hmsr Hsec].
  assert (forall tr r, steps tr = steps (w_tr w) -> cpu_reg tr r = reg (steps (w_tr w)) r) as Hreg' by (intros tr r <-; apply Hreg).
  destruct (wp_elim _ _ _ (vmcs_init_run (HC := HC) qemu caps Hacc g s es ds (reg (steps (w_tr w))) msr (steps (w_tr w)) Hreg' Hmsr Hsec v e eptp m' w eq_refl Ho)) as (v' & w' & E & -> & H).
  by exists w'.
Qed.

Lemma is_named w0 l m w n : vmcs_is (a := a) (val := val) w0 l m w -> is_Some (find_field vmcs_fields n) ->
  field_named (w_tr w) n = default (field_named (w_tr w0) n) (get l n).
Proof.
  intros [_ Hv _] [f Hf]. unfold field_named. rewrite Hf. destruct (find_field_ok _ _ _ Hf) as (Hin & <- & _). by apply Hv.
Qed.

(** Looks a name up in the image of the function. *)
Ltac image_case :=
  unfold vmcs_image, areas_image, ept_image, pdpte_image, vpid_image, ug_image, seccpu_ug, seccpu_vpid, seccpu_ept;
  destruct (opt_set g SHV_USE_MSR_LOAD), (opt_set g SHV_USE_EPT), (is_pae a), (opt_set g SHV_USE_VPID), (opt_set g SHV_USE_UNRESTRICTED_GUEST);
  reflexivity.

Lemma image_get (reg0 : sysreg -> Z) v eptp m :
  let get := get (vmcs_image g s ds reg0 msr (a := a) v eptp m) in
  get "host_RIP" = Some (wrap (ptr_bits a) (s_vmexit_asm s)) /\ get "host_RSP" = Some (stack_top (a := a) v) /\
  get "host_CR3" = Some (creg (a := a) reg0 RCR3) /\ get "guest_RIP" = Some (wrap (ptr_bits a) (s_guest_entry s)) /\
  get "guest_CR0" = Some (wrap (ptr_bits a) (guest_cr0 a v)) /\ get "guest_CR4" = Some (wrap (ptr_bits a) (guest_cr4 a v)) /\
  get "control_VMX_cpu_based" = Some (u32 (proc_ctls v)) /\ get "control_VMX_seccpu_based" = Some (seccpu_ug g v) /\
  get "control_CR0_shadow" = Some 0 /\ get "control_CR4_mask" = Some (wrap (ptr_bits a) (vmx_msr v INDEX_CR4_FIXED0)) /\
  get "control_CR4_shadow" = None.
Proof.
  cbv zeta. split_and!; image_case.
Qed.
Lemma image_host_cr4 (reg0 : sysreg -> Z) v eptp m :
  get (vmcs_image g s ds reg0 msr (a := a) v eptp m) "host_CR4" = Some (creg (a := a) reg0 RCR4).
Proof. image_case. Qed.
End machine.

(** ** What the setup establishes *)

(** C2: On a processor that has the features the options ask for, [shv_vmx_vmcs_init] succeeds: the VMCS holds exactly
    the values of [vmcs_image], every field the function does not name keeps its value, and memory changes only by the
    word pushed on the host stack and by building the EPT. *)
Theorem vmcs_init_contents a D C supported writable val qemu caps reg msr
    (M : machine a D C supported writable val qemu caps reg msr) g s es ds v e eptp m' w :
  options_ok caps g es (a := a) v e eptp (stack_mem (a := a) v (w_mem w)) m' ->
  exists w', shv_vmx_vmcs_init a g s es ds v w = Ok (final_vcpu g s (a := a) v e, w') /\
    w_mem w' = ept_mem g (stack_mem (a := a) v (w_mem w)) m' /\
    forall f, f ∈ vmcs_fields ->
      field_val (a := a) (val := val) (w_tr w') f =
      default (field_val (a := a) (val := val) (w_tr w) f) (get (vmcs_image g s ds (reg (steps (w_tr w))) msr (a := a) v eptp m') (f_name f)).
Proof.
  intros Ho. destruct (vmcs_init_machine M g s es ds v e eptp m' w Ho) as (w' & E & [Hm Hv _]). by exists w'.
Qed.

Lemma wrap_bit w x n : 0 <= n < w -> Z.testbit (wrap w x) n = Z.testbit x n.
Proof. intros H. rewrite wrap_testbit by lia. by rewrite (proj2 (Z.ltb_lt n w)) by lia. Qed.
Lemma set_bit_bit x n i : 0 <= n -> 0 <= i -> Z.testbit (set_bit x n) i = Z.testbit x i || (i =? n).
Proof. intros Hn Hi. unfold set_bit. rewrite Z.shiftl_1_l, Z.lor_spec, pow2_testbit by done. done. Qed.
Lemma clear_bit_bit x n i : 0 <= n -> 0 <= i < 32 -> Z.testbit (clear_bit x n) i = Z.testbit x i && negb (i =? n).
Proof.
  intros Hn Hi. unfold clear_bit. rewrite Z.shiftl_1_l, Z.land_spec, bnot_testbit, pow2_testbit by lia.
  rewrite (proj2 (Z.ltb_lt i 32)) by lia. by rewrite andb_true_l || by rewrite andb_true_r.
Qed.

(** C21: After the setup the control registers the guest starts with have every bit the processor requires, secondary
    controls are on and CR3 accesses do not exit, each secondary control an option asks for is on, and an exit arrives
    in [vmexit_asm] with the address of the [VCPU] on top of its stack. *)
Theorem vmcs_init_consistent a D C supported writable val qemu caps reg msr
    (M : machine a D C supported writable val qemu caps reg msr) g s es ds v e eptp m' w :
  options_ok caps g es (a := a) v e eptp (stack_mem (a := a) v (w_mem w)) m' ->
  (opt_set g SHV_USE_EPT = true -> forall b, in_range (stack_top (a := a) v) (sizeof_hva a) b -> rd8 m' b = rd8 (stack_mem (a := a) v (w_mem w)) b) ->
  exists v' w', shv_vmx_vmcs_init a g s es ds v w = Ok (v', w') /\
    let fld := field_named (a := a) (val := val) (w_tr w') in
    (forall i, 0 <= i < ptr_bits a -> Z.testbit (vmx_msr v INDEX_CR0_FIXED0) i = true -> Z.testbit (fld "guest_CR0") i = true) /\
    (forall i, 0 <= i < ptr_bits a -> Z.testbit (vmx_msr v INDEX_CR4_FIXED0) i = true -> Z.testbit (fld "guest_CR4") i = true) /\
    Z.testbit (fld "control_VMX_cpu_based") 31 = true /\ Z.testbit (fld "control_VMX_cpu_based") 15 = false /\
    Z.testbit (fld "control_VMX_cpu_based") 16 = false /\
    (opt_set g SHV_USE_EPT = true -> Z.testbit (fld "control_VMX_seccpu_based") 1 = true) /\
    (opt_set g SHV_USE_VPID = true -> Z.testbit (fld "control_VMX_seccpu_based") 5 = true) /\
    (opt_set g SHV_USE_UNRESTRICTED_GUEST = true -> Z.testbit (fld "control_VMX_seccpu_based") 7 = true) /\
    fld "host_RIP" = wrap (ptr_bits a) (s_vmexit_asm s) /\
    ld (Z.to_nat (sizeof_hva a)) (w_mem w') (fld "host_RSP") = wrap (ptr_bits a) (vcpu_addr v).
Proof.
  intros Ho Hst. destruct (vmcs_init_machine M g s es ds v e eptp m' w Ho) as (w' & E & H).
  exists (final_vcpu g s (a := a) v e), w'. split; [done|]. cbv zeta.
  destruct (image_get (a := a) (msr := msr) g s ds (reg (steps (w_tr w))) v eptp m') as (G1 & G2 & _ & _ & G3 & G4 & G5 & G6 & _).
  rewrite !(is_named _ _ _ _ _ H), G1, G2, G3, G4, G5, G6 by (eexists; reflexivity). cbn [default from_option Datatypes.id].
  assert (forall n, 0 <= n < 32 -> forall x, Z.testbit (u32 x) n = Z.testbit x n) as Hb by (intros n Hn x; by apply wrap_bit).
  split_and!.
  - intros i Hi Hx. unfold guest_cr0, ulong. by rewrite wrap_bit, Z.lor_spec, wrap_bit, Hx by done.
  - intros i Hi Hx. unfold guest_cr4, ulong. by rewrite wrap_bit, Z.lor_spec, wrap_bit, Hx by done.
  - unfold proc_ctls. rewrite Hb, !clear_bit_bit, set_bit_bit by (cbn; lia). cbn. by rewrite orb_true_r.
  - unfold proc_ctls. rewrite Hb, !clear_bit_bit by (cbn; lia). cbn. by rewrite andb_false_r.
  - unfold proc_ctls. rewrite Hb, !clear_bit_bit by (cbn; lia). cbn. by rewrite andb_false_r.
  - intros Ee. unfold seccpu_ug, seccpu_vpid, seccpu_ept. rewrite Ee.
    destruct (opt_set g SHV_USE_UNRESTRICTED_GUEST), (opt_set g SHV_USE_VPID); repeat (rewrite ?Hb, ?set_bit_bit by (cbn; lia));
      cbn; by rewrite ?orb_true_r.
  - intros Ev. unfold seccpu_ug, seccpu_vpid. rewrite Ev.
    destruct (opt_set g SHV_USE_UNRESTRICTED_GUEST); repeat (rewrite ?Hb, ?set_bit_bit by (cbn; lia)); cbn; by rewrite ?orb_true_r.
  - intros Eu. unfold seccpu_ug. rewrite Eu, Hb, set_bit_bit by (cbn; lia). cbn. by rewrite orb_true_r.
  - done.
  - rewrite (is_mem _ _ _ _ H). unfold ept_mem. pose proof (ptr_bits_is64 a) as Ep.
    assert (8 * Z.of_nat (Z.to_nat (sizeof_hva a)) = ptr_bits a) as En by (unfold sizeof_hva; rewrite Ep; by destruct (is64 a)).
    assert (ld (Z.to_nat (sizeof_hva a)) (stack_mem (a := a) v (w_mem w)) (stack_top (a := a) v) = wrap (ptr_bits a) (vcpu_addr v)) as El
      by (unfold stack_mem; by rewrite ld_st_gen, En).
    destruct (opt_set g SHV_USE_EPT); [|exact El]. rewrite <- El. apply ld_ext. intros b Hr. apply Hst; [done|].
    unfold in_range in *. lia.
Qed.

(** The setup never gives the CR4 shadow a value: its last write goes to the CR0 shadow a second time, so CR0
    reads as zero in its trapped bits, without the ET bit written just before, and the CR4 shadow keeps whatever the VMCS held. *)
Theorem vmcs_init_shadows a D C supported writable val qemu caps reg msr
    (M : machine a D C supported writable val qemu caps reg msr) g s es ds v e eptp m' w :
  options_ok caps g es (a := a) v e eptp (stack_mem (a := a) v (w_mem w)) m' ->
  exists v' w', shv_vmx_vmcs_init a g s es ds v w = Ok (v', w') /\
    field_named (a := a) (val := val) (w_tr w') "control_CR0_shadow" = 0 /\
    field_named (a := a) (val := val) (w_tr w') "control_CR4_mask" = wrap (ptr_bits a) (vmx_msr v INDEX_CR4_FIXED0) /\
    field_named (a := a) (val := val) (w_tr w') "control_CR4_shadow" = field_named (a := a) (val := val) (w_tr w) "control_CR4_shadow".
Proof.
  intros Ho. destruct (vmcs_init_machine M g s es ds v e eptp m' w Ho) as (w' & E & H).
  exists (final_vcpu g s (a := a) v e), w'. split; [done|].
  destruct (image_get (a := a) (msr := msr) g s ds (reg (steps (w_tr w))) v eptp m') as (_ & _ & _ & _ & _ & _ & _ & _ & G1 & G2 & G3).
  by rewrite !(is_named _ _ _ _ _ H), G1, G2, G3 by (eexists; reflexivity).
Qed.

(** ** Exits *)

(** What [get_vcpu] answers on the processor of [v]; its accesses do not touch the VMCS. *)
Definition on_vcpu (a : subarch) {D : Device} (g : opts) (mid : list MIDTAB) (v : VCPU) : Prop :=
  forall w, exists tr, get_vcpu a g mid w = Ok (vcpu_addr v, mkW (w_mem w) (tr ++ w_tr w)) /\ Forall (fun e => still e = true) tr.

(** The low halves of the registers after [cpuid], as the guest sees them: leaf 1 does not show VMX. *)
Definition guest_cpuid (leaf : Z) (res : Z * Z * Z * Z) (r : regs) : Prop :=
  let '(eax, ebx, ecx, edx) := res in
  r_eax r = u32 eax /\ r_ebx r = u32 ebx /\ r_edx r = u32 edx /\
  r_ecx r = (if leaf =? 1 then Z.land (u32 ecx) (bnot 32 32) else u32 ecx).

Lemma low_half_u32 old new : u32 (low_half old new) = u32 new.
Proof.
  unfold low_half, u32. apply (is_u_ext 32); [done|by apply is_u_wrap..|]. intros i Hi.
  rewrite !wrap_bit, Z.lor_spec, shiftl_testbit, wrap_bit by lia. by rewrite (proj2 (Z.leb_gt 32 i)) by lia.
Qed.

Section exits.
Context {a : subarch} {D : Device} {C : Cpu} {supported writable : Z -> bool} {val : list ioev -> Z -> Z}.
Context {qemu : bool} {caps : vmx_ctls_t} {reg : list ioev -> sysreg -> Z} {msr : Z -> Z}.
Context (M : machine a D C supported writable val qemu caps reg msr).
Abbreviation vis := (vmcs_is (a := a) (val := val)).

Lemma wp_get_vcpu g mid v w0 l m w (Q : Z -> world -> Prop) :
  on_vcpu a g mid v -> vis w0 l m w -> (forall w', vis w0 l m w' -> Q (vcpu_addr v) w') -> wp (get_vcpu a g mid) Q w.
Proof.
  intros Hv H HQ. destruct (Hv w) as (tr & E & Hq). apply (wp_intro _ _ _ _ _ E), HQ.
  clear E HQ. induction Hq as [|e tr He _ IH]; [by destruct w|]. destruct M as [HC _ _ _ _]. by apply (vmcs_is_quiet (HC := HC) _ _ _ _ e) in IH.
Qed.

(** The values the exit information has in a world. *)
Definition exit_image (reason len rip : Z) : image :=
  [("info_vmexit_reason", reason); ("info_vmexit_instruction_length", len); ("guest_RIP", rip)].
Definition exited (reason len rip : Z) (w : world) : Prop :=
  field_named (a := a) (val := val) (w_tr w) "info_vmexit_reason" = reason /\
  field_named (a := a) (val := val) (w_tr w) "info_vmexit_instruction_length" = len /\
  field_named (a := a) (val := val) (w_tr w) "guest_RIP" = rip.

Lemma exited_is reason len rip w : exited reason len rip w -> vis w (exit_image reason len rip) (w_mem w) w.
Proof.
  intros (E1 & E2 & E3). constructor; [done| |done]. intros f Hf. unfold exit_image. cbn [get].
  assert (forall n x, String.eqb n (f_name f) = true -> is_Some (find_field vmcs_fields n) ->
            field_named (a := a) (val := val) (w_tr w) n = x -> field_val (a := a) (val := val) (w_tr w) f = x) as Hn.
  { intros n x En [h Eh] Hx. unfold field_named in Hx. rewrite Eh in Hx. apply find_field_ok in Eh as (Hin & Ehn & _).
    apply String.eqb_eq in En. assert (h = f) as -> by (apply field_name_inj; [done..|congruence]). done. }
  destruct (String.eqb "guest_RIP" (f_name f)) eqn:A1; [eapply Hn; [exact A1|eexists; reflexivity|done]|].
  destruct (String.eqb "info_vmexit_instruction_length" (f_name f)) eqn:A2; [eapply Hn; [exact A2|eexists; reflexivity|done]|].
  destruct (String.eqb "info_vmexit_reason" (f_name f)) eqn:A3; [eapply Hn; [exact A3|eexists; reflexivity|done]|done].
Qed.

(** The start of [vmexit_handler]: the exit information is read, and the default handling is reached without an override. *)
Ltac read_field z HC Hacc :=
  eapply (wp_read (HC := HC) _ _ Hacc z); [reflexivity|reflexivity|reflexivity|eassumption|reflexivity|];
  match goal with H : vmcs_is _ _ _ _ |- _ => clear H end; intros ? ?.
Lemma handler_start g call mid v r reason len rip w Q :
  exited reason len rip w -> vcpu_override v = None ->
  (forall w', vis w (exit_image reason len rip) (w_mem w) w' -> wp (default_exit a g mid qemu v r (mkInfo_ reason rip len)) Q w') ->
  wp (vmexit_handler a g call mid qemu rip v r) Q w.
Proof.
  intros Hx Hov HQ. pose proof (exited_is _ _ _ _ Hx) as H. unfold vmexit_handler. destruct M as [HC Hacc _ _ _].
  apply wp_bind. read_field F32 HC Hacc. apply wp_bind. read_field F32 HC Hacc. apply wp_bind. read_field FNW HC Hacc.
  apply wp_bind, wp_assert; [apply Z.eqb_refl|]. rewrite Hov. by apply HQ.
Qed.

(** The end of a handled exit: the instruction pointer moves on and the guest is resumed. *)
Lemma resume_ok rip len v r w0 l m w (Q : handler_result -> world -> Prop) :
  vis w0 l m w -> (forall w', vis w0 (l ++ [("guest_RIP", wrap (ptr_bits a) (rip + len))]) m w' -> Q (Entered false v r) w') ->
  wp (wNW a "guest_RIP" (rip + len) ≫= fun _ => mret (Entered false v r)) Q w.
Proof.
  intros H HQ. destruct M as [HC Hacc _ _ _]. apply wp_bind.
  eapply (wp_wNW (HC := HC) _ _ Hacc); [eassumption|reflexivity..|]. intros w' H'. apply wp_ret. by apply HQ.
Qed.

Lemma wp_cpuid eax ecx w0 l m w (Q : Z * Z * Z * Z -> world -> Prop) :
  vis w0 l m w ->
  (forall w', vis w0 l m w' -> let '(ra, rb, rc, rd) := cpu_cpuid (w_tr w) (u32 eax) (u32 ecx) in Q (u32 ra, u32 rb, u32 rc, u32 rd) w') ->
  wp (cpuid_raw eax ecx) Q w.
Proof.
  intros H HQ. unfold cpuid_raw, wp. destruct (cpu_cpuid _ _ _) as [[[ra rb] rc] rd]. apply HQ.
  destruct M as [HC _ _ _ _]. by apply (vmcs_is_quiet (HC := HC) _ _ _ _ (ECpuid _ _ _)).
Qed.

Lemma cpuid_handled g call mid v r len rip w :
  exited VMX_VMEXIT_CPUID len rip w -> vcpu_override v = None -> on_vcpu a g mid v -> 
  (forall tr leaf sub, cpu_cpuid tr leaf sub = cpu_cpuid [] leaf sub) ->
  wp (vmexit_handler a g call mid qemu rip v r)
    (fun res w' => exists r', res = Entered false v r' /\ guest_cpuid (r_eax r) (cpu_cpuid [] (r_eax r) (r_ecx r)) r' /\
       (r_si r', r_di r', r_bp r', r_sp r', r_ext r') = (r_si r, r_di r, r_bp r, r_sp r, r_ext r) /\
       vis w (exit_image VMX_VMEXIT_CPUID len rip ++ [("guest_RIP", wrap (ptr_bits a) (rip + len))]) (w_mem w) w') w.
Proof.
  intros Hx Hov Hself Hc. apply (handler_start _ _ _ _ _ _ _ _ _ _ Hx Hov). intros w1 H1. unfold default_exit. cbv zeta.
  apply wp_bind. eapply wp_get_vcpu; [done|exact H1|]. clear w1 H1. intros w1 H1.
  apply wp_bind, wp_assert; [apply Z.eqb_refl|]. cbn [vmexit_reason]. rewrite Z.eqb_refl.
  apply wp_bind. eapply wp_cpuid; [exact H1|]. clear H1. intros w2 H2. rewrite Hc. fold (r_eax r) (r_ecx r).
  assert (u32 (r_eax r) = r_eax r /\ u32 (r_ecx r) = r_ecx r) as [-> ->] by (split; apply wrap_wrap; lia).
  destruct (cpu_cpuid [] (r_eax r) (r_ecx r)) as [[[ra rb] rc] rd]. cbn [guest_rip inst_len]. eapply resume_ok; [exact H2|].
  intros w3 H3. eexists. split; [done|]. split; [|split; [by destruct (r_eax r =? 1)|exact H3]].
  assert (forall x, u32 (u32 x) = u32 x) as Hl by (intros; apply wrap_wrap; lia).
  change (bnot 32 (Z.shiftl 1 5)) with (bnot 32 32). unfold guest_cpuid.
  destruct (r_eax r =? 1); unfold r_eax, r_ebx, r_ecx, r_edx; cbn [r_ax r_bx r_cx r_dx with_eax with_ebx with_ecx with_edx];
    rewrite ?low_half_u32, ?Hl; split_and!; try done.
  apply wrap_small, is_u_land_r; [lia|by apply is_u_wrap].
Qed.
End exits.

(** C28: A [CPUID] exit without an override resumes the guest behind the instruction with the processor's answer in the
    low halves of the four registers, except that leaf 1 does not show VMX; the other registers, memory and every
    field of the VMCS but the instruction pointer are as before. *)
Theorem vmexit_handler_cpuid a D C supported writable val qemu caps reg msr
    (M : machine a D C supported writable val qemu caps reg msr) g call mid v r len rip w :
  exited (a := a) (val := val) VMX_VMEXIT_CPUID len rip w -> vcpu_override v = None -> on_vcpu a g mid v ->
  (forall tr leaf sub, cpu_cpuid tr leaf sub = cpu_cpuid [] leaf sub) ->
  exists r' w', vmexit_handler a g call mid qemu rip v r w = Ok (Entered false v r', w') /\
    guest_cpuid (r_eax r) (cpu_cpuid [] (r_eax r) (r_ecx r)) r' /\
    (r_si r', r_di r', r_bp r', r_sp r', r_ext r') = (r_si r, r_di r, r_bp r, r_sp r, r_ext r) /\
    w_mem w' = w_mem w /\
    field_named (a := a) (val := val) (w_tr w') "guest_RIP" = wrap (ptr_bits a) (rip + len) /\
    forall f, f ∈ vmcs_fields -> f_name f <> "guest_RIP" -> field_val (a := a) (val := val) (w_tr w') f = field_val (a := a) (val := val) (w_tr w) f.
Proof.
  intros Hx Hov Hself Hc. destruct (wp_elim _ _ _ (cpuid_handled M g call mid v r len rip w Hx Hov Hself Hc)) as (res & w' & E & r' & -> & Hg & Hr & H).
  exists r', w'. split; [done|]. split; [done|]. split; [done|]. split; [apply (is_mem _ _ _ _ H)|].
  split; [rewrite (is_named _ _ _ _ _ H) by (eexists; reflexivity); reflexivity|].
  intros f Hf Hne. rewrite (is_val _ _ _ _ H f Hf), get_snoc, (proj2 (String.eqb_neq _ _)) by congruence.
  symmetry. exact (is_val _ _ _ _ (exited_is _ _ _ _ Hx) f Hf).
Qed.

(** The default handler never resumes the guest for an exit it does not know: when it ends by entering the guest,
    the exit was [CPUID] or [RDMSR], the [VCPU] is the one it was called with and so are the pointers and [rsp] of the guest. *)
Theorem default_exit_stops a (D : Device) (C : Cpu) g mid qemu v r info w res w' :
  default_exit a g mid qemu v r info w = Ok (res, w') ->
  (vmexit_reason info = VMX_VMEXIT_CPUID \/ vmexit_reason info = VMX_VMEXIT_RDMSR) /\
  exists r', res = Entered false v r' /\ (r_si r', r_di r', r_bp r', r_sp r', r_ext r') = (r_si r, r_di r, r_bp r, r_sp r, r_ext r).
Proof.
  unfold default_exit. intros (self & w1 & _ & H)%IO_bind_Ok. apply IO_bind_Ok in H as (u & w2 & _ & H).
  destruct (Z.eqb_spec (vmexit_reason info) VMX_VMEXIT_CPUID) as [E|_].
  - split; [by left|]. apply IO_bind_Ok in H as ([[[eax ebx] ecx] edx] & w3 & _ & H).
    apply IO_bind_Ok in H as (u2 & w4 & _ & H). injection H as <- <-. eexists. split; [done|]. by destruct (r_eax r =? 1).
  - destruct (Z.eqb_spec (vmexit_reason info) VMX_VMEXIT_RDMSR) as [E|_].
    + split; [by right|]. apply IO_bind_Ok in H as (x & w3 & _ & H).
      apply IO_bind_Ok in H as (u2 & w4 & _ & H). injection H as <- <-. by eexists.
    + exfalso. destruct (vmexit_reason info =? VMX_VMEXIT_EPT_VIOLATION);
        repeat (let x := fresh in let w := fresh in apply IO_bind_Ok in H as (x & w & _ & H)); done.
Qed.

(** ** Witnesses *)

Definition quiet_device : Device := {| dev_in _ _ := 0; dev_read _ _ := 0; dev_rdmsr _ _ := 0 |}.
Definition demo_caps : vmx_ctls_t := mkCtls 0 (2 ^ 31) 32 0 0.
Definition demo_opts : opts := mkOpts 0x11 0 0 50.
Definition demo_vmx : vmx_syms := mkVmxSyms 0x10000 0x20000 0x30000 0x40000 0x50000 0x60000 0x70000 0x80000.
Definition demo_ept : ept_vcpu := EptVcpu 0 0 false false false 0 0 [] 0 [].
Definition demo_ept_syms : ept_syms := EptSyms 0 0 0 0 0 0 0 0.
Definition demo_vcpu : VCPU :=
  mkVcpu 0x9000 0xa000 0 0 true (replicate 17 0) 0 0 0 0 demo_caps demo_ept ∅ 0 0 0 0 0 0 0 0 None.
Definition demo_world : world := mkW ∅ [EVmwrite 0x6006 7 true].
Definition demo_cpu : Cpu := plain_cpu AMD64 (fun _ => 0).

Lemma demo_machine : machine AMD64 quiet_device demo_cpu (fun _ => true) (fun _ => true) (last_written AMD64) false demo_caps (fun _ _ => 0) (fun _ => 0).
Proof. constructor; [apply plain_vmcs_cpu|by repeat split|done..]. Qed.
Lemma demo_options m' : options_ok demo_caps demo_opts demo_ept_syms (a := AMD64) (C := demo_cpu) (D := quiet_device) demo_vcpu demo_ept 0
    (stack_mem (a := AMD64) demo_vcpu (w_mem demo_world)) m'.
Proof. by repeat split. Qed.

Definition demo_init : res (VCPU * world) :=
  @shv_vmx_vmcs_init AMD64 quiet_device demo_cpu demo_opts demo_vmx demo_ept_syms demo_desc demo_vcpu demo_world.

Lemma vmcs_init_contents_witness : exists v' w', demo_init = Ok (v', w') /\
  forall f, f ∈ vmcs_fields -> f_name f = "control_vpid" -> field_val (a := AMD64) (val := last_written AMD64) (w_tr w') f = 1.
Proof.
  destruct (vmcs_init_contents AMD64 quiet_device demo_cpu _ _ _ false demo_caps _ _ demo_machine demo_opts demo_vmx demo_ept_syms
              demo_desc demo_vcpu demo_ept 0 ∅ demo_world (demo_options ∅)) as (w' & E & _ & Hv).
  eexists _, w'. split; [exact E|]. intros f Hf Hn. rewrite Hv by done. rewrite Hn. reflexivity.
Defined.

Lemma vmcs_init_consistent_witness : exists v' w', demo_init = Ok (v', w') /\
  field_named (a := AMD64) (val := last_written AMD64) (w_tr w') "host_RIP" = 0x70000.
Proof.
  destruct (vmcs_init_consistent AMD64 quiet_device demo_cpu _ _ _ false demo_caps _ _ demo_machine demo_opts demo_vmx demo_ept_syms
              demo_desc demo_vcpu demo_ept 0 ∅ demo_world (demo_options ∅)) as (v' & w' & E & _ & _ & _ & _ & _ & _ & _ & _ & H & _); [done|].
  exists v', w'. split; [exact E|]. rewrite H. reflexivity.
Defined.

Lemma vmcs_init_shadows_witness : exists v' w', demo_init = Ok (v', w') /\
  field_named (a := AMD64) (val := last_written AMD64) (w_tr w') "control_CR4_shadow" = 7.
Proof.
  destruct (vmcs_init_shadows AMD64 quiet_device demo_cpu _ _ _ false demo_caps _ _ demo_machine demo_opts demo_vmx demo_ept_syms
              demo_desc demo_vcpu demo_ept 0 ∅ demo_world (demo_options ∅)) as (v' & w' & E & _ & _ & H).
  exists v', w'. split; [exact E|]. rewrite H. reflexivity.
Defined.

Definition exit_world : world := mkW ∅ [EVmwrite 0x4402 10 true; EVmwrite 0x440C 2 true; EVmwrite 0x681E 0x1000 true].
Definition demo_regs : regs := mkRegs 1 0 0 0 0 0 0 0 [].
Definition no_handler (h : handler) (v : VCPU) (r : regs) (i : vmexit_info_t) : IO handler_result := mret (Returned v r).
Definition demo_mid : list MIDTAB := [mkMid 0 0x9000].
Lemma vmexit_handler_cpuid_witness : exists r' w',
  @vmexit_handler AMD64 quiet_device demo_cpu demo_opts no_handler demo_mid false 0x1000 demo_vcpu demo_regs exit_world = Ok (Entered false demo_vcpu r', w') /\
  field_named (a := AMD64) (val := last_written AMD64) (w_tr w') "guest_RIP" = 0x1002.
Proof.
  destruct (vmexit_handler_cpuid AMD64 quiet_device demo_cpu _ _ _ false demo_caps _ _ demo_machine demo_opts no_handler demo_mid demo_vcpu demo_regs
              2 0x1000 exit_world) as (r' & w' & E & _ & _ & _ & H & _); [by repeat split|done| |done|].
  - intros w. eexists [_; _]. by split; [|repeat constructor].
  - exists r', w'. split; [exact E|]. rewrite H. reflexivity.
Defined.

Definition rdmsr_run : res (handler_result * world) :=
  @default_exit AMD64 quiet_device demo_cpu demo_opts demo_mid false demo_vcpu demo_regs (mkInfo_ 31 0x1000 2) exit_world.
Lemma default_exit_stops_witness : exists r', (rdmsr_run ≫= fun x => Ok x.1) = Ok (Entered false demo_vcpu r') /\ r_sp r' = 0.
Proof.
  destruct rdmsr_run as [[res w']|] eqn:E; [|exfalso; by vm_compute in E].
  destruct (default_exit_stops AMD64 quiet_device demo_cpu demo_opts demo_mid false demo_vcpu demo_regs (mkInfo_ 31 0x1000 2) exit_world res _ E) as (_ & r' & -> & Hr). exists r'. split; [done|].
  by injection Hr.
Defined.
