(* ===== verification/Launch.v ===== *)
(** [shv_vmx_main] of [src/shv-vmx.c] from its first to its last line: on an Intel processor with VMX that the firmware has
    enabled, it enters VMX operation, loads a VMCS of its own, fills it in and launches the guest. *)
From Stdlib Require Import String.
From S2P Require Import Prelude.
From S2P Require Import HptLemmas.
From S2P Require Import Mem.
From S2P Require Import Ept.
From S2P Require Import CString.
From S2P Require Import Cmdline.
From S2P Require Import Stdio.
From S2P Require Import Io.
From S2P Require Import Desc.
From S2P Require Import VmxCtls.
From S2P Require Import VmcsFields.
From S2P Require Import Vmcs.
From S2P Require Import VmcsProps.
From S2P Require Import Vcpu.
From S2P Require Import Vmx.
From S2P Require Import VmxProps.
Local Open Scope string_scope.
Local Open Scope Z_scope.

(** ** The processor *)

(** The VMXON region in use, by the steps made. *)
Fixpoint vmx_root (l : list ioev) : option Z :=
  match l with
  | [] => None
  | EVmx Vmxon [p] true :: l => Some p
  | EVmx Vmxoff _ true :: l => None
  | _ :: l => vmx_root l
  end.
Definition page (a : subarch) (p : Z) : Prop := 0 <= p < 2 ^ ptr_bits a /\ p mod 4096 = 0.

(** Volume 3 of the Intel manual: a control register holds what was written last; VMXON needs CR0.NE and CR4.VMXE and a page;
    in VMX operation VMCLEAR and VMPTRLD take every page but the VMXON region. *)
Record vmx_processor (a : subarch) (C : Cpu) (reg : list ioev -> sysreg -> Z) : Prop := {
  vp_set r x l : reg (ESetReg r x :: l) r = x;
  vp_set_other r r' x l : r <> r' -> reg (ESetReg r' x :: l) r = reg l r;
  vp_vmx op args ok l r : reg (EVmx op args ok :: l) r = reg l r;
  vp_vmxon tr p : Z.testbit (reg (steps tr) RCR0) 5 = true -> Z.testbit (reg (steps tr) RCR4) 13 = true ->
    vmx_root (steps tr) = None -> page a p -> cpu_vmx tr Vmxon [p] = true;
  vp_vmclear tr p root : vmx_root (steps tr) = Some root -> page a p -> p <> root -> cpu_vmx tr Vmclear [p] = true;
  vp_vmptrld tr p root : vmx_root (steps tr) = Some root -> page a p -> p <> root -> cpu_vmx tr Vmptrld [p] = true }.

(** What [shv_vmx_main] asks of the processor: the vendor, VMX, and the lock and enable bits of [MSR_EFCR]. *)
Record vmx_capable (C : Cpu) (msr : Z -> Z) : Prop := {
  vc_intel tr : exists eax, cpu_cpuid tr 0 0 = (eax, 0x756E6547, 0x6C65746E, 0x49656E69);
  vc_vmx tr : Z.testbit (cpu_cpuid tr 1 0).1.2 5 = true;
  vc_locked : Z.testbit (msr MSR_EFCR) 0 = true;
  vc_enabled : Z.testbit (msr MSR_EFCR) 2 = true }.

Lemma truth_shift x n : 0 <= n -> Z.testbit x n = true -> truth (Z.land x (Z.shiftl 1 n)) = true.
Proof.
  intros Hn H. unfold truth. apply negb_true_iff, Z.eqb_neq. intros E. apply (f_equal (fun z => Z.testbit z n)) in E.
  by rewrite Z.land_spec, Z.bits_0, Z.shiftl_1_l, Z.pow2_bits_true, andb_true_r, H in E by lia.
Qed.

Section launch.
Context {a : subarch} {D : Device} {C : Cpu} {reg : list ioev -> sysreg -> Z} {msr : Z -> Z}.
Context (P : vmx_processor a C reg) (V : vmx_capable C msr).
Context (Hreg : forall tr r, cpu_reg tr r = reg (steps tr) r) (Hmsr : forall tr x, dev_rdmsr tr x = msr x).
Context (s : vmx_syms).

(** In world [w] the steps [l] have been made, and the memory is [m]. *)
Definition made (l : list ioev) (m : mem) (w : world) : Prop := steps (w_tr w) = l /\ w_mem w = m.
Lemma made_quiet l m w e : is_step e = false -> made l m w -> made l m (mkW (w_mem w) (e :: w_tr w)).
Proof. intros He [Hl Hm]. split; [|done]. cbn [w_tr steps List.filter]. by rewrite He. Qed.
Lemma made_step l m w e : is_step e = true -> made l m w -> made (e :: l) m (mkW (w_mem w) (e :: w_tr w)).
Proof. intros He [Hl Hm]. split; [|done]. cbn [w_tr steps List.filter]. by rewrite He, <- Hl. Qed.

Lemma wp_made_rdmsr x l m w (Q : Z -> world -> Prop) :
  made l m w -> (forall w', made l m w' -> Q (u64 (msr x)) w') -> wp (rdmsr64 x) Q w.
Proof. intros H HQ. unfold rdmsr64, wp. rewrite Hmsr. by apply HQ, (made_quiet _ _ _ (ERdmsr _ _)). Qed.
Lemma wp_made_reg r l m w (Q : Z -> world -> Prop) :
  made l m w -> (forall w', made l m w' -> Q (wrap (sysreg_bits a r) (reg l r)) w') -> wp (read_reg a r) Q w.
Proof.
  intros H HQ. unfold read_reg, wp. rewrite Hreg, (proj1 H). by apply HQ, (made_quiet _ _ _ (EGetReg _ _)).
Qed.
Lemma wp_made_write r x l m w (Q : unit -> world -> Prop) :
  made l m w -> (forall w', made (ESetReg r (wrap (sysreg_bits a r) x) :: l) m w' -> Q tt w') -> wp (write_reg a r x) Q w.
Proof. intros H HQ. by apply HQ, made_step. Qed.
Lemma wp_made_store n p x l m w (Q : unit -> world -> Prop) :
  made l m w -> (forall w', made l (st n m p x) w' -> Q tt w') -> wp (store n p x) Q w.
Proof. intros [Hl Hm] HQ. unfold store, wp. rewrite Hm. by apply HQ. Qed.
Lemma wp_made_must op args l m w (Q : unit -> world -> Prop) :
  made l m w -> cpu_vmx (w_tr w) op args = true -> (forall w', made (EVmx op args true :: l) m w' -> Q tt w') ->
  wp (must (vmx_op op args)) Q w.
Proof.
  intros H Hok HQ. unfold must. apply wp_bind. unfold vmx_op, wp at 1. rewrite Hok. apply wp_assert; [done|]. by apply HQ, made_step.
Qed.

Lemma check_intel_ok l m w : made l m w -> wp check_intel (fun _ w' => made l m w') w.
Proof.
  intros H. unfold check_intel. apply wp_bind. unfold cpuid, cpuid_raw, wp at 1. change (u32 0) with 0.
  destruct (vc_intel _ _ V (w_tr w)) as (eax & ->). do 2 (apply wp_bind; apply wp_assert; [done|]). apply wp_assert; [done|].
  by apply made_quiet.
Qed.

(** The MSRs [read_msrs] collects. *)
Definition vmx_msr_values : list Z := map (fun i => u64 (msr (IA32_VMX_BASIC_MSR + i))) (seqZ 0 IA32_VMX_MSRCOUNT).
Lemma read_msrs_ok n i old pre l m w : Z.of_nat n = Z.of_nat (length old) -> i = Z.of_nat (length pre) -> made l m w ->
  wp (read_msrs n i (pre ++ old)) (fun x w' => x = (pre ++ map (fun i => u64 (msr (IA32_VMX_BASIC_MSR + i))) (seqZ i (Z.of_nat n)))%list /\ made l m w') w.
Proof.
  revert i old pre w. induction n as [|n IH]; intros i old pre w Hn Hi H; cbn [read_msrs].
  - apply wp_ret. split; [|done]. destruct old; [|done]. by rewrite seqZ_nil by lia.
  - destruct old as [|x old]; [done|]. apply wp_bind. eapply wp_made_rdmsr; [exact H|]. clear w H. intros w H.
    subst i. rewrite Nat2Z.id, insert_app_r_alt by done. rewrite Nat.sub_diag. cbn [insert list_insert]. rewrite cons_middle, app_assoc.
    eapply wp_use; [apply (IH (Z.of_nat (length pre) + 1) old); [cbn [length] in Hn; lia|rewrite length_app; cbn; lia|exact H]|].
    intros y w' [-> H']. split; [|done]. rewrite (seqZ_cons _ (Z.of_nat (S n))) by lia. cbn [map]. rewrite <- app_assoc. cbn [app].
    by replace (Z.pred (Z.of_nat (S n))) with (Z.of_nat n) by lia.
Qed.

(** The [VCPU] with what the processor can do, and with its regions. *)
Definition discovered (v : VCPU) : VCPU := init_caps (with_vmx_msrs vmx_msr_values v).
Definition revision : Z := Z.land (u32 (u64 (msr IA32_VMX_BASIC_MSR))) 0x7fffffff.
Definition equipped (v : VCPU) : VCPU :=
  with_my_vmcs (vmcs_at s (vcpu_idx v) 0) (with_vmxon_region (vmxon_region_at s (vcpu_idx v)) (discovered v)).
Lemma discovered_same v : vcpu_idx (discovered v) = vcpu_idx v /\ vcpu_vmx_msrs (discovered v) = vmx_msr_values.
Proof. unfold discovered, init_caps. by destruct (truth _). Qed.
Lemma discovered_basic v : vmx_msr (discovered v) INDEX_BASIC = u64 (msr IA32_VMX_BASIC_MSR).
Proof. unfold vmx_msr. rewrite (proj2 (discovered_same v)). reflexivity. Qed.

(** The steps into VMX operation, latest first, and the two regions with the revision of the processor. *)
Definition ulongreg (l : list ioev) (r : sysreg) : Z := wrap (sysreg_bits a r) (reg l r).
Definition set_cr (r : sysreg) (bit : Z) (l : list ioev) : list ioev := ESetReg r (wrap (sysreg_bits a r) (Z.lor (ulongreg l r) bit)) :: l.
Definition enabled (l : list ioev) : list ioev := set_cr RCR4 CR4_VMXE (set_cr RCR0 CR0_NE l).
Definition entered (idx : Z) (l : list ioev) : list ioev := EVmx Vmxon [vmxon_region_at s idx] true :: enabled l.
Definition loaded (idx : Z) (l : list ioev) : list ioev :=
  EVmx Vmptrld [vmcs_at s idx 0] true :: EVmx Vmclear [vmcs_at s idx 0] true :: entered idx l.
Definition regions_mem (idx : Z) (m : mem) : mem := st 4 (st 4 m (vmxon_region_at s idx) revision) (vmcs_at s idx 0) revision.

(** Where the linker puts the two regions of processor [idx]. *)
Definition regions_ok (idx : Z) : Prop :=
  page a (vmxon_region_at s idx) /\ page a (vmcs_at s idx 0) /\ vmcs_at s idx 0 <> vmxon_region_at s idx.
Lemma hva2spa_page p : page a p -> hva2spa a p = p.
Proof.
  intros [Hp _]. unfold hva2spa. pose proof (ptr_bits_is64 a). unfold u64. rewrite (wrap_small (ptr_bits a)) by done.
  apply wrap_small, (is_u_le (ptr_bits a)); [destruct (is64 a); lia|done].
Qed.

Lemma wide r x n : (r = RCR0 \/ r = RCR4) -> 0 <= n < 32 -> Z.testbit (wrap (sysreg_bits a r) x) n = Z.testbit x n.
Proof.
  intros Hr Hn. assert (sysreg_bits a r = ptr_bits a) as -> by (by destruct Hr as [->| ->]). apply wrap_bit.
  pose proof (ptr_bits_is64 a). destruct (is64 a); lia.
Qed.
Lemma enabled_bits l : Z.testbit (reg (enabled l) RCR0) 5 = true /\ Z.testbit (reg (enabled l) RCR4) 13 = true.
Proof.
  unfold enabled, set_cr. split.
  - rewrite (vp_set_other _ _ _ P) by done. rewrite (vp_set _ _ _ P), wide, Z.lor_spec by (lia || tauto). apply orb_true_r.
  - rewrite (vp_set _ _ _ P), wide, Z.lor_spec by (lia || tauto). apply orb_true_r.
Qed.

Lemma enable_vmx_ok v l m w : vcpu_vmx_msrs v = vmx_msr_values -> regions_ok (vcpu_idx v) -> vmx_root l = None ->
  Z.testbit (reg l RCR4) 13 = false -> made l m w ->
  wp (enable_vmx a s v) (fun r w' => r = (with_vmxon_region (vmxon_region_at s (vcpu_idx v)) v, revision) /\
    made (entered (vcpu_idx v) l) (st 4 m (vmxon_region_at s (vcpu_idx v)) revision) w') w.
Proof.
  intros Hv (Hon & _) Hroot Hoff H. unfold enable_vmx. apply wp_bind.
  unfold cpuid, cpuid_raw, wp at 1. change (u32 1) with 1. change (u32 0) with 0. pose proof (vc_vmx _ _ V (w_tr w)) as Hx.
  destruct (cpu_cpuid (w_tr w) 1 0) as [[[ra rb] rc] rd]. cbn [fst snd] in Hx.
  apply wp_bind, wp_assert; [apply truth_shift; [done|]; unfold u32; by rewrite wrap_bit|].
  assert (Z.land (u32 (vmx_msr v INDEX_BASIC)) 0x7fffffff = revision) as -> by (unfold vmx_msr; by rewrite Hv).
  cbv zeta. cbn [vcpu_vmxon_region with_vmxon_region].
  apply wp_bind. eapply wp_made_store; [by apply made_quiet|]. clear w H Hx ra rb rc rd. intros w H.
  apply wp_bind. eapply wp_made_reg; [exact H|]. clear w H. intros w H. fold (ulongreg l RCR0).
  apply wp_bind. eapply wp_made_write; [exact H|]. clear w H. fold (set_cr RCR0 CR0_NE l). intros w H.
  apply wp_bind. eapply wp_made_reg; [exact H|]. clear w H. intros w H. fold (ulongreg (set_cr RCR0 CR0_NE l) RCR4).
  apply wp_bind, wp_assert.
  { apply Z.eqb_eq, Z.bits_inj'. intros i Hi. rewrite Z.bits_0, Z.land_spec. change CR4_VMXE with (2 ^ 13). rewrite pow2_testbit by lia.
    destruct (Z.eqb_spec i 13) as [->|]; [|by rewrite andb_false_r]. unfold ulongreg.
    rewrite wide by (lia || tauto). unfold set_cr. by rewrite (vp_set_other _ _ _ P), Hoff by done. }
  apply wp_bind. eapply wp_made_write; [exact H|]. clear w H. fold (set_cr RCR4 CR4_VMXE (set_cr RCR0 CR0_NE l)). fold (enabled l). intros w H.
  apply wp_bind. eapply wp_made_rdmsr; [exact H|]. clear w H. intros w H.
  apply wp_bind, wp_assert; [apply (truth_shift _ 0); [done|]; unfold u64; rewrite wrap_bit by lia; apply (vc_locked _ _ V)|].
  apply wp_bind, wp_assert; [apply (truth_shift _ 2); [done|]; unfold u64; rewrite wrap_bit by lia; apply (vc_enabled _ _ V)|].
  apply wp_bind. unfold __vmx_vmxon. rewrite hva2spa_page by done. eapply wp_made_must; [exact H| |].
  { destruct (enabled_bits l) as [H0 H4]. apply (vp_vmxon _ _ _ P); rewrite ?(proj1 H); done. }
  clear w H. intros w H. apply wp_ret. split; [done|exact H].
Qed.

Lemma load_vmcs_ok v rev l m w : regions_ok (vcpu_idx v) -> made (entered (vcpu_idx v) l) m w ->
  wp (load_vmcs a s v rev) (fun v' w' => v' = with_my_vmcs (vmcs_at s (vcpu_idx v) 0) v /\
    made (loaded (vcpu_idx v) l) (st 4 m (vmcs_at s (vcpu_idx v) 0) rev) w') w.
Proof.
  intros (_ & Hp & Hne) H. unfold load_vmcs. cbv zeta. cbn [vcpu_my_vmcs with_my_vmcs]. rewrite hva2spa_page by done.
  apply wp_bind. unfold __vmx_vmclear. eapply wp_made_must; [exact H| |].
  { eapply (vp_vmclear _ _ _ P); [rewrite (proj1 H); reflexivity|done|done]. }
  clear w H. intros w H. apply wp_bind. eapply wp_made_store; [exact H|]. clear w H. intros w H.
  apply wp_bind. unfold __vmx_vmptrld. eapply wp_made_must; [exact H| |].
  { eapply (vp_vmptrld _ _ _ P); [rewrite (proj1 H); reflexivity|done|done]. }
  clear w H. intros w H. apply wp_ret. split; [done|exact H].
Qed.

(** Everything before the VMCS is filled in. *)
Definition vmx_prefix (v : VCPU) : IO VCPU :=
  check_intel ≫= fun _ =>
  l ← read_msrs (Z.to_nat IA32_VMX_MSRCOUNT) 0 (vcpu_vmx_msrs v);
  '(v, revision) ← enable_vmx a s (init_caps (with_vmx_msrs l v));
  load_vmcs a s v revision.
Lemma vmx_prefix_ok v w : length (vcpu_vmx_msrs v) = 17%nat -> regions_ok (vcpu_idx v) -> vmx_root (steps (w_tr w)) = None ->
  Z.testbit (reg (steps (w_tr w)) RCR4) 13 = false ->
  wp (vmx_prefix v) (fun v' w' => v' = equipped v /\ made (loaded (vcpu_idx v) (steps (w_tr w))) (regions_mem (vcpu_idx v) (w_mem w)) w') w.
Proof.
  intros Hl Hr Hroot Hoff. assert (made (steps (w_tr w)) (w_mem w) w) as H by done. unfold vmx_prefix.
  set (l := steps (w_tr w)) in *. set (m := w_mem w) in *. clearbody l m.
  apply wp_bind. eapply wp_use; [by apply check_intel_ok|]. clear w H. cbv beta. intros _ w H.
  apply wp_bind. eapply wp_use; [apply (read_msrs_ok _ 0 (vcpu_vmx_msrs v) []); [by rewrite Hl|done|exact H]|]. clear w H. intros x w [-> H].
  change ([] ++ map _ _)%list with vmx_msr_values. fold (discovered v). destruct (discovered_same v) as [Ei Em].
  apply wp_bind. rewrite <- Ei in Hr. eapply wp_use; [by apply enable_vmx_ok|]. clear w H. intros x w [-> H].
  eapply wp_use; [apply (load_vmcs_ok (with_vmxon_region (vmxon_region_at s (vcpu_idx (discovered v))) (discovered v)) revision); [exact Hr|exact H]|].
  clear w H. intros v' w [-> H]. cbn [vcpu_idx with_vmxon_region] in *. rewrite Ei in *. by split.
Qed.
End launch.

(** ** The whole function *)

Lemma no_step_dump_fields a {D : Device} {C : Cpu} l qemu caps id d : no_step (dump_fields a l qemu caps id false d).
Proof.
  revert d. induction l as [|f l IH]; intros d; cbn [dump_fields]; [auto with steps|]. apply no_step_bind; [|done].
  destruct (f_exist f qemu caps); [|auto with steps]. apply no_step_bind; [apply no_step_vmread_of|]. intros x.
  apply no_step_bind; auto with steps.
Qed.

Section main.
Context {a : subarch} {D : Device} {C : Cpu} {supported writable : Z -> bool} {val : list ioev -> Z -> Z}.
Context {qemu : bool} {reg : list ioev -> sysreg -> Z} {msr : Z -> Z}.
Context (v : VCPU) (M : machine a D C supported writable val qemu (vcpu_caps (discovered (msr := msr) v)) reg msr).
Context (P : vmx_processor a C reg) (V : vmx_capable C msr) (g : opts) (s : vmx_syms) (es : ept_syms) (ds : desc_syms).

(** Memory when the VMCS has been filled in but for the EPT. *)
Definition launch_mem (m : mem) : mem :=
  stack_mem (a := a) (equipped (msr := msr) s v) (regions_mem (msr := msr) s (vcpu_idx v) m).

(** Filling in the VMCS and saving it. *)
Lemma init_and_dump e eptp m' w1 l m :
  steps (w_tr w1) = l -> w_mem w1 = m ->
  options_ok (vcpu_caps (discovered (msr := msr) v)) g es (a := a) (equipped (msr := msr) s v) e eptp (stack_mem (a := a) (equipped (msr := msr) s v) m) m' ->
  exists d w', (v1 ← shv_vmx_vmcs_init a g s es ds (equipped (msr := msr) s v);
      d ← vmcs_dump a qemu (vcpu_caps v1) (vcpu_id v1) false (vcpu_vmcs v1);
      mret (Entered true (with_vmcs d v1) (launch_regs a v1))) w1 =
    Ok (Entered true (with_vmcs d (final_vcpu g s (a := a) (equipped (msr := msr) s v) e)) (launch_regs a v), w') /\
    w_mem w' = ept_mem g (stack_mem (a := a) (equipped (msr := msr) s v) m) m' /\ steps (w_tr w') = l /\
    (forall f, f ∈ vmcs_fields -> field_val (a := a) (val := val) (w_tr w') f =
       default (field_val (a := a) (val := val) (w_tr w1) f) (get (vmcs_image g s ds (reg l) msr (a := a) (equipped (msr := msr) s v) eptp m') (f_name f))) /\
    (forall f, f ∈ vmcs_fields -> f_exist f qemu (vcpu_caps (discovered (msr := msr) v)) = true ->
       d !! f_name f = Some (field_val (a := a) (val := val) (w_tr w') f)).
Proof.
  intros Hl Hm Ho. rewrite <- Hm in Ho. destruct (vmcs_init_machine M g s es ds _ e eptp m' w1 Ho) as (w2 & E2 & [Hm2 Hv2 Hs2]).
  set (v1 := final_vcpu g s (a := a) (equipped (msr := msr) s v) e) in *.
  assert (vcpu_caps v1 = vcpu_caps (discovered (msr := msr) v) /\ launch_regs a v1 = launch_regs a v) as [Ec Er].
  { unfold v1, final_vcpu, with_ept_of, with_areas, launch_regs, equipped, discovered, init_caps.
    destruct (opt_set g SHV_USE_EPT), (opt_set g SHV_USE_MSR_LOAD), (truth _); by split. }
  destruct (vmcs_dump_ok (HC := mc_vmcs _ _ _ _ _ _ _ _ _ _ M) qemu (vcpu_caps v1) (vcpu_id v1) (vcpu_vmcs v1) w2) as (d & w3 & E3 & [Hm3 Hv3] & Hd).
  { apply Forall_forall. intros f Hf He. rewrite Ec in He. exact (proj1 (mc_access _ _ _ _ _ _ _ _ _ _ M f Hf He)). }
  assert (forall f, field_val (a := a) (val := val) (w_tr w3) f = field_val (a := a) (val := val) (w_tr w2) f) as Hf3.
  { intros f. unfold field_val. by rewrite !Hv3. }
  exists d, w3. rewrite (bind_run _ _ _ _ _ E2), (bind_run _ _ _ _ _ E3), Er. split; [done|]. split; [by rewrite Hm3, Hm2, Hm|]. split.
  - unfold vmcs_dump in E3. by rewrite (no_step_dump_fields _ _ _ _ _ _ _ _ _ E3), Hs2.
  - split; intros f Hf; rewrite Hf3; [by rewrite Hv2, Hl by done|]. intros He. rewrite <- Ec in He.
    exact (proj1 (Forall_forall _ _) Hd f Hf He).
Qed.
End main.

Lemma shv_vmx_main_prefix a {D : Device} {C : Cpu} g s es ds qemu v w :
  shv_vmx_main a g s es ds qemu v w =
  (vmx_prefix (a := a) s v ≫= fun v1 =>
   v1 ← shv_vmx_vmcs_init a g s es ds v1; d ← vmcs_dump a qemu (vcpu_caps v1) (vcpu_id v1) false (vcpu_vmcs v1);
   mret (Entered true (with_vmcs d v1) (launch_regs a v1))) w.
Proof.
  unfold shv_vmx_main, vmx_prefix, mbind, IO_bind. destruct (check_intel w) as [[u u1]|]; [|done].
  destruct (read_msrs _ _ _ u1) as [[l u2]|]; [|done]. by destruct (enable_vmx a s _ u2) as [[[v2 rev] u3]|].
Qed.

(** How the guest of [v] is launched, from world [w] to [w']: the steps, with memory, the values of all fields the image names,
    VMXE in the CR4 the host comes back with, and the copy [d] of the VMCS. *)
Record launched (a : subarch) (val : list ioev -> Z -> Z) (qemu : bool) (reg : list ioev -> sysreg -> Z) (msr : Z -> Z) (v : VCPU)
    (g : opts) (s : vmx_syms) (ds : desc_syms) (eptp : Z) (m' : mem) (w : world) (d : vmcs_t) (w' : world) : Prop := {
  la_steps : steps (w_tr w') = loaded (a := a) (reg := reg) s (vcpu_idx v) (steps (w_tr w));
  la_mem : w_mem w' = ept_mem g (launch_mem (a := a) (msr := msr) v s (w_mem w)) m';
  la_fields f x : f ∈ vmcs_fields ->
    get (vmcs_image g s ds (reg (steps (w_tr w'))) msr (a := a) (equipped (msr := msr) s v) eptp m') (f_name f) = Some x ->
    field_val (a := a) (val := val) (w_tr w') f = x;
  la_host_cr4 : Z.testbit (field_named (a := a) (val := val) (w_tr w') "host_CR4") 13 = true;
  la_copy f : f ∈ vmcs_fields -> f_exist f qemu (vcpu_caps (discovered (msr := msr) v)) = true ->
    d !! f_name f = Some (field_val (a := a) (val := val) (w_tr w') f) }.

(** Where [shv_vmx_main] may start: the [VCPU] has room for the MSRs, its regions are pages, the processor is not in VMX operation,
    and what the options ask for is there, with an EPT that can be built. *)
Record startable (a : subarch) {D : Device} {C : Cpu} (reg : list ioev -> sysreg -> Z) (msr : Z -> Z) (v : VCPU) (g : opts) (s : vmx_syms) (es : ept_syms)
    (e : ept_vcpu) (eptp : Z) (m' : mem) (w : world) : Prop := {
  sa_msrs : length (vcpu_vmx_msrs v) = 17%nat;
  sa_regions : regions_ok (a := a) s (vcpu_idx v);
  sa_root : vmx_root (steps (w_tr w)) = None;
  sa_cr4 : Z.testbit (reg (steps (w_tr w)) RCR4) 13 = false;
  sa_options : options_ok (vcpu_caps (discovered (msr := msr) v)) g es (a := a) (equipped (msr := msr) s v) e eptp
                 (launch_mem (a := a) (msr := msr) v s (w_mem w)) m' }.

Lemma shv_vmx_main_run a D C supported writable val qemu reg msr v
    (M : machine a D C supported writable val qemu (vcpu_caps (discovered (msr := msr) v)) reg msr)
    (P : vmx_processor a C reg) (V : vmx_capable C msr) g s es ds e eptp m' w :
  startable a reg msr v g s es e eptp m' w ->
  exists d w', shv_vmx_main a g s es ds qemu v w =
      Ok (Entered true (with_vmcs d (final_vcpu g s (a := a) (equipped (msr := msr) s v) e)) (launch_regs a v), w') /\
    launched a val qemu reg msr v g s ds eptp m' w d w'.
Proof.
  intros [Hl Hr Hroot Hoff Ho]. destruct (M) as [_ _ Hreg Hmsr _].
  destruct (wp_elim _ _ _ (vmx_prefix_ok P V Hreg Hmsr s v w Hl Hr Hroot Hoff)) as (v1 & w1 & E1 & -> & Hs1 & Hm1).
  destruct (init_and_dump v M g s es ds e eptp m' w1 _ _ Hs1 Hm1 Ho) as (d & w' & E & Hm & Hs & Hv & Hd).
  exists d, w'. split; [by rewrite shv_vmx_main_prefix, (bind_run _ _ _ _ _ E1)|].
  constructor; [done|done|intros f x Hf Hx; rewrite Hs in Hx; by rewrite Hv, Hx by done| |done].
  destruct (find_field vmcs_fields "host_CR4") as [f|] eqn:Ef; [|done]. unfold field_named. rewrite Ef.
  destruct (find_field_ok _ _ _ Ef) as (Hin & En & _). rewrite Hv, En by done. rewrite image_host_cr4.
  cbn [default from_option Datatypes.id]. unfold creg. rewrite wide by (lia || tauto). unfold loaded, entered. rewrite !(vp_vmx _ _ _ P).
  apply (enabled_bits P).
Qed.

(** C6: A processor that has what [shv_vmx_main] asks for launches its guest: the function ends in VMLAUNCH, without a failed
    assertion, after exactly these steps: CR0.NE, CR4.VMXE, VMXON of its own region, VMCLEAR and VMPTRLD of its own VMCS, both
    regions starting with the revision of the processor.  The VMCS then holds the image of the options and of the registers
    as they are at that time, with VMXE in the CR4 the host comes back with, and the copy in the [VCPU] is the VMCS. *)
Theorem shv_vmx_main_launches a D C supported writable val qemu reg msr v
    (M : machine a D C supported writable val qemu (vcpu_caps (discovered (msr := msr) v)) reg msr)
    (P : vmx_processor a C reg) (V : vmx_capable C msr) g s es ds e eptp m' w :
  startable a reg msr v g s es e eptp m' w ->
  exists d w', shv_vmx_main a g s es ds qemu v w =
      Ok (Entered true (with_vmcs d (final_vcpu g s (a := a) (equipped (msr := msr) s v) e)) (launch_regs a v), w') /\
    launched a val qemu reg msr v g s ds eptp m' w d w'.
Proof. apply (shv_vmx_main_run a D C supported writable val qemu reg msr v M P V). Qed.

(** ** A processor that launches *)

Fixpoint last_set (l : list ioev) (r : sysreg) : Z :=
  match l with
  | [] => 0
  | ESetReg r' x :: l => if decide (r = r') then x else last_set l r
  | _ :: l => last_set l r
  end.
Definition launch_cpu : Cpu := {|
  cpu_vmread tr enc := Some (last_written AMD64 tr enc);
  cpu_vmwrite _ _ _ := true;
  cpu_vmx _ _ _ := true;
  cpu_vmptr _ := 0;
  cpu_cpuid _ leaf _ := if leaf =? 0 then (0xd, 0x756E6547, 0x6C65746E, 0x49656E69) else (0, 0, 0x20, 0);
  cpu_rdmsr_faults _ _ := false;
  cpu_wrmsr_faults _ _ _ := false;
  cpu_reg tr r := last_set (steps tr) r |}.
(** The VMX controls of [demo_caps], and [MSR_EFCR]. *)
Definition launch_msr (x : Z) : Z :=
  if x =? MSR_EFCR then 5 else if x =? 0x482 then Z.shiftl (2 ^ 31) 32 else if x =? 0x48b then Z.shiftl 32 32
  else if x =? IA32_VMX_BASIC_MSR then 0x12 else 0.
Definition launch_device : Device := {| dev_in _ _ := 0; dev_read _ _ := 0; dev_rdmsr _ := launch_msr |}.

Lemma demo_discovered : vcpu_caps (discovered (msr := launch_msr) demo_vcpu) = demo_caps.
Proof. by vm_compute. Qed.
Lemma launch_machine : machine AMD64 launch_device launch_cpu (fun _ => true) (fun _ => true) (last_written AMD64) false
  (vcpu_caps (discovered (msr := launch_msr) demo_vcpu)) last_set launch_msr.
Proof.
  rewrite demo_discovered. constructor; [|by repeat split|done..]. by destruct (plain_vmcs_cpu AMD64 (fun _ => 0)).
Qed.
Lemma launch_processor : vmx_processor AMD64 launch_cpu last_set.
Proof. constructor; try done; intros; cbn; [by rewrite decide_True|by rewrite decide_False]. Qed.
Lemma launch_capable : vmx_capable launch_cpu launch_msr.
Proof. constructor; try done. intros tr. by exists 0xd. Qed.

Lemma demo_startable : startable AMD64 (D := launch_device) (C := launch_cpu) last_set launch_msr demo_vcpu demo_opts demo_vmx demo_ept_syms demo_ept 0 ∅ (mkW ∅ []).
Proof. constructor; [done|by repeat split|done|done|]. rewrite demo_discovered. by repeat split. Qed.

Lemma shv_vmx_main_launches_witness : exists d w',
  @shv_vmx_main AMD64 launch_device launch_cpu demo_opts demo_vmx demo_ept_syms demo_desc false demo_vcpu (mkW ∅ []) =
    Ok (Entered true (with_vmcs d (final_vcpu demo_opts demo_vmx (a := AMD64) (equipped (msr := launch_msr) demo_vmx demo_vcpu) demo_ept))
          (launch_regs AMD64 demo_vcpu), w') /\
  length (steps (w_tr w')) = 5%nat /\ ld32 (w_mem w') 0x10000 = 0x12 /\ d !! "control_vpid" = Some 1.
Proof.
  destruct (shv_vmx_main_launches AMD64 launch_device launch_cpu _ _ _ false _ _ demo_vcpu launch_machine launch_processor launch_capable
    demo_opts demo_vmx demo_ept_syms demo_desc demo_ept 0 ∅ (mkW ∅ [])) as (d & w' & E & [Hs Hm Hv _ Hd]); [exact demo_startable|].
  exists d, w'. split; [exact E|]. split; [by rewrite Hs|]. split; [rewrite Hm; by vm_compute|].
    assert (exists f, find_field vmcs_fields "control_vpid" = Some f) as [f Ef] by (by eexists).
    destruct (find_field_ok _ _ _ Ef) as (Hin & En & _). rewrite <- En, Hd; [|done|rewrite demo_discovered; injection Ef as <-; reflexivity].
    f_equal. apply Hv; [done|]. rewrite En. reflexivity.
Defined.
