(* ===== verification/User.v ===== *)
(** [src/shv-user.c]: the page tables of user mode, entering and leaving it, and the program run there. *)
From Stdlib Require Import String.
From S2P Require Import Prelude.
From S2P Require Import HptLemmas.
From S2P Require Import Mem.
From S2P Require Import LibcString.
From S2P Require Import CString.
From S2P Require Import Cmdline.
From S2P Require Import Stdio.
From S2P Require Import Paging.
From S2P Require Import Io.
From S2P Require Import Timer.
From S2P Require Import Desc.
From S2P Require Import VmxCtls.
From S2P Require Import VmcsFields.
From S2P Require Import Vmcs.
From S2P Require Import Vcpu.
From S2P Require Import Vmx.

(** Where the linker put the objects and functions; [u_initialized] and [u_lock] are the static variables of
    [set_user_mode_page_table]. *)
Record user_syms := mkUserSyms {
  user_stack : Z; interrupt_stack : Z; esp0 : Z;
  user_pml4t : Z; user_pdpt : Z; user_pdt : Z; user_pt : Z;
  u_initialized : Z; u_lock : Z; s_user_main : Z;
  begin_pal_c : Z; s_my_pal : Z; end_pal_c : Z;
  pal_demo_code : Z; pal_demo_data : Z; pal_demo_stack : Z; pal_demo_param : Z;
  pal_lock : Z; pal_available : Z }.

(** ** Page tables *)

(** [tbl[i] = 7 | paddr; paddr += 4096], [n] times; the address reached and the memory. *)
Fixpoint fill_loop (n w : nat) (tbl i paddr : Z) (m : mem) : Z * mem :=
  match n with
  | O => (paddr, m)
  | S n => fill_loop n w tbl (i + 1) (u64 (paddr + PT_PAGE_SIZE_4K)) (st w m (tbl + Z.of_nat w * i) (Z.lor 7 paddr))
  end.
(** A loop over a directory: entry [i] points at the table [tbl + 4096 * i], whose [per] entries are filled in turn. *)
Fixpoint dir_loop (n per w : nat) (dir tbl i paddr : Z) (m : mem) : Z * mem :=
  match n with
  | O => (paddr, m)
  | S n =>
      let m := st w m (dir + Z.of_nat w * i) (Z.lor 7 (tbl + 4096 * i)) in
      let '(paddr, m) := fill_loop per w (tbl + 4096 * i) 0 paddr m in
      dir_loop n per w dir tbl (i + 1) paddr m
  end.
(** The outer loop of PAE paging: [user_pdpt[i]] points at [user_pdt[i]], the directory of the tables [user_pt[i]]. *)
Fixpoint pdpt_loop (n per w : nat) (pdpt pdt pt i paddr : Z) (m : mem) : Z * mem :=
  match n with
  | O => (paddr, m)
  | S n =>
      let m := st w m (pdpt + Z.of_nat w * i) (Z.lor 1 (pdt + 4096 * i)) in
      let '(paddr, m) := dir_loop per per w (pdt + 4096 * i) (pt + 4096 * Z.of_nat per * i) 0 paddr m in
      pdpt_loop n per w pdpt pdt pt (i + 1) paddr m
  end.

Section user.
Context (a : subarch) (amd64_max : Z) (s : user_syms).
Abbreviation ptr_bytes := (ptr_bits a / 8).

(** The tables, and the address that goes to CR3. *)
Definition user_tables (m : mem) : Z * mem :=
  match a with
  | AMD64 =>
      let m := (fill_loop (Z.to_nat (P4L_NPDPT amd64_max)) 8 (user_pml4t s) 0 (user_pdpt s) m).2 in
      let m := (fill_loop (Z.to_nat (P4L_NPDT amd64_max)) 8 (user_pdpt s) 0 (user_pdt s) m).2 in
      let m := (fill_loop (Z.to_nat (P4L_NPT amd64_max)) 8 (user_pdt s) 0 (user_pt s) m).2 in
      let m := (fill_loop (Z.to_nat (P4L_NPT amd64_max * PAE_NEPT)) 8 (user_pt s) 0 0 m).2 in
      (user_pml4t s, m)
  | I386_PAE =>
      (user_pdpt s, (pdpt_loop (Z.to_nat PAE_NPDPTE) (Z.to_nat PAE_NEPT) 8 (user_pdpt s) (user_pdt s) (user_pt s) 0 0 m).2)
  | I386 => (user_pdt s, (dir_loop (Z.to_nat P32_NEPT) (Z.to_nat P32_NEPT) 4 (user_pdt s) (user_pt s) 0 0 m).2)
  end.

Context {D : Device} {C : Cpu}.

(** The spin lock as one processor sees it: a lock that is held is never released while it spins. *)
Definition spin_lock (p : Z) : IO unit :=
  v ← load 4 p; if v =? 0 then store 4 p 1 else lift (Err NoFuel).
Definition spin_unlock (p : Z) : IO unit := store 4 p 0.

Definition set_user_mode_page_table : IO unit :=
  spin_lock (u_lock s) ≫= fun _ =>
  init ← load (Z.to_nat ptr_bytes) (u_initialized s);
  (if init =? 0 then fun w =>
     let '(root, m) := user_tables (w_mem w) in
     Ok (tt, mkW (st (Z.to_nat ptr_bytes) m (u_initialized s) root) (w_tr w))
   else mret tt) ≫= fun _ =>
  root ← load (Z.to_nat ptr_bytes) (u_initialized s);
  write_reg a RCR3 root ≫= fun _ =>
  spin_unlock (u_lock s).

(** ** Entering and leaving *)

Definition __CS_R3 : Z := 0x33.
Definition __DS_R3 : Z := 0x3b.
Definition EFLAGS_IF : Z := 0x200.

(** The members of [ureg_t]. *)
Definition sizeof_regs : Z := match a with AMD64 => 128 | _ => 32 end.
Definition sizeof_ureg : Z := sizeof_regs + 5 * ptr_bytes.
Definition ureg_eip (p : Z) : Z := p + sizeof_regs.
Definition ureg_cs (p : Z) : Z := p + sizeof_regs + ptr_bytes.
Definition ureg_eflags (p : Z) : Z := p + sizeof_regs + 2 * ptr_bytes.
Definition ureg_esp (p : Z) : Z := p + sizeof_regs + 3 * ptr_bytes.
Definition ureg_ss (p : Z) : Z := p + sizeof_regs + 4 * ptr_bytes.
Definition ureg_rdi (p : Z) : Z := p + 64.
Definition ureg_rsi (p : Z) : Z := p + 72.

Definition stack_top_of (idx : Z) : Z := user_stack s + 4096 * idx + 4096.
Definition interrupt_top_of (idx : Z) : Z := interrupt_stack s + 4096 * idx + 4096.
Definition stack_slot (idx k : Z) : Z := stack_top_of idx - k * ptr_bytes.
Definition ureg_of (idx : Z) : Z := stack_slot idx 3 - sizeof_ureg.
Definition esp0_of (idx : Z) : Z := esp0 s + ptr_bytes * idx.

Context (g : opts) (ds : desc_syms).

Definition user_eflags : Z :=
  let f := Z.lor 2 (Z.shiftl 3 12) in
  if negb (opt_set g SHV_NO_EFLAGS_IF) then Z.lor f EFLAGS_IF else f.

Definition store_ptr (p v : Z) : IO unit := store (Z.to_nat ptr_bytes) p v.

(** The arguments of [user_main] and the stack of the interrupts of user mode. *)
Definition enter_args (v : VCPU) (arg : Z) : IO unit :=
  let idx := vcpu_idx v in
  let ureg := ureg_of idx in
  match a with
  | AMD64 =>
      store_ptr (ureg_rsi ureg) arg ≫= fun _ =>
      store_ptr (ureg_rdi ureg) (vcpu_addr v) ≫= fun _ =>
      store_ptr (stack_slot idx 3) 0xdeadbeef ≫= fun _ =>
      store 8 (tss_at ds idx + 4) (interrupt_top_of idx)
  | _ =>
      store_ptr (stack_slot idx 1) arg ≫= fun _ =>
      store_ptr (stack_slot idx 2) (vcpu_addr v) ≫= fun _ =>
      store_ptr (stack_slot idx 3) 0xdeadbeef ≫= fun _ =>
      store 4 (tss_at ds idx + 4) (interrupt_top_of idx) ≫= fun _ =>
      store 2 (tss_at ds idx + 8) __DS
  end.

(** The frame and the slot for the kernel's stack pointer that [enter_user_mode_asm] gets. *)
Definition enter_user_mode (v : VCPU) (arg : Z) : IO (Z * Z) :=
  let idx := vcpu_idx v in
  let ureg := ureg_of idx in
  (fun w => Ok (tt, mkW (memset ureg 0 sizeof_regs (w_mem w)).2 (w_tr w))) ≫= fun _ =>
  store_ptr (ureg_eip ureg) (s_user_main s) ≫= fun _ =>
  store_ptr (ureg_cs ureg) __CS_R3 ≫= fun _ =>
  store_ptr (ureg_eflags ureg) user_eflags ≫= fun _ =>
  store_ptr (ureg_esp ureg) (stack_slot idx 3) ≫= fun _ =>
  store_ptr (ureg_ss ureg) __DS_R3 ≫= fun _ =>
  enter_args v arg ≫= fun _ =>
  set_user_mode_page_table ≫= fun _ =>
  mret (ureg, esp0_of idx).

(** The stack pointer [exit_user_mode_asm] gets. *)
Definition handle_shv_syscall (v : VCPU) (vector : Z) (r : regs) : IO Z :=
  ASSERT_io (vector =? 0x23) ≫= fun _ =>
  ASSERT_io (r_eax r =? 0xdeaddead) ≫= fun _ =>
  load (Z.to_nat ptr_bytes) (esp0_of (vcpu_idx v)).

(** ** The program *)

Definition my_pal (arg1 arg2 : Z) : IO Z :=
  '(eax, ebx, _, _) ← cpuid_raw 0x7a567254 arg2;
  if negb (eax =? 0x7a767274) then mret 0xdeadbee1
  else if ebx =? 0xffffffff then mret 0xdeadbee2
  else mret (ulong a (arg1 + 0x1234abcd)).

(** The hypercall of TrustVisor, which answers in [eax]: the number and the four arguments. *)
Context (vmcall : Z -> Z -> Z -> Z -> Z -> IO Z).
(** The descriptors of the sections and parameters are on the stack of [user_main_pal_demo]. *)
Context (sections params : Z).
Definition TV_HC_REG : Z := 1.
Definition TV_HC_UNREG : Z := 2.

(** Copies the code, registers it, calls it and takes it back; the copy is entered at [pal_entry]. *)
Definition user_main_pal_demo (v : VCPU) (arg : Z) : IO unit :=
  let dst_begin := pal_demo_code s + 4096 * vcpu_idx v in
  let code_size := ulong a (end_pal_c s - begin_pal_c s) in
  let pal_entry := ulong a (dst_begin - begin_pal_c s + s_my_pal s) in
  (fun w => Ok (tt, mkW (memcpy dst_begin (begin_pal_c s) code_size (w_mem w)).2 (w_tr w))) ≫= fun _ =>
  print1 a (lit "CPU(0x%02x): starting PAL 0x%x") [VNum 32 (vcpu_id v); VNum (ptr_bits a) arg] ≫= fun _ =>
  x ← vmcall (ulong a (TV_HC_REG + arg)) sections 0 params pal_entry;
  ASSERT_io (x =? 0) ≫= fun _ =>
  ans ← my_pal 0x11111111 arg;
  (if negb (ans =? 0x2345bcde) then
     print1 a (lit "CPU(0x%02x): PAL returns incorrect result") [VNum 32 (vcpu_id v)] ≫= fun _ =>
     print1 a (lit "CPU(0x%02x): Expected: 0x%08lx") [VNum 32 (vcpu_id v); VNum 32 0x2345bcde] ≫= fun _ =>
     print1 a (lit "CPU(0x%02x): Actual:   0x%08lx") [VNum 32 (vcpu_id v); VNum (ptr_bits a) ans] ≫= fun _ =>
     spin_lock (pal_lock s) ≫= fun _ =>
     print1 a (lit "CPU(0x%02x): Locked pal_lock") [VNum 32 (vcpu_id v)] ≫= fun _ =>
     lift (Err NoFuel)
   else mret tt) ≫= fun _ =>
  x ← vmcall (ulong a (TV_HC_UNREG + arg)) pal_entry 0 0 0;
  ASSERT_io (x =? 0) ≫= fun _ =>
  print1 a (lit "CPU(0x%02x): completed PAL 0x%x") [VNum 32 (vcpu_id v); VNum (ptr_bits a) arg].

(** The part of [user_main] between taking and giving back the semaphore. *)
Definition user_body (v : VCPU) (arg : Z) : IO unit :=
  '(eax, _, _, _) ← cpuid 0x46484d58;
  if eax =? 0x46484d58 then
    '(eax, ebx, _, _) ← cpuid_raw 0x7a567254 arg;
    ASSERT_io (eax =? 0x7a767274) ≫= fun _ =>
    ASSERT_io (ebx =? 0xffffffff) ≫= fun _ =>
    user_main_pal_demo v arg
  else print1 a (lit "CPU(0x%02x): can enter user mode 0x%x") [VNum 32 (vcpu_id v); VNum (ptr_bits a) arg].

(** One attempt to take the semaphore, and the loop around it. *)
Definition pal_try : IO bool :=
  spin_lock (pal_lock s) ≫= fun _ =>
  load 4 (pal_available s) ≫= fun n : Z =>
  (if negb (n =? 0) then store 4 (pal_available s) (n - 1) else mret tt) ≫= fun _ =>
  spin_unlock (pal_lock s) ≫= fun _ =>
  mret (negb (n =? 0)).
Fixpoint pal_acquire (fuel : nat) : IO unit :=
  match fuel with
  | O => lift (Err NoFuel)
  | S fuel => pal_try ≫= fun b : bool => if b then mret tt else pal_acquire fuel
  end.
Definition pal_release : IO unit :=
  spin_lock (pal_lock s) ≫= fun _ =>
  n ← load 4 (pal_available s);
  store 4 (pal_available s) (n + 1) ≫= fun _ =>
  spin_unlock (pal_lock s).

(** [leave_user_mode] raises the system call whose handler is [handle_shv_syscall]; the value is what [eax] holds. *)
Definition leave_user_mode : Z := 0xdeaddead.
Definition user_main (fuel : nat) (v : VCPU) (arg : Z) : IO Z :=
  pal_acquire fuel ≫= fun _ =>
  user_body v arg ≫= fun _ =>
  pal_release ≫= fun _ =>
  mret leave_user_mode.
End user.
