(* ===== verification/UserProps.v ===== *)
(** What the page tables of user mode map, and the frame with which user mode is entered. *)
From Stdlib Require Import String.
From S2P Require Import Prelude.
From S2P Require Import HptConsts.
From S2P Require Import Hpt.
From S2P Require Import HptLemmas.
From S2P Require Import Mem.
From S2P Require Import LibcString.
From S2P Require Import CString.
From S2P Require Import Cmdline.
From S2P Require Import Hpto.
From S2P Require Import Walk.
From S2P Require Import Paging.
From S2P Require Import Io.
From S2P Require Import Timer.
From S2P Require Import Desc.
From S2P Require Import VmcsFields.
From S2P Require Import Vmcs.
From S2P Require Import Vcpu.
From S2P Require Import Vmx.
From S2P Require Import VmxProps.
From S2P Require Import User.

(** ** The loops *)

Lemma fill_table_loop n w tbl i paddr m :
  0 <= i -> table_loop n w tbl 0 0 7 PT_PAGE_SIZE_4K i paddr m = Ok (fill_loop n w tbl i paddr m).2.
Proof.
  revert i paddr m. induction n as [|n IH]; intros i paddr m Hi; [done|]. cbn [table_loop fill_loop].
  rewrite (proj2 (Z.ltb_ge i 0)) by done. cbn [mbind res_bind]. by apply IH; lia.
Qed.

Lemma fill_loop_addr n w tbl i paddr m :
  0 <= paddr -> paddr + 4096 * Z.of_nat n < 2 ^ 64 -> (fill_loop n w tbl i paddr m).1 = paddr + 4096 * Z.of_nat n.
Proof.
  revert i paddr m. induction n as [|n IH]; intros i paddr m Hp Hn; cbn [fill_loop]; [cbn; lia|].
  assert (u64 (paddr + PT_PAGE_SIZE_4K) = paddr + 4096) as -> by (apply wrap_small; unfold is_u; change PT_PAGE_SIZE_4K with 4096; lia).
  rewrite IH by lia. lia.
Qed.

(** What a loop over [n] entries leaves, and the address it reaches. *)
Lemma fill_loop_ok n w tbl paddr m :
  (0 < w)%nat -> 0 <= paddr -> paddr + 4096 * Z.of_nat n < 2 ^ 64 ->
  (forall i, 0 <= i < Z.of_nat n -> is_u (8 * Z.of_nat w) (Z.lor 7 (paddr + 4096 * i))) ->
  exists m', fill_loop n w tbl 0 paddr m = (paddr + 4096 * Z.of_nat n, m') /\
    filled w tbl (Z.of_nat n) (fun i => Z.lor 7 (paddr + 4096 * i)) m' /\
    agree (fun a => ~ in_range tbl (Z.of_nat w * Z.of_nat n) a) m m'.
Proof.
  intros Hw Hp Hn Hfit. pose proof (fill_loop_addr n w tbl 0 paddr m Hp Hn) as Ha.
  destruct (table_loop_ok n w tbl 0 0 7 PT_PAGE_SIZE_4K paddr m) as (m' & E & Hf & Hag);
    [done|lia|by right|lia|done|change PT_PAGE_SIZE_4K with 4096; lia|done|intros i Hi; lia|].
  rewrite fill_table_loop in E by done. injection E as E. exists m'.
  destruct (fill_loop n w tbl 0 paddr m) as [p x]. cbn in *. by subst.
Qed.

Lemma filled_app w tbl n k f m :
  0 <= n -> filled w tbl n f m -> filled w (tbl + Z.of_nat w * n) k (fun i => f (n + i)) m -> filled w tbl (n + k) f m.
Proof.
  intros Hn H1 H2 i Hi. destruct (decide (i < n)) as [|Hni]; [apply H1; lia|].
  specialize (H2 (i - n) ltac:(lia)). cbn beta in H2. replace (n + (i - n)) with i in H2 by lia.
  replace (tbl + Z.of_nat w * n + Z.of_nat w * (i - n)) with (tbl + Z.of_nat w * i) in H2 by lia. exact H2.
Qed.
Lemma filled_ext w tbl n f g m : (forall i, 0 <= i < n -> f i = g i) -> filled w tbl n f m -> filled w tbl n g m.
Proof. intros H Hf i Hi. rewrite <- H by done. by apply Hf. Qed.

Lemma lor_fits w flags p : 8 <= w -> is_u 8 flags -> is_u w p -> is_u w (Z.lor flags p).
Proof.
  intros Hw Hf Hp. apply is_u_of_testbit; [lia|apply Z.lor_nonneg; unfold is_u in *; lia|]. intros i Hi.
  by rewrite Z.lor_spec, (is_u_testbit_high 8 flags), (is_u_testbit_high w p) by (done || lia).
Qed.

(** The bytes of two arrays. *)
Definition outside2 (a n b k x : Z) : Prop := ~ in_range a n x /\ ~ in_range b k x.

Section dir.
Context (n per w : nat) (dir tbl p0 : Z).
Context (Hw : (0 < w)%nat) (Hper : Z.of_nat w * Z.of_nat per = 4096) (Hp0 : 0 <= p0) (Htbl : 0 <= tbl).
Context (Hmax : p0 + 4096 * Z.of_nat per * Z.of_nat n < 2 ^ 64).
Context (Hfit : p0 + 4096 * Z.of_nat per * Z.of_nat n <= 2 ^ (8 * Z.of_nat w)) (Htfit : tbl + 4096 * Z.of_nat n <= 2 ^ (8 * Z.of_nat w)).
Context (Hdisj : disjoint_from dir (Z.of_nat w * Z.of_nat n) tbl (4096 * Z.of_nat n)).
Abbreviation entry_of i := (Z.lor 7 (tbl + 4096 * i)).
Abbreviation page_of i := (Z.lor 7 (p0 + 4096 * i)).
Abbreviation untouched := (outside2 dir (Z.of_nat w * Z.of_nat n) tbl (4096 * Z.of_nat n)).

Lemma dir_loop_from k j m :
  Z.of_nat k + j = Z.of_nat n -> 0 <= j -> filled w dir j (fun i => entry_of i) m -> filled w tbl (Z.of_nat per * j) (fun i => page_of i) m ->
  exists m', dir_loop k per w dir tbl j (p0 + 4096 * Z.of_nat per * j) m = (p0 + 4096 * Z.of_nat per * Z.of_nat n, m') /\
    filled w dir (Z.of_nat n) (fun i => entry_of i) m' /\ filled w tbl (Z.of_nat per * Z.of_nat n) (fun i => page_of i) m' /\
    agree untouched m m'.
Proof.
  revert j m. induction k as [|k IH]; intros j m Hk Hj Hd Hp; cbn [dir_loop].
  - assert (j = Z.of_nat n) as -> by lia. exists m. by split_and!.
  - set (m1 := st w m _ _). unfold disjoint_from in Hdisj.
    assert (is_u (8 * Z.of_nat w) (entry_of j)) as Hej by (apply lor_fits; [lia|done|unfold is_u; lia]).
    assert (filled w dir (j + 1) (fun i => entry_of i) m1) as Hd1 by (by apply filled_st).
    destruct (fill_loop_ok per w (tbl + 4096 * j) (p0 + 4096 * Z.of_nat per * j) m1) as (m2 & -> & Hf & Ha); [done|nia|nia| |].
    { intros i Hi. apply lor_fits; [lia|done|]. unfold is_u. nia. }
    destruct (IH (j + 1) m2) as (m' & E & Hd' & Hp' & Hag); [lia|lia| | |].
    + eapply filled_agree; [exact Ha| |exact Hd1]. unfold in_range. nia.
    + replace (Z.of_nat per * (j + 1)) with (Z.of_nat per * j + Z.of_nat per) by lia. apply filled_app; [lia| |].
      * eapply filled_agree; [exact Ha|unfold in_range; nia|].
        eapply (filled_agree _ _ _ _ m m1 (fun x => ~ in_range (dir + Z.of_nat w * j) (Z.of_nat w) x)); [|unfold in_range; nia|exact Hp].
        apply agree_st. tauto.
      * replace (tbl + Z.of_nat w * (Z.of_nat per * j)) with (tbl + 4096 * j) by nia.
        eapply filled_ext; [|exact Hf]. intros i _. cbn. f_equal. lia.
    + exists m'. split; [|split_and!; [done..|]].
      * rewrite <- E. f_equal. lia.
      * eapply agree_trans; [|exact Hag]. eapply agree_trans; [apply agree_st|eapply agree_weaken; [|exact Ha]];
          unfold outside2, in_range; nia.
Qed.

Lemma dir_loop_ok m :
  exists m', dir_loop n per w dir tbl 0 p0 m = (p0 + 4096 * Z.of_nat per * Z.of_nat n, m') /\
    filled w dir (Z.of_nat n) (fun i => entry_of i) m' /\ filled w tbl (Z.of_nat per * Z.of_nat n) (fun i => page_of i) m' /\
    agree untouched m m'.
Proof.
  destruct (dir_loop_from n 0 m) as (m' & E & H); [lia|lia|intros i Hi; lia|intros i Hi; lia|].
  rewrite Z.mul_0_r, Z.add_0_r in E. by exists m'.
Qed.
End dir.

Section pae.
Context (n per : nat) (pdpt pdt pt : Z).
Context (Hper : Z.of_nat per = 512) (Hn : Z.of_nat n <= 4) (Hpdt0 : 0 <= pdt) (Hpt0 : 0 <= pt).
Abbreviation N := (Z.of_nat n).
Context (Hpdt : pdt + 4096 * N <= 2 ^ 52) (Hpt : pt + 2097152 * N <= 2 ^ 52).
Context (D1 : disjoint_from pdpt (8 * N) pdt (4096 * N)) (D2 : disjoint_from pdpt (8 * N) pt (2097152 * N))
  (D3 : disjoint_from pdt (4096 * N) pt (2097152 * N)).
Abbreviation filled_to j m :=
  (filled 8 pdpt j (fun i => Z.lor 1 (pdt + 4096 * i)) m /\ filled 8 pdt (512 * j) (fun i => Z.lor 7 (pt + 4096 * i)) m /\
   filled 8 pt (262144 * j) (fun i => Z.lor 7 (4096 * i)) m).

Lemma pdpt_step j m :
  0 <= j < N -> filled_to j m ->
  exists m', dir_loop per per 8 (pdt + 4096 * j) (pt + 2097152 * j) 0 (1073741824 * j)
      (st 8 m (pdpt + 8 * j) (Z.lor 1 (pdt + 4096 * j))) = (1073741824 * (j + 1), m') /\ filled_to (j + 1) m'.
Proof.
  intros Hj (F1 & F2 & F3). set (m1 := st 8 m _ _). unfold disjoint_from in *.
  destruct (dir_loop_ok per per 8 (pdt + 4096 * j) (pt + 2097152 * j) (1073741824 * j)) with (m := m1) as (m' & E & G2 & G3 & Ha);
    rewrite ?Hper in *; [lia|lia|lia|lia|lia|lia|lia|unfold disjoint_from; lia|].
  assert (agree (fun x => ~ in_range (pdpt + 8 * j) 8 x) m m1) as Ha1 by (apply agree_st; cbn; tauto).
  assert (forall b k f, b + 8 * k <= pdpt + 8 * j \/ pdpt + 8 * j + 8 <= b -> filled 8 b k f m -> filled 8 b k f m1) as K1.
  { intros b k f Hb. apply (filled_agree _ _ _ _ _ _ _ Ha1). unfold in_range. lia. }
  assert (forall b k f, b + 8 * k <= pdt + 4096 * j \/ pdt + 4096 * j + 4096 <= b ->
    b + 8 * k <= pt + 2097152 * j \/ pt + 2097152 * j + 2097152 <= b -> filled 8 b k f m1 -> filled 8 b k f m') as K2.
  { intros b k f Hb Hb'. apply (filled_agree _ _ _ _ _ _ _ Ha). unfold outside2, in_range. lia. }
  exists m'. split; [rewrite E; f_equal; lia|]. split_and!.
  - apply K2; [lia|lia|]. apply (filled_st 8 pdpt j); [lia|lia| |done|exact F1].
    apply lor_fits; [lia|done|unfold is_u; lia].
  - replace (512 * (j + 1)) with (512 * j + 512) by lia. apply filled_app; [lia|apply K2; [lia|lia|]; apply K1; [lia|done]|].
    replace (pdt + Z.of_nat 8 * (512 * j)) with (pdt + 4096 * j) by lia.
    eapply filled_ext; [|exact G2]. intros i _. cbn beta. f_equal. lia.
  - replace (262144 * (j + 1)) with (262144 * j + 512 * 512) by lia. apply filled_app; [lia|apply K2; [lia|lia|]; apply K1; [lia|done]|].
    replace (pt + Z.of_nat 8 * (262144 * j)) with (pt + 2097152 * j) by lia.
    eapply filled_ext; [|exact G3]. intros i _. cbn beta. f_equal. lia.
Qed.

Lemma pdpt_loop_from k j m :
  Z.of_nat k + j = N -> 0 <= j -> filled_to j m ->
  exists m', (pdpt_loop k per 8 pdpt pdt pt j (1073741824 * j) m).2 = m' /\ filled_to N m'.
Proof.
  revert j m. induction k as [|k IH]; intros j m Hk Hj Hf; cbn [pdpt_loop].
  - assert (j = N) as -> by lia. by exists m.
  - destruct (pdpt_step j m) as (m1 & E & Hf1); [lia|done|]. change (Z.of_nat 8) with 8.
    replace (pt + 4096 * Z.of_nat per * j) with (pt + 2097152 * j) by lia. rewrite E. apply IH; [lia|lia|done].
Qed.

Lemma pdpt_loop_ok m : exists m', (pdpt_loop n per 8 pdpt pdt pt 0 0 m).2 = m' /\ filled_to N m'.
Proof. apply (pdpt_loop_from n 0 m); [lia|lia|]. split_and!; intros i Hi; lia. Qed.
End pae.

(** ** The mapping *)

(** An entry that lets user mode read and write; the four entries at the top of PAE paging have no such bits. *)
Definition entry_user (t : hpt_type_t) (lvl e : Z) : Prop :=
  t = HPT_TYPE_PAE /\ lvl = 3 \/ Z.testbit e 1 = true /\ Z.testbit e 2 = true.
(** The walk from a table ends in a page that maps the address to itself, and all entries it goes through allow user mode. *)
Definition user_from (t : hpt_type_t) (lvl tbl va : Z) (m : mem) : Prop :=
  (exists e, leaf_of t (walk t lvl tbl va m) = Some (1, e) /\ pme_addr t 1 e = va - va mod 4096) /\
  forall l p, path t m va lvl tbl l p -> entry_user t l (ld_pme t l p va m).
Definition maps_user (t : hpt_type_t) (root limit : Z) (m : mem) : Prop :=
  forall va, 0 <= va < limit -> user_from t (max_lvl t) root va m.

Lemma path_head t m va k q l p :
  path t m va k q l p ->
  (l = k /\ p = q) \/
  (descends t k (ld_pme t k q va m) = true /\ path t m va (k - 1) (pme_addr t k (ld_pme t k q va m)) l p).
Proof.
  induction 1 as [|l p Hp IH Hd]; [by left|]. right. destruct IH as [[-> ->]|[Hk IH]].
  - split; [done|constructor].
  - split; [done|by constructor].
Qed.

Lemma user_points t lvl b n flags b' va m :
  t = HPT_TYPE_NORM \/ t = HPT_TYPE_PAE \/ t = HPT_TYPE_LONG -> lvl_ok t lvl -> 1 < lvl ->
  0 <= va -> va / 2 ^ sh t lvl < n -> points t lvl b n flags b' m -> entry_user t lvl flags ->
  user_from t (lvl - 1) (tbl_of t (lvl - 1) b' va) va m -> user_from t lvl (tbl_of t lvl b va) va m.
Proof.
  intros Ht Hl H1 Hv Hn Hp Hu [Hw Hpath].
  destruct (entry_points t lvl b n flags b' va m Ht Hl H1 Hv Hn Hp) as (Hd & Ha & Hb). split.
  - by rewrite (walk_points t lvl b n flags b').
  - intros l p Hlp. apply path_head in Hlp as [[-> ->]|[_ Hlp]].
    + unfold entry_user in *. by rewrite !Hb by lia.
    + rewrite Ha in Hlp. by apply Hpath.
Qed.

Lemma user_pages t b n va m :
  t = HPT_TYPE_NORM \/ t = HPT_TYPE_PAE \/ t = HPT_TYPE_LONG ->
  0 <= va -> va / 4096 < n -> filled (pme_nbytes t) b n (fun i => Z.lor 7 (0 + 4096 * i)) m -> 4096 * n <= 2 ^ (addr_hi t + 1) ->
  user_from t 1 (tbl_of t 1 b va) va m.
Proof.
  intros Ht Hv Hn Hf Hmax. assert (2 ^ sh t 1 = 4096) as Es by (destruct Ht as [->|[->| ->]]; done).
  assert (lvl_ok t 1) as Hl by (unfold lvl_ok; destruct Ht as [->|[->| ->]]; cbn; lia).
  destruct (walk_identity t 1 b n 7 va m Ht Hl Hv) as (e & Hleaf & Haddr & Hb).
  - by rewrite Es.
  - unfold identity. rewrite Es. split_and!; try done. by left.
  - split.
    + exists e. by rewrite Haddr, Es.
    + assert (descends t 1 (ld_pme t 1 (tbl_of t 1 b va) va m) = false) as Hd.
      { destruct (descends t 1 _) eqn:E; [by apply descends_lvl in E|done]. }
      intros l p Hp. apply path_head in Hp as [[-> ->]|[E _]]; [|by rewrite Hd in E]. right.
      assert (ld_pme t 1 (tbl_of t 1 b va) va m = e) as ->; [|by rewrite !Hb by lia].
      rewrite walk_unfold in Hleaf by lia. cbv zeta in Hleaf. rewrite Hd in Hleaf. cbn [leaf_of] in Hleaf.
      destruct (pme_present t _); [by injection Hleaf|done].
Qed.

(** Where the linker may put the tables. *)
Definition user_layout (a : subarch) (amd64_max : Z) (s : user_syms) : Prop :=
  let aligned b n top := 0 <= b /\ b mod 4096 = 0 /\ b + 4096 * n <= 2 ^ top in
  match a with
  | AMD64 =>
      let n3 := P4L_NPDPT amd64_max in let n2 := P4L_NPDT amd64_max in let n1 := P4L_NPT amd64_max in
      ADDR_4GB <= amd64_max <= 2 ^ 48 /\ 0 <= user_pml4t s /\
      aligned (user_pdpt s) n3 47 /\ aligned (user_pdt s) n2 47 /\ aligned (user_pt s) n1 47 /\
      disjoint_from (user_pml4t s) 4096 (user_pdpt s) (4096 * n3) /\ disjoint_from (user_pml4t s) 4096 (user_pdt s) (4096 * n2) /\
      disjoint_from (user_pml4t s) 4096 (user_pt s) (4096 * n1) /\ disjoint_from (user_pdpt s) (4096 * n3) (user_pdt s) (4096 * n2) /\
      disjoint_from (user_pdpt s) (4096 * n3) (user_pt s) (4096 * n1) /\ disjoint_from (user_pdt s) (4096 * n2) (user_pt s) (4096 * n1)
  | I386_PAE =>
      aligned (user_pdt s) 4 32 /\ aligned (user_pt s) 2048 32 /\
      disjoint_from (user_pdpt s) 32 (user_pdt s) 16384 /\ disjoint_from (user_pdpt s) 32 (user_pt s) 8388608 /\
      disjoint_from (user_pdt s) 16384 (user_pt s) 8388608
  | I386 => aligned (user_pt s) 1024 32 /\ disjoint_from (user_pdt s) 4096 (user_pt s) 4194304
  end.

Lemma user_norm amd64_max s m :
  user_layout I386 amd64_max s ->
  exists m', user_tables I386 amd64_max s m = (user_pdt s, m') /\ maps_user HPT_TYPE_NORM (user_pdt s) (2 ^ 32) m'.
Proof.
  intros ((H0 & Hal & Hmax) & Hd). unfold user_tables.
  destruct (dir_loop_ok (Z.to_nat P32_NEPT) (Z.to_nat P32_NEPT) 4 (user_pdt s) (user_pt s) 0) with (m := m) as (m' & -> & F2 & F1 & _);
    rewrite ?Z2Nat.id by done; change P32_NEPT with 1024; [lia|lia|lia|lia|lia|lia|lia|exact Hd|].
  rewrite !Z2Nat.id in * by done. change P32_NEPT with 1024 in *. eexists. split; [done|].
  intros va Hva. rewrite <- (tbl_of_root HPT_TYPE_NORM (user_pdt s) va) at 1 by done. change (max_lvl HPT_TYPE_NORM) with 2.
  apply (user_points HPT_TYPE_NORM 2 (user_pdt s) 1024 7 (user_pt s)); [by left|unfold lvl_ok; cbn; lia|lia|lia| | |by right|].
  - change (2 ^ sh HPT_TYPE_NORM 2) with (2 ^ 22). apply Z.div_lt_upper_bound; lia.
  - by split_and!.
  - apply (user_pages _ _ (1024 * 1024)); [by left|lia|apply Z.div_lt_upper_bound; lia|exact F1|done].
Qed.

Lemma user_pae amd64_max s m :
  user_layout I386_PAE amd64_max s ->
  exists m', user_tables I386_PAE amd64_max s m = (user_pdpt s, m') /\ maps_user HPT_TYPE_PAE (user_pdpt s) (2 ^ 32) m'.
Proof.
  intros ((H0 & Hal & Hmax) & (H0' & Hal' & Hmax') & D1 & D2 & D3). unfold user_tables.
  destruct (pdpt_loop_ok (Z.to_nat PAE_NPDPTE) (Z.to_nat PAE_NEPT) (user_pdpt s) (user_pdt s) (user_pt s)) with (m := m)
    as (m' & -> & F3 & F2 & F1); rewrite ?Z2Nat.id by done; change PAE_NEPT with 512; change PAE_NPDPTE with 4;
    [lia|lia|lia|lia|lia|done|done|done|].
  rewrite !Z2Nat.id in * by done. change PAE_NPDPTE with 4 in *. eexists. split; [done|].
  assert (2 ^ (addr_hi HPT_TYPE_PAE + 1) = 2 ^ 52) as Ea by done.
  intros va Hva. rewrite <- (tbl_of_root HPT_TYPE_PAE (user_pdpt s) va) at 1 by done. change (max_lvl HPT_TYPE_PAE) with 3.
  apply (user_points HPT_TYPE_PAE 3 (user_pdpt s) 4 1 (user_pdt s)); [by right; left|unfold lvl_ok; cbn; lia|lia|lia| | |by left|].
  - change (2 ^ sh HPT_TYPE_PAE 3) with (2 ^ 30). apply Z.div_lt_upper_bound; lia.
  - split_and!; try done. rewrite Ea. lia.
  - apply (user_points HPT_TYPE_PAE 2 (user_pdt s) 2048 7 (user_pt s)); [by right; left|unfold lvl_ok; cbn; lia|lia|lia| | |by right|].
    + change (2 ^ sh HPT_TYPE_PAE 2) with (2 ^ 21). apply Z.div_lt_upper_bound; lia.
    + split_and!; try done. rewrite Ea. lia.
    + apply (user_pages _ _ (262144 * 4)); [by right; left|lia|apply Z.div_lt_upper_bound; lia|exact F1|by rewrite Ea].
Qed.

Lemma user_long amd64_max s m :
  user_layout AMD64 amd64_max s ->
  exists m', user_tables AMD64 amd64_max s m = (user_pml4t s, m') /\
    maps_user HPT_TYPE_LONG (user_pml4t s) (map_limit AMD64 amd64_max) m'.
Proof.
  intros (Hmax & H4 & (H30 & H3al & H3) & (H20 & H2al & H2) & (H10 & H1al & H1) & D43 & D42 & D41 & D32 & D31 & D21).
  destruct (P4L_bounds amd64_max Hmax) as (N3 & N2 & N1). unfold ADDR_4GB in Hmax. unfold map_limit, user_tables.
  unfold disjoint_from in *. change PAE_NEPT with 512.
  set (n3 := P4L_NPDPT amd64_max) in *. set (n2 := P4L_NPDT amd64_max) in *. set (n1 := P4L_NPT amd64_max) in *.
  assert (1 <= n3 <= 512 /\ 4 <= n2 <= 512 * n3 /\ 2048 <= n1 <= 512 * n2) as Hn by lia.
  destruct (fill_loop_ok (Z.to_nat n3) 8 (user_pml4t s) (user_pdpt s) m) as (m1 & -> & F4 & A4);
    [lia|lia|lia|intros; apply entry_fits; [lia|done|lia]|]. cbn [snd].
  destruct (fill_loop_ok (Z.to_nat n2) 8 (user_pdpt s) (user_pdt s) m1) as (m2 & -> & F3 & A3);
    [lia|lia|lia|intros; apply entry_fits; [lia|done|lia]|]. cbn [snd].
  destruct (fill_loop_ok (Z.to_nat n1) 8 (user_pdt s) (user_pt s) m2) as (m3 & -> & F2 & A2);
    [lia|lia|lia|intros; apply entry_fits; [lia|done|lia]|]. cbn [snd].
  destruct (fill_loop_ok (Z.to_nat (n1 * 512)) 8 (user_pt s) 0 m3) as (m4 & -> & F1 & A1);
    [lia|lia|lia|intros; apply entry_fits; [lia|done|lia]|]. cbn [snd].
  rewrite Z2Nat.id in * by lia. eexists. split; [done|]. assert (2 ^ (addr_hi HPT_TYPE_LONG + 1) = 2 ^ 52) as Ea by done.
  assert (points HPT_TYPE_LONG 4 (user_pml4t s) n3 7 (user_pdpt s) m4) as P4.
  { split_and!; try done; [|rewrite Ea; lia]. eapply filled_agree; [exact A1|unfold in_range; cbn; lia|].
    eapply filled_agree; [exact A2|unfold in_range; cbn; lia|]. eapply filled_agree; [exact A3|unfold in_range; cbn; lia|exact F4]. }
  assert (points HPT_TYPE_LONG 3 (user_pdpt s) n2 7 (user_pdt s) m4) as P3.
  { split_and!; try done; [|rewrite Ea; lia]. eapply filled_agree; [exact A1|unfold in_range; cbn; lia|].
    eapply filled_agree; [exact A2|unfold in_range; cbn; lia|exact F3]. }
  assert (points HPT_TYPE_LONG 2 (user_pdt s) n1 7 (user_pt s) m4) as P2.
  { split_and!; try done; [|rewrite Ea; lia]. eapply filled_agree; [exact A1|unfold in_range; cbn; lia|exact F2]. }
  intros va Hva.
  rewrite <- (tbl_of_root HPT_TYPE_LONG (user_pml4t s) va) at 1 by (change (2 ^ sh HPT_TYPE_LONG (max_lvl HPT_TYPE_LONG + 1)) with (2 ^ 48); lia).
  apply (user_points HPT_TYPE_LONG 4 (user_pml4t s) n3 7 (user_pdpt s)); [by right; right|unfold lvl_ok; cbn; lia|lia|lia| |done|by right|].
  { change (2 ^ sh HPT_TYPE_LONG 4) with (2 ^ 39). apply Z.div_lt_upper_bound; lia. }
  apply (user_points HPT_TYPE_LONG 3 (user_pdpt s) n2 7 (user_pdt s)); [by right; right|unfold lvl_ok; cbn; lia|lia|lia| |done|by right|].
  { change (2 ^ sh HPT_TYPE_LONG 3) with (2 ^ 30). apply Z.div_lt_upper_bound; lia. }
  apply (user_points HPT_TYPE_LONG 2 (user_pdt s) n1 7 (user_pt s)); [by right; right|unfold lvl_ok; cbn; lia|lia|lia| |done|by right|].
  { change (2 ^ sh HPT_TYPE_LONG 2) with (2 ^ 21). apply Z.div_lt_upper_bound; lia. }
  apply (user_pages _ _ (n1 * 512)); [by right; right|lia|apply Z.div_lt_upper_bound; lia|exact F1|rewrite Ea; lia].
Qed.

(** C17: The page tables of user mode map every address below the limit of the configuration to itself in 4 KiB pages
    that user mode may read and write, and so may every entry on the way to the page, in each of the three kinds of paging. *)
Theorem user_tables_map a amd64_max s m :
  user_layout a amd64_max s ->
  exists root m', user_tables a amd64_max s m = (root, m') /\ maps_user (page_type a) root (map_limit a amd64_max) m'.
Proof.
  intros Hl. destruct a.
  - destruct (user_norm amd64_max s m Hl) as (m' & ? & ?). eauto.
  - destruct (user_pae amd64_max s m Hl) as (m' & ? & ?). eauto.
  - destruct (user_long amd64_max s m Hl) as (m' & ? & ?). eauto.
Qed.

Definition demo_user : user_syms :=
  mkUserSyms 0x100000 0x110000 0x120000 0x200000 0x201000 0x202000 0x210000 0x121000 0x121008 0x130000 0x131000 0x131010 0x131100
    0x140000 0x150000 0x160000 0x170000 0x180000 0x180004.

Lemma user_tables_map_witness :
  exists root m', user_tables AMD64 (2 ^ 33) demo_user ∅ = (root, m') /\ maps_user HPT_TYPE_LONG root (2 ^ 33) m'.
Proof. apply (user_tables_map AMD64 (2 ^ 33) demo_user). vm_compute. intuition congruence. Defined.

(** ** Entering user mode *)

Section enter.
Context (a : subarch) (amd64_max : Z) (s : user_syms) (g : opts) (ds : desc_syms).
Abbreviation pb := (ptr_bits a / 8).

(** [n] bytes at [p] are not among the [k] bytes at [q]. *)
Abbreviation apart := disjoint_from.

(** The variables are not in the stack pages of the processor, nor in its TSS. *)
Definition enter_layout (idx : Z) : Prop :=
  let stack := user_stack s + 4096 * idx in
  apart stack 4096 (u_lock s) 4 /\ apart stack 4096 (u_initialized s) pb /\ apart stack 4096 (tss_at ds idx) 12 /\
  apart (tss_at ds idx) 12 (u_lock s) 4 /\ apart (tss_at ds idx) 12 (u_initialized s) pb /\ apart (u_lock s) 4 (u_initialized s) pb.

(** What [IRET] pops from the frame, and what the program finds on its stack and in its registers. *)
Record user_frame (v : VCPU) (arg : Z) (m : mem) : Prop := {
  uf_eip : ld (Z.to_nat pb) m (ureg_eip a (ureg_of a s (vcpu_idx v))) = s_user_main s;
  uf_cs : ld (Z.to_nat pb) m (ureg_cs a (ureg_of a s (vcpu_idx v))) = __CS_R3;
  uf_eflags : ld (Z.to_nat pb) m (ureg_eflags a (ureg_of a s (vcpu_idx v))) = user_eflags g;
  uf_esp : ld (Z.to_nat pb) m (ureg_esp a (ureg_of a s (vcpu_idx v))) = stack_slot a s (vcpu_idx v) 3;
  uf_ss : ld (Z.to_nat pb) m (ureg_ss a (ureg_of a s (vcpu_idx v))) = __DS_R3;
  uf_ret : ld (Z.to_nat pb) m (stack_slot a s (vcpu_idx v) 3) = 0xdeadbeef;
  uf_args : match a with
            | AMD64 => ld 8 m (ureg_rdi (ureg_of a s (vcpu_idx v))) = vcpu_addr v /\ ld 8 m (ureg_rsi (ureg_of a s (vcpu_idx v))) = arg
            | _ => ld 4 m (stack_slot a s (vcpu_idx v) 3 + 4) = vcpu_addr v /\ ld 4 m (stack_slot a s (vcpu_idx v) 3 + 8) = arg
            end;
  uf_tss : ld (Z.to_nat pb) m (tss_at ds (vcpu_idx v) + 4) = interrupt_top_of s (vcpu_idx v);
  uf_regs : forall k, 0 <= k < sizeof_regs a -> (a = AMD64 -> k < 64 \/ 80 <= k) -> rd8 m (ureg_of a s (vcpu_idx v) + k) = 0 }.

(** The memory before the page tables are set. *)
Definition frame_mem (v : VCPU) (arg : Z) (m : mem) : mem :=
  let idx := vcpu_idx v in
  let ureg := ureg_of a s idx in
  let m := (memset ureg 0 (sizeof_regs a) m).2 in
  let m := st (Z.to_nat pb) m (ureg_eip a ureg) (s_user_main s) in
  let m := st (Z.to_nat pb) m (ureg_cs a ureg) __CS_R3 in
  let m := st (Z.to_nat pb) m (ureg_eflags a ureg) (user_eflags g) in
  let m := st (Z.to_nat pb) m (ureg_esp a ureg) (stack_slot a s idx 3) in
  let m := st (Z.to_nat pb) m (ureg_ss a ureg) __DS_R3 in
  match enter_args a s ds v arg (mkW m []) with Ok (_, w) => w_mem w | Err _ => m end.

Lemma enter_user_frame v arg w :
  enter_user_mode a amd64_max s g ds v arg w =
  (set_user_mode_page_table a amd64_max s ≫= fun _ => mret (ureg_of a s (vcpu_idx v), esp0_of a s (vcpu_idx v)))
    (mkW (frame_mem v arg (w_mem w)) (w_tr w)).
Proof. unfold frame_mem. by destruct a. Qed.

(** Once the tables are there, they are only loaded. *)
Lemma set_user_again w root :
  ld 4 (w_mem w) (u_lock s) = 0 -> ld (Z.to_nat pb) (w_mem w) (u_initialized s) = root -> root <> 0 ->
  apart (u_lock s) 4 (u_initialized s) pb ->
  set_user_mode_page_table a amd64_max s w =
  Ok (tt, mkW (st 4 (st 4 (w_mem w) (u_lock s) 1) (u_lock s) 0) (ESetReg RCR3 (wrap (ptr_bits a) root) :: w_tr w)).
Proof.
  intros Hl Hi Hr Hd. unfold set_user_mode_page_table, spin_lock, spin_unlock.
  assert (Z.of_nat (Z.to_nat pb) = pb) as Epb by (by destruct a).
  assert (forall x, ld (Z.to_nat pb) (st 4 x (u_lock s) 1) (u_initialized s) = ld (Z.to_nat pb) x (u_initialized s)) as E.
  { intros x. apply ld_st_other. unfold disjoint_from in Hd. lia. }
  unfold mbind, IO_bind, load, store. cbn [w_mem w_tr]. rewrite Hl. cbn [Z.eqb w_mem w_tr].
  rewrite E, Hi, (proj2 (Z.eqb_neq root 0)) by done. cbn [mret IO_ret w_mem w_tr]. by rewrite E, Hi.
Qed.

End enter.

(** Reads through stores to other places. *)
Lemma ld_st_at n m p q v : p = q -> is_u (8 * Z.of_nat n) v -> ld n (st n m p v) q = v.
Proof. intros -> H. by rewrite ld_st_gen, wrap_small. Qed.
Ltac reads := repeat rewrite ld_st_other by lia; rewrite ld_st_at; [done|lia|try done].

(** [frame_mem] as the stores of one configuration, over the address [B] of the stack page and [T] of the TSS. *)
Ltac unfold_frame a s ds v :=
  destruct a; unfold frame_mem, enter_args, ureg_eip, ureg_cs, ureg_eflags, ureg_esp, ureg_ss, ureg_rdi, ureg_rsi, mbind, IO_bind,
    store_ptr, store, emit, mret, IO_ret; cbn [w_mem w_tr];
  unfold ureg_of, sizeof_ureg, sizeof_regs, stack_slot, stack_top_of in *; cbn [ptr_bits] in *;
  change (32 / 8) with 4 in *; change (64 / 8) with 8 in *; change (Z.to_nat 4) with 4%nat in *; change (Z.to_nat 8) with 8%nat in *;
  generalize dependent (tss_at ds (vcpu_idx v)); intros T; intros;
  generalize dependent (user_stack s + 4096 * vcpu_idx v); intros B; intros.

(** The stores of the frame, read back. *)
Lemma frame_mem_ok a s g ds v arg m :
  enter_layout a s ds (vcpu_idx v) -> is_u (ptr_bits a) (s_user_main s) -> is_u (ptr_bits a) (vcpu_addr v) -> is_u (ptr_bits a) arg ->
  is_u (ptr_bits a) (interrupt_top_of s (vcpu_idx v)) -> is_u (ptr_bits a) (stack_slot a s (vcpu_idx v) 3) ->
  user_frame a s g ds v arg (frame_mem a s g ds v arg m).
Proof.
  intros (_ & _ & L3 & _ & _ & _) U1 U2 U3 U4 U5. unfold disjoint_from in L3.
  assert (is_u (ptr_bits a) (user_eflags g)) as U6 by (unfold user_eflags; destruct a, (opt_set _ _); by vm_compute).
  split; unfold_frame a s ds v; first [split; reads|reads|try match goal with H : AMD64 = AMD64 -> _ |- _ => specialize (H eq_refl) end; repeat rewrite rd8_st_other by (unfold in_range; lia)].
  all: rewrite rd8_memset by lia; bcase; try done; lia.
Qed.

Lemma frame_mem_agree a s g ds v arg m :
  agree (outside2 (user_stack s + 4096 * vcpu_idx v) 4096 (tss_at ds (vcpu_idx v)) 12) m (frame_mem a s g ds v arg m).
Proof.
  unfold_frame a s ds v; intros x [H1 H2]; unfold in_range in H1, H2;
    repeat rewrite rd8_st_other by (unfold in_range; lia); rewrite rd8_memset by lia; bcase; try done; lia.
Qed.

Lemma user_frame_agree a s g ds v arg m m' :
  agree (fun x => in_range (user_stack s + 4096 * vcpu_idx v) 4096 x \/ in_range (tss_at ds (vcpu_idx v)) 12 x) m m' ->
  user_frame a s g ds v arg m -> user_frame a s g ds v arg m'.
Proof.
  intros Ha [F1 F2 F3 F4 F5 F6 F7 F8 F9].
  assert (forall n p x, ld n m p = x ->
    (forall b, in_range p (Z.of_nat n) b -> in_range (user_stack s + 4096 * vcpu_idx v) 4096 b \/ in_range (tss_at ds (vcpu_idx v)) 12 b) ->
    ld n m' p = x) as K by (intros n p x <- Hp; by apply (ld_agree _ _ _ _ _ Ha)).
  split; try (apply K; [assumption|]); try (destruct a; (split; (apply K; [apply F7|]))); try (intros k Hk Hx; rewrite Ha; [by apply F9|]).
  all: clear - Hk || clear; try destruct a; unfold ureg_eip, ureg_cs, ureg_eflags, ureg_esp, ureg_ss, ureg_rdi, ureg_rsi, ureg_of,
    sizeof_ureg, sizeof_regs, stack_slot, stack_top_of, in_range in *; cbn [ptr_bits] in *;
    change (Z.of_nat (Z.to_nat (32 / 8))) with 4; change (Z.of_nat (Z.to_nat (64 / 8))) with 8; change (32 / 8) with 4; change (64 / 8) with 8; lia.
Qed.


Definition demo_user_mem : mem := st 8 ∅ (u_initialized demo_user) 0x200000.
Definition demo_tss : desc_syms := mkDescSyms 0x1000 0x3000 0x4000 0x5000.
