(* ===== verification/PalSem.v ===== *)
(** The semaphore of [src/shv-user.c]: [pal_available] under [pal_lock], as an interleaving of the accesses of the
    processors that run [user_main].  Taking the lock is the successful exchange of [spin_lock]; that it excludes other
    processors is shown in Spinlock. *)
From S2P Require Import Prelude.

(** Where a processor is in [user_main]; a number is the value of [pal_available] it has loaded, or the counter of the
    waiting loop. *)
Inductive upc :=
| Away                          (* before [user_main] *)
| Take                          (* line 292: [spin_lock] *)
| TestAvail                     (* line 293: the test *)
| DecLoad | DecStore (n : Z)    (* line 294: [pal_available--] *)
| TakeUnlock                    (* line 295 *)
| FullUnlock                    (* line 299 *)
| Poll (i : Z)                  (* line 300 *)
| Inside                        (* lines 306 to 320 *)
| WrongTake                     (* line 265: [spin_lock] in [user_main_pal_demo], after a wrong result *)
| Stuck                         (* lines 267 to 269: the loop that keeps the lock *)
| Give                          (* line 322: [spin_lock] *)
| IncLoad | IncStore (n : Z)    (* line 323: [pal_available++] *)
| GiveUnlock.                   (* line 324 *)
#[global] Instance upc_eq_dec : EqDecision upc.
Proof. solve_decision. Defined.

(** The next access of a processor to the lock and to [pal_available]; a processor that finds the lock taken stays.  [wrong]
    says that the PAL returned a wrong result: the processor then takes the lock and keeps it for ever. *)
Definition user_step (wrong : bool) (pc : upc) (lock avail : Z) : upc * Z * Z :=
  match pc with
  | Away => (Take, lock, avail)
  | Take => if lock =? 0 then (TestAvail, 1, avail) else (Take, lock, avail)
  | TestAvail => (if truth avail then DecLoad else FullUnlock, lock, avail)
  | DecLoad => (DecStore avail, lock, avail)
  | DecStore n => (TakeUnlock, lock, u32 (n - 1))
  | TakeUnlock => (Inside, 0, avail)
  | FullUnlock => (Poll 0, 0, avail)
  | Poll i => (if (i <? 4096) && negb (truth avail) then Poll (i + 1) else Take, lock, avail)
  | Inside => (if wrong then WrongTake else Give, lock, avail)
  | WrongTake => if lock =? 0 then (Stuck, 1, avail) else (WrongTake, lock, avail)
  | Stuck => (Stuck, lock, avail)
  | Give => if lock =? 0 then (IncLoad, 1, avail) else (Give, lock, avail)
  | IncLoad => (IncStore avail, lock, avail)
  | IncStore n => (GiveUnlock, lock, u32 (n + 1))
  | GiveUnlock => (Away, 0, avail)
  end.

Record ustate := mkU { us_lock : Z; us_avail : Z; us_pc : list upc }.
Definition uinit (n : nat) : ustate := mkU 0 3 (replicate n Away).
Inductive ustep : ustate -> ustate -> Prop :=
| ustep_cpu s i wrong pc pc' lock avail :
    us_pc s !! i = Some pc -> user_step wrong pc (us_lock s) (us_avail s) = (pc', lock, avail) ->
    ustep s (mkU lock avail (<[i := pc']> (us_pc s))).

(** Whether a processor holds the lock, and whether it has a unit of the semaphore. *)
Definition holds (pc : upc) : Z :=
  match pc with
  | TestAvail | DecLoad | DecStore _ | TakeUnlock | FullUnlock | IncLoad | IncStore _ | GiveUnlock | Stuck => 1
  | _ => 0
  end.
Definition has_unit (pc : upc) : Z :=
  match pc with TakeUnlock | Inside | WrongTake | Stuck | Give | IncLoad | IncStore _ => 1 | _ => 0 end.
Fixpoint total (f : upc -> Z) (l : list upc) : Z := match l with [] => 0 | pc :: l => f pc + total f l end.

(** What a processor knows while it holds the lock. *)
Definition knows (avail : Z) (pc : upc) : Prop :=
  match pc with
  | DecLoad => 0 < avail
  | DecStore n => 0 < avail /\ n = avail
  | IncStore n => n = avail
  | _ => True
  end.

Definition sem_inv (s : ustate) : Prop :=
  0 <= us_lock s <= 1 /\ us_lock s = total holds (us_pc s) /\
  0 <= us_avail s /\ us_avail s + total has_unit (us_pc s) = 3 /\
  forall i pc, us_pc s !! i = Some pc -> knows (us_avail s) pc.

Section total.
Context (f : upc -> Z) (Hf : forall pc, 0 <= f pc).

Lemma total_insert l i pc pc' : l !! i = Some pc -> total f (<[i := pc']> l) = total f l - f pc + f pc'.
Proof.
  revert i. induction l as [|x l IH]; intros [|i] H; [done|done|cbn in *; simplify_eq; lia|].
  change (f x + total f (<[i:=pc']> l) = f x + total f l - f pc + f pc'). rewrite (IH i H). lia.
Qed.
Lemma total_nonneg l : 0 <= total f l.
Proof. induction l as [|x l IH]; cbn; [lia|]. pose proof (Hf x). lia. Qed.
Lemma total_elem l i pc : l !! i = Some pc -> f pc <= total f l.
Proof.
  revert i. induction l as [|x l IH]; intros [|i] H; cbn in *; [done|done| |].
  - simplify_eq. pose proof (total_nonneg l). lia.
  - pose proof (Hf x). specialize (IH i H). lia.
Qed.
Lemma total_two l i j pc pc' : i <> j -> l !! i = Some pc -> l !! j = Some pc' -> f pc + f pc' <= total f l.
Proof.
  revert i j. induction l as [|x l IH]; intros [|i] [|j] Hij Hi Hj; cbn in *; try done.
  - simplify_eq. pose proof (total_elem l j pc' Hj). lia.
  - simplify_eq. pose proof (total_elem l i pc Hi). lia.
  - pose proof (Hf x). specialize (IH i j ltac:(lia) Hi Hj). lia.
Qed.
Lemma total_replicate n pc : f pc = 0 -> total f (replicate n pc) = 0.
Proof. intros H. induction n as [|n IH]; cbn; lia. Qed.
End total.

Lemma holds_nonneg pc : 0 <= holds pc.
Proof. destruct pc; cbn; lia. Qed.
Lemma has_unit_nonneg pc : 0 <= has_unit pc.
Proof. destruct pc; cbn; lia. Qed.
(** Only the holder of the lock has something to know. *)
Lemma knows_any avail avail' pc : knows avail pc -> holds pc = 0 -> knows avail' pc.
Proof. by destruct pc. Qed.

(** A processor's step: what it does to the totals and to what the others know. *)
Lemma sem_step s i wrong pc pc' lock avail :
  sem_inv s -> us_pc s !! i = Some pc -> user_step wrong pc (us_lock s) (us_avail s) = (pc', lock, avail) ->
  0 <= lock <= 1 /\ lock - holds pc' = us_lock s - holds pc /\
  0 <= avail /\ avail + has_unit pc' = us_avail s + has_unit pc /\ knows avail pc' /\ (avail = us_avail s \/ holds pc = 1).
Proof.
  intros (Hl & Hlock & Ha & Hav & Hk) Hi E. specialize (Hk i pc Hi).
  pose proof (total_elem holds holds_nonneg _ _ _ Hi) as H1. pose proof (total_elem has_unit has_unit_nonneg _ _ _ Hi) as H2.
  pose proof (total_nonneg has_unit has_unit_nonneg (us_pc s)) as H3.
  assert (forall z, 0 <= z <= 4 -> u32 z = z) as Hu by (intros z Hz; apply wrap_small; unfold is_u; lia).
  destruct pc; cbn in *; repeat case_match; simplify_eq; cbn in *;
    repeat match goal with H : truth _ = true |- _ => unfold truth in H; apply negb_true_iff, Z.eqb_neq in H | H : (_ =? _) = true |- _ => apply Z.eqb_eq in H end;
    rewrite ?Hu by lia; split_and!; try done; try lia.
Qed.

Lemma sem_inv_step s s' : ustep s s' -> sem_inv s -> sem_inv s'.
Proof.
  intros [s0 i wrong pc pc' lock avail Hi E] Hinv. destruct (sem_step _ _ _ _ _ _ _ Hinv Hi E) as (H1 & H2 & H3 & H4 & H5 & H6).
  destruct Hinv as (Hl & Hlock & Ha & Hav & Hk). pose proof (lookup_lt_Some _ _ _ Hi) as Hlt.
  unfold sem_inv. cbn [us_lock us_avail us_pc]. rewrite !(total_insert _ _ _ _ pc' Hi). split_and!; try lia.
  intros j q Hj. destruct (decide (i = j)) as [<-|Hne].
  - rewrite list_lookup_insert_eq in Hj by done. by simplify_eq.
  - rewrite list_lookup_insert_ne in Hj by done. destruct H6 as [->|H6]; [by apply (Hk j)|].
    pose proof (total_two holds holds_nonneg _ _ _ _ _ Hne Hi Hj) as H7. pose proof (holds_nonneg q).
    apply (knows_any (us_avail s0)); [by apply (Hk j)|lia].
Qed.

Lemma sem_inv_reach n s : rtc ustep (uinit n) s -> sem_inv s.
Proof.
  intros H. assert (sem_inv (uinit n)) as Hi.
  { unfold sem_inv, uinit. cbn [us_lock us_avail us_pc]. rewrite !total_replicate by done. split_and!; try lia.
    intros i pc Hpc. by apply lookup_replicate in Hpc as [-> _]. }
  revert Hi. generalize (uinit n) as s0, H. intros s0 H0. induction H0 as [|x y z Hxy _ IH]; [done|].
  intros Hx. by eapply IH, sem_inv_step.
Qed.

(** The processors that run the program of user mode, those whose PAL failed among them. *)
Definition inside (pc : upc) : Z := match pc with Inside | WrongTake | Stuck => 1 | _ => 0 end.
Definition inside_count (s : ustate) : Z := total inside (us_pc s).

Lemma inside_le l : total inside l <= total has_unit l.
Proof. induction l as [|pc l IH]; cbn; [lia|]. destruct pc; cbn; lia. Qed.

(** C18: The semaphore admits three: in every state that any interleaving of any number of processors reaches, at most three
    run the program of user mode, whatever their PALs return, [pal_available] is 3 less the units that are out, so it stays between 0 and 3 and never wraps,
    and the lock is 1 exactly while one processor works on it or keeps it after a wrong result. *)
Theorem pal_semaphore n s :
  rtc ustep (uinit n) s ->
  inside_count s <= 3 /\ us_avail s = 3 - total has_unit (us_pc s) /\ 0 <= us_avail s <= 3 /\
  us_lock s = total holds (us_pc s) /\ 0 <= us_lock s <= 1.
Proof.
  intros H. destruct (sem_inv_reach n s H) as (Hl & Hlock & Ha & Hav & _). pose proof (inside_le (us_pc s)) as Hi.
  pose proof (total_nonneg has_unit has_unit_nonneg (us_pc s)). unfold inside_count. lia.
Qed.

(** The steps of processor [i], [k] of them, with PALs that return what they should. *)
Fixpoint run_cpu (k i : nat) (s : ustate) : ustate :=
  match k with
  | O => s
  | S k =>
      match us_pc s !! i with
      | Some pc => let '(pc', lock, avail) := user_step false pc (us_lock s) (us_avail s) in run_cpu k i (mkU lock avail (<[i := pc']> (us_pc s)))
      | None => s
      end
  end.
Lemma run_cpu_steps k i s : rtc ustep s (run_cpu k i s).
Proof.
  revert s. induction k as [|k IH]; intros s; [apply rtc_refl|]. cbn [run_cpu]. destruct (us_pc s !! i) as [pc|] eqn:E; [|apply rtc_refl].
  destruct (user_step false pc (us_lock s) (us_avail s)) as [[pc' lock] avail] eqn:Es.
  eapply rtc_l; [by eapply ustep_cpu|apply IH].
Qed.

Lemma pal_semaphore_witness : inside_count (run_cpu 9 3 (run_cpu 6 2 (run_cpu 6 1 (run_cpu 6 0 (uinit 4))))) <= 3.
Proof.
  apply (pal_semaphore 4). do 4 (etrans; [|apply run_cpu_steps]). apply rtc_refl.
Defined.

(** One more step of processor [i]. *)
Lemma run_cpu_S k i pc pc' lock lock' avail avail' l :
  (i < length l)%nat -> user_step false pc lock avail = (pc', lock', avail') ->
  run_cpu (S k) i (mkU lock avail (<[i := pc]> l)) = run_cpu k i (mkU lock' avail' (<[i := pc']> l)).
Proof. intros Hi E. cbn [run_cpu us_pc us_lock us_avail]. by rewrite list_lookup_insert_eq, E, list_insert_insert_eq by done. Qed.

Lemma run_poll k i j l :
  (i < length l)%nat -> j + Z.of_nat k = 4096 ->
  run_cpu (S k) i (mkU 0 0 (<[i := Poll j]> l)) = mkU 0 0 (<[i := Take]> l).
Proof.
  intros Hi. revert j. induction k as [|k IH]; intros j Hj.
  - by rewrite (run_cpu_S _ _ _ Take _ 0 _ 0) by (done || cbn; by rewrite (proj2 (Z.ltb_ge j 4096)) by lia).
  - rewrite (run_cpu_S _ _ _ (Poll (j + 1)) _ 0 _ 0) by (done || cbn; by rewrite (proj2 (Z.ltb_lt j 4096)) by lia).
    apply IH. lia.
Qed.

(** Progress: when no processor works on the lock, one that asks for a unit gets it with its next five accesses if there
    is one left; if there is none it is back at the start of the loop after 4100 accesses, with the lock free and nothing changed. *)
Theorem pal_semaphore_progress s i :
  us_lock s = 0 -> us_pc s !! i = Some Take -> 0 <= us_avail s <= 3 ->
  if us_avail s =? 0 then run_cpu 4100 i s = s else run_cpu 5 i s = mkU 0 (us_avail s - 1) (<[i := Inside]> (us_pc s)).
Proof.
  destruct s as [lock avail l]. cbn [us_lock us_avail us_pc]. intros -> Hi Ha. pose proof (lookup_lt_Some _ _ _ Hi) as Hlt.
  assert (mkU 0 avail l = mkU 0 avail (<[i := Take]> l)) as -> by (by rewrite list_insert_id).
  destruct (Z.eqb_spec avail 0) as [->|Hne].
  - change 4100%nat with (S (S (S (S 4096)))). rewrite (run_cpu_S _ _ _ TestAvail _ 1 _ 0), (run_cpu_S _ _ _ FullUnlock _ 1 _ 0),
      (run_cpu_S _ _ _ (Poll 0) _ 0 _ 0) by done. by rewrite run_poll.
  - assert (truth avail = true) as Ht by (unfold truth; by rewrite (proj2 (Z.eqb_neq avail 0))).
    rewrite (run_cpu_S _ _ _ TestAvail _ 1 _ avail), (run_cpu_S _ _ _ DecLoad _ 1 _ avail), (run_cpu_S _ _ _ (DecStore avail) _ 1 _ avail),
      (run_cpu_S _ _ _ TakeUnlock _ 1 _ (avail - 1)), (run_cpu_S _ _ _ Inside _ 0 _ (avail - 1)) by
      (done || cbn; by rewrite ?Ht || (unfold u32; by rewrite wrap_small by (unfold is_u; lia))). done.
Qed.

Lemma pal_semaphore_progress_witness : run_cpu 5 1 (mkU 0 2 [Inside; Take]) = mkU 0 1 [Inside; Inside].
Proof. apply (pal_semaphore_progress (mkU 0 2 [Inside; Take]) 1); [done|done|cbn; lia]. Defined.
