(* ===== verification/Nmi.v ===== *)
(** [src/shv-nmi.c]: the experiments with non-maskable interrupts.

    Processor 1 runs the experiments, in the hypervisor and in its guest; processor 0 only takes timer interrupts and
    sends interrupts to processor 1.  What processor 1 does with interrupts, VM exits and VM entries is the class
    [Machine]; NmiMachine has an instance written after the Intel manual. *)
From Stdlib Require Import String.
From S2P Require Import Prelude.
From S2P Require Import HptLemmas.
From S2P Require Import Mem.
From S2P Require Import CString.
From S2P Require Import Cmdline.
From S2P Require Import Stdio.
From S2P Require Import Io.
From S2P Require Import Devices.
From S2P Require Import Timer.
From S2P Require Import VmxCtls.
From S2P Require Import VmcsFields.
From S2P Require Import Vmcs.
From S2P Require Import Vcpu.

(** ** State *)

Inductive exit_source :=
| EXIT_IGNORE | EXIT_MEASURE | EXIT_MEAS_2 | EXIT_NMI_G | EXIT_TIMER_G | EXIT_NMI_H | EXIT_TIMER_H | EXIT_VMEXIT | EXIT_NMIWIND.
#[global] Instance exit_source_eq_dec : EqDecision exit_source.
Proof. solve_decision. Defined.
Definition exit_source_str (s : exit_source) : string :=
  match s with
  | EXIT_IGNORE => "EXIT_IGNORE  (0)"
  | EXIT_MEASURE => "EXIT_MEASURE (1)"
  | EXIT_MEAS_2 => "EXIT_MEAS_2  (2)"
  | EXIT_NMI_G => "EXIT_NMI_G   (3)"
  | EXIT_TIMER_G => "EXIT_TIMER_G (4)"
  | EXIT_NMI_H => "EXIT_NMI_H   (5)"
  | EXIT_TIMER_H => "EXIT_TIMER_H (6)"
  | EXIT_VMEXIT => "EXIT_VMEXIT  (7)"
  | EXIT_NMIWIND => "EXIT_NMIWIND (8)"
  end.

(** The static variables; [n_t] has those the timer interrupt of processor 0 uses, [n_source] and [n_source_old] are
    [exit_source] and [exit_source_old]. *)
Record nglob := mkNglob {
  n_t : tglob; master_fail : Z; experiment_no : Z; state_no : Z; n_source : exit_source; exit_rip : Z; n_source_old : exit_source; exit_rip_old : Z; disable_cpuid : bool; seed : Z; in_qemu : bool; in_bochs : bool; in_xmhf : bool; exp_mask : Z; n_drops : drops }.
Definition set_n_t (x : tglob) (g : nglob) : nglob := mkNglob x (master_fail g) (experiment_no g) (state_no g) (n_source g) (exit_rip g) (n_source_old g) (exit_rip_old g) (disable_cpuid g) (seed g) (in_qemu g) (in_bochs g) (in_xmhf g) (exp_mask g) (n_drops g).
Definition set_master_fail (x : Z) (g : nglob) : nglob := mkNglob (n_t g) x (experiment_no g) (state_no g) (n_source g) (exit_rip g) (n_source_old g) (exit_rip_old g) (disable_cpuid g) (seed g) (in_qemu g) (in_bochs g) (in_xmhf g) (exp_mask g) (n_drops g).
Definition set_experiment_no (x : Z) (g : nglob) : nglob := mkNglob (n_t g) (master_fail g) x (state_no g) (n_source g) (exit_rip g) (n_source_old g) (exit_rip_old g) (disable_cpuid g) (seed g) (in_qemu g) (in_bochs g) (in_xmhf g) (exp_mask g) (n_drops g).
Definition set_state_no (x : Z) (g : nglob) : nglob := mkNglob (n_t g) (master_fail g) (experiment_no g) x (n_source g) (exit_rip g) (n_source_old g) (exit_rip_old g) (disable_cpuid g) (seed g) (in_qemu g) (in_bochs g) (in_xmhf g) (exp_mask g) (n_drops g).
Definition set_n_source (x : exit_source) (g : nglob) : nglob := mkNglob (n_t g) (master_fail g) (experiment_no g) (state_no g) x (exit_rip g) (n_source_old g) (exit_rip_old g) (disable_cpuid g) (seed g) (in_qemu g) (in_bochs g) (in_xmhf g) (exp_mask g) (n_drops g).
Definition set_exit_rip (x : Z) (g : nglob) : nglob := mkNglob (n_t g) (master_fail g) (experiment_no g) (state_no g) (n_source g) x (n_source_old g) (exit_rip_old g) (disable_cpuid g) (seed g) (in_qemu g) (in_bochs g) (in_xmhf g) (exp_mask g) (n_drops g).
Definition set_n_source_old (x : exit_source) (g : nglob) : nglob := mkNglob (n_t g) (master_fail g) (experiment_no g) (state_no g) (n_source g) (exit_rip g) x (exit_rip_old g) (disable_cpuid g) (seed g) (in_qemu g) (in_bochs g) (in_xmhf g) (exp_mask g) (n_drops g).
Definition set_exit_rip_old (x : Z) (g : nglob) : nglob := mkNglob (n_t g) (master_fail g) (experiment_no g) (state_no g) (n_source g) (exit_rip g) (n_source_old g) x (disable_cpuid g) (seed g) (in_qemu g) (in_bochs g) (in_xmhf g) (exp_mask g) (n_drops g).
Definition set_disable_cpuid (x : bool) (g : nglob) : nglob := mkNglob (n_t g) (master_fail g) (experiment_no g) (state_no g) (n_source g) (exit_rip g) (n_source_old g) (exit_rip_old g) x (seed g) (in_qemu g) (in_bochs g) (in_xmhf g) (exp_mask g) (n_drops g).
Definition set_seed (x : Z) (g : nglob) : nglob := mkNglob (n_t g) (master_fail g) (experiment_no g) (state_no g) (n_source g) (exit_rip g) (n_source_old g) (exit_rip_old g) (disable_cpuid g) x (in_qemu g) (in_bochs g) (in_xmhf g) (exp_mask g) (n_drops g).
Definition set_in_qemu (x : bool) (g : nglob) : nglob := mkNglob (n_t g) (master_fail g) (experiment_no g) (state_no g) (n_source g) (exit_rip g) (n_source_old g) (exit_rip_old g) (disable_cpuid g) (seed g) x (in_bochs g) (in_xmhf g) (exp_mask g) (n_drops g).
Definition set_in_bochs (x : bool) (g : nglob) : nglob := mkNglob (n_t g) (master_fail g) (experiment_no g) (state_no g) (n_source g) (exit_rip g) (n_source_old g) (exit_rip_old g) (disable_cpuid g) (seed g) (in_qemu g) x (in_xmhf g) (exp_mask g) (n_drops g).
Definition set_in_xmhf (x : bool) (g : nglob) : nglob := mkNglob (n_t g) (master_fail g) (experiment_no g) (state_no g) (n_source g) (exit_rip g) (n_source_old g) (exit_rip_old g) (disable_cpuid g) (seed g) (in_qemu g) (in_bochs g) x (exp_mask g) (n_drops g).
Definition set_exp_mask (x : Z) (g : nglob) : nglob := mkNglob (n_t g) (master_fail g) (experiment_no g) (state_no g) (n_source g) (exit_rip g) (n_source_old g) (exit_rip_old g) (disable_cpuid g) (seed g) (in_qemu g) (in_bochs g) (in_xmhf g) x (n_drops g).
Definition set_n_drops (x : drops) (g : nglob) : nglob := mkNglob (n_t g) (master_fail g) (experiment_no g) (state_no g) (n_source g) (exit_rip g) (n_source_old g) (exit_rip_old g) (disable_cpuid g) (seed g) (in_qemu g) (in_bochs g) (in_xmhf g) (exp_mask g) x.

(** The variables inside [n_t]. *)
Definition set_t (f : tglob -> tglob) (g : nglob) : nglob := set_n_t (f (n_t g)) g.
Definition set_l2_ready (x : Z) : nglob -> nglob :=
  set_t (fun t => mkTglob (shot_arrived t) x (l2_init_apic_id t) (interrupt_period t) (nmi_quiet t) (nmi_count t)).
Definition set_l2_init_apic_id (x : Z) : nglob -> nglob :=
  set_t (fun t => mkTglob (shot_arrived t) (l2_ready t) x (interrupt_period t) (nmi_quiet t) (nmi_count t)).
Definition set_interrupt_period (x : Z) : nglob -> nglob :=
  set_t (fun t => mkTglob (shot_arrived t) (l2_ready t) (l2_init_apic_id t) x (nmi_quiet t) (nmi_count t)).
Definition set_quiet (x : bool) : nglob -> nglob :=
  set_t (fun t => mkTglob (shot_arrived t) (l2_ready t) (l2_init_apic_id t) (interrupt_period t) x (nmi_count t)).

(** The values the variables start with. *)
Definition nglob0 : nglob :=
  mkNglob (mkTglob false 0 0 0 false 0) 0 0 0 EXIT_MEASURE 0 EXIT_MEASURE 0 false 12 false false false (bnot 64 1) (mkDrops 0 0).

(** What can arrive between two instructions of processor 1: an interrupt through the host's or the guest's descriptor
    table, or a VM exit. *)
Inductive arrival := Irq (guest : bool) (vector : Z) | VmExit.

(** Processor 1: the current VMCS, what arrives at the boundary before the instruction at an address, the end of an
    interrupt handler that does not use [IRET], the interrupt flag, [HLT], [IRET], a VM exit caused by an instruction
    (reason, instruction length, address), a VM entry (with the address the guest continues at), an interrupt from the
    other processor (the command that was written to its ICR), and the end of an interrupt. *)
Class Machine := {
  mstate : Type;
  m_vmread : Z -> mstate -> option Z;
  m_vmwrite : Z -> Z -> mstate -> option mstate;
  m_poll : Z -> mstate -> option (arrival * mstate);
  m_return : mstate -> mstate;
  m_flag : mstate -> bool;
  m_set_flag : bool -> mstate -> mstate;
  m_hlt : mstate -> mstate;
  m_iret : mstate -> mstate;
  m_exit : Z -> Z -> Z -> mstate -> mstate;
  m_entry : mstate -> Z * mstate;
  m_ipi : Z -> mstate -> mstate;
  m_eoi : mstate -> mstate }.

(** Code addresses: the entry of VM exits, the stubs of the interrupts, the labels behind [hlt] and [iret] in
    [hlt_wait] and [unblock_nmi_with_rip], and the [vmcall] of a line. *)
Record nmi_syms := mkNmiSyms {
  n_vmexit_asm : Z; stub : bool -> Z -> Z; hlt_label : Z; iret_label : Z; vmcall_site : Z -> Z; cpuid_site : Z }.

Section nmi.
Context (a : subarch) {D : Device} {C : Cpu} {M : Machine}.
Context (g : opts) (s : nmi_syms) (cpu0 cpu1 : dcpu).

Record nworld := mkN { n_g : nglob; n_m : mstate; n_w : world }.
Definition N (A : Type) : Type := nworld -> res (A * nworld).
#[global] Instance N_ret : MRet N := fun _ x w => Ok (x, w).
#[global] Instance N_bind : MBind N := fun _ _ f m w => match m w with Ok (x, w) => f x w | Err e => Err e end.

Definition fail_with {A} (e : fault) : N A := fun _ => Err e.
Definition io {A} (m : IO A) : N A := fun w =>
  match m (n_w w) with Ok (x, w') => Ok (x, mkN (n_g w) (n_m w) w') | Err e => Err e end.
Definition gets {A} (f : nglob -> A) : N A := fun w => Ok (f (n_g w), w).
Definition modg (f : nglob -> nglob) : N unit := fun w => Ok (tt, mkN (f (n_g w)) (n_m w) (n_w w)).
Definition hw (f : mstate -> mstate) : N unit := fun w => Ok (tt, mkN (n_g w) (f (n_m w)) (n_w w)).
Definition ASSERT_n (b : bool) : N unit := if b then mret tt else fail_with Halt.
Definition say (fmt : cstr) (args : list varg) : N unit := io (printf a fmt args) ≫= fun _ => mret tt.
(** A line, unless [quiet]. *)
Definition say_loud (fmt : cstr) (args : list varg) : N unit :=
  gets (fun x => nmi_quiet (n_t x)) ≫= fun q : bool => if negb q then say fmt args else mret tt.
Definition str (x : string) : varg := VStr (Some (lit x)).

(** [TEST_ASSERT] on line [ln]; [text] is the condition, with single quotes for the double quotes in it. *)
Definition TEST_ASSERT (ln : Z) (text : string) (b : bool) : N unit :=
  if b then mret tt
  else
    modg (set_master_fail ln) ≫= fun _ =>
    modg (set_l2_ready 0) ≫= fun _ =>
    say ([10] ++ lit "TEST_ASSERT '%s' failed, line %d, file %s" ++ [10]) [str text; VNum 32 ln; str "shv-nmi.c"] ≫= fun _ =>
    fail_with Halt.

Definition rand : N Z :=
  gets seed ≫= fun x : Z =>
  let x := u32 (x * 1103515245 + 12345) in
  modg (set_seed x) ≫= fun _ =>
  mret ((x / 65536) mod 32768).

(** ** Interrupts *)

Definition handle_interrupt_cpu1 (source : exit_source) (rip : Z) : N unit :=
  modg (set_l2_ready 0) ≫= fun _ =>
  gets master_fail ≫= fun f : Z =>
  ASSERT_n (f =? 0) ≫= fun _ =>
  gets n_source ≫= fun x : exit_source =>
  match x with
  | EXIT_IGNORE =>
      say (lit "      Interrupt ignored:        %s" ++ [10]) [str (exit_source_str source)] ≫= fun _ =>
      TEST_ASSERT 99 "0 && 'Should not ignore interrupt'" false
  | EXIT_MEASURE =>
      say_loud (lit "      Interrupt recorded:       %s" ++ [10]) [str (exit_source_str source)] ≫= fun _ =>
      modg (set_n_source source) ≫= fun _ =>
      modg (set_exit_rip rip)
  | EXIT_MEAS_2 =>
      say (lit "      Interrupt 1 recorded:     %s" ++ [10]) [str (exit_source_str source)] ≫= fun _ =>
      modg (set_n_source EXIT_MEASURE) ≫= fun _ =>
      modg (set_n_source_old source) ≫= fun _ =>
      modg (set_exit_rip_old rip)
  | _ =>
      say ([10] ++ lit "source:      %s") [str (exit_source_str source)] ≫= fun _ =>
      say ([10] ++ lit "exit_source: %s") [str (exit_source_str x)] ≫= fun _ =>
      TEST_ASSERT 125 "0 && 'Fail: unexpected exit_source'" false
  end.

Definition handle_ipi_interrupt (vector : Z) (guest : bool) (rip : Z) : N unit :=
  ASSERT_n (negb (c_isbsp cpu1)) ≫= fun _ =>
  ASSERT_n (vector =? 0x54) ≫= fun _ =>
  handle_interrupt_cpu1 (if guest then EXIT_TIMER_G else EXIT_TIMER_H) rip ≫= fun _ =>
  io (write_lapic LAPIC_EOI 0) ≫= fun _ =>
  hw m_eoi.
Definition handle_nmi_interrupt (vector : Z) (guest : bool) (rip : Z) : N unit :=
  ASSERT_n (negb (c_isbsp cpu1)) ≫= fun _ =>
  ASSERT_n (vector =? 0x2) ≫= fun _ =>
  handle_interrupt_cpu1 (if guest then EXIT_NMI_G else EXIT_NMI_H) rip.

(** The part of [handle_idt] for the interrupts processor 1 takes during the experiments; for all of them it asks the
    stub to return without [IRET]. *)
Definition handle_idt_cpu1 (vector : Z) (guest : bool) (rip : Z) : N unit :=
  if vector =? 0x02 then handle_nmi_interrupt vector guest rip
  else if vector =? 0x21 then
    gets n_drops ≫= fun d : drops =>
    io (handle_keyboard_interrupt a g cpu1 vector guest d) ≫= fun d : drops => modg (set_n_drops d)
  else if vector =? 0x54 then handle_ipi_interrupt vector guest rip
  else fail_with Halt.

(** What processor 0 writes to the low half of its ICR, oldest first. *)
Definition icr_writes (tr : list ioev) : list Z :=
  reverse (omap (fun e => match e with EWrite p v => if p =? 0xfee00300 then Some v else None | _ => None end) tr).
(** One timer interrupt of processor 0, and the interrupts it sends.  The handler reads no device, so it is run on an empty
    trace whose events are then added. *)
Definition tick_cpu0 : N unit := fun w =>
  match shv_nmi_handle_timer_interrupt a cpu0 0x20 false (n_t (n_g w)) (mkW (w_mem (n_w w)) []) with
  | Ok (t, w') =>
      Ok (tt, mkN (set_n_t t (n_g w)) (foldl (fun m v => m_ipi v m) (n_m w) (icr_writes (w_tr w')))
                (mkW (w_mem w') (w_tr w' ++ w_tr (n_w w))))
  | Err e => Err e
  end.

(** ** VM exits *)

Definition VMX_VMEXIT_EXCEPTION : Z := 0.
Definition VMX_VMEXIT_NMI_WINDOW : Z := 8.
Definition INTR_INFO_VECTOR_MASK : Z := 0xff.
Definition NMI_WINDOW : Z := Z.shiftl 1 (ctl_bit nmi_window_exiting).

Definition vmr (name : string) : N Z := fun w =>
  match m_vmread (VMCS_ name) (n_m w) with Some v => Ok (u32 v, w) | None => Err Halt end.
Definition vmr_NW (name : string) : N Z := fun w =>
  match m_vmread (VMCS_ name) (n_m w) with Some v => Ok (wrap (ptr_bits a) v, w) | None => Err Halt end.
Definition vmw (name : string) (v : Z) : N unit := fun w =>
  match m_vmwrite (VMCS_ name) (u32 v) (n_m w) with Some m => Ok (tt, mkN (n_g w) m (n_w w)) | None => Err Halt end.
Definition vmw_NW (name : string) (v : Z) : N unit := fun w =>
  match m_vmwrite (VMCS_ name) (wrap (ptr_bits a) v) (n_m w) with Some m => Ok (tt, mkN (n_g w) m (n_w w)) | None => Err Halt end.

(** [dispatch] is [shv_nmi_vmcall_dispatcher]; the registers are those given to [vmresume_asm]. *)
Definition shv_nmi_vmexit_handler (dispatch : N unit) (r : regs) (info : vmexit_info_t) : N regs :=
  let next (r : regs) := vmw_NW "guest_RIP" (guest_rip info + inst_len info) ≫= fun _ => mret r in
  if vmexit_reason info =? VMX_VMEXIT_CPUID then
    gets disable_cpuid ≫= fun x : bool =>
    TEST_ASSERT 184 "!disable_cpuid" (negb x) ≫= fun _ =>
    let old_eax := r_eax r in
    io (cpuid_raw (r_eax r) (r_ecx r)) ≫= fun '(eax, ebx, ecx, edx) =>
    let r := with_edx edx (with_ecx ecx (with_ebx ebx (with_eax eax r))) in
    next (if old_eax =? 1 then with_ecx (Z.land (r_ecx r) (bnot 32 (Z.shiftl 1 5))) r else r)
  else if vmexit_reason info =? VMX_VMEXIT_VMCALL then
    dispatch ≫= fun _ => next r
  else if vmexit_reason info =? VMX_VMEXIT_EXCEPTION then
    vmr "info_vmexit_interrupt_information" ≫= fun x : Z =>
    TEST_ASSERT 209 "(__vmx_vmread32(VMCS_info_vmexit_interrupt_information) & INTR_INFO_VECTOR_MASK) == 0x2" (Z.land x INTR_INFO_VECTOR_MASK =? 2) ≫= fun _ =>
    handle_interrupt_cpu1 EXIT_VMEXIT (guest_rip info) ≫= fun _ =>
    vmr "guest_activity_state" ≫= fun x : Z =>
    (if x =? 0 then mret tt
     else if x =? 1 then vmw "guest_activity_state" 0
     else TEST_ASSERT 227 "0 && 'Unknown activity state'" false) ≫= fun _ => mret r
  else if vmexit_reason info =? VMX_VMEXIT_NMI_WINDOW then
    handle_interrupt_cpu1 EXIT_NMIWIND (guest_rip info) ≫= fun _ =>
    vmr "control_VMX_cpu_based" ≫= fun x : Z =>
    TEST_ASSERT 236 "ctl_cpu_base & (1U << VMX_PROCBASED_NMI_WINDOW_EXITING)" (truth (Z.land x NMI_WINDOW)) ≫= fun _ =>
    vmw "control_VMX_cpu_based" (Z.land x (bnot 32 NMI_WINDOW)) ≫= fun _ => mret r
  else
    say (lit "CPU(0x%02x): unknown vmexit %d" ++ [10]) [VNum 32 (c_id cpu1); VNum 32 (vmexit_reason info)] ≫= fun _ =>
    say (lit "CPU(0x%02x): rip = 0x%x" ++ [10]) [VNum 32 (c_id cpu1); VNum (ptr_bits a) (guest_rip info)] ≫= fun _ =>
    fail_with Halt.

(** [vmexit_handler] with this handler as the override; the assembly code enters the guest again. *)
Definition take_exit (dispatch : N unit) (r : regs) : N regs :=
  vmr "info_vmexit_reason" ≫= fun reason : Z =>
  vmr "info_vmexit_instruction_length" ≫= fun len : Z =>
  vmr_NW "guest_RIP" ≫= fun rip : Z =>
  shv_nmi_vmexit_handler dispatch r (mkInfo_ reason rip len).

Definition no_regs : regs := mkRegs 0 0 0 0 0 0 0 0 [].

(** [vmresume]: the address the guest continues at. *)
Definition enter : N Z := fun w => let '(rip, m) := m_entry (n_m w) in Ok (rip, mkN (n_g w) m (n_w w)).

(** What arrives at the boundary before the instruction at [rip] is handled, and what arrives while it is: an interrupt starts
    at its stub, a VM exit at [vmexit_asm].  A VM exit that arrives is never a [VMCALL]. *)
Fixpoint deliver (fuel : nat) (rip : Z) : N unit := fun w =>
  match m_poll rip (n_m w) with
  | None => Ok (tt, w)
  | Some (e, m) =>
      match fuel with
      | O => Err NoFuel
      | S fuel =>
          (match e return N unit with
           | Irq guest vector =>
               deliver fuel (stub s guest vector) ≫= fun _ =>
               handle_idt_cpu1 vector guest rip ≫= fun _ =>
               hw m_return ≫= fun _ =>
               deliver fuel rip
           | VmExit =>
               deliver fuel (n_vmexit_asm s) ≫= fun _ =>
               take_exit (fail_with Undef) no_regs ≫= fun _ : regs =>
               enter ≫= fun rip : Z =>
               deliver fuel rip
           end) (mkN (n_g w) m (n_w w))
      end
  end.
(** At most this many arrivals are nested or follow each other. *)
Definition arrivals : nat := 8.

(** An instruction of the guest that causes a VM exit, up to the next instruction of the guest. *)
Definition guest_exit (dispatch : N unit) (reason len rip : Z) (r : regs) : N regs :=
  hw (m_exit reason len rip) ≫= fun _ =>
  deliver arrivals (n_vmexit_asm s) ≫= fun _ =>
  take_exit dispatch r ≫= fun r : regs =>
  enter ≫= fun next : Z =>
  if next =? rip + len then deliver arrivals next ≫= fun _ => mret r else fail_with Undef.
(** [vmcall; 1: lea 1b, rip] *)
Definition vmcall (dispatch : N unit) (site : Z) : N Z :=
  guest_exit dispatch VMX_VMEXIT_VMCALL 3 site no_regs ≫= fun _ => mret (site + 3).

(** ** The state of the guest's interrupts in the VMCS *)

Definition unblock_nmi_with_rip : N Z := hw m_iret ≫= fun _ => deliver arrivals (iret_label s) ≫= fun _ => mret (iret_label s).

Definition get_blocking_by_nmi : N bool :=
  vmr "guest_interruptibility" ≫= fun x : Z => mret (truth (Z.land x 0x8)).
(** [TEST_ASSERT] of it or of its negation. *)
Definition blocking (expected : bool) (ln : Z) : N unit :=
  get_blocking_by_nmi ≫= fun b : bool =>
  TEST_ASSERT ln (if expected then "get_blocking_by_nmi()" else "!get_blocking_by_nmi()") (eqb b expected).

Definition assert_bit (ln : Z) (text : string) (x mask : Z) (expected : bool) : N unit :=
  TEST_ASSERT ln (text ++ (if expected then " != 0" else " == 0")) (eqb (negb (Z.land x mask =? 0)) expected).
Definition assert_state (nmi_exiting virtual_nmis blocking_by_nmi nmi_windowing : bool) : N unit :=
  vmr "control_VMX_pin_based" ≫= fun x : Z =>
  assert_bit (if nmi_exiting then 304 else 306) "(ctl_pin_base & 0x8U)" x 0x8 nmi_exiting ≫= fun _ =>
  assert_bit (if virtual_nmis then 309 else 311) "(ctl_pin_base & 0x20U)" x 0x20 virtual_nmis ≫= fun _ =>
  vmr "control_VMX_cpu_based" ≫= fun x : Z =>
  assert_bit (if nmi_windowing then 317 else 320) "(ctl_cpu_base & (1U << VMX_PROCBASED_NMI_WINDOW_EXITING))" x NMI_WINDOW nmi_windowing ≫= fun _ =>
  vmr "guest_interruptibility" ≫= fun x : Z =>
  assert_bit (if blocking_by_nmi then 327 else 329) "(guest_int & 0x8U)" x 0x8 blocking_by_nmi.

Definition put_bit (x mask : Z) (b : bool) : Z := if b then Z.lor x mask else x.
Definition set_state (nmi_exiting virtual_nmis blocking_by_nmi nmi_windowing : bool) : N unit :=
  vmr "control_VMX_pin_based" ≫= fun x : Z =>
  vmw "control_VMX_pin_based" (put_bit (put_bit (Z.land x (bnot 32 0x28)) 0x8 nmi_exiting) 0x20 virtual_nmis) ≫= fun _ =>
  vmr "control_VMX_cpu_based" ≫= fun x : Z =>
  vmw "control_VMX_cpu_based" (put_bit (Z.land x (bnot 32 NMI_WINDOW)) NMI_WINDOW nmi_windowing) ≫= fun _ =>
  vmr "guest_interruptibility" ≫= fun x : Z =>
  vmw "guest_interruptibility" (put_bit (Z.land x (bnot 32 0x8)) 0x8 blocking_by_nmi).

Definition set_inject_nmi : N unit :=
  vmr "control_VM_entry_interruption_information" ≫= fun x : Z =>
  TEST_ASSERT 369 "(val & 0x80000000) == 0" (Z.land x 0x80000000 =? 0) ≫= fun _ =>
  vmw "control_VM_entry_interruption_information" 0x80000202.

(** ** Measuring *)

Definition prepare_measure : N unit :=
  gets n_source ≫= fun x : exit_source =>
  TEST_ASSERT 376 "exit_source == EXIT_MEASURE" (bool_decide (x = EXIT_MEASURE)) ≫= fun _ =>
  gets exit_rip ≫= fun r : Z => TEST_ASSERT 377 "exit_rip == 0" (r =? 0).

Definition assert_measure (source : exit_source) (rip : Z) : N unit :=
  gets n_source ≫= fun x : exit_source =>
  (if bool_decide (x <> source) then
     say ([10] ++ lit "source:      %s") [str (exit_source_str source)] ≫= fun _ =>
     say ([10] ++ lit "exit_source: %s") [str (exit_source_str x)] ≫= fun _ =>
     TEST_ASSERT 390 "0 && (exit_source == source)" false
   else mret tt) ≫= fun _ =>
  (if bool_decide (x <> EXIT_MEASURE) then gets exit_rip ≫= fun r : Z => TEST_ASSERT 393 "rip == exit_rip" (rip =? r) else mret tt) ≫= fun _ =>
  modg (set_n_source EXIT_MEASURE) ≫= fun _ =>
  modg (set_exit_rip 0).

Definition prepare_measure_2 : N unit :=
  gets n_source ≫= fun x : exit_source =>
  TEST_ASSERT 402 "exit_source == EXIT_MEASURE" (bool_decide (x = EXIT_MEASURE)) ≫= fun _ =>
  gets exit_rip ≫= fun r : Z => TEST_ASSERT 403 "exit_rip == 0" (r =? 0) ≫= fun _ =>
  modg (set_n_source EXIT_MEAS_2) ≫= fun _ =>
  modg (set_exit_rip 0) ≫= fun _ =>
  modg (set_n_source_old EXIT_MEASURE) ≫= fun _ =>
  modg (set_exit_rip_old 0).

Definition assert_measure_2 (source1 : exit_source) (rip1 : Z) (source2 : exit_source) (rip2 : Z) : N unit :=
  gets n_source_old ≫= fun x : exit_source =>
  (if bool_decide (x <> source1) then
     say ([10] ++ lit "source1:         %s") [str (exit_source_str source1)] ≫= fun _ =>
     say ([10] ++ lit "exit_source_old: %s") [str (exit_source_str x)] ≫= fun _ =>
     TEST_ASSERT 417 "0 && (exit_source_old == source1)" false
   else mret tt) ≫= fun _ =>
  (if bool_decide (x <> EXIT_MEASURE) then gets exit_rip_old ≫= fun r : Z => TEST_ASSERT 420 "rip1 == exit_rip_old" (rip1 =? r) else mret tt) ≫= fun _ =>
  gets n_source ≫= fun x : exit_source =>
  (if bool_decide (x <> source2) then
     say ([10] ++ lit "source2:     %s") [str (exit_source_str source2)] ≫= fun _ =>
     say ([10] ++ lit "exit_source: %s") [str (exit_source_str x)] ≫= fun _ =>
     TEST_ASSERT 425 "0 && (exit_source == source2)" false
   else mret tt) ≫= fun _ =>
  (if bool_decide (x <> EXIT_MEASURE) then gets exit_rip ≫= fun r : Z => TEST_ASSERT 428 "rip2 == exit_rip" (rip2 =? r) else mret tt) ≫= fun _ =>
  modg (set_n_source EXIT_MEASURE) ≫= fun _ =>
  modg (set_exit_rip 0) ≫= fun _ =>
  modg (set_n_source_old EXIT_MEASURE) ≫= fun _ =>
  modg (set_exit_rip_old 0).

(** What happens elsewhere while processor 1 is halted; in the program it is [tick_cpu0]. *)
Context (elsewhere : N unit).

(** [hlt]: nothing happens until something arrives. *)
Fixpoint sleep (fuel : nat) (rip : Z) : N unit := fun w =>
  match m_poll rip (n_m w), fuel with
  | Some _, _ => deliver arrivals rip w
  | None, O => Err NoFuel
  | None, S fuel => (elsewhere ≫= fun _ => sleep fuel rip) w
  end.
(** [pushf; sti; hlt; 1: popf] *)
Definition pushf : N bool := fun w => Ok (m_flag (n_m w), w).
Definition pushf_sti_hlt_popf (fuel : nat) : N unit :=
  pushf ≫= fun fl : bool =>
  hw (m_set_flag true) ≫= fun _ =>
  hw m_hlt ≫= fun _ =>
  sleep fuel (hlt_label s) ≫= fun _ =>
  hw (m_set_flag fl).

(** The loop of [hlt_wait]. *)
Fixpoint hlt_again (fuel ticks : nat) : N unit :=
  match fuel with
  | O => fail_with NoFuel
  | S fuel =>
      pushf_sti_hlt_popf ticks ≫= fun _ =>
      gets n_source ≫= fun x : exit_source =>
      if bool_decide (x = EXIT_MEASURE) then
        modg (set_l2_ready 0) ≫= fun _ =>
        say_loud (lit "      Strange wakeup from HLT" ++ [10]) [] ≫= fun _ =>
        modg (set_l2_ready 1) ≫= fun _ =>
        hlt_again fuel ticks
      else mret tt
  end.
Definition hlt_wait (fuel : nat) (source : exit_source) : N unit :=
  say_loud (lit "    hlt_wait() begin, source =  %s" ++ [10]) [str (exit_source_str source)] ≫= fun _ =>
  prepare_measure ≫= fun _ =>
  modg (set_n_source EXIT_MEASURE) ≫= fun _ =>
  modg (set_l2_ready 1) ≫= fun _ =>
  hlt_again fuel fuel ≫= fun _ =>
  gets (fun x => l2_ready (n_t x)) ≫= fun x : Z =>
  ASSERT_n (x =? 0) ≫= fun _ =>
  assert_measure source (hlt_label s) ≫= fun _ =>
  say_loud (lit "    hlt_wait() end" ++ [10]) [].

Definition iret_wait (source : exit_source) : N unit :=
  say_loud (lit "    iret_wait() begin, source = %s" ++ [10]) [str (exit_source_str source)] ≫= fun _ =>
  prepare_measure ≫= fun _ =>
  modg (set_n_source EXIT_MEASURE) ≫= fun _ =>
  unblock_nmi_with_rip ≫= fun rip : Z =>
  assert_measure source rip ≫= fun _ =>
  say_loud (lit "    iret_wait() end" ++ [10]) [].

Definition start_experiment (n : Z) : N unit :=
  modg (set_experiment_no n) ≫= fun _ => say (lit "Experiment: %d" ++ [10]) [VNum 32 n].

(** ** The experiments: what the hypervisor does for the [vmcall]s of each *)

Context (fuel : nat).

Definition experiment_1_vmcall : N unit :=
  gets state_no ≫= fun n : Z =>
    if n =? 0 then
      set_state false false false false
    else TEST_ASSERT 503 "0 && 'unexpected state'" false.
Definition experiment_2_vmcall : N unit :=
  gets state_no ≫= fun n : Z =>
    if n =? 0 then
      set_state false false true false
    else if n =? 1 then
      blocking true 538 ≫= fun _ =>
      assert_measure EXIT_MEASURE 0 ≫= fun _ =>
      hlt_wait fuel EXIT_TIMER_H
    else TEST_ASSERT 544 "0 && 'unexpected state'" false.
Definition experiment_3_vmcall : N unit :=
  gets state_no ≫= fun n : Z =>
    if n =? 0 then
      hlt_wait fuel EXIT_NMI_H ≫= fun _ =>
      hlt_wait fuel EXIT_TIMER_H ≫= fun _ =>
      hlt_wait fuel EXIT_TIMER_H ≫= fun _ =>
      set_state false false false false ≫= fun _ =>
      prepare_measure
    else TEST_ASSERT 578 "0 && 'unexpected state'" false.
Definition experiment_4_vmcall : N unit :=
  gets state_no ≫= fun n : Z =>
    if n =? 0 then
      set_state false false true false
    else if n =? 1 then
      hlt_wait fuel EXIT_TIMER_H ≫= fun _ =>
      iret_wait EXIT_NMI_H ≫= fun _ =>
      iret_wait EXIT_MEASURE
    else TEST_ASSERT 611 "0 && 'unexpected state'" false.
Definition experiment_5_vmcall : N unit :=
  gets state_no ≫= fun n : Z =>
    if n =? 0 then
      set_state true false false false
    else if n =? 1 then
      iret_wait EXIT_MEASURE
    else TEST_ASSERT 642 "0 && 'unexpected state'" false.
Definition experiment_6_vmcall : N unit :=
  gets state_no ≫= fun n : Z =>
    if n =? 0 then
      set_state true false true false
    else if n =? 1 then
      blocking true 672 ≫= fun _ =>
      iret_wait EXIT_NMI_H ≫= fun _ =>
      iret_wait EXIT_MEASURE ≫= fun _ =>
      set_state true false false false
    else TEST_ASSERT 678 "0 && 'unexpected state'" false.
Definition experiment_7_vmcall : N unit :=
  gets state_no ≫= fun n : Z =>
    if n =? 0 then
      hlt_wait fuel EXIT_NMI_H ≫= fun _ =>
      hlt_wait fuel EXIT_TIMER_H ≫= fun _ =>
      hlt_wait fuel EXIT_TIMER_H ≫= fun _ =>
      set_state true false false false
    else if n =? 1 then
      blocking false 710 ≫= fun _ =>
      iret_wait EXIT_MEASURE
    else TEST_ASSERT 714 "0 && 'unexpected state'" false.
Definition experiment_8_vmcall : N unit :=
  gets state_no ≫= fun n : Z =>
    if n =? 0 then
      set_state true true false false
    else if n =? 1 then
      iret_wait EXIT_MEASURE
    else TEST_ASSERT 746 "0 && 'unexpected state'" false.
Definition experiment_9_vmcall : N unit :=
  gets state_no ≫= fun n : Z =>
    if n =? 0 then
      set_state true true true false
    else if n =? 1 then
      blocking true 773 ≫= fun _ =>
      iret_wait EXIT_MEASURE
    else TEST_ASSERT 777 "0 && 'unexpected state'" false.
Definition experiment_10_vmcall : N unit :=
  gets state_no ≫= fun n : Z =>
    if n =? 0 then
      hlt_wait fuel EXIT_NMI_H ≫= fun _ =>
      hlt_wait fuel EXIT_TIMER_H ≫= fun _ =>
      hlt_wait fuel EXIT_TIMER_H ≫= fun _ =>
      set_state true true false false
    else if n =? 1 then
      blocking false 809 ≫= fun _ =>
      iret_wait EXIT_MEASURE
    else TEST_ASSERT 813 "0 && 'unexpected state'" false.
Definition experiment_11_vmcall : N unit :=
  gets state_no ≫= fun n : Z =>
    if n =? 0 then
      hlt_wait fuel EXIT_NMI_H ≫= fun _ =>
      hlt_wait fuel EXIT_TIMER_H ≫= fun _ =>
      hlt_wait fuel EXIT_TIMER_H ≫= fun _ =>
      set_state true true true false
    else if n =? 1 then
      blocking true 845 ≫= fun _ =>
      iret_wait EXIT_MEASURE
    else TEST_ASSERT 849 "0 && 'unexpected state'" false.
Definition experiment_12_vmcall : N unit :=
  gets state_no ≫= fun n : Z =>
    if n =? 0 then
      set_state true true true false
    else if n =? 1 then
      blocking false 876 ≫= fun _ =>
      hlt_wait fuel EXIT_NMI_H ≫= fun _ =>
      iret_wait EXIT_MEASURE ≫= fun _ =>
      hlt_wait fuel EXIT_TIMER_H
    else TEST_ASSERT 882 "0 && 'unexpected state'" false.
Definition experiment_13_vmcall : N unit :=
  gets state_no ≫= fun n : Z =>
    if n =? 0 then
      hlt_wait fuel EXIT_NMI_H ≫= fun _ =>
      hlt_wait fuel EXIT_TIMER_H ≫= fun _ =>
      set_state true true false false
    else if n =? 1 then
      blocking false 911 ≫= fun _ =>
      hlt_wait fuel EXIT_NMI_H ≫= fun _ =>
      iret_wait EXIT_MEASURE ≫= fun _ =>
      hlt_wait fuel EXIT_TIMER_H
    else TEST_ASSERT 917 "0 && 'unexpected state'" false.
Definition experiment_14_vmcall : N unit :=
  gets state_no ≫= fun n : Z =>
    if n =? 0 then
      hlt_wait fuel EXIT_NMI_H ≫= fun _ =>
      hlt_wait fuel EXIT_TIMER_H ≫= fun _ =>
      set_state true true true false
    else if n =? 1 then
      blocking true 946 ≫= fun _ =>
      hlt_wait fuel EXIT_NMI_H ≫= fun _ =>
      iret_wait EXIT_MEASURE ≫= fun _ =>
      hlt_wait fuel EXIT_TIMER_H
    else TEST_ASSERT 952 "0 && 'unexpected state'" false.
Definition experiment_15_vmcall : N unit :=
  gets state_no ≫= fun n : Z =>
    if n =? 0 then
      hlt_wait fuel EXIT_NMI_H ≫= fun _ =>
      hlt_wait fuel EXIT_TIMER_H ≫= fun _ =>
      hlt_wait fuel EXIT_TIMER_H ≫= fun _ =>
      set_state false false false false ≫= fun _ =>
      vmw "control_VM_entry_interruption_information" 0x80000021 ≫= fun _ =>
      prepare_measure
    else if n =? 1 then
      blocking true 986 ≫= fun _ =>
      iret_wait EXIT_MEASURE ≫= fun _ =>
      set_state false false false false
    else TEST_ASSERT 991 "0 && 'unexpected state'" false.
Definition experiment_16_vmcall : N unit :=
  gets state_no ≫= fun n : Z =>
    if n =? 0 then
      hlt_wait fuel EXIT_NMI_H ≫= fun _ =>
      hlt_wait fuel EXIT_TIMER_H ≫= fun _ =>
      hlt_wait fuel EXIT_TIMER_H ≫= fun _ =>
      set_state true false false false ≫= fun _ =>
      vmw "control_VM_entry_interruption_information" 0x80000021 ≫= fun _ =>
      prepare_measure
    else if n =? 1 then
      blocking false 1025 ≫= fun _ =>
      iret_wait EXIT_MEASURE ≫= fun _ =>
      set_state false false false false
    else TEST_ASSERT 1030 "0 && 'unexpected state'" false.
Definition experiment_17_vmcall : N unit :=
  gets state_no ≫= fun n : Z =>
    if n =? 0 then
      hlt_wait fuel EXIT_NMI_H ≫= fun _ =>
      hlt_wait fuel EXIT_TIMER_H ≫= fun _ =>
      hlt_wait fuel EXIT_TIMER_H ≫= fun _ =>
      set_state true true true false ≫= fun _ =>
      vmw "control_VM_entry_interruption_information" 0x80000021 ≫= fun _ =>
      prepare_measure
    else if n =? 1 then
      blocking true 1064 ≫= fun _ =>
      iret_wait EXIT_MEASURE ≫= fun _ =>
      set_state false false false false
    else TEST_ASSERT 1069 "0 && 'unexpected state'" false.
Definition experiment_18_vmcall : N unit :=
  gets state_no ≫= fun n : Z =>
    if n =? 0 then
      hlt_wait fuel EXIT_NMI_H ≫= fun _ =>
      iret_wait EXIT_MEASURE ≫= fun _ =>
      hlt_wait fuel EXIT_TIMER_H ≫= fun _ =>
      set_state false false false false ≫= fun _ =>
      set_inject_nmi ≫= fun _ =>
      prepare_measure
    else if n =? 1 then
      blocking false 1104 ≫= fun _ =>
      iret_wait EXIT_MEASURE ≫= fun _ =>
      set_state false false false false
    else TEST_ASSERT 1109 "0 && 'unexpected state'" false.
Definition experiment_19_vmcall : N unit :=
  gets state_no ≫= fun n : Z =>
    if n =? 0 then
      set_state true false false false ≫= fun _ =>
      set_inject_nmi ≫= fun _ =>
      prepare_measure
    else if n =? 1 then
      blocking false 1141 ≫= fun _ =>
      hlt_wait fuel EXIT_NMI_H ≫= fun _ =>
      iret_wait EXIT_MEASURE ≫= fun _ =>
      hlt_wait fuel EXIT_TIMER_H ≫= fun _ =>
      set_state false false false false
    else TEST_ASSERT 1149 "0 && 'unexpected state'" false.
Definition experiment_20_vmcall : N unit :=
  gets state_no ≫= fun n : Z =>
    if n =? 0 then
      set_state true true false false ≫= fun _ =>
      set_inject_nmi ≫= fun _ =>
      prepare_measure
    else if n =? 1 then
      blocking true 1180 ≫= fun _ =>
      hlt_wait fuel EXIT_NMI_H ≫= fun _ =>
      iret_wait EXIT_MEASURE ≫= fun _ =>
      hlt_wait fuel EXIT_TIMER_H ≫= fun _ =>
      set_state false false false false
    else TEST_ASSERT 1188 "0 && 'unexpected state'" false.
Definition experiment_21_vmcall : N unit :=
  gets state_no ≫= fun n : Z =>
    if n =? 0 then
      set_state true true false true ≫= fun _ =>
      prepare_measure
    else if n =? 1 then
      assert_state true true false false ≫= fun _ =>
      hlt_wait fuel EXIT_NMI_H ≫= fun _ =>
      iret_wait EXIT_MEASURE ≫= fun _ =>
      hlt_wait fuel EXIT_TIMER_H ≫= fun _ =>
      set_state false false false false
    else TEST_ASSERT 1225 "0 && 'unexpected state'" false.
Definition experiment_22_vmcall : N unit :=
  gets state_no ≫= fun n : Z =>
    if n =? 0 then
      set_state true true true true ≫= fun _ =>
      prepare_measure
    else if n =? 1 then
      assert_state true true true true ≫= fun _ =>
      hlt_wait fuel EXIT_NMI_H ≫= fun _ =>
      iret_wait EXIT_MEASURE ≫= fun _ =>
      hlt_wait fuel EXIT_TIMER_H ≫= fun _ =>
      set_state false false false false
    else TEST_ASSERT 1262 "0 && 'unexpected state'" false.
Definition experiment_23_vmcall : N unit :=
  gets state_no ≫= fun n : Z =>
    if n =? 0 then
      set_state true true true true ≫= fun _ =>
      prepare_measure
    else if n =? 1 then
      assert_state true true false false ≫= fun _ =>
      hlt_wait fuel EXIT_NMI_H ≫= fun _ =>
      iret_wait EXIT_MEASURE ≫= fun _ =>
      hlt_wait fuel EXIT_TIMER_H ≫= fun _ =>
      set_state false false false false
    else TEST_ASSERT 1300 "0 && 'unexpected state'" false.
Definition experiment_24_vmcall : N unit :=
  gets state_no ≫= fun n : Z =>
    if n =? 0 then
      hlt_wait fuel EXIT_NMI_H ≫= fun _ =>
      hlt_wait fuel EXIT_TIMER_H ≫= fun _ =>
      hlt_wait fuel EXIT_TIMER_H ≫= fun _ =>
      set_state true true false true ≫= fun _ =>
      prepare_measure_2
    else if n =? 1 then
      assert_state true true false false ≫= fun _ =>
      iret_wait EXIT_MEASURE ≫= fun _ =>
      set_state false false false false
    else TEST_ASSERT 1345 "0 && 'unexpected state'" false.
Definition experiment_25_vmcall : N unit :=
  gets state_no ≫= fun n : Z =>
    if n =? 0 then
      set_state true true false true ≫= fun _ =>
      set_inject_nmi ≫= fun _ =>
      prepare_measure
    else if n =? 1 then
      assert_state true true false false ≫= fun _ =>
      hlt_wait fuel EXIT_NMI_H ≫= fun _ =>
      iret_wait EXIT_MEASURE ≫= fun _ =>
      hlt_wait fuel EXIT_TIMER_H ≫= fun _ =>
      set_state false false false false
    else TEST_ASSERT 1386 "0 && 'unexpected state'" false.
Definition experiment_26_vmcall : N unit :=
  gets state_no ≫= fun n : Z =>
    if n =? 0 then
      hlt_wait fuel EXIT_NMI_H ≫= fun _ =>
      hlt_wait fuel EXIT_TIMER_H ≫= fun _ =>
      hlt_wait fuel EXIT_TIMER_H ≫= fun _ =>
      set_state true true false false ≫= fun _ =>
      set_inject_nmi ≫= fun _ =>
      prepare_measure_2
    else if n =? 1 then
      assert_state true true true false ≫= fun _ =>
      iret_wait EXIT_MEASURE ≫= fun _ =>
      set_state false false false false
    else TEST_ASSERT 1432 "0 && 'unexpected state'" false.
Definition experiment_27_vmcall : N unit :=
  gets state_no ≫= fun n : Z =>
    if n =? 0 then
      hlt_wait fuel EXIT_NMI_H ≫= fun _ =>
      hlt_wait fuel EXIT_TIMER_H ≫= fun _ =>
      hlt_wait fuel EXIT_TIMER_H ≫= fun _ =>
      hlt_wait fuel EXIT_TIMER_H ≫= fun _ =>
      set_state false false false false ≫= fun _ =>
      prepare_measure
    else if n =? 1 then
      assert_state false false false false ≫= fun _ =>
      iret_wait EXIT_MEASURE ≫= fun _ =>
      set_state false false false false
    else TEST_ASSERT 1473 "0 && 'unexpected state'" false.
Definition experiment_28_vmcall : N unit :=
  gets state_no ≫= fun n : Z =>
    if n =? 0 then
      hlt_wait fuel EXIT_NMI_H ≫= fun _ =>
      hlt_wait fuel EXIT_TIMER_H ≫= fun _ =>
      hlt_wait fuel EXIT_TIMER_H ≫= fun _ =>
      hlt_wait fuel EXIT_TIMER_H ≫= fun _ =>
      set_state true false false false ≫= fun _ =>
      prepare_measure
    else if n =? 1 then
      assert_state true false false false ≫= fun _ =>
      iret_wait EXIT_MEASURE ≫= fun _ =>
      set_state false false false false
    else TEST_ASSERT 1514 "0 && 'unexpected state'" false.
Definition experiment_29_vmcall : N unit :=
  gets state_no ≫= fun n : Z =>
    if n =? 0 then
      hlt_wait fuel EXIT_NMI_H ≫= fun _ =>
      hlt_wait fuel EXIT_TIMER_H ≫= fun _ =>
      hlt_wait fuel EXIT_TIMER_H ≫= fun _ =>
      hlt_wait fuel EXIT_TIMER_H ≫= fun _ =>
      hlt_wait fuel EXIT_TIMER_H ≫= fun _ =>
      iret_wait EXIT_NMI_H ≫= fun _ =>
      iret_wait EXIT_MEASURE ≫= fun _ =>
      iret_wait EXIT_MEASURE ≫= fun _ =>
      set_state false false false false
    else TEST_ASSERT 1547 "0 && 'unexpected state'" false.
Definition experiment_30_vmcall : N unit :=
  gets state_no ≫= fun n : Z =>
    if n =? 0 then
      hlt_wait fuel EXIT_NMI_H ≫= fun _ =>
      hlt_wait fuel EXIT_TIMER_H ≫= fun _ =>
      hlt_wait fuel EXIT_TIMER_H ≫= fun _ =>
      hlt_wait fuel EXIT_TIMER_H ≫= fun _ =>
      set_state true true false false ≫= fun _ =>
      prepare_measure
    else if n =? 1 then
      assert_state true true false false ≫= fun _ =>
      iret_wait EXIT_MEASURE ≫= fun _ =>
      set_state false false false false
    else TEST_ASSERT 1588 "0 && 'unexpected state'" false.


(** ** The dispatcher *)

Definition experiments_vmcall : list (option (N unit)) :=
  None :: map Some
  [ experiment_1_vmcall; experiment_2_vmcall; experiment_3_vmcall; experiment_4_vmcall; experiment_5_vmcall; experiment_6_vmcall;
    experiment_7_vmcall; experiment_8_vmcall; experiment_9_vmcall; experiment_10_vmcall; experiment_11_vmcall; experiment_12_vmcall;
    experiment_13_vmcall; experiment_14_vmcall; experiment_15_vmcall; experiment_16_vmcall; experiment_17_vmcall; experiment_18_vmcall;
    experiment_19_vmcall; experiment_20_vmcall; experiment_21_vmcall; experiment_22_vmcall; experiment_23_vmcall; experiment_24_vmcall;
    experiment_25_vmcall; experiment_26_vmcall; experiment_27_vmcall; experiment_28_vmcall; experiment_29_vmcall; experiment_30_vmcall ].
Definition nexperiments : Z := 31.

Definition shv_nmi_vmcall_dispatcher : N unit :=
  gets experiment_no ≫= fun n : Z =>
  gets state_no ≫= fun st : Z =>
  say (lit "  Enter host, exp=%d, state=%d" ++ [10]) [VNum 32 n; VNum 32 st] ≫= fun _ =>
  TEST_ASSERT 1765 "experiment_no < nexperiments" (n <? nexperiments) ≫= fun _ =>
  match default None (experiments_vmcall !! Z.to_nat n) with
  | Some f => f
  | None => TEST_ASSERT 1766 "experiments[experiment_no].vmcall" false
  end ≫= fun _ =>
  say (lit "  Leave host" ++ [10]) [].
(** The [vmcall] of line [ln]; the value is the address behind it. *)
Definition vmcall_at (ln : Z) : N Z := vmcall shv_nmi_vmcall_dispatcher (vmcall_site s ln).

(** ** The experiments: what the guest does *)


Definition experiment_1 : N unit :=
  start_experiment 1 ≫= fun _ =>
  modg (set_state_no 0) ≫= fun _ =>
  vmcall_at 488 ≫= fun _ =>
  hlt_wait fuel EXIT_NMI_G ≫= fun _ =>
  iret_wait EXIT_MEASURE ≫= fun _ =>
  hlt_wait fuel EXIT_TIMER_G.
Definition experiment_2 : N unit :=
  start_experiment 2 ≫= fun _ =>
  modg (set_state_no 0) ≫= fun _ =>
  vmcall_at 518 ≫= fun _ =>
  hlt_wait fuel EXIT_TIMER_G ≫= fun _ =>
  modg (set_n_source EXIT_MEASURE) ≫= fun _ =>
  modg (set_state_no 1) ≫= fun _ =>
  prepare_measure ≫= fun _ =>
  vmcall_at 525 ≫= fun _ =>
  iret_wait EXIT_NMI_G ≫= fun _ =>
  iret_wait EXIT_MEASURE.
Definition experiment_3 : N unit :=
  start_experiment 3 ≫= fun _ =>
  modg (set_state_no 0) ≫= fun _ =>
  vmcall_at 560 ≫= fun rip =>
  assert_measure EXIT_NMI_G rip ≫= fun _ =>
  iret_wait EXIT_MEASURE.
Definition experiment_4 : N unit :=
  start_experiment 4 ≫= fun _ =>
  modg (set_state_no 0) ≫= fun _ =>
  vmcall_at 593 ≫= fun _ =>
  modg (set_state_no 1) ≫= fun _ =>
  vmcall_at 595 ≫= fun _ =>
  iret_wait EXIT_MEASURE.
Definition experiment_5 : N unit :=
  start_experiment 5 ≫= fun _ =>
  modg (set_state_no 0) ≫= fun _ =>
  vmcall_at 625 ≫= fun _ =>
  hlt_wait fuel EXIT_VMEXIT ≫= fun _ =>
  modg (set_state_no 1) ≫= fun _ =>
  vmcall_at 628 ≫= fun _ =>
  hlt_wait fuel EXIT_TIMER_G.
Definition experiment_6 : N unit :=
  start_experiment 6 ≫= fun _ =>
  modg (set_state_no 0) ≫= fun _ =>
  vmcall_at 658 ≫= fun _ =>
  hlt_wait fuel EXIT_TIMER_G ≫= fun _ =>
  iret_wait EXIT_MEASURE ≫= fun _ =>
  modg (set_state_no 1) ≫= fun _ =>
  vmcall_at 662 ≫= fun _ => mret tt.
Definition experiment_7 : N unit :=
  start_experiment 7 ≫= fun _ =>
  modg (set_state_no 0) ≫= fun _ =>
  prepare_measure ≫= fun _ =>
  vmcall_at 694 ≫= fun rip =>
  assert_measure EXIT_VMEXIT rip ≫= fun _ =>
  modg (set_state_no 1) ≫= fun _ =>
  vmcall_at 697 ≫= fun _ => mret tt.
Definition experiment_8 : N unit :=
  start_experiment 8 ≫= fun _ =>
  modg (set_state_no 0) ≫= fun _ =>
  vmcall_at 729 ≫= fun _ =>
  hlt_wait fuel EXIT_VMEXIT ≫= fun _ =>
  modg (set_state_no 1) ≫= fun _ =>
  vmcall_at 732 ≫= fun _ =>
  hlt_wait fuel EXIT_TIMER_G.
Definition experiment_9 : N unit :=
  start_experiment 9 ≫= fun _ =>
  modg (set_state_no 0) ≫= fun _ =>
  vmcall_at 759 ≫= fun _ =>
  hlt_wait fuel EXIT_VMEXIT ≫= fun _ =>
  hlt_wait fuel EXIT_TIMER_G ≫= fun _ =>
  modg (set_state_no 1) ≫= fun _ =>
  vmcall_at 763 ≫= fun _ => mret tt.
Definition experiment_10 : N unit :=
  start_experiment 10 ≫= fun _ =>
  modg (set_state_no 0) ≫= fun _ =>
  prepare_measure ≫= fun _ =>
  vmcall_at 793 ≫= fun rip =>
  assert_measure EXIT_VMEXIT rip ≫= fun _ =>
  modg (set_state_no 1) ≫= fun _ =>
  vmcall_at 796 ≫= fun _ => mret tt.
Definition experiment_11 : N unit :=
  start_experiment 11 ≫= fun _ =>
  modg (set_state_no 0) ≫= fun _ =>
  prepare_measure ≫= fun _ =>
  vmcall_at 829 ≫= fun rip =>
  assert_measure EXIT_VMEXIT rip ≫= fun _ =>
  modg (set_state_no 1) ≫= fun _ =>
  vmcall_at 832 ≫= fun _ => mret tt.
Definition experiment_12 : N unit :=
  start_experiment 12 ≫= fun _ =>
  modg (set_state_no 0) ≫= fun _ =>
  vmcall_at 863 ≫= fun _ =>
  iret_wait EXIT_MEASURE ≫= fun _ =>
  modg (set_state_no 1) ≫= fun _ =>
  vmcall_at 866 ≫= fun _ => mret tt.
Definition experiment_13 : N unit :=
  start_experiment 13 ≫= fun _ =>
  modg (set_state_no 0) ≫= fun _ =>
  vmcall_at 897 ≫= fun _ =>
  modg (set_state_no 1) ≫= fun _ =>
  vmcall_at 899 ≫= fun _ => mret tt.
Definition experiment_14 : N unit :=
  start_experiment 14 ≫= fun _ =>
  modg (set_state_no 0) ≫= fun _ =>
  vmcall_at 932 ≫= fun _ =>
  modg (set_state_no 1) ≫= fun _ =>
  vmcall_at 934 ≫= fun _ => mret tt.
Definition experiment_15 : N unit :=
  start_experiment 15 ≫= fun _ =>
  modg (set_state_no 0) ≫= fun _ =>
  vmcall_at 967 ≫= fun _ =>
  assert_measure EXIT_NMI_G (stub s true 0x21) ≫= fun _ =>
  modg (set_state_no 1) ≫= fun _ =>
  vmcall_at 970 ≫= fun _ => mret tt.
Definition experiment_16 : N unit :=
  start_experiment 16 ≫= fun _ =>
  modg (set_state_no 0) ≫= fun _ =>
  vmcall_at 1006 ≫= fun _ =>
  assert_measure EXIT_VMEXIT (stub s true 0x21) ≫= fun _ =>
  modg (set_state_no 1) ≫= fun _ =>
  vmcall_at 1009 ≫= fun _ => mret tt.
Definition experiment_17 : N unit :=
  start_experiment 17 ≫= fun _ =>
  modg (set_state_no 0) ≫= fun _ =>
  vmcall_at 1045 ≫= fun _ =>
  assert_measure EXIT_VMEXIT (stub s true 0x21) ≫= fun _ =>
  modg (set_state_no 1) ≫= fun _ =>
  vmcall_at 1048 ≫= fun _ => mret tt.
Definition experiment_18 : N unit :=
  start_experiment 18 ≫= fun _ =>
  modg (set_state_no 0) ≫= fun _ =>
  vmcall_at 1086 ≫= fun rip =>
  assert_measure EXIT_NMI_G rip ≫= fun _ =>
  modg (set_state_no 1) ≫= fun _ =>
  vmcall_at 1089 ≫= fun _ => mret tt.
Definition experiment_19 : N unit :=
  start_experiment 19 ≫= fun _ =>
  modg (set_state_no 0) ≫= fun _ =>
  vmcall_at 1126 ≫= fun rip =>
  assert_measure EXIT_NMI_G rip ≫= fun _ =>
  modg (set_state_no 1) ≫= fun _ =>
  vmcall_at 1129 ≫= fun _ => mret tt.
Definition experiment_20 : N unit :=
  start_experiment 20 ≫= fun _ =>
  modg (set_state_no 0) ≫= fun _ =>
  vmcall_at 1165 ≫= fun rip =>
  assert_measure EXIT_NMI_G rip ≫= fun _ =>
  modg (set_state_no 1) ≫= fun _ =>
  vmcall_at 1168 ≫= fun _ => mret tt.
Definition experiment_21 : N unit :=
  start_experiment 21 ≫= fun _ =>
  modg (set_state_no 0) ≫= fun _ =>
  vmcall_at 1203 ≫= fun rip =>
  assert_measure EXIT_NMIWIND rip ≫= fun _ =>
  modg (set_state_no 1) ≫= fun _ =>
  vmcall_at 1206 ≫= fun _ => mret tt.
Definition experiment_22 : N unit :=
  start_experiment 22 ≫= fun _ =>
  modg (set_state_no 0) ≫= fun _ =>
  vmcall_at 1240 ≫= fun rip =>
  assert_measure EXIT_MEASURE rip ≫= fun _ =>
  modg (set_state_no 1) ≫= fun _ =>
  vmcall_at 1243 ≫= fun _ => mret tt.
Definition experiment_23 : N unit :=
  start_experiment 23 ≫= fun _ =>
  modg (set_state_no 0) ≫= fun _ =>
  vmcall_at 1277 ≫= fun _ =>
  assert_measure EXIT_MEASURE 0 ≫= fun _ =>
  iret_wait EXIT_NMIWIND ≫= fun _ =>
  modg (set_state_no 1) ≫= fun _ =>
  vmcall_at 1281 ≫= fun _ => mret tt.
Definition experiment_24 : N unit :=
  start_experiment 24 ≫= fun _ =>
  modg (set_state_no 0) ≫= fun _ =>
  vmcall_at 1317 ≫= fun rip =>
  assert_measure_2 EXIT_NMI_H (n_vmexit_asm s) EXIT_NMIWIND rip ≫= fun _ =>
  modg (set_state_no 1) ≫= fun _ =>
  vmcall_at 1325 ≫= fun _ => mret tt.
Definition experiment_25 : N unit :=
  start_experiment 25 ≫= fun _ =>
  modg (set_state_no 0) ≫= fun _ =>
  vmcall_at 1362 ≫= fun rip =>
  assert_measure EXIT_NMI_G rip ≫= fun _ =>
  iret_wait EXIT_NMIWIND ≫= fun _ =>
  modg (set_state_no 1) ≫= fun _ =>
  vmcall_at 1366 ≫= fun _ => mret tt.
Definition experiment_26 : N unit :=
  start_experiment 26 ≫= fun _ =>
  modg (set_state_no 0) ≫= fun _ =>
  vmcall_at 1402 ≫= fun rip =>
  assert_measure_2 EXIT_VMEXIT (stub s true 0x02) EXIT_NMI_G rip ≫= fun _ =>
  modg (set_state_no 1) ≫= fun _ =>
  vmcall_at 1411 ≫= fun _ => mret tt.
Definition experiment_27 : N unit :=
  start_experiment 27 ≫= fun _ =>
  modg (set_state_no 0) ≫= fun _ =>
  vmcall_at 1448 ≫= fun rip =>
  assert_measure EXIT_NMI_G rip ≫= fun _ =>
  iret_wait EXIT_MEASURE ≫= fun _ =>
  modg (set_state_no 1) ≫= fun _ =>
  vmcall_at 1452 ≫= fun _ => mret tt.
Definition experiment_28 : N unit :=
  start_experiment 28 ≫= fun _ =>
  modg (set_state_no 0) ≫= fun _ =>
  vmcall_at 1489 ≫= fun rip =>
  assert_measure EXIT_VMEXIT rip ≫= fun _ =>
  iret_wait EXIT_MEASURE ≫= fun _ =>
  modg (set_state_no 1) ≫= fun _ =>
  vmcall_at 1493 ≫= fun _ => mret tt.
Definition experiment_29 : N unit :=
  start_experiment 29 ≫= fun _ =>
  modg (set_state_no 0) ≫= fun _ =>
  vmcall_at 1528 ≫= fun _ => mret tt.
Definition experiment_30 : N unit :=
  start_experiment 30 ≫= fun _ =>
  modg (set_state_no 0) ≫= fun _ =>
  vmcall_at 1563 ≫= fun rip =>
  assert_measure EXIT_VMEXIT rip ≫= fun _ =>
  iret_wait EXIT_MEASURE ≫= fun _ =>
  modg (set_state_no 1) ≫= fun _ =>
  vmcall_at 1567 ≫= fun _ => mret tt.

Definition experiments : list (option (N unit)) :=
  None :: map Some
  [ experiment_1; experiment_2; experiment_3; experiment_4; experiment_5; experiment_6; experiment_7; experiment_8; experiment_9; experiment_10;
    experiment_11; experiment_12; experiment_13; experiment_14; experiment_15; experiment_16; experiment_17; experiment_18; experiment_19; experiment_20;
    experiment_21; experiment_22; experiment_23; experiment_24; experiment_25; experiment_26; experiment_27; experiment_28; experiment_29; experiment_30 ].

Definition SHV_NMI_DETECT_ENV : Z := 0x2.
Definition SHV_NMI_RUN_SEQUENTIAL : Z := 0x4.
Definition SHV_NMI_RUN_RANDOM : Z := 0x8.
Definition SHV_NMI_INTR_PERIOD_1 : Z := 0x10.
Definition SHV_NMI_INTR_PERIOD_5 : Z := 0x20.
Definition SHV_NMI_INTR_PERIOD_15 : Z := 0x40.
Definition SHV_NMI_INTR_PERIOD_20 : Z := 0x80.
Definition SHV_NMI_QUIET_SKIP : Z := 0x100.
Definition SHV_NMI_EXP_MASK_ENABLE : Z := 0x1.
Definition EXP_QEMU_MASK : Z := 0x7ef39fa2.
Definition EXP_BOCHS_MASK : Z := 0x7ff3fffe.
Definition EXP_XMHF_MASK : Z := 0x7bfbfffe.

Definition no_failure (ln : Z) : N unit := gets master_fail ≫= fun f : Z => TEST_ASSERT ln "!master_fail" (f =? 0).

Definition run_experiment (i : Z) : N unit :=
  gets exp_mask ≫= fun mask : Z =>
  if negb (Z.testbit mask i) then
    if negb (opt (g_nmi_opt g) SHV_NMI_QUIET_SKIP) then say (lit "Skipping experiments[%d]" ++ [10]) [VNum 32 i] else mret tt
  else
    match default None (experiments !! Z.to_nat i) with
    | Some f => f
    | None => ASSERT_n false
    end ≫= fun _ =>
    no_failure 1651.

(** ** [shv_nmi_guest_main] *)

Definition nmi_period : Z :=
  if opt (g_nmi_opt g) SHV_NMI_INTR_PERIOD_1 then 1
  else if opt (g_nmi_opt g) SHV_NMI_INTR_PERIOD_5 then 5
  else if opt (g_nmi_opt g) SHV_NMI_INTR_PERIOD_15 then 15
  else if opt (g_nmi_opt g) SHV_NMI_INTR_PERIOD_20 then 20
  else 10.

(** [cpuid] in the guest; the values of the four registers. *)
Definition guest_cpuid (eax ecx : Z) : N (Z * Z * Z * Z) :=
  guest_exit shv_nmi_vmcall_dispatcher VMX_VMEXIT_CPUID 2 (cpuid_site s) (with_ecx ecx (with_eax eax no_regs)) ≫= fun r : regs =>
  mret (r_eax r, r_ebx r, r_ecx r, r_edx r).

(** Lines 1674 to 1702. *)
Definition detect_env : N unit :=
  say (lit "Detecting environment" ++ [10]) [] ≫= fun _ =>
  guest_cpuid 1 0 ≫= fun '(eax, _, _, _) =>
  (if eax =? 0x000206a7 then
     modg (set_in_bochs true) ≫= fun _ => say (lit "    Bochs detected" ++ [10]) []
   else mret tt) ≫= fun _ =>
  guest_cpuid 0x40000000 0 ≫= fun '(_, ebx, ecx, edx) =>
  (if (ebx =? 0x4b4d564b) && (ecx =? 0x564b4d56) && (edx =? 0x0000004d) then
     modg (set_in_qemu true) ≫= fun _ => say (lit "    QEMU / KVM detected" ++ [10]) []
   else mret tt) ≫= fun _ =>
  guest_cpuid 0x46484d58 0 ≫= fun '(eax, _, _, _) =>
  (if eax =? 0x46484d58 then
     modg (set_in_xmhf true) ≫= fun _ => say (lit "    XMHF detected" ++ [10]) []
   else mret tt) ≫= fun _ =>
  say (lit "End detecting environment" ++ [10]) [].

(** The mask after the tests that cannot run are taken out. *)
Definition masked (qemu bochs xmhf : bool) (mask : Z) : Z :=
  let mask := if xmhf then Z.land mask EXP_XMHF_MASK else mask in
  let mask := if qemu && negb xmhf then Z.land mask EXP_QEMU_MASK else mask in
  let mask := if bochs && negb xmhf then Z.land mask EXP_BOCHS_MASK else mask in
  if opt (g_nmi_exp g) SHV_NMI_EXP_MASK_ENABLE then Z.land mask (g_nmi_exp g) else mask.
Definition set_exp_masks : N unit :=
  modg (fun x => set_exp_mask (masked (in_qemu x) (in_bochs x) (in_xmhf x) (exp_mask x)) x) ≫= fun _ =>
  gets exp_mask ≫= fun mask : Z => say (lit "exp_mask: 0x%llx" ++ [10]) [VNum 64 mask].

(** One round of the loop on lines 1725 to 1729; then [n] rounds. *)
Definition warm_up_round : N unit := hlt_wait fuel EXIT_NMI_G ≫= fun _ => iret_wait EXIT_MEASURE ≫= fun _ => hlt_wait fuel EXIT_TIMER_G.
Fixpoint times (n : nat) (m : N unit) : N unit :=
  match n with O => mret tt | S n => m ≫= fun _ => times n m end.
Definition warm_up : N unit :=
  modg (set_quiet true) ≫= fun _ =>
  times (Z.to_nat ((10 + nmi_period - 1) / nmi_period)) warm_up_round ≫= fun _ =>
  modg (set_quiet false).

(** [run_experiment] of [i] and the [n - 1] numbers that follow it. *)
Fixpoint run_from (n : nat) (i : Z) : N unit :=
  match n with O => mret tt | S n => run_experiment i ≫= fun _ => run_from n (i + 1) end.
Definition run_sequential : N unit :=
  run_from (Z.to_nat nexperiments) 0 ≫= fun _ =>
  no_failure 1744 ≫= fun _ => say (lit "Sequential experiments pass" ++ [10]) [].
Definition run_one_random : N unit := rand ≫= fun x : Z => run_experiment (x mod nexperiments).
Definition run_random : N unit :=
  times (Z.to_nat 100000) run_one_random ≫= fun _ =>
  no_failure 1751 ≫= fun _ => say (lit "Random experiments pass" ++ [10]) [].

(** Everything before the final [HALT]. *)
Definition guest_tests : N unit :=
  say (lit "g_nmi_opt: 0x%llx" ++ [10]) [VNum 64 (g_nmi_opt g)] ≫= fun _ =>
  say (lit "g_nmi_exp: 0x%llx" ++ [10]) [VNum 64 (g_nmi_exp g)] ≫= fun _ =>
  TEST_ASSERT 1660 "vcpu->idx == 1" (c_idx cpu1 =? 1) ≫= fun _ =>
  guest_cpuid 1 0 ≫= fun '(_, ebx, _, _) =>
  modg (set_l2_init_apic_id (Z.land ebx 0xff000000)) ≫= fun _ =>
  modg (set_interrupt_period nmi_period) ≫= fun _ =>
  (if opt (g_nmi_opt g) SHV_NMI_DETECT_ENV then detect_env else mret tt) ≫= fun _ =>
  modg (set_disable_cpuid true) ≫= fun _ =>
  set_exp_masks ≫= fun _ =>
  warm_up ≫= fun _ =>
  hw (m_set_flag true) ≫= fun _ =>
  (if opt (g_nmi_opt g) SHV_NMI_RUN_SEQUENTIAL then run_sequential else mret tt) ≫= fun _ =>
  (if opt (g_nmi_opt g) SHV_NMI_RUN_RANDOM then run_random else mret tt) ≫= fun _ =>
  no_failure 1755 ≫= fun _ =>
  say (lit "ALL TEST PASS" ++ [10]) [] ≫= fun _ =>
  modg (set_l2_ready 0).
Definition shv_nmi_guest_main : N unit := guest_tests ≫= fun _ => fail_with Halt.
End nmi.
(** The program: processor 0 takes its timer interrupts while processor 1 sleeps. *)
Definition nmi_main (a : subarch) {D : Device} {C : Cpu} {M : Machine} (g : opts) (s : nmi_syms) (cpu0 cpu1 : dcpu) (fuel : nat) : N unit :=
  shv_nmi_guest_main a g s cpu1 (tick_cpu0 a cpu0) fuel.
