(* ===== verification/NmiMachine.v ===== *)
(** A processor for the experiments of [src/shv-nmi.c], written after volume 3 of the Intel manual: blocking by NMI and by
    virtual NMI, the NMI window, event injection, and what VM exits save and VM entries load (chapters "VMX non-root
    operation", "VM entries" and "VM exits").  Interrupts other than NMIs do not cause VM exits. *)
From Stdlib Require Import String.
From S2P Require Import Prelude.
From S2P Require Import CString.
From S2P Require Import Stdio.
From S2P Require Import Io.
From S2P Require Import Devices.
From S2P Require Import Timer.
From S2P Require Import VmxCtls.
From S2P Require Import VmcsFields.
From S2P Require Import Vmcs.
From S2P Require Import Vcpu.
From S2P Require Import Nmi.

Record cpu1_state := mkC1 {
  c_guest : bool;           (* in VMX non-root operation *)
  c_if : bool;              (* RFLAGS.IF *)
  c_frames : list bool;     (* the flag saved by the interrupt frames that are open, those of the host first *)
  c_gif : bool;             (* RFLAGS.IF of the guest in the VMCS *)
  c_nmi : bool;             (* an NMI is latched *)
  c_blk : bool;             (* blocking by NMI *)
  c_vblk : bool;            (* virtual-NMI blocking *)
  c_int : bool;             (* vector 0x54 is requested in the local APIC *)
  c_isr : bool;             (* vector 0x54 is in service *)
  c_halted : bool;          (* in the HLT state *)
  c_inject : option Z;      (* the event of the last VM entry that is still to be delivered: its vector *)
  c_pin : Z; c_proc : Z; c_intr : Z; c_entry : Z; c_act : Z; c_reason : Z; c_info : Z; c_len : Z; c_rip : Z }.

Definition exits_on_nmi (m : cpu1_state) : bool := Z.testbit (c_pin m) 3.
Definition uses_virtual_nmis (m : cpu1_state) : bool := Z.testbit (c_pin m) 5.
Definition nmi_windowing (m : cpu1_state) : bool := Z.testbit (c_proc m) 22.

(** ** The VMCS *)

Definition c_read (enc : Z) (m : cpu1_state) : option Z :=
  if enc =? 0x4000 then Some (c_pin m) else if enc =? 0x4002 then Some (c_proc m)
  else if enc =? 0x4824 then Some (c_intr m) else if enc =? 0x4016 then Some (c_entry m)
  else if enc =? 0x4826 then Some (c_act m) else if enc =? 0x4402 then Some (c_reason m)
  else if enc =? 0x4404 then Some (c_info m) else if enc =? 0x440C then Some (c_len m)
  else if enc =? 0x681E then Some (c_rip m) else None.
Definition with_vmcs_fields (pin proc intr entry act reason info len rip : Z) (m : cpu1_state) : cpu1_state :=
  mkC1 (c_guest m) (c_if m) (c_frames m) (c_gif m) (c_nmi m) (c_blk m) (c_vblk m) (c_int m) (c_isr m) (c_halted m) (c_inject m)
    pin proc intr entry act reason info len rip.
Definition c_write (enc v : Z) (m : cpu1_state) : option cpu1_state :=
  let put pin proc intr entry act rip := Some (with_vmcs_fields pin proc intr entry act (c_reason m) (c_info m) (c_len m) rip m) in
  if enc =? 0x4000 then put v (c_proc m) (c_intr m) (c_entry m) (c_act m) (c_rip m)
  else if enc =? 0x4002 then put (c_pin m) v (c_intr m) (c_entry m) (c_act m) (c_rip m)
  else if enc =? 0x4824 then put (c_pin m) (c_proc m) v (c_entry m) (c_act m) (c_rip m)
  else if enc =? 0x4016 then put (c_pin m) (c_proc m) (c_intr m) v (c_act m) (c_rip m)
  else if enc =? 0x4826 then put (c_pin m) (c_proc m) (c_intr m) (c_entry m) v (c_rip m)
  else if enc =? 0x681E then put (c_pin m) (c_proc m) (c_intr m) (c_entry m) (c_act m) v
  else None.

(** ** Transitions *)

(** The members that change outside the VMCS. *)
Definition with_core (guest fl : bool) (frames : list bool) (gif nmi blk vblk int isr halted : bool) (inject : option Z) (m : cpu1_state) : cpu1_state :=
  mkC1 guest fl frames gif nmi blk vblk int isr halted inject
    (c_pin m) (c_proc m) (c_intr m) (c_entry m) (c_act m) (c_reason m) (c_info m) (c_len m) (c_rip m).

(** Delivery through an interrupt gate clears the flag and wakes the processor. *)
Definition c_irq (nmi blk vblk int isr : bool) (m : cpu1_state) : cpu1_state :=
  with_core (c_guest m) false (c_if m :: c_frames m) (c_gif m) nmi blk vblk int isr false None m.

(** A VM exit: the interruptibility says whether NMIs, or virtual NMIs if they are in use, were blocked, and the activity state
    whether the guest was halted; an NMI that causes the exit blocks further NMIs. *)
Definition c_exit (by_nmi : bool) (reason info len rip : Z) (m : cpu1_state) : cpu1_state :=
  let bit3 := if uses_virtual_nmis m then c_vblk m else c_blk m in
  mkC1 false false (c_frames m) (c_if m) (if by_nmi then false else c_nmi m) (by_nmi || c_blk m) (c_vblk m) (c_int m) (c_isr m) false None
    (c_pin m) (c_proc m) (if bit3 then 8 else 0) (c_entry m) (if c_halted m then 1 else 0) reason info len rip.

(** What comes first at an instruction boundary: the event the VM entry injects; the NMI window; an NMI; vector 0x54. *)
Definition c_poll (rip : Z) (m : cpu1_state) : option (arrival * cpu1_state) :=
  match c_inject m with
  | Some vector =>
      Some (Irq true vector,
            c_irq (c_nmi m) (c_blk m) (c_vblk m || ((vector =? 2) && uses_virtual_nmis m)) (c_int m) (c_isr m) m)
  | None =>
      if c_guest m && uses_virtual_nmis m && nmi_windowing m && negb (c_vblk m) then Some (VmExit, c_exit false 8 0 0 rip m)
      else if c_guest m && exits_on_nmi m && c_nmi m && (uses_virtual_nmis m || negb (c_blk m)) then
        Some (VmExit, c_exit true 0 0x80000202 0 rip m)
      else if negb (c_guest m && exits_on_nmi m) && c_nmi m && negb (c_blk m) then
        Some (Irq (c_guest m) 2, c_irq false true (c_vblk m) (c_int m) (c_isr m) m)
      else if c_int m && negb (c_isr m) && c_if m then
        Some (Irq (c_guest m) 0x54, c_irq (c_nmi m) (c_blk m) (c_vblk m) false true m)
      else None
  end.

(** The end of a handler that does not use [IRET]: the flag of the frame comes back. *)
Definition c_return (m : cpu1_state) : cpu1_state :=
  match c_frames m with
  | f :: l => with_core (c_guest m) f l (c_gif m) (c_nmi m) (c_blk m) (c_vblk m) (c_int m) (c_isr m) (c_halted m) (c_inject m) m
  | [] => m
  end.
Definition c_set_flag (b : bool) (m : cpu1_state) : cpu1_state :=
  with_core (c_guest m) b (c_frames m) (c_gif m) (c_nmi m) (c_blk m) (c_vblk m) (c_int m) (c_isr m) (c_halted m) (c_inject m) m.
Definition c_hlt (m : cpu1_state) : cpu1_state :=
  with_core (c_guest m) (c_if m) (c_frames m) (c_gif m) (c_nmi m) (c_blk m) (c_vblk m) (c_int m) (c_isr m) true (c_inject m) m.
(** [IRET] ends blocking by NMI, unless a guest runs whose NMIs cause VM exits: then it ends virtual-NMI blocking if that is
    in use, and nothing else. *)
Definition c_do_iret (m : cpu1_state) : cpu1_state :=
  let in_guest := c_guest m && exits_on_nmi m in
  with_core (c_guest m) (c_if m) (c_frames m) (c_gif m) (c_nmi m) (if in_guest then c_blk m else false)
    (if in_guest && uses_virtual_nmis m then false else c_vblk m) (c_int m) (c_isr m) (c_halted m) (c_inject m) m.

(** A VM entry: blocking as the interruptibility says, of virtual NMIs if they are in use, of NMIs otherwise; the event to
    inject, whose valid bit is cleared; and the activity state. *)
Definition c_enter (m : cpu1_state) : Z * cpu1_state :=
  let bit3 := Z.testbit (c_intr m) 3 in
  let inject := if Z.testbit (c_entry m) 31 then Some (Z.land (c_entry m) 0xff) else None in
  (c_rip m,
   mkC1 true (c_gif m) (c_frames m) (c_gif m) (c_nmi m) (if uses_virtual_nmis m then false else bit3) (uses_virtual_nmis m && bit3) (c_int m) (c_isr m)
     (c_act m =? 1) inject
     (c_pin m) (c_proc m) (c_intr m) (Z.land (c_entry m) 0x7fffffff) (c_act m) (c_reason m) (c_info m) (c_len m) (c_rip m)).

(** The two commands processor 0 writes: an NMI, and a fixed interrupt with vector 0x54. *)
Definition c_ipi (v : Z) (m : cpu1_state) : cpu1_state :=
  let nmi := Z.land (Z.shiftr v 8) 7 =? 4 in
  let fixed := (Z.land (Z.shiftr v 8) 7 =? 0) && (Z.land v 0xff =? 0x54) in
  with_core (c_guest m) (c_if m) (c_frames m) (c_gif m) (c_nmi m || nmi) (c_blk m) (c_vblk m) (c_int m || fixed) (c_isr m) (c_halted m) (c_inject m) m.
Definition c_eoi (m : cpu1_state) : cpu1_state :=
  with_core (c_guest m) (c_if m) (c_frames m) (c_gif m) (c_nmi m) (c_blk m) (c_vblk m) (c_int m) false (c_halted m) (c_inject m) m.

#[export] Instance sdm : Machine := {|
  mstate := cpu1_state; m_vmread := c_read; m_vmwrite := c_write; m_poll := c_poll; m_return := c_return; m_flag := c_if;
  m_set_flag := c_set_flag; m_hlt := c_hlt; m_iret := c_do_iret; m_exit reason len rip := c_exit false reason 0 len rip;
  m_entry := c_enter; m_ipi := c_ipi; m_eoi := c_eoi |}.

(** The guest between two experiments, with the interrupt flag [fl]: nothing is pending, nothing is blocked but perhaps virtual
    NMIs. *)
Definition rest_state (fl gif : bool) (pin proc intr entry act reason info len rip : Z) (vblk : bool) : cpu1_state :=
  mkC1 true fl [] gif false false vblk false false false None pin proc intr entry act reason info len rip.
