(* ===== verification/NmiSim.v ===== *)
(** The experiments against a simpler processor 0: one that sends its interrupts, alternately an NMI and vector 0x54, whenever
    processor 1 sleeps and waits for one.  What runs with it runs with the timer interrupts of [src/shv-nmi.c], for any period
    and any device, as long as the counter of interrupts does not wrap. *)
From Stdlib Require Import String.
From S2P Require Import Prelude.
From S2P Require Import HptLemmas.
From S2P Require Import Mem.
From S2P Require Import CString.
From S2P Require Import Cmdline.
From S2P Require Import Stdio.
From S2P Require Import Io.
From S2P Require Import Print.
From S2P Require Import Devices.
From S2P Require Import Timer.
From S2P Require Import VmxCtls.
From S2P Require Import VmcsFields.
From S2P Require Import Vmcs.
From S2P Require Import Vcpu.
From S2P Require Import Nmi.

(** ** The simpler processor 0 *)

(** The number of interrupts it has sent is kept in [nmi_count]: the even ones are NMIs. *)
Definition idx (g : nglob) : Z := nmi_count (n_t g).
Definition set_idx (x : Z) : nglob -> nglob :=
  set_t (fun t => mkTglob (shot_arrived t) (l2_ready t) (l2_init_apic_id t) (interrupt_period t) (nmi_quiet t) x).
Definition command (n : Z) : Z := if Z.even n then 0x4400 else 0x4054.
Definition alternate {M : Machine} : N unit := fun w =>
  if truth (l2_ready (n_t (n_g w))) then
    Ok (tt, mkN (set_idx (idx (n_g w) + 1) (n_g w)) (m_ipi (command (idx (n_g w))) (n_m w)) (n_w w))
  else Ok (tt, w).

(** ** Printing does not fail *)

Lemma puts_io_ok l w : exists w', puts_io l w = Ok (tt, w').
Proof.
  revert w. induction l as [|e l IH]; intros w; cbn [puts_io]; [by eexists|].
  destruct e as [c|p n v]; (rewrite (bind_run _ _ w tt _ eq_refl); apply IH).
Qed.
Lemma printf_any a fmt ap w x w1 v : printf a fmt ap w = Ok (x, w1) -> exists v', printf a fmt ap v = Ok (x, v').
Proof.
  unfold printf, vprintf. intros H. apply IO_bind_Ok in H as ([] & w2 & _ & H). apply IO_bind_Ok in H as (k & w3 & E & H).
  unfold lift in E. destruct (kvprintf a (Some fmt) 10 ap) as [k'|] eqn:Ek; [|done]. injection E as -> _.
  apply IO_bind_Ok in H as ([] & w4 & _ & H). apply IO_bind_Ok in H as ([] & w5 & _ & H). injection H as <- _.
  rewrite (bind_run _ _ v tt _ eq_refl). rewrite (bind_run _ _ _ k _ eq_refl). destruct (puts_io_ok (k_ev k) (mkW (w_mem v) (ELock :: w_tr v))) as [v2 E2].
  rewrite (bind_run _ _ _ _ _ E2). by eexists.
Qed.

(** A key press while [NMI_ENABLE] is set. *)
Lemma keyboard_run a {D : Device} g v guest d w : truth (Z.land (g_nmi_opt g) 1) = true -> drop_keyboard_interrupts d = 0 ->
  exists w', handle_keyboard_interrupt a g v 0x21 guest d w = Ok (d, w').
Proof.
  intros Ho Hd. unfold handle_keyboard_interrupt. rewrite Ho, Hd. cbn [negb]. change (truth 0) with false. cbv iota.
  rewrite (bind_run (mret tt) _ w tt w) by done. rewrite (bind_run (ASSERT_io _) _ w tt w) by done.
  assert (forall z, exists w', (printf a (lit "CPU(0x%02x): key press: 0x%hh02x, guest=%d" ++ [10])
           [VNum 32 (c_id v); VNum 32 z; VNum 32 (b2z guest)] ≫= fun _ => mret d) (mkW (w_mem w) (EIn KEYBOARD_PORT z :: w_tr w)) = Ok (d, w')) as Hp.
  { intros z. destruct (printf_run a (lit "CPU(0x%02x): key press: 0x%hh02x, guest=%d" ++ [10]) [ANum 32; ANum 32; ANum 32]
      [VNum 32 (c_id v); VNum 32 z; VNum 32 (b2z guest)] (mkW (w_mem w) (EIn KEYBOARD_PORT z :: w_tr w)) ltac:(by destruct a) ltac:(by repeat constructor)) as (l & E).
    rewrite (bind_run _ _ _ _ _ E). by eexists. }
  destruct (Hp (u8 (dev_in (w_tr w) KEYBOARD_PORT))) as (w' & E).
  erewrite bind_run; [|erewrite bind_run; [exact E|done]]. by eexists.
Qed.

(** ** The timer interrupts of processor 0 *)

Lemma icr_writes_app l1 l2 : icr_writes (l1 ++ l2) = icr_writes l2 ++ icr_writes l1.
Proof. unfold icr_writes. by rewrite omap_app, reverse_app. Qed.
Lemma no_icr_writes tr : Forall (fun e => printing e = true) tr -> icr_writes tr = [].
Proof.
  intros H. unfold icr_writes. replace (omap _ tr) with (@nil Z); [done|]. symmetry. induction H as [|e tr He _ IH]; [done|].
  cbn. rewrite IH. by destruct e.
Qed.

(** What a timer interrupt sends when the counter is [c], and the counter after it. *)
Definition commands (c period : Z) : list Z :=
  if c mod (period * 2) =? 0 then [0x4400] else if c mod (period * 2) =? period then [0x4054] else [].
Definition counted (t : tglob) : tglob :=
  mkTglob (shot_arrived t) (l2_ready t) (l2_init_apic_id t) (interrupt_period t) (nmi_quiet t) (nmi_count t + 1).

(** A line that is printed, or not, by a computation that goes on. *)
Lemma maybe_line a fmt (q : bool) {B} (f : unit -> IO B) w : check_printf a fmt [] = true ->
  exists tr, Forall (fun e => printing e = true) tr /\
    ((if negb q then printf a fmt [] ≫= fun _ => mret tt else mret tt) ≫= f) w = f tt (mkW (w_mem w) (tr ++ w_tr w)).
Proof.
  intros Hc. destruct q; cbn [negb].
  - exists []. split; [done|]. rewrite (bind_run (mret tt) _ w tt w) by done. by destruct w.
  - destruct (printf_run a fmt [] [] w Hc ltac:(constructor)) as (l & E). exists (EUnlock :: puts_of_text l ++ [ELock]). split.
    + constructor; [done|]. apply Forall_app. split; [apply puts_of_text_printing|by repeat constructor].
    + erewrite bind_run; [|erewrite bind_run; [|exact E]; done]. cbn. by rewrite <- app_assoc.
Qed.

Section tick.
Context (a : subarch) {D : Device} {M : Machine} (cpu0 : dcpu).
Lemma timer_run t w : c_isbsp cpu0 = true -> truth (l2_ready t) = true -> l2_init_apic_id t <> 0 ->
  0 < interrupt_period t < 2 ^ 31 -> 0 <= nmi_count t < 2 ^ 32 - 1 ->
  exists tr, shv_nmi_handle_timer_interrupt a cpu0 0x20 false t w = Ok (counted t, mkW (w_mem w) (tr ++ w_tr w)) /\
    icr_writes tr = commands (nmi_count t) (interrupt_period t).
Proof.
  intros Hb Hr Ha Hp Hc. unfold shv_nmi_handle_timer_interrupt. rewrite Hb, Hr. cbv zeta.
  rewrite (proj2 (Z.eqb_neq (l2_init_apic_id t) 0)) by done. cbn [negb].
  assert (u32 (interrupt_period t * 2) = interrupt_period t * 2) as -> by (apply wrap_small; unfold is_u; lia).
  assert (u32 (nmi_count t + 1) = nmi_count t + 1) as -> by (apply wrap_small; unfold is_u; lia).
  rewrite (proj2 (Z.eqb_neq (interrupt_period t * 2) 0)) by lia.
  do 3 rewrite (bind_run (ASSERT_io true) _ w tt w) by done. unfold commands.
  assert (forall (m : IO unit) (l : list Z),
    (forall v, exists tr, m v = Ok (tt, mkW (w_mem v) (tr ++ w_tr v)) /\ icr_writes tr = l) ->
    exists tr, ((ASSERT_io true ≫= fun _ => write32 0xfee00310 (l2_init_apic_id t) ≫= fun _ => m ≫= fun _ => mret (counted t)) ≫= fun t : tglob =>
      outb INT_CTL_PORT INT_ACK_CURRENT ≫= fun _ => mret t) w = Ok (counted t, mkW (w_mem w) (tr ++ w_tr w)) /\ icr_writes tr = l) as Hgo.
  { intros m l Hm. destruct (Hm (mkW (w_mem w) (EWrite 0xfee00310 (u32 (l2_init_apic_id t)) :: w_tr w))) as (tr & E & Hl).
    exists ([EOut INT_CTL_PORT (u8 INT_ACK_CURRENT)] ++ tr ++ [EWrite 0xfee00310 (u32 (l2_init_apic_id t))]). split.
    - erewrite bind_run; [|erewrite bind_run by done; erewrite bind_run by done; erewrite bind_run by exact E; done]. cbn. by rewrite <- app_assoc.
    - rewrite !icr_writes_app, Hl. cbn. by rewrite app_nil_r. }
  assert (forall fmt v, check_printf a fmt [] = true -> forall val, exists tr,
    ((if negb (nmi_quiet t) then printf a fmt [] ≫= fun _ => mret tt else mret tt) ≫= fun _ => write32 0xfee00300 val) v =
      Ok (tt, mkW (w_mem v) (tr ++ w_tr v)) /\ icr_writes tr = [u32 val]) as Hline.
  { intros fmt v Hf val. destruct (maybe_line a fmt (nmi_quiet t) (fun _ => write32 0xfee00300 val) v Hf) as (tr & Htr & E).
    exists (EWrite 0xfee00300 (u32 val) :: tr). split; [exact E|]. change (EWrite ?p ?v :: tr) with ([EWrite p v] ++ tr).
    by rewrite icr_writes_app, (no_icr_writes tr Htr). }
  apply Hgo. intros v. destruct (_ =? 0); [apply Hline; by destruct a|]. destruct (_ =? _); [apply Hline; by destruct a|].
  exists []. split; [by destruct v|done].
Qed.
Lemma tick_run w : c_isbsp cpu0 = true -> truth (l2_ready (n_t (n_g w))) = true -> l2_init_apic_id (n_t (n_g w)) <> 0 ->
  0 < interrupt_period (n_t (n_g w)) < 2 ^ 31 -> 0 <= idx (n_g w) < 2 ^ 32 - 1 ->
  exists x, tick_cpu0 a cpu0 w =
    Ok (tt, mkN (set_idx (idx (n_g w) + 1) (n_g w))
              (foldl (fun m v => m_ipi v m) (n_m w) (commands (idx (n_g w)) (interrupt_period (n_t (n_g w))))) x).
Proof.
  intros Hb Hr Ha Hp Hc. destruct (timer_run (n_t (n_g w)) (mkW (w_mem (n_w w)) []) Hb Hr Ha Hp Hc) as (tr & E & Hl).
  unfold tick_cpu0. rewrite E. cbn [w_tr w_mem]. rewrite app_nil_r, Hl. by eexists.
Qed.
End tick.

(** A timer interrupt sends something when the counter is a multiple of the period: an NMI for the even ones. *)
Lemma commands_at P n : 0 < P -> commands (P * n) P = [command n].
Proof.
  intros HP. unfold commands, command. pose proof (Z.div_mod n 2 ltac:(lia)) as Hn. rewrite Zmod_even in Hn.
  destruct (Z.even n).
  - replace (P * n) with (n / 2 * (P * 2)) by nia. rewrite Z.mod_mul by lia. done.
  - replace (P * n) with (P + n / 2 * (P * 2)) by nia. rewrite Z.mod_add, Z.mod_small by lia.
    by rewrite (proj2 (Z.eqb_neq P 0)), Z.eqb_refl by lia.
Qed.
Lemma commands_between P n c : 0 < P -> P * (n - 1) < c < P * n -> commands c P = [].
Proof.
  intros HP Hc. unfold commands. set (r := c - P * (n - 1)). assert (0 < r < P) as Hr by (unfold r; lia).
  pose proof (Z.div_mod (n - 1) 2 ltac:(lia)) as Hn. rewrite Zmod_even in Hn.
  destruct (Z.even (n - 1)).
  - replace c with (r + (n - 1) / 2 * (P * 2)) by (unfold r; nia). rewrite Z.mod_add, Z.mod_small by lia.
    by rewrite (proj2 (Z.eqb_neq r 0)), (proj2 (Z.eqb_neq r P)) by lia.
  - replace c with (r + P + (n - 1) / 2 * (P * 2)) by (unfold r; nia). rewrite Z.mod_add, Z.mod_small by lia.
    by rewrite (proj2 (Z.eqb_neq (r + P) 0)), (proj2 (Z.eqb_neq (r + P) P)) by lia.
Qed.
Lemma command_shift n k : command (n + 2 * k) = command n.
Proof. unfold command. by rewrite Z.even_add, Z.even_mul; destruct (Z.even n). Qed.

(** ** The relation *)

Section sim.
Context (a : subarch) {D1 D2 : Device} {C : Cpu} {M : Machine} (g1 g2 : opts) (s : nmi_syms) (v1 v2 : dcpu) (cpu0 : dcpu).
Context (P k emask : Z) (fuel1 fuel2 : nat).
Context (Hcpu0 : c_isbsp cpu0 = true) (Hbsp1 : c_isbsp v1 = false) (Hbsp2 : c_isbsp v2 = false)
  (Hopt1 : truth (Z.land (g_nmi_opt g1) 1) = true) (Hopt2 : truth (Z.land (g_nmi_opt g2) 1) = true) (HP : 0 < P < 2 ^ 31) (Hk : 0 <= k) (Hfuel : P * Z.of_nat fuel1 <= Z.of_nat fuel2).

(** The variables that count: the ones the experiments do not use may differ, and the counter of the second
    processor 0 is in the period before the next interrupt. *)
Record same_vars (x y : nglob) : Prop := {
  sv_fail : master_fail y = master_fail x; sv_exp : experiment_no y = experiment_no x; sv_state : state_no y = state_no x;
  sv_source : n_source y = n_source x; sv_rip : exit_rip y = exit_rip x;
  sv_source_old : n_source_old y = n_source_old x; sv_rip_old : exit_rip_old y = exit_rip_old x;
  sv_drops : drop_keyboard_interrupts (n_drops y) = 0;
  sv_ready : l2_ready (n_t y) = l2_ready (n_t x); sv_mask : exp_mask y = emask; sv_cpuid : disable_cpuid y = true;
  sv_apic : l2_init_apic_id (n_t y) <> 0;
  sv_period : interrupt_period (n_t y) = P;
  sv_count : P * (idx x + 2 * k - 1) < nmi_count (n_t y) <= P * (idx x + 2 * k) /\ 0 <= nmi_count (n_t y) }.
Definition related (w1 w2 : nworld) : Prop := n_m w2 = n_m w1 /\ same_vars (n_g w1) (n_g w2).
(** What the first run keeps. *)
Definition steady (x : nglob) : Prop := disable_cpuid x = true /\ drop_keyboard_interrupts (n_drops x) = 0 /\ 0 <= idx x.

(** The second computation does what the first does, and the number of interrupts only grows. *)
Definition sim {A} (m1 m2 : N A) : Prop := forall w1 x w1', steady (n_g w1) -> m1 w1 = Ok (x, w1') ->
  steady (n_g w1') /\ idx (n_g w1) <= idx (n_g w1') /\
  forall w2, related w1 w2 -> P * (idx (n_g w1') + 2 * k) < 2 ^ 32 -> exists w2', m2 w2 = Ok (x, w2') /\ related w1' w2'.

Lemma sim_ret {A} (x : A) : sim (mret x) (mret x).
Proof. intros w1 y w1' HI [= <- <-]. split; [done|]. split; [done|]. intros w2 H _. by exists w2. Qed.
Lemma sim_bind {A B} (m1 m2 : N A) (f1 f2 : A -> N B) : sim m1 m2 -> (forall x, sim (f1 x) (f2 x)) -> sim (m1 ≫= f1) (m2 ≫= f2).
Proof.
  intros Hm Hf w1 y w1' HI. unfold mbind, N_bind. destruct (m1 w1) as [[x u1]|] eqn:E1; [|done]. intros E2.
  destruct (Hm _ _ _ HI E1) as (HI1 & I1 & S1). destruct (Hf x _ _ _ HI1 E2) as (HI2 & I2 & S2). split; [done|]. split; [lia|]. intros w2 HR Hlim.
  assert (P * idx (n_g u1) <= P * idx (n_g w1')) by (apply Z.mul_le_mono_nonneg_l; lia).
  destruct (S1 w2 HR ltac:(lia)) as (u2 & -> & HR1). by apply S2.
Qed.
Lemma sim_fail {A} e (m2 : N A) : sim (fail_with e) m2.
Proof. by intros w1 x w1' _ E. Qed.
Lemma sim_if {A} (b : bool) (m1 m2 n1 n2 : N A) : (b = true -> sim m1 m2) -> (b = false -> sim n1 n2) ->
  sim (if b then m1 else n1) (if b then m2 else n2).
Proof. destruct b; auto. Qed.
Lemma sim_gets {A} (f : nglob -> A) : (forall x y, same_vars x y -> f y = f x) -> sim (gets f) (gets f).
Proof. intros Hf w1 x w1' HI [= <- <-]. split; [done|]. split; [done|]. intros w2 [Em Hg] _. exists w2. unfold gets. by rewrite (Hf _ _ Hg). Qed.
Lemma sim_modg f : (forall x, steady x -> steady (f x) /\ idx (f x) = idx x) -> (forall x y, same_vars x y -> same_vars (f x) (f y)) -> sim (modg f) (modg f).
Proof.
  intros Hi Hf w1 x w1' HI [= <- <-]. cbn [n_g]. destruct (Hi _ HI) as [HI' ->]. split; [done|]. split; [done|]. intros w2 [Em Hg] _.
  eexists. split; [done|]. split; [done|]. by apply Hf.
Qed.
Lemma sim_hw f : sim (hw f) (hw f).
Proof. intros w1 x w1' HI [= <- <-]. split; [done|]. split; [done|]. intros w2 [Em Hg] _. eexists. split; [done|]. by split; [cbn; by rewrite Em|]. Qed.
(** A computation that only reads and writes the machine. *)
Lemma sim_machine {A} (m : N A) :
  (forall w x w', m w = Ok (x, w') -> n_g w' = n_g w /\
     forall v, n_m v = n_m w -> exists v', m v = Ok (x, v') /\ n_m v' = n_m w' /\ n_g v' = n_g v) -> sim m m.
Proof.
  intros H w1 x w1' HI E. destruct (H _ _ _ E) as [Eg Hv]. rewrite Eg. split; [done|]. split; [done|]. intros w2 [Em Hg] _.
  destruct (Hv w2 Em) as (w2' & E2 & Em2 & Eg2). exists w2'. split; [done|]. split; [done|]. by rewrite Eg, Eg2.
Qed.
(** Input and output that cannot fail. *)
Lemma sim_io {A} (m1 m2 : IO A) : (forall w x w1 v, m1 w = Ok (x, w1) -> exists v', m2 v = Ok (x, v')) -> sim (io m1) (io m2).
Proof.
  intros H w1 x w1' HI. unfold io. destruct (m1 (n_w w1)) as [[y w]|] eqn:E; [|done]. intros [= <- <-]. split; [done|]. split; [done|].
  intros w2 [Em Hg] _. destruct (H _ _ _ (n_w w2) E) as [v' ->]. by eexists.
Qed.

(** ** The operations *)

Create HintDb sim discriminated.
Hint Constants Opaque : sim.
Lemma sim_say fmt args : sim (say a fmt args) (say a fmt args).
Proof.
  unfold say. apply sim_bind; [|intros; apply sim_ret]. apply sim_io. intros w x w1 v E. by eapply printf_any.
Qed.
Ltac var_step := first [apply sim_gets; by intros ? ? [] | apply sim_modg; [by intros ? (? & ? & ?)|intros ? ? []; constructor; cbn in *; done]].
Ltac sim_step :=
  match goal with
  | |- sim (mbind _ _) _ => apply sim_bind; [|intros ?]
  | |- sim (if _ then _ else _) _ => apply sim_if; intros ?
  | |- sim (mret _) _ => apply sim_ret
  | |- sim (fail_with _) _ => apply sim_fail
  | |- sim (hw _) _ => apply sim_hw
  | |- sim (gets _) _ => var_step
  | |- sim (modg _) _ => var_step
  | |- sim (say _ _ _) _ => simple apply sim_say
  | |- sim (say_loud _ _ _) _ => fail 1
  | |- sim _ _ => solve [eauto 2 with sim nocore]
  end.
Ltac sims := repeat sim_step.
(** The second run may print where the first is quiet. *)
Lemma sim_say_loud fmt tys args : check_printf a fmt tys = true -> shaped args tys -> sim (say_loud a fmt args) (say_loud a fmt args).
Proof.
  intros Hc Hs w1 [] w1' HI E.
  assert (n_g w1' = n_g w1 /\ n_m w1' = n_m w1) as [Eg Em].
  { revert E. unfold say_loud, mbind, N_bind, gets. destruct (negb _); [|by intros [= <-]].
    unfold say, mbind, N_bind, io. destruct (printf a fmt args (n_w w1)) as [[y w]|]; [|done]. by intros [= <-]. }
  rewrite Eg. split; [done|]. split; [done|]. intros w2 [HRm HRg] _. unfold say_loud, mbind, N_bind, gets.
  destruct (negb _).
  - destruct (printf_run a fmt tys args (n_w w2) Hc Hs) as (l & E2). unfold say, mbind, N_bind, io. rewrite E2.
    eexists. split; [done|]. split; cbn; by rewrite ?Em, ?Eg.
  - eexists. split; [done|]. split; by rewrite ?Em, ?Eg.
Qed.
Lemma sim_ASSERT b : sim (ASSERT_n b) (ASSERT_n b).
Proof. destruct b; [apply sim_ret|apply sim_fail]. Qed.
Hint Resolve sim_ASSERT : sim.
(** After a test that fails the first run says nothing. *)
Lemma sim_test ln text b (m : N unit) : (b = true -> sim (mret tt) m) -> sim (TEST_ASSERT a ln text b) m.
Proof.
  destruct b; [by intros H; apply H|]. intros _ w1 x w1' _ E. exfalso. revert E. unfold TEST_ASSERT, mbind, N_bind, modg.
  cbn [n_g n_m n_w]. by destruct (say _ _ _ _) as [[? ?]|].
Qed.
Lemma sim_TEST ln text b : sim (TEST_ASSERT a ln text b) (TEST_ASSERT a ln text b).
Proof. apply sim_test. intros ->. apply sim_ret. Qed.
Hint Resolve sim_TEST : sim.
Lemma sim_vmr name : sim (vmr name) (vmr name).
Proof.
  apply sim_machine. unfold vmr. intros w x w'. destruct (m_vmread (VMCS_ name) (n_m w)) as [y|] eqn:E; [|done]. intros [= <- <-].
  split; [done|]. intros v Ev. rewrite Ev, E. by exists v.
Qed.
Lemma sim_vmr_NW name : sim (vmr_NW a name) (vmr_NW a name).
Proof.
  apply sim_machine. unfold vmr_NW. intros w x w'. destruct (m_vmread (VMCS_ name) (n_m w)) as [y|] eqn:E; [|done]. intros [= <- <-].
  split; [done|]. intros v Ev. rewrite Ev, E. by exists v.
Qed.
Lemma sim_vmw name x : sim (vmw name x) (vmw name x).
Proof.
  apply sim_machine. unfold vmw. intros w y w'. destruct (m_vmwrite (VMCS_ name) (u32 x) (n_m w)) as [m|] eqn:E; [|done]. intros [= <- <-].
  split; [done|]. intros v Ev. rewrite Ev, E. by eexists.
Qed.
Lemma sim_vmw_NW name x : sim (vmw_NW a name x) (vmw_NW a name x).
Proof.
  apply sim_machine. unfold vmw_NW. intros w y w'. destruct (m_vmwrite (VMCS_ name) _ (n_m w)) as [m|] eqn:E; [|done]. intros [= <- <-].
  split; [done|]. intros v Ev. rewrite Ev, E. by eexists.
Qed.
Lemma sim_enter : sim enter enter.
Proof.
  apply sim_machine. unfold enter. intros w y w'. destruct (m_entry (n_m w)) as [rip m] eqn:E. intros [= <- <-].
  split; [done|]. intros v Ev. rewrite Ev, E. by eexists.
Qed.
Lemma sim_pushf : sim pushf pushf.
Proof. apply sim_machine. unfold pushf. intros w y w' [= <- <-]. split; [done|]. intros v Ev. rewrite Ev. by exists v. Qed.
Hint Resolve sim_vmr sim_vmr_NW sim_vmw sim_vmw_NW sim_enter sim_pushf : sim.

(** ** Interrupts and VM exits *)

Lemma str_shaped x : slen (lit x) <= 20 -> shaped [str x] [AStr 20].
Proof. intros H. by apply Forall2_cons_2. Qed.
Lemma sim_line pre source : check_printf a pre [AStr 20] = true ->
  sim (say_loud a pre [str (exit_source_str source)]) (say_loud a pre [str (exit_source_str source)]).
Proof. intros Hc. apply (sim_say_loud _ [AStr 20]); [done|apply str_shaped; by destruct source]. Qed.
Lemma sim_loud fmt : check_printf a fmt [] = true -> sim (say_loud a fmt []) (say_loud a fmt []).
Proof. intros Hc. apply (sim_say_loud _ []); [done|constructor]. Qed.
Ltac sim_lines := repeat match goal with
  | |- sim (say_loud _ _ [str _]) _ => apply sim_line; by destruct a
  | |- sim (say_loud _ _ []) _ => apply sim_loud; by destruct a
  | _ => progress sims
  end.

Lemma sim_interrupt source rip : sim (handle_interrupt_cpu1 a source rip) (handle_interrupt_cpu1 a source rip).
Proof. unfold handle_interrupt_cpu1. repeat (sim_step; try match goal with |- sim match ?x with _ => _ end _ => destruct x end). all: sim_lines. Qed.
Hint Resolve sim_interrupt : sim.

Lemma sim_ipi vector guest rip : sim (handle_ipi_interrupt a v1 vector guest rip) (handle_ipi_interrupt a v2 vector guest rip).
Proof. unfold handle_ipi_interrupt. rewrite Hbsp1, Hbsp2. cbn [negb]. sims. apply sim_io. intros w [] w1 v _. by eexists. Qed.
Lemma sim_nmi vector guest rip : sim (handle_nmi_interrupt a v1 vector guest rip) (handle_nmi_interrupt a v2 vector guest rip).
Proof. unfold handle_nmi_interrupt. rewrite Hbsp1, Hbsp2. cbn [negb]. sims. Qed.
Hint Resolve sim_ipi sim_nmi : sim.

Definition key_press {D : Device} g v guest : N unit :=
  gets n_drops ≫= fun d : drops => io (handle_keyboard_interrupt a g v 0x21 guest d) ≫= fun d : drops => modg (set_n_drops d).
Lemma key_press_run {D : Device} g v guest w : truth (Z.land (g_nmi_opt g) 1) = true -> drop_keyboard_interrupts (n_drops (n_g w)) = 0 ->
  exists x, key_press g v guest w = Ok (tt, mkN (n_g w) (n_m w) x).
Proof.
  intros Ho Hd. unfold key_press, mbind, N_bind, gets, io. destruct (keyboard_run a g v guest _ (n_w w) Ho Hd) as (x & ->).
  exists x. unfold modg. cbn. destruct (n_g w) as []. done.
Qed.
Lemma sim_key guest : sim (key_press (D := D1) g1 v1 guest) (key_press g2 v2 guest).
Proof.
  intros w1 y w1' (Hc & Hd & Hi) E. destruct (key_press_run (D := D1) g1 v1 guest w1 Hopt1 Hd) as (x & E1). rewrite E1 in E. injection E as <- <-.
  cbn. split; [done|]. split; [done|]. intros w2 [Em Hg] _. destruct (key_press_run g2 v2 guest w2 Hopt2 (sv_drops _ _ Hg)) as (x2 & E2).
  eexists. split; [exact E2|]. done.
Qed.
Hint Resolve sim_key : sim.

Lemma sim_idt vector guest rip : sim (handle_idt_cpu1 (D := D1) a g1 v1 vector guest rip) (handle_idt_cpu1 a g2 v2 vector guest rip).
Proof.
  unfold handle_idt_cpu1. apply sim_if; intros; [sims|]. apply sim_if; intros Hv; [|apply sim_if; intros; sims].
  apply Z.eqb_eq in Hv as ->. apply sim_key.
Qed.
Hint Resolve sim_idt : sim.

Lemma sim_cpuid {A} text ln (k1 : N A) (m2 : N A) : sim (gets disable_cpuid ≫= fun x : bool => TEST_ASSERT a ln text (negb x) ≫= fun _ => k1) m2.
Proof.
  intros w1 x w1' (Hc & _) E. exfalso. revert E. unfold mbind, N_bind, gets. rewrite Hc. unfold TEST_ASSERT, mbind, N_bind, modg. cbn [negb n_g n_m n_w].
  by destruct (say _ _ _ _) as [[? ?]|].
Qed.
Lemma sim_handler d1 d2 r info : sim d1 d2 -> sim (shv_nmi_vmexit_handler a v1 d1 r info) (shv_nmi_vmexit_handler a v2 d2 r info).
Proof.
  intros Hd. unfold shv_nmi_vmexit_handler. apply sim_if; intros; [apply sim_cpuid|].
  apply sim_if; intros; [sims|]. apply sim_if; intros; [sims|]. apply sim_if; intros; [sims|].
  intros w1 x w1' _. unfold say, fail_with, mbind, N_bind, io, mret, N_ret. cbn [n_g n_m n_w]. repeat destruct (printf _ _ _ _) as [[? ?]|]; by intros.
Qed.
Lemma sim_take_exit d1 d2 r : sim d1 d2 -> sim (take_exit a v1 d1 r) (take_exit a v2 d2 r).
Proof. intros Hd. unfold take_exit. sims. by apply sim_handler. Qed.
Hint Resolve sim_take_exit : sim.

Lemma sim_deliver fuel rip : sim (deliver (D := D1) a g1 s v1 fuel rip) (deliver a g2 s v2 fuel rip).
Proof.
  revert rip. induction fuel as [|fuel IH]; intros rip w1 x w1' HI; cbn [deliver].
  - destruct (m_poll rip (n_m w1)) as [[e m]|] eqn:Ep; [done|]. intros [= <- <-]. split; [done|]. split; [done|].
    intros w2 [Em Hg] _. exists w2. cbn [deliver]. rewrite Em, Ep. done.
  - destruct (m_poll rip (n_m w1)) as [[e m]|] eqn:Ep.
    + intros E. assert (forall n1 n2, sim n1 n2 -> n1 (mkN (n_g w1) m (n_w w1)) = Ok (x, w1') -> (forall w2, related w1 w2 ->
        deliver a g2 s v2 (S fuel) rip w2 = n2 (mkN (n_g w2) m (n_w w2))) ->
        steady (n_g w1') /\ idx (n_g w1) <= idx (n_g w1') /\ forall w2, related w1 w2 -> P * (idx (n_g w1') + 2 * k) < 2 ^ 32 ->
        exists w2', deliver a g2 s v2 (S fuel) rip w2 = Ok (x, w2') /\ related w1' w2') as Hgo.
      { intros n1 n2 Hs En Hn. destruct (Hs (mkN (n_g w1) m (n_w w1)) x w1' HI En) as (HI' & Hi & Hsim). split; [done|]. split; [done|]. intros w2 HR Hl.
        rewrite (Hn w2 HR). apply Hsim; [by destruct HR|done]. }
      destruct e as [guest vector|].
      * eapply Hgo; [|exact E|intros w2 [Em _]; cbn [deliver]; by rewrite Em, Ep]. sims; apply IH.
      * eapply Hgo; [|exact E|intros w2 [Em _]; cbn [deliver]; by rewrite Em, Ep]. sims; try apply IH. apply sim_take_exit, sim_fail.
    + intros [= <- <-]. split; [done|]. split; [done|]. intros w2 [Em Hg] _. exists w2. cbn [deliver]. rewrite Em, Ep. done.
Qed.
Hint Resolve sim_deliver : sim.
Lemma sim_guest_exit d1 d2 reason len rip r : sim d1 d2 -> sim (guest_exit (D := D1) a g1 s v1 d1 reason len rip r) (guest_exit a g2 s v2 d2 reason len rip r).
Proof. intros Hd. unfold guest_exit. sims. Qed.
Lemma sim_vmcall d1 d2 site : sim d1 d2 -> sim (vmcall (D := D1) a g1 s v1 d1 site) (vmcall a g2 s v2 d2 site).
Proof. intros Hd. unfold vmcall. sims. by apply sim_guest_exit. Qed.
Hint Resolve sim_vmcall : sim.

(** ** The state of the guest's interrupts, and measuring *)

Lemma sim_unblock : sim (unblock_nmi_with_rip (D := D1) a g1 s v1) (unblock_nmi_with_rip a g2 s v2).
Proof. unfold unblock_nmi_with_rip. sims. Qed.
Lemma sim_blocking b ln : sim (blocking a b ln) (blocking a b ln).
Proof. unfold blocking, get_blocking_by_nmi. sims. Qed.
Lemma sim_assert_bit ln text x mask b : sim (assert_bit a ln text x mask b) (assert_bit a ln text x mask b).
Proof. apply sim_TEST. Qed.
Hint Resolve sim_unblock sim_blocking sim_assert_bit : sim.
Lemma sim_assert_state ne vn bl wi : sim (assert_state a ne vn bl wi) (assert_state a ne vn bl wi).
Proof. unfold assert_state. sims. Qed.
Lemma sim_set_state ne vn bl wi : sim (set_state ne vn bl wi) (set_state ne vn bl wi).
Proof. unfold set_state. sims. Qed.
Lemma sim_inject : sim (set_inject_nmi a) (set_inject_nmi a).
Proof. unfold set_inject_nmi. sims. Qed.
Lemma sim_prepare : sim (prepare_measure a) (prepare_measure a).
Proof. unfold prepare_measure. sims. Qed.
Lemma sim_prepare_2 : sim (prepare_measure_2 a) (prepare_measure_2 a).
Proof. unfold prepare_measure_2. sims. Qed.
Lemma sim_measure source rip : sim (assert_measure a source rip) (assert_measure a source rip).
Proof. unfold assert_measure. sims. Qed.
Lemma sim_measure_2 s1 r1 s2 r2 : sim (assert_measure_2 a s1 r1 s2 r2) (assert_measure_2 a s1 r1 s2 r2).
Proof. unfold assert_measure_2. sims. Qed.
Hint Resolve sim_assert_state sim_set_state sim_inject sim_prepare sim_prepare_2 sim_measure sim_measure_2 : sim.

(** ** Sleeping *)

(** ** Sleeping *)

(** A tick before the next interrupt is due changes nothing that counts; the tick when it is due sends it. *)
Lemma tick_early w1 w2 : steady (n_g w1) -> related w1 w2 -> truth (l2_ready (n_t (n_g w1))) = true ->
  P * (idx (n_g w1) + 1 + 2 * k) < 2 ^ 32 -> idx (n_g w2) < P * (idx (n_g w1) + 2 * k) ->
  exists w2', tick_cpu0 a cpu0 w2 = Ok (tt, w2') /\ related w1 w2' /\ idx (n_g w2') = idx (n_g w2) + 1.
Proof.
  intros HI [Em Hg] Hr Hl Hi. pose proof (sv_count _ _ Hg) as [[Hc1 Hc2] Hc0]. fold (idx (n_g w2)) in *.
  destruct (tick_run a cpu0 w2) as (x & E); [done|by rewrite (sv_ready _ _ Hg)|by apply Hg|by rewrite (sv_period _ _ Hg)|lia|].
  rewrite (sv_period _ _ Hg) in E. rewrite (commands_between P (idx (n_g w1) + 2 * k)) in E by lia.
  eexists. split; [exact E|]. split; [|done]. split; [done|]. destruct Hg. constructor; cbn in *; try done. unfold idx in *. lia.
Qed.
Lemma tick_due w1 w2 : steady (n_g w1) -> related w1 w2 -> truth (l2_ready (n_t (n_g w1))) = true ->
  P * (idx (n_g w1) + 1 + 2 * k) < 2 ^ 32 -> idx (n_g w2) = P * (idx (n_g w1) + 2 * k) ->
  exists w1' w2', alternate w1 = Ok (tt, w1') /\ tick_cpu0 a cpu0 w2 = Ok (tt, w2') /\ related w1' w2' /\
    steady (n_g w1') /\ idx (n_g w1') = idx (n_g w1) + 1.
Proof.
  intros HI [Em Hg] Hr Hl Hi. pose proof (sv_count _ _ Hg) as [[Hc1 Hc2] Hc0]. fold (idx (n_g w2)) in *.
  destruct (tick_run a cpu0 w2) as (x & E); [done|by rewrite (sv_ready _ _ Hg)|by apply Hg|by rewrite (sv_period _ _ Hg)|lia|].
  rewrite (sv_period _ _ Hg) in E. rewrite Hi, commands_at, command_shift in E by lia. unfold alternate. rewrite Hr.
  eexists _, _. split; [done|]. split; [exact E|]. split.
  - split; [cbn; by rewrite Em|]. destruct Hg. constructor; cbn in *; try done. unfold idx in *. lia.
  - split; [|done]. destruct HI as (? & ? & ?). split; [done|]. split; [done|]. cbn. lia.
Qed.

(** Asleep, the second run needs at most [P] ticks for each interrupt of the first. *)
Lemma sleep_ticks f rip : forall d w1 w2, steady (n_g w1) -> related w1 w2 -> truth (l2_ready (n_t (n_g w1))) = true ->
  m_poll rip (n_m w1) = None -> P * (idx (n_g w1) + 1 + 2 * k) < 2 ^ 32 ->
  idx (n_g w2) + Z.of_nat d = P * (idx (n_g w1) + 2 * k) ->
  exists w1' w2', alternate w1 = Ok (tt, w1') /\ related w1' w2' /\
    sleep a g2 s v2 (tick_cpu0 a cpu0) (S (d + f)) rip w2 = sleep a g2 s v2 (tick_cpu0 a cpu0) f rip w2'.
Proof.
  induction d as [|d IH]; intros w1 w2 HI HR Hr Hp Hl Hd.
  - destruct (tick_due w1 w2 HI HR Hr Hl ltac:(lia)) as (w1' & w2' & E1 & E2 & HR' & _). exists w1', w2'. split; [done|]. split; [done|].
    cbn [sleep Nat.add]. rewrite (proj1 HR), Hp. unfold mbind, N_bind. by rewrite E2.
  - destruct (tick_early w1 w2 HI HR Hr Hl ltac:(lia)) as (w2' & E2 & HR' & Hi).
    destruct (IH w1 w2' HI HR' Hr Hp Hl ltac:(lia)) as (w1' & w2'' & E1 & HR'' & E). exists w1', w2''. split; [done|]. split; [done|].
    rewrite <- E. change (S d + f)%nat with (S (d + f)). cbn [sleep]. rewrite (proj1 HR), Hp. unfold mbind, N_bind. by rewrite E2.
Qed.
Lemma sim_sleep f1 f2 rip : P * Z.of_nat f1 <= Z.of_nat f2 ->
  sim (sleep (D := D1) a g1 s v1 alternate f1 rip) (sleep a g2 s v2 (tick_cpu0 a cpu0) f2 rip).
Proof.
  revert f2. induction f1 as [|f1 IH]; intros f2 Hf w1 [] w1' HI E.
  - cbn [sleep] in E. destruct (m_poll rip (n_m w1)) as [?|] eqn:Ep; [|done].
    destruct (sim_deliver arrivals rip w1 tt w1' HI E) as (HI' & Hi & Hs). split; [done|]. split; [done|]. intros w2 HR Hl.
    destruct (Hs w2 HR Hl) as (w2' & E2 & HR2). exists w2'. split; [|done]. destruct f2; cbn [sleep]; by rewrite (proj1 HR), Ep.
  - cbn [sleep] in E. destruct (m_poll rip (n_m w1)) as [?|] eqn:Ep.
    + destruct (sim_deliver arrivals rip w1 tt w1' HI E) as (HI' & Hi & Hs). split; [done|]. split; [done|]. intros w2 HR Hl.
      destruct (Hs w2 HR Hl) as (w2' & E2 & HR2). exists w2'. split; [|done]. destruct f2; cbn [sleep]; by rewrite (proj1 HR), Ep.
    + unfold mbind, N_bind in E. destruct (truth (l2_ready (n_t (n_g w1)))) eqn:Hr.
      * unfold alternate at 1 in E. rewrite Hr in E.
        set (u1 := mkN _ _ _) in E. assert (steady (n_g u1)) as HIu by (destruct HI as (? & ? & ?); split; [done|]; split; [done|]; cbn; lia).
        assert (idx (n_g u1) = idx (n_g w1) + 1) as Hiu by done.
        destruct (IH (Z.to_nat (Z.of_nat f2 - P)) ltac:(lia) u1 tt w1' HIu E) as (HI' & Hi & Hs).
        split; [done|]. split; [lia|]. intros w2 HR Hl.
        pose proof (sv_count _ _ (proj2 HR)) as [[Hc1 Hc2] Hc0]. fold (idx (n_g w2)) in *.
        assert (P * (idx (n_g u1) + 2 * k) <= P * (idx (n_g w1') + 2 * k)) by (apply Z.mul_le_mono_nonneg_l; lia).
        destruct (sleep_ticks (f2 - S (Z.to_nat (P * (idx (n_g w1) + 2 * k) - idx (n_g w2))))%nat rip
                    (Z.to_nat (P * (idx (n_g w1) + 2 * k) - idx (n_g w2))) w1 w2 HI HR Hr Ep ltac:(lia) ltac:(lia))
          as (v1' & w2' & Ea & HR' & Es).
        unfold alternate in Ea. rewrite Hr in Ea. injection Ea as <-. fold u1 in HR'.
        revert Es. replace (S (_ + _))%nat with f2 by lia. intros ->.
        edestruct (IH (f2 - S (Z.to_nat (P * (idx (n_g w1) + 2 * k) - idx (n_g w2))))%nat) as (_ & _ & Hs'); [|exact HIu|exact E|by apply Hs'].
        lia.
      * unfold alternate at 1 in E. rewrite Hr in E. exfalso. clear IH Hf HI. induction f1 as [|f1 IH]; cbn [sleep] in E; rewrite Ep in E; [done|].
        unfold mbind, N_bind in E. unfold alternate at 1 in E. rewrite Hr in E. by apply IH.
Qed.
Lemma sim_hlt f1 f2 : P * Z.of_nat f1 <= Z.of_nat f2 ->
  sim (pushf_sti_hlt_popf (D := D1) a g1 s v1 alternate f1) (pushf_sti_hlt_popf a g2 s v2 (tick_cpu0 a cpu0) f2).
Proof. intros Hf. unfold pushf_sti_hlt_popf. sims. by apply sim_sleep. Qed.
Hint Resolve sim_hlt : sim.
Lemma sim_hlt_again f1 f2 t1 t2 : (f1 <= f2)%nat -> P * Z.of_nat t1 <= Z.of_nat t2 ->
  sim (hlt_again (D := D1) a g1 s v1 alternate f1 t1) (hlt_again a g2 s v2 (tick_cpu0 a cpu0) f2 t2).
Proof.
  revert f2. induction f1 as [|f1 IH]; intros f2 Hf Ht; cbn [hlt_again]; [apply sim_fail|]. destruct f2 as [|f2]; [lia|].
  cbn [hlt_again]. sim_lines. apply IH; lia.
Qed.
Lemma sim_hlt_wait source : sim (hlt_wait (D := D1) a g1 s v1 alternate fuel1 source) (hlt_wait a g2 s v2 (tick_cpu0 a cpu0) fuel2 source).
Proof. unfold hlt_wait. assert (fuel1 <= fuel2)%nat by nia. sim_lines. by apply sim_hlt_again. Qed.
Lemma sim_iret_wait source : sim (iret_wait (D := D1) a g1 s v1 source) (iret_wait a g2 s v2 source).
Proof. unfold iret_wait. sim_lines. Qed.
Hint Resolve sim_hlt_wait sim_iret_wait : sim.
Lemma sim_start n : sim (start_experiment a n) (start_experiment a n).
Proof. unfold start_experiment. sims. Qed.
Hint Resolve sim_start : sim.

(** ** The experiments *)

(** The lists of experiments, pointwise. *)
Definition sim_fn (f1 f2 : option (N unit)) : Prop :=
  match f1, f2 with Some m1, Some m2 => sim m1 m2 | None, None => True | _, _ => False end.
Ltac unfold_vmcalls := unfold experiment_1_vmcall, experiment_2_vmcall, experiment_3_vmcall, experiment_4_vmcall, experiment_5_vmcall,
  experiment_6_vmcall, experiment_7_vmcall, experiment_8_vmcall, experiment_9_vmcall, experiment_10_vmcall, experiment_11_vmcall,
  experiment_12_vmcall, experiment_13_vmcall, experiment_14_vmcall, experiment_15_vmcall, experiment_16_vmcall, experiment_17_vmcall,
  experiment_18_vmcall, experiment_19_vmcall, experiment_20_vmcall, experiment_21_vmcall, experiment_22_vmcall, experiment_23_vmcall,
  experiment_24_vmcall, experiment_25_vmcall, experiment_26_vmcall, experiment_27_vmcall, experiment_28_vmcall, experiment_29_vmcall,
  experiment_30_vmcall.
Lemma sim_vmcalls : Forall2 sim_fn (experiments_vmcall (D := D1) a g1 s v1 alternate fuel1) (experiments_vmcall a g2 s v2 (tick_cpu0 a cpu0) fuel2).
Proof. unfold experiments_vmcall. cbn [map]. repeat apply Forall2_cons_2; [done|..|constructor]; cbn [sim_fn]; unfold_vmcalls; sims. Qed.
(** The entry of an index, or what is done without one. *)
Lemma sim_entry l1 l2 i (m1 m2 : N unit) : Forall2 sim_fn l1 l2 -> sim m1 m2 ->
  sim (match default None (l1 !! i) with Some f => f | None => m1 end) (match default None (l2 !! i) with Some f => f | None => m2 end).
Proof.
  intros Hl Hm. destruct (l1 !! i) as [f1|] eqn:E1.
  - destruct (Forall2_lookup_l _ _ _ _ _ Hl E1) as (f2 & -> & H). destruct f1, f2; done.
  - rewrite (proj2 (lookup_ge_None l2 i)) by (rewrite <- (Forall2_length _ _ _ Hl); by apply lookup_ge_None). done.
Qed.
Lemma sim_dispatcher : sim (shv_nmi_vmcall_dispatcher (D := D1) a g1 s v1 alternate fuel1) (shv_nmi_vmcall_dispatcher a g2 s v2 (tick_cpu0 a cpu0) fuel2).
Proof. unfold shv_nmi_vmcall_dispatcher. sims. apply sim_entry; [apply sim_vmcalls|sims]. Qed.
Lemma sim_vmcall_at ln : sim (vmcall_at (D := D1) a g1 s v1 alternate fuel1 ln) (vmcall_at a g2 s v2 (tick_cpu0 a cpu0) fuel2 ln).
Proof. apply sim_vmcall, sim_dispatcher. Qed.
Hint Resolve sim_vmcall_at : sim.
Ltac unfold_experiments := unfold experiment_1, experiment_2, experiment_3, experiment_4, experiment_5,
  experiment_6, experiment_7, experiment_8, experiment_9, experiment_10, experiment_11,
  experiment_12, experiment_13, experiment_14, experiment_15, experiment_16, experiment_17,
  experiment_18, experiment_19, experiment_20, experiment_21, experiment_22, experiment_23,
  experiment_24, experiment_25, experiment_26, experiment_27, experiment_28, experiment_29,
  experiment_30.
Lemma sim_experiments : Forall2 sim_fn (experiments (D := D1) a g1 s v1 alternate fuel1) (experiments a g2 s v2 (tick_cpu0 a cpu0) fuel2).
Proof. unfold experiments. cbn [map]. repeat apply Forall2_cons_2; [done|..|constructor]; cbn [sim_fn]; unfold_experiments; sims. Qed.
(** The experiment [i], without the mask. *)
Lemma sim_experiment i : sim (match default None (experiments (D := D1) a g1 s v1 alternate fuel1 !! i) with Some f => f | None => ASSERT_n false end)
  (match default None (experiments a g2 s v2 (tick_cpu0 a cpu0) fuel2 !! i) with Some f => f | None => ASSERT_n false end).
Proof. apply sim_entry; [apply sim_experiments|apply sim_ASSERT]. Qed.
Lemma sim_warm_up_round : sim (warm_up_round (D := D1) a g1 s v1 alternate fuel1) (warm_up_round a g2 s v2 (tick_cpu0 a cpu0) fuel2).
Proof. unfold warm_up_round. sims. Qed.
End sim.
