(* ===== verification/NmiSpec.v ===== *)
(** The experiments on the processor of NmiMachine, with the simpler processor 0 of NmiSim: every experiment passes from every
    state the guest can rest in, and the guest rests again. *)
From Stdlib Require Import String.
From S2P Require Import Prelude.
From S2P Require Import Mem.
From S2P Require Import CString.
From S2P Require Import Cmdline.
From S2P Require Import Stdio.
From S2P Require Import Io.
From S2P Require Import Devices.
From S2P Require Import Timer.
From S2P Require Import VmxCtls.
From S2P Require Import VmcsFields.
From S2P Require Import Vmcs.
From S2P Require Import Vcpu.
From S2P Require Import Nmi.
From S2P Require Import NmiMachine.
From S2P Require Import NmiSim.

(** ** The setting *)

(** A layout of the code, and a processor 1 with devices that answer nothing. *)
Definition layout : nmi_syms :=
  mkNmiSyms 0x100000 (fun guest v => 0x200000 + (if guest then 0x10000 else 0) + v * 16) 0x300000 0x310000 (fun ln => 0x400000 + ln * 16) 0x500000.
Definition quiet_device : Device := {| dev_in := fun _ _ => 0; dev_read := fun _ _ => 0; dev_rdmsr := fun _ _ => 0 |}.
Definition spec_cpu1 : dcpu := mkDcpu 1 1 false 0 0 (0, 0) (0, 0).
Definition spec_opts : opts := mkOpts 0 1 0 0.
(** Enough for the experiments: each sleeps until at most two interrupts have come. *)
Definition spec_fuel : nat := 10.
(** The processor based controls with only the bits that have to be set. *)
Definition PROC : Z := 0x0401e172.

(** The controls the experiments leave behind: the pin based ones that have to be set, with NMI exiting, and with virtual NMIs,
    which can then be blocked; and the event that was injected last, no longer valid. *)
Definition rest_controls : list (Z * bool) := [(0x16, false); (0x1e, false); (0x3e, false); (0x3e, true)].
Definition rest_entries : list Z := [0; 0x21; 0x202].

(** The variables at rest, and the ones an experiment sets before it reads them. *)
Definition spec_vars (exp st : Z) (so : exit_source) (ro mask : Z) : nglob :=
  mkNglob (mkTglob false 0 0 0 true 0) 0 exp st EXIT_MEASURE 0 so ro true 0 false false false mask (mkDrops 0 0).

(** What holds when the guest rests again, at most eight interrupts later. *)
Definition in_controls (pin : Z) (vblk : bool) : bool := existsb (fun c => (c.1 =? pin) && eqb c.2 vblk) rest_controls.
Definition vars_rest (g : nglob) : bool :=
  (master_fail g =? 0) && bool_decide (n_source g = EXIT_MEASURE) && (exit_rip g =? 0) && disable_cpuid g && (l2_ready (n_t g) =? 0) &&
  (drop_keyboard_interrupts (n_drops g) =? 0).
Definition machine_rests (fl : bool) (m : cpu1_state) : bool :=
  c_guest m && eqb (c_if m) fl && match c_frames m with [] => true | _ => false end && negb (c_nmi m) && negb (c_blk m) && negb (c_int m) &&
  negb (c_isr m) && negb (c_halted m) && match c_inject m with None => true | _ => false end && (c_proc m =? PROC) &&
  existsb (Z.eqb (c_entry m)) rest_entries && in_controls (c_pin m) (c_vblk m).
Definition good (fl : bool) (r : res (unit * @nworld sdm)) : bool :=
  match r with
  | Ok (_, w) => vars_rest (n_g w) && machine_rests fl (n_m w) && Z.even (idx (n_g w)) && (0 <=? idx (n_g w)) && (idx (n_g w) <=? 8)
  | Err _ => false
  end.

Section spec.
Context {C : Cpu} (a : subarch).
Definition spec_experiment (i : nat) : @N sdm unit :=
  match default None (@experiments a quiet_device C sdm spec_opts layout spec_cpu1 alternate spec_fuel !! i) with Some f => f | None => ASSERT_n false end.
Definition spec_round : @N sdm unit := @warm_up_round a quiet_device C sdm spec_opts layout spec_cpu1 alternate spec_fuel.
Definition everywhere (P : Z * bool -> Z -> bool) : bool := forallb (fun c => forallb (P c) rest_entries) rest_controls.
Definition check_experiment (gif : bool) (exp st : Z) (so : exit_source) (ro mask intr act reason info len rip : Z) (i : nat) : bool :=
  everywhere (fun c entry => good true (spec_experiment i
    (mkN (M := sdm) (spec_vars exp st so ro mask) (rest_state true gif c.1 PROC intr entry act reason info len rip c.2) (mkW ∅ [])))).
(** A round of the warm-up starts and ends with the first of the controls, before anything was injected. *)
Definition fresh (m : cpu1_state) : bool := (c_pin m =? 0x16) && (c_entry m =? 0).
Definition round_good (fl : bool) (r : res (unit * @nworld sdm)) : bool :=
  good fl r && match r with Ok (_, w) => fresh (n_m w) | Err _ => false end.
End spec.

(** ** The runs *)

Lemma experiments_check {C : Cpu} a gif exp st so ro mask intr act reason info len rip :
  forallb (check_experiment a gif exp st so ro mask intr act reason info len rip) (seq 1 30) = true.
Proof. destruct a; vm_compute; reflexivity. Qed.
Lemma rounds_check {C : Cpu} a fl gif exp st so ro mask intr act reason info len rip :
  round_good fl (spec_round a (mkN (M := sdm) (spec_vars exp st so ro mask) (rest_state fl gif 0x16 PROC intr 0 act reason info len rip false) (mkW ∅ []))) = true.
Proof. destruct a, fl; vm_compute; reflexivity. Qed.

(** ** States at rest *)

(** The guest rests, with the interrupt flag [fl]. *)
Definition rests (fl : bool) (m : cpu1_state) : Prop :=
  exists gif pin vblk entry intr act reason info len rip, In (pin, vblk) rest_controls /\ In entry rest_entries /\
    m = rest_state fl gif pin PROC intr entry act reason info len rip vblk.
(** The variables are those between two experiments. *)
Definition quiescent (g : nglob) : Prop :=
  master_fail g = 0 /\ n_source g = EXIT_MEASURE /\ exit_rip g = 0 /\ disable_cpuid g = true /\ l2_ready (n_t g) = 0 /\
  drop_keyboard_interrupts (n_drops g) = 0.

Lemma in_controls_ok pin vblk : in_controls pin vblk = true -> In (pin, vblk) rest_controls.
Proof.
  intros ([p v] & Hin & [E1%Z.eqb_eq E2%eqb_prop]%andb_true_iff)%existsb_exists. cbn in E1, E2. by subst.
Qed.
Lemma machine_rests_ok fl m : machine_rests fl m = true -> rests fl m.
Proof.
  destruct m as [guest iff frames gif nmi blk vblk int isr halted inject pin proc intr entry act reason info len rip].
  unfold machine_rests. cbn [c_guest c_if c_frames c_gif c_nmi c_blk c_vblk c_int c_isr c_halted c_inject c_pin c_proc c_entry].
  rewrite !andb_true_iff, !negb_true_iff.
  intros (((((((((((-> & ->%eqb_prop) & Hf) & ->) & ->) & ->) & ->) & ->) & Hi) & ->%Z.eqb_eq) & He) & Hc).
  destruct frames; [|done]. destruct inject; [done|]. apply existsb_exists in He as (e & Hin & ->%Z.eqb_eq).
  exists gif, pin, vblk, e, intr, act, reason, info, len, rip. split; [by apply in_controls_ok|]. done.
Qed.
Lemma vars_rest_ok g : vars_rest g = true -> quiescent g.
Proof.
  unfold vars_rest, quiescent. rewrite !andb_true_iff, !Z.eqb_eq, bool_decide_eq_true. tauto.
Qed.
Lemma good_ok fl r : good fl r = true ->
  exists w n, r = Ok (tt, w) /\ quiescent (n_g w) /\ rests fl (n_m w) /\ idx (n_g w) = 2 * n /\ 0 <= n <= 4.
Proof.
  destruct r as [[[] w]|]; [|done]. unfold good. rewrite !andb_true_iff, Z.even_spec, !Z.leb_le.
  intros ((((Hv & Hm) & (n & Hn)) & H0) & H8). exists w, n. split; [done|]. split; [by apply vars_rest_ok|].
  split; [by apply machine_rests_ok|]. split; [done|]. lia.
Qed.
Lemma round_good_ok fl r : round_good fl r = true ->
  exists w n, r = Ok (tt, w) /\ quiescent (n_g w) /\ rests fl (n_m w) /\ idx (n_g w) = 2 * n /\ 0 <= n <= 4 /\ fresh (n_m w) = true.
Proof.
  intros [H Hf]%andb_true_iff. destruct (good_ok _ _ H) as (w & n & -> & H1 & H2 & H3 & H4). by exists w, n.
Qed.
Lemma everywhere_ok P pin vblk entry : everywhere P = true -> In (pin, vblk) rest_controls -> In entry rest_entries -> P (pin, vblk) entry = true.
Proof.
  intros H Hc He. unfold everywhere in H. rewrite forallb_forall in H. specialize (H _ Hc). rewrite forallb_forall in H. by apply H.
Qed.

(** Every experiment, and a round of the warm-up, from rest to rest. *)
Lemma spec_experiment_rests {C : Cpu} a i exp st so ro mask (m : mstate) : (1 <= i <= 30)%nat -> rests true m ->
  exists w n, spec_experiment a i (mkN (M := sdm) (spec_vars exp st so ro mask) m (mkW ∅ [])) = Ok (tt, w) /\
    quiescent (n_g w) /\ rests true (n_m w) /\ idx (n_g w) = 2 * n /\ 0 <= n <= 4.
Proof.
  intros Hi (gif & pin & vblk & entry & intr & act & reason & info & len & rip & Hc & He & ->).
  pose proof (experiments_check a gif exp st so ro mask intr act reason info len rip) as H. rewrite forallb_forall in H.
  specialize (H i ltac:(apply in_seq; lia)). unfold check_experiment in H. by apply good_ok, (everywhere_ok _ pin vblk entry H).
Qed.
Lemma spec_round_rests {C : Cpu} a fl exp st so ro mask (m : mstate) : rests fl m -> fresh m = true ->
  exists w n, spec_round a (mkN (M := sdm) (spec_vars exp st so ro mask) m (mkW ∅ [])) = Ok (tt, w) /\
    quiescent (n_g w) /\ rests fl (n_m w) /\ idx (n_g w) = 2 * n /\ 0 <= n <= 4 /\ fresh (n_m w) = true.
Proof.
  intros (gif & pin & vblk & entry & intr & act & reason & info & len & rip & Hc & He & ->) [Ep%Z.eqb_eq Ee%Z.eqb_eq]%andb_true_iff.
  cbn in Ep, Ee. subst pin entry.
  assert (vblk = false) as -> by (clear -Hc; destruct vblk; [|done]; by destruct Hc as [[=]|[[=]|[[=]|[[=]|[]]]]]).
  apply round_good_ok, rounds_check.
Qed.
