(* ===== verification/NmiProps.v ===== *)
(** What the tests of [src/shv-nmi.c] do on the processor of NmiMachine, with the timer interrupts of processor 0: every
    experiment passes from every state the guest can rest in, in any order, and the whole program reaches its end. *)
From Stdlib Require Import String.
From S2P Require Import Prelude.
From S2P Require Import HptLemmas.
From S2P Require Import Mem.
From S2P Require Import CString.
From S2P Require Import Cmdline.
From S2P Require Import Stdio.
From S2P Require Import Io.
From S2P Require Import Print.
From S2P Require Import Devices.
From S2P Require Import Timer.
From S2P Require Import VmxCtls.
From S2P Require Import VmcsFields.
From S2P Require Import Vmcs.
From S2P Require Import Vcpu.
From S2P Require Import Nmi.
From S2P Require Import NmiMachine.
From S2P Require Import NmiSim.
From S2P Require Import NmiSpec.

Section props.
Context (a : subarch) {D : Device} {C : Cpu} (g : opts) (cpu0 cpu1 : dcpu) (P : Z) (fuel : nat).

(** The setting: the roles of the two processors, the option that turns the tests on, a period of timer interrupts between two
    interrupts, and enough fuel for one sleep. *)
Class Setting : Prop := {
  set_bsp : c_isbsp cpu0 = true; set_ap : c_isbsp cpu1 = false; set_opt : truth (Z.land (g_nmi_opt g) 1) = true;
  set_period : 0 < P < 2 ^ 31; set_fuel : P * Z.of_nat spec_fuel <= Z.of_nat fuel }.
Context {HS : Setting}.

(** Processor 1 between two experiments: its state is in [R], and processor 0 counts towards the NMI number [2 * k]. *)
Record ready_for (R : cpu1_state -> Prop) (k : Z) (w : nworld (M := sdm)) : Prop := {
  rf_rests : R (n_m w); rf_vars : quiescent (n_g w);
  rf_apic : l2_init_apic_id (n_t (n_g w)) <> 0; rf_period : interrupt_period (n_t (n_g w)) = P; rf_mask : Z.testbit (exp_mask (n_g w)) 0 = false;
  rf_count : P * (2 * k - 1) < idx (n_g w) <= P * (2 * k) /\ 0 <= idx (n_g w); rf_k : 0 <= k }.

(** The world of the simpler run that goes with a world. *)
Definition spec_of (w : nworld (M := sdm)) : nworld (M := sdm) :=
  mkN (spec_vars (experiment_no (n_g w)) (state_no (n_g w)) (n_source_old (n_g w)) (exit_rip_old (n_g w)) (exp_mask (n_g w))) (n_m w) (mkW ∅ []).
Lemma spec_of_related R k w : ready_for R k w -> related P k (exp_mask (n_g w)) (spec_of w) w.
Proof.
  intros [Hr (Hf & Hs & Hrip & Hc & Hl & Hd) Ha Hp Hm Hn Hk]. split; [done|]. constructor; cbn; done.
Qed.

(** The computation returns a value in [Q], ready again, at most [2 * c] interrupts later. *)
Definition stays (R : cpu1_state -> Prop) (c : Z) {A} (m : N (M := sdm) A) (Q : A -> Prop) : Prop := forall k w, ready_for R k w ->
  P * (2 * (k + c)) < 2 ^ 32 -> exists x w' n, m w = Ok (x, w') /\ Q x /\ 0 <= n <= c /\ ready_for R (k + n) w'.
Definition stays_ R c (m : N (M := sdm) unit) : Prop := stays R c m (fun _ => True).

(** What the simpler run does from rest to rest, the program does. *)
Lemma lift_rest (R : cpu1_state -> Prop) (m1 m2 : N unit) :
  (forall k mask, 0 <= k -> sim P k mask m1 m2) ->
  (forall w, R (n_m w) -> exists w1 n, m1 (spec_of w) = Ok (tt, w1) /\ quiescent (n_g w1) /\ R (n_m w1) /\ idx (n_g w1) = 2 * n /\ 0 <= n <= 4) ->
  stays_ R 4 m2.
Proof.
  intros Hsim Hm k w Hr Hl. destruct (Hm w (rf_rests _ _ _ Hr)) as (w1 & n & E & Hq & Hrest & Hi & Hn).
  pose proof (rf_k _ _ _ Hr) as Hk. pose proof set_period as HP.
  destruct (Hsim k (exp_mask (n_g w)) Hk (spec_of w) tt w1 ltac:(done) E) as (_ & _ & Hs).
  destruct (Hs w (spec_of_related _ _ _ Hr) ltac:(rewrite Hi; nia)) as (w' & E' & Em & Hg).
  exists tt, w', n. split; [done|]. split; [done|]. split; [done|].
  destruct Hq as (Q1 & Q2 & Q3 & Q4 & Q5 & Q6). destruct Hg as [V1 V2 V3 V4 V5 V6 V7 V8 V9 V10 V11 V12 V13 V14].
  constructor; [by rewrite Em| |done|done|rewrite V10; apply Hr| |lia].
  - split_and!; congruence.
  - fold (idx (n_g w')) in V14. rewrite Hi in V14. lia.
Qed.

(** ** The experiments *)

Definition the_experiment (i : nat) : N unit :=
  match default None (experiments a g layout cpu1 (tick_cpu0 a cpu0) fuel !! i) with Some f => f | None => ASSERT_n false end.
Lemma experiment_ready i : (1 <= i <= 30)%nat -> stays_ (rests true) 4 (the_experiment i).
Proof.
  intros Hi. apply (lift_rest _ (spec_experiment a i)); [|intros w Hw; by apply spec_experiment_rests].
  intros k2 mask Hk. exact (sim_experiment a (D1 := quiet_device) spec_opts g layout spec_cpu1 cpu1 cpu0 P k2 mask spec_fuel fuel
      set_bsp eq_refl set_ap eq_refl set_opt set_period set_fuel i).
Qed.
Definition starting (fl : bool) (m : cpu1_state) : Prop := rests fl m /\ fresh m = true.
Lemma round_ready fl : stays_ (starting fl) 4 (warm_up_round a g layout cpu1 (tick_cpu0 a cpu0) fuel).
Proof.
  apply (lift_rest _ (spec_round a)).
  - intros k2 mask Hk. exact (sim_warm_up_round a (D1 := quiet_device) spec_opts g layout spec_cpu1 cpu1 cpu0 P k2 mask spec_fuel fuel
      set_bsp eq_refl set_ap eq_refl set_opt set_period set_fuel).
  - intros w [Hr Hf]. destruct (spec_round_rests a fl (experiment_no (n_g w)) (state_no (n_g w)) (n_source_old (n_g w)) (exit_rip_old (n_g w))
      (exp_mask (n_g w)) (n_m w) Hr Hf) as (w1 & n & E & H1 & H2 & H3 & H4 & H5). exists w1, n. split; [exact E|]. split; [done|]. split; [by split|]. by split.
Qed.

(** ** Composition *)

Lemma stays_ret R {A} (x : A) (Q : A -> Prop) : Q x -> stays R 0 (mret x) Q.
Proof. intros HQ k w Hr _. exists x, w, 0. rewrite Z.add_0_r. done. Qed.
Lemma stays_bind R c1 c2 {A B} (m : N A) (f : A -> N B) Q1 Q2 : 0 <= c1 -> 0 <= c2 ->
  stays R c1 m Q1 -> (forall x, Q1 x -> stays R c2 (f x) Q2) -> stays R (c1 + c2) (m ≫= f) Q2.
Proof.
  intros H1 H2 Hm Hf k w Hr Hl. pose proof set_period as HP.
  destruct (Hm k w Hr ltac:(nia)) as (x & w1 & n1 & E1 & HQ & Hn1 & Hr1).
  destruct (Hf x HQ (k + n1) w1 Hr1 ltac:(nia)) as (y & w2 & n2 & E2 & HQ2 & Hn2 & Hr2).
  exists y, w2, (n1 + n2). unfold mbind, N_bind. rewrite E1. rewrite Z.add_assoc. split; [done|]. split; [done|]. split; [lia|done].
Qed.
Lemma stays_weaken R c c' {A} (m : N A) Q : c <= c' -> stays R c m Q -> stays R c' m Q.
Proof.
  intros Hc Hm k w Hr Hl. pose proof set_period as HP. destruct (Hm k w Hr ltac:(nia)) as (x & w1 & n & E & HQ & Hn & Hr').
  exists x, w1, n. split; [done|]. split; [done|]. split; [lia|done].
Qed.
Lemma stays_then R c {A B} (m : N A) (f : A -> N B) Q1 Q2 : 0 <= c ->
  stays R 0 m Q1 -> (forall x, Q1 x -> stays R c (f x) Q2) -> stays R c (m ≫= f) Q2.
Proof. intros Hc. by apply (stays_bind R 0 c). Qed.
Lemma stays_say R fmt tys args : check_printf a fmt tys = true -> shaped args tys -> stays_ R 0 (say a fmt args).
Proof.
  intros Hc Hs k w Hr _. destruct (printf_run a fmt tys args (n_w w) Hc Hs) as (l & E).
  eexists tt, _, 0. unfold say, mbind, N_bind, io. rewrite E, Z.add_0_r. split; [done|]. split; [done|]. split; [done|]. destruct Hr. by constructor.
Qed.
Lemma stays_gets R {A} (f : nglob -> A) (Q : A -> Prop) : (forall k w, ready_for R k w -> Q (f (n_g w))) -> stays R 0 (gets f) Q.
Proof. intros HQ k w Hr _. eexists _, w, 0. rewrite Z.add_0_r. split; [done|]. split; [by eapply HQ|]. done. Qed.
Lemma stays_no_failure R ln : stays_ R 0 (no_failure a ln).
Proof.
  apply (stays_then R 0 _ _ (fun f => f = 0)); [done| |].
  - apply stays_gets. by intros k w [_ (-> & _) _ _ _ _ _].
  - intros f ->. by apply stays_ret.
Qed.
Lemma stays_times R c m n : 0 <= c -> stays_ R c m -> stays_ R (Z.of_nat n * c) (times n m).
Proof.
  intros Hc Hm. induction n as [|n IH]; cbn [times]; [by apply stays_ret|].
  replace (Z.of_nat (S n) * c) with (c + Z.of_nat n * c) by lia. by apply (stays_bind R c _ _ _ (fun _ => True)); [|lia| |].
Qed.

(** ** The runs of the program *)

Lemma stays_experiment i : 0 <= i < nexperiments -> stays_ (rests true) 4 (run_experiment a g layout cpu1 (tick_cpu0 a cpu0) fuel i).
Proof.
  intros Hi k w Hr Hl. unfold run_experiment, mbind, N_bind, gets. destruct (Z.testbit (exp_mask (n_g w)) i) eqn:Hb; cbn [negb].
  - assert (1 <= i) as Hi1 by (destruct (Z.eq_dec i 0) as [->|]; [by rewrite (rf_mask _ _ _ Hr) in Hb|lia]).
    assert (stays_ (rests true) (4 + 0) (the_experiment (Z.to_nat i) ≫= fun _ => no_failure a 1651)) as H.
    { apply (stays_bind _ _ _ _ _ (fun _ => True)); [done|done| |intros; apply stays_no_failure].
      apply experiment_ready. unfold nexperiments in Hi. lia. }
    exact (H k w Hr Hl).
  - assert (stays_ (rests true) 0 (if negb (opt (g_nmi_opt g) SHV_NMI_QUIET_SKIP) then say a (lit "Skipping experiments[%d]" ++ [10]) [VNum 32 i] else mret tt)) as H.
    { destruct (negb _); [|by apply stays_ret]. apply (stays_say _ _ [ANum 32]); [by destruct a|by repeat constructor]. }
    by apply (stays_weaken _ 0 4 _ _ ltac:(done) H).
Qed.
Lemma stays_from n i : 0 <= i -> i + Z.of_nat n <= nexperiments ->
  stays_ (rests true) (Z.of_nat n * 4) (run_from a g layout cpu1 (tick_cpu0 a cpu0) fuel n i).
Proof.
  revert i. induction n as [|n IH]; intros i Hi Hn; cbn [run_from]; [by apply stays_ret|].
  replace (Z.of_nat (S n) * 4) with (4 + Z.of_nat n * 4) by lia.
  apply (stays_bind _ _ _ _ _ (fun _ => True)); [lia|lia|apply stays_experiment; lia|intros; apply IH; lia].
Qed.
(** Any experiments, in any order. *)
Definition run_list (l : list Z) : N unit :=
  foldr (fun i m => run_experiment a g layout cpu1 (tick_cpu0 a cpu0) fuel i ≫= fun _ => m) (mret tt) l.
Lemma stays_list l : Forall (fun i => 0 <= i < nexperiments) l -> stays_ (rests true) (Z.of_nat (length l) * 4) (run_list l).
Proof.
  induction 1 as [|i l Hi _ IH]; cbn [run_list foldr length]; [by apply stays_ret|].
  replace (Z.of_nat (S (length l)) * 4) with (4 + Z.of_nat (length l) * 4) by lia.
  apply (stays_bind _ _ _ _ _ (fun _ => True)); [lia|lia|by apply stays_experiment|by intros].
Qed.
Lemma stays_rand R : stays R 0 (rand) (fun x => 0 <= x).
Proof.
  intros k w Hr _. set (x := u32 (seed (n_g w) * 1103515245 + 12345)).
  exists ((x / 65536) mod 32768), (mkN (set_seed x (n_g w)) (n_m w) (n_w w)), 0. rewrite Z.add_0_r. split; [reflexivity|].
  split; [apply Z.mod_pos_bound; lia|]. split; [lia|]. destruct Hr. by constructor.
Qed.
Lemma stays_one_random : stays_ (rests true) 4 (run_one_random a g layout cpu1 (tick_cpu0 a cpu0) fuel).
Proof.
  apply (stays_then _ _ _ _ (fun x => 0 <= x)); [done|apply stays_rand|]. intros x Hx. apply stays_experiment.
  unfold nexperiments. by apply Z.mod_pos_bound.
Qed.
Lemma stays_line R fmt : check_printf a fmt [] = true -> stays_ R 0 (say a fmt []).
Proof. intros Hc. apply (stays_say R fmt []); [done|constructor]. Qed.
Lemma stays_sequential : stays_ (rests true) 124 (run_sequential a g layout cpu1 (tick_cpu0 a cpu0) fuel).
Proof.
  apply (stays_bind _ 124 0 _ _ (fun _ => True)); [done|done|by apply (stays_from 31 0)|intros _ _].
  apply (stays_then _ _ _ _ (fun _ => True)); [done|apply stays_no_failure|intros _ _]. apply stays_line. by destruct a.
Qed.
Lemma stays_random : stays_ (rests true) 400000 (run_random a g layout cpu1 (tick_cpu0 a cpu0) fuel).
Proof.
  apply (stays_bind _ 400000 0 _ _ (fun _ => True)); [done|done| |intros _ _].
  - replace 400000 with (Z.of_nat (Z.to_nat 100000) * 4) by (rewrite Z2Nat.id by done; done). apply stays_times; [done|apply stays_one_random].
  - apply (stays_then _ _ _ _ (fun _ => True)); [done|apply stays_no_failure|intros _ _]. apply stays_line. by destruct a.
Qed.
Lemma stays_quiet R q : stays_ R 0 (modg (set_quiet q)).
Proof.
  intros k w Hr _. eexists _, _, 0. rewrite Z.add_0_r. split; [done|]. split; [done|]. split; [done|]. destruct Hr. by constructor.
Qed.
Lemma nmi_period_range : 1 <= nmi_period g <= 20.
Proof. unfold nmi_period. repeat destruct (opt _ _); lia. Qed.
Lemma stays_warm_up fl : stays_ (starting fl) 40 (warm_up a g layout cpu1 (tick_cpu0 a cpu0) fuel).
Proof.
  apply (stays_then _ _ _ _ (fun _ => True)); [done|apply stays_quiet|intros _ _].
  set (n := Z.to_nat _). assert (Z.of_nat n <= 10) as Hn.
  { unfold n. pose proof nmi_period_range. assert ((10 + nmi_period g - 1) / nmi_period g < 11) by (apply Z.div_lt_upper_bound; lia). lia. }
  apply (stays_weaken _ (Z.of_nat n * 4)); [lia|]. replace (Z.of_nat n * 4) with (Z.of_nat n * 4 + 0) by lia.
  apply (stays_bind _ _ _ _ _ (fun _ => True)); [lia|done|apply stays_times; [done|apply round_ready]|intros _ _; apply stays_quiet].
Qed.

(** ** The start of the program *)

(** Before the experiments: nothing is counted, and [CPUID] may still be used. *)
Record at_start (w : nworld (M := sdm)) : Prop := {
  as_rests : starting false (n_m w);
  as_vars : master_fail (n_g w) = 0 /\ n_source (n_g w) = EXIT_MEASURE /\ exit_rip (n_g w) = 0 /\ l2_ready (n_t (n_g w)) = 0 /\
    drop_keyboard_interrupts (n_drops (n_g w)) = 0;
  as_cpuid : disable_cpuid (n_g w) = false; as_count : idx (n_g w) = 0; as_mask : Z.testbit (exp_mask (n_g w)) 0 = false }.
(** The two variables the start sets. *)
Definition started (w : nworld (M := sdm)) : Prop := at_start w /\ l2_init_apic_id (n_t (n_g w)) <> 0 /\ interrupt_period (n_t (n_g w)) = P.

Lemma run_bind {A B} (m : N (M := sdm) A) (f : A -> N B) w x w1 : m w = Ok (x, w1) -> (m ≫= f) w = f x w1.
Proof. intros E. unfold mbind, N_bind. by rewrite E. Qed.
Lemma deliver_none n rip w : m_poll rip (n_m w) = None -> deliver a g layout cpu1 n rip w = Ok (tt, w).
Proof. intros E. destruct n; cbn [deliver]; by rewrite E. Qed.

(** The registers after [CPUID] in the guest. *)
Definition after_cpuid (r : regs) (v : Z * Z * Z * Z) : regs :=
  let '(ra, rb, rc, rd) := v in
  let r' := with_edx (u32 rd) (with_ecx (u32 rc) (with_ebx (u32 rb) (with_eax (u32 ra) r))) in
  if r_eax r =? 1 then with_ecx (Z.land (r_ecx r') (bnot 32 (Z.shiftl 1 5))) r' else r'.
Lemma handler_cpuid d r w : disable_cpuid (n_g w) = false -> exists x,
  shv_nmi_vmexit_handler a cpu1 d r (mkInfo_ VMX_VMEXIT_CPUID (cpuid_site layout) 2) w =
    vmw_NW a "guest_RIP" (cpuid_site layout + 2) (mkN (n_g w) (n_m w) x) ≫= (fun '(_, w') =>
      Ok (after_cpuid r (cpu_cpuid (w_tr (n_w w)) (u32 (r_eax r)) (u32 (r_ecx r))), w')).
Proof.
  intros Hd. unfold shv_nmi_vmexit_handler. cbn [vmexit_reason guest_rip inst_len]. rewrite Z.eqb_refl.
  rewrite (run_bind (gets disable_cpuid) _ w false w) by (unfold gets; by rewrite Hd). cbn [negb].
  rewrite (run_bind (TEST_ASSERT _ _ _ true) _ w tt w) by reflexivity.
  unfold io at 1, cpuid_raw. unfold mbind at 1, N_bind at 1.
  destruct (cpu_cpuid (w_tr (n_w w)) (u32 (r_eax r)) (u32 (r_ecx r))) as [[[ra rb] rc] rd].
  eexists. unfold mbind, N_bind, res_bind, after_cpuid. reflexivity.
Qed.
Lemma given_eax eax ecx : u32 (r_eax (with_ecx ecx (with_eax eax no_regs))) = u32 eax.
Proof.
  change (r_eax (with_ecx ecx (with_eax eax no_regs))) with (u32 (u32 eax)). unfold u32. by rewrite !(wrap_wrap 32 32) by lia.
Qed.
Lemma given_ecx eax ecx : u32 (r_ecx (with_ecx ecx (with_eax eax no_regs))) = u32 ecx.
Proof.
  change (r_ecx (with_ecx ecx (with_eax eax no_regs))) with (u32 (u32 ecx)). unfold u32. by rewrite !(wrap_wrap 32 32) by lia.
Qed.
Lemma guest_cpuid_run eax ecx w : starting false (n_m w) -> disable_cpuid (n_g w) = false ->
  exists m x r, starting false m /\ r = after_cpuid (with_ecx ecx (with_eax eax no_regs)) (cpu_cpuid (w_tr (n_w w)) (u32 eax) (u32 ecx)) /\
    guest_cpuid a g layout cpu1 (tick_cpu0 a cpu0) fuel eax ecx w = Ok ((r_eax r, r_ebx r, r_ecx r, r_edx r), mkN (n_g w) m x).
Proof.
  intros [(gif & pin & vblk & entry & intr & act & reason & info & len & rip & Hc & He & Em) Hf] Hd. destruct w as [gl m wd]. cbn [n_m n_g n_w] in *. subst m.
  apply andb_true_iff in Hf as [Ep%Z.eqb_eq Ee%Z.eqb_eq]. cbn in Ep, Ee. subst pin entry.
  assert (vblk = false) as -> by (clear -Hc; destruct vblk; [|done]; by destruct Hc as [[=]|[[=]|[[=]|[[=]|[]]]]]).
  set (m1 := c_exit false VMX_VMEXIT_CPUID 0 2 (cpuid_site layout) (rest_state false gif 22 PROC intr 0 act reason info len rip false)).
  destruct (handler_cpuid (shv_nmi_vmcall_dispatcher a g layout cpu1 (tick_cpu0 a cpu0) fuel) (with_ecx ecx (with_eax eax no_regs))
    (mkN (M := sdm) gl m1 wd) Hd) as (x & E).
  cbn [n_w n_m n_g] in E. set (r := after_cpuid _ _) in E.
  set (m2 := rest_state false false 22 PROC 0 0 0 VMX_VMEXIT_CPUID 0 2 (cpuid_site layout + 2) false).
  assert (take_exit a cpu1 (shv_nmi_vmcall_dispatcher a g layout cpu1 (tick_cpu0 a cpu0) fuel) (with_ecx ecx (with_eax eax no_regs)) (mkN (M := sdm) gl m1 wd) =
    Ok (r, mkN gl (with_vmcs_fields 22 PROC 0 0 0 VMX_VMEXIT_CPUID 0 2 (cpuid_site layout + 2) m1) x)) as Et.
  { unfold take_exit. erewrite run_bind by reflexivity. erewrite run_bind by reflexivity.
    rewrite (run_bind _ _ _ (cpuid_site layout) (mkN (M := sdm) gl m1 wd)) by (by destruct a).
    etransitivity; [exact E|]. destruct a; reflexivity. }
  exists m2, x, r. split.
  { split; [|done]. exists false, 22, false, 0, 0, 0, VMX_VMEXIT_CPUID, 0, 2, (cpuid_site layout + 2). split; [by left|]. split; [by left|done]. }
  split.
  { unfold r. by rewrite given_eax, given_ecx. }
  unfold guest_cpuid, guest_exit.
  erewrite run_bind; [|erewrite run_bind by reflexivity; erewrite run_bind by (apply deliver_none; reflexivity); erewrite run_bind by exact Et;
    erewrite run_bind by reflexivity; rewrite Z.eqb_refl; erewrite run_bind by (apply deliver_none; reflexivity); reflexivity].
  reflexivity.
Qed.

(** From [Pre] the computation returns, in [Post]. *)
Definition runs {A} (Pre : nworld (M := sdm) -> Prop) (m : N (M := sdm) A) (Post : A -> nworld (M := sdm) -> Prop) : Prop :=
  forall w, Pre w -> exists x w', m w = Ok (x, w') /\ Post x w'.
Lemma runs_bind {A B} Pre (m : N A) (f : A -> N B) Mid Post :
  runs Pre m Mid -> (forall x, runs (Mid x) (f x) Post) -> runs Pre (m ≫= f) Post.
Proof.
  intros Hm Hf w Hw. destruct (Hm w Hw) as (x & w1 & E1 & H1). destruct (Hf x w1 H1) as (y & w2 & E2 & H2). exists y, w2.
  split; [by rewrite (run_bind _ _ _ _ _ E1)|done].
Qed.
Lemma runs_assoc {A B E} Pre (m : N A) (f : A -> N B) (h : B -> N E) Post :
  runs Pre ((m ≫= f) ≫= h) Post -> runs Pre (m ≫= fun x => f x ≫= h) Post.
Proof. intros H w Hw. destruct (H w Hw) as (x & w' & E1 & HP). exists x, w'. split; [|done]. revert E1. unfold mbind, N_bind. by destruct (m w) as [[? ?]|]. Qed.
Lemma runs_ret Pre {A} (x : A) (Post : A -> nworld -> Prop) : (forall w, Pre w -> Post x w) -> runs Pre (mret x) Post.
Proof. intros H w Hw. exists x, w. split; [done|by apply H]. Qed.
Lemma runs_say (Pre : nworld -> Prop) fmt tys args : (forall g m x y, Pre (mkN g m x) -> Pre (mkN g m y)) -> check_printf a fmt tys = true -> shaped args tys ->
  runs Pre (say a fmt args) (fun _ => Pre).
Proof.
  intros HP Hc Hs [gl m x] Hw. destruct (printf_run a fmt tys args x Hc Hs) as (l & E).
  eexists tt, _. unfold say, mbind, N_bind, io. cbn [n_w n_g n_m]. rewrite E. split; [reflexivity|]. by eapply HP.
Qed.
Lemma started_io g' m x y : started (mkN g' m x) -> started (mkN g' m y).
Proof. intros [[H1 H2 H3 H4 H5] H]. by split. Qed.
Lemma started_line fmt : check_printf a fmt [] = true -> runs started (say a fmt []) (fun _ => started).
Proof. intros Hc. apply (runs_say _ _ []); [apply started_io|done|constructor]. Qed.
Lemma runs_cpuid eax ecx : runs started (guest_cpuid a g layout cpu1 (tick_cpu0 a cpu0) fuel eax ecx) (fun _ => started).
Proof.
  intros w [[H1 H2 H3 H4 H5] H]. destruct (guest_cpuid_run eax ecx w H1 H3) as (m & x & r & Hm & _ & E).
  eexists _, _. split; [exact E|]. by split.
Qed.
(** An environment that is found, or not. *)
Lemma runs_found (b : bool) f fmt : check_printf a fmt [] = true -> (forall w, started w -> started (mkN (f (n_g w)) (n_m w) (n_w w))) ->
  runs started (if b then modg f ≫= fun _ => say a fmt [] else mret tt) (fun _ => started).
Proof.
  intros Hc Hf. destruct b; [|by apply runs_ret]. apply (runs_bind _ _ _ (fun _ => started)); [|intros _; by apply started_line].
  intros w Hw. eexists tt, _. split; [reflexivity|by apply Hf].
Qed.
Lemma runs_detect : runs started (detect_env a g layout cpu1 (tick_cpu0 a cpu0) fuel) (fun _ => started).
Proof.
  unfold detect_env. apply (runs_bind _ _ _ (fun _ => started)); [apply started_line; by destruct a|intros _].
  apply (runs_bind _ _ _ (fun _ => started)); [apply runs_cpuid|intros [[[eax ebx] ecx] edx]].
  apply (runs_bind _ _ _ (fun _ => started)); [apply runs_found; [by destruct a|intros w [[] ?]; by split]|intros _].
  apply (runs_bind _ _ _ (fun _ => started)); [apply runs_cpuid|intros [[[eax2 ebx2] ecx2] edx2]].
  apply (runs_bind _ _ _ (fun _ => started)); [apply runs_found; [by destruct a|intros w [[] ?]; by split]|intros _].
  apply (runs_bind _ _ _ (fun _ => started)); [apply runs_cpuid|intros [[[eax3 ebx3] ecx3] edx3]].
  apply (runs_bind _ _ _ (fun _ => started)); [apply runs_found; [by destruct a|intros w [[] ?]; by split]|intros _].
  apply started_line. by destruct a.
Qed.
Lemma masked_0 qemu bochs xmhf mask : Z.testbit mask 0 = false -> Z.testbit (masked g qemu bochs xmhf mask) 0 = false.
Proof. intros Hm. unfold masked. cbv zeta. repeat destruct (_ && _); repeat destruct xmhf; repeat destruct (opt _ _); by rewrite ?Z.land_spec, ?Hm. Qed.
(** Ready, after at most [2 * c] interrupts. *)
Definition ready_upto (R : cpu1_state -> Prop) (c : Z) (w : nworld (M := sdm)) : Prop := exists k, k <= c /\ ready_for R k w.
Lemma stays_runs R b c {A} (m : N A) Q : P * (2 * (b + c)) < 2 ^ 32 -> stays R c m Q -> runs (ready_upto R b) m (fun _ => ready_upto R (b + c)).
Proof.
  intros Hl Hm w (k & Hk & Hr). pose proof set_period as HP. destruct (Hm k w Hr ltac:(nia)) as (x & w' & n & E & _ & Hn & Hr').
  exists x, w'. split; [done|]. exists (k + n). split; [lia|done].
Qed.
(** The masks are set before the first experiment. *)
Lemma runs_masks : runs started (modg (set_disable_cpuid true) ≫= fun _ => set_exp_masks a g) (fun _ => ready_upto (starting false) 0).
Proof.
  pose proof set_period as HP. apply (runs_bind _ _ _ (fun _ => ready_upto (starting false) 0)).
  - intros w [[H1 (V1 & V2 & V3 & V4 & V5) H3 H4 H5] [H6 H7]]. eexists tt, _. split; [reflexivity|]. exists 0. split; [done|].
    constructor; try done. cbn [n_g]. change (idx (set_disable_cpuid true (n_g w))) with (idx (n_g w)). rewrite H4. lia.
  - intros _. apply (runs_bind _ _ _ (fun _ => ready_upto (starting false) 0)).
    + intros w (k & Hk & [H1 H2 H3 H4 H5 H6 H7]). eexists tt, _. split; [reflexivity|]. exists k. split; [done|]. constructor; try done. by apply masked_0.
    + intros _. apply (stays_runs _ 0 0 _ (fun _ => True)); [lia|]. apply (stays_then _ 0 _ _ (fun _ => True)); [done|by apply (stays_gets _ _ (fun _ => True))|].
      intros mask _. apply (stays_say _ _ [ANum 64]); [by destruct a|by repeat constructor].
Qed.

(** The numbers of interrupts of the three runs. *)
Definition budget : Z := 40 + 124 + 400000.
Lemma runs_after_start : P * (2 * budget) < 2 ^ 32 ->
  runs (ready_upto (starting false) 0)
    (warm_up a g layout cpu1 (tick_cpu0 a cpu0) fuel ≫= fun _ =>
     hw (m_set_flag true) ≫= fun _ =>
     (if opt (g_nmi_opt g) SHV_NMI_RUN_SEQUENTIAL then run_sequential a g layout cpu1 (tick_cpu0 a cpu0) fuel else mret tt) ≫= fun _ =>
     (if opt (g_nmi_opt g) SHV_NMI_RUN_RANDOM then run_random a g layout cpu1 (tick_cpu0 a cpu0) fuel else mret tt) ≫= fun _ =>
     no_failure a 1755 ≫= fun _ =>
     say a (lit "ALL TEST PASS" ++ [10]) [] ≫= fun _ =>
     modg (set_l2_ready 0))
    (fun _ => ready_upto (rests true) budget).
Proof.
  unfold budget. intros Hl. pose proof set_period as HP. apply (runs_bind _ _ _ (fun _ => ready_upto (starting false) 40)).
  { apply (stays_runs _ 0 40 _ (fun _ => True)); [lia|apply stays_warm_up]. }
  intros _. apply (runs_bind _ _ _ (fun _ => ready_upto (rests true) 40)).
  { intros w (k & Hk & [[(gif & pin & vblk & entry & intr & act & reason & info & len & rip & Hc & He & Em) _] H2 H3 H4 H5 H6 H7]).
    eexists tt, _. split; [reflexivity|]. exists k. split; [done|]. constructor; try done. cbn [n_m]. rewrite Em.
    by exists gif, pin, vblk, entry, intr, act, reason, info, len, rip. }
  intros _. apply (runs_bind _ _ _ (fun _ => ready_upto (rests true) (40 + 124))).
  { apply (stays_runs _ 40 124 _ (fun _ => True)); [lia|]. destruct (opt _ _); [apply stays_sequential|apply (stays_weaken _ 0); [done|by apply stays_ret]]. }
  intros _. apply (runs_bind _ _ _ (fun _ => ready_upto (rests true) (40 + 124 + 400000))).
  { apply (stays_runs _ (40 + 124) 400000 _ (fun _ => True)); [lia|]. destruct (opt _ _); [apply stays_random|apply (stays_weaken _ 0); [done|by apply stays_ret]]. }
  intros _. rewrite <- (Z.add_0_r (40 + 124 + 400000)). apply (stays_runs _ _ 0 _ (fun _ => True)); [lia|].
  apply (stays_then _ 0 _ _ (fun _ => True)); [done|apply stays_no_failure|intros _ _].
  apply (stays_then _ 0 _ _ (fun _ => True)); [done|apply stays_line; by destruct a|intros _ _].
  intros k w [H1 (V1 & V2 & V3 & V4 & V5 & V6) H3 H4 H5 H6 H7] _. eexists tt, _, 0. rewrite Z.add_0_r. split; [reflexivity|].
  split; [done|]. split; [done|]. constructor; try done.
Qed.

(** What the processor answers to [CPUID] leaf 1: the APIC ID of processor 1 is not zero. *)
Definition answers_apic_id : Prop := forall tr, let '(_, rb, _, _) := cpu_cpuid tr 1 0 in Z.land (u32 rb) 0xff000000 <> 0.
Lemma given_ebx r v : r_bx r = 0 -> r_ebx (after_cpuid r v) = let '(_, rb, _, _) := v in u32 rb.
Proof.
  destruct r as [ax bx cx dx si di bp sp ext], v as [[[ra rb] rc] rd]. cbn [r_bx]. intros ->. unfold after_cpuid.
  assert (forall r', r_bx r' = low_half 0 (u32 rb) -> r_ebx r' = u32 rb) as H.
  { intros r' E. unfold r_ebx. rewrite E. change (low_half 0 (u32 rb)) with (u32 (u32 rb)). unfold u32. by rewrite !(wrap_wrap 32 32) by lia. }
  destruct (_ =? 1); by apply H.
Qed.
Lemma at_start_line fmt tys args : check_printf a fmt tys = true -> shaped args tys -> runs at_start (say a fmt args) (fun _ => at_start).
Proof. apply runs_say. intros g' m x y []. by constructor. Qed.
Lemma guest_tests_run : answers_apic_id -> c_idx cpu1 = 1 -> P = nmi_period g ->
  runs at_start (guest_tests a g layout cpu1 (tick_cpu0 a cpu0) fuel) (fun _ => ready_upto (rests true) budget).
Proof.
  intros Hid Hx HPg. pose proof nmi_period_range as Hrange. unfold guest_tests.
  apply (runs_bind _ _ _ (fun _ => at_start)); [apply (at_start_line _ [ANum 64]); [by destruct a|by repeat constructor]|intros _].
  apply (runs_bind _ _ _ (fun _ => at_start)); [apply (at_start_line _ [ANum 64]); [by destruct a|by repeat constructor]|intros _].
  rewrite Hx. apply (runs_bind _ _ _ (fun _ => at_start)); [by apply (runs_ret at_start tt)|intros _].
  apply (runs_bind _ _ _ (fun v w => at_start w /\ let '(_, ebx, _, _) := v in Z.land ebx 0xff000000 <> 0)).
  { intros w Hw. destruct (guest_cpuid_run 1 0 w (as_rests _ Hw) (as_cpuid _ Hw)) as (m & x & r & Hm & Er & E).
    eexists _, _. split; [exact E|]. split; [destruct Hw; by constructor|]. rewrite Er, given_ebx by done.
    specialize (Hid (w_tr (n_w w))). change (u32 1) with 1. change (u32 0) with 0. destruct (cpu_cpuid _ _ _) as [[[? ?] ?] ?]. done. }
  intros [[[eax ebx] ecx] edx]. apply (runs_bind _ _ _ (fun _ w => at_start w /\ l2_init_apic_id (n_t (n_g w)) <> 0)).
  { intros w [Hw Hb]. eexists tt, _. split; [reflexivity|]. split; [destruct Hw; by constructor|done]. }
  intros _. apply (runs_bind _ _ _ (fun _ => started)).
  { intros w [Hw Hb]. eexists tt, _. split; [reflexivity|]. split; [destruct Hw; by constructor|done]. }
  intros _. apply (runs_bind _ _ _ (fun _ => started)); [destruct (opt _ _); [apply runs_detect|by apply runs_ret]|intros _].
  apply runs_assoc, (runs_bind _ _ _ (fun _ => ready_upto (starting false) 0)); [apply runs_masks|intros _].
  apply runs_after_start. unfold budget. lia.
Qed.
End props.

(** ** Theorems *)

(** C3: The experiments of [shv-nmi.c] hold on a processor that does what the Intel manual says, for every period of the timer
    interrupts and every device: any list of experiments, in any order, started where the guest rests, runs through without a
    failed assertion, and leaves the guest at rest again, at most eight interrupts later for each experiment. *)
Theorem nmi_experiments_pass a {D : Device} {C : Cpu} g cpu0 cpu1 P fuel l k w :
  Setting g cpu0 cpu1 P fuel -> Forall (fun i => 0 <= i < nexperiments) l -> ready_for P (rests true) k w ->
  P * (2 * (k + Z.of_nat (length l) * 4)) < 2 ^ 32 ->
  exists w' n, run_list a g cpu0 cpu1 fuel l w = Ok (tt, w') /\ 0 <= n <= Z.of_nat (length l) * 4 /\ ready_for P (rests true) (k + n) w' /\
    master_fail (n_g w') = 0.
Proof.
  intros HS Hl Hr Hlim. destruct (stays_list a g cpu0 cpu1 P fuel l Hl k w Hr Hlim) as ([] & w' & n & E & _ & Hn & Hr').
  exists w', n. split; [done|]. split; [done|]. split; [done|]. by destruct (rf_vars _ _ _ _ Hr').
Qed.

(** C16: The whole test program reaches its end: from the initial values of its variables, whatever the options that choose the
    environment check, the mask, the period and the runs (100,000 random experiments among them), no assertion fails and
    the counter of interrupts does not wrap. *)
Theorem nmi_guest_tests_pass a {D : Device} {C : Cpu} g cpu0 cpu1 fuel w :
  c_isbsp cpu0 = true -> c_isbsp cpu1 = false -> c_idx cpu1 = 1 -> truth (Z.land (g_nmi_opt g) 1) = true -> answers_apic_id ->
  (200 <= fuel)%nat -> n_g w = nglob0 -> starting false (n_m w) ->
  exists w', guest_tests a g layout cpu1 (tick_cpu0 a cpu0) fuel w = Ok (tt, w') /\ quiescent (n_g w') /\ rests true (n_m w') /\
    nmi_count (n_t (n_g w')) <= 20 * (2 * budget).
Proof.
  intros H0 H1 Hx Ho Hid Hf Hg Hm. pose proof (nmi_period_range g) as Hp.
  assert (Setting g cpu0 cpu1 (nmi_period g) fuel) as HS by (constructor; try done; unfold spec_fuel; lia).
  destruct (guest_tests_run a g cpu0 cpu1 (nmi_period g) fuel Hid Hx eq_refl w) as ([] & w' & E & k & Hk & Hr).
  { constructor; rewrite ?Hg; done. }
  exists w'. split; [exact E|]. split; [apply Hr|]. split; [apply Hr|]. destruct (rf_count _ _ _ _ Hr) as [[_ Hc] _].
  pose proof (rf_k _ _ _ _ Hr). unfold idx in Hc. unfold budget in *. nia.
Qed.

(** Witnesses: a program with period 5 that runs both the sequence and the random experiments. *)
Definition demo_opts : opts := mkOpts 0 0x2f 0 0.
Definition demo_cpu0 : dcpu := mkDcpu 0 0 true 0 0 (0, 0) (0, 0).
Definition demo_vars (count : Z) : nglob :=
  mkNglob (mkTglob false 0 0x1000000 5 false count) 0 0 0 EXIT_MEASURE 0 EXIT_MEASURE 0 true 12 false false false (bnot 64 1) (mkDrops 0 0).
Definition demo_rest (fl : bool) : cpu1_state := rest_state fl fl 0x16 PROC 0 0 0 0 0 0 0 false.
Definition demo_ids : Cpu := {|
  cpu_vmread := fun _ _ => None; cpu_vmwrite := fun _ _ _ => false; cpu_vmx := fun _ _ _ => false; cpu_vmptr := fun _ => 0;
  cpu_cpuid := fun _ _ _ => (0, 0x1000000, 0, 0); cpu_rdmsr_faults := fun _ _ => false; cpu_wrmsr_faults := fun _ _ _ => false; cpu_reg := fun _ _ => 0 |}.
Lemma demo_rests fl : rests fl (demo_rest fl).
Proof. exists fl, 0x16, false, 0, 0, 0, 0, 0, 0, 0. split; [by left|]. by split; [left|]. Qed.

Lemma nmi_experiments_pass_witness :
  exists w' n, @run_list AMD64 quiet_device demo_ids demo_opts demo_cpu0 spec_cpu1 50 [3; 26; 3; 17] (mkN (M := sdm) (demo_vars 20) (demo_rest true) (mkW ∅ [])) = Ok (tt, w') /\
    0 <= n <= 16 /\ ready_for 5 (rests true) (2 + n) w' /\ master_fail (n_g w') = 0.
Proof.
  apply (@nmi_experiments_pass AMD64 quiet_device demo_ids demo_opts demo_cpu0 spec_cpu1 5 50 [3; 26; 3; 17] 2).
  - by constructor.
  - by repeat constructor.
  - constructor; try done. apply demo_rests.
  - done.
Defined.
Lemma nmi_guest_tests_pass_witness :
  exists w', @guest_tests AMD64 quiet_device demo_ids sdm demo_opts layout spec_cpu1 (tick_cpu0 AMD64 demo_cpu0) 200
      (mkN (M := sdm) nglob0 (demo_rest false) (mkW ∅ [])) = Ok (tt, w') /\
    quiescent (n_g w') /\ rests true (n_m w') /\ nmi_count (n_t (n_g w')) <= 20 * (2 * budget).
Proof.
  apply (@nmi_guest_tests_pass AMD64 quiet_device demo_ids demo_opts demo_cpu0 spec_cpu1 200); [done|done|done|done|by intros tr|lia|done|split; [apply demo_rests|done]].
Defined.
