(* ===== verification/Guest.v ===== *)
(** [src/shv-guest.c]: the tests of VMX, on both sides: what the guest does, and the handlers of the VM exits it causes. *)
From Stdlib Require Import String.
From S2P Require Import Prelude.
From S2P Require Import HptLemmas.
From S2P Require Import Mem.
From S2P Require Import Ept.
From S2P Require Import CString.
From S2P Require Import Cmdline.
From S2P Require Import Stdio.
From S2P Require Import Io.
From S2P Require Import Smp.
From S2P Require Import Screen.
From S2P Require Import Timer.
From S2P Require Import Desc.
From S2P Require Import VmxCtls.
From S2P Require Import VmcsFields.
From S2P Require Import Vmcs.
From S2P Require Import Vcpu.
From S2P Require Import Asm.
From S2P Require Import Vmx.
From S2P Require Import User.

(** What an instruction of the guest does. *)
Inductive outcome := Runs (value : Z) | Faults | Exits.

(** The processor as the guest sees it, and what it does by itself, all as functions of the trace and memory: a load
    of four bytes ([None]: it violates the EPT), [RDMSR] and [WRMSR]; what a VM exit stores in memory and the MSRs it loads, the
    MSRs a VM entry loads, both as if by [WRMSR]; what [VMCLEAR] does to memory; whether [VMWRITE] is an invalid opcode. *)
Class Guest := {
  gm_load : list ioev -> mem -> Z -> option Z;
  gm_rdmsr : list ioev -> mem -> Z -> outcome;
  gm_wrmsr : list ioev -> mem -> Z -> Z -> outcome;
  gm_exit : list ioev -> mem -> mem * list (Z * Z);
  gm_entry : list ioev -> mem -> list (Z * Z);
  gm_clear : list ioev -> Z -> mem -> mem;
  gm_vmwrite_ud : list ioev -> bool }.

Definition MSR_EFER : Z := 0xc0000080.
Definition MSR_IA32_PAT : Z := 0x277.
Definition VMX_INVVPID_INDIVIDUALADDRESS : Z := 0.
Definition VMX_INVVPID_SINGLECONTEXT : Z := 1.
Definition VMX_INVVPID_ALLCONTEXTS : Z := 2.
Definition VMX_INVVPID_SINGLECONTEXTGLOBAL : Z := 3.
Definition MSR_TEST_NORMAL : Z := 0x2900b05d.
Definition MSR_TEST_VMEXIT : Z := 0xf6d7a004.
Definition MSR_TEST_EXCEPT : Z := 0xc23a16e5.
Definition SHV_USER_MODE : Z := 0x40.
Definition SHV_USE_VMXOFF : Z := 0x80.
Definition SHV_NESTED_USER_MODE : Z := 0x800.
Definition SHV_USE_MSRBITMAP : Z := 0x400.

(** The registers of a [VMCALL]; those the tests do not set are zero. *)
Definition call_regs (eax ebx : Z) : regs := mkRegs eax ebx 0 0 0 0 0 0 [].

Section guest.
Context (a : subarch) (amd64_max : Z) {D : Device} {C : Cpu} {G : Guest}.
Context (g : opts) (s : vmx_syms) (es : ept_syms) (ds : desc_syms) (us : user_syms) (mid : list MIDTAB) (qemu : bool).
(** The static array of [shv_guest_msr_bitmap_vmexit_handler]. *)
Context (msr_bitmap_allcpu : Z).
(** User mode, from [enter_user_mode_asm] to its return. *)
Context (run_user : Z * Z -> IO unit).

Abbreviation opt_set := (Vmx.opt_set g).
Abbreviation rmsr := rdmsr_.
Abbreviation wmsr := wrmsr64.

Definition resume (v : VCPU) (r : regs) (info : vmexit_info_t) : IO handler_result :=
  wNW a "guest_RIP" (guest_rip info + inst_len info) ≫= fun _ => mret (Entered false v r).

(** ** MSRs that are stored and loaded by VM exits and VM entries *)

Definition msr_writable (index : Z) : IO bool :=
  old_val ← _rdmsr_safe index;
  match old_val with
  | None => mret false
  | Some old_val =>
      ok ← _wrmsr_safe index (Z.lxor old_val 0x1234abcdbeef6789);
      if negb ok then mret false
      else ok ← _wrmsr_safe index old_val; ASSERT_io ok ≫= fun _ => mret true
  end.

(** [shv_guest_test_msr_ls_data_t] at [data]. *)
Definition skip_mc_msrs (data : Z) : IO bool := x ← load 1 data; mret (truth x).
Definition mc_msr_at (data i : Z) : Z := data + 4 + 4 * i.
Definition mc_msr (data i : Z) : IO Z := load 4 (mc_msr_at data i).
Definition old_val_at (data i j : Z) : Z := data + 16 + 8 * (3 * i + j).
(** [data->old_vals[i][j] = rdmsr64(msr)], and back. *)
Definition save_msr (data i j msr : Z) : IO unit := x ← rmsr msr; store 8 (old_val_at data i j) x.
Definition restore_msr (data i j msr : Z) : IO unit := x ← load 8 (old_val_at data i j); wmsr msr x.
(** What is done when the machine check MSRs are used. *)
Definition with_mc (data : Z) (m : IO unit) : IO unit :=
  skip ← skip_mc_msrs data; if negb skip then m else mret tt.
(** An entry of an MSR area. *)
Definition set_entry (area i index val : Z) : IO unit :=
  store 4 (area + 16 * i) index ≫= fun _ => store 8 (area + 16 * i + 8) val.
Definition entry_data (area i : Z) : IO Z := load 8 (area + 16 * i + 8).
Definition set_counts (n : Z) : IO unit :=
  w32 a "control_VM_exit_MSR_store_count" n ≫= fun _ =>
  w32 a "control_VM_exit_MSR_load_count" n ≫= fun _ =>
  w32 a "control_VM_entry_MSR_load_count" n.
Definition must_be (m : IO Z) (x : Z) : IO unit := y ← m; ASSERT_io (y =? x).

(** The search for machine check MSRs (lines 112 to 126). *)
Definition find_mc_msrs (data : Z) : IO unit :=
  n ← rmsr 0x179;
  b ← (if 1 <? Z.land n 0xff then msr_writable 0x402 else mret false);
  if b : bool then
    store 1 data 0 ≫= fun _ =>
    b ← msr_writable 0x403; ASSERT_io b ≫= fun _ =>
    b ← msr_writable 0x406; ASSERT_io b ≫= fun _ =>
    store 4 (mc_msr_at data 0) 0x402 ≫= fun _ =>
    store 4 (mc_msr_at data 1) 0x403 ≫= fun _ =>
    store 4 (mc_msr_at data 2) 0x406
  else store 1 data 1.
(** Saving the old values (lines 127 to 138). *)
Definition save_msrs (data : Z) : IO unit :=
  save_msr data 0 0 0x20a ≫= fun _ => save_msr data 0 1 0x20b ≫= fun _ => save_msr data 0 2 0x20c ≫= fun _ =>
  save_msr data 1 0 MSR_EFER ≫= fun _ => save_msr data 1 1 0xc0000081 ≫= fun _ => save_msr data 1 2 MSR_IA32_PAT ≫= fun _ =>
  with_mc data
    (m ← mc_msr data 0; save_msr data 2 0 m ≫= fun _ =>
     m ← mc_msr data 1; save_msr data 2 1 m ≫= fun _ =>
     m ← mc_msr data 2; save_msr data 2 2 m).
(** Setting up the experiment (lines 139 to 182). *)
Definition set_msr_experiment (v : VCPU) (data : Z) : IO unit :=
  skip ← skip_mc_msrs data;
  set_counts (if negb skip then 3 else 2) ≫= fun _ =>
  x ← rmsr 0xfe; ASSERT_io (6 <? Z.land x 0xff) ≫= fun _ =>
  wmsr 0x20a 0xaaaaa000 ≫= fun _ => wmsr 0x20b 0xdeadb000 ≫= fun _ => wmsr 0x20c 0xdeadc000 ≫= fun _ =>
  with_mc data
    (m ← mc_msr data 0; wmsr m 0x2222222222222222 ≫= fun _ =>
     m ← mc_msr data 1; wmsr m 0xdeaddeadbeefbeef ≫= fun _ =>
     m ← mc_msr data 2; wmsr m 0xdeaddeadbeefbeef) ≫= fun _ =>
  must_be (rmsr MSR_IA32_PAT) 0x0007040600070406 ≫= fun _ =>
  set_entry (vcpu_msrstore v) 0 0x20a 0xdeada000 ≫= fun _ =>
  set_entry (vcpu_msrstore v) 1 MSR_EFER 0xdeada000 ≫= fun _ =>
  with_mc data (m ← mc_msr data 0; set_entry (vcpu_msrstore v) 2 m 0xdeaddeadbeefbeef) ≫= fun _ =>
  set_entry (vcpu_exit_msrload v) 0 0x20b 0xbbbbb000 ≫= fun _ =>
  set_entry (vcpu_exit_msrload v) 1 0xc0000081 0x11111000 ≫= fun _ =>
  with_mc data (m ← mc_msr data 1; set_entry (vcpu_exit_msrload v) 2 m 0x3333333333333333) ≫= fun _ =>
  set_entry (vcpu_entry_msrload v) 0 0x20c 0xccccc000 ≫= fun _ =>
  set_entry (vcpu_entry_msrload v) 1 MSR_IA32_PAT 0x0007060400070604 ≫= fun _ =>
  with_mc data (m ← mc_msr data 2; set_entry (vcpu_entry_msrload v) 2 m 0x6666666666666666).
(** Checking the effects (lines 185 to 196). *)
Definition check_msr_effects (v : VCPU) (data : Z) : IO unit :=
  must_be (entry_data (vcpu_msrstore v) 0) 0xaaaaa000 ≫= fun _ =>
  must_be (rmsr 0x20b) 0xbbbbb000 ≫= fun _ =>
  must_be (rmsr 0x20c) 0xccccc000 ≫= fun _ =>
  x ← entry_data (vcpu_msrstore v) 1;
  must_be (rmsr MSR_EFER) x ≫= fun _ =>
  must_be (rmsr MSR_IA32_PAT) 0x0007060400070604 ≫= fun _ =>
  must_be (rmsr 0xc0000081) 0x11111000 ≫= fun _ =>
  with_mc data
    (must_be (entry_data (vcpu_msrstore v) 2) 0x2222222222222222 ≫= fun _ =>
     m ← mc_msr data 1; must_be (rmsr m) 0x3333333333333333 ≫= fun _ =>
     m ← mc_msr data 2; must_be (rmsr m) 0x6666666666666666).
(** Putting everything back (lines 197 to 212). *)
Definition reset_msrs (data : Z) : IO unit :=
  set_counts 0 ≫= fun _ =>
  wmsr MSR_IA32_PAT 0x0007040600070406 ≫= fun _ =>
  restore_msr data 0 0 0x20a ≫= fun _ => restore_msr data 0 1 0x20b ≫= fun _ => restore_msr data 0 2 0x20c ≫= fun _ =>
  restore_msr data 1 0 MSR_EFER ≫= fun _ => restore_msr data 1 1 0xc0000081 ≫= fun _ => restore_msr data 1 2 MSR_IA32_PAT ≫= fun _ =>
  with_mc data
    (m ← mc_msr data 0; restore_msr data 2 0 m ≫= fun _ =>
     m ← mc_msr data 1; restore_msr data 2 1 m ≫= fun _ =>
     m ← mc_msr data 2; restore_msr data 2 2 m).
Definition shv_guest_test_msr_ls_vmexit_handler (v : VCPU) (r : regs) (info : vmexit_info_t) : IO handler_result :=
  if negb (vmexit_reason info =? VMX_VMEXIT_VMCALL) then mret (Returned v r)
  else
    let data := r_bx r in
    (if r_eax r =? 12 then find_mc_msrs data ≫= fun _ => save_msrs data ≫= fun _ => set_msr_experiment v data
     else if r_eax r =? 16 then check_msr_effects v data ≫= fun _ => reset_msrs data
     else lift (Err Halt)) ≫= fun _ =>
    resume v r info.

(** ** EPT violations, and switching the EPT *)

Definition shv_guest_test_ept_vmexit_handler (v : VCPU) (r : regs) (info : vmexit_info_t) : IO handler_result :=
  if negb (vmexit_reason info =? VMX_VMEXIT_EPT_VIOLATION) then mret (Returned v r)
  else
    q ← __vmx_vmreadNW a (VMCS_ "info_exit_qualification");
    paddr ← __vmx_vmread64 a (VMCS_ "guest_paddr");
    vaddr ← __vmx_vmreadNW a (VMCS_ "info_guest_linear_address");
    if negb (paddr =? 0x12340000) || negb (vaddr =? 0x12340000) then mret (Returned v r)
    else
      ASSERT_io (Z.land q (bnot (ptr_bits a) 0xe00) =? 0x181) ≫= fun _ =>
      ASSERT_io (r_eax r =? 0xdeadbeef) ≫= fun _ =>
      ASSERT_io (r_ebx r =? 0x12340000) ≫= fun _ =>
      resume (with_ept_exit_count (u32 (vcpu_ept_exit_count v + 1)) v) (with_eax 0xfee1c0de r) info.

Definition next_ept_num (n : Z) : Z := u8 (n + 1) mod (SHV_EPT_COUNT * 16).
Definition shv_guest_switch_ept_vmexit_handler (v : VCPU) (r : regs) (info : vmexit_info_t) : IO handler_result :=
  if negb (vmexit_reason info =? VMX_VMEXIT_VMCALL) then mret (Returned v r)
  else
    ASSERT_io (r_eax r =? 17) ≫= fun _ =>
    ASSERT_io (opt_set SHV_USE_EPT) ≫= fun _ =>
    let v := with_ept_num (next_ept_num (vcpu_ept_num v)) v in
    eptp ← build_ept a g es v (vcpu_ept_num v);
    w64 a "control_EPT_pointer" (Z.lor eptp 0x1e) ≫= fun _ =>
    resume v r info.

(** ** VMCLEAR and VMXOFF *)

(** [VMCLEAR] with what it does to memory. *)
Definition vmclear (pa : Z) : IO bool := fun w =>
  match __vmx_vmclear pa w with
  | Ok (ok, w') => Ok (ok, mkW (gm_clear (w_tr w) pa (w_mem w')) (w_tr w'))
  | Err e => Err e
  end.
(** [VMWRITE] where it may be an invalid opcode: 1 when it is. *)
Definition vmwrite_result : IO Z := fun w => Ok (b2z (gm_vmwrite_ud (w_tr w)), w).
(** The loop that looks for [new] in the VMCS and puts [old] there; [n] counts what is left. *)
Fixpoint find_limit (n : nat) (i vmcs new old found : Z) : IO Z :=
  match n with
  | O => mret found
  | S n =>
      x ← load 4 (vmcs + 4 * i);
      if x =? new then store 4 (vmcs + 4 * i) old ≫= fun _ => find_limit n (i + 1) vmcs new old (u32 (found + 1))
      else find_limit n (i + 1) vmcs new old found
  end.
Definition new_es_limit : Z := 0xa69f1c74.
(** The part that is run with VMXOFF (lines 355 to 376). *)
Definition vmxoff_and_on (v : VCPU) : IO unit :=
  must __vmx_vmxoff ≫= fun _ =>
  must_be vmwrite_result 1 ≫= fun _ =>
  must (__vmx_vmxon (hva2spa a (vcpu_vmxon_region v))).
Definition vmwrite_fails : IO unit := ok ← __vmx_vmwrite a 0 0; ASSERT_io (negb ok).
Definition shv_guest_test_vmxoff_vmexit_handler (v : VCPU) (r : regs) (info : vmexit_info_t) : IO handler_result :=
  if negb (vmexit_reason info =? VMX_VMEXIT_VMCALL) then mret (Returned v r)
  else
    ASSERT_io (r_eax r =? 22) ≫= fun _ =>
    let test_vmxoff := truth (r_ebx r) in
    let my_vmcs := vcpu_my_vmcs v in
    d ← vmcs_dump a qemu (vcpu_caps v) (vcpu_id v) false (vcpu_vmcs v);
    let v := with_vmcs d v in
    old_es_limit ← __vmx_vmread32 a (VMCS_ "guest_ES_limit");
    w32 a "guest_ES_limit" new_es_limit ≫= fun _ =>
    '(ok, vmptr) ← __vmx_vmptrst;
    ASSERT_io ok ≫= fun _ =>
    ASSERT_io (vmptr =? hva2spa a my_vmcs) ≫= fun _ =>
    must (vmclear (hva2spa a my_vmcs)) ≫= fun _ =>
    vmwrite_fails ≫= fun _ =>
    (if test_vmxoff then vmxoff_and_on v else mret tt) ≫= fun _ =>
    found ← find_limit (Z.to_nat (PAGE_SIZE_4K / 4 - 2)) 2 my_vmcs new_es_limit old_es_limit 0;
    ASSERT_io (found =? 1) ≫= fun _ =>
    vmwrite_fails ≫= fun _ =>
    must (vmclear (hva2spa a my_vmcs)) ≫= fun _ =>
    must_be (load 4 my_vmcs) (Z.land (u32 (vmx_msr v INDEX_BASIC)) 0x7fffffff) ≫= fun _ =>
    must (__vmx_vmptrld (hva2spa a my_vmcs)) ≫= fun _ =>
    d' ← vmcs_dump a qemu (vcpu_caps v) (vcpu_id v) false (vcpu_vmcs v);
    ASSERT_io (bool_decide (d = d')) ≫= fun _ =>
    wNW a "guest_RIP" (guest_rip info + inst_len info) ≫= fun _ =>
    mret (Entered true (with_vmcs d' v) r).

(** ** VPID *)

Definition not (m : IO bool) : IO bool := b ← m; mret (negb b).
Definition invvpids (vpid : Z) : IO unit :=
  must (__vmx_invvpid a VMX_INVVPID_INDIVIDUALADDRESS vpid 0x12345678) ≫= fun _ =>
  (match a with
   | AMD64 => must (not (__vmx_invvpid a VMX_INVVPID_INDIVIDUALADDRESS vpid 0xf0f0f0f0f0f0f0f0))
   | _ => mret tt
   end) ≫= fun _ =>
  must (not (__vmx_invvpid a VMX_INVVPID_INDIVIDUALADDRESS 0 0x12345678)) ≫= fun _ =>
  must (__vmx_invvpid a VMX_INVVPID_SINGLECONTEXT vpid 0) ≫= fun _ =>
  must (not (__vmx_invvpid a VMX_INVVPID_SINGLECONTEXT 0 0)) ≫= fun _ =>
  must (__vmx_invvpid a VMX_INVVPID_ALLCONTEXTS vpid 0) ≫= fun _ =>
  must (__vmx_invvpid a VMX_INVVPID_SINGLECONTEXTGLOBAL vpid 0) ≫= fun _ =>
  must (not (__vmx_invvpid a VMX_INVVPID_SINGLECONTEXTGLOBAL 0 0)).
Definition next_vpid (vpid : Z) : Z := u16 (vpid + 2).
Definition shv_guest_test_vpid_vmexit_handler (v : VCPU) (r : regs) (info : vmexit_info_t) : IO handler_result :=
  if negb (vmexit_reason info =? VMX_VMEXIT_VMCALL) then mret (Returned v r)
  else
    ASSERT_io (r_eax r =? 19) ≫= fun _ =>
    vpid ← __vmx_vmread16 a (VMCS_ "control_vpid");
    ASSERT_io (vpid mod 2 =? 1) ≫= fun _ =>
    invvpids vpid ≫= fun _ =>
    w16 a "control_vpid" (next_vpid vpid) ≫= fun _ =>
    resume v r info.

(** ** Waiting for an interrupt, and user mode *)

Definition shv_guest_wait_int_vmexit_handler (v : VCPU) (r : regs) (info : vmexit_info_t) : IO handler_result :=
  if negb (vmexit_reason info =? VMX_VMEXIT_VMCALL) then mret (Returned v r)
  else
    ASSERT_io (r_eax r =? 25) ≫= fun _ =>
    (if negb (opt_set (Z.lor SHV_NO_EFLAGS_IF SHV_NO_INTERRUPT)) then emit EStiHltCli else mret tt) ≫= fun _ =>
    resume v r info.
Definition user_mode (v : VCPU) (arg : Z) : IO unit :=
  x ← enter_user_mode a amd64_max us g ds v arg; run_user x.
Definition shv_guest_test_user_vmexit_handler (v : VCPU) (r : regs) (info : vmexit_info_t) : IO handler_result :=
  if negb (vmexit_reason info =? VMX_VMEXIT_VMCALL) then mret (Returned v r)
  else
    ASSERT_io (r_eax r =? 33) ≫= fun _ =>
    wNW a "guest_RIP" (guest_rip info + inst_len info) ≫= fun _ =>
    user_mode v 0 ≫= fun _ =>
    mret (Entered false v r).
Definition shv_guest_test_nested_user_vmexit_handler (v : VCPU) (r : regs) (info : vmexit_info_t) : IO handler_result :=
  if negb (vmexit_reason info =? VMX_VMEXIT_VMCALL) then mret (Returned v r) else lift (Err Halt).

(** ** The MSR bitmap *)

Definition msr_bitmap_of (v : VCPU) : Z := msr_bitmap_allcpu + vcpu_idx v * PAGE_SIZE_4K.
Definition use_msr_bitmaps_mask : Z := Z.shiftl 1 28.
(** The loop that asserts that the bitmap is clear. *)
Fixpoint assert_clear (n : nat) (p : Z) : IO unit :=
  match n with O => mret tt | S n => must_be (load 1 p) 0 ≫= fun _ => assert_clear n (p + 1) end.
Definition bitmap_enable (v : VCPU) : IO unit :=
  val ← __vmx_vmread32 a (VMCS_ "control_VMX_cpu_based");
  ASSERT_io (Z.land val use_msr_bitmaps_mask =? 0) ≫= fun _ =>
  w32 a "control_VMX_cpu_based" (Z.lor val use_msr_bitmaps_mask) ≫= fun _ =>
  assert_clear (Z.to_nat PAGE_SIZE_4K) (msr_bitmap_of v) ≫= fun _ =>
  w64 a "control_MSR_Bitmaps_address" (msr_bitmap_of v) ≫= fun _ =>
  must_be (rmsr 0x3b) 0.
Definition bitmap_disable : IO unit :=
  val ← __vmx_vmread32 a (VMCS_ "control_VMX_cpu_based");
  ASSERT_io (Z.land val use_msr_bitmaps_mask =? use_msr_bitmaps_mask) ≫= fun _ =>
  w32 a "control_VMX_cpu_based" (Z.land val (bnot 32 use_msr_bitmaps_mask)) ≫= fun _ =>
  wmsr 0x3b 0.
(** The byte and the mask of bit [n] of the bitmap. *)
Definition bitmap_byte (v : VCPU) (n : Z) : Z := msr_bitmap_of v + n / 8.
Definition bitmap_mask (n : Z) : Z := Z.shiftl 1 (n mod 8).
Definition bitmap_set (v : VCPU) (n : Z) : IO unit :=
  ASSERT_io (n <? 0x8000) ≫= fun _ =>
  x ← load 1 (bitmap_byte v n);
  ASSERT_io (negb (truth (Z.land x (bitmap_mask n)))) ≫= fun _ =>
  x ← load 1 (bitmap_byte v n);
  store 1 (bitmap_byte v n) (Z.lor x (bitmap_mask n)).
Definition bitmap_clear (v : VCPU) (n : Z) : IO unit :=
  ASSERT_io (n <? 0x8000) ≫= fun _ =>
  x ← load 1 (bitmap_byte v n);
  ASSERT_io (truth (Z.land x (bitmap_mask n))) ≫= fun _ =>
  x ← load 1 (bitmap_byte v n);
  store 1 (bitmap_byte v n) (Z.land x (bnot 32 (bitmap_mask n))).
Definition fs_gs_prepare : IO unit :=
  must_be (rmsr IA32_MSR_FS_BASE) 0 ≫= fun _ =>
  must_be (rmsr IA32_MSR_GS_BASE) 0 ≫= fun _ =>
  must_be (__vmx_vmreadNW a (VMCS_ "guest_FS_base")) 0 ≫= fun _ =>
  must_be (__vmx_vmreadNW a (VMCS_ "guest_GS_base")) 0 ≫= fun _ =>
  wNW a "guest_FS_base" 0x680effff ≫= fun _ =>
  wNW a "guest_GS_base" 0x6810ffff.
Definition fs_gs_check : IO unit :=
  must_be (__vmx_vmreadNW a (VMCS_ "guest_FS_base")) 0xffff680e ≫= fun _ =>
  must_be (__vmx_vmreadNW a (VMCS_ "guest_GS_base")) 0xffff6810 ≫= fun _ =>
  must_be (rmsr IA32_MSR_FS_BASE) 0 ≫= fun _ =>
  must_be (rmsr IA32_MSR_GS_BASE) 0 ≫= fun _ =>
  wNW a "guest_FS_base" 0 ≫= fun _ =>
  wNW a "guest_GS_base" 0.
(** The [VMCALL]s; an unknown number does nothing. *)
Definition bitmap_call (v : VCPU) (eax ebx : Z) : IO unit :=
  if eax =? 34 then bitmap_enable v
  else if eax =? 37 then bitmap_disable
  else if eax =? 38 then bitmap_set v ebx
  else if eax =? 39 then bitmap_clear v ebx
  else if eax =? 41 then fs_gs_prepare
  else if eax =? 42 then fs_gs_check
  else mret tt.
Definition shv_guest_msr_bitmap_vmexit_handler (v : VCPU) (r : regs) (info : vmexit_info_t) : IO handler_result :=
  if vmexit_reason info =? VMX_VMEXIT_VMCALL then bitmap_call v (r_eax r) (r_ebx r) ≫= fun _ => resume v r info
  else if vmexit_reason info =? VMX_VMEXIT_WRMSR then resume v (with_ebx MSR_TEST_VMEXIT r) info
  else if vmexit_reason info =? VMX_VMEXIT_RDMSR then
    if (r_ecx r =? MSR_APIC_BASE) || (r_ecx r =? IA32_X2APIC_APICID) then mret (Returned v r)
    else ASSERT_io (r_ebx r =? MSR_TEST_NORMAL) ≫= fun _ => resume v (with_ebx MSR_TEST_VMEXIT r) info
  else if vmexit_reason info =? VMX_VMEXIT_CPUID then mret (Returned v r)
  else lift (Err Halt).

(** ** All handlers *)

(** The handler of the NMI program is in Nmi, with its own state; this program does not set it. *)
Definition call_handler (h : handler) : VCPU -> regs -> vmexit_info_t -> IO handler_result :=
  match h with
  | HMsrLs => shv_guest_test_msr_ls_vmexit_handler
  | HEpt => shv_guest_test_ept_vmexit_handler
  | HSwitchEpt => shv_guest_switch_ept_vmexit_handler
  | HVmxoff => shv_guest_test_vmxoff_vmexit_handler
  | HVpid => shv_guest_test_vpid_vmexit_handler
  | HWaitInt => shv_guest_wait_int_vmexit_handler
  | HUser => shv_guest_test_user_vmexit_handler
  | HNestedUser => shv_guest_test_nested_user_vmexit_handler
  | HMsrBitmap => shv_guest_msr_bitmap_vmexit_handler
  | HNmi => fun _ _ _ => lift (Err Undef)
  end.

(** ** The guest *)

(** The MSRs an exit or an entry loads. *)
Fixpoint load_msrs (l : list (Z * Z)) : IO unit :=
  match l with [] => mret tt | (i, x) :: l => emit (EWrmsr i (u64 x) true) ≫= fun _ => load_msrs l end.
Definition vm_exit (reason addr : Z) : IO unit := fun w =>
  let '(m, l) := gm_exit (w_tr w) (w_mem w) in load_msrs l (mkW m (EExit reason addr :: w_tr w)).
Definition vm_entry (launch : bool) : IO unit :=
  must (vmx_op (if launch then Vmlaunch else Vmresume) []) ≫= fun _ =>
  ((fun w => load_msrs (gm_entry (w_tr w) (w_mem w)) w) : IO unit).
(** An instruction of the guest that causes a VM exit, up to the VM entry: the registers and the [VCPU] after it. *)
Definition guest_exit (reason addr : Z) (v : VCPU) (r : regs) : IO (VCPU * regs) :=
  vm_exit reason addr ≫= fun _ =>
  rip ← __vmx_vmreadNW a (VMCS_ "guest_RIP");
  res ← vmexit_handler a g call_handler mid qemu rip v r;
  match res with
  | Entered launch v r => vm_entry launch ≫= fun _ => mret (v, r)
  | Returned _ _ => lift (Err Undef)
  end.
Definition vmcall (eax ebx : Z) (v : VCPU) : IO VCPU :=
  '(v, _) ← guest_exit VMX_VMEXIT_VMCALL 0 v (call_regs eax ebx); mret v.
(** [cpuid] in the guest: the value of [eax]. *)
Definition guest_cpuid_eax (eax : Z) (v : VCPU) : IO (VCPU * Z) :=
  '(v, r) ← guest_exit VMX_VMEXIT_CPUID 0 v (call_regs eax 0); mret (v, r_eax r).

(** With a handler for the exits of a test. *)
Definition with_handler (h : handler) (m : VCPU -> IO VCPU) (v : VCPU) : IO VCPU :=
  v ← m (with_override (Some h) v); mret (with_override None v).

(** The tests of [src/shv-guest.c]; [data] is the address of the structure on the stack of the guest. *)
Definition shv_guest_test_msr_ls (data : Z) (v : VCPU) : IO VCPU :=
  if opt_set SHV_USE_MSR_LOAD then with_handler HMsrLs (fun v => v ← vmcall 12 data v; vmcall 16 data v) v else mret v.

(** [movl (%ebx), %eax]: a load that violates the EPT is emulated by the handler. *)
Definition test_load (v : VCPU) : IO (VCPU * Z) := fun w =>
  match gm_load (w_tr w) (w_mem w) 0x12340000 with
  | Some x => Ok ((v, u32 x), w)
  | None => ('(v, r) ← guest_exit VMX_VMEXIT_EPT_VIOLATION 0x12340000 v (call_regs 0xdeadbeef 0x12340000); mret (v, r_eax r)) w
  end.
Definition byte_of (x i : Z) : Z := u8 (Z.shiftr x (8 * i)).
Definition shv_guest_test_ept (v : VCPU) : IO VCPU :=
  if opt_set SHV_USE_EPT then
    ASSERT_io (vcpu_ept_exit_count v =? 0) ≫= fun _ =>
    '(v, x) ← test_load (with_override (Some HEpt) v);
    (if vcpu_ept_num v =? 0 then ASSERT_io (x =? 0xfee1c0de)
     else
       ASSERT_io (byte_of x 0 =? vcpu_ept_num v) ≫= fun _ => ASSERT_io (byte_of x 1 =? vcpu_ept_num v) ≫= fun _ =>
       ASSERT_io (byte_of x 2 =? vcpu_ept_num v) ≫= fun _ => ASSERT_io (byte_of x 3 =? vcpu_ept_num v)) ≫= fun _ =>
    let expected_ept_count := if vcpu_ept_num v =? 0 then 1 else 0 in
    let v := with_override None v in
    ASSERT_io (vcpu_ept_exit_count v =? expected_ept_count) ≫= fun _ =>
    mret (with_ept_exit_count 0 v)
  else mret v.
Definition shv_guest_switch_ept (v : VCPU) : IO VCPU :=
  if opt_set SHV_USE_SWITCH_EPT then ASSERT_io (opt_set SHV_USE_EPT) ≫= fun _ => with_handler HSwitchEpt (vmcall 17 0) v else mret v.
Definition shv_guest_test_vmxoff (test_vmxoff : bool) (v : VCPU) : IO VCPU :=
  if opt_set SHV_USE_VMXOFF then with_handler HVmxoff (vmcall 22 (b2z test_vmxoff)) v else mret v.
Definition shv_guest_test_vpid (v : VCPU) : IO VCPU :=
  if opt_set SHV_USE_VPID then with_handler HVpid (vmcall 19 0) v else mret v.
Definition shv_guest_wait_int (v : VCPU) : IO VCPU := with_handler HWaitInt (vmcall 25 0) v.
(** [fuel] is for the polls of the serial port; the guest prints nothing. *)
Definition shv_guest_test_unrestricted_guest (fuel : nat) (v : VCPU) : IO unit :=
  if opt_set SHV_USE_UNRESTRICTED_GUEST then
    match a with
    | AMD64 => shv_disable_enable_paging fuel []
    | _ =>
        cr0 ← read_reg a RCR0;
        emit ECli ≫= fun _ =>
        write_reg a RCR0 (Z.land cr0 0x7fffffff) ≫= fun _ =>
        write_reg a RCR0 cr0 ≫= fun _ =>
        if negb (opt_set SHV_NO_EFLAGS_IF) then emit ESti else mret tt
    end
  else mret tt.
(** A byte of the guest's memory. *)
Definition guest_byte (p : Z) : IO Z := fun w =>
  match gm_load (w_tr w) (w_mem w) p with Some x => Ok (u8 x, w) | None => Err Undef end.
Definition shv_guest_test_large_page : IO unit :=
  if opt_set SHV_USE_LARGE_PAGE then
    ASSERT_io (opt_set SHV_USE_EPT) ≫= fun _ =>
    must_be (guest_byte (s_large_pages es)) 66 ≫= fun _ =>
    must_be (guest_byte (s_large_pages es + 0x200000)) 65
  else mret tt.
Definition shv_guest_test_user (v : VCPU) : IO VCPU :=
  if opt_set SHV_USER_MODE then ASSERT_io (negb (opt_set SHV_NO_EFLAGS_IF)) ≫= fun _ => with_handler HUser (vmcall 33 0) v else mret v.
Definition shv_guest_test_nested_user (v : VCPU) : IO VCPU :=
  if opt_set SHV_NESTED_USER_MODE then
    ASSERT_io (negb (opt_set SHV_NO_EFLAGS_IF)) ≫= fun _ =>
    with_handler HNestedUser (fun v => user_mode v 0x4c415000 ≫= fun _ => mret v) v
  else mret v.

(** ** The MSR bitmap test *)

(** The registers of [RDMSR] and [WRMSR] in the tests. *)
Definition rdmsr_regs (ecx : Z) : regs := mkRegs 0 MSR_TEST_NORMAL ecx 0 0 0 0 0 [].
Definition wrmsr_regs (ecx val : Z) : regs := mkRegs (u32 val) MSR_TEST_NORMAL ecx (u32 (Z.shiftr val 32)) 0 0 0 0 [].
(** A fault is recovered from through the exception table. *)
Definition guest_rdmsr (ecx : Z) (v : VCPU) : IO (VCPU * Z) := fun w =>
  match gm_rdmsr (w_tr w) (w_mem w) ecx with
  | Runs x => Ok ((v, MSR_TEST_NORMAL), mkW (w_mem w) (ERdmsr ecx (u64 x) :: w_tr w))
  | Faults => Ok ((v, MSR_TEST_EXCEPT), mkW (w_mem w) (ERdmsrFault ecx :: w_tr w))
  | Exits => ('(v, r) ← guest_exit VMX_VMEXIT_RDMSR 0 v (rdmsr_regs ecx); mret (v, r_ebx r)) w
  end.
Definition guest_wrmsr (ecx val : Z) (v : VCPU) : IO (VCPU * Z) := fun w =>
  match gm_wrmsr (w_tr w) (w_mem w) ecx (u64 val) with
  | Runs _ => Ok ((v, MSR_TEST_NORMAL), mkW (w_mem w) (EWrmsr ecx (u64 val) true :: w_tr w))
  | Faults => Ok ((v, MSR_TEST_EXCEPT), mkW (w_mem w) (EWrmsr ecx (u64 val) false :: w_tr w))
  | Exits => ('(v, r) ← guest_exit VMX_VMEXIT_WRMSR 0 v (wrmsr_regs ecx val); mret (v, r_ebx r)) w
  end.
Definition _test_rdmsr (ecx expected_ebx : Z) (v : VCPU) : IO VCPU :=
  '(v, ebx) ← guest_rdmsr ecx v; ASSERT_io (ebx =? expected_ebx) ≫= fun _ => mret v.
Definition _test_wrmsr (ecx expected_ebx val : Z) (v : VCPU) : IO VCPU :=
  '(v, ebx) ← guest_wrmsr ecx val v; ASSERT_io (ebx =? expected_ebx) ≫= fun _ => mret v.
(** [rdmsr64] in the guest where the value counts. *)
Definition guest_msr (ecx : Z) : IO Z := fun w =>
  match gm_rdmsr (w_tr w) (w_mem w) ecx with
  | Runs x => Ok (u64 x, mkW (w_mem w) (ERdmsr ecx (u64 x) :: w_tr w))
  | _ => Err Undef
  end.

(** The steps of the test, as the source lists them. *)
Inductive bitmap_step :=
| Call (eax ebx : Z) | TestR (ecx expected : Z) | TestW (ecx expected val : Z) | Value (ecx expected : Z) | Cli | StiIf.
Definition run_step (x : bitmap_step) (v : VCPU) : IO VCPU :=
  match x with
  | Call eax ebx => vmcall eax ebx v
  | TestR ecx e => _test_rdmsr ecx e v
  | TestW ecx e val => _test_wrmsr ecx e val v
  | Value ecx e => must_be (guest_msr ecx) e ≫= fun _ => mret v
  | Cli => emit ECli ≫= fun _ => mret v
  | StiIf => (if negb (opt_set SHV_NO_EFLAGS_IF) then emit ESti else mret tt) ≫= fun _ => mret v
  end.
Fixpoint run_steps (l : list bitmap_step) (v : VCPU) : IO VCPU :=
  match l with [] => mret v | x :: l => v ← run_step x v; run_steps l v end.
Definition msr_bitmap_steps : list bitmap_step :=
  [ Call 34 0;
    TestR 0xc0000082 MSR_TEST_NORMAL; TestW 0xc0000082 MSR_TEST_NORMAL 0xffffffffffffffff;
    Call 38 (0x2000 + 0x82);
    TestR 0xc0000082 MSR_TEST_VMEXIT; TestW 0xc0000082 MSR_TEST_NORMAL 0xffffffffffffffff;
    Call 39 (0x2000 + 0x82); Call 38 (0x6000 + 0x82);
    TestR 0xc0000082 MSR_TEST_NORMAL; TestW 0xc0000082 MSR_TEST_VMEXIT 0xffffffffffffffff;
    TestR 0x3b MSR_TEST_NORMAL; TestW 0x3b MSR_TEST_NORMAL 0x1234567890abcdef;
    Call 39 (0x6000 + 0x82); Call 38 0x3b;
    TestR 0x3b MSR_TEST_VMEXIT; TestW 0x3b MSR_TEST_NORMAL 0xfedcba0987654321;
    Call 39 0x3b; Call 38 (0x4000 + 0x3b);
    TestR 0x3b MSR_TEST_NORMAL; TestW 0x3b MSR_TEST_VMEXIT 0xdeadbeefbeefdead;
    Call 39 (0x4000 + 0x3b); Call 38 0x1fff;
    TestR 0x1fff MSR_TEST_VMEXIT; TestR 0xc0001fff MSR_TEST_EXCEPT;
    TestW 0x1fff MSR_TEST_EXCEPT 0x1234567890abcdef; TestW 0xc0001fff MSR_TEST_EXCEPT 0x1234567890abcdef;
    Call 39 0x1fff; Call 38 (0x2000 + 0x1fff);
    TestR 0x1fff MSR_TEST_EXCEPT; TestR 0xc0001fff MSR_TEST_VMEXIT;
    TestW 0x1fff MSR_TEST_EXCEPT 0x1234567890abcdef; TestW 0xc0001fff MSR_TEST_EXCEPT 0x1234567890abcdef;
    Call 39 (0x2000 + 0x1fff); Call 38 (0x4000 + 0x1fff);
    TestR 0x1fff MSR_TEST_EXCEPT; TestR 0xc0001fff MSR_TEST_EXCEPT;
    TestW 0x1fff MSR_TEST_VMEXIT 0x1234567890abcdef; TestW 0xc0001fff MSR_TEST_EXCEPT 0x1234567890abcdef;
    Call 39 (0x4000 + 0x1fff); Call 38 (0x6000 + 0x1fff);
    TestR 0x1fff MSR_TEST_EXCEPT; TestR 0xc0001fff MSR_TEST_EXCEPT;
    TestW 0x1fff MSR_TEST_EXCEPT 0x1234567890abcdef; TestW 0xc0001fff MSR_TEST_VMEXIT 0x1234567890abcdef;
    Call 39 (0x6000 + 0x1fff);
    Cli; Call 41 0;
    TestR IA32_MSR_FS_BASE MSR_TEST_NORMAL;
    Value IA32_MSR_FS_BASE 0x680effff; Value IA32_MSR_GS_BASE 0x6810ffff;
    TestW IA32_MSR_FS_BASE MSR_TEST_NORMAL 0xffff680e; TestW IA32_MSR_GS_BASE MSR_TEST_NORMAL 0xffff6810;
    Call 42 0; StiIf;
    Call 37 0;
    TestR 0x1fff MSR_TEST_VMEXIT; TestR 0xc0001fff MSR_TEST_VMEXIT;
    TestW 0x1fff MSR_TEST_VMEXIT 0x1234567890abcdef; TestW 0xc0001fff MSR_TEST_VMEXIT 0x1234567890abcdef ].
Definition shv_guest_msr_bitmap (v : VCPU) : IO VCPU :=
  if opt_set SHV_USE_MSRBITMAP then with_handler HMsrBitmap (run_steps msr_bitmap_steps) v else mret v.

(** ** The main loop *)

(** Where the lock and the counter of the barrier are, and how often it looks. *)
Context (barrier_lock barrier_arrived data_at : Z) (fuel : nat).

(** The digits in the window of the guest; [n] and [i] are the columns. *)
Fixpoint draw_columns (vc : console_vc_t) (id : Z) (n : nat) (i : Z) (m : mem) : res mem :=
  match n with
  | O => Ok m
  | S n =>
      c ← console_get_char vc i 0 m; _ ← ASSERT (c =? 32);
      m ← console_put_char vc i 0 (48 + id) m;
      c ← console_get_char vc i 1 m; _ ← ASSERT (c =? 32);
      m ← console_put_char vc i 1 (48 + id) m;
      draw_columns vc id n (i + 1) m
  end.
Definition draw (idx id : Z) (guest : bool) (m : mem) : res mem :=
  vc ← console_get_vc idx guest;
  m ← console_clear vc m;
  draw_columns vc id (Z.to_nat (width vc)) 0 m.

(** The loop that waits; [others k] is what the other processors do to memory before the look [k]. *)
Context (others : nat -> mem -> mem).
Fixpoint wait_arrived (fuel k : nat) : IO unit :=
  match fuel with
  | O => lift (Err NoFuel)
  | S fuel =>
      on_mem (fun m => Ok (others k m)) ≫= fun _ =>
      n ← load 4 barrier_arrived;
      if n <? Z.of_nat (length mid) then wait_arrived fuel (S k) else mret tt
  end.
Definition shv_barrier (v : VCPU) : IO unit :=
  print1 a (lit "CPU(0x%02x): enter SHV barrier") [VNum 32 (vcpu_id v)] ≫= fun _ =>
  spin_lock barrier_lock ≫= fun _ =>
  n ← load 4 barrier_arrived; store 4 barrier_arrived (n + 1) ≫= fun _ =>
  spin_unlock barrier_lock ≫= fun _ =>
  wait_arrived fuel 0 ≫= fun _ =>
  print1 a (lit "CPU(0x%02x): leave SHV barrier") [VNum 32 (vcpu_id v)].

(** Which of the tests of MSRs and user mode run in a round. *)
Definition msr_and_user (in_xmhf : bool) (iter : Z) (v : VCPU) : IO VCPU :=
  if in_xmhf && opt_set SHV_USE_MSR_LOAD && opt_set SHV_USER_MODE then
    if iter <? 3 then shv_guest_test_msr_ls data_at v
    else if iter =? 3 then shv_barrier v ≫= fun _ => mret v
    else v ← shv_guest_test_user v; shv_guest_test_nested_user v
  else
    v ← shv_guest_test_msr_ls data_at v;
    v ← shv_guest_test_user v;
    shv_guest_test_nested_user v.
(** The body of the loop, for the new value of [iter]. *)
Definition guest_round (in_xmhf : bool) (iter : Z) (v : VCPU) : IO VCPU :=
  (if in_xmhf then print1 a (lit "CPU(0x%02x): SHV in XMHF test iter %lld") [VNum 32 (vcpu_id v); VNum 64 iter]
   else print1 a (lit "CPU(0x%02x): SHV test iter %lld") [VNum 32 (vcpu_id v); VNum 64 iter]) ≫= fun _ =>
  (if negb (opt_set (Z.lor SHV_NO_EFLAGS_IF SHV_NO_INTERRUPT)) then emit EHlt else mret tt) ≫= fun _ =>
  v ← msr_and_user in_xmhf iter v;
  v ← shv_guest_test_ept v;
  v ← shv_guest_switch_ept v;
  v ← shv_guest_test_vpid v;
  v ← (if iter mod 5 =? 0 then shv_guest_test_vmxoff (iter mod 3 =? 0) v else mret v);
  shv_guest_test_unrestricted_guest fuel v ≫= fun _ =>
  shv_guest_test_large_page ≫= fun _ =>
  v ← shv_guest_msr_bitmap v;
  shv_guest_wait_int v.
(** [n] rounds. *)
Fixpoint guest_rounds (n : nat) (in_xmhf : bool) (iter : Z) (v : VCPU) : IO (VCPU * Z) :=
  match n with
  | O => mret (v, iter)
  | S n =>
      let iter := u64 (iter + 1) in
      ASSERT_io (0 <? iter) ≫= fun _ =>
      v ← guest_round in_xmhf iter v;
      guest_rounds n in_xmhf iter v
  end.
(** Everything before the loop, and [n] rounds of it; the program of Nmi does not return. *)
Definition shv_guest_main (n : nat) (v : VCPU) : IO (VCPU * Z) :=
  self ← get_vcpu a g mid;
  ASSERT_io (vcpu_addr v =? self) ≫= fun _ =>
  (if opt (g_nmi_opt g) NMI_ENABLE then lift (Err Halt) else mret tt) ≫= fun _ =>
  '(v, x) ← guest_cpuid_eax 0x46484d58 v;
  (if negb (opt_set SHV_NO_VGA_ART) then on_mem (draw (vcpu_idx v) (vcpu_id v) true) else mret tt) ≫= fun _ =>
  (if negb (opt_set SHV_NO_EFLAGS_IF) then emit ESti else mret tt) ≫= fun _ =>
  guest_rounds n (x =? 0x46484d58) 0 v.
End guest.
