(* ===== verification/GuestMachine.v ===== *)
(** A processor for the tests of [src/shv-guest.c], written after volume 3 of the Intel manual: what VM exits and VM entries
    save and load, the MSR bitmap, the EPT, and the answers of [INVVPID].  The guest's own paging maps every address to itself. *)
From Stdlib Require Import String.
From S2P Require Import Prelude.
From S2P Require Import HptConsts.
From S2P Require Import Hpt.
From S2P Require Import HptLemmas.
From S2P Require Import Mem.
From S2P Require Import Walk.
From S2P Require Import Io.
From S2P Require Import VmxCtls.
From S2P Require Import VmcsFields.
From S2P Require Import Vmcs.
From S2P Require Import VmcsProps.
From S2P Require Import Vcpu.
From S2P Require Import Guest.

(** The state: whether the guest runs, the MSRs, and the current VMCS by encoding. *)
Record pst := mkP { p_guest : bool; p_msr : Z -> Z; p_vm : Z -> Z }.
Definition upd (f : Z -> Z) (k x : Z) : Z -> Z := fun i => if i =? k then x else f i.
Definition set_msr (i x : Z) (p : pst) : pst := mkP (p_guest p) (upd (p_msr p) i x) (p_vm p).
Definition set_vm (enc x : Z) (p : pst) : pst := mkP (p_guest p) (p_msr p) (upd (p_vm p) enc x).

(** What is left open: the state at the start; which MSRs exist and which can be written; where the guest is and how long the
    instruction is at a VM exit; bits of the exit qualification; devices, [CPUID] and the system registers. *)
Record guest_cpu := mkQ {
  q_start : pst;
  q_readable : Z -> bool;
  q_writable : Z -> bool;
  q_ip : list ioev -> Z;
  q_ilen : list ioev -> Z;
  q_qual : list ioev -> Z;
  q_in : list ioev -> Z -> Z;
  q_read : list ioev -> Z -> Z;
  q_cpuid : list ioev -> Z -> Z -> Z * Z * Z * Z;
  q_reg : list ioev -> sysreg -> Z }.

Section machine.
Context (a : subarch) (q : guest_cpu).

(** A field: a 64-bit field has an encoding for its high half where registers have 32 bits. *)
Definition vm (p : pst) (enc : Z) : Z := wrap (enc_bits a enc) (p_vm p enc).
Definition vm64 (p : pst) (enc : Z) : Z := if is64 a then vm p enc else vm p enc + Z.shiftl (vm p (enc + 1)) 32.
Definition set_vm64 (enc x : Z) (p : pst) : pst :=
  if is64 a then set_vm enc x p else set_vm (enc + 1) (Z.shiftr x 32) (set_vm enc (wrap 32 x) p).

(** Information about a VM exit; for an EPT violation, a read of an address that is not mapped. *)
Definition exit_info (tr : list ioev) (reason addr : Z) (p : pst) : pst :=
  let p := set_vm 0x681E (q_ip q tr) (set_vm 0x440C (q_ilen q tr) (set_vm 0x4402 reason p)) in
  if reason =? VMX_VMEXIT_EPT_VIOLATION then
    set_vm64 0x2400 addr (set_vm 0x640A addr (set_vm 0x6400 (Z.lor 0x181 (Z.land (q_qual q tr) 0xe00)) p))
  else p.
(** A VM exit saves the bases of FS and GS and loads those of the host; a VM entry loads those of the guest. *)
Definition exited (tr : list ioev) (reason addr : Z) (p : pst) : pst :=
  let p' := set_vm 0x680E (p_msr p IA32_MSR_FS_BASE) (set_vm 0x6810 (p_msr p IA32_MSR_GS_BASE) p) in
  let p' := exit_info tr reason addr p' in
  mkP false (upd (upd (p_msr p) IA32_MSR_FS_BASE (vm p 0x6C06)) IA32_MSR_GS_BASE (vm p 0x6C08)) (p_vm p').
Definition entered (p : pst) : pst :=
  mkP true (upd (upd (p_msr p) IA32_MSR_FS_BASE (vm p 0x680E)) IA32_MSR_GS_BASE (vm p 0x6810)) (p_vm p).

Definition p_step (tr : list ioev) (e : ioev) (p : pst) : pst :=
  match e with
  | EWrmsr i x true => set_msr i x p
  | EVmwrite enc x true => set_vm enc (wrap (enc_bits a enc) x) p
  | EExit reason addr => exited tr reason addr p
  | EVmx Vmresume _ true | EVmx Vmlaunch _ true => entered p
  | _ => p
  end.
Fixpoint pstate (tr : list ioev) : pst :=
  match tr with [] => q_start q | e :: tr => p_step tr e (pstate tr) end.

(** The entries of an MSR area: pairs of an index and a value, 16 bytes each. *)
Fixpoint msr_area (n : nat) (p : Z) (m : mem) : list (Z * Z) :=
  match n with O => [] | S n => (ld 4 m p, ld 8 m (p + 8)) :: msr_area n (p + 16) m end.
Fixpoint store_area (n : nat) (p : Z) (msr : Z -> Z) (m : mem) : mem :=
  match n with O => m | S n => store_area n (p + 16) msr (st 8 m (p + 8) (msr (ld 4 m p))) end.
Definition exit_areas (p : pst) (m : mem) : mem * list (Z * Z) :=
  let m := store_area (Z.to_nat (vm p 0x400E)) (vm64 p 0x2006) (p_msr p) m in
  (m, msr_area (Z.to_nat (vm p 0x4010)) (vm64 p 0x2008) m).

(** The bits of the MSR bitmap: 1024 bytes each for reads of low and high MSRs and for writes of low and high MSRs. *)
Definition bitmap_bit (write : bool) (ecx : Z) : option Z :=
  let base := if write then 0x4000 else 0 in
  if (0 <=? ecx) && (ecx <=? 0x1fff) then Some (base + ecx)
  else if (0xc0000000 <=? ecx) && (ecx <=? 0xc0001fff) then Some (base + 0x2000 + (ecx - 0xc0000000))
  else None.
Definition bit_at (m : mem) (addr n : Z) : bool := Z.testbit (rd8 m (addr + n / 8)) (n mod 8).
Definition msr_exits (write : bool) (p : pst) (m : mem) (ecx : Z) : bool :=
  if Z.testbit (vm p 0x4002) 28 then
    match bitmap_bit write ecx with Some n => bit_at m (vm64 p 0x2004) n | None => true end
  else true.

(** Translation by the EPT, when it is in use, with read access. *)
Definition ept_on (p : pst) : bool := Z.testbit (vm p 0x4002) 31 && Z.testbit (vm p 0x401E) 1.
Definition eptp_root (p : pst) : Z := vm64 p 0x201A - vm64 p 0x201A mod 4096.
Definition translate (p : pst) (m : mem) (gpa : Z) : option Z :=
  if ept_on p then
    match mapping HPT_TYPE_EPT (eptp_root p) gpa m with
    | Some (lvl, e) =>
        if Z.testbit e 0 then Some (pme_addr HPT_TYPE_EPT lvl e + gpa mod 2 ^ (9 * lvl + 3)) else None
    | None => None
    end
  else Some gpa.

Definition canonical (x : Z) : bool := (x <? 2 ^ 47) || (2 ^ 64 - 2 ^ 47 <=? x).
Definition vmx_succeeds (op : vmxop) (args : list Z) : bool :=
  match op, args with
  | Invvpid, [t; vpid; addr] =>
      if t =? 0 then negb (vpid =? 0) && canonical addr
      else if (t =? 1) || (t =? 3) then negb (vpid =? 0) else t =? 2
  | _, _ => true
  end.

Definition q_device : Device := {|
  dev_in := q_in q; dev_read := q_read q; dev_rdmsr tr i := p_msr (pstate tr) i |}.
Definition q_cpu : Cpu := {|
  cpu_vmread tr enc := Some (vm (pstate tr) enc);
  cpu_vmwrite _ enc _ := negb (Z.land (Z.shiftr enc 10) 3 =? 1);
  cpu_vmx _ := vmx_succeeds;
  cpu_vmptr _ := 0;
  cpu_cpuid := q_cpuid q;
  cpu_rdmsr_faults _ i := negb (q_readable q i);
  cpu_wrmsr_faults _ i _ := negb (q_writable q i);
  cpu_reg := q_reg q |}.
Definition q_guest : Guest := {|
  gm_load tr m p := ld 4 m <$> translate (pstate tr) m p;
  gm_rdmsr tr m ecx :=
    if msr_exits false (pstate tr) m ecx then Exits
    else if q_readable q ecx then Runs (p_msr (pstate tr) ecx) else Faults;
  gm_wrmsr tr m ecx _ :=
    if msr_exits true (pstate tr) m ecx then Exits else if q_writable q ecx then Runs 0 else Faults;
  gm_exit tr m := exit_areas (pstate tr) m;
  gm_entry tr m := msr_area (Z.to_nat (vm (pstate tr) 0x4014)) (vm64 (pstate tr) 0x200A) m;
  gm_clear _ _ m := m;
  gm_vmwrite_ud _ := false |}.
End machine.
