(* ===== verification/GuestRules.v ===== *)
(** What the steps of the tests do on the processor of GuestMachine: accesses to the VMCS and to MSRs, VM exits and VM entries,
    as rules for total correctness. *)
From Stdlib Require Import String.
From S2P Require Import Prelude.
From S2P Require Import HptLemmas.
From S2P Require Import Mem.
From S2P Require Import Ept.
From S2P Require Import Cmdline.
From S2P Require Import Io.
From S2P Require Import Smp.
From S2P Require Import Desc.
From S2P Require Import VmxCtls.
From S2P Require Import VmcsFields.
From S2P Require Import Vmcs.
From S2P Require Import VmcsProps.
From S2P Require Import Vcpu.
From S2P Require Import Vmx.
From S2P Require Import User.
From S2P Require Import Guest.
From S2P Require Import GuestMachine.
Local Open Scope string_scope.
Local Open Scope Z_scope.

(** ** Fields and MSRs of a state *)

Section fields.
Context {a : subarch} {q : guest_cpu}.

Lemma vm_set_eq enc x p : vm a (set_vm enc x p) enc = wrap (enc_bits a enc) x.
Proof. unfold vm, set_vm, upd. cbn. by rewrite Z.eqb_refl. Qed.
Lemma vm_set_ne enc enc' x p : (enc' =? enc) = false -> vm a (set_vm enc x p) enc' = vm a p enc'.
Proof. unfold vm, set_vm, upd. cbn. by intros ->. Qed.
Lemma vm_set_msr i x p enc : vm a (set_msr i x p) enc = vm a p enc.
Proof. done. Qed.
Lemma msr_set_vm enc x p i : p_msr (set_vm enc x p) i = p_msr p i.
Proof. done. Qed.
Lemma msr_set_eq i x p : p_msr (set_msr i x p) i = x.
Proof. unfold set_msr, upd. cbn. by rewrite Z.eqb_refl. Qed.
Lemma msr_set_ne i j x p : (j =? i) = false -> p_msr (set_msr i x p) j = p_msr p j.
Proof. unfold set_msr, upd. cbn. by intros ->. Qed.
Lemma vm_range p enc : is_u (enc_bits a enc) (vm a p enc).
Proof. apply is_u_wrap, enc_bits_le. Qed.

Lemma vm64_set_ne enc enc' x p :
  (enc' =? enc) = false -> (enc' + 1 =? enc) = false -> vm64 a (set_vm enc x p) enc' = vm64 a p enc'.
Proof. intros H H'. unfold vm64. by rewrite !vm_set_ne. Qed.
Lemma vm64_set_msr i x p enc : vm64 a (set_msr i x p) enc = vm64 a p enc.
Proof. done. Qed.
Lemma vm_set64_ne enc enc' x p :
  (enc' =? enc) = false -> (enc' =? enc + 1) = false -> vm a (set_vm64 a enc x p) enc' = vm a p enc'.
Proof. intros H H'. unfold set_vm64. destruct (is64 a); by rewrite !vm_set_ne. Qed.
Lemma vm64_set64_ne enc enc' x p :
  (enc' =? enc) = false -> (enc' =? enc + 1) = false -> (enc' + 1 =? enc) = false -> (enc' + 1 =? enc + 1) = false ->
  vm64 a (set_vm64 a enc x p) enc' = vm64 a p enc'.
Proof. intros. unfold vm64. by rewrite !vm_set64_ne. Qed.
Lemma msr_set_vm64 enc x p i : p_msr (set_vm64 a enc x p) i = p_msr p i.
Proof. unfold set_vm64. by destruct (is64 a). Qed.
Lemma guest_set_vm64 enc x p : p_guest (set_vm64 a enc x p) = p_guest p.
Proof. unfold set_vm64. by destruct (is64 a). Qed.

(** A 64-bit field and its halves. *)
Definition class64 (enc : Z) : bool := (Z.shiftr enc 12 =? 2) && (Z.land enc 1 =? 0) && (0 <=? enc).
Lemma class64_bits enc : class64 enc = true ->
  enc_bits a enc = ptr_bits a /\ (is64 a = false -> enc_bits a (enc + 1) = 32) /\ (enc + 1 =? enc) = false.
Proof.
  unfold class64. rewrite !andb_true_iff. intros [[E%Z.eqb_eq O%Z.eqb_eq] N%Z.leb_le]. split; [|split].
  - unfold enc_bits. rewrite E, O. done.
  - intros _. unfold enc_bits. rewrite even_succ_class, E by done. cbn. by rewrite (proj1 (even_succ enc O)).
  - apply Z.eqb_neq. lia.
Qed.
Lemma vm64_set64_eq enc x p : class64 enc = true -> is_u 64 x -> vm64 a (set_vm64 a enc x p) enc = x.
Proof.
  intros (Eb & Eh & En)%class64_bits Hx. unfold vm64, set_vm64. pose proof (ptr_bits_is64 a) as Ep. rewrite Ep in Eb.
  destruct (is64 a).
  - rewrite vm_set_eq, Eb. by apply wrap_small.
  - specialize (Eh eq_refl). rewrite vm_set_ne by (rewrite Z.eqb_sym; exact En).
    rewrite !vm_set_eq, Eb, Eh, wrap_wrap by lia. by apply halves.
Qed.
Lemma vm64_range p enc : class64 enc = true -> is_u 64 (vm64 a p enc).
Proof.
  intros (Eb & Eh & En)%class64_bits. unfold vm64. pose proof (vm_range p enc) as H. pose proof (vm_range p (enc + 1)) as H'.
  pose proof (ptr_bits_is64 a) as Ep. rewrite Eb, Ep in H. destruct (is64 a); [done|]. rewrite Eh in H' by done.
  unfold is_u in *. rewrite Z.shiftl_mul_pow2 by lia. lia.
Qed.

(** What a VM exit writes in the VMCS. *)
Definition exit_field (enc : Z) : bool :=
  existsb (Z.eqb enc) [0x680E; 0x6810; 0x681E; 0x440C; 0x4402; 0x6400; 0x640A; 0x2400; 0x2401].
Lemma vm_exited_ne tr reason addr p enc : exit_field enc = false -> vm a (exited a q tr reason addr p) enc = vm a p enc.
Proof.
  unfold exit_field. cbn. rewrite !orb_false_iff. intros (? & ? & ? & ? & ? & ? & ? & ? & ? & _).
  change (vm a (exit_info a q tr reason addr
    (set_vm 0x680E (p_msr p IA32_MSR_FS_BASE) (set_vm 0x6810 (p_msr p IA32_MSR_GS_BASE) p))) enc = vm a p enc).
  unfold exit_info. destruct (reason =? VMX_VMEXIT_EPT_VIOLATION); [rewrite vm_set64_ne by done|]; by rewrite !vm_set_ne.
Qed.
Lemma vm64_exited_ne tr reason addr p enc :
  exit_field enc = false -> exit_field (enc + 1) = false -> vm64 a (exited a q tr reason addr p) enc = vm64 a p enc.
Proof. intros. unfold vm64. by rewrite !vm_exited_ne. Qed.
Lemma msr_exited_ne tr reason addr p i :
  (i =? IA32_MSR_FS_BASE) = false -> (i =? IA32_MSR_GS_BASE) = false -> p_msr (exited a q tr reason addr p) i = p_msr p i.
Proof. unfold exited, upd. cbn. by intros -> ->. Qed.
Lemma msr_exited_fs tr reason addr p : p_msr (exited a q tr reason addr p) IA32_MSR_FS_BASE = vm a p 0x6C06.
Proof. done. Qed.
Lemma msr_exited_gs tr reason addr p : p_msr (exited a q tr reason addr p) IA32_MSR_GS_BASE = vm a p 0x6C08.
Proof. done. Qed.
Ltac exit_fields :=
  repeat first [rewrite vm_set_eq | rewrite vm_set_ne by reflexivity | rewrite vm_set64_ne by reflexivity].
Lemma vm_exited_info tr reason addr p :
  let p' := exited a q tr reason addr p in
  vm a p' 0x4402 = u32 reason /\ vm a p' 0x440C = u32 (q_ilen q tr) /\
  vm a p' 0x680E = wrap (ptr_bits a) (p_msr p IA32_MSR_FS_BASE) /\ vm a p' 0x6810 = wrap (ptr_bits a) (p_msr p IA32_MSR_GS_BASE).
Proof.
  cbv zeta. set (p0 := set_vm 0x680E (p_msr p IA32_MSR_FS_BASE) (set_vm 0x6810 (p_msr p IA32_MSR_GS_BASE) p)).
  change (vm a (exited a q tr reason addr p)) with (vm a (exit_info a q tr reason addr p0)). unfold exit_info.
  destruct (reason =? VMX_VMEXIT_EPT_VIOLATION); exit_fields; done.
Qed.
Lemma vm_exited_ept tr addr p : is_u (ptr_bits a) addr ->
  let p' := exited a q tr VMX_VMEXIT_EPT_VIOLATION addr p in
  vm a p' 0x6400 = wrap (ptr_bits a) (Z.lor 0x181 (Z.land (q_qual q tr) 0xe00)) /\ vm a p' 0x640A = addr /\ vm64 a p' 0x2400 = addr.
Proof.
  cbv zeta. set (p0 := set_vm 0x680E (p_msr p IA32_MSR_FS_BASE) (set_vm 0x6810 (p_msr p IA32_MSR_GS_BASE) p)). intros Ha.
  change (vm a (exited a q tr VMX_VMEXIT_EPT_VIOLATION addr p)) with (vm a (exit_info a q tr VMX_VMEXIT_EPT_VIOLATION addr p0)).
  change (vm64 a (exited a q tr VMX_VMEXIT_EPT_VIOLATION addr p) 0x2400)
    with (vm64 a (exit_info a q tr VMX_VMEXIT_EPT_VIOLATION addr p0) 0x2400).
  unfold exit_info. cbn [Z.eqb VMX_VMEXIT_EPT_VIOLATION Pos.eqb]. rewrite vm64_set64_eq.
  - exit_fields. split; [done|]. split; [|done]. by apply wrap_small.
  - done.
  - apply (is_u_le (ptr_bits a)); [pose proof (ptr_bits_is64 a); destruct (is64 a); lia|done].
Qed.

Lemma vm_entered p enc : vm a (entered a p) enc = vm a p enc.
Proof. done. Qed.
Lemma vm64_entered p enc : vm64 a (entered a p) enc = vm64 a p enc.
Proof. done. Qed.
Lemma msr_entered_ne p i : (i =? IA32_MSR_FS_BASE) = false -> (i =? IA32_MSR_GS_BASE) = false -> p_msr (entered a p) i = p_msr p i.
Proof. unfold entered, upd. cbn. by intros -> ->. Qed.
Lemma msr_entered_fs p : p_msr (entered a p) IA32_MSR_FS_BASE = vm a p 0x680E.
Proof. done. Qed.
Lemma msr_entered_gs p : p_msr (entered a p) IA32_MSR_GS_BASE = vm a p 0x6810.
Proof. done. Qed.
End fields.

Create Rewrite HintDb guest.
#[export] Hint Rewrite @vm_set_eq @vm_set_msr @msr_set_vm @msr_set_eq @vm64_set_msr @msr_set_vm64 @guest_set_vm64 @msr_exited_fs @msr_exited_gs
  @vm_entered @vm64_entered @msr_entered_fs @msr_entered_gs : guest.
#[export] Hint Rewrite @vm_set_ne @msr_set_ne @vm64_set_ne @vm_set64_ne @vm64_set64_ne @vm_exited_ne @vm64_exited_ne
  @msr_exited_ne @msr_entered_ne using reflexivity : guest.
(** Computes a field or an MSR of a state that is written down as a series of changes. *)
Ltac field_simp := autorewrite with guest.
Tactic Notation "field_simp" "in" hyp(H) := autorewrite with guest in H.

(** ** Rules *)

Section rules.
Context {a : subarch} {q : guest_cpu}.
#[local] Hint Extern 0 Device => exact (q_device a q) : typeclass_instances.
#[local] Hint Extern 0 Cpu => exact (q_cpu a q) : typeclass_instances.
#[local] Hint Extern 0 Guest => exact (q_guest a q) : typeclass_instances.

Definition at_ (w : world) (p : pst) (m : mem) : Prop := pstate a q (w_tr w) = p /\ w_mem w = m.

Lemma at_here w : at_ w (pstate a q (w_tr w)) (w_mem w).
Proof. done. Qed.
Lemma at_event w p m e : at_ w p m -> at_ (mkW (w_mem w) (e :: w_tr w)) (p_step a q (w_tr w) e p) m.
Proof. by intros [<- <-]. Qed.

Lemma at_event' w p m e : at_ w p m -> at_ (mkW m (e :: w_tr w)) (p_step a q (w_tr w) e p) m.
Proof. by intros [<- <-]. Qed.

Lemma wp_emit e w p m (Q : unit -> world -> Prop) : at_ w p m ->
  (forall w', at_ w' (p_step a q (w_tr w) e p) m -> Q tt w') -> wp (emit e) Q w.
Proof. intros H HQ. apply HQ, (at_event w p m e H). Qed.

(** Reads of the VMCS. *)
Lemma wp_vmread enc w p m (Q : option Z -> world -> Prop) : at_ w p m ->
  (forall w', at_ w' p m -> Q (Some (vm a p enc)) w') -> wp (__vmx_vmread a enc) Q w.
Proof.
  intros H HQ. unfold __vmx_vmread, wp. cbn [cpu_vmread q_cpu fmap option_fmap option_map]. rewrite (proj1 H).
  rewrite wrap_small by (eapply is_u_le; [apply enc_bits_le|apply vm_range]). apply HQ.
  apply (at_event w p m (EVmread enc (Some (vm a p enc))) H).
Qed.
Lemma wp_read_safe class cast enc w p m (Q : Z -> world -> Prop) : at_ w p m ->
  Z.shiftr enc 12 = class -> cast (vm a p enc) = vm a p enc -> (forall w', at_ w' p m -> Q (vm a p enc) w') ->
  wp (never_fails (read_safe a class cast) enc) Q w.
Proof.
  intros H Hc Hr HQ. unfold never_fails, read_safe. apply wp_bind, wp_bind, wp_assert; [by apply Z.eqb_eq|].
  apply wp_bind. eapply wp_vmread; [exact H|]. intros w' H'. apply wp_bind, wp_assert; [by apply Z.eqb_eq|].
  apply wp_ret, wp_ret. by apply HQ.
Qed.
Lemma wp_r16 enc w p m (Q : Z -> world -> Prop) : at_ w p m ->
  Z.shiftr enc 12 = 0 -> (forall w', at_ w' p m -> Q (vm a p enc) w') -> wp (__vmx_vmread16 a enc) Q w.
Proof.
  intros H Hc HQ. eapply (wp_read_safe 0 u16); [exact H|exact Hc| |exact HQ].
  pose proof (vm_range (a := a) p enc) as R. unfold enc_bits in R. rewrite Hc in R. by apply wrap_small.
Qed.
Lemma wp_r32 enc w p m (Q : Z -> world -> Prop) : at_ w p m ->
  Z.shiftr enc 12 = 4 -> (forall w', at_ w' p m -> Q (vm a p enc) w') -> wp (__vmx_vmread32 a enc) Q w.
Proof.
  intros H Hc HQ. eapply (wp_read_safe 4 u32); [exact H|exact Hc| |exact HQ].
  pose proof (vm_range (a := a) p enc) as R. unfold enc_bits in R. rewrite Hc in R. by apply wrap_small.
Qed.
Lemma wp_rNW enc w p m (Q : Z -> world -> Prop) : at_ w p m ->
  Z.shiftr enc 12 = 6 -> (forall w', at_ w' p m -> Q (vm a p enc) w') -> wp (__vmx_vmreadNW a enc) Q w.
Proof.
  intros H Hc HQ. eapply (wp_read_safe 6 (wrap (ptr_bits a))); [exact H|exact Hc| |exact HQ].
  pose proof (vm_range (a := a) p enc) as R. unfold enc_bits in R. rewrite Hc in R. by apply wrap_small.
Qed.
Lemma wp_r64 enc w p m (Q : Z -> world -> Prop) : at_ w p m ->
  class64 enc = true -> (forall w', at_ w' p m -> Q (vm64 a p enc) w') -> wp (__vmx_vmread64 a enc) Q w.
Proof.
  intros H Hc HQ. pose proof Hc as Hc'. unfold class64 in Hc'. rewrite !andb_true_iff in Hc'. destruct Hc' as [[E O] _].
  unfold __vmx_vmread64, never_fails. rewrite vmread64_cases. unfold vm64 in HQ. destruct (is64 a).
  - apply wp_bind, wp_bind, wp_assert; [exact E|]. eapply wp_vmread; [exact H|]. intros w' H'. apply wp_ret. by apply HQ.
  - apply wp_bind, wp_bind, wp_assert; [exact E|]. apply wp_bind, wp_assert; [exact O|].
    apply wp_bind. eapply wp_vmread; [exact H|]. intros w1 H1.
    apply wp_bind. eapply wp_vmread; [exact H1|]. intros w2 H2. apply wp_ret, wp_ret. by apply HQ.
Qed.

(** Writes. *)
Definition not_ro (enc : Z) : bool := negb (Z.land (Z.shiftr enc 10) 3 =? 1).
Lemma wp_vmwrite enc x w p m (Q : bool -> world -> Prop) : at_ w p m -> not_ro enc = true ->
  (forall w', at_ w' (set_vm enc (wrap (enc_bits a enc) x) p) m -> Q true w') -> wp (__vmx_vmwrite a enc x) Q w.
Proof.
  intros H Hw HQ. unfold __vmx_vmwrite, wp. cbn [cpu_vmwrite q_cpu]. unfold not_ro in Hw. rewrite Hw. apply HQ.
  pose proof (at_event w p m (EVmwrite enc (wrap (ptr_bits a) x) true) H) as He. cbn [p_step] in He.
  rewrite wrap_wrap in He by apply enc_bits_le. exact He.
Qed.
Lemma wp_write_class class (b : Z) enc x w p m (Q : unit -> world -> Prop) : at_ w p m ->
  Z.shiftr enc 12 = class -> not_ro enc = true -> enc_bits a enc = b ->
  (forall w', at_ w' (set_vm enc (wrap b x) p) m -> Q tt w') ->
  wp (ASSERT_io (Z.shiftr enc 12 =? class) ≫= fun _ => ok ← __vmx_vmwrite a enc (wrap b x); ASSERT_io ok) Q w.
Proof.
  intros H Hc Hr Hb HQ. apply wp_bind, wp_assert; [by apply Z.eqb_eq|]. apply wp_bind.
  eapply wp_vmwrite; [exact H|exact Hr|]. intros w' H'. apply wp_assert; [done|]. apply HQ.
  rewrite Hb, wrap_wrap in H' by (rewrite <- Hb; pose proof (enc_bits_le (a := a) enc); lia). exact H'.
Qed.
Lemma wp_g16 n enc x w p m (Q : unit -> world -> Prop) : at_ w p m -> VMCS_ n = enc ->
  Z.shiftr enc 12 = 0 -> not_ro enc = true -> (forall w', at_ w' (set_vm enc (u16 x) p) m -> Q tt w') -> wp (w16 a n x) Q w.
Proof.
  intros H <- Hc Hr HQ. eapply (wp_write_class 0 16); [exact H|exact Hc|exact Hr| |exact HQ]. unfold enc_bits. by rewrite Hc.
Qed.
Lemma wp_g32 n enc x w p m (Q : unit -> world -> Prop) : at_ w p m -> VMCS_ n = enc ->
  Z.shiftr enc 12 = 4 -> not_ro enc = true -> (forall w', at_ w' (set_vm enc (u32 x) p) m -> Q tt w') -> wp (w32 a n x) Q w.
Proof.
  intros H <- Hc Hr HQ. eapply (wp_write_class 4 32); [exact H|exact Hc|exact Hr| |exact HQ]. unfold enc_bits. by rewrite Hc.
Qed.
Lemma wp_gNW n enc x w p m (Q : unit -> world -> Prop) : at_ w p m -> VMCS_ n = enc ->
  Z.shiftr enc 12 = 6 -> not_ro enc = true -> (forall w', at_ w' (set_vm enc (wrap (ptr_bits a) x) p) m -> Q tt w') -> wp (wNW a n x) Q w.
Proof.
  intros H <- Hc Hr HQ. eapply (wp_write_class 6 (ptr_bits a)); [exact H|exact Hc|exact Hr| |exact HQ]. unfold enc_bits. by rewrite Hc.
Qed.
Lemma not_ro_succ enc : class64 enc = true -> not_ro enc = true -> not_ro (enc + 1) = true.
Proof.
  unfold class64, not_ro. rewrite !andb_true_iff. intros [[_ O%Z.eqb_eq] N%Z.leb_le].
  replace 10 with (1 + 9) by lia. rewrite <- !Z.shiftr_shiftr by lia. by rewrite (proj2 (even_succ enc O)).
Qed.
Lemma wp_g64 n enc x w p m (Q : unit -> world -> Prop) : at_ w p m -> VMCS_ n = enc ->
  class64 enc = true -> not_ro enc = true -> (forall w', at_ w' (set_vm64 a enc (u64 x) p) m -> Q tt w') -> wp (w64 a n x) Q w.
Proof.
  intros H <- Hc Hr HQ. pose proof (class64_bits (a := a) _ Hc) as (Eb & Eh & _). pose proof (not_ro_succ _ Hc Hr) as Hr'.
  pose proof Hc as Hc'. unfold class64 in Hc'. rewrite !andb_true_iff in Hc'. destruct Hc' as [[E O] _].
  unfold w64. rewrite vmwrite64_cases. set (enc := VMCS_ n) in *. unfold set_vm64 in HQ. pose proof (ptr_bits_is64 a) as Ep.
  apply wp_bind, wp_assert; [exact E|]. apply wp_bind, wp_assert; [exact O|]. apply wp_bind.
  eapply wp_vmwrite; [exact H|exact Hr|]. intros w1 H1. rewrite Eb, Ep in H1. destruct (is64 a).
  - apply wp_assert; [done|]. apply HQ. unfold u64 in *. by rewrite wrap_wrap in H1 by lia.
  - apply wp_bind, wp_assert; [done|]. apply wp_bind.
    eapply wp_vmwrite; [exact H1|exact Hr'|]. intros w2 H2. apply wp_assert; [done|]. apply HQ.
    rewrite Eh in H2 by done. rewrite (wrap_small 32 (Z.shiftr _ 32)) in H2; [exact H2|].
    rewrite Z.shiftr_div_pow2 by lia. assert (is_u 64 (u64 x)) as Hu by (by apply is_u_wrap). unfold is_u in *.
    split; [apply Z.div_pos; lia|apply Z.div_lt_upper_bound; lia].
Qed.

(** MSRs. *)
Lemma wp_rmsr i w p m (Q : Z -> world -> Prop) : at_ w p m -> q_readable q i = true ->
  (forall w', at_ w' p m -> Q (u64 (p_msr p i)) w') -> wp (rdmsr_ i) Q w.
Proof.
  intros H Hr HQ. unfold rdmsr_, wp. cbn [cpu_rdmsr_faults q_cpu]. rewrite Hr. cbn. rewrite (proj1 H). apply HQ.
  apply (at_event w p m (ERdmsr i _) H).
Qed.
Lemma wp_wmsr i x w p m (Q : unit -> world -> Prop) : at_ w p m -> q_writable q i = true ->
  (forall w', at_ w' (set_msr i (u64 x) p) m -> Q tt w') -> wp (wrmsr64 i x) Q w.
Proof.
  intros H Hr HQ. unfold wrmsr64, wp. cbn [cpu_wrmsr_faults q_cpu]. rewrite Hr. cbn. apply HQ.
  apply (at_event w p m (EWrmsr i _ true) H).
Qed.
(** Other instructions. *)
Lemma wp_vmx op args w p m (Q : bool -> world -> Prop) : at_ w p m -> op <> Vmresume -> op <> Vmlaunch ->
  (forall w', at_ w' p m -> Q (vmx_succeeds op args) w') -> wp (vmx_op op args) Q w.
Proof.
  intros H H1 H2 HQ. unfold vmx_op, wp. cbn [cpu_vmx q_cpu]. apply HQ.
  pose proof (at_event w p m (EVmx op args (vmx_succeeds op args)) H) as He.
  replace (p_step a q (w_tr w) (EVmx op args (vmx_succeeds op args)) p) with p in He by (by destruct op).
  exact He.
Qed.
Lemma wp_load n x w p m (Q : Z -> world -> Prop) : at_ w p m -> Q (ld n m x) w -> wp (load n x) Q w.
Proof. by intros [_ <-]. Qed.
Lemma wp_store n x v w p m (Q : unit -> world -> Prop) : at_ w p m ->
  (forall w', at_ w' p (st n m x v) -> Q tt w') -> wp (store n x v) Q w.
Proof. intros [H1 <-] HQ. apply HQ. by split. Qed.
Lemma wp_must_be (M : IO Z) x w (Q : unit -> world -> Prop) :
  wp M (fun y w' => y = x /\ Q tt w') w -> wp (must_be M x) Q w.
Proof.
  intros H. unfold must_be. apply wp_bind. eapply wp_use; [exact H|]. intros y w' [-> HQ]. apply wp_assert; [apply Z.eqb_refl|done].
Qed.
Lemma wp_must (M : IO bool) w (Q : unit -> world -> Prop) :
  wp M (fun b w' => b = true /\ Q tt w') w -> wp (must M) Q w.
Proof. intros H. unfold must. apply wp_bind. eapply wp_use; [exact H|]. intros y w' [-> HQ]. by apply wp_assert. Qed.

(** ** VM exits and VM entries *)

Definition load_list (l : list (Z * Z)) (p : pst) : pst := foldl (fun p x => set_msr x.1 (u64 x.2) p) p l.
Lemma vm_load_list l p enc : vm a (load_list l p) enc = vm a p enc.
Proof. revert p. induction l as [|x l IH]; intros p; [done|exact (IH (set_msr x.1 (u64 x.2) p))]. Qed.
Lemma vm64_load_list l p enc : vm64 a (load_list l p) enc = vm64 a p enc.
Proof. unfold vm64. by rewrite !vm_load_list. Qed.
Lemma wp_load_msrs l : forall w p m (Q : unit -> world -> Prop), at_ w p m ->
  (forall w', at_ w' (load_list l p) m -> Q tt w') -> wp (load_msrs l) Q w.
Proof.
  induction l as [|[i x] l IH]; intros w p m Q H HQ; cbn [load_msrs]; [by apply HQ|].
  apply wp_bind. eapply wp_emit; [exact H|]. intros w' H'. eapply IH; [exact H'|]. exact HQ.
Qed.

(** The state and the memory after a VM exit. *)
Definition after_exit (tr : list ioev) (reason addr : Z) (p : pst) (m : mem) : pst * mem :=
  let '(m', l) := exit_areas a p m in (load_list l (exited a q tr reason addr p), m').
Lemma wp_vm_exit reason addr w p m (Q : unit -> world -> Prop) : at_ w p m ->
  (forall w', at_ w' (after_exit (w_tr w) reason addr p m).1 (after_exit (w_tr w) reason addr p m).2 -> Q tt w') ->
  wp (vm_exit reason addr) Q w.
Proof.
  intros [<- <-] HQ. unfold vm_exit, wp. cbn [gm_exit q_guest]. unfold after_exit in HQ.
  destruct (exit_areas a (pstate a q (w_tr w)) (w_mem w)) as [m' l] eqn:E.
  eapply wp_load_msrs; [|exact HQ]. by split.
Qed.
Definition after_entry (p : pst) (m : mem) : pst :=
  load_list (msr_area (Z.to_nat (vm a p 0x4014)) (vm64 a p 0x200A) m) (entered a p).
Lemma wp_vm_entry launch w p m (Q : unit -> world -> Prop) : at_ w p m ->
  (forall w', at_ w' (after_entry p m) m -> Q tt w') -> wp (vm_entry launch) Q w.
Proof.
  intros H HQ. unfold vm_entry. apply wp_bind, wp_must. unfold vmx_op, wp at 1. cbn [cpu_vmx q_cpu].
  set (op := if launch then Vmlaunch else Vmresume).
  replace (vmx_succeeds op []) with true by (by destruct launch). split; [done|].
  pose proof (at_event w p m (EVmx op [] true) H) as He.
  replace (p_step a q (w_tr w) (EVmx op [] true) p) with (entered a p) in He by (by destruct launch).
  revert He. generalize (mkW (w_mem w) (EVmx op [] true :: w_tr w)). intros w' [E1 E2].
  change (wp (load_msrs (msr_area (Z.to_nat (vm a (pstate a q (w_tr w')) 0x4014)) (vm64 a (pstate a q (w_tr w')) 0x200A) (w_mem w'))) Q w').
  rewrite E1, E2. eapply wp_load_msrs; [by split|]. exact HQ.
Qed.

(** Nothing is stored or loaded when the areas are empty. *)
Definition no_areas (p : pst) : Prop := vm a p 0x400E = 0 /\ vm a p 0x4010 = 0 /\ vm a p 0x4014 = 0.
Lemma after_exit_none tr reason addr p m : no_areas p -> after_exit tr reason addr p m = (exited a q tr reason addr p, m).
Proof. intros (E1 & E2 & _). unfold after_exit, exit_areas. by rewrite E1, E2. Qed.
Lemma after_entry_none p m : vm a p 0x4014 = 0 -> after_entry p m = entered a p.
Proof. intros E. unfold after_entry. by rewrite E. Qed.
End rules.

(** ** The handlers *)

Section handlers.
Context {a : subarch} {q : guest_cpu}.
#[local] Hint Extern 0 Device => exact (q_device a q) : typeclass_instances.
#[local] Hint Extern 0 Cpu => exact (q_cpu a q) : typeclass_instances.
#[local] Hint Extern 0 Guest => exact (q_guest a q) : typeclass_instances.
Context (amd64_max : Z) (g : opts) (es : ept_syms) (ds : desc_syms) (us : user_syms) (mid : list MIDTAB) (qemu : bool)
  (msr_bitmap_allcpu : Z) (run_user : Z * Z -> IO unit).

Lemma wp_resume v r info w p m (Q : handler_result -> world -> Prop) : at_ (a := a) (q := q) w p m ->
  (forall w' rip, at_ (a := a) (q := q) w' (set_vm 0x681E rip p) m -> Q (Entered false v r) w') -> wp (resume a v r info) Q w.
Proof.
  intros H HQ. unfold resume. apply wp_bind. eapply wp_gNW; [exact H|reflexivity..|]. intros w' H'. apply wp_ret. by eapply HQ.
Qed.

(** What happens at an exit: the handler runs in the state after it, and then the guest runs again. *)
Definition handled (h : handler) (v : VCPU) (r : regs) (reason : Z) (p : pst) (m : mem) (Q : VCPU -> regs -> world -> Prop) : Prop :=
  forall w len rip, at_ (a := a) (q := q) w p m ->
  wp (call_handler a amd64_max g es ds us qemu msr_bitmap_allcpu run_user h v r (mkInfo_ reason rip len))
    (fun res w' => match res with
     | Entered launch v' r' => wp (vm_entry launch) (fun _ w'' => Q v' r' w'') w'
     | Returned _ _ => False
     end) w.
Lemma vm_after_exit reason addr tr p m : is_u 32 reason -> vm a (after_exit (a := a) (q := q) tr reason addr p m).1 0x4402 = reason.
Proof.
  intros Hr. unfold after_exit. destruct (exit_areas a p m) as [m' l]. cbn [fst].
  rewrite vm_load_list. pose proof (vm_exited_info (a := a) (q := q) tr reason addr p) as (E & _). rewrite E. by apply wrap_small.
Qed.
Lemma wp_guest_exit reason addr h v r w p m (Q : VCPU * regs -> world -> Prop) :
  at_ (a := a) (q := q) w p m -> vcpu_override v = Some h -> is_u 32 reason ->
  (forall tr, let pm := after_exit (a := a) (q := q) tr reason addr p m in handled h v r reason pm.1 pm.2 (fun v r => Q (v, r))) ->
  wp (guest_exit a amd64_max g es ds us mid qemu msr_bitmap_allcpu run_user reason addr v r) Q w.
Proof.
  intros H Hh Hr HQ. unfold guest_exit. apply wp_bind. eapply wp_vm_exit; [exact H|]. intros w1 H1.
  apply wp_bind. eapply wp_rNW; [exact H1|reflexivity|]. intros w2 H2.
  apply wp_bind. unfold vmexit_handler. rewrite Hh.
  apply wp_bind. eapply wp_r32; [exact H2|reflexivity|]. intros w3 H3.
  apply wp_bind. eapply wp_r32; [exact H3|reflexivity|]. intros w4 H4.
  apply wp_bind. eapply wp_rNW; [exact H4|reflexivity|]. intros w5 H5.
  apply wp_bind, wp_assert; [apply Z.eqb_refl|]. apply wp_bind.
  change (VMCS_ "info_vmexit_reason") with 0x4402. rewrite vm_after_exit by done.
  eapply wp_use; [apply (HQ (w_tr w)), H5|]. intros [v' r'|launch v' r']; [done|]. intros w6 H6. apply wp_ret, wp_bind.
  eapply wp_use; [exact H6|]. intros [] w7 H7. by apply wp_ret.
Qed.
Lemma wp_vmcall h eax ebx v w p m (Q : VCPU -> world -> Prop) :
  at_ (a := a) (q := q) w p m -> vcpu_override v = Some h ->
  (forall tr, let pm := after_exit (a := a) (q := q) tr VMX_VMEXIT_VMCALL 0 p m in
     handled h v (call_regs eax ebx) VMX_VMEXIT_VMCALL pm.1 pm.2 (fun v _ => Q v)) ->
  wp (vmcall a amd64_max g es ds us mid qemu msr_bitmap_allcpu run_user eax ebx v) Q w.
Proof.
  intros H Hh HQ. unfold vmcall. apply wp_bind. eapply wp_guest_exit; [exact H|exact Hh|done|]. intros tr pm w' len rip H'.
  eapply wp_use; [apply (HQ tr), H'|]. intros [v' r'|launch v' r']; [done|]. intros w1 H1.
  eapply wp_use; [exact H1|]. intros [] w2 H2. by apply wp_ret.
Qed.
End handlers.
