(* ===== verification/GuestTests.v ===== *)
(** The tests of [src/shv-guest.c] on the processor of GuestMachine: each passes and leaves the guest as the next test needs it. *)
From Stdlib Require Import String.
From S2P Require Import Prelude.
From S2P Require Import HptLemmas.
From S2P Require Import Mem.
From S2P Require Import Ept.
From S2P Require Import CString.
From S2P Require Import Cmdline.
From S2P Require Import Stdio.
From S2P Require Import Io.
From S2P Require Import Print.
From S2P Require Import Smp.
From S2P Require Import Timer.
From S2P Require Import Desc.
From S2P Require Import VmxCtls.
From S2P Require Import VmcsFields.
From S2P Require Import Vmcs.
From S2P Require Import VmcsProps.
From S2P Require Import Vcpu.
From S2P Require Import Asm.
From S2P Require Import Vmx.
From S2P Require Import User.
From S2P Require Import Guest.
From S2P Require Import GuestMachine.
From S2P Require Import GuestRules.
Local Open Scope string_scope.
Local Open Scope Z_scope.

(** The guest runs, nothing is loaded or stored at its exits, and the bases of FS and GS are zero. *)
Record quiet_guest (a : subarch) (p : pst) : Prop := {
  qg_guest : p_guest p = true;
  qg_areas : no_areas (a := a) p;
  qg_fs : p_msr p IA32_MSR_FS_BASE = 0;
  qg_gs : p_msr p IA32_MSR_GS_BASE = 0 }.

(** The fields other than [L] and those an exit writes are the same, and the MSRs other than [I]. *)
Definition outside (L : list Z) (x : Z) : bool := negb (existsb (Z.eqb x) L).
Record keeps (a : subarch) (L I : list Z) (p p' : pst) : Prop := {
  kp_guest : p_guest p' = p_guest p;
  kp_vm enc : outside L enc = true -> exit_field enc = false -> vm a p' enc = vm a p enc;
  kp_msr i : outside I i = true -> p_msr p' i = p_msr p i }.

Section tests.
Context {a : subarch} {q : guest_cpu}.
#[local] Hint Extern 0 Device => exact (q_device a q) : typeclass_instances.
#[local] Hint Extern 0 Cpu => exact (q_cpu a q) : typeclass_instances.
#[local] Hint Extern 0 Guest => exact (q_guest a q) : typeclass_instances.
Context (amd64_max : Z) (g : opts) (es : ept_syms) (ds : desc_syms) (us : user_syms) (mid : list MIDTAB) (qemu : bool)
  (msr_bitmap_allcpu : Z) (run_user : Z * Z -> IO unit).
Abbreviation at_ := (at_ (a := a) (q := q)).
Abbreviation exited := (exited a q).
Abbreviation handled := (handled (a := a) (q := q) amd64_max g es ds us qemu msr_bitmap_allcpu run_user).

Lemma keeps_refl L I p : keeps a L I p p.
Proof. by constructor. Qed.
Lemma keeps_trans L I p1 p2 p3 : keeps a L I p1 p2 -> keeps a L I p2 p3 -> keeps a L I p1 p3.
Proof.
  intros [G1 V1 M1] [G2 V2 M2]. constructor; [congruence| |].
  - intros enc H1 H2. by rewrite V2, V1.
  - intros i Hi. by rewrite M2, M1.
Qed.
Lemma outside_weaken L L' x : (forall y, y ∈ L' -> y ∈ L) -> outside L x = true -> outside L' x = true.
Proof.
  unfold outside. rewrite !negb_true_iff. intros H E. destruct (existsb (Z.eqb x) L') eqn:E'; [|done].
  apply existsb_exists in E' as (y & Hy & ->%Z.eqb_eq). rewrite <- E. symmetry. apply existsb_exists.
  exists y. split; [|apply Z.eqb_refl]. apply list_elem_of_In, H. by apply list_elem_of_In.
Qed.
Lemma keeps_weaken L I L' I' p p' : (forall y, y ∈ L' -> y ∈ L) -> (forall y, y ∈ I' -> y ∈ I) -> keeps a L' I' p p' -> keeps a L I p p'.
Proof.
  intros HL HI [H1 H2 H3]. constructor; [done| |].
  - intros enc H. by apply H2, (outside_weaken L).
  - intros i H. by apply H3, (outside_weaken I).
Qed.
Lemma keeps_vm64 L I p p' enc : keeps a L I p p' ->
  outside L enc = true -> outside L (enc + 1) = true -> exit_field enc = false -> exit_field (enc + 1) = false ->
  vm64 a p' enc = vm64 a p enc.
Proof. intros [_ H _] H1 H2 H3 H4. unfold vm64. by rewrite !H. Qed.
Lemma keeps_silent L I p p' : quiet_guest a p -> keeps a L I p p' ->
  outside L 0x400E = true -> outside L 0x4010 = true -> outside L 0x4014 = true ->
  outside I IA32_MSR_FS_BASE = true -> outside I IA32_MSR_GS_BASE = true -> quiet_guest a p'.
Proof.
  intros [G (A1 & A2 & A3) F1 F2] [K1 K2 K3] H1 H2 H3 H4 H5. constructor; [congruence| |by rewrite K3|by rewrite K3].
  unfold no_areas. by rewrite !K2.
Qed.

Lemma reset_override v h : vcpu_override v = None -> with_override None (with_override h v) = v.
Proof. destruct v. cbn. by intros ->. Qed.

(** A round trip through a handler that leaves the saved bases alone. *)
Lemma keeps_trip L I tr reason addr p p2 : quiet_guest a p ->
  (forall i, outside I i = true -> p_msr p2 i = p_msr (exited tr reason addr p) i) ->
  (forall enc, outside L enc = true -> enc <> 0x681E -> vm a p2 enc = vm a (exited tr reason addr p) enc) ->
  outside L 0x680E = true -> outside L 0x6810 = true ->
  keeps a L I p (entered a p2).
Proof.
  intros [G _ F1 F2] HM HV L1 L2. pose proof (vm_exited_info (a := a) (q := q) tr reason addr p) as (_ & _ & EF & EG).
  assert (vm a p2 0x680E = 0 /\ vm a p2 0x6810 = 0) as [Z1 Z2].
  { rewrite !HV by done. by rewrite EF, EG, F1, F2. }
  constructor; [by rewrite G| |].
  - intros enc H1 H2. rewrite vm_entered, HV, vm_exited_ne; [done..|]. intros ->. discriminate H2.
  - intros i Hi. destruct (Z.eqb_spec i IA32_MSR_GS_BASE) as [->|N2]; [by rewrite msr_entered_gs, Z2|].
    destruct (Z.eqb_spec i IA32_MSR_FS_BASE) as [->|N1]; [by rewrite msr_entered_fs, Z1|].
    rewrite msr_entered_ne, HM, msr_exited_ne by (done || by apply Z.eqb_neq). done.
Qed.

(** A [VMCALL] of a quiet guest, and the end of its handler. *)
Lemma wp_call h eax ebx v w p m (Q : VCPU -> world -> Prop) : at_ w p m -> quiet_guest a p ->
  vcpu_override v = Some h ->
  (forall tr, handled h v (call_regs eax ebx) VMX_VMEXIT_VMCALL (exited tr VMX_VMEXIT_VMCALL 0 p) m (fun v _ => Q v)) ->
  wp (vmcall a amd64_max g es ds us mid qemu msr_bitmap_allcpu run_user eax ebx v) Q w.
Proof.
  intros H Hq Hh HQ. eapply wp_vmcall; [exact H|exact Hh|]. intros tr. cbv zeta. rewrite after_exit_none by apply Hq. apply HQ.
Qed.
Lemma wp_resumed (v : VCPU) (r : regs) info w p m (Q : VCPU -> regs -> world -> Prop) : at_ w p m -> vm a p 0x4014 = 0 ->
  (forall w' rip, at_ w' (entered a (set_vm 0x681E rip p)) m -> Q v r w') ->
  wp (resume a v r info) (fun res w' => match res with
     | Entered launch v' r' => wp (vm_entry launch) (fun _ w'' => Q v' r' w'') w'
     | Returned _ _ => False
     end) w.
Proof.
  intros H Hn HQ. eapply wp_resume; [exact H|]. intros w1 rip H1. eapply wp_vm_entry; [exact H1|]. intros w2 H2.
  rewrite after_entry_none in H2 by (by rewrite vm_set_ne). by eapply HQ.
Qed.
Lemma at_printing w p m tr : Forall (fun e => printing e = true) tr -> at_ w p m -> at_ (mkW (w_mem w) (tr ++ w_tr w)) p m.
Proof.
  intros Ht H. induction Ht as [|e tr He _ IH]; [by destruct w|]. apply (at_event _ _ _ e) in IH. by destruct e.
Qed.
Lemma wp_print text args tys w p m (Q : unit -> world -> Prop) : at_ w p m ->
  check_printf a (text ++ [10])%list tys = true -> shaped args tys -> (forall w', at_ w' p m -> Q tt w') ->
  wp (print1 a text args) Q w.
Proof.
  intros H Hc Hs HQ. unfold print1. apply wp_bind. eapply printf_ok; [exact Hc|exact Hs|]. intros n tr Ht.
  apply wp_ret, HQ. by apply at_printing.
Qed.
End tests.

(** One step of a proof about a handler: the rule for the head of the computation. *)
Ltac gstep :=
  let next := (match goal with H : GuestRules.at_ _ _ _ |- _ => clear H end; intros ? ?) in
  let write L := (eapply L; [eassumption|vm_compute; reflexivity|reflexivity|reflexivity|next]) in
  let read L n := (let e := eval vm_compute in (VMCS_ n) in change (VMCS_ n) with e; eapply L; [eassumption|reflexivity|next]) in
  lazymatch goal with
  | |- wp (mret _) _ _ => apply wp_ret
  | |- wp (_ ≫= _) _ _ => apply wp_bind
  | |- wp (ASSERT_io _) _ _ => apply wp_assert; [try reflexivity|]
  | |- wp (w16 _ _ _) _ _ => write @wp_g16
  | |- wp (w32 _ _ _) _ _ => write @wp_g32
  | |- wp (w64 _ _ _) _ _ => write @wp_g64
  | |- wp (wNW _ _ _) _ _ => write @wp_gNW
  | |- wp (__vmx_vmread16 _ (VMCS_ ?n)) _ _ => read @wp_r16 n
  | |- wp (__vmx_vmread32 _ (VMCS_ ?n)) _ _ => read @wp_r32 n
  | |- wp (__vmx_vmread64 _ (VMCS_ ?n)) _ _ => read @wp_r64 n
  | |- wp (__vmx_vmreadNW _ (VMCS_ ?n)) _ _ => read @wp_rNW n
  | |- wp (vmx_op _ _) _ _ => eapply wp_vmx; [eassumption|discriminate..|next]
  | |- wp (emit _) _ _ => eapply wp_emit; [eassumption|next]
  end.

Section each_test.
Context {a : subarch} {q : guest_cpu}.
#[local] Hint Extern 0 Device => exact (q_device a q) : typeclass_instances.
#[local] Hint Extern 0 Cpu => exact (q_cpu a q) : typeclass_instances.
#[local] Hint Extern 0 Guest => exact (q_guest a q) : typeclass_instances.
Context (amd64_max : Z) (g : opts) (es : ept_syms) (ds : desc_syms) (us : user_syms) (mid : list MIDTAB) (qemu : bool)
  (msr_bitmap_allcpu : Z) (run_user : Z * Z -> IO unit).
Abbreviation at_ := (at_ (a := a) (q := q)).
Abbreviation exited := (exited a q).
Abbreviation handled := (handled (a := a) (q := q) amd64_max g es ds us qemu msr_bitmap_allcpu run_user).
Abbreviation on f := (f a amd64_max _ _ _ g es ds us mid qemu msr_bitmap_allcpu run_user) (only parsing).

(** ** VPID *)

Lemma vpid_range p : is_u 16 (vm a p 0).
Proof. exact (vm_range (a := a) p 0). Qed.
Lemma by_arch_test {A} (b : subarch) (x y : A) : match b with AMD64 => x | _ => y end = if is64 b then x else y.
Proof. by destruct b. Qed.

Lemma wp_invvpid t vpid addr w p m (Q : bool -> world -> Prop) : at_ w p m ->
  (forall w', at_ w' p m -> Q (vmx_succeeds Invvpid [t; u16 vpid; wrap (ptr_bits a) addr]) w') -> wp (__vmx_invvpid a t vpid addr) Q w.
Proof. intros H HQ. unfold __vmx_invvpid. gstep. by apply HQ. Qed.
Ltac invvpid_step := apply wp_must; repeat apply wp_bind; eapply wp_invvpid; [eassumption|]; cbn [vmx_succeeds];
  match goal with H : GuestRules.at_ _ _ _ |- _ => clear H end; intros ? ?; try apply wp_ret.
Lemma invvpids_ok vpid w p m (Q : unit -> world -> Prop) : at_ w p m -> is_u 16 vpid -> vpid <> 0 ->
  (forall w', at_ w' p m -> Q tt w') -> wp (invvpids a vpid) Q w.
Proof.
  intros H Hv Hn HQ. unfold invvpids, not.
  assert (u16 vpid = vpid) as Ev by (by apply wrap_small). apply Z.eqb_neq in Hn.
  assert (forall x, 0 <= x < 2 ^ 32 -> canonical (wrap (ptr_bits a) x) = true) as Hc.
  { intros x Hx. rewrite wrap_small.
    - unfold canonical. apply orb_true_iff. left. apply Z.ltb_lt. lia.
    - apply (is_u_le 32); [pose proof (ptr_bits_is64 a); destruct (is64 a); lia|exact Hx]. }
  gstep. invvpid_step. rewrite Ev, Hn. split; [by apply Hc|].
  gstep. rewrite by_arch_test. destruct (is64 a) eqn:E64.
  1: invvpid_step; split; [rewrite Ev, Hn, ptr_bits_is64, E64; by vm_compute|].
  2: apply wp_ret.
  all: gstep; invvpid_step; split; [done|]; gstep; invvpid_step; rewrite Ev, Hn; split; [done|]; gstep; invvpid_step; split; [done|].
  all: gstep; invvpid_step; split; [done|]; gstep; invvpid_step; rewrite Ev, Hn; split; [done|]; invvpid_step; split; [done|]; by apply HQ.
Qed.

(** The numbers stay odd, so they are never 0, also when they wrap. *)
Lemma next_vpid_odd x : x mod 2 = 1 -> next_vpid x mod 2 = 1.
Proof. unfold next_vpid, u16, wrap. intros H. Z.div_mod_to_equations. lia. Qed.
Definition vpid_after (x : Z) : Z := if opt_set g SHV_USE_VPID then next_vpid x else x.

Lemma vpid_test v w p m (Q : VCPU -> world -> Prop) : at_ w p m -> quiet_guest a p -> vcpu_override v = None ->
  (opt_set g SHV_USE_VPID = true -> vm a p 0 mod 2 = 1) ->
  (forall w' p', at_ w' p' m -> keeps a [0] [] p p' -> vm a p' 0 = vpid_after (vm a p 0) -> Q v w') ->
  wp (shv_guest_test_vpid a amd64_max g es ds us mid qemu msr_bitmap_allcpu run_user v) Q w.
Proof.
  intros H Hq Ho Hodd HQ. unfold shv_guest_test_vpid. unfold vpid_after in HQ. destruct (opt_set g SHV_USE_VPID).
  2: { apply wp_ret. apply (HQ w p); [done|apply keeps_refl|done]. }
  specialize (Hodd eq_refl). unfold with_handler. gstep.
  eapply wp_call; [exact H|exact Hq|by destruct v|]. clear w H. intros tr w len rip H.
  cbn [call_handler]. unfold shv_guest_test_vpid_vmexit_handler. cbn [vmexit_reason]. rewrite Z.eqb_refl. cbn [negb].
  gstep. gstep. gstep. gstep.
  rewrite vm_exited_ne in * by done. gstep. gstep; [by apply Z.eqb_eq|]. gstep.
  eapply invvpids_ok; [eassumption|apply vpid_range|intros E; by rewrite E in Hodd|]. clear dependent w'. intros w1 H1.
  gstep. gstep. eapply wp_resumed; [eassumption|field_simp; apply Hq|]. intros w2 rip2 H2.
  apply wp_ret. rewrite reset_override by done. eapply HQ; [exact H2| |].
  - eapply (keeps_trip [0] [] tr); [exact Hq|intros; by field_simp| |done|done].
    intros enc E1 E2. unfold outside in E1. cbn in E1. rewrite orb_false_r in E1. apply negb_true_iff in E1.
    rewrite !vm_set_ne by (done || by apply Z.eqb_neq). done.
  - rewrite vm_entered, vm_set_ne, vm_set_eq by done. unfold next_vpid, u16. change (enc_bits a 0) with 16. by rewrite !wrap_wrap by done.
Qed.

(** ** Waiting for an interrupt, and turning paging off *)

Lemma wait_int_test v w p m (Q : VCPU -> world -> Prop) : at_ w p m -> quiet_guest a p -> vcpu_override v = None ->
  (forall w' p', at_ w' p' m -> keeps a [] [] p p' -> Q v w') ->
  wp (shv_guest_wait_int a amd64_max g es ds us mid qemu msr_bitmap_allcpu run_user v) Q w.
Proof.
  intros H Hq Ho HQ. unfold shv_guest_wait_int, with_handler. gstep.
  eapply wp_call; [exact H|exact Hq|by destruct v|]. clear w H. intros tr w len rip H.
  cbn [call_handler]. unfold shv_guest_wait_int_vmexit_handler. cbn [vmexit_reason]. rewrite Z.eqb_refl. cbn [negb].
  gstep. gstep. gstep.
  match goal with |- wp ?M ?R _ => assert (forall w', at_ w' (exited tr VMX_VMEXIT_VMCALL 0 p) m -> R tt w') as HR end.
  2: { destruct (opt_set g _); cbn [negb]; [gstep; by apply HR|]. gstep. by apply HR. }
  clear w H. intros w H. eapply wp_resumed; [exact H|field_simp; apply Hq|]. intros w2 rip2 H2.
  apply wp_ret. rewrite reset_override by done. eapply HQ; [exact H2|].
  eapply (keeps_trip [] [] tr); [exact Hq|intros; by field_simp| |done|done].
  intros enc _ E2. rewrite vm_set_ne by (by apply Z.eqb_neq). done.
Qed.

Lemma unrestricted_cases fuel v : shv_guest_test_unrestricted_guest a g fuel v =
  if opt_set g SHV_USE_UNRESTRICTED_GUEST then
    if is64 a then shv_disable_enable_paging fuel []
    else
      cr0 ← read_reg a RCR0;
      emit ECli ≫= fun _ =>
      write_reg a RCR0 (Z.land cr0 0x7fffffff) ≫= fun _ =>
      write_reg a RCR0 cr0 ≫= fun _ =>
      if negb (opt_set g SHV_NO_EFLAGS_IF) then emit ESti else mret tt
  else mret tt.
Proof. unfold shv_guest_test_unrestricted_guest. by destruct a. Qed.
Lemma wp_guest_reg b r w p m (Q : Z -> world -> Prop) : at_ w p m -> (forall x w', at_ w' p m -> Q x w') -> wp (read_reg b r) Q w.
Proof.
  intros H HQ. apply (wp_intro _ _ _ _ _ eq_refl). apply HQ.
  exact (at_event _ _ _ (EGetReg r (wrap (sysreg_bits b r) (cpu_reg (w_tr w) r))) H).
Qed.
Lemma unrestricted_test fuel v w p m (Q : unit -> world -> Prop) : at_ w p m -> (forall w', at_ w' p m -> Q tt w') ->
  wp (shv_guest_test_unrestricted_guest a g fuel v) Q w.
Proof.
  intros H HQ. rewrite unrestricted_cases. destruct (opt_set g SHV_USE_UNRESTRICTED_GUEST); [|gstep; by apply HQ].
  destruct (is64 a).
  - unfold shv_disable_enable_paging, write_reg. repeat gstep. eapply wp_guest_reg; [eassumption|]. intros cr0 w1 H1.
    repeat gstep. cbn [asm_print]. repeat gstep. eapply wp_guest_reg; [eassumption|]. intros cr0' w3 H3. repeat gstep. by apply HQ.
  - gstep. eapply wp_guest_reg; [exact H|]. intros cr0 w1 H1. gstep. gstep. unfold write_reg. gstep. gstep. gstep. gstep.
    destruct (opt_set g SHV_NO_EFLAGS_IF); cbn [negb]; gstep; by apply HQ.
Qed.
End each_test.
