(* ===== verification/GuestEpt.v ===== *)
(** The tests of the EPT in [src/shv-guest.c]: what the EPTs of a virtual CPU look like between the calls of [shv_build_ept], what
    the guest reads through them, and that switching between them keeps this. *)
From Stdlib Require Import String.
From S2P Require Import Prelude.
From S2P Require Import HptConsts.
From S2P Require Import Hpt.
From S2P Require Import HptLemmas.
From S2P Require Import Mem.
From S2P Require Import LibcString.
From S2P Require Import Walk.
From S2P Require Import Ept.
From S2P Require Import EptCtx.
From S2P Require Import EptMap.
From S2P Require Import EptBuild.
From S2P Require Import EptProps.
From S2P Require Import Cmdline.
From S2P Require Import Io.
From S2P Require Import Smp.
From S2P Require Import Desc.
From S2P Require Import Timer.
From S2P Require Import VmxCtls.
From S2P Require Import VmcsFields.
From S2P Require Import Vmcs.
From S2P Require Import VmcsProps.
From S2P Require Import Vcpu.
From S2P Require Import Vmx.
From S2P Require Import User.
From S2P Require Import Guest.
From S2P Require Import GuestMachine.
From S2P Require Import GuestRules.
From S2P Require Import GuestTests.
Local Open Scope string_scope.
Local Open Scope Z_scope.

(** Both groups of EPTs of a virtual CPU have a layout, and what one call writes is not part of the other group. *)
Record guest_layout (a : subarch) (s : ept_syms) (g_shv_opt : Z) (e : ept_vcpu) : Prop := {
  gl_layout n : 0 <= n < 32 -> ept_layout a s e n;
  gl_apart : arrays_apart s;
  gl_touched n k b : 0 <= n < 32 -> 0 <= k < 32 -> touched s g_shv_opt e n b -> ~ arena s e k b;
  gl_valid n k : 0 <= n < 32 -> 0 <= k < 2 ->
    ~ in_range (ept_target_at s n) 16 (ept_valid_at s (v_idx e) k) /\
    ~ in_range (large_pages_at s 0) 16 (ept_valid_at s (v_idx e) k) /\
    ~ in_range (large_pages_at s 1) 16 (ept_valid_at s (v_idx e) k);
  gl_target n b : 0 <= n < 32 -> in_range (ept_target_at s n) 16 b ->
    ~ in_range (large_pages_at s 0) 16 b /\ ~ in_range (large_pages_at s 1) 16 b;
  gl_root : s_ept_root s mod 4096 = 0;
  gl_types : types_ok e (s_ept_low s) (s_ept_high s) /\ types_ok e 0xfee00000 0xfee01000 /\ types_ok e 0 0x100000 }.

(** ** Building and rebuilding *)

Section groups.
Context (a : subarch) (s : ept_syms) (g_shv_opt : Z) (e : ept_vcpu).
Hypothesis L : guest_layout a s g_shv_opt e.
Abbreviation idx := (v_idx e).
Abbreviation root n := (ept_root_at s idx (Z.shiftr n 4)).
Abbreviation target n := (ept_target_at s n).
Abbreviation valid k := (ept_valid_at s idx k).

Lemma shiftr_16 k : Z.shiftr (16 * k) 4 = k.
Proof. rewrite Z.shiftr_div_pow2 by lia. change (2 ^ 4) with 16. rewrite Z.mul_comm. by apply Z.div_mul. Qed.
Lemma group_range n : 0 <= n < 32 -> 0 <= Z.shiftr n 4 < 2.
Proof. intros H. rewrite Z.shiftr_div_pow2 by lia. change (2 ^ 4) with 16. Z.div_mod_to_equations. lia. Qed.
Lemma arena_group n n' b : Z.shiftr n 4 = Z.shiftr n' 4 -> arena s e n b -> arena s e n' b.
Proof. unfold arena. by intros ->. Qed.
Lemma built_group n n' m : Z.shiftr n 4 = Z.shiftr n' 4 -> ept_built a s g_shv_opt e n m -> ept_built a s g_shv_opt e n' m.
Proof. unfold ept_built, arena. by intros ->. Qed.

(** A group is untouched, or built and marked so. *)
Definition group_state (k : Z) (m : mem) : Prop :=
  (ld8 m (valid k) = 0 /\ forall b, arena s e (16 * k) b -> rd8 m b = 0) \/
  (ld8 m (valid k) <> 0 /\ ept_built a s g_shv_opt e (16 * k) m).
Definition ept_ready (m : mem) : Prop := group_state 0 m /\ group_state 1 m.
(** What the guest finds through the EPT with number [n]. *)
Record ept_cur (n : Z) (m : mem) : Prop := {
  cur_built : ept_built a s g_shv_opt e n m;
  cur_target : maps_as (root n) 0x12340000 m (target_leaf s n);
  cur_bytes b : in_range (target n) 16 b -> rd8 m b = n;
  cur_large : use_large g_shv_opt = true ->
    maps_as (root n) (large_pages_at s 0) m (Some (2, large_pages_at s 1, HPT_PMT_WB)) /\
    maps_as (root n) (large_pages_at s 1) m (Some (2, large_pages_at s 0, HPT_PMT_WB)) /\
    rd8 m (large_pages_at s 0) = 65 /\ rd8 m (large_pages_at s 1) = 66 }.
(** What the calls may write. *)
Definition footprint (b : Z) : Prop := exists n, 0 <= n < 32 /\ (arena s e n b \/ touched s g_shv_opt e n b).

Lemma ld8_rd8 m p : ld8 m p = rd8 m p.
Proof. unfold ld8. cbn [ld]. lia. Qed.

Lemma footprint_arena n b : 0 <= n < 32 -> arena s e n b -> footprint b.
Proof. intros Hn Hb. exists n. auto. Qed.
Lemma footprint_valid k : 0 <= k < 2 -> footprint (valid k).
Proof. intros Hk. exists (16 * k). split; [lia|]. right. left. by rewrite shiftr_16. Qed.

Lemma group_agree k m m' : 0 <= k < 2 -> agree (arena s e (16 * k)) m m' -> rd8 m' (valid k) = rd8 m (valid k) ->
  group_state k m -> group_state k m'.
Proof.
  intros Hk Ha Hv. unfold group_state. rewrite !ld8_rd8, Hv. intros [[H1 H2]|[H1 H2]]; [left|right]; (split; [done|]).
  - intros b Hb. rewrite Ha by done. by apply H2.
  - eapply built_agree; [apply (gl_layout _ _ _ _ L); lia|exact Ha|exact H2].
Qed.

(** The facts both kinds of call give. *)
Lemma build_any n m invept : ept_ready m -> 0 <= n < 32 -> (forall x, invept VMX_INVEPT_SINGLECONTEXT x = true) ->
  exists mm m', shv_build_ept a s invept g_shv_opt e n m = Ok (root n, m') /\
    ept_built a s g_shv_opt e n m' /\ agree (fun b => b <> valid (Z.shiftr n 4)) m mm /\ rd8 mm (valid (Z.shiftr n 4)) <> 0 /\
    agree (fun b => ~ arena s e n b) (stamp s g_shv_opt n mm) m' /\
    forall va x, 0 <= va < 2 ^ 48 -> ept_override s g_shv_opt n va = Some x -> maps_as (root n) va m' x.
Proof.
  intros [R0 R1] Hn Hi. pose proof (group_range n Hn) as Hk. set (k := Z.shiftr n 4) in *.
  assert (group_state k m) as [[Hv Hz]|[Hv Hb]].
  { assert (k = 0 \/ k = 1) as [-> | ->] by lia; done. }
  - destruct (build_first a s invept g_shv_opt e n (gl_layout _ _ _ _ L n Hn) m) as (m' & E & Hb & Hst & Hm); try apply (gl_types _ _ _ _ L).
    + intros b Hb. apply Hz. revert Hb. apply arena_group. by rewrite shiftr_16.
    + done.
    + exists (st8 m (valid k) 1), m'. split; [done|]. split; [done|]. split.
      { apply agree_st. unfold in_range. lia. }
      split; [rewrite <- ld8_rd8; unfold ld8, st8; by rewrite ld_st_gen|]. split; [done|].
      intros va x Hva Hx. specialize (Hm va Hva). by rewrite Hx in Hm.
  - destruct (build_again a s invept g_shv_opt e n (gl_layout _ _ _ _ L n Hn) m) as (m' & E & Hb' & Hst & Hm).
    + revert Hb. apply built_group. by rewrite shiftr_16.
    + done.
    + apply Hi.
    + exists m, m'. split; [done|]. split; [done|]. split; [done|]. split; [by rewrite <- ld8_rd8|]. split; [done|].
      intros va x Hva Hx. specialize (Hm va Hva). by rewrite Hx in Hm.
Qed.

Lemma stamp_other n m b : ~ touched s g_shv_opt e n b \/ b = valid (Z.shiftr n 4) -> 0 <= n < 32 -> rd8 (stamp s g_shv_opt n m) b = rd8 m b.
Proof.
  intros Hb Hn. unfold stamp, large_stamp.
  assert (~ in_range (target n) 16 b /\ (use_large g_shv_opt = true -> ~ in_range (large_pages_at s 0) 16 b /\ ~ in_range (large_pages_at s 1) 16 b)) as [H1 H2].
  { destruct Hb as [Hb| ->].
    - unfold touched in Hb. split; [tauto|]. intros E. rewrite E in Hb. tauto.
    - pose proof (gl_valid _ _ _ _ L n _ Hn (group_range n Hn)). tauto. }
  destruct (use_large g_shv_opt); [destruct (H2 eq_refl)|]; by rewrite !agree_memset by (lia || tauto).
Qed.
Lemma memset_in str c len m b : 0 <= len -> in_range str len b -> is_u 8 c -> rd8 (memset str c len m).2 b = c.
Proof.
  intros Hl Hb Hc. rewrite rd8_memset by done. unfold in_range in Hb.
  rewrite (proj2 (Z.leb_le str b)), (proj2 (Z.ltb_lt b (str + len))) by lia. cbn. by apply wrap_small.
Qed.

Lemma ept_step n m invept : ept_ready m -> 0 <= n < 32 -> (forall x, invept VMX_INVEPT_SINGLECONTEXT x = true) ->
  exists m', shv_build_ept a s invept g_shv_opt e n m = Ok (root n, m') /\
    ept_ready m' /\ ept_cur n m' /\ agree (fun b => ~ footprint b) m m'.
Proof.
  intros HR Hn Hi. destruct (build_any n m invept HR Hn Hi) as (mm & m' & E & Hb & Hmm & Hv & Hst & Hm).
  pose proof (group_range n Hn) as Hk. set (k := Z.shiftr n 4) in *.
  assert (forall b, ~ arena s e n b -> ~ touched s g_shv_opt e n b -> rd8 m' b = rd8 m b) as Hframe.
  { intros b H1 H2. rewrite Hst, stamp_other by tauto. apply Hmm. intros ->. apply H2. by left. }
  exists m'. split; [done|]. split; [|split].
  - assert (forall k', 0 <= k' < 2 -> group_state k' m') as H; [|split; apply H; lia].
    intros k' Hk'. destruct (decide (k' = k)) as [->|Hne].
    + right. split; [|by apply (built_group n); [rewrite shiftr_16|]]. rewrite ld8_rd8, Hst, stamp_other by auto || (by apply (gl_touched _ _ _ _ L n n); [..|left]). done.
    + assert (forall b, arena s e (16 * k') b -> rd8 m' b = rd8 m b) as Ha.
      { intros b Hb'. apply Hframe.
        - intros Hb2. apply (arenas_disjoint s e n e (16 * k') b (gl_apart _ _ _ _ L)); rewrite ?shiftr_16; try done;
            try apply (lay_idx _ _ _ _ (gl_layout _ _ _ _ L n Hn)). intros [= Ek]. by apply Hne.
        - intros Ht. by apply (gl_touched _ _ _ _ L n (16 * k') b Hn ltac:(lia)). }
      apply (group_agree k' m); [done|done| |destruct HR; assert (k' = 0 \/ k' = 1) as [-> | ->] by lia; done].
      apply Hframe.
      * apply (gl_touched _ _ _ _ L (16 * k') n); [lia|done|]. left. by rewrite shiftr_16.
      * destruct (gl_valid _ _ _ _ L n k' Hn Hk') as (V1 & V2 & V3). intros [Ev|[?|[_ [?|?]]]]; [|done..].
        unfold ept_valid_at in Ev. fold k in Ev. lia.
  - pose proof (gl_layout _ _ _ _ L n Hn) as Ln. pose proof (lay_large_target _ _ _ _ Ln) as [T0 T1].
    assert (forall b, in_range (target n) 16 b -> ~ arena s e n b) as Hta by (intros b; apply (lay_target_arena _ _ _ _ Ln)).
    constructor; [done| | |].
    + apply Hm; [lia|]. unfold ept_override. destruct (Z.eqb_spec (0x12340000 / 2 ^ 21) (large_pages_at s 1 / 2 ^ 21)); [congruence|].
      destruct (Z.eqb_spec (0x12340000 / 2 ^ 21) (large_pages_at s 0 / 2 ^ 21)); [congruence|]. by rewrite !andb_false_r.
    + intros b Hb'. rewrite Hst by auto. destruct (gl_target _ _ _ _ L n b Hn Hb') as [G0 G1].
      unfold stamp, large_stamp. destruct (use_large g_shv_opt); [rewrite !(agree_memset (large_pages_at s _)) by (lia || done)|];
        (apply memset_in; [lia|done|unfold is_u; lia]).
    + intros Hl. pose proof (large_facts a s e n Ln) as ((R0 & _ & _) & (R1 & _ & _) & Hne). unfold ept_override in Hm. rewrite Hl in Hm.
      split; [|split; [|split]].
      * apply Hm; [done|]. destruct (Z.eqb_spec (large_pages_at s 0 / 2 ^ 21) (large_pages_at s 1 / 2 ^ 21)); [congruence|].
        by rewrite Z.eqb_refl.
      * apply Hm; [done|]. by rewrite Z.eqb_refl.
      * assert (in_range (large_pages_at s 0) 16 (large_pages_at s 0)) as Hin by (unfold in_range; lia).
        rewrite Hst by (apply (lay_large_arena _ _ _ _ Ln); auto). unfold stamp, large_stamp. rewrite Hl.
        rewrite agree_memset; [by apply memset_in|lia|]. unfold in_range, large_pages_at, PA_PAGE_SIZE_2M. lia.
      * assert (in_range (large_pages_at s 1) 16 (large_pages_at s 1)) as Hin by (unfold in_range; lia).
        rewrite Hst by (apply (lay_large_arena _ _ _ _ Ln); auto). unfold stamp, large_stamp. rewrite Hl. by apply memset_in.
  - intros b Hb'. apply Hframe; intros H; apply Hb'; exists n; auto.
Qed.

(** Writes elsewhere change none of this. *)
Lemma ready_agree m m' : agree footprint m m' -> ept_ready m -> ept_ready m'.
Proof.
  intros Ha [R0 R1].
  assert (forall k, 0 <= k < 2 -> group_state k m -> group_state k m') as H; [|split; apply H; done || lia].
  intros k Hk. apply group_agree; [done| |].
  - eapply agree_weaken; [|exact Ha]. intros b. apply footprint_arena. lia.
  - by apply Ha, footprint_valid.
Qed.
Lemma cur_agree n m m' : 0 <= n < 32 -> agree footprint m m' -> ept_cur n m -> ept_cur n m'.
Proof.
  intros Hn Ha [Hb C1 C2 C3].
  assert (forall va x, maps_as (root n) va m x -> maps_as (root n) va m' x) as Hmap.
  { assert (forall va, mapping HPT_TYPE_EPT (root n) va m' = mapping HPT_TYPE_EPT (root n) va m) as Hw.
    2: { intros va x. unfold maps_as. by rewrite Hw. }
    intros va. destruct Hb as (k & T & l & _ & Hs & Ho & _).
    destruct (state_agree a s e n (gl_layout _ _ _ _ L n Hn) k m m' T l Hs Ho) as [_ Hw].
    - eapply agree_weaken; [|exact Ha]. intros b. by apply footprint_arena.
    - unfold mapping. cbn [max_lvl]. by rewrite Hw. }
  constructor; [|by apply Hmap| |].
  - eapply built_agree; [by apply (gl_layout _ _ _ _ L)| |exact Hb]. eapply agree_weaken; [|exact Ha]. intros b. by apply footprint_arena.
  - intros b Hr. rewrite Ha; [by apply C2|]. exists n. split; [done|]. right. right. by left.
  - intros Hl. destruct (C3 Hl) as (M1 & M2 & B1 & B2). split; [by apply Hmap|]. split; [by apply Hmap|].
    split; (rewrite Ha; [done|]; exists n; split; [done|]; right; right; right; split; [done|]; unfold in_range; lia).
Qed.

(** ** What the guest reads *)

Section reading.
Context (q : guest_cpu).

(** The EPT with number [n] is in use. *)
Record ept_uses (n : Z) (p : pst) : Prop := {
  eu_on : ept_on a p = true;
  eu_ptr : vm64 a p 0x201A = Z.lor (root n) 0x1e }.

Lemma root_aligned n : root n mod 4096 = 0.
Proof.
  unfold ept_root_at, PAGE_SIZE_4K. rewrite Z.mod_add by lia. apply (gl_root _ _ _ _ L).
Qed.
Lemma lor_flags x : x mod 4096 = 0 -> Z.lor x 0x1e = x + 0x1e.
Proof.
  intros H. symmetry. rewrite <- Z.lxor_lor, Z.add_nocarry_lxor; [done| |]; apply Z.bits_inj'; intros i Hi; rewrite Z.land_spec, Z.bits_0;
    (destruct (decide (i < 12)) as [Hlt|Hge];
      [assert (Z.testbit (x mod 2 ^ 12) i = false) as E by (change (2 ^ 12) with 4096; rewrite H; apply Z.bits_0);
       rewrite Z.mod_pow2_bits_low in E by lia; by rewrite E
      |rewrite (is_u_testbit_high 12 0x1e) by (done || lia); by rewrite andb_false_r]).
Qed.
Lemma uses_root n p : ept_uses n p -> eptp_root a p = root n.
Proof.
  intros [_ E]. unfold eptp_root. rewrite E, lor_flags by apply root_aligned. pose proof (root_aligned n) as H.
  rewrite Z.add_mod, H, Z.add_0_l, Z.mod_mod by lia. change (30 mod 4096) with 30. lia.
Qed.

Lemma translate_page n p m va lvl pa mt : ept_uses n p -> maps_as (root n) va m (Some (lvl, pa, mt)) ->
  translate a p m va = Some (pa + va mod 2 ^ (9 * lvl + 3)).
Proof.
  intros Hu (x & Hm & Hv). unfold translate. rewrite (eu_on _ _ Hu), (uses_root _ _ Hu). rewrite Hm.
  unfold view in Hv. injection Hv as _ Ha Hp _. unfold pme_prot, pme_r, prot_of in Hp. rewrite Ha.
  destruct (Z.testbit x 0); [done|]. exfalso. revert Hp. destruct (pme_w _ _ _), (pme_x _ _ _); vm_compute; congruence.
Qed.
Lemma translate_none n p m va : ept_uses n p -> maps_as (root n) va m None -> translate a p m va = None.
Proof. intros Hu Hm. unfold translate. rewrite (eu_on _ _ Hu), (uses_root _ _ Hu). unfold maps_as in Hm. by rewrite Hm. Qed.

Lemma ld4_bytes m p c : (forall b, in_range p 4 b -> rd8 m b = c) -> ld 4 m p = c + 2 ^ 8 * (c + 2 ^ 8 * (c + 2 ^ 8 * c)).
Proof.
  intros H. cbn [ld]. rewrite !H by (unfold in_range; lia). lia.
Qed.
Lemma target_load n p m : 0 < n < 32 -> ept_uses n p -> ept_cur n m ->
  ld 4 m <$> translate a p m 0x12340000 = Some (n + 2 ^ 8 * (n + 2 ^ 8 * (n + 2 ^ 8 * n))).
Proof.
  intros Hn Hu [_ Ht Hb _]. unfold target_leaf in Ht. rewrite (proj2 (Z.eqb_neq n 0)) in Ht by lia.
  rewrite (translate_page n p m _ _ _ _ Hu Ht). cbn [fmap option_fmap option_map]. f_equal.
  change (0x12340000 mod 2 ^ (9 * 1 + 3)) with 0. rewrite Z.add_0_r. apply ld4_bytes.
  intros b Hr. apply Hb. unfold in_range in *. lia.
Qed.
Lemma target_violation p m : ept_uses 0 p -> ept_cur 0 m -> ld 4 m <$> translate a p m 0x12340000 = None.
Proof. intros Hu [_ Ht _ _]. by rewrite (translate_none 0 p m _ Hu Ht). Qed.
End reading.
End groups.

(** ** The tests *)

Section ept_tests.
Context {a : subarch} {q : guest_cpu}.
#[local] Hint Extern 0 Device => exact (q_device a q) : typeclass_instances.
#[local] Hint Extern 0 Cpu => exact (q_cpu a q) : typeclass_instances.
#[local] Hint Extern 0 Guest => exact (q_guest a q) : typeclass_instances.
Context (amd64_max : Z) (g : opts) (es : ept_syms) (ds : desc_syms) (us : user_syms) (mid : list MIDTAB) (qemu : bool)
  (msr_bitmap_allcpu : Z) (run_user : Z * Z -> IO unit).
Abbreviation at_ := (at_ (a := a) (q := q)).
Abbreviation exited := (exited a q).
Context (e : ept_vcpu) (L : guest_layout a es (g_shv_opt g) e).
Abbreviation uses := (ept_uses a es e).
Abbreviation cur := (ept_cur a es (g_shv_opt g) e).
Abbreviation ready := (ept_ready a es (g_shv_opt g) e).

Lemma byte_of_same n i : 0 <= n < 256 -> 0 <= i < 4 -> byte_of (u32 (n + 2 ^ 8 * (n + 2 ^ 8 * (n + 2 ^ 8 * n)))) i = n.
Proof.
  intros Hn Hi. unfold byte_of, u8, u32. rewrite Z.shiftr_div_pow2 by lia.
  assert (i = 0 \/ i = 1 \/ i = 2 \/ i = 3) as [->|[->|[->| ->]]] by lia; unfold wrap; cbn [Z.mul Pos.mul];
    rewrite (Z.mod_small _ (2 ^ 32)) by lia; Z.div_mod_to_equations; lia.
Qed.

(** The exit qualification of the processor passes the check. *)
Lemma qualification_ok x : Z.land (wrap (ptr_bits a) (Z.lor 0x181 (Z.land x 0xe00))) (bnot (ptr_bits a) 0xe00) = 0x181.
Proof.
  assert (32 <= ptr_bits a) as Hp by (rewrite ptr_bits_is64; destruct (is64 a); lia).
  apply Z.bits_inj'. intros i Hi. rewrite Z.land_spec. unfold bnot. rewrite !wrap_testbit by lia.
  rewrite Z.lor_spec, Z.land_spec. destruct (Z.ltb_spec i (ptr_bits a)) as [Hlt|Hge]; cbn [andb].
  - rewrite Z.lnot_spec by lia. destruct (Z.testbit 0xe00 i) eqn:E0; cbn [negb]; rewrite ?andb_true_r, ?andb_false_r, ?orb_false_r; [|done].
    assert (9 <= i < 12) as Hr.
    { destruct (decide (12 <= i)); [by rewrite (is_u_testbit_high 12) in E0|].
      assert (i = 0 \/ i = 1 \/ i = 2 \/ i = 3 \/ i = 4 \/ i = 5 \/ i = 6 \/ i = 7 \/ i = 8 \/ 9 <= i < 12) as Hc by lia.
      by repeat destruct Hc as [->|Hc]. }
    by rewrite (is_u_testbit_high 9 0x181) by (done || lia).
  - by rewrite (is_u_testbit_high 9 0x181) by (done || lia).
Qed.

Lemma wp_violation v w p m (Q : VCPU * regs -> world -> Prop) : at_ w p m -> quiet_guest a p -> vcpu_override v = Some HEpt ->
  (forall w' p' r, at_ w' p' m -> keeps a [] [] p p' -> r_eax r = 0xfee1c0de ->
     Q (with_ept_exit_count (u32 (vcpu_ept_exit_count v + 1)) v, r) w') ->
  wp (guest_exit a amd64_max g es ds us mid qemu msr_bitmap_allcpu run_user VMX_VMEXIT_EPT_VIOLATION 0x12340000 v
       (call_regs 0xdeadbeef 0x12340000)) Q w.
Proof.
  intros H Hq Ho HQ. eapply wp_guest_exit; [exact H|exact Ho|done|]. intros tr. cbv zeta.
  rewrite after_exit_none by apply Hq. intros w1 len rip H1. cbn [call_handler fst snd] in *.
  unfold shv_guest_test_ept_vmexit_handler. cbn [vmexit_reason]. rewrite Z.eqb_refl. cbn [negb].
  assert (is_u (ptr_bits a) 0x12340000) as Hu by (apply (is_u_le 32); [rewrite ptr_bits_is64; destruct (is64 a); lia|done]).
  destruct (vm_exited_ept (q := q) tr 0x12340000 p Hu) as (F1 & F2 & F3).
  gstep. gstep. gstep. gstep. gstep. gstep. rewrite F1, F2, F3. rewrite Z.eqb_refl. cbn [negb orb].
  gstep. gstep; [by apply Z.eqb_eq, qualification_ok|]. gstep. gstep. gstep.
  eapply wp_resumed; [eassumption|field_simp; apply Hq|]. intros w2 rip2 H2. eapply HQ; [exact H2| |done].
  eapply (keeps_trip [] [] tr); [exact Hq|intros; by field_simp| |done|done].
  intros enc _ E2. rewrite vm_set_ne by (by apply Z.eqb_neq). done.
Qed.

Lemma wp_test_load v n w p m (Q : VCPU * Z -> world -> Prop) : at_ w p m -> quiet_guest a p -> vcpu_override v = Some HEpt ->
  0 <= n < 32 -> uses n p -> cur n m ->
  (n = 0 -> forall w' p', at_ w' p' m -> keeps a [] [] p p' -> Q (with_ept_exit_count (u32 (vcpu_ept_exit_count v + 1)) v, 0xfee1c0de) w') ->
  (0 < n -> Q (v, u32 (n + 2 ^ 8 * (n + 2 ^ 8 * (n + 2 ^ 8 * n)))) w) ->
  wp (test_load a amd64_max g es ds us mid qemu msr_bitmap_allcpu run_user v) Q w.
Proof.
  intros H Hq Ho Hn Hu Hc H0 H1. unfold test_load, wp. cbn [gm_load q_guest]. rewrite (proj1 H), (proj2 H).
  destruct (decide (n = 0)) as [->|Hne].
  - rewrite (target_violation a es (g_shv_opt g) e L p m Hu Hc).
    match goal with |- match ?M w with _ => _ end => change (wp M Q w) end. gstep.
    eapply wp_violation; [exact H|exact Hq|exact Ho|]. intros w' p' r H' Hk Hr. gstep. rewrite Hr. by eapply H0.
  - rewrite (target_load a es (g_shv_opt g) e L n p m) by (done || lia). apply H1. lia.
Qed.

Lemma ept_test v n w p m (Q : VCPU -> world -> Prop) : at_ w p m -> quiet_guest a p -> vcpu_override v = None ->
  vcpu_ept_exit_count v = 0 -> vcpu_ept_num v = n -> 0 <= n < 32 ->
  (opt_set g SHV_USE_EPT = true -> uses n p /\ cur n m) ->
  (forall w' p', at_ w' p' m -> keeps a [] [] p p' -> Q v w') ->
  wp (shv_guest_test_ept a amd64_max g es ds us mid qemu msr_bitmap_allcpu run_user v) Q w.
Proof.
  intros H Hq Ho He En Hn Hu HQ. unfold shv_guest_test_ept. destruct (opt_set g SHV_USE_EPT).
  2: { gstep. eapply HQ; [exact H|apply keeps_refl]. }
  destruct (Hu eq_refl) as [Hu1 Hc]. gstep. gstep; [by apply Z.eqb_eq|]. gstep.
  eapply wp_test_load; [exact H|exact Hq|by destruct v|exact Hn|exact Hu1|exact Hc| |].
  - intros ->. intros w' p' H' Hk. replace (vcpu_ept_num _) with 0 by (destruct v; exact (eq_sym En)).
    change (0 =? 0) with true. cbv iota. gstep. gstep. gstep. gstep.
    + destruct v; cbn in *. by subst.
    + gstep. replace (with_ept_exit_count 0 _) with v by (destruct v; cbn in *; by subst). by eapply HQ.
  - intros Hpos. replace (vcpu_ept_num _) with n by (destruct v; exact (eq_sym En)). rewrite (proj2 (Z.eqb_neq n 0)) by lia.
    gstep. do 3 (gstep; gstep; [apply Z.eqb_eq, byte_of_same; lia|]). gstep; [apply Z.eqb_eq, byte_of_same; lia|].
    gstep. gstep. { destruct v; cbn in *. by subst. }
    gstep. replace (with_ept_exit_count 0 _) with v by (destruct v; cbn in *; by subst). eapply HQ; [exact H|apply keeps_refl].
Qed.

(** ** Switching *)

Lemma next_ept_num_range n : 0 <= n < 32 -> 0 <= next_ept_num n < 32.
Proof. intros _. unfold next_ept_num. apply Z.mod_pos_bound. done. Qed.
Definition num_after (n : Z) : Z := if opt_set g SHV_USE_SWITCH_EPT then next_ept_num n else n.

Lemma with_num v n : vcpu_ept_num v = n -> with_ept_num n v = v.
Proof. destruct v. cbn. by intros <-. Qed.
Lemma num_with v n : vcpu_ept_num (with_ept_num n v) = n.
Proof. by destruct v. Qed.
Lemma override_num v h n : vcpu_override v = None -> with_override None (with_ept_num n (with_override h v)) = with_ept_num n v.
Proof. destruct v. cbn. by intros ->. Qed.

Lemma wp_build v n w p m (Q : Z -> world -> Prop) : at_ w p m -> vcpu_ept v = e -> ready m -> 0 <= n < 32 ->
  (forall w' m', at_ w' p m' -> ready m' -> cur n m' -> agree (fun b => ~ footprint es (g_shv_opt g) e b) m m' ->
     Q (ept_root_at es (v_idx e) (Z.shiftr n 4)) w') ->
  wp (build_ept a g es v n) Q w.
Proof.
  intros H Ev HR Hn HQ. unfold build_ept, wp. rewrite Ev, (proj2 H).
  destruct (ept_step a es (g_shv_opt g) e L n m (fun t x => cpu_vmx (w_tr w) Invept [t; x]) HR Hn) as (m' & -> & R & Cu & Hf); [done|].
  eapply HQ; [|done..]. destruct H as [H1 _]. by split.
Qed.

Lemma root_u64 n : 0 <= n < 32 -> u64 (Z.lor (ept_root_at es (v_idx e) (Z.shiftr n 4)) 0x1e) = Z.lor (ept_root_at es (v_idx e) (Z.shiftr n 4)) 0x1e.
Proof.
  intros Hn. apply wrap_small. rewrite lor_flags by (by apply (root_aligned a es (g_shv_opt g) e L)).
  pose proof (lay_root _ _ _ _ (gl_layout _ _ _ _ L n Hn)) as Hr.
  pose proof (root_aligned a es (g_shv_opt g) e L n) as Ha. set (r := ept_root_at es (v_idx e) (Z.shiftr n 4)) in *.
  assert (r < 2 ^ 64) as H64.
  { eapply Z.lt_le_trans; [apply Hr|]. apply Z.pow_le_mono_r; [lia|]. rewrite ptr_bits_is64. destruct (is64 a); lia. }
  unfold is_u. Z.div_mod_to_equations. lia.
Qed.

Lemma switch_test v n w p m (Q : VCPU -> world -> Prop) : at_ w p m -> quiet_guest a p -> vcpu_override v = None ->
  vcpu_ept v = e -> vcpu_ept_num v = n -> 0 <= n < 32 ->
  (opt_set g SHV_USE_SWITCH_EPT = true -> opt_set g SHV_USE_EPT = true) ->
  (opt_set g SHV_USE_EPT = true -> uses n p /\ ready m /\ cur n m) ->
  (forall w' p' m', at_ w' p' m' -> keeps a [0x201A; 0x201B] [] p p' -> agree (fun b => ~ footprint es (g_shv_opt g) e b) m m' ->
     (opt_set g SHV_USE_EPT = true -> uses (num_after n) p' /\ ready m' /\ cur (num_after n) m') -> Q (with_ept_num (num_after n) v) w') ->
  wp (shv_guest_switch_ept a amd64_max g es ds us mid qemu msr_bitmap_allcpu run_user v) Q w.
Proof.
  intros H Hq Ho Ev En Hn Hopt Hu HQ. unfold shv_guest_switch_ept. unfold num_after in *.
  destruct (opt_set g SHV_USE_SWITCH_EPT).
  2: { gstep. specialize (HQ w p m H (keeps_refl _ _ _) (agree_refl _ _) Hu). by rewrite with_num in HQ. }
  pose proof (Hopt eq_refl) as Hept. rewrite Hept in *. clear Hopt. destruct (Hu eq_refl) as (Hu1 & HR & _). clear Hu.
  gstep. gstep. unfold with_handler. gstep.
  eapply wp_call; [exact H|exact Hq|by destruct v|]. clear w H. intros tr w len rip H.
  cbn [call_handler]. unfold shv_guest_switch_ept_vmexit_handler. cbn [vmexit_reason]. rewrite Z.eqb_refl. cbn [negb].
  replace (vcpu_ept_num (with_override _ v)) with n by (destruct v; exact (eq_sym En)).
  gstep. gstep. gstep. gstep; [exact Hept|]. gstep.
  rewrite num_with.
  pose proof (next_ept_num_range n Hn) as Hn'.
  eapply wp_build; [exact H|by destruct v|exact HR|exact Hn'|]. clear w H. intros w m' H HR' Hc' Hf. gstep. gstep.
  rewrite root_u64 in * by done.
  eapply wp_resumed; [eassumption|field_simp; apply Hq|]. intros w2 rip2 H2.
  gstep. rewrite override_num by done.
  assert (keeps a [0x201A; 0x201B] [] p (entered a (set_vm 0x681E rip2
    (set_vm64 a 0x201A (Z.lor (ept_root_at es (v_idx e) (Z.shiftr (next_ept_num n) 4)) 0x1e) (exited tr VMX_VMEXIT_VMCALL 0 p))))) as Hk.
  { eapply (keeps_trip _ _ tr); [exact Hq|intros; by field_simp| |done|done].
    intros enc E1 E2. unfold outside in E1. cbn in E1. rewrite orb_false_r in E1. apply negb_true_iff, orb_false_iff in E1 as [? ?].
    rewrite vm_set_ne by (by apply Z.eqb_neq). by rewrite vm_set64_ne. }
  eapply HQ; [exact H2|exact Hk|exact Hf|]. intros _. split; [|done]. constructor.
  - destruct Hu1 as [Hon _]. unfold ept_on in *. by rewrite !(kp_vm _ _ _ _ _ Hk).
  - field_simp. apply vm64_set64_eq; [done|]. rewrite <- root_u64 by done. by apply is_u_wrap.
Qed.

(** ** Large pages *)

Lemma wp_guest_byte x y w p m (Q : Z -> world -> Prop) : at_ w p m -> translate a p m x = Some y -> Q (rd8 m y) w ->
  wp (guest_byte x) Q w.
Proof.
  intros H Ht HQ. unfold guest_byte, wp. cbn [gm_load q_guest]. rewrite (proj1 H), (proj2 H), Ht. cbn [fmap option_fmap option_map].
  replace (u8 (ld 4 m y)) with (rd8 m y); [done|]. cbn [ld]. unfold u8, wrap. pose proof (rd8_range m y) as [? ?].
  rewrite (Z.mul_comm (2 ^ 8)), Z.mod_add by lia. by rewrite Z.mod_small.
Qed.
Lemma large_page_test n w p m (Q : unit -> world -> Prop) : at_ w p m -> 0 <= n < 32 ->
  (opt_set g SHV_USE_LARGE_PAGE = true -> opt_set g SHV_USE_EPT = true) ->
  (opt_set g SHV_USE_EPT = true -> uses n p /\ cur n m) -> Q tt w -> wp (shv_guest_test_large_page g es) Q w.
Proof.
  intros H Hn Hopt Hu HQ. unfold shv_guest_test_large_page.
  change (opt_set g SHV_USE_LARGE_PAGE) with (use_large (g_shv_opt g)) in *.
  destruct (use_large (g_shv_opt g)) eqn:Hl; [|by gstep].
  rewrite (Hopt eq_refl) in *. destruct (Hu eq_refl) as [Hu1 [_ _ _ Hc]]. destruct (Hc Hl) as (M0 & M1 & B0 & B1).
  pose proof (large_facts a es e n (gl_layout _ _ _ _ L n Hn)) as ((_ & _ & A0 & _) & (_ & _ & A1 & _) & _).
  gstep. gstep. gstep. apply wp_must_be.
  assert (large_pages_at es 0 = s_large_pages es) as E0 by (unfold large_pages_at; lia).
  assert (large_pages_at es 1 = s_large_pages es + 0x200000) as E1 by (unfold large_pages_at, PA_PAGE_SIZE_2M; lia).
  eapply (translate_page a es (g_shv_opt g) e L) in M0, M1; [|exact Hu1..].
  change (2 ^ (9 * 2 + 3)) with (2 ^ 21) in *. rewrite A0, A1 in *. rewrite Z.add_0_r, E0 in M0. rewrite Z.add_0_r, E1 in M1.
  eapply wp_guest_byte; [exact H|exact M0|]. split; [exact B1|]. apply wp_must_be.
  eapply wp_guest_byte; [exact H|exact M1|]. split; [exact B0|exact HQ].
Qed.
End ept_tests.
