(* ===== verification/GuestBitmap.v ===== *)
(** The test of the MSR bitmap in [src/shv-guest.c]: an abstract machine of its steps, and that the guest and the handler do on
    the processor of GuestMachine what the abstract machine says. *)
From Stdlib Require Import String.
From S2P Require Import Prelude.
From S2P Require Import Bitfield.
From S2P Require Import HptLemmas.
From S2P Require Import Mem.
From S2P Require Import Ept.
From S2P Require Import Cmdline.
From S2P Require Import Io.
From S2P Require Import Smp.
From S2P Require Import Desc.
From S2P Require Import Timer.
From S2P Require Import VmxCtls.
From S2P Require Import VmcsFields.
From S2P Require Import Vmcs.
From S2P Require Import VmcsProps.
From S2P Require Import Vcpu.
From S2P Require Import Vmx.
From S2P Require Import User.
From S2P Require Import Guest.
From S2P Require Import GuestMachine.
From S2P Require Import GuestRules.
From S2P Require Import GuestTests.
Local Open Scope string_scope.
Local Open Scope Z_scope.

(** ** The abstract machine *)

(** Whether bitmaps are in use, the bits that are set, and the MSRs whose values the test looks at. *)
Record bst := mkB { b_on : bool; b_bits : list Z; b_tsc : Z; b_fs : Z; b_gs : Z }.
Definition MSR_LSTAR : Z := 0xc0000082.
Definition MSR_TSC_ADJUST : Z := 0x3b.

Definition b_exits (write : bool) (ecx : Z) (s : bst) : bool :=
  if b_on s then match bitmap_bit write ecx with Some n => existsb (Z.eqb n) (b_bits s) | None => true end else true.
Definition known (ecx : Z) : bool := existsb (Z.eqb ecx) [MSR_LSTAR; MSR_TSC_ADJUST; IA32_MSR_FS_BASE; IA32_MSR_GS_BASE].
Definition unknown (ecx : Z) : bool := existsb (Z.eqb ecx) [0x1fff; 0xc0001fff].
(** What the test sees of an access. *)
Definition b_outcome (write : bool) (ecx : Z) (s : bst) : option Z :=
  if b_exits write ecx s then (if (u32 ecx =? MSR_APIC_BASE) || (u32 ecx =? IA32_X2APIC_APICID) then None else Some MSR_TEST_VMEXIT)
  else if known ecx then Some MSR_TEST_NORMAL else if unknown ecx then Some MSR_TEST_EXCEPT else None.
Definition b_set (ecx x : Z) (s : bst) : bst :=
  mkB (b_on s) (b_bits s) (if ecx =? MSR_TSC_ADJUST then x else b_tsc s)
    (if ecx =? IA32_MSR_FS_BASE then x else b_fs s) (if ecx =? IA32_MSR_GS_BASE then x else b_gs s).
Definition in_word (x : Z) : bool := (0 <=? x) && (x <? 2 ^ 32).

Definition b_call (eax n : Z) (s : bst) : option bst :=
  if eax =? 34 then
    if negb (b_on s) && (b_tsc s =? 0) then match b_bits s with [] => Some (mkB true [] 0 (b_fs s) (b_gs s)) | _ => None end else None
  else if eax =? 37 then if b_on s then Some (mkB false (b_bits s) 0 (b_fs s) (b_gs s)) else None
  else if eax =? 38 then
    if (0 <=? n) && (n <? 0x8000) && negb (existsb (Z.eqb n) (b_bits s)) then Some (mkB (b_on s) (n :: b_bits s) (b_tsc s) (b_fs s) (b_gs s)) else None
  else if eax =? 39 then
    if (0 <=? n) && (n <? 0x8000) && existsb (Z.eqb n) (b_bits s)
    then Some (mkB (b_on s) (List.filter (fun k => negb (k =? n)) (b_bits s)) (b_tsc s) (b_fs s) (b_gs s)) else None
  else if eax =? 41 then
    if (b_fs s =? 0) && (b_gs s =? 0) then Some (mkB (b_on s) (b_bits s) (b_tsc s) 0x680effff 0x6810ffff) else None
  else if eax =? 42 then
    if (b_fs s =? 0xffff680e) && (b_gs s =? 0xffff6810) then Some (mkB (b_on s) (b_bits s) (b_tsc s) 0 0) else None
  else None.
Definition guard {A} (b : bool) (x : A) : option A := if b then Some x else None.
Definition b_step (x : bitmap_step) (s : bst) : option bst :=
  match x with
  | Call eax ebx => b_call (u32 eax) (u32 ebx) s
  | TestR ecx e => o ← b_outcome false ecx s; guard (o =? e) s
  | TestW ecx e val =>
      o ← b_outcome true ecx s;
      guard ((o =? e) && (0 <=? val) && (val <? 2 ^ 64) && ((ecx =? MSR_LSTAR) || (ecx =? MSR_TSC_ADJUST) || in_word val || negb (o =? MSR_TEST_NORMAL)))
        (if o =? MSR_TEST_NORMAL then b_set ecx val s else s)
  | Value ecx e =>
      guard (negb (b_exits false ecx s) &&
        (((ecx =? IA32_MSR_FS_BASE) && (b_fs s =? e)) || ((ecx =? IA32_MSR_GS_BASE) && (b_gs s =? e)))) s
  | Cli | StiIf => Some s
  end.
Fixpoint b_run (l : list bitmap_step) (s : bst) : option bst :=
  match l with [] => Some s | x :: l => s ← b_step x s; b_run l s end.

Definition b_idle : bst := mkB false [] 0 0 0.
Lemma b_test : b_run msr_bitmap_steps b_idle = Some b_idle.
Proof. vm_compute. reflexivity. Qed.

(** ** Bits in memory *)

Lemma bit_at_store m addr k v n : 0 <= v < 256 -> 0 <= n ->
  bit_at (st 1 m (addr + k) v) addr n = if n / 8 =? k then Z.testbit v (n mod 8) else bit_at m addr n.
Proof.
  intros Hv Hn. unfold bit_at. rewrite rd8_st. change (Z.of_nat 1) with 1.
  destruct (Z.eqb_spec (n / 8) k) as [->|Hk].
  - rewrite (proj2 (Z.leb_le _ _)), (proj2 (Z.ltb_lt _ _)) by lia. cbn [andb].
    replace (8 * (addr + k - (addr + k))) with 0 by lia. rewrite Z.div_1_r. unfold u8, wrap. by rewrite Z.mod_small by lia.
  - destruct ((addr + k <=? addr + n / 8) && (addr + n / 8 <? addr + k + 1)) eqn:E; [|done].
    apply andb_prop in E as [?%Z.leb_le ?%Z.ltb_lt]. lia.
Qed.
Lemma same_bit n k : 0 <= n -> 0 <= k -> (n / 8 =? k / 8) && (n mod 8 =? k mod 8) = (n =? k).
Proof.
  intros Hn Hk. destruct (Z.eqb_spec n k) as [->|H]; [by rewrite !Z.eqb_refl|].
  apply andb_false_iff. rewrite !Z.eqb_neq. pose proof (Z.div_mod n 8). pose proof (Z.div_mod k 8). lia.
Qed.
Lemma bitmap_mask_bit k i : 0 <= i -> Z.testbit (bitmap_mask k) i = (i =? k mod 8).
Proof.
  intros Hi. unfold bitmap_mask. rewrite Z.shiftl_1_l, Z.pow2_bits_eqb by (apply Z.mod_pos_bound; lia). apply Z.eqb_sym.
Qed.
Lemma truth_bit x k : truth (Z.land x (bitmap_mask k)) = Z.testbit x (k mod 8).
Proof.
  pose proof (Z.mod_pos_bound k 8 ltac:(lia)) as Hk.
  assert (Z.land x (bitmap_mask k) = Z.shiftl (b2z (Z.testbit x (k mod 8))) (k mod 8)) as ->.
  { apply Z.bits_inj'. intros i Hi. rewrite Z.land_spec, bitmap_mask_bit by done. bits; subst; by rewrite ?andb_true_r, ?andb_false_r. }
  unfold truth. destruct (Z.testbit x (k mod 8)); cbn [b2z Z.b2z]; [|by rewrite Z.shiftl_0_l].
  rewrite Z.shiftl_1_l. apply negb_true_iff, Z.eqb_neq. apply Z.pow_nonzero; lia.
Qed.
Lemma byte_bits_zero x : is_u 8 x -> (forall i, 0 <= i < 8 -> Z.testbit x i = false) -> x = 0.
Proof.
  intros Hx H. apply Z.bits_inj'. intros i Hi. rewrite Z.bits_0. destruct (decide (i < 8)); [by apply H|].
  apply (is_u_testbit_high 8); [done|lia].
Qed.

(** ** The abstract machine is right *)

Section bitmap.
Context {a : subarch} {q : guest_cpu}.
#[local] Hint Extern 0 Device => exact (q_device a q) : typeclass_instances.
#[local] Hint Extern 0 Cpu => exact (q_cpu a q) : typeclass_instances.
#[local] Hint Extern 0 Guest => exact (q_guest a q) : typeclass_instances.
Context (amd64_max : Z) (g : opts) (es : ept_syms) (ds : desc_syms) (us : user_syms) (mid : list MIDTAB) (qemu : bool)
  (msr_bitmap_allcpu : Z) (run_user : Z * Z -> IO unit).
Abbreviation at_ := (at_ (a := a) (q := q)).
Abbreviation exited := (exited a q).

(** The MSRs of the test exist, but for two. *)
Record bitmap_msrs : Prop := {
  bq_known i : known i = true -> q_readable q i = true /\ q_writable q i = true;
  bq_unknown i : unknown i = true -> q_readable q i = false /\ q_writable q i = false }.
Context (HM : bitmap_msrs).

Context (v : VCPU) (Ho : vcpu_override v = Some HMsrBitmap).
Abbreviation B := (msr_bitmap_of msr_bitmap_allcpu v).
Context (HB : is_u (ptr_bits a) B).

(** The state [s] of the abstract machine, after the test started in [p0] and [m0]. *)
Definition free_msr (i : Z) : bool := negb (existsb (Z.eqb i) [MSR_LSTAR; MSR_TSC_ADJUST; IA32_MSR_FS_BASE; IA32_MSR_GS_BASE]).
Record bm_rel (p0 : pst) (m0 : mem) (s : bst) (p : pst) (m : mem) : Prop := {
  bm_guest : p_guest p = true;
  bm_proc : vm a p 0x4002 = if b_on s then Z.lor (vm a p0 0x4002) use_msr_bitmaps_mask else vm a p0 0x4002;
  bm_addr : b_on s = true -> vm64 a p 0x2004 = B;
  bm_tsc : p_msr p MSR_TSC_ADJUST = b_tsc s;
  bm_fs : p_msr p IA32_MSR_FS_BASE = b_fs s /\ is_u 32 (b_fs s);
  bm_gs : p_msr p IA32_MSR_GS_BASE = b_gs s /\ is_u 32 (b_gs s);
  bm_msr i : free_msr i = true -> p_msr p i = p_msr p0 i;
  bm_vm enc : outside [0x4002; 0x2004; 0x2005] enc = true -> exit_field enc = false -> vm a p enc = vm a p0 enc;
  bm_mem : agree (fun b => ~ in_range B PAGE_SIZE_4K b) m0 m;
  bm_bits n : 0 <= n < 0x8000 -> bit_at m B n = existsb (Z.eqb n) (b_bits s) }.
(** How it may start. *)
Record bm_start (p0 : pst) : Prop := {
  bs_off : Z.testbit (vm a p0 0x4002) 28 = false;
  bs_areas : no_areas (a := a) p0;
  bs_host : vm a p0 0x6C06 = 0 /\ vm a p0 0x6C08 = 0 }.
Context (p0 : pst) (m0 : mem) (Hs : bm_start p0).
Abbreviation bm := (bm_rel p0 m0).

Lemma ptr32 x : is_u 32 x -> wrap (ptr_bits a) x = x.
Proof. intros H. apply wrap_small, (is_u_le 32); [rewrite ptr_bits_is64; destruct (is64 a); lia|done]. Qed.

(** After an exit the fields are as before, and the bases are the host's. *)
Record bm_exit (s : bst) (p1 : pst) (m : mem) : Prop := {
  be_proc : vm a p1 0x4002 = if b_on s then Z.lor (vm a p0 0x4002) use_msr_bitmaps_mask else vm a p0 0x4002;
  be_addr : b_on s = true -> vm64 a p1 0x2004 = B;
  be_tsc : p_msr p1 MSR_TSC_ADJUST = b_tsc s;
  be_fs : vm a p1 0x680E = b_fs s /\ is_u 32 (b_fs s);
  be_gs : vm a p1 0x6810 = b_gs s /\ is_u 32 (b_gs s);
  be_host : p_msr p1 IA32_MSR_FS_BASE = 0 /\ p_msr p1 IA32_MSR_GS_BASE = 0;
  be_msr i : free_msr i = true -> p_msr p1 i = p_msr p0 i;
  be_vm enc : outside [0x4002; 0x2004; 0x2005] enc = true -> exit_field enc = false -> vm a p1 enc = vm a p0 enc;
  be_mem : agree (fun b => ~ in_range B PAGE_SIZE_4K b) m0 m;
  be_bits n : 0 <= n < 0x8000 -> bit_at m B n = existsb (Z.eqb n) (b_bits s) }.

Lemma free_msr_ne i : free_msr i = true -> (i =? IA32_MSR_FS_BASE) = false /\ (i =? IA32_MSR_GS_BASE) = false /\ (i =? MSR_TSC_ADJUST) = false /\ (i =? MSR_LSTAR) = false.
Proof. unfold free_msr. cbn. rewrite negb_true_iff, !orb_false_iff. tauto. Qed.

Lemma exit_state s p m tr reason : bm s p m -> bm_exit s (exited tr reason 0 p) m.
Proof.
  intros [G P A T [F Fr] [F' Fr'] M V Me Bi]. pose proof (vm_exited_info (a := a) (q := q) tr reason 0 p) as (_ & _ & EF & EG).
  destruct Hs as [_ _ [H1 H2]].
  constructor; try done.
  - by rewrite vm_exited_ne.
  - intros E. rewrite vm64_exited_ne by done. by apply A.
  - by rewrite EF, F, ptr32.
  - by rewrite EG, F', ptr32.
  - split; [rewrite msr_exited_fs|rewrite msr_exited_gs]; by rewrite V.
  - intros i Hi. destruct (free_msr_ne i Hi) as (? & ? & _). rewrite msr_exited_ne by done. by apply M.
  - intros enc E1 E2. rewrite vm_exited_ne by done. by apply V.
Qed.
Lemma enter_state s p m : bm_exit s p m -> bm s (entered a p) m.
Proof.
  intros [P A T [F Fr] [F' Fr'] _ M V Me Bi]. constructor; try done.
  intros i Hi. destruct (free_msr_ne i Hi) as (? & ? & _). rewrite msr_entered_ne by done. by apply M.
Qed.
Lemma exit_rip s p m rip : bm_exit s p m -> bm_exit s (set_vm 0x681E rip p) m.
Proof.
  intros [P A T F F' H M V Me Bi]. constructor; try done; rewrite ?vm_set_ne, ?vm64_set_ne by reflexivity; try done.
  intros enc E1 E2. rewrite vm_set_ne; [by apply V|]. destruct (Z.eqb_spec enc 0x681E) as [->|]; [discriminate E2|done].
Qed.

(** The end of a handler, and a whole exit. *)
Lemma bm_areas s p m : bm s p m -> no_areas (a := a) p.
Proof. intros H. destruct (bs_areas _ Hs) as (H1 & H2 & H3). unfold no_areas. by rewrite !(bm_vm _ _ _ _ _ H). Qed.
Lemma wp_back v' r info s w p m (Q : VCPU -> regs -> world -> Prop) : at_ w p m -> bm_exit s p m ->
  (forall w' p', at_ w' p' m -> bm s p' m -> Q v' r w') ->
  wp (resume a v' r info) (fun res w' => match res with
     | Entered launch v' r' => wp (vm_entry launch) (fun _ w'' => Q v' r' w'') w'
     | Returned _ _ => False
     end) w.
Proof.
  intros H Hb HQ. eapply wp_resumed; [exact H| |].
  - rewrite (be_vm _ _ _ Hb) by done. apply (bs_areas _ Hs).
  - intros w' rip H'. eapply HQ; [exact H'|]. by apply enter_state, exit_rip.
Qed.

(** ** The calls *)

Lemma known_rw i : known i = true -> q_readable q i = true /\ q_writable q i = true.
Proof. apply (bq_known HM). Qed.
Lemma wp_load_byte x w p m (Q : Z -> world -> Prop) : at_ w p m -> Q (rd8 m x) w -> wp (load 1 x) Q w.
Proof. intros H HQ. eapply wp_load; [exact H|]. cbn [ld]. by rewrite Z.mul_0_r, Z.add_0_r. Qed.
Lemma assert_clear_ok n : forall x w p m (Q : unit -> world -> Prop), at_ w p m ->
  (forall b, in_range x (Z.of_nat n) b -> rd8 m b = 0) -> Q tt w -> wp (assert_clear n x) Q w.
Proof.
  induction n as [|n IH]; intros x w p m Q H Hz HQ; cbn [assert_clear]; [by apply wp_ret|].
  apply wp_bind, wp_must_be. eapply wp_load_byte; [exact H|]. split; [apply Hz; unfold in_range; lia|].
  eapply IH; [exact H| |exact HQ]. intros b Hb. apply Hz. unfold in_range in *. lia.
Qed.
Lemma clear_bytes s p m b : bm_exit s p m -> b_bits s = [] -> in_range B PAGE_SIZE_4K b -> rd8 m b = 0.
Proof.
  intros Hb Hn Hr. apply byte_bits_zero; [apply rd8_range|]. intros i Hi. unfold in_range, PAGE_SIZE_4K in Hr.
  pose proof (be_bits _ _ _ Hb (8 * (b - B) + i) ltac:(lia)) as E. rewrite Hn in E. unfold bit_at in E.
  replace ((8 * (b - B) + i) / 8) with (b - B) in E by (Z.div_mod_to_equations; lia).
  replace ((8 * (b - B) + i) mod 8) with i in E by (Z.div_mod_to_equations; lia).
  replace (B + (b - B)) with b in E by lia. exact E.
Qed.

Lemma proc_bit s p m : bm_exit s p m -> Z.land (vm a p 0x4002) use_msr_bitmaps_mask = if b_on s then use_msr_bitmaps_mask else 0.
Proof.
  intros Hb. rewrite (be_proc _ _ _ Hb). pose proof (bs_off _ Hs) as Hoff. unfold use_msr_bitmaps_mask in *.
  change (Z.shiftl 1 28) with (2 ^ 28). apply Z.bits_inj'. intros i Hi. rewrite Z.land_spec, Z.pow2_bits_eqb by lia.
  destruct (b_on s); [rewrite Z.lor_spec|]; rewrite ?Z.bits_0, ?Z.pow2_bits_eqb by lia;
    (destruct (Z.eqb_spec 28 i) as [<-|]; [rewrite ?Hoff|]); by rewrite ?andb_false_r.
Qed.
Lemma proc_off : Z.land (Z.lor (vm a p0 0x4002) use_msr_bitmaps_mask) (bnot 32 use_msr_bitmaps_mask) = vm a p0 0x4002.
Proof.
  pose proof (bs_off _ Hs) as Hoff. pose proof (vm_range (a := a) p0 0x4002) as Hr. change (enc_bits a 0x4002) with 32 in Hr.
  unfold use_msr_bitmaps_mask. change (Z.shiftl 1 28) with (2 ^ 28). apply Z.bits_inj'. intros i Hi.
  rewrite Z.land_spec, Z.lor_spec, bnot_testbit, Z.pow2_bits_eqb by lia. destruct (Z.eqb_spec 28 i) as [<-|Hne].
  - rewrite Hoff. by rewrite andb_false_r.
  - rewrite orb_false_r. destruct (Z.ltb_spec i 32); [by rewrite andb_true_r|]. cbn. rewrite andb_false_r.
    symmetry. by apply (is_u_testbit_high 32).
Qed.
Lemma proc_u32 : u32 (vm a p0 0x4002) = vm a p0 0x4002 /\ u32 (Z.lor (vm a p0 0x4002) use_msr_bitmaps_mask) = Z.lor (vm a p0 0x4002) use_msr_bitmaps_mask.
Proof.
  pose proof (vm_range (a := a) p0 0x4002) as Hr. change (enc_bits a 0x4002) with 32 in Hr. split; apply wrap_small; [done|].
  by apply is_u_lor.
Qed.

Lemma bits_free n enc : outside [0x4002; 0x2004; 0x2005] enc = true -> n = 0x4002 \/ n = 0x2004 \/ n = 0x2005 -> (enc =? n) = false.
Proof. unfold outside. cbn. rewrite negb_true_iff, !orb_false_iff. intros (? & ? & ? & _) [->|[->| ->]]; done. Qed.

(** What enabling and disabling write, and a write of the offset of the time stamp counter. *)
Lemma exit_enable s p m : bm_exit s p m ->
  bm_exit (mkB true (b_bits s) (b_tsc s) (b_fs s) (b_gs s))
    (set_vm64 a 0x2004 B (set_vm 0x4002 (Z.lor (vm a p0 0x4002) use_msr_bitmaps_mask) p)) m.
Proof.
  intros [P A T F F' H M V Me Bi].
  constructor; rewrite ?vm_set64_ne, ?msr_set_vm64, ?vm_set_ne by reflexivity; try done.
  - rewrite vm_set_eq. change (enc_bits a 0x4002) with 32. apply proc_u32.
  - intros _. apply vm64_set64_eq; [done|]. apply (is_u_le (ptr_bits a)); [rewrite ptr_bits_is64; destruct (is64 a); lia|done].
  - intros i Hi. rewrite msr_set_vm64. by apply M.
  - intros enc E1 E2. rewrite vm_set64_ne, vm_set_ne; [by apply V|apply (bits_free _ _ E1); auto..].
Qed.
Lemma exit_disable s p m : bm_exit s p m ->
  bm_exit (mkB false (b_bits s) (b_tsc s) (b_fs s) (b_gs s)) (set_vm 0x4002 (vm a p0 0x4002) p) m.
Proof.
  intros [P A T F F' H M V Me Bi]. constructor; rewrite ?vm_set_ne, ?vm64_set_ne by reflexivity; try done.
  - rewrite vm_set_eq. change (enc_bits a 0x4002) with 32. apply proc_u32.
  - intros enc E1 E2. rewrite vm_set_ne; [by apply V|]. apply (bits_free _ _ E1). auto.
Qed.
Lemma exit_tsc s p m x : bm_exit s p m -> bm_exit (mkB (b_on s) (b_bits s) x (b_fs s) (b_gs s)) (set_msr MSR_TSC_ADJUST x p) m.
Proof.
  intros [P A T F F' H M V Me Bi]. constructor; try done. intros i Hi. destruct (free_msr_ne i Hi) as (_ & _ & ? & _).
  rewrite msr_set_ne by done. by apply M.
Qed.

(** Setting and clearing a bit. *)
Lemma exit_bits s p m n y l : bm_exit s p m -> 0 <= n < 0x8000 -> is_u 8 y ->
  (forall i, 0 <= i < 8 -> Z.testbit y i = if i =? n mod 8 then existsb (Z.eqb n) l else Z.testbit (rd8 m (bitmap_byte msr_bitmap_allcpu v n)) i) ->
  (forall k, k <> n -> existsb (Z.eqb k) l = existsb (Z.eqb k) (b_bits s)) ->
  bm_exit (mkB (b_on s) l (b_tsc s) (b_fs s) (b_gs s)) p (st 1 m (bitmap_byte msr_bitmap_allcpu v n) y).
Proof.
  intros [P A T F F' H M V Me Bi] Hn Hy Hbit Hl. constructor; try done.
  - eapply agree_trans; [exact Me|]. apply agree_st. unfold in_range, bitmap_byte, PAGE_SIZE_4K.
    intros b Hb Hr. apply Hb. Z.div_mod_to_equations. lia.
  - intros k Hk. unfold bitmap_byte in *. rewrite bit_at_store by (unfold is_u in Hy; lia). cbn [b_bits].
    pose proof (same_bit k n ltac:(lia) ltac:(lia)) as Hs'. destruct (Z.eqb_spec (k / 8) (n / 8)) as [Ek|Ek].
    + rewrite Hbit by (apply Z.mod_pos_bound; lia). cbn [andb] in Hs'. rewrite Hs'. destruct (Z.eqb_spec k n) as [->|Hne]; [done|].
      rewrite Hl by done. rewrite <- Bi by done. unfold bit_at. by rewrite Ek.
    + cbn [andb] in Hs'. rewrite Bi by done. symmetry. apply Hl. intros ->. by rewrite Z.eqb_refl in Hs'.
Qed.
Lemma bit_here s p m n : bm_exit s p m -> 0 <= n < 0x8000 ->
  Z.testbit (rd8 m (bitmap_byte msr_bitmap_allcpu v n)) (n mod 8) = existsb (Z.eqb n) (b_bits s).
Proof. intros H Hn. by apply (be_bits _ _ _ H). Qed.
Lemma in_filter k n l : k <> n -> existsb (Z.eqb k) (List.filter (fun x => negb (x =? n)) l) = existsb (Z.eqb k) l.
Proof.
  intros Hne. induction l as [|x l IH]; [done|]. cbn. destruct (Z.eqb_spec x n) as [->|]; cbn; rewrite IH; [|done].
  by rewrite (proj2 (Z.eqb_neq k n)).
Qed.
Lemma not_in_filter n l : existsb (Z.eqb n) (List.filter (fun x => negb (x =? n)) l) = false.
Proof.
  induction l as [|x l IH]; [done|]. cbn. destruct (Z.eqb_spec x n) as [->|]; cbn; [done|].
  rewrite IH. by rewrite (proj2 (Z.eqb_neq n x)).
Qed.

Lemma exit_bases s p m x y : bm_exit s p m -> is_u 32 x -> is_u 32 y ->
  bm_exit (mkB (b_on s) (b_bits s) (b_tsc s) x y) (set_vm 0x6810 (wrap (ptr_bits a) y) (set_vm 0x680E (wrap (ptr_bits a) x) p)) m.
Proof.
  intros [P A T F F' H M V Me Bi] Hx Hy. rewrite !ptr32 by done.
  constructor; rewrite ?vm_set_ne, ?vm64_set_ne by reflexivity; try done.
  - rewrite vm_set_eq. split; [by apply ptr32|done].
  - rewrite vm_set_eq. split; [by apply ptr32|done].
  - intros enc E1 E2. rewrite !vm_set_ne; [by apply V|..]; apply Z.eqb_neq; intros ->; discriminate E2.
Qed.
Lemma set_byte_ok x n : is_u 8 x -> is_u 8 (Z.lor x (bitmap_mask n)).
Proof.
  intros Hx. pose proof (Z.mod_pos_bound n 8 ltac:(lia)) as Hn. apply is_u_lor; [lia|done|]. unfold bitmap_mask, is_u.
  rewrite Z.shiftl_1_l. split; [apply Z.pow_nonneg; lia|apply Z.pow_lt_mono_r; lia].
Qed.
Lemma clear_byte_ok x n : is_u 8 x -> is_u 8 (Z.land x (bnot 32 (bitmap_mask n))).
Proof.
  intros Hx. apply is_u_of_testbit; [lia|apply Z.land_nonneg; left; apply Hx|]. intros i Hi.
  by rewrite Z.land_spec, (is_u_testbit_high 8).
Qed.

(** Every call does what the abstract machine says. *)
Lemma wp_bitmap_call eax n s s' w p m (Q : unit -> world -> Prop) : b_call eax n s = Some s' -> at_ w p m -> bm_exit s p m ->
  (forall w' p' m', at_ w' p' m' -> bm_exit s' p' m' -> Q tt w') -> wp (bitmap_call a msr_bitmap_allcpu v eax n) Q w.
Proof.
  unfold b_call, bitmap_call. intros E H Hb HQ. destruct proc_u32 as [U1 U2].
  destruct (eax =? 34).
  { destruct (b_on s) eqn:Eon; [done|]. destruct (Z.eqb_spec (b_tsc s) 0) as [Et|]; [|done]. destruct (b_bits s) eqn:Ebits; [|done].
    injection E as <-. pose proof (exit_enable _ _ _ Hb) as He. rewrite Ebits, Et in He.
    pose proof (proc_bit _ _ _ Hb) as Hp. pose proof (be_proc _ _ _ Hb) as Hv. rewrite Eon in Hp, Hv. unfold bitmap_enable.
    gstep. gstep. gstep. gstep; [by rewrite Hp|]. gstep. rewrite Hv. gstep. gstep.
    eapply assert_clear_ok; [eassumption| |].
    { intros b Hr. rewrite Z2Nat.id in Hr by done. by eapply clear_bytes. }
    gstep. gstep. apply wp_must_be. rewrite U2 in *.
    assert (u64 B = B) as EB by (apply wrap_small, (is_u_le (ptr_bits a)); [rewrite ptr_bits_is64; destruct (is64 a); lia|done]).
    rewrite EB in *. eapply wp_rmsr; [eassumption|by apply known_rw|]. intros w2 H2. split; [|by eapply HQ].
    change 0x3b with MSR_TSC_ADJUST. by rewrite (be_tsc _ _ _ He). }
  destruct (eax =? 37).
  { destruct (b_on s) eqn:Eon; [|done]. injection E as <-. pose proof (exit_disable _ _ _ Hb) as He.
    pose proof (proc_bit _ _ _ Hb) as Hp. pose proof (be_proc _ _ _ Hb) as Hv. rewrite Eon in Hp, Hv. unfold bitmap_disable.
    gstep. gstep. gstep. gstep; [by rewrite Hp, Z.eqb_refl|]. gstep. rewrite Hv. gstep. rewrite proc_off, U1 in *.
    eapply wp_wmsr; [eassumption|by apply known_rw|]. intros w2 H2. eapply HQ; [exact H2|].
    by apply (exit_tsc _ _ _ 0 He). }
  destruct (eax =? 38).
  { destruct (Z.leb_spec 0 n) as [H0|]; [|done]. destruct (Z.ltb_spec n 0x8000) as [H1|]; [|done].
    destruct (existsb (Z.eqb n) (b_bits s)) eqn:Ein; [done|]. injection E as <-.
    pose proof (bit_here _ _ _ n Hb ltac:(lia)) as Hbit. rewrite Ein in Hbit. unfold bitmap_set.
    gstep. gstep; [by apply Z.ltb_lt|]. gstep. eapply wp_load_byte; [exact H|]. gstep. gstep; [by rewrite truth_bit, Hbit|].
    gstep. eapply wp_load_byte; [exact H|]. eapply wp_store; [exact H|]. intros w2 H2. eapply HQ; [exact H2|].
    apply (exit_bits s p m n _ (n :: b_bits s) Hb); [lia|apply set_byte_ok, rd8_range| |].
    - intros i Hi. rewrite Z.lor_spec, bitmap_mask_bit by lia. cbn. rewrite Z.eqb_refl. destruct (i =? n mod 8); [apply orb_true_r|apply orb_false_r].
    - intros k Hk. cbn. by rewrite (proj2 (Z.eqb_neq k n)). }
  destruct (eax =? 39).
  { destruct (Z.leb_spec 0 n) as [H0|]; [|done]. destruct (Z.ltb_spec n 0x8000) as [H1|]; [|done].
    destruct (existsb (Z.eqb n) (b_bits s)) eqn:Ein; [|done]. injection E as <-.
    pose proof (bit_here _ _ _ n Hb ltac:(lia)) as Hbit. rewrite Ein in Hbit. unfold bitmap_clear.
    gstep. gstep; [by apply Z.ltb_lt|]. gstep. eapply wp_load_byte; [exact H|]. gstep. gstep; [by rewrite truth_bit, Hbit|].
    gstep. eapply wp_load_byte; [exact H|]. eapply wp_store; [exact H|]. intros w2 H2. eapply HQ; [exact H2|].
    apply (exit_bits s p m n _ _ Hb); [lia|apply clear_byte_ok, rd8_range| |].
    - intros i Hi. rewrite Z.land_spec, bnot_testbit, bitmap_mask_bit, not_in_filter by lia.
      rewrite (proj2 (Z.ltb_lt i 32)) by lia. destruct (i =? n mod 8); [apply andb_false_r|apply andb_true_r].
    - intros k Hk. by apply in_filter. }
  destruct (eax =? 41).
  { destruct (Z.eqb_spec (b_fs s) 0) as [Ef|]; [|done]. destruct (Z.eqb_spec (b_gs s) 0) as [Eg|]; [|done]. injection E as <-.
    destruct (be_host _ _ _ Hb) as [Z1 Z2]. destruct (be_fs _ _ _ Hb) as [F1 _]. destruct (be_gs _ _ _ Hb) as [F2 _]. unfold fs_gs_prepare.
    gstep. apply wp_must_be. eapply wp_rmsr; [exact H|by apply known_rw|]. intros w1 H1. rewrite Z1. split; [done|].
    gstep. apply wp_must_be. eapply wp_rmsr; [exact H1|by apply known_rw|]. intros w2 H2. rewrite Z2. split; [done|].
    clear H H1. gstep. apply wp_must_be. gstep. rewrite F1, Ef. split; [done|]. gstep. apply wp_must_be. gstep. rewrite F2, Eg. split; [done|].
    gstep. gstep. gstep. eapply HQ; [eassumption|]. by apply exit_bases. }
  destruct (eax =? 42); [|done].
  destruct (Z.eqb_spec (b_fs s) 0xffff680e) as [Ef|]; [|done]. destruct (Z.eqb_spec (b_gs s) 0xffff6810) as [Eg|]; [|done]. injection E as <-.
  destruct (be_host _ _ _ Hb) as [Z1 Z2]. destruct (be_fs _ _ _ Hb) as [F1 _]. destruct (be_gs _ _ _ Hb) as [F2 _]. unfold fs_gs_check.
  gstep. apply wp_must_be. gstep. rewrite F1, Ef. split; [done|]. gstep. apply wp_must_be. gstep. rewrite F2, Eg. split; [done|].
  gstep. apply wp_must_be. eapply wp_rmsr; [eassumption|by apply known_rw|]. intros w1 H1. rewrite Z1. split; [done|].
  gstep. apply wp_must_be. eapply wp_rmsr; [exact H1|by apply known_rw|]. intros w2 H2. rewrite Z2. split; [done|].
  gstep. eapply wp_gNW; [exact H2|vm_compute; reflexivity|reflexivity|reflexivity|]. intros w3 H3.
  eapply wp_gNW; [exact H3|vm_compute; reflexivity|reflexivity|reflexivity|]. intros w4 H4.
  eapply HQ; [exact H4|]. by apply exit_bases.
Qed.

(** ** Accesses to MSRs *)

Lemma bitmap_bit_range write ecx n : bitmap_bit write ecx = Some n -> 0 <= n < 0x8000.
Proof.
  unfold bitmap_bit. destruct write; (destruct ((0 <=? ecx) && (ecx <=? 0x1fff)) eqn:E1;
    [apply andb_prop in E1 as [?%Z.leb_le ?%Z.leb_le]; intros [= <-]; lia|]);
    (destruct ((0xc0000000 <=? ecx) && (ecx <=? 0xc0001fff)) eqn:E2; [|done];
     apply andb_prop in E2 as [?%Z.leb_le ?%Z.leb_le]; intros [= <-]; lia).
Qed.
Lemma exits_ok write ecx s p m : bm s p m -> msr_exits a write p m ecx = b_exits write ecx s.
Proof.
  intros Hb. unfold msr_exits, b_exits. rewrite (bm_proc _ _ _ _ _ Hb). pose proof (bs_off _ Hs) as Hoff.
  pose proof (bm_addr _ _ _ _ _ Hb) as Ha. destruct (b_on s); [|by rewrite Hoff].
  rewrite Z.lor_spec, Hoff. change (Z.testbit use_msr_bitmaps_mask 28) with true. cbn [orb]. rewrite Ha by done.
  destruct (bitmap_bit write ecx) as [n|] eqn:E; [|done]. by apply (bm_bits _ _ _ _ _ Hb), (bitmap_bit_range write ecx).
Qed.
Lemma set_known s p m ecx x : bm s p m -> known ecx = true ->
  is_u 32 x \/ (ecx =? MSR_LSTAR) || (ecx =? MSR_TSC_ADJUST) = true -> bm (b_set ecx x s) (set_msr ecx x p) m.
Proof.
  intros [G P A T [F Fr] [F' Fr'] M V Me Bi] Hk Hx. constructor; try done.
  - unfold b_set. cbn [b_tsc]. destruct (Z.eqb_spec ecx MSR_TSC_ADJUST) as [->|Hne]; [by rewrite msr_set_eq|].
    rewrite msr_set_ne; [done|]. by apply Z.eqb_neq.
  - unfold b_set. cbn [b_fs]. destruct (Z.eqb_spec ecx IA32_MSR_FS_BASE) as [->|Hne]; [rewrite msr_set_eq; by destruct Hx|].
    rewrite msr_set_ne; [done|]. by apply Z.eqb_neq.
  - unfold b_set. cbn [b_gs]. destruct (Z.eqb_spec ecx IA32_MSR_GS_BASE) as [->|Hne]; [rewrite msr_set_eq; by destruct Hx|].
    rewrite msr_set_ne; [done|]. by apply Z.eqb_neq.
  - intros i Hi. destruct (free_msr_ne i Hi) as (N1 & N2 & N3 & N4). rewrite msr_set_ne; [by apply M|].
    unfold known in Hk. cbn in Hk. destruct (Z.eqb_spec i ecx) as [->|]; [|done]. by rewrite N1, N2, N3, N4 in Hk.
Qed.

(** ** The steps *)

Lemma wp_call_step eax ebx s s' w p m (Q : VCPU -> world -> Prop) : b_call (u32 eax) (u32 ebx) s = Some s' -> at_ w p m -> bm s p m ->
  (forall w' p' m', at_ w' p' m' -> bm s' p' m' -> Q v w') ->
  wp (vmcall a amd64_max g es ds us mid qemu msr_bitmap_allcpu run_user eax ebx v) Q w.
Proof.
  intros E H Hb HQ. eapply wp_vmcall; [exact H|exact Ho|]. intros tr. cbv zeta. rewrite after_exit_none by (by eapply bm_areas).
  intros w1 len rip H1. cbn [fst snd Guest.call_handler] in *. unfold shv_guest_msr_bitmap_vmexit_handler.
  cbn [vmexit_reason]. rewrite Z.eqb_refl. gstep.
  eapply wp_bitmap_call; [exact E|exact H1|by apply exit_state|]. intros w2 p2 m2 H2 Hb2.
  eapply wp_back; [exact H2|exact Hb2|]. intros w3 p3 H3 Hb3. by eapply HQ.
Qed.
(** An access that exits. *)
Lemma wp_access_exits reason r s w p m (Q : VCPU * regs -> world -> Prop) :
  reason = VMX_VMEXIT_RDMSR /\ r_ebx r = MSR_TEST_NORMAL /\ (r_ecx r =? MSR_APIC_BASE) || (r_ecx r =? IA32_X2APIC_APICID) = false \/
  reason = VMX_VMEXIT_WRMSR ->
  at_ w p m -> bm s p m ->
  (forall w' p', at_ w' p' m -> bm s p' m -> Q (v, with_ebx MSR_TEST_VMEXIT r) w') ->
  wp (guest_exit a amd64_max g es ds us mid qemu msr_bitmap_allcpu run_user reason 0 v r) Q w.
Proof.
  intros Hr H Hb HQ. eapply wp_guest_exit; [exact H|exact Ho|by destruct Hr as [[-> _]| ->]|]. intros tr. cbv zeta.
  rewrite after_exit_none by (by eapply bm_areas). intros w1 len rip H1. cbn [fst snd Guest.call_handler] in *.
  unfold shv_guest_msr_bitmap_vmexit_handler. cbn [vmexit_reason].
  destruct Hr as [(-> & Hn & Ha)| ->].
  - change (VMX_VMEXIT_RDMSR =? VMX_VMEXIT_VMCALL) with false. change (VMX_VMEXIT_RDMSR =? VMX_VMEXIT_WRMSR) with false.
    rewrite Z.eqb_refl, Ha. cbv iota. gstep. gstep; [by rewrite Hn|].
    eapply wp_back; [exact H1|by apply exit_state|]. exact HQ.
  - change (VMX_VMEXIT_WRMSR =? VMX_VMEXIT_VMCALL) with false. rewrite Z.eqb_refl. cbv iota.
    eapply wp_back; [exact H1|by apply exit_state|]. exact HQ.
Qed.

Lemma outcome_cases write ecx s o : b_outcome write ecx s = Some o ->
  (b_exits write ecx s = true /\ (u32 ecx =? MSR_APIC_BASE) || (u32 ecx =? IA32_X2APIC_APICID) = false /\ o = MSR_TEST_VMEXIT) \/
  (b_exits write ecx s = false /\ known ecx = true /\ o = MSR_TEST_NORMAL) \/
  (b_exits write ecx s = false /\ unknown ecx = true /\ o = MSR_TEST_EXCEPT).
Proof.
  unfold b_outcome. destruct (b_exits write ecx s).
  - destruct ((u32 ecx =? MSR_APIC_BASE) || (u32 ecx =? IA32_X2APIC_APICID)) eqn:E; [done|]. intros [= <-]. auto.
  - destruct (known ecx) eqn:Ek; [intros [= <-]; auto|]. destruct (unknown ecx) eqn:Eu; [intros [= <-]; auto|done].
Qed.

Lemma wp_guest_rdmsr ecx o s w p m (Q : VCPU * Z -> world -> Prop) : b_outcome false ecx s = Some o -> at_ w p m -> bm s p m ->
  (forall w' p', at_ w' p' m -> bm s p' m -> Q (v, o) w') ->
  wp (guest_rdmsr a amd64_max g es ds us mid qemu msr_bitmap_allcpu run_user ecx v) Q w.
Proof.
  intros E H Hb HQ. unfold guest_rdmsr, wp. cbn [gm_rdmsr q_guest]. rewrite (proj1 H), (proj2 H).
  rewrite (exits_ok _ _ _ _ _ Hb). apply outcome_cases in E as [(-> & Ha & ->)|[(-> & Hk & ->)|(-> & Hk & ->)]].
  - match goal with |- match ?M w with _ => _ end => change (wp M Q w) end.
    gstep. eapply wp_access_exits; [left; split; [done|]; split; [done|exact Ha]|exact H|exact Hb|].
    intros w' p' H' Hb'. gstep. by eapply HQ.
  - rewrite (proj1 (bq_known HM _ Hk)).
    eapply HQ; [|exact Hb]. apply (at_event' _ _ _ (ERdmsr ecx (u64 (p_msr p ecx))) H).
  - rewrite (proj1 (bq_unknown HM _ Hk)).
    eapply HQ; [|exact Hb]. apply (at_event' _ _ _ (ERdmsrFault ecx) H).
Qed.
Lemma wp_guest_wrmsr ecx x o s w p m (Q : VCPU * Z -> world -> Prop) : b_outcome true ecx s = Some o -> at_ w p m -> bm s p m ->
  is_u 64 x -> (o = MSR_TEST_NORMAL -> is_u 32 x \/ (ecx =? MSR_LSTAR) || (ecx =? MSR_TSC_ADJUST) = true) ->
  (forall w' p', at_ w' p' m -> bm (if o =? MSR_TEST_NORMAL then b_set ecx x s else s) p' m -> Q (v, o) w') ->
  wp (guest_wrmsr a amd64_max g es ds us mid qemu msr_bitmap_allcpu run_user ecx x v) Q w.
Proof.
  intros E H Hb Hx Hx' HQ. unfold guest_wrmsr, wp. cbn [gm_wrmsr q_guest]. rewrite (proj1 H), (proj2 H).
  rewrite (exits_ok _ _ _ _ _ Hb). apply outcome_cases in E as [(-> & Ha & ->)|[(-> & Hk & ->)|(-> & Hk & ->)]].
  - match goal with |- match ?M w with _ => _ end => change (wp M Q w) end.
    gstep. eapply wp_access_exits; [by right|exact H|exact Hb|]. intros w' p' H' Hb'. gstep. by eapply HQ.
  - rewrite (proj2 (bq_known HM _ Hk)). pose proof (at_event' _ _ _ (EWrmsr ecx (u64 x) true) H) as He. cbn [p_step] in He.
    assert (u64 x = x) as Ex by (by apply wrap_small). rewrite Ex in *.
    eapply HQ; [exact He|]. change (MSR_TEST_NORMAL =? MSR_TEST_NORMAL) with true. cbv iota. by apply set_known; [..|apply Hx'].
  - rewrite (proj2 (bq_unknown HM _ Hk)). pose proof (at_event' _ _ _ (EWrmsr ecx (u64 x) false) H) as He. cbn [p_step] in He.
    eapply HQ; [exact He|exact Hb].
Qed.
Lemma wp_guest_msr ecx e s w p m (Q : Z -> world -> Prop) : b_exits false ecx s = false ->
  (ecx =? IA32_MSR_FS_BASE) && (b_fs s =? e) || (ecx =? IA32_MSR_GS_BASE) && (b_gs s =? e) = true -> at_ w p m -> bm s p m ->
  (forall w', at_ w' p m -> Q e w') -> wp (guest_msr ecx) Q w.
Proof.
  intros Hx He H Hb HQ. unfold guest_msr, wp. cbn [gm_rdmsr q_guest]. rewrite (proj1 H), (proj2 H), (exits_ok _ _ _ _ _ Hb), Hx.
  destruct (bm_fs _ _ _ _ _ Hb) as [F Fr]. destruct (bm_gs _ _ _ _ _ Hb) as [F' Fr'].
  assert (known ecx = true /\ u64 (p_msr p ecx) = e) as [Hk Hv].
  { apply orb_true_iff in He as [[->%Z.eqb_eq <-%Z.eqb_eq]%andb_prop|[->%Z.eqb_eq <-%Z.eqb_eq]%andb_prop]; (split; [done|]).
    - rewrite F. by apply wrap_small, (is_u_le 32).
    - rewrite F'. by apply wrap_small, (is_u_le 32). }
  rewrite (proj1 (bq_known HM _ Hk)), Hv. apply HQ. apply (at_event' _ _ _ (ERdmsr ecx e) H).
Qed.

Abbreviation run_steps := (run_steps a amd64_max g es ds us mid qemu msr_bitmap_allcpu run_user).
Lemma wp_run_step x s s' w p m (Q : VCPU -> world -> Prop) : b_step x s = Some s' -> at_ w p m -> bm s p m ->
  (forall w' p' m', at_ w' p' m' -> bm s' p' m' -> Q v w') ->
  wp (run_step a amd64_max g es ds us mid qemu msr_bitmap_allcpu run_user x v) Q w.
Proof.
  intros E H Hb HQ. destruct x as [eax ebx|ecx e|ecx e val|ecx e| |]; cbn [b_step run_step] in *.
  - by eapply wp_call_step.
  - destruct (b_outcome false ecx s) as [o|] eqn:Eo; [|done]. cbn in E. unfold guard in E.
    destruct (Z.eqb_spec o e) as [->|]; [|done]. injection E as <-. unfold _test_rdmsr. gstep.
    eapply wp_guest_rdmsr; [exact Eo|exact H|exact Hb|]. intros w' p' H' Hb'. gstep. gstep; [by apply Z.eqb_refl|]. gstep. by eapply HQ.
  - destruct (b_outcome true ecx s) as [o|] eqn:Eo; [|done]. cbn in E. unfold guard in E.
    destruct (Z.eqb_spec o e) as [->|]; [|done]. cbn [andb] in E.
    destruct ((0 <=? val) && (val <? 2 ^ 64)) eqn:Ev; [|done].
    apply andb_prop in Ev as [?%Z.leb_le ?%Z.ltb_lt]. cbn [andb] in E.
    destruct ((ecx =? MSR_LSTAR) || (ecx =? MSR_TSC_ADJUST) || in_word val || negb (e =? MSR_TEST_NORMAL)) eqn:Eg; [|done].
    injection E as <-. unfold _test_wrmsr. gstep.
    eapply wp_guest_wrmsr; [exact Eo|exact H|exact Hb|done| |].
    + intros ->. change (MSR_TEST_NORMAL =? MSR_TEST_NORMAL) with true in Eg. rewrite orb_false_r in Eg.
      apply orb_true_iff in Eg as [Eg|Eg]; [by right|left]. unfold in_word in Eg. apply andb_prop in Eg as [?%Z.leb_le ?%Z.ltb_lt]. done.
    + intros w' p' H' Hb'. gstep. gstep; [by apply Z.eqb_refl|]. gstep. by eapply HQ.
  - unfold guard in E. destruct (b_exits false ecx s) eqn:Ex; [done|]. cbn [negb andb] in E.
    destruct ((ecx =? IA32_MSR_FS_BASE) && (b_fs s =? e) || (ecx =? IA32_MSR_GS_BASE) && (b_gs s =? e)) eqn:Ee; [|done]. injection E as <-.
    gstep. apply wp_must_be. eapply wp_guest_msr; [exact Ex|exact Ee|exact H|exact Hb|]. intros w' H'. split; [done|]. gstep. by eapply HQ.
  - injection E as <-. gstep. gstep. gstep. by eapply HQ.
  - injection E as <-. gstep. destruct (opt_set g SHV_NO_EFLAGS_IF); cbn [negb]; gstep; gstep; by eapply HQ.
Qed.
Lemma wp_run_steps l : forall s s' w p m (Q : VCPU -> world -> Prop), b_run l s = Some s' -> at_ w p m -> bm s p m ->
  (forall w' p' m', at_ w' p' m' -> bm s' p' m' -> Q v w') -> wp (run_steps l v) Q w.
Proof.
  induction l as [|x l IH]; intros s s' w p m Q E H Hb HQ; cbn [b_run Guest.run_steps] in *.
  - injection E as <-. gstep. by eapply HQ.
  - destruct (b_step x s) as [s1|] eqn:E1; [|done]. cbn in E. gstep.
    eapply wp_run_step; [exact E1|exact H|exact Hb|]. intros w' p' m' H' Hb'. by eapply IH.
Qed.
End bitmap.

(** ** The whole test *)

Section bitmap_test.
Context {a : subarch} {q : guest_cpu}.
#[local] Hint Extern 0 Device => exact (q_device a q) : typeclass_instances.
#[local] Hint Extern 0 Cpu => exact (q_cpu a q) : typeclass_instances.
#[local] Hint Extern 0 Guest => exact (q_guest a q) : typeclass_instances.
Context (amd64_max : Z) (g : opts) (es : ept_syms) (ds : desc_syms) (us : user_syms) (mid : list MIDTAB) (qemu : bool)
  (msr_bitmap_allcpu : Z) (run_user : Z * Z -> IO unit).
Abbreviation at_ := (at_ (a := a) (q := q)).

(** The bitmap of a processor is clear. *)
Definition bitmap_clear_in (v : VCPU) (m : mem) : Prop :=
  forall b, in_range (msr_bitmap_of msr_bitmap_allcpu v) PAGE_SIZE_4K b -> rd8 m b = 0.
Lemma bitmap_of_override v h : msr_bitmap_of msr_bitmap_allcpu (with_override h v) = msr_bitmap_of msr_bitmap_allcpu v.
Proof. by destruct v. Qed.

Lemma bitmap_test v w p m (Q : VCPU -> world -> Prop) :
  (opt_set g SHV_USE_MSRBITMAP = true -> bitmap_msrs (q := q) /\ is_u (ptr_bits a) (msr_bitmap_of msr_bitmap_allcpu v) /\
     bm_start (a := a) p /\ p_msr p MSR_TSC_ADJUST = 0 /\ bitmap_clear_in v m) ->
  at_ w p m -> quiet_guest a p -> vcpu_override v = None ->
  (forall w' p' m', at_ w' p' m' -> keeps a [0x2004; 0x2005] [MSR_LSTAR] p p' ->
     agree (fun b => ~ in_range (msr_bitmap_of msr_bitmap_allcpu v) PAGE_SIZE_4K b) m m' ->
     (opt_set g SHV_USE_MSRBITMAP = true -> bitmap_clear_in v m') -> Q v w') ->
  wp (shv_guest_msr_bitmap a amd64_max g es ds us mid qemu msr_bitmap_allcpu run_user v) Q w.
Proof.
  intros Hopt H Hq Ho HQ. unfold shv_guest_msr_bitmap. destruct (opt_set g SHV_USE_MSRBITMAP).
  2: { gstep. eapply HQ; [exact H|apply keeps_refl|apply agree_refl|done]. }
  destruct (Hopt eq_refl) as (HM & HB & Hs & Ht & Hz). destruct Hq as [Hg Ha Hf Hf']. unfold with_handler. gstep.
  set (v1 := with_override (Some HMsrBitmap) v). assert (msr_bitmap_of msr_bitmap_allcpu v1 = msr_bitmap_of msr_bitmap_allcpu v) as EB by apply bitmap_of_override.
  eapply (wp_run_steps amd64_max g es ds us mid qemu msr_bitmap_allcpu run_user HM v1 ltac:(by destruct v) ltac:(by rewrite EB) p m Hs
    msr_bitmap_steps b_idle b_idle); [exact b_test|exact H| |].
  - constructor; try done. intros n Hn. rewrite EB. cbn. unfold bit_at. rewrite Hz; [apply Z.bits_0|].
    unfold in_range, PAGE_SIZE_4K. Z.div_mod_to_equations. lia.
  - intros w' p' m' H' [G P _ T [F _] [F' _] M V Me Bi]. gstep. unfold v1. rewrite reset_override by done. rewrite EB in *.
    eapply HQ; [exact H'| |exact Me|].
    + constructor; [by rewrite G| |].
      * intros enc E1 E2. destruct (Z.eqb_spec enc 0x4002) as [->|Hne]; [exact P|]. apply V; [|exact E2].
        unfold outside in *. cbn in *. by rewrite (proj2 (Z.eqb_neq _ _) Hne).
      * intros i Hi. destruct (Z.eqb_spec i MSR_TSC_ADJUST) as [->|N1]; [by rewrite T|].
        destruct (Z.eqb_spec i IA32_MSR_FS_BASE) as [->|N2]; [by rewrite F|].
        destruct (Z.eqb_spec i IA32_MSR_GS_BASE) as [->|N3]; [by rewrite F'|]. apply M. unfold free_msr, outside in *. cbn in *.
        rewrite orb_false_r in Hi. apply negb_true_iff in Hi. apply Z.eqb_neq in N1, N2, N3. by rewrite Hi, N1, N2, N3.
    + intros _ b Hb. apply byte_bits_zero; [apply rd8_range|]. intros i Hi. unfold in_range, PAGE_SIZE_4K in Hb.
      pose proof (Bi (8 * (b - msr_bitmap_of msr_bitmap_allcpu v) + i) ltac:(lia)) as E. unfold bit_at in E.
      set (B := msr_bitmap_of msr_bitmap_allcpu v) in *.
      replace ((8 * (b - B) + i) / 8) with (b - B) in E by (Z.div_mod_to_equations; lia).
      replace ((8 * (b - B) + i) mod 8) with i in E by (Z.div_mod_to_equations; lia).
      replace (B + (b - B)) with b in E by lia. exact E.
Qed.
End bitmap_test.
