(* ===== verification/GuestMsr.v ===== *)
(** The test of MSRs that are stored and loaded by VM exits and VM entries in [src/shv-guest.c]: it passes on the processor of
    GuestMachine, and restores every MSR. *)
From Stdlib Require Import String.
From S2P Require Import Prelude.
From S2P Require Import HptLemmas.
From S2P Require Import Mem.
From S2P Require Import Ept.
From S2P Require Import Cmdline.
From S2P Require Import Io.
From S2P Require Import Smp.
From S2P Require Import Desc.
From S2P Require Import Timer.
From S2P Require Import VmxCtls.
From S2P Require Import VmcsFields.
From S2P Require Import Vmcs.
From S2P Require Import VmcsProps.
From S2P Require Import Vcpu.
From S2P Require Import Vmx.
From S2P Require Import User.
From S2P Require Import Guest.
From S2P Require Import GuestMachine.
From S2P Require Import GuestRules.
From S2P Require Import GuestTests.
Local Open Scope string_scope.
Local Open Scope Z_scope.

(** ** The memory the test uses *)

(** The data structure on the guest's stack (region 0), and the first three entries of the areas for MSRs stored at exits (1),
    loaded at exits (2) and loaded at entries (3): the objects in each, by offset and size. *)
Definition cells (r : Z) : list (Z * nat) :=
  if r =? 0 then [(0, 1%nat); (4, 4%nat); (8, 4%nat); (12, 4%nat)] ++ map (fun k => (16 + 8 * k, 8%nat)) (seqZ 0 9)
  else [(0, 4%nat); (8, 8%nat); (16, 4%nat); (24, 8%nat); (32, 4%nat); (40, 8%nat)].
Definition region_size (r : Z) : Z := if r =? 0 then 88 else 48.
Definition apart (c c' : Z * nat) : bool :=
  (c.1 =? c'.1) || (c.1 + Z.of_nat c.2 <=? c'.1) || (c'.1 + Z.of_nat c'.2 <=? c.1).

Lemma region_cases r : 0 <= r < 4 -> r = 0 \/ r = 1 \/ r = 2 \/ r = 3.
Proof. lia. Qed.
Lemma cells_apart r c c' : 0 <= r < 4 -> c ∈ cells r -> c' ∈ cells r -> c.1 <> c'.1 ->
  c.1 + Z.of_nat c.2 <= c'.1 \/ c'.1 + Z.of_nat c'.2 <= c.1.
Proof.
  intros Hr Hc Hc' Hne.
  assert (Forall (fun c => Forall (fun c' => apart c c' = true) (cells r)) (cells r)) as H.
  { destruct (region_cases r Hr) as [->|[->|[->| ->]]]; apply (bool_decide_unpack _); vm_compute; exact I. }
  rewrite Forall_forall in H. specialize (H c Hc). rewrite Forall_forall in H. specialize (H c' Hc'). unfold apart in H.
  rewrite !orb_true_iff, Z.eqb_eq, !Z.leb_le in H. tauto.
Qed.
Lemma cells_bounds r c : 0 <= r < 4 -> c ∈ cells r -> 0 <= c.1 /\ c.1 + Z.of_nat c.2 <= region_size r.
Proof.
  intros Hr Hc.
  assert (Forall (fun c => 0 <= c.1 /\ c.1 + Z.of_nat c.2 <= region_size r) (cells r)) as H.
  { destruct (region_cases r Hr) as [->|[->|[->| ->]]]; apply (bool_decide_unpack _); vm_compute; exact I. }
  rewrite Forall_forall in H. by apply H.
Qed.
Lemma cells_size r o n n' : 0 <= r < 4 -> (o, n) ∈ cells r -> (o, n') ∈ cells r -> n = n'.
Proof.
  intros Hr Hc Hc'.
  assert (Forall (fun c => Forall (fun c' => c.1 <> c'.1 \/ c.2 = c'.2) (cells r)) (cells r)) as H.
  { destruct (region_cases r Hr) as [->|[->|[->| ->]]]; apply (bool_decide_unpack _); vm_compute; exact I. }
  rewrite Forall_forall in H. specialize (H _ Hc). rewrite Forall_forall in H. specialize (H _ Hc'). cbn in H. tauto.
Qed.

Section memory.
Context (base : Z -> Z).
Hypothesis Hbase : forall r r', 0 <= r < 4 -> 0 <= r' < 4 -> r <> r' ->
  base r + region_size r <= base r' \/ base r' + region_size r' <= base r.

(** The contents, by region and offset. *)
Definition mem_is (f : Z -> Z -> Z) (m : mem) : Prop :=
  forall r o n, 0 <= r < 4 -> (o, n) ∈ cells r -> ld n m (base r + o) = f r o.
Definition set_cell (r o x : Z) (f : Z -> Z -> Z) : Z -> Z -> Z := fun r' o' => if (r' =? r) && (o' =? o) then x else f r' o'.
Definition region (b : Z) : Prop := exists r, 0 <= r < 4 /\ in_range (base r) (region_size r) b.

Lemma mem_is_put f m r o n x : mem_is f m -> 0 <= r < 4 -> (o, n) ∈ cells r ->
  mem_is (set_cell r o (wrap (8 * Z.of_nat n) x) f) (st n m (base r + o) x) /\
  agree (fun b => ~ region b) m (st n m (base r + o) x).
Proof.
  intros Hm Hr Hc. pose proof (cells_bounds r _ Hr Hc) as [B1 B2]. cbn [fst snd] in *. split.
  - intros r' o' n' Hr' Hc'. unfold set_cell. pose proof (cells_bounds r' _ Hr' Hc') as [B1' B2']. cbn [fst snd] in *.
    destruct (Z.eqb_spec r' r) as [->|Hne]; cbn [andb].
    + destruct (Z.eqb_spec o' o) as [->|Hne].
      * rewrite (cells_size r o n' n Hr Hc' Hc). apply ld_st_gen.
      * rewrite ld_st_other; [by apply Hm|]. destruct (cells_apart r (o, n) (o', n') Hr Hc Hc'); cbn [fst snd] in *; lia.
    + rewrite ld_st_other; [by apply Hm|]. destruct (Hbase r r' Hr Hr' ltac:(congruence)); lia.
  - apply agree_st. intros b Hin Hb. apply Hb. exists r. split; [done|]. unfold in_range in *. lia.
Qed.
End memory.

(** ** States of the test *)

Fixpoint mval (l : list (Z * Z)) (f : Z -> Z) (i : Z) : Z :=
  match l with [] => f i | (k, x) :: l => if i =? k then x else mval l f i end.
Definition is_base (i : Z) : bool := (i =? IA32_MSR_FS_BASE) || (i =? IA32_MSR_GS_BASE).
Definition count_fields : list Z := [0x400E; 0x4010; 0x4014].
Definition region_base (data : Z) (v : VCPU) (r : Z) : Z :=
  if r =? 0 then data else if r =? 1 then vcpu_msrstore v else if r =? 2 then vcpu_exit_msrload v else vcpu_entry_msrload v.

Section states.
Context {a : subarch} {q : guest_cpu}.
#[local] Hint Extern 0 Device => exact (q_device a q) : typeclass_instances.
#[local] Hint Extern 0 Cpu => exact (q_cpu a q) : typeclass_instances.
#[local] Hint Extern 0 Guest => exact (q_guest a q) : typeclass_instances.
Abbreviation at_ := (at_ (a := a) (q := q)).
Abbreviation exited := (exited a q).
Context (data : Z) (v : VCPU).
Abbreviation base := (region_base data v).
Hypothesis Hbase : forall r r', 0 <= r < 4 -> 0 <= r' < 4 -> r <> r' ->
  base r + region_size r <= base r' \/ base r' + region_size r' <= base r.
Context (p0 : pst) (m0 : mem).
(** The fields with the addresses of the areas. *)
Hypothesis Hareas : vm64 a p0 0x2006 = vcpu_msrstore v /\ vm64 a p0 0x2008 = vcpu_exit_msrload v /\ vm64 a p0 0x200A = vcpu_entry_msrload v.

(** The processor with the changes [l] of MSRs since [p0] and [n] entries in each area: in the hypervisor, and in the guest. *)
Record ms_common (n : Z) (p : pst) : Prop := {
  mc_counts : vm a p 0x400E = n /\ vm a p 0x4010 = n /\ vm a p 0x4014 = n;
  mc_vm enc : outside count_fields enc = true -> exit_field enc = false -> vm a p enc = vm a p0 enc }.
Record host_ms (l : list (Z * Z)) (n : Z) (p : pst) : Prop := {
  hm_common : ms_common n p;
  hm_msr i : is_base i = false -> p_msr p i = mval l (p_msr p0) i;
  hm_bases : vm a p 0x680E = 0 /\ vm a p 0x6810 = 0 }.
Record guest_ms (l : list (Z * Z)) (n : Z) (p : pst) : Prop := {
  gm_common : ms_common n p;
  gm_msr i : is_base i = false -> p_msr p i = mval l (p_msr p0) i;
  gm_bases : p_msr p IA32_MSR_FS_BASE = 0 /\ p_msr p IA32_MSR_GS_BASE = 0;
  gm_runs : p_guest p = true }.
(** With the memory. *)
Definition hinv (l : list (Z * Z)) (n : Z) (f : Z -> Z -> Z) (w : world) : Prop :=
  exists p m, at_ w p m /\ host_ms l n p /\ mem_is base f m /\ agree (fun b => ~ region base b) m0 m.
Definition ginv (l : list (Z * Z)) (n : Z) (f : Z -> Z -> Z) (w : world) : Prop :=
  exists p m, at_ w p m /\ guest_ms l n p /\ mem_is base f m /\ agree (fun b => ~ region base b) m0 m.

(** ** Rules *)

Lemma h_rmsr i l n f w (Q : Z -> world -> Prop) : hinv l n f w -> q_readable q i = true -> is_base i = false ->
  (forall w', hinv l n f w' -> Q (u64 (mval l (p_msr p0) i)) w') -> wp (rdmsr_ i) Q w.
Proof.
  intros (p & m & H & Hh & Hf & Ha) Hr Hi HQ. eapply wp_rmsr; [exact H|exact Hr|]. intros w' H'.
  rewrite (hm_msr _ _ _ Hh i Hi). apply HQ. by exists p, m.
Qed.
Lemma host_set l n p i x : host_ms l n p -> is_base i = false -> host_ms ((i, x) :: l) n (set_msr i x p).
Proof.
  intros [Hc Hm Hb] Hi. constructor; [by destruct Hc|..|done]. intros j Hj. cbn [mval]. destruct (Z.eqb_spec j i) as [->|Hne].
  - apply msr_set_eq.
  - rewrite msr_set_ne by (by apply Z.eqb_neq). by apply Hm.
Qed.
Lemma h_wmsr i x l n f w (Q : unit -> world -> Prop) : hinv l n f w -> q_writable q i = true -> is_base i = false ->
  (forall w', hinv ((i, u64 x) :: l) n f w' -> Q tt w') -> wp (wrmsr64 i x) Q w.
Proof.
  intros (p & m & H & Hh & Hf & Ha) Hr Hi HQ. eapply wp_wmsr; [exact H|exact Hr|]. intros w' H'.
  apply HQ. exists (set_msr i (u64 x) p), m. split; [exact H'|]. split; [by apply host_set|done].
Qed.
Lemma h_counts k l n f w (Q : unit -> world -> Prop) : hinv l n f w -> is_u 32 k ->
  (forall w', hinv l k f w' -> Q tt w') -> wp (set_counts a k) Q w.
Proof.
  intros (p & m & H & [[Hc Hv] Hm Hb] & Hf & Ha) Hk HQ. unfold set_counts. gstep. gstep. gstep. gstep. gstep.
  assert (u32 k = k) as Ek by (by apply wrap_small). rewrite Ek in *.
  apply HQ. eexists _, m. split; [eassumption|]. split; [|done]. constructor; [constructor| |].
  - field_simp. unfold enc_bits. cbn. rewrite !wrap_small by done. done.
  - intros enc E1 E2. unfold outside, count_fields in E1. cbn in E1. rewrite negb_true_iff, !orb_false_iff in E1.
    destruct E1 as (? & ? & ? & _). rewrite !vm_set_ne by done. apply Hv; [|done].
    unfold outside, count_fields. cbn. by rewrite negb_true_iff, !orb_false_iff.
  - intros i Hi. field_simp. by apply Hm.
  - by field_simp.
Qed.
Lemma h_load k x r o l n f w (Q : Z -> world -> Prop) : hinv l n f w -> 0 <= r < 4 -> (o, k) ∈ cells r -> x = base r + o ->
  Q (f r o) w -> wp (load k x) Q w.
Proof.
  intros (p & m & H & Hh & Hf & Ha) Hr Hc -> HQ. eapply wp_load; [exact H|]. by rewrite (Hf r o k).
Qed.
Lemma h_store k x y r o l n f w (Q : unit -> world -> Prop) : hinv l n f w -> 0 <= r < 4 -> (o, k) ∈ cells r -> x = base r + o ->
  (forall w', hinv l n (set_cell r o (wrap (8 * Z.of_nat k) y) f) w' -> Q tt w') -> wp (store k x y) Q w.
Proof.
  intros (p & m & H & Hh & Hf & Ha) Hr Hc -> HQ. eapply wp_store; [exact H|]. intros w' H'.
  destruct (mem_is_put base Hbase f m r o k y Hf Hr Hc) as [Hf' Ha'].
  apply HQ. exists p. eexists. split; [exact H'|]. split; [done|]. split; [exact Hf'|]. by eapply agree_trans.
Qed.

(** Whether an MSR can be written: if so it is, and gets its value back. *)
Lemma h_writable i l n f w (Q : bool -> world -> Prop) : hinv l n f w -> is_base i = false ->
  (q_readable q i && q_writable q i = true -> forall x w', hinv ((i, u64 (u64 (mval l (p_msr p0) i))) :: (i, x) :: l) n f w' -> Q true w') ->
  (q_readable q i && q_writable q i = false -> forall w', hinv l n f w' -> Q false w') -> wp (msr_writable i) Q w.
Proof.
  intros (p & m & H & Hh & Hf & Ha) Hi HT HF. unfold msr_writable. gstep. unfold _rdmsr_safe, wp. cbn [cpu_rdmsr_faults q_cpu].
  destruct (q_readable q i) eqn:Er; cbn [negb andb] in *.
  2: { apply HF; [done|]. exists p, m. split; [|done]. apply (at_event _ _ _ (ERdmsrFault i) H). }
  unfold rdmsr64, mbind at 1, IO_bind at 1. cbn [dev_rdmsr q_device]. rewrite (proj1 H), (hm_msr _ _ _ Hh i Hi).
  set (old := u64 (mval l (p_msr p0) i)). apply (at_event _ _ _ (ERdmsr i old)) in H. cbn [p_step] in H. revert H.
  cbn [mret IO_ret]. generalize (mkW (w_mem w) (ERdmsr i old :: w_tr w)). clear w. intros w H.
  match goal with |- match ?M w with _ => _ end => change (wp M Q w) end.
  gstep. unfold _wrmsr_safe at 1, wp at 1. cbn [cpu_wrmsr_faults q_cpu].
  destruct (q_writable q i) eqn:Ew; cbn [negb].
  2: { apply wp_ret. apply HF; [done|]. exists p, m. split; [|done]. apply (at_event _ _ _ (EWrmsr i _ false) H). }
  set (x := u64 (Z.lxor old 0x1234abcdbeef6789)). apply (at_event _ _ _ (EWrmsr i x true)) in H. cbn [p_step] in H. revert H.
  generalize (mkW (w_mem w) (EWrmsr i x true :: w_tr w)). clear w. intros w H.
  gstep. unfold _wrmsr_safe at 1, wp at 1. cbn [cpu_wrmsr_faults q_cpu]. rewrite Ew. cbn [negb].
  apply (at_event _ _ _ (EWrmsr i (u64 old) true)) in H. cbn [p_step] in H.
  gstep. gstep. gstep. apply (HT eq_refl x). exists (set_msr i (u64 old) (set_msr i x p)), m. split; [exact H|].
  split; [by apply host_set; [apply host_set|]|done].
Qed.

(** ** Exits and entries *)

(** What an exit stores, from the entry [i] on. *)
Fixpoint f_store (k : nat) (i : Z) (l : list (Z * Z)) (f : Z -> Z -> Z) : Z -> Z -> Z :=
  match k with O => f | S k => f_store k (i + 1) l (set_cell 1 (16 * i + 8) (wrap 64 (mval l (p_msr p0) (f 1 (16 * i)))) f) end.
Fixpoint f_loads (k : nat) (r i : Z) (f : Z -> Z -> Z) : list (Z * Z) :=
  match k with O => [] | S k => (f r (16 * i), f r (16 * i + 8)) :: f_loads k r (i + 1) f end.
Fixpoint add_loads (ld : list (Z * Z)) (l : list (Z * Z)) : list (Z * Z) :=
  match ld with [] => l | (i, x) :: ld => add_loads ld ((i, u64 x) :: l) end.

Lemma entry_cells r i : 1 <= r < 4 -> 0 <= i < 3 -> (16 * i, 4%nat) ∈ cells r /\ (16 * i + 8, 8%nat) ∈ cells r.
Proof.
  intros Hr Hi. unfold cells. rewrite (proj2 (Z.eqb_neq r 0)) by lia.
  assert (i = 0 \/ i = 1 \/ i = 2) as [->|[->| ->]] by lia; split; apply (bool_decide_unpack _); vm_compute; exact I.
Qed.
Lemma base_region r : base r = if r =? 0 then data else if r =? 1 then vcpu_msrstore v else if r =? 2 then vcpu_exit_msrload v else vcpu_entry_msrload v.
Proof. done. Qed.

Lemma store_area_ok k : forall i l f p m, 0 <= i -> i + Z.of_nat k <= 3 -> mem_is base f m ->
  (forall j, 0 <= j < i + Z.of_nat k -> p_msr p (f 1 (16 * j)) = mval l (p_msr p0) (f 1 (16 * j))) ->
  mem_is base (f_store k i l f) (store_area k (base 1 + 16 * i) (p_msr p) m) /\
  agree (fun b => ~ region base b) m (store_area k (base 1 + 16 * i) (p_msr p) m).
Proof.
  induction k as [|k IH]; intros i l f p m Hi Hk Hf Hm; cbn [f_store store_area]; [done|].
  destruct (entry_cells 1 i ltac:(lia) ltac:(lia)) as [C1 C2]. rewrite (Hf 1 (16 * i) 4%nat) by (done || lia).
  destruct (mem_is_put base Hbase f m 1 (16 * i + 8) 8 (p_msr p (f 1 (16 * i))) Hf ltac:(lia) C2) as [Hf' Ha'].
  replace (base 1 + 16 * i + 8) with (base 1 + (16 * i + 8)) by lia.
  rewrite Hm in Hf' |- * by lia. rewrite Hm in Ha' by lia. change (8 * Z.of_nat 8) with 64 in Hf'.
  assert (forall j y f, set_cell 1 (16 * i + 8) y f 1 (16 * j) = f 1 (16 * j)) as Hput.
  { intros j y f'. unfold set_cell. by rewrite (proj2 (Z.eqb_neq (16 * j) (16 * i + 8))) by lia. }
  edestruct (IH (i + 1) l) as [H1 H2]; [lia|lia|exact Hf'| |].
  { intros j Hj. rewrite Hput. apply Hm. lia. }
  replace (base 1 + 16 * (i + 1)) with (base 1 + 16 * i + 16) in * by lia. split; [exact H1|]. by eapply agree_trans.
Qed.
Lemma msr_area_ok k : forall r i f m, 1 <= r < 4 -> 0 <= i -> i + Z.of_nat k <= 3 -> mem_is base f m ->
  msr_area k (base r + 16 * i) m = f_loads k r i f.
Proof.
  induction k as [|k IH]; intros r i f m Hr Hi Hk Hf; cbn [f_loads msr_area]; [done|].
  destruct (entry_cells r i Hr ltac:(lia)) as [C1 C2]. rewrite (Hf r (16 * i) 4%nat) by (done || lia).
  replace (base r + 16 * i + 8) with (base r + (16 * i + 8)) by lia. rewrite (Hf r (16 * i + 8) 8%nat) by (done || lia).
  f_equal. replace (base r + 16 * i + 16) with (base r + 16 * (i + 1)) by lia. apply IH; lia || done.
Qed.

Lemma load_list_msr ld : forall l n p, Forall (fun x => is_base x.1 = false) ld ->
  (forall i, is_base i = false -> p_msr p i = mval l (p_msr p0) i) ->
  let p' := load_list ld p in
  (forall i, is_base i = false -> p_msr p' i = mval (add_loads ld l) (p_msr p0) i) /\ (forall i, is_base i = true -> p_msr p' i = p_msr p i) /\
  p_guest p' = p_guest p /\ (ms_common n p -> ms_common n p').
Proof.
  induction ld as [|[i x] ld IH]; intros l n p Hld Hm; cbn [add_loads]; [done|].
  apply Forall_cons in Hld as [Hi Hld]. cbn [fst] in Hi.
  destruct (IH ((i, u64 x) :: l) n (set_msr i (u64 x) p) Hld) as (H1 & H2 & H3 & H4).
  - intros j Hj. cbn [mval]. destruct (Z.eqb_spec j i) as [->|Hne]; [apply msr_set_eq|].
    rewrite msr_set_ne by (by apply Z.eqb_neq). by apply Hm.
  - split; [exact H1|]. split; [|split; [exact H3|]].
    + intros j Hj. rewrite H2 by done. apply msr_set_ne. apply Z.eqb_neq. intros ->. by rewrite Hi in Hj.
    + intros [Hc Hv]. apply H4. by constructor.
Qed.

Lemma area_field n p enc : ms_common n p -> outside count_fields enc = true -> outside count_fields (enc + 1) = true ->
  exit_field enc = false -> exit_field (enc + 1) = false -> vm64 a p enc = vm64 a p0 enc.
Proof. intros [_ Hv] H1 H2 H3 H4. unfold vm64. by rewrite !Hv. Qed.

(** An exit with [n] entries in each area: what is stored and what is loaded may not be a base of FS or GS. *)
Definition exit_fine (n : Z) (f : Z -> Z -> Z) : Prop :=
  forall j, 0 <= j < n -> is_base (f 1 (16 * j)) = false /\ is_base (f 2 (16 * j)) = false /\ is_base (f 3 (16 * j)) = false.
Lemma f_store_index k : forall i l f r j, f_store k i l f r (16 * j) = f r (16 * j).
Proof.
  induction k as [|k IH]; intros i l f r j; cbn [f_store]; [done|]. rewrite IH. unfold set_cell.
  rewrite (proj2 (Z.eqb_neq (16 * j) (16 * i + 8))) by lia. by rewrite andb_false_r.
Qed.
Lemma f_loads_fine k : forall r i f, 0 <= i -> i + Z.of_nat k <= 3 -> (forall j, 0 <= j < i + Z.of_nat k -> is_base (f r (16 * j)) = false) ->
  Forall (fun x => is_base x.1 = false) (f_loads k r i f).
Proof.
  induction k as [|k IH]; intros r i f Hi Hk Hf; cbn [f_loads]; constructor; [apply Hf; lia|]. apply IH; [lia|lia|]. intros j Hj. apply Hf. lia.
Qed.
Lemma exit_inv l n f p m tr reason : 0 <= n <= 3 -> guest_ms l n p -> mem_is base f m -> agree (fun b => ~ region base b) m0 m ->
  exit_fine n f ->
  let f' := f_store (Z.to_nat n) 0 l f in
  let pm := after_exit (a := a) (q := q) tr reason 0 p m in
  host_ms (add_loads (f_loads (Z.to_nat n) 2 0 f') l) n pm.1 /\ mem_is base f' pm.2 /\ agree (fun b => ~ region base b) m0 pm.2.
Proof.
  intros Hn [Hc Hm [Hb1 Hb2] Hg] Hf Ha Hfine. cbv zeta. set (f' := f_store (Z.to_nat n) 0 l f).
  destruct Hareas as (A1 & A2 & A3). pose proof Hc as [(C1 & C2 & C3) Hv]. unfold after_exit, exit_areas.
  rewrite C1, C2. rewrite (area_field n p 0x2006 Hc), (area_field n p 0x2008 Hc), A1, A2 by done.
  destruct (store_area_ok (Z.to_nat n) 0 l f p m) as [Hf' Ha']; [lia|lia|exact Hf| |].
  { intros j Hj. apply Hm, Hfine. lia. }
  change (base 1 + 16 * 0) with (vcpu_msrstore v + 0) in *. rewrite Z.add_0_r in *. fold f' in Hf'.
  set (m' := store_area _ _ _ _) in *.
  pose proof (msr_area_ok (Z.to_nat n) 2 0 f' m' ltac:(lia) ltac:(lia) ltac:(lia) Hf') as El.
  change (base 2 + 16 * 0) with (vcpu_exit_msrload v + 0) in El. rewrite Z.add_0_r in El. rewrite El. cbn [fst snd].
  split; [|split; [exact Hf'|by eapply agree_trans]].
  pose proof (vm_exited_info (a := a) (q := q) tr reason 0 p) as (_ & _ & EF & EG).
  destruct (load_list_msr (f_loads (Z.to_nat n) 2 0 f') l n (exited tr reason 0 p)) as (H1 & _ & _ & H4).
  - apply f_loads_fine; [lia|lia|]. intros j Hj. unfold f'. rewrite f_store_index. apply Hfine. lia.
  - intros i Hi. unfold is_base in Hi. apply orb_false_iff in Hi as [? ?]. rewrite msr_exited_ne by done. apply Hm. unfold is_base. by apply orb_false_iff.
  - constructor; [|exact H1|].
    + apply H4. constructor; [by rewrite !vm_exited_ne|]. intros enc E1 E2. rewrite vm_exited_ne by done. by apply Hv.
    + rewrite !vm_load_list, EF, EG, Hb1, Hb2. done.
Qed.

(** An entry. *)
Lemma entry_inv l n f p m : 0 <= n <= 3 -> host_ms l n p -> mem_is base f m ->
  exit_fine n f ->
  guest_ms (add_loads (f_loads (Z.to_nat n) 3 0 f) l) n (after_entry (a := a) p m).
Proof.
  intros Hn [Hc Hm [Hb1 Hb2]] Hf Hfine. destruct Hareas as (A1 & A2 & A3). pose proof Hc as [(C1 & C2 & C3) Hv]. unfold after_entry.
  rewrite C3, (area_field n p 0x200A Hc), A3 by done.
  pose proof (msr_area_ok (Z.to_nat n) 3 0 f m ltac:(lia) ltac:(lia) ltac:(lia) Hf) as El.
  change (base 3 + 16 * 0) with (vcpu_entry_msrload v + 0) in El. rewrite Z.add_0_r in El. rewrite El.
  destruct (load_list_msr (f_loads (Z.to_nat n) 3 0 f) l n (entered a p)) as (H1 & H2 & H3 & H4).
  - apply f_loads_fine; [lia|lia|]. intros j Hj. apply Hfine. lia.
  - intros i Hi. unfold is_base in Hi. apply orb_false_iff in Hi as [? ?]. rewrite msr_entered_ne by done. apply Hm. unfold is_base. by apply orb_false_iff.
  - constructor; [by apply H4|exact H1| |by rewrite H3].
    rewrite !H2 by done. split; [by rewrite msr_entered_fs|by rewrite msr_entered_gs].
Qed.
End states.

(** ** The handler *)

Section ms_handler.
Context {a : subarch} {q : guest_cpu}.
#[local] Hint Extern 0 Device => exact (q_device a q) : typeclass_instances.
#[local] Hint Extern 0 Cpu => exact (q_cpu a q) : typeclass_instances.
#[local] Hint Extern 0 Guest => exact (q_guest a q) : typeclass_instances.
Context (data : Z) (v : VCPU).
Abbreviation base := (region_base data v).
Hypothesis Hbase : forall r r', 0 <= r < 4 -> 0 <= r' < 4 -> r <> r' ->
  base r + region_size r <= base r' \/ base r' + region_size r' <= base r.
Context (p0 : pst) (m0 : mem).
Abbreviation hinv := (hinv (a := a) (q := q) data v p0 m0).
Abbreviation ginv := (ginv (a := a) (q := q) data v p0 m0).

(** The MSRs of the test. *)
Definition use_mc : bool := (1 <? Z.land (p_msr p0 0x179) 0xff) && (q_readable q 0x402 && q_writable q 0x402).
Definition test_msrs : list Z := [0x20a; 0x20b; 0x20c; MSR_EFER; 0xc0000081; MSR_IA32_PAT].
Definition ms_used (i : Z) : bool := existsb (Z.eqb i) (test_msrs ++ [0x402; 0x403; 0x406; 0x179; 0xfe]).
Record ms_start : Prop := {
  ms_range i : ms_used i = true -> is_u 64 (p_msr p0 i);
  ms_rw i : i ∈ test_msrs -> q_readable q i = true /\ q_writable q i = true;
  ms_info : q_readable q 0x179 = true /\ q_readable q 0xfe = true;
  ms_mc : use_mc = true -> forall i, i ∈ [0x403; 0x406] -> q_readable q i = true /\ q_writable q i = true;
  ms_cap : 6 < Z.land (p_msr p0 0xfe) 0xff;
  ms_pat : p_msr p0 MSR_IA32_PAT = 0x0007040600070406 }.
Context (Hstart : ms_start).

Lemma E64 i : ms_used i = true -> wrap 64 (p_msr p0 i) = p_msr p0 i.
Proof. intros H. by apply wrap_small, (ms_range Hstart). Qed.

(** The rules with their values in normal form. *)
Lemma n_rmsr i y l n f w (Q : Z -> world -> Prop) : hinv l n f w -> q_readable q i = true -> is_base i = false ->
  u64 (mval l (p_msr p0) i) = y -> (forall w', hinv l n f w' -> Q y w') -> wp (rdmsr_ i) Q w.
Proof. intros H Hr Hi <- HQ. by eapply h_rmsr. Qed.
Lemma n_wmsr i x y l n f w (Q : unit -> world -> Prop) : hinv l n f w -> q_writable q i = true -> is_base i = false ->
  u64 x = y -> (forall w', hinv ((i, y) :: l) n f w' -> Q tt w') -> wp (wrmsr64 i x) Q w.
Proof. intros H Hr Hi <- HQ. by eapply h_wmsr. Qed.
Lemma n_load k x r o y l n f w (Q : Z -> world -> Prop) : hinv l n f w -> 0 <= r < 4 -> (o, k) ∈ cells r -> x = base r + o ->
  f r o = y -> Q y w -> wp (load k x) Q w.
Proof. intros H Hr Hc Hx <- HQ. by eapply h_load. Qed.
Lemma n_store k x z r o y l n f w (Q : unit -> world -> Prop) : hinv l n f w -> 0 <= r < 4 -> (o, k) ∈ cells r -> x = base r + o ->
  wrap (8 * Z.of_nat k) z = y -> (forall w', hinv l n (set_cell r o y f) w' -> Q tt w') -> wp (store k x z) Q w.
Proof. intros H Hr Hc Hx <- HQ. by eapply h_store. Qed.
End ms_handler.

(** Normal forms: a number, or the value an MSR had at the start. *)
Ltac nfv :=
  lazymatch goal with |- ?L = _ =>
    let x := eval lazy -[p_msr wrap] in L in change L with x
  end;
  try match goal with Hs : ms_start _ |- _ => rewrite ?(E64 _ Hs) by reflexivity end;
  first [match goal with |- context [p_msr] => reflexivity end | vm_compute; reflexivity].
Ltac in_cells := apply (bool_decide_unpack _); vm_compute; exact I.
Ltac hnext := match goal with H : hinv _ _ _ _ _ _ _ _ |- _ => clear H end; intros ? ?.
Ltac at_cell := unfold region_base, old_val_at, mc_msr_at; cbn [Z.eqb Pos.eqb]; lia.
(** The region of an area. *)
Ltac region_of area := lazymatch area with vcpu_msrstore _ => constr:(1) | vcpu_exit_msrload _ => constr:(2) | vcpu_entry_msrload _ => constr:(3) end.
Ltac load_at k r o :=
  let o := eval vm_compute in o in eapply (n_load _ _ _ _ k _ r o); [eassumption|lia|in_cells|at_cell|nfv|].
Ltac store_at k r o :=
  let o := eval vm_compute in o in eapply (n_store _ _ ltac:(eassumption) _ _ k _ _ r o); [eassumption|lia|in_cells|at_cell|nfv|hnext].
Ltac hstep :=
  lazymatch goal with
  | |- wp (mret _) _ _ => apply wp_ret
  | |- wp (_ ≫= _) _ _ => apply wp_bind
  | |- wp (rdmsr_ _) _ _ => eapply n_rmsr; [eassumption|assumption|reflexivity|nfv|hnext]
  | |- wp (wrmsr64 _ _) _ _ => eapply n_wmsr; [eassumption|assumption|reflexivity|nfv|hnext]
  | |- wp (set_counts _ _) _ _ => eapply h_counts; [eassumption|done|hnext]
  | |- wp (skip_mc_msrs _) _ _ => unfold skip_mc_msrs
  | |- wp (mc_msr _ _) _ _ => unfold mc_msr
  | |- wp (with_mc _ _) _ _ => unfold with_mc
  | |- wp (save_msr _ _ _ _) _ _ => unfold save_msr
  | |- wp (restore_msr _ _ _ _) _ _ => unfold restore_msr
  | |- wp (set_entry _ _ _ _) _ _ => unfold set_entry
  | |- wp (entry_data _ _) _ _ => unfold entry_data
  | |- wp (must_be _ _) _ _ => apply wp_must_be
  | |- wp (load 1 _) _ _ => load_at 1%nat 0 0
  | |- wp (load 4 (mc_msr_at _ ?i)) _ _ => load_at 4%nat 0 (4 + 4 * i)
  | |- wp (load 8 (old_val_at _ ?i ?j)) _ _ => load_at 8%nat 0 (16 + 8 * (3 * i + j))
  | |- wp (load 8 (?area + 16 * ?i + 8)) _ _ => let r := region_of area in load_at 8%nat r (16 * i + 8)
  | |- wp (store 1 _ _) _ _ => store_at 1%nat 0 0
  | |- wp (store 4 (mc_msr_at _ ?i) _) _ _ => store_at 4%nat 0 (4 + 4 * i)
  | |- wp (store 8 (old_val_at _ ?i ?j) _) _ _ => store_at 8%nat 0 (16 + 8 * (3 * i + j))
  | |- wp (store 4 (?area + 16 * ?i) _) _ _ => let r := region_of area in store_at 4%nat r (16 * i)
  | |- wp (store 8 (?area + 16 * ?i + 8) _) _ _ => let r := region_of area in store_at 8%nat r (16 * i + 8)
  | |- wp (if negb (truth ?x) then _ else _) _ _ => let b := eval vm_compute in (negb (truth x)) in change (negb (truth x)) with b; cbv iota
  | |- _ /\ _ => split; [reflexivity|]
  end.

Section ms_run.
Context {a : subarch} {q : guest_cpu}.
#[local] Hint Extern 0 Device => exact (q_device a q) : typeclass_instances.
#[local] Hint Extern 0 Cpu => exact (q_cpu a q) : typeclass_instances.
#[local] Hint Extern 0 Guest => exact (q_guest a q) : typeclass_instances.
Context (data : Z) (v : VCPU).
Abbreviation base := (region_base data v).
Hypothesis Hbase : forall r r', 0 <= r < 4 -> 0 <= r' < 4 -> r <> r' ->
  base r + region_size r <= base r' \/ base r' + region_size r' <= base r.
Context (p0 : pst) (m0 : mem).
Abbreviation hinv := (hinv (a := a) (q := q) data v p0 m0).
Context (Hstart : ms_start (q := q) p0).

Abbreviation M i := (p_msr p0 i).
Lemma n_writable i l n f w (Q : bool -> world -> Prop) : hinv l n f w -> is_base i = false -> ms_used i = true -> u64 (mval l (p_msr p0) i) = M i ->
  (q_readable q i && q_writable q i = true -> forall x w', hinv ((i, M i) :: (i, x) :: l) n f w' -> Q true w') ->
  (q_readable q i && q_writable q i = false -> forall w', hinv l n f w' -> Q false w') -> wp (msr_writable i) Q w.
Proof.
  intros H Hi Hu E HT HF. eapply h_writable; [exact H|exact Hi| |exact HF]. intros Hb x w' H'. eapply (HT Hb x).
  rewrite E in H'. unfold u64 in H'. rewrite E64 in H' by done. exact H'.
Qed.
Lemma find_ok f w (Q : unit -> world -> Prop) : hinv [] 0 f w ->
  (use_mc (q := q) p0 = false -> forall w', hinv [] 0 (set_cell 0 0 1 f) w' -> Q tt w') ->
  (use_mc (q := q) p0 = true -> forall x y z w',
     hinv [(0x406, M 0x406); (0x406, z); (0x403, M 0x403); (0x403, y); (0x402, M 0x402); (0x402, x)] 0
       (set_cell 0 12 0x406 (set_cell 0 8 0x403 (set_cell 0 4 0x402 (set_cell 0 0 0 f)))) w' -> Q tt w') ->
  wp (find_mc_msrs data) Q w.
Proof.
  intros H HF HT. destruct (ms_info _ Hstart). unfold find_mc_msrs. hstep. hstep. hstep.
  pose proof (ms_mc _ Hstart) as Hmc. unfold use_mc in *. destruct (1 <? Z.land (M 0x179) 0xff); cbn [andb] in *.
  2: { hstep. store_at 1%nat 0 0. by apply HF. }
  eapply n_writable; [eassumption|done|done|nfv| |]; intros Hb; rewrite Hb in *; clear dependent w'.
  2: { intros w' H'. store_at 1%nat 0 0. by apply HF. }
  specialize (Hmc eq_refl). destruct (Hmc 0x403 ltac:(in_cells)) as [A1 A2]. destruct (Hmc 0x406 ltac:(in_cells)) as [A3 A4].
  intros x w1 Hx. hstep. hstep. hstep.
  eapply n_writable; [eassumption|done|done|nfv| |]; rewrite A1, A2; intros Hb2; [|done]. try clear dependent w'. intros y w2 Hy. hstep. gstep. hstep.
  eapply n_writable; [eassumption|done|done|nfv| |]; rewrite A3, A4; intros Hb3; [|done]. try clear dependent w2. intros z w3 Hz. hstep. gstep. hstep.
  hstep. hstep. hstep. hstep. by eapply (HT eq_refl x y z).
Qed.

Context (Hareas : vm64 a p0 0x2006 = vcpu_msrstore v /\ vm64 a p0 0x2008 = vcpu_exit_msrload v /\ vm64 a p0 0x200A = vcpu_entry_msrload v).
Context (amd64_max : Z) (g : opts) (es : ept_syms) (ds : desc_syms) (us : user_syms) (mid : list MIDTAB) (qemu : bool)
  (msr_bitmap_allcpu : Z) (run_user : Z * Z -> IO unit).
Context (Hv : vcpu_override v = Some HMsrLs).
Abbreviation ginv := (ginv (a := a) (q := q) data v p0 m0).

(** The two calls of the test. *)
Definition ls_body (eax : Z) : IO unit :=
  if eax =? 12 then find_mc_msrs data ≫= fun _ => save_msrs data ≫= fun _ => set_msr_experiment a v data
  else check_msr_effects v data ≫= fun _ => reset_msrs a data.

(** A call from the guest, for what the handler does; the exit before it and the entry after it use the areas. *)
Lemma ms_call eax l n f w (Q : VCPU -> world -> Prop) : eax = 12 \/ eax = 16 -> ginv l n f w -> 0 <= n <= 3 -> exit_fine n f ->
  (forall w1, let f' := f_store p0 (Z.to_nat n) 0 l f in hinv (add_loads (f_loads (Z.to_nat n) 2 0 f') l) n f' w1 ->
     wp (ls_body eax) (fun _ w2 => exists l n f, hinv l n f w2 /\ 0 <= n <= 3 /\ exit_fine n f /\
       forall w3, ginv (add_loads (f_loads (Z.to_nat n) 3 0 f) l) n f w3 -> Q v w3) w1) ->
  wp (vmcall a amd64_max g es ds us mid qemu msr_bitmap_allcpu run_user eax data v) Q w.
Proof.
  intros Heax (p & m & H & Hg & Hf & Ha) Hn Hfine HQ. eapply wp_vmcall; [exact H|exact Hv|].
  intros tr pm w1 len rip H1. destruct (exit_inv (q := q) data v Hbase p0 m0 Hareas l n f p m tr VMX_VMEXIT_VMCALL Hn Hg Hf Ha Hfine) as (G1 & G2 & G3).
  cbn [call_handler]. unfold shv_guest_test_msr_ls_vmexit_handler. cbn [vmexit_reason]. rewrite Z.eqb_refl. cbn [negb].
  match goal with |- wp (?B ≫= ?K) ?R w1 => assert (wp B (fun _ w2 => wp (K tt) R w2) w1) as HB; [|apply wp_bind; eapply wp_use; [exact HB|]; by intros []] end.
  assert (wp (ls_body eax) (fun _ w2 => exists l n f, hinv l n f w2 /\ 0 <= n <= 3 /\ exit_fine n f /\
       forall w3, ginv (add_loads (f_loads (Z.to_nat n) 3 0 f) l) n f w3 -> Q v w3) w1) as HB.
  { apply HQ. exists pm.1, pm.2. done. }
  replace (if r_eax (call_regs eax data) =? 12 then _ else _) with (ls_body eax) by (by destruct Heax as [->| ->]).
  eapply wp_use; [exact HB|]. clear HB HQ. intros [] w2 (l2 & n2 & f2 & (p2 & m2 & H2 & G1' & G2' & G3') & Hn2 & Hfine2 & HQ).
  eapply wp_resume; [exact H2|]. intros w3 rip' H3. eapply wp_vm_entry; [exact H3|]. intros w4 H4. apply HQ.
  eexists _, m2. split; [exact H4|]. split; [|done]. apply (entry_inv data v p0 Hareas); [done| |done..].
  destruct G1' as [[C1 C2] M B]. constructor; [constructor|..].
  - by field_simp.
  - intros enc E1 E2. rewrite vm_set_ne by (apply Z.eqb_neq; intros ->; discriminate E2). by apply C2.
  - done.
  - by field_simp.
Qed.

Ltac know_msrs :=
  match goal with Hs : ms_start _ |- _ =>
    pose proof (ms_rw _ Hs) as Hrw; destruct (ms_info _ Hs);
    destruct (Hrw 0x20a ltac:(in_cells)); destruct (Hrw 0x20b ltac:(in_cells)); destruct (Hrw 0x20c ltac:(in_cells));
    destruct (Hrw MSR_EFER ltac:(in_cells)); destruct (Hrw 0xc0000081 ltac:(in_cells)); destruct (Hrw MSR_IA32_PAT ltac:(in_cells));
    clear Hrw
  end.

Abbreviation calls := (fun w Q => wp (vmcall a amd64_max g es ds us mid qemu msr_bitmap_allcpu run_user 12 data v ≫=
  fun v => vmcall a amd64_max g es ds us mid qemu msr_bitmap_allcpu run_user 16 data v) Q w) (only parsing).

Ltac call_done n fine := eexists _, n, _; split; [eassumption|]; split; [done|]; split; [fine|]; hnext.
Ltac second_call fine :=
  lazymatch goal with H : ginv _ _ _ _ |- _ => eapply (ms_call 16); [by right|exact H|done|fine|]; clear H end;
  let f := fresh "f" in intros ? f ?; subst f; change (ls_body 16) with (check_msr_effects v data ≫= fun _ => reset_msrs a data);
  unfold check_msr_effects, reset_msrs.
Ltac msrs_back :=
  intros i; match goal with |- mval ?L _ _ = _ => let l := eval lazy -[p_msr wrap] in L in change L with l end;
  cbn [mval]; rewrite ?(E64 _ Hstart) by reflexivity;
  repeat match goal with |- context [i =? ?k] => destruct (Z.eqb_spec i k) as [->|_]; [reflexivity|] end; done.

Lemma calls_ok f w (Q : VCPU -> world -> Prop) : ginv [] 0 f w ->
  (forall l f' w', ginv l 0 f' w' -> (forall i, mval l (p_msr p0) i = p_msr p0 i) -> Q v w') -> calls w Q.
Proof.
  intros H HQ. know_msrs. apply wp_bind. eapply (ms_call 12); [by left|exact H|done|intros j Hj; lia|]. clear w H. intros w f0 H.
  change (ls_body 12) with (find_mc_msrs data ≫= fun _ => save_msrs data ≫= fun _ => set_msr_experiment a v data).
  change (add_loads _ _) with (@nil (Z * Z)) in H. subst f0. change (f_store _ _ _ _ _) with f in H.
  gstep. eapply find_ok; [exact H| |]; clear w H.
  - intros Hmc w H. unfold save_msrs, set_msr_experiment. repeat hstep.
    gstep. { apply Z.ltb_lt. pose proof (ms_cap _ Hstart). rewrite ?(E64 _ Hstart) by reflexivity. done. }
    repeat hstep. split; [apply (ms_pat _ Hstart)|]. repeat hstep.
    call_done 2 ltac:(intros j Hj; assert (j = 0 \/ j = 1) as [->| ->] by lia; done).
    second_call ltac:(intros j Hj; assert (j = 0 \/ j = 1) as [->| ->] by lia; done).
    repeat hstep. call_done 0 ltac:(intros j Hj; lia). eapply HQ; [eassumption|]. msrs_back.
  - intros Hmc x y z w H. destruct (ms_mc _ Hstart Hmc 0x403 ltac:(in_cells)) as [A1 A2]. destruct (ms_mc _ Hstart Hmc 0x406 ltac:(in_cells)) as [A3 A4].
    assert (q_readable q 0x402 = true /\ q_writable q 0x402 = true) as [A5 A6].
    { unfold use_mc in Hmc. rewrite !andb_true_iff in Hmc. apply Hmc. }
    unfold save_msrs, set_msr_experiment. repeat hstep.
    gstep. { apply Z.ltb_lt. pose proof (ms_cap _ Hstart). rewrite ?(E64 _ Hstart) by reflexivity. done. }
    repeat hstep. split; [apply (ms_pat _ Hstart)|]. repeat hstep.
    call_done 3 ltac:(intros j Hj; assert (j = 0 \/ j = 1 \/ j = 2) as [->|[->| ->]] by lia; done).
    second_call ltac:(intros j Hj; assert (j = 0 \/ j = 1 \/ j = 2) as [->|[->| ->]] by lia; done).
    repeat hstep. call_done 0 ltac:(intros j Hj; lia). eapply HQ; [eassumption|]. msrs_back.
Qed.
End ms_run.

Section ms_test.
Context {a : subarch} {q : guest_cpu}.
#[local] Hint Extern 0 Device => exact (q_device a q) : typeclass_instances.
#[local] Hint Extern 0 Cpu => exact (q_cpu a q) : typeclass_instances.
#[local] Hint Extern 0 Guest => exact (q_guest a q) : typeclass_instances.
Context (amd64_max : Z) (g : opts) (es : ept_syms) (ds : desc_syms) (us : user_syms) (mid : list MIDTAB) (qemu : bool)
  (msr_bitmap_allcpu : Z) (run_user : Z * Z -> IO unit).
Abbreviation at_ := (at_ (a := a) (q := q)).

(** What the test needs: its memory, the addresses of the areas in the VMCS, and the MSRs. *)
Record ms_ready (data : Z) (v : VCPU) (p : pst) : Prop := {
  mr_base r r' : 0 <= r < 4 -> 0 <= r' < 4 -> r <> r' ->
    region_base data v r + region_size r <= region_base data v r' \/ region_base data v r' + region_size r' <= region_base data v r;
  mr_areas : vm64 a p 0x2006 = vcpu_msrstore v /\ vm64 a p 0x2008 = vcpu_exit_msrload v /\ vm64 a p 0x200A = vcpu_entry_msrload v;
  mr_start : ms_start (q := q) p }.

Lemma msr_ls_test data v w p m (Q : VCPU -> world -> Prop) : at_ w p m -> quiet_guest a p -> vcpu_override v = None ->
  (opt_set g SHV_USE_MSR_LOAD = true -> ms_ready data v p) ->
  (forall w' p' m', at_ w' p' m' -> keeps a [] [] p p' -> agree (fun b => ~ region (region_base data v) b) m m' -> Q v w') ->
  wp (shv_guest_test_msr_ls a amd64_max g es ds us mid qemu msr_bitmap_allcpu run_user data v) Q w.
Proof.
  intros H [Hg (N1 & N2 & N3) F1 F2] Ho Hready HQ. unfold shv_guest_test_msr_ls. destruct (opt_set g SHV_USE_MSR_LOAD).
  2: { gstep. by eapply HQ; [exact H|apply keeps_refl|]. }
  destruct (Hready eq_refl) as [Hb Ha Hs]. unfold with_handler. gstep.
  assert (forall r, region_base data (with_override (Some HMsrLs) v) r = region_base data v r) as Er by (by destruct v).
  eapply (calls_ok data (with_override (Some HMsrLs) v) ltac:(done) p m Hs ltac:(by destruct v) _ _ _ _ _ _ _ _ _ ltac:(by destruct v)
    (fun r o => ld (if (r =? 0) && (o =? 0) then 1%nat else if (r =? 0) && (o <=? 12) then 4%nat else
      if r =? 0 then 8%nat else if (o mod 16 =? 0) then 4%nat else 8%nat) m (region_base data v r + o))).
  - exists p, m. split; [exact H|]. split; [by constructor|]. split; [|done].
    intros r o n Hr Hc. rewrite Er. f_equal.
    assert (Forall (fun c : Z * nat => c.2 = (if (r =? 0) && (c.1 =? 0) then 1%nat else if (r =? 0) && (c.1 <=? 12) then 4%nat else
      if r =? 0 then 8%nat else if (c.1 mod 16 =? 0) then 4%nat else 8%nat)) (cells r)) as Hall.
    { destruct (region_cases r Hr) as [->|[->|[->| ->]]]; apply (bool_decide_unpack _); vm_compute; exact I. }
    rewrite Forall_forall in Hall. apply (Hall (o, n) Hc).
  - intros l f' w' (p' & m' & H' & [[(C1 & C2 & C3) Cv] Hm [B1 B2] G'] & _ & Ha') Hl. gstep. rewrite reset_override by done.
    eapply HQ; [exact H'| |].
    + constructor; [congruence| |].
      * intros enc _ E2. destruct (outside count_fields enc) eqn:E1; [by apply Cv|].
        unfold outside, count_fields in E1. cbn in E1. rewrite orb_false_r, negb_false_iff, !orb_true_iff, !Z.eqb_eq in E1.
        destruct E1 as [->|[->| ->]]; congruence.
      * intros i _. destruct (is_base i) eqn:Ei; [|rewrite Hm by done; apply Hl].
        unfold is_base in Ei. rewrite orb_true_iff, !Z.eqb_eq in Ei. destruct Ei as [->| ->]; congruence.
    + intros b Hb'. apply Ha'. intros (r & Hr & Hin). apply Hb'. exists r. by rewrite Er in Hin.
Qed.
End ms_test.
