(* ===== verification/GuestProps.v ===== *)
(** The main loop of [src/shv-guest.c] on the processor of GuestMachine: every round passes all its tests, and leaves everything
    but its own memory and a few fields as it was. *)
From Stdlib Require Import String.
From S2P Require Import Prelude.
From S2P Require Import HptLemmas.
From S2P Require Import Mem.
From S2P Require Import LibcString.
From S2P Require Import Ept.
From S2P Require Import EptCtx.
From S2P Require Import EptBuild.
From S2P Require Import EptProps.
From S2P Require Import CString.
From S2P Require Import Cmdline.
From S2P Require Import Stdio.
From S2P Require Import Print.
From S2P Require Import Io.
From S2P Require Import Smp.
From S2P Require Import Desc.
From S2P Require Import Timer.
From S2P Require Import VmxCtls.
From S2P Require Import VmcsFields.
From S2P Require Import Vmcs.
From S2P Require Import VmcsProps.
From S2P Require Import Vcpu.
From S2P Require Import Asm.
From S2P Require Import Vmx.
From S2P Require Import User.
From S2P Require Import UserProps.
From S2P Require Import Guest.
From S2P Require Import GuestMachine.
From S2P Require Import GuestRules.
From S2P Require Import GuestTests.
From S2P Require Import GuestEpt.
From S2P Require Import GuestBitmap.
From S2P Require Import GuestMsr.
Local Open Scope string_scope.
Local Open Scope Z_scope.

(** The fields and the MSR that rounds change. *)
Definition round_fields : list Z := [0; 0x201A; 0x201B; 0x2004; 0x2005].
Definition round_msrs : list Z := [MSR_LSTAR].

(** Everything is in place: the options leave out VMXOFF and user mode, and the parts of memory the tests use are apart. *)
Record guest_setup (a : subarch) (q : guest_cpu) (g : opts) (es : ept_syms) (msr_bitmap_allcpu data_at : Z) (v : VCPU) : Prop := {
  gs_vmxoff : opt_set g SHV_USE_VMXOFF = false;
  gs_user : opt_set g SHV_USER_MODE = false /\ opt_set g SHV_NESTED_USER_MODE = false;
  gs_switch : opt_set g SHV_USE_SWITCH_EPT = true -> opt_set g SHV_USE_EPT = true;
  gs_large : opt_set g SHV_USE_LARGE_PAGE = true -> opt_set g SHV_USE_EPT = true;
  gs_override : vcpu_override v = None;
  gs_count : vcpu_ept_exit_count v = 0;
  gs_ept : guest_layout a es (g_shv_opt g) (vcpu_ept v);
  gs_bitmap : opt_set g SHV_USE_MSRBITMAP = true -> bitmap_msrs (q := q) /\ is_u (ptr_bits a) (msr_bitmap_of msr_bitmap_allcpu v);
  gs_bitmap_ept b : footprint es (g_shv_opt g) (vcpu_ept v) b -> ~ in_range (msr_bitmap_of msr_bitmap_allcpu v) PAGE_SIZE_4K b;
  gs_msr_ept b : footprint es (g_shv_opt g) (vcpu_ept v) b -> ~ region (region_base data_at v) b;
  gs_msr_bitmap b : region (region_base data_at v) b -> ~ in_range (msr_bitmap_of msr_bitmap_allcpu v) PAGE_SIZE_4K b }.

Section rounds.
Context {a : subarch} {q : guest_cpu}.
#[local] Hint Extern 0 Device => exact (q_device a q) : typeclass_instances.
#[local] Hint Extern 0 Cpu => exact (q_cpu a q) : typeclass_instances.
#[local] Hint Extern 0 Guest => exact (q_guest a q) : typeclass_instances.
Context (amd64_max : Z) (g : opts) (es : ept_syms) (ds : desc_syms) (us : user_syms) (mid : list MIDTAB) (qemu : bool)
  (msr_bitmap_allcpu : Z) (run_user : Z * Z -> IO unit).
Abbreviation at_ := (at_ (a := a) (q := q)).
Context (barrier_lock barrier_arrived data_at : Z) (fuel : nat) (others : nat -> mem -> mem).
Context (v : VCPU) (S : guest_setup a q g es msr_bitmap_allcpu data_at v).
Abbreviation uses := (ept_uses a es (vcpu_ept v)).
Abbreviation cur := (ept_cur a es (g_shv_opt g) (vcpu_ept v)).
Abbreviation ready := (ept_ready a es (g_shv_opt g) (vcpu_ept v)).
Abbreviation round := (guest_round a amd64_max g es ds us mid qemu msr_bitmap_allcpu run_user
  barrier_lock barrier_arrived data_at fuel others).

(** Between rounds. *)
Record round_inv (n : Z) (p : pst) (m : mem) : Prop := {
  ri_quiet : quiet_guest a p;
  ri_vpid : opt_set g SHV_USE_VPID = true -> vm a p 0 mod 2 = 1;
  ri_num : 0 <= n < 32;
  ri_ept : opt_set g SHV_USE_EPT = true -> uses n p /\ ready m /\ cur n m;
  ri_bitmap : opt_set g SHV_USE_MSRBITMAP = true ->
    bm_start (a := a) p /\ p_msr p MSR_TSC_ADJUST = 0 /\ bitmap_clear_in msr_bitmap_allcpu v m;
  ri_msr : opt_set g SHV_USE_MSR_LOAD = true -> ms_ready (a := a) (q := q) data_at v p }.
(** What rounds may write. *)
Definition round_memory (b : Z) : Prop :=
  footprint es (g_shv_opt g) (vcpu_ept v) b \/ in_range (msr_bitmap_of msr_bitmap_allcpu v) PAGE_SIZE_4K b \/
  region (region_base data_at v) b.

(** ** What each test needs is kept by the others *)

Lemma keeps_uses L n p p' : keeps a L round_msrs p p' -> forallb (outside L) [0x4002; 0x401E; 0x201A; 0x201B] = true ->
  uses n p -> uses n p'.
Proof.
  intros K HL [E1 E2]. cbn in HL. rewrite !andb_true_iff in HL. destruct HL as (H1 & H2 & H3 & H4 & _). constructor.
  - unfold ept_on in *. by rewrite !(kp_vm _ _ _ _ _ K).
  - by rewrite (keeps_vm64 _ _ _ _ 0x201A K).
Qed.
Lemma keeps_start L p p' : keeps a L round_msrs p p' -> forallb (outside L) [0x4002; 0x400E; 0x4010; 0x4014; 0x6C06; 0x6C08] = true ->
  bm_start (a := a) p -> bm_start (a := a) p'.
Proof.
  intros K HL [E1 (A1 & A2 & A3) E2]. cbn in HL. rewrite !andb_true_iff in HL. destruct HL as (H1 & H2 & H3 & H4 & H5 & H6 & _).
  constructor; unfold no_areas; by rewrite !(kp_vm _ _ _ _ _ K).
Qed.
Lemma keeps_ready L p p' : keeps a L round_msrs p p' ->
  forallb (outside L) [0x2006; 0x2007; 0x2008; 0x2009; 0x200A; 0x200B] = true ->
  ms_ready (a := a) (q := q) data_at v p -> ms_ready (a := a) (q := q) data_at v p'.
Proof.
  intros K HL [B (A1 & A2 & A3) M]. cbn in HL. rewrite !andb_true_iff in HL. destruct HL as (H1 & H2 & H3 & H4 & H5 & H6 & _).
  constructor; [exact B|by rewrite !(keeps_vm64 _ _ _ _ _ K)|].
  assert (forall i, ms_used i = true -> p_msr p' i = p_msr p i) as E.
  { intros i Hi. apply (kp_msr _ _ _ _ _ K). unfold outside, round_msrs. cbn. rewrite orb_false_r, negb_true_iff.
    apply Z.eqb_neq. intros ->. by vm_compute in Hi. }
  destruct M as [M1 M2 M3 M4 M5 M6]. unfold use_mc in *. constructor; unfold use_mc; rewrite ?E by done; try done.
  intros i Hi. rewrite E by done. by apply M1.
Qed.

(** The invariant after a test that changes the fields [L] and the memory [W], but for what the test changes itself. *)
Lemma round_step L n n' p p' m m' (W : Z -> Prop) : round_inv n p m -> 0 <= n' < 32 -> keeps a L round_msrs p p' -> agree (fun b => ~ W b) m m' ->
  (forall x, x ∈ L -> x ∈ round_fields) ->
  (opt_set g SHV_USE_VPID = true -> vm a p' 0 mod 2 = 1) ->
  (opt_set g SHV_USE_EPT = true -> uses n' p' /\ ready m' /\ cur n' m') ->
  (opt_set g SHV_USE_MSRBITMAP = true -> bitmap_clear_in msr_bitmap_allcpu v m') -> round_inv n' p' m'.
Proof.
  intros [R1 R2 R3 R4 R5 R6] Hn K A HL HV HE HB.
  assert (forall l, forallb (outside round_fields) l = true -> forallb (outside L) l = true) as HF.
  { intros l. rewrite !forallb_forall. intros Hl x Hx. eapply outside_weaken; [exact HL|by apply Hl]. }
  constructor; [| |done|done| |].
  - assert (forallb (outside L) [0x400E; 0x4010; 0x4014] = true) as E by (by apply HF).
    cbn in E. rewrite !andb_true_iff in E. destruct E as (? & ? & ? & _). by eapply keeps_silent.
  - done.
  - intros Hb. destruct (R5 Hb) as (S1 & S2 & S3). split; [eapply keeps_start; [exact K|by apply HF|exact S1]|].
    split; [|by apply HB]. by rewrite (kp_msr _ _ _ _ _ K).
  - intros Hm. eapply keeps_ready; [exact K|by apply HF|by apply R6].
Qed.
Lemma bitmap_agree m m' (W : Z -> Prop) : agree (fun b => ~ W b) m m' ->
  (forall b, W b -> ~ in_range (msr_bitmap_of msr_bitmap_allcpu v) PAGE_SIZE_4K b) ->
  bitmap_clear_in msr_bitmap_allcpu v m -> bitmap_clear_in msr_bitmap_allcpu v m'.
Proof. intros A HW Hc b Hb. rewrite A; [by apply Hc|]. intros Hw. by apply (HW b). Qed.
Lemma ept_agree n m m' (W : Z -> Prop) : 0 <= n < 32 -> agree (fun b => ~ W b) m m' ->
  (forall b, footprint es (g_shv_opt g) (vcpu_ept v) b -> ~ W b) -> ready m /\ cur n m -> ready m' /\ cur n m'.
Proof.
  intros Hn A HW [H1 H2]. assert (agree (footprint es (g_shv_opt g) (vcpu_ept v)) m m') as A' by (intros b Hb; by apply A, HW).
  split; [by eapply ready_agree; [apply S|..]|by eapply cur_agree; [apply S|..]].
Qed.

(** From the state at the start of a round to a state in it. *)
Record reached (p0 : pst) (m0 : mem) (n : Z) (p : pst) (m : mem) : Prop := {
  re_keeps : keeps a round_fields round_msrs p0 p;
  re_agree : agree (fun b => ~ round_memory b) m0 m;
  re_inv : round_inv n p m }.
Lemma reached_step L (I : list Z) (W : Z -> Prop) p0 m0 n n' p m p' m' : reached p0 m0 n p m -> keeps a L I p p' ->
  agree (fun b => ~ W b) m m' -> (forall x, x ∈ L -> x ∈ round_fields) -> (forall x, x ∈ I -> x ∈ round_msrs) ->
  (forall b, W b -> round_memory b) -> round_inv n' p' m' -> reached p0 m0 n' p' m'.
Proof.
  intros [R1 R2 R3] K A HL HI HW Hinv. constructor; [| |done].
  - eapply keeps_trans; [exact R1|]. by eapply keeps_weaken.
  - eapply agree_trans; [exact R2|]. eapply agree_weaken; [|exact A]. intros b Hb Hw. by apply Hb, HW.
Qed.
(** A test that changes none of the fields, and none of the memory the others use. *)
Lemma reached_quiet (W : Z -> Prop) p0 m0 n p m p' m' : reached p0 m0 n p m -> keeps a [] [] p p' -> agree (fun b => ~ W b) m m' ->
  (forall b, W b -> region (region_base data_at v) b) -> reached p0 m0 n p' m' /\ vm a p' 0 = vm a p 0.
Proof.
  intros H K A HW. pose proof (re_inv _ _ _ _ _ H) as R.
  assert (keeps a [] round_msrs p p') as K' by (eapply keeps_weaken; [..|exact K]; intros y Hy; by apply not_elem_of_nil in Hy).
  split; [|by apply (kp_vm _ _ _ _ _ K)].
  eapply reached_step; [exact H|exact K|exact A|intros x Hx; by apply not_elem_of_nil in Hx..|intros b Hb; right; right; by apply HW|].
  eapply round_step; [exact R|apply R|exact K'|exact A|intros x Hx; by apply not_elem_of_nil in Hx| | |].
  - intros Hv. rewrite (kp_vm _ _ _ _ _ K) by done. by apply (ri_vpid _ _ _ R).
  - intros He. destruct (ri_ept _ _ _ R He) as (E1 & E2). split; [by eapply keeps_uses|].
    eapply ept_agree; [apply R|exact A| |exact E2]. intros b Hb Hw. by apply (gs_msr_ept _ _ _ _ _ _ _ S b), HW.
  - intros Hb. eapply bitmap_agree; [exact A| |apply (ri_bitmap _ _ _ R Hb)]. intros b Hw. by apply (gs_msr_bitmap _ _ _ _ _ _ _ S), HW.
Qed.

Lemma with_num_id : with_ept_num (vcpu_ept_num v) v = v.
Proof. by destruct v. Qed.
Lemma setup_num n : vcpu_override (with_ept_num n v) = None /\ vcpu_ept_exit_count (with_ept_num n v) = 0 /\
  vcpu_ept_num (with_ept_num n v) = n /\ vcpu_ept (with_ept_num n v) = vcpu_ept v /\
  (forall n', with_ept_num n' (with_ept_num n v) = with_ept_num n' v) /\
  region_base data_at (with_ept_num n v) = region_base data_at v /\
  msr_bitmap_of msr_bitmap_allcpu (with_ept_num n v) = msr_bitmap_of msr_bitmap_allcpu v.
Proof. pose proof (gs_override _ _ _ _ _ _ _ S). pose proof (gs_count _ _ _ _ _ _ _ S). by destruct v. Qed.

(** ** A round *)

Lemma step_msr n p0 m0 w p m (Q : VCPU -> world -> Prop) : at_ w p m -> reached p0 m0 n p m ->
  (forall w' p' m', at_ w' p' m' -> reached p0 m0 n p' m' -> vm a p' 0 = vm a p 0 -> Q (with_ept_num n v) w') ->
  wp (shv_guest_test_msr_ls a amd64_max g es ds us mid qemu msr_bitmap_allcpu run_user data_at (with_ept_num n v)) Q w.
Proof.
  intros H R HQ. pose proof (re_inv _ _ _ _ _ R) as R'. destruct (setup_num n) as (V1 & _ & _ & _ & _ & V6 & _).
  eapply msr_ls_test; [exact H|apply R'|exact V1| |].
  - intros Ho. destruct (ri_msr _ _ _ R' Ho) as [B A M]. constructor; [by rewrite V6| |exact M]. clear -A. by destruct v.
  - rewrite V6. intros w' p' m' H' K A. destruct (reached_quiet _ _ _ _ _ _ _ _ R K A) as [R1 E]; [done|]. by eapply HQ.
Qed.
Lemma step_ept n p0 m0 w p m (Q : VCPU -> world -> Prop) : at_ w p m -> reached p0 m0 n p m ->
  (forall w' p' m', at_ w' p' m' -> reached p0 m0 n p' m' -> vm a p' 0 = vm a p 0 -> Q (with_ept_num n v) w') ->
  wp (shv_guest_test_ept a amd64_max g es ds us mid qemu msr_bitmap_allcpu run_user (with_ept_num n v)) Q w.
Proof.
  intros H R HQ. pose proof (re_inv _ _ _ _ _ R) as R'. destruct (setup_num n) as (V1 & V2 & V3 & _).
  eapply ept_test; [apply (gs_ept _ _ _ _ _ _ _ S)|exact H|apply R'|done..|apply R'| |].
  - intros Ho. by destruct (ri_ept _ _ _ R' Ho) as (? & ? & ?).
  - intros w' p' H' K. destruct (reached_quiet (fun _ => False) _ _ _ _ _ _ _ R K (agree_refl _ _)) as [R1 E]; [done|]. by eapply HQ.
Qed.
Lemma step_switch n p0 m0 w p m (Q : VCPU -> world -> Prop) : at_ w p m -> reached p0 m0 n p m ->
  (forall w' p' m', at_ w' p' m' -> reached p0 m0 (num_after g n) p' m' -> vm a p' 0 = vm a p 0 -> Q (with_ept_num (num_after g n) v) w') ->
  wp (shv_guest_switch_ept a amd64_max g es ds us mid qemu msr_bitmap_allcpu run_user (with_ept_num n v)) Q w.
Proof.
  intros H R HQ. pose proof (re_inv _ _ _ _ _ R) as R'. destruct (setup_num n) as (V1 & V2 & V3 & V4 & V5 & _).
  eapply switch_test; [apply (gs_ept _ _ _ _ _ _ _ S)|exact H|apply R'|done..|apply R'|apply S|apply R'|].
  intros w' p' m' H' K A HE. rewrite V5. pose proof (ri_num _ _ _ R') as Hn.
  assert (keeps a [0x201A; 0x201B] round_msrs p p') as K' by (eapply keeps_weaken; [..|exact K]; [done|intros y Hy; by apply not_elem_of_nil in Hy]).
  assert (vm a p' 0 = vm a p 0) as E by (by apply (kp_vm _ _ _ _ _ K)).
  assert (forall x, x ∈ [0x201A; 0x201B] -> x ∈ round_fields) as HL.
  { intros x Hx. repeat (apply elem_of_cons in Hx as [->|Hx]; [apply (bool_decide_unpack _); exact I|]). by apply not_elem_of_nil in Hx. }
  eapply HQ; [exact H'| |exact E].
  eapply reached_step; [exact R|exact K'|exact A|exact HL|done|by left|].
  eapply round_step; [exact R'| |exact K'|exact A|exact HL|intros Hv; rewrite E; by apply (ri_vpid _ _ _ R')|exact HE|].
  - unfold num_after. destruct (opt_set g SHV_USE_SWITCH_EPT); [by apply next_ept_num_range|done].
  - intros Hb. eapply bitmap_agree; [exact A| |apply (ri_bitmap _ _ _ R' Hb)]. apply S.
Qed.
Lemma step_vpid n p0 m0 w p m (Q : VCPU -> world -> Prop) : at_ w p m -> reached p0 m0 n p m ->
  (forall w' p' m', at_ w' p' m' -> reached p0 m0 n p' m' -> vm a p' 0 = vpid_after g (vm a p 0) -> Q (with_ept_num n v) w') ->
  wp (shv_guest_test_vpid a amd64_max g es ds us mid qemu msr_bitmap_allcpu run_user (with_ept_num n v)) Q w.
Proof.
  intros H R HQ. pose proof (re_inv _ _ _ _ _ R) as R'. destruct (setup_num n) as (V1 & _).
  eapply vpid_test; [exact H|apply R'|done|apply R'|].
  intros w' p' H' K E. eapply HQ; [exact H'| |exact E].
  assert (keeps a [0] round_msrs p p') as K' by (eapply keeps_weaken; [..|exact K]; [done|intros y Hy; by apply not_elem_of_nil in Hy]).
  assert (forall x, x ∈ [0] -> x ∈ round_fields) as HL by (intros x ->%list_elem_of_singleton; apply (bool_decide_unpack _); exact I).
  eapply (reached_step _ _ (fun _ => False)); [exact R|exact K'|done|exact HL|done|done|].
  eapply (round_step _ _ _ _ _ _ _ (fun _ => False)); [exact R'|apply R'|exact K'|done|exact HL| | |apply R'].
  - intros Hv. rewrite E. unfold vpid_after. rewrite Hv. by apply next_vpid_odd, (ri_vpid _ _ _ R').
  - intros He. destruct (ri_ept _ _ _ R' He) as (E1 & E2). split; [by eapply keeps_uses|done].
Qed.
Lemma step_bitmap n p0 m0 w p m (Q : VCPU -> world -> Prop) : at_ w p m -> reached p0 m0 n p m ->
  (forall w' p' m', at_ w' p' m' -> reached p0 m0 n p' m' -> vm a p' 0 = vm a p 0 -> Q (with_ept_num n v) w') ->
  wp (shv_guest_msr_bitmap a amd64_max g es ds us mid qemu msr_bitmap_allcpu run_user (with_ept_num n v)) Q w.
Proof.
  intros H R HQ. pose proof (re_inv _ _ _ _ _ R) as R'. destruct (setup_num n) as (V1 & _ & _ & _ & _ & _ & V7).
  assert (forall m, bitmap_clear_in msr_bitmap_allcpu (with_ept_num n v) m <-> bitmap_clear_in msr_bitmap_allcpu v m) as HB.
  { intros m1. unfold bitmap_clear_in. by rewrite V7. }
  eapply bitmap_test; [|exact H|apply R'|done|].
  - intros Ho. rewrite V7, HB. destruct (gs_bitmap _ _ _ _ _ _ _ S Ho), (ri_bitmap _ _ _ R' Ho) as (? & ? & ?). done.
  - rewrite V7. intros w' p' m' H' K A Hc. eapply HQ; [exact H'| |by apply (kp_vm _ _ _ _ _ K)].
    assert (forall x, x ∈ [0x2004; 0x2005] -> x ∈ round_fields) as HL.
    { intros x Hx. repeat (apply elem_of_cons in Hx as [->|Hx]; [apply (bool_decide_unpack _); exact I|]). by apply not_elem_of_nil in Hx. }
    eapply reached_step; [exact R|exact K|exact A|exact HL|done|by right; left|].
    eapply round_step; [exact R'|apply R'|exact K|exact A|exact HL| | |].
    + intros Hv. rewrite (kp_vm _ _ _ _ _ K) by done. by apply (ri_vpid _ _ _ R').
    + intros He. destruct (ri_ept _ _ _ R' He) as (E1 & E2). split; [by eapply keeps_uses|].
      eapply ept_agree; [apply R'|exact A| |exact E2]. apply S.
    + intros Ho. by apply HB, Hc.
Qed.

Lemma guest_round_ok in_xmhf iter n p0 m0 w p m (Q : VCPU -> world -> Prop) : at_ w p m -> 0 <= iter < 2 ^ 63 -> reached p0 m0 n p m ->
  (forall w' p' m', at_ w' p' m' -> reached p0 m0 (num_after g n) p' m' -> vm a p' 0 = vpid_after g (vm a p 0) ->
     Q (with_ept_num (num_after g n) v) w') ->
  wp (round in_xmhf iter (with_ept_num n v)) Q w.
Proof.
  intros H Hi R HQ. unfold guest_round. destruct (gs_user _ _ _ _ _ _ _ S) as [O1 O2].
  apply wp_bind.
  match goal with |- wp _ ?R _ => assert (forall w', at_ w' p m -> R tt w') as HR end.
  2: { destruct in_xmhf; (eapply (wp_print _ _ [ANum 32; APos]); [exact H|by destruct a|by repeat constructor; lia|exact HR]). }
  clear w H. intros w H. apply wp_bind.
  match goal with |- wp _ ?R _ => assert (forall w', at_ w' p m -> R tt w') as HR end.
  2: { destruct (opt_set g (Z.lor SHV_NO_EFLAGS_IF SHV_NO_INTERRUPT)); cbn [negb]; gstep; by apply HR. }
  clear w H. intros w H. unfold msr_and_user. rewrite O1, andb_false_r. apply wp_bind, wp_bind.
  eapply step_msr; [exact H|exact R|]. clear w H. intros w p1 m1 H R1 E1.
  unfold shv_guest_test_user, shv_guest_test_nested_user. rewrite O1, O2. repeat gstep.
  eapply step_ept; [exact H|exact R1|]. clear w H. intros w p2 m2 H R2 E2. gstep.
  eapply step_switch; [exact H|exact R2|]. clear w H. intros w p3 m3 H R3 E3. gstep.
  eapply step_vpid; [exact H|exact R3|]. clear w H. intros w p4 m4 H R4 E4. gstep.
  unfold shv_guest_test_vmxoff. rewrite (gs_vmxoff _ _ _ _ _ _ _ S).
  replace (if iter mod 5 =? 0 then mret (with_ept_num (num_after g n) v) else mret (with_ept_num (num_after g n) v))
    with (mret (M := IO) (with_ept_num (num_after g n) v)) by (by destruct (iter mod 5 =? 0)).
  gstep. gstep. eapply unrestricted_test; [exact H|]. clear w H. intros w H. gstep.
  pose proof (re_inv _ _ _ _ _ R4) as R4'.
  eapply large_page_test; [apply S|exact H|apply R4'|apply S| |].
  { intros Ho. destruct (ri_ept _ _ _ R4' Ho) as (X1 & _ & X2). exact (conj X1 X2). }
  gstep. eapply step_bitmap; [exact H|exact R4|]. clear w H. intros w p5 m5 H R5 E5.
  destruct (setup_num (num_after g n)) as (V1 & _).
  eapply wait_int_test; [exact H|apply (re_inv _ _ _ _ _ R5)|exact V1|]. intros w' p6 H' K.
  destruct (reached_quiet (fun _ => False) _ _ _ _ _ _ _ R5 K (agree_refl _ _)) as [R6 E6]; [done|].
  eapply HQ; [exact H'|exact R6|]. by rewrite E6, E5, E4, E3, E2, E1.
Qed.

Lemma reached_start n p m : round_inv n p m -> reached p m n p m.
Proof. intros H. constructor; [apply keeps_refl|apply agree_refl|done]. Qed.

Lemma guest_rounds_from k in_xmhf : forall iter n p0 m0 w p m, at_ w p m -> 0 <= iter -> iter + Z.of_nat k < 2 ^ 63 -> reached p0 m0 n p m ->
  wp (guest_rounds a amd64_max g es ds us mid qemu msr_bitmap_allcpu run_user barrier_lock barrier_arrived
        data_at fuel others k in_xmhf iter (with_ept_num n v))
    (fun x w' => x = (with_ept_num (Nat.iter k (num_after g) n) v, iter + Z.of_nat k) /\
       exists p' m', at_ w' p' m' /\ reached p0 m0 (Nat.iter k (num_after g) n) p' m' /\
         vm a p' 0 = Nat.iter k (vpid_after g) (vm a p 0)) w.
Proof.
  induction k as [|k IH]; intros iter n p0 m0 w p m H H0 Hk HR; cbn [guest_rounds].
  - gstep. split; [by rewrite Z.add_0_r|]. by exists p, m.
  - assert (u64 (iter + 1) = iter + 1) as -> by (apply wrap_small; unfold is_u; lia).
    gstep. gstep; [by apply Z.ltb_lt; lia|]. gstep.
    eapply guest_round_ok; [exact H|lia|exact HR|]. clear w H. intros w p1 m1 H HR1 E1.
    eapply wp_use; [eapply IH; [exact H|lia|lia|exact HR1]|]. intros x w' (-> & p2 & m2 & H2 & HR2 & E2).
    rewrite !Nat.iter_succ_r. split; [f_equal; lia|]. exists p2, m2. split; [done|]. split; [done|]. by rewrite E2, E1.
Qed.

(** C4: Every round of the guest's main loop passes, with the options for VMXOFF and for user mode off.  However many rounds run
    (while the counter printed by [printf] is not negative),
    each test of the round finds what it asserts -- MSRs stored and loaded at exits and entries, EPT violations and the bytes
    behind the EPT, switching the EPT, VPID and the answers of [INVVPID], paging off and on, the MSR bitmap with its exits and
    faults -- no assertion fails, the guest is back in the state it needs for the next round, and the number of the EPT and the
    VPID advance by one step per round.  Nothing else has changed, but for the fields the tests switch (the VPID, the EPT pointer
    and the address of the MSR bitmap), the tables and areas of the tests in memory, and one MSR: MSR_LSTAR, which the test of the
    bitmap writes and leaves so. *)
Theorem guest_rounds_pass k in_xmhf iter n w :
  round_inv n (pstate a q (w_tr w)) (w_mem w) -> 0 <= iter -> iter + Z.of_nat k < 2 ^ 63 ->
  exists w', guest_rounds a amd64_max g es ds us mid qemu msr_bitmap_allcpu run_user barrier_lock barrier_arrived
      data_at fuel others k in_xmhf iter (with_ept_num n v) w
    = Ok ((with_ept_num (Nat.iter k (num_after g) n) v, iter + Z.of_nat k), w') /\
  reached (pstate a q (w_tr w)) (w_mem w) (Nat.iter k (num_after g) n) (pstate a q (w_tr w')) (w_mem w') /\
  vm a (pstate a q (w_tr w')) 0 = Nat.iter k (vpid_after g) (vm a (pstate a q (w_tr w)) 0).
Proof.
  intros Hinv H0 Hk. pose proof (guest_rounds_from k in_xmhf iter n _ _ w _ _ (at_here w) H0 Hk (reached_start _ _ _ Hinv)) as H.
  unfold wp in H. destruct (guest_rounds _ _ _ _ _ _ _ _ _ _ _ _ _ _ _ _ _ _ _ _) as [[x w']|]; [|done].
  destruct H as (-> & p' & m' & [<- <-] & HR & E). by exists w'.
Qed.
End rounds.

(** ** A concrete guest *)

Definition demo_guest_opts : opts := mkOpts 0x53d 0 0 50.
Definition demo_guest_vcpu : VCPU :=
  mkVcpu 0x9000 0xa000 0 0 true (replicate 17 0) 0 0 0 0 (mkCtls 0 0 0 0 0) demo_vcpu ∅ 0 0 0 0x10010000 0x10011000 0x10012000 0 1 None.
(** Which MSRs exist, their values, and the fields of the VMCS. *)
Definition demo_msr (i : Z) : Z :=
  if i =? 0x179 then 10 else if i =? 0xfe then 8 else if i =? MSR_IA32_PAT then 0x0007040600070406 else 0.
Definition demo_vm (enc : Z) : Z :=
  if enc =? 0 then 1 else if enc =? 0x4002 then 2 ^ 31 else if enc =? 0x401E then 2 else if enc =? 0x201A then 0x60001e
  else if enc =? 0x2006 then 0x10010000 else if enc =? 0x2008 then 0x10011000 else if enc =? 0x200A then 0x10012000 else 0.
Definition demo_guest : guest_cpu :=
  mkQ (mkP true demo_msr demo_vm) (fun i => negb (unknown i)) (fun i => negb (unknown i)) (fun _ => 0x400000) (fun _ => 3) (fun _ => 0)
    (fun _ _ => 0) (fun _ _ => 0) (fun _ _ _ => (0, 0, 0, 0)) (fun _ _ => 0).
Definition demo_data : Z := 0x10013000.
Definition demo_bitmap : Z := 0x10000000.

Ltac guest_addr :=
  unfold touched, arena, in_range, ept_root_at, ept_pool_at, ept_alloc_at, ept_valid_at,
    ept_target_at, large_pages_at, SHV_EPT_COUNT, EPT_POOL_SIZE, PAGE_SIZE_4K, PA_PAGE_SIZE_2M in *;
  cbn [demo_syms demo_vcpu v_idx s_ept_low s_ept_high s_ept_valid s_ept_root
      s_ept_pool s_ept_alloc s_ept_target s_large_pages] in *; lia.
Lemma demo_guest_layout : guest_layout AMD64 demo_syms (g_shv_opt demo_guest_opts) demo_vcpu.
Proof.
  assert (forall n, 0 <= n < 32 -> 0 <= Z.shiftr n 4 < 2) as Hg by apply group_range.
  constructor.
  - apply demo_layout.
  - constructor; cbn; lia.
  - intros n k b Hn Hk Ht Ha. pose proof (Hg n Hn). pose proof (Hg k Hk). guest_addr.
  - intros n k Hn Hk. pose proof (Hg n Hn). repeat split; intros ?; guest_addr.
  - intros n b Hn Hb. split; intros ?; guest_addr.
  - done.
  - repeat split; apply demo_types.
Qed.
Lemma demo_footprint b : footprint demo_syms (g_shv_opt demo_guest_opts) demo_vcpu b -> b < 0x10000000.
Proof. intros (n & Hn & Hb). pose proof (group_range n Hn). destruct Hb as [Hb|Hb]; guest_addr. Qed.
Lemma demo_region b : region (region_base demo_data demo_guest_vcpu) b -> 0x10010000 <= b.
Proof.
  intros (r & Hr & Hb). unfold in_range, region_base, region_size, demo_data in Hb. cbn in Hb.
  destruct (region_cases r Hr) as [->|[->|[->| ->]]]; cbn in Hb; lia.
Qed.
Lemma demo_setup : guest_setup AMD64 demo_guest demo_guest_opts demo_syms demo_bitmap demo_data demo_guest_vcpu.
Proof.
  constructor; [reflexivity|split; reflexivity|intros _; reflexivity|intros _; reflexivity|reflexivity|reflexivity|exact demo_guest_layout|..].
  - intros _. split; [|done]. constructor; intros i Hi; cbn.
    + unfold known in Hi. cbn in Hi. rewrite orb_false_r, !orb_true_iff, !Z.eqb_eq in Hi.
      by destruct Hi as [->|[->|[->| ->]]].
    + change (negb (unknown i) = false /\ negb (unknown i) = false). by rewrite Hi.
  - intros b Hb%demo_footprint. unfold in_range, demo_bitmap, msr_bitmap_of, PAGE_SIZE_4K. cbn. lia.
  - intros b Hb%demo_footprint Hr%demo_region. lia.
  - intros b Hr%demo_region. unfold in_range, demo_bitmap, msr_bitmap_of, PAGE_SIZE_4K. cbn. lia.
Qed.
Lemma demo_start m : ept_ready AMD64 demo_syms (g_shv_opt demo_guest_opts) demo_vcpu m ->
  ept_cur AMD64 demo_syms (g_shv_opt demo_guest_opts) demo_vcpu 1 m ->
  agree (fun b => ~ footprint demo_syms (g_shv_opt demo_guest_opts) demo_vcpu b) ∅ m ->
  round_inv (a := AMD64) (q := demo_guest) demo_guest_opts demo_syms demo_bitmap demo_data demo_guest_vcpu 1 (q_start demo_guest) m.
Proof.
  intros HR HC HA. constructor; [|intros _; reflexivity|lia| | |].
  - constructor; [reflexivity|by split; [|split]|reflexivity..].
  - intros _. split; [by constructor|done].
  - intros _. split; [constructor; [reflexivity|by split; [|split]|done]|]. split; [reflexivity|].
    intros b Hb. rewrite HA; [reflexivity|]. intros Hf%demo_footprint. unfold in_range, demo_bitmap, msr_bitmap_of in Hb. cbn in Hb. lia.
  - intros _. constructor; [|by split; [|split]|].
    + intros r r' Hr Hr'. unfold region_base, region_size, demo_data. cbn.
      destruct (region_cases r Hr) as [->|[->|[->| ->]]], (region_cases r' Hr') as [->|[->|[->| ->]]]; cbn; lia.
    + constructor.
      * intros i _. unfold is_u. change (0 <= demo_msr i < 2 ^ 64). unfold demo_msr. repeat destruct (_ =? _); lia.
      * intros i Hi. unfold test_msrs in Hi. repeat (apply elem_of_cons in Hi as [->|Hi]; [done|]). by apply not_elem_of_nil in Hi.
      * done.
      * intros _ i Hi. repeat (apply elem_of_cons in Hi as [->|Hi]; [done|]). by apply not_elem_of_nil in Hi.
      * reflexivity.
      * reflexivity.
Qed.
Lemma demo_memory : exists m, ept_ready AMD64 demo_syms (g_shv_opt demo_guest_opts) demo_vcpu m /\
  ept_cur AMD64 demo_syms (g_shv_opt demo_guest_opts) demo_vcpu 1 m /\
  agree (fun b => ~ footprint demo_syms (g_shv_opt demo_guest_opts) demo_vcpu b) ∅ m.
Proof.
  destruct (ept_step AMD64 demo_syms (g_shv_opt demo_guest_opts) demo_vcpu demo_guest_layout 1 ∅ (fun _ _ => true)) as (m & _ & H); [|lia|done|by exists m].
  split; left; done.
Qed.

Lemma guest_rounds_pass_witness : exists m w',
  guest_rounds (D := q_device AMD64 demo_guest) (C := q_cpu AMD64 demo_guest) (G := q_guest AMD64 demo_guest) AMD64 (2 ^ 33)
    demo_guest_opts demo_syms (mkDescSyms 0 0 0 0) demo_user [] true demo_bitmap (fun _ => mret tt) 0 4 demo_data 0
    (fun _ m => m) 40 true 0 demo_guest_vcpu (mkW m []) = Ok ((with_ept_num 9 demo_guest_vcpu, 40), w') /\
  vm AMD64 (pstate AMD64 demo_guest (w_tr w')) 0 = 81.
Proof.
  destruct demo_memory as (m & HR & HC & HA).
  destruct (guest_rounds_pass (a := AMD64) (q := demo_guest) (2 ^ 33) demo_guest_opts demo_syms (mkDescSyms 0 0 0 0) demo_user [] true
    demo_bitmap (fun _ => mret tt) 0 4 demo_data 0 (fun _ m => m)
    demo_guest_vcpu demo_setup 40 true 0 1 (mkW m []) (demo_start m HR HC HA) ltac:(lia) ltac:(lia)) as (w' & E & _ & Ev).
  exists m, w'. split; [exact E|]. rewrite Ev. reflexivity.
Defined.
