(* ===== verification/Idt.v ===== *)
(** [handle_idt] and [dump_exception] of [src/idt.c]: what every interrupt and exception of the hypervisor and of the guest
    goes through. *)
From Stdlib Require Import String.
From S2P Require Import Prelude.
From S2P Require Import HptLemmas.
From S2P Require Import Mem.
From S2P Require Import CString.
From S2P Require Import Cmdline.
From S2P Require Import Stdio.
From S2P Require Import Io.
From S2P Require Import Smp.
From S2P Require Import Devices.
From S2P Require Import Timer.
From S2P Require Import Desc.
From S2P Require Import VmxCtls.
From S2P Require Import VmcsFields.
From S2P Require Import Vmcs.
From S2P Require Import Vcpu.
From S2P Require Import User.
From S2P Require Import Nmi.

(** [iret_info_t]: what the stub and the processor push; [i_sp] and [i_ss] are only there with 64-bit registers. *)
Record iret_info := mkIretInfo {
  i_ds : Z; i_es : Z; i_fs : Z; i_gs : Z; i_r : regs;
  i_vector : Z; i_error_code : Z; i_ip : Z; i_cs : Z; i_flags : Z; i_sp : Z; i_ss : Z }.
Definition with_ip (ip : Z) (i : iret_info) : iret_info :=
  mkIretInfo (i_ds i) (i_es i) (i_fs i) (i_gs i) (i_r i) (i_vector i) (i_error_code i) ip (i_cs i) (i_flags i) (i_sp i) (i_ss i).

(** How the handler ends: it returns to the stub, or it leaves user mode with [exit_user_mode_asm], whose argument is a stack
    pointer. *)
Inductive idt_result := Iret (value : Z) (info : iret_info) (vcpu : dcpu) | ExitUser (esp : Z).

Section idt.
Context (a : subarch) {D : Device} {C : Cpu} {M : Machine}.
Context (g : opts) (us : user_syms).
(** [g_midtable], the exception table, and the [VCPU] at an address: the fields of the devices and of VMX. *)
Context (mid : list MIDTAB) (xcph_table : list (Z * Z * Z)) (vcpus : Z -> dcpu) (vmx_vcpus : Z -> VCPU).

(** A register, and the width [_B], a [size_t]. *)
Definition long (x : Z) : varg := VNum (ptr_bits a) x.
Definition _B : varg := VNum (ptr_bits a) (ptr_bits a / 8 * 2).
(** [_P]. *)
Definition _P (vcpu : dcpu) (fmt : cstr) (args : list varg) : IO unit :=
  printf a (lit "CPU(0x%02x): " ++ fmt ++ [10])%list (VNum 32 (c_id vcpu) :: args) ≫= fun _ => mret tt.
Definition r_ext_at (r : regs) (i : nat) : Z := default 0 (r_ext r !! i).

Definition dump_exception (vcpu : dcpu) (r : regs) (info : iret_info) : IO unit :=
  _P vcpu (lit "vector:         0x%02lx") [long (i_vector info)] ≫= fun _ =>
  _P vcpu (lit "error code:     0x%04lx") [long (i_error_code info)] ≫= fun _ =>
  _P vcpu (lit "FLAGS:          0x%08lx") [long (i_flags info)] ≫= fun _ =>
  (if is_amd64 a then _P vcpu (lit "SS: 0x%04lx  SP: 0x%08lx") [long (i_ss info); long (i_sp info)] else mret tt) ≫= fun _ =>
  _P vcpu (lit "CS: 0x%04lx  IP: 0x%08lx") [long (i_cs info); long (i_ip info)] ≫= fun _ =>
  _P vcpu (lit "DS: 0x%04lx  ES: 0x%04lx") [long (i_ds info); long (i_es info)] ≫= fun _ =>
  _P vcpu (lit "FS: 0x%04lx  GS: 0x%04lx") [long (i_fs info); long (i_gs info)] ≫= fun _ =>
  _P vcpu (lit "AX: 0x%0*lx  CX: 0x%0*lx") [_B; long (r_ax r); _B; long (r_cx r)] ≫= fun _ =>
  _P vcpu (lit "DX: 0x%0*lx  BX: 0x%0*lx") [_B; long (r_dx r); _B; long (r_bx r)] ≫= fun _ =>
  _P vcpu (lit "SP: 0x%0*lx  BP: 0x%0*lx") [_B; long (r_sp r); _B; long (r_bp r)] ≫= fun _ =>
  _P vcpu (lit "SI: 0x%0*lx  DI: 0x%0*lx") [_B; long (r_si r); _B; long (r_di r)] ≫= fun _ =>
  if is_amd64 a then
    _P vcpu (lit "R8: 0x%0*lx  R9: 0x%0*lx") [_B; long (r_ext_at r 0); _B; long (r_ext_at r 1)] ≫= fun _ =>
    _P vcpu (lit "R10:0x%0*lx  R11:0x%0*lx") [_B; long (r_ext_at r 2); _B; long (r_ext_at r 3)] ≫= fun _ =>
    _P vcpu (lit "R12:0x%0*lx  R13:0x%0*lx") [_B; long (r_ext_at r 4); _B; long (r_ext_at r 5)] ≫= fun _ =>
    _P vcpu (lit "R14:0x%0*lx  R15:0x%0*lx") [_B; long (r_ext_at r 6); _B; long (r_ext_at r 7)]
  else mret tt.

(** The vectors with a handler. *)
Definition timer_idt (vcpu : dcpu) (vector : Z) (guest : bool) (info : iret_info) : N idt_result :=
  gets n_t ≫= fun t : tglob =>
  io (handle_timer_interrupt a g vcpu vector guest t) ≫= fun r : dcpu * tglob =>
  modg (set_n_t r.2) ≫= fun _ => mret (Iret 0 info r.1).
Definition device_idt (f : drops -> IO drops) (vcpu : dcpu) (info : iret_info) : N idt_result :=
  gets n_drops ≫= fun d : drops =>
  io (f d) ≫= fun d : drops => modg (set_n_drops d) ≫= fun _ => mret (Iret 0 info vcpu).

(** The [default] case: an address of the exception table, or a dump and the end. *)
Definition unknown_idt (vcpu : dcpu) (vector : Z) (guest : bool) (info : iret_info) : N idt_result :=
  match xcph_lookup xcph_table vector (i_ip info) with
  | Some cont => mret (Iret 0 (with_ip cont info) vcpu)
  | None =>
      let which := VStr (Some (lit (if guest then "guest" else "host"))) in
      io (printf a (lit "CPU(0x%02x): V Unknown %s exception" ++ [10])%list [VNum 32 (c_id vcpu); which] ≫= fun _ =>
          dump_exception vcpu (i_r info) info ≫= fun _ =>
          printf a (lit "CPU(0x%02x): ^ Unknown %s exception" ++ [10])%list [VNum 32 (c_id vcpu); which] ≫= fun _ =>
          lift (Err Halt))
  end.

(** The [switch]. *)
Definition idt_switch (self : Z) (vcpu : dcpu) (vector : Z) (guest : bool) (info : iret_info) : N idt_result :=
  if vector =? 0x02 then handle_nmi_interrupt a vcpu vector guest (i_ip info) ≫= fun _ => mret (Iret 0 info vcpu)
  else if vector =? 0x20 then timer_idt vcpu vector guest info
  else if vector =? 0x21 then device_idt (handle_keyboard_interrupt a g vcpu vector guest) vcpu info
  else if vector =? 0x22 then timer_idt vcpu vector guest info
  else if vector =? 0x23 then
    io (handle_shv_syscall a us (vmx_vcpus self) vector (i_r info)) ≫= fun esp => mret (ExitUser esp)
  else if vector =? 0x27 then
    io (pic_spurious 7) ≫= fun x => ASSERT_n (x =? 1) ≫= fun _ => mret (Iret 0 info vcpu)
  else if vector =? 0x2c then device_idt (handle_mouse_interrupt a vcpu vector guest) vcpu info
  else if vector =? 0x54 then handle_ipi_interrupt a vcpu vector guest (i_ip info) ≫= fun _ => mret (Iret 0 info vcpu)
  else unknown_idt vcpu vector guest info.

(** The vectors after which processor 1 does not use [IRET] when non-maskable interrupts are tested. *)
Definition nmi_vector (vector : Z) : bool := (vector =? 0x02) || (vector =? 0x21) || (vector =? 0x54).
Definition idt_value (vcpu : dcpu) (vector : Z) : Z :=
  b2z (opt (g_nmi_opt g) NMI_ENABLE && (c_idx vcpu =? 1) && nmi_vector vector).

Definition handle_idt (_ip : Z) (info : iret_info) : N idt_result :=
  io (get_vcpu a g mid) ≫= fun self : Z =>
  let vcpu := vcpus self in
  let vector := u8 (i_vector info) in
  let guest := truth (Z.land (i_vector info) 0x100) in
  ASSERT_n (_ip =? i_ip info) ≫= fun _ =>
  (if opt (g_nmi_opt g) NMI_ENABLE then mret tt
   else
     io (cpuid_raw 1 0) ≫= fun r : Z * Z * Z * Z =>
     ASSERT_n (Bool.eqb guest (negb (truth (Z.land r.1.2 (2 ^ 5)))))) ≫= fun _ =>
  idt_switch self vcpu vector guest info ≫= fun r : idt_result =>
  match r with
  | Iret _ info vcpu => mret (Iret (idt_value vcpu vector) info vcpu)
  | ExitUser esp => mret (ExitUser esp)
  end.
End idt.
