(* ===== verification/IdtProps.v ===== *)
(** The dispatcher of interrupts: each interrupt of a device is acknowledged once, at the controller it came through (but for the
    single shot of a timer when the options switch interrupts off); an exception continues where the exception table says or ends
    the program; and on processor 1 the interrupts of the experiments with non-maskable interrupts go where Nmi says. *)
From Stdlib Require Import String.
From S2P Require Import Prelude.
From S2P Require Import HptLemmas.
From S2P Require Import Mem.
From S2P Require Import CString.
From S2P Require Import Cmdline.
From S2P Require Import Stdio.
From S2P Require Import Io.
From S2P Require Import Smp.
From S2P Require Import Screen.
From S2P Require Import Devices.
From S2P Require Import Timer.
From S2P Require Import Desc.
From S2P Require Import VmxCtls.
From S2P Require Import VmcsFields.
From S2P Require Import Vmcs.
From S2P Require Import Print.
From S2P Require Import Vcpu.
From S2P Require Import User.
From S2P Require Import VmxProps.
From S2P Require Import UserProps.
From S2P Require Import Nmi.
From S2P Require Import NmiMachine.
From S2P Require Import Idt.
Local Open Scope string_scope.
Local Open Scope Z_scope.

(** ** Acknowledgements *)

(** The end of an interrupt, for the first and the second 8259 and for the LAPIC. *)
Definition is_ack (e : ioev) : bool :=
  match e with
  | EOut p v => ((p =? INT_CTL_PORT) || (p =? SLAVE_ICW)) && (v =? INT_ACK_CURRENT)
  | EWrite p _ => p =? 0xfee000b0
  | _ => false
  end.
(** The acknowledgements a computation adds to the trace, latest first. *)
Definition acked (l : list ioev) (w w' : world) : Prop := exists tr, w_tr w' = (tr ++ w_tr w)%list /\ filter (fun e => is_ack e = true) tr = l.
(** The ones an interrupt calls for.  Interrupt 7 of the 8259 was none; and when interrupts are switched off by the options, the
    single shot of the timer that is waited for is not acknowledged. *)
Definition single_shot (g : opts) (vector : Z) : bool := opt (g_shv_opt g) SHV_NO_INTERRUPT && ((vector =? 0x20) || (vector =? 0x22)).
Definition idt_acks (g : opts) (vector : Z) : list ioev :=
  if single_shot g vector then []
  else if (vector =? 0x20) || (vector =? 0x21) then [EOut 0x20 0x20]
  else if vector =? 0x22 then [EWrite 0xfee000b0 0]
  else if vector =? 0x2c then [EOut 0x20 0x20; EOut 0xA0 0x20]
  else [].

Lemma acked_refl w : acked [] w w.
Proof. by exists []. Qed.
Lemma acked_trans l1 l2 w1 w2 w3 : acked l1 w1 w2 -> acked l2 w2 w3 -> acked (l2 ++ l1)%list w1 w3.
Proof.
  intros (t1 & E1 & H1) (t2 & E2 & H2). exists (t2 ++ t1)%list. rewrite E2, E1, app_assoc. split; [done|]. by rewrite filter_app, H1, H2.
Qed.
Lemma acked_event e w m : acked (if is_ack e then [e] else []) w (mkW m (e :: w_tr w)).
Proof. exists [e]. split; [done|]. rewrite filter_cons. destruct (is_ack e) eqn:E; by case_decide. Qed.
Lemma acked_printing tr w m : Forall (fun e => printing e = true) tr -> acked [] w (mkW m (tr ++ w_tr w)).
Proof.
  intros H. exists tr. split; [done|]. induction H as [|e tr He _ IH]; [done|]. rewrite filter_cons. case_decide as Hd; [|done].
  by destruct e.
Qed.

Section acks.
Context {D : Device} {C : Cpu}.
Lemma wp_outb_acked p v w (Q : unit -> world -> Prop) :
  (forall w', acked (if is_ack (EOut p (u8 v)) then [EOut p (u8 v)] else []) w w' -> Q tt w') -> wp (outb p v) Q w.
Proof. intros H. unfold outb, emit, wp. apply H, acked_event. Qed.
Lemma wp_inb_acked p w (Q : Z -> world -> Prop) : (forall w', acked [] w w' -> Q (u8 (dev_in (w_tr w) p)) w') -> wp (inb p) Q w.
Proof. intros H. unfold inb, wp. apply H. exact (acked_event (EIn p _) w (w_mem w)). Qed.
Lemma wp_print_acked a fmt tys ap w (Q : Z -> world -> Prop) :
  check_printf a fmt tys = true -> shaped ap tys -> (forall n w', acked [] w w' -> Q n w') -> wp (printf a fmt ap) Q w.
Proof. intros Hc Hs HQ. eapply printf_ok; [exact Hc|exact Hs|]. intros n tr Ht. by apply HQ, acked_printing. Qed.
Lemma get_vcpu_acked a g mid w x w' : get_vcpu a g mid w = Ok (x, w') -> acked [] w w'.
Proof.
  unfold get_vcpu. intros (v1 & w1 & E1 & (v2 & w2 & E2 & E3)%IO_bind_Ok)%IO_bind_Ok.
  assert (acked [] w w1) as A1.
  { destruct (truth _) in E1; [injection E1 as <- <-; apply acked_refl|]. unfold rdmsr64 in E1. injection E1 as <- <-. exact (acked_event (ERdmsr _ _) w (w_mem w)). }
  assert (acked [] w1 w2) as A2.
  { destruct (truth _) in E2; unfold rdmsr64, read32, mbind, IO_bind in E2; injection E2 as <- <-.
    - exact (acked_event (ERdmsr _ _) w1 (w_mem w1)).
    - exact (acked_event (ERead _ _) w1 (w_mem w1)). }
  unfold lift in E3. destruct (midtable_find _ _); [|done]. injection E3 as _ <-. exact (acked_trans [] [] _ _ _ A1 A2).
Qed.

Lemma keyboard_acked a g vcpu guest d w : c_isbsp vcpu = true ->
  wp (handle_keyboard_interrupt a g vcpu 0x21 guest d) (fun _ w' => acked [EOut 0x20 0x20] w w') w.
Proof.
  intros Hb. unfold handle_keyboard_interrupt. rewrite Hb. apply wp_bind. destruct (negb (truth (Z.land (g_nmi_opt g) 1)));
    (apply wp_ret || (apply wp_assert; [done|])); (apply wp_bind, wp_assert; [done|]); apply wp_bind.
  all: apply (wp_use _ (fun _ w1 => acked [] w w1));
    [destruct (truth (drop_keyboard_interrupts d));
      [apply wp_bind; eapply (wp_print_acked _ _ []); [by destruct a|constructor|]; intros n w1 A1; exact A1
      |apply wp_bind, wp_inb_acked; intros w1 A1; apply wp_bind; eapply (wp_print_acked _ _ [ANum 32; ANum 32; ANum 32]);
       [by destruct a|repeat constructor|]; intros n w2 A2; exact (acked_trans [] [] _ _ _ A1 A2)]
    |intros d' w1 A1; apply wp_bind, wp_outb_acked; intros w2 A2; exact (acked_trans [] _ _ _ _ A1 A2)].
Qed.
Lemma mouse_acked a vcpu guest d w : c_isbsp vcpu = true ->
  wp (handle_mouse_interrupt a vcpu 0x2c guest d) (fun _ w' => acked [EOut 0x20 0x20; EOut 0xA0 0x20] w w') w.
Proof.
  intros Hb. unfold handle_mouse_interrupt. rewrite Hb. apply wp_bind, wp_assert; [done|]. apply wp_bind, wp_assert; [done|]. apply wp_bind.
  apply (wp_use _ (fun _ w1 => acked [] w w1)).
  - destruct (truth (drop_mouse_interrupts d)).
    + apply wp_bind. eapply (wp_print_acked _ _ []); [by destruct a|constructor|]. intros n w1 A1. exact A1.
    + apply wp_bind, wp_inb_acked. intros w1 A1. apply wp_bind. eapply (wp_print_acked _ _ [ANum 32; ANum 32; ANum 32]);
        [by destruct a|repeat constructor|]. intros n w2 A2. exact (acked_trans [] [] _ _ _ A1 A2).
  - intros d' w1 A1. apply wp_bind, wp_outb_acked. intros w2 A2. apply wp_bind, wp_outb_acked. intros w3 A3.
    exact (acked_trans _ _ _ _ _ (acked_trans [] _ _ _ _ A1 A2) A3).
Qed.
(** The places of the timers in their windows. *)
Definition timer_room (g : opts) (vcpu : dcpu) (vector : Z) (guest : bool) : Prop :=
  opt (g_shv_opt g) SHV_NO_VGA_ART = false -> 0 <= c_idx vcpu < 8 /\ 0 <= tick_x vector guest vcpu < 40.
Lemma timer_acked a g vcpu vector guest t w : vector = 0x20 \/ vector = 0x22 ->
  opt (g_shv_opt g) SHV_NO_INTERRUPT = false -> opt (g_nmi_opt g) NMI_ENABLE = false -> timer_room g vcpu vector guest ->
  wp (handle_timer_interrupt a g vcpu vector guest t) (fun _ w' => acked [tick_ack vector] w w') w.
Proof.
  intros Hv Hi Hn Hr. unfold handle_timer_interrupt. rewrite Hi, Hn. unfold timer_room, tick_x, tick_ack in *.
  destruct (opt (g_shv_opt g) SHV_NO_VGA_ART) eqn:Ea; cbn [negb].
  - destruct Hv as [->| ->]; cbn [Z.eqb Pos.eqb]; apply wp_bind, wp_ret, wp_bind.
    + apply wp_outb_acked. intros w1 A1. exact A1.
    + exact (acked_event (EWrite 0xfee000b0 0) w (w_mem w)).
  - destruct (Hr eq_refl) as [Hidx Hx]. destruct Hv as [->| ->]; cbn [Z.eqb Pos.eqb] in *.
    + destruct (update_screen_ok vcpu (pick guest (c_pit_x vcpu)) 0 guest w Hidx Hx ltac:(lia)) as (m' & E & _).
      apply wp_bind, (wp_intro _ _ _ _ _ E). exact (acked_event (EOut 0x20 0x20) w m').
    + destruct (update_screen_ok vcpu (pick guest (c_lapic_x vcpu)) 1 guest w Hidx Hx ltac:(lia)) as (m' & E & _).
      apply wp_bind, (wp_intro _ _ _ _ _ E). exact (acked_event (EWrite 0xfee000b0 0) w m').
Qed.
Lemma spurious_acked w : (forall tr, Z.testbit (dev_in tr 0x20) 7 = false) ->
  wp (pic_spurious 7) (fun x w' => x = 1 /\ acked [] w w') w.
Proof.
  intros H. unfold pic_spurious. cbn [Z.leb Z.compare Pos.compare Pos.compare_cont]. apply wp_bind, wp_outb_acked. intros w1 A1.
  apply wp_bind, wp_inb_acked. intros w2 A2. apply wp_ret. split; [|exact (acked_trans [] [] _ _ _ A1 A2)].
  rewrite (proj2 (Z.eqb_eq _ 0)); [done|]. change (Z.shiftl 1 7) with (2 ^ 7). apply Z.bits_inj'. intros i Hi. rewrite Z.land_spec, Z.bits_0.
  destruct (decide (i = 7)) as [->|Hne]; [unfold u8; rewrite wrap_testbit, H by lia; done|].
  rewrite (Z.pow2_bits_false 7 i) by done. by rewrite andb_false_r.
Qed.
End acks.

(** ** The dispatcher *)

Section dispatch.
Context {a : subarch} {D : Device} {C : Cpu} {M : Machine} {g : opts} {us : user_syms}.
Context {mid : list MIDTAB} {xcph_table : list (Z * Z * Z)} {vcpus : Z -> dcpu} {vmx_vcpus : Z -> VCPU}.
Abbreviation handle_idt := (handle_idt a g us mid xcph_table vcpus vmx_vcpus).

Lemma io_run {A B} (m : IO A) (f : A -> N B) w x w1 : m (n_w w) = Ok (x, w1) -> (io m ≫= f) w = f x (mkN (n_g w) (n_m w) w1).
Proof. intros E. unfold mbind, N_bind, io. by rewrite E. Qed.

(** The vector and the side of an interrupt, as the stub pushes them. *)
Definition pushed (info : iret_info) (vector : Z) (guest : bool) : Prop :=
  u8 (i_vector info) = vector /\ truth (Z.land (i_vector info) 0x100) = guest.
(** The processor is on the side the stub says: in the guest, [cpuid] does not show VMX. *)
Definition on_side (guest : bool) : Prop := forall tr, Z.testbit (cpu_cpuid tr 1 0).1.2 5 = negb guest.
(** The processor whose [VCPU] is at an address. *)
Definition runs_on (self : Z) : Prop := forall w, exists w', get_vcpu a g mid w = Ok (self, w').

(** The interrupts of the devices, with the processor they are handled on. *)
Inductive device_vector (self : Z) (guest : bool) : Z -> Prop :=
| dv_timer vector : vector = 0x20 \/ vector = 0x22 -> opt (g_shv_opt g) SHV_NO_INTERRUPT = false ->
    timer_room g (vcpus self) vector guest -> device_vector self guest vector
| dv_shot vector : vector = 0x20 \/ vector = 0x22 -> opt (g_shv_opt g) SHV_NO_INTERRUPT = true -> c_isbsp (vcpus self) = true ->
    device_vector self guest vector
| dv_keyboard : c_isbsp (vcpus self) = true -> device_vector self guest 0x21
| dv_mouse : c_isbsp (vcpus self) = true -> device_vector self guest 0x2c
| dv_spurious : (forall tr, Z.testbit (dev_in tr 0x20) 7 = false) -> device_vector self guest 0x27.

Lemma N_run {A B} (m : N A) (f : A -> N B) w x w1 : m w = Ok (x, w1) -> (m ≫= f) w = f x w1.
Proof. intros E. unfold mbind, N_bind. by rewrite E. Qed.
Lemma bit5 x : truth (Z.land x (2 ^ 5)) = Z.testbit x 5.
Proof.
  unfold truth. destruct (Z.testbit x 5) eqn:E.
  - apply negb_true_iff, Z.eqb_neq. intros H. apply (f_equal (fun z => Z.testbit z 5)) in H. by rewrite Z.land_spec, E in H.
  - apply negb_false_iff, Z.eqb_eq, Z.bits_inj'. intros i Hi. rewrite Z.land_spec, Z.bits_0.
    destruct (decide (i = 5)) as [->|Hne]; [by rewrite E|]. by rewrite (Z.pow2_bits_false 5 i), andb_false_r by done.
Qed.
Lemma side_checked guest gl ms w : on_side guest -> exists w1, acked [] w w1 /\
  (io (cpuid_raw 1 0) ≫= fun r : Z * Z * Z * Z => ASSERT_n (Bool.eqb guest (negb (truth (Z.land r.1.2 (2 ^ 5)))))) (mkN gl ms w) = Ok (tt, mkN gl ms w1).
Proof.
  intros Hside. specialize (Hside (w_tr w)). destruct (cpu_cpuid (w_tr w) 1 0) as [[[ra rb] rc] rd] eqn:Ec. cbn [fst snd] in Hside.
  assert (cpuid_raw 1 0 w = Ok (u32 ra, u32 rb, u32 rc, u32 rd, mkW (w_mem w) (ECpuid 1 0 (u32 ra, u32 rb, u32 rc, u32 rd) :: w_tr w))) as E
    by (unfold cpuid_raw; change (u32 1) with 1; change (u32 0) with 0; by rewrite Ec).
  eexists. split; [exact (acked_event (ECpuid 1 0 (u32 ra, u32 rb, u32 rc, u32 rd)) w (w_mem w))|]. rewrite (io_run _ _ (mkN gl ms w) _ _ E). cbn [fst snd n_g n_m].
  rewrite bit5. unfold u32. rewrite wrap_testbit, Hside by lia. by destruct guest.
Qed.

Lemma handle_idt_start vector guest self info (w : nworld) :
  opt (g_nmi_opt g) NMI_ENABLE = false -> runs_on self -> on_side guest -> pushed info vector guest ->
  exists w1, acked [] (n_w w) w1 /\
    handle_idt (i_ip info) info w =
    (idt_switch a g us xcph_table vmx_vcpus self (vcpus self) vector guest info ≫= fun r =>
     match r with
     | Iret _ info vcpu => mret (Iret 0 info vcpu)
     | ExitUser esp => mret (ExitUser esp)
     end) (mkN (n_g w) (n_m w) w1).
Proof.
  intros Hn Hself Hside [Hv Hg]. destruct (Hself (n_w w)) as (w1 & E1). unfold Idt.handle_idt. rewrite (io_run _ _ _ _ _ E1). cbv zeta.
  rewrite Hv, Hg, Hn. unfold ASSERT_n at 1. rewrite Z.eqb_refl. unfold idt_value. rewrite Hn. cbn [andb b2z].
  destruct (side_checked guest (n_g w) (n_m w) w1 Hside) as (w2 & A2 & E2). rewrite (N_run _ _ _ tt (mkN (n_g w) (n_m w) w1)) by done.
  rewrite (N_run _ _ _ _ _ E2). exists w2. split; [|done]. exact (acked_trans [] [] _ _ _ (get_vcpu_acked _ _ _ _ _ _ E1) A2).
Qed.

Lemma timer_idt_shot vcpu vector guest info (w : nworld) : opt (g_shv_opt g) SHV_NO_INTERRUPT = true -> c_isbsp vcpu = true ->
  (shot_arrived (n_t (n_g w)) = true -> forall r, timer_idt a g vcpu vector guest info w <> Ok r) /\
  (shot_arrived (n_t (n_g w)) = false -> exists w', timer_idt a g vcpu vector guest info w = Ok (Iret 0 info vcpu, w') /\
     n_w w' = n_w w /\ n_m w' = n_m w /\ shot_arrived (n_t (n_g w')) = true).
Proof.
  intros Hi Hb. unfold timer_idt, mbind, N_bind, gets, io, handle_timer_interrupt. rewrite Hi, Hb. cbn [n_g n_w n_m ASSERT_io ASSERT lift]. split; intros Hs.
  - intros r. by rewrite Hs.
  - rewrite Hs. eexists. split; [reflexivity|]. done.
Qed.

(** C13: An interrupt of a device is handled and acknowledged once: the timers, the keyboard, the mouse and the spurious interrupt 7,
    taken in the hypervisor or in the guest while non-maskable interrupts are not tested ([handle_idt_experiments] says what happens
    when they are), come back to the interrupted instruction with [IRET], with the frame as it was
    and with exactly the ends of interrupt the controllers in between wait for: one at the first 8259, one at the LAPIC, one at
    each 8259, or none.  When the options switch interrupts off, the boot processor takes a single timer interrupt: it is noted,
    nothing is acknowledged, and a second one does not return. *)
Theorem handle_idt_acknowledges vector guest self info (w : nworld) :
  opt (g_nmi_opt g) NMI_ENABLE = false -> runs_on self -> on_side guest -> pushed info vector guest -> device_vector self guest vector ->
  if single_shot g vector && shot_arrived (n_t (n_g w)) then forall r, handle_idt (i_ip info) info w <> Ok r
  else exists v' w', handle_idt (i_ip info) info w = Ok (Iret 0 info v', w') /\
    acked (idt_acks g vector) (n_w w) (n_w w') /\ n_m w' = n_m w /\ (single_shot g vector = true -> shot_arrived (n_t (n_g w')) = true).
Proof.
  intros Hn Hself Hside Hp Hd. destruct (handle_idt_start vector guest self info w Hn Hself Hside Hp) as (w1 & A1 & ->).
  unfold idt_acks. destruct Hd as [vector Hv Hi Hr|vector Hv Hi Hb|Hb|Hb|Hs].
  1,2: assert (idt_switch a g us xcph_table vmx_vcpus self (vcpus self) vector guest info = timer_idt a g (vcpus self) vector guest info) as ->
      by (by destruct Hv as [->| ->]).
  2: assert (single_shot g vector = true) as -> by (unfold single_shot; rewrite Hi; by destruct Hv as [->| ->]).
  2: destruct (timer_idt_shot (vcpus self) vector guest info (mkN (n_g w) (n_m w) w1) Hi Hb) as [Hs1 Hs2]; cbn [andb n_g] in *;
     destruct (shot_arrived (n_t (n_g w))) eqn:Es.
  2: { intros r. unfold mbind, N_bind. specialize (Hs1 eq_refl). by destruct (timer_idt _ _ _ _ _ _ _) as [x|]; [destruct (Hs1 x)|]. }
  2: { destruct (Hs2 eq_refl) as (w2 & E2 & Ew & Em & E). unfold mbind at 1, N_bind at 1. rewrite E2. eexists _, _. split; [reflexivity|]. by rewrite Ew. }
  all: unfold single_shot; rewrite ?Hi, ?andb_false_r; cbn [andb Z.eqb Pos.eqb orb].
  - destruct (wp_elim _ _ _ (timer_acked a g (vcpus self) vector guest (n_t (n_g w)) w1 Hv Hi Hn Hr)) as ([v' t'] & w2 & E2 & A2).
    unfold timer_idt, mbind, N_bind, gets, io. cbn [n_g n_w n_m]. rewrite E2. eexists _, _. split; [reflexivity|]. split; [|done]. cbn [n_w].
    pose proof (acked_trans [] _ _ _ _ A1 A2) as A. by destruct Hv as [->| ->].
  - destruct (wp_elim _ _ _ (keyboard_acked a g (vcpus self) guest (n_drops (n_g w)) w1 Hb)) as (d & w2 & E2 & A2).
    unfold idt_switch, device_idt, mbind, N_bind, gets, io. cbn [Z.eqb Pos.eqb n_g n_w n_m]. rewrite E2. eexists _, _. split; [reflexivity|].
    split; [|done]. exact (acked_trans [] _ _ _ _ A1 A2).
  - destruct (wp_elim _ _ _ (mouse_acked a (vcpus self) guest (n_drops (n_g w)) w1 Hb)) as (d & w2 & E2 & A2).
    unfold idt_switch, device_idt, mbind, N_bind, gets, io. cbn [Z.eqb Pos.eqb n_g n_w n_m]. rewrite E2. eexists _, _. split; [reflexivity|].
    split; [|done]. exact (acked_trans [] _ _ _ _ A1 A2).
  - destruct (wp_elim _ _ _ (spurious_acked w1 Hs)) as (x & w2 & E2 & -> & A2).
    unfold idt_switch, mbind, N_bind, io. cbn [Z.eqb Pos.eqb n_g n_w n_m]. rewrite E2. eexists _, _. split; [reflexivity|].
    split; [|done]. exact (acked_trans [] _ _ _ _ A1 A2).
Qed.

(** The vectors of the [switch]. *)
Definition known_vectors : list Z := [0x02; 0x20; 0x21; 0x22; 0x23; 0x27; 0x2c; 0x54].
Lemma idt_switch_unknown self vcpu vector guest info : vector ∉ known_vectors ->
  idt_switch a g us xcph_table vmx_vcpus self vcpu vector guest info = unknown_idt a xcph_table vcpu vector guest info.
Proof.
  intros Hv. unfold idt_switch. unfold known_vectors in Hv. rewrite !not_elem_of_cons in Hv.
  destruct Hv as (H1 & H2 & H3 & H4 & H5 & H6 & H7 & H8 & _). by rewrite !(proj2 (Z.eqb_neq vector _)).
Qed.
Lemma bind_never {A B} (m : IO A) (f : A -> IO B) w r : (forall x w r, f x w <> Ok r) -> (m ≫= f) w <> Ok r.
Proof. intros H. unfold mbind, IO_bind. by destruct (m w) as [[x w1]|]. Qed.
Lemma io_never {A} (m : IO A) w r : (forall w r, m w <> Ok r) -> io m w <> Ok r.
Proof. intros H. unfold io. destruct (m (n_w w)) as [[x w1]|] eqn:E; [|done]. by apply H in E. Qed.
Lemma unknown_idt_halts vcpu vector guest info w r :
  xcph_lookup xcph_table vector (i_ip info) = None -> unknown_idt a xcph_table vcpu vector guest info w <> Ok r.
Proof.
  intros Hx. unfold unknown_idt. rewrite Hx. cbv zeta. apply io_never. intros w1 r1. repeat (apply bind_never; intros ? ? ?). done.
Qed.

(** C25: An exception the program has no handler for continues exactly where the exception table says: if the table has an entry
    for its vector and address, the handler returns with the address replaced by the continuation and nothing else changed, and
    without an acknowledgement; if it has none, the handler never returns to the faulting instruction. *)
Theorem handle_idt_exception vector guest self info (w : nworld) :
  opt (g_nmi_opt g) NMI_ENABLE = false -> runs_on self -> on_side guest -> pushed info vector guest -> vector ∉ known_vectors ->
  match xcph_lookup xcph_table vector (i_ip info) with
  | Some cont => exists w1, handle_idt (i_ip info) info w = Ok (Iret 0 (with_ip cont info) (vcpus self), mkN (n_g w) (n_m w) w1) /\ acked [] (n_w w) w1
  | None => forall r, handle_idt (i_ip info) info w <> Ok r
  end.
Proof.
  intros Hn Hself Hside Hp Hv. destruct (handle_idt_start vector guest self info w Hn Hself Hside Hp) as (w1 & A1 & ->).
  rewrite (idt_switch_unknown _ _ _ _ _ Hv). destruct (xcph_lookup xcph_table vector (i_ip info)) as [cont|] eqn:Ex.
  - exists w1. split; [|done]. unfold unknown_idt. by rewrite Ex.
  - intros r. unfold mbind, N_bind. destruct (unknown_idt a xcph_table (vcpus self) vector guest info _) as [[y w2]|e] eqn:E; [|done].
    by apply unknown_idt_halts in E.
Qed.

(** C26: When non-maskable interrupts are tested, [handle_idt] on processor 1 is the handler the experiments run with: after it has
    found its [VCPU], without an instruction that could leave the guest, it does what [handle_idt_cpu1] does, and asks the stub
    to return without [IRET]. *)
Theorem handle_idt_experiments vector guest self info (w : nworld) :
  opt (g_nmi_opt g) NMI_ENABLE = true -> runs_on self -> c_idx (vcpus self) = 1 -> pushed info vector guest -> nmi_vector vector = true ->
  exists tr, get_vcpu a g mid (n_w w) = Ok (self, mkW (w_mem (n_w w)) (tr ++ w_tr (n_w w))) /\
    Forall (fun e => match e with ERead _ _ => True | _ => False end) tr /\
    handle_idt (i_ip info) info w =
    match handle_idt_cpu1 a g (vcpus self) vector guest (i_ip info) (mkN (n_g w) (n_m w) (mkW (w_mem (n_w w)) (tr ++ w_tr (n_w w)))) with
    | Ok (_, w') => Ok (Iret 1 info (vcpus self), w')
    | Err e => Err e
    end.
Proof.
  intros Hn Hself Hidx [Hv Hg] Hnv. destruct (Hself (n_w w)) as (w1 & E1). pose proof E1 as E1'.
  unfold get_vcpu in E1'. change (truth (Z.land (g_nmi_opt g) SHV_NMI_ENABLE)) with (opt (g_nmi_opt g) NMI_ENABLE) in E1'. rewrite Hn in E1'.
  apply IO_bind_Ok in E1' as (v1 & w2 & E2 & E1'). injection E2 as <- <-.
  change (truth (Z.land 0xfee00000 (2 ^ 10))) with false in E1'. cbn [negb] in E1'.
  apply IO_bind_Ok in E1' as (v2 & w3 & E3 & E4). unfold read32, mbind, IO_bind, mret, IO_ret in E3. injection E3 as <- <-.
  unfold lift in E4. destruct (midtable_find _ _); [|done]. injection E4 as -> <-.
  eexists [_]. split; [exact E1|]. split; [by repeat constructor|]. unfold Idt.handle_idt. rewrite (io_run _ _ _ _ _ E1). cbv zeta.
  rewrite Hv, Hg, Hn. rewrite (N_run _ _ _ tt (mkN (n_g w) (n_m w) (mkW (w_mem (n_w w)) ([_] ++ w_tr (n_w w)))))
    by (unfold ASSERT_n; by rewrite Z.eqb_refl).
  rewrite (N_run _ _ _ tt _ eq_refl). assert (idt_value g (vcpus self) vector = 1) as Ev by (unfold idt_value; by rewrite Hn, Hidx, Hnv).
  unfold nmi_vector in Hnv. unfold idt_switch, handle_idt_cpu1, device_idt.
  destruct (Z.eqb_spec vector 2) as [->|_]; [|destruct (Z.eqb_spec vector 0x21) as [->|_]; [|destruct (Z.eqb_spec vector 0x54) as [->|_]; [|done]]].
  - cbn [app]. unfold mbind, N_bind. destruct (handle_nmi_interrupt _ _ _ _ _ _) as [[[] ?]|]; [by rewrite <- Ev|done].
  - cbn [app Z.eqb Pos.eqb]. unfold mbind, N_bind, gets, io, modg. cbn [n_g n_w n_m]. destruct (handle_keyboard_interrupt _ _ _ _ _ _ _) as [[? ?]|]; [by rewrite <- Ev|done].
  - cbn [app Z.eqb Pos.eqb]. unfold mbind, N_bind. destruct (handle_ipi_interrupt _ _ _ _ _ _) as [[[] ?]|]; [by rewrite <- Ev|done].
Qed.
End dispatch.

(** ** One processor *)

Definition demo_idt_cpu : Cpu := {|
  cpu_vmread _ _ := None; cpu_vmwrite _ _ _ := false; cpu_vmx _ _ _ := false; cpu_vmptr _ := 0;
  cpu_cpuid _ _ _ := (0, 0, 0x20, 0); cpu_rdmsr_faults _ _ := false; cpu_wrmsr_faults _ _ _ := false; cpu_reg _ _ := 0 |}.
Definition demo_frame (vector ip : Z) : iret_info :=
  mkIretInfo 0x10 0x10 0x10 0x10 (mkRegs 0 0 0 0 0 0 0 0 (replicate 8 0)) vector 0 ip 0x18 0x202 0x7000 0x10.
Definition demo_idt_dcpu (idx : Z) : dcpu := mkDcpu 2 idx (idx =? 0) 0 0 (0, 0) (0, 0).
Definition demo_idt (g : opts) (idx : Z) (info : iret_info) (w : nworld) : res (idt_result * nworld) :=
  handle_idt AMD64 (D := demo_device) (C := demo_idt_cpu) g demo_user [mkMid 2 0x9000] [(0x0d, 0x5000, 0x5080)]
    (fun _ => demo_idt_dcpu idx) (fun _ => VmxProps.demo_vcpu) (i_ip info) info w.
Definition demo_nworld : nworld := mkN nglob0 (rest_state true false 0 0 0 0 0 0 0 0 0 false) (mkW ∅ []).

Lemma demo_runs_on g : runs_on (a := AMD64) (D := demo_device) (g := g) (mid := [mkMid 2 0x9000]) 0x9000.
Proof. intros w. unfold get_vcpu. destruct (truth (Z.land (g_nmi_opt g) SHV_NMI_ENABLE)); by eexists. Qed.

Lemma handle_idt_acknowledges_witness : exists v' w',
  demo_idt (mkOpts 0 0 0 50) 0 (demo_frame 0x2c 0x4000) demo_nworld = Ok (Iret 0 (demo_frame 0x2c 0x4000) v', w') /\
  acked [EOut 0x20 0x20; EOut 0xA0 0x20] (mkW ∅ []) (n_w w').
Proof.
  destruct (handle_idt_acknowledges (a := AMD64) (D := demo_device) (C := demo_idt_cpu) (g := mkOpts 0 0 0 50) (us := demo_user)
    (mid := [mkMid 2 0x9000]) (xcph_table := [(0x0d, 0x5000, 0x5080)]) (vcpus := fun _ => demo_idt_dcpu 0) (vmx_vcpus := fun _ => VmxProps.demo_vcpu)
    0x2c false 0x9000 (demo_frame 0x2c 0x4000) demo_nworld eq_refl (demo_runs_on _) (fun _ => eq_refl) (conj eq_refl eq_refl) (dv_mouse (vcpus := fun _ => demo_idt_dcpu 0) 0x9000 false eq_refl))
    as (v' & w' & E & A & _).
  exists v', w'. split; [exact E|exact A].
Defined.
Lemma handle_idt_exception_witness :
  (exists w1, demo_idt (mkOpts 0 0 0 50) 0 (demo_frame 0x0d 0x5000) demo_nworld =
     Ok (Iret 0 (demo_frame 0x0d 0x5080) (demo_idt_dcpu 0), mkN nglob0 (n_m demo_nworld) w1)) /\
  forall r, demo_idt (mkOpts 0 0 0 50) 0 (demo_frame 0x0d 0x5001) demo_nworld <> Ok r.
Proof.
  assert (forall ip, match xcph_lookup [(0x0d, 0x5000, 0x5080)] 0x0d ip with
    | Some cont => exists w1, demo_idt (mkOpts 0 0 0 50) 0 (demo_frame 0x0d ip) demo_nworld =
        Ok (Iret 0 (demo_frame 0x0d cont) (demo_idt_dcpu 0), mkN nglob0 (n_m demo_nworld) w1) /\ acked [] (mkW ∅ []) w1
    | None => forall r, demo_idt (mkOpts 0 0 0 50) 0 (demo_frame 0x0d ip) demo_nworld <> Ok r
    end) as H.
  { intros ip. apply (handle_idt_exception (a := AMD64) (D := demo_device) (C := demo_idt_cpu) (g := mkOpts 0 0 0 50) (us := demo_user)
      (mid := [mkMid 2 0x9000]) (xcph_table := [(0x0d, 0x5000, 0x5080)]) (vcpus := fun _ => demo_idt_dcpu 0) (vmx_vcpus := fun _ => VmxProps.demo_vcpu)
      0x0d false 0x9000 (demo_frame 0x0d ip) demo_nworld eq_refl (demo_runs_on _) (fun _ => eq_refl) (conj eq_refl eq_refl)).
    unfold known_vectors. rewrite !not_elem_of_cons. repeat split; try lia. apply not_elem_of_nil. }
  split; [|exact (H 0x5001)]. destruct (H 0x5000) as (w1 & E & _). exists w1. exact E.
Defined.
Lemma handle_idt_experiments_witness : exists w',
  demo_idt (mkOpts 0 1 0 0) 1 (demo_frame 0x102 0x4000) demo_nworld = Ok (Iret 1 (demo_frame 0x102 0x4000) (demo_idt_dcpu 1), w') /\
  n_source (n_g w') = EXIT_NMI_G.
Proof.
  destruct (handle_idt_experiments (a := AMD64) (D := demo_device) (C := demo_idt_cpu) (g := mkOpts 0 1 0 0) (us := demo_user)
    (mid := [mkMid 2 0x9000]) (xcph_table := [(0x0d, 0x5000, 0x5080)]) (vcpus := fun _ => demo_idt_dcpu 1) (vmx_vcpus := fun _ => VmxProps.demo_vcpu)
    0x02 true 0x9000 (demo_frame 0x102 0x4000) demo_nworld eq_refl (demo_runs_on _) eq_refl (conj eq_refl eq_refl) eq_refl)
    as (tr & Eg & _ & E).
  injection Eg as Etr. cbn [w_tr n_w demo_nworld] in Etr. rewrite app_nil_r in Etr. rewrite <- Etr in E.
  match type of E with _ = match ?x with _ => _ end =>
    assert (match x with Ok (_, w') => Some (n_source (n_g w')) | Err _ => None end = Some EXIT_NMI_G) as En by (vm_compute; reflexivity);
    destruct x as [[y w']|e]
  end; [|discriminate En].
  exists w'. split; [exact E|]. by injection En.
Defined.
