(* ===== verification/Kernel.v ===== *)
(** The way to the guest: [kernel_main] of [src/kernel.c], which the boot processor runs, [smp_init] of [src/smp.c], and
    [shv_main] of [src/shv.c] behind its barrier, which every processor runs (the part before it is in Boot). *)
From Stdlib Require Import String.
From S2P Require Import Prelude.
From S2P Require Import HptLemmas.
From S2P Require Import Mem.
From S2P Require Import LibcString.
From S2P Require Import Ept.
From S2P Require Import CString.
From S2P Require Import Cmdline.
From S2P Require Import Stdio.
From S2P Require Import Paging.
From S2P Require Import Io.
From S2P Require Import Smp.
From S2P Require Import Screen.
From S2P Require Import Devices.
From S2P Require Import Timer.
From S2P Require Import Desc.
From S2P Require Import VmxCtls.
From S2P Require Import VmcsFields.
From S2P Require Import Vmcs.
From S2P Require Import Vcpu.
From S2P Require Import Asm.
From S2P Require Import Vmx.
From S2P Require Import Guest.
Local Open Scope string_scope.
Local Open Scope Z_scope.

(** ** [kernel_main] *)

(** [multiboot_info_t]: its first and its fifth member. *)
Definition MBI_CMDLINE : Z := 0x02.
Definition mbi_flags (m : mem) (mbi : Z) : Z := ld32 m mbi.
Definition mbi_cmdline (m : mem) (mbi : Z) : Z := ld32 m (mbi + 16).
(** The string at an address, up to its zero. *)
Fixpoint string_at (fuel : nat) (m : mem) (p : Z) : res cstr :=
  match fuel with
  | O => Err NoFuel
  | S fuel => if rd8 m p =? 0 then Ok [] else s ← string_at fuel m (p + 1); Ok (rd8 m p :: s)
  end.

(** Where the linker put what [kernel_main] and [smp_init] use: the tables of [smp_init], the page tables, the code a processor
    starts with and its end, the stack of its first far return, and the continuation of that. *)
Record kernel_syms := mkKernelSyms {
  k_smp : smp_syms; k_pt : pt_syms; _ap_bootstrap : Z; _ap_bootstrap_end : Z; g_smp_lret_stack : Z; init_core_lowlevel_setup : Z }.

(** What the boot processor leaves to all: the options, the roots, [g_midtable] with [g_vcpus], and the debug cursor. *)
Record started := mkStarted {
  sd_opts : opts; sd_cr3 : Z; sd_cr4 : Z; sd_tables : list (MIDTAB * Smp.VCPU); sd_cursor : cursor }.

Section kernel.
Context (a : subarch) {D : Device} {C : Cpu}.
(** The build options of the debug output, the configured limit of memory, the addresses, and fuel for polls and texts. *)
Context (DEBUG_SERIAL DEBUG_VGA : bool) (amd64_max : Z) (s : kernel_syms) (fuel : nat).

(** A value read from memory. *)
Definition fetch {A} (f : mem -> res A) : IO A := fun w => match f (w_mem w) with Ok x => Ok (x, w) | Err e => Err e end.
Definition say (fmt : cstr) (args : list varg) : IO unit := printf a (fmt ++ [10])%list args ≫= fun _ => mret tt.

(** Lines 36 to 45. *)
Definition banner : IO unit :=
  say (lit "Small Hyper Visor (SHV)") [] ≫= fun _ =>
  match a with
  | AMD64 => say (lit "Subarch: amd64") []
  | I386_PAE => say (lit "Subarch: i386 (PAE)") []
  | I386 => say (lit "Subarch: i386 (not PAE)") []
  end.
(** Lines 48 to 54. *)
Definition get_options (mbi : Z) (g : opts) : IO opts :=
  flags ← fetch (fun m => Ok (mbi_flags m mbi));
  if truth (Z.land flags MBI_CMDLINE) then
    cmdline ← fetch (fun m => string_at fuel m (mbi_cmdline m mbi));
    say (lit "Multiboot command line: %s") [VStr (Some cmdline)] ≫= fun _ =>
    lift (parse_cmdline a cmdline g)
  else say (lit "No multiboot command line") [] ≫= fun _ => mret g.
(** Lines 58 to 60. *)
Definition print_options (g : opts) : IO unit :=
  say (lit "g_shv_opt: 0x%llx") [VNum 64 (g_shv_opt g)] ≫= fun _ =>
  say (lit "g_nmi_opt: 0x%llx") [VNum 64 (g_nmi_opt g)] ≫= fun _ =>
  say (lit "g_nmi_exp: 0x%llx") [VNum 64 (g_nmi_exp g)].
(** [cpuid_edx(1, 0) & (1U << n)] *)
Definition has_feature (n : Z) : IO bool := '(_, _, _, edx) ← cpuid_raw 1 0; mret (truth (Z.land edx (Z.shiftl 1 n))).
(** Lines 65 to 78. *)
Definition paging_init : IO (Z * Z) :=
  cr3 ← (fun w => match shv_page_table_init a amd64_max (k_pt s) (w_mem w) with Ok (root, m) => Ok (root, mkW m (w_tr w)) | Err e => Err e end);
  cr4 ← read_reg a RCR4;
  match a with
  | AMD64 => mret (cr3, cr4)
  | I386_PAE => b ← has_feature 6; ASSERT_io b ≫= fun _ => mret (cr3, Z.lor cr4 CR4_PAE)
  | I386 => b ← has_feature 3; ASSERT_io b ≫= fun _ => mret (cr3, Z.lor cr4 CR4_PSE)
  end.

(** It ends in the assembly code, which continues with [kernel_main_smp] on every processor. *)
Definition smp_init : IO (list (MIDTAB * Smp.VCPU)) :=
  tables ← fetch (smp_tables a fuel (k_smp s));
  (if is_amd64 a then
     store 4 (g_smp_lret_stack s) (u32 (init_core_lowlevel_setup s)) ≫= fun _ =>
     store 4 (g_smp_lret_stack s + 4) __CS64
   else mret tt) ≫= fun _ =>
  wakeupAPs a fuel (_ap_bootstrap s) (_ap_bootstrap_end s) ≫= fun _ =>
  mret tables.

Definition kernel_main (mbi : Z) (v : cursor) (g : opts) : IO started :=
  v ← emhfc_debug_init DEBUG_SERIAL DEBUG_VGA v;
  banner ≫= fun _ =>
  g ← get_options mbi g;
  print_options g ≫= fun _ =>
  '(cr3, cr4) ← paging_init;
  tables ← smp_init;
  mret (mkStarted g cr3 cr4 tables v).
End kernel.

(** ** [shv_main] *)

Definition SHV_USE_PS2_MOUSE : Z := 0x1000.

Section shv.
Context (a : subarch) {D : Device} {C : Cpu}.
Context (g : opts) (s : vmx_syms) (es : ept_syms) (ds : desc_syms).
(** The number of processors, the environment, fuel for the polls of the serial port and of the mouse, and what the interrupts
    of the mouse do. *)
Context (g_midtable_numentries : Z) (qemu : bool) (fuel : nat) (interrupted : drops -> drops).

(** Lines 54 to 68. *)
Definition vga_art (idx id : Z) (m : mem) : res mem :=
  vc ← console_get_vc idx false;
  m ← console_clear vc m;
  _ ← ASSERT (2 <=? height vc);
  draw_columns vc id (Z.to_nat (width vc)) 0 m.
(** Lines 71 to 83. *)
Definition show_no_paging : IO unit :=
  match a with
  | AMD64 => shv_disable_enable_paging fuel (lit "SHV hypervisor can disable paging" ++ [10])%list
  | _ =>
      cr0 ← read_reg a RCR0;
      write_reg a RCR0 (Z.land cr0 0x7fffffff) ≫= fun _ =>
      printf a (lit "SHV hypervisor can disable paging" ++ [10])%list [] ≫= fun _ =>
      write_reg a RCR0 cr0
  end.

(** How a processor ends: it waits for interrupts with [HALT], or enters the guest. *)
Inductive shv_end := Halted | Entering (r : handler_result).

(** Lines 51 to 95: timers, the digits, paging, interrupts, the mouse. *)
Definition shv_prepare (c : dcpu) (d : drops) : IO drops :=
  timer_init g c ≫= fun _ =>
  (if negb (opt (g_shv_opt g) SHV_NO_VGA_ART) then on_mem (vga_art (c_idx c) (c_id c)) else mret tt) ≫= fun _ =>
  (if opt (g_shv_opt g) SHV_USE_UNRESTRICTED_GUEST then show_no_paging else mret tt) ≫= fun _ =>
  (if negb (opt (g_shv_opt g) SHV_NO_EFLAGS_IF) then emit ESti else mret tt) ≫= fun _ =>
  if opt (g_shv_opt g) SHV_USE_PS2_MOUSE && c_isbsp c then mouse_init a fuel interrupted c d else mret d.

(** From line 42 on; [c] and [v] are the [VCPU] as the devices and VMX see it. *)
Definition shv_main (c : dcpu) (v : VCPU) (d : drops) : IO (shv_end * drops) :=
  let nmi := opt (g_nmi_opt g) NMI_ENABLE in
  if nmi && negb (c_idx c <? 2) then mret (Halted, d)
  else
    (if nmi then ASSERT_io (2 <=? g_midtable_numentries) else mret tt) ≫= fun _ =>
    d ← shv_prepare c d;
    if nmi && c_isbsp c then mret (Halted, d)
    else r ← shv_vmx_main a g s es ds qemu v; mret (Entering r, d).
End shv.
