(* ===== verification/KernelProps.v ===== *)
(** What the boot processor has done when [kernel_main] ends. *)
From Stdlib Require Import String.
From S2P Require Import Prelude.
From S2P Require Import HptLemmas.
From S2P Require Import Mem.
From S2P Require Import LibcString.
From S2P Require Import Ept.
From S2P Require Import CString.
From S2P Require Import Cmdline.
From S2P Require Import Stdio.
From S2P Require Import Paging.
From S2P Require Import Io.
From S2P Require Import Smp.
From S2P Require Import Screen.
From S2P Require Import Devices.
From S2P Require Import Timer.
From S2P Require Import Desc.
From S2P Require Import VmxCtls.
From S2P Require Import VmcsFields.
From S2P Require Import Vmcs.
From S2P Require Import Print.
From S2P Require Import Vcpu.
From S2P Require Import Vmx.
From S2P Require Import Guest.
From S2P Require Import Kernel.
Local Open Scope string_scope.
Local Open Scope Z_scope.

(** ** Writes to memory-mapped registers *)

Definition mmio_write (e : ioev) : option (Z * Z) := match e with EWrite p v => Some (p, v) | _ => None end.
(** The writes a computation adds to the trace, latest first. *)
Definition writes (l : list (Z * Z)) (w w' : world) : Prop := exists tr, w_tr w' = (tr ++ w_tr w)%list /\ omap mmio_write tr = l.
(** Nothing is written, to registers or to memory. *)
Definition quietly (w w' : world) : Prop := w_mem w' = w_mem w /\ writes [] w w'.

Lemma writes_refl w : writes [] w w.
Proof. by exists []. Qed.
Lemma writes_trans l1 l2 w1 w2 w3 : writes l1 w1 w2 -> writes l2 w2 w3 -> writes (l2 ++ l1)%list w1 w3.
Proof.
  intros (t1 & E1 & H1) (t2 & E2 & H2). exists (t2 ++ t1)%list. rewrite E2, E1, app_assoc. split; [done|]. by rewrite omap_app, H1, H2.
Qed.
Lemma writes_none tr w m : Forall (fun e => mmio_write e = None) tr -> writes [] w (mkW m (tr ++ w_tr w)).
Proof. intros H. exists tr. split; [done|]. induction H as [|e tr He _ IH]; [done|]. cbn. by rewrite He. Qed.
Lemma quietly_refl w : quietly w w.
Proof. split; [done|apply writes_refl]. Qed.
Lemma quietly_trans w1 w2 w3 : quietly w1 w2 -> quietly w2 w3 -> quietly w1 w3.
Proof. intros [E1 H1] [E2 H2]. split; [congruence|]. exact (writes_trans [] [] _ _ _ H1 H2). Qed.
Lemma quietly_event e w : mmio_write e = None -> quietly w (mkW (w_mem w) (e :: w_tr w)).
Proof. intros H. split; [done|]. exact (writes_none [e] w (w_mem w) ltac:(by constructor)). Qed.

Create HintDb quiet.
#[export] Hint Resolve quietly_refl quietly_trans : quiet.

Section quiet.
Context {a : subarch} {D : Device} {C : Cpu}.
(** A computation that only talks. *)
Definition talks {A} (m : IO A) (P : A -> Prop) : Prop := forall w, wp m (fun x w' => P x /\ quietly w w') w.

Lemma talks_ret {A} (x : A) (P : A -> Prop) : P x -> talks (mret x) P.
Proof. intros H w. apply wp_ret. split; [done|apply quietly_refl]. Qed.
Lemma talks_bind {A B} (m : IO A) (f : A -> IO B) P Q : talks m P -> (forall x, P x -> talks (f x) Q) -> talks (m ≫= f) Q.
Proof.
  intros Hm Hf w. apply wp_bind. eapply wp_use; [apply Hm|]. intros x w1 [Hx H1]. eapply wp_use; [by apply Hf|].
  intros y w2 [Hy H2]. split; [done|by eapply quietly_trans].
Qed.
Lemma talks_event {A} (m : IO A) (P : A -> Prop) :
  (forall w, exists x e, m w = Ok (x, mkW (w_mem w) (e :: w_tr w)) /\ mmio_write e = None /\ P x) -> talks m P.
Proof. intros H w. destruct (H w) as (x & e & E & He & Hx). apply (wp_intro _ _ _ _ _ E). split; [done|by apply quietly_event]. Qed.
Lemma talks_use {A} (m : IO A) P w (Q : A -> world -> Prop) : talks m P -> (forall x w', P x -> quietly w w' -> Q x w') -> wp m Q w.
Proof. intros Hm HQ. eapply wp_use; [apply Hm|]. intros x w' [Hx Hq]. by apply HQ. Qed.
Lemma talks_assert b : b = true -> talks (ASSERT_io b) (fun _ => True).
Proof. intros -> w. split; [done|apply quietly_refl]. Qed.

Lemma printing_silent tr : Forall (fun e => printing e = true) tr -> Forall (fun e => mmio_write e = None) tr.
Proof. intros H. eapply Forall_impl; [exact H|]. intros e He. by destruct e. Qed.
Lemma talks_printf fmt tys ap : check_printf a fmt tys = true -> shaped ap tys -> talks (printf a fmt ap) (fun _ => True).
Proof.
  intros Hc Hs w. eapply printf_ok; [exact Hc|exact Hs|]. intros n tr Ht. split; [done|]. split; [done|].
  by apply writes_none, printing_silent.
Qed.
Lemma talks_say fmt tys ap : check_printf a (fmt ++ [10])%list tys = true -> shaped ap tys -> talks (say a fmt ap) (fun _ => True).
Proof. intros Hc Hs. eapply talks_bind; [by eapply talks_printf|]. intros x _. by apply talks_ret. Qed.
Lemma talks_outb p v : talks (outb p v) (fun _ => True).
Proof. apply talks_event. intros w. by exists tt, (EOut p (u8 v)). Qed.
Lemma talks_inb p : talks (inb p) (fun _ => True).
Proof. apply talks_event. intros w. by eexists _, (EIn p _). Qed.
Lemma talks_read_reg r : talks (read_reg a r) (fun _ => True).
Proof. apply talks_event. intros w. by eexists _, (EGetReg r _). Qed.
Lemma talks_feature n : 0 <= n < 32 -> (forall tr, Z.testbit (cpu_cpuid tr 1 0).2 n = true) -> talks (has_feature n) (fun b => b = true).
Proof.
  intros Hn H w. unfold has_feature. apply wp_bind. unfold cpuid_raw, wp at 1. specialize (H (w_tr w)). change (u32 1) with 1. change (u32 0) with 0.
  destruct (cpu_cpuid (w_tr w) 1 0) as [[[ra rb] rc] rd]. cbn [snd] in H. apply wp_ret. split; [|by apply quietly_event].
  unfold truth. apply negb_true_iff, Z.eqb_neq. intros E. apply (f_equal (fun z => Z.testbit z n)) in E.
  rewrite Z.land_spec, Z.bits_0, Z.shiftl_1_l, Z.pow2_bits_true, andb_true_r in E by lia. unfold u32 in E. rewrite wrap_testbit, H in E by lia.
  by rewrite (proj2 (Z.ltb_lt n 32)) in E by lia.
Qed.

Lemma talks_banner : talks (banner a) (fun _ => True).
Proof.
  assert (forall t, t = "Small Hyper Visor (SHV)" \/ t = "Subarch: amd64" \/ t = "Subarch: i386 (PAE)" \/ t = "Subarch: i386 (not PAE)" ->
    talks (say a (lit t) []) (fun _ => True)) as H.
  { intros t Ht. apply (talks_say _ []); [|constructor]. destruct Ht as [->|[->|[->| ->]]]; by destruct a. }
  unfold banner. eapply talks_bind; [apply H; tauto|]. intros _ _. destruct a; apply H; tauto.
Qed.
Lemma talks_print_options g : talks (print_options a g) (fun _ => True).
Proof.
  unfold print_options. eapply talks_bind; [apply (talks_say _ [ANum 64]); [by destruct a|by repeat constructor]|]. intros _ _.
  eapply talks_bind; [apply (talks_say _ [ANum 64]); [by destruct a|by repeat constructor]|]. intros _ _.
  apply (talks_say _ [ANum 64]); [by destruct a|by repeat constructor].
Qed.

(** The loops that wait for a device, if it answers in time. *)
Lemma talks_wait_in fuel port ok : (forall w, is_ok (wait_in fuel port ok w) = true) -> talks (wait_in fuel port ok) (fun _ => True).
Proof.
  intros H w. specialize (H w). destruct (wait_in fuel port ok w) as [r|e] eqn:E; [|done]. destruct (wait_in_trace _ _ _ _ _ E) as (vs & v & _ & _ & ->).
  unfold wp. rewrite E. split; [done|]. split; [done|]. change (EIn port v :: map (EIn port) vs ++ w_tr w) with ((EIn port v :: map (EIn port) vs) ++ w_tr w)%list.
  apply writes_none. constructor; [done|]. apply Forall_map, Forall_true. done.
Qed.
Lemma talks_wait_read fuel addr ok : (forall w, is_ok (wait_read fuel addr ok w) = true) -> talks (wait_read fuel addr ok) (fun _ => True).
Proof.
  intros H. assert (forall w r, wait_read fuel addr ok w = Ok r -> quietly w r.2) as Hq.
  { clear H. induction fuel as [|fuel IH]; intros w r E; [done|]. cbn [wait_read] in E. apply IO_bind_Ok in E as (v & w1 & E1 & E).
    unfold read32 in E1. injection E1 as <- <-. set (v := u32 _) in *. assert (quietly w (mkW (w_mem w) (ERead addr v :: w_tr w))) as Q by (by apply quietly_event).
    destruct (ok v); [by injection E as <-|]. eapply quietly_trans; [exact Q|]. by apply IH. }
  intros w. specialize (H w). unfold wp. destruct (wait_read fuel addr ok w) as [[x w']|e] eqn:E; [|done]. split; [done|by apply Hq in E].
Qed.
End quiet.

(** ** The steps of [kernel_main] that write *)

Lemma string_at_wf fuel m p str : string_at fuel m p = Ok str -> str_wf str.
Proof.
  revert p str. induction fuel as [|fuel IH]; intros p str E; [done|]. cbn [string_at] in E. destruct (Z.eqb_spec (rd8 m p) 0) as [|Hz]; [injection E as <-; constructor|].
  destruct (string_at fuel m (p + 1)) as [t|] eqn:Et; [|done]. injection E as <-. constructor; [|by eapply IH].
  pose proof (rd8_range m p) as Hr. unfold is_u in Hr. lia.
Qed.
Lemma string_at_agree P fuel m m' p str : agree P m m' -> (forall b, p <= b <= p + slen str -> P b) ->
  string_at fuel m p = Ok str -> string_at fuel m' p = Ok str.
Proof.
  intros Ha. revert p str. induction fuel as [|fuel IH]; intros p str HP E; [done|]. cbn [string_at] in *.
  rewrite (Ha p) by (apply HP; unfold slen; lia). destruct (rd8 m p =? 0); [done|].
  destruct (string_at fuel m (p + 1)) as [t|] eqn:Et; [|done]. injection E as <-. rewrite (IH (p + 1) t); [done| |done].
  intros b Hb. apply HP. unfold slen in *. cbn. lia.
Qed.

(** What a loader says by the Multiboot specification: bit 1 of the flags for a boot device, bit 2 for a command line.  With bit 2
    there is a text the program accepts, whose words turn the options [g] into [g'].  Loaders that give a boot device without
    a command line are left out. *)
Record loader_ok (a : subarch) (fuel : nat) (m : mem) (mbi : Z) (g g' : opts) : Prop := {
  lo_cmdline : Z.testbit (mbi_flags m mbi) 2 = true ->
    exists str, string_at fuel m (mbi_cmdline m mbi) = Ok str /\ slen str <= 1000 /\ foldm (apply_word a) (words true str) g = Ok g' /\
      forall b, mbi_cmdline m mbi <= b <= mbi_cmdline m mbi + slen str -> off_screen b;
  lo_device : Z.testbit (mbi_flags m mbi) 1 = true -> Z.testbit (mbi_flags m mbi) 2 = true }.
(** The options the program runs with: it looks at the bit of the boot device. *)
Definition options_taken (m : mem) (mbi : Z) (g g' : opts) : opts := if Z.testbit (mbi_flags m mbi) 1 then g' else g.

Lemma mbi_agree m m' mbi : agree off_screen m m' -> (forall b, in_range mbi 20 b -> off_screen b) ->
  mbi_flags m' mbi = mbi_flags m mbi /\ mbi_cmdline m' mbi = mbi_cmdline m mbi.
Proof.
  intros Ha Hm. unfold mbi_flags, mbi_cmdline, ld32. split; apply (ld_agree off_screen _ m m' _ Ha); intros b Hb; apply Hm; unfold in_range in *; lia.
Qed.
Lemma loader_agree a fuel m m' mbi g g' : agree off_screen m m' -> (forall b, in_range mbi 20 b -> off_screen b) ->
  loader_ok a fuel m mbi g g' -> loader_ok a fuel m' mbi g g'.
Proof.
  intros Ha Hm [H1 H2]. destruct (mbi_agree m m' mbi Ha Hm) as [E1 E2]. constructor; rewrite E1, ?E2; [|done].
  intros Hb. destruct (H1 Hb) as (str & Es & Hl & Hf & Ho). exists str. split; [|done]. by eapply string_at_agree.
Qed.
Lemma mask_is_bit x : truth (Z.land x MBI_CMDLINE) = Z.testbit x 1.
Proof.
  unfold truth. change MBI_CMDLINE with (2 ^ 1). destruct (Z.testbit x 1) eqn:E.
  - apply negb_true_iff, Z.eqb_neq. intros H. apply (f_equal (fun z => Z.testbit z 1)) in H. by rewrite Z.land_spec, E in H.
  - apply negb_false_iff, Z.eqb_eq, Z.bits_inj'. intros i Hi. rewrite Z.land_spec, Z.bits_0.
    destruct (decide (i = 1)) as [->|Hne]; [by rewrite E|]. by rewrite (Z.pow2_bits_false 1 i), andb_false_r by done.
Qed.

Section start.
Context {a : subarch} {D : Device} {C : Cpu}.

Lemma wp_get_options fuel mbi g g' w : loader_ok a fuel (w_mem w) mbi g g' ->
  wp (get_options a fuel mbi g) (fun x w' => x = options_taken (w_mem w) mbi g g' /\ quietly w w') w.
Proof.
  intros [H Hdev]. unfold get_options, options_taken. apply wp_bind. unfold fetch at 1, wp at 1. rewrite mask_is_bit.
  destruct (Z.testbit (mbi_flags (w_mem w) mbi) 1).
  - destruct (H (Hdev eq_refl)) as (str & Es & Hl & Hf & _). pose proof (string_at_wf _ _ _ _ Es) as Hwf. apply wp_bind. unfold fetch at 1, wp at 1. rewrite Es.
    apply wp_bind. eapply talks_use.
    { apply (talks_say _ [AStr 1000]); [by destruct a|by repeat constructor]. }
    intros _ w1 _ Hq. unfold parse_cmdline. rewrite parse_loop_ok by (done || unfold slen; lia).
    change (rest str 0) with str. by rewrite Hf.
  - apply wp_bind. eapply talks_use; [apply (talks_say _ []); [by destruct a|constructor]|]. intros _ w1 _ Hq. done.
Qed.

Lemma wp_debug_init DEBUG_SERIAL DEBUG_VGA v w :
  wp (emhfc_debug_init DEBUG_SERIAL DEBUG_VGA v) (fun _ w' => agree off_screen (w_mem w) (w_mem w') /\ writes [] w w') w.
Proof.
  unfold emhfc_debug_init. apply wp_bind. apply (wp_use _ (fun _ w' => quietly w w')).
  - destruct DEBUG_SERIAL; [|apply quietly_refl]. unfold dbg_x86_uart_init. eapply talks_use; [|intros x w' _ Hq; exact Hq].
    repeat (eapply talks_bind; [apply talks_outb|intros _ _]). apply talks_outb.
  - intros _ w1 [Em Hw]. destruct DEBUG_VGA; [|apply wp_ret; rewrite Em; by split].
    unfold on_vga, wp, dbg_x86_vgamem_init. cbn [w_mem w_tr]. split; [|exact Hw]. intros b Hb. rewrite rd8_memset by (unfold COLS, ROWS; lia).
    unfold off_screen, in_range, COLS, ROWS in *. rewrite <- Em. bcase; cbn; done || lia.
Qed.

(** The root and [g_cr4] that [paging_init] leaves. *)
Definition paging_bits (cr4 : Z) : Prop := match a with AMD64 => True | I386_PAE => Z.testbit cr4 5 = true | I386 => Z.testbit cr4 4 = true end.
Definition has_paging : Prop :=
  match a with
  | AMD64 => True
  | I386_PAE => forall tr, Z.testbit (cpu_cpuid tr 1 0).2 6 = true
  | I386 => forall tr, Z.testbit (cpu_cpuid tr 1 0).2 3 = true
  end.
Lemma wp_paging_init amd64_max s root limit w : has_paging ->
  init_identity a amd64_max (k_pt s) (page_type a) root limit (w_mem w) ->
  wp (paging_init a amd64_max s) (fun x w' => x.1 = root /\ paging_bits x.2 /\ writes [] w w' /\
    agree (fun b => ~ pt_bytes a amd64_max (k_pt s) b) (w_mem w) (w_mem w') /\
    forall mx, agree (pt_bytes a amd64_max (k_pt s)) (w_mem w') mx -> maps_identity (page_type a) root limit mx) w.
Proof.
  intros Hf (m' & E & Ha & Hi). unfold paging_init. apply wp_bind. unfold wp at 1. rewrite E. apply wp_bind.
  eapply talks_use; [apply talks_read_reg|]. intros cr4 w1 _ [Em Hw].
  assert (forall k n, 0 <= n < 32 -> (forall tr, Z.testbit (cpu_cpuid tr 1 0).2 n = true) -> paging_bits k ->
    wp (b ← has_feature n; ASSERT_io b ≫= fun _ => mret (root, k)) (fun x w' => x.1 = root /\ paging_bits x.2 /\ writes [] w w' /\
      agree (fun b => ~ pt_bytes a amd64_max (k_pt s) b) (w_mem w) (w_mem w') /\
      forall mx, agree (pt_bytes a amd64_max (k_pt s)) (w_mem w') mx -> maps_identity (page_type a) root limit mx) w1) as Hlast.
  { intros k n Hn Hc Hk. apply wp_bind. eapply talks_use; [by apply talks_feature|]. intros b w2 -> [Em2 Hw2]. cbn [ASSERT_io ASSERT lift].
    apply wp_ret. rewrite Em2, Em. split; [done|]. split; [done|]. split; [exact (writes_trans [] [] _ _ _ Hw Hw2)|]. by split. }
  unfold has_paging, paging_bits in *. destruct a.
  - apply (Hlast _ 3); [lia|done|]. rewrite Z.lor_spec. by rewrite orb_true_r.
  - apply (Hlast _ 6); [lia|done|]. rewrite Z.lor_spec. by rewrite orb_true_r.
  - apply wp_ret. cbn [fst snd]. rewrite Em. by split_and!.
Qed.
End start.

(** ** Waking the other processors *)

(** The command register of a LAPIC, and the devices [wakeupAPs] waits for. *)
Definition icr_of (base : Z) : Z := Z.lor (Z.land base (bnot 64 0xFFF)) 0x300.
Record answering {D : Device} (fuel : nat) (base : Z) : Prop := {
  an_base tr : u64 (dev_rdmsr tr MSR_APIC_BASE) = base;
  an_low : 0 <= base < 2 ^ 32;
  an_delay w : is_ok (wait_in fuel 0x61 (fun v => truth (Z.land v 0x20)) w) = true;
  an_sent w : is_ok (wait_read fuel (icr_of base) (fun v => negb (truth (Z.land v 0x1000))) w) = true }.
(** INIT, and twice the start-up command; latest first.  The vector of the latter is the page the processors start in. *)
Definition INIT_CMD : Z := 0x000c4500.
Definition SIPI_CMD : Z := 0x000c4610.
Definition start_page (cmd : Z) : Z := 4096 * Z.land cmd 0xff.
Definition wake_cmds (base : Z) : list (Z * Z) := [(icr_of base, SIPI_CMD); (icr_of base, SIPI_CMD); (icr_of base, INIT_CMD)].

Section wake.
Context {a : subarch} {D : Device} {fuel : nat} {base : Z}.
Context (An : answering fuel base).

Lemma icr_small : wrap (ptr_bits a) (icr_of base) = icr_of base.
Proof.
  pose proof (an_low _ _ An). apply wrap_small. apply (is_u_le 32); [destruct a; cbn; lia|]. unfold icr_of.
  apply is_u_of_testbit; [lia|apply Z.lor_nonneg; split; [apply Z.land_nonneg; left; lia|lia]|]. intros i Hi.
  rewrite Z.lor_spec, Z.land_spec, (is_u_testbit_high 32 base), (is_u_testbit_high 32 0x300) by (unfold is_u; lia). done.
Qed.
Lemma talks_udelay usecs : 0 <= usecs <= 50000 -> talks (udelay fuel usecs) (fun _ => True).
Proof.
  intros Hu. unfold udelay. eapply talks_bind; [apply talks_inb|]. intros v _. cbv zeta. do 2 (eapply talks_bind; [apply talks_outb|intros _ _]).
  eapply talks_bind; [|intros _ _].
  { apply talks_assert, Z.ltb_lt. unfold u64, u32. rewrite (wrap_small 64) by (unfold is_u; lia).
    assert (0 <= 1193182 * usecs / 1000000 < 2 ^ 16) by (split; [apply Z.div_pos; lia|apply Z.div_lt_upper_bound; lia]).
    rewrite wrap_small by (unfold is_u; lia). lia. }
  do 2 (eapply talks_bind; [apply talks_outb|intros _ _]). eapply talks_bind; [apply talks_wait_in, (an_delay _ _ An)|intros _ _].
  eapply talks_bind; [apply talks_inb|]. intros v2 _. apply talks_outb.
Qed.
Lemma wp_send_ipi cmd usecs w (Q : unit -> world -> Prop) : is_u 32 cmd -> 0 <= usecs <= 50000 ->
  (forall w', w_mem w' = w_mem w -> writes [(icr_of base, cmd)] w w' -> Q tt w') -> wp (send_ipi fuel (icr_of base) cmd usecs) Q w.
Proof.
  intros Hc Hu HQ. unfold send_ipi. apply wp_bind. unfold write32, emit, wp at 1. unfold u32. rewrite wrap_small by done.
  apply wp_bind. eapply talks_use; [by apply talks_udelay|]. intros _ w1 _ [Em1 Hw1]. eapply talks_use; [apply talks_wait_read, (an_sent _ _ An)|].
  intros [] w2 _ [Em2 Hw2]. apply HQ; [by rewrite Em2, Em1|]. refine (writes_trans [_] [] w _ _ _ (writes_trans [] [] _ _ _ Hw1 Hw2)).
  by exists [EWrite (icr_of base) cmd].
Qed.
Lemma wp_wakeupAPs bootstrap bootstrap_end w (Q : unit -> world -> Prop) :
  (forall w', w_mem w' = (memcpy 0x10000 bootstrap (bootstrap_end - bootstrap) (w_mem w)).2 -> writes (wake_cmds base) w w' -> Q tt w') ->
  wp (wakeupAPs a fuel bootstrap bootstrap_end) Q w.
Proof.
  intros HQ. unfold wakeupAPs. apply wp_bind. unfold rdmsr64, wp at 1. rewrite (an_base _ _ An). apply wp_bind, wp_assert.
  { apply Z.ltb_lt. pose proof (an_low _ _ An). lia. }
  cbv zeta. change (Z.lor (Z.land base (bnot 64 4095)) 768) with (icr_of base). rewrite icr_small. apply wp_bind. unfold wp at 1.
  set (w0 := mkW _ _). assert (writes [] w w0) as W0 by (exact (writes_none [ERdmsr _ _] w _ ltac:(by constructor))).
  apply wp_bind, wp_send_ipi; [by vm_compute|lia|]. intros w1 E1 W1. apply wp_bind, wp_send_ipi; [by vm_compute|lia|]. intros w2 E2 W2.
  apply wp_send_ipi; [by vm_compute|lia|]. intros w3 E3 W3. apply HQ; [by rewrite E3, E2, E1|].
  exact (writes_trans _ _ _ _ _ (writes_trans _ _ _ _ _ (writes_trans [] _ _ _ _ W0 W1) W2) W3).
Qed.
End wake.

(** ** The boot processor *)

(** The code a processor starts with, the place it is copied to, and the stack of its far return. *)
Definition code_bytes (s : kernel_syms) (b : Z) : Prop := _ap_bootstrap s <= b < _ap_bootstrap_end s.
Definition start_bytes (s : kernel_syms) (b : Z) : Prop := in_range 0x10000 (_ap_bootstrap_end s - _ap_bootstrap s) b.
Definition lret_bytes (a : subarch) (s : kernel_syms) (b : Z) : Prop := if is_amd64 a then in_range (g_smp_lret_stack s) 8 b else False.

(** What the boot loader and the firmware leave: the information structure and the command line, the page tables of [boot.S],
    the ACPI tables -- a root pointer, the MADT and its records [rs], with one to ten usable processors -- and devices that answer;
    and that the objects of the program are apart. *)
Record bootable (a : subarch) {D : Device} {C : Cpu} (amd64_max : Z) (s : kernel_syms) (fuel : nat) (mbi base : Z) (g g' : opts)
    (rsdp madt : Z) (es : list Z) (rs : list arec) (m : mem) : Prop := {
  kb_mbi b : in_range mbi 20 b -> off_screen b;
  kb_options : loader_ok a fuel m mbi g g';
  kb_layout : pt_layout a amd64_max (k_pt s);
  kb_booted : booted a (k_pt s) m;
  kb_tables b : pt_bytes a amd64_max (k_pt s) b -> off_screen b /\ ~ start_bytes s b /\ ~ lret_bytes a s b;
  kb_feature : has_paging (a := a) (C := C);
  kb_acpi : acpi_tables m rsdp madt es rs;
  kb_acpi_bytes b : acpi_bytes m rsdp madt es b -> off_screen b /\ ~ pt_bytes a amd64_max (k_pt s) b;
  kb_cpus : (1 <= length (processors rs) <= 10)%nat /\ (length rs <= fuel)%nat;
  kb_code b : code_bytes s b -> off_screen b /\ ~ pt_bytes a amd64_max (k_pt s) b /\ ~ lret_bytes a s b;
  kb_apart b : start_bytes s b -> ~ code_bytes s b /\ ~ lret_bytes a s b;
  kb_size : _ap_bootstrap s <= _ap_bootstrap_end s;
  kb_answers : answering fuel base }.

(** The boot code covers only entries that are in the tables. *)
Lemma booted_agree a amd64_max s m m' : pt_layout a amd64_max s -> agree (pt_bytes a amd64_max s) m m' -> booted a s m -> booted a s m'.
Proof.
  intros Hl Ha. destruct a; [done..|]. destruct Hl as (Hmax & _). destruct (P4L_bounds amd64_max Hmax) as (N3 & N2 & N1). unfold ADDR_4GB in Hmax.
  intros (B4 & B3 & B2). unfold pt_bytes in Ha.
  split_and!; (eapply boot_ok_agree; [exact Ha|intros b Hb; unfold in_range in *|eassumption]); lia.
Qed.

Section main.
Context {a : subarch} {D : Device} {C : Cpu}.

Lemma wp_smp_init s fuel base cpus w (Q : list (MIDTAB * Smp.VCPU) -> world -> Prop) :
  answering fuel base -> smp_getinfo a fuel None (w_mem w) = Ok cpus -> _ap_bootstrap s <= _ap_bootstrap_end s ->
  (forall b, start_bytes s b -> ~ code_bytes s b /\ ~ lret_bytes a s b) ->
  (forall b, code_bytes s b -> ~ lret_bytes a s b) ->
  (forall w', writes (wake_cmds base) w w' ->
     agree (fun b => ~ start_bytes s b /\ ~ lret_bytes a s b) (w_mem w) (w_mem w') ->
     (forall i, 0 <= i < _ap_bootstrap_end s - _ap_bootstrap s -> rd8 (w_mem w') (0x10000 + i) = rd8 (w_mem w) (_ap_bootstrap s + i)) ->
     (is_amd64 a = true -> ld32 (w_mem w') (g_smp_lret_stack s) = u32 (init_core_lowlevel_setup s) /\ ld32 (w_mem w') (g_smp_lret_stack s + 4) = __CS64) ->
     Q (mid_loop (k_smp s) 0 cpus) w') ->
  wp (smp_init a s fuel) Q w.
Proof.
  intros An Hc Hsize Hap Hcode HQ. unfold smp_init. apply wp_bind. unfold fetch, wp at 1, smp_tables. rewrite Hc. cbn [mbind res_bind]. apply wp_bind.
  apply (wp_use _ (fun _ w1 => w_tr w1 = w_tr w /\ agree (fun b => ~ lret_bytes a s b) (w_mem w) (w_mem w1) /\
    (is_amd64 a = true -> ld32 (w_mem w1) (g_smp_lret_stack s) = u32 (init_core_lowlevel_setup s) /\ ld32 (w_mem w1) (g_smp_lret_stack s + 4) = __CS64))).
  { unfold lret_bytes. destruct (is_amd64 a); [|by split_and!]. unfold store, mbind, IO_bind, wp. cbn [w_mem w_tr]. split; [done|]. split.
    - eapply agree_trans; apply agree_st; unfold in_range; cbn; lia.
    - intros _. unfold ld32. rewrite (ld_st_other 4) by lia. rewrite !(ld_st_gen 4) by lia. split; [|done]. apply wrap_small, is_u_wrap. lia. }
  intros _ w1 (Et & A1 & L1). apply wp_bind, (wp_wakeupAPs An). intros w2 E2 W2. apply wp_ret. set (len := _ap_bootstrap_end s - _ap_bootstrap s) in *.
  assert (0x10000 <= _ap_bootstrap s \/ _ap_bootstrap s + len <= 0x10000) as Hdir.
  { unfold len. destruct (Z.le_gt_cases 0x10000 (_ap_bootstrap s)); [by left|]. right. destruct (Z.le_gt_cases (_ap_bootstrap_end s) 0x10000); [lia|].
    destruct (Hap 0x10000) as [[] _]; [unfold start_bytes, in_range; lia|unfold code_bytes; lia]. }
  assert (forall b, rd8 (w_mem w2) b = if (0x10000 <=? b) && (b <? 0x10000 + len) then rd8 (w_mem w1) (_ap_bootstrap s + (b - 0x10000)) else rd8 (w_mem w1) b) as Hrd.
  { intros b. rewrite E2. apply rd8_memcpy; [lia|done]. }
  apply HQ.
  - destruct W2 as (tr & Ew & Hw). exists tr. by rewrite Ew, Et.
  - intros b [Hb Hb2]. rewrite Hrd. unfold start_bytes, in_range in Hb. fold len in Hb. rewrite <- A1 by done. bcase; cbn; done || lia.
  - intros i Hi. rewrite Hrd, (proj2 (Z.leb_le _ _)), (proj2 (Z.ltb_lt _ _)) by lia. cbn [andb].
    replace (_ap_bootstrap s + (0x10000 + i - 0x10000)) with (_ap_bootstrap s + i) by lia. apply A1, Hcode. unfold code_bytes. lia.
  - intros Ha. destruct (L1 Ha) as [L2 L3]. rewrite <- L2, <- L3. unfold ld32.
    assert (agree (lret_bytes a s) (w_mem w1) (w_mem w2)) as A2.
    { intros b Hb. rewrite Hrd. assert (~ start_bytes s b) as Hs by (intros H; by destruct (Hap b H)). unfold start_bytes, in_range in Hs. fold len in Hs.
      bcase; cbn; done || lia. }
    unfold lret_bytes in A2. rewrite Ha in A2. split; apply (ld_agree _ _ _ _ _ A2); unfold in_range; cbn; lia.
Qed.

(** [smp_getinfo] on memory that has the tables. *)
Lemma acpi_getinfo fuel m rsdp madt es rs : acpi_tables m rsdp madt es rs -> (1 <= length (processors rs) <= 10)%nat -> (length rs <= fuel)%nat ->
  smp_getinfo a fuel None m = Ok (cpus_of (madt_lapicaddress m madt) 0 (processors rs)).
Proof.
  intros [H1 H2 H3 H4] Hn Hf. rewrite (smp_getinfo_madt a fuel None m rsdp es madt rs H1 H2 H3 H4 Hf). unfold MAX_PCPU_ENTRIES.
  by rewrite (proj2 (Nat.leb_le 1 _)), (proj2 (Nat.leb_le _ (Z.to_nat 10))) by lia.
Qed.
(** The entry of the [i]-th usable processor: its id, the address of its [VCPU], and in that its stack, id, index and whether it is
    the boot processor. *)
Definition table_entry (s : smp_syms) (i : nat) (r : arec) : MIDTAB * Smp.VCPU :=
  (mkMid (ar_id r) (g_vcpus_at s + SIZEOF_VCPU s * Z.of_nat i),
   Smp.mkVcpu (g_cpu_stack_at s + 65536 * (Z.of_nat i + 1)) (ar_id r) (Z.of_nat i) (Nat.eqb i 0)).
Lemma tables_from s base k rs :
  mid_loop s (Z.of_nat k) (cpus_of base (Z.of_nat k) rs) = imap (fun i r => table_entry s (k + i) r) rs.
Proof.
  revert k. induction rs as [|r rs IH]; intros k; [done|]. cbn [cpus_of mid_loop imap]. f_equal.
  - unfold mid_entry, table_entry, SHV_STACK_SIZE. cbn [lapic_id pcpu_isbsp]. rewrite Nat.add_0_r. do 2 f_equal. by destruct k.
  - replace (Z.of_nat k + 1) with (Z.of_nat (S k)) by lia. rewrite IH. apply imap_ext. intros i x _. cbn. f_equal. lia.
Qed.
Lemma tables_ok s base rs : mid_loop s 0 (cpus_of base 0 rs) = imap (table_entry s) rs.
Proof. exact (tables_from s base 0 rs). Qed.

(** C7: The boot processor brings the machine up: from what a Multiboot loader and the firmware leave, [kernel_main] runs without a
    failed assertion to the point where all processors start.  The page tables map every address to itself and [g_cr4] has what
    they need; [g_midtable] and the [VCPU]s have one entry for each usable processor of the first MADT of the first root pointer, in
    order, with its id, its stack, its index and the mark of the boot processor on the first; and the only commands that went out
    are INIT and twice the start-up command, which starts the others at a page that holds their code.  The options are those of
    the command line if the loader also gives a boot device; without one they stay as they were, even if there is a command line:
    the program looks at the wrong bit.  (A loader that gives a boot device and no command line is left out.) *)
Theorem kernel_main_starts DEBUG_SERIAL DEBUG_VGA amd64_max s fuel mbi base v g g' rsdp madt es rs w :
  bootable a amd64_max s fuel mbi base g g' rsdp madt es rs (w_mem w) ->
  exists x w', kernel_main a DEBUG_SERIAL DEBUG_VGA amd64_max s fuel mbi v g w = Ok (x, w') /\
    sd_opts x = (if Z.testbit (mbi_flags (w_mem w) mbi) 1 then g' else g) /\
    sd_tables x = imap (table_entry (k_smp s)) (processors rs) /\
    maps_identity (page_type a) (sd_cr3 x) (map_limit a amd64_max) (w_mem w') /\ paging_bits (a := a) (sd_cr4 x) /\
    writes (wake_cmds base) w w' /\
    (forall i, 0 <= i < _ap_bootstrap_end s - _ap_bootstrap s ->
       rd8 (w_mem w') (start_page SIPI_CMD + i) = rd8 (w_mem w) (_ap_bootstrap s + i)) /\
    (is_amd64 a = true -> ld32 (w_mem w') (g_smp_lret_stack s) = u32 (init_core_lowlevel_setup s) /\ ld32 (w_mem w') (g_smp_lret_stack s + 4) = __CS64).
Proof.
  intros [Hmbi Hopt Hlay Hboot Htab Hfeat Hacpi Hab [Hn Hfuel] Hcode Hap Hsize An]. apply wp_elim.
  unfold kernel_main. apply wp_bind. eapply wp_use; [apply wp_debug_init|]. intros v' w1 [A1 W1]. apply wp_bind.
  eapply talks_use; [apply talks_banner|]. intros _ w2 _ [Em2 W2]. apply wp_bind. eapply wp_use.
  { apply (wp_get_options fuel mbi g g'). rewrite Em2. by apply (loader_agree a fuel (w_mem w)). }
  intros x w3 [-> [Em3 W3]]. apply wp_bind. eapply talks_use; [apply talks_print_options|]. intros _ w4 _ [Em4 W4]. apply wp_bind.
  assert (w_mem w4 = w_mem w1) as Em by congruence. unfold options_taken. rewrite Em2, (proj1 (mbi_agree _ _ mbi A1 Hmbi)). clear Em2 Em3 Em4.
  destruct (shv_page_table_init_ok a amd64_max (k_pt s) (w_mem w4) Hlay) as (root & Hinit).
  { rewrite Em. apply (booted_agree a amd64_max (k_pt s) (w_mem w)); [done| |done]. eapply agree_weaken; [|exact A1]. intros b Hb. by apply Htab. }
  eapply wp_use; [by apply wp_paging_init|]. intros [cr3 cr4] w5 (E3 & E4 & W5 & A5 & Hid). cbn [fst snd] in E3, E4. subst cr3. rewrite Em in A5.
  assert (agree (fun b => off_screen b /\ ~ pt_bytes a amd64_max (k_pt s) b) (w_mem w) (w_mem w5)) as A05.
  { intros b [Hb1 Hb2]. rewrite A5 by done. by apply A1. }
  assert (acpi_tables (w_mem w5) rsdp madt es rs) as Hacpi5 by (by eapply acpi_agree; [eapply agree_weaken; [exact Hab|exact A05]|]).
  apply wp_bind, (wp_smp_init s fuel base _ _ _ An (acpi_getinfo fuel _ _ _ _ _ Hacpi5 Hn Hfuel)); [done|done|intros b Hb; by apply Hcode|].
  intros w6 W6 A6 H6 L6. apply wp_ret. cbn [sd_opts sd_tables sd_cr3 sd_cr4]. split; [done|]. split; [apply tables_ok|]. split; [|split; [done|split; [|split; [|done]]]].
  - apply Hid. eapply agree_weaken; [|exact A6]. intros b Hb. by apply Htab in Hb as (_ & ? & ?).
  - exact (writes_trans [] _ _ _ _ (writes_trans [] [] _ _ _ (writes_trans [] [] _ _ _ (writes_trans [] [] _ _ _ (writes_trans [] [] _ _ _ W1 W2) W3) W4) W5) W6).
  - intros i Hi. change (start_page SIPI_CMD) with 0x10000. rewrite H6 by done. apply A05. destruct (Hcode (_ap_bootstrap s + i)) as (? & ? & _); [|done].
    unfold code_bytes. lia.
Qed.
End main.

(** ** Two processors and a command line *)

Fixpoint put_bytes (l : list Z) (p : Z) (m : mem) : mem := match l with [] => m | c :: l => put_bytes l (p + 1) (wr8 m p c) end.
(** The tables of Smp, and the information structure with its command line. *)
Definition demo_firmware : mem := put_bytes (lit "shv timer_ms=20") 0x5100 (st 4 (st 4 demo_tables 0x5000 6) 0x5010 0x5100).
Definition demo_kernel : kernel_syms := mkKernelSyms (mkSmpSyms 0x200000 512 0x210000) (mkPtSyms 0 0 0x400000) 0x6000 0x6010 0x7000 0x8000.
Definition demo_board : Device := {| dev_in _ _ := 0x20; dev_read _ _ := 0; dev_rdmsr _ _ := 0xFEE00000 |}.
Definition demo_board_cpu : Cpu := {|
  cpu_vmread _ _ := None; cpu_vmwrite _ _ _ := false; cpu_vmx _ _ _ := false; cpu_vmptr _ := 0;
  cpu_cpuid _ _ _ := (0, 0, 0x20, 8); cpu_rdmsr_faults _ _ := false; cpu_wrmsr_faults _ _ _ := false; cpu_reg _ _ := 0 |}.
Lemma rd8_put_below l p m b : b < p -> rd8 (put_bytes l p m) b = rd8 m b.
Proof. revert p m. induction l as [|c l IH]; intros p m Hb; [done|]. cbn [put_bytes]. rewrite IH, rd8_wr8, (proj2 (Z.eqb_neq _ _)) by lia. done. Qed.
Lemma rd8_put_above l p m b : p + Z.of_nat (length l) <= b -> rd8 (put_bytes l p m) b = rd8 m b.
Proof. revert p m. induction l as [|c l IH]; intros p m Hb; [done|]. cbn [put_bytes length] in *. rewrite IH, rd8_wr8, (proj2 (Z.eqb_neq _ _)) by lia. done. Qed.
Lemma demo_acpi_bytes b : acpi_bytes demo_tables 0x9000 0x9200 [0x9300; 0x9200] b ->
  0x40E <= b < 0x410 \/ 0x9000 <= b < 0xA000 \/ 0xE0000 <= b < 0x100014.
Proof.
  intros [H|[(p & Hp & H)|[H|[(e & He & H)|H]]]]; unfold in_range in H.
  - lia.
  - unfold rsdp_places in Hp. apply elem_of_app in Hp. unfold places_from in Hp.
    assert (ld16 demo_tables 0x40E * 16 = 0x9000) as E by (by vm_compute). rewrite E in Hp.
    destruct Hp as [Hp|Hp]; apply list_elem_of_fmap in Hp as (k & -> & Hk); apply elem_of_seq in Hk; lia.
  - assert (rsdp_rsdtaddress demo_tables 0x9000 = 0x9100) as E by (by vm_compute). rewrite E in H. unfold SIZEOF_ACPI_RSDT in H. cbn in H. lia.
  - repeat (apply elem_of_cons in He as [->|He]; [lia|]). by apply not_elem_of_nil in He.
  - assert (madt_length demo_tables 0x9200 = 80) as E by (by vm_compute). rewrite E in H. lia.
Qed.
Lemma demo_firmware_acpi : acpi_tables demo_firmware 0x9000 0x9200 [0x9300; 0x9200] demo_recs /\
  forall b, acpi_bytes demo_firmware 0x9000 0x9200 [0x9300; 0x9200] b -> acpi_bytes demo_tables 0x9000 0x9200 [0x9300; 0x9200] b.
Proof.
  assert (agree (fun b => b < 0x5000 \/ 0x5200 <= b) demo_tables demo_firmware) as Ha.
  { intros b Hb. unfold demo_firmware. assert (length (lit "shv timer_ms=20") = 15%nat) as El by done.
    assert (rd8 (st 4 (st 4 demo_tables 0x5000 6) 0x5010 0x5100) b = rd8 demo_tables b) as E by (rewrite !rd8_st_other by (unfold in_range; lia); done).
    rewrite <- E. destruct Hb; [apply rd8_put_below; lia|apply rd8_put_above; rewrite El; lia]. }
  assert (acpi_tables demo_firmware 0x9000 0x9200 [0x9300; 0x9200] demo_recs) as H.
  { eapply acpi_agree; [|exact demo_acpi]. eapply agree_weaken; [|exact Ha]. intros b Hb%demo_acpi_bytes. cbv beta. lia. }
  split; [exact H|]. intros b. unfold acpi_bytes.
  assert (rsdp_places demo_firmware = rsdp_places demo_tables) as ->.
  { assert (ld16 demo_firmware 0x40E = ld16 demo_tables 0x40E) as E by (by vm_compute). unfold rsdp_places. by rewrite E. }
  assert (rsdp_rsdtaddress demo_firmware 0x9000 = rsdp_rsdtaddress demo_tables 0x9000 /\ madt_length demo_firmware 0x9200 = madt_length demo_tables 0x9200)
    as [-> ->] by (split; by vm_compute).
  intros Hb; exact Hb.
Qed.

Lemma demo_bootable : bootable I386 (D := demo_board) (C := demo_board_cpu) (2 ^ 33) demo_kernel 20 0x5000 0xFEE00000
  (initial_opts 1 0 0) (mkOpts 1 0 0 20) 0x9000 0x9200 [0x9300; 0x9200] demo_recs demo_firmware.
Proof.
  assert (forall b, pt_bytes I386 (2 ^ 33) (k_pt demo_kernel) b -> 0x400000 <= b) as Hp.
  { unfold pt_bytes, in_range. change (shv_pdt (k_pt demo_kernel)) with 0x400000. lia. }
  assert (forall b, 0 <= b < 0xB8000 \/ 0xE0000 <= b -> off_screen b) as Ho by (unfold off_screen, in_range, vidmem, COLS, ROWS; lia).
  destruct demo_firmware_acpi as [Hacpi Hab]. constructor.
  - intros b Hb. apply Ho. unfold in_range in Hb. lia.
  - constructor; [|intros _; by vm_compute]. intros _. exists (lit "shv timer_ms=20"). split_and!; [by vm_compute|by vm_compute|by vm_compute|].
    assert (mbi_cmdline demo_firmware 0x5000 = 0x5100) as -> by (by vm_compute). change (slen (lit "shv timer_ms=20")) with 15.
    intros b Hb. apply Ho. lia.
  - done.
  - done.
  - intros b Hb%Hp. unfold start_bytes, lret_bytes, off_screen, in_range, vidmem, COLS, ROWS. cbn [demo_kernel _ap_bootstrap _ap_bootstrap_end is_amd64].
    split; [lia|]. split; [lia|tauto].
  - intros tr. done.
  - exact Hacpi.
  - intros b Hb%Hab%demo_acpi_bytes. split; [apply Ho; lia|]. intros H%Hp. lia.
  - assert (length (processors demo_recs) = 2%nat /\ length demo_recs = 4%nat) as [-> ->] by done. lia.
  - intros b Hb. unfold code_bytes in Hb. cbn [demo_kernel _ap_bootstrap _ap_bootstrap_end] in Hb. split; [apply Ho; lia|]. split; [intros H%Hp; lia|intros []].
  - intros b. unfold start_bytes, code_bytes, in_range. cbn [demo_kernel _ap_bootstrap _ap_bootstrap_end]. split; [lia|intros []].
  - done.
  - constructor; [done|lia|done|done].
Qed.
Lemma kernel_main_starts_witness : exists x w',
  kernel_main I386 (D := demo_board) (C := demo_board_cpu) true true (2 ^ 33) demo_kernel 20 0x5000 (mkCursor 0 0) (initial_opts 1 0 0) (mkW demo_firmware []) =
    Ok (x, w') /\ sd_opts x = mkOpts 1 0 0 20 /\ map (fun e => cpu_lapic_id e.1) (sd_tables x) = [4; 2] /\ Z.testbit (sd_cr4 x) 4 = true.
Proof.
  destruct (kernel_main_starts (D := demo_board) (C := demo_board_cpu) true true (2 ^ 33) demo_kernel 20 0x5000 0xFEE00000 (mkCursor 0 0) (initial_opts 1 0 0)
    (mkOpts 1 0 0 20) 0x9000 0x9200 [0x9300; 0x9200] demo_recs (mkW demo_firmware []) demo_bootable) as (x & w' & E & Eo & Et & _ & Hb & _).
  exists x, w'. split; [exact E|]. split; [rewrite Eo; by vm_compute|]. split; [by rewrite Et|exact Hb].
Defined.

(** [MBI_CMDLINE] is the number of a bit, but it is used as a mask: a loader that sets bit 2 because it has a command line,
    and not bit 1 for the boot device, is not heard. *)
Example get_options_ignores_cmdline :
  let m := st 4 demo_firmware 0x5000 (Z.shiftl 1 2) in
  string_at 20 m (mbi_cmdline m 0x5000) = Ok (lit "shv timer_ms=20") /\
  exists w', get_options I386 20 0x5000 (initial_opts 1 0 0) (mkW m []) = Ok (initial_opts 1 0 0, w').
Proof. cbv zeta. split; [by vm_compute|]. eexists. vm_compute. reflexivity. Qed.
