(* ===== verification/ShvProps.v ===== *)
(** [shv_main] of [src/shv.c] behind its barrier: what a processor has done when it enters the guest, and which processors do
    not enter one. *)
From Stdlib Require Import String.
From S2P Require Import Prelude.
From S2P Require Import HptLemmas.
From S2P Require Import Mem.
From S2P Require Import Ept.
From S2P Require Import CString.
From S2P Require Import Cmdline.
From S2P Require Import Stdio.
From S2P Require Import Io.
From S2P Require Import Print.
From S2P Require Import Screen.
From S2P Require Import Devices.
From S2P Require Import Timer.
From S2P Require Import Desc.
From S2P Require Import VmxCtls.
From S2P Require Import VmcsFields.
From S2P Require Import Vmcs.
From S2P Require Import VmcsProps.
From S2P Require Import Vcpu.
From S2P Require Import Asm.
From S2P Require Import Mouse.
From S2P Require Import Vmx.
From S2P Require Import VmxProps.
From S2P Require Import Guest.
From S2P Require Import Kernel.
From S2P Require Import Launch.
Local Open Scope string_scope.
Local Open Scope Z_scope.

(** ** The digits *)

(** An address in the window of a processor. *)
Definition in_window (num : Z) (guest : bool) (b : Z) : Prop :=
  exists x y k, 0 <= x < 40 /\ 0 <= y < 3 /\ (k = 0 \/ k = 1) /\ b = cell_of num guest x y + k.
(** The window shows two rows of a digit and a blank one. *)
Definition shows_digits (num : Z) (guest : bool) (id : Z) (m : mem) : Prop :=
  forall x, 0 <= x < 40 ->
    rd8 m (cell_of num guest x 0) = u8 (48 + id) /\ rd8 m (cell_of num guest x 1) = u8 (48 + id) /\ rd8 m (cell_of num guest x 2) = 32.

Lemma put_digit num guest id i y m : 0 <= num < 8 -> 0 <= i < 40 -> 0 <= y < 3 -> rd8 m (cell_of num guest i y) = 32 ->
  (c ← console_get_char (window num guest) i y m; _ ← ASSERT (c =? 32); console_put_char (window num guest) i y (48 + id) m) =
  Ok (wr8 m (cell_of num guest i y) (u8 (48 + id))).
Proof.
  intros Hn Hi Hy Hb. unfold console_get_char, console_put_char. rewrite console_get_mmio_ok by done. cbn [mbind res_bind].
  by rewrite Hb.
Qed.

Lemma draw_columns_ok n num guest id i m : 0 <= num < 8 -> 0 <= i -> i + Z.of_nat n = 40 ->
  (forall x y, i <= x < 40 -> 0 <= y < 2 -> rd8 m (cell_of num guest x y) = 32) ->
  exists m', draw_columns (window num guest) id n i m = Ok m' /\
    (forall x y, i <= x < 40 -> 0 <= y < 2 -> rd8 m' (cell_of num guest x y) = u8 (48 + id)) /\
    (forall b, (forall x y, i <= x < 40 -> 0 <= y < 2 -> b <> cell_of num guest x y) -> rd8 m' b = rd8 m b).
Proof.
  intros Hn. revert i m. induction n as [|n IH]; intros i m Hi Hlen Hb; cbn [draw_columns]; [exists m; split_and!; try done; lia|].
  set (m1 := wr8 m (cell_of num guest i 0) (u8 (48 + id))). set (m2 := wr8 m1 (cell_of num guest i 1) (u8 (48 + id))).
  assert (forall b, rd8 m2 b = if decide (b = cell_of num guest i 0 \/ b = cell_of num guest i 1) then u8 (48 + id) else rd8 m b) as Hrd.
  { intros b. unfold m2, m1. rewrite !rd8_wr8. unfold u8. rewrite !(wrap_wrap 8 8) by lia. case_decide; bcase; done || lia. }
  destruct (IH (i + 1) m2) as (m' & E & H1 & H2); [lia|lia| |].
  { intros x y Hx Hy. rewrite Hrd. case_decide as Hc; [unfold cell_of in Hc; lia|]. apply Hb; lia. }
  pose proof (put_digit num guest id i 0 m Hn ltac:(lia) ltac:(lia) (Hb i 0 ltac:(lia) ltac:(lia))) as E1.
  assert (rd8 m1 (cell_of num guest i 1) = 32) as Hb1.
  { unfold m1. rewrite rd8_wr8. rewrite (proj2 (Z.eqb_neq _ _)) by (unfold cell_of; lia). apply Hb; lia. }
  pose proof (put_digit num guest id i 1 m1 Hn ltac:(lia) ltac:(lia) Hb1) as E2. fold m2 in E2. fold m1 in E1.
  exists m'. split.
  { unfold mbind, res_bind in *. destruct (console_get_char _ i 0 m) as [c|]; [|done]. destruct (ASSERT (c =? 32)) as [[]|]; [|done].
    rewrite E1. destruct (console_get_char _ i 1 m1) as [c'|]; [|done]. destruct (ASSERT (c' =? 32)) as [[]|]; [|done]. by rewrite E2. }
  split.
  - intros x y Hx Hy. destruct (decide (x = i)) as [->|]; [|apply H1; lia].
    rewrite H2 by (intros x' y' Hx' Hy'; unfold cell_of; lia). rewrite Hrd. case_decide as Hc; [done|]. destruct Hc.
    assert (y = 0 \/ y = 1) as [->| ->] by lia; tauto.
  - intros b Hne. rewrite H2 by (intros; apply Hne; lia). rewrite Hrd. case_decide as Hc; [|done].
    destruct Hc as [->| ->]; [destruct (Hne i 0)|destruct (Hne i 1)]; lia.
Qed.

Lemma vga_art_ok idx id m : 0 <= idx < 8 ->
  exists m', vga_art idx id m = Ok m' /\ shows_digits idx false id m' /\ agree (fun b => ~ in_window idx false b) m m'.
Proof.
  intros Hn. unfold vga_art. rewrite console_get_vc_ok by done. cbn [mbind res_bind].
  destruct (clear_columns_ok 40 idx false 0 m Hn ltac:(lia) ltac:(lia)) as (m1 & E1 & H1 & H2).
  unfold console_clear. change (Z.to_nat (width (window idx false))) with 40%nat. rewrite E1. cbn [mbind res_bind height window].
  change (ASSERT (2 <=? 3)) with (Ok tt : res unit). cbn [mbind res_bind].
  assert (forall x y, 0 <= x < 40 -> 0 <= y < 3 -> rd8 m1 (cell_of idx false x y) = 32) as Hb.
  { intros x y Hx Hy. rewrite <- (Z.add_0_r (cell_of _ _ _ _)). by rewrite H1 by tauto. }
  destruct (draw_columns_ok 40 idx false id 0 m1 Hn ltac:(lia) ltac:(lia)) as (m' & E & H3 & H4); [intros; apply Hb; lia|].
  exists m'. split; [exact E|]. split.
  - intros x Hx. rewrite !H3 by lia. split_and!; [done..|]. rewrite H4 by (intros; unfold cell_of; lia). apply Hb; lia.
  - intros b Hb'. rewrite H4, H2; [done| |].
    + intros x y k Hx Hy Hk ->. destruct Hb'. by exists x, y, k.
    + intros x y Hx Hy ->. destruct Hb'. exists x, y, 0. split_and!; lia.
Qed.

(** ** The timers *)

(** The period fits the counter of the timer. *)
Definition period_fits (g : opts) : Prop := 0 <= g_timer_ms g <= 54.
(** What is sent to the timers, latest first: the PIT of the boot processor counts the period in square waves, or one shot of one
    cycle that is waited for; the other processors enable their LAPIC; and the timer of every LAPIC counts the period, unless
    interrupts are off or non-maskable ones are tested. *)
Definition pit_part (g : opts) : list ioev :=
  let count := 1193182 * g_timer_ms g / 1000 in
  if opt (g_shv_opt g) SHV_NO_INTERRUPT then [EStiHltCli; EOut 0x40 0; EOut 0x40 1; EOut 0x43 0x30]
  else [EOut 0x40 (count / 256); EOut 0x40 (count mod 256); EOut 0x43 0x36].
Definition svr_part {D : Device} (tr : list ioev) : list ioev :=
  let v := u32 (dev_read tr 0xfee000f0) in [EWrite 0xfee000f0 (Z.lor v 0x100); ERead 0xfee000f0 v].
Definition lapic_part (g : opts) : list ioev :=
  if opt (g_shv_opt g) SHV_NO_INTERRUPT || opt (g_nmi_opt g) NMI_ENABLE then []
  else [EWrite 0xfee00320 0x20022; EWrite 0xfee00380 (g_timer_ms g * 1000000); EWrite 0xfee003e0 0xb].
Definition timer_trace {D : Device} (g : opts) (c : dcpu) (tr : list ioev) : list ioev :=
  (lapic_part g ++ if c_isbsp c then pit_part g else svr_part tr)%list.

Lemma cycles_fit g : period_fits g ->
  let n := 1193182 * g_timer_ms g / 1000 in
  u64 (TIMER_RATE * g_timer_ms g) / 1000 = n /\ (n =? u16 n) = true /\ u8 (u8 n) = n mod 256 /\ u8 (u8 (Z.shiftr n 8)) = n / 256.
Proof.
  intros H. unfold period_fits, TIMER_RATE, u64 in *. cbv zeta. rewrite (wrap_small 64) by (unfold is_u; lia). split; [done|].
  set (n := _ / 1000). assert (0 <= n < 2 ^ 16) as Hn by (unfold n; split; [apply Z.div_pos; lia|apply Z.div_lt_upper_bound; lia]).
  split; [apply Z.eqb_eq; symmetry; by apply wrap_small|]. unfold u8. rewrite !(wrap_wrap 8 8) by lia. split; [done|].
  rewrite Z.shiftr_div_pow2 by lia. apply wrap_small. unfold is_u. split; [apply Z.div_pos; lia|apply Z.div_lt_upper_bound; lia].
Qed.
Lemma timer_init_run {D : Device} g c w : period_fits g ->
  timer_init g c w = Ok (tt, mkW (w_mem w) (timer_trace g c (w_tr w) ++ w_tr w)).
Proof.
  intros Hp. destruct (cycles_fit g Hp) as (E1 & E2 & E3 & E4). unfold timer_init, timer_trace, lapic_part, pit_part, svr_part.
  assert (u32 (LAPIC_PERIOD g) = g_timer_ms g * 1000000) as E5.
  { unfold LAPIC_PERIOD, u64, u32, period_fits in *. rewrite (wrap_small 64) by (unfold is_u; lia). apply wrap_small. unfold is_u. lia. }
  assert (forall v, u32 (Z.lor (u32 v) 0x100) = Z.lor (u32 v) 0x100) as E6.
  { intros v. apply wrap_small, is_u_of_testbit; [lia|apply Z.lor_nonneg; pose proof (is_u_wrap 32 v ltac:(lia)) as H; unfold is_u, u32 in *; lia|]. intros i Hi.
    by rewrite Z.lor_spec, (is_u_testbit_high 32 (u32 v)), (is_u_testbit_high 32 0x100) by (unfold is_u; lia || apply is_u_wrap; lia). }
  rewrite E1, E2. cbv zeta. set (n := 1193182 * g_timer_ms g / 1000) in *.
  unfold write_lapic, read_lapic, write32, read32, outb, emit, mbind, IO_bind, LAPIC_ENABLE. rewrite E3, E4, E5.
  destruct (c_isbsp c), (opt (g_shv_opt g) SHV_NO_INTERRUPT), (opt (g_nmi_opt g) NMI_ENABLE); cbv beta iota zeta delta [mret IO_ret negb andb orb w_tr w_mem]; rewrite ?E6; reflexivity.
Qed.

(** ** The interrupt flag *)

(** Whether interrupts are enabled after a trace. *)
Fixpoint iflag (tr : list ioev) : bool :=
  match tr with
  | [] => false
  | ESti :: _ => true
  | ECli :: _ | EStiHltCli :: _ => false
  | _ :: tr => iflag tr
  end.
Lemma iflag_calm l tr : Forall (fun e => calm_event e = true) l -> iflag (l ++ tr) = iflag tr.
Proof. induction 1 as [|e l He _ IH]; [done|]. by destruct e. Qed.
Lemma iflag_no_sti l tr : (ESti ∉ l) -> iflag tr = false -> iflag (l ++ tr) = false.
Proof.
  intros Hl Ht. induction l as [|e l IH]; [done|]. rewrite not_elem_of_cons in Hl. destruct Hl as [He Hl]. specialize (IH Hl). by destruct e.
Qed.
Lemma calm_no_sti l : Forall (fun e => calm_event e = true) l -> (ESti ∉ l).
Proof. intros H Hin. by apply (proj1 (Forall_forall _ _) H) in Hin. Qed.
Lemma steps_app l tr : steps (l ++ tr) = (steps l ++ steps tr)%list.
Proof. apply List.filter_app. Qed.
Lemma calm_steps w w' : calm w w' -> steps (w_tr w') = steps (w_tr w).
Proof.
  intros [_ (l & -> & H)]. rewrite steps_app. induction H as [|e l He _ IH]; [done|]. cbn [steps List.filter]. by destruct e.
Qed.

(** ** Before the guest *)

Lemma show_no_paging_cases a {D : Device} {C : Cpu} fuel :
  show_no_paging a fuel =
  if is64 a then shv_disable_enable_paging fuel (lit "SHV hypervisor can disable paging" ++ [10])%list
  else
    cr0 ← read_reg a RCR0;
    write_reg a RCR0 (Z.land cr0 0x7fffffff) ≫= fun _ =>
    printf a (lit "SHV hypervisor can disable paging" ++ [10])%list [] ≫= fun _ =>
    write_reg a RCR0 cr0.
Proof. unfold show_no_paging. destruct a; cbv [is64]; reflexivity. Qed.

Section prepare.
Context {a : subarch} {D : Device} {C : Cpu} {reg : list ioev -> sysreg -> Z}.
Context (P : vmx_processor a C reg) (Hreg : forall tr r, cpu_reg tr r = reg (steps tr) r).
Abbreviation creg_at := (ulongreg (a := a) (reg := reg)).

(** The two writes to CR0, latest first: paging off, and on again; the 64-bit code moves only the lower 32 bits. *)
Definition paging_steps (g : opts) (l : list ioev) : list ioev :=
  let cr0 := creg_at l RCR0 in
  if opt (g_shv_opt g) SHV_USE_UNRESTRICTED_GUEST then
    [ESetReg RCR0 (if is64 a then Z.lor (u32 cr0) 0x80000000 else cr0); ESetReg RCR0 (Z.land (u32 cr0) 0x7fffffff)]
  else [].
(** The 64-bit code ends with [sti], whatever the options say. *)
Definition asm_sti (g : opts) : bool := is64 a && opt (g_shv_opt g) SHV_USE_UNRESTRICTED_GUEST.
(** The serial port takes a byte within [fuel] polls. *)
Definition serial_ready (fuel : nat) : Prop := forall w, is_ok (wait_in fuel SERIAL_STATUS (fun v => truth (Z.land v 0x20)) w) = true.

(** Accesses to the serial port only. *)
Definition serial_event (e : ioev) : Prop := (exists v, e = EIn 0x3fd v) \/ exists v, e = EOut 0x3f8 v.
Lemma serial_calm l : Forall serial_event l -> Forall (fun e => calm_event e = true) l /\ Forall (fun e => ps2_idle e = true) l.
Proof. intros H. split; (eapply Forall_impl; [exact H|]); by intros e [[v ->]|[v ->]]. Qed.
Lemma asm_print_ok fuel text w : serial_ready fuel ->
  wp (asm_print fuel text) (fun _ w' => exists tr, w' = mkW (w_mem w) (tr ++ w_tr w) /\ Forall serial_event tr) w.
Proof.
  intros Hr. revert w. induction text as [|c text IH]; intros w; [exists []; by destruct w|]. cbn [asm_print]. apply wp_bind. specialize (Hr w).
  destruct (wait_in fuel SERIAL_STATUS _ w) as [r|] eqn:E; [|done]. pose proof (wait_in_trace _ _ _ _ _ E) as (vs & v & _ & _ & ->).
  apply (wp_intro _ _ _ _ _ E). apply wp_bind. unfold outb, emit, wp at 1. eapply wp_use; [apply IH|]. intros u w2 (tr & -> & Ht).
  cbn [w_mem w_tr]. exists (tr ++ EOut 0x3f8 (u8 c) :: EIn 0x3fd v :: map (EIn 0x3fd) vs)%list. rewrite <- app_assoc. split; [done|].
  apply Forall_app. split; [done|]. constructor; [right; by eexists|]. constructor; [left; by eexists|]. apply Forall_map, Forall_true.
  intros x. left. by exists x.
Qed.

Lemma cr0_off_on x : is_u 32 x -> Z.lor (Z.land x 0x7fffffff) 0x80000000 = Z.lor x 0x80000000.
Proof.
  intros Hx. apply Z.bits_inj'. intros i Hi. rewrite !Z.lor_spec, Z.land_spec. change 0x7fffffff with (Z.ones 31). change 0x80000000 with (2 ^ 31).
  rewrite Z.testbit_ones_nonneg, pow2_testbit by lia. destruct (Z.ltb_spec i 31); [by rewrite andb_true_r|].
  destruct (Z.eqb_spec i 31); [by rewrite !orb_true_r|]. by rewrite (is_u_testbit_high 32 x) by (done || lia).
Qed.
Lemma cr0_range x : is_u 32 x -> is_u 32 (Z.land x 0x7fffffff) /\ is_u 32 (Z.lor x 0x80000000).
Proof.
  intros Hx. assert (0 <= x) as H0 by (unfold is_u in Hx; lia).
  split; (apply is_u_of_testbit; [lia|rewrite ?Z.land_nonneg, ?Z.lor_nonneg; lia|]); intros i Hi.
  - by rewrite Z.land_spec, (is_u_testbit_high 32 x) by (done || lia).
  - by rewrite Z.lor_spec, (is_u_testbit_high 32 x), (is_u_testbit_high 32 0x80000000) by (done || lia || unfold is_u; lia).
Qed.
Lemma steps_printing tr l : Forall (fun e => printing e = true) tr -> steps (tr ++ l) = steps l.
Proof. intros H. induction H as [|e tr He _ IH]; [done|]. cbn [app steps List.filter]. fold (steps (tr ++ l)). rewrite IH. by destruct e. Qed.

(** What turning paging off and on leaves. *)
Record toggled (g : opts) (w w' : world) : Prop := {
  tg_mem : w_mem w' = w_mem w;
  tg_steps : steps (w_tr w') = (paging_steps g (steps (w_tr w)) ++ steps (w_tr w))%list;
  tg_trace : exists shown, w_tr w' = ((if asm_sti g then [ESti] else []) ++ shown ++ w_tr w)%list /\ (ESti ∉ shown) /\
    Forall (fun e => ps2_idle e = true) shown }.

Lemma toggled_asm g fuel text w : is64 a = true -> opt (g_shv_opt g) SHV_USE_UNRESTRICTED_GUEST = true -> serial_ready fuel ->
  wp (shv_disable_enable_paging fuel text) (fun _ w' => toggled g w w') w.
Proof.
  intros Ha Ho Hs. unfold shv_disable_enable_paging. set (l := steps (w_tr w)). set (x := u32 (creg_at l RCR0)).
  assert (wrap 32 (reg l RCR0) = x) as Ex.
  { unfold x, u32, ulongreg. pose proof (ptr_bits_is64 a) as Hb. rewrite Ha in Hb. cbn [sysreg_bits]. rewrite Hb. by rewrite wrap_wrap by lia. }
  assert (is_u 32 x) as Hx by (apply is_u_wrap; lia). destruct (cr0_range x Hx) as [R1 R2].
  apply wp_bind. unfold emit at 1, wp at 1. apply wp_bind. unfold read_reg at 1, wp at 1. rewrite Hreg. cbn [w_tr w_mem steps List.filter is_step sysreg_bits ptr_bits].
  fold (steps (w_tr w)). fold l. rewrite Ex. apply wp_bind. unfold write_reg at 1, emit at 1, wp at 1. apply wp_bind. unfold emit at 1, wp at 1.
  cbn [w_tr w_mem sysreg_bits ptr_bits]. rewrite (wrap_small 32 (Z.land x _)) by done. set (w1 := mkW _ _). apply wp_bind.
  eapply wp_use; [by apply (asm_print_ok fuel text w1)|]. intros u w2 (tr & -> & Ht). destruct (serial_calm tr Ht) as [Hc Hi].
  set (w2 := mkW _ _). assert (steps (w_tr w2) = steps (w_tr w1)) as S2 by (apply calm_steps; split; [done|by exists tr]).
  assert (steps (w_tr w1) = ESetReg RCR0 (Z.land x 0x7fffffff) :: l) as S1 by done. rewrite S1 in S2.
  apply wp_bind. unfold emit at 1, wp at 1. apply wp_bind. unfold read_reg at 1, wp at 1. rewrite Hreg. cbn [w_tr w_mem steps List.filter is_step sysreg_bits ptr_bits].
  fold (steps (w_tr w2)). rewrite S2, (vp_set _ _ _ P), (wrap_small 32 (Z.land x _)) by done. apply wp_bind. unfold write_reg at 1, emit, wp.
  cbn [sysreg_bits ptr_bits]. rewrite cr0_off_on, wrap_small by done. constructor.
  - done.
  - cbn [w_tr steps List.filter is_step]. fold (steps (w_tr w2)). rewrite S2. unfold paging_steps. fold l. fold x. by rewrite Ho, Ha.
  - unfold asm_sti. rewrite Ha, Ho. unfold w2, w1. cbn [w_tr andb].
    exists ([ESetReg RCR0 (Z.lor x 0x80000000); EGetReg RCR0 (Z.land x 0x7fffffff); EUnlock] ++ tr ++ [ELock; ESetReg RCR0 (Z.land x 0x7fffffff); EGetReg RCR0 x; ECli])%list.
    rewrite <- !app_assoc. split; [done|]. split; [|by repeat (apply Forall_app; split); repeat constructor].
    rewrite !elem_of_app. intros [H|[H|H]]; [|by apply calm_no_sti in H|];
      repeat (apply elem_of_cons in H as [H|H]; [done|]); by apply not_elem_of_nil in H.
Qed.
Lemma toggled_c g w : is64 a = false -> opt (g_shv_opt g) SHV_USE_UNRESTRICTED_GUEST = true ->
  wp (cr0 ← read_reg a RCR0; write_reg a RCR0 (Z.land cr0 0x7fffffff) ≫= fun _ =>
      printf a (lit "SHV hypervisor can disable paging" ++ [10])%list [] ≫= fun _ => write_reg a RCR0 cr0) (fun _ w' => toggled g w w') w.
Proof.
  intros Ha Ho. set (l := steps (w_tr w)). set (x := creg_at l RCR0). pose proof (ptr_bits_is64 a) as Hb. rewrite Ha in Hb.
  assert (is_u 32 x) as Hx by (unfold x, ulongreg; cbn [sysreg_bits]; rewrite Hb; apply is_u_wrap; lia). destruct (cr0_range x Hx) as [R1 R2].
  apply wp_bind. unfold read_reg, wp at 1. rewrite Hreg. fold l. fold (creg_at l RCR0). fold x. apply wp_bind. unfold write_reg at 1, emit, wp at 1.
  apply wp_bind. eapply (printf_ok a _ []); [by destruct a|constructor|]. intros n tr Ht. unfold write_reg, emit, wp. cbn [w_mem w_tr sysreg_bits].
  rewrite Hb, !wrap_small by done. constructor; cbn [w_mem w_tr].
  - done.
  - cbn [steps List.filter is_step]. fold (steps (tr ++ ESetReg RCR0 (Z.land x 0x7fffffff) :: EGetReg RCR0 x :: w_tr w)). rewrite steps_printing by done.
    unfold paging_steps. fold l. fold x. rewrite Ho, Ha. cbn [steps List.filter is_step]. unfold u32. by rewrite (wrap_small 32 x) by done.
  - unfold asm_sti. rewrite Ha. exists ([ESetReg RCR0 x] ++ tr ++ [ESetReg RCR0 (Z.land x 0x7fffffff); EGetReg RCR0 x])%list. rewrite <- !app_assoc.
    split; [done|]. split.
    2: { repeat (apply Forall_app; split); repeat constructor. eapply Forall_impl; [exact Ht|]. intros e He. by destruct e. }
    rewrite !elem_of_app. intros [H|[H|H]]; [|by apply (proj1 (Forall_forall _ _) Ht) in H|];
      repeat (apply elem_of_cons in H as [H|H]; [done|]); by apply not_elem_of_nil in H.
Qed.
Lemma show_no_paging_ok g fuel w : (asm_sti g = true -> serial_ready fuel) ->
  wp (if opt (g_shv_opt g) SHV_USE_UNRESTRICTED_GUEST then show_no_paging a fuel else mret tt) (fun _ w' => toggled g w w') w.
Proof.
  intros Hs. unfold asm_sti in Hs. destruct (opt (g_shv_opt g) SHV_USE_UNRESTRICTED_GUEST) eqn:Ho.
  - rewrite show_no_paging_cases. destruct (is64 a) eqn:Ha; [by apply toggled_asm; [..|apply Hs]|by apply toggled_c].
  - apply wp_ret. constructor; [done|unfold paging_steps; by rewrite Ho|]. exists []. unfold asm_sti. rewrite Ho, andb_false_r. split_and!; [done|apply not_elem_of_nil|constructor].
Qed.

(** The mouse: which processor sets it up, and what that needs: a controller that answers, with nothing left to read, and that the
    interrupt of the last answer comes. *)
Definition uses_mouse (g : opts) (c : dcpu) : bool := opt (g_shv_opt g) SHV_USE_PS2_MOUSE && c_isbsp c.
Definition mouse_drops (interrupted : drops -> drops) (d : drops) : drops := interrupted (mkDrops (drop_keyboard_interrupts d) 1).
Definition mouse_there (fuel : nat) (interrupted : drops -> drops) (d : drops) (w : world) : Prop :=
  ps2_controller fuel /\ pending (ps2_state (w_tr w)) = None /\ drop_mouse_interrupts (mouse_drops interrupted d) = 0.

(** What [shv_prepare] leaves: the digits, no other byte changed; of the registers only CR0 written, off and on; and what was sent to
    the timers, then what turning paging off and on took, then [sti], then what the mouse took.  Interrupts are enabled if the
    options say so, or by the 64-bit code that turns paging on. *)
Record ready (g : opts) (c : dcpu) (w w' : world) : Prop := {
  rd_digits : opt (g_shv_opt g) SHV_NO_VGA_ART = false -> shows_digits (c_idx c) false (c_id c) (w_mem w');
  rd_agree : agree (fun b => ~ in_window (c_idx c) false b) (w_mem w) (w_mem w');
  rd_steps : steps (w_tr w') = (paging_steps g (steps (w_tr w)) ++ steps (w_tr w))%list;
  rd_trace : exists mouse shown, w_tr w' = (mouse ++ (if opt (g_shv_opt g) SHV_NO_EFLAGS_IF then [] else [ESti]) ++
      (if asm_sti g then [ESti] else []) ++ shown ++ timer_trace g c (w_tr w) ++ w_tr w)%list /\
    (ESti ∉ shown) /\ Forall (fun e => calm_event e = true) mouse /\ (uses_mouse g c = false -> mouse = []);
  rd_iflag : iflag (w_tr w') = negb (opt (g_shv_opt g) SHV_NO_EFLAGS_IF) || asm_sti g }.

Lemma timer_trace_facts g c tr : (ESti ∉ timer_trace g c tr) /\ steps (timer_trace g c tr) = [] /\ Forall (fun e => ps2_idle e = true) (timer_trace g c tr).
Proof.
  unfold timer_trace, lapic_part, pit_part, svr_part. destruct (_ || _), (c_isbsp c), (opt (g_shv_opt g) SHV_NO_INTERRUPT); cbv zeta; cbn [app];
    (split; [rewrite !not_elem_of_cons; repeat split; try done; apply not_elem_of_nil|split; [done|repeat constructor]]).
Qed.

Lemma shv_prepare_ok g fuel interrupted c d w :
  0 <= c_idx c < 8 -> period_fits g -> iflag (w_tr w) = false -> (asm_sti g = true -> serial_ready fuel) ->
  (uses_mouse g c = true -> mouse_there fuel interrupted d w) ->
  wp (shv_prepare a g fuel interrupted c d)
    (fun d' w' => d' = (if uses_mouse g c then mouse_drops interrupted d else d) /\ ready g c w w') w.
Proof.
  intros Hi Hp Hif Hser Hm. unfold shv_prepare. apply wp_bind, (wp_intro _ _ _ _ _ (timer_init_run g c w Hp)). set (w1 := mkW _ _).
  destruct (timer_trace_facts g c (w_tr w)) as (F1 & F2 & F3).
  assert (exists m2, (if negb (opt (g_shv_opt g) SHV_NO_VGA_ART) then on_mem (vga_art (c_idx c) (c_id c)) else mret tt : IO unit) w1 =
      Ok (tt, mkW m2 (w_tr w1)) /\
    agree (fun b => ~ in_window (c_idx c) false b) (w_mem w) m2 /\
    (opt (g_shv_opt g) SHV_NO_VGA_ART = false -> shows_digits (c_idx c) false (c_id c) m2)) as (m2 & E2 & A2 & S2).
  { destruct (opt (g_shv_opt g) SHV_NO_VGA_ART); cbn [negb].
    - exists (w_mem w). split; [done|]. by split; [apply agree_refl|].
    - destruct (vga_art_ok (c_idx c) (c_id c) (w_mem w) Hi) as (m2 & E & Hs & Ha). exists m2. unfold on_mem, w1. cbn [w_mem]. rewrite E. by split. }
  apply wp_bind, (wp_intro _ _ _ _ _ E2). apply wp_bind. eapply wp_use; [by apply (show_no_paging_ok g)|].
  intros u w3 [M3 S3 (shown & T3 & N3 & I3)]. clear u. cbn [w_mem w_tr] in M3, S3, T3.
  assert (steps (w_tr w1) = steps (w_tr w)) as S1 by (unfold w1; cbn [w_tr]; by rewrite steps_app, F2). rewrite S1 in S3.
  set (sti := if opt (g_shv_opt g) SHV_NO_EFLAGS_IF then [] else [ESti]). set (w4 := mkW (w_mem w3) (sti ++ w_tr w3)).
  assert ((if negb (opt (g_shv_opt g) SHV_NO_EFLAGS_IF) then emit ESti else mret tt : IO unit) w3 = Ok (tt, w4)) as E4.
  { unfold w4, sti. destruct (opt (g_shv_opt g) SHV_NO_EFLAGS_IF); cbn [negb app]; [clear; by destruct w3|reflexivity]. }
  apply wp_bind, (wp_intro _ _ _ _ _ E4).
  assert (forall mouse w', w_mem w' = w_mem w4 -> w_tr w' = (mouse ++ w_tr w4)%list -> Forall (fun e => calm_event e = true) mouse ->
    (uses_mouse g c = false -> mouse = []) -> ready g c w w') as Hready.
  { intros mouse w' Em Et Hc Hno. constructor.
    - rewrite Em. unfold w4. cbn [w_mem]. by rewrite M3.
    - rewrite Em. unfold w4. cbn [w_mem]. by rewrite M3.
    - rewrite (calm_steps w4 w') by (split; [done|by exists mouse]). unfold w4, sti. cbn [w_tr]. rewrite steps_app, S3. by destruct (opt _ SHV_NO_EFLAGS_IF).
    - exists mouse, shown. split; [|done]. rewrite Et. unfold w4. cbn [w_tr]. by rewrite T3.
    - rewrite Et, iflag_calm by done. unfold w4, sti. cbn [w_tr]. destruct (opt (g_shv_opt g) SHV_NO_EFLAGS_IF); cbn [negb orb app iflag]; [|done].
      rewrite T3. destruct (asm_sti g); [done|]. cbn [app]. apply iflag_no_sti; [done|]. unfold w1. cbn [w_tr]. by apply iflag_no_sti. }
  fold (uses_mouse g c). destruct (uses_mouse g c) eqn:Eu.
  - destruct (Hm eq_refl) as (K & Hpend & Hd). eapply wp_use.
    + apply (mouse_init_ok K); [by apply andb_true_iff in Eu as [_ ?]| |exact Hd]. unfold w4. cbn [w_tr]. rewrite T3. unfold w1. cbn [w_tr].
      rewrite (ps2_idle_state sti) by (unfold sti; destruct (opt (g_shv_opt g) SHV_NO_EFLAGS_IF); by repeat constructor).
      rewrite (ps2_idle_state (if asm_sti g then _ else _)) by (destruct (asm_sti g); by repeat constructor). by rewrite !ps2_idle_state.
    + intros d' w' [-> [Em (mouse & Et & Hc)]]. split; [done|]. by apply (Hready mouse).
  - apply wp_ret. split; [done|]. by apply (Hready []).
Qed.
End prepare.

(** ** [shv_main] *)

(** Where [shv_main] may start: a window on the screen, a timer period that fits, interrupts still off, a serial port that takes
    bytes where the 64-bit code writes to it, a mouse where one is set up, a second processor if interrupts are tested, and, on a
    processor that goes on to VMX, a start for it from every memory that differs only in the window and from the registers as
    turning paging off and on leaves them. *)
Record main_startable (a : subarch) {D : Device} {C : Cpu} (reg : list ioev -> sysreg -> Z) (msr : Z -> Z) (g : opts) (s : vmx_syms) (es : ept_syms)
    (n : Z) (fuel : nat) (interrupted : drops -> drops) (c : dcpu) (v : VCPU) (d : drops) (w : world) : Prop := {
  ms_idx : 0 <= c_idx c < 8;
  ms_period : period_fits g;
  ms_flag : iflag (w_tr w) = false;
  ms_serial : asm_sti (a := a) g = true -> serial_ready fuel;
  ms_mouse : uses_mouse g c = true -> mouse_there fuel interrupted d w;
  ms_two : opt (g_nmi_opt g) NMI_ENABLE = true -> 2 <= n;
  ms_vmx w1 : opt (g_nmi_opt g) NMI_ENABLE && c_isbsp c = false ->
    agree (fun b => ~ in_window (c_idx c) false b) (w_mem w) (w_mem w1) ->
    steps (w_tr w1) = (paging_steps (a := a) (reg := reg) g (steps (w_tr w)) ++ steps (w_tr w))%list ->
    exists e eptp m', startable a reg msr v g s es e eptp m' w1 }.


(** ** Processors with and without the test of interrupts *)

(** One that launches its guest; a boot processor that turns paging off and on and sets up the mouse, where the options keep
    interrupts off, before it halts; and a third processor. *)
Definition demo_board : Device := ready_ps2 launch_msr.
Definition demo_dcpu (idx : Z) : dcpu := mkDcpu idx idx (idx =? 0) 0 0 (0, 0) (0, 0).
Definition demo_interrupted (d : drops) : drops := mkDrops (drop_keyboard_interrupts d) 0.
Definition demo_main (opts nmi idx : Z) : res (shv_end * drops * world) :=
  @shv_main AMD64 demo_board launch_cpu (mkOpts opts nmi 0 50) demo_vmx demo_ept_syms demo_desc 2 false 1 demo_interrupted
    (demo_dcpu idx) demo_vcpu (mkDrops 0 0) (mkW ∅ []).

Lemma demo_main_startable opts nmi idx : 0 <= idx < 8 -> opts = 0x11 \/ opt nmi NMI_ENABLE && (idx =? 0) = true ->
  main_startable AMD64 (D := demo_board) (C := launch_cpu) last_set launch_msr (mkOpts opts nmi 0 50) demo_vmx demo_ept_syms 2 1 demo_interrupted
    (demo_dcpu idx) demo_vcpu (mkDrops 0 0) (mkW ∅ []).
Proof.
  intros Hi Ho. constructor; [done|by split|done| |intros _; split; [by apply ready_ps2_controller; lia|done]|done|].
  - intros _ w. reflexivity.
  - intros w1 Hn _ Hs. destruct Ho as [->|Ho]; [|cbn [g_nmi_opt demo_dcpu c_isbsp] in Hn; congruence]. change (steps (w_tr w1) = []) in Hs.
    exists demo_ept, 0, ∅. constructor; [done|by repeat split|by rewrite Hs|by rewrite Hs|]. rewrite demo_discovered. by repeat split.
Qed.
Lemma demo_board_machine : machine AMD64 demo_board launch_cpu (fun _ => true) (fun _ => true) (last_written AMD64) false
  (vcpu_caps (discovered (msr := launch_msr) demo_vcpu)) last_set launch_msr.
Proof. destruct launch_machine as [H1 H2 H3 _ H5]. by constructor. Qed.

