(* ===== verification/Schedule.v ===== *)
(** Systems of processors that take turns: a step function for each processor, schedules, and the two arguments about all
    schedules: an invariant holds throughout, and under a fair schedule a measure that falls brings the system to its goal. *)
From S2P Require Import Prelude.

(** ** Sums over the processors *)

Fixpoint zsum {A} (f : A -> Z) (l : list A) : Z := match l with [] => 0 | x :: l => f x + zsum f l end.
Section sums.
Context {A : Type}.
Implicit Types (f g : A -> Z) (l : list A).
Lemma zsum_insert f l i x y : l !! i = Some x -> zsum f (<[i := y]> l) = zsum f l - f x + f y.
Proof.
  revert i. induction l as [|z l IH]; intros [|i] H; cbn in *; [done..|injection H as ->; lia|]. rewrite IH by done. lia.
Qed.
Lemma zsum_bound f (b : Z) l : (forall x, 0 <= f x <= b) -> 0 <= zsum f l <= b * Z.of_nat (length l).
Proof. intros H. induction l as [|x l IH]; cbn [zsum length]; [lia|]. specialize (H x). lia. Qed.
Lemma zsum_elem f l i x : (forall x, 0 <= f x) -> l !! i = Some x -> f x <= zsum f l.
Proof.
  intros H. revert i. induction l as [|z l IH]; intros [|i] Hi; cbn in *; [done..|injection Hi as ->|].
  - assert (0 <= zsum f l); [|lia]. clear -H. induction l as [|y l IH]; cbn; [lia|]. specialize (H y). lia.
  - specialize (IH _ Hi). specialize (H z). lia.
Qed.
(** All summands are 1 when the sum is as large as it can be, and 0 when it is 0. *)
Lemma zsum_full f l : (forall x, f x <= 1) -> zsum f l = Z.of_nat (length l) -> forall i x, l !! i = Some x -> f x = 1.
Proof.
  intros H. assert (forall l, zsum f l <= Z.of_nat (length l)) as Hle.
  { clear -H. intros l. induction l as [|x l IH]; cbn [zsum length]; [lia|]. specialize (H x). lia. }
  induction l as [|z l IH]; intros E [|i] x Hi; cbn [zsum length lookup list_lookup] in *; [done..|injection Hi as ->|].
  - specialize (Hle l). specialize (H x). lia.
  - eapply IH; [|exact Hi]. specialize (Hle l). specialize (H z). lia.
Qed.
Lemma zsum_zero f l : (forall x, 0 <= f x) -> zsum f l = 0 -> forall i x, l !! i = Some x -> f x = 0.
Proof. intros H E i x Hi. pose proof (zsum_elem f l i x H Hi). specialize (H x). lia. Qed.
Lemma zsum_const f c l : (forall i x, l !! i = Some x -> f x = c) -> zsum f l = c * Z.of_nat (length l).
Proof.
  intros H. induction l as [|x l IH]; cbn [zsum length]; [lia|]. rewrite (H 0%nat x), IH by (done || (intros i; apply (H (S i)))). lia.
Qed.
Lemma zsum_diff f g b l i x : (forall x, g x <= f x + b) -> l !! i = Some x ->
  zsum g l - g x <= zsum f l - f x + b * (Z.of_nat (length l) - 1).
Proof.
  intros H. assert (forall l, zsum g l <= zsum f l + b * Z.of_nat (length l)) as Hle.
  { clear -H. intros l. induction l as [|x l IH]; cbn [zsum length]; [lia|]. specialize (H x). lia. }
  revert i. induction l as [|z l IH]; intros [|i] Hi; cbn [zsum length lookup list_lookup] in *; [done..|injection Hi as ->|].
  - specialize (Hle l). lia.
  - specialize (IH _ Hi). specialize (H z). lia.
Qed.
End sums.

(** ** Schedules *)

Section schedule.
(** [step i s] is a step of processor [i]; a processor that waits leaves the state as it is. *)
Context {S : Type} (n : nat) (step : nat -> S -> res S).

(** The state after [k] turns of a schedule. *)
Fixpoint run (sched : nat -> nat) (k : nat) (s : S) : res S :=
  match k with O => Ok s | Datatypes.S k => s ← run sched k s; step (sched k) s end.
(** Every processor gets its turn again and again. *)
Definition fair (sched : nat -> nat) : Prop := forall i t, (i < n)%nat -> exists t', (t <= t')%nat /\ sched t' = i.

Context (Inv : S -> Prop).
Hypothesis inv_step : forall i s, Inv s -> exists s', step i s = Ok s' /\ Inv s'.

Lemma run_inv sched k s : Inv s -> exists s', run sched k s = Ok s' /\ Inv s'.
Proof.
  intros Hs. induction k as [|k (s1 & E & H1)]; cbn [run]; [by exists s|]. rewrite E. cbn [mbind res_bind]. by apply inv_step.
Qed.

(** A goal that some processor can always approach. *)
Context (M : S -> nat) (goal : S -> Prop) `{!forall s, Decision (goal s)}.
Hypothesis falls : forall i s s', Inv s -> step i s = Ok s' -> s' = s \/ (M s' < M s)%nat.
Hypothesis progress : forall s, Inv s -> ~ goal s -> exists i s', (i < n)%nat /\ step i s = Ok s' /\ (M s' < M s)%nat.

(** From the turn [t] on nothing changes, or the measure falls. *)
Lemma run_from sched s0 t k s : Inv s0 -> run sched t s0 = Ok s -> (forall j, (j < k)%nat -> step (sched (t + j)%nat) s = Ok s) ->
  run sched (t + k) s0 = Ok s.
Proof.
  intros H0 E Hj. induction k as [|k IH]; [by rewrite Nat.add_0_r|]. rewrite Nat.add_succ_r. cbn [run].
  rewrite IH by (intros j Hlt; apply Hj; lia). cbn [mbind res_bind]. apply Hj. lia.
Qed.
Lemma fair_falls sched s0 t s : fair sched -> Inv s0 -> run sched t s0 = Ok s -> ~ goal s ->
  exists t' s', run sched t' s0 = Ok s' /\ (M s' < M s)%nat.
Proof.
  intros Hf H0 E Hg. destruct (run_inv sched t s0 H0) as (s1 & E1 & Hs). rewrite E in E1. injection E1 as <-.
  destruct (progress s Hs Hg) as (i & s' & Hi & Ei & Hm). destruct (Hf i t Hi) as (t' & Ht & Et).
  (* the first turn that changes something *)
  assert (forall k, (forall j, (j < k)%nat -> step (sched (t + j)%nat) s = Ok s) \/
    exists j s', (j < k)%nat /\ (forall j', (j' < j)%nat -> step (sched (t + j')%nat) s = Ok s) /\
      step (sched (t + j)%nat) s = Ok s' /\ (M s' < M s)%nat) as Hfirst.
  { induction k as [|k [IH|(j & s2 & Hj & Hrest)]]; [left; intros j Hj; lia| |right; exists j, s2; split; [lia|done]].
    destruct (inv_step (sched (t + k)%nat) s Hs) as (s2 & E2 & _). destruct (falls _ _ _ Hs E2) as [->|Hlt].
    - left. intros j Hj. destruct (decide (j = k)) as [->|]; [done|]. apply IH. lia.
    - right. exists k, s2. split; [lia|]. by split. }
  destruct (Hfirst (Datatypes.S (t' - t))) as [Hall|(j & s2 & _ & Hbefore & E2 & Hlt)].
  - specialize (Hall (t' - t)%nat ltac:(lia)). replace (t + (t' - t))%nat with t' in Hall by lia. rewrite Et, Ei in Hall.
    injection Hall as ->. lia.
  - exists (Datatypes.S (t + j)), s2. split; [|done]. cbn [run]. by rewrite (run_from sched s0 t j s H0 E Hbefore).
Qed.
Theorem fair_reaches sched s0 : fair sched -> Inv s0 -> exists t s, run sched t s0 = Ok s /\ Inv s /\ goal s.
Proof.
  intros Hf H0.
  assert (forall m t s, (M s < m)%nat -> run sched t s0 = Ok s -> exists t' s', run sched t' s0 = Ok s' /\ goal s') as Hrun.
  { induction m as [|m IH]; intros t s Hm E; [lia|]. destruct (decide (goal s)) as [|Hg]; [by exists t, s|].
    destruct (fair_falls sched s0 t s Hf H0 E Hg) as (t' & s' & E' & Hlt). apply (IH t' s'); [lia|done]. }
  destruct (Hrun (Datatypes.S (M s0)) 0%nat s0) as (t & s & E & Hg); [lia|done|]. exists t, s. split; [done|]. split; [|done].
  destruct (run_inv sched t s0 H0) as (s1 & E1 & Hs). rewrite E in E1. by injection E1 as <-.
Qed.
End schedule.
