(* ===== verification/Boot.v ===== *)
(** How the processors come up together: [kernel_main_smp] of [src/kernel.c] with [init_gdt] and [init_idt], and [shv_main] of
    [src/shv.c] up to its barrier, as an interleaving of the steps of all processors.  A step is an access to one of the shared
    variables (the lock and the flag of [construct_idt], the counters of the two barriers), one entry of the interrupt table, or
    code that only touches what belongs to its processor. *)
From Stdlib Require Import String.
From S2P Require Import Prelude.
From S2P Require Import Mem.
From S2P Require Import CString.
From S2P Require Import Cmdline.
From S2P Require Import Stdio.
From S2P Require Import Spinlock.
From S2P Require Import Io.
From S2P Require Import Smp.
From S2P Require Import Screen.
From S2P Require Import Devices.
From S2P Require Import Desc.
From S2P Require Import VmxCtls.
From S2P Require Import VmcsFields.
From S2P Require Import Vmcs.
From S2P Require Import Print.
From S2P Require Import Vcpu.
From S2P Require Import Schedule.
Local Open Scope string_scope.
Local Open Scope Z_scope.

(** Where a processor is: before the first barrier; adding itself to the count, and waiting; [init_gdt]; in [spin_lock] of
    [construct_idt], holding the lock, and releasing it (to build the table or not); filling the entry [k] of the table of the
    host or of the guest; the rest of [init_idt]; the start of [shv_main]; its barrier; and past it. *)
Inductive bpc :=
| Hello | Incl1 | Wait1 | Gdt
| Lock (swap : bool) | Flag | Unlock (build : bool)
| Fill (guest : bool) (k : Z)
| LoadIdt | Main | Incl2 | Wait2 | Rest.
#[global] Instance bpc_eq_dec : EqDecision bpc.
Proof. solve_decision. Defined.

(** The world, the statics of [construct_idt], those of the barriers, and the positions. *)
Record boot := mkBoot {
  b_world : world; b_lock : Z; b_initialized : bool; b_count1 : Z; b_count2 : Z; b_pc : list bpc }.
Definition at_pc (i : nat) (pc : bpc) (s : boot) : boot :=
  mkBoot (b_world s) (b_lock s) (b_initialized s) (b_count1 s) (b_count2 s) (<[i := pc]> (b_pc s)).
Definition with_world (w : world) (s : boot) : boot :=
  mkBoot w (b_lock s) (b_initialized s) (b_count1 s) (b_count2 s) (b_pc s).
Definition with_lock (l : Z) (s : boot) : boot :=
  mkBoot (b_world s) l (b_initialized s) (b_count1 s) (b_count2 s) (b_pc s).
Definition with_initialized (b : bool) (s : boot) : boot :=
  mkBoot (b_world s) (b_lock s) b (b_count1 s) (b_count2 s) (b_pc s).
Definition with_count1 (c : Z) (s : boot) : boot :=
  mkBoot (b_world s) (b_lock s) (b_initialized s) c (b_count2 s) (b_pc s).
Definition with_count2 (c : Z) (s : boot) : boot :=
  mkBoot (b_world s) (b_lock s) (b_initialized s) (b_count1 s) c (b_pc s).

Section boot.
Context (a : subarch) {D : Device} {C : Cpu}.
Context (ds : desc_syms) (stubs_host stubs_guest : Z -> Z) (g_cr3 g_cr4 : Z).
(** [g_vcpus], as long as [g_midtable_numentries]. *)
Context (vcpus : list Smp.VCPU).
Abbreviation numentries := (Z.of_nat (length vcpus)).

(** The start of [kernel_main_smp]; the assembly code has turned on paging where registers have 64 bits. *)
Definition hello (v : Smp.VCPU) : IO unit :=
  printf a (lit "Hello, %s World %d!" ++ [10])%list [VStr (Some (lit "smp")); VNum 32 (id v)] ≫= fun _ =>
  match a with
  | AMD64 => mret tt
  | _ =>
      write_reg a RCR3 g_cr3 ≫= fun _ =>
      write_reg a RCR4 g_cr4 ≫= fun _ =>
      cr0 ← read_reg a RCR0;
      write_reg a RCR0 (Z.lor cr0 CR0_PG)
  end.
(** [init_gdt]. *)
Definition gdt_step (v : Smp.VCPU) (w : world) : world :=
  mkW (init_gdt a ds (vidx v) (w_mem w)).1.1 (w_tr w).
(** The body of a loop of [construct_idt]. *)
Definition fill_step (guest : bool) (k : Z) (w : world) : world :=
  mkW (construct_idt_entry a (u8 k) ((if guest then stubs_guest else stubs_host) k)
         ((if guest then g_idt_guest ds else g_idt_host ds) + gate_bytes a * k) (w_mem w)) (w_tr w).
Definition fill_next (guest : bool) (k : Z) : bpc :=
  if k + 1 <? IDT_NELEMS then Fill guest (k + 1) else if guest then LoadIdt else Fill true 0.
(** The assertion of [init_idt]; what follows is [lidt]. *)
Definition check_host : IO unit := '(_, _, ecx, _) ← cpuid_raw 1 0; ASSERT_io (truth (Z.land ecx (2 ^ 5))).
(** The start of [shv_main]. *)
Definition main_start (v : Smp.VCPU) : IO unit :=
  if isbsp v then console_cursor_clear ≫= fun _ => pic_init else mret tt.

(** A step of processor [i]; a processor that waits looks again. *)
Definition boot_step (i : nat) (s : boot) : res boot :=
  match b_pc s !! i, vcpus !! i with
  | Some pc, Some v =>
      match pc with
      | Hello => '(_, w) ← hello v (b_world s); Ok (at_pc i Incl1 (with_world w s))
      | Incl1 => Ok (at_pc i Wait1 (with_count1 (u32 (b_count1 s + 1)) s))
      | Wait1 => if b_count1 s <? numentries then Ok s else Ok (at_pc i Gdt s)
      | Gdt => Ok (at_pc i (Lock false) (with_world (gdt_step v (b_world s)) s))
      | Lock swap =>
          match spin_lock_step (if swap then Swap else Test) (b_lock s) with
          | Some (pc', l) => Ok (at_pc i (match pc' with Swap => Lock true | Holding => Flag | _ => Lock false end) (with_lock l s))
          | None => Ok s
          end
      | Flag =>
          if b_initialized s then Ok (at_pc i (Unlock false) s) else Ok (at_pc i (Unlock true) (with_initialized true s))
      | Unlock build =>
          match spin_unlock_step Release (b_lock s) with
          | Some (_, l) => Ok (at_pc i (if build then Fill false 0 else LoadIdt) (with_lock l s))
          | None => Ok s
          end
      | Fill guest k => Ok (at_pc i (fill_next guest k) (with_world (fill_step guest k (b_world s)) s))
      | LoadIdt => '(_, w) ← check_host (b_world s); Ok (at_pc i Main (with_world w s))
      | Main => '(_, w) ← main_start v (b_world s); Ok (at_pc i Incl2 (with_world w s))
      | Incl2 => Ok (at_pc i Wait2 (with_count2 (u32 (b_count2 s + 1)) s))
      | Wait2 => if b_count2 s <? numentries then Ok s else Ok (at_pc i Rest s)
      | Rest => Ok s
      end
  | _, _ => Ok s
  end.
(** When the processors enter [kernel_main_smp]. *)
Definition boot0 (w : world) : boot := mkBoot w 0 false 0 0 (replicate (length vcpus) Hello).
End boot.
