(* ===== verification/BootProps.v ===== *)
(** The processors come up in order: no processor passes the barrier of [shv_main] before the descriptor tables of all are ready,
    and under every fair schedule all processors pass it. *)
From Stdlib Require Import String.
From S2P Require Import Prelude.
From S2P Require Import HptLemmas.
From S2P Require Import Mem.
From S2P Require Import Ept.
From S2P Require Import CString.
From S2P Require Import Cmdline.
From S2P Require Import Stdio.
From S2P Require Import Spinlock.
From S2P Require Import Io.
From S2P Require Import Smp.
From S2P Require Import Screen.
From S2P Require Import Devices.
From S2P Require Import Desc.
From S2P Require Import VmxCtls.
From S2P Require Import VmcsFields.
From S2P Require Import Vmcs.
From S2P Require Import Print.
From S2P Require Import Vcpu.
From S2P Require Import Schedule.
From S2P Require Import Boot.
Local Open Scope string_scope.
Local Open Scope Z_scope.

(** ** Positions *)

Definition stage (pc : bpc) : Z :=
  match pc with
  | Hello => 0 | Incl1 => 1 | Wait1 => 2 | Gdt => 3 | Lock _ => 4 | Flag => 5 | Unlock _ => 6 | Fill _ _ => 7
  | LoadIdt => 8 | Main => 9 | Incl2 => 10 | Wait2 => 11 | Rest => 12
  end.
Definition counted1 (pc : bpc) : Z := b2z (2 <=? stage pc).
Definition counted2 (pc : bpc) : Z := b2z (11 <=? stage pc).
Definition holds (pc : bpc) : Z := match pc with Flag | Unlock _ => 1 | _ => 0 end.
Definition builds (pc : bpc) : Z := match pc with Unlock true | Fill _ _ => 1 | _ => 0 end.

(** ** The tables *)

Section tables.
Context (a : subarch) (ds : desc_syms) (stubs_host stubs_guest : Z -> Z).

Definition gates_upto (stubs : Z -> Z) (table k : Z) (m : mem) : Prop :=
  forall v, 0 <= v < k -> gate_ok a v (stubs v) m (table + gate_bytes a * v).
(** The entries before the entry [k] of the table of the host or of the guest. *)
Definition built (guest : bool) (k : Z) (m : mem) : Prop :=
  if guest then gates_upto stubs_host (g_idt_host ds) IDT_NELEMS m /\ gates_upto stubs_guest (g_idt_guest ds) k m
  else gates_upto stubs_host (g_idt_host ds) k m.
Definition idt_built (m : mem) : Prop := built true IDT_NELEMS m.
(** The descriptor table of a processor, as [init_gdt] leaves it. *)
Definition gdt_ok (idx : Z) (m : mem) : Prop :=
  tss_base a m (gdt_at ds idx (__TRSEL / 8)) = tss_at ds idx /\ tss_limit m (gdt_at ds idx (__TRSEL / 8)) = 0x67 /\
  tss_type m (gdt_at ds idx (__TRSEL / 8)) = 0x89 /\
  forall i e, gdt_entries a !! i = Some e -> i <> 4%nat -> i <> 5%nat -> ld64 m (gdt_at ds idx (Z.of_nat i)) = e.

Lemma gdt_ok_agree idx m m' : agree (in_range (gdt_at ds idx 0) (8 * GDT_NELEMS)) m m' -> gdt_ok idx m -> gdt_ok idx m'.
Proof.
  intros Ha (H1 & H2 & H3 & H4).
  assert (forall k o, 0 <= o -> o + Z.of_nat k <= 80 -> ld k m' (gdt_at ds idx 0 + o) = ld k m (gdt_at ds idx 0 + o)) as Hld.
  { intros k o Ho Hk. apply (ld_agree _ k m m' _ Ha). unfold in_range, GDT_NELEMS. lia. }
  assert (forall i, gdt_at ds idx i = gdt_at ds idx 0 + 8 * i) as Eg by (intros i; unfold gdt_at; lia).
  unfold gdt_ok, tss_base, tss_limit, tss_type, ld16, ld32, ld64 in *. change (__TRSEL / 8) with 4 in *. set (t := gdt_at ds idx 4) in *.
  assert (forall k o, 0 <= o -> o + Z.of_nat k <= 48 -> ld k m' (t + o) = ld k m (t + o)) as Ht.
  { intros k o Ho Hk. unfold t. rewrite (Eg 4), <- Z.add_assoc. apply Hld; lia. }
  assert (ld 2 m' t = ld 2 m t) as H0 by (rewrite <- (Z.add_0_r t); apply Ht; lia).
  rewrite !rd8_ld in H1; rewrite !rd8_ld in H2; rewrite !rd8_ld in H3; rewrite !rd8_ld. rewrite H0, !Ht by lia. split; [|split; [done|split; [done|]]].
  - done.
  - intros i e Hi H5 H6. rewrite <- (H4 i e Hi H5 H6). rewrite (Eg (Z.of_nat i)). apply Hld; [lia|].
    pose proof (lookup_lt_Some _ _ _ Hi) as Hlt. change (length (gdt_entries a)) with 10%nat in Hlt. lia.
Qed.
End tables.

(** ** The invariant *)

(** The tables are apart, the entry points are addresses, and the processors are numbered. *)
Record boot_layout (a : subarch) (ds : desc_syms) (stubs_host stubs_guest : Z -> Z) (vcpus : list Smp.VCPU) : Prop := {
  bl_host v : 0 <= v < IDT_NELEMS -> is_u (ptr_bits a) (stubs_host v);
  bl_guest v : 0 <= v < IDT_NELEMS -> is_u (ptr_bits a) (stubs_guest v);
  bl_tables b : in_range (g_idt_host ds) (gate_bytes a * IDT_NELEMS) b -> ~ in_range (g_idt_guest ds) (gate_bytes a * IDT_NELEMS) b;
  bl_tss i : 0 <= i < Z.of_nat (length vcpus) -> is_u (ptr_bits a) (tss_at ds i);
  bl_gdt i b : 0 <= i < Z.of_nat (length vcpus) -> in_range (gdt_at ds i 0) (8 * GDT_NELEMS) b ->
    ~ in_range (g_idt_host ds) (gate_bytes a * IDT_NELEMS) b /\ ~ in_range (g_idt_guest ds) (gate_bytes a * IDT_NELEMS) b;
  bl_idx i v : vcpus !! i = Some v -> vidx v = Z.of_nat i;
  bl_count : Z.of_nat (length vcpus) < 2 ^ 32 }.

Section boot_props.
Context {a : subarch} {D : Device} {C : Cpu} {ds : desc_syms} {stubs_host stubs_guest : Z -> Z} {g_cr3 g_cr4 : Z} {vcpus : list Smp.VCPU}.
Context (L : boot_layout a ds stubs_host stubs_guest vcpus).
(** [cpuid] says that the processor is in the hypervisor. *)
Context (Hcpuid : forall tr, Z.testbit (cpu_cpuid tr 1 0).1.2 5 = true).
Abbreviation step := (boot_step a ds stubs_host stubs_guest g_cr3 g_cr4 vcpus).
Abbreviation built := (built a ds stubs_host stubs_guest).
Abbreviation idt_built := (idt_built a ds stubs_host stubs_guest).
Abbreviation gdt_ok := (gdt_ok a ds).
Abbreviation n := (Z.of_nat (length vcpus)).

(** What the steps do to memory. *)
Lemma hello_ok v w : wp (hello a g_cr3 g_cr4 v) (fun _ w' => w_mem w' = w_mem w) w.
Proof.
  unfold hello. apply wp_bind. eapply (printf_ok _ _ [AStr 3; ANum 32]); [by destruct a|repeat constructor; by vm_compute|].
  intros x tr _. by destruct a.
Qed.
Lemma check_host_ok w : wp check_host (fun _ w' => w_mem w' = w_mem w) w.
Proof.
  unfold check_host. apply wp_bind. unfold cpuid_raw, wp at 1. specialize (Hcpuid (w_tr w)). change (u32 1) with 1. change (u32 0) with 0.
  destruct (cpu_cpuid (w_tr w) 1 0) as [[[ra rb] rc] rd]. cbn [fst snd] in Hcpuid. apply wp_assert; [|done].
  unfold truth. apply negb_true_iff, Z.eqb_neq. intros E. apply (f_equal (fun z => Z.testbit z 5)) in E.
  rewrite Z.land_spec, Z.bits_0 in E. unfold u32 in E. rewrite wrap_testbit, Hcpuid in E by lia. done.
Qed.
Lemma main_start_ok v w : wp (main_start v) (fun _ w' => w_mem w' = w_mem w) w.
Proof. unfold main_start. by destruct (isbsp v). Qed.

(** A gate of a table. *)
Definition table (guest : bool) : Z := if guest then g_idt_guest ds else g_idt_host ds.
Lemma in_table g k b : 0 <= k < IDT_NELEMS -> in_range (table g + gate_bytes a * k) (gate_bytes a) b -> in_range (table g) (gate_bytes a * IDT_NELEMS) b.
Proof. unfold in_range, IDT_NELEMS. assert (0 < gate_bytes a) by (destruct a; cbn; lia). nia. Qed.
Lemma tables_apart g b : in_range (table g) (gate_bytes a * IDT_NELEMS) b -> ~ in_range (table (negb g)) (gate_bytes a * IDT_NELEMS) b.
Proof. destruct g; intros H H'; [by apply (bl_tables _ _ _ _ _ L b)|by apply (bl_tables _ _ _ _ _ L b)]. Qed.
Abbreviation stubs g := (if g : bool then stubs_guest else stubs_host).

Lemma fill_gates g k w g' k' : 0 <= k < IDT_NELEMS -> 0 <= k' <= IDT_NELEMS ->
  let m' := w_mem (fill_step a ds stubs_host stubs_guest g k w) in
  gate_ok a k (stubs g k) m' (table g + gate_bytes a * k) /\
  (gates_upto a (stubs g') (table g') k' (w_mem w) -> gates_upto a (stubs g') (table g') k' m').
Proof.
  intros Hk Hk'. cbv zeta. unfold fill_step. cbn [w_mem].
  assert (u8 k = k) as -> by (apply wrap_small; unfold is_u, IDT_NELEMS in *; lia).
  destruct (construct_idt_entry_ok a k (stubs g k) (table g + gate_bytes a * k) (w_mem w)) as [Hok Ha].
  { destruct g; [by apply (bl_guest _ _ _ _ _ L)|by apply (bl_host _ _ _ _ _ L)]. }
  split; [exact Hok|]. intros H v Hv. destruct (decide (g' = g /\ v = k)) as [[-> ->]|Hne]; [exact Hok|].
  eapply gate_ok_agree; [exact Ha| |by apply H]. intros b Hb Hb2.
  destruct (decide (g' = g)) as [->|Hg].
  - assert (v <> k) as Hvk by tauto. assert (0 < gate_bytes a) by (destruct a; cbn; lia). unfold in_range in *. nia.
  - apply (tables_apart g b); [by apply (in_table g k)|]. replace (negb g) with g' by (by destruct g, g').
    apply (in_table g' v); [unfold IDT_NELEMS in *; lia|done].
Qed.
Lemma fill_built g k w g' k' : 0 <= k < IDT_NELEMS -> 0 <= k' <= IDT_NELEMS -> built g' k' (w_mem w) ->
  built g' k' (w_mem (fill_step a ds stubs_host stubs_guest g k w)).
Proof.
  intros Hk Hk' H. unfold BootProps.built in *. assert (0 <= IDT_NELEMS <= IDT_NELEMS) by (unfold IDT_NELEMS; lia).
  destruct g'; [destruct H as [H1 H2]; split|]; by apply (fill_gates g k w false) || by apply (fill_gates g k w true).
Qed.
Lemma fill_more g k w : 0 <= k < IDT_NELEMS -> built g k (w_mem w) -> built g (k + 1) (w_mem (fill_step a ds stubs_host stubs_guest g k w)).
Proof.
  intros Hk H. pose proof (fill_built g k w g k Hk ltac:(lia) H) as H'. destruct (fill_gates g k w g k Hk ltac:(lia)) as [Hok _].
  unfold BootProps.built, gates_upto in *. destruct g; [destruct H' as [H1 H2]; split; [done|]; rename H2 into H'|];
    intros v Hv; (destruct (decide (v = k)) as [->|]; [exact Hok|apply H'; lia]).
Qed.
Lemma fill_gdt g k w i : 0 <= k < IDT_NELEMS -> 0 <= i < n -> gdt_ok i (w_mem w) -> gdt_ok i (w_mem (fill_step a ds stubs_host stubs_guest g k w)).
Proof.
  intros Hk Hi. apply gdt_ok_agree. unfold fill_step. cbn [w_mem].
  destruct (construct_idt_entry_ok a (u8 k) (stubs g k) (table g + gate_bytes a * k) (w_mem w)) as [_ Ha].
  { destruct g; [by apply (bl_guest _ _ _ _ _ L)|by apply (bl_host _ _ _ _ _ L)]. }
  eapply agree_weaken; [|exact Ha]. intros b Hb Hb'. apply (in_table g k) in Hb'; [|done].
  destruct (bl_gdt _ _ _ _ _ L i b Hi Hb) as [H1 H2]. destruct g; [by apply H2|by apply H1].
Qed.
Lemma gdt_step_ok i v w : vcpus !! i = Some v ->
  gdt_ok (Z.of_nat i) (w_mem (gdt_step a ds v w)) /\
  (forall g k, 0 <= k <= IDT_NELEMS -> built g k (w_mem w) -> built g k (w_mem (gdt_step a ds v w))) /\
  (forall j, 0 <= j < n -> j <> Z.of_nat i -> gdt_ok j (w_mem w) -> gdt_ok j (w_mem (gdt_step a ds v w))).
Proof.
  intros Hv. pose proof (lookup_lt_Some _ _ _ Hv) as Hlt. unfold gdt_step. rewrite (bl_idx _ _ _ _ _ L i v Hv). cbn [w_mem].
  destruct (init_gdt_tss a ds (Z.of_nat i) (w_mem w)) as (m' & -> & H1 & H2 & H3 & H4 & Ha).
  { apply (bl_tss _ _ _ _ _ L). lia. }
  cbn [fst]. split; [done|]. split.
  - intros g k Hk. assert (forall g' k', 0 <= k' <= IDT_NELEMS -> gates_upto a (stubs g') (table g') k' (w_mem w) -> gates_upto a (stubs g') (table g') k' m') as Hg.
    { intros g' k' Hk' H v' Hv'. eapply gate_ok_agree; [exact Ha| |by apply H]. intros b Hb Hb'.
      destruct (bl_gdt _ _ _ _ _ L (Z.of_nat i) b ltac:(lia) Hb') as [N1 N2].
      apply (in_table g' v') in Hb; [|lia]. destruct g'; [by apply N2|by apply N1]. }
    unfold BootProps.built. assert (0 <= IDT_NELEMS <= IDT_NELEMS) by (unfold IDT_NELEMS; lia).
    destruct g; [intros [A1 A2]; split; [by apply (Hg false)|by apply (Hg true)]|by apply (Hg false)].
  - intros j Hj Hne. apply gdt_ok_agree. eapply agree_weaken; [|exact Ha]. unfold in_range, gdt_at, GDT_NELEMS. intros b Hb Hb'. lia.
Qed.

Record binv (s : boot) : Prop := {
  bi_length : length (b_pc s) = length vcpus;
  bi_count1 : b_count1 s = zsum counted1 (b_pc s);
  bi_count2 : b_count2 s = zsum counted2 (b_pc s);
  bi_lock : b_lock s = zsum holds (b_pc s);
  bi_one : 0 <= b_lock s <= 1;
  bi_order1 i pc : b_pc s !! i = Some pc -> 3 <= stage pc -> b_count1 s = n;
  bi_order2 i pc : b_pc s !! i = Some pc -> 12 <= stage pc -> b_count2 s = n;
  bi_first i pc : b_initialized s = false -> b_pc s !! i = Some pc -> stage pc < 6;
  bi_builder : zsum builds (b_pc s) <= 1;
  bi_done : b_initialized s = true -> zsum builds (b_pc s) = 0 -> idt_built (w_mem (b_world s));
  bi_fill i g k : b_pc s !! i = Some (Fill g k) -> 0 <= k < IDT_NELEMS /\ built g k (w_mem (b_world s));
  bi_gdt i pc : b_pc s !! i = Some pc -> 4 <= stage pc -> gdt_ok (Z.of_nat i) (w_mem (b_world s)) }.

Lemma counted_range pc : 0 <= counted1 pc <= 1 /\ 0 <= counted2 pc <= 1 /\ 0 <= holds pc <= 1 /\ 0 <= builds pc <= 1.
Proof. destruct pc as [| | | | | |[]| | | | | |]; cbn; lia. Qed.

(** Computes positions and variables, but not memory. *)
Ltac boot_cbn := cbn -[gdt_step fill_step BootProps.built BootProps.idt_built BootProps.gdt_ok zsum].

(** A processor moves, and the variables and the memory change as they should. *)
Lemma binv_move s i pc pc' s' : binv s -> b_pc s !! i = Some pc -> b_pc s' = <[i := pc']> (b_pc s) ->
  counted1 pc <= counted1 pc' -> counted2 pc <= counted2 pc' ->
  b_count1 s' = b_count1 s - counted1 pc + counted1 pc' -> b_count2 s' = b_count2 s - counted2 pc + counted2 pc' ->
  b_lock s' = b_lock s - holds pc + holds pc' -> 0 <= b_lock s' <= 1 ->
  (3 <= stage pc' -> b_count1 s' = n) -> (12 <= stage pc' -> b_count2 s' = n) ->
  (b_initialized s = true -> b_initialized s' = true) -> (b_initialized s' = false -> stage pc' < 6) ->
  zsum builds (b_pc s) - builds pc + builds pc' <= 1 ->
  (b_initialized s' = true -> zsum builds (b_pc s) - builds pc + builds pc' = 0 -> idt_built (w_mem (b_world s'))) ->
  (forall g k, 0 <= k <= IDT_NELEMS -> built g k (w_mem (b_world s)) -> built g k (w_mem (b_world s'))) ->
  (forall j, 0 <= j < n -> j <> Z.of_nat i \/ 4 <= stage pc -> gdt_ok j (w_mem (b_world s)) -> gdt_ok j (w_mem (b_world s'))) ->
  (forall g k, pc' = Fill g k -> 0 <= k < IDT_NELEMS /\ built g k (w_mem (b_world s'))) ->
  (stage pc < 4 -> 4 <= stage pc' -> gdt_ok (Z.of_nat i) (w_mem (b_world s'))) -> binv s'.
Proof.
  intros [B1 B2 B3 B4 B5 B6 B7 B8 B9 B10 B11 B12] Hi Epc Hm1 Hm2 E1 E2 E3 E4 H1 H2 H3 H4 H5 H6 Hb Hg Hf Hgi.
  pose proof (lookup_lt_Some _ _ _ Hi) as Hlt.
  assert (forall j q, b_pc s' !! j = Some q -> (j = i /\ q = pc') \/ (j <> i /\ b_pc s !! j = Some q)) as Hpc.
  { intros j q. rewrite Epc. destruct (decide (j = i)) as [->|Hne]; [rewrite list_lookup_insert_eq by done; left; split; congruence|].
    rewrite list_lookup_insert_ne by done. by right. }
  assert (forall f, zsum f (b_pc s') = zsum f (b_pc s) - f pc + f pc') as Hz by (intros f; rewrite Epc; by apply zsum_insert).
  assert (length (b_pc s') = length vcpus) as El by (by rewrite Epc, length_insert).
  pose proof (zsum_bound counted1 1 (b_pc s') ltac:(intros x; apply (counted_range x))) as [_ N1].
  pose proof (zsum_bound counted2 1 (b_pc s') ltac:(intros x; apply (counted_range x))) as [_ N2].
  pose proof (counted_range pc). pose proof (counted_range pc').
  constructor; rewrite ?Hz; try done; try congruence.
  - intros j q Hj Hs. destruct (Hpc j q Hj) as [[-> ->]|[_ Hj']]; [by apply H1|]. specialize (B6 j q Hj' Hs).
    rewrite E1. assert (counted1 pc = 1); [|lia].
    apply (zsum_full counted1 (b_pc s)) with (i := i); [intros x; apply (counted_range x)|congruence|done].
  - intros j q Hj Hs. destruct (Hpc j q Hj) as [[-> ->]|[_ Hj']]; [by apply H2|]. specialize (B7 j q Hj' Hs).
    rewrite E2. assert (counted2 pc = 1); [|lia].
    apply (zsum_full counted2 (b_pc s)) with (i := i); [intros x; apply (counted_range x)|congruence|done].
  - intros j q Hin Hj. destruct (Hpc j q Hj) as [[-> ->]|[_ Hj']]; [by apply H4|]. eapply B8; [|exact Hj'].
    destruct (b_initialized s); [|done]. by rewrite H3 in Hin.
  - intros j g k Hj. destruct (Hpc j _ Hj) as [[-> Eq]|[_ Hj']]; [by apply Hf|]. destruct (B11 j g k Hj') as [R1 R2].
    split; [done|]. apply Hb; [lia|done].
  - intros j q Hj Hs. destruct (Hpc j q Hj) as [[-> ->]|[Hne Hj']].
    + destruct (decide (4 <= stage pc)) as [Hd|Hd]; [|by apply Hgi; [lia|]].
      apply Hg; [lia|by right|by eapply B12].
    + pose proof (lookup_lt_Some _ _ _ Hj'). apply Hg; [lia|left; lia|by eapply B12].
Qed.

Lemma wp_Ok {A} (m : IO A) (Q : A -> world -> Prop) w : wp m Q w -> exists x w', m w = Ok (x, w') /\ Q x w'.
Proof. apply wp_elim. Qed.
(** A move that changes no variable but the memory outside the tables. *)
Lemma binv_simple s i pc pc' w' : binv s -> b_pc s !! i = Some pc -> w_mem w' = w_mem (b_world s) ->
  counted1 pc' = counted1 pc -> counted2 pc' = counted2 pc -> holds pc' = holds pc -> builds pc' = builds pc ->
  (stage pc < 3 -> 3 <= stage pc' -> b_count1 s = n) -> (stage pc < 12 -> 12 <= stage pc' -> b_count2 s = n) ->
  (stage pc < 6 -> stage pc' < 6) -> (forall g k, pc' <> Fill g k) -> (stage pc < 4 -> stage pc' < 4) ->
  binv (at_pc i pc' (with_world w' s)).
Proof.
  intros H Hi Ew C1 C2 C3 C4 H1 H2 H3 H4 H5. pose proof (bi_one _ H). eapply (binv_move _ _ _ pc'); [exact H|exact Hi|reflexivity|..]; boot_cbn; rewrite ?Ew, ?C1, ?C2, ?C3, ?C4; try lia.
  - intros Hs. destruct (decide (stage pc < 3)); [by apply H1|]. eapply (bi_order1 _ H); [exact Hi|lia].
  - intros Hs. destruct (decide (stage pc < 12)); [by apply H2|]. eapply (bi_order2 _ H); [exact Hi|lia].
  - done.
  - intros Hin. apply H3. eapply (bi_first _ H); done.
  - pose proof (bi_builder _ H). lia.
  - intros Hin Hz. apply (bi_done _ H); [done|lia].
  - done.
  - done.
  - intros g k E. by destruct (H4 g k).
Qed.
Lemma world_same s : with_world (b_world s) s = s.
Proof. by destruct s. Qed.

Ltac simple pc := eexists; split; [reflexivity|]; rewrite <- (world_same _) at 1; eapply (binv_simple _ _ _ pc).

Lemma count_room s f i pc : length (b_pc s) = length vcpus -> (forall x, 0 <= f x <= 1) -> b_pc s !! i = Some pc -> f pc = 0 ->
  u32 (zsum f (b_pc s) + 1) = zsum f (b_pc s) + 1.
Proof.
  intros El Hf Hi E. pose proof (zsum_bound f 1 (b_pc s) Hf) as [Z0 Z1]. pose proof (bl_count _ _ _ _ _ L).
  apply wrap_small. unfold is_u. rewrite El in Z1. pose proof (lookup_lt_Some _ _ _ Hi).
  assert (zsum f (b_pc s) < n \/ zsum f (b_pc s) = n) as [|E'] by lia; [lia|].
  pose proof (zsum_full f (b_pc s) ltac:(apply Hf) ltac:(congruence) i pc Hi). lia.
Qed.

Lemma step_incl1 s i : binv s -> b_pc s !! i = Some Incl1 -> binv (at_pc i Wait1 (with_count1 (u32 (b_count1 s + 1)) s)).
Proof.
  intros H Hi. pose proof (bi_one _ H). rewrite (bi_count1 _ H), (count_room s counted1 i Incl1) by (apply H || apply counted_range || done).
  eapply (binv_move _ _ _ Wait1); [exact H|exact Hi|reflexivity|..]; boot_cbn; rewrite ?(bi_count1 _ H); try lia; try done.
  - pose proof (bi_builder _ H). lia.
  - intros Hin Hz. apply (bi_done _ H); [done|lia].
Qed.
Lemma step_incl2 s i : binv s -> b_pc s !! i = Some Incl2 -> binv (at_pc i Wait2 (with_count2 (u32 (b_count2 s + 1)) s)).
Proof.
  intros H Hi. pose proof (bi_one _ H). rewrite (bi_count2 _ H), (count_room s counted2 i Incl2) by (apply H || apply counted_range || done).
  eapply (binv_move _ _ _ Wait2); [exact H|exact Hi|reflexivity|..]; boot_cbn; rewrite ?(bi_count2 _ H); try lia; try done.
  - intros _. by eapply (bi_order1 _ H); [exact Hi|].
  - intros Hin. pose proof (bi_first _ H i Incl2 Hin Hi) as Hs. cbn in Hs. lia.
  - pose proof (bi_builder _ H). lia.
  - intros Hin Hz. apply (bi_done _ H); [done|lia].
Qed.
Lemma step_gdt s i v : binv s -> b_pc s !! i = Some Gdt -> vcpus !! i = Some v ->
  binv (at_pc i (Lock false) (with_world (gdt_step a ds v (b_world s)) s)).
Proof.
  intros H Hi Hv. pose proof (bi_one _ H). destruct (gdt_step_ok i v (b_world s) Hv) as (G1 & G2 & G3).
  eapply (binv_move _ _ _ (Lock false)); [exact H|exact Hi|reflexivity|..]; boot_cbn; try lia; try done.
  - intros _. by eapply (bi_order1 _ H); [exact Hi|].
  - pose proof (bi_builder _ H). lia.
  - intros Hin Hz. apply G2; [unfold IDT_NELEMS; lia|]. apply (bi_done _ H); [done|lia].
  - intros j Hj [Hne|Hs]; [by apply G3|lia].
Qed.
Lemma step_lock s i swap pc' l : binv s -> b_pc s !! i = Some (Lock swap) ->
  spin_lock_step (if swap then Swap else Test) (b_lock s) = Some (pc', l) ->
  binv (at_pc i (match pc' with Swap => Lock true | Holding => Flag | _ => Lock false end) (with_lock l s)).
Proof.
  intros H Hi E. pose proof (bi_one _ H). pose proof (bi_builder _ H).
  assert (b_count1 s = n) by (by eapply (bi_order1 _ H); [exact Hi|]).
  destruct swap; cbn in E; [destruct (Z.eqb_spec (b_lock s) 0); injection E as <- <-|
    destruct (Z.eqb_spec (b_lock s) 0); injection E as <- <-];
    (eapply binv_move; [exact H|exact Hi|reflexivity|..]; boot_cbn; try lia; try done; intros Hin Hz; apply (bi_done _ H); [done|lia]).
Qed.
Lemma step_flag s i : binv s -> b_pc s !! i = Some Flag ->
  binv (if b_initialized s then at_pc i (Unlock false) s else at_pc i (Unlock true) (with_initialized true s)).
Proof.
  intros H Hi. pose proof (bi_one _ H). pose proof (bi_builder _ H).
  assert (b_count1 s = n) by (by eapply (bi_order1 _ H); [exact Hi|]).
  destruct (b_initialized s) eqn:Ein; (eapply binv_move; [exact H|exact Hi|reflexivity|..]; boot_cbn; rewrite ?Ein; try lia; try done).
  - intros Hin Hz. apply (bi_done _ H); [done|lia].
  - assert (zsum builds (b_pc s) = 0) as ->; [|lia]. rewrite (zsum_const builds 0); [lia|].
    intros j pc Hj. pose proof (bi_first _ H j pc Ein Hj) as Hs. destruct pc; cbn in *; done || lia.
  - pose proof (zsum_bound builds 1 (b_pc s) ltac:(intros x; apply counted_range)). lia.
Qed.
Lemma step_unlock s i build : binv s -> b_pc s !! i = Some (Unlock build) ->
  binv (at_pc i (if build then Fill false 0 else LoadIdt) (with_lock 0 s)).
Proof.
  intros H Hi. pose proof (bi_one _ H). pose proof (bi_builder _ H).
  assert (b_count1 s = n) by (by eapply (bi_order1 _ H); [exact Hi|]).
  assert (b_lock s = 1) as El.
  { pose proof (zsum_elem holds (b_pc s) i _ ltac:(intros x; apply counted_range) Hi) as Hz. rewrite <- (bi_lock _ H) in Hz. cbn in Hz. lia. }
  assert (b_initialized s = true) as Hin.
  { destruct (b_initialized s) eqn:E; [done|]. pose proof (bi_first _ H i _ E Hi) as Hs. cbn in Hs. lia. }
  destruct build; (eapply binv_move; [exact H|exact Hi|reflexivity|..]; boot_cbn; rewrite ?Hin; try lia; try done).
  - intros _ Hz. pose proof (zsum_elem builds (b_pc s) i _ ltac:(intros x; apply counted_range) Hi) as Hz2. cbn in Hz2. lia.
  - intros g k [= <- <-]. split; [unfold IDT_NELEMS; lia|]. intros v Hv. lia.
  - intros _ Hz. apply (bi_done _ H); [done|lia].
Qed.
Lemma step_fill s i g k : binv s -> b_pc s !! i = Some (Fill g k) ->
  binv (at_pc i (fill_next g k) (with_world (fill_step a ds stubs_host stubs_guest g k (b_world s)) s)).
Proof.
  intros H Hi. pose proof (bi_one _ H). pose proof (bi_builder _ H) as Hb1. destruct (bi_fill _ H i g k Hi) as [Hk Hbuilt].
  assert (b_count1 s = n) by (by eapply (bi_order1 _ H); [exact Hi|]).
  pose proof (fill_more g k (b_world s) Hk Hbuilt) as Hmore.
  pose proof (zsum_bound builds 1 (b_pc s) ltac:(intros x; apply counted_range)) as [Hb0 _].
  pose proof (zsum_elem builds (b_pc s) i _ ltac:(intros x; apply counted_range) Hi) as Hb2. cbn in Hb2.
  assert (b_initialized s = true) as Hin.
  { destruct (b_initialized s) eqn:E; [done|]. pose proof (bi_first _ H i _ E Hi) as Hs. cbn in Hs. lia. }
  unfold fill_next in *. destruct (Z.ltb_spec (k + 1) IDT_NELEMS) as [Hlt|Hge]; [|destruct g];
    (eapply binv_move; [exact H|exact Hi|reflexivity|..]; boot_cbn; rewrite ?Hin; try lia; try done);
    try (intros j k' Hk'; by apply fill_built); try (intros j Hj _; by apply fill_gdt).
  - intros g' k' [= <- <-]. split; [lia|done].
  - intros _ _. assert (k + 1 = IDT_NELEMS) as E by lia. rewrite E in Hmore. exact Hmore.
  - intros g' k' [= <- <-]. split; [unfold IDT_NELEMS; lia|]. assert (k + 1 = IDT_NELEMS) as E by lia. rewrite E in Hmore.
    split; [exact Hmore|intros v Hv; lia].
Qed.

(** ** Every step but waiting brings the system forward *)

Definition weight (lock : Z) (pc : bpc) : Z :=
  let R := 519 + 2 * n in
  match pc with
  | Rest => 0 | Wait2 => 1 | Incl2 => 2 | Main => 3 | LoadIdt => 4
  | Fill g k => 5 + (if g then 0 else 256) + Z.max 0 (255 - k)
  | Unlock _ => 517 | Flag => 518
  | Lock swap => if swap then R + (if lock =? 0 then 0 else 2) else R + 1
  | Gdt => R + 2 | Wait1 => R + 3 | Incl1 => R + 4 | Hello => R + 5
  end.
Definition total (s : boot) : Z := zsum (weight (b_lock s)) (b_pc s).
Definition measure (s : boot) : nat := Z.to_nat (total s).
(** A processor that waits. *)
Definition blocked (s : boot) (pc : bpc) : bool :=
  match pc with
  | Wait1 => b_count1 s <? n | Wait2 => b_count2 s <? n | Lock swap => negb swap && negb (b_lock s =? 0) | Rest => true | _ => false
  end.

Lemma weight_nonneg l pc : 0 <= weight l pc.
Proof. destruct pc; cbn; repeat case_match; lia. Qed.
Lemma zsum_nonneg {A} (f : A -> Z) l : (forall x, 0 <= f x) -> 0 <= zsum f l.
Proof. intros H. induction l as [|x l IH]; cbn; [lia|]. specialize (H x). lia. Qed.
Lemma measure_less s s' : total s' < total s -> (measure s' < measure s)%nat.
Proof. intros H. unfold measure. pose proof (zsum_nonneg (weight (b_lock s')) (b_pc s') (weight_nonneg _)). unfold total in *. lia. Qed.
Lemma total_move s i pc pc' s' : b_pc s !! i = Some pc -> b_pc s' = <[i := pc']> (b_pc s) -> b_lock s' = b_lock s ->
  weight (b_lock s) pc' < weight (b_lock s) pc -> total s' < total s.
Proof. intros Hi E El Hw. unfold total. rewrite El, E, (zsum_insert _ _ _ _ _ Hi). lia. Qed.
(** Taking the lock sends the processors that found it free back. *)
Lemma total_lock s i pc pc' l b : b_pc s !! i = Some pc -> length (b_pc s) = length vcpus ->
  (forall q, weight l q <= weight (b_lock s) q + b) ->
  weight l pc' + b * (n - 1) < weight (b_lock s) pc -> total (at_pc i pc' (with_lock l s)) < total s.
Proof.
  intros Hi El Hb Hw. unfold total. cbn [b_lock at_pc with_lock b_pc]. rewrite (zsum_insert _ _ _ _ _ Hi).
  pose proof (zsum_diff (weight (b_lock s)) (weight l) b (b_pc s) i pc Hb Hi) as Hd. rewrite El in Hd. lia.
Qed.
Lemma boot_at_same i pc s : b_pc s !! i = Some pc -> at_pc i pc s = s.
Proof. intros Hi. unfold at_pc. rewrite list_insert_id by done. by destruct s. Qed.

Definition moved (s : boot) (pc : bpc) (s' : boot) : Prop := if blocked s pc then s' = s else total s' < total s.
Lemma step_ok i s pc : binv s -> b_pc s !! i = Some pc -> exists s', step i s = Ok s' /\ binv s' /\ moved s pc s'.
Proof.
  intros H Hi. pose proof (lookup_lt_Some _ _ _ Hi) as Hlt. rewrite (bi_length _ H) in Hlt.
  destruct (lookup_lt_is_Some_2 vcpus i Hlt) as [v Hv]. pose proof (bi_one _ H) as Hone. pose proof (bl_count _ _ _ _ _ L) as Hn.
  assert (forall pc' s', b_pc s' = <[i := pc']> (b_pc s) -> b_lock s' = b_lock s -> weight (b_lock s) pc' < weight (b_lock s) pc -> total s' < total s) as Hmove.
  { intros pc' s'. by apply total_move. }
  unfold boot_step. rewrite Hi, Hv. unfold moved. destruct pc as [| | | |swap| |build|g k| | | | |]; cbn [blocked].
  - destruct (wp_elim _ _ _ (hello_ok v (b_world s))) as (x & w' & -> & Ew). eexists. split; [reflexivity|]. split.
    + apply (binv_simple _ _ Hello); done.
    + eapply Hmove; [reflexivity..|cbn; lia].
  - eexists. split; [reflexivity|]. split; [by apply step_incl1|]. eapply Hmove; [reflexivity..|cbn; lia].
  - destruct (Z.ltb_spec (b_count1 s) n); [by exists s|]. eexists. split; [reflexivity|]. split.
    + rewrite <- (world_same s) at 1. apply (binv_simple _ _ Wait1); try done. intros _ _. rewrite (bi_count1 _ H) in *.
      pose proof (zsum_bound counted1 1 (b_pc s) ltac:(intros x; apply counted_range)) as Hb. rewrite (bi_length _ H) in Hb. lia.
    + eapply Hmove; [reflexivity..|cbn; lia].
  - eexists. split; [reflexivity|]. split; [by apply step_gdt|]. eapply Hmove; [reflexivity..|cbn; lia].
  - destruct (spin_lock_step (if swap then Swap else Test) (b_lock s)) as [[pc' l]|] eqn:E; [|by destruct swap].
    eexists. split; [reflexivity|]. split; [by eapply step_lock|].
    destruct swap; cbn [spin_lock_step xchg] in E; cbn [negb andb]; destruct (Z.eqb_spec (b_lock s) 0) as [E0|E0]; injection E as <- <-; cbn [negb].
    + apply (total_lock _ _ _ _ _ 2 Hi (bi_length _ H)).
      * intros q. rewrite E0. destruct q as [| | | |[]| | | | | | | |]; cbn; lia.
      * rewrite E0. cbn. lia.
    + assert (b_lock s = 1) as E1 by lia. apply (total_lock _ _ _ _ _ 0 Hi (bi_length _ H)); [intros q; rewrite E1; lia|].
      rewrite E1. cbn. lia.
    + apply (total_lock _ _ _ _ _ 0 Hi (bi_length _ H)); [intros q; lia|]. rewrite E0. cbn. lia.
    + replace (with_lock (b_lock s) s) with s by (by destruct s). by apply boot_at_same.
  - pose proof (step_flag s i H Hi) as Hs. destruct (b_initialized s) eqn:Ein; eexists; (split; [reflexivity|]); (split; [exact Hs|]);
      (eapply Hmove; [reflexivity..|cbn; lia]).
  - cbn [spin_unlock_step xchg]. eexists. split; [reflexivity|]. split; [by apply step_unlock|].
    apply (total_lock _ _ _ _ _ 0 Hi (bi_length _ H)).
    + intros q. destruct q as [| | | |[]| | | | | | | |]; cbn; try lia. destruct (b_lock s =? 0); lia.
    + destruct build; cbn; lia.
  - eexists. split; [reflexivity|]. split; [by apply step_fill|]. destruct (bi_fill _ H i g k Hi) as [Hk _].
    eapply Hmove; [reflexivity..|]. unfold fill_next, IDT_NELEMS in *. destruct (Z.ltb_spec (k + 1) 256); [|destruct g]; cbn; lia.
  - destruct (wp_elim _ _ _ (check_host_ok (b_world s))) as (x & w' & -> & Ew). eexists. split; [reflexivity|]. split.
    + apply (binv_simple _ _ LoadIdt); done.
    + eapply Hmove; [reflexivity..|cbn; lia].
  - destruct (wp_elim _ _ _ (main_start_ok v (b_world s))) as (x & w' & -> & Ew). eexists. split; [reflexivity|]. split.
    + apply (binv_simple _ _ Main); done.
    + eapply Hmove; [reflexivity..|cbn; lia].
  - eexists. split; [reflexivity|]. split; [by apply step_incl2|]. eapply Hmove; [reflexivity..|cbn; lia].
  - destruct (Z.ltb_spec (b_count2 s) n); [by exists s|]. eexists. split; [reflexivity|]. split.
    + rewrite <- (world_same s) at 1. apply (binv_simple _ _ Wait2); try done. intros _ _. rewrite (bi_count2 _ H) in *.
      pose proof (zsum_bound counted2 1 (b_pc s) ltac:(intros x; apply counted_range)) as Hb. rewrite (bi_length _ H) in Hb. lia.
    + eapply Hmove; [reflexivity..|cbn; lia].
  - by exists s.
Qed.

Definition all_through (s : boot) : Prop := Forall (fun pc => pc = Rest) (b_pc s).
(** The only state in which all wait is the last one. *)
Lemma all_blocked s : binv s -> Forall (fun pc => blocked s pc = true) (b_pc s) -> all_through s.
Proof.
  intros H Hall. rewrite Forall_lookup in Hall.
  assert (b_count1 s = n) as E1.
  { rewrite (bi_count1 _ H), (zsum_const counted1 1), (bi_length _ H); [lia|]. intros i pc Hi. specialize (Hall i pc Hi). by destruct pc. }
  assert (b_lock s = 0) as El.
  { rewrite (bi_lock _ H), (zsum_const holds 0); [lia|]. intros i pc Hi. specialize (Hall i pc Hi). by destruct pc. }
  assert (forall i pc, b_pc s !! i = Some pc -> pc = Wait2 \/ pc = Rest) as H2.
  { intros i pc Hi. specialize (Hall i pc Hi). destruct pc as [| | | |[]| | | | | | | |]; cbn in Hall; try done; [|rewrite El in Hall; done|by left|by right].
    rewrite E1, Z.ltb_irrefl in Hall. done. }
  assert (b_count2 s = n) as E2.
  { rewrite (bi_count2 _ H), (zsum_const counted2 1), (bi_length _ H); [lia|]. intros i pc Hi. by destruct (H2 i pc Hi) as [->| ->]. }
  apply Forall_lookup. intros i pc Hi. destruct (H2 i pc Hi) as [->| ->]; [|done]. specialize (Hall i _ Hi). cbn in Hall.
  by rewrite E2, Z.ltb_irrefl in Hall.
Qed.
Lemma boot_progress s : binv s -> ~ all_through s -> exists i s', (i < length vcpus)%nat /\ step i s = Ok s' /\ (measure s' < measure s)%nat.
Proof.
  intros H Hg. destruct (decide (Forall (fun pc => blocked s pc = true) (b_pc s))) as [Hall|Hex]; [by destruct Hg; apply all_blocked|].
  apply not_Forall_Exists in Hex; [|apply _]. apply Exists_exists in Hex as (pc & (i & Hi)%list_elem_of_lookup & Hb).
  destruct (step_ok i s pc H Hi) as (s' & E & _ & Hm). exists i, s'. split; [rewrite <- (bi_length _ H); by eapply lookup_lt_Some|].
  split; [done|]. apply measure_less. unfold moved in Hm. cbv beta in Hb. apply not_true_is_false in Hb. by rewrite Hb in Hm.
Qed.
Lemma step_total i s : binv s -> exists s', step i s = Ok s' /\ binv s'.
Proof.
  intros H. destruct (b_pc s !! i) as [pc|] eqn:Hi; [destruct (step_ok i s pc H Hi) as (s' & E & Hs & _); by exists s'|].
  exists s. unfold boot_step. by rewrite Hi.
Qed.
Lemma step_falls i s s' : binv s -> step i s = Ok s' -> s' = s \/ (measure s' < measure s)%nat.
Proof.
  intros H E. destruct (b_pc s !! i) as [pc|] eqn:Hi.
  - destruct (step_ok i s pc H Hi) as (s2 & E2 & _ & Hm). rewrite E in E2. injection E2 as <-. unfold moved in Hm.
    destruct (blocked s pc); [by left|right; by apply measure_less].
  - left. unfold boot_step in E. rewrite Hi in E. by injection E.
Qed.
Lemma boot0_inv w : binv (boot0 vcpus w).
Proof.
  assert (forall i pc, b_pc (boot0 vcpus w) !! i = Some pc -> pc = Hello) as Hp.
  { intros i pc [-> _]%lookup_replicate. done. }
  assert (forall f, zsum f (b_pc (boot0 vcpus w)) = f Hello * n) as Hz.
  { intros f. rewrite (zsum_const f (f Hello)) by (intros i pc Hi; by rewrite (Hp i pc Hi)). cbn [b_pc boot0]. by rewrite length_replicate. }
  constructor; rewrite ?Hz; cbn [b_count1 b_count2 b_lock b_initialized boot0 counted1 counted2 holds builds stage]; try done; try lia.
  - cbn [b_pc boot0]. apply length_replicate.
  - intros i pc Hi Hs. rewrite (Hp i pc Hi) in Hs. by cbn in Hs.
  - intros i pc Hi Hs. rewrite (Hp i pc Hi) in Hs. by cbn in Hs.
  - intros i pc _ Hi. by rewrite (Hp i pc Hi).
  - intros i g k Hi. by specialize (Hp i _ Hi).
  - intros i pc Hi Hs. rewrite (Hp i pc Hi) in Hs. by cbn in Hs.
Qed.

(** C8: No processor gets ahead of the others while the machine is set up.  Under every schedule of the processors, however
    long, no step fails; and when some processor is past the barrier of [shv_main], every processor has reached that barrier, all
    interrupt gates of the host and of the guest are in place (although [construct_idt] lets the other processors go on
    while one of them still fills the tables), and every processor has its own descriptor table with its own task state segment. *)
Theorem boot_in_order sched k w :
  exists s, run step sched k (boot0 vcpus w) = Ok s /\
    forall i, b_pc s !! i = Some Rest ->
      (forall j pc, b_pc s !! j = Some pc -> pc = Wait2 \/ pc = Rest) /\ idt_built (w_mem (b_world s)) /\
      forall j, 0 <= j < n -> gdt_ok j (w_mem (b_world s)).
Proof.
  destruct (run_inv step binv step_total sched k (boot0 vcpus w) (boot0_inv w)) as (s & E & H). exists s. split; [exact E|].
  intros i Hi. assert (b_count2 s = n) as E2 by (by eapply (bi_order2 _ H); [exact Hi|]).
  assert (forall j pc, b_pc s !! j = Some pc -> pc = Wait2 \/ pc = Rest) as Hall.
  { intros j pc Hj. assert (counted2 pc = 1) as Hc.
    { eapply (zsum_full counted2 (b_pc s)); [intros x; apply (counted_range x)| |exact Hj]. rewrite <- (bi_count2 _ H), (bi_length _ H). done. }
    destruct pc as [| | | | | |[]| | | | | |]; try discriminate Hc; (by left) || (by right). }
  split; [exact Hall|]. split.
  - apply (bi_done _ H).
    + destruct (b_initialized s) eqn:Ein; [done|]. pose proof (bi_first _ H i _ Ein Hi) as Hs. cbn in Hs. lia.
    + rewrite (zsum_const builds 0); [lia|]. intros j pc Hj. by destruct (Hall j pc Hj) as [->| ->].
  - intros j Hj. destruct (lookup_lt_is_Some_2 (b_pc s) (Z.to_nat j)) as [pc Hpc]; [rewrite (bi_length _ H); lia|].
    rewrite <- (Z2Nat.id j) by lia. eapply (bi_gdt _ H); [exact Hpc|]. by destruct (Hall _ pc Hpc) as [->| ->].
Qed.

(** C15: All processors come up: under every schedule that gives each processor its turn again and again, there is a time at
    which all of them are past the barrier of [shv_main], and no step has failed: neither the barriers nor the lock
    around the flag of [construct_idt] can hold a processor for ever. *)
Theorem boot_completes sched w : fair (length vcpus) sched ->
  exists k s, run step sched k (boot0 vcpus w) = Ok s /\ forall i, (i < length vcpus)%nat -> b_pc s !! i = Some Rest.
Proof.
  intros Hf. destruct (fair_reaches (length vcpus) step binv step_total measure all_through step_falls boot_progress sched (boot0 vcpus w) Hf (boot0_inv w))
    as (k & s & E & H & Hg).
  exists k, s. split; [exact E|]. intros i Hi. rewrite <- (bi_length _ H) in Hi. destruct (lookup_lt_is_Some_2 _ _ Hi) as [pc Hpc].
  unfold all_through in Hg. rewrite Forall_lookup in Hg. by rewrite (Hg i pc Hpc) in Hpc.
Qed.
End boot_props.

(** ** Two processors *)

Definition demo_boot_cpu : Cpu := {|
  cpu_vmread _ _ := None; cpu_vmwrite _ _ _ := false; cpu_vmx _ _ _ := false; cpu_vmptr _ := 0;
  cpu_cpuid _ _ _ := (0, 0, 0x20, 0); cpu_rdmsr_faults _ _ := false; cpu_wrmsr_faults _ _ _ := false; cpu_reg _ _ := 0 |}.
Definition demo_processors : list Smp.VCPU := [Smp.mkVcpu 0 0 0 true; Smp.mkVcpu 0 1 1 false].
Definition demo_stub (base v : Z) : Z := base + 16 * v.
Definition demo_boot_step (a : subarch) : nat -> boot -> res boot :=
  boot_step a (C := demo_boot_cpu) demo_desc (demo_stub 0x100000) (demo_stub 0x200000) 0 0 demo_processors.
Definition turns (t : nat) : nat := (t mod 2)%nat.

Lemma demo_boot_layout a : boot_layout a demo_desc (demo_stub 0x100000) (demo_stub 0x200000) demo_processors.
Proof.
  assert (32 <= ptr_bits a) as Hp by (destruct a; cbn; lia).
  assert (forall x, 0 <= x < 2 ^ 32 -> is_u (ptr_bits a) x) as Hu.
  { intros x Hx. assert (2 ^ 32 <= 2 ^ ptr_bits a) by (apply Z.pow_le_mono_r; lia). unfold is_u. lia. }
  constructor.
  - intros v Hv. apply Hu. unfold demo_stub, IDT_NELEMS in *. lia.
  - intros v Hv. apply Hu. unfold demo_stub, IDT_NELEMS in *. lia.
  - intros b. unfold in_range, IDT_NELEMS. destruct a; cbn; lia.
  - intros i Hi. change (Z.of_nat (length demo_processors)) with 2 in Hi. apply Hu. unfold tss_at. change (g_tss demo_desc) with 0x2000. lia.
  - intros i b Hi. unfold in_range, IDT_NELEMS, gdt_at, GDT_NELEMS. cbn in Hi. destruct a; cbn; lia.
  - intros [|[|i]] v [= <-]; done.
  - done.
Qed.
Lemma turns_fair : fair 2 turns.
Proof.
  intros i t Hi. exists (i + t * 2)%nat. split; [lia|]. unfold turns. rewrite Nat.Div0.mod_add. by apply Nat.mod_small.
Qed.

Lemma boot_in_order_witness : exists s,
  run (demo_boot_step I386) turns 5000 (boot0 demo_processors (mkW ∅ [])) = Ok s /\
  (b_pc s !! 0%nat = Some Rest -> idt_built I386 demo_desc (demo_stub 0x100000) (demo_stub 0x200000) (w_mem (b_world s))).
Proof.
  destruct (boot_in_order (C := demo_boot_cpu) (g_cr3 := 0) (g_cr4 := 0) (demo_boot_layout I386) (fun _ => eq_refl) turns 5000 (mkW ∅ []))
    as (s & E & H).
  exists s. split; [exact E|]. intros Hi. apply (H 0%nat Hi).
Defined.
Lemma boot_completes_witness : exists k s,
  run (demo_boot_step AMD64) turns k (boot0 demo_processors (mkW ∅ [])) = Ok s /\ b_pc s !! 1%nat = Some Rest.
Proof.
  destruct (boot_completes (C := demo_boot_cpu) (g_cr3 := 0) (g_cr4 := 0) (demo_boot_layout AMD64) (fun _ => eq_refl) turns (mkW ∅ []) turns_fair)
    as (k & s & E & H).
  exists k, s. split; [exact E|]. apply H. cbn. lia.
Defined.

(** [initialized] is set before the table is filled: here processor 1 has been through [init_idt] while processor 0 is about to
    write the first gate, so that the gate of the interrupt of the timer is still absent.  Only the barrier of [shv_main] puts
    this right. *)
Example construct_idt_early :
  exists s, run (demo_boot_step AMD64) (fun t => nth t [0; 0; 1; 1; 0; 1; 0; 1; 0; 0; 0; 0; 1; 1; 1; 1; 1] 0)%nat 17
              (boot0 demo_processors (mkW ∅ [])) = Ok s /\
    b_pc s = [Fill false 0; Main] /\ gate_present (w_mem (b_world s)) (g_idt_host demo_desc + 16 * 0x20) = false.
Proof. eexists. split; [vm_compute; reflexivity|]. split; vm_compute; reflexivity. Qed.
